(* ===== verification/_CoqProject ===== *)
-Q . S2P
Prelude.v
GoStrings.v
GoNet.v
GoNetFacts.v
Cidr.v
Config.v
ConfigValidate.v
ConfigMerge.v
ConfigDefaults.v
ConfigConvert.v
FileSys.v
Pki.v
PkiNode.v
Arguments.v
ConfigFiles.v
Setup.v
Node.v
Database.v
Feature.v
Csr.v
DnsRebalancer.v
Upgrade.v
Effects.v
Snap.v
Checks.v
NodeConfig.v
SnapdConfig.v
NodeControllers.v
NodeSetup.v
Cleanup.v
Helm.v
Builtin.v
Cilium.v
MetalLB.v
Features.v
FeaturesContract.v
Token.v
KubeClient.v
Hooks.v
HooksBootstrap.v
HooksJoin.v
HookFacts.v
RemoveFacts.v
JoinFacts.v
RefreshFacts.v
Api.v
ApiTokens.v
ApiCluster.v
ApiNodes.v
ApiCertificates.v
ApiFacts.v
ApiClusterFacts.v
ApiRemoveFacts.v
ApiCertificatesFacts.v
ApiRefreshFacts.v
Proxy.v
ProxyFacts.v
ApiServerProxy.v
ApiServerProxyFacts.v
App.v
AppFacts.v
Client.v
ClientFacts.v
CliInput.v
CliValues.v
Commands.v
Recover.v
CommandsFacts.v
CliFacts.v
