(* ===== verification/Prelude.v ===== *)
(** * A verification development of k8sd

    k8sd is the daemon of a Canonical Kubernetes node.  It keeps the configuration of the
    cluster in a database (pkg/k8sd/database), changes it on behalf of API requests
    (pkg/k8sd/types, pkg/k8sd/api), renders it to the argument files, certificates and
    configuration files of the Kubernetes services of a node (pkg/k8sd/setup,
    pkg/k8sd/pki, pkg/snap/util), and runs controllers that apply it and react to the
    cluster (pkg/k8sd/controllers).  This development translates that logic from Go to
    functions and step relations and proves what it is meant to do.

    ** The files

    - Prelude (this file): errors and results, pointers, machine integers, automation.
    - GoStrings, GoNet, GoNetFacts: what the code uses of the Go packages strings, strconv,
      path/filepath, net and net/netip, with their lemmas (trimming, splitting, decimal
      numbers, masks, membership of an address in a subnet).
    - Cidr: pkg/utils/cidr.go, net.go, localhost.go.
    - Config: the structs, getters and emptiness tests of pkg/k8sd/types/cluster_config*.go;
      ConfigValidate, ConfigMerge, ConfigDefaults: the functions [Validate],
      [MergeClusterConfig], [SetDefaults] of these files; ConfigConvert: the conversions
      from and to the public API and the datastore arguments of the API server.
    - FileSys: files, the calls of package os, and [WriteFile] of pkg/utils/file.go.
      Arguments: pkg/snap/util/arguments.go.  ConfigFiles: the other functions of
      pkg/utils/file.go and pkg/k8sd/app/system_tuning.go.
    - Pki, PkiNode: pkg/utils/pki and pkg/k8sd/pki, the certificates of the nodes.
    - Setup: pkg/k8sd/setup, the configuration of the services.  Node: pkg/snap/util
      (services, worker mark, failure domain) and the certificates on disk.
    - Database: pkg/k8sd/database.
    - Token: the token a worker joins with (pkg/k8sd/types/worker.go).
    - Feature: the feature controller (pkg/k8sd/controllers/feature.go), with channels,
      back-off and retries.  Upgrade: pkg/k8sd/controllers/upgrade and its users.
      Csr: pkg/k8sd/controllers/csrsigning.  DnsRebalancer: pkg/k8sd/controllers/dnsrebalancer.
    - Effects: what the code asks of programs and servers, as commands with answers, and
      pkg/utils/control; the files below are written with it.
    - Snap: pkg/snap and the services of pkg/snap/util.  Checks: pkg/utils/checks.
      SnapdConfig: pkg/utils/experimental/snapdconfig.  NodeSetup: directories, kubeconfigs
      and containerd of pkg/k8sd/setup.  Cleanup: pkg/snap/util/cleanup.
    - NodeConfig: the signed configmap of pkg/k8sd/types/cluster_config_node.go and its two
      controllers.  NodeControllers: service_args.go, node_label.go and
      control_plane_configuration.go of pkg/k8sd/controllers.
    - Helm: pkg/client/helm.  Builtin, Cilium, MetalLB: pkg/k8sd/features; Features and
      FeaturesContract: their theorems.
    - Hooks, HooksBootstrap, HooksJoin: pkg/k8sd/app, the hooks of a running node, of a new
      cluster or worker, and of a node that joins; HookFacts, RemoveFacts, JoinFacts and
      RefreshFacts: their theorems.
    - KubeClient: what pkg/client/kubernetes makes of the answers of the API server.
    - Api: the access handlers and the table of the endpoints of pkg/k8sd/api, and what all
      handlers are made of; ApiTokens (join tokens, tokens of users, the information for a
      worker), ApiCluster (status and configuration), ApiNodes (bootstrap, join and removal,
      and the hooks from the map of microcluster on), ApiCertificates (status, expiry, renewal
      and update of certificates): the handlers.  ApiFacts, ApiClusterFacts, ApiRemoveFacts,
      ApiCertificatesFacts, ApiRefreshFacts: their theorems.
    - Proxy: the TCP proxy of a worker with its goroutines (pkg/proxy/userspace.go, proxy.go);
      ApiServerProxy: the turns that keep its list of servers (apiserver.go, config.go,
      endpoints.go and cmd/k8s-apiserver-proxy).  App: pkg/k8sd/app/app.go, provider.go,
      hooks_preinit.go, [onStart], and pkg/k8sd/controllers/coordinator.go.  ProxyFacts,
      ApiServerProxyFacts, AppFacts: their theorems.
    - Client: pkg/client/k8sd.  ClientFacts: the interface [ClientOk] and that [k8sd]
      implements it.  CliInput, CliValues, Commands: cmd/k8s and cmd/util, with
      pkg/utils/mapstructure.go, time.go and [ParseAddressString]; Recover:
      cmd/k8sd/k8sd_cluster_recover.go.  CommandsFacts and CliFacts: their theorems.

    A definition has the name of the Go function or type it translates; a part of a Go
    function that is a definition of its own (the body of a loop, a case of a switch) has a
    name in lower case next to it, or is named after the step it takes ([complete_ca]).
    Where two Go types have a method of the same name, the definition is prefixed with the
    type ([Network_SetDefaults], [Worker_CompleteCertificates]).

    ** How Go is represented

    - [error] is [goerr]: the format string of the source, its arguments and the wrapped
      error, so the error paths can be told apart.  A result with an error is [res].
    - A pointer used as an optional value is an [option], an int64 a [Z] with [wrap64]
      where the arithmetic can leave the range, a string a list of bytes.
    - A Go map is a [gmap], or, where its iteration order can be observed, a list of pairs in
      the order of one iteration: a theorem then holds for every order.
    - Files: [io], a state and error monad over a map from paths to files.  A ghost component
      keeps the earlier states, which is what a crash may leave behind (WriteFile_atomic).
      Any system call may fail with any error ([OSEnv]); [OSEnvOk] says that an existing file
      is not reported missing.
    - Certificates: [gen], a state and error monad over the struct and a counter for the
      source of randomness.
    - The database is a record of tables; an operation is a function on it, a sequence of
      transactions the relation [transaction].
    - Goroutines: a loop of the feature controller is a state (counter, channels of one
      slot, pending timers, and a ghost log of the applications) and the relation
      [loop_step]; the upgrade controller beside the loops is [wait_step].  The proxy
      ([proxy_step]), the turns of its list ([system_step]) and the start of the daemon
      ([daemon_step]) are relations too, one step for what one goroutine does between two points where
      another can come in between; their witnesses run an executable form of the relation.
      A panic is [None].
    - The API server of Kubernetes is what its calls answer, an argument of a reconciliation;
      the stale cache of the upgrade controller is a component of the state ([Replica]).

    - Everything else outside: [act], a function of the files, the database, a counter of
      the random source and the log of the commands so far.  What a command answers is a
      parameter ([Outside]) and may depend on the log, so that a theorem holds for every
      behaviour of the outside, failures and changes between retries included.  [emits] is a
      logic of the commands a computation can issue, [answered] says that one was issued and
      how it was answered.  [WaitUntilReady] has the seconds its context has left.
    - A handler of the API is a function from a request with its decoded body to a response
      ([handler]), a success, an error with its status, or a panic; the restart of services
      that follows a response is part of the result.
    - [snap.Snap] is a record of operations ([SnapI]) with two implementations, and
      [SnapOk] is what its clients rely on.  The client of the daemon is a record too
      ([Client]); the commands are proved against [ClientOk], and the operations of [k8sd]
      are requests that run the handlers of the API on the same machine.
    - A command of the command line is an [act] whose value is what it prints; an error is
      the exit with status 1.  The standard input is the list of what its reads return.
    - Two specifications are state machines that the commands are run on: the releases of a
      cluster ([HelmStore]) and the Upgrade resources of an API server
      ([RefreshFacts.api_server]).

    ** What is external

    Code outside this repository is a parameter, with what the code relies on as a class of
    hypotheses that the witnesses instantiate: the URL parser and the annotation keys of
    the public API ([Externals], [FeatureAnnotations], [HookAnnotations]); the operating
    system ([OSEnv]); X.509, PEM and RSA ([PkiEnv], [PemOk]: an encoded block is not empty);
    base64, SHA-256 and IDNA ([CsrEnv], [ConfigMapOk]: what was signed is verified, with the
    signed data only); the JSON codec and the engine of the database ([DBEnv], [JsonOk]: what
    was written is read back, up to empty maps); the API structs ([BootstrapGetters]); merge
    patches of the API server ([MergePatchOk]); versions ([Versions], [VersionParser]);
    [rand.Int64N] ([Int64N_ok]); Helm ([HelmEnv], [HelmStore]: a request that succeeds has
    its documented effect on the releases); YAML, TOML and JSON of other files ([CiliumEnv],
    [MetalLBEnv], [SnapEnv], [SnapdEnv], [SetupEnv], [TokenEnv], [LabelEnv]); the
    fingerprint of a certificate ([Sha256]) and the errors of etcd ([EtcdErrors]); the
    decoding of request bodies, the names and roles of certificates in the API
    ([CertNames]), kubeconfigs that are read ([CertificatesEnv]) and the codecs of the map
    of microcluster ([MapCodec], which the theorem that needs it asks to read back what was
    written); the sockets and the clock of the proxy ([ProxyEnv]); the errors of LXD
    ([ClientErrors]); what mapstructure does with a value ([Mapstructure]), the getters of the
    API ([ApiGetters], [ApiGettersOk]) and the YAML of the files given to commands
    ([CommandYaml], [MembersYaml]).

    ** What is proved

    - Cluster configuration: what passes the validation (Validate_iff), every field of a
      merge and when it is refused (MergeClusterConfig_spec), its idempotence, annotations
      with deletions, defaults, round trips and acceptance of the API conversions; that no
      sequence of transactions changes a protected field (protected_fields_never_change).
    - Networks: overlap of CIDRs is membership of a common address, first addresses, splits
      into families, addresses of a node.
    - Files and services: atomic replacement; what an update of service arguments sets,
      keeps, deletes and reports, its idempotence, reading back; the arguments of the API
      server and the kubelet; round trips of argument files and of the failure domain.
    - Certificates: what every certificate of a control plane is after it was completed and
      that doing it twice changes nothing; which worker accepts what it is given; the files
      on disk are the ones that are set.
    - Tokens: the life of a user token and of a worker token, the round trip of the encoding.
    - Controllers: exactly when the loop of a feature can panic, and that its channel tells
      the truth; upgrade phases only advance, also with a stale cache; which upgrade is in
      progress; no certificate without an approval; exactly when CoreDNS is restarted; a
      configmap reaches the nodes as it was published and not if it was tampered with; which
      services are restarted, and which restart is lost.
    - Features: the Helm client reaches the desired state from any state, doing it again
      changes nothing; a feature that was applied has its charts deployed or gone, and its
      status is true; invalid peers are never applied; values in range.
    - Hooks: services start after the configuration was stored; the secret of a worker goes
      to the pinned server only; a failed join is taken back, and in the right order; the
      removal is best effort and bounded; what a refreshed and a joining node do to the
      Upgrade resources; the services that start with the daemon.
    - API: an untrusted request needs a token that is stored; a join token admits the worker
      it was made for, once; who a token of the webhook authenticates; a change of the
      configuration is stored and notified, or nothing happens; what a user asks for a new
      node reaches its hook; the removal of a node is in order, and forced is tried to the
      end; a renewal of certificates installs what was issued and leaves the rest.
    - Clean-up: the search for processes ends and is exact; only the directories of the snap
      are removed.
    - The proxy of a worker, for every interleaving: its state stays well formed and no goroutine
      is stuck (goroutines_go_on), the round robin is fair, a connection is refused only for cause,
      its loop ends (dials_in_vain); it forwards only to servers it was told of, and the file of
      the list is a register of what was told last.
    - The daemon: which controllers wait for what (controllers_wait), that no notification is lost
      between the channels and the loops, that its start is all or nothing, and what the
      coordinator waits for.
    - The command line: what was enabled is what is read (switch_then_get), a failed command
      changes nothing, a node becomes a member only as its last step and with a verified
      configuration (bootstrap_is_verified, join_is_verified), when the questions of the
      interactive bootstrap end, the range of times to live, and that a recovery is confirmed.

    Some theorems state behaviour the code should not have: the back-off that overflows at
    the 32nd retry (reconcileLoop_panics_iff), the end of an upgrade on channels that were
    full before it (waitForFeatureReconciliations_stale), lost upgraded nodes
    (addToUpgradedNodes_lost_update), undetected overlaps of two CIDRs of one family
    (Validate_misses_first_of_family), numbers compared as strings
    (MinConfigFileDiff_compares_strings), the order of the tuning file
    (tuning_file_not_last), an IPv6 address without brackets
    (KubeProxy_ipv6_healthz_unbracketed, kubeconfig_ipv6_unbracketed), groups with commas
    (group_with_comma_is_split), a restart that is lost (failed_restart_is_lost), a drift
    that is not seen (drift_missed), a nil client (UpdateNodeConfiguration_panics_iff),
    devices that stay (removed_devices_stay), a renewal that removes the certificate of a
    kubelet (worker_refresh_correct), a panic without members (removal_in_order), a proxy that
    retries without a pause (Run_spins), answers that are lost (interactive_bootstrap_ends), and a
    time to live that becomes negative (TTLToSeconds_exact_until_it_wraps).

    ** Bounds

    The recursion of most definitions is structural.  The bounds are those of the code (five
    attempts to list the upgrades, the cap of 32 on the exponent of a back-off, 64 KiB lines
    of the scanner that reads configuration files, ten failed queries before a removal goes
    on), the seconds a context has left ([ticks]: a wait ends with the error of the context
    at the latest then), the depth of the tree of processes, for which
    findAllChildren_terminates says what is enough, and the number of prompts of a question, for
    which interactive_bootstrap_ends says what is enough and when no number is.

    ** What is not modelled

    What is left is not logic that can be stated here: the routing of HTTP and the wiring of
    cobra and controller-runtime, which are other people's code; the clients of third-party
    services beyond the requests they send; copying bytes between two connections; logging, the
    text of errors and the layout of what commands print; the inspection script and helm, which
    only start a program; generated code, mocks and the programs that write the
    documentation; and the watches of controller-runtime that call a reconciliation. *)

From Stdlib Require Export Ascii.
From stdpp Require Export base tactics list gmap strings sorting pretty.
From Stdlib Require Export ZArith Lia.

#[global] Arguments Nat.ltb : simpl never.
#[global] Arguments Nat.leb : simpl never.
#[global] Arguments Nat.eqb : simpl never.
#[global] Arguments Z.mul : simpl never.
#[global] Arguments Z.add : simpl never.

(** ** Errors

    A Go [error] is either built by [fmt.Errorf] / [errors.New] from a format
    and its arguments, or wraps ([%w]) another error.  The format strings are
    the ones of the source, so the error paths of a function can be told apart
    in a statement; the text they print is not modelled. *)
Inductive goerr : Type :=
| Errorf (fmt : string) (args : list string)
| Wrapf (fmt : string) (args : list string) (cause : goerr).

#[export] Instance goerr_eq_dec : EqDecision goerr.
Proof. solve_decision. Defined.

(** [errors.Is]: the target is somewhere on the chain of wrapped errors. *)
Fixpoint errors_Is (e target : goerr) : bool :=
  bool_decide (e = target) ||
  match e with
  | Errorf _ _ => false
  | Wrapf _ _ c => errors_Is c target
  end.

(** [os.ErrNotExist]. *)
Definition ErrNotExist : goerr := Errorf "file does not exist" [].

(** A Go call returning [(A, error)] where the value is meaningless on error. *)
Inductive res (A : Type) : Type :=
| Ok (a : A)
| Err (e : goerr).
Arguments Ok {A} a.
Arguments Err {A} e.

#[export] Instance res_eq_dec `{EqDecision A} : EqDecision (res A).
Proof. solve_decision. Defined.

#[export] Instance res_ret : MRet res := @Ok.
#[export] Instance res_bind : MBind res := λ A B f m,
  match m with Ok a => f a | Err e => Err e end.
#[export] Instance res_fmap : FMap res := λ A B f m,
  match m with Ok a => Ok (f a) | Err e => Err e end.

(** [if err != nil { return fmt.Errorf("...: %w", args, err) }]. *)
Definition wrapf {A} (fmt : string) (args : list string) (m : res A) : res A :=
  match m with Ok a => Ok a | Err e => Err (Wrapf fmt args e) end.

Definition is_ok {A} (m : res A) : bool :=
  match m with Ok _ => true | Err _ => false end.

(** [if cond { return err }]. *)
Definition fails_if (b : bool) (e : goerr) : res unit := if b then Err e else Ok tt.

Declare Scope go_scope.
Delimit Scope go_scope with go.
Open Scope go_scope.
Notation "s ==? t" := (bool_decide (s = t)) (at level 70, no associativity) : go_scope.
Notation "s !=? t" := (negb (bool_decide (s = t))) (at level 70, no associativity) : go_scope.

(** ** Machine integers *)

(** Two's-complement wrap-around of Go's [int64] (and of [int] on a 64-bit target). *)
Definition wrap64 (z : Z) : Z := ((z + 2 ^ 63) mod 2 ^ 64 - 2 ^ 63)%Z.
Definition int64_ok (z : Z) : bool := (- 2 ^ 63 <=? z)%Z && (z <? 2 ^ 63)%Z.

(** ** Pointers

    A Go [*T] used as an optional value is an [option T]; [getField] of
    pkg/k8sd/types reads it with the zero value of [T] as default. *)
Class Zero (A : Type) := zero : A.
#[export] Instance zero_string : Zero string := "".
#[export] Instance zero_bool : Zero bool := false.
#[export] Instance zero_int : Zero Z := 0%Z.
#[export] Instance zero_slice {A} : Zero (list A) := [].

(** ** Automation *)

Create HintDb k8sd.

(** Inverts equations between results and destructs the scrutinee of a bind. *)
Ltac res_simpl :=
  repeat match goal with
  | H : Ok _ = Ok _ |- _ => injection H as H; subst
  | H : Err _ = Err _ |- _ => injection H as H; subst
  | H : Ok _ = Err _ |- _ => discriminate H
  | H : Err _ = Ok _ |- _ => discriminate H
  end.
Ltac res_cases :=
  repeat match goal with
  | H : context [match ?m with Ok _ => _ | Err _ => _ end] |- _ =>
      destruct m eqn:?; simpl in *; res_simpl
  | |- context [match ?m with Ok _ => _ | Err _ => _ end] =>
      destruct m eqn:?; simpl in *; res_simpl
  end.

(** Destructs the condition of an [if] (a [bool]) of the goal or a hypothesis,
    recording it. *)
Ltac break_if :=
  match goal with
  | H : context [if ?b then _ else _] |- _ => destruct b eqn:?
  | |- context [if ?b then _ else _] => destruct b eqn:?
  end.
Ltac break_match_hyp :=
  match goal with
  | H : context [match ?m with _ => _ end] |- _ => destruct m eqn:?
  end.

Lemma bind_Ok {A B} (m : res A) (f : A → res B) b :
  m ≫= f = Ok b ↔ ∃ a, m = Ok a ∧ f a = Ok b.
Proof. destruct m; simpl; naive_solver. Qed.

Lemma wrapf_Ok {A} fmt args (m : res A) a :
  wrapf fmt args m = Ok a ↔ m = Ok a.
Proof. destruct m; naive_solver. Qed.

Lemma fails_if_Ok b e u : fails_if b e = Ok u ↔ b = false.
Proof. destruct b, u; naive_solver. Qed.

Lemma bind_unit_Ok {B} (m : res unit) (k : res B) b :
  (_ ← m; k) = Ok b ↔ m = Ok tt ∧ k = Ok b.
Proof. rewrite bind_Ok. split; [intros ([] & ? & ?); done|intros [? ?]; by exists tt]. Qed.

Lemma is_ok_fails_if {B} b e (k : res B) :
  is_ok (_ ← fails_if b e; k) = negb b && is_ok k.
Proof. by destruct b. Qed.

#[export] Hint Rewrite @bind_Ok @wrapf_Ok fails_if_Ok : k8sd.

(** Sequencing a check over a list: [for _, x := range xs { if err := f(x) ... }]. *)
Fixpoint for_each {A} (f : A → res unit) (l : list A) : res unit :=
  match l with
  | [] => Ok tt
  | x :: l => _ ← f x; for_each f l
  end.

Lemma for_each_Ok {A} (f : A → res unit) l :
  for_each f l = Ok tt ↔ Forall (λ x, f x = Ok tt) l.
Proof.
  induction l as [|x l IH]; simpl; [by split|].
  rewrite bind_Ok, Forall_cons, <- IH. split.
  - intros ([] & ? & ?); done.
  - intros [? ?]. by exists tt.
Qed.
#[export] Hint Rewrite @for_each_Ok : k8sd.

(** Mapping a fallible function over a list, stopping at the first error. *)
Fixpoint map_res {A B} (f : A → res B) (l : list A) : res (list B) :=
  match l with
  | [] => Ok []
  | x :: l => y ← f x; ys ← map_res f l; Ok (y :: ys)
  end.

Lemma map_res_Ok {A B} (f : A → res B) l ys :
  map_res f l = Ok ys ↔ Forall2 (λ x y, f x = Ok y) l ys.
Proof.
  revert ys. induction l as [|x l IH]; intros ys; simpl.
  - split; [intros [= <-]; constructor|by inversion 1].
  - rewrite bind_Ok. setoid_rewrite bind_Ok. split.
    + intros (y & Hy & ys' & Hl%IH & [= <-]). by constructor.
    + intros H. inversion H as [|? y ? ys' Hy Hys]; subst.
      exists y. split; [done|]. exists ys'. by rewrite IH.
Qed.

(** Two sorted permutations of each other are equal: the result of
    [sort.Strings] does not depend on the order its input was collected in. *)
Definition sort_Strings (l : list string) : list string := merge_sort String.le l.

Lemma sort_Strings_Permutation l : sort_Strings l ≡ₚ l.
Proof. apply merge_sort_Permutation. Qed.

Lemma sort_Strings_Sorted l : StronglySorted String.le (sort_Strings l).
Proof. apply (StronglySorted_merge_sort String.le). Qed.

Lemma sort_Strings_perm_eq l1 l2 : l1 ≡ₚ l2 → sort_Strings l1 = sort_Strings l2.
Proof.
  intros Hp. apply (StronglySorted_unique String.le).
  - apply sort_Strings_Sorted.
  - apply sort_Strings_Sorted.
  - by rewrite !sort_Strings_Permutation.
Qed.

#[export] Instance sort_Strings_proper : Proper ((≡ₚ) ==> (=)) sort_Strings.
Proof. intros l1 l2 Hp. by apply sort_Strings_perm_eq. Qed.
