(* ===== verification/GoStrings.v ===== *)
(** * Go's string functions

    A Go [string] is a sequence of bytes and is modelled by [string] (a list of
    8-bit [ascii]).  This file models the functions of the packages [strings]
    and [strconv] that k8sd calls, with the lemmas the components share. *)

From S2P Require Import Prelude.

Module GoStr.

(** ** Characters *)

Definition byte_is (n : N) (a : ascii) : bool := N.eqb (N_of_ascii a) n.
Definition byte_in (lo hi : N) (a : ascii) : bool :=
  N.leb lo (N_of_ascii a) && N.leb (N_of_ascii a) hi.

Definition dquote : ascii := "034"%char.
Definition newline : ascii := "010"%char.
Definition one (a : ascii) : string := String a EmptyString.
Definition quoted (s : string) : string := one dquote +:+ s +:+ one dquote.
Definition is_digit (a : ascii) : bool := byte_in 48 57 a.
Definition digit_val (a : ascii) : Z := (Z.of_N (N_of_ascii a) - 48)%Z.

(** ** [strings.Contains], [HasPrefix], [HasSuffix], [Cut] on one-byte patterns *)

Fixpoint contains_char (c : ascii) (s : string) : bool :=
  match s with
  | EmptyString => false
  | String a s => Ascii.eqb a c || contains_char c s
  end.

Fixpoint has_prefix (p s : string) : bool :=
  match p, s with
  | EmptyString, _ => true
  | String a p, String b s => Ascii.eqb a b && has_prefix p s
  | String _ _, EmptyString => false
  end.

Definition has_suffix (p s : string) : bool :=
  has_prefix (String.rev p) (String.rev s).

(** [strings.Cut(s, c)]: [(before, after, found)]. *)
Fixpoint cut (c : ascii) (s : string) : string * string * bool :=
  match s with
  | EmptyString => (EmptyString, EmptyString, false)
  | String a s =>
      if Ascii.eqb a c then (EmptyString, s, true)
      else let '(b, r, f) := cut c s in (String a b, r, f)
  end.

(** ** [strings.Split] and [strings.Join] *)

Fixpoint split (c : ascii) (s : string) : list string :=
  match s with
  | EmptyString => [EmptyString]
  | String a s =>
      if Ascii.eqb a c then EmptyString :: split c s
      else match split c s with
           | [] => [one a]
           | h :: t => String a h :: t
           end
  end.

Fixpoint join (sep : string) (l : list string) : string :=
  match l with
  | [] => EmptyString
  | [s] => s
  | s :: l => s +:+ sep +:+ join sep l
  end.

(** ** [strings.TrimSpace]

    The white space trimmed is Unicode's White_Space: six ASCII bytes, the
    two-byte encodings of U+0085 and U+00A0, and the three-byte encodings of
    U+1680, U+2000 to U+200A, U+2028, U+2029, U+202F, U+205F and U+3000. *)

Definition space1 (a : ascii) : bool := byte_in 9 13 a || byte_is 32 a.
Definition space2 (a b : ascii) : bool :=
  byte_is 194 a && (byte_is 133 b || byte_is 160 b).
Definition space3 (a b c : ascii) : bool :=
  (byte_is 225 a && byte_is 154 b && byte_is 128 c) ||
  (byte_is 226 a && byte_is 128 b &&
     (byte_in 128 138 c || byte_is 168 c || byte_is 169 c || byte_is 175 c)) ||
  (byte_is 226 a && byte_is 129 b && byte_is 159 c) ||
  (byte_is 227 a && byte_is 128 b && byte_is 128 c).

(** Drops leading white space; [flip] reads the multi-byte encodings backwards,
    which is how the trailing white space of a reversed string is recognised. *)
Fixpoint trim_left (flip : bool) (s : string) : string :=
  match s with
  | EmptyString => EmptyString
  | String a s1 =>
      if space1 a then trim_left flip s1
      else match s1 with
           | EmptyString => s
           | String b s2 =>
               if (if flip then space2 b a else space2 a b) then trim_left flip s2
               else match s2 with
                    | EmptyString => s
                    | String c s3 =>
                        if (if flip then space3 c b a else space3 a b c)
                        then trim_left flip s3 else s
                    end
           end
  end.

Definition trim_right (s : string) : string :=
  String.rev (trim_left true (String.rev s)).
Definition TrimSpace (s : string) : string := trim_right (trim_left false s).

(** ** [strings.Trim(s, cutset)] for a one-byte cutset *)

Fixpoint trim_char_left (c : ascii) (s : string) : string :=
  match s with
  | EmptyString => EmptyString
  | String a s' => if Ascii.eqb a c then trim_char_left c s' else s
  end.
Definition trim_char (c : ascii) (s : string) : string :=
  String.rev (trim_char_left c (String.rev (trim_char_left c s))).

(** ** [strconv] *)

Definition Itoa (z : Z) : string := pretty z.

(** Value of a non-empty run of decimal digits, unbounded. *)
Fixpoint digits_acc (acc : Z) (s : string) : option Z :=
  match s with
  | EmptyString => Some acc
  | String a s => if is_digit a then digits_acc (acc * 10 + digit_val a)%Z s else None
  end.
Definition parse_digits (s : string) : option Z :=
  match s with EmptyString => None | _ => digits_acc 0 s end.

(** [strconv.ParseUint(s, 10, 64)]. *)
Definition ParseUint64 (s : string) : res Z :=
  match parse_digits s with
  | None => Err (Errorf "strconv.ParseUint: parsing %q: invalid syntax" [s])
  | Some v => if (v <? 2 ^ 64)%Z then Ok v
              else Err (Errorf "strconv.ParseUint: parsing %q: value out of range" [s])
  end.

(** [strconv.Atoi] and [strconv.ParseInt(s, 10, 64)]: an optional sign. *)
Definition ParseInt64 (s : string) : res Z :=
  let '(neg, ds) := match s with
                    | String a s' => if Ascii.eqb a "-" then (true, s')
                                     else if Ascii.eqb a "+" then (false, s')
                                     else (false, s)
                    | EmptyString => (false, s)
                    end in
  match parse_digits ds with
  | None => Err (Errorf "strconv.ParseInt: parsing %q: invalid syntax" [s])
  | Some v => let v := if neg then (- v)%Z else v in
              if int64_ok v then Ok v
              else Err (Errorf "strconv.ParseInt: parsing %q: value out of range" [s])
  end.

(** ** [path/filepath]: [Clean] and [Join] on Unix *)

Definition clean_elem (rooted : bool) (out : list string) (e : string) : list string :=
  if bool_decide (e = EmptyString) || bool_decide (e = ".") then out
  else if bool_decide (e = "..") then
    match out with
    | top :: out' => if bool_decide (top = "..") then e :: out else out'
    | [] => if rooted then [] else [e]
    end
  else e :: out.
Definition filepath_Clean (path : string) : string :=
  let rooted := has_prefix "/" path in
  let out := rev (fold_left (clean_elem rooted) (split "/" path) []) in
  match out with
  | [] => if rooted then "/" else "."
  | _ => (if rooted then "/" else EmptyString) +:+ join "/" out
  end.
Definition filepath_Join (elems : list string) : string :=
  match List.filter (λ e, negb (bool_decide (e = EmptyString))) elems with
  | [] => EmptyString
  | es => filepath_Clean (join "/" es)
  end.

(** ** Lemmas *)

Lemma sapp_nil_l s : EmptyString +:+ s = s.
Proof. done. Qed.
Lemma sapp_cons a s t : String a s +:+ t = String a (s +:+ t).
Proof. done. Qed.
Lemma sapp_nil_r s : s +:+ EmptyString = s.
Proof. induction s as [|a s IH]; [done|]. by rewrite sapp_cons, IH. Qed.
Lemma sapp_assoc s t u : (s +:+ t) +:+ u = s +:+ (t +:+ u).
Proof. induction s as [|a s IH]; [done|]. by rewrite !sapp_cons, IH. Qed.

Lemma split_nonempty c s : split c s ≠ [].
Proof. destruct s as [|a s]; simpl; [done|]. by repeat case_match. Qed.

Lemma join_cons_ne sep s l : l ≠ [] → join sep (s :: l) = s +:+ sep +:+ join sep l.
Proof. by destruct l. Qed.

Lemma join_cons_head sep a h t :
  join sep (String a h :: t) = String a (join sep (h :: t)).
Proof. by destruct t. Qed.

(** Splitting on a byte and joining with it gives the string back. *)
Lemma join_split c s : join (one c) (split c s) = s.
Proof.
  induction s as [|a s IH]; [done|]. cbn [split].
  destruct (Ascii.eqb a c) eqn:E.
  - apply Ascii.eqb_eq in E as ->.
    rewrite join_cons_ne by apply split_nonempty. by rewrite sapp_nil_l, IH.
  - destruct (split c s) as [|h t] eqn:Hs; [by destruct (split_nonempty c s)|].
    by rewrite join_cons_head, IH.
Qed.

Lemma contains_app c s t :
  contains_char c (s +:+ t) = contains_char c s || contains_char c t.
Proof.
  induction s as [|a s IH]; [done|]. rewrite sapp_cons. simpl. rewrite IH.
  by rewrite orb_assoc.
Qed.

(** A string with no separator is one field. *)
Lemma split_no_sep c s : contains_char c s = false → split c s = [s].
Proof.
  induction s as [|a s IH]; [done|]. simpl. intros [H1 H2]%orb_false_iff.
  by rewrite H1, IH.
Qed.

Lemma split_app_sep c s t :
  contains_char c s = false → split c (s +:+ String c t) = s :: split c t.
Proof.
  induction s as [|a s IH]; simpl.
  - intros _. cbn. by rewrite Ascii.eqb_refl.
  - intros [H1 H2]%orb_false_iff. cbn. by rewrite H1, IH.
Qed.

(** Joining separator-free fields and splitting gives the fields back. *)
Lemma split_join c l :
  l ≠ [] → Forall (λ s, contains_char c s = false) l → split c (join (one c) l) = l.
Proof.
  induction l as [|s l IH]; [done|]. intros _ [Hs Hl]%Forall_cons.
  destruct l as [|s' l]; [by apply split_no_sep|].
  rewrite join_cons_ne by done. unfold one at 1. rewrite sapp_cons, sapp_nil_l.
  rewrite split_app_sep by done. by rewrite IH.
Qed.

Lemma cut_app c s t :
  contains_char c s = false → cut c (s +:+ String c t) = (s, t, true).
Proof.
  induction s as [|a s IH]; simpl.
  - intros _. cbn. by rewrite Ascii.eqb_refl.
  - intros [H1 H2]%orb_false_iff. cbn. by rewrite H1, IH.
Qed.

(** *** Reversal *)

Lemma rev_app_app s t : String.rev_app s t = String.rev s +:+ t.
Proof.
  unfold String.rev. revert t. induction s as [|a s IH]; intros t; simpl; [done|].
  rewrite IH, (IH (String a EmptyString)), sapp_assoc. done.
Qed.
Lemma srev_cons a s : String.rev (String a s) = String.rev s +:+ one a.
Proof. unfold String.rev at 1. simpl. by rewrite rev_app_app. Qed.
Lemma srev_app s t : String.rev (s +:+ t) = String.rev t +:+ String.rev s.
Proof.
  induction s as [|a s IH]; [by rewrite sapp_nil_r|].
  by rewrite sapp_cons, !srev_cons, IH, sapp_assoc.
Qed.
Lemma srev_involutive s : String.rev (String.rev s) = s.
Proof.
  induction s as [|a s IH]; [done|]. rewrite srev_cons, srev_app, IH. done.
Qed.
Lemma contains_rev c s : contains_char c (String.rev s) = contains_char c s.
Proof.
  induction s as [|a s IH]; [done|]. rewrite srev_cons, contains_app, IH. simpl.
  by rewrite orb_false_r, orb_comm.
Qed.

Lemma split_app c s t : split c (s +:+ String c t) = split c s ++ split c t.
Proof.
  induction s as [|a s IH].
  - rewrite sapp_nil_l. simpl. by rewrite Ascii.eqb_refl.
  - rewrite sapp_cons. simpl. rewrite IH. destruct (Ascii.eqb a c); [done|].
    destruct (split c s) eqn:E; [by destruct (split_nonempty c s)|done].
Qed.

Lemma split_fields_no_sep c s : Forall (λ f, contains_char c f = false) (split c s).
Proof.
  induction s as [|a s IH]; simpl; [by constructor|].
  destruct (Ascii.eqb a c) eqn:E; [by constructor|].
  destruct (split c s) as [|h t]; [by inversion IH; constructor; simpl; rewrite ?E|].
  apply Forall_cons in IH as [Hh Ht]. constructor; [|done]. simpl. by rewrite E.
Qed.

(** *** Trimming *)

(** The rest of a string after one leading white-space character. *)
Definition leading_space (flip : bool) (s : string) : option string :=
  match s with
  | EmptyString => None
  | String a s1 =>
      if space1 a then Some s1
      else match s1 with
           | EmptyString => None
           | String b s2 =>
               if (if flip then space2 b a else space2 a b) then Some s2
               else match s2 with
                    | EmptyString => None
                    | String c s3 => if (if flip then space3 c b a else space3 a b c)
                                     then Some s3 else None
                    end
           end
  end.

Lemma trim_left_step flip s :
  trim_left flip s = match leading_space flip s with Some s' => trim_left flip s' | None => s end.
Proof.
  destruct s as [|a s]; [done|]. unfold leading_space, trim_left at 1; fold trim_left.
  destruct (space1 a); [done|]. destruct s as [|b s]; [done|].
  destruct (if flip then _ else _); [done|]. destruct s as [|c s]; [done|].
  by destruct (if flip then _ else _).
Qed.

Lemma leading_space_suffix flip s s' : leading_space flip s = Some s' →
  ∃ p, p ≠ EmptyString ∧ s = p +:+ s'.
Proof.
  destruct s as [|a [|b [|c s]]]; simpl; repeat case_match; intros [= <-];
    first [by eexists (String _ EmptyString)|by eexists (String _ (String _ EmptyString))
          |by eexists (String _ (String _ (String _ EmptyString)))].
Qed.

Lemma slength_app s t : String.length (s +:+ t) = String.length s + String.length t.
Proof. induction s as [|a s IH]; [done|]. rewrite sapp_cons. simpl. by rewrite IH. Qed.

Lemma trim_left_spec flip s :
  ∃ p, s = p +:+ trim_left flip s ∧ leading_space flip (trim_left flip s) = None.
Proof.
  remember (String.length s) as n eqn:Hn. revert s Hn.
  induction (lt_wf n) as [n _ IH]. intros s ->.
  rewrite trim_left_step. destruct (leading_space flip s) as [s'|] eqn:E.
  - destruct (leading_space_suffix flip s s' E) as (p & Hp & ->).
    destruct (IH (String.length s')) with (s := s') as (p' & Hs & Hl); [|done|].
    + rewrite slength_app. destruct p; [done|]. simpl. lia.
    + exists (p +:+ p'). by rewrite sapp_assoc, <- Hs.
  - by exists EmptyString.
Qed.

Lemma trim_left_id flip s : leading_space flip s = None → trim_left flip s = s.
Proof. intros H. by rewrite trim_left_step, H. Qed.

Lemma trim_left_idemp flip s : trim_left flip (trim_left flip s) = trim_left flip s.
Proof. destruct (trim_left_spec flip s) as (p & _ & H). by apply trim_left_id. Qed.

Lemma trim_right_idemp s : trim_right (trim_right s) = trim_right s.
Proof. unfold trim_right. by rewrite srev_involutive, trim_left_idemp. Qed.

Lemma trim_right_prefix s : ∃ q, s = trim_right s +:+ q.
Proof.
  unfold trim_right. destruct (trim_left_spec true (String.rev s)) as (p & Hp & _).
  exists (String.rev p). by rewrite <- srev_app, <- Hp, srev_involutive.
Qed.

(** A prefix of a string with no leading white space has none. *)
Lemma leading_space_prefix s q : leading_space false (s +:+ q) = None → leading_space false s = None.
Proof.
  destruct s as [|a [|b [|c s]]]; rewrite ?sapp_cons; simpl; repeat case_match; done.
Qed.

Lemma TrimSpace_leading s : leading_space false (TrimSpace s) = None.
Proof.
  unfold TrimSpace. destruct (trim_left_spec false s) as (p & _ & H).
  destruct (trim_right_prefix (trim_left false s)) as [q Hq]. rewrite Hq in H.
  by apply leading_space_prefix in H.
Qed.

Lemma TrimSpace_idemp s : TrimSpace (TrimSpace s) = TrimSpace s.
Proof.
  unfold TrimSpace at 1. rewrite trim_left_id by apply TrimSpace_leading.
  apply trim_right_idemp.
Qed.

(** Trimming only removes bytes at the ends. *)
Lemma TrimSpace_infix s : ∃ p q, s = p +:+ TrimSpace s +:+ q.
Proof.
  destruct (trim_left_spec false s) as (p & Hp & _).
  destruct (trim_right_prefix (trim_left false s)) as [q Hq].
  exists p, q. unfold TrimSpace. by rewrite <- Hq, <- Hp.
Qed.

Lemma contains_TrimSpace c s : contains_char c s = false → contains_char c (TrimSpace s) = false.
Proof.
  destruct (TrimSpace_infix s) as (p & q & Hs). rewrite Hs at 1. rewrite !contains_app.
  by intros [_ [? _]%orb_false_iff]%orb_false_iff.
Qed.

(** A string that begins with a graphic byte and ends with one is not trimmed. *)
Definition graphic (a : ascii) : bool := byte_in 33 126 a.

Lemma graphic_not_space a b c : graphic a = true →
  space1 a = false ∧ space2 a b = false ∧ space2 b a = false ∧
  space3 a b c = false ∧ space3 c b a = false ∧ space3 b a c = false.
Proof.
  unfold graphic, space1, space2, space3, byte_in, byte_is.
  rewrite andb_true_iff, !N.leb_le. intros [H1 H2].
  assert (Hn : ∀ n, (n < 33 ∨ 126 < n)%N → N.eqb (N_of_ascii a) n = false)
    by (intros n Hn; apply N.eqb_neq; lia).
  assert (Hl : N.leb (N_of_ascii a) 13 = false) by (apply N.leb_gt; lia).
  assert (Hl2 : N.leb 128 (N_of_ascii a) = false) by (apply N.leb_gt; lia).
  rewrite !Hn, Hl, Hl2 by lia. rewrite !andb_false_r. simpl. rewrite ?andb_false_r.
  by rewrite ?orb_false_r, ?andb_false_r.
Qed.

Lemma leading_graphic flip a s : graphic a = true → leading_space flip (String a s) = None.
Proof.
  intros Ha. simpl.
  assert (H := λ b c, graphic_not_space a b c Ha).
  rewrite (proj1 (H a a)). destruct s as [|b [|c s]]; [done| |].
  - destruct (H b a) as (_ & E2 & E3 & _). destruct flip; by rewrite ?E2, ?E3.
  - destruct (H b c) as (_ & E2 & E3 & E4 & E5 & _). destruct flip; by rewrite ?E2, ?E3, ?E4, ?E5.
Qed.

Lemma TrimSpace_graphic a m b : graphic a = true → graphic b = true →
  TrimSpace (String a (m +:+ one b)) = String a (m +:+ one b).
Proof.
  intros Ha Hb. unfold TrimSpace. rewrite trim_left_id by (by apply leading_graphic).
  unfold trim_right. rewrite trim_left_id; [apply srev_involutive|].
  rewrite srev_cons, srev_app. by apply leading_graphic.
Qed.

(** *** Printing and parsing numbers *)

Lemma pretty_char_digit x : (x < 10)%N →
  is_digit (pretty_N_char x) = true ∧ digit_val (pretty_N_char x) = Z.of_N x.
Proof.
  intros Hx. assert (x = 0 ∨ x = 1 ∨ x = 2 ∨ x = 3 ∨ x = 4 ∨ x = 5 ∨ x = 6 ∨ x = 7 ∨ x = 8 ∨ x = 9)%N
    as Hc by lia. by repeat destruct Hc as [->|Hc]; [..|subst].
Qed.

Lemma digits_acc_pretty x s : digits_acc 0 (pretty_N_go x s) = digits_acc (Z.of_N x) s.
Proof.
  revert s. induction (N.lt_wf_0 x) as [x _ IH]; intros s.
  destruct (decide (0 < x)%N) as [Hx|Hx].
  - rewrite pretty_N_go_step by done. rewrite IH by (by apply N.div_lt). cbn [digits_acc].
    destruct (pretty_char_digit (x mod 10)) as [-> ->]; [by apply N.mod_lt|].
    f_equal. rewrite (N.div_mod x 10) at 3 by done. lia.
  - assert (x = 0%N) as -> by lia. done.
Qed.

Lemma parse_digits_pretty x : parse_digits (pretty (x : N)) = Some (Z.of_N x).
Proof.
  unfold pretty, pretty_N. case_decide as Hx; [by subst|].
  assert (Hd := digits_acc_pretty x EmptyString). cbn [digits_acc] in Hd.
  destruct (pretty_N_go x EmptyString) eqn:E; [|done].
  cbn in Hd. injection Hd as Hd. lia.
Qed.

Lemma parse_digits_Itoa z : (0 ≤ z)%Z → parse_digits (Itoa z) = Some z.
Proof.
  intros Hz. destruct z as [|p|p]; [done| |lia]. apply (parse_digits_pretty (Npos p)).
Qed.

Lemma ParseUint64_Itoa z : (0 ≤ z < 2 ^ 64)%Z → ParseUint64 (Itoa z) = Ok z.
Proof.
  intros [H1 H2]. unfold ParseUint64. rewrite parse_digits_Itoa by done.
  apply Z.ltb_lt in H2. by rewrite H2.
Qed.

Lemma digits_acc_no_char c acc s z : is_digit c = false → digits_acc acc s = Some z →
  contains_char c s = false.
Proof.
  intros Hc. revert acc. induction s as [|a s IH]; intros acc; [done|]. cbn [digits_acc contains_char].
  destruct (is_digit a) eqn:Ha; [|done]. intros Hs. rewrite (IH _ Hs), orb_false_r.
  destruct (Ascii.eqb a c) eqn:E; [|done]. apply Ascii.eqb_eq in E as ->. congruence.
Qed.

Lemma Itoa_no_newline z : (0 ≤ z)%Z → contains_char newline (Itoa z) = false.
Proof.
  intros Hz. pose proof (parse_digits_Itoa z Hz) as Hp. unfold parse_digits in Hp.
  destruct (Itoa z) eqn:E; [done|]. by eapply digits_acc_no_char.
Qed.

End GoStr.
