(* ===== verification/GoNet.v ===== *)
(** * Go's [net] and [net/netip]

    IP addresses, CIDR blocks and host:port strings, as the packages [net] and
    [net/netip] of Go's standard library parse and print them.  A [net.IP] is
    a byte slice of length 4 or 16 ([nil] is the empty list); an [IPNet] is a
    network number with its mask. *)

From S2P Require Import Prelude GoStrings.
Import GoStr.

Module GoNet.

Abbreviation IP := (list Z).
Abbreviation IPMask := (list Z).
Record IPNet := mkIPNet { net_IP : IP; net_Mask : IPMask }.

#[export] Instance IPNet_eq_dec : EqDecision IPNet.
Proof. solve_decision. Defined.

(** [netip.Addr]: the family, the address bytes and the IPv6 zone. *)
Record Addr := mkAddr { is4 : bool; addr_bytes : list Z; zone : string }.

Definition BitLen (a : Addr) : Z := if is4 a then 32 else 128.

Definition v4InV6Prefix : list Z := (replicate 10 0 ++ [255; 255])%Z.

Definition As16 (a : Addr) : IP :=
  if is4 a then v4InV6Prefix ++ addr_bytes a else addr_bytes a.

(** ** [netip.ParseAddr] *)

Definition addr_error {A} (msg : string) (s : string) : res A :=
  Err (Errorf "ParseAddr(%q): %s" [s; msg]).

(** [parseIPv4Fields]: [first] is [i == 0], [prevdot] is [s[i-1] == '.']. *)
Fixpoint parseIPv4Fields (s : string) (first prevdot : bool) (val : Z) (digLen : nat)
    (fields : list Z) : res (list Z) :=
  match s with
  | EmptyString =>
      if Nat.ltb (length fields) 3 then addr_error "IPv4 address too short" s
      else Ok (fields ++ [val])
  | String c s' =>
      if is_digit c then
        if Nat.eqb digLen 1 && Z.eqb val 0 then
          addr_error "IPv4 field has octet with leading zero" s
        else let val' := (val * 10 + digit_val c)%Z in
             if (255 <? val')%Z then addr_error "IPv4 field has value >255" s
             else parseIPv4Fields s' false false val' (S digLen) fields
      else if Ascii.eqb c "." then
        if first || bool_decide (s' = EmptyString) || prevdot then
          addr_error "IPv4 field must have at least one digit" s
        else if Nat.eqb (length fields) 3 then addr_error "IPv4 address too long" s
        else parseIPv4Fields s' false true 0 0 (fields ++ [val])
      else addr_error "unexpected character" s
  end.

Definition parseIPv4 (s : string) : res Addr :=
  fs ← parseIPv4Fields s true false 0 0 []; Ok (mkAddr true fs EmptyString).

Definition hex_val (c : ascii) : option Z :=
  if is_digit c then Some (digit_val c)
  else if byte_in 97 102 c then Some (Z.of_N (N_of_ascii c) - 87)%Z
  else if byte_in 65 70 c then Some (Z.of_N (N_of_ascii c) - 55)%Z
  else None.

(** The inner loop of [parseIPv6]: at most four hexadecimal digits. *)
Fixpoint hex_run (s : string) (off : nat) (acc : Z) : res (nat * Z * string) :=
  match s with
  | EmptyString => Ok (off, acc, s)
  | String c s' =>
      match hex_val c with
      | None => Ok (off, acc, s)
      | Some d =>
          let acc' := (acc * 16 + d)%Z in
          if Nat.ltb 3 off then addr_error "each group must have 4 or fewer digits" s
          else if (65535 <? acc')%Z then addr_error "IPv6 field has value >=2^16" s
          else hex_run s' (S off) acc'
      end
  end.

(** The outer loop of [parseIPv6], [for i < 16]: every iteration but a last
    embedded IPv4 address stores two bytes, so [groups] counts the iterations
    left and starts at 8. *)
Fixpoint v6_loop (groups : nat) (s : string) (ip : list Z) (ellipsis : option nat)
    : res (list Z * option nat * string) :=
  match groups with
  | O => Ok (ip, ellipsis, s)
  | S groups =>
      '(off, acc, rest) ← hex_run s 0 0;
      if Nat.eqb off 0 then
        addr_error "each colon-separated field must have at least one digit" s
      else
        let chunk := ip ++ [(acc / 256)%Z; (acc mod 256)%Z] in
        match rest with
        | EmptyString => Ok (chunk, ellipsis, EmptyString)
        | String c s1 =>
            if Ascii.eqb c "." then
              if bool_decide (ellipsis = None) && negb (Nat.eqb (length ip) 12) then
                addr_error "embedded IPv4 address must replace the final 2 fields" s
              else if Nat.ltb 16 (length ip + 4) then
                addr_error "too many hex fields to fit an embedded IPv4" s
              else f ← parseIPv4Fields s true false 0 0 [];
                   Ok (ip ++ f, ellipsis, EmptyString)
            else if negb (Ascii.eqb c ":") then
              addr_error "unexpected character, want colon" rest
            else
              match s1 with
              | EmptyString => addr_error "colon must be followed by more characters" rest
              | String c2 s2 =>
                  if Ascii.eqb c2 ":" then
                    match ellipsis with
                    | Some _ => addr_error "multiple :: in address" s1
                    | None =>
                        match s2 with
                        | EmptyString => Ok (chunk, Some (length chunk), EmptyString)
                        | _ => v6_loop groups s2 chunk (Some (length chunk))
                        end
                    end
                  else v6_loop groups s1 chunk ellipsis
              end
        end
  end.

(** What follows the loop: nothing may be left over, and the ellipsis expands
    to the missing bytes. *)
Definition v6_finish (zn : string) (r : list Z * option nat * string) : res Addr :=
  let '(ip, ellipsis, rest) := r in
  match rest with
  | String _ _ => addr_error "trailing garbage after address" rest
  | EmptyString =>
      if Nat.ltb (length ip) 16 then
        match ellipsis with
        | None => addr_error "address string too short" rest
        | Some e => Ok (mkAddr false
                          (take e ip ++ replicate (16 - length ip) 0%Z ++ drop e ip) zn)
        end
      else match ellipsis with
           | None => Ok (mkAddr false ip zn)
           | Some _ => addr_error "the :: must expand to at least one field of zeros" rest
           end
  end.

Definition parseIPv6 (s0 : string) : res Addr :=
  let '(s, zn, has_zone) := cut "%" s0 in
  if has_zone && bool_decide (zn = EmptyString) then
    addr_error "zone must be a non-empty string" s0
  else match s with
       | String c1 (String c2 s') =>
           if Ascii.eqb c1 ":" && Ascii.eqb c2 ":" then
             match s' with
             | EmptyString => Ok (mkAddr false (replicate 16 0%Z) zn)
             | _ => v6_loop 8 s' [] (Some 0) ≫= v6_finish zn
             end
           else v6_loop 8 s [] None ≫= v6_finish zn
       | _ => v6_loop 8 s [] None ≫= v6_finish zn
       end.

(** [ParseAddr] dispatches on the first of ['.'], [':'] and ['%']. *)
Fixpoint addr_kind (s : string) : option ascii :=
  match s with
  | EmptyString => None
  | String c s =>
      if Ascii.eqb c "." || Ascii.eqb c ":" || Ascii.eqb c "%" then Some c
      else addr_kind s
  end.

Definition ParseAddr (s : string) : res Addr :=
  match addr_kind s with
  | Some c => if Ascii.eqb c "." then parseIPv4 s
              else if Ascii.eqb c ":" then parseIPv6 s
              else addr_error "missing IPv6 address" s
  | None => addr_error "unable to parse IP" s
  end.

(** [Addr.Less]: by length, then by bytes, then, for IPv6, by zone. *)
Fixpoint bytes_compare (l1 l2 : list Z) : comparison :=
  match l1, l2 with
  | x :: l1, y :: l2 => match Z.compare x y with Eq => bytes_compare l1 l2 | c => c end
  | [], [] => Eq
  | [], _ => Lt
  | _, [] => Gt
  end.
Definition Addr_Compare (a b : Addr) : comparison :=
  match Z.compare (BitLen a) (BitLen b) with
  | Eq => match bytes_compare (addr_bytes a) (addr_bytes b) with
          | Eq => if is4 a then Eq else String.compare (zone a) (zone b)
          | c => c
          end
  | c => c
  end.
Definition Addr_Less (a b : Addr) : bool :=
  match Addr_Compare a b with Lt => true | _ => false end.

(** ** [net.IP] *)

(** [net.ParseIP]: [nil] (the empty list) when the text is not an address, or
    has a zone. *)
Definition ParseIP (s : string) : option IP :=
  match ParseAddr s with
  | Ok a => if bool_decide (zone a = EmptyString) then Some (As16 a) else None
  | Err _ => None
  end.

Definition To4 (ip : IP) : option IP :=
  if Nat.eqb (length ip) 4 then Some ip
  else if Nat.eqb (length ip) 16 && bool_decide (take 12 ip = v4InV6Prefix)
  then Some (drop 12 ip) else None.

Definition To16 (ip : IP) : option IP :=
  if Nat.eqb (length ip) 4 then Some (v4InV6Prefix ++ ip)
  else if Nat.eqb (length ip) 16 then Some ip else None.

Definition IP_Equal (x y : IP) : bool :=
  if Nat.eqb (length x) (length y) then bool_decide (x = y)
  else if Nat.eqb (length x) 4 && Nat.eqb (length y) 16 then
    bool_decide (take 12 y = v4InV6Prefix) && bool_decide (x = drop 12 y)
  else if Nat.eqb (length x) 16 && Nat.eqb (length y) 4 then
    bool_decide (take 12 x = v4InV6Prefix) && bool_decide (drop 12 x = y)
  else false.

Definition IPv6loopback : IP := (replicate 15 0 ++ [1])%Z.

Definition IsLoopback (ip : IP) : bool :=
  match To4 ip with
  | Some (b :: _) => Z.eqb b 127
  | Some [] => false
  | None => IP_Equal ip IPv6loopback
  end.

Definition IsGlobalUnicast (ip : IP) : bool :=
  let byte_at i := default 0%Z (ip !! i) in
  let ip4_at i := match To4 ip with Some v => default 0%Z (v !! i) | None => 0%Z end in
  (Nat.eqb (length ip) 4 || Nat.eqb (length ip) 16) &&
  negb (IP_Equal ip [255; 255; 255; 255]%Z) &&
  negb (IP_Equal ip [0; 0; 0; 0]%Z || IP_Equal ip (replicate 16 0%Z)) &&
  negb (IsLoopback ip) &&
  (* multicast *)
  negb (match To4 ip with
        | Some _ => Z.eqb (Z.land (ip4_at 0) 240) 224
        | None => Nat.eqb (length ip) 16 && Z.eqb (byte_at 0) 255
        end) &&
  (* link-local unicast *)
  negb (match To4 ip with
        | Some _ => Z.eqb (ip4_at 0) 169 && Z.eqb (ip4_at 1) 254
        | None => Nat.eqb (length ip) 16 && Z.eqb (byte_at 0) 254 &&
                  Z.eqb (Z.land (byte_at 1) 192) 128
        end).

(** ** Masks and CIDR blocks *)

Fixpoint CIDRMask_go (l : nat) (n : Z) : IPMask :=
  match l with
  | O => []
  | S l => if (8 <=? n)%Z then 255%Z :: CIDRMask_go l (n - 8)
           else (255 - Z.shiftr 255 n)%Z :: CIDRMask_go l 0
  end.
Definition CIDRMask (ones bits : Z) : IPMask := CIDRMask_go (Z.to_nat (bits / 8)) ones.

(** Leading one bits of a byte and whether the rest of it is zero. *)
Fixpoint byte_ones (fuel : nat) (v : Z) : Z * bool :=
  match fuel with
  | O => (0, Z.eqb v 0)%Z
  | S fuel => if Z.testbit v 7
              then let '(n, ok) := byte_ones fuel (Z.land (Z.shiftl v 1) 255) in (n + 1, ok)%Z
              else (0, Z.eqb v 0)%Z
  end.
Fixpoint simpleMaskLength (m : IPMask) : option Z :=
  match m with
  | [] => Some 0%Z
  | v :: m =>
      if Z.eqb v 255 then (λ n, (n + 8)%Z) <$> simpleMaskLength m
      else let '(n, ok) := byte_ones 8 v in
           if ok && forallb (Z.eqb 0) m then Some n else None
  end.
(** [IPMask.Size]: [(ones, bits)]. *)
Definition Mask_Size (m : IPMask) : Z * Z :=
  match simpleMaskLength m with
  | Some n => (n, 8 * Z.of_nat (length m))%Z
  | None => (0, 0)%Z
  end.

(** [IP.Mask]. *)
Definition IP_Mask (ip : IP) (mask : IPMask) : IP :=
  let mask := if Nat.eqb (length mask) 16 && Nat.eqb (length ip) 4 &&
                 forallb (Z.eqb 255) (take 12 mask) then drop 12 mask else mask in
  let ip := if Nat.eqb (length mask) 4 && Nat.eqb (length ip) 16 &&
               bool_decide (take 12 ip = v4InV6Prefix) then drop 12 ip else ip in
  if Nat.eqb (length ip) (length mask) then zip_with Z.land ip mask else [].

(** [dtoi]: a decimal number below 0xFFFFFF that is the whole string. *)
Fixpoint dtoi (acc : Z) (s : string) : option Z :=
  match s with
  | EmptyString => Some acc
  | String c s =>
      if is_digit c then
        let n := (acc * 10 + digit_val c)%Z in
        if (16777215 <=? n)%Z then None else dtoi n s
      else None
  end.

Definition ParseCIDR (s : string) : res (IP * IPNet) :=
  let bad := Errorf "invalid CIDR address: %s" [s] in
  let '(addr, mask, found) := cut "/" s in
  if negb found then Err bad
  else match ParseAddr addr with
       | Err _ => Err bad
       | Ok a =>
           if negb (bool_decide (zone a = EmptyString)) then Err bad
           else match mask with
                | EmptyString => Err bad
                | _ =>
                    match dtoi 0 mask with
                    | None => Err bad
                    | Some n =>
                        if (BitLen a <? n)%Z then Err bad
                        else let m := CIDRMask n (BitLen a) in
                             Ok (As16 a, mkIPNet (IP_Mask (As16 a) m) m)
                    end
                end
       end.

(** [networkNumberAndMask]. *)
Definition networkNumberAndMask (n : IPNet) : IP * IPMask :=
  let ip := default (net_IP n) (To4 (net_IP n)) in
  if negb (Nat.eqb (length ip) 4 || Nat.eqb (length ip) 16) then ([], [])
  else match length (net_Mask n) with
       | 4 => if Nat.eqb (length ip) 4 then (ip, net_Mask n) else ([], [])
       | 16 => (ip, if Nat.eqb (length ip) 4 then drop 12 (net_Mask n) else net_Mask n)
       | _ => ([], [])
       end.

(** [IPNet.Contains]. *)
Definition Contains (n : IPNet) (ip : IP) : bool :=
  let '(nn, m) := networkNumberAndMask n in
  let ip := default ip (To4 ip) in
  Nat.eqb (length ip) (length nn) &&
  bool_decide (zip_with Z.land nn m = zip_with Z.land ip m).

(** ** Printing *)

Definition dotted (ip : list Z) : string := join "." (Itoa <$> ip).

Definition hex_digit (d : Z) : string :=
  one (ascii_of_N (Z.to_N (if (d <? 10)%Z then d + 48 else d + 87))).
(** [appendHex]: at least one digit, no leading zeros. *)
Definition hex16 (x : Z) : string :=
  (if (4096 <=? x)%Z then hex_digit (Z.shiftr x 12) else EmptyString) +:+
  (if (256 <=? x)%Z then hex_digit (Z.land (Z.shiftr x 8) 15) else EmptyString) +:+
  (if (16 <=? x)%Z then hex_digit (Z.land (Z.shiftr x 4) 15) else EmptyString) +:+
  hex_digit (Z.land x 15).

Fixpoint groups16 (ip : list Z) : list Z :=
  match ip with
  | a :: b :: ip => (a * 256 + b)%Z :: groups16 ip
  | _ => []
  end.
Fixpoint zero_run (g : list Z) : nat :=
  match g with
  | x :: g => if Z.eqb x 0 then S (zero_run g) else 0
  | [] => 0
  end.
(** The leftmost longest run of at least two zero groups: [(start, end)]. *)
Fixpoint longest_zero (i : nat) (g : list Z) (best : option (nat * nat))
    : option (nat * nat) :=
  match g with
  | [] => best
  | _ :: g' =>
      let l := zero_run g in
      let len := match best with Some (s, e) => e - s | None => 0 end in
      longest_zero (S i) g'
        (if Nat.leb 2 l && Nat.ltb len l then Some (i, i + l) else best)
  end.
Definition v6_string (ip : list Z) : string :=
  let g := groups16 ip in
  match longest_zero 0 g None with
  | Some (s, e) => join ":" (hex16 <$> take s g) +:+ "::" +:+ join ":" (hex16 <$> drop e g)
  | None => join ":" (hex16 <$> g)
  end.

(** [IP.String]. *)
Definition IP_String (ip : IP) : string :=
  match ip with
  | [] => "<nil>"
  | _ => match To4 ip with
         | Some v4 => dotted v4
         | None => if Nat.eqb (length ip) 16 then v6_string ip
                   else "?" +:+ join EmptyString
                          ((λ b, hex_digit (Z.shiftr b 4) +:+ hex_digit (Z.land b 15)) <$> ip)
         end
  end.

(** [net.JoinHostPort]. *)
Definition JoinHostPort (host port : string) : string :=
  if contains_char ":" host then "[" +:+ host +:+ "]:" +:+ port
  else host +:+ ":" +:+ port.

End GoNet.
