(* ===== verification/GoNetFacts.v ===== *)
(** * Facts about addresses and CIDR blocks

    What the parsers of [GoNet] return is well formed (4 or 16 bytes in range,
    a prefix mask), and two prefix blocks share an address exactly when one of
    them contains the network number of the other. *)

From S2P Require Import Prelude GoStrings GoNet.
Import GoStr GoNet.

Module GoNetFacts.

Definition byte_ok (b : Z) : Prop := (0 ≤ b ≤ 255)%Z.

(** ** The parsers return well-formed addresses *)

Lemma digit_val_range c : is_digit c = true → (0 ≤ digit_val c ≤ 9)%Z.
Proof.
  unfold is_digit, byte_in, digit_val. rewrite andb_true_iff, !N.leb_le. lia.
Qed.

Lemma hex_val_range c d : hex_val c = Some d → (0 ≤ d ≤ 15)%Z.
Proof.
  unfold hex_val. destruct (is_digit c) eqn:E.
  - intros [= <-]. apply digit_val_range in E. lia.
  - unfold byte_in. destruct (_ && _) eqn:E1.
    + intros [= <-]. apply andb_true_iff in E1. rewrite !N.leb_le in E1. lia.
    + destruct (N.leb 65 _ && _) eqn:E2; [|done].
      intros [= <-]. apply andb_true_iff in E2. rewrite !N.leb_le in E2. lia.
Qed.

Lemma parseIPv4Fields_wf s first prevdot val digLen fields r :
  parseIPv4Fields s first prevdot val digLen fields = Ok r →
  (0 ≤ val ≤ 255)%Z → Forall byte_ok fields → length fields ≤ 3 →
  length r = 4 ∧ Forall byte_ok r.
Proof.
  revert first prevdot val digLen fields.
  induction s as [|c s IH]; intros first prevdot val digLen fields; cbn [parseIPv4Fields].
  - destruct (_ <? 3)%nat eqn:E; [done|]. intros [= <-] Hv Hf Hl.
    apply Nat.ltb_ge in E. rewrite length_app. simpl. split; [lia|].
    by apply Forall_app_2, Forall_singleton.
  - destruct (is_digit c) eqn:Ed.
    + destruct (_ && _); [done|]. destruct (255 <? _)%Z eqn:Ev; [done|].
      apply Z.ltb_ge in Ev. pose proof (digit_val_range c Ed) as Hd.
      intros H Hv Hf Hl. eapply IH; [exact H|lia|done|done].
    + destruct (Ascii.eqb c "."); [|done].
      destruct (_ || _); [done|]. destruct (_ =? 3)%nat eqn:E3; [done|].
      apply Nat.eqb_neq in E3. intros H Hv Hf Hl.
      eapply IH; [exact H|lia| |rewrite length_app; simpl; lia].
      by apply Forall_app_2, Forall_singleton.
Qed.

Lemma hex_run_range s off acc off' acc' rest :
  hex_run s off acc = Ok (off', acc', rest) → (0 ≤ acc ≤ 65535)%Z → (0 ≤ acc' ≤ 65535)%Z.
Proof.
  revert off acc. induction s as [|c s IH]; intros off acc; cbn [hex_run]; [by intros [= <- <- <-]|].
  destruct (hex_val c) as [d|] eqn:E; [|by intros [= <- <- <-]].
  destruct (_ <? off)%nat; [done|]. destruct (65535 <? _)%Z eqn:Ev; [done|].
  apply Z.ltb_ge in Ev. apply hex_val_range in E. intros H ?. eapply IH; [exact H|lia].
Qed.

Lemma chunk_ok acc : (0 ≤ acc ≤ 65535)%Z → Forall byte_ok [(acc / 256)%Z; (acc mod 256)%Z].
Proof.
  intros. rewrite !Forall_cons. split_and!; try by constructor.
  - split; [|enough (acc / 256 < 256)%Z by lia; apply Z.div_lt_upper_bound; lia].
    apply Z.div_pos; lia.
  - unfold byte_ok. pose proof (Z.mod_pos_bound acc 256). lia.
Qed.

Lemma v6_loop_wf groups s ip ell ip' ell' rest :
  v6_loop groups s ip ell = Ok (ip', ell', rest) →
  length ip + 2 * groups = 16 → Forall byte_ok ip →
  length ip' ≤ 16 ∧ Forall byte_ok ip'.
Proof.
  revert s ip ell. induction groups as [|g IH]; intros s ip ell; cbn [v6_loop].
  - intros [= <- <- <-]. split; [lia|done].
  - destruct (hex_run s 0 0) as [[[off acc] r]|e] eqn:Eh; cbn; [|done].
    apply hex_run_range in Eh; [|lia]. pose proof (chunk_ok acc Eh) as Hc.
    destruct (_ =? 0)%nat; [done|]. intros H Hl Hok.
    assert (Forall byte_ok (ip ++ [(acc / 256)%Z; (acc mod 256)%Z])) as Hchunk
      by (apply Forall_app; done).
    assert (length (ip ++ [(acc / 256)%Z; (acc mod 256)%Z]) + 2 * g = 16) as Hlen
      by (rewrite length_app; simpl; lia).
    destruct r as [|c s1]; [injection H as <- <- <-; split; [lia|done]|].
    destruct (Ascii.eqb c ".").
    { destruct (_ && _); [done|]. destruct (16 <? _)%nat eqn:E16; [done|].
      destruct (parseIPv4Fields s true false 0 0 []) as [f|] eqn:Ef; cbn in H; [|done].
      injection H as <- <- <-. apply parseIPv4Fields_wf in Ef as [Hf1 Hf2];
        [|lia|constructor|simpl; lia].
      apply Nat.ltb_ge in E16. rewrite length_app, Hf1. split; [lia|]. by apply Forall_app. }
    destruct (negb _); [done|]. destruct s1 as [|c2 s2]; [done|].
    destruct (Ascii.eqb c2 ":"); [|by eapply IH].
    destruct ell; [done|].
    destruct s2; [injection H as <- <- <-; split; [lia|done]|by eapply IH].
Qed.

Definition addr_wf (a : Addr) : Prop :=
  length (addr_bytes a) = (if is4 a then 4 else 16) ∧ Forall byte_ok (addr_bytes a).

Lemma v6_finish_wf zn r a :
  v6_finish zn r = Ok a → length r.1.1 ≤ 16 → Forall byte_ok r.1.1 → addr_wf a.
Proof.
  destruct r as [[ip ell] rest]; cbn [v6_finish fst]. destruct rest; [|done].
  destruct (_ <? 16)%nat eqn:E16.
  - apply Nat.ltb_lt in E16. destruct ell as [e|]; [|done]. intros [= <-] Hl Hok.
    split; cbn.
    + rewrite !length_app, length_take, length_drop, length_replicate. lia.
    + rewrite !Forall_app. split_and!; [by apply Forall_take| |by apply Forall_drop].
      apply Forall_replicate. unfold byte_ok; lia.
  - apply Nat.ltb_ge in E16. destruct ell; [done|]. intros [= <-] Hl Hok.
    split; cbn; [lia|done].
Qed.

Lemma ParseAddr_wf s a : ParseAddr s = Ok a → addr_wf a.
Proof.
  assert (∀ n t e zn b, length n + 2 * 8 = 16 → Forall byte_ok n →
            v6_loop 8 t n e ≫= v6_finish zn = Ok b → addr_wf b) as Hgo.
  { intros n t e zn b Hl Hok (r & Hr & Hb)%bind_Ok.
    destruct r as [[ip ell] rest]. apply v6_loop_wf in Hr as [? ?]; [|done|done].
    by eapply v6_finish_wf; [exact Hb|..]. }
  assert (∀ t b, parseIPv4 t = Ok b → addr_wf b) as Hv4.
  { intros t b. unfold parseIPv4. rewrite bind_Ok. intros (fs & Hf & [= <-]).
    by apply parseIPv4Fields_wf in Hf; [|lia|constructor|simpl; lia]. }
  assert (∀ t b, parseIPv6 t = Ok b → addr_wf b) as Hv6.
  { intros t b. unfold parseIPv6. destruct (cut "%" t) as [[u zn] hz].
    destruct (hz && _); [done|]. intros H.
    destruct u as [|c1 [|c2 u]]; try by (eapply Hgo; [| |exact H]; [done|constructor]).
    destruct (_ && _); [|by (eapply Hgo; [| |exact H]; [done|constructor])].
    destruct u; [|by (eapply Hgo; [| |exact H]; [done|constructor])].
    injection H as <-. split; cbn; [done|].
    apply (Forall_replicate byte_ok 16 0%Z). unfold byte_ok; lia. }
  unfold ParseAddr. destruct (addr_kind s) as [c|]; [|done].
  destruct (Ascii.eqb c "."); [by apply Hv4|]. destruct (Ascii.eqb c ":"); [by apply Hv6|done].
Qed.

Lemma As16_wf a : addr_wf a → length (As16 a) = 16 ∧ Forall byte_ok (As16 a).
Proof.
  intros [Hl Hok]. unfold As16. destruct (is4 a).
  - rewrite length_app, Hl. split; [done|]. apply Forall_app; split; [|done].
    unfold v4InV6Prefix. apply Forall_app; split.
    + apply Forall_replicate. unfold byte_ok; lia.
    + by rewrite !Forall_cons; unfold byte_ok.
  - by rewrite Hl.
Qed.

(** ** Prefix masks *)

Lemma CIDRMask_go_length l p : length (CIDRMask_go l p) = l.
Proof. revert p. induction l as [|l IH]; intros p; cbn; [done|]. case_match; cbn; by rewrite IH. Qed.

Lemma mask_byte_ok p : (0 ≤ p < 8)%Z → byte_ok (255 - Z.shiftr 255 p).
Proof.
  intros. assert (p = 0 ∨ p = 1 ∨ p = 2 ∨ p = 3 ∨ p = 4 ∨ p = 5 ∨ p = 6 ∨ p = 7)%Z by lia.
  unfold byte_ok. destruct_or!; subst; split; vm_compute; discriminate.
Qed.

Lemma CIDRMask_go_bytes l p : (0 ≤ p)%Z → Forall byte_ok (CIDRMask_go l p).
Proof.
  revert p. induction l as [|l IH]; intros p Hp; cbn; [constructor|].
  destruct (8 <=? p)%Z eqn:E; constructor.
  - unfold byte_ok; lia.
  - apply Z.leb_le in E. apply IH. lia.
  - apply Z.leb_gt in E. apply mask_byte_ok. lia.
  - apply IH. lia.
Qed.

Lemma mask_byte_nested p q : (0 ≤ p ≤ q)%Z → (q < 8)%Z →
  Z.land (255 - Z.shiftr 255 p) (255 - Z.shiftr 255 q) = (255 - Z.shiftr 255 p)%Z.
Proof.
  intros Hpq Hq.
  assert (p = 0 ∨ p = 1 ∨ p = 2 ∨ p = 3 ∨ p = 4 ∨ p = 5 ∨ p = 6 ∨ p = 7)%Z by lia.
  assert (q = 0 ∨ q = 1 ∨ q = 2 ∨ q = 3 ∨ q = 4 ∨ q = 5 ∨ q = 6 ∨ q = 7)%Z by lia.
  destruct_or!; subst; try lia; reflexivity.
Qed.

Lemma land_255 b : byte_ok b → Z.land b 255 = b.
Proof.
  intros [? ?]. change 255%Z with (Z.ones 8). rewrite Z.land_ones by lia.
  apply Z.mod_small. lia.
Qed.

(** A shorter prefix mask is contained in a longer one. *)
Lemma mask_nested l p q : (0 ≤ p ≤ q)%Z →
  zip_with Z.land (CIDRMask_go l p) (CIDRMask_go l q) = CIDRMask_go l p.
Proof.
  revert p q. induction l as [|l IH]; intros p q Hpq; cbn; [done|].
  destruct (8 <=? p)%Z eqn:Ep, (8 <=? q)%Z eqn:Eq; cbn;
    rewrite ?Z.leb_le, ?Z.leb_gt in *; try lia.
  - by rewrite IH by lia.
  - by rewrite land_255, IH by (lia || apply mask_byte_ok; lia).
  - by rewrite mask_byte_nested, IH by lia.
Qed.

Lemma drop_CIDRMask k l p : (0 ≤ p)%Z →
  drop k (CIDRMask_go (k + l) p) = CIDRMask_go l (Z.max 0 (p - 8 * Z.of_nat k)).
Proof.
  revert p. induction k as [|k IH]; intros p Hp.
  - rewrite drop_0. change (0 + l) with l. f_equal. lia.
  - cbn [Nat.add CIDRMask_go]. destruct (8 <=? p)%Z eqn:E; cbn [drop];
      rewrite ?Z.leb_le, ?Z.leb_gt in *; rewrite IH by lia; f_equal; lia.
Qed.

Lemma zip_land_assoc (a b c : list Z) :
  zip_with Z.land (zip_with Z.land a b) c = zip_with Z.land a (zip_with Z.land b c).
Proof.
  revert b c. induction a as [|x a IH]; intros [|y b] [|z c]; cbn; [done..|].
  by rewrite IH, Z.land_assoc.
Qed.

Lemma zip_land_comm (a b : list Z) : zip_with Z.land a b = zip_with Z.land b a.
Proof.
  revert b. induction a as [|x a IH]; intros [|y b]; cbn; [done..|].
  by rewrite IH, Z.land_comm.
Qed.

(** ** Blocks *)

(** A block as [ParseCIDR] returns it: 4 or 16 bytes and a prefix mask of the
    same length that has been applied to the network number. *)
Record block_wf (n : IPNet) (p : Z) : Prop := {
  bw_mask : net_Mask n = CIDRMask_go (length (net_IP n)) p;
  bw_len : length (net_IP n) = 4 ∨ length (net_IP n) = 16;
  bw_prefix : (0 ≤ p ≤ 8 * Z.of_nat (length (net_IP n)))%Z;
  bw_bytes : Forall byte_ok (net_IP n);
  bw_net : zip_with Z.land (net_IP n) (net_Mask n) = net_IP n }.

(** The bytes [Contains] compares. *)
Definition eff (ip : IP) : IP := default ip (To4 ip).

Lemma eff_len ip : length ip = 4 ∨ length ip = 16 → length (eff ip) = 4 ∨ length (eff ip) = 16.
Proof.
  unfold eff, To4. intros H. destruct (Nat.eqb_spec (length ip) 4); [by left|].
  destruct (_ && _); cbn; [|by right; lia]. left. rewrite length_drop. lia.
Qed.

Lemma networkNumberAndMask_eff n p : block_wf n p →
  ∃ q, (0 ≤ q)%Z ∧
    (p < 8 * Z.of_nat (length (net_IP n)) → q < 8 * Z.of_nat (length (eff (net_IP n))))%Z ∧
    networkNumberAndMask n = (eff (net_IP n), CIDRMask_go (length (eff (net_IP n))) q).
Proof.
  intros [Hm Hl Hp Hb Hn]. unfold networkNumberAndMask. fold (eff (net_IP n)).
  rewrite Hm, CIDRMask_go_length.
  destruct (eff_len _ Hl) as [He|He], Hl as [Hl|Hl]; rewrite ?He, ?Hl.
  - exists p. split_and!; [lia|lia|done].
  - exists (Z.max 0 (p - 8 * Z.of_nat 12)). split_and!; [lia|lia|].
    by rewrite <- (drop_CIDRMask 12 4) by lia.
  - unfold eff, To4 in He. rewrite Hl in He. simpl in He. lia.
  - exists p. split_and!; [lia|lia|done].
Qed.

Lemma Contains_spec n p : block_wf n p → ∃ q, (0 ≤ q)%Z ∧
  (p < 8 * Z.of_nat (length (net_IP n)) → q < 8 * Z.of_nat (length (eff (net_IP n))))%Z ∧ ∀ ip,
  Contains n ip = Nat.eqb (length (eff ip)) (length (eff (net_IP n))) &&
    bool_decide (zip_with Z.land (eff (net_IP n)) (CIDRMask_go (length (eff (net_IP n))) q) =
                 zip_with Z.land (eff ip) (CIDRMask_go (length (eff (net_IP n))) q)).
Proof.
  intros H. destruct (networkNumberAndMask_eff n p H) as (q & Hq & Hq' & He).
  exists q. split_and!; [done..|]. intros ip. unfold Contains. by rewrite He.
Qed.

Lemma Contains_self n p : block_wf n p → Contains n (net_IP n) = true.
Proof.
  intros H. destruct (Contains_spec n p H) as (q & _ & _ & ->).
  by rewrite Nat.eqb_refl, bool_decide_eq_true_2.
Qed.

(** The mask arithmetic: with nested masks, agreeing with [ip] on both blocks
    makes the network numbers agree under the shorter mask. *)
Lemma masks_agree l p q (a b ip : list Z) : (0 ≤ p ≤ q)%Z →
  zip_with Z.land a (CIDRMask_go l p) = zip_with Z.land ip (CIDRMask_go l p) →
  zip_with Z.land b (CIDRMask_go l q) = zip_with Z.land ip (CIDRMask_go l q) →
  zip_with Z.land a (CIDRMask_go l p) = zip_with Z.land b (CIDRMask_go l p).
Proof.
  intros Hpq Ha Hb. rewrite Ha, <- (mask_nested l p q) by done.
  rewrite (zip_land_comm (CIDRMask_go l p)), <- !zip_land_assoc. by rewrite Hb.
Qed.

(** Two blocks have a common address exactly when one contains the network
    number of the other. *)
Lemma overlap_iff n1 p1 n2 p2 : block_wf n1 p1 → block_wf n2 p2 →
  Contains n1 (net_IP n2) || Contains n2 (net_IP n1) = true ↔
  ∃ ip, Contains n1 ip = true ∧ Contains n2 ip = true.
Proof.
  intros H1 H2. split.
  - intros [H|H]%orb_true_iff.
    + exists (net_IP n2). by rewrite (Contains_self n2 p2).
    + exists (net_IP n1). by rewrite (Contains_self n1 p1).
  - intros (ip & C1 & C2).
    destruct (Contains_spec n1 p1 H1) as (q1 & Hq1 & _ & E1).
    destruct (Contains_spec n2 p2 H2) as (q2 & Hq2 & _ & E2).
    rewrite E1 in C1. rewrite E2 in C2.
    apply andb_true_iff in C1 as [L1%Nat.eqb_eq M1%bool_decide_eq_true].
    apply andb_true_iff in C2 as [L2%Nat.eqb_eq M2%bool_decide_eq_true].
    rewrite <- L1 in M1. rewrite <- L2 in M2. rewrite E1, E2, <- L1, <- L2.
    rewrite !Nat.eqb_refl. rewrite !andb_true_l, orb_true_iff, !bool_decide_eq_true.
    destruct (decide (q1 ≤ q2)%Z).
    + left. by apply (masks_agree _ q1 q2 _ _ (eff ip)).
    + right. apply (masks_agree _ q2 q1 _ _ (eff ip)); [lia|done..].
Qed.

(** ** [ParseCIDR] *)

Lemma dtoi_nonneg acc s n : dtoi acc s = Some n → (0 ≤ acc)%Z → (0 ≤ n)%Z.
Proof.
  revert acc. induction s as [|c s IH]; intros acc; cbn; [by intros [= <-]|].
  destruct (is_digit c) eqn:E; [|done]. apply digit_val_range in E.
  destruct (16777215 <=? _)%Z; [done|]. intros H ?. eapply IH; [exact H|lia].
Qed.

Lemma zip_land_bytes a b : Forall byte_ok a → Forall byte_ok b →
  Forall byte_ok (zip_with Z.land a b).
Proof.
  intros Ha. revert b. induction Ha as [|x a Hx Ha IH]; intros b Hb; [constructor|].
  destruct Hb as [|y b Hy Hb]; cbn; constructor; [|by apply IH].
  unfold byte_ok in *. split; [apply Z.land_nonneg; lia|].
  destruct (Z.eq_dec (Z.land x y) 0) as [->|Hne]; [lia|].
  apply Z.lt_succ_r. change (Z.succ 255) with (2 ^ 8)%Z.
  apply Z.log2_lt_pow2; [pose proof (Z.land_nonneg x y); lia|].
  pose proof (Z.log2_land x y). pose proof (Z.log2_le_mono x 255). cbn in *. lia.
Qed.

Lemma zip_land_idemp a m : length a = length m →
  zip_with Z.land (zip_with Z.land a m) m = zip_with Z.land a m.
Proof.
  revert m. induction a as [|x a IH]; intros [|y m] H; cbn in *; [done..|].
  by rewrite <- Z.land_assoc, Z.land_diag, IH by lia.
Qed.

(** The network number of an address: 4 bytes for IPv4, 16 for IPv6. *)
Lemma IP_Mask_As16 a n : addr_wf a →
  IP_Mask (As16 a) (CIDRMask n (BitLen a)) =
  zip_with Z.land (addr_bytes a) (CIDRMask_go (length (addr_bytes a)) n).
Proof.
  intros Hwf. pose proof (As16_wf a Hwf) as [H16 _]. destruct Hwf as [Hl _].
  unfold IP_Mask, CIDRMask, BitLen, As16 in *. destruct (is4 a).
  - change (Z.to_nat (32 / 8)) with 4. rewrite Hl.
    pose proof (CIDRMask_go_length 4 n) as Hm. revert Hm.
    generalize (CIDRMask_go 4 n) as m. intros m Hm. rewrite Hm, H16. simpl.
    rewrite Hm. simpl. by rewrite drop_0, Hl.
  - change (Z.to_nat (128 / 8)) with 16. rewrite !H16.
    pose proof (CIDRMask_go_length 16 n) as Hm. revert Hm.
    generalize (CIDRMask_go 16 n) as m. intros m Hm. rewrite Hm. simpl.
    rewrite Hm. simpl. rewrite H16. done.
Qed.

Record ParseCIDR_result (s : string) (ip : IP) (n : IPNet) (a : Addr) (p : Z) : Prop := {
  pc_addr : addr_wf a;
  pc_ip : ip = As16 a;
  pc_prefix : (0 ≤ p ≤ BitLen a)%Z;
  pc_mask : net_Mask n = CIDRMask p (BitLen a);
  pc_net : net_IP n = zip_with Z.land (addr_bytes a) (net_Mask n);
  pc_block : block_wf n p }.

Lemma ParseCIDR_Ok s ip n : ParseCIDR s = Ok (ip, n) →
  ∃ a p, ParseCIDR_result s ip n a p.
Proof.
  unfold ParseCIDR. destruct (cut "/" s) as [[addr mask] found].
  destruct (negb found); [done|]. destruct (ParseAddr addr) as [a|] eqn:Ha; [|done].
  destruct (negb _); [done|]. destruct mask as [|c mask]; [done|].
  destruct (dtoi 0 _) as [p|] eqn:Ep; [|done]. destruct (_ <? p)%Z eqn:Eb; [done|].
  intros [= <- <-]. apply Z.ltb_ge in Eb. apply dtoi_nonneg in Ep; [|lia].
  apply ParseAddr_wf in Ha as Hwf. pose proof Hwf as [Hl Hb].
  assert (CIDRMask p (BitLen a) = CIDRMask_go (length (addr_bytes a)) p) as Hm.
  { rewrite Hl. unfold CIDRMask, BitLen. by destruct (is4 a). }
  exists a, p. split; cbn [net_IP net_Mask]; [done..|lia|done| |].
  - rewrite IP_Mask_As16 by done. by rewrite Hm.
  - assert (length (zip_with Z.land (addr_bytes a) (CIDRMask_go (length (addr_bytes a)) p))
            = length (addr_bytes a)) as Hlen
      by (rewrite length_zip_with, CIDRMask_go_length; lia).
    rewrite IP_Mask_As16 by done.
    split; cbn [net_IP net_Mask]; rewrite ?Hlen.
    + done.
    + rewrite Hl. destruct (is4 a); [by left|by right].
    + rewrite Hl. unfold BitLen in *. destruct (is4 a); lia.
    + apply zip_land_bytes; [done|]. by apply CIDRMask_go_bytes.
    + rewrite Hm. apply zip_land_idemp. by rewrite CIDRMask_go_length.
Qed.

(** ** The last byte of a block *)

(** A mask with at least one host bit ends in an even byte. *)
Lemma CIDRMask_go_last l q : (0 ≤ q < 8 * Z.of_nat l)%Z →
  ∃ ms m, CIDRMask_go l q = ms ++ [m] ∧ Z.land m 1 = 0%Z.
Proof.
  revert q. induction l as [|l IH]; intros q Hq; [lia|]. cbn [CIDRMask_go].
  destruct (8 <=? q)%Z eqn:E; rewrite ?Z.leb_le, ?Z.leb_gt in E.
  - destruct (IH (q - 8)%Z) as (ms & m & -> & Hm); [lia|]. by exists (255%Z :: ms), m.
  - destruct l as [|l].
    + exists [], (255 - Z.shiftr 255 q)%Z. split; [done|].
      assert (q = 0 ∨ q = 1 ∨ q = 2 ∨ q = 3 ∨ q = 4 ∨ q = 5 ∨ q = 6 ∨ q = 7)%Z by lia.
      destruct_or!; subst; reflexivity.
    + destruct (IH 0%Z) as (ms & m & -> & Hm); [lia|].
      by exists ((255 - Z.shiftr 255 q)%Z :: ms), m.
Qed.

(** [eff] drops a 12-byte prefix or nothing, so it keeps the last byte. *)
Lemma eff_snoc init : length init = 15 → ∃ f, ∀ x, eff (init ++ [x]) = f ++ [x].
Proof.
  intros Hl. unfold eff, To4.
  assert (∀ x : Z, take 12 (init ++ [x]) = take 12 init) as Ht
    by (intros x; apply take_app_le; lia).
  assert (∀ x : Z, length (init ++ [x]) = 16) as Hl'
    by (intros x; rewrite length_app; simpl; lia).
  destruct (decide (take 12 init = v4InV6Prefix)).
  - exists (drop 12 init). intros x. rewrite Ht, Hl'. simpl.
    rewrite bool_decide_eq_true_2 by done. simpl. by rewrite drop_app_le by lia.
  - exists init. intros x. rewrite Ht, Hl'. simpl. by rewrite bool_decide_eq_false_2.
Qed.

Lemma eff_To16 ip : length ip = 4 ∨ length ip = 16 → eff (default [] (To16 ip)) = eff ip.
Proof.
  intros [H|H].
  - assert (default [] (To16 ip) = v4InV6Prefix ++ ip) as -> by (unfold To16; by rewrite H).
    unfold eff, To4.
    assert (length (v4InV6Prefix ++ ip) = 16) as -> by (rewrite length_app, H; done).
    rewrite H. done.
  - assert (To16 ip = Some ip) as -> by (unfold To16; by rewrite H). done.
Qed.

Lemma To16_len ip : length ip = 4 ∨ length ip = 16 → length (default [] (To16 ip)) = 16.
Proof. unfold To16. intros [H|H]; rewrite H; simpl; [|done]. by rewrite H. Qed.

Lemma To16_bytes ip : Forall byte_ok ip → Forall byte_ok (default [] (To16 ip)).
Proof.
  unfold To16. intros H. repeat case_match; simpl; [|done|constructor].
  repeat (constructor; [unfold byte_ok; lia|]). done.
Qed.

Lemma CIDRMask_go_zero l : forallb (Z.eqb 0) (CIDRMask_go l 0) = true.
Proof. induction l as [|l IH]; cbn; [done|]. exact IH. Qed.

Lemma simpleMaskLength_CIDRMask l p : (0 ≤ p ≤ 8 * Z.of_nat l)%Z →
  simpleMaskLength (CIDRMask_go l p) = Some p.
Proof.
  revert p. induction l as [|l IH]; intros p Hp; cbn [CIDRMask_go simpleMaskLength].
  - f_equal. lia.
  - destruct (8 <=? p)%Z eqn:E; cbn [simpleMaskLength];
      rewrite ?Z.leb_le, ?Z.leb_gt in E.
    + rewrite IH by lia. cbn. f_equal. lia.
    + rewrite CIDRMask_go_zero.
      assert (p = 0 ∨ p = 1 ∨ p = 2 ∨ p = 3 ∨ p = 4 ∨ p = 5 ∨ p = 6 ∨ p = 7)%Z by lia.
      destruct_or!; subst; reflexivity.
Qed.

Lemma Mask_Size_block n p : block_wf n p →
  Mask_Size (net_Mask n) = (p, 8 * Z.of_nat (length (net_IP n)))%Z.
Proof.
  intros [Hm Hl Hp Hb Hn]. unfold Mask_Size. rewrite Hm, CIDRMask_go_length.
  by rewrite simpleMaskLength_CIDRMask.
Qed.

End GoNetFacts.
