(* ===== verification/Cidr.v ===== *)
(** * Addresses and CIDRs of the cluster

    pkg/utils/cidr.go, pkg/utils/net.go and pkg/utils/localhost.go.  What the
    code asks of the host (its network interfaces) is an argument: the list
    of interfaces as [net.Interfaces] returns it. *)

From S2P Require Import Prelude GoStrings GoNet GoNetFacts.
Import GoStr GoNet GoNetFacts.

Module Cidr.

(** ** The host's interfaces *)

(** A [net.Addr]: its dynamic type is [*net.IPNet], [*net.IPAddr] or another. *)
Inductive NetAddr :=
| AddrIPNet (n : IPNet)
| AddrIPAddr (ip : IP)
| AddrOther (text : string).

Record Interface := mkInterface {
  iface_Name : string;
  iface_Up : bool;
  iface_Loopback : bool;
  iface_Addrs : res (list NetAddr) }.

(** ** pkg/utils/cidr.go *)

(** The loop of [findMatchingNodeAddress]: the candidate and its subnet bits. *)
Fixpoint find_matching_loop (cidr : IPNet) (addrs : list NetAddr)
    (selected : option (IP * Z)) : option (IP * Z) :=
  match addrs with
  | [] => selected
  | AddrIPNet n :: addrs =>
      if Contains cidr (net_IP n) && negb (IsLoopback (net_IP n)) then
        let subnetBits := snd (Mask_Size (net_Mask cidr)) in
        match selected with
        | None => find_matching_loop cidr addrs (Some (net_IP n, subnetBits))
        | Some (_, bits) =>
            if (subnetBits <? bits)%Z
            then find_matching_loop cidr addrs (Some (net_IP n, subnetBits))
            else find_matching_loop cidr addrs selected
        end
      else find_matching_loop cidr addrs selected
  | _ :: addrs => find_matching_loop cidr addrs selected
  end.

Definition findMatchingNodeAddress (interfaceAddrs : res (list NetAddr)) (cidr : IPNet)
    : res IP :=
  addrs ← wrapf "could not get interface addresses: %w" [] interfaceAddrs;
  match find_matching_loop cidr addrs None with
  | None => Err (Errorf "could not find a matching address for CIDR %q" [])
  | Some (ip, _) => Ok ip
  end.

(** [big.Int.SetBytes] and [big.Int.Bytes]: big-endian, no leading zero byte. *)
Definition SetBytes (l : list Z) : Z := fold_left (λ acc b, acc * 256 + b)%Z l 0%Z.
Fixpoint big_bytes (fuel : nat) (z : Z) (acc : list Z) : list Z :=
  match fuel with
  | O => acc
  | S fuel => if (z <=? 0)%Z then acc else big_bytes fuel (z / 256) ((z mod 256)%Z :: acc)
  end.
Definition Bytes (z : Z) : list Z := big_bytes (S (Z.to_nat (Z.log2 z))) z [].

Definition GetFirstIP (subnet : string) : res IP :=
  '(_, cidr) ← wrapf "%q is not a valid subnet CIDR: %w" [subnet] (ParseCIDR subnet);
  let r := Bytes (SetBytes (default [] (To16 (net_IP cidr))) + 1) in
  let r := replicate 16 0%Z ++ r in
  Ok (drop (length r - 16) r).

Definition one_or_two {A} (l : list A) : bool :=
  Nat.eqb (length l) 1 || Nat.eqb (length l) 2.

Definition GetKubernetesServiceIPsFromServiceCIDRs (serviceCIDR : string) : res (list IP) :=
  let cidrs := split "," serviceCIDR in
  if negb (one_or_two cidrs) then Err (Errorf "invalid ServiceCIDR value: %v" cidrs)
  else map_res (λ cidr, wrapf "could not get IP from CIDR %q: %w" [cidr] (GetFirstIP cidr))
         cidrs.

(** The inner loop of [GetDefaultAddress] over one interface's addresses:
    [inr] is the early return once both families were found. *)
Definition addr_ip (a : NetAddr) : IP :=
  match a with AddrIPNet n => net_IP n | AddrIPAddr ip => ip | AddrOther _ => [] end.
Fixpoint default_addr_loop (addrs : list NetAddr) (ipv4 ipv6 : string)
    : (string * string) + (string * string) :=
  match addrs with
  | [] => inl (ipv4, ipv6)
  | a :: addrs =>
      let ip := addr_ip a in
      if IsLoopback ip then default_addr_loop addrs ipv4 ipv6
      else
        let is_v4 := bool_decide (is_Some (To4 ip)) in
        let '(v4, v6) :=
          if is_v4 && bool_decide (ipv4 = EmptyString) then (IP_String ip, ipv6)
          else if negb is_v4 && bool_decide (ipv6 = EmptyString) then (ipv4, IP_String ip)
          else (ipv4, ipv6) in
        if negb (bool_decide (v4 = EmptyString)) && negb (bool_decide (v6 = EmptyString))
        then inr (v4, v6) else default_addr_loop addrs v4 v6
  end.
Fixpoint default_iface_loop (ifaces : list Interface) (ipv4 ipv6 : string)
    : res (string * string) :=
  match ifaces with
  | [] => Ok (ipv4, ipv6)
  | i :: ifaces =>
      if negb (iface_Up i) || iface_Loopback i then default_iface_loop ifaces ipv4 ipv6
      else
        addrs ← wrapf "failed to get addresses for interface %q: %w" [iface_Name i]
                  (iface_Addrs i);
        match default_addr_loop addrs ipv4 ipv6 with
        | inr r => Ok r
        | inl (v4, v6) => default_iface_loop ifaces v4 v6
        end
  end.
Definition GetDefaultAddress (interfaces : res (list Interface)) : res (string * string) :=
  ifaces ← wrapf "failed to get network interfaces: %w" [] interfaces;
  default_iface_loop ifaces EmptyString EmptyString.

(** [IPNet.String]. *)
Definition IPNet_String (n : IPNet) : string :=
  let '(nn, m) := networkNumberAndMask n in
  match nn with
  | [] => "<nil>"
  | _ => match simpleMaskLength m with
         | Some l => IP_String nn +:+ "/" +:+ Itoa l
         | None => IP_String nn +:+ "/" +:+
             join EmptyString
               ((λ b, hex_digit (Z.shiftr b 4) +:+ hex_digit (Z.land b 15)) <$> m)
         end
  end.

Fixpoint find_cidr_addrs (nodeIp : IP) (addrs : list NetAddr) : option string :=
  match addrs with
  | [] => None
  | AddrIPNet n :: addrs =>
      if Contains n nodeIp then Some (IPNet_String n) else find_cidr_addrs nodeIp addrs
  | _ :: addrs => find_cidr_addrs nodeIp addrs
  end.
Fixpoint find_cidr_ifaces (nodeIp : IP) (ifaces : list Interface) : res string :=
  match ifaces with
  | [] => Err (Errorf "no CIDR found for IP %q" [IP_String nodeIp])
  | i :: ifaces =>
      if negb (iface_Up i) then find_cidr_ifaces nodeIp ifaces
      else
        addrs ← wrapf "failed to get addresses for interface %q: %w" [iface_Name i]
                  (iface_Addrs i);
        match find_cidr_addrs nodeIp addrs with
        | Some s => Ok s
        | None => find_cidr_ifaces nodeIp ifaces
        end
  end.
Definition FindCIDRForIP (interfaces : res (list Interface)) (nodeIp : IP) : res string :=
  ifaces ← wrapf "failed to get network interfaces: %w" [] interfaces;
  find_cidr_ifaces nodeIp ifaces.

(** The loop of [SplitCIDRStrings]: a later CIDR of a family replaces an
    earlier one. *)
Fixpoint split_cidr_loop (cidrs : list string) (ipv4CIDR ipv6CIDR : string)
    : res (string * string) :=
  match cidrs with
  | [] => Ok (ipv4CIDR, ipv6CIDR)
  | cidr :: cidrs =>
      '(_, parsed) ← wrapf "failed to parse cidr: %w" [] (ParseCIDR cidr);
      match To4 (net_IP parsed) with
      | Some _ => split_cidr_loop cidrs cidr ipv6CIDR
      | None => split_cidr_loop cidrs ipv4CIDR cidr
      end
  end.
Definition SplitCIDRStrings (cidrString : string) : res (string * string) :=
  let clusterCIDRs := split "," cidrString in
  if negb (one_or_two clusterCIDRs) then Err (Errorf "invalid CIDR list: %v" clusterCIDRs)
  else split_cidr_loop clusterCIDRs EmptyString EmptyString.

Definition IsIPv4 (address : string) : bool :=
  match ParseIP (default EmptyString (head (split ":" address))) with
  | Some ip => bool_decide (is_Some (To4 ip))
  | None => false
  end.

Definition ToIPString (ip : IP) : string :=
  match To4 ip with
  | Some _ => IP_String ip
  | None => "[" +:+ IP_String ip +:+ "]"
  end.

Definition CIDRsOverlap (cidr1 cidr2 : string) : res bool :=
  '(_, ipNet1) ← wrapf "couldn't parse CIDR block %q: %w" [cidr1] (ParseCIDR cidr1);
  '(_, ipNet2) ← wrapf "couldn't parse CIDR block %q: %w" [cidr2] (ParseCIDR cidr2);
  Ok (Contains ipNet1 (net_IP ipNet2) || Contains ipNet2 (net_IP ipNet1)).

Definition JoinHostPort_int (host : string) (port : Z) : string :=
  JoinHostPort host (Itoa port).

(** ** pkg/utils/localhost.go *)

(** [addr.String()] of an interface address, as [ParseCIDR] reads it back. *)
Definition NetAddr_String (a : NetAddr) : string :=
  match a with
  | AddrIPNet n => IPNet_String n
  | AddrIPAddr ip => IP_String ip
  | AddrOther t => t
  end.
Fixpoint localhost_loop (addrs : list string) (ipv6 : option IP) : option IP :=
  match addrs with
  | [] => ipv6
  | a :: addrs =>
      match ParseCIDR a with
      | Err _ => localhost_loop addrs ipv6
      | Ok (ip, _) =>
          if IP_Equal ip (v4InV6Prefix ++ [127; 0; 0; 1])%Z then Some ip
          else if IP_Equal ip IPv6loopback then localhost_loop addrs (Some ip)
          else localhost_loop addrs ipv6
      end
  end.
(** The argument is [net.InterfaceByName("lo")] with its addresses as text. *)
Definition GetLocalhostAddress (lo : res (res (list string))) : res IP :=
  addrs_call ← wrapf "failed to get loopback interface: %w" [] lo;
  addrs ← wrapf "failed to get addresses for loopback interface: %w" [] addrs_call;
  match localhost_loop addrs None with
  | Some ip => Ok ip
  | None => Err (Errorf "no loopback address found" [])
  end.

(** ** pkg/utils/net.go *)

Fixpoint parseIPAddresses (addrs : list NetAddr) : res (list IP) :=
  match addrs with
  | [] => Ok []
  | a :: addrs =>
      match addr_ip a with
      | [] => Err (Errorf "failed to parse node IP address '%s'" [NetAddr_String a])
      | ip => ips ← parseIPAddresses addrs; Ok (ip :: ips)
      end
  end.

Fixpoint ifaces_with_ip_loop (ip : IP) (ifaces : list Interface) (lastError : option goerr)
    : res (list IP) :=
  match ifaces with
  | [] => match lastError with
          | Some e => Err e
          | None => Err (Errorf "failed to find a local interface associated with the node IP address '%s'"
                           [IP_String ip])
          end
  | i :: ifaces =>
      match iface_Addrs i with
      | Err e => ifaces_with_ip_loop ip ifaces
                   (Some (Wrapf "failed to get local interface addresses: %w" [] e))
      | Ok addrs =>
          match parseIPAddresses addrs with
          | Err e => ifaces_with_ip_loop ip ifaces (Some e)
          | Ok ifaceIPs =>
              if existsb (IP_Equal ip) ifaceIPs then Ok ifaceIPs
              else ifaces_with_ip_loop ip ifaces lastError
          end
      end
  end.
Definition getIPsFromIfaceWithIP (interfaces : res (list Interface)) (ip : IP) : res (list IP) :=
  ifaces ← wrapf "failed to get local interfaces: %w" [] interfaces;
  ifaces_with_ip_loop ip ifaces None.

Definition is_v4 (ip : IP) : bool := bool_decide (is_Some (To4 ip)).
Fixpoint pair_loop (ip : IP) (ifaceIPs : list IP) : list IP :=
  match ifaceIPs with
  | [] => [ip]
  | ifaceIP :: rest =>
      if Bool.eqb (is_v4 ip) (is_v4 ifaceIP) then pair_loop ip rest
      else if IsGlobalUnicast ifaceIP then [ip; ifaceIP] else pair_loop ip rest
  end.
Definition GetIPv46Addresses (interfaces : res (list Interface)) (ip : IP) : res (list IP) :=
  ifaceIPs ← getIPsFromIfaceWithIP interfaces ip; Ok (pair_loop ip ifaceIPs).

(** * Properties *)

(** ** Big-endian numbers *)

Lemma SetBytes_acc l a :
  fold_left (λ acc b, acc * 256 + b)%Z l a = (a * 256 ^ Z.of_nat (length l) + SetBytes l)%Z.
Proof.
  unfold SetBytes. revert a. induction l as [|b l IH]; intros a; cbn [fold_left length].
  - rewrite Z.mul_1_r. lia.
  - rewrite IH, (IH (0 * 256 + b)%Z), Nat2Z.inj_succ, Z.pow_succ_r by lia. ring.
Qed.
Lemma SetBytes_app l1 l2 :
  SetBytes (l1 ++ l2) = (SetBytes l1 * 256 ^ Z.of_nat (length l2) + SetBytes l2)%Z.
Proof. unfold SetBytes at 1. rewrite fold_left_app. apply SetBytes_acc. Qed.
Lemma SetBytes_cons b l :
  SetBytes (b :: l) = (b * 256 ^ Z.of_nat (length l) + SetBytes l)%Z.
Proof.
  change (b :: l) with ([b] ++ l). rewrite SetBytes_app.
  change (SetBytes [b]) with (0 * 256 + b)%Z. lia.
Qed.
Lemma SetBytes_snoc l b : SetBytes (l ++ [b]) = (SetBytes l * 256 + b)%Z.
Proof. rewrite SetBytes_app. change (SetBytes [b]) with (0 * 256 + b)%Z. cbn [length]. lia. Qed.

Lemma SetBytes_bound l : Forall byte_ok l → (0 ≤ SetBytes l < 256 ^ Z.of_nat (length l))%Z.
Proof.
  induction l as [|b l IH]; intros H; [done|].
  apply Forall_cons in H as [Hb Hl]. specialize (IH Hl). rewrite SetBytes_cons.
  cbn [length]. rewrite Nat2Z.inj_succ, Z.pow_succ_r by lia. unfold byte_ok in Hb. nia.
Qed.

Lemma SetBytes_zeros n l : SetBytes (replicate n 0%Z ++ l) = SetBytes l.
Proof.
  induction n as [|n IH]; [done|]. cbn [replicate app]. rewrite SetBytes_cons, IH. lia.
Qed.

Lemma SetBytes_inj l1 l2 : length l1 = length l2 → Forall byte_ok l1 → Forall byte_ok l2 →
  SetBytes l1 = SetBytes l2 → l1 = l2.
Proof.
  revert l2. induction l1 as [|a l1 IH]; intros [|b l2] Hl H1 H2 Heq; cbn in Hl;
    [done|lia|lia|].
  apply Forall_cons in H1 as [Ha H1]. apply Forall_cons in H2 as [Hb H2].
  rewrite !SetBytes_cons in Heq. injection Hl as Hl. rewrite Hl in Heq.
  pose proof (SetBytes_bound l1 H1) as B1. pose proof (SetBytes_bound l2 H2) as B2.
  rewrite Hl in B1. assert (a = b) as -> by nia. f_equal. apply IH; [done..|lia].
Qed.

Lemma big_bytes_spec fuel z acc : (z < 256 ^ Z.of_nat fuel)%Z → (0 ≤ z)%Z →
  Forall byte_ok acc →
  SetBytes (big_bytes fuel z acc) = (z * 256 ^ Z.of_nat (length acc) + SetBytes acc)%Z ∧
  Forall byte_ok (big_bytes fuel z acc).
Proof.
  revert z acc. induction fuel as [|fuel IH]; intros z acc Hf Hz Ha; cbn [big_bytes].
  - cbn in Hf. split; [|done]. replace z with 0%Z by lia. lia.
  - destruct (z <=? 0)%Z eqn:E.
    + apply Z.leb_le in E. split; [|done]. replace z with 0%Z by lia. lia.
    + apply Z.leb_gt in E. rewrite Nat2Z.inj_succ, Z.pow_succ_r in Hf by lia.
      pose proof (Z.mod_pos_bound z 256 ltac:(lia)) as Hm.
      pose proof (Z.div_mod z 256 ltac:(lia)) as Hdm.
      destruct (IH (z / 256)%Z ((z mod 256)%Z :: acc)) as [IH1 IH2].
      * apply Z.div_lt_upper_bound; lia.
      * apply Z.div_pos; lia.
      * constructor; [unfold byte_ok; lia|done].
      * split; [|done]. rewrite IH1, SetBytes_cons. cbn [length].
        rewrite Nat2Z.inj_succ, Z.pow_succ_r by lia. rewrite Hdm at 3. ring.
Qed.

Lemma Bytes_spec z : (0 ≤ z)%Z → SetBytes (Bytes z) = z ∧ Forall byte_ok (Bytes z).
Proof.
  intros Hz. unfold Bytes. destruct (big_bytes_spec (S (Z.to_nat (Z.log2 z))) z []) as [H1 H2].
  - pose proof (Z.log2_nonneg z) as Hn.
    rewrite Nat2Z.inj_succ, Z2Nat.id by lia.
    destruct (Z.eq_dec z 0) as [->|]; [done|].
    pose proof (Z.log2_spec z ltac:(lia)) as [_ Hlt].
    eapply Z.lt_le_trans; [exact Hlt|]. apply Z.pow_le_mono_l. lia.
  - done.
  - constructor.
  - split; [|done]. rewrite H1. cbn. unfold SetBytes. cbn. lia.
Qed.

Lemma SetBytes_drop k l : Forall byte_ok l → k ≤ length l →
  SetBytes (drop k l) = (SetBytes l mod 256 ^ Z.of_nat (length l - k))%Z.
Proof.
  intros H Hk. rewrite <- (take_drop k l) at 2. rewrite SetBytes_app, length_drop.
  rewrite Z.add_comm, Z.mod_add by (apply Z.pow_nonzero; lia).
  symmetry. apply Z.mod_small. rewrite <- length_drop. apply SetBytes_bound.
  by apply Forall_drop.
Qed.

(** The bytes [GetFirstIP] computes from a network number. *)
Lemma first_bytes_spec (net : list Z) : Forall byte_ok net → length net = 16 →
  let r := replicate 16 0%Z ++ Bytes (SetBytes net + 1) in
  length (drop (length r - 16) r) = 16 ∧ Forall byte_ok (drop (length r - 16) r) ∧
  SetBytes (drop (length r - 16) r) = ((SetBytes net + 1) mod 2 ^ 128)%Z.
Proof.
  intros Hb Hl r. pose proof (SetBytes_bound net Hb) as Hbd.
  destruct (Bytes_spec (SetBytes net + 1)%Z ltac:(lia)) as [Hs Hbs].
  assert (Forall byte_ok r) as Hr.
  { apply Forall_app; split; [|done]. apply Forall_replicate. unfold byte_ok; lia. }
  assert (16 ≤ length r) by (unfold r; rewrite length_app, length_replicate; lia).
  split_and!; [rewrite length_drop; lia|by apply Forall_drop|].
  rewrite SetBytes_drop by (done || lia).
  replace (length r - (length r - 16)) with 16 by lia.
  unfold r. rewrite SetBytes_zeros, Hs. done.
Qed.

(** ** Overlap *)

Lemma CIDRsOverlap_iff c1 c2 ip1 n1 ip2 n2 :
  ParseCIDR c1 = Ok (ip1, n1) → ParseCIDR c2 = Ok (ip2, n2) →
  ∃ b, CIDRsOverlap c1 c2 = Ok b ∧
       (b = true ↔ ∃ ip, Contains n1 ip = true ∧ Contains n2 ip = true).
Proof.
  intros H1 H2. unfold CIDRsOverlap. rewrite H1, H2. cbn.
  destruct (ParseCIDR_Ok _ _ _ H1) as (a1 & p1 & R1).
  destruct (ParseCIDR_Ok _ _ _ H2) as (a2 & p2 & R2).
  eexists. split; [done|]. eapply overlap_iff; by eapply pc_block.
Qed.

(** C40: [CIDRsOverlap] is exact: it fails when a CIDR does not parse, and on two CIDRs
    that parse it answers true precisely when some IP address belongs to both
    blocks.  The code only tests the two network numbers. *)
Theorem CIDRsOverlap_exact c1 c2 :
  match ParseCIDR c1, ParseCIDR c2 with
  | Ok (_, n1), Ok (_, n2) =>
      ∃ b, CIDRsOverlap c1 c2 = Ok b ∧
           (b = true ↔ ∃ ip, Contains n1 ip = true ∧ Contains n2 ip = true)
  | Err e, _ => CIDRsOverlap c1 c2 = Err (Wrapf "couldn't parse CIDR block %q: %w" [c1] e)
  | Ok _, Err e => CIDRsOverlap c1 c2 = Err (Wrapf "couldn't parse CIDR block %q: %w" [c2] e)
  end.
Proof.
  destruct (ParseCIDR c1) as [[ip1 n1]|e1] eqn:H1, (ParseCIDR c2) as [[ip2 n2]|e2] eqn:H2.
  - by eapply CIDRsOverlap_iff.
  - unfold CIDRsOverlap. by rewrite H1, H2.
  - unfold CIDRsOverlap. by rewrite H1.
  - unfold CIDRsOverlap. by rewrite H1.
Qed.

(** ** The first address of a subnet *)

(** Adding one to a block's network number changes only its last byte. *)
Lemma block_last n p : block_wf n p → (p < 8 * Z.of_nat (length (net_IP n)))%Z →
  ∃ init b, default [] (To16 (net_IP n)) = init ++ [b] ∧ length init = 15 ∧
    byte_ok b ∧ Forall byte_ok init ∧ Z.land b 1 = 0%Z.
Proof.
  intros Hw Hp. pose proof Hw as [Hm Hl Hp' Hb Hn].
  pose proof (To16_len _ Hl) as H16. pose proof (To16_bytes _ Hb) as Hb16.
  destruct (CIDRMask_go_last (length (net_IP n)) p) as (ms & m & Hms & Hm1); [lia|].
  assert (∃ i b, net_IP n = i ++ [b] ∧ Z.land b 1 = 0%Z ∧ length i = length ms) as
    (i & b & Hib & Hb1 & Hil).
  { destruct (@List.exists_last _ (net_IP n)) as (i & b & Hib);
      [intros Hnil; rewrite Hnil in Hl; cbn in Hl; lia|].
    assert (length ms = length i) as Hlen.
    { pose proof (CIDRMask_go_length (length (net_IP n)) p) as HL.
      rewrite Hms, Hib, !length_app in HL. cbn in HL. lia. }
    exists i, b. split_and!; [done| |done].
    rewrite Hm, Hms, Hib, zip_with_app in Hn by done.
    apply app_inj_2 in Hn as [_ [= Hb']]; [|done].
    by rewrite <- Hb', <- Z.land_assoc, Hm1, Z.land_0_r. }
  assert (∃ pre, default [] (To16 (net_IP n)) = pre ++ net_IP n) as [pre Hpre].
  { unfold To16. destruct Hl as [H4|H4]; rewrite H4; [by exists v4InV6Prefix|by exists []]. }
  rewrite Hpre, Hib, (assoc_L (++)) in H16, Hb16 |- *. exists (pre ++ i), b.
  apply Forall_app in Hb16 as [Hi%Forall_app [Hbb _]%Forall_cons].
  split_and!; [done| |done|by apply Forall_app|done].
  rewrite length_app in H16. cbn in H16. lia.
Qed.

Lemma land_succ_even b m : Z.land b 1 = 0%Z → Z.land m 1 = 0%Z →
  Z.land (b + 1) m = Z.land b m.
Proof.
  intros Hb Hm. assert (b + 1 = Z.lor b 1)%Z as ->.
  { rewrite <- (Z.add_lor_land b 1), Hb. lia. }
  by rewrite Z.land_lor_distr_l, (Z.land_comm 1 m), Hm, Z.lor_0_r.
Qed.

Lemma SetBytes_succ_last init b (ip : list Z) :
  Forall byte_ok init → byte_ok b → length init = 15 → Z.land b 1 = 0%Z →
  Forall byte_ok ip → length ip = 16 →
  SetBytes ip = ((SetBytes (init ++ [b]) + 1) mod 2 ^ 128)%Z → ip = init ++ [(b + 1)%Z].
Proof.
  intros Hi Hb Hl Hb1 Hip Hl16 Heq.
  assert (b ≠ 255)%Z by (intros ->; discriminate Hb1). unfold byte_ok in Hb.
  assert (Forall byte_ok (init ++ [(b + 1)%Z])) as Hok.
  { apply Forall_app; split; [done|]. apply Forall_singleton. unfold byte_ok. lia. }
  assert (length (init ++ [(b + 1)%Z]) = 16) as Hlen
    by (rewrite length_app; cbn [length]; lia).
  apply SetBytes_inj; [by rewrite Hl16, Hlen|done..|].
  pose proof (SetBytes_bound _ Hok) as Hbd. rewrite Hlen in Hbd.
  rewrite Heq, !SetBytes_snoc in *. rewrite Z.mod_small; [lia|].
  change (256 ^ Z.of_nat 16)%Z with (2 ^ 128)%Z in Hbd. lia.
Qed.

(** [GetFirstIP] of a subnet that parses is the 16-byte address one above the
    network number (modulo 2^128), and lies in the subnet whenever the subnet
    has a host bit; it is the IP of the [kubernetes] service. *)
Theorem GetFirstIP_correct subnet ip0 n :
  ParseCIDR subnet = Ok (ip0, n) →
  ∃ ip, GetFirstIP subnet = Ok ip ∧ length ip = 16 ∧
    SetBytes ip = ((SetBytes (default [] (To16 (net_IP n))) + 1) mod 2 ^ 128)%Z ∧
    ((fst (Mask_Size (net_Mask n)) < snd (Mask_Size (net_Mask n)))%Z → Contains n ip = true).
Proof.
  intros H. unfold GetFirstIP. rewrite H. cbn [wrapf mbind res_bind].
  destruct (ParseCIDR_Ok _ _ _ H) as (a & p & R). apply pc_block in R as Hw.
  pose proof (To16_len _ (bw_len _ _ Hw)) as H16.
  pose proof (To16_bytes _ (bw_bytes _ _ Hw)) as Hb16.
  destruct (first_bytes_spec _ Hb16 H16) as (Hl & Hb & Hs).
  eexists. split_and!; [done|exact Hl|exact Hs|].
  rewrite (Mask_Size_block n p) by done. cbn [fst snd]. intros Hp.
  destruct (block_last n p Hw Hp) as (init & b & Hib & Hil & Hbb & Hbi & Hb1).
  rewrite Hib in *. apply SetBytes_succ_last in Hs as ->; [|done..].
  destruct (Contains_spec n p Hw) as (q & Hq & Hq' & ->).
  rewrite <- (eff_To16 (net_IP n)), Hib in * by apply (bw_len _ _ Hw).
  destruct (eff_snoc init Hil) as [f Hf]. rewrite !Hf in *.
  rewrite !length_app in *. cbn [length] in *.
  rewrite Nat.eqb_refl, andb_true_l. apply bool_decide_eq_true.
  destruct (CIDRMask_go_last (length f + 1) q) as (ms & m & Hms & Hm1); [lia|].
  pose proof (CIDRMask_go_length (length f + 1) q) as HL.
  rewrite Hms, length_app in *. cbn [length] in HL.
  rewrite !zip_with_app by lia. f_equal. cbn. f_equal. by rewrite land_succ_even.
Qed.

Lemma GetFirstIP_correct_witness :
  ∃ ip, GetFirstIP "10.152.183.0/24" = Ok ip ∧
    Contains (mkIPNet [10; 152; 183; 0] [255; 255; 255; 0])%Z ip = true.
Proof.
  destruct (GetFirstIP_correct "10.152.183.0/24"
              (v4InV6Prefix ++ [10; 152; 183; 0])%Z
              (mkIPNet [10; 152; 183; 0] [255; 255; 255; 0])%Z) as (ip & H1 & _ & _ & H2);
    [vm_compute; reflexivity|].
  exists ip. split; [exact H1|]. apply H2. vm_compute. reflexivity.
Defined.

(** ** Splitting a dual-stack CIDR list *)

(** Whether a CIDR counts as IPv4 or as IPv6 for the cluster. *)
Definition cidr_family (v4 : bool) (cidr : string) : bool :=
  match ParseCIDR cidr with
  | Ok (_, n) => Bool.eqb v4 (is_v4 (net_IP n))
  | Err _ => false
  end.

Lemma split_cidr_loop_spec cidrs a b :
  (Forall (λ c, is_ok (ParseCIDR c) = true) cidrs →
   split_cidr_loop cidrs a b =
     Ok (default a (last (List.filter (cidr_family true) cidrs)),
         default b (last (List.filter (cidr_family false) cidrs)))) ∧
  (¬ Forall (λ c, is_ok (ParseCIDR c) = true) cidrs →
   is_ok (split_cidr_loop cidrs a b) = false).
Proof.
  revert a b. induction cidrs as [|c cidrs IH]; intros a b; cbn [split_cidr_loop List.filter].
  - split; [done|]. intros []. constructor.
  - destruct (ParseCIDR c) as [[ip n]|e] eqn:Hc; cbn [wrapf mbind res_bind].
    + assert (∀ v, cidr_family v c = Bool.eqb v (is_v4 (net_IP n))) as Hf
        by (intros v; unfold cidr_family; by rewrite Hc).
      rewrite !Hf. unfold is_v4. split.
      * intros [_ Hall]%Forall_cons.
        destruct (To4 (net_IP n)) as [v|]; cbn [is_Some];
          [rewrite !bool_decide_eq_true_2 by eauto|rewrite !bool_decide_eq_false_2 by (intros [? ?]; done)];
          cbn [Bool.eqb]; rewrite (proj1 (IH _ _)) by done; rewrite last_cons;
          by repeat destruct (last (List.filter _ _)).
      * intros Hn. destruct (To4 (net_IP n)); apply IH; intros Hall; apply Hn;
          constructor; by rewrite ?Hc.
    + split; [|done]. intros [Hx _]%Forall_cons. by rewrite Hc in Hx.
Qed.

Lemma SplitCIDRStrings_Ok s : one_or_two (split "," s) = true →
  Forall (λ c, is_ok (ParseCIDR c) = true) (split "," s) →
  SplitCIDRStrings s =
    Ok (default EmptyString (last (List.filter (cidr_family true) (split "," s))),
        default EmptyString (last (List.filter (cidr_family false) (split "," s)))).
Proof.
  intros H1 H2. unfold SplitCIDRStrings. rewrite H1. cbn. by apply split_cidr_loop_spec.
Qed.

(** [SplitCIDRStrings] succeeds exactly on a comma-separated list of one or two
    CIDRs that all parse, and then returns the last CIDR of each family, the
    empty string standing for a family with none. *)
Theorem SplitCIDRStrings_spec s v4 v6 :
  SplitCIDRStrings s = Ok (v4, v6) ↔
  one_or_two (split "," s) = true ∧
  Forall (λ c, is_ok (ParseCIDR c) = true) (split "," s) ∧
  v4 = default EmptyString (last (List.filter (cidr_family true) (split "," s))) ∧
  v6 = default EmptyString (last (List.filter (cidr_family false) (split "," s))).
Proof.
  unfold SplitCIDRStrings. destruct (one_or_two (split "," s)); cbn; [|by split; [|intros [? _]]].
  destruct (split_cidr_loop_spec (split "," s) EmptyString EmptyString) as [H1 H2].
  destruct (decide (Forall (λ c, is_ok (ParseCIDR c) = true) (split "," s))) as [Hall|Hn].
  - rewrite H1 by done. split; [by intros [= <- <-]|by intros (_ & _ & -> & ->)].
  - specialize (H2 Hn). split; [|by intros (_ & ? & _)]. by intros H; rewrite H in H2.
Qed.

(** ** Choosing a node address *)

Definition node_addrs_in (cidr : IPNet) (addrs : list NetAddr) : list IP :=
  omap (λ a, match a with
             | AddrIPNet n => if Contains cidr (net_IP n) && negb (IsLoopback (net_IP n))
                              then Some (net_IP n) else None
             | _ => None
             end) addrs.

Lemma find_matching_selected cidr addrs ip :
  find_matching_loop cidr addrs (Some (ip, snd (Mask_Size (net_Mask cidr)))) =
  Some (ip, snd (Mask_Size (net_Mask cidr))).
Proof.
  induction addrs as [|[n| |] addrs IH]; cbn [find_matching_loop]; try done.
  rewrite Z.ltb_irrefl. by destruct (_ && _).
Qed.

(** [findMatchingNodeAddress] returns the first non-loopback interface address
    in the CIDR, whatever the prefix lengths of the interface addresses are:
    the subnet bits it compares are those of the CIDR, the same for all
    candidates, so no later address is ever preferred. *)
Theorem findMatchingNodeAddress_first addrs cidr :
  findMatchingNodeAddress (Ok addrs) cidr =
  match head (node_addrs_in cidr addrs) with
  | Some ip => Ok ip
  | None => Err (Errorf "could not find a matching address for CIDR %q" [])
  end.
Proof.
  unfold findMatchingNodeAddress. cbn [wrapf mbind res_bind].
  induction addrs as [|[n| |] addrs IH]; cbn [find_matching_loop node_addrs_in omap list_omap];
    try done.
  destruct (_ && _); cbn [head]; [by rewrite find_matching_selected|exact IH].
Qed.

(** ** Pairing node addresses *)

Lemma ifaces_with_ip_loop_Ok ip ifaces le ips :
  ifaces_with_ip_loop ip ifaces le = Ok ips →
  ∃ i addrs, i ∈ ifaces ∧ iface_Addrs i = Ok addrs ∧ parseIPAddresses addrs = Ok ips ∧
    existsb (IP_Equal ip) ips = true.
Proof.
  revert le. induction ifaces as [|i ifaces IH]; intros le; cbn [ifaces_with_ip_loop].
  - by destruct le.
  - intros H. destruct (iface_Addrs i) as [addrs|e] eqn:Ha.
    + destruct (parseIPAddresses addrs) as [ips'|] eqn:Hp.
      * destruct (existsb (IP_Equal ip) ips') eqn:He.
        { injection H as <-. exists i, addrs. set_solver. }
        apply IH in H as (j & ? & ? & ?). exists j. set_solver.
      * apply IH in H as (j & ? & ? & ?). exists j. set_solver.
    + apply IH in H as (j & ? & ? & ?). exists j. set_solver.
Qed.

Lemma pair_loop_spec ip ips :
  pair_loop ip ips = [ip] ∨
  ∃ ip2, pair_loop ip ips = [ip; ip2] ∧ ip2 ∈ ips ∧ is_v4 ip2 = negb (is_v4 ip) ∧
    IsGlobalUnicast ip2 = true.
Proof.
  induction ips as [|j ips IH]; cbn [pair_loop]; [by left|].
  destruct (Bool.eqb (is_v4 ip) (is_v4 j)) eqn:E.
  - destruct IH as [->|(ip2 & -> & ? & ? & ?)]; [by left|right; exists ip2; set_solver].
  - destruct (IsGlobalUnicast j) eqn:G.
    + right. exists j. split_and!; [done|set_solver| |done].
      by destruct (is_v4 ip), (is_v4 j).
    + destruct IH as [->|(ip2 & -> & ? & ? & ?)]; [by left|right; exists ip2; set_solver].
Qed.

(** When [GetIPv46Addresses] succeeds the given address comes first and is
    alone or followed by a global unicast address of the other family; both
    addresses are on one local interface. *)
Theorem GetIPv46Addresses_dual ifaces ip ips :
  GetIPv46Addresses (Ok ifaces) ip = Ok ips →
  ∃ i addrs ifaceIPs,
    i ∈ ifaces ∧ iface_Addrs i = Ok addrs ∧ parseIPAddresses addrs = Ok ifaceIPs ∧
    existsb (IP_Equal ip) ifaceIPs = true ∧
    (ips = [ip] ∨ ∃ ip2, ips = [ip; ip2] ∧ ip2 ∈ ifaceIPs ∧
                         is_v4 ip2 = negb (is_v4 ip) ∧ IsGlobalUnicast ip2 = true).
Proof.
  unfold GetIPv46Addresses, getIPsFromIfaceWithIP. cbn [wrapf mbind res_bind].
  destruct (ifaces_with_ip_loop ip ifaces None) as [l|] eqn:H; [|done].
  intros [= <-]. apply ifaces_with_ip_loop_Ok in H as (i & addrs & ? & ? & ? & ?).
  exists i, addrs, l. split_and!; [done..|apply pair_loop_spec].
Qed.

Lemma GetIPv46Addresses_dual_witness :
  ∃ i addrs ifaceIPs, i ∈ [mkInterface "eth0" true false
      (Ok [AddrIPNet (mkIPNet [10; 0; 0; 5] [255; 255; 255; 0])%Z])] ∧
    iface_Addrs i = Ok addrs ∧ parseIPAddresses addrs = Ok ifaceIPs.
Proof.
  destruct (GetIPv46Addresses_dual
      [mkInterface "eth0" true false
        (Ok [AddrIPNet (mkIPNet [10; 0; 0; 5] [255; 255; 255; 0])%Z])]
      [10; 0; 0; 5]%Z [[10; 0; 0; 5]%Z]) as (i & addrs & l & ? & ? & ? & _);
    [vm_compute; reflexivity|]. by exists i, addrs, l.
Defined.

End Cidr.
