(* ===== verification/Config.v ===== *)
(** * The cluster configuration

    The data of pkg/k8sd/types/cluster_config*.go: one record per struct, a
    pointer field being an [option], with the getters and the emptiness tests.
    Field [F] of struct [S] is the projection [S_F]. *)

From S2P Require Import Prelude GoStrings.
Import GoStr.

Module Config.

Record Certificates := mkCertificates {
  Certificates_CACert : option string;
  Certificates_CAKey : option string;
  Certificates_ClientCACert : option string;
  Certificates_ClientCAKey : option string;
  Certificates_FrontProxyCACert : option string;
  Certificates_FrontProxyCAKey : option string;
  Certificates_ServiceAccountKey : option string;
  Certificates_APIServerKubeletClientCert : option string;
  Certificates_APIServerKubeletClientKey : option string;
  Certificates_AdminClientCert : option string;
  Certificates_AdminClientKey : option string;
  Certificates_K8sdPublicKey : option string;
  Certificates_K8sdPrivateKey : option string }.

#[export] Instance Certificates_eq_dec : EqDecision Certificates.
Proof. solve_decision. Defined.

Record Datastore := mkDatastore {
  Datastore_Type : option string;
  Datastore_ExternalServers : option (list string);
  Datastore_ExternalCACert : option string;
  Datastore_ExternalClientCert : option string;
  Datastore_ExternalClientKey : option string;
  Datastore_EtcdCACert : option string;
  Datastore_EtcdCAKey : option string;
  Datastore_EtcdAPIServerClientCert : option string;
  Datastore_EtcdAPIServerClientKey : option string;
  Datastore_EtcdPort : option Z;
  Datastore_EtcdPeerPort : option Z }.

#[export] Instance Datastore_eq_dec : EqDecision Datastore.
Proof. solve_decision. Defined.

Record APIServer := mkAPIServer {
  APIServer_SecurePort : option Z;
  APIServer_AuthorizationMode : option string }.

#[export] Instance APIServer_eq_dec : EqDecision APIServer.
Proof. solve_decision. Defined.

Record Kubelet := mkKubelet {
  Kubelet_CloudProvider : option string;
  Kubelet_ClusterDNS : option string;
  Kubelet_ClusterDomain : option string;
  Kubelet_ControlPlaneTaints : option (list string) }.

#[export] Instance Kubelet_eq_dec : EqDecision Kubelet.
Proof. solve_decision. Defined.

Record Network := mkNetwork {
  Network_Enabled : option bool;
  Network_PodCIDR : option string;
  Network_ServiceCIDR : option string;
  Network_KubeProxyEnabled : option bool }.

#[export] Instance Network_eq_dec : EqDecision Network.
Proof. solve_decision. Defined.

Record DNS := mkDNS {
  DNS_Enabled : option bool;
  DNS_UpstreamNameservers : option (list string) }.

#[export] Instance DNS_eq_dec : EqDecision DNS.
Proof. solve_decision. Defined.

Record Ingress := mkIngress {
  Ingress_Enabled : option bool;
  Ingress_DefaultTLSSecret : option string;
  Ingress_EnableProxyProtocol : option bool }.

#[export] Instance Ingress_eq_dec : EqDecision Ingress.
Proof. solve_decision. Defined.

Record LoadBalancer_IPRange := mkLoadBalancer_IPRange {
  LoadBalancer_IPRange_Start : string;
  LoadBalancer_IPRange_Stop : string }.

#[export] Instance LoadBalancer_IPRange_eq_dec : EqDecision LoadBalancer_IPRange.
Proof. solve_decision. Defined.

Record LoadBalancer := mkLoadBalancer {
  LoadBalancer_Enabled : option bool;
  LoadBalancer_CIDRs : option (list string);
  LoadBalancer_IPRanges : option (list LoadBalancer_IPRange);
  LoadBalancer_L2Mode : option bool;
  LoadBalancer_L2Interfaces : option (list string);
  LoadBalancer_BGPMode : option bool;
  LoadBalancer_BGPLocalASN : option Z;
  LoadBalancer_BGPPeerAddress : option string;
  LoadBalancer_BGPPeerASN : option Z;
  LoadBalancer_BGPPeerPort : option Z }.

#[export] Instance LoadBalancer_eq_dec : EqDecision LoadBalancer.
Proof. solve_decision. Defined.

Record Gateway := mkGateway {
  Gateway_Enabled : option bool }.

#[export] Instance Gateway_eq_dec : EqDecision Gateway.
Proof. solve_decision. Defined.

Record LocalStorage := mkLocalStorage {
  LocalStorage_Enabled : option bool;
  LocalStorage_LocalPath : option string;
  LocalStorage_ReclaimPolicy : option string;
  LocalStorage_Default : option bool }.

#[export] Instance LocalStorage_eq_dec : EqDecision LocalStorage.
Proof. solve_decision. Defined.

Record MetricsServer := mkMetricsServer {
  MetricsServer_Enabled : option bool }.

#[export] Instance MetricsServer_eq_dec : EqDecision MetricsServer.
Proof. solve_decision. Defined.

(** [Annotations] is a Go map: [None] is the nil map. *)
Abbreviation Annotations := (option (gmap string string)).

Record ClusterConfig := mkClusterConfig {
  CC_Certificates : Certificates;
  CC_Datastore : Datastore;
  CC_APIServer : APIServer;
  CC_Kubelet : Kubelet;
  CC_Network : Network;
  CC_DNS : DNS;
  CC_Ingress : Ingress;
  CC_LoadBalancer : LoadBalancer;
  CC_Gateway : Gateway;
  CC_LocalStorage : LocalStorage;
  CC_MetricsServer : MetricsServer;
  CC_Annotations : Annotations }.

#[export] Instance ClusterConfig_eq_dec : EqDecision ClusterConfig.
Proof. solve_decision. Defined.

(** The zero values: every pointer is nil. *)
Definition empty_Certificates : Certificates := mkCertificates None None None None None None None None None None None None None.
Definition empty_Datastore : Datastore := mkDatastore None None None None None None None None None None None.
Definition empty_APIServer : APIServer := mkAPIServer None None.
Definition empty_Kubelet : Kubelet := mkKubelet None None None None.
Definition empty_Network : Network := mkNetwork None None None None.
Definition empty_DNS : DNS := mkDNS None None.
Definition empty_Ingress : Ingress := mkIngress None None None.
Definition empty_LoadBalancer : LoadBalancer := mkLoadBalancer None None None None None None None None None None.
Definition empty_Gateway : Gateway := mkGateway None.
Definition empty_LocalStorage : LocalStorage := mkLocalStorage None None None None.
Definition empty_MetricsServer : MetricsServer := mkMetricsServer None.
Definition empty_ClusterConfig : ClusterConfig :=
  mkClusterConfig empty_Certificates empty_Datastore empty_APIServer empty_Kubelet empty_Network empty_DNS empty_Ingress empty_LoadBalancer empty_Gateway empty_LocalStorage empty_MetricsServer None.

(** [Empty()]: the struct equals its zero value. *)
Definition Certificates_Empty (c : Certificates) : bool := bool_decide (c = empty_Certificates).
Definition Datastore_Empty (c : Datastore) : bool := bool_decide (c = empty_Datastore).
Definition APIServer_Empty (c : APIServer) : bool := bool_decide (c = empty_APIServer).
Definition Kubelet_Empty (c : Kubelet) : bool := bool_decide (c = empty_Kubelet).
Definition Network_Empty (c : Network) : bool := bool_decide (c = empty_Network).
Definition DNS_Empty (c : DNS) : bool := bool_decide (c = empty_DNS).
Definition Ingress_Empty (c : Ingress) : bool := bool_decide (c = empty_Ingress).
Definition LoadBalancer_Empty (c : LoadBalancer) : bool := bool_decide (c = empty_LoadBalancer).
Definition Gateway_Empty (c : Gateway) : bool := bool_decide (c = empty_Gateway).
Definition LocalStorage_Empty (c : LocalStorage) : bool := bool_decide (c = empty_LocalStorage).
Definition MetricsServer_Empty (c : MetricsServer) : bool := bool_decide (c = empty_MetricsServer).

(** ** Getters *)

Definition getField `{Zero A} (val : option A) : A := default zero val.

Definition Certificates_GetCACert (c : Certificates) : string := getField (Certificates_CACert c).
Definition Certificates_GetCAKey (c : Certificates) : string := getField (Certificates_CAKey c).
Definition Certificates_GetFrontProxyCACert (c : Certificates) : string := getField (Certificates_FrontProxyCACert c).
Definition Certificates_GetFrontProxyCAKey (c : Certificates) : string := getField (Certificates_FrontProxyCAKey c).
Definition Certificates_GetServiceAccountKey (c : Certificates) : string := getField (Certificates_ServiceAccountKey c).
Definition Certificates_GetAPIServerKubeletClientCert (c : Certificates) : string := getField (Certificates_APIServerKubeletClientCert c).
Definition Certificates_GetAPIServerKubeletClientKey (c : Certificates) : string := getField (Certificates_APIServerKubeletClientKey c).
Definition Certificates_GetAdminClientCert (c : Certificates) : string := getField (Certificates_AdminClientCert c).
Definition Certificates_GetAdminClientKey (c : Certificates) : string := getField (Certificates_AdminClientKey c).
Definition Certificates_GetK8sdPublicKey (c : Certificates) : string := getField (Certificates_K8sdPublicKey c).
Definition Certificates_GetK8sdPrivateKey (c : Certificates) : string := getField (Certificates_K8sdPrivateKey c).
Definition Datastore_GetType (c : Datastore) : string := getField (Datastore_Type c).
Definition Datastore_GetExternalServers (c : Datastore) : list string := getField (Datastore_ExternalServers c).
Definition Datastore_GetExternalCACert (c : Datastore) : string := getField (Datastore_ExternalCACert c).
Definition Datastore_GetExternalClientCert (c : Datastore) : string := getField (Datastore_ExternalClientCert c).
Definition Datastore_GetExternalClientKey (c : Datastore) : string := getField (Datastore_ExternalClientKey c).
Definition Datastore_GetEtcdCACert (c : Datastore) : string := getField (Datastore_EtcdCACert c).
Definition Datastore_GetEtcdCAKey (c : Datastore) : string := getField (Datastore_EtcdCAKey c).
Definition Datastore_GetEtcdAPIServerClientCert (c : Datastore) : string := getField (Datastore_EtcdAPIServerClientCert c).
Definition Datastore_GetEtcdAPIServerClientKey (c : Datastore) : string := getField (Datastore_EtcdAPIServerClientKey c).
Definition Datastore_GetEtcdPort (c : Datastore) : Z := getField (Datastore_EtcdPort c).
Definition Datastore_GetEtcdPeerPort (c : Datastore) : Z := getField (Datastore_EtcdPeerPort c).
Definition APIServer_GetSecurePort (c : APIServer) : Z := getField (APIServer_SecurePort c).
Definition APIServer_GetAuthorizationMode (c : APIServer) : string := getField (APIServer_AuthorizationMode c).
Definition Kubelet_GetCloudProvider (c : Kubelet) : string := getField (Kubelet_CloudProvider c).
Definition Kubelet_GetClusterDNS (c : Kubelet) : string := getField (Kubelet_ClusterDNS c).
Definition Kubelet_GetClusterDomain (c : Kubelet) : string := getField (Kubelet_ClusterDomain c).
Definition Kubelet_GetControlPlaneTaints (c : Kubelet) : list string := getField (Kubelet_ControlPlaneTaints c).
Definition Network_GetEnabled (c : Network) : bool := getField (Network_Enabled c).
Definition Network_GetPodCIDR (c : Network) : string := getField (Network_PodCIDR c).
Definition Network_GetServiceCIDR (c : Network) : string := getField (Network_ServiceCIDR c).
Definition DNS_GetEnabled (c : DNS) : bool := getField (DNS_Enabled c).
Definition DNS_GetUpstreamNameservers (c : DNS) : list string := getField (DNS_UpstreamNameservers c).
Definition Ingress_GetEnabled (c : Ingress) : bool := getField (Ingress_Enabled c).
Definition Ingress_GetDefaultTLSSecret (c : Ingress) : string := getField (Ingress_DefaultTLSSecret c).
Definition Ingress_GetEnableProxyProtocol (c : Ingress) : bool := getField (Ingress_EnableProxyProtocol c).
Definition LoadBalancer_GetEnabled (c : LoadBalancer) : bool := getField (LoadBalancer_Enabled c).
Definition LoadBalancer_GetCIDRs (c : LoadBalancer) : list string := getField (LoadBalancer_CIDRs c).
Definition LoadBalancer_GetIPRanges (c : LoadBalancer) : list LoadBalancer_IPRange := getField (LoadBalancer_IPRanges c).
Definition LoadBalancer_GetL2Mode (c : LoadBalancer) : bool := getField (LoadBalancer_L2Mode c).
Definition LoadBalancer_GetL2Interfaces (c : LoadBalancer) : list string := getField (LoadBalancer_L2Interfaces c).
Definition LoadBalancer_GetBGPMode (c : LoadBalancer) : bool := getField (LoadBalancer_BGPMode c).
Definition LoadBalancer_GetBGPLocalASN (c : LoadBalancer) : Z := getField (LoadBalancer_BGPLocalASN c).
Definition LoadBalancer_GetBGPPeerAddress (c : LoadBalancer) : string := getField (LoadBalancer_BGPPeerAddress c).
Definition LoadBalancer_GetBGPPeerASN (c : LoadBalancer) : Z := getField (LoadBalancer_BGPPeerASN c).
Definition LoadBalancer_GetBGPPeerPort (c : LoadBalancer) : Z := getField (LoadBalancer_BGPPeerPort c).
Definition Gateway_GetEnabled (c : Gateway) : bool := getField (Gateway_Enabled c).
Definition LocalStorage_GetEnabled (c : LocalStorage) : bool := getField (LocalStorage_Enabled c).
Definition LocalStorage_GetLocalPath (c : LocalStorage) : string := getField (LocalStorage_LocalPath c).
Definition LocalStorage_GetReclaimPolicy (c : LocalStorage) : string := getField (LocalStorage_ReclaimPolicy c).
Definition LocalStorage_GetDefault (c : LocalStorage) : bool := getField (LocalStorage_Default c).
Definition MetricsServer_GetEnabled (c : MetricsServer) : bool := getField (MetricsServer_Enabled c).

(** Before 1.30.2 one CA signed both server and client certificates. *)
Definition Certificates_GetClientCACert (c : Certificates) : string :=
  let v := getField (Certificates_ClientCACert c) in
  if negb (bool_decide (v = EmptyString)) then v else Certificates_GetCACert c.
Definition Certificates_GetClientCAKey (c : Certificates) : string :=
  let v := getField (Certificates_ClientCAKey c) in
  if negb (bool_decide (v = EmptyString)) then v else Certificates_GetCAKey c.

(** Old clusters have no value for kube-proxy: it is enabled there. *)
Definition Network_GetKubeProxyEnabled (c : Network) : bool :=
  match Network_KubeProxyEnabled c with
  | None => true
  | Some _ => getField (Network_KubeProxyEnabled c)
  end.

(** [Annotations.Get]: [(value, exists)]. *)
Definition Annotations_Get (a : Annotations) (key : string) : string * bool :=
  match a with
  | None => (EmptyString, false)
  | Some m => match m !! key with Some v => (v, true) | None => (EmptyString, false) end
  end.

(** ** External code

    What k8sd takes from outside this repository: the annotation keys of
    github.com/canonical/k8s-snap-api and the URL parser the validation calls
    (of which it only uses whether it fails). *)
Class Externals := {
  AnnotationBGPPeers : string;
  AnnotationAdvertiseAllPools : string;
  AnnotationAutoApprove : string;
  AnnotationDisableSeparateFeatureUpgrades : string;
  url_Parse : string → res unit }.

(** A concrete instance, to evaluate the definitions on examples. *)
Definition demo_externals : Externals := {|
  AnnotationBGPPeers := "k8sd/v1alpha1/metallb/bgp-peers";
  AnnotationAdvertiseAllPools := "k8sd/v1alpha1/metallb/advertise-all-pools";
  AnnotationAutoApprove := "k8sd/v1alpha1/csrsigning/auto-approve";
  AnnotationDisableSeparateFeatureUpgrades := "k8sd/v1alpha1/disable-separate-feature-upgrades";
  url_Parse := λ s, if has_prefix ":" s then Err (Errorf "missing protocol scheme" [s]) else Ok tt |}.

End Config.
