(* ===== verification/ConfigValidate.v ===== *)
(** * Validation of a cluster configuration

    pkg/k8sd/types/cluster_config_validate.go: the checks every stored
    configuration has passed, and a declarative description [Valid] of the
    configurations they accept. *)

From S2P Require Import Prelude GoStrings GoNet GoNetFacts Cidr Config.
Import GoStr GoNet GoNetFacts Cidr Config.

Module Validation.

Definition validateCIDRs (cidrString : string) : res unit :=
  let cidrs := split "," cidrString in
  _ ← fails_if (negb (Nat.eqb (length cidrs) 1) && negb (Nat.eqb (length cidrs) 2))
        (Errorf "must contain 1 or 2 CIDRs, but found %d instead"
           [Itoa (Z.of_nat (length cidrs))]);
  for_each (λ cidr, wrapf "%q is not a valid CIDR: %w" [cidr]
                      (_ ← ParseCIDR cidr; Ok tt)) cidrs.

(** The overlap check of one family, skipped when either side has no CIDR. *)
Definition check_family_overlap (fam podCIDR serviceCIDR pod svc : string) : res unit :=
  if (pod !=? EmptyString) && (svc !=? EmptyString) then
    overlap ← wrapf fam [] (CIDRsOverlap pod svc);
    fails_if overlap (Errorf "pod CIDR %q and service CIDR %q overlap" [podCIDR; serviceCIDR])
  else Ok tt.

Definition validateCIDROverlap (podCIDR serviceCIDR : string) : res unit :=
  '(podIPv4CIDR, podIPv6CIDR) ←
    wrapf "failed to parse pod CIDR: %w" [] (SplitCIDRStrings podCIDR);
  '(svcIPv4CIDR, svcIPv6CIDR) ←
    wrapf "failed to parse service CIDR: %w" [] (SplitCIDRStrings serviceCIDR);
  _ ← check_family_overlap "failed to check for IPv4 overlap: %w"
        podCIDR serviceCIDR podIPv4CIDR svcIPv4CIDR;
  check_family_overlap "failed to check for IPv6 overlap: %w"
    podCIDR serviceCIDR podIPv6CIDR svcIPv6CIDR.

Definition validateIPv6CIDRSize (serviceCIDR : string) : res unit :=
  '(_, svcIPv6CIDR) ← wrapf "invalid CIDR: %w" [] (SplitCIDRStrings serviceCIDR);
  if svcIPv6CIDR ==? EmptyString then Ok tt
  else
    '(_, ipv6Net) ← wrapf "invalid CIDR: %w" [] (ParseCIDR svcIPv6CIDR);
    let prefixLength := fst (Mask_Size (net_Mask ipv6Net)) in
    fails_if (prefixLength <? 108)%Z
      (Errorf "service CIDR %q cannot be larger than /108" [serviceCIDR]).

Section Validate.
Context `{Externals}.

(** The check of one load-balancer IP range. *)
Definition check_ip_range (ipRange : LoadBalancer_IPRange) : res unit :=
  let name := [LoadBalancer_IPRange_Start ipRange; LoadBalancer_IPRange_Stop ipRange] in
  start ← wrapf "load-balancer configuration contains an IP range (%#v) with an invalid start IP: %w"
            name (ParseAddr (LoadBalancer_IPRange_Start ipRange));
  stop ← wrapf "load-balancer configuration contains an IP range (%#v) with an invalid stop IP: %w"
           name (ParseAddr (LoadBalancer_IPRange_Stop ipRange));
  fails_if (Addr_Less stop start)
    (Errorf "load-balancer configuration contains an IP range (%#v) with start IP greater than the stop IP"
       name).

Definition check_bgp (c : ClusterConfig) : res unit :=
  let lb := CC_LoadBalancer c in
  if LoadBalancer_GetBGPMode lb then
    _ ← fails_if (Z.eqb (LoadBalancer_GetBGPLocalASN lb) 0)
          (Errorf "load-balancer.bgp-local-asn must be set when load-balancer.bgp-mode is enabled" []);
    let '(_, hasBGPPeersAnnotation) := Annotations_Get (CC_Annotations c) AnnotationBGPPeers in
    if negb hasBGPPeersAnnotation then
      _ ← fails_if (LoadBalancer_GetBGPPeerAddress lb ==? EmptyString)
            (Errorf "load-balancer.bgp-peer-address must be set when load-balancer.bgp-mode is enabled (or supply peers via the %s annotation)"
               [AnnotationBGPPeers]);
      fails_if (Z.eqb (LoadBalancer_GetBGPPeerASN lb) 0)
        (Errorf "load-balancer.bgp-peer-asn must be set when load-balancer.bgp-mode is enabled (or supply peers via the %s annotation)"
           [AnnotationBGPPeers])
    else Ok tt
  else Ok tt.

(** [ClusterConfig.Validate]. *)
Definition Validate (c : ClusterConfig) : res unit :=
  let pod := Network_GetPodCIDR (CC_Network c) in
  let svc := Network_GetServiceCIDR (CC_Network c) in
  _ ← wrapf "invalid pod CIDR: %w" [] (validateCIDRs pod);
  _ ← wrapf "invalid service CIDR: %w" [] (validateCIDRs svc);
  _ ← wrapf "invalid cidr configuration: %w" [] (validateCIDROverlap pod svc);
  _ ← wrapf "invalid service CIDR: %w" [] (validateIPv6CIDRSize svc);
  _ ← (if negb (Network_GetEnabled (CC_Network c)) then
         _ ← fails_if (Gateway_GetEnabled (CC_Gateway c))
               (Errorf "gateway requires network to be enabled" []);
         fails_if (Ingress_GetEnabled (CC_Ingress c))
           (Errorf "ingress requires network to be enabled" [])
       else Ok tt);
  _ ← fails_if (Network_GetEnabled (CC_Network c) &&
                (Network_KubeProxyEnabled (CC_Network c) !=? None) &&
                Network_GetKubeProxyEnabled (CC_Network c))
        (Errorf "kube-proxy-enabled cannot be set to true when network is enabled" []);
  _ ← for_each (λ cidr, wrapf "load-balancer configuration contains an invalid CIDR %q: %w" [cidr]
                          (_ ← ParseCIDR cidr; Ok tt))
        (LoadBalancer_GetCIDRs (CC_LoadBalancer c));
  _ ← for_each check_ip_range (LoadBalancer_GetIPRanges (CC_LoadBalancer c));
  _ ← check_bgp c;
  _ ← fails_if (negb (existsb (λ p, LocalStorage_GetReclaimPolicy (CC_LocalStorage c) ==? p)
                        [EmptyString; "Retain"; "Delete"]))
        (Errorf "local-storage.reclaim-policy must be one of: Retain, Delete" []);
  _ ← fails_if (LocalStorage_GetEnabled (CC_LocalStorage c) &&
                (LocalStorage_GetLocalPath (CC_LocalStorage c) ==? EmptyString))
        (Errorf "local-storage.local-path must be set when local-storage is enabled" []);
  _ ← (let v := Kubelet_GetClusterDNS (CC_Kubelet c) in
       if v !=? EmptyString then
         fails_if (ParseIP v ==? None) (Errorf "dns.service-ip must be a valid IP address" [])
       else Ok tt);
  for_each (λ server, match url_Parse server with
                      | Ok _ => Ok tt
                      | Err _ => Err (Errorf "datastore.external-servers contains invalid address: %s" [server])
                      end)
    (Datastore_GetExternalServers (CC_Datastore c)).

End Validate.

(** * Properties *)

(** ** What the checks accept *)

Definition parses (cidr : string) : Prop := is_ok (ParseCIDR cidr) = true.

(** The address [ip] is in the block written [cidr]. *)
Definition cidr_has (cidr : string) (ip : IP) : Prop :=
  ∃ ip0 n, ParseCIDR cidr = Ok (ip0, n) ∧ Contains n ip = true.

(** The CIDR of a family that [SplitCIDRStrings] selects from a list. *)
Definition family_cidr (v4 : bool) (cidrs : string) : string :=
  default EmptyString (last (List.filter (cidr_family v4) (split "," cidrs))).

Definition cidr_list_ok (cidrs : string) : Prop :=
  one_or_two (split "," cidrs) = true ∧ Forall parses (split "," cidrs).

Definition range_ok (r : LoadBalancer_IPRange) : Prop :=
  ∃ start stop, ParseAddr (LoadBalancer_IPRange_Start r) = Ok start ∧
    ParseAddr (LoadBalancer_IPRange_Stop r) = Ok stop ∧ Addr_Less stop start = false.

Record Valid `{Externals} (c : ClusterConfig) : Prop := {
  v_pod : cidr_list_ok (Network_GetPodCIDR (CC_Network c));
  v_svc : cidr_list_ok (Network_GetServiceCIDR (CC_Network c));
  v_disjoint v4 ip :
    ¬ (cidr_has (family_cidr v4 (Network_GetPodCIDR (CC_Network c))) ip ∧
       cidr_has (family_cidr v4 (Network_GetServiceCIDR (CC_Network c))) ip);
  v_svc6 ip0 n :
    ParseCIDR (family_cidr false (Network_GetServiceCIDR (CC_Network c))) = Ok (ip0, n) →
    (108 ≤ fst (Mask_Size (net_Mask n)))%Z;
  v_network : Network_GetEnabled (CC_Network c) = false →
    Gateway_GetEnabled (CC_Gateway c) = false ∧ Ingress_GetEnabled (CC_Ingress c) = false;
  v_kube_proxy : Network_GetEnabled (CC_Network c) = true →
    Network_KubeProxyEnabled (CC_Network c) ≠ Some true;
  v_lb_cidrs : Forall parses (LoadBalancer_GetCIDRs (CC_LoadBalancer c));
  v_lb_ranges : Forall range_ok (LoadBalancer_GetIPRanges (CC_LoadBalancer c));
  v_bgp : LoadBalancer_GetBGPMode (CC_LoadBalancer c) = true →
    LoadBalancer_GetBGPLocalASN (CC_LoadBalancer c) ≠ 0%Z ∧
    (snd (Annotations_Get (CC_Annotations c) AnnotationBGPPeers) = false →
     LoadBalancer_GetBGPPeerAddress (CC_LoadBalancer c) ≠ EmptyString ∧
     LoadBalancer_GetBGPPeerASN (CC_LoadBalancer c) ≠ 0%Z);
  v_reclaim : LocalStorage_GetReclaimPolicy (CC_LocalStorage c) ∈ [EmptyString; "Retain"; "Delete"];
  v_path : LocalStorage_GetEnabled (CC_LocalStorage c) = true →
    LocalStorage_GetLocalPath (CC_LocalStorage c) ≠ EmptyString;
  v_dns : Kubelet_GetClusterDNS (CC_Kubelet c) ≠ EmptyString →
    is_Some (ParseIP (Kubelet_GetClusterDNS (CC_Kubelet c)));
  v_servers : Forall (λ s, is_ok (url_Parse s) = true)
    (Datastore_GetExternalServers (CC_Datastore c)) }.

Lemma one_or_two_negb {A} (l : list A) :
  negb (Nat.eqb (length l) 1) && negb (Nat.eqb (length l) 2) = negb (one_or_two l).
Proof. unfold one_or_two. by rewrite negb_orb. Qed.

Lemma parse_check_Ok fmt cidr :
  wrapf fmt [cidr] (_ ← ParseCIDR cidr; Ok tt) = Ok tt ↔ parses cidr.
Proof. unfold parses. destruct (ParseCIDR cidr); naive_solver. Qed.

Lemma validateCIDRs_Ok s : validateCIDRs s = Ok tt ↔ cidr_list_ok s.
Proof.
  unfold validateCIDRs, cidr_list_ok.
  rewrite bind_unit_Ok, fails_if_Ok, for_each_Ok, one_or_two_negb, negb_false_iff.
  apply and_iff_compat_l, Forall_iff. intros c. apply parse_check_Ok.
Qed.

Lemma SplitCIDR_list_ok s : cidr_list_ok s →
  SplitCIDRStrings s = Ok (family_cidr true s, family_cidr false s).
Proof. intros [? ?]. by apply SplitCIDRStrings_Ok. Qed.

Lemma ParseCIDR_empty : is_ok (ParseCIDR EmptyString) = false.
Proof. done. Qed.

Lemma family_cidr_parses v4 s : cidr_list_ok s →
  family_cidr v4 s = EmptyString ∨ parses (family_cidr v4 s).
Proof.
  intros [_ Hall]. unfold family_cidr.
  destruct (last (List.filter (cidr_family v4) (split "," s))) as [c|] eqn:E; cbn; [|by left].
  right. rewrite Forall_forall in Hall. apply Hall.
  apply last_Some_elem_of in E. apply list_elem_of_In, List.filter_In in E as [E _].
  by apply list_elem_of_In.
Qed.

Lemma cidr_has_parses c ip : cidr_has c ip → parses c.
Proof. intros (ip0 & n & H & _). unfold parses. by rewrite H. Qed.

Lemma check_family_overlap_Ok fmt p0 s0 pod svc :
  pod = EmptyString ∨ parses pod → svc = EmptyString ∨ parses svc →
  check_family_overlap fmt p0 s0 pod svc = Ok tt ↔
  ∀ ip, ¬ (cidr_has pod ip ∧ cidr_has svc ip).
Proof.
  intros Hp Hs. unfold check_family_overlap.
  assert (¬ parses EmptyString) as He by (unfold parses; by rewrite ParseCIDR_empty).
  destruct (decide (pod = EmptyString)) as [->|Hpod].
  { split; [|done]. intros _ ip [?%cidr_has_parses _]. done. }
  destruct (decide (svc = EmptyString)) as [->|Hsvc].
  { rewrite andb_false_r. split; [|done]. intros _ ip [_ ?%cidr_has_parses]. done. }
  rewrite !bool_decide_eq_false_2 by done. cbn [negb andb].
  destruct Hp as [?|Hp]; [done|]. destruct Hs as [?|Hs]; [done|]. unfold parses in *.
  destruct (ParseCIDR pod) as [[ip1 n1]|] eqn:H1; [|done].
  destruct (ParseCIDR svc) as [[ip2 n2]|] eqn:H2; [|done].
  destruct (CIDRsOverlap_iff _ _ _ _ _ _ H1 H2) as (b & -> & Hb).
  cbn [wrapf mbind res_bind]. rewrite fails_if_Ok, <- not_true_iff_false, Hb.
  unfold cidr_has. rewrite H1, H2. split.
  - intros Hn ip [(? & ? & [= <- <-] & ?) (? & ? & [= <- <-] & ?)]. apply Hn. by exists ip.
  - intros Hn (ip & ? & ?). apply (Hn ip). split; by eexists _, _.
Qed.

Lemma validateCIDROverlap_Ok pod svc : cidr_list_ok pod → cidr_list_ok svc →
  validateCIDROverlap pod svc = Ok tt ↔
  ∀ v4 ip, ¬ (cidr_has (family_cidr v4 pod) ip ∧ cidr_has (family_cidr v4 svc) ip).
Proof.
  intros Hp Hs. unfold validateCIDROverlap.
  rewrite (SplitCIDR_list_ok pod), (SplitCIDR_list_ok svc) by done.
  cbn [wrapf mbind res_bind].
  rewrite bind_unit_Ok.
  rewrite !check_family_overlap_Ok by (by apply family_cidr_parses).
  split; [intros [H1 H2] [] ip; auto|intros Hn; split; intros ip; apply Hn].
Qed.

Lemma validateIPv6CIDRSize_Ok svc : cidr_list_ok svc →
  validateIPv6CIDRSize svc = Ok tt ↔
  ∀ ip0 n, ParseCIDR (family_cidr false svc) = Ok (ip0, n) →
    (108 ≤ fst (Mask_Size (net_Mask n)))%Z.
Proof.
  intros Hs. unfold validateIPv6CIDRSize. rewrite (SplitCIDR_list_ok svc) by done.
  cbn [wrapf mbind res_bind].
  destruct (family_cidr_parses false svc Hs) as [->|Hp].
  { split; [|done]. intros _ ip0 n Hn. pose proof ParseCIDR_empty as He. by rewrite Hn in He. }
  unfold parses in Hp. case_bool_decide as He; [rewrite He, ParseCIDR_empty in Hp; done|].
  destruct (ParseCIDR (family_cidr false svc)) as [[ip n]|] eqn:Hc; [|done].
  cbn [wrapf mbind res_bind]. rewrite fails_if_Ok, Z.ltb_ge.
  split; [by intros ? ? ? [= <- <-]|by eauto].
Qed.

Section Spec.
Context `{Externals}.

Lemma check_ip_range_Ok r : check_ip_range r = Ok tt ↔ range_ok r.
Proof.
  unfold check_ip_range, range_ok. rewrite bind_Ok. setoid_rewrite bind_Ok.
  setoid_rewrite wrapf_Ok. setoid_rewrite fails_if_Ok. naive_solver.
Qed.

Lemma check_bgp_Ok c : check_bgp c = Ok tt ↔
  (LoadBalancer_GetBGPMode (CC_LoadBalancer c) = true →
    LoadBalancer_GetBGPLocalASN (CC_LoadBalancer c) ≠ 0%Z ∧
    (snd (Annotations_Get (CC_Annotations c) AnnotationBGPPeers) = false →
     LoadBalancer_GetBGPPeerAddress (CC_LoadBalancer c) ≠ EmptyString ∧
     LoadBalancer_GetBGPPeerASN (CC_LoadBalancer c) ≠ 0%Z)).
Proof.
  unfold check_bgp. destruct (LoadBalancer_GetBGPMode _); [|by split].
  rewrite bind_unit_Ok, fails_if_Ok, Z.eqb_neq.
  destruct (Annotations_Get _ _) as [v []]; cbn [negb snd].
  - split; [by intros [? _] _|intros Hi; by destruct (Hi eq_refl)].
  - rewrite bind_unit_Ok, !fails_if_Ok, Z.eqb_neq, bool_decide_eq_false. tauto.
Qed.

Lemma network_check_Ok en g i e1 e2 :
  (if negb en then _ ← fails_if g e1; fails_if i e2 else Ok tt) = Ok tt ↔
  (en = false → g = false ∧ i = false).
Proof.
  destruct en; cbn [negb]; [by split|]. rewrite bind_unit_Ok, !fails_if_Ok. tauto.
Qed.

Lemma kube_proxy_check n :
  Network_GetEnabled n && (Network_KubeProxyEnabled n !=? None) &&
    Network_GetKubeProxyEnabled n = false ↔
  (Network_GetEnabled n = true → Network_KubeProxyEnabled n ≠ Some true).
Proof.
  unfold Network_GetKubeProxyEnabled, getField.
  destruct (Network_GetEnabled n), (Network_KubeProxyEnabled n) as [[]|]; cbn; naive_solver.
Qed.

Lemma reclaim_check (p : string) l :
  negb (existsb (λ q, p ==? q) l) = false ↔ p ∈ l.
Proof.
  rewrite negb_false_iff, existsb_exists. setoid_rewrite bool_decide_eq_true.
  rewrite list_elem_of_In. naive_solver.
Qed.

Lemma path_check b (p : string) :
  b && (p ==? EmptyString) = false ↔ (b = true → p ≠ EmptyString).
Proof. rewrite andb_false_iff, bool_decide_eq_false. destruct b; naive_solver. Qed.

Lemma dns_check_Ok v e :
  (if v !=? EmptyString then fails_if (ParseIP v ==? None) e else Ok tt) = Ok tt ↔
  (v ≠ EmptyString → is_Some (ParseIP v)).
Proof.
  case_bool_decide as Hv; cbn [negb]; [by split|].
  rewrite fails_if_Ok, bool_decide_eq_false, <- not_eq_None_Some. tauto.
Qed.

Lemma server_check_Ok s e :
  match url_Parse s with Ok _ => Ok tt | Err _ => Err e end = Ok tt ↔ is_ok (url_Parse s) = true.
Proof. by destruct (url_Parse s). Qed.

Lemma cidr_checks_Ok pod svc :
  (cidr_list_ok pod ∧ cidr_list_ok svc ∧ validateCIDROverlap pod svc = Ok tt ∧
   validateIPv6CIDRSize svc = Ok tt) ↔
  (cidr_list_ok pod ∧ cidr_list_ok svc ∧
   (∀ v4 ip, ¬ (cidr_has (family_cidr v4 pod) ip ∧ cidr_has (family_cidr v4 svc) ip)) ∧
   (∀ ip0 n, ParseCIDR (family_cidr false svc) = Ok (ip0, n) →
      (108 ≤ fst (Mask_Size (net_Mask n)))%Z)).
Proof.
  split; intros (Hp & Hs & H1 & H2); (split_and!; [done|done| |]);
    by first [apply validateCIDROverlap_Ok|apply validateIPv6CIDRSize_Ok].
Qed.

Lemma Validate_Valid c : Validate c = Ok tt ↔ Valid c.
Proof.
  unfold Validate. rewrite !bind_unit_Ok, !wrapf_Ok, !fails_if_Ok, !for_each_Ok,
    !validateCIDRs_Ok, check_bgp_Ok, network_check_Ok, kube_proxy_check, reclaim_check,
    path_check, dns_check_Ok.
  rewrite (Forall_iff _ _ _ (λ s, parse_check_Ok _ s)), (Forall_iff _ _ _ check_ip_range_Ok),
    (Forall_iff _ _ _ (λ s, server_check_Ok s _)).
  split.
  - intros (Hpod & Hsvc & Hov & H6 & Hnet & Hkp & Hlb & Hr & Hbgp & Hrec & Hpath & Hdns & Hsrv).
    pose proof (proj1 (cidr_checks_Ok _ _) (conj Hpod (conj Hsvc (conj Hov H6)))) as (_ & _ & ? & ?).
    by split.
  - intros [Hpod Hsvc Hov H6 Hnet Hkp Hlb Hr Hbgp Hrec Hpath Hdns Hsrv].
    pose proof (proj2 (cidr_checks_Ok _ _) (conj Hpod (conj Hsvc (conj Hov H6)))) as (_ & _ & ? & ?).
    by split_and!.
Qed.

(** C3: [Validate] accepts exactly the configurations described by [Valid]: one or two
    parsable CIDRs for pods and for services, selected pod and service blocks
    of a family without a common address, an IPv6 service block no larger
    than /108, no gateway or ingress without the network feature, kube-proxy
    not forced on beside it, ordered and parsable load-balancer ranges, a
    complete BGP configuration, and well-formed storage, DNS and datastore
    settings. *)
Theorem Validate_iff c : Validate c = Ok tt ↔ Valid c.
Proof. apply Validate_Valid. Qed.

End Spec.

(** ** Two CIDRs of one family *)

(** A configuration whose pod CIDR list has two IPv4 blocks, the first of which
    contains the service block. *)
Definition two_v4_pod_cidrs : ClusterConfig :=
  mkClusterConfig empty_Certificates empty_Datastore empty_APIServer empty_Kubelet
    (mkNetwork (Some true) (Some "10.152.0.0/16,10.1.0.0/16") (Some "10.152.183.0/24") None)
    empty_DNS empty_Ingress empty_LoadBalancer empty_Gateway empty_LocalStorage
    empty_MetricsServer None.

(** The overlap check does not see every CIDR of the list: with two CIDRs of the
    same family only the last is compared, and a configuration in which the
    first pod CIDR contains the whole service CIDR is accepted. *)
Theorem Validate_misses_first_of_family `{Externals} :
  Validate two_v4_pod_cidrs = Ok tt ∧
  ∃ pod svc ip,
    pod ∈ split "," (Network_GetPodCIDR (CC_Network two_v4_pod_cidrs)) ∧
    svc ∈ split "," (Network_GetServiceCIDR (CC_Network two_v4_pod_cidrs)) ∧
    cidr_has pod ip ∧ cidr_has svc ip.
Proof.
  split; [vm_compute; reflexivity|].
  exists "10.152.0.0/16", "10.152.183.0/24", [10; 152; 183; 1]%Z. split_and!.
  - vm_compute. constructor.
  - vm_compute. constructor.
  - eexists _, _. split; [vm_compute; reflexivity|]. reflexivity.
  - eexists _, _. split; [vm_compute; reflexivity|]. reflexivity.
Qed.

End Validation.
