(* ===== verification/ConfigMerge.v ===== *)
(** * Merging cluster configurations

    pkg/k8sd/types/cluster_config_merge_util.go and cluster_config_merge.go:
    an update overlays the set fields of the new configuration on the existing
    one, is refused when it changes a protected field, and must give a valid
    configuration. *)

From S2P Require Import Prelude GoStrings GoNet Cidr Config ConfigValidate.
Import GoStr Config Validation.

Module Merge.

(** Field [f] of the part [s] of a configuration. *)
Notation "s ▸ f" := (λ c, f (s c)) (at level 40, f at level 39, only parsing) : go_scope.

(** ** cluster_config_merge_util.go *)

Definition mergeField `{EqDecision T} (old new : option T) (allowChange : bool)
    : res (option T) :=
  match old with
  | None => Ok new
  | Some o =>
      match new with
      | None => Ok old
      | Some n =>
          if n ==? o then Ok old
          else if negb allowChange then Err (Errorf "value cannot change" [])
          else Ok new
      end
  end.

Definition mergeSliceField `{EqDecision T} (old new : option (list T)) (allowChange : bool)
    : res (option (list T)) :=
  match old with
  | None => Ok new
  | Some o =>
      match new with
      | None => Ok old
      | Some n =>
          if n ==? o then Ok old
          else if negb allowChange then Err (Errorf "value has changed" [])
          else Ok new
      end
  end.

(** One iteration of the loop over the new annotations; the order of the
    iteration does not matter, the keys of a map being distinct. *)
Definition merge_annotation (k v : string) (m : gmap string string) : gmap string string :=
  if v ==? "-" then delete k m else <[k := v]> m.
Definition mergeAnnotationsField (old new : Annotations) : Annotations :=
  match old, new with
  | None, _ => new
  | _, None => old
  | Some o, Some n => Some (map_fold merge_annotation o n)
  end.

Definition boolFieldRemainedEnabled (old new : option bool) : bool :=
  let oldVal := getField old in
  let newVal := match new with Some v => v | None => oldVal end in
  oldVal && newVal.

(** ** cluster_config_merge.go *)

Section MergeClusterConfig.
Context `{Externals} (existing new : ClusterConfig).

(** The body of the loops over the fields: [val], [old] and [new] of an entry
    are the same field of the result and of the two configurations. *)
Definition merge_value `{EqDecision T} (name : string) (f : ClusterConfig → option T)
    (allowChange : bool) : res (option T) :=
  wrapf "prevented update of %s: %w" [name] (mergeField (f existing) (f new) allowChange).
Definition merge_slice `{EqDecision T} (name : string) (f : ClusterConfig → option (list T))
    (allowChange : bool) : res (option (list T)) :=
  wrapf "prevented update of %s: %w" [name] (mergeSliceField (f existing) (f new) allowChange).
Definition merge_range (f : ClusterConfig → option (list LoadBalancer_IPRange))
    (allowChange : bool) : res (option (list LoadBalancer_IPRange)) :=
  wrapf "prevented update of load balancer IP ranges: %w" []
    (mergeSliceField (f existing) (f new) allowChange).

Definition MergeClusterConfig : res ClusterConfig :=
  v_Certificates_CACert ← merge_value "CA certificate" (CC_Certificates ▸ Certificates_CACert) false;
  v_Certificates_CAKey ← merge_value "CA key" (CC_Certificates ▸ Certificates_CAKey) false;
  v_Certificates_ClientCACert ← merge_value "client CA certificate" (CC_Certificates ▸ Certificates_ClientCACert) false;
  v_Certificates_ClientCAKey ← merge_value "client CA key" (CC_Certificates ▸ Certificates_ClientCAKey) false;
  v_Certificates_APIServerKubeletClientCert ← merge_value "apiserver-kubelet-client certificate" (CC_Certificates ▸ Certificates_APIServerKubeletClientCert) true;
  v_Certificates_APIServerKubeletClientKey ← merge_value "apiserver-kubelet-client key" (CC_Certificates ▸ Certificates_APIServerKubeletClientKey) true;
  v_Certificates_FrontProxyCACert ← merge_value "front proxy CA certificate" (CC_Certificates ▸ Certificates_FrontProxyCACert) false;
  v_Certificates_FrontProxyCAKey ← merge_value "front proxy CA key" (CC_Certificates ▸ Certificates_FrontProxyCAKey) false;
  v_Certificates_ServiceAccountKey ← merge_value "service account key" (CC_Certificates ▸ Certificates_ServiceAccountKey) false;
  v_Certificates_AdminClientCert ← merge_value "admin client certificate" (CC_Certificates ▸ Certificates_AdminClientCert) true;
  v_Certificates_AdminClientKey ← merge_value "admin client key" (CC_Certificates ▸ Certificates_AdminClientKey) true;
  v_Certificates_K8sdPublicKey ← merge_value "k8sd public key" (CC_Certificates ▸ Certificates_K8sdPublicKey) false;
  v_Certificates_K8sdPrivateKey ← merge_value "k8sd private key" (CC_Certificates ▸ Certificates_K8sdPrivateKey) false;
  v_Datastore_Type ← merge_value "datastore type" (CC_Datastore ▸ Datastore_Type) false;
  v_Datastore_ExternalCACert ← merge_value "external datastore CA certificate" (CC_Datastore ▸ Datastore_ExternalCACert) true;
  v_Datastore_ExternalClientCert ← merge_value "external datastore client certificate" (CC_Datastore ▸ Datastore_ExternalClientCert) true;
  v_Datastore_ExternalClientKey ← merge_value "external datastore client key" (CC_Datastore ▸ Datastore_ExternalClientKey) true;
  v_Datastore_EtcdCACert ← merge_value "etcd CA certificate" (CC_Datastore ▸ Datastore_EtcdCACert) false;
  v_Datastore_EtcdCAKey ← merge_value "etcd CA key" (CC_Datastore ▸ Datastore_EtcdCAKey) false;
  v_Datastore_EtcdAPIServerClientCert ← merge_value "etcd apiserver client certificate" (CC_Datastore ▸ Datastore_EtcdAPIServerClientCert) true;
  v_Datastore_EtcdAPIServerClientKey ← merge_value "etcd apiserver client key" (CC_Datastore ▸ Datastore_EtcdAPIServerClientKey) true;
  v_Network_PodCIDR ← merge_value "pod CIDR" (CC_Network ▸ Network_PodCIDR) false;
  v_Network_ServiceCIDR ← merge_value "service CIDR" (CC_Network ▸ Network_ServiceCIDR) false;
  v_APIServer_AuthorizationMode ← merge_value "kube-apiserver authorization mode" (CC_APIServer ▸ APIServer_AuthorizationMode) true;
  v_Kubelet_ClusterDNS ← merge_value "kubelet cluster DNS" (CC_Kubelet ▸ Kubelet_ClusterDNS) (negb (boolFieldRemainedEnabled (DNS_Enabled (CC_DNS existing)) (DNS_Enabled (CC_DNS new))));
  v_Kubelet_ClusterDomain ← merge_value "kubelet cluster domain" (CC_Kubelet ▸ Kubelet_ClusterDomain) true;
  v_Kubelet_CloudProvider ← merge_value "kubelet cloud provider" (CC_Kubelet ▸ Kubelet_CloudProvider) true;
  v_Ingress_DefaultTLSSecret ← merge_value "ingress default TLS secret" (CC_Ingress ▸ Ingress_DefaultTLSSecret) true;
  v_LoadBalancer_BGPPeerAddress ← merge_value "load balancer BGP peer address" (CC_LoadBalancer ▸ LoadBalancer_BGPPeerAddress) true;
  v_LocalStorage_LocalPath ← merge_value "local storage path" (CC_LocalStorage ▸ LocalStorage_LocalPath) (negb (boolFieldRemainedEnabled (LocalStorage_Enabled (CC_LocalStorage existing)) (LocalStorage_Enabled (CC_LocalStorage new))));
  v_LocalStorage_ReclaimPolicy ← merge_value "local storage reclaim policy" (CC_LocalStorage ▸ LocalStorage_ReclaimPolicy) (negb (boolFieldRemainedEnabled (LocalStorage_Enabled (CC_LocalStorage existing)) (LocalStorage_Enabled (CC_LocalStorage new))));
  v_DNS_UpstreamNameservers ← merge_slice "DNS upstream nameservers" (CC_DNS ▸ DNS_UpstreamNameservers) true;
  v_Datastore_ExternalServers ← merge_slice "external datastore servers" (CC_Datastore ▸ Datastore_ExternalServers) true;
  v_LoadBalancer_CIDRs ← merge_slice "load balancer CIDRs" (CC_LoadBalancer ▸ LoadBalancer_CIDRs) true;
  v_LoadBalancer_L2Interfaces ← merge_slice "load balancer L2 interfaces" (CC_LoadBalancer ▸ LoadBalancer_L2Interfaces) true;
  v_Kubelet_ControlPlaneTaints ← merge_slice "control-plane register with taints" (CC_Kubelet ▸ Kubelet_ControlPlaneTaints) false;
  v_LoadBalancer_IPRanges ← merge_range (CC_LoadBalancer ▸ LoadBalancer_IPRanges) true;
  v_APIServer_SecurePort ← merge_value "kube-apiserver secure port" (CC_APIServer ▸ APIServer_SecurePort) false;
  v_Datastore_EtcdPort ← merge_value "etcd client port" (CC_Datastore ▸ Datastore_EtcdPort) false;
  v_Datastore_EtcdPeerPort ← merge_value "etcd peer port" (CC_Datastore ▸ Datastore_EtcdPeerPort) false;
  v_LoadBalancer_BGPLocalASN ← merge_value "load balancer BGP local ASN" (CC_LoadBalancer ▸ LoadBalancer_BGPLocalASN) true;
  v_LoadBalancer_BGPPeerASN ← merge_value "load balancer BGP peer ASN" (CC_LoadBalancer ▸ LoadBalancer_BGPPeerASN) true;
  v_LoadBalancer_BGPPeerPort ← merge_value "load balancer BGP peer port" (CC_LoadBalancer ▸ LoadBalancer_BGPPeerPort) true;
  v_Network_Enabled ← merge_value "network enabled" (CC_Network ▸ Network_Enabled) true;
  v_Network_KubeProxyEnabled ← merge_value "network kube-proxy-enabled" (CC_Network ▸ Network_KubeProxyEnabled) true;
  v_DNS_Enabled ← merge_value "DNS enabled" (CC_DNS ▸ DNS_Enabled) true;
  v_Gateway_Enabled ← merge_value "gateway enabled" (CC_Gateway ▸ Gateway_Enabled) true;
  v_Ingress_Enabled ← merge_value "ingress enabled" (CC_Ingress ▸ Ingress_Enabled) true;
  v_Ingress_EnableProxyProtocol ← merge_value "ingress enable proxy protocol" (CC_Ingress ▸ Ingress_EnableProxyProtocol) true;
  v_LoadBalancer_Enabled ← merge_value "load balancer enabled" (CC_LoadBalancer ▸ LoadBalancer_Enabled) true;
  v_LoadBalancer_L2Mode ← merge_value "load balancer L2 mode" (CC_LoadBalancer ▸ LoadBalancer_L2Mode) true;
  v_LoadBalancer_BGPMode ← merge_value "load balancer BGP mode" (CC_LoadBalancer ▸ LoadBalancer_BGPMode) true;
  v_LocalStorage_Enabled ← merge_value "local storage enabled" (CC_LocalStorage ▸ LocalStorage_Enabled) true;
  v_LocalStorage_Default ← merge_value "local storage default" (CC_LocalStorage ▸ LocalStorage_Default) true;
  v_MetricsServer_Enabled ← merge_value "metrics server enabled" (CC_MetricsServer ▸ MetricsServer_Enabled) true;
  let config := mkClusterConfig
    (mkCertificates v_Certificates_CACert v_Certificates_CAKey v_Certificates_ClientCACert v_Certificates_ClientCAKey v_Certificates_FrontProxyCACert v_Certificates_FrontProxyCAKey v_Certificates_ServiceAccountKey v_Certificates_APIServerKubeletClientCert v_Certificates_APIServerKubeletClientKey v_Certificates_AdminClientCert v_Certificates_AdminClientKey v_Certificates_K8sdPublicKey v_Certificates_K8sdPrivateKey)
    (mkDatastore v_Datastore_Type v_Datastore_ExternalServers v_Datastore_ExternalCACert v_Datastore_ExternalClientCert v_Datastore_ExternalClientKey v_Datastore_EtcdCACert v_Datastore_EtcdCAKey v_Datastore_EtcdAPIServerClientCert v_Datastore_EtcdAPIServerClientKey v_Datastore_EtcdPort v_Datastore_EtcdPeerPort)
    (mkAPIServer v_APIServer_SecurePort v_APIServer_AuthorizationMode)
    (mkKubelet v_Kubelet_CloudProvider v_Kubelet_ClusterDNS v_Kubelet_ClusterDomain v_Kubelet_ControlPlaneTaints)
    (mkNetwork v_Network_Enabled v_Network_PodCIDR v_Network_ServiceCIDR v_Network_KubeProxyEnabled)
    (mkDNS v_DNS_Enabled v_DNS_UpstreamNameservers)
    (mkIngress v_Ingress_Enabled v_Ingress_DefaultTLSSecret v_Ingress_EnableProxyProtocol)
    (mkLoadBalancer v_LoadBalancer_Enabled v_LoadBalancer_CIDRs v_LoadBalancer_IPRanges v_LoadBalancer_L2Mode v_LoadBalancer_L2Interfaces v_LoadBalancer_BGPMode v_LoadBalancer_BGPLocalASN v_LoadBalancer_BGPPeerAddress v_LoadBalancer_BGPPeerASN v_LoadBalancer_BGPPeerPort)
    (mkGateway v_Gateway_Enabled)
    (mkLocalStorage v_LocalStorage_Enabled v_LocalStorage_LocalPath v_LocalStorage_ReclaimPolicy v_LocalStorage_Default)
    (mkMetricsServer v_MetricsServer_Enabled)
    (mergeAnnotationsField (CC_Annotations existing) (CC_Annotations new)) in
  _ ← wrapf "updated cluster configuration is not valid: %w" [] (Validate config);
  Ok config.

(** ** Specification of an update *)

(** The value of a field after an update: the new one when it is set. *)
Definition overlay {T} (old new : option T) : option T :=
  match new with Some v => Some v | None => old end.
Definition newer {T} (f : ClusterConfig → option T) : option T :=
  overlay (f existing) (f new).

(** Both configurations set the field, to different values. *)
Definition changed `{EqDecision T} (old new : option T) : bool :=
  match old, new with Some o, Some n => n !=? o | _, _ => false end.
Definition keeps `{EqDecision T} (f : ClusterConfig → option T) : Prop :=
  changed (f existing) (f new) = false.

Definition overlay_config : ClusterConfig :=
  mkClusterConfig
    (mkCertificates (newer (CC_Certificates ▸ Certificates_CACert))
       (newer (CC_Certificates ▸ Certificates_CAKey))
       (newer (CC_Certificates ▸ Certificates_ClientCACert))
       (newer (CC_Certificates ▸ Certificates_ClientCAKey))
       (newer (CC_Certificates ▸ Certificates_FrontProxyCACert))
       (newer (CC_Certificates ▸ Certificates_FrontProxyCAKey))
       (newer (CC_Certificates ▸ Certificates_ServiceAccountKey))
       (newer (CC_Certificates ▸ Certificates_APIServerKubeletClientCert))
       (newer (CC_Certificates ▸ Certificates_APIServerKubeletClientKey))
       (newer (CC_Certificates ▸ Certificates_AdminClientCert))
       (newer (CC_Certificates ▸ Certificates_AdminClientKey))
       (newer (CC_Certificates ▸ Certificates_K8sdPublicKey))
       (newer (CC_Certificates ▸ Certificates_K8sdPrivateKey)))
    (mkDatastore (newer (CC_Datastore ▸ Datastore_Type))
       (newer (CC_Datastore ▸ Datastore_ExternalServers))
       (newer (CC_Datastore ▸ Datastore_ExternalCACert))
       (newer (CC_Datastore ▸ Datastore_ExternalClientCert))
       (newer (CC_Datastore ▸ Datastore_ExternalClientKey))
       (newer (CC_Datastore ▸ Datastore_EtcdCACert))
       (newer (CC_Datastore ▸ Datastore_EtcdCAKey))
       (newer (CC_Datastore ▸ Datastore_EtcdAPIServerClientCert))
       (newer (CC_Datastore ▸ Datastore_EtcdAPIServerClientKey))
       (newer (CC_Datastore ▸ Datastore_EtcdPort))
       (newer (CC_Datastore ▸ Datastore_EtcdPeerPort)))
    (mkAPIServer (newer (CC_APIServer ▸ APIServer_SecurePort))
       (newer (CC_APIServer ▸ APIServer_AuthorizationMode)))
    (mkKubelet (newer (CC_Kubelet ▸ Kubelet_CloudProvider))
       (newer (CC_Kubelet ▸ Kubelet_ClusterDNS))
       (newer (CC_Kubelet ▸ Kubelet_ClusterDomain))
       (newer (CC_Kubelet ▸ Kubelet_ControlPlaneTaints)))
    (mkNetwork (newer (CC_Network ▸ Network_Enabled))
       (newer (CC_Network ▸ Network_PodCIDR))
       (newer (CC_Network ▸ Network_ServiceCIDR))
       (newer (CC_Network ▸ Network_KubeProxyEnabled)))
    (mkDNS (newer (CC_DNS ▸ DNS_Enabled))
       (newer (CC_DNS ▸ DNS_UpstreamNameservers)))
    (mkIngress (newer (CC_Ingress ▸ Ingress_Enabled))
       (newer (CC_Ingress ▸ Ingress_DefaultTLSSecret))
       (newer (CC_Ingress ▸ Ingress_EnableProxyProtocol)))
    (mkLoadBalancer (newer (CC_LoadBalancer ▸ LoadBalancer_Enabled))
       (newer (CC_LoadBalancer ▸ LoadBalancer_CIDRs))
       (newer (CC_LoadBalancer ▸ LoadBalancer_IPRanges))
       (newer (CC_LoadBalancer ▸ LoadBalancer_L2Mode))
       (newer (CC_LoadBalancer ▸ LoadBalancer_L2Interfaces))
       (newer (CC_LoadBalancer ▸ LoadBalancer_BGPMode))
       (newer (CC_LoadBalancer ▸ LoadBalancer_BGPLocalASN))
       (newer (CC_LoadBalancer ▸ LoadBalancer_BGPPeerAddress))
       (newer (CC_LoadBalancer ▸ LoadBalancer_BGPPeerASN))
       (newer (CC_LoadBalancer ▸ LoadBalancer_BGPPeerPort)))
    (mkGateway (newer (CC_Gateway ▸ Gateway_Enabled)))
    (mkLocalStorage (newer (CC_LocalStorage ▸ LocalStorage_Enabled))
       (newer (CC_LocalStorage ▸ LocalStorage_LocalPath))
       (newer (CC_LocalStorage ▸ LocalStorage_ReclaimPolicy))
       (newer (CC_LocalStorage ▸ LocalStorage_Default)))
    (mkMetricsServer (newer (CC_MetricsServer ▸ MetricsServer_Enabled)))
    (mergeAnnotationsField (CC_Annotations existing) (CC_Annotations new)).

(** The protected fields: cluster-wide keys and CAs, the datastore type and
    ports, the CIDRs, the taints, and, while their feature stays enabled, the
    DNS service IP and the local storage settings. *)
Definition Frozen : Prop :=
  keeps (CC_Certificates ▸ Certificates_CACert) ∧
  keeps (CC_Certificates ▸ Certificates_CAKey) ∧
  keeps (CC_Certificates ▸ Certificates_ClientCACert) ∧
  keeps (CC_Certificates ▸ Certificates_ClientCAKey) ∧
  keeps (CC_Certificates ▸ Certificates_FrontProxyCACert) ∧
  keeps (CC_Certificates ▸ Certificates_FrontProxyCAKey) ∧
  keeps (CC_Certificates ▸ Certificates_ServiceAccountKey) ∧
  keeps (CC_Certificates ▸ Certificates_K8sdPublicKey) ∧
  keeps (CC_Certificates ▸ Certificates_K8sdPrivateKey) ∧
  keeps (CC_Datastore ▸ Datastore_Type) ∧
  keeps (CC_Datastore ▸ Datastore_EtcdCACert) ∧
  keeps (CC_Datastore ▸ Datastore_EtcdCAKey) ∧
  keeps (CC_Network ▸ Network_PodCIDR) ∧
  keeps (CC_Network ▸ Network_ServiceCIDR) ∧
  (boolFieldRemainedEnabled (DNS_Enabled (CC_DNS existing)) (DNS_Enabled (CC_DNS new)) = true →
   keeps (CC_Kubelet ▸ Kubelet_ClusterDNS)) ∧
  (boolFieldRemainedEnabled (LocalStorage_Enabled (CC_LocalStorage existing)) (LocalStorage_Enabled (CC_LocalStorage new)) = true →
   keeps (CC_LocalStorage ▸ LocalStorage_LocalPath)) ∧
  (boolFieldRemainedEnabled (LocalStorage_Enabled (CC_LocalStorage existing)) (LocalStorage_Enabled (CC_LocalStorage new)) = true →
   keeps (CC_LocalStorage ▸ LocalStorage_ReclaimPolicy)) ∧
  keeps (CC_Kubelet ▸ Kubelet_ControlPlaneTaints) ∧
  keeps (CC_APIServer ▸ APIServer_SecurePort) ∧
  keeps (CC_Datastore ▸ Datastore_EtcdPort) ∧
  keeps (CC_Datastore ▸ Datastore_EtcdPeerPort).

End MergeClusterConfig.

(** * Properties *)

Lemma mergeField_eq `{EqDecision T} (o n : option T) a :
  mergeField o n a =
  if changed o n && negb a then Err (Errorf "value cannot change" []) else Ok (overlay o n).
Proof.
  unfold mergeField, changed, overlay. destruct o as [o|], n as [n|]; try done.
  case_bool_decide as E; [by rewrite E|]. by destruct a.
Qed.

Lemma mergeSliceField_eq `{EqDecision T} (o n : option (list T)) a :
  mergeSliceField o n a =
  if changed o n && negb a then Err (Errorf "value has changed" []) else Ok (overlay o n).
Proof.
  unfold mergeSliceField, changed, overlay. destruct o as [o|], n as [n|]; try done.
  case_bool_decide as E; [by rewrite E|]. by destruct a.
Qed.

Lemma merge_value_Ok `{EqDecision T} e n name (f : ClusterConfig → option T) a
    {B} (k : option T → res B) b :
  (v ← merge_value e n name f a; k v) = Ok b ↔
  changed (f e) (f n) && negb a = false ∧ k (newer e n f) = Ok b.
Proof.
  unfold merge_value. rewrite mergeField_eq. destruct (changed _ _ && _); naive_solver.
Qed.
Lemma merge_slice_Ok `{EqDecision T} e n name (f : ClusterConfig → option (list T)) a
    {B} (k : option (list T) → res B) b :
  (v ← merge_slice e n name f a; k v) = Ok b ↔
  changed (f e) (f n) && negb a = false ∧ k (newer e n f) = Ok b.
Proof.
  unfold merge_slice. rewrite mergeSliceField_eq. destruct (changed _ _ && _); naive_solver.
Qed.
Lemma merge_range_Ok e n f a {B} (k : option (list LoadBalancer_IPRange) → res B) b :
  (v ← merge_range e n f a; k v) = Ok b ↔
  changed (f e) (f n) && negb a = false ∧ k (newer e n f) = Ok b.
Proof.
  unfold merge_range. rewrite mergeSliceField_eq. destruct (changed _ _ && _); naive_solver.
Qed.

Lemma guarded_change (c b : bool) : c && negb (negb b) = false ↔ (b = true → c = false).
Proof. destruct c, b; naive_solver. Qed.

(** Peels one field off a merge. *)
Ltac merge_step_in H :=
  first [apply merge_value_Ok in H as [? H]|apply merge_slice_Ok in H as [? H]
        |apply merge_range_Ok in H as [? H]]; cbn beta in *.
Ltac merge_step :=
  first [apply merge_value_Ok|apply merge_slice_Ok|apply merge_range_Ok];
  split; [cbn beta|].

Section Spec.
Context `{Externals}.

Lemma MergeClusterConfig_Ok e n c :
  MergeClusterConfig e n = Ok c ↔
  Frozen e n ∧ c = overlay_config e n ∧ Validate c = Ok tt.
Proof.
  unfold MergeClusterConfig. split.
  - intros Hm. do 55 merge_step_in Hm.
    apply bind_unit_Ok in Hm as [Hv%wrapf_Ok [= <-]].
    split; [|by split]. unfold Frozen, keeps.
    rewrite ?andb_true_r, ?guarded_change in *. by split_and!.
  - intros (HF & -> & Hv). unfold Frozen, keeps in HF. destruct_and!.
    do 55 (merge_step; [rewrite ?andb_true_r, ?andb_false_r, ?guarded_change; by auto|]).
    apply bind_unit_Ok. by rewrite wrapf_Ok.
Qed.

(** C2: [MergeClusterConfig] succeeds exactly when no protected field changes and the
    overlaid configuration is valid, and then returns that overlay: every field
    has its new value where one is set and keeps its old value otherwise. *)
Theorem MergeClusterConfig_spec e n c :
  MergeClusterConfig e n = Ok c ↔ Frozen e n ∧ c = overlay_config e n ∧ Valid c.
Proof. by rewrite MergeClusterConfig_Ok, Validate_Valid. Qed.

End Spec.

(** ** Annotations *)

Lemma merge_annotations_lookup (o n : gmap string string) k :
  map_fold merge_annotation o n !! k =
  match n !! k with
  | Some v => if v ==? "-" then None else Some v
  | None => o !! k
  end.
Proof.
  revert k. refine (map_fold_weak_ind (λ r m, ∀ k, r !! k = match m !! k with
    | Some v => if v ==? "-" then None else Some v | None => o !! k end) _ _ _ _ n).
  - intros k. by rewrite lookup_empty.
  - intros i x m r Hi IH k. unfold merge_annotation. destruct (decide (i = k)) as [->|Hne].
    + rewrite lookup_insert_eq. case_bool_decide; [apply lookup_delete_eq|apply lookup_insert_eq].
    + rewrite lookup_insert_ne by done.
      case_bool_decide; [rewrite lookup_delete_ne by done|rewrite lookup_insert_ne by done]; apply IH.
Qed.

(** On two non-nil annotation maps an update sets the new keys, removes those set
    to the marker "-", and leaves the others; when the existing map is nil the new
    one is stored as it is, its "-" values included. *)
Theorem mergeAnnotationsField_spec (o n : gmap string string) k :
  (∃ m, mergeAnnotationsField (Some o) (Some n) = Some m ∧
        m !! k = match n !! k with
                 | Some v => if v ==? "-" then None else Some v
                 | None => o !! k
                 end) ∧
  mergeAnnotationsField None (Some n) = Some n ∧
  mergeAnnotationsField (Some o) None = Some o.
Proof. split; [|done]. eexists. split; [done|]. apply merge_annotations_lookup. Qed.

(** No annotation of the update is the removal marker. *)
Definition no_marker (a : Annotations) : Prop :=
  match a with None => True | Some m => ∀ k, m !! k ≠ Some "-" end.

Lemma mergeAnnotations_idemp a b : is_Some a ∨ no_marker b →
  mergeAnnotationsField (mergeAnnotationsField a b) b = mergeAnnotationsField a b.
Proof.
  destruct a as [o|], b as [n|]; cbn; intros Hab; try done.
  - f_equal. apply map_eq. intros k. rewrite !merge_annotations_lookup. by destruct (n !! k).
  - destruct Hab as [[? ?]|Hn]; [done|]. f_equal. apply map_eq. intros k.
    rewrite merge_annotations_lookup. specialize (Hn k). destruct (n !! k) as [v|]; [|done].
    case_bool_decide; [by subst|done].
Qed.

(** ** Repeating and omitting updates *)

Lemma overlay_idemp {T} (o n : option T) : overlay (overlay o n) n = overlay o n.
Proof. by destruct n. Qed.
Lemma overlay_unchanged `{EqDecision T} (o n : option T) : changed (overlay o n) n = false.
Proof.
  destruct n as [v|]; cbn; [|by destruct o]. by rewrite bool_decide_eq_true_2.
Qed.
Lemma overlay_None {T} (o : option T) : overlay o None = o.
Proof. done. Qed.
Lemma changed_None `{EqDecision T} (o : option T) : changed o None = false.
Proof. by destruct o. Qed.

Lemma overlay_config_idemp e n : is_Some (CC_Annotations e) ∨ no_marker (CC_Annotations n) →
  overlay_config (overlay_config e n) n = overlay_config e n.
Proof.
  intros Ha. unfold overlay_config, newer. cbn. by rewrite !overlay_idemp, mergeAnnotations_idemp.
Qed.

Lemma Frozen_overlay e n : Frozen (overlay_config e n) n.
Proof.
  unfold Frozen, keeps, overlay_config, newer. cbn.
  split_and!; intros; apply overlay_unchanged.
Qed.

Section Updates.
Context `{Externals}.

(** Applying an update twice is the same as applying it once: the second
    [MergeClusterConfig] succeeds and returns the same configuration, provided
    the stored annotations are not nil or the update has no removal marker. *)
Theorem MergeClusterConfig_idempotent e n c :
  is_Some (CC_Annotations e) ∨ no_marker (CC_Annotations n) →
  MergeClusterConfig e n = Ok c → MergeClusterConfig c n = Ok c.
Proof.
  rewrite !MergeClusterConfig_Ok. intros Ha (_ & -> & Hv). split; [apply Frozen_overlay|].
  by rewrite overlay_config_idemp.
Qed.

(** An update that sets nothing leaves a valid configuration unchanged. *)
Theorem MergeClusterConfig_empty e :
  Validate e = Ok tt → MergeClusterConfig e empty_ClusterConfig = Ok e.
Proof.
  intros Hv. apply MergeClusterConfig_Ok. split.
  - unfold Frozen, keeps. cbn. split_and!; intros; apply changed_None.
  - split; [|done]. destruct e as [[] [] [] [] [] [] [] [] [] [] [] ann].
    unfold overlay_config, newer. cbn. by destruct ann.
Qed.

End Updates.

(** A valid configuration with the default networks, used as a witness. *)
Definition base_config : ClusterConfig :=
  mkClusterConfig empty_Certificates empty_Datastore empty_APIServer empty_Kubelet
    (mkNetwork (Some true) (Some "10.1.0.0/16") (Some "10.152.183.0/24") None)
    empty_DNS empty_Ingress empty_LoadBalancer empty_Gateway empty_LocalStorage
    empty_MetricsServer (Some ∅).

Lemma MergeClusterConfig_idempotent_witness :
  @MergeClusterConfig demo_externals base_config base_config = Ok base_config.
Proof.
  apply (@MergeClusterConfig_idempotent demo_externals base_config base_config base_config).
  - left. by exists ∅.
  - vm_compute. reflexivity.
Defined.

Lemma MergeClusterConfig_empty_witness :
  @MergeClusterConfig demo_externals base_config empty_ClusterConfig = Ok base_config.
Proof. apply (@MergeClusterConfig_empty demo_externals). vm_compute. reflexivity. Defined.

End Merge.
