(* ===== verification/ConfigDefaults.v ===== *)
(** * Default values of a cluster configuration

    pkg/k8sd/types/cluster_config_defaults.go. *)

From S2P Require Import Prelude GoStrings GoNet Cidr Config ConfigValidate.
Import GoStr Config Validation.

Module Defaults.

(** [if x == nil { x = Pointer(d) }]. *)
Definition if_nil {A} (x : option A) (d : A) : option A := Some (default d x).
(** [if GetX() == zero { x = Pointer(d) }]. *)
Definition if_zero `{Zero A, EqDecision A} (x : option A) (d : A) : option A :=
  if getField x ==? zero then Some d else x.

Definition Network_SetDefaults (c : Network) : Network :=
  let enabled := if_nil (Network_Enabled c) false in
  mkNetwork enabled
    (if_zero (Network_PodCIDR c) "10.1.0.0/16")
    (if_zero (Network_ServiceCIDR c) "10.152.183.0/24")
    (if_nil (Network_KubeProxyEnabled c) (negb (getField enabled))).

Definition APIServer_SetDefaults (c : APIServer) : APIServer :=
  mkAPIServer (if_zero (APIServer_SecurePort c) 6443%Z)
    (if_zero (APIServer_AuthorizationMode c) "Node,RBAC").

Definition Datastore_SetDefaults (c : Datastore) : Datastore :=
  mkDatastore (if_zero (Datastore_Type c) "etcd")
    (Datastore_ExternalServers c) (Datastore_ExternalCACert c)
    (Datastore_ExternalClientCert c) (Datastore_ExternalClientKey c)
    (Datastore_EtcdCACert c) (Datastore_EtcdCAKey c)
    (Datastore_EtcdAPIServerClientCert c) (Datastore_EtcdAPIServerClientKey c)
    (if_zero (Datastore_EtcdPort c) 2379%Z)
    (if_zero (Datastore_EtcdPeerPort c) 2380%Z).

Definition Kubelet_SetDefaults (c : Kubelet) : Kubelet :=
  mkKubelet (Kubelet_CloudProvider c) (Kubelet_ClusterDNS c)
    (if_zero (Kubelet_ClusterDomain c) "cluster.local") (Kubelet_ControlPlaneTaints c).

Definition DNS_SetDefaults (c : DNS) : DNS :=
  mkDNS (if_nil (DNS_Enabled c) false)
    (if Nat.eqb (length (DNS_GetUpstreamNameservers c)) 0 then Some ["/etc/resolv.conf"]
     else DNS_UpstreamNameservers c).

Definition LocalStorage_SetDefaults (c : LocalStorage) : LocalStorage :=
  mkLocalStorage (if_nil (LocalStorage_Enabled c) false)
    (if_zero (LocalStorage_LocalPath c) "/var/snap/k8s/common/rawfile-storage")
    (if_zero (LocalStorage_ReclaimPolicy c) "Delete")
    (if_nil (LocalStorage_Default c) true).

Definition LoadBalancer_SetDefaults (c : LoadBalancer) : LoadBalancer :=
  mkLoadBalancer (if_nil (LoadBalancer_Enabled c) false)
    (if_nil (LoadBalancer_CIDRs c) []) (LoadBalancer_IPRanges c)
    (if_nil (LoadBalancer_L2Mode c) true) (if_nil (LoadBalancer_L2Interfaces c) [])
    (if_nil (LoadBalancer_BGPMode c) false) (if_nil (LoadBalancer_BGPLocalASN c) 0%Z)
    (if_nil (LoadBalancer_BGPPeerAddress c) EmptyString)
    (if_nil (LoadBalancer_BGPPeerASN c) 0%Z) (if_nil (LoadBalancer_BGPPeerPort c) 179%Z).

Definition Ingress_SetDefaults (c : Ingress) : Ingress :=
  mkIngress (if_nil (Ingress_Enabled c) false)
    (if_nil (Ingress_DefaultTLSSecret c) EmptyString)
    (if_nil (Ingress_EnableProxyProtocol c) false).

(** [ClusterConfig.SetDefaults]: the assignments of the source, grouped by the
    struct they write; each reads only the struct it writes. *)
Definition SetDefaults (c : ClusterConfig) : ClusterConfig :=
  mkClusterConfig (CC_Certificates c) (Datastore_SetDefaults (CC_Datastore c))
    (APIServer_SetDefaults (CC_APIServer c)) (Kubelet_SetDefaults (CC_Kubelet c))
    (Network_SetDefaults (CC_Network c)) (DNS_SetDefaults (CC_DNS c))
    (Ingress_SetDefaults (CC_Ingress c)) (LoadBalancer_SetDefaults (CC_LoadBalancer c))
    (mkGateway (if_nil (Gateway_Enabled (CC_Gateway c)) false))
    (LocalStorage_SetDefaults (CC_LocalStorage c))
    (mkMetricsServer (if_nil (MetricsServer_Enabled (CC_MetricsServer c)) true))
    (CC_Annotations c).

(** * Properties *)

Lemma if_nil_idemp {A} (x : option A) d d' : if_nil (if_nil x d) d' = if_nil x d.
Proof. by destruct x. Qed.
Lemma if_zero_idemp `{Zero A, EqDecision A} (x : option A) (d : A) : d ≠ zero →
  if_zero (if_zero x d) d = if_zero x d.
Proof. unfold if_zero. intros Hd. repeat case_bool_decide; congruence. Qed.

(** [SetDefaults] is idempotent: a second application changes nothing. *)
Theorem SetDefaults_idempotent c : SetDefaults (SetDefaults c) = SetDefaults c.
Proof.
  destruct c as [? ? ? ? n d ? ? ? ? ? ?]. unfold SetDefaults. cbn. f_equal.
  - unfold Datastore_SetDefaults. cbn. by rewrite !if_zero_idemp.
  - unfold APIServer_SetDefaults. cbn. by rewrite !if_zero_idemp.
  - unfold Kubelet_SetDefaults. cbn. by rewrite !if_zero_idemp.
  - unfold Network_SetDefaults. cbn. by rewrite !if_zero_idemp, !if_nil_idemp.
  - unfold DNS_SetDefaults, DNS_GetUpstreamNameservers. cbn. f_equal.
    destruct d as [? [[|x l]|]]; done.
  - unfold LocalStorage_SetDefaults. cbn. by rewrite !if_zero_idemp.
Qed.

(** The fields of a configuration that SetDefaults always leaves set. *)
Definition defaulted (c : ClusterConfig) : Prop :=
  is_Some (Network_Enabled (CC_Network c)) ∧ is_Some (Network_KubeProxyEnabled (CC_Network c)) ∧
  Network_GetPodCIDR (CC_Network c) ≠ EmptyString ∧
  Network_GetServiceCIDR (CC_Network c) ≠ EmptyString ∧
  APIServer_GetSecurePort (CC_APIServer c) ≠ 0%Z ∧
  APIServer_GetAuthorizationMode (CC_APIServer c) ≠ EmptyString ∧
  Datastore_GetType (CC_Datastore c) ≠ EmptyString ∧
  Datastore_GetEtcdPort (CC_Datastore c) ≠ 0%Z ∧ Datastore_GetEtcdPeerPort (CC_Datastore c) ≠ 0%Z ∧
  Kubelet_GetClusterDomain (CC_Kubelet c) ≠ EmptyString ∧
  DNS_GetUpstreamNameservers (CC_DNS c) ≠ [] ∧
  LocalStorage_GetLocalPath (CC_LocalStorage c) ≠ EmptyString ∧
  LocalStorage_GetReclaimPolicy (CC_LocalStorage c) ≠ EmptyString.

Lemma getField_if_zero `{Zero A, EqDecision A} (x : option A) (d : A) : d ≠ zero →
  getField (if_zero x d) ≠ zero.
Proof. unfold if_zero. intros Hd. by case_bool_decide. Qed.

Lemma getField_nonzero `{Zero A, EqDecision A} (x : option A) (d : A) : getField x ≠ zero →
  if_zero x d = x.
Proof. unfold if_zero. intros Hd. by case_bool_decide. Qed.

(** After [SetDefaults] the networks, the ports, the datastore type, the domain, the
    nameservers and the storage settings are all set and non-empty, and a
    configuration that already has them, with every flag set, is unchanged in
    these structs; when kube-proxy was left to its default it is never forced on
    beside the network feature, so that check of [Validate] passes. *)
Theorem SetDefaults_complete c :
  defaulted (SetDefaults c) ∧
  (defaulted c → CC_Network (SetDefaults c) = CC_Network c ∧
     CC_APIServer (SetDefaults c) = CC_APIServer c ∧
     CC_Datastore (SetDefaults c) = CC_Datastore c ∧ CC_Kubelet (SetDefaults c) = CC_Kubelet c) ∧
  (Network_KubeProxyEnabled (CC_Network c) = None →
   Network_GetEnabled (CC_Network (SetDefaults c)) = true →
   Network_KubeProxyEnabled (CC_Network (SetDefaults c)) = Some false).
Proof.
  split_and!.
  - unfold defaulted. cbn. split_and!; try (by eexists); try (by apply getField_if_zero).
    unfold DNS_GetUpstreamNameservers. cbn. destruct (_ =? 0) eqn:E; [done|].
    apply Nat.eqb_neq in E. unfold DNS_GetUpstreamNameservers in E.
    intros Hn. unfold getField in E. by rewrite Hn in E.
  - intros (H1 & H2 & Hp & Hs & Hsp & Ha & Ht & Hep & Hpp & Hd & _). cbn.
    destruct c as [cert ds [] [] [] ? ? ? ? ? ? ?]; cbn in *.
    destruct H1 as [en ->], H2 as [kp ->].
    split_and!.
    + unfold Network_SetDefaults. cbn. by rewrite !getField_nonzero.
    + unfold APIServer_SetDefaults. cbn. by rewrite !getField_nonzero.
    + destruct ds. unfold Datastore_SetDefaults. cbn in *. by rewrite !getField_nonzero.
    + unfold Kubelet_SetDefaults. cbn. by rewrite !getField_nonzero.
  - cbn. unfold Network_GetEnabled. cbn. intros ->. cbn. intros ->. done.
Qed.

End Defaults.
