(* ===== verification/ConfigConvert.v ===== *)
(** * Conversions between the public API and the cluster configuration

    pkg/k8sd/types/cluster_config_convert.go,
    cluster_config_convert_loadbalancer.go, cluster_config_datastore_convert.go
    and the API server arguments of cluster_config_datastore.go.  The structs of
    the public API (github.com/canonical/k8s-snap-api) are external: the records
    below have the fields these conversions read and write, and the getters of
    its bootstrap configuration are operations of a class. *)

From S2P Require Import Prelude GoStrings GoNet Cidr Config.
Import GoStr GoNet Cidr Config.

Module Convert.

(** ** The load-balancer CIDRs *)

Definition load_balancer_entry (cidr : string) : res (string + LoadBalancer_IPRange) :=
  if contains_char "-" cidr then
    match split "-" cidr with
    | [lo; hi] =>
        start ← wrapf "load-balancer.cidrs contains an IP range (%q) with an invalid start IP (%q): %w"
                  [cidr; lo] (ParseAddr lo);
        stop ← wrapf "load-balancer.cidrs contains an IP range (%q) with an invalid stop IP (%q): %w"
                  [cidr; hi] (ParseAddr hi);
        if Addr_Less stop start then
          Err (Errorf "load-balancer.cidrs contains an IP range (%q) with start IP (%q) greater than the stop IP (%q)"
                 [cidr; lo; hi])
        else Ok (inr (mkLoadBalancer_IPRange lo hi))
    | _ => Err (Errorf "load-balancer.cidrs contains an IP range (%q) not in $START-$END format" [cidr])
    end
  else
    _ ← wrapf "load-balancer.cidrs contains an invalid CIDR %q: %w" [cidr] (ParseCIDR cidr);
    Ok (inl cidr).

Fixpoint load_balancer_loop (inCIDRs : list string) (outCIDRs : list string)
    (outRanges : list LoadBalancer_IPRange) : res (list string * list LoadBalancer_IPRange) :=
  match inCIDRs with
  | [] => Ok (outCIDRs, outRanges)
  | cidr :: inCIDRs =>
      e ← load_balancer_entry cidr;
      match e with
      | inl c => load_balancer_loop inCIDRs (outCIDRs ++ [c]) outRanges
      | inr r => load_balancer_loop inCIDRs outCIDRs (outRanges ++ [r])
      end
  end.

Definition loadBalancerCIDRsFromAPI (inCIDRs : option (list string))
    : res (option (list string) * option (list LoadBalancer_IPRange)) :=
  match inCIDRs with
  | None => Ok (None, None)
  | Some l => '(cs, rs) ← load_balancer_loop l [] []; Ok (Some cs, Some rs)
  end.

Definition range_String (r : LoadBalancer_IPRange) : string :=
  LoadBalancer_IPRange_Start r +:+ "-" +:+ LoadBalancer_IPRange_Stop r.

Definition loadBalancerCIDRsToAPI (inCIDRs : option (list string))
    (inRanges : option (list LoadBalancer_IPRange)) : option (list string) :=
  match inCIDRs, inRanges with
  | None, None => None
  | _, _ => Some (default [] inCIDRs ++ map range_String (default [] inRanges))
  end.

(** ** The user-facing configuration *)

Record NetworkConfig := mkNetworkConfig {
  api_Network_Enabled : option bool;
  api_Network_KubeProxyEnabled : option bool }.
Record DNSConfig := mkDNSConfig {
  api_DNS_Enabled : option bool;
  api_DNS_ClusterDomain : option string;
  api_DNS_ServiceIP : option string;
  api_DNS_UpstreamNameservers : option (list string) }.
Record IngressConfig := mkIngressConfig {
  api_Ingress_Enabled : option bool;
  api_Ingress_DefaultTLSSecret : option string;
  api_Ingress_EnableProxyProtocol : option bool }.
Record LoadBalancerConfig := mkLoadBalancerConfig {
  api_LB_Enabled : option bool;
  api_LB_CIDRs : option (list string);
  api_LB_L2Mode : option bool;
  api_LB_L2Interfaces : option (list string);
  api_LB_BGPMode : option bool;
  api_LB_BGPLocalASN : option Z;
  api_LB_BGPPeerAddress : option string;
  api_LB_BGPPeerASN : option Z;
  api_LB_BGPPeerPort : option Z }.
Record LocalStorageConfig := mkLocalStorageConfig {
  api_LS_Enabled : option bool;
  api_LS_LocalPath : option string;
  api_LS_ReclaimPolicy : option string;
  api_LS_Default : option bool }.
Record UserFacingClusterConfig := mkUserFacing {
  u_Network : NetworkConfig;
  u_DNS : DNSConfig;
  u_Ingress : IngressConfig;
  u_LoadBalancer : LoadBalancerConfig;
  u_LocalStorage : LocalStorageConfig;
  u_Gateway_Enabled : option bool;
  u_MetricsServer_Enabled : option bool;
  u_CloudProvider : option string;
  u_Annotations : Annotations }.

Definition ClusterConfigFromUserFacing (u : UserFacingClusterConfig) : res ClusterConfig :=
  '(cidrs, ipRanges) ← wrapf "invalid load-balancer.cidrs: %w" []
      (loadBalancerCIDRsFromAPI (api_LB_CIDRs (u_LoadBalancer u)));
  let lb := u_LoadBalancer u in
  Ok {| CC_Certificates := empty_Certificates;
        CC_Datastore := empty_Datastore;
        CC_APIServer := empty_APIServer;
        CC_Kubelet := mkKubelet (u_CloudProvider u) (api_DNS_ServiceIP (u_DNS u))
                        (api_DNS_ClusterDomain (u_DNS u)) None;
        CC_Network := mkNetwork (api_Network_Enabled (u_Network u)) None None
                        (api_Network_KubeProxyEnabled (u_Network u));
        CC_DNS := mkDNS (api_DNS_Enabled (u_DNS u)) (api_DNS_UpstreamNameservers (u_DNS u));
        CC_Ingress := mkIngress (api_Ingress_Enabled (u_Ingress u))
                        (api_Ingress_DefaultTLSSecret (u_Ingress u))
                        (api_Ingress_EnableProxyProtocol (u_Ingress u));
        CC_LoadBalancer := mkLoadBalancer (api_LB_Enabled lb) cidrs ipRanges (api_LB_L2Mode lb)
                             (api_LB_L2Interfaces lb) (api_LB_BGPMode lb) (api_LB_BGPLocalASN lb)
                             (api_LB_BGPPeerAddress lb) (api_LB_BGPPeerASN lb)
                             (api_LB_BGPPeerPort lb);
        CC_Gateway := mkGateway (u_Gateway_Enabled u);
        CC_LocalStorage := mkLocalStorage (api_LS_Enabled (u_LocalStorage u))
                             (api_LS_LocalPath (u_LocalStorage u))
                             (api_LS_ReclaimPolicy (u_LocalStorage u))
                             (api_LS_Default (u_LocalStorage u));
        CC_MetricsServer := mkMetricsServer (u_MetricsServer_Enabled u);
        CC_Annotations := u_Annotations u |}.

Definition ToUserFacing (c : ClusterConfig) : UserFacingClusterConfig :=
  let lb := CC_LoadBalancer c in
  {| u_Network := mkNetworkConfig (Network_Enabled (CC_Network c))
                    (Network_KubeProxyEnabled (CC_Network c));
     u_DNS := mkDNSConfig (DNS_Enabled (CC_DNS c)) (Kubelet_ClusterDomain (CC_Kubelet c))
                (Kubelet_ClusterDNS (CC_Kubelet c)) (DNS_UpstreamNameservers (CC_DNS c));
     u_Ingress := mkIngressConfig (Ingress_Enabled (CC_Ingress c))
                    (Ingress_DefaultTLSSecret (CC_Ingress c))
                    (Ingress_EnableProxyProtocol (CC_Ingress c));
     u_LoadBalancer := mkLoadBalancerConfig (LoadBalancer_Enabled lb)
                         (loadBalancerCIDRsToAPI (LoadBalancer_CIDRs lb) (LoadBalancer_IPRanges lb))
                         (LoadBalancer_L2Mode lb) (LoadBalancer_L2Interfaces lb)
                         (LoadBalancer_BGPMode lb) (LoadBalancer_BGPLocalASN lb)
                         (LoadBalancer_BGPPeerAddress lb) (LoadBalancer_BGPPeerASN lb)
                         (LoadBalancer_BGPPeerPort lb);
     u_LocalStorage := mkLocalStorageConfig (LocalStorage_Enabled (CC_LocalStorage c))
                         (LocalStorage_LocalPath (CC_LocalStorage c))
                         (LocalStorage_ReclaimPolicy (CC_LocalStorage c))
                         (LocalStorage_Default (CC_LocalStorage c));
     u_Gateway_Enabled := Gateway_Enabled (CC_Gateway c);
     u_MetricsServer_Enabled := MetricsServer_Enabled (CC_MetricsServer c);
     u_CloudProvider := Kubelet_CloudProvider (CC_Kubelet c);
     u_Annotations := CC_Annotations c |}.

(** ** The bootstrap configuration *)

Record BootstrapConfig := mkBootstrap {
  b_ClusterConfig : UserFacingClusterConfig;
  b_ControlPlaneTaints : list string;
  b_PodCIDR : option string;
  b_ServiceCIDR : option string;
  b_DisableRBAC : option bool;
  b_SecurePort : option Z;
  b_DatastoreType : option string;
  b_DatastoreServers : list string;
  b_DatastoreCACert : option string;
  b_DatastoreClientCert : option string;
  b_DatastoreClientKey : option string;
  b_EtcdPort : option Z;
  b_EtcdPeerPort : option Z }.

(** The getters of the API package, and what they are documented to return: the
    field, or the zero value of its type when it is nil. *)
Class BootstrapGetters := {
  GetDatastoreType : BootstrapConfig → string;
  GetDatastoreCACert : BootstrapConfig → string;
  GetDatastoreClientCert : BootstrapConfig → string;
  GetDatastoreClientKey : BootstrapConfig → string;
  GetEtcdPort : BootstrapConfig → Z;
  GetEtcdPeerPort : BootstrapConfig → Z }.
Class BootstrapGettersOk `{BootstrapGetters} : Prop := {
  GetDatastoreType_eq b : GetDatastoreType b = getField (b_DatastoreType b);
  GetDatastoreCACert_eq b : GetDatastoreCACert b = getField (b_DatastoreCACert b);
  GetDatastoreClientCert_eq b : GetDatastoreClientCert b = getField (b_DatastoreClientCert b);
  GetDatastoreClientKey_eq b : GetDatastoreClientKey b = getField (b_DatastoreClientKey b);
  GetEtcdPort_eq b : GetEtcdPort b = getField (b_EtcdPort b);
  GetEtcdPeerPort_eq b : GetEtcdPeerPort b = getField (b_EtcdPeerPort b) }.

Definition bootstrap_datastore `{BootstrapGetters} (b : BootstrapConfig) : res Datastore :=
  let t := GetDatastoreType b in
  if (t ==? EmptyString) || (t ==? "etcd") then
    _ ← fails_if (negb (Nat.eqb (length (b_DatastoreServers b)) 0))
          (Errorf "datastore-servers needs datastore-type to be external, not %q" [t]);
    _ ← fails_if (GetDatastoreCACert b !=? EmptyString)
          (Errorf "datastore-ca-crt needs datastore-type to be external, not %q" [t]);
    _ ← fails_if (GetDatastoreClientCert b !=? EmptyString)
          (Errorf "datastore-client-crt needs datastore-type to be external, not %q" [t]);
    _ ← fails_if (GetDatastoreClientKey b !=? EmptyString)
          (Errorf "datastore-client-key needs datastore-type to be external, not %q" [t]);
    Ok (mkDatastore (Some "etcd") None None None None None None None None
          (b_EtcdPort b) (b_EtcdPeerPort b))
  else if t ==? "external" then
    _ ← fails_if (Nat.eqb (length (b_DatastoreServers b)) 0)
          (Errorf "datastore type is external but no datastore servers were set" []);
    _ ← fails_if (GetEtcdPeerPort b !=? 0%Z)
          (Errorf "etcd-peer-port needs datastore-type to be etcd" []);
    _ ← fails_if (GetEtcdPort b !=? 0%Z) (Errorf "etcd-port needs datastore-type to be etcd" []);
    Ok (mkDatastore (Some "external") (Some (b_DatastoreServers b)) (b_DatastoreCACert b)
          (b_DatastoreClientCert b) (b_DatastoreClientKey b) None None None None None None)
  else Err (Errorf "unknown datastore type specified in bootstrap config %q" [t]).

Definition ClusterConfigFromBootstrapConfig `{BootstrapGetters} (b : BootstrapConfig)
    : res ClusterConfig :=
  config ← wrapf "invalid cluster configuration: %w" []
             (ClusterConfigFromUserFacing (b_ClusterConfig b));
  datastore ← bootstrap_datastore b;
  let mode := match b_DisableRBAC b with Some true => "AlwaysAllow" | _ => "Node,RBAC" end in
  let kubelet := CC_Kubelet config in
  let network := CC_Network config in
  Ok {| CC_Certificates := CC_Certificates config;
        CC_Datastore := datastore;
        CC_APIServer := mkAPIServer (b_SecurePort b) (Some mode);
        CC_Kubelet := mkKubelet (u_CloudProvider (b_ClusterConfig b)) (Kubelet_ClusterDNS kubelet)
                        (Kubelet_ClusterDomain kubelet)
                        (if negb (Nat.eqb (length (b_ControlPlaneTaints b)) 0)
                         then Some (b_ControlPlaneTaints b) else Kubelet_ControlPlaneTaints kubelet);
        CC_Network := mkNetwork (Network_Enabled network) (b_PodCIDR b) (b_ServiceCIDR b)
                        (Network_KubeProxyEnabled network);
        CC_DNS := CC_DNS config;
        CC_Ingress := CC_Ingress config;
        CC_LoadBalancer := CC_LoadBalancer config;
        CC_Gateway := CC_Gateway config;
        CC_LocalStorage := CC_LocalStorage config;
        CC_MetricsServer := CC_MetricsServer config;
        CC_Annotations := CC_Annotations config |}.

(** ** The datastore *)

Record UserFacingDatastoreConfig := mkUserFacingDatastore {
  ud_Type : option string;
  ud_Servers : option (list string);
  ud_CACert : option string;
  ud_ClientCert : option string;
  ud_ClientKey : option string }.

(** [u.GetType()] is only called when [u.Type] is not nil: its value is then the
    pointed-to string. *)
Definition DatastoreConfigFromUserFacing (u : UserFacingDatastoreConfig) : res Datastore :=
  _ ← fails_if (match ud_Type u with Some t => t !=? "external" | None => false end)
        (Errorf "failed to updated datastore config: type must be %q but is %q"
           ["external"; default EmptyString (ud_Type u)]);
  Ok (mkDatastore (ud_Type u) (ud_Servers u) (ud_CACert u) (ud_ClientCert u) (ud_ClientKey u)
        None None None None None None).
Definition Datastore_ToUserFacing (c : Datastore) : UserFacingDatastoreConfig :=
  mkUserFacingDatastore (Datastore_Type c) (Datastore_ExternalServers c)
    (Datastore_ExternalCACert c) (Datastore_ExternalClientCert c) (Datastore_ExternalClientKey c).

(** [DatastorePathsProvider]. *)
Record PathsProvider := mkPaths { KubernetesPKIDir : string; EtcdPKIDir : string }.

Definition external_cert_args (p : PathsProvider) (acc : gmap string string * list string)
    (x : string * string * string) : gmap string string * list string :=
  let '(cert, arg, path) := x in
  if cert !=? EmptyString
  then (<[arg := filepath_Join [EtcdPKIDir p; path]]> acc.1, acc.2)
  else (acc.1, acc.2 ++ [arg]).

(** [lo] is what the loopback interface gives to [utils.GetLocalhostAddress]. *)
Definition ToKubeAPIServerArguments (lo : res (res (list string))) (c : Datastore)
    (p : PathsProvider) : res (gmap string string * list string) :=
  let t := Datastore_GetType c in
  if t ==? "etcd" then
    ip ← wrapf "failed to get localhost address: %w" [] (GetLocalhostAddress lo);
    Ok (<["--etcd-servers" := "https://" +:+ JoinHostPort_int (IP_String ip) (Datastore_GetEtcdPort c)]>
         (<["--etcd-keyfile" := filepath_Join [KubernetesPKIDir p; "apiserver-etcd-client.key"]]>
         (<["--etcd-certfile" := filepath_Join [KubernetesPKIDir p; "apiserver-etcd-client.crt"]]>
         (<["--etcd-cafile" := filepath_Join [EtcdPKIDir p; "ca.crt"]]> ∅))), [])
  else if t ==? "external" then
    Ok (fold_left (external_cert_args p)
          [(Datastore_GetExternalCACert c, "--etcd-cafile", "ca.crt");
           (Datastore_GetExternalClientCert c, "--etcd-certfile", "client.crt");
           (Datastore_GetExternalClientKey c, "--etcd-keyfile", "client.key")]
          (<["--etcd-servers" := join "," (Datastore_GetExternalServers c)]> ∅, []))
  else Ok (∅, []).

(** ** Lemmas *)

(** An entry of the API is read back from what it is printed as. *)
Definition entry_String (e : string + LoadBalancer_IPRange) : string :=
  match e with inl c => c | inr r => range_String r end.

Lemma load_balancer_entry_String s e :
  load_balancer_entry s = Ok e → entry_String e = s.
Proof.
  unfold load_balancer_entry. destruct (contains_char _ _) eqn:Hc.
  - pose proof (join_split "-" s) as Hj. destruct (split "-" s) as [|lo [|hi [|]]]; try done.
    rewrite bind_Ok. intros (? & _ & H). rewrite bind_Ok in H. destruct H as (? & _ & H).
    destruct (Addr_Less _ _); [done|]. by injection H as <-.
  - rewrite bind_Ok. intros (? & _ & H). by injection H as <-.
Qed.

Lemma load_balancer_loop_spec l cs rs outC outR :
  load_balancer_loop l outC outR = Ok (cs, rs) ↔
  ∃ es, map_res load_balancer_entry l = Ok es ∧
    cs = outC ++ omap (λ e : string + LoadBalancer_IPRange, match e with inl c => Some c | inr _ => None end) es ∧
    rs = outR ++ omap (λ e : string + LoadBalancer_IPRange, match e with inl _ => None | inr r => Some r end) es.
Proof.
  revert outC outR. induction l as [|s l IH]; intros outC outR; simpl.
  - split.
    + intros [= <- <-]. exists []. simpl. by rewrite !app_nil_r.
    + intros (es & [= <-] & -> & ->). simpl. by rewrite !app_nil_r.
  - rewrite bind_Ok. setoid_rewrite bind_Ok. setoid_rewrite bind_Ok.
    split.
    + intros (e & He & H). destruct e as [c|r]; apply IH in H as (es & Hes & -> & ->);
        eexists; (split; [by eauto|]); simpl; by rewrite <- app_assoc.
    + intros (es & (e & He & es' & Hes & [= <-]) & -> & ->). exists e. split; [done|].
      destruct e; apply IH; exists es'; simpl; by rewrite <- app_assoc.
Qed.

Lemma load_balancer_loop_partition es :
  omap (λ e : string + LoadBalancer_IPRange, match e with inl c => Some c | inr _ => None end) es ++
  map range_String
    (omap (λ e : string + LoadBalancer_IPRange, match e with inl _ => None | inr r => Some r end) es)
  ≡ₚ map entry_String es.
Proof.
  induction es as [|[c|r] es IH]; simpl; [done| |].
  - by rewrite IH.
  - rewrite <- Permutation_middle. by rewrite IH.
Qed.

Lemma loop_reread (es : list (string + LoadBalancer_IPRange)) :
  Forall (λ e, load_balancer_entry (entry_String e) = Ok e) es →
  map_res load_balancer_entry (map entry_String es) = Ok es.
Proof. intros H. apply map_res_Ok. induction H; simpl; by constructor. Qed.

Lemma omap_lefts (cs : list string) (rs : list LoadBalancer_IPRange) :
  omap (λ e : string + LoadBalancer_IPRange, match e with inl c => Some c | inr _ => None end)
    (map inl cs ++ map inr rs) = cs.
Proof. induction cs; simpl; [by induction rs|]. by f_equal. Qed.
Lemma omap_rights (cs : list string) (rs : list LoadBalancer_IPRange) :
  omap (λ e : string + LoadBalancer_IPRange, match e with inl _ => None | inr r => Some r end)
    (map inl cs ++ map inr rs) = rs.
Proof. induction cs; simpl; [|done]. induction rs; simpl; [done|]. by f_equal. Qed.

Lemma load_balancer_roundtrip l cs rs :
  loadBalancerCIDRsFromAPI l = Ok (cs, rs) →
  loadBalancerCIDRsFromAPI (loadBalancerCIDRsToAPI cs rs) = Ok (cs, rs) ∧
  (∀ xs, l = Some xs → ∃ ys, loadBalancerCIDRsToAPI cs rs = Some ys ∧ ys ≡ₚ xs) ∧
  (l = None → loadBalancerCIDRsToAPI cs rs = None).
Proof.
  destruct l as [xs|]; simpl; [|by intros [= <- <-]].
  rewrite bind_Ok. intros ([cs' rs'] & Hl & H). injection H as <- <-. simpl.
  apply load_balancer_loop_spec in Hl as (es & Hes & -> & ->). simpl.
  apply map_res_Ok in Hes.
  assert (Hxs : map entry_String es = xs).
  { induction Hes as [|s e l' es' He _ IH]; [done|]. simpl.
    by rewrite IH, (load_balancer_entry_String s e). }
  assert (Hre : Forall (λ e, load_balancer_entry (entry_String e) = Ok e) es).
  { clear Hxs. induction Hes as [|s e l' es' He _ IH]; constructor; [|done].
    by rewrite (load_balancer_entry_String s e). }
  set (cs := omap _ es). set (rs := omap _ es). split_and!; [| |done].
  - apply bind_Ok. exists (cs, rs). split; [|done]. apply load_balancer_loop_spec.
    exists (map inl cs ++ map inr rs). split_and!.
    + replace (cs ++ map range_String rs) with
        (map entry_String (map inl cs ++ map inr rs))
        by (by rewrite map_app, !map_map, map_id).
      apply loop_reread. apply Forall_app. rewrite Forall_forall in Hre.
      split; apply Forall_forall; intros e; rewrite list_elem_of_fmap;
        intros (y & -> & (x & Hx & Hy)%list_elem_of_omap); destruct x; simplify_eq;
        by apply Hre.
    + symmetry. apply omap_lefts.
    + symmetry. apply omap_rights.
  - intros ys [= <-]. eexists. split; [done|]. rewrite <- Hxs.
    apply load_balancer_loop_partition.
Qed.

(** ** Properties *)

(** Two user-facing configurations that differ at most in the order of the
    load-balancer CIDRs. *)
Definition user_facing_equiv (u u' : UserFacingClusterConfig) : Prop :=
  let with_cidrs (u : UserFacingClusterConfig) (l : option (list string)) :=
    let lb := u_LoadBalancer u in
    mkUserFacing (u_Network u) (u_DNS u) (u_Ingress u)
      (mkLoadBalancerConfig (api_LB_Enabled lb) l (api_LB_L2Mode lb) (api_LB_L2Interfaces lb)
         (api_LB_BGPMode lb) (api_LB_BGPLocalASN lb) (api_LB_BGPPeerAddress lb)
         (api_LB_BGPPeerASN lb) (api_LB_BGPPeerPort lb))
      (u_LocalStorage u) (u_Gateway_Enabled u) (u_MetricsServer_Enabled u)
      (u_CloudProvider u) (u_Annotations u) in
  with_cidrs u None = with_cidrs u' None ∧
  option_Forall2 (≡ₚ) (api_LB_CIDRs (u_LoadBalancer u)) (api_LB_CIDRs (u_LoadBalancer u')).

(** The user-facing configuration round-trips: whenever
    [ClusterConfigFromUserFacing] accepts [u] and gives [c], [ToUserFacing c] is
    [u] with at most its load-balancer CIDRs reordered (plain CIDRs before IP
    ranges), and converting it again gives exactly [c]. *)
Theorem ClusterConfigFromUserFacing_roundtrip u c :
  ClusterConfigFromUserFacing u = Ok c →
  user_facing_equiv (ToUserFacing c) u ∧
  ClusterConfigFromUserFacing (ToUserFacing c) = Ok c.
Proof.
  unfold ClusterConfigFromUserFacing. rewrite bind_Ok.
  intros ([cs rs] & Hlb%wrapf_Ok & H). injection H as <-.
  apply load_balancer_roundtrip in Hlb as (Hre & Hsome & Hnone).
  destruct u as [[] [] [] [en l] [] gw ms cp an]; cbn in *. split.
  - split; [done|]. cbn. destruct l as [xs|].
    + destruct (Hsome xs) as (ys & -> & Hp); [done|]. by constructor.
    + rewrite Hnone by done. constructor.
  - cbn. rewrite Hre. done.
Qed.

Definition demo_user_facing : UserFacingClusterConfig :=
  mkUserFacing (mkNetworkConfig (Some true) None) (mkDNSConfig (Some true) None None None)
    (mkIngressConfig None None None)
    (mkLoadBalancerConfig (Some true) (Some ["10.0.0.10-10.0.0.20"; "10.1.0.0/24"; "fd00::/64"])
       (Some true) None None None None None None)
    (mkLocalStorageConfig None None None None) None None None None.

Lemma ClusterConfigFromUserFacing_roundtrip_witness : ∃ c,
  ClusterConfigFromUserFacing demo_user_facing = Ok c ∧
  user_facing_equiv (ToUserFacing c) demo_user_facing ∧
  api_LB_CIDRs (u_LoadBalancer (ToUserFacing c)) =
    Some ["10.1.0.0/24"; "fd00::/64"; "10.0.0.10-10.0.0.20"].
Proof.
  destruct (ClusterConfigFromUserFacing demo_user_facing) as [c|] eqn:E;
    vm_compute in E; [|discriminate]. injection E as E.
  exists c. split; [done|]. subst c. split; [|vm_compute; reflexivity].
  apply (ClusterConfigFromUserFacing_roundtrip demo_user_facing). vm_compute. reflexivity.
Defined.

(** The concrete getters used to evaluate the conversion. *)
Definition demo_getters : BootstrapGetters := {|
  GetDatastoreType b := getField (b_DatastoreType b);
  GetDatastoreCACert b := getField (b_DatastoreCACert b);
  GetDatastoreClientCert b := getField (b_DatastoreClientCert b);
  GetDatastoreClientKey b := getField (b_DatastoreClientKey b);
  GetEtcdPort b := getField (b_EtcdPort b);
  GetEtcdPeerPort b := getField (b_EtcdPeerPort b) |}.

Lemma demo_getters_ok : @BootstrapGettersOk demo_getters.
Proof. by constructor. Qed.

Lemma bootstrap_datastore_accepts `{BootstrapGettersOk} b :
  is_ok (bootstrap_datastore b) = true ↔
  (getField (b_DatastoreType b) ∈ [EmptyString; "etcd"] ∧ b_DatastoreServers b = [] ∧
   getField (b_DatastoreCACert b) = EmptyString ∧
   getField (b_DatastoreClientCert b) = EmptyString ∧
   getField (b_DatastoreClientKey b) = EmptyString) ∨
  (getField (b_DatastoreType b) = "external" ∧ b_DatastoreServers b ≠ [] ∧
   getField (b_EtcdPort b) = 0%Z ∧ getField (b_EtcdPeerPort b) = 0%Z).
Proof.
  unfold bootstrap_datastore.
  rewrite GetDatastoreType_eq, GetDatastoreCACert_eq, GetDatastoreClientCert_eq,
    GetDatastoreClientKey_eq, GetEtcdPort_eq, GetEtcdPeerPort_eq.
  assert (Hlen : ∀ l : list string, Nat.eqb (length l) 0 = bool_decide (l = [])) by (by intros []).
  rewrite Hlen. generalize (getField (b_DatastoreType b)). intros t.
  destruct (decide (t ∈ [EmptyString; "etcd"])) as [Hin|Hnin].
  - assert ((t ==? EmptyString) || (t ==? "etcd") = true) as ->.
    { apply orb_true_iff. rewrite !bool_decide_eq_true. set_solver. }
    assert (t ≠ "external") by set_solver.
    rewrite !is_ok_fails_if, !negb_involutive, !andb_true_iff, !bool_decide_eq_true.
    naive_solver.
  - assert ((t ==? EmptyString) || (t ==? "etcd") = false) as ->.
    { apply orb_false_iff. rewrite !bool_decide_eq_false. set_solver. }
    case_bool_decide; [|naive_solver].
    rewrite !is_ok_fails_if, !negb_involutive, !andb_true_iff, negb_true_iff,
      bool_decide_eq_false, !bool_decide_eq_true. naive_solver.
Qed.

(** A bootstrap configuration is accepted exactly when its load-balancer CIDRs are
    well formed and its datastore settings are consistent: of type etcd (or unset)
    with no external servers and no external certificates, or of type external with
    at least one server and no etcd ports. *)
Theorem ClusterConfigFromBootstrapConfig_accepts `{BootstrapGettersOk} b :
  is_ok (ClusterConfigFromBootstrapConfig b) = true ↔
  is_ok (loadBalancerCIDRsFromAPI (api_LB_CIDRs (u_LoadBalancer (b_ClusterConfig b)))) = true ∧
  ((getField (b_DatastoreType b) ∈ [EmptyString; "etcd"] ∧ b_DatastoreServers b = [] ∧
    getField (b_DatastoreCACert b) = EmptyString ∧
    getField (b_DatastoreClientCert b) = EmptyString ∧
    getField (b_DatastoreClientKey b) = EmptyString) ∨
   (getField (b_DatastoreType b) = "external" ∧ b_DatastoreServers b ≠ [] ∧
    getField (b_EtcdPort b) = 0%Z ∧ getField (b_EtcdPeerPort b) = 0%Z)).
Proof.
  rewrite <- bootstrap_datastore_accepts.
  unfold ClusterConfigFromBootstrapConfig, ClusterConfigFromUserFacing.
  destruct (loadBalancerCIDRsFromAPI _) as [[cs rs]|e]; cbn; [|naive_solver].
  destruct (bootstrap_datastore b); cbn; naive_solver.
Qed.

Lemma ClusterConfigFromBootstrapConfig_accepts_witness :
  @BootstrapGettersOk demo_getters ∧
  is_ok (@ClusterConfigFromBootstrapConfig demo_getters
    (mkBootstrap demo_user_facing [] None None None None (Some "external") ["https://10.0.0.1:2379"]
       None None None None None)) = true.
Proof.
  split; [apply demo_getters_ok|].
  apply (@ClusterConfigFromBootstrapConfig_accepts demo_getters demo_getters_ok).
  split; [vm_compute; reflexivity|]. right. split_and!; [done..|done|done].
Defined.

(** The API server arguments of the datastore: for the types the conversion
    produces, the servers are always set, each of the three certificate arguments is
    either set or deleted and never both, the managed etcd never deletes one, and
    for an external datastore a certificate argument is set exactly when the
    certificate is present. *)
Theorem ToKubeAPIServerArguments_partition lo c p upd del :
  ToKubeAPIServerArguments lo c p = Ok (upd, del) →
  Datastore_GetType c ∈ ["etcd"; "external"] →
  is_Some (upd !! "--etcd-servers") ∧
  (∀ arg, arg ∈ del → upd !! arg = None) ∧
  (∀ arg, arg ∈ ["--etcd-cafile"; "--etcd-certfile"; "--etcd-keyfile"] →
     is_Some (upd !! arg) ∨ arg ∈ del) ∧
  (Datastore_GetType c = "etcd" → del = []) ∧
  (Datastore_GetType c = "external" →
     upd !! "--etcd-cafile" =
       (if Datastore_GetExternalCACert c ==? EmptyString then None
        else Some (filepath_Join [EtcdPKIDir p; "ca.crt"])) ∧
     upd !! "--etcd-certfile" =
       (if Datastore_GetExternalClientCert c ==? EmptyString then None
        else Some (filepath_Join [EtcdPKIDir p; "client.crt"])) ∧
     upd !! "--etcd-keyfile" =
       (if Datastore_GetExternalClientKey c ==? EmptyString then None
        else Some (filepath_Join [EtcdPKIDir p; "client.key"]))).
Proof.
  unfold ToKubeAPIServerArguments. intros H Ht.
  assert (Datastore_GetType c = "etcd" ∨ Datastore_GetType c = "external")
    as [Ht'|Ht'] by set_solver; rewrite Ht' in *; simpl in H.
  - destruct (wrapf _ _ (GetLocalhostAddress lo)) as [ip|]; [|done].
    injection H as <- <-. simplify_map_eq. split_and!; [done|set_solver| |done|done].
    intros arg Harg. left.
    assert (arg = "--etcd-cafile" ∨ arg = "--etcd-certfile" ∨ arg = "--etcd-keyfile")
      as [->|[->| ->]] by set_solver; simplify_map_eq; done.
  - unfold external_cert_args in H.
    split_and!; [| | |done|intros _];
      repeat case_bool_decide; simpl in H; injection H as <- <-;
      simplify_map_eq; try done;
      intros arg Harg; cbn in Harg;
      assert (arg = "--etcd-cafile" ∨ arg = "--etcd-certfile" ∨ arg = "--etcd-keyfile")
        as [->|[->| ->]] by set_solver; simplify_map_eq; set_solver.
Qed.

Definition demo_external_datastore : Datastore :=
  mkDatastore (Some "external") (Some ["https://10.0.0.1:2379"]) (Some "CA") None None
    None None None None None None.

Lemma ToKubeAPIServerArguments_partition_witness :
  ∃ upd del,
    ToKubeAPIServerArguments (Ok (Ok ["127.0.0.1/8"])) demo_external_datastore
      (mkPaths "/etc/kubernetes/pki" "/etc/kubernetes/pki/etcd") = Ok (upd, del) ∧
    is_Some (upd !! "--etcd-servers") ∧ del = ["--etcd-certfile"; "--etcd-keyfile"].
Proof.
  eexists _, _. split; [reflexivity|]. split; [|reflexivity].
  eapply (ToKubeAPIServerArguments_partition (Ok (Ok ["127.0.0.1/8"])) demo_external_datastore
            (mkPaths "/etc/kubernetes/pki" "/etc/kubernetes/pki/etcd")); [reflexivity|].
  by right; left.
Defined.

End Convert.
