(* ===== verification/FileSys.v ===== *)
(** * Files

    A model of the files k8sd reads and writes, the system calls of package [os]
    it uses, and the file helpers of pkg/utils/file.go.  What the kernel answers
    is a parameter ([OSEnv]): any call may fail on any path, with any error.
    Directories are not represented: a call in a missing directory is one that
    fails. *)

From S2P Require Import Prelude GoStrings.
Import GoStr.

Module FileSys.

Record file := mkFile { f_data : string; f_mode : Z; f_uid : Z; f_gid : Z }.

#[export] Instance file_eq_dec : EqDecision file.
Proof. solve_decision. Defined.

Abbreviation files := (gmap string file).

(** The state of the file system.  [w_history] is a ghost: the states it went
    through before the current one, newest first, which is what a crash may leave
    behind. *)
Record World := mkWorld { w_files : files; w_history : list files }.

Inductive sysop :=
| OpOpen | OpRead | OpCreateTemp | OpWrite | OpChmod | OpClose | OpRename | OpCreate | OpChown
| OpRemove | OpStat.

Class OSEnv := {
  (** The error a call returns, if it fails. *)
  os_fail : sysop → string → option goerr;
  (** The name [os.CreateTemp] picks in a directory. *)
  os_temp : files → string → string;
  (** The owner and the permissions of a file the process creates. *)
  os_uid : Z; os_gid : Z; os_create_mode : Z;
  (** What a failed write leaves in the file. *)
  os_partial : string → string }.

(** A call that is told to fail on an existing file does not report the file
    missing ([ENOENT] is the answer for a missing file only). *)
Class OSEnvOk `{OSEnv} : Prop :=
  os_fail_exists : ∀ op p, op ∈ [OpOpen; OpRead; OpRemove; OpStat] → os_fail op p ≠ Some ErrNotExist.

(** ** A state and error monad *)

Definition io (A : Type) : Type := World → res A * World.

#[export] Instance io_ret : MRet io := λ A a w, (Ok a, w).
#[export] Instance io_bind : MBind io := λ A B f m w,
  match m w with
  | (Ok a, w') => f a w'
  | (Err e, w') => (Err e, w')
  end.
Definition io_lift {A} (r : res A) : io A := λ w, (r, w).
Definition io_wrapf {A} (fmt : string) (args : list string) (m : io A) : io A := λ w,
  let '(r, w') := m w in (wrapf fmt args r, w').
(** Runs [m] and hands its result, error included, to the continuation. *)
Definition io_try {A} (m : io A) : io (res A) := λ w, let '(r, w') := m w in (Ok r, w').
(** [defer f()] with its error ignored. *)
Definition io_defer {A} (f : io unit) (m : io A) : io A := λ w,
  let '(r, w') := m w in (r, (f w').2).

(** ** System calls *)

Section Syscalls.
Context `{OSEnv}.

Definition get_files : io files := λ w, (Ok (w_files w), w).
Definition put_files (fs : files) : io unit := λ w, (Ok tt, mkWorld fs (w_files w :: w_history w)).

Definition os_call (op : sysop) (p : string) : io unit := λ w,
  match os_fail op p with Some e => (Err e, w) | None => (Ok tt, w) end.
Definition existing (p : string) : io file :=
  fs ← get_files;
  match fs !! p with Some f => mret f | None => io_lift (Err ErrNotExist) end.

Definition os_ReadFile (p : string) : io string :=
  _ ← os_call OpRead p; f ← existing p; mret (f_data f).
Definition os_Stat (p : string) : io unit :=
  _ ← os_call OpStat p; _ ← existing p; mret tt.
Definition os_Remove (p : string) : io unit :=
  _ ← os_call OpRemove p; _ ← existing p; fs ← get_files; put_files (delete p fs).
Definition os_Create (p : string) : io unit :=
  _ ← os_call OpCreate p; fs ← get_files;
  put_files (<[p := match fs !! p with
                    | Some f => mkFile EmptyString (f_mode f) (f_uid f) (f_gid f)
                    | None => mkFile EmptyString os_create_mode os_uid os_gid
                    end]> fs).
Definition os_Chown (p : string) (uid gid : Z) : io unit :=
  _ ← os_call OpChown p; f ← existing p; fs ← get_files;
  put_files (<[p := mkFile (f_data f) (f_mode f) uid gid]> fs).
Definition os_Chmod (p : string) (mode : Z) : io unit :=
  _ ← os_call OpChmod p; f ← existing p; fs ← get_files;
  put_files (<[p := mkFile (f_data f) mode (f_uid f) (f_gid f)]> fs).
Definition os_CreateTemp (dir : string) : io string :=
  fs ← get_files;
  let tmp := os_temp fs dir in
  _ ← os_call OpCreateTemp tmp;
  match fs !! tmp with
  | Some _ => io_lift (Err (Errorf "file exists" [tmp]))
  | None => _ ← put_files (<[tmp := mkFile EmptyString 384 os_uid os_gid]> fs); mret tmp
  end.
(** Appends to an open file; a failed write may have written a part. *)
Definition file_Write (p : string) (data : string) : io unit :=
  f ← existing p; fs ← get_files;
  match os_fail OpWrite p with
  | Some e => _ ← put_files (<[p := mkFile (f_data f +:+ os_partial data) (f_mode f) (f_uid f) (f_gid f)]> fs);
              io_lift (Err e)
  | None => put_files (<[p := mkFile (f_data f +:+ data) (f_mode f) (f_uid f) (f_gid f)]> fs)
  end.
Definition os_Rename (old new : string) : io unit :=
  _ ← os_call OpRename new; f ← existing old; fs ← get_files;
  put_files (<[new := f]> (delete old fs)).

(** ** pkg/utils/file.go *)

(** [filepath.Dir] and [filepath.Base]. *)
Definition filepath_Dir (p : string) : string :=
  match removelast (split "/" p) with
  | [] => filepath_Clean EmptyString
  | ps => filepath_Clean (join "/" ps +:+ "/")
  end.
Definition filepath_Base (p : string) : string :=
  match List.filter (λ e, negb (bool_decide (e = EmptyString))) (split "/" p) with
  | [] => if p ==? EmptyString then "." else "/"
  | es => List.last es EmptyString
  end.

(** The body of [WriteFile], once the temporary file exists. *)
Definition write_temp (tmp name data : string) (perm : Z) : io unit :=
  _ ← io_wrapf "failed to write to temp file: %w" [] (file_Write tmp data);
  _ ← io_wrapf "failed to set permissions on temp file: %w" [] (os_Chmod tmp perm);
  _ ← io_wrapf "failed to close temp file: %w" [] (os_call OpClose tmp);
  io_wrapf "failed to rename temp file to target file: %w" [] (os_Rename tmp name).
Definition WriteFile (name : string) (data : string) (perm : Z) : io unit :=
  tmpFile ← io_wrapf "failed to create temp file: %w" [] (os_CreateTemp (filepath_Dir name));
  io_defer (os_Remove tmpFile) (write_temp tmpFile name data perm).

Definition FileExists (path : string) : io bool :=
  r ← io_try (os_Stat path);
  match r with
  | Ok _ => mret true
  | Err err => if err !=? ErrNotExist then io_lift (Err (Wrapf "failed to stat: %w" [] err))
               else mret false
  end.
End Syscalls.

(** ** Lemmas *)

Lemma io_bind_inv {A B} (m : io A) (f : A → io B) w r w' :
  (m ≫= f) w = (r, w') →
  (∃ a w1, m w = (Ok a, w1) ∧ f a w1 = (r, w')) ∨
  (∃ e, m w = (Err e, w') ∧ r = Err e).
Proof.
  unfold mbind, io_bind. destruct (m w) as [[a|e] w1]; intros Hr.
  - left. by eauto.
  - right. injection Hr as <- <-. by eauto.
Qed.

Lemma io_wrapf_Ok {A} fmt args (m : io A) w a w' :
  io_wrapf fmt args m w = (Ok a, w') → m w = (Ok a, w').
Proof.
  unfold io_wrapf. destruct (m w) as [[x|e] w1]; [by intros [= -> ->]|done].
Qed.

(** Everything that happens between two worlds satisfies [P]: the states passed
    through and the last one. *)
Definition through (P : files → Prop) (w w' : World) : Prop :=
  P (w_files w') ∧ ∃ h, w_history w' = h ++ w_history w ∧ Forall P h.

Lemma through_refl (P : files → Prop) w : P (w_files w) → through P w w.
Proof. intros HP. split; [done|]. by exists []. Qed.

Lemma through_trans (P : files → Prop) w1 w2 w3 :
  through P w1 w2 → through P w2 w3 → through P w1 w3.
Proof.
  intros [_ (h1 & E1 & H1)] [HP (h2 & E2 & H2)]. split; [done|].
  exists (h2 ++ h1). rewrite E2, E1, app_assoc. split; [done|]. by apply Forall_app.
Qed.

(** A computation all of whose steps keep [P]. *)
Definition keeps {A} (P : files → Prop) (m : io A) : Prop :=
  ∀ w r w', P (w_files w) → m w = (r, w') → through P w w'.

Lemma keeps_ret {A} P (a : A) : keeps P (mret (M := io) a).
Proof. intros w r w' HP [= <- <-]. by apply through_refl. Qed.
Lemma keeps_lift {A} P (r : res A) : keeps P (io_lift r).
Proof. intros w r' w' HP [= <- <-]. by apply through_refl. Qed.
Lemma keeps_bind {A B} P (m : io A) (f : A → io B) :
  keeps P m → (∀ a, keeps P (f a)) → keeps P (m ≫= f).
Proof.
  intros Hm Hf w r w' HP [(a & w1 & E1 & E2)|(e & E & ->)]%io_bind_inv.
  - pose proof (Hm _ _ _ HP E1) as H1. eapply through_trans; [done|].
    eapply Hf; [|done]. by destruct H1.
  - by eapply Hm.
Qed.
Lemma keeps_get P : keeps P get_files.
Proof. intros w r w' HP [= <- <-]. by apply through_refl. Qed.
Lemma keeps_put (P : files → Prop) fs : P fs → keeps P (put_files fs).
Proof.
  intros HP w r w' Hw [= <- <-]. split; [done|]. exists [w_files w]. split; [done|].
  by repeat constructor.
Qed.
Lemma keeps_wrapf {A} P fmt args (m : io A) : keeps P m → keeps P (io_wrapf fmt args m).
Proof.
  intros Hm w r w' HP. unfold io_wrapf. destruct (m w) as [r1 w1] eqn:E.
  intros [= <- <-]. by eapply Hm.
Qed.
Lemma keeps_try {A} P (m : io A) : keeps P m → keeps P (io_try m).
Proof.
  intros Hm w r w' HP. unfold io_try. destruct (m w) as [r1 w1] eqn:E.
  intros [= <- <-]. by eapply Hm.
Qed.
Lemma keeps_defer {A} P (f : io unit) (m : io A) :
  keeps P f → keeps P m → keeps P (io_defer f m).
Proof.
  intros Hf Hm w r w' HP. unfold io_defer. destruct (m w) as [r1 w1] eqn:E.
  destruct (f w1) as [r2 w2] eqn:E2. intros [= <- <-]. pose proof (Hm _ _ _ HP E) as H1.
  eapply through_trans; [done|]. eapply Hf; [|done]. by destruct H1.
Qed.
Lemma keeps_call `{OSEnv} P op p : keeps P (os_call op p).
Proof.
  intros w r w' HP. unfold os_call. destruct (os_fail op p);
    intros [= <- <-]; by apply through_refl.
Qed.

#[export] Hint Resolve keeps_ret keeps_lift keeps_bind keeps_get keeps_wrapf keeps_try
  keeps_defer keeps_call : k8sd.

Lemma keeps_get_bind {A} P (k : files → io A) :
  (∀ fs, P fs → keeps P (k fs)) → keeps P (get_files ≫= k).
Proof. intros Hk w r w' HP E. by eapply (Hk (w_files w)). Qed.

(** ** Atomicity of [WriteFile] *)

Section WriteFile.
Context `{OSEnv}.

(** The file a successful [WriteFile] leaves. *)
Definition written (data : string) (perm : Z) : file := mkFile data perm os_uid os_gid.

(** [fs] shows, outside of the temporary file, either the old files or the old
    files with the target replaced as a whole. *)
Definition old_or_new (tmp name : string) (new : file) (old fs : files) : Prop :=
  ∀ p, p ≠ tmp → fs !! p = old !! p ∨ (p = name ∧ fs !! p = Some new).

Lemma old_or_new_insert_tmp tmp name new old fs f :
  old_or_new tmp name new old fs → old_or_new tmp name new old (<[tmp := f]> fs).
Proof. intros Hon p Hp. rewrite lookup_insert_ne by done. by apply Hon. Qed.
Lemma old_or_new_delete_tmp tmp name new old fs :
  old_or_new tmp name new old fs → old_or_new tmp name new old (delete tmp fs).
Proof. intros Hon p Hp. rewrite lookup_delete_ne by done. by apply Hon. Qed.
Lemma old_or_new_rename tmp name new old fs :
  old_or_new tmp name new old fs → old_or_new tmp name new old (<[name := new]> fs).
Proof.
  intros Hon p Hp. destruct (decide (p = name)) as [->|Hn].
  - right. by rewrite lookup_insert_eq.
  - rewrite lookup_insert_ne by done. by apply Hon.
Qed.
Lemma old_or_new_refl tmp name new old : old_or_new tmp name new old old.
Proof. by left. Qed.
Hint Resolve old_or_new_insert_tmp old_or_new_delete_tmp old_or_new_rename old_or_new_refl : k8sd.

(** The states passed through, given as a list of holes. *)
Tactic Notation "all_states" uconstr(h) :=
  unfold through; cbn -[insert delete lookup]; split; [by auto with k8sd|]; eexists h; split; [reflexivity|];
  repeat (apply Forall_cons_2; [by auto with k8sd|]); apply Forall_nil_2.
(** A step of the body fails: only the temporary file differs from before. *)
Tactic Notation "write_fails" uconstr(h) :=
  intros [= <- <-]; split;
  [ all_states h
  | left; eexists; split; [done|]; intros p Hp; cbn -[insert delete lookup];
    by rewrite !lookup_insert_ne ].

Lemma write_temp_run tmp name data perm old hist r w' :
  write_temp tmp name data perm
    (mkWorld (<[tmp := mkFile EmptyString 384 os_uid os_gid]> old) hist) = (r, w') →
  through (old_or_new tmp name (written data perm) old)
    (mkWorld (<[tmp := mkFile EmptyString 384 os_uid os_gid]> old) hist) w' ∧
  ((∃ e, r = Err e ∧ ∀ p, p ≠ tmp → w_files w' !! p = old !! p) ∨
   (r = Ok tt ∧ w_files w' = <[name := written data perm]> (delete tmp old))).
Proof.
  unfold write_temp. set (f0 := mkFile EmptyString 384 os_uid os_gid).
  unfold io_wrapf, file_Write, os_Chmod, os_Rename, os_call, existing, get_files, put_files,
    io_lift, mbind, io_bind, mret, io_ret. cbn -[insert delete lookup].
  rewrite lookup_insert_eq. cbn -[insert delete lookup].
  assert (Hon : old_or_new tmp name (written data perm) old (<[tmp := f0]> old)) by auto with k8sd.
  destruct (os_fail OpWrite tmp) as [e|]; [write_fails [_]|].
  destruct (os_fail OpChmod tmp) as [e|]; [write_fails [_]|].
  cbn -[insert delete lookup]. rewrite lookup_insert_eq. cbn -[insert delete lookup].
  destruct (os_fail OpClose tmp) as [e|]; [write_fails [_; _]|].
  cbn -[insert delete lookup].
  destruct (os_fail OpRename name) as [e|]; [write_fails [_; _]|].
  cbn -[insert delete lookup]. rewrite lookup_insert_eq. cbn -[insert delete lookup].
  intros [= <- <-]. rewrite !delete_insert_eq. split.
  - all_states [_; _; _].
  - by right.
Qed.

Lemma os_Remove_run p w r w' : os_Remove p w = (r, w') →
  (∃ e, r = Err e ∧ w' = w ∧
     ((e = ErrNotExist ∧ w_files w !! p = None) ∨ os_fail OpRemove p = Some e)) ∨
  (r = Ok tt ∧ is_Some (w_files w !! p) ∧ os_fail OpRemove p = None ∧
   w' = mkWorld (delete p (w_files w)) (w_files w :: w_history w)).
Proof.
  unfold os_Remove, os_call, existing, get_files, put_files, io_lift, mbind, io_bind, mret, io_ret.
  destruct (os_fail OpRemove p) as [e|]; [intros [= <- <-]; left; eauto|].
  cbn -[delete]. destruct (w_files w !! p) eqn:E; intros [= <- <-]; [right|left]; eauto 10.
Qed.

Lemma os_CreateTemp_run dir w r w' : os_CreateTemp dir w = (r, w') →
  let tmp := os_temp (w_files w) dir in
  (∃ e, r = Err e ∧ w' = w) ∨
  (w_files w !! tmp = None ∧ r = Ok tmp ∧
   w' = mkWorld (<[tmp := mkFile EmptyString 384 os_uid os_gid]> (w_files w))
          (w_files w :: w_history w)).
Proof.
  unfold os_CreateTemp, os_call, get_files, put_files, io_lift, mbind, io_bind, mret, io_ret.
  cbn -[insert]. destruct (os_fail OpCreateTemp _) as [e|]; [intros [= <- <-]; left; eauto|].
  cbn -[insert]. destruct (w_files w !! _) eqn:E; intros [= <- <-]; [left|right]; eauto.
Qed.

Lemma WriteFile_run name data perm w r w' :
  WriteFile name data perm w = (r, w') →
  let tmp := os_temp (w_files w) (filepath_Dir name) in
  through (old_or_new tmp name (written data perm) (w_files w)) w w' ∧
  (tmp ≠ name →
   (∃ e, r = Err e ∧ ∀ p, p ≠ tmp → w_files w' !! p = w_files w !! p) ∨
   (r = Ok tt ∧ w_files w' = <[name := written data perm]> (w_files w))).
Proof.
  intros E tmp. set (P := old_or_new tmp name (written data perm) (w_files w)).
  assert (HP : P (w_files w)) by apply old_or_new_refl.
  unfold WriteFile in E. apply io_bind_inv in E as [(t & w1 & Et & E)|(e & Et & ->)];
    unfold io_wrapf in Et; destruct (os_CreateTemp _ w) as [rt wt] eqn:ET;
    apply os_CreateTemp_run in ET as [(e' & -> & ->)|(Htmp & -> & ->)]; simplify_eq/=.
  2: { split; [by apply through_refl|]. left. eauto. }
  fold tmp in Htmp, E |- *. unfold io_defer in E.
  match type of E with context [write_temp _ _ _ _ ?x] => set (w1 := x) in E end.
  destruct (write_temp tmp name data perm w1) as [r1 w2] eqn:E2.
  destruct (os_Remove tmp w2) as [r2 w3] eqn:E3. injection E as <- <-.
  apply write_temp_run in E2 as [Hth Hcase].
  assert (H1 : through P w w1).
  { split; [by apply old_or_new_insert_tmp|]. exists [w_files w]. split; [done|].
    by apply Forall_cons_2. }
  assert (H2 : through P w w2) by (by eapply through_trans).
  apply os_Remove_run in E3. split.
  - destruct E3 as [(e & _ & -> & _)|(_ & _ & _ & ->)]; [done|].
    eapply through_trans; [done|]. destruct H2 as [H2 _]. split.
    + by apply old_or_new_delete_tmp.
    + exists [w_files w2]. split; [done|]. by apply Forall_cons_2.
  - intros Hne. destruct Hcase as [(e & -> & He)|[-> Hf]].
    + left. exists e. split; [done|]. intros p Hp.
      destruct E3 as [(e' & _ & -> & _)|(_ & _ & _ & ->)]; [by apply He|].
      simpl. rewrite lookup_delete_ne by done. by apply He.
    + right. split; [done|]. rewrite delete_id in Hf by done.
      destruct E3 as [(e' & _ & -> & _)|(_ & [f Hsome] & _ & ->)]; [done|].
      rewrite Hf, lookup_insert_ne in Hsome by done. congruence.
Qed.

Lemma os_ReadFile_run p w r w' : os_ReadFile p w = (r, w') →
  w' = w ∧ match r with
           | Ok d => ∃ f, w_files w !! p = Some f ∧ f_data f = d
           | Err e => os_fail OpRead p = Some e ∨ (w_files w !! p = None ∧ e = ErrNotExist)
           end.
Proof.
  unfold os_ReadFile, os_call, existing, get_files, io_lift, mbind, io_bind, mret, io_ret.
  destruct (os_fail OpRead p) as [e|]; [intros [= <- <-]; eauto|].
  cbn. destruct (w_files w !! p) eqn:E; intros [= <- <-]; eauto.
Qed.

(** C22: [WriteFile] is atomic, also under a crash: in every state the file system
    goes through, every path other than the temporary file holds its old contents,
    or is the target and holds all of the new contents with the requested mode; an
    error leaves the target as it was, and success leaves exactly the target
    changed and no temporary file. *)
Theorem WriteFile_atomic name data perm w r w' :
  WriteFile name data perm w = (r, w') →
  os_temp (w_files w) (filepath_Dir name) ≠ name →
  let tmp := os_temp (w_files w) (filepath_Dir name) in
  (∃ states, w_history w' = states ++ w_history w ∧
     Forall (old_or_new tmp name (written data perm) (w_files w)) (w_files w' :: states)) ∧
  (is_ok r = false → w_files w' !! name = w_files w !! name) ∧
  (is_ok r = true → w_files w' = <[name := written data perm]> (w_files w)).
Proof.
  intros E Hne tmp. apply WriteFile_run in E as [[HP (h & Hh & HF)] Hcase].
  split; [exists h; split; [done|]; by apply Forall_cons_2|].
  destruct (Hcase Hne) as [(e & -> & He)|[-> ->]]; split; try done.
  intros _. by apply He.
Qed.
End WriteFile.

(** The contents of a file, a missing one read as empty. *)
Definition contents (w : World) (p : string) : string :=
  match w_files w !! p with Some f => f_data f | None => EmptyString end.

(** A kernel in which no call fails, and one in which every rename fails. *)
Definition demo_os : OSEnv := {|
  os_fail _ _ := None; os_temp _ dir := filepath_Join [dir; "tmp-1"];
  os_uid := 0; os_gid := 0; os_create_mode := 420; os_partial _ := EmptyString |}.
Definition demo_os_norename : OSEnv := {|
  os_fail op _ := match op with OpRename => Some (Errorf "read-only file system" []) | _ => None end;
  os_temp _ dir := filepath_Join [dir; "tmp-1"];
  os_uid := 0; os_gid := 0; os_create_mode := 420; os_partial _ := EmptyString |}.
#[export] Instance demo_os_ok : @OSEnvOk demo_os.
Proof. by intros op p _. Qed.
Definition demo_world (l : list (string * string)) : World :=
  mkWorld (list_to_map ((λ x, (x.1, mkFile x.2 384 0 0)) <$> l)) [].

Lemma WriteFile_atomic_witness :
  let w := demo_world [("/etc/a", "old")] in
  (@WriteFile demo_os "/etc/a" "new" 384 w).2.(w_files) !! "/etc/a" = Some (mkFile "new" 384 0 0) ∧
  (@WriteFile demo_os_norename "/etc/a" "new" 384 w).2.(w_files) !! "/etc/a" =
    Some (mkFile "old" 384 0 0).
Proof.
  split.
  - destruct (@WriteFile demo_os "/etc/a" "new" 384 (demo_world [("/etc/a", "old")])) as [r w'] eqn:E.
    destruct (@WriteFile_atomic demo_os _ _ _ _ _ _ E) as (_ & _ & Hok).
    + vm_compute. discriminate.
    + simpl. rewrite Hok; [reflexivity|]. apply (f_equal fst) in E. vm_compute in E. by subst.
  - vm_compute. reflexivity.
Defined.

End FileSys.
