(* ===== verification/Pki.v ===== *)
(** * Certificates and keys

    pkg/utils/pki (load.go, generate.go, validate.go): the helpers on X.509 certificates;
    pkg/k8sd/pki: the certificates of a control plane node, of a worker and of etcd;
    [SecondsToExpirationDate] of pkg/utils/time.go.

    External: the codecs and the cryptography of crypto/x509, crypto/rsa and encoding/pem
    ([PkiEnv]), the source of random numbers, the clock and the calendar.  The random
    operations take a counter, so that two calls need not agree. *)

From S2P Require Import Prelude GoStrings GoNet FileSys.
Import GoStr GoNet FileSys.

Module Pki.

(** ** Data of crypto/x509 *)

Record Name := mkName { CommonName : string; Organization : list string }.
Inductive ExtKeyUsage := ExtKeyUsageClientAuth | ExtKeyUsageServerAuth.
Inductive KeyUsage :=
| KeyUsageDigitalSignature | KeyUsageKeyEncipherment | KeyUsageDataEncipherment | KeyUsageCertSign.

#[export] Instance Name_eq_dec : EqDecision Name.
Proof. solve_decision. Defined.
#[export] Instance ExtKeyUsage_eq_dec : EqDecision ExtKeyUsage.
Proof. solve_decision. Defined.
#[export] Instance KeyUsage_eq_dec : EqDecision KeyUsage.
Proof. solve_decision. Defined.

(** The fields of [x509.Certificate] the source sets or reads; times are in nanoseconds.
    [crt_Raw] is the encoded certificate, which is empty in a template. *)
Record Certificate := mkCertificate {
  crt_SerialNumber : Z;
  crt_Subject : Name;
  crt_NotBefore : Z;
  crt_NotAfter : Z;
  crt_IPAddresses : list IP;
  crt_DNSNames : list string;
  crt_BasicConstraintsValid : bool;
  crt_ExtKeyUsage : list ExtKeyUsage;
  crt_KeyUsage : list KeyUsage;
  crt_IsCA : bool;
  crt_Raw : string }.
#[export] Instance Certificate_eq_dec : EqDecision Certificate.
Proof. solve_decision. Defined.

Class PkiEnv := {
  PrivateKey : Type;
  PublicKey : Type;
  Public : PrivateKey → PublicKey;
  (** The type and the bytes of the first PEM block. *)
  pem_Decode : string → option (string * string);
  pem_EncodeToMemory : string → string → option string;
  x509_ParseCertificate : string → res Certificate;
  x509_ParsePKCS1PrivateKey : string → res PrivateKey;
  (** [None] is a key that is not an RSA key. *)
  x509_ParsePKCS8PrivateKey : string → res (option PrivateKey);
  x509_ParsePKIXPublicKey : string → res (option PublicKey);
  x509_ParseCertificateRequest : string → res (Name * list string * list IP * PublicKey);
  x509_MarshalPKCS1PrivateKey : PrivateKey → string;
  x509_MarshalPKIXPublicKey : PublicKey → res string;
  x509_CreateCertificate : nat → Certificate → Certificate → PublicKey → PrivateKey → res string;
  x509_CreateCertificateRequest : nat → Name → list string → list IP → PrivateKey → res string;
  rsa_GenerateKey : nat → Z → res PrivateKey;
  rand_Int : nat → Z → res Z;
  (** Whether a pool of roots can be read, and the verification against one, [None] for
      the roots of the system. *)
  AppendCertsFromPEM : string → bool;
  cert_Verify : option string → Certificate → option goerr;
  cert_VerifyHostname : Certificate → string → option goerr;
  (** [Time.AddDate], which depends on the local time zone. *)
  AddDate : Z → Z → Z → Z → Z }.

Section Helpers.
Context `{PkiEnv}.

(** ** pkg/utils/pki/load.go *)

Definition LoadRSAPrivateKey (keyPEM : string) : res PrivateKey :=
  match pem_Decode keyPEM with
  | None => Err (Errorf "failed to parse PEM block" [])
  | Some (type, bytes) =>
      if type ==? "RSA PRIVATE KEY" then
        wrapf "failed to parse RSA private key: %w" [] (x509_ParsePKCS1PrivateKey bytes)
      else if type ==? "PRIVATE KEY" then
        parsed ← wrapf "failed to parse private key: %w" [] (x509_ParsePKCS8PrivateKey bytes);
        match parsed with Some v => Ok v | None => Err (Errorf "not an RSA private key" []) end
      else Err (Errorf "unknown private key block type %q" [type])
  end.

Definition LoadRSAPublicKey (keyPEM : string) : res PublicKey :=
  match pem_Decode keyPEM with
  | None => Err (Errorf "failed to parse PEM block" [])
  | Some (type, bytes) =>
      if type ==? "PUBLIC KEY" then
        parsed ← wrapf "failed to parse public key: %w" [] (x509_ParsePKIXPublicKey bytes);
        match parsed with Some v => Ok v | None => Err (Errorf "not an RSA public key" []) end
      else Err (Errorf "unknown public key block type %q" [type])
  end.

(** The key is nil if there is no PEM for it. *)
Definition LoadCertificate (certPEM keyPEM : string) : res (Certificate * option PrivateKey) :=
  match pem_Decode certPEM with
  | None => Err (Errorf "failed to parse certificate PEM" [])
  | Some (_, bytes) =>
      cert ← wrapf "failed to parse certificate: %w" [] (x509_ParseCertificate bytes);
      if keyPEM ==? EmptyString then Ok (cert, None)
      else
        key ← wrapf "failed to load RSA private key: %w" [] (LoadRSAPrivateKey keyPEM);
        Ok (cert, Some key)
  end.

Definition LoadCertificateRequest (csrPEM : string) : res (Name * list string * list IP * PublicKey) :=
  match pem_Decode csrPEM with
  | None => Err (Errorf "failed to parse certificate request PEM" [])
  | Some (type, bytes) =>
      if type ==? "CERTIFICATE REQUEST" then
        wrapf "failed to parse certificate request: %w" [] (x509_ParseCertificateRequest bytes)
      else Err (Errorf "unknown certificate request block type %q" [type])
  end.

Definition LoadCertificatePairFromDir `{OSEnv} (baseDir name : string)
    : io (Certificate * option PrivateKey) :=
  certBytes ← io_wrapf "failed to read %s.crt: %w" [name]
    (os_ReadFile (filepath_Join [baseDir; name +:+ ".crt"]));
  keyBytes ← io_wrapf "failed to read %s.key: %w" [name]
    (os_ReadFile (filepath_Join [baseDir; name +:+ ".key"]));
  io_lift (wrapf "failed to parse %s certificate: %w" [name] (LoadCertificate certBytes keyBytes)).

(** ** pkg/utils/time.go *)

Definition yearSeconds : Z := 365 * 24 * 60 * 60.
Definition monthSeconds : Z := 30 * 24 * 60 * 60.
Definition daySeconds : Z := 24 * 60 * 60.

Definition SecondsToExpirationDate (now seconds : Z) : Z :=
  if (Z.rem seconds yearSeconds =? 0)%Z then AddDate now (Z.quot seconds yearSeconds) 0 0
  else if (Z.rem seconds monthSeconds =? 0)%Z then AddDate now 0 (Z.quot seconds monthSeconds) 0
  else if (Z.rem seconds daySeconds =? 0)%Z then AddDate now 0 0 (Z.quot seconds daySeconds)
  else (now + wrap64 (wrap64 seconds * 1000000000))%Z.

(** ** pkg/utils/pki/validate.go *)

Record CertCheck := mkCertCheck {
  ck_CN : string; ck_O : list string; ck_DNSSANs : list string; ck_CaPEM : string;
  ck_AllowSelfSigned : bool }.

Definition check_fails (o : option goerr) (fmt : string) (args : list string) : res unit :=
  match o with Some e => Err (Wrapf fmt args e) | None => Ok tt end.

Definition ValidateCert (now : Z) (check : CertCheck) (cert : option Certificate) : res unit :=
  match cert with
  | None => Err (Errorf "no certificate specified" [])
  | Some cert =>
      _ ← fails_if ((ck_CN check !=? EmptyString) && (ck_CN check !=? CommonName (crt_Subject cert)))
            (Errorf "invalid certificate CN, expected: %s, actual: %s " [ck_CN check; CommonName (crt_Subject cert)]);
      _ ← for_each (λ checkO, fails_if (bool_decide (checkO ∉ Organization (crt_Subject cert)))
            (Errorf "missing cert organization: %s, actual: %v" [checkO])) (ck_O check);
      _ ← fails_if (now <? crt_NotBefore cert)%Z
            (Errorf "invalid certificate, not valid before: %v, current time: %v" []);
      _ ← fails_if (crt_NotAfter cert <? now)%Z
            (Errorf "certificate expired since: %v, current time: %v" []);
      _ ← (if ck_AllowSelfSigned check then Ok tt
           else
             _ ← fails_if ((ck_CaPEM check !=? EmptyString) && negb (AppendCertsFromPEM (ck_CaPEM check)))
                   (Errorf "invalid CA certificate" []);
             let roots := if ck_CaPEM check !=? EmptyString then Some (ck_CaPEM check) else None in
             check_fails (cert_Verify roots cert) "certificate validation failure: %w" []);
      for_each (λ dnsName, check_fails (cert_VerifyHostname cert dnsName)
        "certificate dns name (%s) validation failure: %w, allowed dns names: %v" [dnsName])
        (ck_DNSSANs check)
  end.

Definition ValidateKeypair (now : Z) (check : CertCheck) (certPEM keyPEM : string) : res unit :=
  '(cert, _) ← wrapf "failed to parse certificate: %w" [] (LoadCertificate certPEM keyPEM);
  ValidateCert now check (Some cert).
End Helpers.

(** ** pkg/utils/pki/generate.go

    The operations that draw random numbers or change a struct: the state is the struct
    and the counter of the random source. *)

Definition gen (S A : Type) : Type := S → nat → res A * S * nat.
#[export] Instance gen_ret S : MRet (gen S) := λ A a c n, (Ok a, c, n).
#[export] Instance gen_bind S : MBind (gen S) := λ A B f m c n,
  match m c n with
  | (Ok a, c, n) => f a c n
  | (Err e, c, n) => (Err e, c, n)
  end.
Definition gen_lift {S A} (r : res A) : gen S A := λ c n, (r, c, n).
Definition gen_wrapf {S A} (fmt : string) (args : list string) (m : gen S A) : gen S A := λ c n,
  let '(r, c, n) := m c n in (wrapf fmt args r, c, n).
Definition gen_random {S A} (f : nat → res A) : gen S A := λ c n, (f n, c, Datatypes.S n).
Definition gen_get {S} : gen S S := λ c n, (Ok c, c, n).
Definition gen_put {S} (c : S) : gen S unit := λ _ n, (Ok tt, c, n).
Definition gen_fails_if {S} (b : bool) (e : goerr) : gen S unit := gen_lift (fails_if b e).

Section Generate.
Context `{PkiEnv} {S : Type}.

Definition GenerateSerialNumber : gen S Z := gen_random (λ n, rand_Int n (2 ^ 128)).

Definition GenerateCertificate (subject : Name) (notBefore notAfter : Z) (ca : bool)
    (dnsSANs : list string) (ipSANs : list IP) : gen S Certificate :=
  serialNumber ← gen_wrapf "failed to generate serial number for certificate template: %w" []
    GenerateSerialNumber;
  mret (mkCertificate serialNumber subject notBefore notAfter ipSANs dnsSANs true
    [ExtKeyUsageClientAuth; ExtKeyUsageServerAuth]
    (if ca then [KeyUsageDigitalSignature; KeyUsageCertSign]
     else [KeyUsageKeyEncipherment; KeyUsageDataEncipherment; KeyUsageDigitalSignature])
    ca EmptyString).

(** [keyPEM := pem.EncodeToMemory(...); if keyPEM == nil { return err }]. *)
Definition encode (type bytes fmt : string) : gen S string :=
  match pem_EncodeToMemory type bytes with
  | Some pem => mret pem
  | None => gen_lift (Err (Errorf fmt []))
  end.

Definition new_key (bits : Z) : gen S PrivateKey :=
  gen_wrapf "failed to generate RSA private key: %w" [] (gen_random (λ n, rsa_GenerateKey n bits)).
Definition encode_key (key : PrivateKey) : gen S string :=
  encode "RSA PRIVATE KEY" (x509_MarshalPKCS1PrivateKey key) "failed to encode private key PEM".

Definition GenerateSelfSignedCA (subject : Name) (notBefore notAfter bits : Z)
    : gen S (string * string) :=
  cert ← gen_wrapf "failed to generate certificate: %w" []
    (GenerateCertificate subject notBefore notAfter true [] []);
  key ← new_key bits;
  keyPEM ← encode_key key;
  derBytes ← gen_wrapf "failed to self-sign certificate: %w" []
    (gen_random (λ n, x509_CreateCertificate n cert cert (Public key) key));
  crtPEM ← encode "CERTIFICATE" derBytes "failed to encode certificate PEM";
  mret (crtPEM, keyPEM).

(** [signer] is the pair [pub], [priv] of the arguments; the certificate is signed with
    its own key if both are nil, and [pub] is not used otherwise. *)
Definition SignCertificate (certificate : Certificate) (bits : Z) (parent : Certificate)
    (signer : option PrivateKey) : gen S (string * string) :=
  key ← new_key bits;
  keyPEM ← encode_key key;
  derBytes ← gen_wrapf "failed to sign certificate: %w" []
    (gen_random (λ n, x509_CreateCertificate n certificate parent (Public key) (default key signer)));
  crtPEM ← encode "CERTIFICATE" derBytes "failed to encode certificate PEM";
  mret (crtPEM, keyPEM).

Definition GenerateRSAKey (bits : Z) : gen S (string * string) :=
  priv ← new_key bits;
  privPEM ← encode_key priv;
  pubBytes ← gen_wrapf "failed to encode RSA public key: %w" []
    (gen_lift (x509_MarshalPKIXPublicKey (Public priv)));
  pubPEM ← encode "PUBLIC KEY" pubBytes "failed to encode public key PEM";
  mret (privPEM, pubPEM).

Definition GenerateCSR (subject : Name) (bits : Z) (dnsSANs : list string) (ipSANs : list IP)
    : gen S (string * string) :=
  key ← new_key bits;
  keyPEM ← encode_key key;
  csrBytes ← gen_wrapf "failed to create certificate request: %w" []
    (gen_random (λ n, x509_CreateCertificateRequest n subject dnsSANs ipSANs key));
  csrPEM ← encode "CERTIFICATE REQUEST" csrBytes "failed to encode certificate request PEM";
  mret (csrPEM, keyPEM).
End Generate.
End Pki.
