(* ===== verification/PkiNode.v ===== *)
(** * The certificates of a node

    pkg/k8sd/pki: what a control plane node, a worker node and etcd need, which part of
    it is given and how the rest is generated.  The string fields of a struct are the
    values of a function on their names; an operation on a struct that fails leaves the
    fields it had already set. *)

From stdpp Require Import functions.
From S2P Require Import Prelude GoStrings GoNet Pki.
Import GoStr GoNet Pki.

Module PkiNode.

(** ** Control plane: control_plane.go *)

Inductive Field :=
| CACert | CAKey | ClientCACert | ClientCAKey | FrontProxyCACert | FrontProxyCAKey
| FrontProxyClientCert | FrontProxyClientKey | ServiceAccountKey | APIServerCert | APIServerKey
| KubeletCert | KubeletKey | AdminClientCert | AdminClientKey
| KubeControllerManagerClientCert | KubeControllerManagerClientKey
| KubeSchedulerClientCert | KubeSchedulerClientKey | KubeProxyClientCert | KubeProxyClientKey
| KubeletClientCert | KubeletClientKey | APIServerKubeletClientCert | APIServerKubeletClientKey
| K8sdPublicKey | K8sdPrivateKey.
#[export] Instance Field_eq_dec : EqDecision Field.
Proof. solve_decision. Defined.

Record ControlPlanePKIOpts := mkOpts {
  allowSelfSignedCA : bool;
  includeMachineAddressSANs : bool;
  hostname : string;
  ipSANs : list IP;
  dnsSANs : list string;
  notBefore : Z;
  notAfter : Z }.

Record ControlPlanePKI := mkControlPlanePKI {
  cp_opts : ControlPlanePKIOpts;
  cp : Field → string }.

Section ControlPlane.
Context `{PkiEnv}.

(** [notAfter] is [None] if it was not given. *)
Definition NewControlPlanePKI (allow include : bool) (host : string) (ips : list IP)
    (dns : list string) (nb : Z) (na : option Z) : ControlPlanePKI :=
  mkControlPlanePKI
    (mkOpts allow include host ips dns nb (match na with Some t => t | None => AddDate nb 1 0 0 end))
    (λ _, EmptyString).

Abbreviation M := (gen ControlPlanePKI).

Definition opts : M ControlPlanePKIOpts := c ← gen_get; mret (cp_opts c).
Definition fget (f : Field) : M string := c ← gen_get; mret (cp c f).
Definition fset (f : Field) (v : string) : M unit :=
  c ← gen_get; gen_put (mkControlPlanePKI (cp_opts c) (<[f := v]> (cp c))).
Definition fset_pair (certF keyF : Field) (pair : string * string) : M unit :=
  _ ← fset certF pair.1; fset keyF pair.2.

Definition is_empty (s : string) : bool := s ==? EmptyString.

Definition keys_have_certificates : M unit :=
  c ← gen_get;
  let lone cert key := is_empty (cp c cert) && negb (is_empty (cp c key)) in
  if lone CACert CAKey then
    gen_lift (Err (Errorf "kubernetes CA key is set without a certificate, fail to prevent causing issues" []))
  else if lone ClientCACert ClientCAKey then
    gen_lift (Err (Errorf "kubernetes CA client key is set without a certificate, fail to prevent causing issues" []))
  else if lone FrontProxyCACert FrontProxyCAKey then
    gen_lift (Err (Errorf "front-proxy CA key is set without a certificate, fail to prevent causing issues" []))
  else mret tt.

(** [addrs] is what [net.InterfaceAddrs] returns, printed. *)
Definition machine_ips (addrs : res (list string)) : M (list IP) :=
  o ← opts;
  if includeMachineAddressSANs o then
    addresses ← gen_wrapf "failed to retrieve machine addresses: %w" [] (gen_lift addrs);
    mret (omap (λ a, match ParseCIDR a with Ok (ip, _) => Some ip | Err _ => None end) addresses)
  else
    mret (omap ParseIP ["127.0.0.1"; "::1"]).

Definition self_signed : CertCheck := mkCertCheck EmptyString [] [] EmptyString true.

(** One of the three CAs: generated if neither part is set, validated otherwise. *)
Definition complete_ca (now : Z) (certF keyF : Field) (cn not_allowed cannot invalid : string) : M unit :=
  crt ← fget certF; key ← fget keyF; o ← opts;
  if is_empty crt && is_empty key then
    _ ← gen_fails_if (negb (allowSelfSignedCA o)) (Errorf not_allowed []);
    pair ← gen_wrapf cannot [] (GenerateSelfSignedCA (mkName cn []) (notBefore o) (notAfter o) 2048);
    fset_pair certF keyF pair
  else gen_lift (wrapf invalid [] (ValidateKeypair now self_signed crt key)).

(** A certificate that [ca] signs and its key: generated if one of them is missing, which
    needs the key of the CA; validated otherwise, if there is a check. *)
Definition generate_pair (ca : Certificate * option PrivateKey) (certF keyF : Field)
    (subject : Name) (dns : list string) (ips : list IP)
    (external cannot cannot_sign : string) (args : list string) : M unit :=
  match ca.2 with
  | None => gen_lift (Err (Errorf external args))
  | Some priv =>
      o ← opts;
      template ← gen_wrapf cannot args
        (GenerateCertificate subject (notBefore o) (notAfter o) false dns ips);
      pair ← gen_wrapf cannot_sign args (SignCertificate template 2048 ca.1 (Some priv));
      fset_pair certF keyF pair
  end.

Definition complete_front_proxy_client (now : Z) : M unit :=
  crt ← fget FrontProxyClientCert; key ← fget FrontProxyClientKey;
  caCert ← fget FrontProxyCACert; caKey ← fget FrontProxyCAKey;
  if is_empty crt || is_empty key then
    ca ← gen_lift (wrapf "failed to parse front proxy CA: %w" [] (LoadCertificate caCert caKey));
    generate_pair ca FrontProxyClientCert FrontProxyClientKey (mkName "front-proxy-client" []) [] []
      "using an external front proxy CA without providing the front-proxy-client certificate is not possible"
      "failed to generate front-proxy-client certificate: %w"
      "failed to sign front-proxy-client certificate: %w" []
  else gen_lift (wrapf "kubernetes front-proxy client certificate validation failure: %w" []
         (ValidateKeypair now (mkCertCheck EmptyString [] [] caCert false) crt key)).

Definition complete_service_account_key : M unit :=
  key ← fget ServiceAccountKey; o ← opts;
  if is_empty key then
    _ ← gen_fails_if (negb (allowSelfSignedCA o))
          (Errorf "service account signing key not specified and generating new key is not allowed" []);
    '(key, _) ← gen_wrapf "failed to generate service account key: %w" [] (GenerateRSAKey 2048);
    fset ServiceAccountKey key
  else mret tt.

Definition complete_kubelet (now : Z) (serverCA : Certificate * option PrivateKey)
    (machineIPs : list IP) : M unit :=
  crt ← fget KubeletCert; key ← fget KubeletKey; caCert ← fget CACert; o ← opts;
  if is_empty crt || is_empty key then
    generate_pair serverCA KubeletCert KubeletKey
      (mkName ("system:node:" +:+ hostname o) ["system:nodes"])
      (dnsSANs o ++ [hostname o]) (ipSANs o ++ machineIPs)
      "using an external kubernetes CA without providing the kubelet certificate is not possible"
      "failed to generate kubelet certificate: %w" "failed to sign kubelet certificate: %w" []
  else gen_lift (wrapf "kubelet certificate validation failure: %w" []
         (ValidateKeypair now (mkCertCheck EmptyString [] [hostname o] caCert false) crt key)).

Definition complete_apiserver_kubelet_client (now : Z) (clientCA : Certificate * option PrivateKey)
    : M unit :=
  crt ← fget APIServerKubeletClientCert; key ← fget APIServerKubeletClientKey;
  caCert ← fget ClientCACert;
  if is_empty crt || is_empty key then
    generate_pair clientCA APIServerKubeletClientCert APIServerKubeletClientKey
      (mkName "apiserver-kubelet-client" ["system:masters"]) [] []
      "using an external kubernetes CA without providing the apiserver-kubelet-client certificate is not possible"
      "failed to generate apiserver-kubelet-client certificate: %w"
      "failed to sign apiserver-kubelet-client certificate: %w" []
  else gen_lift (wrapf "apiserver-kubelet-client certificate validation failure: %w" []
         (ValidateKeypair now (mkCertCheck EmptyString [] [] caCert false) crt key)).

Definition complete_apiserver (now : Z) (serverCA : Certificate * option PrivateKey)
    (machineIPs : list IP) : M unit :=
  crt ← fget APIServerCert; key ← fget APIServerKey; caCert ← fget CACert; o ← opts;
  if is_empty crt || is_empty key then
    generate_pair serverCA APIServerCert APIServerKey (mkName "kube-apiserver" [])
      (dnsSANs o ++ ["kubernetes"; "kubernetes.default"; "kubernetes.default.svc";
                     "kubernetes.default.svc.cluster"; "kubernetes.default.svc.cluster.local"])
      (ipSANs o ++ machineIPs)
      "using an external kubernetes CA without providing the apiserver certificate is not possible"
      "failed to generate apiserver certificate: %w" "failed to sign apiserver certificate: %w" []
  else gen_lift (wrapf "kube-apiserver certificate validation failure: %w" []
         (ValidateKeypair now (mkCertCheck EmptyString [] ["kubernetes"] caCert false) crt key)).

Record ClientCert := mkClientCert {
  cc_name : string; cc_subject : Name; cc_cert : Field; cc_key : Field }.
Definition client_certs (host : string) : list ClientCert :=
  [mkClientCert "admin" (mkName "kubernetes-admin" ["system:masters"]) AdminClientCert AdminClientKey;
   mkClientCert "controller" (mkName "system:kube-controller-manager" [])
     KubeControllerManagerClientCert KubeControllerManagerClientKey;
   mkClientCert "proxy" (mkName "system:kube-proxy" []) KubeProxyClientCert KubeProxyClientKey;
   mkClientCert "scheduler" (mkName "system:kube-scheduler" [])
     KubeSchedulerClientCert KubeSchedulerClientKey;
   mkClientCert "kubelet" (mkName ("system:node:" +:+ host) ["system:nodes"])
     KubeletClientCert KubeletClientKey].

(** These are not validated when they are given. *)
Definition complete_client (clientCA : Certificate * option PrivateKey) (i : ClientCert) : M unit :=
  crt ← fget (cc_cert i); key ← fget (cc_key i);
  if is_empty crt || is_empty key then
    generate_pair clientCA (cc_cert i) (cc_key i) (cc_subject i) [] []
      "using an external kubernetes CA client without providing the %s certificate is not possible"
      "failed to generate %s client certificate: %w" "failed to sign %s client certificate: %w"
      [cc_name i]
  else mret tt.

Fixpoint complete_clients (clientCA : Certificate * option PrivateKey) (l : list ClientCert) : M unit :=
  match l with
  | [] => mret tt
  | i :: l => _ ← complete_client clientCA i; complete_clients clientCA l
  end.

Definition complete_k8sd_keypair : M unit :=
  priv ← fget K8sdPrivateKey; pub ← fget K8sdPublicKey; o ← opts;
  if is_empty priv || is_empty pub then
    _ ← gen_fails_if (negb (allowSelfSignedCA o))
          (Errorf "cluster keypair not specified and generating new key is not allowed" []);
    '(priv, pub) ← gen_wrapf "failed to generate cluster keypair: %w" [] (GenerateRSAKey 2048);
    _ ← fset K8sdPrivateKey priv; fset K8sdPublicKey pub
  else mret tt.

(** [fget] two fields and load them. *)
Definition load_ca (certF keyF : Field) : M (Certificate * option PrivateKey) :=
  crt ← fget certF; key ← fget keyF;
  gen_lift (wrapf "failed to parse kubernetes CA: %w" [] (LoadCertificate crt key)).

Definition ControlPlane_CompleteCertificates (now : Z) (addrs : res (list string)) : M unit :=
  _ ← keys_have_certificates;
  machineIPs ← machine_ips addrs;
  _ ← complete_ca now CACert CAKey "kubernetes-ca"
        "kubernetes CA not specified and generating self-signed CA not allowed"
        "failed to generate kubernetes CA: %w" "kubernetes CA certificate validation failure: %w";
  _ ← complete_ca now ClientCACert ClientCAKey "kubernetes-ca-client"
        "kubernetes client CA not specified and generating self-signed CA not allowed"
        "failed to generate kubernetes client CA: %w"
        "kubernetes client CA certificate validation failure: %w";
  serverCA ← load_ca CACert CAKey;
  clientCA ← load_ca ClientCACert ClientCAKey;
  _ ← complete_ca now FrontProxyCACert FrontProxyCAKey "front-proxy-ca"
        "front-proxy CA not specified and generating self-signed CA not allowed"
        "failed to generate front-proxy CA: %w"
        "kubernetes front-proxy CA certificate validation failure: %w";
  _ ← complete_front_proxy_client now;
  _ ← complete_service_account_key;
  _ ← complete_kubelet now serverCA machineIPs;
  _ ← complete_apiserver_kubelet_client now clientCA;
  _ ← complete_apiserver now serverCA machineIPs;
  o ← opts;
  _ ← complete_clients clientCA (client_certs (hostname o));
  complete_k8sd_keypair.
End ControlPlane.

(** ** Workers: worker.go *)

Record WorkerNodePKI := mkWorkerNodePKI {
  wn_CACert : string; wn_ClientCACert : string;
  wn_KubeletCert : string; wn_KubeletKey : string;
  wn_KubeProxyClientCert : string; wn_KubeProxyClientKey : string;
  wn_KubeletClientCert : string; wn_KubeletClientKey : string }.

Section Worker.
Context `{PkiEnv}.
Abbreviation M := (gen ControlPlanePKI).

(** A client certificate for a worker; the struct of the worker is new, so none of them
    is set yet. *)
Definition worker_client (clientCACert : Certificate) (clientCAKey : PrivateKey)
    (name : string) (subject : Name) : M (string * string) :=
  o ← opts;
  template ← gen_wrapf "failed to generate %s client certificate: %w" [name]
    (GenerateCertificate subject (notBefore o) (notAfter o) false [] []);
  gen_wrapf "failed to sign %s client certificate: %w" [name]
    (SignCertificate template 2048 clientCACert (Some clientCAKey)).

Definition CompleteWorkerNodePKI (host : string) (nodeIP : IP) (bits : Z) : M WorkerNodePKI :=
  c ← gen_get;
  server ← gen_lift (wrapf "failed to load kubernetes CA: %w" [] (LoadCertificate (cp c CACert) (cp c CAKey)));
  client ← gen_lift (wrapf "failed to load kubernetes client CA: %w" []
    (LoadCertificate (cp c ClientCACert) (cp c ClientCAKey)));
  kubelet ← match server.2 with
            | Some serverCAKey =>
                template ← gen_wrapf "failed to generate kubelet certificate for hostname=%s address=%s: %w" [host]
                  (GenerateCertificate (mkName ("system:node:" +:+ host) ["system:nodes"])
                     (notBefore (cp_opts c)) (notAfter (cp_opts c)) false [host]
                     (omap ParseIP ["127.0.0.1"; "::1"] ++ [nodeIP]));
                gen_wrapf "failed to sign kubelet certificate for hostname=%s address=%s: %w" [host]
                  (SignCertificate template bits server.1 (Some serverCAKey))
            | None => mret (EmptyString, EmptyString)
            end;
  clients ← match client.2 with
            | Some clientCAKey =>
                proxy ← worker_client client.1 clientCAKey "proxy" (mkName "system:kube-proxy" []);
                kubeletClient ← worker_client client.1 clientCAKey "kubelet"
                  (mkName ("system:node:" +:+ host) ["system:nodes"]);
                mret (proxy, kubeletClient)
            | None => mret ((EmptyString, EmptyString), (EmptyString, EmptyString))
            end;
  mret (mkWorkerNodePKI (cp c CACert) (cp c ClientCACert) kubelet.1 kubelet.2
    clients.1.1 clients.1.2 clients.2.1 clients.2.2).
End Worker.

Definition Worker_CompleteCertificates (c : WorkerNodePKI) : res unit :=
  _ ← fails_if (is_empty (wn_CACert c)) (Errorf "kubernetes CA not specified" []);
  _ ← fails_if (is_empty (wn_KubeletCert c) || is_empty (wn_KubeletKey c))
        (Errorf "kubelet certificate not specified" []);
  _ ← fails_if (is_empty (wn_KubeletClientCert c) || is_empty (wn_KubeletClientKey c))
        (Errorf "kubelet client certificate not specified" []);
  fails_if (is_empty (wn_KubeProxyClientCert c) || is_empty (wn_KubeProxyClientKey c))
    (Errorf "kube-proxy client certificate not specified" []).

(** ** Datastores: etcd.go and external_datastore.go *)

Inductive EtcdField :=
| EtcdCACert | EtcdCAKey | EtcdServerCert | EtcdServerKey | EtcdServerPeerCert | EtcdServerPeerKey
| EtcdAPIServerClientCert | EtcdAPIServerClientKey.
#[export] Instance EtcdField_eq_dec : EqDecision EtcdField.
Proof. solve_decision. Defined.

Record EtcdPKI := mkEtcdPKI {
  et_opts : ControlPlanePKIOpts;
  et : EtcdField → string }.

Record ExternalDatastorePKI := mkExternalDatastorePKI {
  DatastoreCACert : string; DatastoreClientCert : string; DatastoreClientKey : string }.

Definition CheckCertificates (c : ExternalDatastorePKI) : res unit :=
  let crt := is_empty (DatastoreClientCert c) in let key := is_empty (DatastoreClientKey c) in
  if crt && negb key then
    Err (Errorf "external datastore certificate key set without a certificate, fail to prevent further issues" [])
  else if negb crt && key then
    Err (Errorf "external datastore certificate set without a key, fail to prevent further issues" [])
  else Ok tt.

Section Etcd.
Context `{PkiEnv}.
Abbreviation M := (gen EtcdPKI).

Definition NewEtcdPKI (allow : bool) (host : string) (ips : list IP) (dns : list string)
    (nb : Z) (na : option Z) : EtcdPKI :=
  mkEtcdPKI
    (mkOpts allow false host ips dns nb (match na with Some t => t | None => AddDate nb 1 0 0 end))
    (λ _, EmptyString).

Definition eset_pair (certF keyF : EtcdField) (pair : string * string) : M unit :=
  c ← gen_get; gen_put (mkEtcdPKI (et_opts c) (<[keyF := pair.2]> (<[certF := pair.1]> (et c)))).

(** A certificate that is generated only if neither it nor its key is set. *)
Definition etcd_pair (ca : Certificate * option PrivateKey) (certF keyF : EtcdField) (cn : string)
    (dns : list string) (ips : list IP) (external : string) : M unit :=
  c ← gen_get;
  if is_empty (et c certF) && is_empty (et c keyF) then
    match ca.2 with
    | None => gen_lift (Err (Errorf external []))
    | Some key =>
        template ← gen_wrapf "failed to generate etcd certificate: %w" []
          (GenerateCertificate (mkName cn []) (notBefore (et_opts c)) (notAfter (et_opts c)) false dns ips);
        pair ← gen_wrapf "failed to self-sign etcd certificate: %w" []
          (SignCertificate template 2048 ca.1 (Some key));
        eset_pair certF keyF pair
    end
  else mret tt.

Definition etcd_ca (now : Z) : M unit :=
  c ← gen_get;
  if is_empty (et c EtcdCACert) && is_empty (et c EtcdCAKey) then
    _ ← gen_fails_if (negb (allowSelfSignedCA (et_opts c)))
          (Errorf "etcd CA not specified and generating self-signed CA not allowed" []);
    pair ← gen_wrapf "failed to generate etcd CA: %w" []
      (GenerateSelfSignedCA (mkName "etcd-ca" []) (notBefore (et_opts c)) (notAfter (et_opts c)) 2048);
    eset_pair EtcdCACert EtcdCAKey pair
  else gen_lift (wrapf "etcd CA certificate validation failure: %w" []
         (ValidateKeypair now self_signed (et c EtcdCACert) (et c EtcdCAKey))).

Definition Etcd_CompleteCertificates (now : Z) : M unit :=
  c ← gen_get;
  _ ← gen_fails_if (is_empty (et c EtcdCACert) && negb (is_empty (et c EtcdCAKey)))
        (Errorf "etcd CA certificate key set without a certificate, fail to prevent further issues" []);
  _ ← etcd_ca now;
  c ← gen_get;
  ca ← gen_lift (wrapf "failed to parse etcd CA: %w" [] (LoadCertificate (et c EtcdCACert) (et c EtcdCAKey)));
  let o := et_opts c in
  let dns := dnsSANs o ++ [hostname o] in
  let ips := ipSANs o ++ [[127; 0; 0; 1]%Z] in
  _ ← etcd_pair ca EtcdServerCert EtcdServerKey "kube-etcd" dns ips
        "using an external etcd CA with specifying an etcd server certificate is not possible";
  _ ← etcd_pair ca EtcdServerPeerCert EtcdServerPeerKey "kube-etcd-peer" dns ips
        "using an external etcd CA with specifying an etcd server peer certificate is not possible";
  etcd_pair ca EtcdAPIServerClientCert EtcdAPIServerClientKey "kube-apiserver-etcd-client" [] []
    "using an external etcd CA with specifying an etcd apiserver client certificate is not possible".
End Etcd.

(** ** Reasoning about [gen] *)

Section GenLogic.
Context {S : Type}.

Lemma gen_bind_inv {A B} (m : gen S A) (f : A → gen S B) c n r c' n' :
  (m ≫= f) c n = (r, c', n') →
  (∃ a c1 n1, m c n = (Ok a, c1, n1) ∧ f a c1 n1 = (r, c', n')) ∨
  (∃ e, r = Err e ∧ m c n = (Err e, c', n')).
Proof.
  unfold mbind, gen_bind. destruct (m c n) as [[[a|e] c1] n1]; intros E.
  - left. by exists a, c1, n1.
  - right. exists e. by simplify_eq.
Qed.

Lemma gen_wrapf_inv {A} fmt args (m : gen S A) c n r c' n' :
  gen_wrapf fmt args m c n = (r, c', n') →
  ∃ r0, m c n = (r0, c', n') ∧ r = wrapf fmt args r0.
Proof. unfold gen_wrapf. destruct (m c n) as [[r0 c1] n1]. intros [= <- <- <-]. by exists r0. Qed.

(** An operation that leaves the struct alone. *)
Definition pure_gen {A} (m : gen S A) : Prop := ∀ c n r c' n', m c n = (r, c', n') → c' = c.

Lemma pure_bind {A B} (m : gen S A) (f : A → gen S B) :
  pure_gen m → (∀ a, pure_gen (f a)) → pure_gen (m ≫= f).
Proof.
  intros Hm Hf c n r c' n' [(a & c1 & n1 & E1 & E2)|(e & -> & E)]%gen_bind_inv; [|by eapply Hm].
  apply Hm in E1 as ->. by apply Hf in E2.
Qed.
Lemma pure_ret {A} (a : A) : pure_gen (mret a).
Proof. intros c n r c' n' [=]. done. Qed.
Lemma pure_lift {A} (r : res A) : pure_gen (gen_lift r).
Proof. intros c n r' c' n' [=]. done. Qed.
Lemma pure_random {A} (f : nat → res A) : pure_gen (gen_random f).
Proof. intros c n r' c' n' [=]. done. Qed.
Lemma pure_get : pure_gen gen_get.
Proof. intros c n r' c' n' [=]. done. Qed.
Lemma pure_wrapf {A} fmt args (m : gen S A) : pure_gen m → pure_gen (gen_wrapf fmt args m).
Proof. intros Hm c n r c' n' (r0 & E & _)%gen_wrapf_inv. by eapply Hm. Qed.
End GenLogic.

Create HintDb pure_gen.
#[export] Hint Resolve pure_bind pure_ret pure_lift pure_random pure_get pure_wrapf : pure_gen.

(** Inverts a successful run of an operation, keeping what each of its calls returned. *)
Ltac gen_step E :=
  let a := fresh "a" in let c1 := fresh "c" in let n1 := fresh "n" in let E1 := fresh "E" in
  let e := fresh "e" in
  apply gen_bind_inv in E as [(a & c1 & n1 & E1 & E)|(e & ? & ?)]; [|done].

(** What a PEM encoder promises: text that is not empty. *)
Class PemOk `{PkiEnv} : Prop :=
  pem_nonempty : ∀ type bytes pem, pem_EncodeToMemory type bytes = Some pem → pem ≠ EmptyString.

Section Generated.
Context `{PkiEnv}.

(** A key pair whose certificate [ca], [priv] signed for [template]. *)
Definition issued (ca : Certificate) (signer : option PrivateKey) (template : Certificate)
    (pair : string * string) : Prop :=
  ∃ n k der, x509_CreateCertificate n template ca (Public k) (default k signer) = Ok der ∧
    pem_EncodeToMemory "CERTIFICATE" der = Some pair.1 ∧
    pem_EncodeToMemory "RSA PRIVATE KEY" (x509_MarshalPKCS1PrivateKey k) = Some pair.2.

Definition template_for (subject : Name) (nb na : Z) (ca : bool) (dns : list string) (ips : list IP)
    (t : Certificate) : Prop :=
  crt_Subject t = subject ∧ crt_NotBefore t = nb ∧ crt_NotAfter t = na ∧ crt_IsCA t = ca ∧
  crt_DNSNames t = dns ∧ crt_IPAddresses t = ips.

Context {S : Type}.

Lemma GenerateCertificate_pure s nb na ca dns ips :
  pure_gen (S:=S) (GenerateCertificate s nb na ca dns ips).
Proof. unfold GenerateCertificate, GenerateSerialNumber. auto with pure_gen. Qed.

Lemma encode_pure type bytes fmt : pure_gen (S:=S) (encode type bytes fmt).
Proof. unfold encode. destruct (pem_EncodeToMemory _ _); auto with pure_gen. Qed.
Hint Resolve GenerateCertificate_pure encode_pure : pure_gen.

Lemma SignCertificate_pure t bits p s : pure_gen (S:=S) (SignCertificate t bits p s).
Proof. unfold SignCertificate, new_key, encode_key. auto 15 with pure_gen. Qed.
Lemma GenerateSelfSignedCA_pure s nb na bits : pure_gen (S:=S) (GenerateSelfSignedCA s nb na bits).
Proof. unfold GenerateSelfSignedCA, new_key, encode_key. auto 15 with pure_gen. Qed.
Lemma GenerateRSAKey_pure bits : pure_gen (S:=S) (GenerateRSAKey bits).
Proof. unfold GenerateRSAKey, new_key, encode_key. auto 15 with pure_gen. Qed.

Lemma GenerateCertificate_template s nb na ca dns ips c n t c' n' :
  GenerateCertificate (S:=S) s nb na ca dns ips c n = (Ok t, c', n') →
  template_for s nb na ca dns ips t.
Proof. unfold GenerateCertificate. intros E. gen_step E. by injection E as <- <- <-. Qed.

Lemma encode_Ok type bytes fmt (c : S) n pem c' n' :
  encode type bytes fmt c n = (Ok pem, c', n') → pem_EncodeToMemory type bytes = Some pem.
Proof. unfold encode. destruct (pem_EncodeToMemory _ _); intros [=]; congruence. Qed.

Lemma random_Ok {A} fmt args (f : nat → res A) (c : S) n a c' n' :
  gen_wrapf fmt args (gen_random f) c n = (Ok a, c', n') → f n = Ok a.
Proof.
  intros (r0 & [= <- _ _] & Hw)%gen_wrapf_inv. symmetry in Hw. by apply wrapf_Ok in Hw.
Qed.

Lemma SignCertificate_issued t bits p s (c : S) n pair c' n' :
  SignCertificate t bits p s c n = (Ok pair, c', n') → issued p s t pair.
Proof.
  unfold SignCertificate. intros E. do 4 gen_step E. injection E as <- _ _.
  apply encode_Ok in E1, E3. apply random_Ok in E2. eexists _, _, _. eauto.
Qed.

Lemma GenerateSelfSignedCA_issued s nb na bits (c : S) n pair c' n' :
  GenerateSelfSignedCA s nb na bits c n = (Ok pair, c', n') →
  ∃ t, template_for s nb na true [] [] t ∧ issued t None t pair.
Proof.
  unfold GenerateSelfSignedCA. intros E. do 5 gen_step E. injection E as <- _ _.
  apply gen_wrapf_inv in E0 as (r0 & E0 & Hw). symmetry in Hw. apply wrapf_Ok in Hw as ->.
  apply GenerateCertificate_template in E0. apply encode_Ok in E2, E4. apply random_Ok in E3.
  exists a. split; [done|]. eexists _, _, _. eauto.
Qed.

Lemma issued_nonempty `{!PemOk} p s t pair :
  issued p s t pair → pair.1 ≠ EmptyString ∧ pair.2 ≠ EmptyString.
Proof. intros (n & k & der & _ & H1 & H2). split; by eapply pem_nonempty. Qed.
End Generated.
#[export] Hint Resolve GenerateCertificate_pure SignCertificate_pure GenerateSelfSignedCA_pure
  GenerateRSAKey_pure encode_pure : pure_gen.

(** ** The steps of [ControlPlane_CompleteCertificates] *)

Section Steps.
Context `{PkiEnv}.
Implicit Types c : ControlPlanePKI.

(** Only the fields [fs] may change. *)
Definition frame (fs : list Field) c c' : Prop :=
  cp_opts c' = cp_opts c ∧ ∀ f, f ∉ fs → cp c' f = cp c f.

(** What an operation may change, what holds once it succeeds, and that nothing at all
    changes if self-signed certificates are not allowed but would be needed. *)
Definition step_spec (fs : list Field) (post : ControlPlanePKI → ControlPlanePKI → Prop)
    (m : gen ControlPlanePKI unit) : Prop :=
  ∀ c n r c' n', m c n = (r, c', n') → frame fs c c' ∧ (r = Ok tt → post c c').

Lemma frame_refl fs c : frame fs c c.
Proof. by split. Qed.

Lemma fget_bind {A} f (k : string → gen ControlPlanePKI A) c n :
  (fget f ≫= k) c n = k (cp c f) c n.
Proof. done. Qed.
Lemma opts_bind {A} (k : ControlPlanePKIOpts → gen ControlPlanePKI A) c n :
  (opts ≫= k) c n = k (cp_opts c) c n.
Proof. done. Qed.

Lemma fset_pair_spec certF keyF pair c n r c' n' :
  certF ≠ keyF → fset_pair certF keyF pair c n = (r, c', n') →
  frame [certF; keyF] c c' ∧ cp c' certF = pair.1 ∧ cp c' keyF = pair.2.
Proof.
  intros Hne [= <- <- <-]. split_and!; [split; [done|]| |]; simpl.
  - intros f Hf. rewrite !fn_lookup_insert_ne; set_solver.
  - rewrite fn_lookup_insert_ne by done. by rewrite fn_lookup_insert.
  - by rewrite fn_lookup_insert.
Qed.

(** How a CA comes out: kept and validated if a part of it was given, else a new one. *)
Definition ca_done (now : Z) (certF keyF : Field) (cn : string) c c' : Prop :=
  ((cp c certF ≠ EmptyString ∨ cp c keyF ≠ EmptyString) ∧
   cp c' certF = cp c certF ∧ cp c' keyF = cp c keyF ∧
   ValidateKeypair now self_signed (cp c' certF) (cp c' keyF) = Ok tt) ∨
  (cp c certF = EmptyString ∧ cp c keyF = EmptyString ∧ allowSelfSignedCA (cp_opts c) = true ∧
   ∃ t, template_for (mkName cn []) (notBefore (cp_opts c)) (notAfter (cp_opts c)) true [] [] t ∧
     issued t None t (cp c' certF, cp c' keyF)).

Lemma complete_ca_spec now certF keyF cn m1 m2 m3 : certF ≠ keyF →
  step_spec [certF; keyF] (ca_done now certF keyF cn) (complete_ca now certF keyF cn m1 m2 m3).
Proof.
  intros Hne c n r c' n' E. unfold complete_ca in E. rewrite !fget_bind, opts_bind in E.
  unfold is_empty in E. repeat case_bool_decide; simpl in E.
  - apply gen_bind_inv in E as [(u & c1 & n1 & E1 & E)|(e & -> & E)]; cycle 1.
    { injection E as _ <- <-. split; [apply frame_refl|done]. }
    injection E1 as Hf <- <-. apply fails_if_Ok in Hf.
    apply gen_bind_inv in E as [(pair & c2 & n2 & E2 & E)|(e & -> & E)]; cycle 1.
    { apply pure_wrapf in E; [subst; split; [apply frame_refl|done]|auto with pure_gen]. }
    apply gen_wrapf_inv in E2 as (r0 & E2 & Hw). symmetry in Hw. apply wrapf_Ok in Hw as ->.
    pose proof (GenerateSelfSignedCA_pure _ _ _ _ _ _ _ _ _ E2) as ->.
    apply GenerateSelfSignedCA_issued in E2 as (t & Ht & Hi).
    apply fset_pair_spec in E as (Hfr & Hp1 & Hp2); [|done]. split; [done|]. intros _. right.
    rewrite Hp1, Hp2, <- surjective_pairing. split_and!; [done..| |by exists t].
    by destruct (allowSelfSignedCA (cp_opts c)).
  - injection E as <- <- <-. split; [apply frame_refl|]. intros ?%wrapf_Ok. left. by auto.
  - injection E as <- <- <-. split; [apply frame_refl|]. intros ?%wrapf_Ok. left. by auto.
  - injection E as <- <- <-. split; [apply frame_refl|]. intros ?%wrapf_Ok. left. by auto.
Qed.

(** A certificate that one of the CAs signs: its fields, those of the CA, what it is issued
    for, and the DNS names it is checked against if it is given, if it is checked. *)
Record leaf := mkLeaf {
  lf_cert : Field; lf_key : Field; lf_ca : Field; lf_caKey : Field;
  lf_subject : Name; lf_dns : list string; lf_ips : list IP; lf_check : option (list string) }.

Definition leaf_done (now : Z) (l : leaf) c c' : Prop :=
  (cp c (lf_cert l) ≠ EmptyString ∧ cp c (lf_key l) ≠ EmptyString ∧
   cp c' (lf_cert l) = cp c (lf_cert l) ∧ cp c' (lf_key l) = cp c (lf_key l) ∧
   (∀ dns, lf_check l = Some dns →
      ValidateKeypair now (mkCertCheck EmptyString [] dns (cp c' (lf_ca l)) false)
        (cp c' (lf_cert l)) (cp c' (lf_key l)) = Ok tt)) ∨
  ((cp c (lf_cert l) = EmptyString ∨ cp c (lf_key l) = EmptyString) ∧
   ∃ ca priv t, LoadCertificate (cp c' (lf_ca l)) (cp c' (lf_caKey l)) = Ok (ca, Some priv) ∧
     template_for (lf_subject l) (notBefore (cp_opts c)) (notAfter (cp_opts c)) false
       (lf_dns l) (lf_ips l) t ∧
     issued ca (Some priv) t (cp c' (lf_cert l), cp c' (lf_key l))).

Definition leaf_ok (l : leaf) : Prop :=
  lf_cert l ≠ lf_key l ∧ lf_ca l ∉ [lf_cert l; lf_key l] ∧ lf_caKey l ∉ [lf_cert l; lf_key l].

Lemma generate_pair_spec now l ca m1 m2 m3 args c n r c' n' : leaf_ok l →
  generate_pair ca (lf_cert l) (lf_key l) (lf_subject l) (lf_dns l) (lf_ips l) m1 m2 m3 args c n
    = (r, c', n') →
  LoadCertificate (cp c (lf_ca l)) (cp c (lf_caKey l)) = Ok ca →
  (cp c (lf_cert l) = EmptyString ∨ cp c (lf_key l) = EmptyString) →
  frame [lf_cert l; lf_key l] c c' ∧ (r = Ok tt → leaf_done now l c c').
Proof.
  intros (Hne & Hca & Hck) E Hload Hempty. unfold generate_pair in E.
  destruct ca as [crt [priv|]]; cbn [fst snd] in E; cycle 1.
  { injection E as <- <- <-. split; [apply frame_refl|done]. }
  rewrite opts_bind in E.
  apply gen_bind_inv in E as [(t & c1 & n1 & E1 & E)|(e & -> & E)]; cycle 1.
  { apply pure_wrapf in E; [subst; split; [apply frame_refl|done]|auto with pure_gen]. }
  apply gen_wrapf_inv in E1 as (r0 & E1 & Hw). symmetry in Hw. apply wrapf_Ok in Hw as ->.
  pose proof (GenerateCertificate_pure _ _ _ _ _ _ _ _ _ _ _ E1) as ->.
  apply GenerateCertificate_template in E1.
  apply gen_bind_inv in E as [(pair & c2 & n2 & E2 & E)|(e & -> & E)]; cycle 1.
  { apply pure_wrapf in E; [subst; split; [apply frame_refl|done]|auto with pure_gen]. }
  apply gen_wrapf_inv in E2 as (r0 & E2 & Hw). symmetry in Hw. apply wrapf_Ok in Hw as ->.
  pose proof (SignCertificate_pure _ _ _ _ _ _ _ _ _ E2) as ->.
  apply SignCertificate_issued in E2.
  apply fset_pair_spec in E as (Hfr & Hp1 & Hp2); [|done]. split; [done|]. intros _. right.
  split; [done|]. exists crt, priv, t. destruct Hfr as [Ho Hfr].
  rewrite Hp1, Hp2, <- surjective_pairing, !Hfr by done. done.
Qed.

Lemma is_empty_or (s1 s2 : string) :
  is_empty s1 || is_empty s2 = true → s1 = EmptyString ∨ s2 = EmptyString.
Proof. unfold is_empty. intros [?%bool_decide_eq_true|?%bool_decide_eq_true]%orb_true_iff; auto. Qed.
Lemma is_empty_or_false (s1 s2 : string) :
  is_empty s1 || is_empty s2 = false → s1 ≠ EmptyString ∧ s2 ≠ EmptyString.
Proof. unfold is_empty. intros [?%bool_decide_eq_false ?%bool_decide_eq_false]%orb_false_iff. auto. Qed.

(** A leaf that is generated when a part of it is missing and checked otherwise. *)
Lemma leaf_step now l ca m1 m2 m3 args dns v c n r c' n' : leaf_ok l → lf_check l = Some dns →
  LoadCertificate (cp c (lf_ca l)) (cp c (lf_caKey l)) = Ok ca →
  (if is_empty (cp c (lf_cert l)) || is_empty (cp c (lf_key l))
   then generate_pair ca (lf_cert l) (lf_key l) (lf_subject l) (lf_dns l) (lf_ips l) m1 m2 m3 args
   else gen_lift (wrapf v [] (ValidateKeypair now
          (mkCertCheck EmptyString [] dns (cp c (lf_ca l)) false) (cp c (lf_cert l)) (cp c (lf_key l)))))
    c n = (r, c', n') →
  frame [lf_cert l; lf_key l] c c' ∧ (r = Ok tt → leaf_done now l c c').
Proof.
  intros Hl Hc Hload E. destruct (is_empty _ || is_empty _) eqn:Ee.
  - eapply generate_pair_spec; [done|exact E|done|by apply is_empty_or].
  - apply is_empty_or_false in Ee as [??]. injection E as <- <- <-. split; [apply frame_refl|].
    intros Hv%wrapf_Ok. left. split_and!; [done..|]. intros dns' Hd. congruence.
Qed.

Definition front_proxy_leaf : leaf :=
  mkLeaf FrontProxyClientCert FrontProxyClientKey FrontProxyCACert FrontProxyCAKey
    (mkName "front-proxy-client" []) [] [] (Some []).
Definition kubelet_leaf (o : ControlPlanePKIOpts) (ips : list IP) : leaf :=
  mkLeaf KubeletCert KubeletKey CACert CAKey (mkName ("system:node:" +:+ hostname o) ["system:nodes"])
    (dnsSANs o ++ [hostname o]) (ipSANs o ++ ips) (Some [hostname o]).
Definition apiserver_kubelet_client_leaf : leaf :=
  mkLeaf APIServerKubeletClientCert APIServerKubeletClientKey ClientCACert ClientCAKey
    (mkName "apiserver-kubelet-client" ["system:masters"]) [] [] (Some []).
Definition apiserver_leaf (o : ControlPlanePKIOpts) (ips : list IP) : leaf :=
  mkLeaf APIServerCert APIServerKey CACert CAKey (mkName "kube-apiserver" [])
    (dnsSANs o ++ ["kubernetes"; "kubernetes.default"; "kubernetes.default.svc";
                   "kubernetes.default.svc.cluster"; "kubernetes.default.svc.cluster.local"])
    (ipSANs o ++ ips) (Some ["kubernetes"]).
Definition client_leaf (i : ClientCert) : leaf :=
  mkLeaf (cc_cert i) (cc_key i) ClientCACert ClientCAKey (cc_subject i) [] [] None.

(** The leaves of a control plane, in the order they are completed. *)
Definition leaves (o : ControlPlanePKIOpts) (ips : list IP) : list leaf :=
  [front_proxy_leaf; kubelet_leaf o ips; apiserver_kubelet_client_leaf; apiserver_leaf o ips]
  ++ (client_leaf <$> client_certs (hostname o)).

Lemma leaves_ok o ips : Forall leaf_ok (leaves o ips).
Proof. repeat constructor; simpl; set_solver. Qed.

Lemma front_proxy_spec now :
  step_spec [FrontProxyClientCert; FrontProxyClientKey] (leaf_done now front_proxy_leaf)
    (complete_front_proxy_client now).
Proof.
  intros c n r c' n' E. unfold complete_front_proxy_client in E. rewrite !fget_bind in E.
  destruct (is_empty _ || is_empty _) eqn:Ee.
  - apply gen_bind_inv in E as [(ca & c1 & n1 & E1 & E)|(e & -> & E)]; cycle 1.
    { injection E as _ <- <-. split; [apply frame_refl|done]. }
    injection E1 as Hca <- <-. apply wrapf_Ok in Hca.
    apply (generate_pair_spec now front_proxy_leaf) in E; [done| |done|by apply is_empty_or].
    by apply (Forall_inv (leaves_ok (cp_opts c) [])).
  - apply is_empty_or_false in Ee as [??]. injection E as <- <- <-. split; [apply frame_refl|].
    intros Hv%wrapf_Ok. left. split_and!; [done..|]. by intros dns' [= <-].
Qed.

Lemma kubelet_spec now ca ips c n r c' n' :
  complete_kubelet now ca ips c n = (r, c', n') →
  LoadCertificate (cp c CACert) (cp c CAKey) = Ok ca →
  frame [KubeletCert; KubeletKey] c c' ∧ (r = Ok tt → leaf_done now (kubelet_leaf (cp_opts c) ips) c c').
Proof.
  intros E Hload. unfold complete_kubelet in E. rewrite !fget_bind, opts_bind in E.
  eapply (leaf_step now (kubelet_leaf (cp_opts c) ips)); [|done|exact Hload|exact E].
  by apply (Forall_lookup_1 _ _ 1 _ (leaves_ok (cp_opts c) ips)).
Qed.
Lemma apiserver_kubelet_client_spec now ca c n r c' n' :
  complete_apiserver_kubelet_client now ca c n = (r, c', n') →
  LoadCertificate (cp c ClientCACert) (cp c ClientCAKey) = Ok ca →
  frame [APIServerKubeletClientCert; APIServerKubeletClientKey] c c' ∧
  (r = Ok tt → leaf_done now apiserver_kubelet_client_leaf c c').
Proof.
  intros E Hload. unfold complete_apiserver_kubelet_client in E. rewrite !fget_bind in E.
  eapply (leaf_step now apiserver_kubelet_client_leaf); [|done|exact Hload|exact E].
  by apply (Forall_lookup_1 _ _ 2 _ (leaves_ok (cp_opts c) [])).
Qed.
Lemma apiserver_spec now ca ips c n r c' n' :
  complete_apiserver now ca ips c n = (r, c', n') →
  LoadCertificate (cp c CACert) (cp c CAKey) = Ok ca →
  frame [APIServerCert; APIServerKey] c c' ∧
  (r = Ok tt → leaf_done now (apiserver_leaf (cp_opts c) ips) c c').
Proof.
  intros E Hload. unfold complete_apiserver in E. rewrite !fget_bind, opts_bind in E.
  eapply (leaf_step now (apiserver_leaf (cp_opts c) ips)); [|done|exact Hload|exact E].
  by apply (Forall_lookup_1 _ _ 3 _ (leaves_ok (cp_opts c) ips)).
Qed.
Lemma client_spec now ca i c n r c' n' :
  complete_client ca i c n = (r, c', n') → leaf_ok (client_leaf i) →
  LoadCertificate (cp c ClientCACert) (cp c ClientCAKey) = Ok ca →
  frame [cc_cert i; cc_key i] c c' ∧ (r = Ok tt → leaf_done now (client_leaf i) c c').
Proof.
  intros E Hl Hload. unfold complete_client in E. rewrite !fget_bind in E.
  destruct (is_empty _ || is_empty _) eqn:Ee.
  - eapply (generate_pair_spec now (client_leaf i)); [done|exact E|done|by apply is_empty_or].
  - apply is_empty_or_false in Ee as [??]. injection E as <- <- <-. split; [apply frame_refl|].
    intros _. left. by split_and!.
Qed.

(** ** Putting the steps together *)

Lemma frame_trans F1 F2 c0 c1 c2 : frame F1 c0 c1 → frame F2 c1 c2 → frame (F1 ++ F2) c0 c2.
Proof.
  intros [Ho1 Hf1] [Ho2 Hf2]. split; [congruence|]. intros f Hf.
  rewrite Hf2, Hf1; [done| |]; set_solver.
Qed.
Lemma frame_weaken F1 F2 c0 c1 : F1 ⊆ F2 → frame F1 c0 c1 → frame F2 c0 c1.
Proof. intros Hs [Ho Hf]. split; [done|]. intros f Hn. apply Hf. set_solver. Qed.

(** Work on other fields before and after a step does not matter to what it did. *)
Lemma leaf_done_frame now l F0 F1 c0 c1 c2 c3 :
  frame F0 c0 c1 → leaf_done now l c1 c2 → frame F1 c2 c3 →
  lf_cert l ∉ F0 ++ F1 → lf_key l ∉ F0 ++ F1 → lf_ca l ∉ F1 → lf_caKey l ∉ F1 →
  leaf_done now l c0 c3.
Proof.
  intros [Ho0 Hf0] Hl [Ho1 Hf1] Hc Hk Hca Hcak. unfold leaf_done in *.
  rewrite (Hf0 (lf_cert l)), (Hf0 (lf_key l)) in Hl by set_solver.
  rewrite (Hf1 (lf_cert l)), (Hf1 (lf_key l)), (Hf1 (lf_ca l)), (Hf1 (lf_caKey l)) by set_solver.
  by rewrite <- Ho0.
Qed.
Lemma ca_done_frame now certF keyF cn F0 F1 c0 c1 c2 c3 :
  frame F0 c0 c1 → ca_done now certF keyF cn c1 c2 → frame F1 c2 c3 →
  certF ∉ F0 ++ F1 → keyF ∉ F0 ++ F1 → ca_done now certF keyF cn c0 c3.
Proof.
  intros [Ho0 Hf0] Hl [Ho1 Hf1] Hc Hk. unfold ca_done in *.
  rewrite (Hf0 certF), (Hf0 keyF) in Hl by set_solver.
  rewrite (Hf1 certF), (Hf1 keyF) by set_solver. by rewrite <- Ho0.
Qed.

Lemma not_elem_of_pair_of (x y z : Field) : x ≠ y → x ≠ z → x ∉ [y; z].
Proof.
  intros Hy Hz. apply not_elem_of_cons. split; [done|]. apply not_elem_of_cons. split; [done|].
  apply not_elem_of_nil.
Qed.

Definition client_fields (l : list ClientCert) : list Field :=
  l ≫= λ i, [cc_cert i; cc_key i].

Lemma clients_spec now ca l c n c' n' :
  complete_clients ca l c n = (Ok tt, c', n') →
  Forall (leaf_ok ∘ client_leaf) l → NoDup (client_fields l) →
  ClientCACert ∉ client_fields l → ClientCAKey ∉ client_fields l →
  LoadCertificate (cp c ClientCACert) (cp c ClientCAKey) = Ok ca →
  frame (client_fields l) c c' ∧ Forall (λ i, leaf_done now (client_leaf i) c c') l.
Proof.
  revert c n. induction l as [|i l IH]; intros c n E Hl Hnd Hca Hkey Hload; simpl in E.
  - injection E as <- <-. split; [apply frame_refl|constructor].
  - gen_step E. destruct a. apply Forall_cons_1 in Hl as [Hi Hl].
    apply (client_spec now) in E0 as [Hfr Hd]; [|done..]. specialize (Hd eq_refl).
    assert (Hn : client_fields (i :: l) = [cc_cert i; cc_key i] ++ client_fields l) by done.
    rewrite Hn in *. apply NoDup_app in Hnd as (Hnd1 & Hdisj & Hnd).
    apply not_elem_of_app in Hca as [Hca1 Hca2]. apply not_elem_of_app in Hkey as [Hkey1 Hkey2].
    assert (Hic : cc_cert i ∉ client_fields l) by (apply Hdisj; clear; set_solver).
    assert (Hik : cc_key i ∉ client_fields l) by (apply Hdisj; clear; set_solver).
    assert (Hload1 : LoadCertificate (cp c0 ClientCACert) (cp c0 ClientCAKey) = Ok ca).
    { by rewrite (proj2 Hfr ClientCACert), (proj2 Hfr ClientCAKey). }
    apply IH in E as [Hfr2 Hds]; [|done..]. split; [by eapply frame_trans|].
    constructor.
    + by eapply (leaf_done_frame now _ [] (client_fields l)); [apply frame_refl|exact Hd|exact Hfr2|..].
    + apply Forall_forall. intros j Hj. pose proof (proj1 (Forall_forall _ _) Hds j Hj) as Hdj.
      assert (Hjc : cc_cert j ∈ client_fields l).
      { apply list_elem_of_bind. exists j. split; [|done]. simpl. clear. set_solver. }
      assert (Hjk : cc_key j ∈ client_fields l).
      { apply list_elem_of_bind. exists j. split; [|done]. simpl. clear. set_solver. }
      eapply (leaf_done_frame now _ [cc_cert i; cc_key i] []);
        [exact Hfr|exact Hdj|apply frame_refl|simpl..|clear; set_solver|clear; set_solver].
      * apply not_elem_of_pair_of; intros Heq; rewrite Heq in *; contradiction.
      * apply not_elem_of_pair_of; intros Heq; rewrite Heq in *; contradiction.
Qed.

Definition service_account_done c c' : Prop :=
  (cp c ServiceAccountKey ≠ EmptyString ∧ cp c' ServiceAccountKey = cp c ServiceAccountKey) ∨
  (cp c ServiceAccountKey = EmptyString ∧ allowSelfSignedCA (cp_opts c) = true ∧
   ∃ k, pem_EncodeToMemory "RSA PRIVATE KEY" (x509_MarshalPKCS1PrivateKey k)
          = Some (cp c' ServiceAccountKey)).
Definition k8sd_keypair_done c c' : Prop :=
  (cp c K8sdPrivateKey ≠ EmptyString ∧ cp c K8sdPublicKey ≠ EmptyString ∧
   cp c' K8sdPrivateKey = cp c K8sdPrivateKey ∧ cp c' K8sdPublicKey = cp c K8sdPublicKey) ∨
  ((cp c K8sdPrivateKey = EmptyString ∨ cp c K8sdPublicKey = EmptyString) ∧
   allowSelfSignedCA (cp_opts c) = true ∧
   ∃ k pub, pem_EncodeToMemory "RSA PRIVATE KEY" (x509_MarshalPKCS1PrivateKey k)
              = Some (cp c' K8sdPrivateKey) ∧
     x509_MarshalPKIXPublicKey (Public k) = Ok pub ∧
     pem_EncodeToMemory "PUBLIC KEY" pub = Some (cp c' K8sdPublicKey)).

Lemma GenerateRSAKey_Ok bits c n priv pub c' n' :
  GenerateRSAKey bits c n = (Ok (priv, pub), c', n') →
  c' = c ∧ ∃ k b, pem_EncodeToMemory "RSA PRIVATE KEY" (x509_MarshalPKCS1PrivateKey k) = Some priv ∧
    x509_MarshalPKIXPublicKey (Public k) = Ok b ∧ pem_EncodeToMemory "PUBLIC KEY" b = Some pub.
Proof.
  intros E. split; [by eapply GenerateRSAKey_pure|]. unfold GenerateRSAKey in E. do 4 gen_step E.
  injection E as <- <- _ _. apply encode_Ok in E1, E3.
  apply gen_wrapf_inv in E2 as (r0 & [= <- _ _] & Hw). symmetry in Hw. apply wrapf_Ok in Hw.
  eexists _, _. eauto.
Qed.

Lemma service_account_spec c n c' n' :
  complete_service_account_key c n = (Ok tt, c', n') →
  frame [ServiceAccountKey] c c' ∧ service_account_done c c'.
Proof.
  intros E. unfold complete_service_account_key in E. rewrite fget_bind, opts_bind in E.
  unfold is_empty in E. case_bool_decide as Hk.
  - gen_step E. injection E0 as Hf <- <-. apply fails_if_Ok in Hf.
    gen_step E. destruct a0 as [priv pub].
    apply gen_wrapf_inv in E0 as (r0 & E0 & Hw). symmetry in Hw. apply wrapf_Ok in Hw as ->.
    apply GenerateRSAKey_Ok in E0 as (-> & k & b & Hp & _). injection E as <- <-. split.
    + split; [done|]. intros f Hf'. simpl. rewrite fn_lookup_insert_ne; set_solver.
    + right. simpl. rewrite fn_lookup_insert. split_and!; [done| |by exists k].
      by destruct (allowSelfSignedCA (cp_opts c)).
  - injection E as <- <-. split; [apply frame_refl|]. by left.
Qed.

Lemma k8sd_keypair_spec c n c' n' :
  complete_k8sd_keypair c n = (Ok tt, c', n') →
  frame [K8sdPrivateKey; K8sdPublicKey] c c' ∧ k8sd_keypair_done c c'.
Proof.
  intros E. unfold complete_k8sd_keypair in E. rewrite !fget_bind, opts_bind in E.
  destruct (is_empty _ || is_empty _) eqn:Ee.
  - apply is_empty_or in Ee. gen_step E. injection E0 as Hf <- <-. apply fails_if_Ok in Hf.
    gen_step E. destruct a0 as [priv pub].
    apply gen_wrapf_inv in E0 as (r0 & E0 & Hw). symmetry in Hw. apply wrapf_Ok in Hw as ->.
    apply GenerateRSAKey_Ok in E0 as (-> & k & b & Hp & Hm & Hpub). injection E as <- <-. split.
    + split; [done|]. intros f Hf'. simpl. rewrite !fn_lookup_insert_ne; set_solver.
    + right. simpl. rewrite fn_lookup_insert, fn_lookup_insert_ne, fn_lookup_insert by done.
      split_and!; [done| |by exists k, b]. by destruct (allowSelfSignedCA (cp_opts c)).
  - apply is_empty_or_false in Ee as [??]. injection E as <- <-. split; [apply frame_refl|]. by left.
Qed.

Lemma machine_ips_pure addrs c n r c' n' : machine_ips addrs c n = (r, c', n') → c' = c.
Proof.
  unfold machine_ips. rewrite opts_bind. case_match; intros E.
  - apply pure_bind in E; [done| |]; auto with pure_gen.
  - by apply pure_ret in E.
Qed.

Lemma keys_have_certificates_pure c n r c' n' : keys_have_certificates c n = (r, c', n') → c' = c.
Proof.
  unfold keys_have_certificates, mbind, gen_bind, gen_get. repeat case_match; by intros [= _ <- _].
Qed.

Lemma load_ca_inv certF keyF c n ca c' n' :
  load_ca certF keyF c n = (Ok ca, c', n') →
  c' = c ∧ LoadCertificate (cp c certF) (cp c keyF) = Ok ca.
Proof.
  unfold load_ca. rewrite !fget_bind. intros [= Hl <- _]. by apply wrapf_Ok in Hl.
Qed.

Definition front_proxy_fields : list Field :=
  [FrontProxyCACert; FrontProxyCAKey; FrontProxyClientCert; FrontProxyClientKey; ServiceAccountKey].

(** The frames and results of the steps after the two CAs that sign the leaves. *)
Lemma complete_leaves now serverCA clientCA ips c n c' n' :
  (_ ← complete_ca now FrontProxyCACert FrontProxyCAKey "front-proxy-ca"
        "front-proxy CA not specified and generating self-signed CA not allowed"
        "failed to generate front-proxy CA: %w"
        "kubernetes front-proxy CA certificate validation failure: %w";
   _ ← complete_front_proxy_client now;
   _ ← complete_service_account_key;
   _ ← complete_kubelet now serverCA ips;
   _ ← complete_apiserver_kubelet_client now clientCA;
   _ ← complete_apiserver now serverCA ips;
   o ← opts;
   _ ← complete_clients clientCA (client_certs (hostname o));
   complete_k8sd_keypair) c n = (Ok tt, c', n') →
  LoadCertificate (cp c CACert) (cp c CAKey) = Ok serverCA →
  LoadCertificate (cp c ClientCACert) (cp c ClientCAKey) = Ok clientCA →
  ∃ c1 c2 c3 c4 c5 c6 c7,
    frame [FrontProxyCACert; FrontProxyCAKey] c c1 ∧
    ca_done now FrontProxyCACert FrontProxyCAKey "front-proxy-ca" c c1 ∧
    frame [FrontProxyClientCert; FrontProxyClientKey] c1 c2 ∧ leaf_done now front_proxy_leaf c1 c2 ∧
    frame [ServiceAccountKey] c2 c3 ∧ service_account_done c2 c3 ∧
    frame [KubeletCert; KubeletKey] c3 c4 ∧ leaf_done now (kubelet_leaf (cp_opts c) ips) c3 c4 ∧
    frame [APIServerKubeletClientCert; APIServerKubeletClientKey] c4 c5 ∧
    leaf_done now apiserver_kubelet_client_leaf c4 c5 ∧
    frame [APIServerCert; APIServerKey] c5 c6 ∧ leaf_done now (apiserver_leaf (cp_opts c) ips) c5 c6 ∧
    frame (client_fields (client_certs (hostname (cp_opts c)))) c6 c7 ∧
    Forall (λ i, leaf_done now (client_leaf i) c6 c7) (client_certs (hostname (cp_opts c))) ∧
    frame [K8sdPrivateKey; K8sdPublicKey] c7 c' ∧ k8sd_keypair_done c7 c'.
Proof.
  intros E Hs Hcl. gen_step E. destruct a. rename c0 into c1.
  apply complete_ca_spec in E0 as [F1 D1]; [|done].
  gen_step E. destruct a. rename c0 into c2. apply front_proxy_spec in E0 as [F2 D2].
  gen_step E. destruct a. rename c0 into c3. apply service_account_spec in E0 as [F3 D3].
  assert (Ho : cp_opts c3 = cp_opts c) by (destruct F1, F2, F3; congruence).
  assert (F13 : frame _ c c3) by (eapply frame_trans; [eapply frame_trans; [exact F1|exact F2]|exact F3]).
  gen_step E. destruct a. rename c0 into c4.
  apply kubelet_spec in E0 as [F4 D4];
    [|by rewrite (proj2 F13 CACert), (proj2 F13 CAKey) by set_solver +].
  assert (F14 : frame _ c c4) by (eapply frame_trans; [exact F13|exact F4]).
  gen_step E. destruct a. rename c0 into c5.
  apply (apiserver_kubelet_client_spec now) in E0 as [F5 D5];
    [|by rewrite (proj2 F14 ClientCACert), (proj2 F14 ClientCAKey) by set_solver +].
  assert (F15 : frame _ c c5) by (eapply frame_trans; [exact F14|exact F5]).
  gen_step E. destruct a. rename c0 into c6.
  apply apiserver_spec in E0 as [F6 D6];
    [|by rewrite (proj2 F15 CACert), (proj2 F15 CAKey) by set_solver +].
  assert (F16 : frame _ c c6) by (eapply frame_trans; [exact F15|exact F6]).
  rewrite opts_bind in E. gen_step E. destruct a. rename c0 into c7.
  rewrite (proj1 F16) in E0.
  apply (clients_spec now) in E0 as [F7 D7].
  2: { repeat constructor; simpl; set_solver +. }
  2: { apply (bool_decide_unpack _). by vm_compute. }
  2-3: apply (bool_decide_unpack _); by vm_compute.
  2: by rewrite (proj2 F16 ClientCACert), (proj2 F16 ClientCAKey) by set_solver +.
  apply k8sd_keypair_spec in E as [F8 D8].
  rewrite Ho in D4. rewrite (proj1 F15) in D6. naive_solver.
Qed.

Lemma leaves_apart o ips :
  Forall (λ l, lf_cert l ∉ [CACert; CAKey] ++ [ClientCACert; ClientCAKey] ∧
               lf_key l ∉ [CACert; CAKey] ++ [ClientCACert; ClientCAKey]) (leaves o ips).
Proof. repeat constructor; simpl; set_solver +. Qed.

Lemma leaves_ca_keys o ips :
  Forall (λ l, lf_cert l ∉ [CAKey; ClientCAKey; FrontProxyCAKey] ∧
               lf_key l ∉ [CAKey; ClientCAKey; FrontProxyCAKey]) (leaves o ips).
Proof. repeat constructor; simpl; set_solver +. Qed.

(** The outcome of a completed control plane. *)
Record completed (now : Z) (ips : list IP) c c' : Prop := {
  done_opts : cp_opts c' = cp_opts c;
  (** No CA key comes without its certificate. *)
  done_given : ∀ certF keyF,
    (certF, keyF) ∈ [(CACert, CAKey); (ClientCACert, ClientCAKey); (FrontProxyCACert, FrontProxyCAKey)] →
    cp c certF = EmptyString → cp c keyF = EmptyString;
  done_ca : ca_done now CACert CAKey "kubernetes-ca" c c';
  done_client_ca : ca_done now ClientCACert ClientCAKey "kubernetes-ca-client" c c';
  done_front_proxy_ca : ca_done now FrontProxyCACert FrontProxyCAKey "front-proxy-ca" c c';
  done_leaves : Forall (λ l, leaf_done now l c c') (leaves (cp_opts c) ips);
  done_service_account : service_account_done c c';
  done_k8sd : k8sd_keypair_done c c' }.

Lemma service_account_done_frame F0 F1 c0 c1 c2 c3 :
  frame F0 c0 c1 → service_account_done c1 c2 → frame F1 c2 c3 → ServiceAccountKey ∉ F0 ++ F1 →
  service_account_done c0 c3.
Proof.
  intros [Ho0 Hf0] Hd [_ Hf1] Hn. unfold service_account_done in *.
  rewrite (Hf0 ServiceAccountKey), Ho0 in Hd by set_solver.
  by rewrite (Hf1 ServiceAccountKey) by set_solver.
Qed.
Lemma k8sd_keypair_done_frame F0 c0 c1 c2 :
  frame F0 c0 c1 → k8sd_keypair_done c1 c2 → K8sdPrivateKey ∉ F0 → K8sdPublicKey ∉ F0 →
  k8sd_keypair_done c0 c2.
Proof.
  intros [Ho0 Hf0] Hd Hn1 Hn2. unfold k8sd_keypair_done in *.
  by rewrite (Hf0 K8sdPrivateKey), (Hf0 K8sdPublicKey), Ho0 in Hd by done.
Qed.

(** The same results, from the state before the first of these steps to the last one. *)
Lemma leaves_done_chain now ips c c1 c2 c3 c4 c5 c6 c7 c' F1 F2 F3 F4 F5 F6 F7 F8 :
  frame F1 c c1 → ca_done now FrontProxyCACert FrontProxyCAKey "front-proxy-ca" c c1 →
  frame F2 c1 c2 → leaf_done now front_proxy_leaf c1 c2 →
  frame F3 c2 c3 → service_account_done c2 c3 →
  frame F4 c3 c4 → leaf_done now (kubelet_leaf (cp_opts c) ips) c3 c4 →
  frame F5 c4 c5 → leaf_done now apiserver_kubelet_client_leaf c4 c5 →
  frame F6 c5 c6 → leaf_done now (apiserver_leaf (cp_opts c) ips) c5 c6 →
  frame F7 c6 c7 → Forall (λ i, leaf_done now (client_leaf i) c6 c7) (client_certs (hostname (cp_opts c))) →
  frame F8 c7 c' → k8sd_keypair_done c7 c' →
  F1 = [FrontProxyCACert; FrontProxyCAKey] → F2 = [FrontProxyClientCert; FrontProxyClientKey] →
  F3 = [ServiceAccountKey] → F4 = [KubeletCert; KubeletKey] →
  F5 = [APIServerKubeletClientCert; APIServerKubeletClientKey] → F6 = [APIServerCert; APIServerKey] →
  F7 = client_fields (client_certs (hostname (cp_opts c))) → F8 = [K8sdPrivateKey; K8sdPublicKey] →
  frame (F1 ++ F2 ++ F3 ++ F4 ++ F5 ++ F6 ++ F7 ++ F8) c c' ∧
  ca_done now FrontProxyCACert FrontProxyCAKey "front-proxy-ca" c c' ∧
  Forall (λ l, leaf_done now l c c') (leaves (cp_opts c) ips) ∧
  service_account_done c c' ∧ k8sd_keypair_done c c'.
Proof.
  intros P1 Q1 P2 Q2 P3 Q3 P4 Q4 P5 Q5 P6 Q6 P7 Q7 P8 Q8 E1 E2 E3 E4 E5 E6 E7 E8.
  pose proof (frame_trans _ _ _ _ _ P1 P2) as A2. pose proof (frame_trans _ _ _ _ _ A2 P3) as A3.
  pose proof (frame_trans _ _ _ _ _ A3 P4) as A4. pose proof (frame_trans _ _ _ _ _ A4 P5) as A5.
  pose proof (frame_trans _ _ _ _ _ A5 P6) as A6. pose proof (frame_trans _ _ _ _ _ A6 P7) as A7.
  pose proof (frame_trans _ _ _ _ _ P7 P8) as B7. pose proof (frame_trans _ _ _ _ _ P6 B7) as B6.
  pose proof (frame_trans _ _ _ _ _ P5 B6) as B5. pose proof (frame_trans _ _ _ _ _ P4 B5) as B4.
  pose proof (frame_trans _ _ _ _ _ P3 B4) as B3. pose proof (frame_trans _ _ _ _ _ P2 B3) as B2.
  split; [by eapply frame_trans|]. subst.
  split; [by eapply (ca_done_frame now _ _ _ []); [apply frame_refl|exact Q1|exact B2|set_solver +..]|].
  split; [unfold leaves; rewrite Forall_app; split|split].
  - apply Forall_cons. split; [by eapply leaf_done_frame; [exact P1|exact Q2|exact B3|set_solver +..]|].
    apply Forall_cons. split; [by eapply leaf_done_frame; [exact A3|exact Q4|exact B5|set_solver +..]|].
    apply Forall_cons. split; [by eapply leaf_done_frame; [exact A4|exact Q5|exact B6|set_solver +..]|].
    apply Forall_cons. split; [by eapply leaf_done_frame; [exact A5|exact Q6|exact B7|set_solver +..]|].
    constructor.
  - apply Forall_fmap. unfold client_certs in *. rewrite !Forall_cons in *.
    destruct Q7 as (D1 & D2 & D3 & D4 & D5 & _).
    split_and!; [eapply leaf_done_frame; [exact A6|eassumption|exact P8|set_solver +..]..|constructor].
  - eapply service_account_done_frame; [exact A2|exact Q3|exact B4|set_solver +].
  - eapply k8sd_keypair_done_frame; [exact A7|exact Q8|set_solver +..].
Qed.

Lemma keys_have_certificates_n c n r c' n' : keys_have_certificates c n = (r, c', n') → n' = n.
Proof.
  unfold keys_have_certificates, mbind, gen_bind, gen_get. repeat case_match; by intros [= _ _ <-].
Qed.

Lemma keys_have_certificates_Ok c n u c' n' : keys_have_certificates c n = (Ok u, c', n') →
  ∀ certF keyF,
    (certF, keyF) ∈ [(CACert, CAKey); (ClientCACert, ClientCAKey); (FrontProxyCACert, FrontProxyCAKey)] →
    cp c certF = EmptyString → cp c keyF = EmptyString.
Proof.
  unfold keys_have_certificates, mbind, gen_bind, gen_get, is_empty.
  destruct (bool_decide (cp c CACert = _) && _) eqn:E1; [done|].
  destruct (bool_decide (cp c ClientCACert = _) && _) eqn:E2; [done|].
  destruct (bool_decide (cp c FrontProxyCACert = _) && _) eqn:E3; [done|].
  intros _ certF keyF Hin He.
  assert (Hb : bool_decide (cp c certF = EmptyString) && negb (bool_decide (cp c keyF = EmptyString)) = false).
  { rewrite !elem_of_cons in Hin. destruct Hin as [[= -> ->]|[[= -> ->]|[[= -> ->]|Hin]]]; [done..|].
    by apply elem_of_nil in Hin. }
  rewrite bool_decide_true in Hb by done. apply negb_false_iff in Hb.
  by apply bool_decide_eq_true in Hb.
Qed.

Lemma CompleteCertificates_completed now addrs c n c' n' :
  ControlPlane_CompleteCertificates now addrs c n = (Ok tt, c', n') →
  ∃ ips n1, machine_ips addrs c n = (Ok ips, c, n1) ∧ completed now ips c c'.
Proof.
  intros E. unfold ControlPlane_CompleteCertificates in E.
  gen_step E. pose proof (keys_have_certificates_pure _ _ _ _ _ E0) as ->.
  pose proof (keys_have_certificates_Ok _ _ _ _ _ E0) as Hgiven.
  apply keys_have_certificates_n in E0 as ->.
  gen_step E. pose proof (machine_ips_pure _ _ _ _ _ _ E0) as ->.
  exists a0, n0. split; [done|]. clear E0. rename a0 into ips.
  gen_step E. destruct a0. rename c0 into cA. apply complete_ca_spec in E0 as [F1 D1]; [|done].
  gen_step E. destruct a0. rename c0 into cB. apply complete_ca_spec in E0 as [F2 D2]; [|done].
  gen_step E. apply load_ca_inv in E0 as [-> L1]. gen_step E. apply load_ca_inv in E0 as [-> L2].
  apply complete_leaves in E as (c1 & c2 & c3 & c4 & c5 & c6 & c7 & P1 & Q1 & P2 & Q2 & P3 & Q3 &
    P4 & Q4 & P5 & Q5 & P6 & Q6 & P7 & Q7 & P8 & Q8); [|done..].
  destruct (leaves_done_chain now ips cB c1 c2 c3 c4 c5 c6 c7 c' _ _ _ _ _ _ _ _ P1 Q1 P2 Q2 P3 Q3
    P4 Q4 P5 Q5 P6 Q6 P7 Q7 P8 Q8) as (F3 & R1 & R2 & R3 & R4); [done..|].
  pose proof (frame_trans _ _ _ _ _ F1 F2) as A0. pose proof (frame_trans _ _ _ _ _ F2 F3) as B0.
  assert (Ho : cp_opts cB = cp_opts c) by (by destruct A0). rewrite Ho in R2.
  split.
  - by rewrite (proj1 F3).
  - exact Hgiven.
  - eapply (ca_done_frame now _ _ _ []); [apply frame_refl|by apply D1|exact B0|set_solver +..].
  - eapply ca_done_frame; [exact F1|by apply D2|exact F3|set_solver +..].
  - eapply (ca_done_frame now _ _ _ _ []); [exact A0|exact R1|apply frame_refl|set_solver +..].
  - apply Forall_forall. intros l Hl. pose proof (proj1 (Forall_forall _ _) R2 l Hl) as Hd.
    pose proof (proj1 (Forall_forall _ _) (leaves_apart (cp_opts c) ips) l Hl) as [Hc Hk].
    eapply (leaf_done_frame now _ _ []); [exact A0|exact Hd|apply frame_refl| | |set_solver +..];
      by rewrite app_nil_r.
  - eapply (service_account_done_frame _ []); [exact A0|exact R3|apply frame_refl|set_solver +].
  - eapply k8sd_keypair_done_frame; [exact A0|exact R4|set_solver +..].
Qed.

Definition ca_keys : list Field := [CAKey; ClientCAKey; FrontProxyCAKey].

Lemma ca_done_nonempty `{!PemOk} now certF keyF cn c c' :
  ca_done now certF keyF cn c c' → (cp c certF = EmptyString → cp c keyF = EmptyString) →
  cp c' certF ≠ EmptyString.
Proof.
  intros [(Hne & -> & _)|(_ & _ & _ & t & _ & Hi)] Hg.
  - destruct Hne as [?|Hk]; [done|]. intros He. by apply Hk, Hg.
  - by apply issued_nonempty in Hi as [? _].
Qed.
Lemma leaf_done_nonempty `{!PemOk} now l c c' :
  leaf_done now l c c' → cp c' (lf_cert l) ≠ EmptyString ∧ cp c' (lf_key l) ≠ EmptyString.
Proof.
  intros [(Hc & Hk & -> & -> & _)|(_ & ca & priv & t & _ & _ & Hi)]; [done|].
  by apply issued_nonempty in Hi.
Qed.

(** Every field belongs to a CA, to a leaf, or to one of the two other keys. *)
Lemma field_cases o ips (f : Field) :
  f ∈ [CACert; CAKey; ClientCACert; ClientCAKey; FrontProxyCACert; FrontProxyCAKey] ∨
  (∃ l, l ∈ leaves o ips ∧ (f = lf_cert l ∨ f = lf_key l)) ∨
  f ∈ [ServiceAccountKey; K8sdPrivateKey; K8sdPublicKey].
Proof.
  assert (Hleaf : ∀ i l, leaves o ips !! i = Some l → f = lf_cert l ∨ f = lf_key l →
    ∃ l, l ∈ leaves o ips ∧ (f = lf_cert l ∨ f = lf_key l)).
  { intros i l Hl Hf. exists l. split; [by eapply list_elem_of_lookup_2|done]. }
  destruct f; try (left; set_solver +); try (right; right; set_solver +); right; left;
    first [by eapply (Hleaf 0); [reflexivity|simpl; auto]|by eapply (Hleaf 1); [reflexivity|simpl; auto]
      |by eapply (Hleaf 2); [reflexivity|simpl; auto]|by eapply (Hleaf 3); [reflexivity|simpl; auto]
      |by eapply (Hleaf 4); [reflexivity|simpl; auto]|by eapply (Hleaf 5); [reflexivity|simpl; auto]
      |by eapply (Hleaf 6); [reflexivity|simpl; auto]|by eapply (Hleaf 7); [reflexivity|simpl; auto]
      |by eapply (Hleaf 8); [reflexivity|simpl; auto]].
Qed.

Lemma completed_nonempty `{!PemOk} now ips c c' f :
  completed now ips c c' → f ∉ ca_keys → cp c' f ≠ EmptyString.
Proof.
  intros [Ho Hg H1 H2 H3 Hl Hs Hk] Hf.
  destruct (field_cases (cp_opts c) ips f) as [Hin|[(l & Hin & Hlf)|Hin]].
  - assert (f ∈ [CACert; ClientCACert; FrontProxyCACert]) as Hc.
    { revert Hin Hf. unfold ca_keys. clear. set_solver. }
    rewrite !elem_of_cons in Hc. destruct Hc as [->|[->|[->|Hc]]].
    4: by apply elem_of_nil in Hc.
    all: eapply ca_done_nonempty; [eassumption|apply Hg; set_solver +].
  - apply (proj1 (Forall_forall _ _) Hl), leaf_done_nonempty in Hin as [??].
    by destruct Hlf as [-> | ->].
  - rewrite !elem_of_cons in Hin. destruct Hin as [->|[->|[->|Hin]]].
    4: by apply elem_of_nil in Hin.
    + destruct Hs as [[? ->]|(_ & _ & k & Hp)]; [done|by eapply pem_nonempty].
    + destruct Hk as [(? & ? & -> & _)|(_ & _ & k & pub & Hp & _)]; [done|by eapply pem_nonempty].
    + destruct Hk as [(? & ? & _ & ->)|(_ & _ & k & pub & _ & _ & Hp)]; [done|by eapply pem_nonempty].
Qed.

(** The fields that are set stay as they are. *)
Lemma completed_keeps now ips c c' f :
  completed now ips c c' → (∀ f, f ∉ ca_keys → cp c f ≠ EmptyString) → cp c' f = cp c f.
Proof.
  intros [Ho Hg H1 H2 H3 Hl Hs Hk] Hne.
  destruct (field_cases (cp_opts c) ips f) as [Hin|[(l & Hin & Hlf)|Hin]].
  - assert (Hn : cp c CACert ≠ EmptyString ∧ cp c ClientCACert ≠ EmptyString ∧
      cp c FrontProxyCACert ≠ EmptyString) by (split_and!; apply Hne; set_solver +).
    destruct H1 as [(_ & ? & ? & _)|(? & _)]; [|naive_solver].
    destruct H2 as [(_ & ? & ? & _)|(? & _)]; [|naive_solver].
    destruct H3 as [(_ & ? & ? & _)|(? & _)]; [|naive_solver].
    rewrite !elem_of_cons in Hin. destruct Hin as [->|[->|[->|[->|[->|[->|Hin]]]]]]; try done.
    by apply elem_of_nil in Hin.
  - assert (Hn : cp c (lf_cert l) ≠ EmptyString ∧ cp c (lf_key l) ≠ EmptyString).
    { pose proof (leaves_ca_keys (cp_opts c) ips) as Hap.
      apply (proj1 (Forall_forall _ _) Hap) in Hin as [??]. by split; apply Hne. }
    apply (proj1 (Forall_forall _ _) Hl) in Hin.
    destruct Hin as [(_ & _ & ? & ? & _)|([?|?] & _)]; [|naive_solver..]. by destruct Hlf as [-> | ->].
  - assert (Hn : cp c ServiceAccountKey ≠ EmptyString ∧ cp c K8sdPrivateKey ≠ EmptyString ∧
      cp c K8sdPublicKey ≠ EmptyString) by (split_and!; apply Hne; set_solver +).
    destruct Hs as [[_ ?]|(? & _)]; [|naive_solver].
    destruct Hk as [(_ & _ & ? & ?)|([?|?] & _)]; [|naive_solver..].
    rewrite !elem_of_cons in Hin. destruct Hin as [->|[->|[->|Hin]]]; try done.
    by apply elem_of_nil in Hin.
Qed.
End Steps.

(** ** A concrete environment *)

(** Keys and certificates that are only names, to evaluate the definitions on. *)
Definition demo_certificate : Certificate :=
  mkCertificate 1 (mkName "demo" []) 0 1000 [] [] true [] [] true "der".
Definition demo_pki_env : PkiEnv := {|
  PrivateKey := nat;
  PublicKey := nat;
  Public k := k;
  pem_Decode s := match cut "|" s with (t, b, true) => Some (t, b) | _ => None end;
  pem_EncodeToMemory t b := Some (t +:+ "|" +:+ b);
  x509_ParseCertificate _ := Ok demo_certificate;
  x509_ParsePKCS1PrivateKey b := Ok (String.length b);
  x509_ParsePKCS8PrivateKey b := Ok None;
  x509_ParsePKIXPublicKey b := Ok (Some (String.length b));
  x509_ParseCertificateRequest b := Ok (mkName b ["system:nodes"], [], [], 0);
  x509_MarshalPKCS1PrivateKey k := "key" +:+ Itoa (Z.of_nat k);
  x509_MarshalPKIXPublicKey k := Ok ("pub" +:+ Itoa (Z.of_nat k));
  x509_CreateCertificate n _ _ _ _ := Ok ("der" +:+ Itoa (Z.of_nat n));
  x509_CreateCertificateRequest n _ _ _ _ := Ok ("csr" +:+ Itoa (Z.of_nat n));
  rsa_GenerateKey n _ := Ok n;
  rand_Int n _ := Ok (Z.of_nat n);
  AppendCertsFromPEM _ := true;
  cert_Verify _ _ := None;
  cert_VerifyHostname _ _ := None;
  AddDate t y m d := (t + (y * 365 + m * 30 + d) * 86400 * 1000000000)%Z |}.

Lemma demo_pki_ok : @PemOk demo_pki_env.
Proof. intros type bytes pem [= <-]. by destruct type. Qed.

(** A node that was given its kubelet certificate, and may generate the rest. *)
Definition demo_control_plane : ControlPlanePKI :=
  mkControlPlanePKI (mkOpts true false "node" [] [] 0 1000)
    (λ f, match f with
          | KubeletCert => "CERTIFICATE|given"
          | KubeletKey => "RSA PRIVATE KEY|given"
          | _ => EmptyString
          end).

Section Properties.
Context `{PkiEnv}.

Lemma LoadCertificate_key crt key cert k :
  LoadCertificate crt key = Ok (cert, k) → k = None ↔ key = EmptyString.
Proof.
  unfold LoadCertificate. destruct (pem_Decode crt) as [[t b]|]; [|done].
  intros (cert' & Hc & Hk)%bind_Ok. case_bool_decide; [naive_solver|].
  apply bind_Ok in Hk as (k' & _ & ?). naive_solver.
Qed.

Lemma worker_client_run ca key name subject c n pair c' n' :
  worker_client ca key name subject c n = (Ok pair, c', n') → c' = c ∧ ∃ t, issued ca (Some key) t pair.
Proof.
  unfold worker_client. rewrite opts_bind. intros E. gen_step E.
  apply pure_wrapf in E0 as ->; [|auto with pure_gen].
  apply gen_wrapf_inv in E as (r0 & E & Hw). symmetry in Hw. apply wrapf_Ok in Hw as ->.
  split; [by eapply SignCertificate_pure|]. apply SignCertificate_issued in E. eauto.
Qed.

Lemma Worker_CompleteCertificates_Ok w :
  Worker_CompleteCertificates w = Ok tt ↔
  wn_CACert w ≠ EmptyString ∧ (wn_KubeletCert w ≠ EmptyString ∧ wn_KubeletKey w ≠ EmptyString) ∧
  (wn_KubeletClientCert w ≠ EmptyString ∧ wn_KubeletClientKey w ≠ EmptyString) ∧
  (wn_KubeProxyClientCert w ≠ EmptyString ∧ wn_KubeProxyClientKey w ≠ EmptyString).
Proof.
  unfold Worker_CompleteCertificates. rewrite !bind_unit_Ok, !fails_if_Ok.
  unfold is_empty. rewrite !orb_false_iff, !bool_decide_eq_false. done.
Qed.


(** Completing the certificates of a control plane node twice is the same as completing
    them once: after a success every certificate and key is there, the keys of the CAs
    excepted (they may be kept elsewhere), and a second success, at any later time,
    leaves every one of them as it is. *)
Theorem ControlPlane_CompleteCertificates_idempotent `{!PemOk} now addrs c n c1 n1 now2 addrs2 n2 c2 n3 :
  ControlPlane_CompleteCertificates now addrs c n = (Ok tt, c1, n1) →
  ControlPlane_CompleteCertificates now2 addrs2 c1 n2 = (Ok tt, c2, n3) →
  (∀ f, f ∉ [CAKey; ClientCAKey; FrontProxyCAKey] → cp c1 f ≠ EmptyString) ∧
  (∀ f, cp c2 f = cp c1 f).
Proof.
  intros (ips & k & _ & E1)%CompleteCertificates_completed (ips2 & k2 & _ & E2)%CompleteCertificates_completed.
  pose proof (λ f, completed_nonempty _ _ _ _ f E1) as Hne. split; [exact Hne|].
  intros f. by eapply completed_keeps.
Qed.

(** What a control plane node makes for a joining worker: its struct is left alone, the
    CAs are passed on, and the worker accepts the result exactly when the control plane
    has the certificate of the CA and the keys of both CAs; otherwise the worker has to
    bring its own certificates. *)
Theorem CompleteWorkerNodePKI_accepted `{!PemOk} host nodeIP bits c n w c' n' :
  CompleteWorkerNodePKI host nodeIP bits c n = (Ok w, c', n') →
  c' = c ∧ wn_CACert w = cp c CACert ∧ wn_ClientCACert w = cp c ClientCACert ∧
  (Worker_CompleteCertificates w = Ok tt ↔
   cp c CACert ≠ EmptyString ∧ cp c CAKey ≠ EmptyString ∧ cp c ClientCAKey ≠ EmptyString).
Proof.
  unfold CompleteWorkerNodePKI. intros E. gen_step E. injection E0 as <- <- <-.
  gen_step E. injection E0 as Hs <- <-. apply wrapf_Ok in Hs.
  gen_step E. injection E0 as Hc <- <-. apply wrapf_Ok in Hc.
  destruct a as [sc sk], a0 as [cc ck]. apply LoadCertificate_key in Hs, Hc. cbn [fst snd] in E.
  gen_step E. gen_step E. injection E as <- <- <-. rewrite Worker_CompleteCertificates_Ok. simpl.
  assert (Hk : c0 = c ∧ (cp c CAKey ≠ EmptyString → a.1 ≠ EmptyString ∧ a.2 ≠ EmptyString) ∧
    (cp c CAKey = EmptyString → a.1 = EmptyString)).
  { destruct sk as [key|]; [|injection E0 as <- <- <-; naive_solver].
    gen_step E0. apply pure_wrapf in E as ->; [|auto with pure_gen].
    apply gen_wrapf_inv in E0 as (r0 & E & Hw). symmetry in Hw. apply wrapf_Ok in Hw as ->.
    split; [by eapply SignCertificate_pure|]. apply SignCertificate_issued, issued_nonempty in E.
    naive_solver. }
  destruct Hk as (-> & Hk1 & Hk2).
  assert (Hcl : c1 = c ∧ (cp c ClientCAKey ≠ EmptyString → a0.1.1 ≠ EmptyString ∧ a0.1.2 ≠ EmptyString ∧
    a0.2.1 ≠ EmptyString ∧ a0.2.2 ≠ EmptyString) ∧ (cp c ClientCAKey = EmptyString → a0.2.1 = EmptyString)).
  { destruct ck as [key|]; [|injection E1 as <- <- <-; naive_solver].
    gen_step E1. gen_step E1. injection E1 as <- <- <-.
    apply worker_client_run in E as (-> & t1 & I1%issued_nonempty).
    apply worker_client_run in E2 as (-> & t2 & I2%issued_nonempty). simpl. naive_solver. }
  destruct Hcl as (-> & Hc1 & Hc2).
  destruct (decide (cp c CAKey = EmptyString)), (decide (cp c ClientCAKey = EmptyString)); naive_solver.
Qed.
End Properties.


Lemma ControlPlane_CompleteCertificates_idempotent_witness :
  ∃ c1 n1 c2 n2,
    @ControlPlane_CompleteCertificates demo_pki_env 5 (Ok []) demo_control_plane 0 = (Ok tt, c1, n1) ∧
    @ControlPlane_CompleteCertificates demo_pki_env 6 (Ok []) c1 100 = (Ok tt, c2, n2) ∧
    ∀ f, cp c2 f = cp c1 f.
Proof.
  destruct (@ControlPlane_CompleteCertificates demo_pki_env 5 (Ok []) demo_control_plane 0)
    as [[r c1] n1] eqn:E1.
  destruct (@ControlPlane_CompleteCertificates demo_pki_env 6 (Ok []) c1 100) as [[r2 c2] n2] eqn:E2.
  pose proof (f_equal (λ x, x.1.1) E1) as Er. vm_compute in Er. simpl in Er. subst r.
  pose proof (f_equal (λ x, x.1.1) E2) as Er.
  assert (Ec : c1 = (@ControlPlane_CompleteCertificates demo_pki_env 5 (Ok []) demo_control_plane 0).1.2)
    by (by rewrite E1).
  rewrite Ec in Er at 1. vm_compute in Er. simpl in Er. subst r2.
  exists c1, n1, c2, n2. split_and!; [reflexivity|exact E2|].
  exact (proj2 (@ControlPlane_CompleteCertificates_idempotent demo_pki_env demo_pki_ok
    _ _ _ _ _ _ _ _ _ _ _ E1 E2)).
Defined.

Lemma CompleteWorkerNodePKI_accepted_witness :
  let c := mkControlPlanePKI (mkOpts true false "cp" [] [] 0 1000)
             (λ f, if bool_decide (f ∈ [CAKey; ClientCAKey]) then "RSA PRIVATE KEY|k" else "CERTIFICATE|c") in
  ∃ w n', @CompleteWorkerNodePKI demo_pki_env "worker" [10; 0; 0; 2]%Z 2048 c 0 = (Ok w, c, n') ∧
    Worker_CompleteCertificates w = Ok tt.
Proof.
  intros c. destruct (@CompleteWorkerNodePKI demo_pki_env "worker" [10; 0; 0; 2]%Z 2048 c 0)
    as [[r c'] n'] eqn:E.
  pose proof (f_equal (λ x, is_ok x.1.1) E) as Er. vm_compute in Er. destruct r as [w|e]; [|discriminate Er].
  destruct (@CompleteWorkerNodePKI_accepted demo_pki_env demo_pki_ok _ _ _ _ _ _ _ _ E) as (-> & _ & _ & Ha).
  exists w, n'. split; [reflexivity|]. apply Ha. split_and!; vm_compute; discriminate.
Defined.
End PkiNode.
