(* ===== verification/Arguments.v ===== *)
(** * Service arguments

    pkg/snap/util/arguments.go, the argument parsing of pkg/utils/file.go and
    [ServiceArgsFromMap] of pkg/utils/services.go and pkg/snap/util/services.go.

    A Go map that is iterated over is a list of pairs, the order of one iteration:
    the language leaves it unspecified, so a theorem that does not depend on it
    holds for every permutation. *)

From S2P Require Import Prelude GoStrings FileSys.
Import GoStr FileSys.

Module Arguments.

(** The maps of the source, looked up. *)
Definition to_map (l : list (string * string)) : gmap string string := list_to_map l.

(** ** Parsing a line *)

(** The line around the first space or equal sign. *)
Fixpoint split_index (line : string) : option (string * string) :=
  match line with
  | EmptyString => None
  | String c s =>
      if Ascii.eqb c " " || Ascii.eqb c "=" then Some (EmptyString, s)
      else match split_index s with
           | Some (k, v) => Some (String c k, v)
           | None => None
           end
  end.

Definition ParseArgumentLine (line : string) : string * string :=
  let line := TrimSpace line in
  match split_index line with
  | None => (line, EmptyString)
  | Some (key, value) => (key, trim_char dquote (TrimSpace value))
  end.

(** The lines of an arguments file, trimmed, without the empty ones. *)
Definition argument_lines (content : string) : list string :=
  List.filter (λ l, l !=? EmptyString) (map TrimSpace (split newline content)).

(** ** The snap *)

(** The paths and identities the code asks of [snap.Snap]. *)
Record Snap := mkSnap {
  ServiceArgumentsDir : string;
  ServiceExtraConfigDir : string;
  KubernetesConfigDir : string;
  snap_KubernetesPKIDir : string;
  snap_EtcdPKIDir : string;
  EtcdDir : string;
  K8sdStateDir : string;
  LockFilesDir : string;
  KubeletRootDir : string;
  ContainerdSocketPath : string;
  Hostname : string;
  UID : Z;
  GID : Z;
  OnLXD : res bool }.

Section Arguments.
Context `{OSEnv}.

Definition argumentsFileForService (s : Snap) (serviceName : string) : string :=
  filepath_Join [ServiceArgumentsDir s; serviceName].

(** ** Reading an argument *)

Fixpoint find_argument (argument : string) (lines : list string) : string :=
  match lines with
  | [] => EmptyString
  | line :: lines =>
      let '(key, value) := ParseArgumentLine line in
      if key ==? argument then value else find_argument argument lines
  end.

Definition GetServiceArgument (s : Snap) (serviceName argument : string) : io string :=
  arguments ← io_wrapf "failed to read arguments file for service %s: %w" [serviceName]
                (os_ReadFile (argumentsFileForService s serviceName));
  mret (find_argument argument (argument_lines arguments)).

(** ** Updating the arguments *)

Definition render (key value : string) : string := key +:+ "=" +:+ quoted value.

Definition update_line (upd : gmap string string) (del : gset string)
    (st : gset string * list string * bool) (line : string) : gset string * list string * bool :=
  let '(existingArguments, newArguments, changed) := st in
  let '(key, oldValue) := ParseArgumentLine line in
  let existingArguments := {[key]} ∪ existingArguments in
  match upd !! key with
  | Some newValue => (existingArguments, newArguments ++ [render key newValue],
                      if oldValue !=? newValue then true else changed)
  | None => if bool_decide (key ∈ del) then (existingArguments, newArguments, true)
            else (existingArguments, newArguments ++ [line], changed)
  end.

Definition append_missing (existingArguments : gset string) (st : list string * bool)
    (kv : string * string) : list string * bool :=
  let '(newArguments, changed) := st in
  if bool_decide (kv.1 ∉ existingArguments) then (newArguments ++ [render kv.1 kv.2], true)
  else (newArguments, changed).

(** The new contents of the file, and whether an argument changed. *)
Definition update_content (updateMap : list (string * string)) (deleteList : list string)
    (arguments : string) : string * bool :=
  let '(existingArguments, newArguments, changed) :=
    fold_left (update_line (to_map updateMap) (list_to_set deleteList))
      (argument_lines arguments) (∅, [], false) in
  let '(newArguments, changed) :=
    fold_left (append_missing existingArguments) updateMap (newArguments, changed) in
  (join (one newline) (sort_Strings newArguments) +:+ one newline, changed).

(** [os.ReadFile] with a missing file read as empty. *)
Definition read_or_empty (path : string) : io string :=
  r ← io_try (os_ReadFile path);
  match r with
  | Ok d => mret d
  | Err e => if e ==? ErrNotExist then mret EmptyString else io_lift (Err e)
  end.

Definition UpdateServiceArguments (s : Snap) (serviceName : string)
    (updateMap : list (string * string)) (deleteList : list string) : io bool :=
  if Nat.eqb (length updateMap) 0 && Nat.eqb (length deleteList) 0 then mret false
  else
    let argumentsFile := argumentsFileForService s serviceName in
    arguments ← io_wrapf "failed to read arguments file for service %s: %w" [serviceName]
                  (read_or_empty argumentsFile);
    let '(content, changed) := update_content updateMap deleteList arguments in
    _ ← io_wrapf "failed to write arguments for service %s: %w" [serviceName]
          (WriteFile argumentsFile content 384);
    mret changed.

(** ** Extra arguments *)

Definition service_arg (acc : list (string * string) * list string)
    (x : string * option string) : list (string * string) * list string :=
  match x.2 with
  | None => (acc.1, acc.2 ++ [x.1])
  | Some v => (acc.1 ++ [(x.1, v)], acc.2)
  end.
(** The keys of [args] are distinct, so writing the update map appends to it. *)
Definition ServiceArgsFromMap (args : list (string * option string))
    : list (string * string) * list string :=
  fold_left service_arg args ([], []).
End Arguments.

(** ** Reference semantics

    An arguments file means the list of its (key, value) pairs. *)

Definition argument_pairs (content : string) : list (string * string) :=
  map ParseArgumentLine (argument_lines content).

(** What an update is meant to do to the pairs: an updated key takes its new value
    where it is, a deleted one goes, and the updated keys that are missing are added. *)
Definition update_pair (upd : gmap string string) (del : gset string) (kv : string * string)
    : option (string * string) :=
  match upd !! kv.1 with
  | Some v => Some (kv.1, v)
  | None => if bool_decide (kv.1 ∈ del) then None else Some kv
  end.
Definition missing (ps : list (string * string)) (kv : string * string) : bool :=
  bool_decide (kv.1 ∉ ps.*1).
Definition update_pairs (upd : list (string * string)) (del : gset string)
    (ps : list (string * string)) : list (string * string) :=
  omap (update_pair (to_map upd) del) ps ++
  List.filter (missing ps) upd.

(** Keys and values that survive being written on a line: the key starts with a
    graphic character and has no space, equal sign or newline; the value has no
    newline and no quote at its ends. *)
Definition starts_with (p : ascii → bool) (s : string) : bool :=
  match s with String a _ => p a | EmptyString => false end.
Definition clean_key (k : string) : bool :=
  starts_with graphic k && negb (contains_char " " k) && negb (contains_char "=" k) &&
  negb (contains_char newline k).
Definition clean_value (v : string) : bool :=
  negb (contains_char newline v) && negb (starts_with (Ascii.eqb dquote) v) &&
  negb (starts_with (Ascii.eqb dquote) (String.rev v)).
Definition clean (upd : list (string * string)) : Prop :=
  Forall (λ kv, clean_key kv.1 = true ∧ clean_value kv.2 = true) upd.

(** ** Lemmas: one line *)

Lemma split_index_app k v :
  contains_char " " k = false → contains_char "=" k = false →
  split_index (k +:+ String "=" v) = Some (k, v).
Proof.
  induction k as [|a k IH]; simpl; [done|].
  intros [H1 H2]%orb_false_iff [H3 H4]%orb_false_iff. 
  by rewrite H1, H3, IH.
Qed.

Lemma trim_char_left_id c s : starts_with (Ascii.eqb c) s = false → trim_char_left c s = s.
Proof.
  destruct s as [|a s]; simpl; [done|]. intros E. by rewrite Ascii.eqb_sym, E.
Qed.

Lemma trim_quoted v :
  starts_with (Ascii.eqb dquote) v = false → starts_with (Ascii.eqb dquote) (String.rev v) = false →
  trim_char dquote (quoted v) = v.
Proof.
  intros H1 H2. unfold trim_char, quoted.
  change (one dquote +:+ v +:+ one dquote) with (String dquote (v +:+ one dquote)).
  cbn [trim_char_left]. rewrite Ascii.eqb_refl.
  destruct v as [|a v]; [done|]. rewrite (trim_char_left_id _ (String a v +:+ one dquote)) by exact H1.
  rewrite srev_app. change (String.rev (one dquote) +:+ ?t) with (String dquote t).
  cbn [trim_char_left]. rewrite Ascii.eqb_refl, trim_char_left_id by exact H2.
  by rewrite srev_involutive.
Qed.

Lemma render_shape k v : clean_key k = true → ∃ a m, graphic a = true ∧
  render k v = String a (m +:+ one dquote).
Proof.
  unfold clean_key. destruct k as [|a k]; [done|]. rewrite !andb_true_iff.
  intros [[[Ha _] _] _]. exists a, (k +:+ "=" +:+ one dquote +:+ v). split; [done|].
  unfold render, quoted. rewrite sapp_cons. by rewrite !sapp_assoc.
Qed.

Lemma TrimSpace_render k v : clean_key k = true → TrimSpace (render k v) = render k v.
Proof.
  intros Hk. destruct (render_shape k v Hk) as (a & m & Ha & ->).
  by apply TrimSpace_graphic.
Qed.

Lemma parse_render k v : clean_key k = true → clean_value v = true →
  ParseArgumentLine (render k v) = (k, v).
Proof.
  intros Hk Hv. unfold ParseArgumentLine. rewrite TrimSpace_render by done.
  unfold clean_key, clean_value in *. rewrite !andb_true_iff, !negb_true_iff in *.
  destruct Hk as [[[_ Hsp] Heq] _], Hv as [[_ Hq1] Hq2].
  unfold render. change ("=" +:+ quoted v) with (String "=" (quoted v)).
  rewrite split_index_app by done. f_equal.
  replace (TrimSpace (quoted v)) with (quoted v); [by apply trim_quoted|].
  symmetry. unfold quoted. apply (TrimSpace_graphic dquote v dquote); reflexivity.
Qed.

(** A line as the update leaves it in the file. *)
Definition stored_line (l : string) : Prop :=
  TrimSpace l = l ∧ l ≠ EmptyString ∧ contains_char newline l = false.

Lemma stored_render k v : clean_key k = true → clean_value v = true → stored_line (render k v).
Proof.
  intros Hk Hv. split; [by apply TrimSpace_render|]. split.
  - destruct (render_shape k v Hk) as (a & m & _ & ->). done.
  - unfold clean_key, clean_value in *. rewrite !andb_true_iff, !negb_true_iff in *.
    unfold render, quoted. rewrite !contains_app.
    destruct Hk as [_ ->], Hv as [[-> _] _]. done.
Qed.

Lemma argument_lines_stored content : Forall stored_line (argument_lines content).
Proof.
  apply Forall_forall. intros l. unfold argument_lines.
  rewrite list_elem_of_In, filter_In, in_map_iff. intros [(x & <- & Hx) Hne].
  apply negb_true_iff, bool_decide_eq_false in Hne. split; [apply TrimSpace_idemp|].
  split; [done|]. apply contains_TrimSpace.
  pose proof (split_fields_no_sep newline content) as Hf. rewrite Forall_forall in Hf.
  apply Hf. by apply list_elem_of_In.
Qed.

(** The lines of the written file are the lines it was written from. *)
Lemma argument_lines_join ls : Forall stored_line ls →
  argument_lines (join (one newline) ls +:+ one newline) = ls.
Proof.
  intros Hls. unfold argument_lines, one at 2. rewrite split_app, map_app, List.filter_app. simpl.
  rewrite app_nil_r. destruct ls as [|l ls]; [done|]. rewrite split_join; [|done|].
  - induction Hls as [|x xs (Ht & Hne & _) _ IH]; [done|]. simpl. rewrite Ht.
    rewrite bool_decide_eq_false_2 by done. simpl. by rewrite IH.
  - eapply Forall_impl; [exact Hls|]. intros x (_ & _ & Hx). done.
Qed.

(** ** Lemmas: the whole file *)

Definition new_line (upd : gmap string string) (del : gset string) (line : string) : option string :=
  let key := (ParseArgumentLine line).1 in
  match upd !! key with
  | Some v => Some (render key v)
  | None => if bool_decide (key ∈ del) then None else Some line
  end.
Definition pair_changed (upd : gmap string string) (del : gset string) (kv : string * string) : bool :=
  match upd !! kv.1 with
  | Some v => kv.2 !=? v
  | None => bool_decide (kv.1 ∈ del)
  end.
Definition pairs_changed (upd : list (string * string)) (del : gset string)
    (ps : list (string * string)) : bool :=
  existsb (pair_changed (to_map upd) del) ps || existsb (missing ps) upd.

Lemma update_line_eq upd del ex new ch l :
  update_line upd del (ex, new, ch) l =
  ({[(ParseArgumentLine l).1]} ∪ ex, new ++ option_list (new_line upd del l),
   ch || pair_changed upd del (ParseArgumentLine l)).
Proof.
  unfold update_line, new_line, pair_changed. destruct (ParseArgumentLine l) as [k old]. simpl.
  destruct (upd !! k) as [v|]; [|case_bool_decide]; simpl; rewrite ?app_nil_r, ?orb_false_r,
    ?orb_true_r; try done. by destruct (old !=? v), ch.
Qed.

Lemma fold_update_line upd del lines ex new ch :
  fold_left (update_line upd del) lines (ex, new, ch) =
  (list_to_set (map ParseArgumentLine lines).*1 ∪ ex, new ++ omap (new_line upd del) lines,
   ch || existsb (pair_changed upd del) (map ParseArgumentLine lines)).
Proof.
  revert ex new ch. induction lines as [|l lines IH]; intros ex new ch; cbn [fold_left].
  { simpl. rewrite app_nil_r, orb_false_r. do 2 f_equal. set_solver. }
  rewrite update_line_eq, IH. f_equal; [f_equal|].
  - cbn [map fmap list_fmap list_to_set]. set_solver.
  - rewrite <- app_assoc. f_equal. cbn [omap list_omap]. by destruct (new_line upd del l).
  - cbn [map existsb]. by rewrite orb_assoc.
Qed.

Lemma fold_append_missing ex upd new ch :
  fold_left (append_missing ex) upd (new, ch) =
  (new ++ map (λ kv, render kv.1 kv.2) (List.filter (λ kv, bool_decide (kv.1 ∉ ex)) upd),
   ch || existsb (λ kv, bool_decide (kv.1 ∉ ex)) upd).
Proof.
  revert new ch. induction upd as [|kv upd IH]; intros new ch; cbn [fold_left].
  { simpl. by rewrite app_nil_r, orb_false_r. }
  unfold append_missing at 2. cbn [List.filter existsb].
  case_bool_decide; rewrite IH; cbn [map]; rewrite <- ?app_assoc; [|done].
  by destruct ch.
Qed.

(** The lines of the new file before they are sorted. *)
Definition new_lines (upd : list (string * string)) (del : gset string) (lines : list string)
    : list string :=
  omap (new_line (to_map upd) del) lines ++
  map (λ kv, render kv.1 kv.2) (List.filter (missing (map ParseArgumentLine lines)) upd).

Lemma update_content_eq upd del c :
  update_content upd del c =
  (join (one newline) (sort_Strings (new_lines upd (list_to_set del) (argument_lines c))) +:+ one newline,
   pairs_changed upd (list_to_set del) (argument_pairs c)).
Proof.
  unfold update_content. rewrite fold_update_line, fold_append_missing.
  assert (Hext : ∀ kv : string * string,
    bool_decide (kv.1 ∉ list_to_set (map ParseArgumentLine (argument_lines c)).*1 ∪ (∅ : gset string)) =
    missing (map ParseArgumentLine (argument_lines c)) kv).
  { intros kv. unfold missing. apply bool_decide_ext. set_solver. }
  unfold new_lines, pairs_changed, argument_pairs. rewrite app_nil_l. f_equal.
  - do 5 f_equal. by apply List.filter_ext.
  - cbn [orb]. f_equal. clear -Hext. induction upd as [|kv upd IH]; [done|].
    cbn [existsb]. by rewrite Hext, IH.
Qed.

Lemma to_map_elem upd k v : to_map upd !! k = Some v → (k, v) ∈ upd.
Proof. apply elem_of_list_to_map_2. Qed.

Lemma to_map_clean upd k v : clean upd → to_map upd !! k = Some v →
  clean_key k = true ∧ clean_value v = true.
Proof. intros Hc Hk%to_map_elem. unfold clean in Hc. rewrite Forall_forall in Hc. by apply Hc in Hk. Qed.

Lemma new_lines_stored upd del lines : clean upd → Forall stored_line lines →
  Forall stored_line (new_lines upd del lines).
Proof.
  intros Hc Hl. unfold new_lines. apply Forall_app. rewrite !Forall_forall in *. split.
  - intros l' (l & Hin & Hn)%list_elem_of_omap. unfold new_line in Hn.
    destruct (to_map upd !! _) as [v|] eqn:E; [|case_bool_decide]; simplify_eq; [|by apply Hl].
    destruct (to_map_clean _ _ _ Hc E). by apply stored_render.
  - intros l'. rewrite list_elem_of_In, in_map_iff. intros (kv & <- & Hkv%filter_In).
    rewrite <- list_elem_of_In in Hkv. destruct Hkv as [Hkv _].
    unfold clean in Hc. rewrite Forall_forall in Hc. destruct (Hc _ Hkv). by apply stored_render.
Qed.

Lemma new_lines_pairs upd del lines : clean upd →
  map ParseArgumentLine (new_lines upd del lines) = update_pairs upd del (map ParseArgumentLine lines).
Proof.
  intros Hc. unfold new_lines, update_pairs. rewrite map_app. f_equal.
  - induction lines as [|l lines IH]; [done|]. cbn [omap list_omap map].
    unfold new_line at 1, update_pair at 1. destruct (ParseArgumentLine l) as [k old] eqn:E.
    cbn [fst]. destruct (to_map upd !! k) as [v|] eqn:Ek.
    + destruct (to_map_clean _ _ _ Hc Ek). cbn [map]. rewrite parse_render by done. by f_equal.
    + case_bool_decide; [done|]. cbn [map]. rewrite E. by f_equal.
  - rewrite map_map. erewrite map_ext_in; [apply map_id|]. intros [k v] [Hin _]%filter_In.
    rewrite <- list_elem_of_In in Hin. unfold clean in Hc. rewrite Forall_forall in Hc.
    destruct (Hc _ Hin). by apply parse_render.
Qed.

Lemma update_content_lines upd del c : clean upd →
  argument_lines (update_content upd del c).1 =
  sort_Strings (new_lines upd (list_to_set del) (argument_lines c)).
Proof.
  intros Hc. rewrite update_content_eq. cbn [fst]. apply argument_lines_join.
  rewrite sort_Strings_Permutation. apply new_lines_stored; [done|]. apply argument_lines_stored.
Qed.

Lemma update_content_pairs upd del c : clean upd →
  argument_pairs (update_content upd del c).1 ≡ₚ update_pairs upd (list_to_set del) (argument_pairs c).
Proof.
  intros Hc. unfold argument_pairs at 1. rewrite update_content_lines by done.
  rewrite sort_Strings_Permutation. by rewrite new_lines_pairs.
Qed.

(** The reported change is a change of the meaning of the file. *)
Lemma existsb_elem {A} (f : A → bool) l : existsb f l = true ↔ ∃ x, x ∈ l ∧ f x = true.
Proof. rewrite existsb_exists. by setoid_rewrite list_elem_of_In. Qed.
Lemma existsb_none {A} (f : A → bool) l : existsb f l = false ↔ ∀ x, x ∈ l → f x = false.
Proof.
  rewrite <- not_true_iff_false, existsb_elem. split.
  - intros Hn x Hx. apply not_true_iff_false. naive_solver.
  - intros Hf (x & Hx & Hfx). by rewrite Hf in Hfx.
Qed.

Lemma filter_none {A} (f : A → bool) l : existsb f l = false → List.filter f l = [].
Proof.
  induction l as [|x l IH]; [done|]. simpl. intros [-> Hl]%orb_false_iff. by apply IH.
Qed.

Lemma filter_bool_Permutation {A} (f : A → bool) l l' :
  l ≡ₚ l' → List.filter f l ≡ₚ List.filter f l'.
Proof.
  induction 1 as [|x l l' _ IH|x y l|l1 l2 l3 _ IH1 _ IH2]; simpl; repeat case_match; try done;
    try constructor; try done; by etransitivity.
Qed.
Lemma list_omap_fixed {A} (f : A → option A) (l : list A) : (∀ x, x ∈ l → f x = Some x) → omap f l = l.
Proof.
  induction l as [|x l IH]; [done|]. intros Hf. cbn [omap list_omap].
  rewrite Hf by set_solver. f_equal. apply IH. set_solver.
Qed.

Lemma elem_of_update_pairs upd del ps k v :
  (k, v) ∈ update_pairs upd del ps →
  (k ∈ ps.*1 ∧ to_map upd !! k = Some v) ∨
  ((k, v) ∈ ps ∧ to_map upd !! k = None ∧ k ∉ del) ∨
  (k ∉ ps.*1 ∧ (k, v) ∈ upd).
Proof.
  unfold update_pairs. rewrite elem_of_app. intros [Hin|Hin].
  - apply list_elem_of_omap in Hin as ([k' v'] & Hin & Hu). unfold update_pair in Hu.
    cbn [fst] in Hu. destruct (to_map upd !! k') eqn:E; [|case_bool_decide]; simplify_eq.
    + left. split; [|done]. apply list_elem_of_fmap. by exists (k, v').
    + right. left. done.
  - right. right. rewrite list_elem_of_In, filter_In, <- list_elem_of_In in Hin.
    destruct Hin as [Hin Hd%bool_decide_eq_true]. done.
Qed.

Lemma pairs_changed_false upd del ps : pairs_changed upd del ps = false → update_pairs upd del ps = ps.
Proof.
  unfold pairs_changed, update_pairs. rewrite orb_false_iff. intros [H1 H2].
  rewrite (filter_none _ upd H2), app_nil_r. clear H2.
  induction ps as [|[k v] ps IH]; [done|]. cbn [existsb] in H1.
  apply orb_false_iff in H1 as [H1 H2]. cbn [omap list_omap]. unfold update_pair at 1.
  unfold pair_changed in H1. cbn [fst snd] in *. destruct (to_map upd !! k) as [v'|].
  - apply negb_false_iff, bool_decide_eq_true in H1 as ->. f_equal. by apply IH.
  - rewrite H1. f_equal. by apply IH.
Qed.

Lemma pairs_changed_nil ps : pairs_changed [] ∅ ps = false.
Proof.
  unfold pairs_changed. cbn [existsb]. rewrite orb_false_r. apply existsb_none.
  intros kv _. unfold pair_changed. change (to_map [] !! kv.1) with ((∅ : gmap string string) !! kv.1).
  rewrite lookup_empty.
  apply bool_decide_eq_false. set_solver.
Qed.

Lemma pairs_changed_true upd del ps : pairs_changed upd del ps = true → ¬ update_pairs upd del ps ≡ₚ ps.
Proof.
  unfold pairs_changed. rewrite orb_true_iff, !existsb_elem.
  intros [([k v] & Hin & Hc)|([k v] & Hin & Hc)] Hp.
  - assert (Hk : k ∈ ps.*1) by (apply list_elem_of_fmap; by exists (k, v)).
    pose proof Hin as Hin'. rewrite <- Hp in Hin'. apply elem_of_update_pairs in Hin'.
    unfold pair_changed in Hc. cbn [fst snd] in Hc.
    destruct (to_map upd !! k) as [v'|] eqn:E; [apply negb_true_iff, bool_decide_eq_false in Hc|
      apply bool_decide_eq_true in Hc]; naive_solver.
  - unfold missing in Hc. apply bool_decide_eq_true in Hc. cbn [fst] in Hc. apply Hc.
    apply list_elem_of_fmap. exists (k, v). split; [done|]. rewrite <- Hp.
    unfold update_pairs. apply elem_of_app. right.
    apply list_elem_of_In, filter_In. split; [by apply list_elem_of_In|]. by apply bool_decide_eq_true.
Qed.

(** Running the same update on its own result. *)
Lemma to_map_is_Some upd k : k ∈ upd.*1 → is_Some (to_map upd !! k).
Proof.
  intros Hk. destruct (to_map upd !! k) eqn:E; [done|]. by apply not_elem_of_list_to_map_2 in E.
Qed.

(** No updated key is missing from the result of an update, and none differs. *)
Lemma update_pairs_settled upd del ps : NoDup upd.*1 →
  pairs_changed upd del (update_pairs upd del ps) = false.
Proof.
  intros Hnd. unfold pairs_changed. rewrite orb_false_iff, !existsb_none. split.
  - intros [k v] Hin. apply elem_of_update_pairs in Hin. unfold pair_changed. cbn [fst snd].
    destruct Hin as [[_ ->]|[(_ & -> & Hd)|[_ Hin]]].
    + apply negb_false_iff. by apply bool_decide_eq_true.
    + by apply bool_decide_eq_false.
    + unfold to_map. rewrite (elem_of_list_to_map_1 upd k v) by done. apply negb_false_iff.
      by apply bool_decide_eq_true.
  - intros [k v] Hin. unfold missing. apply bool_decide_eq_false. intros Hn. apply Hn. clear Hn.
    cbn [fst]. unfold update_pairs. rewrite fmap_app, elem_of_app.
    destruct (decide (k ∈ ps.*1)) as [Hk|Hk].
    + left. apply list_elem_of_fmap in Hk as ([k' v'] & -> & Hk). cbn [fst] in *.
      apply list_elem_of_fmap. exists (k', v). split; [done|]. apply list_elem_of_omap.
      exists (k', v'). split; [done|]. unfold update_pair, to_map. cbn [fst].
      by rewrite (elem_of_list_to_map_1 upd k' v).
    + right. apply list_elem_of_fmap. exists (k, v). split; [done|].
      apply list_elem_of_In, filter_In. split; [by apply list_elem_of_In|].
      by apply bool_decide_eq_true.
Qed.

#[local] Instance pairs_changed_proper upd del : Proper ((≡ₚ) ==> (=)) (pairs_changed upd del).
Proof.
  intros ps ps' Hp. unfold pairs_changed. f_equal.
  - apply eq_true_iff_eq. rewrite !existsb_elem. by setoid_rewrite Hp.
  - apply eq_true_iff_eq. rewrite !existsb_elem. unfold missing.
    by setoid_rewrite bool_decide_eq_true; setoid_rewrite Hp.
Qed.

Lemma new_lines_fixed upd del lines l : clean upd → NoDup upd.*1 →
  l ∈ new_lines upd del lines → new_line (to_map upd) del l = Some l.
Proof.
  intros Hc Hnd. unfold new_lines. rewrite elem_of_app. intros [Hin|Hin].
  - apply list_elem_of_omap in Hin as (l0 & _ & Hn). unfold new_line in Hn.
    destruct (to_map upd !! _) as [v|] eqn:E; [|case_bool_decide as Hd; [done|]].
    + injection Hn as <-. destruct (to_map_clean _ _ _ Hc E). unfold new_line.
      rewrite parse_render by done. cbn [fst]. by rewrite E.
    + injection Hn as <-. unfold new_line. rewrite E. by rewrite bool_decide_eq_false_2.
  - rewrite list_elem_of_In, in_map_iff in Hin. destruct Hin as ([k v] & <- & [Hin _]%filter_In).
    rewrite <- list_elem_of_In in Hin. pose proof (elem_of_list_to_map_1 upd k v Hnd Hin) as E.
    destruct (to_map_clean upd k v Hc E). unfold new_line. cbn [fst snd].
    rewrite parse_render by done. cbn [fst]. unfold to_map. by rewrite E.
Qed.

(** Running the same update on its own result. *)
Lemma update_content_again upd del c : clean upd → NoDup upd.*1 →
  update_content upd del (update_content upd del c).1 = ((update_content upd del c).1, false).
Proof.
  intros Hc Hnd.
  assert (Hpc : pairs_changed upd (list_to_set del) (argument_pairs (update_content upd del c).1) = false).
  { rewrite update_content_pairs by done. by apply update_pairs_settled. }
  rewrite (update_content_eq upd del (update_content upd del c).1), Hpc. f_equal.
  rewrite (update_content_eq upd del c) at 2. cbn [fst]. do 2 f_equal.
  unfold new_lines at 1.
  rewrite (filter_none (missing _)), app_nil_r.
  2: { unfold pairs_changed in Hpc. by apply orb_false_iff in Hpc as [_ Hm]. }
  rewrite update_content_lines by done. apply sort_Strings_perm_eq.
  set (ls := new_lines _ _ _). transitivity (sort_Strings ls); [|apply sort_Strings_Permutation].
  rewrite list_omap_fixed; [done|]. intros l Hl.
  rewrite sort_Strings_Permutation in Hl. by eapply new_lines_fixed.
Qed.

(** ** Lemmas: the file system *)

Section Update.
Context `{OSEnvOk}.

Lemma read_or_empty_run p w r w' : read_or_empty p w = (r, w') →
  w' = w ∧ match r with Ok d => d = contents w p | Err e => e ≠ ErrNotExist end.
Proof.
  unfold read_or_empty. intros [(x & w1 & E1 & E2)|(e & E & ->)]%io_bind_inv.
  - unfold io_try in E1. destruct (os_ReadFile p w) as [r0 w0] eqn:E0. injection E1 as <- <-.
    apply os_ReadFile_run in E0 as [-> Hr]. unfold contents. destruct r0 as [d|e].
    + destruct Hr as (f & -> & <-). by injection E2 as <- <-.
    + case_bool_decide as He; injection E2 as <- <-; (split; [done|]).
      * destruct Hr as [Hr|[-> _]]; [|done]. subst e.
        by destruct (os_fail_exists OpRead p); [by right; left|].
      * done.
  - unfold io_try in E. by destruct (os_ReadFile p w).
Qed.

Lemma UpdateServiceArguments_run s svc upd del w r w' :
  UpdateServiceArguments s svc upd del w = (r, w') →
  let file := argumentsFileForService s svc in
  let tmp := os_temp (w_files w) (filepath_Dir file) in
  tmp ≠ file →
  (∃ e, r = Err e ∧ ∀ p, p ≠ tmp → w_files w' !! p = w_files w !! p) ∨
  (upd = [] ∧ del = [] ∧ r = Ok false ∧ w' = w) ∨
  ((upd ≠ [] ∨ del ≠ []) ∧
   r = Ok (update_content upd del (contents w file)).2 ∧
   w_files w' = <[file := written (update_content upd del (contents w file)).1 384]> (w_files w)).
Proof.
  intros E file tmp Hne. unfold UpdateServiceArguments in E.
  destruct (_ && _) eqn:Hemp.
  { apply andb_true_iff in Hemp as [H1%Nat.eqb_eq%nil_length_inv H2%Nat.eqb_eq%nil_length_inv].
    injection E as <- <-. right. by left. }
  assert (Hsome : upd ≠ [] ∨ del ≠ []).
  { destruct upd, del; try done; [right|left..]; done. }
  apply io_bind_inv in E as [(d & w1 & Er & E)|(e & Er & ->)];
    unfold io_wrapf in Er; destruct (read_or_empty _ w) as [r0 w0] eqn:E0;
    apply read_or_empty_run in E0 as [-> Hr0]; destruct r0; simplify_eq/=.
  2: { left. eauto. }
  destruct (update_content upd del _) as [content changed] eqn:Eu. simpl.
  apply io_bind_inv in E as [([] & w2 & Ew & E)|(e & Ew & ->)];
    unfold io_wrapf in Ew; fold file in Ew;
    destruct (WriteFile file content 384 w1) as [r1 w3] eqn:E1;
    apply WriteFile_run in E1 as [_ Hw]; destruct (Hw Hne) as [(e' & -> & He)|[-> Hf]]; simplify_eq/=.
  - injection E as <- <-. right. right. done.
  - left. eauto.
Qed.

Lemma contents_insert (w w' : World) p d mode : w_files w' = <[p := written d mode]> (w_files w) →
  contents w' p = d.
Proof. unfold contents. intros ->. by rewrite lookup_insert_eq. Qed.

(** What a successful update means for the pairs of the file, and what it reports. *)
Lemma update_pairs_Ok s svc upd del w changed w' :
  UpdateServiceArguments s svc upd del w = (Ok changed, w') →
  let file := argumentsFileForService s svc in
  os_temp (w_files w) (filepath_Dir file) ≠ file → clean upd →
  argument_pairs (contents w' file) ≡ₚ
    update_pairs upd (list_to_set del) (argument_pairs (contents w file)) ∧
  (changed = true ↔ ¬ argument_pairs (contents w' file) ≡ₚ argument_pairs (contents w file)) ∧
  (∀ p, p ≠ file → w_files w' !! p = w_files w !! p).
Proof.
  intros E file Hne Hc.
  destruct (UpdateServiceArguments_run _ _ _ _ _ _ _ E Hne)
    as [(e & ? & _)|[(-> & -> & [= ->] & ->)|(_ & [= ->] & Hf)]]; [done| |].
  - split_and!; [| |done].
    + by rewrite (pairs_changed_false [] (list_to_set [])) by apply pairs_changed_nil.
    + split; [done|]. intros Hn. by destruct Hn.
  - fold file in Hf |- *.
    assert (Hp : argument_pairs (contents w' file) ≡ₚ
      update_pairs upd (list_to_set del) (argument_pairs (contents w file))).
    { erewrite contents_insert by done. by apply update_content_pairs. }
    split_and!; [done| |].
    + rewrite Hp, update_content_eq. cbn [snd]. split; [apply pairs_changed_true|].
      intros Hn. apply not_false_iff_true. intros Hf'. apply Hn. by rewrite pairs_changed_false.
    + intros p Hp'. rewrite Hf. by rewrite lookup_insert_ne.
Qed.

Lemma update_other s svc upd del w changed w' p :
  UpdateServiceArguments s svc upd del w = (Ok changed, w') →
  os_temp (w_files w) (filepath_Dir (argumentsFileForService s svc)) ≠ argumentsFileForService s svc →
  p ≠ argumentsFileForService s svc → w_files w' !! p = w_files w !! p.
Proof.
  intros E Hne Hp. destruct (UpdateServiceArguments_run _ _ _ _ _ _ _ E Hne)
    as [(e & ? & _)|[(_ & _ & _ & ->)|(_ & _ & ->)]]; [done|done|]. by apply lookup_insert_ne.
Qed.

(** [UpdateServiceArguments] does to the meaning of the arguments file exactly what
    its contract says: on success the (key, value) pairs of the file are the old ones
    with every updated key carrying its new value, every deleted key gone and the
    missing updated keys added; the returned flag is true exactly when the pairs
    changed; no other file changes.  On an error every file but the temporary one is
    as before. *)
Theorem UpdateServiceArguments_correct s svc upd del w r w' :
  UpdateServiceArguments s svc upd del w = (r, w') →
  let file := argumentsFileForService s svc in
  let tmp := os_temp (w_files w) (filepath_Dir file) in
  tmp ≠ file → clean upd →
  match r with
  | Err _ => ∀ p, p ≠ tmp → w_files w' !! p = w_files w !! p
  | Ok changed =>
      argument_pairs (contents w' file) ≡ₚ
        update_pairs upd (list_to_set del) (argument_pairs (contents w file)) ∧
      (changed = true ↔ ¬ argument_pairs (contents w' file) ≡ₚ argument_pairs (contents w file)) ∧
      (∀ p, p ≠ file → w_files w' !! p = w_files w !! p)
  end.
Proof.
  intros E file tmp Hne Hc. destruct r as [changed|e]; [by apply update_pairs_Ok in E|].
  by destruct (UpdateServiceArguments_run _ _ _ _ _ _ _ E Hne)
    as [(? & _ & He)|[(_ & _ & ? & _)|(_ & ? & _)]].
Qed.

(** The result does not depend on the order in which the update map is iterated over,
    nor on the order of the delete list: file system and returned values are equal. *)
Theorem UpdateServiceArguments_order s svc upd upd' del del' w :
  upd ≡ₚ upd' → NoDup upd.*1 → del ≡ₚ del' →
  UpdateServiceArguments s svc upd del w = UpdateServiceArguments s svc upd' del' w.
Proof.
  intros Hu Hnd Hd. unfold UpdateServiceArguments.
  rewrite (Permutation_length Hu), (Permutation_length Hd).
  assert (Hm : to_map upd = to_map upd') by (by apply list_to_map_proper).
  assert (Hs : list_to_set del = (list_to_set del' : gset string)).
  { apply set_eq. intros x. rewrite !elem_of_list_to_set. by rewrite Hd. }
  assert (Hc : ∀ c, update_content upd del c = update_content upd' del' c).
  2: { destruct (_ && _); [done|]. unfold mbind at 1 3, io_bind at 1 3.
       destruct (io_wrapf _ _ (read_or_empty _) w) as [[d|e] w1]; [|done]. by rewrite Hc. }
  intros c. rewrite !update_content_eq, Hs. unfold pairs_changed, new_lines. rewrite Hm. f_equal.
  - do 2 f_equal. apply sort_Strings_perm_eq. apply Permutation_app; [done|].
    apply Permutation_map. by apply filter_bool_Permutation.
  - f_equal. apply eq_true_iff_eq. rewrite !existsb_elem. by setoid_rewrite Hu.
Qed.

(** An update that succeeded has nothing left to do the next time, also when other files
    changed in between. *)
Lemma update_again s svc upd del w changed w1 w1' r2 w2 :
  UpdateServiceArguments s svc upd del w = (Ok changed, w1) →
  UpdateServiceArguments s svc upd del w1' = (r2, w2) →
  let file := argumentsFileForService s svc in
  w_files w1' !! file = w_files w1 !! file →
  os_temp (w_files w) (filepath_Dir file) ≠ file →
  os_temp (w_files w1') (filepath_Dir file) ≠ file →
  clean upd → NoDup upd.*1 →
  (∃ e, r2 = Err e) ∨ (r2 = Ok false ∧ w_files w2 = w_files w1').
Proof.
  intros E1 E2 file Hsame H1 H2 Hc Hnd.
  assert (Hcont : contents w1' file = contents w1 file) by (unfold contents; by rewrite Hsame).
  destruct (UpdateServiceArguments_run _ _ _ _ _ _ _ E2 H2)
    as [(e & -> & _)|[(-> & -> & -> & ->)|(Hne & -> & Hf2)]]; [by eauto|by right|right].
  destruct (UpdateServiceArguments_run _ _ _ _ _ _ _ E1 H1)
    as [(e & ? & _)|[(? & ? & _)|(_ & _ & Hf1)]]; [done|naive_solver|].
  fold file in Hf1, Hf2 |- *. rewrite Hcont, (contents_insert w w1 file _ _ Hf1) in Hf2 |- *.
  rewrite (update_content_again upd del (contents w file) Hc Hnd) in Hf2 |- *. cbn [fst snd] in *.
  split; [done|]. rewrite Hf2. apply insert_id. by rewrite Hsame, Hf1, lookup_insert_eq.
Qed.

(** Updating is idempotent: after a successful update, the same update either fails
    in the file system or reports no change and leaves every file as it is. *)
Theorem UpdateServiceArguments_idempotent s svc upd del w changed w1 r2 w2 :
  UpdateServiceArguments s svc upd del w = (Ok changed, w1) →
  UpdateServiceArguments s svc upd del w1 = (r2, w2) →
  let file := argumentsFileForService s svc in
  os_temp (w_files w) (filepath_Dir file) ≠ file →
  os_temp (w_files w1) (filepath_Dir file) ≠ file →
  clean upd → NoDup upd.*1 →
  (∃ e, r2 = Err e) ∨ (r2 = Ok false ∧ w_files w2 = w_files w1).
Proof. intros E1 E2. by apply (update_again _ _ _ _ _ _ _ _ _ _ E1 E2). Qed.

(** The value of a key in a list of pairs: the first one. *)
Fixpoint find_pair (k : string) (ps : list (string * string)) : string :=
  match ps with
  | [] => EmptyString
  | (k', v) :: ps => if k' ==? k then v else find_pair k ps
  end.

Lemma find_argument_pair k lines : find_argument k lines = find_pair k (map ParseArgumentLine lines).
Proof.
  induction lines as [|l lines IH]; [done|]. simpl. destruct (ParseArgumentLine l) as [k' v].
  by rewrite IH.
Qed.

Lemma find_pair_uniform k v ps : k ∈ ps.*1 → (∀ v', (k, v') ∈ ps → v' = v) → find_pair k ps = v.
Proof.
  induction ps as [|[k' v'] ps IH]; [set_solver|]. intros Hk Hv. simpl. case_bool_decide as Hkk.
  - subst k'. apply Hv. by left.
  - apply IH; [set_solver|]. intros v0 Hin. apply Hv. by right.
Qed.
Lemma find_pair_absent k ps : k ∉ ps.*1 → find_pair k ps = EmptyString.
Proof.
  induction ps as [|[k' v'] ps IH]; [done|]. intros Hk. simpl.
  case_bool_decide; [set_solver|]. apply IH. set_solver.
Qed.

Lemma GetServiceArgument_eq s svc k w :
  os_fail OpRead (argumentsFileForService s svc) = None →
  is_Some (w_files w !! argumentsFileForService s svc) →
  GetServiceArgument s svc k w =
    (Ok (find_pair k (argument_pairs (contents w (argumentsFileForService s svc)))), w).
Proof.
  intros Hr [f Hf]. unfold GetServiceArgument, mbind, io_bind, io_wrapf, os_ReadFile, os_call,
    existing, get_files, mbind, io_bind. rewrite Hr. cbn. rewrite Hf. cbn.
  unfold contents, argument_pairs. by rewrite Hf, find_argument_pair.
Qed.

Lemma update_pairs_lookup upd del ps k v : NoDup upd.*1 → (k, v) ∈ upd →
  k ∈ (update_pairs upd del ps).*1 ∧ (∀ v', (k, v') ∈ update_pairs upd del ps → v' = v).
Proof.
  intros Hnd Hin. pose proof (elem_of_list_to_map_1 upd k v Hnd Hin) as Hm. split.
  - pose proof (update_pairs_settled upd del ps Hnd) as Hs. unfold pairs_changed in Hs.
    apply orb_false_iff in Hs as [_ Hs]. rewrite existsb_none in Hs. specialize (Hs _ Hin).
    unfold missing in Hs. apply bool_decide_eq_false in Hs. by apply dec_stable in Hs.
  - intros v' [[_ E]|[(_ & E & _)|[_ Hin']]]%elem_of_update_pairs; unfold to_map in *;
      [congruence..|]. pose proof (elem_of_list_to_map_1 upd k v' Hnd Hin'). congruence.
Qed.

(** What was written is what is read: after a successful update
    [GetServiceArgument] returns the new value of every updated argument, nothing for
    every argument that was deleted and not updated, and the old value of an argument
    that was neither and occurs at most once in the file. *)
Theorem GetServiceArgument_after_update s svc upd del w changed w' :
  UpdateServiceArguments s svc upd del w = (Ok changed, w') →
  let file := argumentsFileForService s svc in
  os_temp (w_files w) (filepath_Dir file) ≠ file →
  os_fail OpRead file = None → upd ≠ [] ∨ del ≠ [] → clean upd → NoDup upd.*1 →
  (∀ k v, (k, v) ∈ upd → GetServiceArgument s svc k w' = (Ok v, w')) ∧
  (∀ k, k ∈ del → k ∉ upd.*1 → GetServiceArgument s svc k w' = (Ok EmptyString, w')) ∧
  (∀ k v, k ∉ del → k ∉ upd.*1 → (k, v) ∈ argument_pairs (contents w file) →
     (∀ v', (k, v') ∈ argument_pairs (contents w file) → v' = v) →
     GetServiceArgument s svc k w' = (Ok v, w')).
Proof.
  intros E file Htmp Hr Hne Hc Hnd.
  destruct (UpdateServiceArguments_run _ _ _ _ _ _ _ E Htmp)
    as [(e & ? & _)|[(? & ? & _)|(_ & _ & Hf)]]; [done|naive_solver|].
  fold file in Hf. set (ps := argument_pairs (contents w file)).
  assert (Hp : argument_pairs (contents w' file) ≡ₚ update_pairs upd (list_to_set del) ps).
  { rewrite (contents_insert w w' file _ _ Hf). by apply update_content_pairs. }
  assert (Hex : is_Some (w_files w' !! file)) by (rewrite Hf; by rewrite lookup_insert_eq).
  assert (Hget : ∀ k, GetServiceArgument s svc k w' =
    (Ok (find_pair k (argument_pairs (contents w' file))), w'))
    by (intros k; by apply GetServiceArgument_eq).
  split_and!.
  - intros k v Hin. rewrite Hget. do 2 f_equal.
    destruct (update_pairs_lookup upd (list_to_set del) ps k v Hnd Hin) as [Hk Hv].
    apply find_pair_uniform; setoid_rewrite Hp; done.
  - intros k Hd Hu. rewrite Hget. do 2 f_equal. apply find_pair_absent. rewrite Hp.
    intros ([k' v] & -> & Hin)%list_elem_of_fmap. cbn [fst] in *.
    apply elem_of_update_pairs in Hin as [[_ Hm%to_map_elem]|[(_ & _ & Hn)|[_ Hin]]];
      [|set_solver|]; apply Hu, list_elem_of_fmap; by eexists (_, _).
  - intros k v Hd Hu Hin Huniq. rewrite Hget. do 2 f_equal.
    assert (Hm : to_map upd !! k = None) by (by apply not_elem_of_list_to_map_1).
    apply find_pair_uniform.
    + rewrite Hp. unfold update_pairs. rewrite fmap_app. apply elem_of_app. left.
      apply list_elem_of_fmap. exists (k, v). split; [done|]. apply list_elem_of_omap.
      exists (k, v). split; [done|]. unfold update_pair. cbn [fst]. rewrite Hm.
      by rewrite bool_decide_eq_false_2 by set_solver.
    + intros v'. rewrite Hp. intros [[_ E']|[(Hin' & _)|[_ Hin']]]%elem_of_update_pairs.
      * congruence.
      * by apply Huniq.
      * destruct Hu. apply list_elem_of_fmap. by exists (k, v').
Qed.

(** ** Two updates in a row: defaults, then extra arguments *)

Lemma ServiceArgsFromMap_eq args :
  ServiceArgsFromMap args =
  (omap (λ x : string * option string, (x.1,.) <$> x.2) args,
   omap (λ x : string * option string, match x.2 with None => Some x.1 | Some _ => None end) args).
Proof.
  unfold ServiceArgsFromMap.
  assert (Hgen : ∀ acc, fold_left service_arg args acc =
    (acc.1 ++ omap (λ x : string * option string, (x.1,.) <$> x.2) args,
     acc.2 ++ omap (λ x : string * option string, match x.2 with None => Some x.1 | Some _ => None end) args)).
  { induction args as [|[k [v|]] args IH]; intros [a b]; cbn [fold_left].
    - cbn. by rewrite !app_nil_r.
    - rewrite IH. cbn. by rewrite <- app_assoc.
    - rewrite IH. cbn. by rewrite <- app_assoc. }
  by rewrite Hgen.
Qed.

Lemma elem_of_extra_update extra k v : (k, v) ∈ (ServiceArgsFromMap extra).1 ↔ (k, Some v) ∈ extra.
Proof.
  rewrite ServiceArgsFromMap_eq. cbn [fst]. rewrite list_elem_of_omap. split.
  - intros ([k' [v'|]] & Hin & Heq); simpl in Heq; [|done]. by injection Heq as -> ->.
  - intros Hin. by exists (k, Some v).
Qed.
Lemma elem_of_extra_delete extra k : k ∈ (ServiceArgsFromMap extra).2 ↔ (k, None) ∈ extra.
Proof.
  rewrite ServiceArgsFromMap_eq. cbn [snd]. rewrite list_elem_of_omap. split.
  - intros ([k' [v'|]] & Hin & Heq); simpl in Heq; [done|]. by injection Heq as ->.
  - intros Hin. by exists (k, None).
Qed.
Lemma extra_update_keys extra : (ServiceArgsFromMap extra).1.*1 `sublist_of` extra.*1.
Proof.
  rewrite ServiceArgsFromMap_eq. cbn [fst].
  induction extra as [|[k [v|]] extra IH]; simpl; by constructor.
Qed.

(** The value a reader finds: one for every key of the pairs. *)
Definition effective (w : World) (s : Snap) (svc k : string) (v : option string) : Prop :=
  let ps := argument_pairs (contents w (argumentsFileForService s svc)) in
  match v with
  | Some v => k ∈ ps.*1 ∧ ∀ v', (k, v') ∈ ps → v' = v
  | None => k ∉ ps.*1
  end.

Lemma effective_get w s svc k v :
  os_fail OpRead (argumentsFileForService s svc) = None →
  is_Some (w_files w !! argumentsFileForService s svc) → effective w s svc k v →
  GetServiceArgument s svc k w = (Ok (default EmptyString v), w).
Proof.
  intros Hr Hex He. rewrite GetServiceArgument_eq by done. do 2 f_equal.
  destruct v as [v|]; [destruct He; by apply find_pair_uniform|by apply find_pair_absent].
Qed.

Lemma update_effective s svc upd del w changed w' k :
  UpdateServiceArguments s svc upd del w = (Ok changed, w') →
  os_temp (w_files w) (filepath_Dir (argumentsFileForService s svc)) ≠ argumentsFileForService s svc →
  clean upd → NoDup upd.*1 →
  (∀ v, (k, v) ∈ upd → effective w' s svc k (Some v)) ∧
  (k ∈ del → k ∉ upd.*1 → effective w' s svc k None) ∧
  (∀ v, k ∉ del → k ∉ upd.*1 → effective w s svc k v → effective w' s svc k v).
Proof.
  intros E Htmp Hc Hnd. unfold effective.
  destruct (UpdateServiceArguments_run _ _ _ _ _ _ _ E Htmp)
    as [(e & ? & _)|[(-> & -> & _ & ->)|(_ & _ & Hf)]]; [done|set_solver|].
  assert (Hp : argument_pairs (contents w' (argumentsFileForService s svc)) ≡ₚ
    update_pairs upd (list_to_set del) (argument_pairs (contents w (argumentsFileForService s svc)))).
  { rewrite (contents_insert w w' _ _ _ Hf). by apply update_content_pairs. }
  split_and!.
  - intros v Hin. setoid_rewrite Hp. by apply update_pairs_lookup.
  - intros Hd Hu. setoid_rewrite Hp. intros ([k' v] & -> & Hin)%list_elem_of_fmap. cbn [fst] in *.
    apply elem_of_update_pairs in Hin as [[_ Hm%to_map_elem]|[(_ & _ & Hn)|[_ Hin]]];
      [|set_solver|]; apply Hu, list_elem_of_fmap; by eexists (_, _).
  - intros v Hd Hu. assert (Hm : to_map upd !! k = None) by (by apply not_elem_of_list_to_map_1).
    set (ps := argument_pairs (contents w _)) in *.
    assert (Hiff : ∀ v', (k, v') ∈ update_pairs upd (list_to_set del) ps ↔ (k, v') ∈ ps).
    { intros v'. split.
      - intros [[_ ?]|[(? & _)|[_ Hin]]]%elem_of_update_pairs; [congruence|done|].
        destruct Hu. apply list_elem_of_fmap. by exists (k, v').
      - intros Hin. unfold update_pairs. apply elem_of_app. left. apply list_elem_of_omap.
        exists (k, v'). split; [done|]. unfold update_pair. cbn [fst]. rewrite Hm.
        by rewrite bool_decide_eq_false_2 by set_solver. }
    assert (Hkeys : k ∈ (update_pairs upd (list_to_set del) ps).*1 ↔ k ∈ ps.*1).
    { rewrite !list_elem_of_fmap. split; intros ([k' v'] & -> & Hin); exists (k', v');
        (split; [done|]); by apply Hiff. }
    destruct v as [v|]; setoid_rewrite Hp; rewrite Hkeys; [|done]. by setoid_rewrite Hiff.
Qed.

Lemma update_exists s svc upd del w changed w' :
  UpdateServiceArguments s svc upd del w = (Ok changed, w') →
  os_temp (w_files w) (filepath_Dir (argumentsFileForService s svc)) ≠ argumentsFileForService s svc →
  upd ≠ [] ∨ is_Some (w_files w !! argumentsFileForService s svc) →
  is_Some (w_files w' !! argumentsFileForService s svc).
Proof.
  intros E Htmp Hne.
  destruct (UpdateServiceArguments_run _ _ _ _ _ _ _ E Htmp)
    as [(e & ? & _)|[(-> & -> & _ & ->)|(_ & _ & ->)]]; [done|naive_solver|].
  by rewrite lookup_insert_eq.
Qed.
End Update.

(** *** Witnesses *)

Definition demo_snap : Snap :=
  mkSnap "/args" "/args/conf.d" "/etc/kubernetes" "/etc/kubernetes/pki" "/etc/kubernetes/pki/etcd"
    "/var/lib/etcd" "/var/lib/k8sd" "/lock" "/var/lib/kubelet" "/run/containerd.sock" "node1" 0 0
    (Ok false).
Definition demo_arguments : World :=
  demo_world [("/args/kubelet", "--a=1" +:+ one newline +:+ "--b x" +:+ one newline +:+ "--c")].

Ltac demo_clean := repeat constructor.
Ltac demo_nodup := apply (bool_decide_unpack _); vm_compute; exact I.

Lemma UpdateServiceArguments_correct_witness :
  argument_pairs (contents ((@UpdateServiceArguments demo_os demo_snap "kubelet"
    [("--b", "y"); ("--d", "4")] ["--a"] demo_arguments).2) "/args/kubelet") ≡ₚ
  [("--b", "y"); ("--c", EmptyString); ("--d", "4")].
Proof.
  destruct (@UpdateServiceArguments demo_os demo_snap "kubelet" [("--b", "y"); ("--d", "4")] ["--a"]
    demo_arguments) as [r w'] eqn:E.
  pose proof (@UpdateServiceArguments_correct demo_os demo_os_ok _ _ _ _ _ _ _ E) as Hw.
  cbv zeta in Hw. specialize (Hw ltac:(vm_compute; discriminate) ltac:(demo_clean)).
  pose proof (f_equal fst E) as Er. vm_compute in Er. subst r. destruct Hw as [Hw _].
  exact Hw.
Defined.

Lemma UpdateServiceArguments_order_witness :
  (@UpdateServiceArguments demo_os demo_snap "kubelet" [("--b", "y"); ("--d", "4")] ["--a"; "--c"]
     demo_arguments) =
  (@UpdateServiceArguments demo_os demo_snap "kubelet" [("--d", "4"); ("--b", "y")] ["--c"; "--a"]
     demo_arguments).
Proof.
  apply (@UpdateServiceArguments_order demo_os); [apply perm_swap|demo_nodup|apply perm_swap].
Defined.

Lemma UpdateServiceArguments_idempotent_witness :
  ∃ w1, @UpdateServiceArguments demo_os demo_snap "kubelet" [("--b", "y")] ["--a"] demo_arguments =
          (Ok true, w1) ∧
  ((∃ e, (@UpdateServiceArguments demo_os demo_snap "kubelet" [("--b", "y")] ["--a"] w1).1 = Err e) ∨
   (@UpdateServiceArguments demo_os demo_snap "kubelet" [("--b", "y")] ["--a"] w1).1 = Ok false).
Proof.
  destruct (@UpdateServiceArguments demo_os demo_snap "kubelet" [("--b", "y")] ["--a"] demo_arguments)
    as [r w1] eqn:E.
  pose proof (f_equal fst E) as Er. vm_compute in Er. simpl in Er. subst r.
  exists w1. split; [done|].
  destruct (@UpdateServiceArguments demo_os demo_snap "kubelet" [("--b", "y")] ["--a"] w1)
    as [r2 w2] eqn:E2.
  pose proof (@UpdateServiceArguments_idempotent demo_os demo_os_ok _ _ _ _ _ _ _ _ _ E E2
    ltac:(vm_compute; discriminate) ltac:(vm_compute; discriminate) ltac:(demo_clean)
    ltac:(demo_nodup)) as [[e ->]|[-> _]]; [left; by exists e|by right].
Defined.

Lemma GetServiceArgument_after_update_witness :
  ∃ w', (@UpdateServiceArguments demo_os demo_snap "kubelet" [("--b", "y")] ["--a"]
           demo_arguments).2 = w' ∧
    @GetServiceArgument demo_os demo_snap "kubelet" "--b" w' = (Ok "y", w') ∧
    @GetServiceArgument demo_os demo_snap "kubelet" "--a" w' = (Ok EmptyString, w').
Proof.
  destruct (@UpdateServiceArguments demo_os demo_snap "kubelet" [("--b", "y")] ["--a"] demo_arguments)
    as [r w1] eqn:E.
  pose proof (f_equal fst E) as Er. vm_compute in Er. simpl in Er. subst r.
  exists w1. split; [done|].
  pose proof (@GetServiceArgument_after_update demo_os demo_os_ok _ _ _ _ _ _ _ E
    ltac:(vm_compute; discriminate) ltac:(reflexivity) ltac:(by left) ltac:(demo_clean)
    ltac:(demo_nodup)) as (H1 & H2 & _).
  split; [apply H1; by left|apply H2; [by left|]].
  apply (bool_decide_unpack _); vm_compute; exact I.
Defined.

End Arguments.
