(* ===== verification/ConfigFiles.v ===== *)
(** * Configuration files

    [ParseArgumentFile], [SerializeArgumentFile], [MinConfigFileDiff] and
    [CopyFile] of pkg/utils/file.go, and the system tuning file of
    pkg/k8sd/app/system_tuning.go. *)

From S2P Require Import Prelude GoStrings FileSys Arguments.
Import GoStr FileSys Arguments.

Module ConfigFiles.

(** ** Reading lines with [bufio.Scanner] *)

Definition carriage_return : ascii := "013"%char.
Definition drop_cr (l : string) : string :=
  match String.rev l with
  | String a s => if Ascii.eqb a carriage_return then String.rev s else l
  | EmptyString => l
  end.
(** The scanner's buffer holds 64 KiB, newline included. *)
Definition line_too_long (l : string) : bool := (65536 <=? Z.of_nat (String.length l))%Z.
Definition file_lines (content : string) : list string :=
  let fields := split newline content in
  if List.last fields EmptyString ==? EmptyString then removelast fields else fields.
Definition scan_lines (content : string) : res (list string) :=
  let lines := file_lines content in
  if existsb line_too_long lines then Err (Errorf "bufio.Scanner: token too long" [])
  else Ok (map drop_cr lines).

Section ConfigFiles.
Context `{OSEnv}.

Definition parse_line (args : gmap string string) (line : string) : gmap string string :=
  let line := TrimSpace line in
  if (line !=? EmptyString) && negb (has_prefix "#" line) then
    let '(a, v) := ParseArgumentLine line in <[a := v]> args
  else args.

Definition os_Open (p : string) : io unit := _ ← os_call OpOpen p; _ ← existing p; mret tt.

Definition ParseArgumentFile (path : string) : io (gmap string string) :=
  _ ← io_wrapf "failed to read argument file %s: %w" [path] (os_Open path);
  lines ← io_wrapf "failed to scan lines in argument file: %w" []
            (d ← os_ReadFile path; io_lift (scan_lines d));
  mret (fold_left parse_line lines ∅).

(** [file.WriteString(s)], its error not looked at. *)
Definition write_string (path s : string) : io unit := _ ← io_try (file_Write path s); mret tt.

Fixpoint write_arguments (path : string) (arguments : gmap string string) (keys : list string)
    : io unit :=
  match keys with
  | [] => mret tt
  | k :: keys =>
      _ ← write_string path (k +:+ "=" +:+ default EmptyString (arguments !! k) +:+ one newline);
      write_arguments path arguments keys
  end.

Definition SerializeArgumentFile (arguments : gmap string string) (path headerComment : string)
    : io unit :=
  _ ← io_wrapf "failed to write argument file %s: %w" [path] (os_Create path);
  _ ← (if headerComment !=? EmptyString then write_string path headerComment else mret tt);
  write_arguments path arguments (sort_Strings (map_to_list arguments).*1).

Definition CopyFile (srcFile dstFile : string) : io unit :=
  _ ← io_wrapf "failed to create destination file: %w" [] (os_Create dstFile);
  _ ← io_wrapf "failed to read source file: %w" [] (os_Open srcFile);
  io_wrapf "failed to copy file: %w" [] (d ← os_ReadFile srcFile; file_Write dstFile d).

(** ** Minimum configuration *)

(** A directory entry: its name and whether it is a directory. *)
Definition DirEntry : Type := string * bool.

(** Whether a parsed file sets [key] to at least the minimum: the values are compared
    as the strings they are. *)
Definition minimum_set (minConfig params : gmap string string) (key : string) : bool :=
  match params !! key, minConfig !! key with
  | Some value, Some min => negb (String.ltb value min)
  | _, _ => false
  end.
Definition remove_set (minConfig params newConfig : gmap string string) : gmap string string :=
  fold_left (λ acc key, if minimum_set minConfig params key then delete key acc else acc)
    (map_to_list minConfig).*1 newConfig.

Fixpoint entries_loop (dir excludeFile : string) (minConfig : gmap string string)
    (entries : list DirEntry) (newConfig : gmap string string) : io (gmap string string) :=
  match entries with
  | [] => mret newConfig
  | (name, isDir) :: entries =>
      if isDir || (filepath_Join [dir; name] ==? excludeFile)
      then entries_loop dir excludeFile minConfig entries newConfig
      else
        r ← io_try (ParseArgumentFile (filepath_Join [dir; name]));
        match r with
        | Err _ => entries_loop dir excludeFile minConfig entries newConfig
        | Ok params => entries_loop dir excludeFile minConfig entries
                         (remove_set minConfig params newConfig)
        end
  end.
Fixpoint dirs_loop (ReadDir : string → res (list DirEntry)) (excludeFile : string)
    (minConfig : gmap string string) (dirs : list string) (newConfig : gmap string string)
    : io (gmap string string) :=
  match dirs with
  | [] => mret newConfig
  | dir :: dirs =>
      match ReadDir dir with
      | Err _ => dirs_loop ReadDir excludeFile minConfig dirs newConfig
      | Ok entries =>
          newConfig ← entries_loop dir excludeFile minConfig entries newConfig;
          dirs_loop ReadDir excludeFile minConfig dirs newConfig
      end
  end.
Definition MinConfigFileDiff (ReadDir : string → res (list DirEntry)) (dirs : list string)
    (minConfig : gmap string string) (excludeFile : string) : io (gmap string string) :=
  dirs_loop ReadDir excludeFile minConfig dirs minConfig.

(** ** pkg/k8sd/app/system_tuning.go *)

(** The leading digits of a name and what follows them. *)
Fixpoint leading_digits (s : string) : string * string :=
  match s with
  | String a s' => if is_digit a then let '(d, r) := leading_digits s' in (String a d, r)
                   else (EmptyString, s)
  | EmptyString => (EmptyString, EmptyString)
  end.
(** [^(\d+)-.*\.conf$], with the digits it captures; a dot matches no newline. *)
Definition match_conf (name : string) : option string :=
  match leading_digits name with
  | (String a d, String c r) =>
      if Ascii.eqb c "-" && has_suffix ".conf" r && negb (contains_char newline r)
      then Some (String a d) else None
  | _ => None
  end.
(** [^(\d+)-k8s.conf$]: the dot is any character but a newline. *)
Definition match_k8s_conf (name : string) : bool :=
  match leading_digits name with
  | (String _ _, String c r) =>
      Ascii.eqb c "-" && has_prefix "k8s" r && has_suffix "conf" r &&
      Nat.eqb (String.length r) 8 && negb (contains_char newline r)
  | _ => false
  end.

Definition order_loop (maxOrder : Z) (e : DirEntry) : Z :=
  if e.2 then maxOrder
  else match match_conf e.1 with
       | None => maxOrder
       | Some numStr => match ParseInt64 numStr with
                        | Err _ => maxOrder
                        | Ok num => if (maxOrder <? num)%Z then num else maxOrder
                        end
       end.
Definition GetHighestConfigFileOrder (entries : res (list DirEntry)) : res Z :=
  es ← entries; Ok (fold_left order_loop es 0%Z).

Definition GetFileMatches (entries : res (list DirEntry)) : res (list string) :=
  es ← entries; Ok (List.filter match_k8s_conf (map fst (List.filter (λ e, negb (snd e)) es))).

Definition tuning_file_name (maxOrder : Z) : string := Itoa (wrap64 (maxOrder + 1)) +:+ "-k8s.conf".

(** [header] is the constant [systemConfFileHeader]. *)
Definition ensureSystemTuningConfigFile (ReadDir : string → res (list DirEntry))
    (dir header : string) : io unit :=
  confPath ← io_lift (GetFileMatches (ReadDir dir));
  match confPath with
  | _ :: _ => mret tt
  | [] => maxOrder ← io_lift (GetHighestConfigFileOrder (ReadDir dir));
          WriteFile (filepath_Join [dir; tuning_file_name maxOrder]) header 384
  end.
End ConfigFiles.

(** ** Lemmas: a serialized file *)

(** Values that survive an unquoted line: empty, or with a graphic character other
    than a quote at both ends, and with no newline. *)
Definition conf_value (v : string) : bool :=
  negb (contains_char newline v) &&
  ((v ==? EmptyString) ||
   (starts_with (λ a, graphic a && negb (Ascii.eqb a dquote)) v &&
    starts_with (λ a, graphic a && negb (Ascii.eqb a dquote)) (String.rev v))).
Definition conf_key (k : string) : bool := clean_key k && negb (has_prefix "#" k).
Definition conf_line (k v : string) : string := k +:+ "=" +:+ v.
(** A line a reader skips. *)
Definition comment_line (l : string) : bool :=
  (TrimSpace (drop_cr l) ==? EmptyString) || has_prefix "#" (TrimSpace (drop_cr l)).

Lemma starts_with_cons p s : starts_with p s = true → ∃ a t, s = String a t ∧ p a = true.
Proof. destruct s as [|a t]; [done|]. intros. by exists a, t. Qed.

Lemma ends_with_app p s : starts_with p (String.rev s) = true → ∃ m b, s = m +:+ one b ∧ p b = true.
Proof.
  intros (b & t & Hb & Hp)%starts_with_cons. exists (String.rev t), b. split; [|done].
  by rewrite <- (srev_involutive s), Hb, srev_cons.
Qed.

Lemma conf_line_shape k v : conf_key k = true → conf_value v = true →
  ∃ a m b, graphic a = true ∧ graphic b = true ∧ conf_line k v = String a (m +:+ one b) ∧
    Ascii.eqb a "#" = false.
Proof.
  unfold conf_key, clean_key, conf_value. rewrite !andb_true_iff, orb_true_iff, !andb_true_iff.
  intros [[[[Hk _] _] _] Hh] [_ Hv]. apply starts_with_cons in Hk as (a & k' & -> & Ha).
  assert (Hh' : Ascii.eqb a "#" = false).
  { apply negb_true_iff in Hh. cbn [has_prefix] in Hh. rewrite andb_true_r, Ascii.eqb_sym in Hh.
    done. }
  destruct Hv as [->%bool_decide_eq_true|[_ Hv]].
  - exists a, k', "="%char. done.
  - apply ends_with_app in Hv as (m & b & -> & [Hb _]%andb_true_iff).
    exists a, (k' +:+ "=" +:+ m), b. split_and!; [done..| |done].
    unfold conf_line. rewrite sapp_cons. by rewrite !sapp_assoc.
Qed.

Lemma trim_char_id c v : starts_with (Ascii.eqb c) v = false →
  starts_with (Ascii.eqb c) (String.rev v) = false → trim_char c v = v.
Proof.
  intros H1 H2. unfold trim_char. rewrite (trim_char_left_id _ v) by done.
  rewrite trim_char_left_id by done. apply srev_involutive.
Qed.

Lemma starts_with_not_quote v :
  starts_with (λ a, graphic a && negb (Ascii.eqb a dquote)) v = true →
  starts_with (Ascii.eqb dquote) v = false.
Proof.
  destruct v as [|a v]; [done|]. cbn [starts_with]. rewrite andb_true_iff, negb_true_iff.
  intros [_ Hq]. by rewrite Ascii.eqb_sym.
Qed.

Lemma TrimSpace_conf_value v : conf_value v = true → TrimSpace v = v ∧ trim_char dquote v = v.
Proof.
  unfold conf_value. rewrite andb_true_iff, orb_true_iff, andb_true_iff.
  intros [_ [->%bool_decide_eq_true|[H1 H2]]]; [done|]. split.
  - pose proof H1 as (a & t & -> & [Ha _]%andb_true_iff)%starts_with_cons.
    destruct t as [|c t].
    { unfold TrimSpace, trim_right. rewrite (trim_left_id false) by (by apply leading_graphic).
      rewrite trim_left_id; [done|]. by apply (leading_graphic true a EmptyString). }
    pose proof H2 as (m & b & Hm & [Hb _]%andb_true_iff)%ends_with_app.
    destruct m as [|a' m]; [by injection Hm as _ ?|].
    rewrite Hm. injection Hm as <- _. by apply TrimSpace_graphic.
  - apply trim_char_id; by apply starts_with_not_quote.
Qed.

Lemma parse_conf_line k v : conf_key k = true → conf_value v = true →
  ParseArgumentLine (conf_line k v) = (k, v).
Proof.
  intros Hk Hv. unfold ParseArgumentLine.
  assert (Ht : TrimSpace (conf_line k v) = conf_line k v).
  { destruct (conf_line_shape k v Hk Hv) as (a & m & b & Ha & Hb & -> & _).
    by apply TrimSpace_graphic. }
  rewrite Ht. unfold conf_key, clean_key in Hk. rewrite !andb_true_iff, !negb_true_iff in Hk.
  destruct Hk as [[[[_ Hs] He] _] _]. unfold conf_line.
  change ("=" +:+ v) with (String "=" v). rewrite split_index_app by done.
  destruct (TrimSpace_conf_value v Hv) as [-> ->]. done.
Qed.

Lemma parse_line_conf args k v : conf_key k = true → conf_value v = true →
  parse_line args (drop_cr (conf_line k v)) = <[k := v]> args.
Proof.
  intros Hk Hv. destruct (conf_line_shape k v Hk Hv) as (a & m & b & Ha & Hb & E & Hh).
  assert (Hd : drop_cr (conf_line k v) = conf_line k v).
  { rewrite E. unfold drop_cr.
    assert (String.rev (String a (m +:+ one b)) = String b (String.rev m +:+ one a)) as ->
      by (by rewrite srev_cons, srev_app).
    destruct (Ascii.eqb b carriage_return) eqn:Eb; [|done].
    apply Ascii.eqb_eq in Eb as ->. by vm_compute in Hb. }
  rewrite Hd. unfold parse_line.
  assert (Ht : TrimSpace (conf_line k v) = conf_line k v)
    by (rewrite E; by apply TrimSpace_graphic).
  rewrite Ht, parse_conf_line by done. rewrite E. cbn [has_prefix].
  rewrite Ascii.eqb_sym, Hh. done.
Qed.

Lemma parse_line_comment args l : comment_line l = true → parse_line args (drop_cr l) = args.
Proof.
  unfold comment_line, parse_line. intros [-> | ->]%orb_true_iff; [done|].
  by rewrite andb_false_r.
Qed.

(** A header: whole lines, each a comment or blank, none too long. *)
Definition header_ok (h : string) : bool :=
  forallb (λ l, comment_line l && negb (line_too_long l)) (removelast (split newline h)) &&
  (List.last (split newline h) EmptyString ==? EmptyString).
Definition conf_args (args : gmap string string) : Prop :=
  map_Forall (λ k v, conf_key k = true ∧ conf_value v = true ∧
                     line_too_long (conf_line k v) = false) args.

Lemma split_app_last c s t :
  split c (s +:+ t) = removelast (split c s) ++ split c (List.last (split c s) EmptyString +:+ t).
Proof.
  induction s as [|a s IH]; [done|]. rewrite sapp_cons. cbn [split].
  destruct (Ascii.eqb a c) eqn:E.
  - rewrite IH. destruct (split c s) eqn:Es; [by destruct (split_nonempty c s)|done].
  - rewrite IH. destruct (split c s) as [|h tl] eqn:Es; [by destruct (split_nonempty c s)|].
    destruct tl as [|h' tl]; [|done]. cbn [removelast List.last app]. rewrite sapp_cons.
    cbn [split]. by rewrite E.
Qed.

Definition key_line (args : gmap string string) (k : string) : string :=
  conf_line k (default EmptyString (args !! k)).
Definition body (args : gmap string string) (keys : list string) : string :=
  fold_right (λ k acc, key_line args k +:+ String newline acc) EmptyString keys.

Lemma split_body args keys :
  Forall (λ k, contains_char newline (key_line args k) = false) keys →
  split newline (body args keys) = map (key_line args) keys ++ [EmptyString].
Proof.
  induction 1 as [|k keys Hk _ IH]; [done|]. simpl. by rewrite split_app_sep, IH.
Qed.

Lemma conf_line_no_newline k v : conf_key k = true → conf_value v = true →
  contains_char newline (conf_line k v) = false.
Proof.
  unfold conf_key, clean_key, conf_value. rewrite !andb_true_iff, !negb_true_iff.
  intros [[_ Hk] _] [Hv _]. unfold conf_line. by rewrite !contains_app, Hk, Hv.
Qed.

Lemma file_lines_body h args keys :
  List.last (split newline h) EmptyString = EmptyString →
  Forall (λ k, contains_char newline (key_line args k) = false) keys →
  file_lines (h +:+ body args keys) = removelast (split newline h) ++ map (key_line args) keys.
Proof.
  intros Hl Hk. unfold file_lines. rewrite split_app_last, Hl, sapp_nil_l, split_body by done.
  rewrite app_assoc, List.last_last, removelast_last. done.
Qed.

Lemma fold_parse_comments ls args : forallb comment_line ls = true →
  fold_left parse_line (map drop_cr ls) args = args.
Proof.
  revert args. induction ls as [|l ls IH]; intros args; [done|]. cbn [forallb map fold_left].
  intros [Hl Hls]%andb_true_iff. rewrite parse_line_comment by done. by apply IH.
Qed.

Lemma fold_parse_keys args keys acc k :
  Forall (λ k, ∃ v, args !! k = Some v ∧ conf_key k = true ∧ conf_value v = true) keys →
  fold_left parse_line (map drop_cr (map (key_line args) keys)) acc !! k =
  if decide (k ∈ keys) then args !! k else acc !! k.
Proof.
  revert acc. induction keys as [|k0 keys IH]; intros acc Hall.
  { cbn. case_decide; set_solver. }
  apply Forall_cons in Hall as [(v & Ev & Hk & Hv) Hall]. cbn [map fold_left].
  unfold key_line at 2. rewrite Ev. cbn [default from_option id].
  rewrite parse_line_conf, IH by done.
  destruct (decide (k ∈ keys)) as [Hin|Hnin].
  - rewrite decide_True by set_solver. done.
  - destruct (decide (k = k0)) as [->|Hne].
    + rewrite decide_True by set_solver. by rewrite lookup_insert_eq.
    + rewrite decide_False by set_solver. by rewrite lookup_insert_ne.
Qed.

Section Roundtrip.
Context `{OSEnv}.

(** The writes of a serialization, when none fails. *)
Definition holds (w : World) (p d : string) : Prop :=
  ∃ f, w_files w !! p = Some f ∧ f_data f = d.

Lemma write_string_holds p d s w r w' : os_fail OpWrite p = None → holds w p d →
  write_string p s w = (r, w') → r = Ok tt ∧ holds w' p (d +:+ s).
Proof.
  intros Hw (f & Hf & Hd). unfold write_string, io_try, file_Write, existing, get_files, put_files,
    mbind, io_bind, mret, io_ret. cbn -[insert]. rewrite Hf, Hw. cbn -[insert].
  intros [= <- <-]. split; [done|]. eexists. cbn -[insert lookup].
  rewrite lookup_insert_eq. split; [done|]. cbn. by rewrite Hd.
Qed.

Lemma write_arguments_holds p args keys d w r w' : os_fail OpWrite p = None → holds w p d →
  write_arguments p args keys w = (r, w') → r = Ok tt ∧ holds w' p (d +:+ body args keys).
Proof.
  intros Hw. revert d w. induction keys as [|k keys IH]; intros d w Hh; simpl.
  - intros [= <- <-]. by rewrite sapp_nil_r.
  - intros [([] & w1 & E1 & E2)|(e & E1 & ->)]%io_bind_inv;
      apply (write_string_holds p d) in E1 as [? Hh1]; try done.
    apply (IH _ _ Hh1) in E2 as [-> Hh2]. split; [done|].
    replace (d +:+ key_line args k +:+ String newline (body args keys)) with
      ((d +:+ k +:+ "=" +:+ default "" (args !! k) +:+ one newline) +:+ body args keys); [done|].
    unfold key_line, conf_line. by rewrite !sapp_assoc.
Qed.

Lemma SerializeArgumentFile_holds args p h w w' : os_fail OpWrite p = None →
  SerializeArgumentFile args p h w = (Ok tt, w') →
  holds w' p (h +:+ body args (sort_Strings (map_to_list args).*1)).
Proof.
  intros Hw [(? & w1 & E1 & E)|(e & _ & ?)]%io_bind_inv; [|done].
  assert (H1 : holds w1 p EmptyString).
  { unfold io_wrapf in E1. destruct (os_Create p w) as [r1 w2] eqn:E2.
    injection E1 as E1 <-. unfold os_Create, os_call, get_files, put_files, mbind, io_bind in E2.
    destruct (os_fail OpCreate p); [by injection E2 as <- <-|]. cbn -[insert] in E2.
    injection E2 as <- <-. unfold holds. cbn -[insert lookup]. rewrite lookup_insert_eq.
    eexists. split; [done|]. by destruct (w_files w !! p). }
  apply io_bind_inv in E as [([] & w2 & E2 & E)|(e & _ & ?)]; [|done].
  assert (H2 : holds w2 p h).
  { case_bool_decide as Hh; cbn in E2.
    - injection E2 as <-. by rewrite Hh.
    - by destruct (write_string_holds p EmptyString h _ _ _ Hw H1 E2). }
  by destruct (write_arguments_holds p args _ h _ _ _ Hw H2 E).
Qed.

(** A written argument file reads back: for keys and values that fit on an unquoted
    line and a header of comment lines, parsing the file [SerializeArgumentFile] wrote
    gives exactly the map it was given, whatever that file contained before. *)
Theorem Serialize_Parse_roundtrip args path header w w' :
  SerializeArgumentFile args path header w = (Ok tt, w') →
  os_fail OpWrite path = None → os_fail OpOpen path = None → os_fail OpRead path = None →
  header_ok header = true → conf_args args →
  ParseArgumentFile path w' = (Ok args, w').
Proof.
  intros E Hw Ho Hr [Hh Hl]%andb_true_iff Hargs. apply bool_decide_eq_true in Hl.
  apply SerializeArgumentFile_holds in E as (f & Hf & Hd); [|done].
  set (keys := sort_Strings (map_to_list args).*1) in *.
  assert (Hkeys : ∀ k, k ∈ keys ↔ is_Some (args !! k)).
  { intros k. unfold keys. rewrite sort_Strings_Permutation, list_elem_of_fmap. split.
    - intros ([k' v] & -> & Hin%elem_of_map_to_list). by exists v.
    - intros [v Hv]. exists (k, v). split; [done|]. by apply elem_of_map_to_list. }
  assert (Hok : Forall (λ k, ∃ v, args !! k = Some v ∧ conf_key k = true ∧ conf_value v = true ∧
    line_too_long (conf_line k v) = false) keys).
  { apply Forall_forall. intros k [v Hv]%Hkeys. exists v. destruct (Hargs k v Hv) as (?&?&?). done. }
  assert (Hfl : file_lines (f_data f) = removelast (split newline header) ++ map (key_line args) keys).
  { rewrite Hd. apply file_lines_body; [done|]. eapply Forall_impl; [exact Hok|].
    intros k (v & Ev & ? & ? & _). unfold key_line. rewrite Ev. by apply conf_line_no_newline. }
  assert (Hscan : scan_lines (f_data f) = Ok (map drop_cr (file_lines (f_data f)))).
  { unfold scan_lines. rewrite (proj2 (existsb_none _ _)); [done|]. rewrite Hfl. intros l.
    rewrite elem_of_app, !list_elem_of_In. intros [Hin|Hin].
    - rewrite forallb_forall in Hh. apply Hh in Hin. by apply andb_true_iff in Hin as [_ ?%negb_true_iff].
    - apply in_map_iff in Hin as (k & <- & Hin%list_elem_of_In). rewrite Forall_forall in Hok.
      destruct (Hok _ Hin) as (v & Ev & _ & _ & Hlong). unfold key_line. by rewrite Ev. }
  unfold ParseArgumentFile, os_Open, os_ReadFile, os_call, existing, get_files, io_wrapf, io_lift,
    mbind, io_bind, mret, io_ret.
  rewrite Ho. cbn. rewrite Hf. cbn. rewrite Hr. cbn. rewrite Hf. cbn. rewrite Hscan. cbn.
  do 2 f_equal. apply map_eq. intros k. rewrite Hfl, map_app, fold_left_app.
  rewrite (fold_parse_comments (removelast (split newline header))).
  2: { apply forallb_forall. intros l Hin. rewrite forallb_forall in Hh.
       by apply Hh, andb_true_iff in Hin as [? _]. }
  rewrite fold_parse_keys.
  2: { eapply Forall_impl; [exact Hok|]. intros ? (v & ? & ? & ? & _). by exists v. }
  case_decide as Hin; [done|]. rewrite lookup_empty. symmetry. apply eq_None_not_Some.
  by rewrite <- Hkeys.
Qed.
End Roundtrip.

Definition demo_header : string := "# AUTOGENERATED" +:+ one newline.

Lemma Serialize_Parse_roundtrip_witness :
  ∃ w', (@SerializeArgumentFile demo_os (<["fs.a" := "1"]> (<["fs.b" := EmptyString]> ∅)) "/etc/x.conf"
           demo_header (demo_world [])).2 = w' ∧
    @ParseArgumentFile demo_os "/etc/x.conf" w' = (Ok (<["fs.a" := "1"]> (<["fs.b" := EmptyString]> ∅)), w').
Proof.
  destruct (@SerializeArgumentFile demo_os (<["fs.a" := "1"]> (<["fs.b" := EmptyString]> ∅)) "/etc/x.conf"
              demo_header (demo_world [])) as [r w'] eqn:E.
  pose proof (f_equal fst E) as Er. vm_compute in Er. simpl in Er. subst r.
  exists w'. split; [done|].
  apply (@Serialize_Parse_roundtrip demo_os _ _ _ _ _ E); try reflexivity.
  apply map_Forall_insert_2; [split_and!; vm_compute; reflexivity|].
  apply map_Forall_insert_2; [split_and!; vm_compute; reflexivity|]. apply map_Forall_empty.
Defined.

(** ** Minimum configuration *)

Section MinConfig.
Context `{OSEnv}.

Lemma os_Open_pure p w r w' : os_Open p w = (r, w') → w' = w.
Proof.
  unfold os_Open, os_call, existing, get_files, io_lift, mbind, io_bind, mret, io_ret.
  destruct (os_fail OpOpen p); [by intros [= _ <-]|]. cbn.
  destruct (w_files w !! p); by intros [= _ <-].
Qed.

Lemma ParseArgumentFile_pure p w : ParseArgumentFile p w = ((ParseArgumentFile p w).1, w).
Proof.
  destruct (ParseArgumentFile p w) as [r w'] eqn:E. cbn. f_equal.
  apply io_bind_inv in E as [([] & w1 & E1 & E)|(e & E1 & _)]; unfold io_wrapf in E1;
    destruct (os_Open p w) as [r1 w2] eqn:E2; apply os_Open_pure in E2 as ->; [|by injection E1].
  injection E1 as _ <-.
  apply io_bind_inv in E as [(l & w1 & E1 & E)|(e & E1 & _)]; unfold io_wrapf in E1;
    destruct ((d ← os_ReadFile p; io_lift (scan_lines d)) w) as [r2 w2] eqn:E2;
    (apply io_bind_inv in E2 as [(d & w3 & E3 & E2)|(e' & E3 & _)]; apply os_ReadFile_run in E3 as [-> _];
     [injection E2 as _ <-|]); injection E1 as ? <-; [|try by injection E..].
  all: try done. all: by injection E as _ <-.
Qed.

(** The files whose settings count: those of the listed directories that can be read,
    without the excluded one. *)
Definition considered (ReadDir : string → res (list DirEntry)) (excludeFile : string) (w : World)
    (dirs : list string) (params : gmap string string) : Prop :=
  ∃ dir entries name, dir ∈ dirs ∧ ReadDir dir = Ok entries ∧ (name, false) ∈ entries ∧
    filepath_Join [dir; name] ≠ excludeFile ∧
    (ParseArgumentFile (filepath_Join [dir; name]) w).1 = Ok params.

Lemma remove_set_lookup minConfig params newConfig k :
  (∀ k, is_Some (newConfig !! k) → is_Some (minConfig !! k)) →
  remove_set minConfig params newConfig !! k =
  if minimum_set minConfig params k then None else newConfig !! k.
Proof.
  intros Hsub. unfold remove_set.
  assert (Hgen : ∀ keys (acc : gmap string string),
    fold_left (λ acc key, if minimum_set minConfig params key then delete key acc else acc) keys acc !! k =
    if bool_decide (k ∈ keys) && minimum_set minConfig params k then None else acc !! k).
  { induction keys as [|k0 keys IH]; intros acc; [done|]. cbn [fold_left]. rewrite IH.
    destruct (decide (k = k0)) as [->|Hne].
    - rewrite (bool_decide_eq_true_2 (k0 ∈ k0 :: keys)) by set_solver.
      destruct (minimum_set _ _ k0); cbn; [|by rewrite andb_false_r].
      rewrite andb_true_r. by destruct (bool_decide _); [|rewrite lookup_delete_eq].
    - rewrite (bool_decide_ext (k ∈ k0 :: keys) (k ∈ keys)) by set_solver.
      destruct (_ && _); [done|]. destruct (minimum_set _ _ k0); [|done].
      by rewrite lookup_delete_ne. }
  rewrite Hgen. destruct (minimum_set minConfig params k) eqn:E; [|by rewrite andb_false_r].
  case_bool_decide as Hin; [done|]. cbn. apply eq_None_not_Some. intros [v Hv]%Hsub.
  apply Hin, list_elem_of_fmap. exists (k, v). split; [done|]. by apply elem_of_map_to_list.
Qed.

(** A map from which exactly the keys of [P] are missing. *)
Definition diff_of (minConfig : gmap string string) (P : string → Prop) (m : gmap string string) : Prop :=
  ∀ k v, m !! k = Some v ↔ minConfig !! k = Some v ∧ ¬ P k.

Lemma diff_of_remove minConfig P m params :
  diff_of minConfig P m →
  diff_of minConfig (λ k, P k ∨ minimum_set minConfig params k = true) (remove_set minConfig params m).
Proof.
  intros Hd k v. rewrite remove_set_lookup by (intros k0 [v0 [Hv0 _]%Hd]; by exists v0).
  destruct (minimum_set minConfig params k); rewrite ?(Hd k v); naive_solver.
Qed.

Lemma diff_of_ext minConfig (P Q : string → Prop) m : (∀ k, P k ↔ Q k) →
  diff_of minConfig P m → diff_of minConfig Q m.
Proof. intros HPQ Hd k v. rewrite (Hd k v). by rewrite HPQ. Qed.

Lemma entries_loop_diff dir excl minConfig entries m P w :
  diff_of minConfig P m →
  ∃ m', entries_loop dir excl minConfig entries m w = (Ok m', w) ∧
    diff_of minConfig (λ k, P k ∨ ∃ name params, (name, false) ∈ entries ∧
      filepath_Join [dir; name] ≠ excl ∧
      (ParseArgumentFile (filepath_Join [dir; name]) w).1 = Ok params ∧
      minimum_set minConfig params k = true) m'.
Proof.
  revert m P. induction entries as [|[name isDir] entries IH]; intros m P Hd; simpl.
  { exists m. split; [done|]. eapply diff_of_ext; [|done]. set_solver. }
  destruct (isDir || (filepath_Join [dir; name] ==? excl)) eqn:Hskip.
  { destruct (IH m P Hd) as (m' & -> & Hm'). exists m'. split; [done|].
    eapply diff_of_ext; [|done]. intros k. apply orb_true_iff in Hskip.
    rewrite bool_decide_eq_true in Hskip. set_solver. }
  apply orb_false_iff in Hskip as [-> Hne%bool_decide_eq_false].
  unfold mbind, io_bind, io_try. rewrite ParseArgumentFile_pure.
  destruct (ParseArgumentFile _ w).1 as [params|e] eqn:E; cbn beta iota.
  - destruct (IH _ _ (diff_of_remove _ _ _ params Hd)) as (m' & -> & Hm'). exists m'. split; [done|].
    eapply diff_of_ext; [|done]. intros k. split.
    + intros [[?|?]|(n & ps & ? & ?)]; [by left| |]; right;
        [exists name, params|exists n, ps]; (split; [by constructor|done]).
    + intros [?|(n & ps & [Heq|?]%elem_of_cons & ? & Hp & ?)]; [by left; left| |right; by eauto 10].
      injection Heq as ->. rewrite E in Hp. injection Hp as ->. by left; right.
  - destruct (IH m P Hd) as (m' & -> & Hm'). exists m'. split; [done|].
    eapply diff_of_ext; [|done]. intros k. split.
    + intros [?|(n & ps & ? & ?)]; [by left|right]. exists n, ps. split; [by constructor|done].
    + intros [?|(n & ps & [Heq|?]%elem_of_cons & ? & Hp & ?)]; [by left| |right; by eauto 10].
      injection Heq as ->. by rewrite E in Hp.
Qed.

Lemma dirs_loop_diff ReadDir excl minConfig dirs m P w :
  diff_of minConfig P m →
  ∃ m', dirs_loop ReadDir excl minConfig dirs m w = (Ok m', w) ∧
    diff_of minConfig (λ k, P k ∨ ∃ params, considered ReadDir excl w dirs params ∧
      minimum_set minConfig params k = true) m'.
Proof.
  unfold considered. revert m P. induction dirs as [|dir dirs IH]; intros m P Hd; simpl.
  { exists m. split; [done|]. eapply diff_of_ext; [|done]. set_solver. }
  destruct (ReadDir dir) as [entries|e] eqn:Er.
  - destruct (entries_loop_diff dir excl minConfig entries m P w Hd) as (m1 & E1 & H1).
    unfold mbind, io_bind. rewrite E1. destruct (IH _ _ H1) as (m' & -> & Hm'). exists m'.
    split; [done|]. eapply diff_of_ext; [|done]. intros k. split.
    + intros [[?|(n & ps & ? & ? & ? & ?)]|(ps & (d & es & n & ? & ?) & ?)]; [by left|right..];
        exists ps; (split; [|done]); [exists dir, entries, n|exists d, es, n];
        (split; [by constructor|done]).
    + intros [?|(ps & (d & es & n & [->|?]%elem_of_cons & Hd' & ?) & ?)]; [by left; left| |].
      * rewrite Er in Hd'. injection Hd' as <-. left. right. exists n, ps. naive_solver.
      * right. exists ps. split; [|done]. by exists d, es, n.
  - destruct (IH m P Hd) as (m' & -> & Hm'). exists m'. split; [done|].
    eapply diff_of_ext; [|done]. intros k. split.
    + intros [?|(ps & (d & es & n & ? & ?) & ?)]; [by left|right]. exists ps. split; [|done].
      exists d, es, n. split; [by constructor|done].
    + intros [?|(ps & (d & es & n & [->|?]%elem_of_cons & Hd' & ?) & ?)]; [by left| |].
      * by rewrite Er in Hd'.
      * right. exists ps. split; [|done]. by exists d, es, n.
Qed.

(** [MinConfigFileDiff] always returns, changes no file, and returns exactly the
    minimum settings that no readable file of the directories, other than the excluded
    one, sets to a value that is not smaller as a string. *)
Theorem MinConfigFileDiff_spec ReadDir dirs minConfig excl w :
  ∃ newConfig, MinConfigFileDiff ReadDir dirs minConfig excl w = (Ok newConfig, w) ∧
    ∀ k v, newConfig !! k = Some v ↔
      minConfig !! k = Some v ∧
      ¬ ∃ params v', considered ReadDir excl w dirs params ∧ params !! k = Some v' ∧
          String.ltb v' v = false.
Proof.
  destruct (dirs_loop_diff ReadDir excl minConfig dirs minConfig (λ _, False) w) as (m & E & Hm).
  { intros k v. naive_solver. }
  exists m. split; [done|]. intros k v. rewrite (Hm k v). unfold minimum_set. split.
  - intros [Hk Hn]. split; [done|]. intros (params & v' & Hc & Hv' & Hlt). apply Hn. right.
    exists params. split; [done|]. by rewrite Hv', Hk, Hlt.
  - intros [Hk Hn]. split; [done|]. intros [[]|(params & Hc & Hs)]. apply Hn.
    rewrite Hk in Hs. destruct (params !! k) as [v'|] eqn:Ek; [|done].
    apply negb_true_iff in Hs. by exists params, v'.
Qed.
End MinConfig.

(** The comparison is one of strings and not of the numbers the settings are: a
    system whose configuration sets [fs.inotify.max_user_instances] to 128 counts as
    meeting the required minimum of 1024, which is then not written. *)
Theorem MinConfigFileDiff_compares_strings :
  let ReadDir := λ d, if d ==? "/etc/sysctl.d" then Ok [("50-a.conf", false)] else Ok [] in
  let minConfig := <["fs.inotify.max_user_instances" := "1024"]> ∅ in
  let w := demo_world [("/etc/sysctl.d/50-a.conf", "fs.inotify.max_user_instances=128")] in
  (@MinConfigFileDiff demo_os ReadDir ["/etc/sysctl.d"] minConfig "/etc/sysctl.d/99-k8s.conf" w).1 = Ok ∅ ∧
  (128 < 1024)%Z.
Proof. split; [vm_compute; reflexivity|lia]. Qed.

(** ** The system tuning file *)

Lemma order_loop_le es acc : (acc ≤ fold_left order_loop es acc)%Z.
Proof.
  revert acc. induction es as [|e es IH]; intros acc; cbn [fold_left]; [lia|].
  etransitivity; [|apply IH]. unfold order_loop. repeat case_match; lia.
Qed.

(** [GetHighestConfigFileOrder] returns the greatest order number of the
    configuration files of the directory, or 0 when none has one. *)
Theorem GetHighestConfigFileOrder_max es m :
  GetHighestConfigFileOrder (Ok es) = Ok m →
  (∀ name d num, (name, false) ∈ es → match_conf name = Some d → ParseInt64 d = Ok num → (num ≤ m)%Z) ∧
  (m = 0%Z ∨ ∃ name d, (name, false) ∈ es ∧ match_conf name = Some d ∧ ParseInt64 d = Ok m).
Proof.
  intros E. injection E as <-. split.
  - intros name d num Hin Hm Hp. generalize 0%Z as acc. induction es as [|e es IH]; [set_solver|].
    intros acc. cbn [fold_left]. apply elem_of_cons in Hin as [<-|Hin]; [|by apply IH].
    etransitivity; [|apply order_loop_le]. unfold order_loop. cbn [fst snd]. rewrite Hm, Hp.
    case_match; lia.
  - assert (Hgen : ∀ acc, fold_left order_loop es acc = acc ∨ ∃ name d, (name, false) ∈ es ∧
      match_conf name = Some d ∧ ParseInt64 d = Ok (fold_left order_loop es acc)); [|apply Hgen].
    induction es as [|[name isDir] es IH]; intros acc; [by left|]. cbn [fold_left].
    destruct (IH (order_loop acc (name, isDir))) as [->|(n & d & Hin & ? & ?)].
    + unfold order_loop. cbn [fst snd]. destruct isDir; [by left|].
      destruct (match_conf name) as [d|] eqn:Em; [|by left].
      destruct (ParseInt64 d) as [num|] eqn:Ep; [|by left].
      destruct (acc <? num)%Z; [right|by left]. exists name, d. split; [by left|done].
    + right. exists n, d. split; [by right|done].
Qed.

Lemma GetHighestConfigFileOrder_max_witness :
  GetHighestConfigFileOrder (Ok [("10-a.conf", false); ("99-sysctl.conf", false); ("README", false)]) = Ok 99%Z ∧
  (10 ≤ 99)%Z.
Proof.
  split; [vm_compute; reflexivity|].
  destruct (GetHighestConfigFileOrder_max
    [("10-a.conf", false); ("99-sysctl.conf", false); ("README", false)] 99) as [Hmax _];
    [vm_compute; reflexivity|].
  apply (Hmax "10-a.conf" "10"); [by left|vm_compute; reflexivity|vm_compute; reflexivity].
Defined.

(** The file "at the highest order" need not be read last: with a file of order 99 in
    the directory the created file is [100-k8s.conf], which sorts before it. *)
Theorem tuning_file_not_last :
  ∃ w', @ensureSystemTuningConfigFile demo_os (λ _, Ok [("99-sysctl.conf", false)]) "/etc/sysctl.d"
          demo_header (demo_world []) = (Ok tt, w') ∧
    is_Some (w_files w' !! "/etc/sysctl.d/100-k8s.conf") ∧
    String.ltb "100-k8s.conf" "99-sysctl.conf" = true.
Proof. eexists. split; [vm_compute; reflexivity|]. split; [by eexists|done]. Qed.
End ConfigFiles.
