(* ===== verification/Setup.v ===== *)
(** * Service configuration of a node

    pkg/k8sd/setup: the arguments of every Kubernetes service, the API server's token
    webhook file, the endpoints file of the proxy, and the extra configuration files.
    What renders JSON is an external operation.  The address of the loopback interface
    is read from [lo], as in Cidr.v. *)

From S2P Require Import Prelude GoStrings GoNet Cidr Config ConfigConvert FileSys Arguments.
Import GoStr GoNet Cidr Config Convert FileSys Arguments.

Module Setup.

(** [encoding/json.Marshal] of the endpoints of the proxy. *)
Class EndpointsJson := json_endpoints : list string → res string.

Section Setup.
Context `{OSEnv, EndpointsJson}.

(** Every service ends with the same two updates: its own arguments, then the extra
    arguments, so that these can override. *)
Definition render_and_extra (fmt1 fmt2 : string) (s : Snap) (service : string)
    (args : list (string * string)) (deleteArgs : list string)
    (extraArgs : list (string * option string)) : io unit :=
  _ ← io_wrapf fmt1 [] (UpdateServiceArguments s service args deleteArgs);
  let '(updateArgs, deleteArgs) := ServiceArgsFromMap extraArgs in
  _ ← io_wrapf fmt2 [] (UpdateServiceArguments s service updateArgs deleteArgs);
  mret tt.

Definition failed_to_render : string := "failed to render arguments file: %w".
Definition failed_to_write : string := "failed to write arguments file: %w".

(** An assignment [args[k] = v] that is only executed under a condition. *)
Definition set_if (b : bool) (k v : string) : list (string * string) := if b then [(k, v)] else [].

(** ** kubelet.go *)

Definition kubeletTLSCipherSuites : list string :=
  ["TLS_ECDHE_ECDSA_WITH_AES_128_GCM_SHA256"; "TLS_ECDHE_ECDSA_WITH_AES_256_GCM_SHA384";
   "TLS_ECDHE_ECDSA_WITH_CHACHA20_POLY1305"; "TLS_ECDHE_RSA_WITH_AES_128_GCM_SHA256";
   "TLS_ECDHE_RSA_WITH_AES_256_GCM_SHA384"; "TLS_ECDHE_RSA_WITH_CHACHA20_POLY1305";
   "TLS_RSA_WITH_AES_128_GCM_SHA256"; "TLS_RSA_WITH_AES_256_GCM_SHA384"].
Definition kubeletControlPlaneLabels : list string :=
  ["node-role.kubernetes.io/control-plane="; "node-role.kubernetes.io/worker=";
   "k8sd.io/role=control-plane"].
Definition kubeletWorkerLabels : list string :=
  ["node-role.kubernetes.io/worker="; "k8sd.io/role=worker"].

Definition pki (s : Snap) (f : string) : string := filepath_Join [snap_KubernetesPKIDir s; f].
Definition conf (s : Snap) (f : string) : string := filepath_Join [KubernetesConfigDir s; f].

Definition kubelet_args (s : Snap) (hostname : string) (nodeIPs : list IP)
    (clusterDNS clusterDomain cloudProvider : string) (taints labels : list string)
    : list (string * string) :=
  let ips := map IP_String (List.filter (λ ip, negb (IsLoopback ip)) nodeIPs) in
  [("--authorization-mode", "Webhook");
   ("--anonymous-auth", "false");
   ("--authentication-token-webhook", "true");
   ("--client-ca-file", pki s "client-ca.crt");
   ("--containerd", ContainerdSocketPath s);
   ("--container-runtime-endpoint", ContainerdSocketPath s);
   ("--cgroup-driver", "systemd");
   ("--eviction-hard", "memory.available<100Mi,nodefs.available<1Gi,imagefs.available<1Gi");
   ("--fail-swap-on", "false");
   ("--kubeconfig", conf s "kubelet.conf");
   ("--node-labels", join "," labels);
   ("--read-only-port", "0");
   ("--register-with-taints", join "," taints);
   ("--root-dir", KubeletRootDir s);
   ("--serialize-image-pulls", "false");
   ("--tls-cipher-suites", join "," kubeletTLSCipherSuites);
   ("--tls-cert-file", pki s "kubelet.crt");
   ("--tls-private-key-file", pki s "kubelet.key")] ++
  set_if (hostname !=? Hostname s) "--hostname-override" hostname ++
  set_if (cloudProvider !=? EmptyString) "--cloud-provider" cloudProvider ++
  set_if (clusterDNS !=? EmptyString) "--cluster-dns" clusterDNS ++
  set_if (clusterDomain !=? EmptyString) "--cluster-domain" clusterDomain ++
  set_if (negb (Nat.eqb (length ips) 0)) "--node-ip" (join "," ips).

Definition kubelet (s : Snap) (hostname : string) (nodeIPs : list IP)
    (clusterDNS clusterDomain cloudProvider : string) (taints labels : list string)
    (extraArgs : list (string * option string)) : io unit :=
  render_and_extra failed_to_render failed_to_write s "kubelet"
    (kubelet_args s hostname nodeIPs clusterDNS clusterDomain cloudProvider taints labels) []
    extraArgs.
Definition KubeletControlPlane (s : Snap) (hostname : string) (nodeIPs : list IP)
    (clusterDNS clusterDomain cloudProvider : string) (registerWithTaints : list string)
    (extraArgs : list (string * option string)) : io unit :=
  kubelet s hostname nodeIPs clusterDNS clusterDomain cloudProvider registerWithTaints
    kubeletControlPlaneLabels extraArgs.
Definition KubeletWorker (s : Snap) (hostname : string) (nodeIPs : list IP)
    (clusterDNS clusterDomain cloudProvider : string)
    (extraArgs : list (string * option string)) : io unit :=
  kubelet s hostname nodeIPs clusterDNS clusterDomain cloudProvider [] kubeletWorkerLabels extraArgs.

(** ** kube_apiserver.go *)

Definition apiserverTLSCipherSuites : list string :=
  ["TLS_ECDHE_ECDSA_WITH_AES_128_GCM_SHA256"; "TLS_ECDHE_RSA_WITH_AES_128_GCM_SHA256";
   "TLS_ECDHE_ECDSA_WITH_AES_256_GCM_SHA384"; "TLS_ECDHE_RSA_WITH_AES_256_GCM_SHA384";
   "TLS_ECDHE_ECDSA_WITH_CHACHA20_POLY1305"; "TLS_ECDHE_RSA_WITH_CHACHA20_POLY1305"].

(** The template embed/apiserver/auth-token-webhook.conf, executed. *)
Definition auth_token_webhook (URL CAPath : string) : string :=
  join (one newline)
    ["apiVersion: v1"; "kind: Config"; "clusters:"; "  - name: k8s-token-auth-service";
     "    cluster:";
     "      certificate-authority: " +:+ quoted CAPath;
     "      tls-server-name: 127.0.0.1";
     "      server: " +:+ quoted URL;
     "current-context: webhook"; "contexts:"; "- context:";
     "    cluster: k8s-token-auth-service"; "    user: k8s-apiserver"; "  name: webhook";
     "users:"; "  - name: k8s-apiserver"; "    user: {}"; EmptyString].

(** [nodeIP] is nil when it is the empty list. *)
Definition apiserver_args (s : Snap) (securePort : Z) (nodeIP : IP) (serviceCIDR webhookFile : string)
    (enableFrontProxy : bool) (authorizationMode : string) (datastoreArgs : gmap string string)
    : list (string * string) :=
  let own :=
    [("--anonymous-auth", "false");
     ("--allow-privileged", "true");
     ("--authentication-token-webhook-config-file", webhookFile);
     ("--authorization-mode", authorizationMode);
     ("--client-ca-file", pki s "client-ca.crt");
     ("--enable-admission-plugins", "NodeRestriction");
     ("--kubelet-certificate-authority", pki s "ca.crt");
     ("--kubelet-client-certificate", pki s "apiserver-kubelet-client.crt");
     ("--kubelet-client-key", pki s "apiserver-kubelet-client.key");
     ("--kubelet-preferred-address-types", "InternalIP,Hostname,InternalDNS,ExternalDNS,ExternalIP");
     ("--profiling", "false");
     ("--request-timeout", "300s");
     ("--secure-port", Itoa securePort);
     ("--service-account-issuer", "https://kubernetes.default.svc");
     ("--service-account-key-file", pki s "serviceaccount.key");
     ("--service-account-signing-key-file", pki s "serviceaccount.key");
     ("--service-cluster-ip-range", serviceCIDR);
     ("--tls-cert-file", pki s "apiserver.crt");
     ("--tls-cipher-suites", join "," apiserverTLSCipherSuites);
     ("--tls-min-version", "VersionTLS12");
     ("--tls-private-key-file", pki s "apiserver.key")] ++
    set_if (negb (Nat.eqb (length nodeIP) 0) && negb (IsLoopback nodeIP))
      "--advertise-address" (IP_String nodeIP) in
  let proxy :=
    if enableFrontProxy then
      [("--requestheader-client-ca-file", pki s "front-proxy-ca.crt");
       ("--requestheader-allowed-names", "front-proxy-client");
       ("--requestheader-extra-headers-prefix", "X-Remote-Extra-");
       ("--requestheader-group-headers", "X-Remote-Group");
       ("--requestheader-username-headers", "X-Remote-User");
       ("--proxy-client-cert-file", pki s "front-proxy-client.crt");
       ("--proxy-client-key-file", pki s "front-proxy-client.key")]
    else [] in
  own ++ map_to_list datastoreArgs ++ proxy.

(** [os.OpenFile(..., O_WRONLY|O_CREATE|O_TRUNC, 0600)]. *)
Definition os_OpenTrunc (p : string) (mode : Z) : io unit :=
  _ ← os_call OpCreate p; fs ← get_files;
  put_files (<[p := match fs !! p with
                    | Some f => mkFile EmptyString (f_mode f) (f_uid f) (f_gid f)
                    | None => mkFile EmptyString mode os_uid os_gid
                    end]> fs).

Definition KubeAPIServer (lo : res (res (list string))) (s : Snap) (securePort : Z) (nodeIP : IP)
    (serviceCIDR authWebhookURL : string) (enableFrontProxy : bool) (datastore : Datastore)
    (authorizationMode : string) (extraArgs : list (string * option string)) : io unit :=
  let webhookFile := filepath_Join [ServiceExtraConfigDir s; "auth-token-webhook.conf"] in
  _ ← io_wrapf "failed to open auth-token-webhook.conf: %w" [] (os_OpenTrunc webhookFile 384);
  _ ← io_wrapf "failed to write auth-token-webhook.conf: %w" []
        (file_Write webhookFile
           (auth_token_webhook authWebhookURL (filepath_Join [K8sdStateDir s; "cluster.crt"])));
  _ ← io_lift (fails_if (negb (bool_decide (Datastore_GetType datastore ∈ ["etcd"; "external"])))
                 (Errorf "unsupported datastore %s, must be one of %v"
                    [Datastore_GetType datastore; "etcd"; "external"]));
  '(datastoreUpdateArgs, deleteArgs) ←
    io_wrapf "failed to get datastore arguments for kube-apiserver: %w" []
      (io_lift (ToKubeAPIServerArguments lo datastore
                  (mkPaths (snap_KubernetesPKIDir s) (snap_EtcdPKIDir s))));
  render_and_extra failed_to_render failed_to_write s "kube-apiserver"
    (apiserver_args s securePort nodeIP serviceCIDR webhookFile enableFrontProxy authorizationMode
       datastoreUpdateArgs) deleteArgs extraArgs.

(** ** kube_controller_manager.go, kube_scheduler.go, kube_proxy.go *)

Definition KubeControllerManager (s : Snap) (extraArgs : list (string * option string)) : io unit :=
  caKey ← io_try (os_Stat (pki s "ca.key"));
  render_and_extra failed_to_render failed_to_write s "kube-controller-manager"
    ([("--authentication-kubeconfig", conf s "controller.conf");
      ("--authorization-kubeconfig", conf s "controller.conf");
      ("--kubeconfig", conf s "controller.conf");
      ("--leader-elect-lease-duration", "30s");
      ("--leader-elect-renew-deadline", "15s");
      ("--profiling", "false");
      ("--root-ca-file", pki s "ca.crt");
      ("--service-account-private-key-file", pki s "serviceaccount.key");
      ("--terminated-pod-gc-threshold", "12500");
      ("--tls-min-version", "VersionTLS12");
      ("--use-service-account-credentials", "true")] ++
     set_if (is_ok caKey) "--cluster-signing-cert-file" (pki s "ca.crt") ++
     set_if (is_ok caKey) "--cluster-signing-key-file" (pki s "ca.key")) [] extraArgs.

Definition KubeScheduler (s : Snap) (extraArgs : list (string * option string)) : io unit :=
  render_and_extra failed_to_render failed_to_write s "kube-scheduler"
    [("--authentication-kubeconfig", conf s "scheduler.conf");
     ("--authorization-kubeconfig", conf s "scheduler.conf");
     ("--kubeconfig", conf s "scheduler.conf");
     ("--leader-elect-lease-duration", "30s");
     ("--leader-elect-renew-deadline", "15s");
     ("--profiling", "false");
     ("--tls-min-version", "VersionTLS12")] [] extraArgs.

Definition kube_proxy_args (s : Snap) (localhostAddress : IP) (hostname podCIDR : string)
    : list (string * string) :=
  [("--cluster-cidr", podCIDR);
   ("--healthz-bind-address", IP_String localhostAddress +:+ ":10256");
   ("--kubeconfig", conf s "proxy.conf");
   ("--profiling", "false")] ++
  set_if (hostname !=? Hostname s) "--hostname-override" hostname ++
  set_if (match OnLXD s with Ok b => b | Err _ => false end) "--conntrack-max-per-core" "0".

Definition KubeProxy (lo : res (res (list string))) (s : Snap) (hostname podCIDR : string)
    (extraArgs : list (string * option string)) : io unit :=
  localhostAddress ← io_wrapf "failed to get localhost address: %w" [] (io_lift (GetLocalhostAddress lo));
  render_and_extra failed_to_render failed_to_write s "kube-proxy"
    (kube_proxy_args s localhostAddress hostname podCIDR) [] extraArgs.

(** ** etcd.go *)

Definition url (ip : IP) (port : Z) : string := "https://" +:+ JoinHostPort_int (IP_String ip) port.

Definition initial_cluster (members : gmap string string) : string :=
  join "," (map (λ name, name +:+ "=" +:+ default EmptyString (members !! name))
              (sort_Strings (map_to_list members).*1)).

Definition etcd_args (s : Snap) (localhostAddress : IP) (name : string) (nodeIP : IP)
    (clientPort peerPort : Z) (initialClusterMembers : gmap string string) : list (string * string) :=
  let listenUrls := [url nodeIP clientPort] ++
    (if negb (Nat.eqb (length nodeIP) 0) && negb (IsLoopback nodeIP)
     then [url localhostAddress clientPort] else []) in
  let peerURL := url nodeIP peerPort in
  [("--data-dir", filepath_Join [EtcdDir s; "data"]);
   ("--name", name);
   ("--initial-advertise-peer-urls", peerURL);
   ("--listen-peer-urls", peerURL);
   ("--listen-client-urls", join "," listenUrls);
   ("--advertise-client-urls", url nodeIP clientPort);
   ("--initial-cluster-state", if bool_decide (initialClusterMembers = ∅) then "new" else "existing");
   ("--initial-cluster", initial_cluster (<[name := peerURL]> initialClusterMembers));
   ("--client-cert-auth", "true");
   ("--trusted-ca-file", filepath_Join [snap_EtcdPKIDir s; "ca.crt"]);
   ("--cert-file", filepath_Join [snap_EtcdPKIDir s; "server.crt"]);
   ("--key-file", filepath_Join [snap_EtcdPKIDir s; "server.key"]);
   ("--peer-client-cert-auth", "true");
   ("--peer-trusted-ca-file", filepath_Join [snap_EtcdPKIDir s; "ca.crt"]);
   ("--peer-cert-file", filepath_Join [snap_EtcdPKIDir s; "peer.crt"]);
   ("--peer-key-file", filepath_Join [snap_EtcdPKIDir s; "peer.key"]);
   ("--auto-tls", "false");
   ("--peer-auto-tls", "false")].

Definition Etcd (lo : res (res (list string))) (s : Snap) (name : string) (nodeIP : IP)
    (clientPort peerPort : Z) (initialClusterMembers : gmap string string)
    (extraArgs : list (string * option string)) : io unit :=
  localhostAddress ← io_wrapf "failed to get localhost address: %w" [] (io_lift (GetLocalhostAddress lo));
  render_and_extra failed_to_write "failed to write extra arguments: %w" s "etcd"
    (etcd_args s localhostAddress name nodeIP clientPort peerPort initialClusterMembers) [] extraArgs.

(** ** k8s_apiserver_proxy.go and pkg/proxy/config.go *)

Definition WriteEndpointsConfig (endpoints : list string) (file : string) : io unit :=
  b ← io_wrapf "failed to marshal configuration: %w" [] (io_lift (json_endpoints endpoints));
  io_wrapf "failed to write configuration file %s: %w" [file] (WriteFile file b 384).

Definition K8sAPIServerProxy (s : Snap) (servers : list string) (securePort : Z)
    (extraArgs : list (string * option string)) : io unit :=
  let configFile := filepath_Join [ServiceExtraConfigDir s; "k8s-apiserver-proxy.json"] in
  _ ← io_wrapf "failed to write proxy configuration file: %w" [] (WriteEndpointsConfig servers configFile);
  render_and_extra failed_to_write failed_to_write s "k8s-apiserver-proxy"
    [("--endpoints", configFile);
     ("--kubeconfig", conf s "kubelet.conf");
     ("--listen", ":" +:+ Itoa securePort)] [] extraArgs.

(** ** util_extra_files.go *)

Fixpoint ExtraNodeConfigFiles (s : Snap) (files : list (string * string)) : io unit :=
  match files with
  | [] => mret tt
  | (filename, content) :: files =>
      if contains_char "/" filename then
        io_lift (Err (Errorf "file name %q must not contain any slashes (possible path-traversal prevented)"
                        [filename]))
      else
        let filePath := filepath_Join [ServiceExtraConfigDir s; filename] in
        _ ← io_wrapf "failed to write to file %s: %w" [filePath] (WriteFile filePath content 256);
        _ ← io_wrapf "failed to change owner of file %s: %w" [filePath]
              (os_Chown filePath (UID s) (GID s));
        ExtraNodeConfigFiles s files
  end.
End Setup.

(** ** Lemmas *)

Section Effective.
Context `{OSEnvOk, EndpointsJson}.

(** What a service reads after its arguments were configured: [want k v] means that
    key [k] must have the value [v], or be absent. *)
Record configured (s : Snap) (svc : string) (args : list (string * string)) (del : list string)
    (extra : list (string * option string)) (w' : World) : Prop := {
  cfg_extra : ∀ k v, (k, v) ∈ extra →
    GetServiceArgument s svc k w' = (Ok (default EmptyString v), w');
  cfg_own : ∀ k v, (k, v) ∈ args → k ∉ extra.*1 → GetServiceArgument s svc k w' = (Ok v, w');
  cfg_deleted : ∀ k, k ∈ del → k ∉ args.*1 → k ∉ extra.*1 →
    GetServiceArgument s svc k w' = (Ok EmptyString, w') }.

(** The conditions under which the arguments of a service can be configured: the file
    is readable and not a temporary one, and what is written fits on a line. *)
Record configurable (s : Snap) (svc : string) (args : list (string * string))
    (extra : list (string * option string)) : Prop := {
  cfg_readable : os_fail OpRead (argumentsFileForService s svc) = None;
  cfg_temp : ∀ fs, os_temp fs (filepath_Dir (argumentsFileForService s svc)) ≠
                   argumentsFileForService s svc;
  cfg_clean : clean args;
  cfg_nodup : NoDup args.*1;
  cfg_some : args ≠ [];
  cfg_extra_clean : clean (ServiceArgsFromMap extra).1;
  cfg_extra_nodup : NoDup extra.*1 }.

Lemma extra_functional (extra : list (string * option string)) k v v' :
  NoDup extra.*1 → (k, v) ∈ extra → (k, v') ∈ extra → v = v'.
Proof.
  intros Hnd Hv Hv'. pose proof (elem_of_list_to_map_1 (M := gmap string) extra k v Hnd Hv) as E1.
  pose proof (elem_of_list_to_map_1 (M := gmap string) extra k v' Hnd Hv') as E2. congruence.
Qed.

Lemma render_and_extra_other f1 f2 s svc args del extra w w' p :
  render_and_extra f1 f2 s svc args del extra w = (Ok tt, w') →
  (∀ fs, os_temp fs (filepath_Dir (argumentsFileForService s svc)) ≠ argumentsFileForService s svc) →
  p ≠ argumentsFileForService s svc → w_files w' !! p = w_files w !! p.
Proof.
  intros E Htmp Hp. unfold render_and_extra in E.
  apply io_bind_inv in E as [(ch & w1 & E1%io_wrapf_Ok & E)|(e & _ & ?)]; [|done].
  destruct (ServiceArgsFromMap extra) as [upd edel].
  apply io_bind_inv in E as [(ch2 & w2 & E2%io_wrapf_Ok & E)|(e & _ & ?)]; [|done].
  injection E as <-. rewrite (update_other _ _ _ _ _ _ _ p E2 (Htmp _) Hp).
  by rewrite (update_other _ _ _ _ _ _ _ p E1 (Htmp _) Hp).
Qed.

(** A configured service reads the same as long as its file stays. *)
Lemma GetServiceArgument_frame s svc k v w1 w2 :
  w_files w2 !! argumentsFileForService s svc = w_files w1 !! argumentsFileForService s svc →
  GetServiceArgument s svc k w1 = (Ok v, w1) → GetServiceArgument s svc k w2 = (Ok v, w2).
Proof.
  intros Hf. unfold GetServiceArgument, mbind, io_bind, io_wrapf, os_ReadFile, os_call, existing, get_files,
    mbind, io_bind. destruct (os_fail _ _); [done|]. cbn. rewrite Hf.
  destruct (w_files w1 !! _); cbn; [|done]. intros [= <-]. done.
Qed.
Lemma configured_frame s svc args del extra w1 w2 : configured s svc args del extra w1 →
  w_files w2 !! argumentsFileForService s svc = w_files w1 !! argumentsFileForService s svc →
  configured s svc args del extra w2.
Proof.
  intros [C1 C2 C3] Hf. split; intros.
  - eapply GetServiceArgument_frame; [done|by apply C1].
  - eapply GetServiceArgument_frame; [done|by apply C2].
  - eapply GetServiceArgument_frame; [done|by apply C3].
Qed.

Lemma render_and_extra_configured f1 f2 s svc args del extra w w' :
  render_and_extra f1 f2 s svc args del extra w = (Ok tt, w') →
  configurable s svc args extra → configured s svc args del extra w'.
Proof.
  intros E [Hr Htmp Hc Hnd Hne Hec Hend]. unfold render_and_extra in E.
  apply io_bind_inv in E as [(ch & w1 & E1%io_wrapf_Ok & E)|(e & _ & ?)]; [|done].
  destruct (ServiceArgsFromMap extra) as [upd edel] eqn:Ex.
  apply io_bind_inv in E as [(ch2 & w2 & E2%io_wrapf_Ok & E)|(e & _ & ?)]; [|done].
  injection E as <-. cbn [fst] in Hec.
  assert (Hend' : NoDup upd.*1).
  { replace upd with (ServiceArgsFromMap extra).1 by (by rewrite Ex).
    eapply sublist_NoDup; [done|apply extra_update_keys]. }
  assert (Hupd : ∀ k v, (k, v) ∈ upd ↔ (k, Some v) ∈ extra).
  { intros k v. rewrite <- elem_of_extra_update. by rewrite Ex. }
  assert (Hedel : ∀ k, k ∈ edel ↔ (k, None) ∈ extra).
  { intros k. rewrite <- elem_of_extra_delete. by rewrite Ex. }
  assert (Hkeys : ∀ k, k ∈ upd.*1 → k ∈ extra.*1).
  { intros k ([k' v] & -> & Hin%Hupd)%list_elem_of_fmap. apply list_elem_of_fmap. by exists (k', Some v). }
  assert (Hdkeys : ∀ k, k ∈ edel → k ∈ extra.*1).
  { intros k Hin%Hedel. apply list_elem_of_fmap. by exists (k, None). }
  assert (Hex : is_Some (w_files w2 !! argumentsFileForService s svc)).
  { eapply update_exists; [exact E2|apply Htmp|]. right.
    eapply update_exists; [exact E1|apply Htmp|by left]. }
  split.
  - intros k [v|] Hin; apply effective_get; try done.
    + destruct (update_effective s svc upd edel w1 ch2 w2 k E2 (Htmp _) Hec Hend') as (Hu & _ & _).
      by apply Hu, Hupd.
    + destruct (update_effective s svc upd edel w1 ch2 w2 k E2 (Htmp _) Hec Hend') as (_ & Hd & _).
      apply Hd; [by apply Hedel|]. intros ([k' v] & -> & Hv%Hupd)%list_elem_of_fmap.
      by pose proof (extra_functional extra _ _ _ Hend Hin Hv).
  - intros k v Hin Hk. apply (effective_get _ _ _ _ (Some v)); try done.
    destruct (update_effective s svc upd edel w1 ch2 w2 k E2 (Htmp _) Hec Hend') as (_ & _ & Ho).
    apply Ho; [auto..|].
    destruct (update_effective s svc args del w ch w1 k E1 (Htmp _) Hc Hnd) as (Hu & _ & _).
    by apply Hu.
  - intros k Hd Ha Hk. apply (effective_get _ _ _ _ None); try done.
    destruct (update_effective s svc upd edel w1 ch2 w2 k E2 (Htmp _) Hec Hend') as (_ & _ & Ho).
    apply Ho; [auto..|].
    destruct (update_effective s svc args del w ch w1 k E1 (Htmp _) Hc Hnd) as (_ & Hdel & _).
    by apply Hdel.
Qed.

Lemma os_OpenTrunc_other file mode w r w' : os_OpenTrunc file mode w = (r, w') →
  ∀ p, p ≠ file → w_files w' !! p = w_files w !! p.
Proof.
  unfold os_OpenTrunc, os_call, get_files, put_files, mbind, io_bind.
  destruct (os_fail OpCreate file); [by intros [= _ <-]|]. cbn -[insert lookup].
  intros [= _ <-] p Hp. cbn -[insert lookup]. by rewrite lookup_insert_ne.
Qed.

Lemma file_Write_other file d w r w' : file_Write file d w = (r, w') →
  ∀ p, p ≠ file → w_files w' !! p = w_files w !! p.
Proof.
  unfold file_Write, existing, get_files, put_files, io_lift, mbind, io_bind, mret, io_ret.
  cbn -[insert lookup].
  destruct (w_files w !! file); [|by intros [= _ <-]]. cbn -[insert lookup].
  destruct (os_fail OpWrite file); intros [= _ <-] p Hp; cbn -[insert lookup];
    by rewrite lookup_insert_ne.
Qed.

(** ** Properties *)

(** After [KubeletControlPlane] succeeds, the arguments the kubelet reads are: every
    extra argument with its value, every extra argument without a value absent, and
    every other argument the one the configuration asks for; in particular the node has
    its control-plane labels, the taints it registers with, and a node IP that is
    never a loopback address. *)
Theorem KubeletControlPlane_arguments s hostname nodeIPs dns domain provider taints extra w w' :
  KubeletControlPlane s hostname nodeIPs dns domain provider taints extra w = (Ok tt, w') →
  let args := kubelet_args s hostname nodeIPs dns domain provider taints kubeletControlPlaneLabels in
  configurable s "kubelet" args extra →
  configured s "kubelet" args [] extra w' ∧
  ("--node-labels" ∉ extra.*1 →
   GetServiceArgument s "kubelet" "--node-labels" w' = (Ok (join "," kubeletControlPlaneLabels), w')) ∧
  ("--register-with-taints" ∉ extra.*1 →
   GetServiceArgument s "kubelet" "--register-with-taints" w' = (Ok (join "," taints), w')) ∧
  (∀ ip, nodeIPs = [ip] → IsLoopback ip = false → "--node-ip" ∉ extra.*1 →
   GetServiceArgument s "kubelet" "--node-ip" w' = (Ok (IP_String ip), w')).
Proof.
  intros E args Hc. unfold KubeletControlPlane, kubelet in E. fold args in E.
  pose proof (render_and_extra_configured _ _ _ _ _ _ _ _ _ E Hc) as Hcfg.
  split_and!; [done|..].
  - apply (cfg_own _ _ _ _ _ _ Hcfg). do 10 right. by left.
  - apply (cfg_own _ _ _ _ _ _ Hcfg). do 12 right. by left.
  - intros ip -> Hl. apply (cfg_own _ _ _ _ _ _ Hcfg).
    unfold args, kubelet_args. cbn [List.filter]. rewrite Hl. cbn [negb map].
    rewrite !elem_of_app. do 5 right. by left.
Qed.

(** [KubeAPIServer] refuses a datastore of any other type than etcd and external
    before it writes an argument; when it succeeds, the arguments kube-apiserver reads
    are the extra ones, then its own and those of the datastore, and the certificate
    arguments the datastore has no certificate for are absent. *)
Theorem KubeAPIServer_arguments lo s port nodeIP cidr webhook front ds mode extra w r w' :
  KubeAPIServer lo s port nodeIP cidr webhook front ds mode extra w = (r, w') →
  (Datastore_GetType ds ∉ ["etcd"; "external"] →
   is_ok r = false ∧ ∀ svc, argumentsFileForService s svc ≠ filepath_Join [ServiceExtraConfigDir s; "auth-token-webhook.conf"] →
     w_files w' !! argumentsFileForService s svc = w_files w !! argumentsFileForService s svc) ∧
  (r = Ok tt → ∃ dargs del,
     ToKubeAPIServerArguments lo ds (mkPaths (snap_KubernetesPKIDir s) (snap_EtcdPKIDir s)) = Ok (dargs, del) ∧
     let args := apiserver_args s port nodeIP cidr
       (filepath_Join [ServiceExtraConfigDir s; "auth-token-webhook.conf"]) front mode dargs in
     (configurable s "kube-apiserver" args extra → configured s "kube-apiserver" args del extra w')).
Proof.
  unfold KubeAPIServer. set (file := filepath_Join _). intros E.
  apply io_bind_inv in E as [([] & w1 & E1%io_wrapf_Ok & E)|(e & E1 & ->)].
  2: { split; [|done]. intros _. split; [done|]. intros svc Hne.
       unfold io_wrapf in E1. destruct (os_OpenTrunc file 384 w) as [r1 w1] eqn:E2.
       injection E1 as _ <-. by eapply os_OpenTrunc_other. }
  pose proof (os_OpenTrunc_other _ _ _ _ _ E1) as Hopen.
  apply io_bind_inv in E as [([] & w2 & E2%io_wrapf_Ok & E)|(e & E2 & ->)].
  2: { split; [|done]. intros _. split; [done|]. intros svc Hne.
       unfold io_wrapf in E2. destruct (file_Write file _ w1) as [r2 w2] eqn:E3.
       injection E2 as _ <-. rewrite <- Hopen by done. by eapply file_Write_other. }
  pose proof (file_Write_other _ _ _ _ _ E2) as Hwrite. split.
  - intros Ht. rewrite bool_decide_eq_false_2 in E by done. cbn in E. injection E as <- <-.
    split; [done|]. intros svc Hne. by rewrite Hwrite, Hopen.
  - intros ->.
    apply io_bind_inv in E as [([] & w3 & E3 & E)|(e & _ & ?)]; [|done].
    apply io_bind_inv in E as [([dargs del] & w4 & E4%io_wrapf_Ok & E)|(e & _ & ?)]; [|done].
    injection E4 as E4 <-. exists dargs, del. split; [done|]. cbv zeta. intros Hc.
    by eapply render_and_extra_configured.
Qed.
End Effective.

(** *** Witnesses *)

Definition demo_json : EndpointsJson := λ l, Ok (join "," l).
Definition demo_extra : list (string * option string) :=
  [("--read-only-port", None); ("--max-pods", Some "50")].
Definition demo_node_ip : IP := (v4InV6Prefix ++ [10; 0; 0; 1])%Z.

Lemma clean_check upd :
  forallb (λ kv, clean_key kv.1 && clean_value kv.2) upd = true → clean upd.
Proof.
  rewrite forallb_forall. intros Hall. apply Forall_forall. intros kv Hin%list_elem_of_In.
  apply andb_true_iff. by apply Hall.
Qed.
Ltac demo_lines := apply clean_check; vm_compute; reflexivity.
Ltac demo_configurable := split;
  [ reflexivity | intros fs; vm_compute; discriminate | demo_lines | demo_nodup
  | vm_compute; discriminate
  | demo_lines | demo_nodup ].

Lemma KubeletControlPlane_arguments_witness :
  ∃ w', @KubeletControlPlane demo_os demo_snap "node1" [demo_node_ip] "10.152.183.10" "cluster.local"
          EmptyString [] demo_extra demo_arguments = (Ok tt, w') ∧
    @GetServiceArgument demo_os demo_snap "kubelet" "--max-pods" w' = (Ok "50", w') ∧
    @GetServiceArgument demo_os demo_snap "kubelet" "--read-only-port" w' = (Ok EmptyString, w').
Proof.
  destruct (@KubeletControlPlane demo_os demo_snap "node1" [demo_node_ip] "10.152.183.10"
              "cluster.local" EmptyString [] demo_extra demo_arguments) as [r w'] eqn:E.
  pose proof (f_equal fst E) as Er. vm_compute in Er. simpl in Er. subst r.
  exists w'. split; [done|].
  destruct (@KubeletControlPlane_arguments demo_os demo_os_ok _ _ _ _ _ _ _ _ _ _ E) as [Hc _];
    [demo_configurable|].
  destruct Hc as [Hextra _ _]. split; [by apply (Hextra "--max-pods" (Some "50")); right; left|].
  by apply (Hextra "--read-only-port" None); left.
Defined.

Definition demo_datastore_args : gmap string string :=
  <["--etcd-cafile" := "/etc/kubernetes/pki/etcd/ca.crt"]>
  (<["--etcd-servers" := "https://10.0.0.1:2379"]> ∅).

Lemma KubeAPIServer_arguments_witness :
  ∃ w', @KubeAPIServer demo_os (Ok (Ok ["127.0.0.1/8"])) demo_snap 6443 demo_node_ip "10.152.183.0/24"
          "https://127.0.0.1:6400/1.0/kubernetes/auth/webhook" true demo_external_datastore
          "Node,RBAC" demo_extra demo_arguments = (Ok tt, w') ∧
    @GetServiceArgument demo_os demo_snap "kube-apiserver" "--etcd-certfile" w' = (Ok EmptyString, w') ∧
    (@KubeAPIServer demo_os (Ok (Ok [])) demo_snap 6443 demo_node_ip "10.152.183.0/24" EmptyString true
       empty_Datastore "Node,RBAC" demo_extra demo_arguments).2.(w_files) !! "/args/kube-apiserver" = None.
Proof.
  destruct (@KubeAPIServer demo_os (Ok (Ok ["127.0.0.1/8"])) demo_snap 6443 demo_node_ip
    "10.152.183.0/24" "https://127.0.0.1:6400/1.0/kubernetes/auth/webhook" true
    demo_external_datastore "Node,RBAC" demo_extra demo_arguments) as [r w'] eqn:E.
  pose proof (f_equal fst E) as Er. vm_compute in Er. simpl in Er. subst r.
  exists w'. split; [done|]. split.
  - destruct (@KubeAPIServer_arguments demo_os demo_os_ok _ _ _ _ _ _ _ _ _ _ _ _ _ E)
      as [_ (dargs & del & Ed & Hc)]; [done|].
    assert (Ed' : ToKubeAPIServerArguments (Ok (Ok ["127.0.0.1/8"])) demo_external_datastore
      (mkPaths (snap_KubernetesPKIDir demo_snap) (snap_EtcdPKIDir demo_snap)) =
      Ok (demo_datastore_args, ["--etcd-certfile"; "--etcd-keyfile"]))
      by (vm_compute; reflexivity).
    rewrite Ed' in Ed. injection Ed as <- <-. clear Ed'.
    cbv zeta in Hc. destruct Hc as [_ _ Hdel]; [demo_configurable|]. apply Hdel; [by left|..];
      apply (bool_decide_unpack _); vm_compute; exact I.
  - destruct (@KubeAPIServer demo_os (Ok (Ok [])) demo_snap 6443 demo_node_ip "10.152.183.0/24"
      EmptyString true empty_Datastore "Node,RBAC" demo_extra demo_arguments) as [r2 w2] eqn:E2.
    destruct (@KubeAPIServer_arguments demo_os demo_os_ok _ _ _ _ _ _ _ _ _ _ _ _ _ E2)
      as [Hrej _].
    destruct Hrej as [_ Hf]; [apply (bool_decide_unpack _); vm_compute; exact I|].
    simpl. transitivity (w_files w2 !! argumentsFileForService demo_snap "kube-apiserver");
      [reflexivity|]. rewrite Hf; [reflexivity|]. vm_compute. discriminate.
Defined.

(** On a host whose loopback interface has only an IPv6 address, [KubeProxy] writes a
    health address in which the address is not bracketed: [::1:10256] instead of what
    [JoinHostPort], used for the other services, gives. *)
Theorem KubeProxy_ipv6_healthz_unbracketed :
  let lo := Ok (Ok ["::1/128"]) in
  GetLocalhostAddress lo = Ok IPv6loopback ∧
  (∃ w', @KubeProxy demo_os lo demo_snap "node1" "fd00::/108" [] demo_arguments = (Ok tt, w') ∧
     (@GetServiceArgument demo_os demo_snap "kube-proxy" "--healthz-bind-address" w').1 = Ok "::1:10256") ∧
  JoinHostPort_int (IP_String IPv6loopback) 10256 = "[::1]:10256".
Proof.
  split_and!; [vm_compute; reflexivity| |vm_compute; reflexivity].
  eexists. split; [vm_compute; reflexivity|]. vm_compute. reflexivity.
Qed.
End Setup.
