(* ===== verification/Node.v ===== *)
(** * The state a node keeps in files

    The worker mark of a node (pkg/snap/util/node.go), the dqlite failure domain
    (dqlite.go), and the certificates on disk (pkg/k8sd/setup/certificates.go). *)

From S2P Require Import Prelude GoStrings Config FileSys Pki PkiNode Arguments.
Import GoStr Config FileSys PkiNode Arguments.

Module Node.

Section Node.
Context `{OSEnv}.

(** ** pkg/snap/util/node.go *)

Definition worker_lock (s : Snap) : string := filepath_Join [LockFilesDir s; "worker"].
Definition IsWorker (s : Snap) : io bool := FileExists (worker_lock s).
Definition MarkAsWorkerNode (s : Snap) (mark : bool) : io unit :=
  let fname := worker_lock s in
  if mark then
    _ ← io_wrapf "failed to mark node as worker: %w" [] (os_Create fname);
    _ ← io_wrapf "failed to chown %s: %w" [fname] (os_Chown fname (UID s) (GID s));
    io_wrapf "failed to chmod %s: %w" [fname] (os_Chmod fname 384)
  else io_wrapf "failed to unmark node as worker: %w" [] (os_Remove fname).

(** ** pkg/snap/util/dqlite.go *)

(** [os.WriteFile]: truncates the file and writes it; not atomic. *)
Definition os_WriteFile (p data : string) : io unit := _ ← os_Create p; file_Write p data.

Definition GetDqliteFailureDomainFile (dbStateDir : string) : string :=
  filepath_Join [dbStateDir; "failure-domain"].

Definition GetDqliteFailureDomain (dbStateDir : string) : io Z :=
  let file := GetDqliteFailureDomainFile dbStateDir in
  fileExists ← io_wrapf "unable to check if file exists %s: %w" [file] (FileExists file);
  if negb fileExists then mret 0%Z
  else
    contents ← io_wrapf "failed to read failure-domain file %s: %w" [file] (os_ReadFile file);
    let failureDomainStr := List.hd EmptyString (split newline contents) in
    io_wrapf "failed to parse failure domain %s: %w" [failureDomainStr]
      (io_lift (ParseUint64 failureDomainStr)).

Definition UpdateDqliteFailureDomain (failureDomain : Z) (dbStateDir : string) : io bool :=
  let file := GetDqliteFailureDomainFile dbStateDir in
  fileExists ← io_wrapf "unable to check if file exists %s: %w" [file] (FileExists file);
  if negb fileExists then
    _ ← io_wrapf "failed to update failure-domain file %s: %w" [file]
          (os_WriteFile file (Itoa failureDomain));
    mret (failureDomain !=? 0%Z)
  else
    existingFailureDomain ← GetDqliteFailureDomain dbStateDir;
    if existingFailureDomain ==? failureDomain then mret false
    else
      _ ← io_wrapf "failed to update failure-domain file %s: %w" [file]
            (os_WriteFile file (Itoa failureDomain));
      mret true.

(** ** pkg/k8sd/setup/certificates.go *)

Definition ensureFile (fname contents : string) (uid gid mode : Z) : io bool :=
  if contents ==? EmptyString then
    r ← io_try (os_Remove fname);
    match r with
    | Ok _ => mret true
    | Err e => if e !=? ErrNotExist then io_lift (Err (Wrapf "failed to delete: %w" [] e))
               else mret false
    end
  else
    origContent ← io_wrapf "failed to read: %w" [] (read_or_empty fname);
    contentChanged ←
      (if contents !=? origContent then
         _ ← io_wrapf "failed to write: %w" [] (WriteFile fname contents mode); mret true
       else mret false);
    _ ← io_wrapf "failed to chown: %w" [] (os_Chown fname uid gid);
    _ ← io_wrapf "failed to chmod: %w" [] (os_Chmod fname mode);
    mret contentChanged.

Fixpoint ensureFiles_loop (uid gid mode : Z) (files : list (string * string)) (changed : bool)
    : io bool :=
  match files with
  | [] => mret changed
  | (fname, content) :: files =>
      v ← io_wrapf "failed to configure %s: %w" [filepath_Base fname]
            (ensureFile fname content uid gid mode);
      ensureFiles_loop uid gid mode files (if v : bool then true else changed)
  end.
Definition ensureFiles (uid gid mode : Z) (files : list (string * string)) : io bool :=
  ensureFiles_loop uid gid mode files false.

Definition etcd_pki (s : Snap) (f : string) : string := filepath_Join [snap_EtcdPKIDir s; f].
Definition k8s_pki (s : Snap) (f : string) : string := filepath_Join [snap_KubernetesPKIDir s; f].

Definition EnsureExtDatastorePKI (s : Snap) (c : ExternalDatastorePKI) : io bool :=
  ensureFiles (UID s) (GID s) 384
    [(etcd_pki s "ca.crt", DatastoreCACert c);
     (etcd_pki s "client.key", DatastoreClientKey c);
     (etcd_pki s "client.crt", DatastoreClientCert c)].

Definition control_plane_files (s : Snap) (c : ControlPlanePKI) : list (string * string) :=
  [(k8s_pki s "apiserver-kubelet-client.crt", cp c APIServerKubeletClientCert);
   (k8s_pki s "apiserver-kubelet-client.key", cp c APIServerKubeletClientKey);
   (k8s_pki s "apiserver.crt", cp c APIServerCert);
   (k8s_pki s "apiserver.key", cp c APIServerKey);
   (k8s_pki s "ca.crt", cp c CACert);
   (k8s_pki s "ca.key", cp c CAKey);
   (k8s_pki s "client-ca.crt", cp c ClientCACert);
   (k8s_pki s "client-ca.key", cp c ClientCAKey);
   (k8s_pki s "front-proxy-ca.crt", cp c FrontProxyCACert);
   (k8s_pki s "front-proxy-ca.key", cp c FrontProxyCAKey);
   (k8s_pki s "front-proxy-client.crt", cp c FrontProxyClientCert);
   (k8s_pki s "front-proxy-client.key", cp c FrontProxyClientKey);
   (k8s_pki s "kubelet.crt", cp c KubeletCert);
   (k8s_pki s "kubelet.key", cp c KubeletKey);
   (k8s_pki s "serviceaccount.key", cp c ServiceAccountKey)].
Definition EnsureControlPlanePKI (s : Snap) (c : ControlPlanePKI) : io bool :=
  ensureFiles (UID s) (GID s) 384 (control_plane_files s c).

Definition EnsureWorkerPKI (s : Snap) (c : WorkerNodePKI) : io bool :=
  ensureFiles (UID s) (GID s) 384
    [(k8s_pki s "ca.crt", wn_CACert c);
     (k8s_pki s "client-ca.crt", wn_ClientCACert c);
     (k8s_pki s "kubelet.crt", wn_KubeletCert c);
     (k8s_pki s "kubelet.key", wn_KubeletKey c)].

Definition EnsureEtcdPKI (s : Snap) (c : EtcdPKI) : io bool :=
  ensureFiles (UID s) (GID s) 384
    [(etcd_pki s "ca.crt", et c EtcdCACert);
     (etcd_pki s "server.crt", et c EtcdServerCert);
     (etcd_pki s "server.key", et c EtcdServerKey);
     (etcd_pki s "peer.crt", et c EtcdServerPeerCert);
     (etcd_pki s "peer.key", et c EtcdServerPeerKey);
     (k8s_pki s "apiserver-etcd-client.crt", et c EtcdAPIServerClientCert);
     (k8s_pki s "apiserver-etcd-client.key", et c EtcdAPIServerClientKey)].
End Node.

(** ** Lemmas *)

Section Lemmas.
Context `{OSEnvOk}.

Lemma os_Chown_run p uid gid w r w' : os_Chown p uid gid w = (r, w') →
  match r with
  | Ok _ => ∃ f, w_files w !! p = Some f ∧
      w_files w' = <[p := mkFile (f_data f) (f_mode f) uid gid]> (w_files w)
  | Err _ => w_files w' = w_files w
  end.
Proof.
  unfold os_Chown, os_call, existing, get_files, put_files, io_lift, mbind, io_bind, mret, io_ret.
  destruct (os_fail OpChown p); [by intros [= <- <-]|]. cbn -[insert lookup].
  destruct (w_files w !! p) eqn:E; cbn -[insert lookup]; intros [= <- <-]; [|done]. by eexists.
Qed.

Lemma os_Chmod_run p mode w r w' : os_Chmod p mode w = (r, w') →
  match r with
  | Ok _ => ∃ f, w_files w !! p = Some f ∧
      w_files w' = <[p := mkFile (f_data f) mode (f_uid f) (f_gid f)]> (w_files w)
  | Err _ => w_files w' = w_files w
  end.
Proof.
  unfold os_Chmod, os_call, existing, get_files, put_files, io_lift, mbind, io_bind, mret, io_ret.
  destruct (os_fail OpChmod p); [by intros [= <- <-]|]. cbn -[insert lookup].
  destruct (w_files w !! p) eqn:E; cbn -[insert lookup]; intros [= <- <-]; [|done]. by eexists.
Qed.

Lemma FileExists_run p w r w' : FileExists p w = (r, w') →
  w' = w ∧ ∀ b, r = Ok b → b = bool_decide (is_Some (w_files w !! p)).
Proof.
  unfold FileExists, os_Stat, io_try, os_call, existing, get_files, io_lift, mbind, io_bind, mret,
    io_ret.
  destruct (os_fail OpStat p) as [e|] eqn:Es.
  - cbn. case_bool_decide as He; cbn; intros [= <- <-]; (split; [done|]); [|done].
    subst e. by destruct (os_fail_exists OpStat p); [do 3 right; left|].
  - cbn. destruct (w_files w !! p) eqn:E; cbn; intros [= <- <-]; (split; [done|]).
    + by intros b [= <-].
    + by intros b [= <-].
Qed.

(** The file [ensureFile] leaves: none for empty contents. *)
Definition ensured (contents : string) (uid gid mode : Z) : option file :=
  if contents ==? EmptyString then None else Some (mkFile contents mode uid gid).
Definition with_file (fs : files) (p : string) (f : option file) : files :=
  match f with Some f => <[p := f]> fs | None => delete p fs end.

Lemma with_file_lookup fs p f q : with_file fs p f !! q = if decide (p = q) then f else fs !! q.
Proof.
  unfold with_file. destruct f; case_decide as Hd; subst;
    rewrite ?lookup_insert_eq, ?lookup_delete_eq, ?lookup_insert_ne, ?lookup_delete_ne; done.
Qed.

(** Whether ensuring [contents] changes the contents of the file or removes it. *)
Definition differs (w : World) (p contents' : string) : bool :=
  if contents' ==? EmptyString then bool_decide (is_Some (w_files w !! p))
  else contents' !=? contents w p.

Lemma ensureFile_run p c uid gid mode w ch w' :
  ensureFile p c uid gid mode w = (Ok ch, w') →
  os_temp (w_files w) (filepath_Dir p) ≠ p →
  w_files w' = with_file (w_files w) p (ensured c uid gid mode) ∧ ch = differs w p c.
Proof.
  unfold ensureFile, ensured, differs. intros E Htmp. case_bool_decide as Hc.
  - unfold mbind, io_bind, io_try in E. destruct (os_Remove p w) as [r w1] eqn:E1.
    apply os_Remove_run in E1 as [(e & -> & -> & He)|(-> & Hex & _ & ->)].
    + destruct (e !=? ErrNotExist) eqn:Hne; [done|]. injection E as <- <-. simpl.
      apply negb_false_iff, bool_decide_eq_true in Hne.
      destruct He as [[_ Hnone]|He].
      * rewrite delete_id by done. split; [done|]. symmetry. apply bool_decide_eq_false_2.
        rewrite Hnone. by intros [].
      * rewrite Hne in He. by destruct (os_fail_exists OpRemove p); [do 2 right; left|].
    + injection E as <- <-. simpl. split; [done|]. symmetry. by apply bool_decide_eq_true_2.
  - apply io_bind_inv in E as [(orig & w1 & E1 & E)|(e & _ & ?)]; [|done].
    unfold io_wrapf in E1. destruct (read_or_empty p w) as [r0 w0] eqn:E0.
    apply read_or_empty_run in E0 as [-> Hr0]. destruct r0 as [d|e]; [|done].
    injection E1 as <- <-. subst d.
    apply io_bind_inv in E as [(ch1 & w2 & E2 & E)|(e & _ & ?)]; [|done].
    apply io_bind_inv in E as [([] & w3 & E3 & E)|(e & _ & ?)]; [|done].
    apply io_bind_inv in E as [([] & w4 & E4 & E)|(e & _ & ?)]; [|done].
    injection E as <- <-.
    apply io_wrapf_Ok, os_Chown_run in E3 as (f & Hf & Hf3).
    apply io_wrapf_Ok, os_Chmod_run in E4 as (f' & Hf' & Hf4).
    rewrite Hf3, lookup_insert_eq in Hf'. injection Hf' as <-. cbn in Hf4.
    rewrite Hf4, Hf3, insert_insert_eq. cbn [with_file].
    case_bool_decide as Hd; cbn in E2.
    + injection E2 as <- <-. split; [|done]. unfold contents in Hd. rewrite Hf in Hd. by rewrite <- Hd.
    + apply io_bind_inv in E2 as [([] & w5 & E5%io_wrapf_Ok & E2)|(e & _ & ?)]; [|done].
      injection E2 as <- <-. apply WriteFile_run in E5 as [_ Hw].
      destruct (Hw Htmp) as [(e & ? & _)|[_ Hf5]]; [done|]. split; [|done].
      rewrite Hf5, lookup_insert_eq in Hf. injection Hf as <-. by rewrite Hf5, insert_insert_eq.
Qed.

Lemma differs_ensured w w' p c uid gid mode :
  w_files w' = with_file (w_files w) p (ensured c uid gid mode) → differs w' p c = false.
Proof.
  intros Hf. unfold differs, contents. rewrite Hf, with_file_lookup, decide_True by done.
  unfold ensured. case_bool_decide as Hc.
  - apply bool_decide_eq_false_2. by intros [].
  - cbn. by rewrite bool_decide_eq_true_2.
Qed.

(** The files after all of a list were ensured. *)
Definition with_files (uid gid mode : Z) (l : list (string * string)) (fs : files) : files :=
  fold_left (λ fs x, with_file fs x.1 (ensured x.2 uid gid mode)) l fs.

Lemma with_files_lookup uid gid mode l fs p : NoDup l.*1 →
  (∀ c, (p, c) ∈ l → with_files uid gid mode l fs !! p = ensured c uid gid mode) ∧
  (p ∉ l.*1 → with_files uid gid mode l fs !! p = fs !! p).
Proof.
  unfold with_files. revert fs. induction l as [|[p0 c0] l IH]; intros fs Hnd; [set_solver|].
  apply NoDup_cons in Hnd as [Hp0 Hnd]. cbn [fold_left fst snd].
  destruct (IH (with_file fs p0 (ensured c0 uid gid mode)) Hnd) as [IH1 IH2]. split.
  - intros c [Heq|Hin]%elem_of_cons; [|by apply IH1]. injection Heq as -> ->.
    rewrite IH2 by done. by rewrite with_file_lookup, decide_True.
  - intros Hp. rewrite IH2 by set_solver. rewrite with_file_lookup, decide_False; [done|].
    intros ->. set_solver.
Qed.

Lemma ensureFiles_loop_run uid gid mode l changed w ch w' :
  ensureFiles_loop uid gid mode l changed w = (Ok ch, w') →
  (∀ fs p, p ∈ l.*1 → os_temp fs (filepath_Dir p) ≠ p) → NoDup l.*1 →
  w_files w' = with_files uid gid mode l (w_files w) ∧
  ch = existsb (λ x, differs w x.1 x.2) l || changed.
Proof.
  revert changed w. induction l as [|[p c] l IH]; intros changed w; cbn [ensureFiles_loop].
  { by intros [= <- <-]. }
  intros [(v & w1 & E1%io_wrapf_Ok & E)|(e & _ & ?)]%io_bind_inv Htmp Hnd; [|done].
  apply NoDup_cons in Hnd as [Hp Hnd].
  apply ensureFile_run in E1 as [Hf ->]; [|apply Htmp; by left].
  apply IH in E as [Hf' ->]; [|set_solver|done]. rewrite Hf', Hf. split; [done|].
  cbn [existsb fst snd].
  assert (Hext : existsb (λ x, differs w1 x.1 x.2) l = existsb (λ x, differs w x.1 x.2) l).
  { clear -Hp Hf. induction l as [|[q d] l IHl]; [done|]. cbn [existsb fst snd].
    rewrite IHl by set_solver. f_equal. unfold differs, contents.
    rewrite Hf, with_file_lookup, decide_False; [done|]. set_solver. }
  rewrite Hext. destruct (differs w p c); cbn [orb]; [apply orb_true_r|done].
Qed.

(** [ensureFile] makes a file what it should be: on success a file with the given
    contents, mode and owner (no file for empty contents) and nothing else changes; the
    returned flag is true exactly when the contents differ from before or the file was
    removed; ensuring it again reports no change and changes no file. *)
Theorem ensureFile_correct p c uid gid mode w ch w' :
  ensureFile p c uid gid mode w = (Ok ch, w') →
  (∀ fs, os_temp fs (filepath_Dir p) ≠ p) →
  w_files w' = with_file (w_files w) p (ensured c uid gid mode) ∧
  ch = differs w p c ∧
  (∀ ch2 w2, ensureFile p c uid gid mode w' = (Ok ch2, w2) → ch2 = false ∧ w_files w2 = w_files w').
Proof.
  intros E Htmp. apply ensureFile_run in E as [Hf ->]; [|done]. split_and!; [done..|].
  intros ch2 w2 E2. apply ensureFile_run in E2 as [Hf2 ->]; [|done].
  split; [by eapply differs_ensured|]. rewrite Hf2, Hf. apply map_eq. intros q.
  rewrite !with_file_lookup. by case_decide.
Qed.

(** The control-plane certificates on disk: when [EnsureControlPlanePKI] succeeds,
    each of the fifteen files holds its certificate or key with mode 0600 and the snap's
    owner, a file whose certificate is empty is gone, every other file is untouched, and
    the returned flag tells whether any of the files changed. *)
Theorem EnsureControlPlanePKI_correct s c w ch w' :
  EnsureControlPlanePKI s c w = (Ok ch, w') →
  NoDup (control_plane_files s c).*1 →
  (∀ fs p, p ∈ (control_plane_files s c).*1 → os_temp fs (filepath_Dir p) ≠ p) →
  (∀ p d, (p, d) ∈ control_plane_files s c → w_files w' !! p = ensured d (UID s) (GID s) 384) ∧
  (∀ p, p ∉ (control_plane_files s c).*1 → w_files w' !! p = w_files w !! p) ∧
  (ch = true ↔ ∃ p d, (p, d) ∈ control_plane_files s c ∧ differs w p d = true).
Proof.
  intros E Hnd Htmp. apply ensureFiles_loop_run in E as [Hf ->]; [|done..].
  split_and!.
  - intros p d Hin. rewrite Hf. by apply (proj1 (with_files_lookup _ _ _ _ _ p Hnd)).
  - intros p Hp. rewrite Hf. by apply (proj2 (with_files_lookup _ _ _ _ _ p Hnd)).
  - rewrite orb_false_r, existsb_elem. split.
    + intros ([p d] & Hin & Hd). by exists p, d.
    + intros (p & d & Hin & Hd). by exists (p, d).
Qed.

(** ** The dqlite failure domain *)

Lemma os_WriteFile_run p d w r w' : os_WriteFile p d w = (r, w') → r = Ok tt →
  ∃ f, w_files w' = <[p := f]> (w_files w) ∧ f_data f = d.
Proof.
  unfold os_WriteFile, os_Create, file_Write, os_call, existing, get_files, put_files, io_lift, mbind,
    io_bind, mret, io_ret.
  destruct (os_fail OpCreate p); [by intros [= <- <-]|]. cbn -[insert lookup].
  rewrite lookup_insert_eq. cbn -[insert lookup].
  destruct (os_fail OpWrite p); [by intros [= <- <-]|]. cbn -[insert lookup].
  intros [= <- <-] _. cbn -[insert lookup]. rewrite insert_insert_eq. eexists. split; [done|].
  by destruct (w_files w !! p).
Qed.

Lemma GetDqliteFailureDomain_run dir w r w' : GetDqliteFailureDomain dir w = (r, w') →
  w' = w ∧ ∀ v, r = Ok v →
    match w_files w !! GetDqliteFailureDomainFile dir with
    | None => v = 0%Z
    | Some f => ParseUint64 (List.hd EmptyString (split newline (f_data f))) = Ok v
    end.
Proof.
  unfold GetDqliteFailureDomain. set (file := GetDqliteFailureDomainFile dir).
  intros [(b & w1 & E1 & E)|(e & E1 & ->)]%io_bind_inv; unfold io_wrapf in E1;
    destruct (FileExists file w) as [r0 w0] eqn:E0; apply FileExists_run in E0 as [-> Hb];
    destruct r0; simplify_eq/=; [|done].
  rewrite (Hb b eq_refl) in E. case_bool_decide as Hex; cbn [negb] in E.
  2: { injection E as <- <-. apply eq_None_not_Some in Hex. rewrite Hex. naive_solver. }
  apply io_bind_inv in E as [(d & w9 & E1 & E)|(e & E1 & ->)]; unfold io_wrapf in E1;
    destruct (os_ReadFile file _) as [r0 w0] eqn:E0; apply os_ReadFile_run in E0 as [-> Hd];
    destruct r0; simplify_eq/=; [|done].
  destruct Hd as (f & -> & <-). unfold io_wrapf, io_lift in E.
  injection E as <- <-. split; [done|]. intros v Hv. by apply wrapf_Ok in Hv.
Qed.

(** The failure domain round-trips: after a successful update with a 64-bit value,
    reading the failure domain can only give that value, and the update reported a
    change exactly when the value in force before (0 when the file is missing) was
    another one. *)
Lemma UpdateDqliteFailureDomain_roundtrip v dir w changed w' :
  (0 ≤ v < 2 ^ 64)%Z →
  UpdateDqliteFailureDomain v dir w = (Ok changed, w') →
  (∀ r w2, GetDqliteFailureDomain dir w' = (r, w2) → w2 = w' ∧ (∀ v', r = Ok v' → v' = v)) ∧
  (∀ old, (GetDqliteFailureDomain dir w).1 = Ok old → changed = negb (bool_decide (old = v))) ∧
  (∀ p, p ≠ GetDqliteFailureDomainFile dir → w_files w' !! p = w_files w !! p).
Proof.
  intros Hv. unfold UpdateDqliteFailureDomain. set (file := GetDqliteFailureDomainFile dir).
  assert (Hread : ∀ f w1, w_files w1 !! file = Some f → f_data f = Itoa v →
    ∀ r w2, GetDqliteFailureDomain dir w1 = (r, w2) → w2 = w1 ∧ (∀ v', r = Ok v' → v' = v)).
  { intros f w1 Hf Hd r w2 [-> Hr]%GetDqliteFailureDomain_run. split; [done|].
    intros v' Hv'%Hr. fold file in Hv'. rewrite Hf, Hd in Hv'.
    rewrite split_no_sep in Hv' by (apply Itoa_no_newline; lia). cbn [List.hd] in Hv'.
    rewrite ParseUint64_Itoa in Hv' by done. by injection Hv'. }
  intros [(b & wx & E1 & E)|(e & _ & ?)]%io_bind_inv; [|done].
  apply io_wrapf_Ok in E1. apply FileExists_run in E1 as [-> Hb]. rewrite (Hb b eq_refl) in E. clear Hb.
  destruct (GetDqliteFailureDomain dir w) as [r0 w0] eqn:E0.
  pose proof (GetDqliteFailureDomain_run _ _ _ _ E0) as [-> Hr0]. fold file in Hr0. cbn [fst].
  case_bool_decide as Hex; cbn [negb] in E.
  - destruct Hex as [f Hf]. rewrite Hf in Hr0.
    apply io_bind_inv in E as [(old & w2 & E2 & E)|(e & _ & ?)]; [|done].
    rewrite E0 in E2. injection E2 as -> <-. specialize (Hr0 old eq_refl).
    case_bool_decide as Heq; cbn in E.
    + injection E as <- <-. subst old. split_and!; [|intros old [= <-]; by rewrite bool_decide_eq_true_2|done].
      intros r w2 [-> Hr]%GetDqliteFailureDomain_run. split; [done|]. intros v' Hv'%Hr.
      fold file in Hv'. rewrite Hf in Hv'. congruence.
    + apply io_bind_inv in E as [([] & w2 & E2%io_wrapf_Ok & E)|(e & _ & ?)]; [|done].
      injection E as <- <-. apply os_WriteFile_run in E2 as (f' & Hf' & Hd); [|done].
      split_and!; [apply (Hread f'); [by rewrite Hf', lookup_insert_eq|done]| |].
      * intros old' [= <-]. by rewrite bool_decide_eq_false_2.
      * intros p Hp. by rewrite Hf', lookup_insert_ne.
  - apply eq_None_not_Some in Hex. rewrite Hex in Hr0.
    apply io_bind_inv in E as [([] & w2 & E2%io_wrapf_Ok & E)|(e & _ & ?)]; [|done].
    injection E as <- <-. apply os_WriteFile_run in E2 as (f' & Hf' & Hd); [|done].
    split_and!; [apply (Hread f'); [by rewrite Hf', lookup_insert_eq|done]| |].
    + intros old ->. rewrite (Hr0 old eq_refl). f_equal. by apply bool_decide_ext.
    + intros p Hp. by rewrite Hf', lookup_insert_ne.
Qed.
End Lemmas.

(** *** Witnesses *)

Definition demo_pki : ControlPlanePKI :=
  mkControlPlanePKI (mkOpts true false "node" [] [] 0 0)
    (λ f, match f with CAKey => EmptyString | KubeletKey => "key" | _ => "certificate" end).

Lemma ensureFile_correct_witness :
  ∃ w', @ensureFile demo_os "/pki/ca.crt" "new" 0 0 384 (demo_world [("/pki/ca.crt", "old")]) = (Ok true, w') ∧
    w_files w' !! "/pki/ca.crt" = Some (mkFile "new" 384 0 0).
Proof.
  destruct (@ensureFile demo_os "/pki/ca.crt" "new" 0 0 384 (demo_world [("/pki/ca.crt", "old")]))
    as [r w'] eqn:E.
  pose proof (f_equal fst E) as Er. vm_compute in Er. simpl in Er. subst r. exists w'. split; [done|].
  destruct (@ensureFile_correct demo_os demo_os_ok _ _ _ _ _ _ _ _ E) as [-> _];
    [intros fs; vm_compute; discriminate|]. vm_compute. reflexivity.
Defined.

Lemma EnsureControlPlanePKI_correct_witness :
  ∃ w', @EnsureControlPlanePKI demo_os demo_snap demo_pki
          (demo_world [("/etc/kubernetes/pki/ca.key", "old")]) = (Ok true, w') ∧
    w_files w' !! "/etc/kubernetes/pki/ca.key" = None.
Proof.
  destruct (@EnsureControlPlanePKI demo_os demo_snap demo_pki
              (demo_world [("/etc/kubernetes/pki/ca.key", "old")])) as [r w'] eqn:E.
  pose proof (f_equal fst E) as Er. vm_compute in Er. simpl in Er. subst r. exists w'. split; [done|].
  destruct (@EnsureControlPlanePKI_correct demo_os demo_os_ok _ _ _ _ _ E) as [Hf _].
  - demo_nodup.
  - intros fs. apply Forall_forall.
    repeat (apply Forall_cons_2; [vm_compute; discriminate|]). apply Forall_nil_2.
  - apply (Hf "/etc/kubernetes/pki/ca.key" EmptyString). do 5 right. by left.
Defined.

Lemma UpdateDqliteFailureDomain_roundtrip_witness :
  ∃ w', @UpdateDqliteFailureDomain demo_os 18446744073709551615 "/db" (demo_world []) = (Ok true, w') ∧
    (∀ v', (@GetDqliteFailureDomain demo_os "/db" w').1 = Ok v' → v' = 18446744073709551615%Z).
Proof.
  destruct (@UpdateDqliteFailureDomain demo_os 18446744073709551615 "/db" (demo_world []))
    as [r w'] eqn:E.
  pose proof (f_equal fst E) as Er. vm_compute in Er. simpl in Er. subst r. exists w'. split; [done|].
  intros v' Hv'. destruct (@GetDqliteFailureDomain demo_os "/db" w') as [r2 w2] eqn:E2.
  destruct (@UpdateDqliteFailureDomain_roundtrip demo_os demo_os_ok 18446744073709551615 "/db"
    (demo_world []) true w' ltac:(lia) E) as [Hr _]. by apply (Hr r2 w2 E2).
Defined.
End Node.
