(* ===== verification/Database.v ===== *)
(** * The cluster database

    pkg/k8sd/database: the cluster configuration, the authentication tokens, the worker
    tokens, the ClusterAPI token and the feature status, as functions on the tables the
    SQL statements of pkg/k8sd/database/sql read and write.  An operation runs in a
    transaction: on an error the caller discards its changes.

    External: the database engine, which may fail any statement; the JSON codec of the
    stored configuration; the source of random bytes and the clock, which are arguments. *)

From S2P Require Import Prelude GoStrings Config ConfigValidate ConfigMerge.
Import GoStr Config Validation Merge.

Module Database.

(** A row of kubernetes_auth_tokens, worker_tokens and feature_status. *)
Record TokenRow := mkTokenRow { t_token : string; t_username : string; t_groups : string }.
Record WorkerRow := mkWorkerRow { wt_name : string; wt_token : string; wt_expiry : Z }.
(** [UpdatedAt] is a time in nanoseconds. *)
Record FeatureStatus := mkFeatureStatus {
  fs_Enabled : bool; fs_Message : string; fs_Version : string; fs_UpdatedAt : Z }.

(** The tables; the rows of a table without a unique key are in the order of their ids.
    The timestamp of a feature is stored in seconds. *)
Record DB := mkDB {
  db_cluster_configs : gmap string string;
  db_tokens : list TokenRow;
  db_worker_tokens : list WorkerRow;
  db_feature_status : gmap string FeatureStatus }.

Inductive stmt :=
| PrepareSelect | PrepareInsert | PrepareDelete | ExecInsert | ExecDelete | QuerySelect | ReadRows.

Class DBEnv := {
  db_fail : stmt → option goerr;
  json_Marshal : ClusterConfig → res string;
  json_Unmarshal : string → res ClusterConfig;
  (** The configurations whose strings the codec can represent (valid UTF-8, and no
      pointer to a nil slice). *)
  json_representable : ClusterConfig → Prop }.

(** What decoding gives back: an empty map of annotations is omitted, and read as nil. *)
Definition json_norm (c : ClusterConfig) : ClusterConfig :=
  mkClusterConfig (CC_Certificates c) (CC_Datastore c) (CC_APIServer c) (CC_Kubelet c)
    (CC_Network c) (CC_DNS c) (CC_Ingress c) (CC_LoadBalancer c) (CC_Gateway c)
    (CC_LocalStorage c) (CC_MetricsServer c)
    (match CC_Annotations c with
     | Some m => if bool_decide (m = ∅) then None else Some m
     | None => None
     end).

(** The codec's contract: what was encoded decodes, up to [json_norm]. *)
Class JsonOk `{DBEnv} : Prop :=
  json_roundtrip : ∀ c s, json_representable c → json_Marshal c = Ok s →
    json_Unmarshal s = Ok (json_norm c).

Section Database.
Context `{DBEnv}.

(** A statement of the database. *)
Definition db_stmt (s : stmt) : res unit :=
  match db_fail s with Some e => Err e | None => Ok tt end.

(** ** cluster_config.go *)

Definition GetClusterConfig (d : DB) : res ClusterConfig :=
  _ ← wrapf "failed to prepare statement: %w" [] (db_stmt PrepareSelect);
  match db_fail QuerySelect with
  | Some e => Err (Wrapf "failed to retrieve v1alpha2 config: %w" [] e)
  | None =>
      match db_cluster_configs d !! "v1alpha2" with
      | None => Ok empty_ClusterConfig
      | Some s => wrapf "failed to parse v1alpha2 config: %w" [] (json_Unmarshal s)
      end
  end.

Definition put_config (key value : string) (d : DB) : DB :=
  mkDB (<[key := value]> (db_cluster_configs d)) (db_tokens d) (db_worker_tokens d)
    (db_feature_status d).

Definition SetClusterConfig `{Externals} (new : ClusterConfig) (d : DB) : res (ClusterConfig * DB) :=
  old ← wrapf "failed to fetch existing cluster config: %w" [] (GetClusterConfig d);
  config ← wrapf "failed to merge new cluster configuration options: %w" [] (MergeClusterConfig old new);
  b ← wrapf "failed to encode cluster config: %w" [] (json_Marshal config);
  _ ← wrapf "failed to prepare insert statement: %w" [] (db_stmt PrepareInsert);
  _ ← wrapf "failed to insert v1alpha2 config: %w" [] (db_stmt ExecInsert);
  Ok (config, put_config "v1alpha2" b d).

(** ** capi_auth.go *)

Definition SetClusterAPIToken (token : string) (d : DB) : res DB :=
  _ ← fails_if (token ==? EmptyString) (Errorf "token cannot be empty" []);
  _ ← wrapf "failed to prepare insert statement: %w" [] (db_stmt PrepareInsert);
  _ ← wrapf "insert ClusterAPI token query failed: %w" [] (db_stmt ExecInsert);
  Ok (put_config "token::capi" token d).

Definition ValidateClusterAPIToken (token : string) (d : DB) : res bool :=
  _ ← wrapf "failed to prepare select statement: %w" [] (db_stmt PrepareSelect);
  _ ← wrapf "failed to query ClusterAPI token: %w" [] (db_stmt QuerySelect);
  Ok (bool_decide (db_cluster_configs d !! "token::capi" = Some token)).

(** ** kubernetes_auth_tokens.go *)

Fixpoint groups_loop (inGroups : list string) (groupMap : gset string) (groups : list string)
    : res (list string) :=
  match inGroups with
  | [] => Ok groups
  | group :: inGroups =>
      if group ==? EmptyString then Err (Errorf "group cannot be empty" [])
      else if bool_decide (group ∈ groupMap) then Err (Errorf "duplicate group %s" [group])
      else groups_loop inGroups ({[group]} ∪ groupMap) (groups ++ [group])
  end.
Definition groupsToString (inGroups : list string) : res string :=
  groups ← groups_loop inGroups ∅ [];
  Ok (join "," (sort_Strings groups)).
Definition groupsToList (inGroups : string) : list string :=
  if inGroups ==? EmptyString then [] else split "," inGroups.

Definition CheckToken (token : string) (d : DB) : res (string * list string) :=
  _ ← wrapf "failed to prepare statement: %w" [] (db_stmt PrepareSelect);
  match db_fail QuerySelect with
  | Some e => Err (Wrapf "failed to check token: %w" [] e)
  | None =>
      match List.find (λ r, t_token r ==? token) (db_tokens d) with
      | None => Err (Errorf "invalid token" [])
      | Some r => Ok (t_username r, groupsToList (t_groups r))
      end
  end.

(** [hex.EncodeToString]. *)
Definition hex_digit (n : Z) : ascii :=
  ascii_of_N (Z.to_N (if (n <? 10)%Z then 48 + n else 87 + n)).
Fixpoint hex_EncodeToString (b : list Z) : string :=
  match b with
  | [] => EmptyString
  | x :: b => String (hex_digit (Z.shiftr x 4)) (String (hex_digit (Z.land x 15)) (hex_EncodeToString b))
  end.

(** [rand] is what [rand.Read] of 20 bytes gives. *)
Definition GetOrCreateToken (rand : res (list Z)) (username : string) (groups : list string) (d : DB)
    : res (string * DB) :=
  _ ← fails_if (username ==? EmptyString) (Errorf "username cannot be empty" []);
  groupsString ← wrapf "invalid groups: %w" [] (groupsToString groups);
  _ ← wrapf "failed to prepare select statement: %w" [] (db_stmt PrepareSelect);
  let existing :=
    match db_fail QuerySelect with
    | Some _ => None
    | None => List.find (λ r, (t_username r ==? username) && (t_groups r ==? groupsString)) (db_tokens d)
    end in
  match existing with
  | Some r => Ok (t_token r, d)
  | None =>
      b ← wrapf "is the system entropy low? failed to get random bytes: %w" [] rand;
      let token := "token::" +:+ hex_EncodeToString b in
      _ ← wrapf "failed to prepare insert statement: %w" [] (db_stmt PrepareInsert);
      _ ← wrapf "insert token query failed: %w" [] (db_stmt ExecInsert);
      Ok (token, mkDB (db_cluster_configs d) (db_tokens d ++ [mkTokenRow token username groupsString])
                   (db_worker_tokens d) (db_feature_status d))
  end.

Definition DeleteToken (token : string) (d : DB) : res DB :=
  _ ← fails_if (token ==? EmptyString) (Errorf "token cannot be empty" []);
  _ ← wrapf "failed to prepare delete statement: %w" [] (db_stmt PrepareDelete);
  _ ← wrapf "delete token query failed: %w" [] (db_stmt ExecDelete);
  Ok (mkDB (db_cluster_configs d) (List.filter (λ r, t_token r !=? token) (db_tokens d))
        (db_worker_tokens d) (db_feature_status d)).

(** ** worker.go *)

(** [now] is [time.Now()]; the constant-time comparison is an equality. *)
Definition CheckWorkerNodeToken (now : Z) (nodeName token : string) (d : DB) : res bool :=
  _ ← wrapf "failed to prepare select statement: %w" [] (db_stmt PrepareSelect);
  match db_fail QuerySelect with
  | Some _ => Ok false
  | None =>
      match List.find (λ r, wt_token r ==? token) (db_worker_tokens d) with
      | None => Ok false
      | Some r => Ok (((wt_name r ==? EmptyString) || (nodeName ==? wt_name r)) && (now <? wt_expiry r)%Z)
      end
  end.

Definition GetOrCreateWorkerNodeToken (rand : res (list Z)) (nodeName : string) (expiry : Z) (d : DB)
    : res (string * DB) :=
  _ ← wrapf "failed to prepare insert statement: %w" [] (db_stmt PrepareInsert);
  b ← wrapf "is the system entropy low? failed to get random bytes: %w" [] rand;
  let token := "worker::" +:+ hex_EncodeToString b in
  _ ← wrapf "insert token query failed: %w" [] (db_stmt ExecInsert);
  Ok (token, mkDB (db_cluster_configs d) (db_tokens d)
               (db_worker_tokens d ++ [mkWorkerRow nodeName token expiry]) (db_feature_status d)).

(** The argument is called [nodeName] in the source; the statement compares tokens. *)
Definition DeleteWorkerNodeToken (nodeName : string) (d : DB) : res DB :=
  _ ← wrapf "failed to prepare delete statement: %w" [] (db_stmt PrepareDelete);
  _ ← wrapf "delete token query failed: %w" [] (db_stmt ExecDelete);
  Ok (mkDB (db_cluster_configs d) (db_tokens d)
        (List.filter (λ r, wt_token r !=? nodeName) (db_worker_tokens d)) (db_feature_status d)).

(** ** feature_status.go *)

Definition second : Z := 1000000000.

(** [time.RFC3339] has seconds; the fraction is dropped. *)
Definition SetFeatureStatus (name : string) (status : FeatureStatus) (d : DB) : res DB :=
  _ ← wrapf "failed to prepare upsert statement: %w" [] (db_stmt PrepareInsert);
  _ ← wrapf "failed to execute upsert statement: %w" [] (db_stmt ExecInsert);
  let row := mkFeatureStatus (fs_Enabled status) (fs_Message status) (fs_Version status)
               (fs_UpdatedAt status / second) in
  Ok (mkDB (db_cluster_configs d) (db_tokens d) (db_worker_tokens d)
        (<[name := row]> (db_feature_status d))).

(** A failure while the rows are read is reported with the error of an earlier call,
    which is nil at that point. *)
Definition GetFeatureStatuses (d : DB) : res (gmap string FeatureStatus) :=
  _ ← wrapf "failed to prepare select statement: %w" [] (db_stmt PrepareSelect);
  _ ← wrapf "failed to execute select statement: %w" [] (db_stmt QuerySelect);
  _ ← fails_if (match db_fail ReadRows with Some _ => true | None => false end)
        (Errorf "failed to read rows: %w" []);
  Ok ((λ row, mkFeatureStatus (fs_Enabled row) (fs_Message row) (fs_Version row)
                (fs_UpdatedAt row * second)) <$> db_feature_status d).

(** ** The life of a database *)

(** One successful transaction. *)
Inductive transaction `{Externals} : DB → DB → Prop :=
| TxSetClusterConfig new c d d' : json_representable c →
    SetClusterConfig new d = Ok (c, d') → transaction d d'
| TxSetClusterAPIToken token d d' : SetClusterAPIToken token d = Ok d' → transaction d d'
| TxGetOrCreateToken rand u gs t d d' : GetOrCreateToken rand u gs d = Ok (t, d') → transaction d d'
| TxDeleteToken token d d' : DeleteToken token d = Ok d' → transaction d d'
| TxWorkerToken rand n e t d d' : GetOrCreateWorkerNodeToken rand n e d = Ok (t, d') → transaction d d'
| TxDeleteWorkerToken t d d' : DeleteWorkerNodeToken t d = Ok d' → transaction d d'
| TxSetFeatureStatus name st d d' : SetFeatureStatus name st d = Ok d' → transaction d d'.
End Database.

(** ** Lemmas *)

Lemma Annotations_Get_norm (m : gmap string string) k :
  Annotations_Get (if bool_decide (m = ∅) then None else Some m) k = Annotations_Get (Some m) k.
Proof. case_bool_decide as E; [|done]. subst m. simpl. by rewrite lookup_empty. Qed.

Lemma Validate_norm `{Externals} c : Validate (json_norm c) = Validate c.
Proof.
  destruct c as [? ? ? ? ? ? ? ? ? ? ? [m|]]; [|done]. unfold json_norm. cbn [CC_Annotations].
  unfold Validate, check_bgp. cbn. by rewrite ?Annotations_Get_norm.
Qed.

(** The fields of the stored configuration that no update may change once set. *)
Definition protected : list (ClusterConfig → option string) :=
  [CC_Certificates ▸ Certificates_CACert; CC_Certificates ▸ Certificates_CAKey;
   CC_Certificates ▸ Certificates_ClientCACert; CC_Certificates ▸ Certificates_ClientCAKey;
   CC_Certificates ▸ Certificates_FrontProxyCACert; CC_Certificates ▸ Certificates_FrontProxyCAKey;
   CC_Certificates ▸ Certificates_ServiceAccountKey; CC_Certificates ▸ Certificates_K8sdPublicKey;
   CC_Certificates ▸ Certificates_K8sdPrivateKey; CC_Datastore ▸ Datastore_Type;
   CC_Datastore ▸ Datastore_EtcdCACert; CC_Datastore ▸ Datastore_EtcdCAKey;
   CC_Network ▸ Network_PodCIDR; CC_Network ▸ Network_ServiceCIDR].
Definition preserves (c c' : ClusterConfig) : Prop :=
  Forall (λ f : ClusterConfig → option string, ∀ x, f c = Some x → f c' = Some x) protected.

Lemma preserves_refl c : preserves c c.
Proof. by apply Forall_forall. Qed.
Lemma preserves_trans c1 c2 c3 : preserves c1 c2 → preserves c2 c3 → preserves c1 c3.
Proof. unfold preserves. rewrite !Forall_forall. intros H1 H2 f Hf x Hx. apply H2, H1; done. Qed.

Lemma overlay_keeps {T} `{EqDecision T} (o n : option T) x :
  changed o n = false → o = Some x → overlay o n = Some x.
Proof.
  intros Hc ->. destruct n as [y|]; [|done]. cbn in *.
  by apply negb_false_iff, bool_decide_eq_true in Hc as ->.
Qed.

Lemma preserves_merge `{Externals} old new c : MergeClusterConfig old new = Ok c →
  preserves old (json_norm c).
Proof.
  intros (HF & -> & _)%MergeClusterConfig_Ok. unfold Frozen, keeps in HF. destruct_and! HF.
  unfold preserves, protected.
  repeat (apply Forall_cons_2; [intros x Hx; cbn; unfold newer; by apply overlay_keeps|]).
  apply Forall_nil_2.
Qed.

Section Properties.
Context `{JsonOk, Externals}.

Lemma GetClusterConfig_eq d : db_fail PrepareSelect = None → db_fail QuerySelect = None →
  GetClusterConfig d = match db_cluster_configs d !! "v1alpha2" with
    | None => Ok empty_ClusterConfig
    | Some s => wrapf "failed to parse v1alpha2 config: %w" [] (json_Unmarshal s) end.
Proof. intros E1 E2. unfold GetClusterConfig, db_stmt. by rewrite E1, E2. Qed.

Lemma SetClusterConfig_Ok new d c d' : SetClusterConfig new d = Ok (c, d') →
  ∃ old s, GetClusterConfig d = Ok old ∧ MergeClusterConfig old new = Ok c ∧
    json_Marshal c = Ok s ∧ d' = put_config "v1alpha2" s d.
Proof.
  unfold SetClusterConfig. intros Hs.
  apply bind_Ok in Hs as (old & Hg%wrapf_Ok & Hs). apply bind_Ok in Hs as (m & Hm%wrapf_Ok & Hs).
  apply bind_Ok in Hs as (b & Hb%wrapf_Ok & Hs). apply bind_unit_Ok in Hs as [_ Hs].
  apply bind_unit_Ok in Hs as [_ Hs]. injection Hs as -> <-. by exists old, b.
Qed.

(** A transaction either stores a new configuration or leaves the stored one. *)
Lemma transaction_config d d' : transaction d d' →
  db_cluster_configs d' !! "v1alpha2" = db_cluster_configs d !! "v1alpha2" ∨
  ∃ old new c s, GetClusterConfig d = Ok old ∧ MergeClusterConfig old new = Ok c ∧
    json_representable c ∧ json_Marshal c = Ok s ∧ db_cluster_configs d' !! "v1alpha2" = Some s.
Proof.
  intros Ht. destruct Ht as [new c d d' Hr Hs|token d d' Hs|rand u gs t d d' Hs|token d d' Hs
    |rand n e t d d' Hs|t d d' Hs|name st d d' Hs].
  - apply SetClusterConfig_Ok in Hs as (old & s & ? & ? & ? & ->). right.
    exists old, new, c, s. split_and!; try done. cbn -[insert lookup]. apply lookup_insert_eq.
  - left. unfold SetClusterAPIToken in Hs. repeat apply bind_unit_Ok in Hs as [_ Hs].
    injection Hs as <-. cbn -[insert lookup]. by rewrite lookup_insert_ne.
  - left. unfold GetOrCreateToken in Hs. apply bind_unit_Ok in Hs as [_ Hs].
    apply bind_Ok in Hs as (g & _ & Hs). apply bind_unit_Ok in Hs as [_ Hs].
    destruct (match db_fail QuerySelect with Some _ => None | None => _ end);
      [by injection Hs as _ <-|]. apply bind_Ok in Hs as (b & _ & Hs).
    repeat apply bind_unit_Ok in Hs as [_ Hs]. by injection Hs as _ <-.
  - left. unfold DeleteToken in Hs. repeat apply bind_unit_Ok in Hs as [_ Hs]. by injection Hs as <-.
  - left. unfold GetOrCreateWorkerNodeToken in Hs. apply bind_unit_Ok in Hs as [_ Hs].
    apply bind_Ok in Hs as (b & _ & Hs). apply bind_unit_Ok in Hs as [_ Hs]. by injection Hs as _ <-.
  - left. unfold DeleteWorkerNodeToken in Hs. repeat apply bind_unit_Ok in Hs as [_ Hs].
    by injection Hs as <-.
  - left. unfold SetFeatureStatus in Hs. repeat apply bind_unit_Ok in Hs as [_ Hs]. by injection Hs as <-.
Qed.

End Properties.

(** ** Authentication tokens *)

Lemma groups_loop_Ok gs seen acc r :
  groups_loop gs seen acc = Ok r ↔
  r = acc ++ gs ∧ NoDup gs ∧ Forall (λ g, g ≠ EmptyString) gs ∧ (∀ g, g ∈ gs → g ∉ seen).
Proof.
  revert seen acc. induction gs as [|g gs IH]; intros seen acc; simpl.
  - rewrite app_nil_r. split.
    + intros [= ->]. split_and!; [done|constructor|constructor|set_solver].
    + by intros [-> _].
  - case_bool_decide as Hg; [split; [done|intros (_ & _ & Hf & _); by inversion Hf]|].
    case_bool_decide as Hs; [split; [done|intros (_ & _ & _ & Hf)]|].
    { destruct (Hf g); [by left|done]. }
    rewrite IH, <- app_assoc, NoDup_cons, Forall_cons. cbn [app]. set_solver.
Qed.

Lemma groupsToString_Ok gs s : groupsToString gs = Ok s ↔
  s = join "," (sort_Strings gs) ∧ NoDup gs ∧ Forall (λ g, g ≠ EmptyString) gs.
Proof.
  unfold groupsToString. rewrite bind_Ok. setoid_rewrite groups_loop_Ok. simpl. split.
  - intros (r & (-> & Hn & Hf & _) & [= <-]). done.
  - intros (-> & Hn & Hf). exists gs. split_and!; [done..| |done]. set_solver.
Qed.

Lemma groups_roundtrip gs : Forall (λ g, g ≠ EmptyString) gs →
  Forall (λ g, contains_char "," g = false) gs →
  groupsToList (join "," (sort_Strings gs)) = sort_Strings gs.
Proof.
  intros Hne Hc. rewrite <- (sort_Strings_Permutation gs) in Hne, Hc.
  unfold groupsToList. destruct (sort_Strings gs) as [|g l]; [done|].
  case_bool_decide as E.
  - apply Forall_cons in Hne as [Hg _]. destruct g; [done|]. by destruct l.
  - change "," with (one ","). by apply split_join.
Qed.

Lemma groupsToString_perm gs gs' s : gs ≡ₚ gs' → groupsToString gs = Ok s → groupsToString gs' = Ok s.
Proof.
  intros Hp (-> & Hn & Hf)%groupsToString_Ok. apply groupsToString_Ok.
  rewrite <- Hp. split_and!; [|done..]. by rewrite Hp.
Qed.

Lemma find_app {A} (f : A → bool) l l' :
  List.find f (l ++ l') = match List.find f l with Some x => Some x | None => List.find f l' end.
Proof. induction l as [|x l IH]; [done|]. simpl. by destruct (f x). Qed.

Lemma find_unique {A} (f : A → string) l x : NoDup (map f l) → x ∈ l →
  List.find (λ y, f y ==? f x) l = Some x.
Proof.
  induction l as [|y l IH]; [set_solver|]. cbn [map]. intros [Hy Hn]%NoDup_cons [->|Hx]%elem_of_cons.
  - simpl. by rewrite bool_decide_eq_true_2.
  - simpl. rewrite bool_decide_eq_false_2; [by apply IH|]. intros E. apply Hy. rewrite E.
    apply list_elem_of_In, in_map. by apply list_elem_of_In.
Qed.

Lemma find_none {A} (f : A → string) l t : t ∉ map f l → List.find (λ y, f y ==? t) l = None.
Proof.
  induction l as [|y l IH]; [done|]. cbn [map]. intros Ht. simpl.
  rewrite bool_decide_eq_false_2 by set_solver. apply IH. set_solver.
Qed.

Section Tokens.
Context `{DBEnv}.

Lemma CheckToken_eq t d : db_fail PrepareSelect = None → db_fail QuerySelect = None →
  CheckToken t d = match List.find (λ r, t_token r ==? t) (db_tokens d) with
    | None => Err (Errorf "invalid token" [])
    | Some r => Ok (t_username r, groupsToList (t_groups r)) end.
Proof. intros E1 E2. unfold CheckToken, db_stmt. by rewrite E1, E2. Qed.

Definition identity_row (u g : string) (r : TokenRow) : bool :=
  (t_username r ==? u) && (t_groups r ==? g).

(** The row a token request returns: it exists for the identity, and is the first. *)
Lemma GetOrCreateToken_row rand u gs d t d' :
  db_fail QuerySelect = None → GetOrCreateToken rand u gs d = Ok (t, d') →
  u ≠ EmptyString ∧ ∃ g row, groupsToString gs = Ok g ∧
    List.find (identity_row u g) (db_tokens d') = Some row ∧ t_token row = t ∧
    (d' = d ∨ ∃ b, rand = Ok b ∧ t = "token::" +:+ hex_EncodeToString b ∧
       db_tokens d' = db_tokens d ++ [row]).
Proof.
  intros E2. unfold GetOrCreateToken. rewrite E2. intros Hs.
  apply bind_unit_Ok in Hs as [Hu%fails_if_Ok Hs]. apply bool_decide_eq_false in Hu.
  apply bind_Ok in Hs as (g & Hg%wrapf_Ok & Hs). apply bind_unit_Ok in Hs as [_ Hs].
  split; [done|]. exists g.
  destruct (List.find _ (db_tokens d)) as [r|] eqn:Ef.
  - injection Hs as <- <-. exists r. split_and!; [done|exact Ef|done|by left].
  - apply bind_Ok in Hs as (b & Hb%wrapf_Ok & Hs). repeat apply bind_unit_Ok in Hs as [_ Hs].
    injection Hs as <- <-. exists (mkTokenRow ("token::" +:+ hex_EncodeToString b) u g). split_and!; [done| |done|right; by exists b].
    cbn [db_tokens]. rewrite find_app. unfold identity_row. rewrite Ef. simpl.
    by rewrite !bool_decide_eq_true_2.
Qed.

(** Tokens authenticate who they were made for: a token obtained for a user and groups
    (no group with a comma, the new random token not already in use) is checked back to
    that user and those groups, sorted; asking again, with the groups in any order,
    returns the same token; once deleted it is invalid. *)
Theorem GetOrCreateToken_CheckToken rand u gs d t d' :
  db_fail PrepareSelect = None → db_fail QuerySelect = None →
  GetOrCreateToken rand u gs d = Ok (t, d') →
  Forall (λ g, contains_char "," g = false) gs →
  NoDup (map t_token (db_tokens d)) →
  (∀ b, rand = Ok b → "token::" +:+ hex_EncodeToString b ∉ map t_token (db_tokens d)) →
  CheckToken t d' = Ok (u, sort_Strings gs) ∧
  (∀ rand' gs', gs' ≡ₚ gs → GetOrCreateToken rand' u gs' d' = Ok (t, d')) ∧
  (∀ d'', DeleteToken t d' = Ok d'' → CheckToken t d'' = Err (Errorf "invalid token" [])).
Proof.
  intros E1 E2 Hs Hcomma Hnd Hfresh.
  destruct (GetOrCreateToken_row _ _ _ _ _ _ E2 Hs) as (Hu & g & row & Hg & Hf & <- & Hd').
  pose proof (List.find_some _ _ Hf) as [Hin Hid].
  assert (Hnd' : NoDup (map t_token (db_tokens d'))).
  { destruct Hd' as [->|(b & Hb & Ht & ->)]; [done|]. rewrite map_app. cbn [map].
    apply NoDup_app. split_and!; [done| |apply NoDup_singleton].
    intros x Hx ->%list_elem_of_singleton. rewrite Ht in Hx. by apply (Hfresh b). }
  split_and!.
  - rewrite CheckToken_eq by done. rewrite (find_unique t_token) by (done || by apply list_elem_of_In).
    unfold identity_row in Hid. apply andb_true_iff in Hid as [->%bool_decide_eq_true ->%bool_decide_eq_true].
    apply groupsToString_Ok in Hg as (-> & _ & Hne). by rewrite groups_roundtrip.
  - intros rand' gs' Hp. unfold GetOrCreateToken, db_stmt.
    rewrite bool_decide_eq_false_2, E1, E2 by done.
    rewrite (groupsToString_perm gs gs' g) by done. cbn. unfold identity_row in Hf. by rewrite Hf.
  - intros d'' Hdel. unfold DeleteToken in Hdel. repeat apply bind_unit_Ok in Hdel as [_ Hdel].
    injection Hdel as <-. rewrite CheckToken_eq by done. cbn [db_tokens].
    rewrite (find_none t_token); [done|]. intros (x & Hx & Hin')%list_elem_of_In%in_map_iff.
    apply filter_In in Hin' as [_ Hn]. apply negb_true_iff, bool_decide_eq_false in Hn. done.
Qed.

(** A group name is not escaped when the groups are stored: a token requested for the
    single group ["dev,system:masters"] authenticates as a member of the two groups
    [dev] and [system:masters], and is the token of that identity too. *)
Theorem group_with_comma_is_split rand b d :
  db_fail PrepareSelect = None → db_fail QuerySelect = None →
  db_fail PrepareInsert = None → db_fail ExecInsert = None →
  rand = Ok b → db_tokens d = [] →
  ∃ t d', GetOrCreateToken rand "alice" ["dev,system:masters"] d = Ok (t, d') ∧
    CheckToken t d' = Ok ("alice", ["dev"; "system:masters"]) ∧
    GetOrCreateToken rand "alice" ["system:masters"; "dev"] d' = Ok (t, d').
Proof.
  intros E1 E2 E3 E4 -> Hd. unfold GetOrCreateToken, db_stmt. rewrite E1, E2, E3, E4, Hd.
  eexists _, _. split; [reflexivity|]. split.
  - rewrite CheckToken_eq by done. cbn [db_tokens app List.find t_token].
    by rewrite bool_decide_eq_true_2.
  - reflexivity.
Qed.

(** A worker token admits the node it was made for, or any node when it was made for
    none, until it expires, and no one once it is deleted. *)
Theorem worker_token_lifecycle rand node expiry d t d' now who :
  db_fail PrepareSelect = None → db_fail QuerySelect = None →
  GetOrCreateWorkerNodeToken rand node expiry d = Ok (t, d') →
  t ∉ map wt_token (db_worker_tokens d) →
  (CheckWorkerNodeToken now who t d' = Ok true ↔
     (node = EmptyString ∨ who = node) ∧ (now < expiry)%Z) ∧
  (∀ t', t' ≠ t → CheckWorkerNodeToken now who t' d' = CheckWorkerNodeToken now who t' d) ∧
  (∀ d'', DeleteWorkerNodeToken t d' = Ok d'' → CheckWorkerNodeToken now who t d'' = Ok false).
Proof.
  intros E1 E2 Hs Hfresh. unfold GetOrCreateWorkerNodeToken in Hs.
  apply bind_unit_Ok in Hs as [_ Hs]. apply bind_Ok in Hs as (b & _ & Hs).
  apply bind_unit_Ok in Hs as [_ Hs]. injection Hs as Ht <-. rewrite Ht.
  unfold CheckWorkerNodeToken, db_stmt. rewrite E1, E2. cbn [db_worker_tokens]. split_and!.
  - rewrite find_app, (find_none wt_token) by done. cbn. rewrite bool_decide_eq_true_2 by done. cbn.
    split.
    + intros [= [[Hn|Hn]%orb_true_iff Hlt%Z.ltb_lt]%andb_true_iff];
        apply bool_decide_eq_true in Hn; auto.
    + intros [Hn Hlt%Z.ltb_lt]. rewrite Hlt, andb_true_r. f_equal.
      apply orb_true_iff. rewrite !bool_decide_eq_true. naive_solver.
  - intros t' Hne. rewrite find_app. destruct (List.find _ (db_worker_tokens d)); [done|].
    cbn. by rewrite bool_decide_eq_false_2.
  - intros d'' Hdel. unfold DeleteWorkerNodeToken in Hdel. repeat apply bind_unit_Ok in Hdel as [_ Hdel].
    injection Hdel as <-. cbn [db_worker_tokens]. rewrite (find_none wt_token); [done|].
    intros (x & Hx & Hin)%list_elem_of_In%in_map_iff. apply filter_In in Hin as [_ Hn].
    by apply negb_true_iff, bool_decide_eq_false in Hn.
Qed.
End Tokens.

(** *** Witnesses *)

(** A database that never fails, whose codec knows two configurations. *)
Definition demo_db : DBEnv := {|
  db_fail _ := None;
  json_Marshal c := if decide (c = base_config) then Ok "base" else Err (Errorf "unsupported" []);
  json_Unmarshal s := if s ==? "base" then Ok (json_norm base_config) else Err (Errorf "invalid" [s]);
  json_representable c := True |}.

Lemma demo_json_ok : @JsonOk demo_db.
Proof.
  intros c s _ Hm. simpl in Hm. destruct (decide (c = base_config)) as [->|]; [|done].
  by injection Hm as <-.
Qed.

Definition empty_db : DB := mkDB ∅ [] [] ∅.
Definition base_db : DB := mkDB {["v1alpha2" := "base"]} [] [] ∅.


Lemma GetOrCreateToken_CheckToken_witness :
  ∃ d', @GetOrCreateToken demo_db (Ok [1; 255])%Z "alice" ["b"; "a"] empty_db = Ok ("token::01ff", d') ∧
    @CheckToken demo_db "token::01ff" d' = Ok ("alice", ["a"; "b"]).
Proof.
  eexists. split; [reflexivity|].
  destruct (@GetOrCreateToken_CheckToken demo_db (Ok [1; 255])%Z "alice" ["b"; "a"] empty_db
    "token::01ff" (mkDB ∅ [mkTokenRow "token::01ff" "alice" "a,b"] [] ∅)) as [Hc _];
    [reflexivity..|by repeat constructor|constructor|set_solver|]. exact Hc.
Defined.

Lemma group_with_comma_is_split_witness :
  ∃ t d', @GetOrCreateToken demo_db (Ok [7])%Z "alice" ["dev,system:masters"] empty_db = Ok (t, d') ∧
    @CheckToken demo_db t d' = Ok ("alice", ["dev"; "system:masters"]).
Proof.
  destruct (@group_with_comma_is_split demo_db (Ok [7])%Z [7]%Z empty_db) as (t & d' & H1 & H2 & _);
    [reflexivity..|]. by exists t, d'.
Defined.

Lemma worker_token_lifecycle_witness :
  ∃ d', @GetOrCreateWorkerNodeToken demo_db (Ok [7])%Z "w1" 100 empty_db = Ok ("worker::07", d') ∧
    @CheckWorkerNodeToken demo_db 99 "w1" "worker::07" d' = Ok true.
Proof.
  eexists. split; [reflexivity|].
  destruct (@worker_token_lifecycle demo_db (Ok [7])%Z "w1" 100 empty_db "worker::07"
    (mkDB ∅ [] [mkWorkerRow "w1" "worker::07" 100] ∅) 99 "w1") as [Hc _];
    [reflexivity..|set_solver|]. apply Hc. split; [by right|lia].
Defined.
End Database.
