(* ===== verification/Feature.v ===== *)
(** * The feature controller

    pkg/k8sd/controllers/feature.go with the channel helpers of pkg/utils/chan.go, the
    back-off of pkg/utils/time/backoff.go and the retry helper of
    pkg/utils/control/retry.go.

    A trigger or "reconciled" channel has one slot (pkg/k8sd/app/app.go, feature.go), so
    its state is whether it is full.  One turn of [reconcileLoop] is a function of what
    the calls it makes answer; the loop, its timers and whoever triggers it are the
    interleaved steps of a relation. *)

From S2P Require Import Prelude GoStrings Config Database.
From stdpp Require Import relations.
Import GoStr Config Database.

Module Feature.

(** ** pkg/utils/chan.go *)

Definition chan : Type := bool.
Definition MaybeNotify (ch : chan) : chan := true.
Definition MaybeReceive (ch : chan) : chan := false.

(** ** pkg/utils/time/backoff.go *)

(** [rand] is [rand.Int64N], which panics on an argument that is not positive; [None] is
    that panic.  A [Duration] is an int64 and its operations wrap around. *)
Definition ExponentialBackoff (rand : Z → Z) (attempt baseDelay maxDelay : Z) : option Z :=
  let exp := Z.min (Z.max 0 attempt) 32 in
  let d := Z.min (wrap64 (Z.shiftl baseDelay exp)) maxDelay in
  if (d <=? 0)%Z then None
  else
    let jitter := wrap64 (rand d - Z.quot d 2) in
    Some (wrap64 (d + jitter)).

(** What [rand.Int64N(n)] promises. *)
Definition Int64N_ok (rand : Z → Z) : Prop := ∀ n, (0 < n)%Z → (0 ≤ rand n < n)%Z.

Definition second : Z := 1000000000.
Definition minute : Z := 60 * second.

(** ** pkg/utils/control/retry.go *)

(** [retryFunc i] is the result of the [i]-th call, [cancelled i] whether the context is
    done while waiting after it; the number of calls made is returned too. *)
Definition context_Canceled : goerr := Errorf "context canceled" [].
Fixpoint retry_loop (n i : nat) (retryFunc : nat → option goerr) (cancelled : nat → bool)
    (err : option goerr) : option goerr * nat :=
  match n with
  | O => (err, i)
  | S n => match retryFunc i with
           | None => (None, S i)
           | Some e => if cancelled i then (Some context_Canceled, S i)
                       else retry_loop n (S i) retryFunc cancelled (Some e)
           end
  end.
Definition RetryFor (retryCount : Z) (retryFunc : nat → option goerr) (cancelled : nat → bool)
    : option goerr * nat :=
  retry_loop (Z.to_nat retryCount) 0 retryFunc cancelled None.

(** ** The controller *)

(** The phases of an upgrade, declared by k8s-snap-api as strings; [OtherPhase] is any
    other string, such as the empty phase of a resource that was just created. *)
Inductive UpgradePhase :=
| NodeUpgrade | FeatureUpgrade | Completed | Failed | OtherPhase (phase : string).
#[export] Instance UpgradePhase_eq_dec : EqDecision UpgradePhase.
Proof. solve_decision. Defined.

Inductive UpgradeStrategy :=
| RollingUpgrade | RollingDowngrade | InPlace | OtherStrategy (strategy : string).
#[export] Instance UpgradeStrategy_eq_dec : EqDecision UpgradeStrategy.
Proof. solve_decision. Defined.

(** The custom resource of an upgrade, and its status. *)
Record UpgradeStatus := mkUpgradeStatus {
  us_Phase : UpgradePhase;
  us_UpgradedNodes : list string;
  us_Strategy : UpgradeStrategy }.
#[export] Instance UpgradeStatus_eq_dec : EqDecision UpgradeStatus.
Proof. solve_decision. Defined.
Record Upgrade := mkUpgrade { up_Name : string; up_Status : UpgradeStatus }.
#[export] Instance Upgrade_eq_dec : EqDecision Upgrade.
Proof. solve_decision. Defined.

(** What the calls of one turn answer: the cluster configuration, read twice; the
    Kubernetes client and its in-progress upgrade; the application of the feature, and
    the update of its status. *)
Record Turn := mkTurn {
  tn_config_blocked : res ClusterConfig;
  tn_client : res unit;
  tn_upgrade : res (option Upgrade);
  tn_config : res ClusterConfig;
  tn_apply : ClusterConfig → FeatureStatus * option goerr;
  tn_status : FeatureStatus → option goerr;
  tn_rand : Z → Z }.

Section Controller.
Context `{Externals}.

Definition isBlocked (t : Turn) : res bool :=
  clusterConfig ← wrapf "failed to retrieve cluster configuration: %w" [] (tn_config_blocked t);
  let '(_, ok) := Annotations_Get (CC_Annotations clusterConfig) AnnotationDisableSeparateFeatureUpgrades in
  if negb ok then
    _ ← wrapf "failed to get Kubernetes client: %w" [] (tn_client t);
    upgrade ← wrapf "failed to check for in-progress upgrade: %w" [] (tn_upgrade t);
    match upgrade with
    | None => Ok false
    | Some upgrade => Ok (us_Phase (up_Status upgrade) !=? FeatureUpgrade)
    end
  else Ok false.

(** One application of a configuration: what [apply] returned for it, and whether its
    status could be stored. *)
Record Applied := mkApplied {
  ap_config : ClusterConfig; ap_status : FeatureStatus; ap_err : option goerr; ap_stored : bool }.

(** A failure to update the status is only logged. *)
Definition reconcile (t : Turn) : option Applied * res unit :=
  match tn_config t with
  | Err e => (None, Err (Wrapf "failed to retrieve cluster configuration: %w" [] e))
  | Ok cfg =>
      let '(status, applyErr) := tn_apply t cfg in
      let stored := match tn_status t status with None => true | Some _ => false end in
      (Some (mkApplied cfg status applyErr stored),
       match applyErr with
       | Some e => Err (Wrapf "failed to apply configuration: %w" [] e)
       | None => Ok tt
       end)
  end.

(** The state of a loop: its counter, its two channels, the delays of the pending timers.
    [lp_log] is a ghost, the applications so far with the newest first. *)
Record Loop := mkLoop {
  lp_attempts : Z;
  lp_trigger : chan;
  lp_reconciled : chan;
  lp_timers : list Z;
  lp_log : list Applied }.

(** The turn for one value received from [triggerCh].  [None] is a panic of the
    goroutine, which ends the process. *)
Definition reconcileLoop_turn (maxAttempts : Z) (t : Turn) (l : Loop) : option Loop :=
  let trigger : chan := false in
  let reconciled := MaybeReceive (lp_reconciled l) in
  match isBlocked t with
  | Err _ => Some (mkLoop (lp_attempts l) trigger reconciled ((5 * second)%Z :: lp_timers l) (lp_log l))
  | Ok true => Some (mkLoop (lp_attempts l) trigger reconciled (lp_timers l) (lp_log l))
  | Ok false =>
      let '(applied, r) := reconcile t in
      let log := match applied with Some a => a :: lp_log l | None => lp_log l end in
      match r with
      | Err _ =>
          let attempts := wrap64 (lp_attempts l + 1) in
          if ((maxAttempts <=? attempts) && (0 <? maxAttempts))%Z
          then Some (mkLoop 0 trigger reconciled (lp_timers l) log)
          else
            delay ← ExponentialBackoff (tn_rand t) attempts (3 * second) (5 * minute);
            Some (mkLoop attempts trigger reconciled (delay :: lp_timers l) log)
      | Ok _ => Some (mkLoop 0 trigger (MaybeNotify reconciled) (lp_timers l) log)
      end
  end.

(** The steps of a running loop: a turn, a timer that fires, a notification from
    elsewhere, and a reader of the "reconciled" channel. *)
Inductive loop_step (maxAttempts : Z) : Loop → option Loop → Prop :=
| LTurn t l : lp_trigger l = true → Int64N_ok (tn_rand t) →
    loop_step maxAttempts l (reconcileLoop_turn maxAttempts t l)
| LTimer l ts1 d ts2 : lp_timers l = ts1 ++ d :: ts2 →
    loop_step maxAttempts l (Some (mkLoop (lp_attempts l) (MaybeNotify (lp_trigger l))
      (lp_reconciled l) (ts1 ++ ts2) (lp_log l)))
| LNotify l :
    loop_step maxAttempts l (Some (mkLoop (lp_attempts l) (MaybeNotify (lp_trigger l))
      (lp_reconciled l) (lp_timers l) (lp_log l)))
| LReceive l : lp_reconciled l = true →
    loop_step maxAttempts l (Some (mkLoop (lp_attempts l) (lp_trigger l) false
      (lp_timers l) (lp_log l))).

Definition initial_loop : Loop := mkLoop 0 false false [] [].

(** The states a loop can be in, [None] once it has panicked. *)
Inductive loop_reachable (maxAttempts : Z) : option Loop → Prop :=
| LRInit : loop_reachable maxAttempts (Some initial_loop)
| LRStep l o : loop_reachable maxAttempts (Some l) → loop_step maxAttempts l o →
    loop_reachable maxAttempts o.
End Controller.

(** ** Run: what each of the loops applies *)

(** The features that are applied, each from the fields of the configuration it is
    given; the mutex shared by the three Cilium features only orders their calls. *)
Record Implementation := mkImplementation {
  ApplyDNS : DNS → Kubelet → Annotations → FeatureStatus * string * option goerr;
  ApplyNetwork : APIServer → Network → Annotations → FeatureStatus * option goerr;
  ApplyLoadBalancer : LoadBalancer → Network → Annotations → FeatureStatus * option goerr;
  ApplyIngress : Ingress → Network → Annotations → FeatureStatus * option goerr;
  ApplyGateway : Gateway → Network → Annotations → FeatureStatus * option goerr;
  ApplyMetricsServer : MetricsServer → Annotations → FeatureStatus * option goerr;
  ApplyLocalStorage : LocalStorage → Annotations → FeatureStatus * option goerr }.

Inductive FeatureName :=
| FNetwork | FGateway | FIngress | FLoadBalancer | FLocalStorage | FMetricsServer | FDNS.
#[export] Instance FeatureName_eq_dec : EqDecision FeatureName.
Proof. solve_decision. Defined.

(** [message e] is the text of an error. *)
Definition Run_apply (i : Implementation) (message : goerr → string)
    (notifyDNSChangedIP : string → option goerr) (feature : FeatureName) (cfg : ClusterConfig)
    : FeatureStatus * option goerr :=
  match feature with
  | FNetwork => ApplyNetwork i (CC_APIServer cfg) (CC_Network cfg) (CC_Annotations cfg)
  | FGateway => ApplyGateway i (CC_Gateway cfg) (CC_Network cfg) (CC_Annotations cfg)
  | FIngress => ApplyIngress i (CC_Ingress cfg) (CC_Network cfg) (CC_Annotations cfg)
  | FLoadBalancer => ApplyLoadBalancer i (CC_LoadBalancer cfg) (CC_Network cfg) (CC_Annotations cfg)
  | FLocalStorage => ApplyLocalStorage i (CC_LocalStorage cfg) (CC_Annotations cfg)
  | FMetricsServer => ApplyMetricsServer i (CC_MetricsServer cfg) (CC_Annotations cfg)
  | FDNS =>
      match ApplyDNS i (CC_DNS cfg) (CC_Kubelet cfg) (CC_Annotations cfg) with
      | (status, _, Some e) => (status, Some (Wrapf "failed to apply DNS configuration: %w" [] e))
      | (status, dnsIP, None) =>
          if dnsIP !=? "" then
            match notifyDNSChangedIP dnsIP with
            | Some e =>
                let changeErr := Wrapf "failed to update DNS IP address to %s: %w" [dnsIP] e in
                (mkFeatureStatus (fs_Enabled status)
                   (fs_Message status +:+ ": " +:+ message changeErr)
                   (fs_Version status) (fs_UpdatedAt status), Some changeErr)
            | None => (status, None)
            end
          else (status, None)
      end
  end.

(** ** The back-off *)

Lemma wrap64_id z : (- 2 ^ 63 ≤ z < 2 ^ 63)%Z → wrap64 z = z.
Proof. intros Hz. unfold wrap64. rewrite Z.mod_small; lia. Qed.

Lemma ExponentialBackoff_range rand attempt base maxDelay :
  Int64N_ok rand → (0 < base)%Z → (0 < maxDelay < 2 ^ 62)%Z →
  (base * 2 ^ Z.min (Z.max 0 attempt) 32 < 2 ^ 63)%Z →
  let d := Z.min (base * 2 ^ Z.min (Z.max 0 attempt) 32) maxDelay in
  ∃ r, ExponentialBackoff rand attempt base maxDelay = Some r ∧ (d - d / 2 ≤ r < 2 * d - d / 2)%Z.
Proof.
  intros Hr Hb Hm Hov d. unfold ExponentialBackoff.
  set (e := Z.min (Z.max 0 attempt) 32) in *.
  assert (Hp : (0 < 2 ^ e)%Z) by (apply Z.pow_pos_nonneg; lia).
  assert (Hsh : wrap64 (Z.shiftl base e) = (base * 2 ^ e)%Z).
  { rewrite Z.shiftl_mul_pow2 by lia. apply wrap64_id. nia. }
  rewrite Hsh. fold d. assert (Hd : (0 < d < 2 ^ 62)%Z) by (unfold d; nia). clearbody d e.
  destruct (d <=? 0)%Z eqn:E; [lia|]. specialize (Hr d ltac:(lia)).
  rewrite Z.quot_div_nonneg by lia.
  assert (Hq : (0 ≤ d / 2 ≤ d)%Z) by (split; [apply Z.div_pos|apply Z.div_le_upper_bound]; lia).
  rewrite (wrap64_id (rand d - d / 2)), wrap64_id by lia. eexists. split; [done|]. lia.
Qed.

(** The back-off of the feature controller (3 seconds doubled up to 5 minutes): for up
    to 31 attempts it returns a delay between half and one and a half times the doubled
    and capped base, so never more than 450 seconds; from the 32nd attempt on the
    shift overflows to a negative duration and the call panics, in spite of the cap
    at 32 that is there to avoid it. *)
Theorem ExponentialBackoff_feature rand attempt :
  Int64N_ok rand →
  ((attempt ≤ 31)%Z → ∃ r, ExponentialBackoff rand attempt (3 * second) (5 * minute) = Some r ∧
     let d := Z.min (3 * second * 2 ^ Z.max 0 attempt) (5 * minute) in
     (d - d / 2 ≤ r < 2 * d - d / 2)%Z ∧ (1500000000 ≤ r < 450 * second)%Z) ∧
  ((32 ≤ attempt)%Z → ExponentialBackoff rand attempt (3 * second) (5 * minute) = None).
Proof.
  intros Hr. unfold minute, second. split.
  - intros Ha.
    assert (Hp : (1 ≤ 2 ^ Z.max 0 attempt ≤ 2 ^ 31)%Z).
    { split; [change 1%Z with (2 ^ 0)%Z|]; apply Z.pow_le_mono_r; lia. }
    destruct (ExponentialBackoff_range rand attempt 3000000000 300000000000 Hr) as (r & E & Hin).
    { lia. } { lia. } { rewrite Z.min_l by lia. lia. }
    rewrite (Z.min_l (Z.max 0 attempt) 32) in Hin by lia. exists r. split; [exact E|].
    change (3 * 1000000000)%Z with 3000000000%Z. change (5 * (60 * 1000000000))%Z with 300000000000%Z.
    split; [exact Hin|].
    set (d := Z.min _ _) in Hin. assert (3000000000 ≤ d ≤ 300000000000)%Z by lia.
    assert (d / 2 * 2 ≤ d < d / 2 * 2 + 2)%Z.
    { pose proof (Z.div_mod d 2 ltac:(lia)). pose proof (Z.mod_pos_bound d 2 ltac:(lia)). lia. }
    lia.
  - intros Ha. unfold ExponentialBackoff. rewrite Z.max_r, (Z.min_r _ 32) by lia. reflexivity.
Qed.

Lemma ExponentialBackoff_feature_witness :
  Int64N_ok (λ n, n / 3)%Z ∧ (5 ≤ 31)%Z ∧
  ∃ r, ExponentialBackoff (λ n, n / 3)%Z 5 (3 * second) (5 * minute) = Some r ∧ (1500000000 ≤ r < 450 * second)%Z.
Proof.
  assert (Hr : Int64N_ok (λ n, n / 3)%Z).
  { intros n Hn. split; [apply Z.div_pos|apply Z.div_lt]; lia. }
  split; [exact Hr|]. split; [lia|].
  destruct (proj1 (ExponentialBackoff_feature _ 5 Hr) ltac:(lia)) as (r & E & _ & Hb).
  by exists r.
Defined.

(** ** The loop *)

Section Loop.
Context `{Externals}.

(** The delay of attempt [a] of the feature controller: none from the 32nd on. *)
Lemma feature_backoff_None rand a : Int64N_ok rand →
  ExponentialBackoff rand a (3 * second) (5 * minute) = None ↔ (32 ≤ a)%Z.
Proof.
  intros Hr. split.
  - intros E. apply Z.nlt_ge. intros Ha.
    assert (Hp : (1 ≤ 2 ^ Z.max 0 a ≤ 2 ^ 31)%Z).
    { split; [change 1%Z with (2 ^ 0)%Z|]; apply Z.pow_le_mono_r; lia. }
    unfold minute, second in E.
    destruct (ExponentialBackoff_range rand a 3000000000 300000000000 Hr) as (r & E' & _); try lia.
    + rewrite (Z.min_l (Z.max 0 a) 32) by lia. lia.
    + change (3 * 1000000000)%Z with 3000000000%Z in E.
      change (5 * (60 * 1000000000))%Z with 300000000000%Z in E. congruence.
  - intros Ha. unfold ExponentialBackoff. rewrite Z.max_r, (Z.min_r _ 32) by lia. reflexivity.
Qed.

(** What a turn does to the counter: a panic needs a failed application. *)
Lemma turn_attempts maxAttempts t l o :
  reconcileLoop_turn maxAttempts t l = o → Int64N_ok (tn_rand t) → (0 ≤ lp_attempts l < 2 ^ 62)%Z →
  match o with
  | None => (32 ≤ lp_attempts l + 1)%Z ∧ ((maxAttempts ≤ 0)%Z ∨ (lp_attempts l + 1 < maxAttempts)%Z)
  | Some l' => lp_attempts l' = 0%Z ∨ lp_attempts l' = lp_attempts l ∨
      lp_attempts l' = (lp_attempts l + 1)%Z ∧ (lp_attempts l + 1 < 32)%Z ∧
      ((maxAttempts ≤ 0)%Z ∨ (lp_attempts l + 1 < maxAttempts)%Z)
  end.
Proof.
  intros <- Hr Hl. unfold reconcileLoop_turn.
  destruct (isBlocked t) as [[]|]; [simpl; by auto| |simpl; by auto].
  destruct (reconcile t) as [applied [u|e]]; [simpl; by auto|].
  rewrite wrap64_id by lia.
  destruct ((maxAttempts <=? lp_attempts l + 1) && (0 <? maxAttempts))%Z eqn:E; [simpl; by auto|].
  assert (Hm : (maxAttempts ≤ 0)%Z ∨ (lp_attempts l + 1 < maxAttempts)%Z) by lia.
  destruct (ExponentialBackoff _ _ _ _) as [d|] eqn:Eb.
  - simpl. right. right. split; [done|]. split; [|done]. apply Z.nle_gt. intros Hge.
    apply (feature_backoff_None (tn_rand t)) in Hge; [|done]. congruence.
  - simpl. split; [|done]. by apply (feature_backoff_None (tn_rand t)).
Qed.

Lemma attempts_bound maxAttempts o :
  loop_reachable maxAttempts o →
  match o with
  | None => (maxAttempts ≤ 0)%Z ∨ (32 < maxAttempts)%Z
  | Some l => (0 ≤ lp_attempts l < 32)%Z
  end.
Proof.
  induction 1 as [|l o Hl IH Hs]; [simpl; lia|].
  destruct Hs as [t l _ Hr|l ts1 d ts2 _|l|l _]; try exact IH.
  pose proof (turn_attempts maxAttempts t l _ eq_refl Hr ltac:(lia)) as Ht.
  destruct (reconcileLoop_turn maxAttempts t l) as [l'|]; lia.
Qed.

(** A turn in which everything but the application works. *)
Definition failing_turn : Turn :=
  mkTurn (Ok empty_ClusterConfig) (Ok tt) (Ok None) (Ok empty_ClusterConfig)
    (λ _, (mkFeatureStatus false "" "" 0, Some (Errorf "failed" []))) (λ _, None) (λ _, 0%Z).

Lemma failing_attempts maxAttempts (n : nat) :
  (maxAttempts ≤ 0)%Z ∨ (32 < maxAttempts)%Z → n < 32 →
  ∃ l, loop_reachable maxAttempts (Some l) ∧ lp_attempts l = Z.of_nat n ∧ lp_trigger l = true.
Proof.
  intros Hm. induction n as [|n IH]; intros Hn.
  - exists (mkLoop 0 true false [] []). split; [|done].
    eapply LRStep; [apply LRInit|]. apply (LNotify maxAttempts initial_loop).
  - destruct IH as (l & Hl & Ha & Ht); [lia|].
    pose proof (LTurn maxAttempts failing_turn l Ht ltac:(intros ??; simpl; lia)) as Hs.
    remember (reconcileLoop_turn maxAttempts failing_turn l) as o eqn:Eo.
    unfold reconcileLoop_turn in Eo. simpl in Eo. rewrite Ha, wrap64_id in Eo by lia.
    assert (E : ((maxAttempts <=? Z.of_nat n + 1) && (0 <? maxAttempts))%Z = false) by lia.
    rewrite E in Eo. clear E.
    destruct (ExponentialBackoff _ _ _ _) as [d|] eqn:Eb; simpl in Eo; subst o.
    + eexists. split; [eapply LRStep; [eapply LRStep; [exact Hl|exact Hs]|]; apply LNotify|].
      simpl. split; [lia|done].
    + apply feature_backoff_None in Eb; [lia|]. intros ??. simpl. lia.
Qed.

(** C19: The reconcile loop of a feature panics, whatever its timers and the notifications
    do, exactly when its limit on retries is more than 32 or there is no limit: the
    32nd failed application in a row then asks for a back-off whose duration has
    overflowed.  With a limit of 1 to 32 the loop never panics; the default limit of
    the daemon is 64. *)
Theorem reconcileLoop_panics_iff maxAttempts :
  loop_reachable maxAttempts None ↔ (maxAttempts ≤ 0)%Z ∨ (32 < maxAttempts)%Z.
Proof.
  split; [apply attempts_bound|]. intros Hm.
  destruct (failing_attempts maxAttempts 31 Hm ltac:(lia)) as (l & Hl & Ha & Ht).
  pose proof (LTurn maxAttempts failing_turn l Ht ltac:(intros ??; simpl; lia)) as Hs.
  remember (reconcileLoop_turn maxAttempts failing_turn l) as o eqn:Eo.
  unfold reconcileLoop_turn in Eo. simpl in Eo. rewrite Ha in Eo.
  assert (E : ((maxAttempts <=? wrap64 (Z.of_nat 31 + 1)) && (0 <? maxAttempts))%Z = false).
  { change (wrap64 (Z.of_nat 31 + 1)) with 32%Z. lia. }
  rewrite E in Eo. vm_compute in Eo. subst o. by apply (LRStep _ l).
Qed.

(** What a turn and a step add to the log. *)
Lemma turn_log maxAttempts t l l' :
  reconcileLoop_turn maxAttempts t l = Some l' →
  ∃ new, lp_log l' = new ++ lp_log l ∧
    (lp_reconciled l' = true → ∃ a, new = [a] ∧ ap_err a = None).
Proof.
  unfold reconcileLoop_turn. destruct (isBlocked t) as [[]|]; [intros [= <-]; by exists []| |intros [= <-]; by exists []].
  unfold Feature.reconcile. destruct (tn_config t) as [cfg|e].
  - destruct (tn_apply t cfg) as [status [e|]]; simpl.
    + case_match; [intros [= <-]; eexists [_]; split; [done|done]|].
      destruct (ExponentialBackoff _ _ _ _); intros [= <-]. by eexists [_].
    + intros [= <-]. eexists [_]. split; [done|]. intros _. by eexists.
  - simpl. case_match; [intros [= <-]; by exists []|].
    destruct (ExponentialBackoff _ _ _ _); intros [= <-]. by exists [].
Qed.

Lemma step_log maxAttempts l l' :
  loop_step maxAttempts l (Some l') →
  ∃ new, lp_log l' = new ++ lp_log l ∧
    (lp_reconciled l' = true → lp_reconciled l = true ∨ ∃ a, a ∈ new ∧ ap_err a = None).
Proof.
  intros Hs. inversion Hs as [t l0 Ht Hi El E| | |]; subst; try (exists []; split; [done|by left]).
  apply turn_log in E as (new & -> & Hr). exists new. split; [done|].
  intros (a & -> & ?)%Hr. right. exists a. by split; [left|].
Qed.

(** The "reconciled" channel of a feature tells the truth: whatever the timers, the
    notifications and the readers of the channel do, it is only full while the newest
    application of the feature is a successful one. *)
Theorem reconciled_after_success maxAttempts l :
  loop_reachable maxAttempts (Some l) → lp_reconciled l = true →
  ∃ a log, lp_log l = a :: log ∧ ap_err a = None.
Proof.
  intros Hr. remember (Some l) as o eqn:Eo. revert l Eo.
  induction Hr as [|l0 o Hl IH Hs]; intros l Eo Hrec; [injection Eo as <-; done|]. subst o.
  specialize (IH _ eq_refl). inversion Hs as [t l1 Ht Hi El E| | |]; subst; try (by apply IH).
  apply turn_log in E as (new & Hlog & Hr). destruct (Hr Hrec) as (a & -> & Ha).
  exists a, (lp_log l0). by split.
Qed.
End Loop.

Lemma reconciled_after_success_witness :
  let t := mkTurn (Ok empty_ClusterConfig) (Ok tt) (Ok None) (Ok empty_ClusterConfig)
             (λ _, (mkFeatureStatus true "" "" 0, None)) (λ _, None) (λ _, 0%Z) in
  ∃ l, @reconcileLoop_turn demo_externals 64 t (mkLoop 0 true false [] []) = Some l ∧
    lp_reconciled l = true ∧ ∃ a log, lp_log l = a :: log ∧ ap_err a = None.
Proof.
  intros t. destruct (@reconcileLoop_turn demo_externals 64 t (mkLoop 0 true false [] [])) as [l|] eqn:E;
    [|vm_compute in E; discriminate].
  exists l. split; [reflexivity|].
  assert (Hrec : lp_reconciled l = true) by (vm_compute in E; injection E as <-; reflexivity).
  split; [exact Hrec|].
  refine (@reconciled_after_success demo_externals 64 l _ Hrec).
  apply (LRStep 64 (mkLoop 0 true false [] [])).
  - apply (LRStep 64 initial_loop); [apply LRInit|]. apply (LNotify 64 initial_loop).
  - rewrite <- E. apply LTurn; [reflexivity|]. intros n Hn. simpl. lia.
Defined.
End Feature.
