(* ===== verification/Csr.v ===== *)
(** * The CSR signing controller

    pkg/k8sd/controllers/csrsigning: the validation of a certificate signing request,
    its automatic approval and its signature, with [CleanHostname] of
    pkg/utils/hostname.go.

    External: base64, the decryption of the signature, SHA-256, the IDNA conversion, and
    the text of an error, which ends up in a condition ([CsrEnv]); the API server is what
    a [Get] returns and whether an update is accepted. *)

From S2P Require Import Prelude GoStrings GoNet Config Pki PkiNode.
Import GoStr GoNet Config Pki.

Module Csr.

(** ** Data of k8s.io/api/certificates/v1 *)

Inductive ConditionType :=
| CertificateApproved | CertificateDenied | CertificateFailed | OtherCondition (type : string).
Record Condition := mkCondition { cond_Type : ConditionType; cond_Reason : string; cond_Message : string }.
Inductive Usage :=
| UsageServerAuth | UsageClientAuth | UsageDigitalSignature | UsageKeyEncipherment
| OtherUsage (usage : string).

#[export] Instance ConditionType_eq_dec : EqDecision ConditionType.
Proof. solve_decision. Defined.
#[export] Instance Condition_eq_dec : EqDecision Condition.
Proof. solve_decision. Defined.
#[export] Instance Usage_eq_dec : EqDecision Usage.
Proof. solve_decision. Defined.

(** The part that is fixed when the request is created, and the part that changes. *)
Record Spec := mkSpec {
  csr_Annotations : gmap string string;
  csr_Request : string;
  csr_SignerName : string;
  csr_Username : string;
  csr_Groups : list string;
  csr_Usages : list Usage;
  csr_ExpirationSeconds : option Z }.
Record CSR := mkCSR {
  csr_Spec : Spec;
  csr_Conditions : list Condition;
  csr_Certificate : string }.

Class CsrEnv `{PkiEnv} := {
  base64_DecodeString : string → res string;
  rsa_DecryptPKCS1v15 : PrivateKey → string → res string;
  sha256_Sum : string → string;
  idna_ToASCII : string → res string;
  error_text : goerr → string }.

Section Controller.
Context `{CsrEnv, Externals}.

(** ** config.go *)

Definition internalConfigFromAnnotations (annotations : Annotations) : bool :=
  let '(v, ok) := Annotations_Get annotations AnnotationAutoApprove in ok && (v ==? "true").

(** ** pkg/utils/hostname.go *)

Definition CleanHostname (hostname : string) : res string :=
  clean ← wrapf "failed to parse hostname %q: %w" [hostname] (idna_ToASCII hostname);
  _ ← fails_if (has_suffix "." hostname) (Errorf "hostname cannot end with a dot (%q)" []);
  Ok clean.

(** ** validate.go *)

(** [sets.New(l...).Equal(sets.New(l'...))]. *)
Definition same_set `{EqDecision A} (l l' : list A) : bool :=
  forallb (λ x, bool_decide (x ∈ l')) l && forallb (λ x, bool_decide (x ∈ l)) l'.

Definition annotation (obj : CSR) (key : string) : string :=
  default EmptyString (csr_Annotations (csr_Spec obj) !! key).

Definition check_subject (spec : Spec) (subject : Name) (auth : Usage) : res unit :=
  _ ← fails_if (negb (same_set (csr_Usages spec) [auth; UsageDigitalSignature; UsageKeyEncipherment]))
        (Errorf "CSR usages %v must match %v" []);
  _ ← fails_if (CommonName subject !=? csr_Username spec) (Errorf "CSR commonName %v must match %v" []);
  fails_if (negb (same_set (Organization subject) ["system:nodes"]))
    (Errorf "CSR organization %v must match %v" []).

Definition validateCSR (obj : CSR) (priv : PrivateKey) : res unit :=
  let spec := csr_Spec obj in
  csr ← wrapf "failed to parse x509 certificate request: %w" [] (LoadCertificateRequest (csr_Request spec));
  let subject := csr.1.1.1 in
  encryptedSignature ← wrapf "failed to decode b64 signature: %w" []
    (base64_DecodeString (annotation obj "k8sd.io/signature"));
  signature ← wrapf "failed to decrypt signature: %w" [] (rsa_DecryptPKCS1v15 priv encryptedSignature);
  _ ← fails_if (sha256_Sum (csr_Request spec) !=? signature) (Errorf "CSR signature does not match" []);
  let hostname := annotation obj "k8sd.io/node" in
  _ ← fails_if (hostname ==? EmptyString) (Errorf "k8sd.io/node annotation missing from CSR object" []);
  clean ← wrapf "CSR has invalid node name %q: %w" [hostname] (CleanHostname hostname);
  _ ← fails_if (clean !=? hostname) (Errorf "CSR has invalid node name %q, should be %q" [hostname; clean]);
  _ ← fails_if (csr_Username spec !=? "system:node:" +:+ hostname)
        (Errorf "CSR requestor must be system:node:%s" [hostname]);
  _ ← fails_if (bool_decide ("system:nodes" ∉ csr_Groups spec))
        (Errorf "CSR missing required group system:nodes" []);
  let signer := csr_SignerName spec in
  if signer ==? "k8sd.io/kubelet-serving" then check_subject spec subject UsageServerAuth
  else if signer ==? "k8sd.io/kubelet-client" then check_subject spec subject UsageClientAuth
  else if signer ==? "k8sd.io/kube-proxy-client" then
    _ ← fails_if (negb (same_set (csr_Usages spec)
                          [UsageClientAuth; UsageDigitalSignature; UsageKeyEncipherment]))
          (Errorf "CSR usages %v must match %v" []);
    _ ← fails_if (CommonName subject !=? "system:kube-proxy") (Errorf "CSR commonName %v must match %v" []);
    fails_if (0 <? length (Organization subject)) (Errorf "CSR organization %v must be empty" [])
  else Err (Errorf "CSR has unknown signerName=%v" [signer]).

(** ** reconcile_approve.go *)

(** When the request is seen again, in nanoseconds, if it is. *)
Definition Result : Type := option Z.
Definition requeueAfterSigningFailure : Z := 3 * 1000000000.
Definition requeueAfterWaitingForApproved : Z := 10 * 1000000000.

Definition add_condition (obj : CSR) (c : Condition) : CSR :=
  mkCSR (csr_Spec obj) (csr_Conditions obj ++ [c]) (csr_Certificate obj).

(** An update of the object, [update] being the error of the API server: the stored
    object if it is accepted. *)
Definition store (obj : CSR) (update : option goerr) : option CSR * res Result :=
  match update with Some e => (None, Err e) | None => (Some obj, Ok None) end.

Definition reconcileAutoApprove (obj : CSR) (priv : PrivateKey) (update : option goerr)
    : option CSR * res Result :=
  match validateCSR obj priv with
  | Err e => store (add_condition obj (mkCondition CertificateDenied "K8sdDeny"
                      ("CSR is not valid: " +:+ error_text e))) update
  | Ok _ => store (add_condition obj (mkCondition CertificateApproved "K8sdApprove"
                      "CSR approved by k8sd")) update
  end.

(** ** reconcile.go *)

Definition managedSignerNames : list string :=
  ["k8sd.io/kubelet-serving"; "k8sd.io/kubelet-client"; "k8sd.io/kube-proxy-client"].

(** The loop on the conditions: [None] if it returns, else whether it saw an approval. *)
Fixpoint scan_conditions (conditions : list Condition) (approved : bool) : option bool :=
  match conditions with
  | [] => Some approved
  | c :: conditions =>
      match cond_Type c with
      | CertificateDenied | CertificateFailed => None
      | CertificateApproved => scan_conditions conditions true
      | OtherCondition _ => scan_conditions conditions approved
      end
  end.

(** What one reconciliation meets besides the object: the configuration, two readings of
    the clock, the random source, and the answer to its update. *)
Record Inputs := mkInputs {
  in_config : res ClusterConfig;
  in_now : Z;
  in_now2 : Z;
  in_random : nat;
  in_update : option goerr }.

Definition setFailedCSR (obj : CSR) : CSR :=
  add_condition obj (mkCondition CertificateFailed "MissingCAKey"
    "The CSR could not be signed because the controller is missing the CA private key.").

(** One of the three cases of the switch on the signer: the certificate and the key of its
    CA, and the subject, names, and usage of the certificate it makes. *)
Definition sign (i : Inputs) (obj : CSR) (serialNumber notBefore notAfter : Z)
    (caCertPEM caKeyPEM : string) (publicKey : PublicKey)
    (subject : Name) (ips : list IP) (dns : list string) (usage : ExtKeyUsage)
    : option CSR * res Result :=
  match LoadCertificate caCertPEM caKeyPEM with
  | Err e => (None, Err e)
  | Ok (_, None) => store (setFailedCSR obj) (in_update i)
  | Ok (caCert, Some caKey) =>
      let cert := mkCertificate serialNumber subject notBefore notAfter ips dns true [usage]
                    [KeyUsageKeyEncipherment; KeyUsageDigitalSignature] false EmptyString in
      match x509_CreateCertificate (S (in_random i)) cert caCert publicKey caKey with
      | Err e => (None, Err e)
      | Ok derBytes =>
          match pem_EncodeToMemory "CERTIFICATE" derBytes with
          | None => (None, Ok (Some requeueAfterSigningFailure))
          | Some crtPEM => store (mkCSR (csr_Spec obj) (csr_Conditions obj) crtPEM) (in_update i)
          end
      end
  end.

Definition issue (i : Inputs) (obj : CSR) (config : ClusterConfig) : option CSR * res Result :=
  let spec := csr_Spec obj in
  let certs := CC_Certificates config in
  match LoadCertificateRequest (csr_Request spec) with
  | Err e => (None, Err e)
  | Ok (_, dns, ips, publicKey) =>
      match rand_Int (in_random i) (2 ^ 128) with
      | Err e => (None, Err e)
      | Ok serialNumber =>
          let notBefore := in_now i in
          let notAfter := match csr_ExpirationSeconds spec with
                          | Some s => SecondsToExpirationDate notBefore s
                          | None => AddDate (in_now2 i) 10 0 0
                          end in
          let requestor := mkName (csr_Username spec) (csr_Groups spec) in
          let signer := csr_SignerName spec in
          if signer ==? "k8sd.io/kubelet-serving" then
            sign i obj serialNumber notBefore notAfter
              (Certificates_GetCACert certs) (Certificates_GetCAKey certs) publicKey
              requestor ips dns ExtKeyUsageServerAuth
          else if signer ==? "k8sd.io/kubelet-client" then
            sign i obj serialNumber notBefore notAfter
              (Certificates_GetClientCACert certs) (Certificates_GetClientCAKey certs) publicKey
              requestor [] [] ExtKeyUsageClientAuth
          else if signer ==? "k8sd.io/kube-proxy-client" then
            sign i obj serialNumber notBefore notAfter
              (Certificates_GetClientCACert certs) (Certificates_GetClientCAKey certs) publicKey
              (mkName "system:kube-proxy" []) [] [] ExtKeyUsageClientAuth
          else (None, Ok None)
      end
  end.

(** [get] is what the API server returns for the request: [None] if it is gone. *)
Definition Reconcile (i : Inputs) (get : res (option CSR)) : option CSR * res Result :=
  match get with
  | Err e => (None, Err e)
  | Ok None => (None, Ok None)
  | Ok (Some obj) =>
      if csr_Certificate obj !=? EmptyString then (None, Ok None)
      else if bool_decide (csr_SignerName (csr_Spec obj) ∉ managedSignerNames) then (None, Ok None)
      else
        match scan_conditions (csr_Conditions obj) false with
        | None => (None, Ok None)
        | Some approved =>
            match in_config i with
            | Err e => (None, Err e)
            | Ok config =>
                if negb approved then
                  if internalConfigFromAnnotations (CC_Annotations config) then
                    let keyPEM := Certificates_GetK8sdPrivateKey (CC_Certificates config) in
                    if keyPEM ==? EmptyString then (None, Err (Errorf "cluster RSA key not set" []))
                    else
                      match LoadRSAPrivateKey keyPEM with
                      | Err e => (None, Err (Wrapf "failed to load cluster RSA key: %w" [] e))
                      | Ok priv => reconcileAutoApprove obj priv (in_update i)
                      end
                  else (None, Ok (Some requeueAfterWaitingForApproved))
                else issue i obj config
            end
        end
  end.

(** ** What a request goes through *)

(** The states of a request: from its creation, the controller updates it (the API server
    refuses an update of an object that is not the current one), and others add
    conditions.  The flag tells whether one of those was an approval. *)
Inductive csr_reachable (s : Spec) : bool → CSR → Prop :=
| CRCreated : csr_reachable s false (mkCSR s [] EmptyString)
| CRReconcile b i obj obj' r : csr_reachable s b obj →
    Reconcile i (Ok (Some obj)) = (Some obj', r) → csr_reachable s b obj'
| CRCondition b obj c : csr_reachable s b obj →
    csr_reachable s (b || bool_decide (cond_Type c = CertificateApproved)) (add_condition obj c).

(** The requirements on a request that is approved automatically. *)
Definition same_elements {A} (l l' : list A) : Prop := ∀ x, x ∈ l ↔ x ∈ l'.

Definition node_subject (spec : Spec) (subject : Name) (auth : Usage) : Prop :=
  same_elements (csr_Usages spec) [auth; UsageDigitalSignature; UsageKeyEncipherment] ∧
  CommonName subject = csr_Username spec ∧ same_elements (Organization subject) ["system:nodes"].

Definition signer_requirements (spec : Spec) (subject : Name) : Prop :=
  (csr_SignerName spec = "k8sd.io/kubelet-serving" ∧ node_subject spec subject UsageServerAuth) ∨
  (csr_SignerName spec = "k8sd.io/kubelet-client" ∧ node_subject spec subject UsageClientAuth) ∨
  (csr_SignerName spec = "k8sd.io/kube-proxy-client" ∧
   same_elements (csr_Usages spec) [UsageClientAuth; UsageDigitalSignature; UsageKeyEncipherment] ∧
   subject = mkName "system:kube-proxy" []).

Definition valid_request (spec : Spec) (priv : PrivateKey) : Prop :=
  ∃ subject dns ips pub encrypted hostname,
    LoadCertificateRequest (csr_Request spec) = Ok (subject, dns, ips, pub) ∧
    base64_DecodeString (default EmptyString (csr_Annotations spec !! "k8sd.io/signature")) = Ok encrypted ∧
    rsa_DecryptPKCS1v15 priv encrypted = Ok (sha256_Sum (csr_Request spec)) ∧
    csr_Annotations spec !! "k8sd.io/node" = Some hostname ∧ hostname ≠ EmptyString ∧
    CleanHostname hostname = Ok hostname ∧
    csr_Username spec = "system:node:" +:+ hostname ∧ "system:nodes" ∈ csr_Groups spec ∧
    signer_requirements spec subject.

Lemma same_set_spec `{EqDecision A} (l l' : list A) : same_set l l' = true ↔ same_elements l l'.
Proof.
  unfold same_set, same_elements. rewrite andb_true_iff, !forallb_forall.
  setoid_rewrite bool_decide_eq_true. setoid_rewrite <- list_elem_of_In. naive_solver.
Qed.

Lemma check_subject_Ok spec subject auth :
  check_subject spec subject auth = Ok tt ↔ node_subject spec subject auth.
Proof.
  unfold check_subject, node_subject. rewrite !bind_unit_Ok, !fails_if_Ok, !negb_false_iff.
  by rewrite bool_decide_eq_true, !same_set_spec.
Qed.

Lemma signer_Ok spec subject :
  (if csr_SignerName spec ==? "k8sd.io/kubelet-serving" then check_subject spec subject UsageServerAuth
   else if csr_SignerName spec ==? "k8sd.io/kubelet-client" then check_subject spec subject UsageClientAuth
   else if csr_SignerName spec ==? "k8sd.io/kube-proxy-client" then
     _ ← fails_if (negb (same_set (csr_Usages spec)
                           [UsageClientAuth; UsageDigitalSignature; UsageKeyEncipherment]))
           (Errorf "CSR usages %v must match %v" []);
     _ ← fails_if (CommonName subject !=? "system:kube-proxy") (Errorf "CSR commonName %v must match %v" []);
     fails_if (0 <? length (Organization subject)) (Errorf "CSR organization %v must be empty" [])
   else Err (Errorf "CSR has unknown signerName=%v" [csr_SignerName spec])) = Ok tt ↔
  signer_requirements spec subject.
Proof.
  unfold signer_requirements.
  case_bool_decide; [|case_bool_decide; [|case_bool_decide]]; rewrite ?check_subject_Ok.
  - split; [by left|]. by intros [[_ ?]|[[? _]|[? _]]]; [|congruence..].
  - split; [by right; left|]. by intros [[? _]|[[_ ?]|[? _]]]; [congruence| |congruence].
  - rewrite !bind_unit_Ok, !fails_if_Ok, !negb_false_iff, bool_decide_eq_true, same_set_spec.
    assert (Hn : (0 <? length (Organization subject)) = false ↔ Organization subject = []).
    { rewrite Nat.ltb_ge, Nat.le_0_r. apply length_zero_iff_nil. }
    rewrite Hn. destruct subject as [cn org]. simpl. split.
    + intros (? & -> & ->). by right; right.
    + by intros [[? _]|[[? _]|(_ & ? & [= -> ->])]]; [congruence..|].
  - split; [done|]. by intros [[? _]|[[? _]|[? _]]].
Qed.

Lemma validate_valid obj priv :
  validateCSR obj priv = Ok tt ↔ valid_request (csr_Spec obj) priv.
Proof.
  unfold validateCSR, annotation. rewrite bind_Ok. setoid_rewrite bind_Ok. setoid_rewrite bind_Ok.
  setoid_rewrite bind_unit_Ok. setoid_rewrite bind_unit_Ok. setoid_rewrite bind_Ok.
  setoid_rewrite bind_unit_Ok. setoid_rewrite bind_unit_Ok. setoid_rewrite bind_unit_Ok.
  setoid_rewrite signer_Ok. setoid_rewrite wrapf_Ok. setoid_rewrite fails_if_Ok.
  setoid_rewrite negb_false_iff. setoid_rewrite bool_decide_eq_true.
  setoid_rewrite bool_decide_eq_false. unfold valid_request. split.
  - intros ([[[subject dns] ips] pub] & Hl & enc & Hb & sig & Hd & Hsig & Hh & clean & Hc & Hcl & Hu & Hg & Hs).
    destruct (csr_Annotations (csr_Spec obj) !! "k8sd.io/node") as [h|] eqn:Eh; [|done]. simpl in *.
    exists subject, dns, ips, pub, enc, h. subst.
    split_and!; try done. by apply dec_stable.
  - intros (subject & dns & ips & pub & enc & h & Hl & Hb & Hd & Eh & Hh & Hc & Hu & Hg & Hs).
    rewrite Eh. exists (subject, dns, ips, pub). split; [done|]. exists enc. split; [done|].
    eexists. split; [exact Hd|]. split_and!; try done. exists h. split_and!; try done.
    by intros Hn.
Qed.

(** A request passes the validation of the automatic approval exactly when it holds a
    certificate request whose SHA-256 sum is the decryption of its signature with the
    key of the cluster, it names a node by a clean hostname, its requestor is that node
    in the group of the nodes, and the usages and the subject asked for are the ones of
    its signer. *)
Theorem validateCSR_iff obj priv :
  validateCSR obj priv = Ok tt ↔ valid_request (csr_Spec obj) priv.
Proof. apply validate_valid. Qed.

(** ** What the controller stores *)

(** A certificate made for [spec], and what a certificate of its signer looks like: its
    subject is the requestor (the kube-proxy user for a kube-proxy client), it is for
    one use, and it is not a CA. *)
Definition certificate_template (spec : Spec) (t : Certificate) : Prop :=
  crt_IsCA t = false ∧
  ((csr_SignerName spec = "k8sd.io/kubelet-serving" ∧ crt_ExtKeyUsage t = [ExtKeyUsageServerAuth] ∧
    crt_Subject t = mkName (csr_Username spec) (csr_Groups spec)) ∨
   (csr_SignerName spec = "k8sd.io/kubelet-client" ∧ crt_ExtKeyUsage t = [ExtKeyUsageClientAuth] ∧
    crt_Subject t = mkName (csr_Username spec) (csr_Groups spec)) ∨
   (csr_SignerName spec = "k8sd.io/kube-proxy-client" ∧ crt_ExtKeyUsage t = [ExtKeyUsageClientAuth] ∧
    crt_Subject t = mkName "system:kube-proxy" [])).

(** The CA that signs for a signer. *)
Definition signing_ca (spec : Spec) (certs : Certificates) : string * string :=
  if csr_SignerName spec ==? "k8sd.io/kubelet-serving"
  then (Certificates_GetCACert certs, Certificates_GetCAKey certs)
  else (Certificates_GetClientCACert certs, Certificates_GetClientCAKey certs).

Definition signed_for (spec : Spec) (crtPEM : string) : Prop :=
  ∃ i config subject dns ips pub ca caKey t n der,
    in_config i = Ok config ∧
    LoadCertificateRequest (csr_Request spec) = Ok (subject, dns, ips, pub) ∧
    LoadCertificate (signing_ca spec (CC_Certificates config)).1
      (signing_ca spec (CC_Certificates config)).2 = Ok (ca, Some caKey) ∧
    certificate_template spec t ∧
    x509_CreateCertificate n t ca pub caKey = Ok der ∧ pem_EncodeToMemory "CERTIFICATE" der = Some crtPEM.

Definition auto_approved (spec : Spec) : Prop :=
  ∃ i config priv, in_config i = Ok config ∧
    internalConfigFromAnnotations (CC_Annotations config) = true ∧
    LoadRSAPrivateKey (Certificates_GetK8sdPrivateKey (CC_Certificates config)) = Ok priv ∧
    valid_request spec priv.

Definition has_condition (t : ConditionType) (obj : CSR) : Prop := t ∈ cond_Type <$> csr_Conditions obj.

Lemma scan_conditions_spec l b a :
  scan_conditions l b = Some a →
  CertificateDenied ∉ cond_Type <$> l ∧ CertificateFailed ∉ cond_Type <$> l ∧
  (a = true ↔ b = true ∨ CertificateApproved ∈ cond_Type <$> l).
Proof.
  revert b. induction l as [|c l IH]; intros b; simpl.
  - intros [= ->]. split_and!; [apply not_elem_of_nil..|]. set_solver.
  - rewrite !not_elem_of_cons, elem_of_cons.
    destruct (cond_Type c) eqn:Et; intros E; [apply IH in E|done|done|apply IH in E]; naive_solver.
Qed.

Lemma store_Some obj u obj' r : store obj u = (Some obj', r) → obj' = obj.
Proof. destruct u; by intros [=]. Qed.

(** What a signature stores: the object marked as failed, or with its certificate. *)
Lemma sign_Some i obj sn nb na crt key pub subject ips dns usage obj' r :
  sign i obj sn nb na crt key pub subject ips dns usage = (Some obj', r) →
  obj' = setFailedCSR obj ∨
  ∃ ca caKey t n der pem, obj' = mkCSR (csr_Spec obj) (csr_Conditions obj) pem ∧
    LoadCertificate crt key = Ok (ca, Some caKey) ∧
    crt_IsCA t = false ∧ crt_ExtKeyUsage t = [usage] ∧ crt_Subject t = subject ∧
    x509_CreateCertificate n t ca pub caKey = Ok der ∧ pem_EncodeToMemory "CERTIFICATE" der = Some pem.
Proof.
  unfold sign. destruct (LoadCertificate crt key) as [[ca [caKey|]]|e] eqn:El; [|by intros ->%store_Some; left|done].
  destruct (x509_CreateCertificate _ _ _ _ _) as [der|] eqn:Ec; [|done].
  destruct (pem_EncodeToMemory _ _) as [pem|] eqn:Ep; [|done].
  intros ->%store_Some. right. do 6 eexists. split; [done|]. split; [done|].
  split_and!; [..|exact Ec|exact Ep]; done.
Qed.

Lemma issue_Some i obj config obj' r :
  issue i obj config = (Some obj', r) → in_config i = Ok config →
  obj' = setFailedCSR obj ∨
  ∃ pem, obj' = mkCSR (csr_Spec obj) (csr_Conditions obj) pem ∧ signed_for (csr_Spec obj) pem.
Proof.
  intros E Hcfg. unfold issue in E.
  destruct (LoadCertificateRequest _) as [[[[subject dns] ips] pub]|] eqn:El; [|done].
  destruct (rand_Int _ _) as [sn|]; [|done].
  case_bool_decide as E1; [|case_bool_decide as E2; [|case_bool_decide as E3; [|done]]].
  all: apply sign_Some in E as [->|(ca & caKey & t & n & der & pem & -> & Hca & T1 & T2 & T3 & Hc & Hp)];
    [by left|right; exists pem; split; [done|]].
  all: exists i, config, subject, dns, ips, pub, ca, caKey, t, n, der; unfold signing_ca, certificate_template.
  - rewrite bool_decide_true by done. split_and!; auto 10.
  - rewrite bool_decide_false by done. split_and!; auto 10.
  - rewrite bool_decide_false by done. split_and!; auto 10.
Qed.

(** What one reconciliation stores. *)
Lemma Reconcile_Some i obj obj' r :
  Reconcile i (Ok (Some obj)) = (Some obj', r) →
  csr_Certificate obj = EmptyString ∧
  ¬ has_condition CertificateDenied obj ∧ ¬ has_condition CertificateFailed obj ∧
  ((∃ m, obj' = add_condition obj (mkCondition CertificateDenied "K8sdDeny" m)) ∨
   (obj' = add_condition obj (mkCondition CertificateApproved "K8sdApprove" "CSR approved by k8sd") ∧
    auto_approved (csr_Spec obj)) ∨
   (has_condition CertificateApproved obj ∧
    (obj' = setFailedCSR obj ∨ ∃ pem, obj' = mkCSR (csr_Spec obj) (csr_Conditions obj) pem ∧
       signed_for (csr_Spec obj) pem))).
Proof.
  unfold Reconcile. case_bool_decide as Hc; [|done]. simpl. case_bool_decide; [done|].
  destruct (scan_conditions _ _) as [approved|] eqn:Es; [|done].
  apply scan_conditions_spec in Es as (Hd & Hf & Ha).
  destruct (in_config i) as [config|] eqn:Ecfg; [|done].
  intros E. split; [done|]. split; [done|]. split; [done|]. destruct approved; simpl in E.
  - apply issue_Some in E; [|done]. destruct Ha as [[?|?] _]; [done|done|]. by right; right.
  - destruct (internalConfigFromAnnotations _) eqn:Ea; [|done].
    case_bool_decide; [done|]. destruct (LoadRSAPrivateKey _) as [priv|] eqn:Ek; [|done].
    unfold reconcileAutoApprove in E. destruct (validateCSR obj priv) as [[]|e] eqn:Ev.
    + apply store_Some in E as ->. right. left. split; [done|]. exists i, config, priv.
      split_and!; try done. revert Ev. apply validate_valid.
    + apply store_Some in E as ->. left. by eexists.
Qed.

Lemma has_add_condition t obj c :
  has_condition t (add_condition obj c) ↔ has_condition t obj ∨ t = cond_Type c.
Proof. unfold has_condition. simpl. rewrite fmap_app, elem_of_app. simpl. rewrite list_elem_of_singleton. done. Qed.

Lemma csr_invariant s b obj :
  csr_reachable s b obj →
  csr_Spec obj = s ∧
  (csr_Certificate obj ≠ EmptyString → has_condition CertificateApproved obj ∧
     signed_for s (csr_Certificate obj)) ∧
  (has_condition CertificateApproved obj → b = true ∨ auto_approved s).
Proof.
  induction 1 as [|b i obj obj' r _ (Hs & Hc & Ha) E|b obj c _ (Hs & Hc & Ha)].
  - split_and!; [done|done|]. by intros ?%not_elem_of_nil.
  - apply Reconcile_Some in E as (Hempty & _ & _ & [(m & ->)|[(-> & Hauto)|(Happ & [->|(pem & -> & Hsig)])]]).
    + split_and!; [done|done|]. rewrite has_add_condition. by intros [?|?]; [apply Ha|].
    + split_and!; [done|done|]. rewrite Hs in Hauto. by right.
    + split_and!; [done|done|]. unfold setFailedCSR. rewrite has_add_condition.
      by intros [?|?]; [apply Ha|].
    + rewrite Hs in Hsig. split_and!; [done|done|]. by intros _; apply Ha.
  - split_and!; [done| |].
    + intros [? ?]%Hc. rewrite has_add_condition. auto.
    + rewrite has_add_condition. intros [?%Ha|<-]; [|left; rewrite bool_decide_true by done; by rewrite orb_true_r].
      naive_solver.
Qed.

End Controller.

(** ** A concrete request *)

Definition demo_csr_env : @CsrEnv PkiNode.demo_pki_env := {|
  base64_DecodeString s := Ok s;
  rsa_DecryptPKCS1v15 _ s := Ok s;
  sha256_Sum s := "sum of " +:+ s;
  idna_ToASCII s := Ok s;
  error_text _ := "invalid" |}.

Definition demo_spec : Spec :=
  mkSpec {[ "k8sd.io/node" := "n1"; "k8sd.io/signature" := "sum of CERTIFICATE REQUEST|system:node:n1" ]}
    "CERTIFICATE REQUEST|system:node:n1" "k8sd.io/kubelet-serving" "system:node:n1"
    ["system:authenticated"; "system:nodes"]
    [UsageDigitalSignature; UsageKeyEncipherment; UsageServerAuth] None.

Definition demo_csr_config : ClusterConfig :=
  mkClusterConfig
    (mkCertificates (Some "CERTIFICATE|ca") (Some "RSA PRIVATE KEY|ca") None None None None None None
       None None None None (Some "RSA PRIVATE KEY|k8sd"))
    empty_Datastore empty_APIServer empty_Kubelet empty_Network empty_DNS empty_Ingress
    empty_LoadBalancer empty_Gateway empty_LocalStorage empty_MetricsServer
    (Some {[ "k8sd/v1alpha1/csrsigning/auto-approve" := "true" ]}).

Definition demo_inputs : Inputs := mkInputs (Ok demo_csr_config) 10 11 0 None.

Definition demo_reconcile (obj : CSR) : option CSR :=
  (@Reconcile _ demo_csr_env demo_externals demo_inputs (Ok (Some obj))).1.

End Csr.
