(* ===== verification/DnsRebalancer.v ===== *)
(** * The DNS rebalancer controller

    pkg/k8sd/controllers/dnsrebalancer/reconcile.go and [RestartDeployment] of
    pkg/client/kubernetes/restart_deployment.go.  What the API server answers is in the
    inputs of a reconciliation. *)

From S2P Require Import Prelude GoStrings Config.
Import GoStr Config.

Module DnsRebalancer.

Inductive NodeConditionType := NodeReady | OtherNodeCondition (type : string).
Inductive ConditionStatus := ConditionTrue | OtherStatus (status : string).
#[export] Instance NodeConditionType_eq_dec : EqDecision NodeConditionType.
Proof. solve_decision. Defined.
#[export] Instance ConditionStatus_eq_dec : EqDecision ConditionStatus.
Proof. solve_decision. Defined.

(** A node is its conditions, a pod the name of the node it is scheduled on, or none. *)
Abbreviation Node := (list (NodeConditionType * ConditionStatus)).
Abbreviation Pod := string.

(** A failed call, and whether it is a "not found". *)
Record ApiError := mkApiError { api_NotFound : bool; api_error : goerr }.

Record Inputs := mkInputs {
  (** [None]: no function to read the configuration was given. *)
  in_config : option (res ClusterConfig);
  in_nodes : list Node + ApiError;
  (** The CoreDNS pods of the namespace kube-system. *)
  in_pods : res (list Pod);
  in_client : res unit;
  (** The annotations of the pods of the coredns deployment, if there are any. *)
  in_deployment : res (option (gmap string string));
  in_time : string;
  in_update : option goerr }.

Fixpoint has_ready (conditions : Node) : bool :=
  match conditions with
  | [] => false
  | (type, status) :: conditions =>
      if bool_decide (type = NodeReady) && bool_decide (status = ConditionTrue) then true
      else has_ready conditions
  end.
Fixpoint countReadyNodes (nodeList : list Node) : Z :=
  match nodeList with
  | [] => 0
  | node :: nodeList => (if has_ready node then 1 else 0) + countReadyNodes nodeList
  end.

Fixpoint all_on (firstNodeName : string) (pods : list Pod) : bool :=
  match pods with
  | [] => true
  | pod :: pods => if pod !=? firstNodeName then false else all_on firstNodeName pods
  end.

Definition coreDNSNeedsRebalancing (pods : res (list Pod)) : res bool :=
  pods ← pods;
  _ ← fails_if (length pods =? 0) (Errorf "no CoreDNS pods found" []);
  let scheduled := List.filter (λ pod, pod !=? EmptyString) pods in
  match scheduled with
  | firstNodeName :: (_ :: _) as rest => Ok (all_on firstNodeName (tail scheduled))
  | _ => Err (Errorf "less than 2 pods are scheduled" [])
  end.

(** The annotations stored, if any, and the result. *)
Definition RestartDeployment (name namespace : string) (i : Inputs)
    : option (gmap string string) * res unit :=
  match in_deployment i with
  | Err e => (None, Err (Wrapf "failed to get deployment %s in namespace %s: %w" [name; namespace] e))
  | Ok annotations =>
      let annotations := <["kubectl.kubernetes.io/restartedAt" := in_time i]> (default ∅ annotations) in
      match in_update i with
      | Some e => (None, Err (Wrapf "failed to set restartedAt annotation for deployment %s in namespace %s: %w" [name; namespace] e))
      | None => (Some annotations, Ok tt)
      end
  end.

(** The result is the delay after which the node is seen again, if any; an error comes with
    one too. *)
Definition Reconcile (i : Inputs) : option (gmap string string) * (option Z * option goerr) :=
  match in_config i with
  | None => (None, (None, None))
  | Some (Err e) => (None, (None, Some (Wrapf "failed to get cluster config: %w" [] e)))
  | Some (Ok config) =>
      if negb (DNS_GetEnabled (CC_DNS config)) then (None, (None, None))
      else
        match in_nodes i with
        | inr err => if api_NotFound err then (None, (None, None)) else (None, (None, Some (api_error err)))
        | inl nodeList =>
            if (countReadyNodes nodeList <? 2)%Z then (None, (None, None))
            else
              match coreDNSNeedsRebalancing (in_pods i) with
              | Err e => (None, (Some (30 * 1000000000)%Z,
                           Some (Wrapf "failed to check CoreDNS pods distribution: %w" [] e)))
              | Ok false => (None, (None, None))
              | Ok true =>
                  match in_client i with
                  | Err e => (None, (None, Some e))
                  | Ok _ =>
                      match RestartDeployment "coredns" "kube-system" i with
                      | (stored, Err e) => (stored, (None, Some (Wrapf "failed to restart CoreDNS deployment: %w" [] e)))
                      | (stored, Ok _) => (stored, (None, None))
                      end
                  end
              end
        end
  end.

(** ** Lemmas *)

Lemma has_ready_spec node : has_ready node = true ↔ (NodeReady, ConditionTrue) ∈ node.
Proof.
  induction node as [|[t s] node IH]; simpl; [by rewrite elem_of_nil|].
  rewrite elem_of_cons. destruct (bool_decide (t = NodeReady) && bool_decide (s = ConditionTrue)) eqn:E.
  - apply andb_true_iff in E as [->%bool_decide_eq_true ->%bool_decide_eq_true]. by split; [left|].
  - rewrite IH. split; [by right|]. intros [[= <- <-]|?]; [|done]. by rewrite !bool_decide_true in E.
Qed.

Lemma countReadyNodes_spec l :
  countReadyNodes l = Z.of_nat (length (filter (λ node, (NodeReady, ConditionTrue) ∈ node) l)).
Proof.
  induction l as [|node l IH]; [done|]. cbn [countReadyNodes]. rewrite IH, filter_cons.
  destruct (has_ready node) eqn:E.
  - rewrite decide_True by (by apply has_ready_spec). simpl. lia.
  - rewrite decide_False; [lia|]. intros Hn%has_ready_spec. congruence.
Qed.

Lemma all_on_spec n l : all_on n l = true ↔ Forall (λ pod, pod = n) l.
Proof.
  induction l as [|pod l IH]; simpl; [by split|]. rewrite Forall_cons.
  case_bool_decide; simpl; [rewrite IH|]; naive_solver.
Qed.

(** The pods that are scheduled, and when they need rebalancing. *)
Definition scheduled (pods : list Pod) : list Pod := filter (λ pod, pod ≠ EmptyString) pods.

Lemma coreDNSNeedsRebalancing_true r :
  coreDNSNeedsRebalancing r = Ok true ↔
  ∃ pods n, r = Ok pods ∧ 2 ≤ length (scheduled pods) ∧ Forall (λ pod, pod = n) (scheduled pods).
Proof.
  unfold coreDNSNeedsRebalancing, scheduled. destruct r as [pods|e]; [|naive_solver]. simpl.
  assert (Hf : List.filter (λ pod, pod !=? EmptyString) pods = filter (λ pod, pod ≠ EmptyString) pods).
  { induction pods as [|p pods IH]; [done|]. rewrite filter_cons. simpl.
    case_bool_decide; rewrite <- IH; [rewrite decide_False by tauto|rewrite decide_True by done]; done. }
  rewrite Hf. destruct pods as [|p pods]; [split; [done|]; intros (? & ? & [= <-] & Hl & _); simpl in Hl; lia|].
  cbn [length Nat.eqb fails_if mbind res_bind].
  destruct (filter _ (p :: pods)) as [|n [|n2 rest]] eqn:E; simpl.
  - split; [done|]. intros (? & ? & [= <-] & Hl & _). rewrite E in Hl. simpl in Hl. lia.
  - split; [done|]. intros (? & ? & [= <-] & Hl & _). rewrite E in Hl. simpl in Hl. lia.
  - split.
    + intros [= Ha]. exists (p :: pods), n. split; [done|]. rewrite E. split; [simpl; lia|].
      apply Forall_cons. split; [done|]. by apply (all_on_spec n (n2 :: rest)).
    + intros (? & m & [= <-] & _ & Ha). rewrite E in Ha. apply Forall_cons in Ha as [-> Ha].
      f_equal. by apply (all_on_spec m (n2 :: rest)).
Qed.

(** A branch that restarts nothing, against conditions it contradicts. *)
Ltac no_restart :=
  split; [done|]; intros ?;
  repeat match goal with
  | H : ∃ _, _ |- _ => destruct H
  | H : _ ∧ _ |- _ => destruct H
  end; congruence.

(** The controller restarts CoreDNS exactly when DNS is enabled, at least two nodes are
    ready, at least two CoreDNS pods are scheduled, all the scheduled ones are on the
    same node, and the calls it makes work; the restart is the annotation with the
    current time, the other annotations being kept. *)
Theorem Reconcile_restarts_iff i stored :
  (Reconcile i).1 = Some stored ↔
  (∃ config, in_config i = Some (Ok config) ∧ DNS_GetEnabled (CC_DNS config) = true) ∧
  (∃ nodes, in_nodes i = inl nodes ∧
     2 ≤ length (filter (λ node, (NodeReady, ConditionTrue) ∈ node) nodes)) ∧
  (∃ pods n, in_pods i = Ok pods ∧ 2 ≤ length (scheduled pods) ∧
     Forall (λ pod, pod = n) (scheduled pods)) ∧
  in_client i = Ok tt ∧
  (∃ annotations, in_deployment i = Ok annotations ∧ in_update i = None ∧
     stored = <["kubectl.kubernetes.io/restartedAt" := in_time i]> (default ∅ annotations)).
Proof.
  rewrite <- coreDNSNeedsRebalancing_true. unfold Reconcile, RestartDeployment.
  destruct (in_config i) as [[config|]|]; [|no_restart..].
  destruct (DNS_GetEnabled _) eqn:Ed; [|no_restart]. simpl.
  destruct (in_nodes i) as [nodes|err]; [|destruct (api_NotFound err); no_restart].
  rewrite countReadyNodes_spec. destruct (_ <? 2)%Z eqn:Ec.
  { split; [done|]. intros (_ & (? & [= <-] & ?) & _). lia. }
  destruct (coreDNSNeedsRebalancing _) as [[]|]; [|no_restart..].
  destruct (in_client i) as [[]|]; [|no_restart].
  destruct (in_deployment i) as [annotations|]; [|no_restart].
  destruct (in_update i); [no_restart|]. simpl.
  split.
  - intros [= <-]. split_and!; [by eexists| |done..|by eexists]. eexists. split; [done|]. lia.
  - intros (_ & _ & _ & _ & ? & [= <-] & _ & ->). done.
Qed.
End DnsRebalancer.
