(* ===== verification/Upgrade.v ===== *)
(** * Upgrades of the cluster

    [GetInProgressUpgrade] and [PatchUpgradeStatus] of pkg/client/kubernetes/upgrades.go;
    the upgrade controller of pkg/k8sd/controllers/upgrade/reconcile.go; how a node that
    was refreshed (pkg/k8sd/app/hooks_post_refresh.go) or that joins
    (pkg/k8sd/app/hooks_join.go) takes part.

    What the API server answers is in the arguments of an operation, and an operation
    returns the patch it sends.  The controller reads from a cache that may be behind the
    server; waiting for the features is interleaved with their loops. *)

From stdpp Require Import functions relations.
From S2P Require Import Prelude GoStrings Config Database Feature.
Import GoStr Config Feature.

Module Upgrades.

(** ** pkg/client/kubernetes/upgrades.go *)

Inductive list_answer := LItems (items : list Upgrade) | LNotFound | LErr (e : goerr).

Definition in_progress (u : Upgrade) : bool :=
  (us_Phase (up_Status u) !=? Failed) && (us_Phase (up_Status u) !=? Completed).

Definition name_le (u v : Upgrade) : Prop := String.le (up_Name u) (up_Name v).
#[export] Instance name_le_dec : RelDecision name_le.
Proof. intros u v. unfold name_le. apply _. Defined.

(** The last one by name of those that have neither failed nor completed. *)
Definition latest_in_progress (items : list Upgrade) : option Upgrade :=
  last (merge_sort name_le (List.filter in_progress items)).

(** [answers i] is the answer to the [i]-th attempt to list the upgrades. *)
Definition GetInProgressUpgrade (answers : nat → list_answer) (cancelled : nat → bool)
    : res (option Upgrade) :=
  let list i := match answers i with
                | LErr e => Some (Wrapf "failed to get upgrades: %w" [] e)
                | LItems _ | LNotFound => None
                end in
  match RetryFor 5 list cancelled with
  | (Some e, _) => Err (Wrapf "failed after retry: %w" [] e)
  | (None, n) => match answers (pred n) with
                 | LItems items => Ok (latest_in_progress items)
                 | _ => Ok None
                 end
  end.

(** A patch the code sends: the name of the upgrade, and the status the object had when it
    was read and the one it has now, of which [client.MergeFrom] makes a JSON merge patch.
    What the server does with it is external. *)
Record Patch := mkPatch { p_old : UpgradeStatus; p_new : UpgradeStatus }.
#[export] Instance Patch_eq_dec : EqDecision Patch.
Proof. solve_decision. Defined.

Definition sent : Type := option (string * Patch).

(** The status of the server after a patch.  As documented for a JSON merge patch, a field
    that differs between the two statuses is replaced, a list as a whole; any other field
    stays as it is on the server. *)
Class MergePatch := apply_patch : Patch → UpgradeStatus → UpgradeStatus.
Definition patched_field {A} (get : UpgradeStatus → A) (p : Patch) (s s' : UpgradeStatus) : Prop :=
  (get (p_old p) = get (p_new p) → get s' = get s) ∧
  (get (p_old p) ≠ get (p_new p) → get s' = get (p_new p)).
Class MergePatchOk `{MergePatch} : Prop := {
  patch_phase : ∀ p s, patched_field us_Phase p s (apply_patch p s);
  patch_nodes : ∀ p s, patched_field us_UpgradedNodes p s (apply_patch p s) }.

Definition PatchUpgradeStatus (u : Upgrade) (status : UpgradeStatus) (answer : option goerr)
    : sent * res unit :=
  (Some (up_Name u, mkPatch (up_Status u) status),
   match answer with
   | Some e => Err (Wrapf "failed to patch upgrade status: %w" [] e)
   | None => Ok tt
   end).

(** ** The controller: pkg/k8sd/controllers/upgrade/reconcile.go *)

Inductive answer (A : Type) := Found (a : A) | NotFound | Failure (e : goerr).
Arguments Found {A} a.
Arguments NotFound {A}.
Arguments Failure {A} e.

(** A node: its name and its annotation "k8sd.io/version". *)
Record Node := mkNode { nd_Name : string; nd_Version : option string }.

(** [version.Info]: the revision and the Kubernetes version, printed. *)
Record Info := mkInfo { in_Revision : string; in_KubernetesVersion : option string }.

Definition GetName (v : Info) : string :=
  "cluster-upgrade-to-k8s-" +:+ default "UNKNOWN" (in_KubernetesVersion v) +:+ "-rev-" +:+ in_Revision v.

(** What the calls of one reconciliation answer. *)
Record Calls := mkCalls {
  get_upgrade : string → answer Upgrade;
  get_node : string → answer Node;
  list_nodes : res (list string);
  decode : string → res Info;
  features_ready : bool;
  wait_features : res unit;
  patched : option goerr }.

Definition transitionTo (k : Calls) (upgrade : Upgrade) (phase : UpgradePhase) : sent * res unit :=
  let s := up_Status upgrade in
  (Some (up_Name upgrade, mkPatch s (mkUpgradeStatus phase (us_UpgradedNodes s) (us_Strategy s))),
   match patched k with Some e => Err (Wrapf "failed to patch: %w" [] e) | None => Ok tt end).

Definition allNodesUpgraded (k : Calls) (upgradedNodes : list string) : res bool :=
  nodeList ← wrapf "failed to list nodes: %w" [] (list_nodes k);
  let oldNodes := List.filter (λ n, bool_decide (n ∉ upgradedNodes)) nodeList in
  Ok (length oldNodes =? 0).

Definition reconcileStatusNodeUpgrade (k : Calls) (upgrade : Upgrade) : sent * res unit :=
  match wrapf "failed to check if all nodes have been upgraded: %w" []
          (allNodesUpgraded k (us_UpgradedNodes (up_Status upgrade))) with
  | Err e => (None, Err e)
  | Ok false => (None, Ok tt)
  | Ok true => let '(p, r) := transitionTo k upgrade FeatureUpgrade in
               (p, wrapf "failed to transition to %q phase: %w" [] r)
  end.

Definition reconcileStatusFeatureUpgrade (k : Calls) (upgrade : Upgrade) : sent * res unit :=
  if negb (features_ready k) then
    (None, Err (Errorf "timed out waiting for feature controllers to be ready" []))
  else
    match wrapf "failed to wait for feature reconciliations: %w" [] (wait_features k) with
    | Err e => (None, Err e)
    | Ok _ => let '(p, r) := transitionTo k upgrade Completed in
              (p, wrapf "failed to transition to %q phase: %w" [] r)
    end.

Definition reconcileUpgrade (k : Calls) (upgrade : Upgrade) : sent * res unit :=
  match us_Phase (up_Status upgrade) with
  | NodeUpgrade => reconcileStatusNodeUpgrade k upgrade
  | FeatureUpgrade => reconcileStatusFeatureUpgrade k upgrade
  | Completed => (None, Ok tt)
  | Failed => (None, Err (Errorf "upgrade %q has failed" [up_Name upgrade]))
  | OtherPhase _ => (None, Ok tt)
  end.

Definition addToUpgradedNodes (k : Calls) (upgrade : Upgrade) (node : Node) : sent * res unit :=
  let s := up_Status upgrade in
  if bool_decide (nd_Name node ∈ us_UpgradedNodes s) then (None, Ok tt)
  else
    (Some (up_Name upgrade,
       mkPatch s (mkUpgradeStatus (us_Phase s) (us_UpgradedNodes s ++ [nd_Name node]) (us_Strategy s))),
     match patched k with Some e => Err (Wrapf "failed to patch: %w" [] e) | None => Ok tt end).

Definition reconcileNode (k : Calls) (node : Node) : sent * res unit :=
  match nd_Version node with
  | None => (None, Ok tt)
  | Some vStr =>
      match wrapf "failed to decode version info for node %q: %w" [nd_Name node] (decode k vStr) with
      | Err e => (None, Err e)
      | Ok versionData =>
          match get_upgrade k (GetName versionData) with
          | NotFound => (None, Ok tt)
          | Failure e => (None, Err (Wrapf "failed to get upgrade for version %q: %w" [] e))
          | Found upgrade =>
              if us_Phase (up_Status upgrade) !=? NodeUpgrade then (None, Ok tt)
              else let '(p, r) := addToUpgradedNodes k upgrade node in
                   (p, wrapf "failed to add node %q to upgraded nodes: %w" [nd_Name node] r)
          end
      end
  end.

Definition reconcile (k : Calls) (req : string) : sent * res unit :=
  let node_of (errs : list goerr) :=
    match get_node k req with
    | Found node => let '(p, r) := reconcileNode k node in
                    (p, wrapf "failed to reconcile node %q: %w" [req] r)
    | NotFound => (None, match errs with [] => Ok tt | e :: _ => Err e end)
    | Failure e => (None, match errs with
                          | [] => Err (Wrapf "failed to get node %q: %w" [req] e)
                          | e0 :: _ => Err e0
                          end)
    end in
  match get_upgrade k req with
  | Found upgrade => let '(p, r) := reconcileUpgrade k upgrade in
                     (p, wrapf "failed to reconcile upgrade %q: %w" [req] r)
  | NotFound => node_of []
  | Failure e => node_of [Wrapf "failed to get upgrade %q: %w" [req] e]
  end.

(** The result is the delay until the object is seen again. *)
Definition Reconcile (k : Calls) (req : string) : sent * res Z :=
  let '(p, r) := reconcile k req in
  (p, (_ ← wrapf "failed to reconcile: %w" [] r; Ok (5 * minute)%Z)).

(** ** A node that was refreshed: hooks_post_refresh.go *)

(** [created] is the answer to the creation of an upgrade, of which the status is empty. *)
Definition performPostUpgrade (name : string) (client : res unit)
    (upgrade : res (option Upgrade)) (rev : res string) (k8sVersion : res string)
    (created patched : option goerr) : sent * res unit :=
  match wrapf "failed to get Kubernetes client: %w" [] client,
        wrapf "failed to check for in-progress upgrade: %w" [] upgrade with
  | Err e, _ => (None, Err e)
  | Ok _, Err e => (None, Err e)
  | Ok _, Ok upgrade =>
      let u := match upgrade with
        | Some u => Ok u
        | None =>
            rev ← wrapf "failed to get revision: %w" [] rev;
            v ← wrapf "failed to get kubernetes version: %w" [] k8sVersion;
            match created with
            | Some e => Err (Wrapf "failed to create upgrade: %w" [] e)
            | None => Ok (mkUpgrade (GetName (mkInfo rev (Some v)))
                            (mkUpgradeStatus (OtherPhase EmptyString) [] (OtherStrategy EmptyString)))
            end
        end in
      match u with
      | Err e => (None, Err e)
      | Ok u =>
          let nodes := us_UpgradedNodes (up_Status u) in
          let nodes := if bool_decide (name ∈ nodes) then nodes else nodes ++ [name] in
          let '(p, r) := PatchUpgradeStatus u (mkUpgradeStatus NodeUpgrade nodes InPlace) patched in
          (p, wrapf "failed to mark node as upgraded: %w" [] r)
      end
  end.

(** ** A node that joins: hooks_join.go *)

(** k8s.io/apimachinery/pkg/util/version. *)
Class Versions := {
  version : Type;
  EqualTo : version → version → bool;
  LessThan : version → version → bool;
  GreaterThan : version → version → bool;
  Major : version → Z;
  Minor : version → Z;
  version_String : version → string }.

Section Join.
Context `{Versions}.

(** The versions of the nodes, in the order the map is iterated over. *)
Abbreviation NodeVersions := (list (string * version)).

Fixpoint cluster_version (self : string) (nodeVersions : NodeVersions) (clusterK8sVersion : option version)
    : res (option version) :=
  match nodeVersions with
  | [] => Ok clusterK8sVersion
  | (node, v) :: rest =>
      if node ==? self then cluster_version self rest clusterK8sVersion
      else
        let cv := default v clusterK8sVersion in
        if EqualTo cv v then cluster_version self rest (Some cv)
        else Err (Errorf "the cluster has nodes with different Kubernetes versions %q and %q - upgrade all nodes to the same version before joining a new one"
                    [version_String cv; version_String v])
  end.

(** What is created and patched: the name of a new upgrade, and the patch. *)
Definition initiateRollingUpgrade (self : string) (rev : res string) (this cluster : version)
    (created patched : option goerr) : option string * sent * res unit :=
  match wrapf "failed to get snap revision: %w" [] rev with
  | Err e => (None, None, Err e)
  | Ok rev =>
      let strategy := if GreaterThan this cluster then RollingUpgrade else RollingDowngrade in
      let name := GetName (mkInfo rev (Some (version_String this))) in
      match created with
      | Some e => (None, None, Err (Wrapf "failed to create upgrade: %w" [] e))
      | None =>
          let u := mkUpgrade name (mkUpgradeStatus (OtherPhase EmptyString) [] (OtherStrategy EmptyString)) in
          let '(p, r) := PatchUpgradeStatus u (mkUpgradeStatus NodeUpgrade [self] strategy) patched in
          (Some name, p, wrapf "failed to patch upgrade status: %w" [] r)
      end
  end.

Definition handleNoUpgradeInProgress (self : string) (rev : res string) (this : version)
    (nodeVersions : NodeVersions) (created patched : option goerr) : option string * sent * res unit :=
  match cluster_version self nodeVersions None with
  | Err e => (None, None, Err e)
  | Ok None => (None, None, Err (Errorf "the cluster has no nodes - cannot determine cluster Kubernetes version" []))
  | Ok (Some cluster) =>
      if EqualTo this cluster then (None, None, Ok tt)
      else if (Major this =? Major cluster)%Z && (Minor this =? Minor cluster)%Z then
        (None, None, Err (Errorf "the joining node has a different patch version than cluster nodes" []))
      else if (Major this =? Major cluster)%Z then
        initiateRollingUpgrade self rev this cluster created patched
      else (None, None, Ok tt)
  end.

Definition lowestHighestK8sVersions (nodeVersions : NodeVersions) : option version * option version :=
  fold_left (λ '(lowest, highest) '(_, v),
    (match lowest with Some l => if LessThan v l then Some v else Some l | None => Some v end,
     match highest with Some h => if GreaterThan v h then Some v else Some h | None => Some v end))
    nodeVersions (None, None).

(** Comparing with a nil version is a panic. *)
Definition nil_version : goerr := Errorf "runtime error: invalid memory address or nil pointer dereference" [].
Definition must_match (this : version) (other : option version) (fmt : string) : res unit :=
  match other with
  | None => Err nil_version
  | Some v => fails_if (negb (EqualTo this v)) (Errorf fmt [version_String this; version_String v])
  end.

Definition handleUpgradeInProgress (self : string) (upgrade : Upgrade) (this : version)
    (nodeVersions : NodeVersions) (patched : option goerr) : sent * res unit :=
  let '(lowest, highest) := lowestHighestK8sVersions nodeVersions in
  let s := up_Status upgrade in
  let allowed := match us_Strategy s with
    | RollingUpgrade => must_match this highest "joining node version %q needs to match highest version %q"
    | RollingDowngrade => must_match this lowest "joining node version %q needs to match lowest version %q"
    | InPlace => Err (Errorf "can not join a new node while an in-place upgrade is in progress" [])
    | OtherStrategy o => Err (Errorf "unknown upgrade strategy in progress: %q" [o])
    end in
  match allowed with
  | Err e => (None, Err e)
  | Ok _ =>
      let nodes := us_UpgradedNodes s in
      let nodes := if bool_decide (self ∈ nodes) then nodes else nodes ++ [self] in
      PatchUpgradeStatus upgrade (mkUpgradeStatus (us_Phase s) nodes (us_Strategy s)) patched
  end.

Definition handleRollOutUpgrade (self : string) (upgrade : res (option Upgrade)) (this : res version)
    (nodeVersions : res NodeVersions) (rev : res string) (created patched : option goerr)
    : option string * sent * res unit :=
  match wrapf "failed to check for in-progress upgrade: %w" [] upgrade,
        wrapf "failed to get node Kubernetes version: %w" [] this,
        wrapf "failed to get Kubernetes versions of cluster: %w" [] nodeVersions with
  | Err e, _, _ | Ok _, Err e, _ | Ok _, Ok _, Err e => (None, None, Err e)
  | Ok None, Ok this, Ok nodeVersions =>
      handleNoUpgradeInProgress self rev this nodeVersions created patched
  | Ok (Some u), Ok this, Ok nodeVersions =>
      let '(p, r) := handleUpgradeInProgress self u this nodeVersions patched in (None, p, r)
  end.
End Join.

(** ** Waiting for the features *)

(** [waitForFeatureReconciliations], which for each feature in turn notifies its loop and
    receives from its "reconciled" channel, running beside the loops.  [sy_wait] is what
    it still has to do, [sy_triggered] whether the first of it was notified. *)
Record Sys := mkSys {
  sy_loops : FeatureName → Loop;
  sy_wait : list FeatureName;
  sy_triggered : bool }.

Definition with_trigger (l : Loop) : Loop :=
  mkLoop (lp_attempts l) (MaybeNotify (lp_trigger l)) (lp_reconciled l) (lp_timers l) (lp_log l).
Definition with_received (l : Loop) : Loop :=
  mkLoop (lp_attempts l) (lp_trigger l) false (lp_timers l) (lp_log l).

Section Waiting.
Context `{Externals}.
Variable maxAttempts : Z.

Inductive wait_step : Sys → Sys → Prop :=
| SLoop loops f l' wait trig : loop_step maxAttempts (loops f) (Some l') →
    wait_step (mkSys loops wait trig) (mkSys (<[f := l']> loops) wait trig)
| STrigger loops f wait :
    wait_step (mkSys loops (f :: wait) false) (mkSys (<[f := with_trigger (loops f)]> loops) (f :: wait) true)
| SReceive loops f wait : lp_reconciled (loops f) = true →
    wait_step (mkSys loops (f :: wait) true) (mkSys (<[f := with_received (loops f)]> loops) wait false).

(** A successful application was made since the log was [log0]. *)
Definition applied_since (log0 log : list Applied) : Prop :=
  ∃ new a, log = new ++ log0 ∧ a ∈ new ∧ ap_err a = None.

Lemma wait_invariant f loops0 s s' :
  rtc wait_step s s' →
  lp_reconciled (loops0 f) = false →
  let inv (s : Sys) := NoDup (sy_wait s) ∧ (∃ new, lp_log (sy_loops s f) = new ++ lp_log (loops0 f)) ∧
    (lp_reconciled (sy_loops s f) = true ∨ f ∉ sy_wait s →
     applied_since (lp_log (loops0 f)) (lp_log (sy_loops s f))) in
  inv s → inv s'.
Proof.
  intros Hs H0 inv. induction Hs as [s|s1 s2 s3 Hstep _ IH]; [done|]. intros (Hnd & (new0 & Hlog) & Hap).
  apply IH. clear IH. unfold inv. clear inv. destruct Hstep as [loops g l' wait trig Hl|loops g wait|loops g wait Hr]; simpl in *;
    (destruct (decide (g = f)) as [->|Hne]; [rewrite !fn_lookup_insert|rewrite !fn_lookup_insert_ne by done]); simpl.
  - apply (step_log maxAttempts) in Hl as (new & Hlog' & Hrec). split; [done|]. rewrite Hlog', Hlog. split; [by exists (new ++ new0); rewrite app_assoc|].
    intros Hor. assert (lp_reconciled (loops f) = true ∨ f ∉ wait ∨ ∃ a, a ∈ new ∧ ap_err a = None) as [Hc|[Hc|(a & Ha & He)]].
    { destruct Hor as [[?|?]%Hrec|?]; auto. }
    + destruct (Hap (or_introl Hc)) as (n & a & Hn & Ha & He). rewrite Hlog in Hn.
      exists (new ++ n), a. rewrite <- app_assoc, <- Hn. set_solver.
    + destruct (Hap (or_intror Hc)) as (n & a & Hn & Ha & He). rewrite Hlog in Hn.
      exists (new ++ n), a. rewrite <- app_assoc, <- Hn. set_solver.
    + exists (new ++ new0), a. rewrite app_assoc. set_solver.
  - by split_and!; [|exists new0|].
  - by split_and!; [|exists new0|].
  - by split_and!; [|exists new0|].
  - apply NoDup_cons in Hnd as [Hn Hnd]. split_and!; [done|by exists new0|]. intros _. apply Hap. by left.
  - apply NoDup_cons in Hnd as [Hn Hnd]. split_and!; [done|by exists new0|].
    intros [?|Hf]; apply Hap; [by left|]. right. rewrite not_elem_of_cons. by split; [|].
Qed.

Lemma wait_all_full loops names :
  NoDup names → (∀ f, f ∈ names → lp_reconciled (loops f) = true) →
  ∃ loops', rtc wait_step (mkSys loops names false) (mkSys loops' [] false) ∧
    ∀ f, lp_log (loops' f) = lp_log (loops f).
Proof.
  revert loops. induction names as [|f names IH]; intros loops Hnd Hr.
  - exists loops. split; [apply rtc_refl|done].
  - apply NoDup_cons in Hnd as [Hf Hnd].
    set (l1 := <[f := with_trigger (loops f)]> loops). set (l2 := <[f := with_received (l1 f)]> l1).
    assert (Hlog : ∀ g, lp_log (l2 g) = lp_log (loops g)).
    { intros g. unfold l2, l1. destruct (decide (f = g)) as [<-|?];
        [by rewrite !fn_lookup_insert|by rewrite !fn_lookup_insert_ne]. }
    destruct (IH l2) as (loops' & Hrtc & Hl); [done| |].
    { intros g Hg. assert (f ≠ g) by congruence. unfold l2, l1. rewrite !fn_lookup_insert_ne by done.
      apply Hr. by right. }
    exists loops'. split; [|by intros g; rewrite Hl].
    eapply rtc_l; [apply STrigger|]. eapply rtc_l; [|exact Hrtc]. apply SReceive.
    rewrite fn_lookup_insert. apply Hr. by left.
Qed.

(** The end of an upgrade.  If the "reconciled" channel of a feature is empty when the
    controller starts to wait, then however its loop and the others run, the wait only
    ends after that feature was applied successfully since.  But the channels are not
    emptied first: if all of them are still full from earlier applications, the wait
    can end, and the upgrade be marked completed, without any feature being applied. *)
Theorem waitForFeatureReconciliations_stale loops names :
  NoDup names →
  (∀ f s', f ∈ names → lp_reconciled (loops f) = false →
     rtc wait_step (mkSys loops names false) s' → sy_wait s' = [] →
     applied_since (lp_log (loops f)) (lp_log (sy_loops s' f))) ∧
  ((∀ f, f ∈ names → lp_reconciled (loops f) = true) →
     ∃ s', rtc wait_step (mkSys loops names false) s' ∧ sy_wait s' = [] ∧
       ∀ f, lp_log (sy_loops s' f) = lp_log (loops f)).
Proof.
  intros Hnd. split.
  - intros f s' Hf H0 Hs Hend. pose proof (wait_invariant f loops _ _ Hs H0) as Hinv. simpl in Hinv.
    destruct Hinv as (_ & _ & Hap).
    + split; [done|]. split; [by exists []|]. intros [?|?]; [congruence|done].
    + apply Hap. right. rewrite Hend. apply not_elem_of_nil.
  - intros Hall. destruct (wait_all_full loops names Hnd Hall) as (loops' & Hr & Hl). by eexists.
Qed.
End Waiting.

(** ** The controller and its cache *)

(** The status of one upgrade: what the cache of the controller holds, and the versions of
    the server it has not seen yet, newest first. *)
Record Replica := mkReplica { rp_unseen : list UpgradeStatus; rp_cached : UpgradeStatus }.
Definition server (rp : Replica) : UpgradeStatus := hd (rp_cached rp) (rp_unseen rp).

(** The reads of a reconciliation come from the cache. *)
Definition reads_cache (name : string) (rp : Replica) (k : Calls) : Prop :=
  ∀ n u, get_upgrade k n = Found u → up_Name u = n ∧ (n = name → up_Status u = rp_cached rp).

Section Replica.
Context `{MergePatch}.

(** The controller is the only one of its cluster that runs (leader election), and runs one
    reconciliation at a time; the label of its step is what its calls answered. *)
Inductive replica_step (name : string) : option Calls → Replica → Replica → Prop :=
| RSync unseen s cached : replica_step name None (mkReplica (unseen ++ [s]) cached) (mkReplica unseen s)
| RReconcile k req p r rp : reads_cache name rp k → reconcile k req = (Some (name, p), r) → patched k = None →
    replica_step name (Some k) rp (mkReplica (apply_patch p (server rp) :: rp_unseen rp) (rp_cached rp)).

Inductive replica_reachable (name : string) (s0 : UpgradeStatus) : Replica → Prop :=
| RRInit : replica_reachable name s0 (mkReplica [] s0)
| RRStep o rp rp' : replica_reachable name s0 rp → replica_step name o rp rp' →
    replica_reachable name s0 rp'.

(** What the patches of the controller can be. *)
Inductive patch_of (k : Calls) (s : UpgradeStatus) : UpgradeStatus → Prop :=
| PNodes name : us_Phase s = NodeUpgrade → name ∉ us_UpgradedNodes s →
    patch_of k s (mkUpgradeStatus (us_Phase s) (us_UpgradedNodes s ++ [name]) (us_Strategy s))
| PFeature nodes : us_Phase s = NodeUpgrade → list_nodes k = Ok nodes →
    Forall (λ n, n ∈ us_UpgradedNodes s) nodes →
    patch_of k s (mkUpgradeStatus FeatureUpgrade (us_UpgradedNodes s) (us_Strategy s))
| PCompleted : us_Phase s = FeatureUpgrade → features_ready k = true → wait_features k = Ok tt →
    patch_of k s (mkUpgradeStatus Completed (us_UpgradedNodes s) (us_Strategy s)).

Lemma allNodesUpgraded_true k l :
  allNodesUpgraded k l = Ok true → ∃ nodes, list_nodes k = Ok nodes ∧ Forall (λ n, n ∈ l) nodes.
Proof.
  unfold allNodesUpgraded. intros (nodes & Hn & [= Hl%Nat.eqb_eq])%bind_Ok. apply wrapf_Ok in Hn.
  exists nodes. split; [done|]. apply nil_length_inv in Hl. clear Hn. induction nodes as [|n nodes IH]; [constructor|].
  simpl in Hl. case_bool_decide as Hd; [done|]. constructor; [by destruct (decide (n ∈ l))|by apply IH].
Qed.

Lemma reconcileUpgrade_patch k u n p r :
  reconcileUpgrade k u = (Some (n, p), r) →
  n = up_Name u ∧ p_old p = up_Status u ∧ patch_of k (up_Status u) (p_new p).
Proof.
  unfold reconcileUpgrade. destruct (us_Phase (up_Status u)) eqn:Ep; try done.
  - unfold reconcileStatusNodeUpgrade.
    destruct (allNodesUpgraded _ _) as [[]|] eqn:Ea; [|done..]. simpl. intros [= <- <- _]. split_and!; [done..|].
    apply allNodesUpgraded_true in Ea as (nodes & Hn & Hall). by eapply PFeature.
  - unfold reconcileStatusFeatureUpgrade. destruct (features_ready k) eqn:Ef; [|done].
    destruct (wait_features k) as [[]|] eqn:Ew; [|done]. simpl. intros [= <- <- _]. split_and!; [done..|].
    by apply PCompleted.
Qed.

Lemma reconcileNode_patch k node n p r :
  reconcileNode k node = (Some (n, p), r) →
  ∃ u m, get_upgrade k m = Found u ∧ n = up_Name u ∧ p_old p = up_Status u ∧
    patch_of k (up_Status u) (p_new p).
Proof.
  unfold reconcileNode. destruct (nd_Version node) as [v|]; [|done].
  destruct (decode k v) as [d|]; [|done]. simpl.
  destruct (get_upgrade k (GetName d)) as [u| |] eqn:Eu; [|done..].
  case_bool_decide as Ep; [|done]. simpl. unfold addToUpgradedNodes. case_bool_decide as Hin; [done|].
  intros [= <- <- _]. exists u, (GetName d). split_and!; [done..|]. by apply PNodes.
Qed.

Lemma reconcile_patch k req n p r :
  reconcile k req = (Some (n, p), r) →
  ∃ u m, get_upgrade k m = Found u ∧ n = up_Name u ∧ p_old p = up_Status u ∧
    patch_of k (up_Status u) (p_new p).
Proof.
  unfold reconcile. destruct (get_upgrade k req) as [u| |e] eqn:Eu.
  - destruct (reconcileUpgrade k u) as [p' r'] eqn:E. intros [= -> _].
    apply reconcileUpgrade_patch in E as (-> & Ho & Hp). by exists u, req.
  - destruct (get_node k req) as [node| |]; [|done..]. destruct (reconcileNode k node) as [p' r'] eqn:E.
    intros [= -> _]. by eapply reconcileNode_patch.
  - destruct (get_node k req) as [node| |]; [|done..]. destruct (reconcileNode k node) as [p' r'] eqn:E.
    intros [= -> _]. by eapply reconcileNode_patch.
Qed.

Definition rank (p : UpgradePhase) : nat :=
  match p with NodeUpgrade => 0 | FeatureUpgrade => 1 | Completed => 2 | _ => 3 end.
Definition phase_rank (s : UpgradeStatus) : nat := rank (us_Phase s).

(** Newer versions are in the same phase or a later one, and the server is at most one
    phase ahead of the cache. *)
Definition phases_ok (rp : Replica) : Prop :=
  StronglySorted (λ a b, phase_rank b ≤ phase_rank a) (rp_unseen rp ++ [rp_cached rp]) ∧
  phase_rank (server rp) ≤ S (phase_rank (rp_cached rp)) ∧ phase_rank (server rp) ≤ 2.

Lemma server_newest rp : ∃ rest, rp_unseen rp ++ [rp_cached rp] = server rp :: rest.
Proof. unfold server. destruct (rp_unseen rp) as [|x l]; simpl; [by exists []|by eexists]. Qed.

Lemma phases_newer rp x : phases_ok rp → x ∈ rp_unseen rp ++ [rp_cached rp] →
  phase_rank x ≤ phase_rank (server rp).
Proof.
  intros [Hs _] Hx. destruct (server_newest rp) as (rest & E). rewrite E in *.
  apply StronglySorted_inv in Hs as [_ Hf]. apply elem_of_cons in Hx as [->|Hx]; [done|].
  by apply (proj1 (Forall_forall _ _) Hf).
Qed.

Context `{!MergePatchOk}.

(** The phase of the server after a step of the controller. *)
Lemma reconcile_phase name k req p r rp :
  phases_ok rp → reads_cache name rp k → reconcile k req = (Some (name, p), r) →
  let p0 := us_Phase (server rp) in let p1 := us_Phase (apply_patch p (server rp)) in
  rank p0 ≤ rank p1 ∧ rank p1 ≤ S (phase_rank (rp_cached rp)) ∧ rank p1 ≤ 2 ∧
  (p1 = p0 ∨
   (p0 = NodeUpgrade ∧ p1 = FeatureUpgrade ∧ ∃ nodes, list_nodes k = Ok nodes ∧
      Forall (λ n, n ∈ us_UpgradedNodes (rp_cached rp)) nodes) ∨
   (p0 = FeatureUpgrade ∧ p1 = Completed ∧ features_ready k = true ∧ wait_features k = Ok tt)).
Proof.
  intros Hok Hread E. destruct Hok as (Hs & Hle & H2) eqn:Ehok. clear Ehok.
  assert (Hc : phase_rank (rp_cached rp) ≤ phase_rank (server rp)).
  { apply phases_newer; [done|]. apply elem_of_app. right. by left. }
  apply reconcile_patch in E as (u & m & Hu & -> & Hold & Hp). destruct (Hread _ _ Hu) as [-> Hst].
  specialize (Hst eq_refl). rewrite Hst in Hp, Hold.
  destruct (patch_phase p (server rp)) as [Hsame Hnew]. rewrite Hold in Hsame, Hnew.
  unfold phase_rank in *. remember (p_new p) as new eqn:Enew.
  destruct Hp as [n Hph _|nodes Hph Hn Hall|Hph Hf Hw]; simpl in Hsame, Hnew.
  - rewrite Hsame by done. split_and!; [done..|by left].
  - rewrite Hph in *. rewrite Hnew by done. simpl in *. split_and!; [lia..|].
    destruct (us_Phase (server rp)); simpl in *; try lia; [right; left|left]; eauto 10.
  - rewrite Hph in *. rewrite Hnew by done. simpl in *. split_and!; [lia..|].
    destruct (us_Phase (server rp)); simpl in *; try lia; [right; right|left]; eauto.
Qed.

Lemma phases_invariant name s0 rp :
  us_Phase s0 = NodeUpgrade → replica_reachable name s0 rp → phases_ok rp.
Proof.
  intros Hs0. induction 1 as [|o rp rp' Hr IH Hstep].
  - unfold phases_ok, server, phase_rank. simpl. rewrite Hs0. simpl. split_and!; [|lia..].
    repeat constructor.
  - destruct Hstep as [unseen s cached|k req p r rp Hread E _].
    + assert (Hs1 : phase_rank cached ≤ phase_rank s).
      { destruct IH as [Hs _]. simpl in Hs. rewrite <- app_assoc in Hs.
        apply StronglySorted_app_1_r, StronglySorted_inv in Hs as [_ Hf]. by apply Forall_inv in Hf. }
      destruct IH as (Hs & Hle & H2). unfold phases_ok, server in *. simpl in *.
      assert (Hd : hd cached (unseen ++ [s]) = hd s unseen) by (by destruct unseen). rewrite Hd in *.
      split_and!; [by apply StronglySorted_app_1_l in Hs|lia..].
    + pose proof (reconcile_phase _ _ _ _ _ _ IH Hread E) as (Hge & Hle & H2 & _).
      unfold phases_ok, server. simpl. unfold phase_rank at 2 3 4. split_and!; [|done..].
      constructor; [apply IH|]. apply Forall_forall. intros x Hx.
      pose proof (phases_newer _ _ IH Hx).
      change (hd (rp_cached rp) (rp_unseen rp)) with (server rp). unfold phase_rank in *. lia.
Qed.


(** Calls that find the upgrade [u] and the node [node] of its version. *)
Definition node_calls (u : Upgrade) (node : Node) : Calls :=
  mkCalls (λ n, if n ==? up_Name u then Found u else NotFound) (λ _, Found node)
    (Ok [nd_Name node]) (λ _, Ok (mkInfo "1" (Some "1.35"))) true (Ok tt) None.
Definition demo_name : string := "cluster-upgrade-to-k8s-1.35-rev-1".
Definition node_status (nodes : list string) : UpgradeStatus := mkUpgradeStatus NodeUpgrade nodes InPlace.

Lemma node_calls_read nodes node unseen :
  reads_cache demo_name (mkReplica unseen (node_status nodes))
    (node_calls (mkUpgrade demo_name (node_status nodes)) node).
Proof.
  intros m v Hv. unfold node_calls in Hv. simpl in Hv. case_bool_decide as Hm; [|done].
  injection Hv as <-. by subst m.
Qed.

(** A node can be lost from the list of upgraded nodes: the controller replaces the whole
    list by the one it read with the new node at its end, so that a node it has just
    added disappears if the next one is added before the cache has caught up. *)
Theorem addToUpgradedNodes_lost_update a b :
  a ≠ b →
  ∃ k1 k2 rp1 rp2,
    replica_step demo_name (Some k1) (mkReplica [] (node_status [])) rp1 ∧
    replica_step demo_name (Some k2) rp1 rp2 ∧
    a ∈ us_UpgradedNodes (server rp1) ∧ a ∉ us_UpgradedNodes (server rp2).
Proof.
  intros Hab. set (s0 := node_status []). set (u := mkUpgrade demo_name s0).
  set (k n := node_calls u (mkNode n (Some "v"))). set (p n := mkPatch s0 (node_status [n])).
  exists (k a), (k b), (mkReplica [apply_patch (p a) s0] s0),
    (mkReplica [apply_patch (p b) (apply_patch (p a) s0); apply_patch (p a) s0] s0).
  assert (Hn : ∀ n s, us_UpgradedNodes (apply_patch (p n) s) = [n]).
  { intros n s. by destruct (patch_nodes (p n) s) as [_ ->]. }
  assert (Hstep : ∀ n unseen, replica_step demo_name (Some (k n)) (mkReplica unseen s0)
    (mkReplica (apply_patch (p n) (server (mkReplica unseen s0)) :: unseen) s0)).
  { intros n unseen. apply (RReconcile demo_name (k n) "node" (p n) (Ok tt) (mkReplica unseen s0));
      [apply node_calls_read|reflexivity..]. }
  split; [apply (Hstep a [])|]. split; [apply (Hstep b [apply_patch (p a) s0])|].
  unfold server. simpl. rewrite !Hn. split; [by left|]. by intros ?%list_elem_of_singleton.
Qed.
End Replica.

(** ** The upgrade in progress *)

#[export] Instance name_le_total : Total name_le.
Proof. intros u v. apply (total String.le). Qed.

#[export] Instance name_le_trans : Transitive name_le.
Proof. intros x y z. apply (transitivity (R:=String.le)). Qed.

Lemma latest_in_progress_spec items :
  match latest_in_progress items with
  | None => Forall (λ u, in_progress u = false) items
  | Some u => u ∈ items ∧ in_progress u = true ∧
      ∀ v, v ∈ items → in_progress v = true → name_le v u
  end.
Proof.
  unfold latest_in_progress. set (l := List.filter in_progress items).
  assert (Hl : ∀ u, u ∈ l ↔ u ∈ items ∧ in_progress u = true).
  { intros u. unfold l. rewrite !list_elem_of_In, filter_In. done. }
  pose proof (merge_sort_Permutation name_le l) as Hp.
  pose proof (Sorted_merge_sort name_le l) as Hsorted.
  apply Sorted_StronglySorted in Hsorted; [|apply _].
  destruct (last (merge_sort name_le l)) as [u|] eqn:E.
  - apply last_Some in E as (l' & E). rewrite E in *.
    assert (Hu : u ∈ l) by (rewrite <- Hp; set_solver). apply Hl in Hu as [??]. split_and!; [done..|].
    intros v Hv Hin. assert (Hvl : v ∈ l' ++ [u]) by (rewrite Hp; by apply Hl).
    apply elem_of_app in Hvl as [Hvl|Hvl].
    + eapply (StronglySorted_app_1_elem_of _ _ _ _ _ Hsorted); [done|by left].
    + apply list_elem_of_singleton in Hvl as ->. unfold name_le. done.
  - apply last_None in E. rewrite E in Hp. apply Permutation_nil in Hp. apply Forall_forall.
    intros u Hu. destruct (in_progress u) eqn:Eu; [|done].
    assert (u ∈ l) as Hul by (by apply Hl). rewrite Hp in Hul. by apply not_elem_of_nil in Hul.
Qed.

(** The attempts a retry makes: up to the first success, a cancelled wait, or the last. *)
Lemma retry_loop_spec n i f cancelled err :
  match retry_loop n i f cancelled err with
  | (None, m) => (n = 0 ∧ err = None) ∨
      ∃ j, i ≤ j < i + n ∧ m = S j ∧ f j = None ∧ ∀ k, i ≤ k < j → f k ≠ None ∧ cancelled k = false
  | (Some _, _) => (∀ k, i ≤ k < i + n → f k ≠ None) ∨
      ∃ j, i ≤ j < i + n ∧ f j ≠ None ∧ cancelled j = true
  end.
Proof.
  revert i err. induction n as [|n IH]; intros i err; simpl.
  - destruct err; [left; lia|by left].
  - destruct (f i) as [e|] eqn:Ef.
    + destruct (cancelled i) eqn:Ec; [right; exists i; split_and!; [lia|lia|congruence|done]|].
      specialize (IH (S i) (Some e)). destruct (retry_loop n (S i) f cancelled (Some e)) as [[e'|] m].
      * destruct IH as [Hall|(j & Hj & Hf & Hc)].
        -- left. intros k Hk. destruct (decide (k = i)) as [->|]; [congruence|]. apply Hall. lia.
        -- right. exists j. split_and!; [lia..|done|done].
      * right. destruct IH as [[_ ?]|(j & Hj & -> & Hf & Hall)]; [done|].
        exists j. split_and!; [lia..|done|done|]. intros k Hk.
        destruct (decide (k = i)) as [->|]; [split; [congruence|done]|]. apply Hall. lia.
    + right. exists i. split_and!; [lia..|done|done|]. lia.
Qed.

(** The upgrade in progress is looked for up to five times, until a listing succeeds, a
    wait is cancelled or the attempts are used up: of the upgrades of the first listing
    that succeeds it is one that has neither failed nor completed and whose name is the
    greatest of these; none is reported exactly if there are none, or if upgrades
    are unknown to the server; an error only if no listing succeeded before. *)
Theorem GetInProgressUpgrade_spec answers cancelled :
  let failed i := ∃ e, answers i = LErr e in
  match GetInProgressUpgrade answers cancelled with
  | Ok r => ∃ n, n < 5 ∧ (∀ k, k < n → failed k ∧ cancelled k = false) ∧
      ((answers n = LNotFound ∧ r = None) ∨
       ∃ items, answers n = LItems items ∧
         match r with
         | None => Forall (λ u, in_progress u = false) items
         | Some u => u ∈ items ∧ in_progress u = true ∧
             ∀ v, v ∈ items → in_progress v = true → name_le v u
         end)
  | Err _ => (∀ k, k < 5 → failed k) ∨ ∃ n, n < 5 ∧ failed n ∧ cancelled n = true
  end.
Proof.
  intros failed. unfold GetInProgressUpgrade, RetryFor. set (f := λ i, match answers i with LErr _ => _ | _ => _ end).
  assert (Hf : ∀ i, f i ≠ None ↔ failed i).
  { intros i. unfold f, failed. destruct (answers i); naive_solver. }
  change (Z.to_nat 5) with 5. pose proof (retry_loop_spec 5 0 f cancelled None) as Hr.
  destruct (retry_loop 5 0 f cancelled None) as [[e|] m]; simpl in Hr |- *.
  - destruct Hr as [Hall|(j & Hj & Hn & Hc)]; [left|right].
    + intros k Hk. apply Hf, Hall. lia.
    + exists j. split; [lia|]. by rewrite <- Hf.
  - destruct Hr as [[? _]|(j & Hj & -> & Hn & Hall)]; [done|]. simpl.
    assert (Hpre : ∀ k, k < j → failed k ∧ cancelled k = false).
    { intros k Hk. rewrite <- Hf. apply Hall. lia. }
    destruct (answers j) as [items| |e] eqn:Ej.
    + exists j. split_and!; [lia|done|]. right. exists items. split; [done|]. apply latest_in_progress_spec.
    + exists j. split_and!; [lia|done|]. by left.
    + exfalso. unfold f in Hn. by rewrite Ej in Hn.
Qed.

(** ** Witnesses *)

Definition demo_patch : MergePatch := λ p s,
  mkUpgradeStatus
    (if us_Phase (p_old p) ==? us_Phase (p_new p) then us_Phase s else us_Phase (p_new p))
    (if us_UpgradedNodes (p_old p) ==? us_UpgradedNodes (p_new p)
     then us_UpgradedNodes s else us_UpgradedNodes (p_new p))
    (if us_Strategy (p_old p) ==? us_Strategy (p_new p) then us_Strategy s else us_Strategy (p_new p)).
Lemma demo_patch_ok : @MergePatchOk demo_patch.
Proof.
  split; intros p s; unfold patched_field, apply_patch, demo_patch; simpl; by case_bool_decide.
Qed.


Lemma addToUpgradedNodes_lost_update_witness :
  "a" ≠ "b" ∧ ∃ rp1 rp2 k,
    @replica_step demo_patch demo_name (Some k) rp1 rp2 ∧
    "a" ∈ us_UpgradedNodes (server rp1) ∧ "a" ∉ us_UpgradedNodes (server rp2).
Proof.
  assert (Hab : "a" ≠ "b") by discriminate. split; [exact Hab|].
  destruct (@addToUpgradedNodes_lost_update demo_patch demo_patch_ok "a" "b" Hab)
    as (k1 & k2 & rp1 & rp2 & _ & Hs & Ha & Hb).
  exists rp1, rp2, k2. split; [exact Hs|]. split; [exact Ha|exact Hb].
Defined.

Lemma waitForFeatureReconciliations_stale_witness :
  NoDup [FDNS; FNetwork] ∧
  let full := mkLoop 0 false true [] [] in
  ∃ s', rtc (@wait_step demo_externals 64) (mkSys (λ _, full) [FDNS; FNetwork] false) s' ∧
    sy_wait s' = [] ∧ ∀ f, lp_log (sy_loops s' f) = [].
Proof.
  assert (Hnd : NoDup [FDNS; FNetwork]) by (apply (bool_decide_unpack _); vm_compute; exact I).
  split; [exact Hnd|]. intros full.
  apply (proj2 (@waitForFeatureReconciliations_stale demo_externals 64 (λ _, full) [FDNS; FNetwork] Hnd)).
  intros f _. reflexivity.
Defined.
End Upgrades.
