(* ===== verification/Effects.v ===== *)
(** * What the daemon does to the outside

    The hooks, the controllers and the features work on the files of the node, on the
    cluster database, and on programs and servers that are not part of this repository:
    snapd, the kernel's directories and sockets, the API server of Kubernetes, etcd, Helm.
    A request to one of these is a [command]; a computation ([act]) is a function of the
    files, the database, the counter of the random source, and the log of the commands so
    far.  What a command answers is a parameter ([Outside]) that may depend on all commands
    before it, so that a retry can have another outcome than the first attempt.

    [RetryFor] of pkg/utils/control/retry.go and [WaitUntilReady] of wait.go run here. *)

From S2P Require Import Prelude FileSys Config ConfigConvert Database Feature Upgrade.
Import FileSys Config Convert Database.

Module Effects.

(** A Go value of type [any] in a tree of Helm values or of TOML. *)
Inductive value :=
| VNull
| VString (s : string)
| VBool (b : bool)
| VInt (z : Z)
| VNumber (text : string)  (* any other number, as it is written in JSON *)
| VList (l : list value)
| VMap (m : list (string * value)).

Record InstallableChart := mkChart { ch_Name : string; ch_Namespace : string; ch_ManifestPath : string }.
Inductive State := StatePresent | StateUpgradeOnly | StateDeleted.

#[export] Instance State_eq_dec : EqDecision State.
Proof. solve_decision. Defined.

(** The latest revision of a Helm release ([release.Release]), as far as it is looked at;
    [rl_Config] is [VNull] for the nil map. *)
Record Release := mkRelease { rl_Status : string; rl_Config : value; rl_ChartVersion : string }.

(** A pod: its phase, and its conditions with their status. *)
Record Pod := mkPod { pod_Name : string; pod_Phase : string; pod_Conditions : list (string * string) }.

(** A VXLAN link as [ip -d -j link list type vxlan] prints it. *)
Record IpLink := mkIpLink { link_IfName : string; link_Port : option Z }.

(** What a control plane node tells a worker ([apiv2.GetWorkerJoinInfoResponse]). *)
Record WorkerInfo := mkWorkerInfo {
  wi_CACert : string; wi_ClientCACert : string; wi_APIServers : list string;
  wi_PodCIDR : string; wi_ServiceCIDR : string; wi_KubeProxyEnabled : bool;
  wi_KubeletCert : string; wi_KubeletKey : string;
  wi_KubeletClientCert : string; wi_KubeletClientKey : string;
  wi_KubeProxyClientCert : string; wi_KubeProxyClientKey : string;
  wi_ClusterDomain : string; wi_ClusterDNS : string; wi_CloudProvider : string;
  wi_K8sdPublicKey : string; wi_Annotations : Annotations }.

(** A member of the cluster of k8sd: its address, as it prints, the host of that, and its
    role. *)
Record ClusterMember := mkClusterMember {
  cm_Name : string; cm_Address : string; cm_Host : string; cm_Role : string }.

(** A member of the etcd cluster ([etcdserverpb.Member]). *)
Record Member := mkMember { mb_ID : Z; mb_Name : string; mb_PeerURLs : list string }.

(** What [syscall.Stat] gives. *)
Record Stat_t := mkStat { st_Uid : Z; st_Gid : Z; st_Mode : Z }.

(** An endpoint slice of the API server: its ports with their names, and the addresses of
    each of its endpoints. *)
Record EndpointSlice := mkEndpointSlice {
  es_AddressType : string;
  es_Ports : list (option string * option Z);
  es_Endpoints : list (list string) }.

(** [DqliteMember] of microcluster. *)
Record DqliteMember := mkDqliteMember { dq_ID : Z; dq_Address : string; dq_Role : string; dq_Name : string }.

(** A subset of the endpoints of a service: its ports with their names, and its addresses. *)
Record EndpointSubset := mkEndpointSubset { ss_Ports : list (string * Z); ss_Addresses : list string }.

(** A change of snapd (types/refresh_status.go). *)
Record RefreshStatus := mkRefreshStatus { rs_Status : string; rs_Ready : bool; rs_Err : string }.

(** A request for a certificate, as it is created, and as an event of a watch tells it: its
    conditions with their status, and the certificate. *)
Record NewCSR := mkNewCSR {
  nc_Name : string; nc_Annotations : list (string * string); nc_Request : string;
  nc_ExpirationSeconds : Z; nc_Usages : list string; nc_SignerName : string }.
Record CSREvent := mkCSREvent {
  ce_Name : string; ce_Conditions : list (string * string); ce_Certificate : string }.

Inductive command :=
(* programs *)
| RunCommand (argv : list string)
| CommandOutput (argv : list string)
| RunWithInput (argv : list string) (input : string)
| Kill (pid : Z)
| SnapInfo (name : string)
| SnapInstalled (name : string)
| SnapdRefreshStatus (changeID : string)
(* directories, links and sockets *)
| MkdirAll (path : string) (mode : Z)
| RemoveAll (path : string)
| Stat (path : string)
| Chown (path : string) (uid gid : Z)
| Chmod (path : string) (mode : Z)
| CreateTemp (dir pattern : string)
| Close (path : string)
| Remove (path : string)
| CopyFile (src dst : string)
| Readlink (path : string)
| Symlink (target path : string)
| Listen (port : string)
| ReadProc (path : string)
| ReadDir (path : string)
| Unmount (mountPoint : string) (flags : Z)
| MountPoints (fsType : string)
| MountOptional (path : string)
| InterfaceByName (name : string)
(* the API server of Kubernetes *)
| KubernetesClient (admin : bool) (namespace : string)
| ApplyConfigMap (namespace name : string) (data : gmap string string)
| UpdateNode (name : string) (annotations : gmap string string)
| DeleteNode (name : string)
| RestartDeployment (name namespace : string)
| RestartDaemonset (name namespace : string)
| ListResourcesForGroupVersion (groupVersion : string)
| ListEndpointSlices
| ApplyCRDs
| ListUpgrades
| CreateUpgrade (name : string)
| PatchUpgrade (name : string) (patch : Upgrades.Patch)
| ListNodes
| GetServiceClusterIP (name namespace : string)
| GetNode (name : string)
| NodeConditions
| CreateCSR (csr : NewCSR)
| OpenWatchCSR (name : string)
| WatchCSR (name : string)
| UpdateApproval (name : string) (conditions : list (string * string))
| ListPods (namespace : string) (labels : list (string * string))
(* Helm *)
| HelmInit (namespace : string)
| HelmGet (name : string)
| HelmUpdateStatus (name status : string)
| LoadChart (path : string)
| HelmInstall (namespace name path : string) (values : value)
| HelmUpgrade (namespace name path : string) (values : value) (maxHistory : Z)
| HelmUninstall (name : string)
(* k8sd itself, microcluster and etcd *)
| K8sdClient (address : string)
| NodeStatus
| MicroclusterReady
| DatabaseIsOpen
| FetchClusterConfig
| PutClusterConfig (config : UserFacingClusterConfig)
| GetClusterMembers
| GetClusterMember (name : string)
| RemoveClusterMember (name address : string) (force : bool)
| NewCluster (name address : string) (config : gmap string string)
| JoinCluster (name address token : string) (config : gmap string string)
| ListJoinTokens
| NewJoinToken (name : string) (ttl : Z)
| ClusterCert
| NotifyNodeConfig
| NotifyFeatures (features : list bool)
| EtcdClient (endpoints : list string)
| MemberAddAsLearner (peerURLs : list string)
| MemberPromote (id : Z)
| MemberList (endpoints : list string)
| MemberRemove (endpoints : list string) (id : Z)
| GetRemoteCertificate (address : string)
| PostWorkerInfo (address certificate name secret nodeIP : string)
| NewKeyPair (dir name commonName : string) (subjectAlternativeNames : list string)
| UpdateServerCertificate (cert key : string)
| K8sdReady
| K8sdRequest (method path : string)
| DqliteMembers
| RecoverFromQuorumLoss (members : list DqliteMember)
(* the controllers, which run beside the daemon *)
| NewManager
| SetupController (name : string)
| StartManager
(* the proxy of a worker *)
| ServerClient (server kubeconfigFile : string)
| EndpointSlicesOf (server : string)
| EndpointsOf (server : string)
(* what a command asks its terminal and its system *)
| ReadStdin
| OSHostname
| TextEditor (content : string)
| Exec (binary : string) (args environ : list string)
(* the passing of time, which fails when the context is done *)
| After (seconds : Z).

(** The list of the upgrades is [None] if the API server has no such resource; a node has a
    name and the version of its kubelet. *)
Definition answer (c : command) : Type :=
  match c with
  | CommandOutput _ | Readlink _ | CreateTemp _ _ | ReadProc _ => string
  | ReadDir _ => list (string * bool)
  | Stat _ => Stat_t
  | SnapInfo _ => Z * string
  | SnapInstalled _ => Z * bool
  | MountPoints _ | MountOptional _ => list string
  | GetServiceClusterIP _ _ | LoadChart _ | GetRemoteCertificate _ => string
  | ListPods _ _ => list Pod
  | ListUpgrades => option (list Feature.Upgrade)
  | ListNodes => list (string * string)
  | MicroclusterReady => bool
  | HelmGet _ => Release
  | ListResourcesForGroupVersion _ => list string
  | NodeStatus => string * bool
  | FetchClusterConfig => UserFacingClusterConfig
  | GetClusterMembers => list ClusterMember
  | GetClusterMember _ => ClusterMember
  | NodeConditions => list (list (string * string))
  | ListEndpointSlices => list EndpointSlice
  | SnapdRefreshStatus _ => RefreshStatus
  | WatchCSR _ => option CSREvent
  | ListJoinTokens => list (string * string)
  | NewJoinToken _ _ | ClusterCert => string
  | MemberAddAsLearner _ => Z * list Member
  | MemberList _ => list Member
  | PostWorkerInfo _ _ _ _ _ => WorkerInfo
  | NewKeyPair _ _ _ _ => string * string
  | EndpointSlicesOf _ => option (list EndpointSlice)
  | EndpointsOf _ => option (list EndpointSubset)
  | ReadStdin | OSHostname | TextEditor _ | RecoverFromQuorumLoss _ => string
  | DqliteMembers => list DqliteMember
  | _ => unit
  end%type.

Class Outside := outside : list command → ∀ c : command, res (answer c).

(** Everything works, and the directories asked for do not exist. *)
Definition default_answer (c : command) : res (answer c) :=
  match c with
  | CommandOutput _ | Readlink _ | CreateTemp _ _ | ReadProc _ => Ok EmptyString
  | ReadDir _ => Ok []
  | Stat _ => Err ErrNotExist
  | SnapInfo _ => Ok (200%Z, "1")
  | SnapInstalled _ => Ok (404%Z, false)
  | MountPoints _ | MountOptional _ => Ok ["shared:1"]
  | GetServiceClusterIP _ _ => Ok "10.152.183.10"
  | LoadChart _ => Ok "1.0.0"
  | GetRemoteCertificate _ => Ok EmptyString
  | ListPods _ _ => Ok []
  | ListUpgrades => Ok None
  | ListNodes => Ok []
  | MicroclusterReady => Ok true
  | HelmGet _ => Err (Errorf "release: not found" [])
  | ListResourcesForGroupVersion _ => Ok []
  | NodeStatus => Ok ("control-plane", true)
  | FetchClusterConfig => Ok (ToUserFacing empty_ClusterConfig)
  | GetClusterMembers => Ok []
  | GetClusterMember name => Ok (mkClusterMember name "10.0.0.1:6400" "10.0.0.1" "voter")
  | NodeConditions => Ok []
  | ListEndpointSlices => Ok [mkEndpointSlice "IPv4" [(Some "https", Some 6443%Z)] [["10.0.0.1"]]]
  | SnapdRefreshStatus _ => Ok (mkRefreshStatus "Done" true EmptyString)
  | WatchCSR _ => Ok None
  | ListJoinTokens => Ok []
  | NewJoinToken _ _ => Ok "token"
  | ClusterCert => Ok "certificate"
  | MemberAddAsLearner _ => Ok (1%Z, [])
  | MemberList _ => Ok []
  | PostWorkerInfo _ _ _ _ _ => Err (Errorf "not reachable" [])
  | NewKeyPair _ _ _ _ => Ok ("certificate", "key")
  | EndpointSlicesOf _ => Ok (Some [mkEndpointSlice "IPv4" [(Some "https", Some 6443%Z)] [["10.0.0.1"]]])
  | EndpointsOf _ => Ok (Some [mkEndpointSubset [("https", 6443%Z)] ["10.0.0.1"]])
  | ReadStdin => Err (Errorf "EOF" [])
  | OSHostname => Ok "node"
  | TextEditor content => Ok content
  | DqliteMembers => Ok []
  | RecoverFromQuorumLoss _ => Ok "/recovery_db.tar.gz"
  | _ => Ok tt
  end.

(** [m_rand] counts the draws from the random source; [m_log] is in the order of the
    commands. *)
Record Machine := mkMachine {
  m_world : World; m_db : DB; m_rand : nat; m_log : list command }.

Definition act (A : Type) : Type := Machine → res A * Machine.

#[export] Instance act_ret : MRet act := λ A a s, (Ok a, s).
#[export] Instance act_bind : MBind act := λ A B f m s,
  match m s with
  | (Ok a, s') => f a s'
  | (Err e, s') => (Err e, s')
  end.

Definition act_lift {A} (r : res A) : act A := λ s, (r, s).
Definition act_wrapf {A} (fmt : string) (args : list string) (m : act A) : act A := λ s,
  let '(r, s') := m s in (wrapf fmt args r, s').
(** Hands the result, error included, to the continuation. *)
Definition act_try {A} (m : act A) : act (res A) := λ s, let '(r, s') := m s in (Ok r, s').
(** [if err := m(); err != nil { log.Error(err, ...) }]. *)
Definition act_logged {A} (m : act A) : act unit := λ s, (Ok tt, (m s).2).

(** A computation on files, and a transaction of the database, whose changes are dropped
    when it fails. *)
Definition act_io {A} (m : io A) : act A := λ s,
  let '(r, w) := m (m_world s) in (r, mkMachine w (m_db s) (m_rand s) (m_log s)).
Definition act_db {A} (f : DB → res (A * DB)) : act A := λ s,
  match f (m_db s) with
  | Ok (a, d) => (Ok a, mkMachine (m_world s) d (m_rand s) (m_log s))
  | Err e => (Err e, s)
  end.
Definition act_query {A} (f : DB → res A) : act A := λ s, (f (m_db s), s).

Section Effects.
Context `{Outside}.

Definition perform (c : command) : act (answer c) := λ s,
  (outside (m_log s) c, mkMachine (m_world s) (m_db s) (m_rand s) (m_log s ++ [c])).

(** ** pkg/utils/control *)

Definition context_Canceled : goerr := Errorf "context canceled" [].

(** [last] is the error of the attempt before. *)
Fixpoint retryFor_loop (n : nat) (delay : Z) (retryFunc : act unit) (last : option goerr) : act unit :=
  match n with
  | O => act_lift (match last with Some e => Err e | None => Ok tt end)
  | S n =>
      r ← act_try retryFunc;
      match r with
      | Ok _ => mret tt
      | Err e =>
          w ← act_try (perform (After delay));
          match w with
          | Ok _ => retryFor_loop n delay retryFunc (Some e)
          | Err _ => act_lift (Err context_Canceled)
          end
      end
  end.
Definition retryFor (retryCount delay : Z) (retryFunc : act unit) : act unit :=
  retryFor_loop (Z.to_nat retryCount) delay retryFunc None.

(** The same where the function that is retried sets a variable of its caller. *)
Fixpoint retryGet_loop {A} (n : nat) (delay : Z) (retryFunc : act A) (last : goerr) : act A :=
  match n with
  | O => act_lift (Err last)
  | S n =>
      r ← act_try retryFunc;
      match r with
      | Ok a => mret a
      | Err e =>
          w ← act_try (perform (After delay));
          match w with
          | Ok _ => retryGet_loop n delay retryFunc e
          | Err _ => act_lift (Err context_Canceled)
          end
      end
  end.

(** [ticks] is the number of seconds the context has left: the loop ends with its error
    at the latest when it is done. *)
Definition ctx_Err : goerr := Errorf "context deadline exceeded" [].
Fixpoint WaitUntilReady (ticks : nat) (checkFunc : act bool) : act unit :=
  match ticks with
  | O => act_lift (Err ctx_Err)
  | S ticks =>
      ok ← act_wrapf "wait check failed: %w" [] checkFunc;
      if ok : bool then mret tt else WaitUntilReady ticks checkFunc
  end.
End Effects.

(** ** Lemmas *)

Lemma act_bind_inv {A B} (m : act A) (f : A → act B) s r s' :
  (m ≫= f) s = (r, s') →
  (∃ a s1, m s = (Ok a, s1) ∧ f a s1 = (r, s')) ∨
  (∃ e, m s = (Err e, s') ∧ r = Err e).
Proof.
  unfold mbind, act_bind. destruct (m s) as [[a|e] s1]; intros Hr.
  - left. by eauto.
  - right. injection Hr as <- <-. by eauto.
Qed.

Lemma act_bind_Ok_inv {A B} (m : act A) (f : A → act B) s b s' :
  (m ≫= f) s = (Ok b, s') → ∃ a s1, m s = (Ok a, s1) ∧ f a s1 = (Ok b, s').
Proof. intros [?|(e & _ & ?)]%act_bind_inv; done. Qed.
Lemma act_bind_Ok {A B} (m : act A) (f : A → act B) s a s1 : m s = (Ok a, s1) → (m ≫= f) s = f a s1.
Proof. unfold mbind, act_bind. by intros ->. Qed.
Lemma act_bind_Err {A B} (m : act A) (f : A → act B) s e s1 : m s = (Err e, s1) → (m ≫= f) s = (Err e, s1).
Proof. unfold mbind, act_bind. by intros ->. Qed.
Lemma act_wrapf_eq {A} fmt args (m : act A) s r s1 :
  m s = (r, s1) → act_wrapf fmt args m s = (wrapf fmt args r, s1).
Proof. unfold act_wrapf. by intros ->. Qed.

Lemma act_wrapf_Ok {A} fmt args (m : act A) s a s' :
  act_wrapf fmt args m s = (Ok a, s') → m s = (Ok a, s').
Proof. unfold act_wrapf. destruct (m s) as [[x|e] s1]; [by intros [= -> ->]|done]. Qed.

Lemma act_wrapf_run {A} fmt args (m : act A) s r s' :
  act_wrapf fmt args m s = (r, s') → ∃ r0, m s = (r0, s') ∧ r = wrapf fmt args r0.
Proof. unfold act_wrapf. destruct (m s) as [r0 s1]. intros [= <- <-]. by eauto. Qed.

Lemma act_try_run {A} (m : act A) s r s' :
  act_try m s = (r, s') → ∃ r0, m s = (r0, s') ∧ r = Ok r0.
Proof. unfold act_try. destruct (m s) as [r0 s1]. intros [= <- <-]. by eauto. Qed.

Lemma act_query_run {A} (f : DB → res A) st r st' : act_query f st = (r, st') → st' = st ∧ r = f (m_db st).
Proof. by intros [= <- <-]. Qed.

Lemma act_io_run {A} (m : io A) st r st' : act_io m st = (r, st') →
  ∃ w, m (m_world st) = (r, w) ∧ st' = mkMachine w (m_db st) (m_rand st) (m_log st).
Proof. unfold act_io. destruct (m (m_world st)) as [r0 w]. intros [= <- <-]. by eauto. Qed.

Lemma act_db_run {A} (f : DB → res (A * DB)) st r st' : act_db f st = (r, st') →
  match f (m_db st) with
  | Ok (a, d) => r = Ok a ∧ st' = mkMachine (m_world st) d (m_rand st) (m_log st)
  | Err e => r = Err e ∧ st' = st
  end.
Proof. unfold act_db. destruct (f (m_db st)) as [[a d]|e]; by intros [= <- <-]. Qed.

(** *** A logic of commands

    [emits P Q m]: whatever happens, [m] only issues commands that satisfy [P], and
    leaves the database alone or changes it as [Q] says. *)
Definition emits {A} (P : command → Prop) (Q : DB → DB → Prop) (m : act A) : Prop :=
  ∀ s r s', m s = (r, s') →
    (∃ l, m_log s' = m_log s ++ l ∧ Forall P l) ∧ Q (m_db s) (m_db s').

Section Emits.
Context (P : command → Prop) (Q : DB → DB → Prop) `{!PreOrder Q}.

Lemma emits_ret {A} (a : A) : emits P Q (mret (M := act) a).
Proof. intros s r s' [= <- <-]. split; [exists []; by rewrite app_nil_r|done]. Qed.
Lemma emits_lift {A} (r : res A) : emits P Q (act_lift r).
Proof. intros s r' s' [= <- <-]. split; [exists []; by rewrite app_nil_r|done]. Qed.
Lemma emits_bind {A B} (m : act A) (f : A → act B) :
  emits P Q m → (∀ a, emits P Q (f a)) → emits P Q (m ≫= f).
Proof.
  intros Hm Hf s r s' [(a & s1 & E1 & E2)|(e & E & ->)]%act_bind_inv; [|by eapply Hm].
  destruct (Hm _ _ _ E1) as [(l1 & Hl1 & HP1) HQ1], (Hf _ _ _ _ E2) as [(l2 & Hl2 & HP2) HQ2].
  split; [|by etrans]. exists (l1 ++ l2). rewrite Hl2, Hl1, app_assoc. split; [done|].
  by apply Forall_app.
Qed.
Lemma emits_wrapf {A} fmt args (m : act A) : emits P Q m → emits P Q (act_wrapf fmt args m).
Proof. intros Hm s r s' (r0 & E & ->)%act_wrapf_run. by eapply Hm. Qed.
Lemma emits_try {A} (m : act A) : emits P Q m → emits P Q (act_try m).
Proof. intros Hm s r s' (r0 & E & ->)%act_try_run. by eapply Hm. Qed.
Lemma emits_logged {A} (m : act A) : emits P Q m → emits P Q (act_logged m).
Proof. intros Hm s r s' [= <- <-]. destruct (m s) eqn:E. by eapply Hm. Qed.
Lemma emits_io {A} (m : io A) : emits P Q (act_io m).
Proof.
  intros s r s'. unfold act_io. destruct (m (m_world s)) as [r0 w]. intros [= <- <-].
  split; [exists []; by rewrite app_nil_r|done].
Qed.
Lemma emits_query {A} (f : DB → res A) : emits P Q (act_query f).
Proof. intros s r s' [= <- <-]. split; [exists []; by rewrite app_nil_r|done]. Qed.
Lemma emits_db {A} (f : DB → res (A * DB)) :
  (∀ d a d', f d = Ok (a, d') → Q d d') → emits P Q (act_db f).
Proof.
  intros Hf s r s'. unfold act_db. destruct (f (m_db s)) as [[a d]|e] eqn:E; intros [= <- <-];
    (split; [exists []; by rewrite app_nil_r|]); [by eapply Hf|done].
Qed.

Lemma emits_perform `{Outside} c : P c → emits P Q (perform c).
Proof. intros Hc s r s' [= <- <-]. split; [|done]. exists [c]. by rewrite Forall_singleton. Qed.

Lemma emits_if {A} (b : bool) (m m' : act A) : emits P Q m → emits P Q m' → emits P Q (if b then m else m').
Proof. by destruct b. Qed.

Lemma emits_retryFor `{Outside} n delay m :
  P (After delay) → emits P Q m → emits P Q (retryFor n delay m).
Proof.
  intros Hd Hm. unfold retryFor. generalize (Z.to_nat n) as k, (@None goerr) as last.
  induction k as [|k IH]; intros last; cbn [retryFor_loop]; [apply emits_lift|].
  apply emits_bind; [by apply emits_try|]. intros [[]|e]; [apply emits_ret|].
  apply emits_bind; [by apply emits_try, emits_perform|]. intros [a|e']; [apply IH|apply emits_lift].
Qed.

Lemma emits_retryGet {A} `{Outside} n delay (m : act A) last :
  P (After delay) → emits P Q m → emits P Q (retryGet_loop n delay m last).
Proof.
  intros Hd Hm. revert last. induction n as [|n IH]; intros last; cbn [retryGet_loop]; [apply emits_lift|].
  apply emits_bind; [by apply emits_try|]. intros [a|e]; [apply emits_ret|].
  apply emits_bind; [by apply emits_try, emits_perform|]. intros [a|e']; [apply IH|apply emits_lift].
Qed.

Lemma emits_WaitUntilReady n m : emits P Q m → emits P Q (WaitUntilReady n m).
Proof.
  intros Hm. induction n as [|n IH]; cbn [WaitUntilReady]; [apply emits_lift|].
  apply emits_bind; [by apply emits_wrapf|]. intros []; [apply emits_ret|done].
Qed.
End Emits.

#[export] Hint Extern 1 (emits _ _ (perform ?c)) => apply (emits_perform _ _ c) : emits.
#[export] Hint Resolve emits_ret emits_lift emits_wrapf emits_try emits_logged emits_io
  emits_query emits_perform emits_if emits_retryFor emits_retryGet emits_WaitUntilReady : emits.

(** Goes through the statements of a function. *)
Ltac emits_go := repeat first
  [ progress intros
  | apply emits_bind; [typeclasses eauto| |]
  | progress cbn beta iota
  | match goal with
    | |- emits _ _ (match ?x with _ => _ end) => destruct x
    | |- emits _ _ (let '(_, _) := ?x in _) => destruct x
    end
  | solve [eauto 6 with emits typeclass_instances]
  | match goal with
    | |- emits _ _ (act_wrapf _ _ _) => apply emits_wrapf
    | |- emits _ _ (act_try _) => apply emits_try
    | |- emits _ _ (act_logged _) => apply emits_logged
    | |- emits _ _ (WaitUntilReady _ _) => apply emits_WaitUntilReady; [typeclasses eauto|]
    | |- emits _ _ (retryFor _ _ _) => apply emits_retryFor; [typeclasses eauto|solve [eauto with emits]|]
    | |- emits _ _ (retryGet_loop _ _ _ _) =>
        apply emits_retryGet; [typeclasses eauto|solve [eauto with emits]|]
    end ].

(** A computation that only asks the outside: the files and the database stay. *)
Definition asks {A} (m : act A) : Prop :=
  ∀ s r s', m s = (r, s') → m_world s' = m_world s ∧ m_db s' = m_db s.

Lemma asks_ret {A} (a : A) : asks (mret (M := act) a).
Proof. by intros s r s' [= <- <-]. Qed.
Lemma asks_lift {A} (r : res A) : asks (act_lift r).
Proof. by intros s r' s' [= <- <-]. Qed.
Lemma asks_perform `{Outside} c : asks (perform c).
Proof. by intros s r s' [= <- <-]. Qed.
Lemma asks_bind {A B} (m : act A) (f : A → act B) : asks m → (∀ a, asks (f a)) → asks (m ≫= f).
Proof.
  intros Hm Hf s r s' [(a & s1 & E1 & E2)|(e & E & ->)]%act_bind_inv; [|by eapply Hm].
  destruct (Hm _ _ _ E1) as [<- <-]. by eapply Hf.
Qed.
Lemma asks_wrapf {A} fmt args (m : act A) : asks m → asks (act_wrapf fmt args m).
Proof. intros Hm s r s' (r0 & E & ->)%act_wrapf_run. by eapply Hm. Qed.
Lemma asks_try {A} (m : act A) : asks m → asks (act_try m).
Proof. intros Hm s r s' (r0 & E & ->)%act_try_run. by eapply Hm. Qed.
Lemma asks_logged {A} (m : act A) : asks m → asks (act_logged m).
Proof. intros Hm s r s' [= <- <-]. destruct (m s) eqn:E. by eapply Hm. Qed.
Lemma asks_query {A} (f : DB → res A) : asks (act_query f).
Proof. by intros s r s' [= <- <-]. Qed.
Lemma asks_if {A} (b : bool) (m m' : act A) : asks m → asks m' → asks (if b then m else m').
Proof. by destruct b. Qed.

#[export] Hint Resolve asks_ret asks_lift asks_perform asks_wrapf asks_try asks_logged asks_query asks_if : asks.

Ltac asks_go := repeat first
  [ progress intros
  | apply asks_bind
  | progress cbn beta iota
  | match goal with |- asks (match ?x with _ => _ end) => destruct x end
  | solve [eauto 6 with asks] ].

(** Any commands, and any change of the database. *)
Definition any_command (c : command) : Prop := True.
Definition any_change (d d' : DB) : Prop := True.
#[export] Instance any_change_preorder : PreOrder any_change.
Proof. done. Qed.
Lemma any_command_any c : any_command c.
Proof. done. Qed.
Lemma any_change_any d d' : any_change d d'.
Proof. done. Qed.
#[export] Hint Resolve any_command_any any_change_any : emits.

(** *** Commands and their answers

    [answered c a s s']: on the way from [s] to [s'] the command [c] was issued, and its
    answer was [a]. *)
Section Answered.
Context `{Outside}.

Definition answered (c : command) (a : res (answer c)) (s s' : Machine) : Prop :=
  ∃ l1 l2, m_log s `prefix_of` l1 ∧ m_log s' = l1 ++ c :: l2 ∧ outside l1 c = a.
Definition later (s s' : Machine) : Prop := m_log s `prefix_of` m_log s'.

#[export] Instance later_preorder : PreOrder later.
Proof. split; [intros s|intros s1 s2 s3]; unfold later; [reflexivity|apply transitivity]. Qed.

Lemma answered_later c a s1 s2 s3 s4 : later s1 s2 → answered c a s2 s3 → later s3 s4 → answered c a s1 s4.
Proof.
  intros Hb (l1 & l2 & H1 & H2 & Ha) [l3 Hc]. exists l1, (l2 ++ l3). split_and!; [by etrans| |done].
  by rewrite Hc, H2, <- app_assoc.
Qed.
Lemma answered_before c a s1 s2 s3 : later s1 s2 → answered c a s2 s3 → answered c a s1 s3.
Proof. intros Hb Ha. eapply answered_later; [exact Hb|exact Ha|reflexivity]. Qed.
Lemma answered_after c a s1 s2 s3 : answered c a s1 s2 → later s2 s3 → answered c a s1 s3.
Proof. intros Ha Hc. eapply answered_later; [reflexivity|exact Ha|exact Hc]. Qed.

Lemma perform_answered c s a s' : perform c s = (a, s') → answered c a s s'.
Proof. intros [= <- <-]. by exists (m_log s), []. Qed.
Lemma perform_later c s a s' : perform c s = (a, s') → later s s'.
Proof. intros [= _ <-]. by exists [c]. Qed.
Lemma answered_is_later c a s s' : answered c a s s' → later s s'.
Proof. intros (l1 & l2 & Hl & E & _). unfold later. rewrite E. etrans; [exact Hl|]. by exists (c :: l2). Qed.
Lemma emits_later {A} (m : act A) s r s' : emits any_command any_change m → m s = (r, s') → later s s'.
Proof. intros Hm E. destruct (Hm _ _ _ E) as [(l & Hl & _) _]. by exists l. Qed.

End Answered.

(** *** Retries *)

Section Retry.
Context `{Outside}.

(** The machines in which the attempts of a retried function start, when all of them
    fail. *)
Inductive failed_attempts (delay : Z) (m : act unit) : nat → Machine → Machine → Prop :=
| no_attempt s : failed_attempts delay m 0 s s
| one_more n s e s1 s2 s3 : m s = (Err e, s1) → perform (After delay) s1 = (Ok tt, s2) →
    failed_attempts delay m n s2 s3 → failed_attempts delay m (S n) s s3.

(** What a retried call ends with: a success after some failed attempts, the
    cancellation of the context after one, or as many failures as there are attempts. *)
Lemma retryFor_loop_spec n delay m last s r s' : retryFor_loop n delay m last s = (r, s') →
  (∃ k s1, k < n ∧ failed_attempts delay m k s s1 ∧ m s1 = (Ok tt, s') ∧ r = Ok tt) ∨
  (∃ k s1 e s2 e', k < n ∧ failed_attempts delay m k s s1 ∧ m s1 = (Err e, s2) ∧
     perform (After delay) s2 = (Err e', s') ∧ r = Err context_Canceled) ∨
  (failed_attempts delay m n s s' ∧
     (n = 0 → r = match last with Some e => Err e | None => Ok tt end) ∧ (0 < n → is_ok r = false)).
Proof.
  revert last s. induction n as [|n IH]; intros last s; cbn [retryFor_loop].
  - intros [= <- <-]. right. right. split; [constructor|]. split; [done|lia].
  - intros [(r0 & s1 & (r1 & E1 & [= ->])%act_try_run & E)|(e & (r1 & _ & ?)%act_try_run & _)]%act_bind_inv;
      [|done].
    destruct r1 as [[]|e].
    { injection E as <- <-. left. exists 0, s. split_and!; [lia|constructor|done|done]. }
    apply act_bind_inv in E as [(w & s2 & (r2 & E2 & [= ->])%act_try_run & E)|(? & (r2 & _ & ?)%act_try_run & _)];
      [|done].
    destruct r2 as [[]|e'].
    2: { injection E as <- <-. right. left. exists 0, s, e, s1, e'.
         split_and!; [lia|constructor|done|done|done]. }
    destruct (IH _ _ E) as [(k & t & Hk & Hf & Ht & ->)|[(k & t & e1 & t2 & e2 & Hk & Hf & H1 & H2 & ->)|(Hf & H0 & Hr)]].
    + left. exists (S k), t. split_and!; [lia|by econstructor|done|done].
    + right. left. exists (S k), t, e1, t2, e2. split_and!; [lia|by econstructor|done|done|done].
    + right. right. split; [by econstructor|]. split; [done|]. intros _.
      destruct n as [|n]; [by rewrite (H0 eq_refl)|]. apply Hr. lia.
Qed.

Lemma retryFor_Ok n delay m s s' : (0 < n)%Z → retryFor n delay m s = (Ok tt, s') →
  ∃ k s1, failed_attempts delay m k s s1 ∧ m s1 = (Ok tt, s').
Proof.
  intros Hn [(k & s1 & _ & Hf & Hm & _)|[(k & s1 & e & s2 & e' & _ & _ & _ & _ & ?)|(_ & _ & Hr)]]%retryFor_loop_spec;
    [by eauto|done|].
  specialize (Hr ltac:(lia)). done.
Qed.

(** A wait that ends well ends with a check that was positive. *)
Lemma WaitUntilReady_Ok n m s s' : emits any_command any_change m → WaitUntilReady n m s = (Ok tt, s') →
  ∃ s1, later s s1 ∧ m s1 = (Ok true, s').
Proof.
  intros Hm. revert s. induction n as [|n IH]; intros s; cbn [WaitUntilReady]; [done|].
  intros [(ok & s1 & E1%act_wrapf_Ok & E)|(e & _ & ?)]%act_bind_inv; [|done].
  destruct ok; [injection E as <-; by exists s|].
  destruct (IH _ E) as (s2 & Hl & E2). exists s2. split; [|done].
  etrans; [by eapply emits_later|done].
Qed.

(** A program that is run until it succeeds leaves its attempts in the log. *)
Definition with_log (s : Machine) (l : list command) : Machine :=
  mkMachine (m_world s) (m_db s) (m_rand s) (m_log s ++ l).
Definition attempts (delay : Z) (argv : list string) (k : nat) : list command :=
  concat (replicate k [RunCommand argv; After delay]).

Lemma with_log_app s l l' : with_log (with_log s l) l' = with_log s (l ++ l').
Proof. unfold with_log. cbn. by rewrite app_assoc. Qed.
Lemma with_log_nil s : with_log s [] = s.
Proof. unfold with_log. rewrite app_nil_r. by destruct s. Qed.

(** [m] runs a program, and at most wraps its error. *)
Definition runs (argv : list string) (m : act unit) : Prop := ∀ s r s', m s = (r, s') →
  s' = with_log s [RunCommand argv] ∧ is_ok r = is_ok (outside (m_log s) (RunCommand argv)).
Lemma runs_perform argv : runs argv (perform (RunCommand argv)).
Proof. by intros s r s' [= <- <-]. Qed.
Lemma runs_wrapf argv fmt args m : runs argv m → runs argv (act_wrapf fmt args m).
Proof. intros Hm s r s' (r0 & [-> Hr]%Hm & ->)%act_wrapf_run. split; [done|]. by destruct r0. Qed.

Lemma failed_attempts_log argv delay m k s s' : runs argv m → failed_attempts delay m k s s' →
  s' = with_log s (attempts delay argv k).
Proof.
  intros Hm. induction 1 as [s|k s e s1 s2 s3 E1 E2 _ IH].
  - by rewrite with_log_nil.
  - apply Hm in E1 as [-> _]. assert (s2 = with_log (with_log s [RunCommand argv]) [After delay]) as ->
      by (by injection E2).
    by rewrite IH, !with_log_app.
Qed.

Lemma retryFor_runs argv n delay m s s' : (0 < n)%Z → runs argv m →
  retryFor n delay m s = (Ok tt, s') →
  ∃ k, s' = with_log s (attempts delay argv k ++ [RunCommand argv]) ∧
    outside (m_log s ++ attempts delay argv k) (RunCommand argv) = Ok tt.
Proof.
  intros Hn Hm (k & s1 & Hf & E)%retryFor_Ok; [|done]. exists k.
  apply failed_attempts_log with (argv := argv) in Hf as ->; [|done].
  apply Hm in E as [-> Hr]. rewrite with_log_app. split; [done|].
  cbn in Hr. by destruct (outside _ _) as [[]|].
Qed.
End Retry.

#[export] Hint Resolve runs_perform runs_wrapf : emits.
End Effects.
