(* ===== verification/Snap.v ===== *)
(** * The snap

    pkg/snap: the paths, the commands that control services and the checks before a node is
    set up, for the snap (snap.go, service.go) and for pebble (pebble.go), behind the
    interface of interface.go ([SnapI]); pkg/snap/util/services.go: the services of a node;
    pkg/utils/checks and pkg/k8sd/types/k8s_service_configs.go: the ports of the services.

    External: the JSON and YAML codecs ([SnapEnv]); programs and sockets are commands. *)

From S2P Require Import Prelude GoStrings Config ConfigConvert FileSys Arguments Node Database Effects.
Import GoStr Config FileSys Arguments Node Effects.

Module Snap.

(** ** The interface *)

Record ContainerdDirs := mkContainerdDirs {
  ContainerdBaseDir : string;
  ContainerdConfigDir : string;
  ContainerdExtraConfigDir : string;
  ContainerdRegistryConfigDir : string;
  ContainerdRootDir : string;
  ContainerdSocketDir : string;
  ContainerdStateDir : string }.

Record SystemDirs := mkSystemDirs {
  SystemTuningConfigDir : string;
  SystemConfigDirs : list string;
  SystemMinConfig : gmap string string;
  CNIConfDir : string;
  CNIBinDir : string;
  CNIPluginsBinary : string;
  CNIPlugins : list string;
  K8sBinDir : string }.

(** [snap.Snap]: paths, service control ([names], [extraArgs]) and snapctl. *)
Record SnapI := mkSnapI {
  paths :> Snap;
  containerd : ContainerdDirs;
  system : SystemDirs;
  Strict : bool;
  start_argv : list string → list string → list string;
  stop_argv : list string → list string → list string;
  restart_argv : list string → list string → list string;
  SnapctlGet : list string → act string;
  SnapctlSet : list string → act unit;
  snap_Revision : act string;
  NodeKubernetesVersion : act string }.

Class SnapEnv := {
  (** The field [confinement] of a snap.yaml, and the version of Kubernetes and the
      revision of a bom.json. *)
  yaml_confinement : string → res string;
  json_kubernetes_version : string → res string;
  json_revision : string → res string;
  (** A version, as it prints after it was parsed. *)
  version_Parse : string → res string;
  error_text : goerr → string }.

Section Snap.
Context `{OSEnv, Outside, SnapEnv}.

Definition StartServices (s : SnapI) (names extra : list string) : act unit :=
  perform (RunCommand (start_argv s names extra)).
Definition StopServices (s : SnapI) (names extra : list string) : act unit :=
  perform (RunCommand (stop_argv s names extra)).
Definition RestartServices (s : SnapI) (names extra : list string) : act unit :=
  perform (RunCommand (restart_argv s names extra)).

(** ** service.go and snap.go *)

Definition serviceName (serviceName : string) : string :=
  if has_prefix "k8s." serviceName || (serviceName ==? "k8s") then serviceName
  else "k8s." +:+ serviceName.

Record snap := mk_snap {
  snapDir : string; snapCommonDir : string; snapInstanceName : string;
  containerdBaseDir : string }.

Definition buildServiceCommand (action : string) (names extraSnapArgs : list string) : list string :=
  ["snap"; action] ++ map serviceName names ++ extraSnapArgs.

Definition snap_Strict (dir : string) : io bool :=
  contents ← io_try (os_ReadFile (filepath_Join [dir; "meta"; "snap.yaml"]));
  match contents with
  | Err _ => mret false
  | Ok contents => mret (match yaml_confinement contents with Ok c => c ==? "strict" | Err _ => false end)
  end.

Definition NewSnap (dir common instance base : string) : io snap :=
  strict ← snap_Strict dir;
  mret (mk_snap dir common instance
          (if base !=? EmptyString then base else if strict : bool then common else "/")).

Definition snap_containerd (s : snap) : ContainerdDirs := {|
  ContainerdBaseDir := containerdBaseDir s;
  ContainerdConfigDir := filepath_Join [containerdBaseDir s; "etc"; "containerd"];
  ContainerdExtraConfigDir := filepath_Join [containerdBaseDir s; "etc"; "containerd"; "conf.d"];
  ContainerdRegistryConfigDir := filepath_Join [containerdBaseDir s; "etc"; "containerd"; "hosts.d"];
  ContainerdRootDir := filepath_Join [containerdBaseDir s; "var"; "lib"; "containerd"];
  ContainerdSocketDir := filepath_Join [containerdBaseDir s; "run"; "containerd"];
  ContainerdStateDir := filepath_Join [containerdBaseDir s; "run"; "containerd"] |}.

Definition snap_system (s : snap) : SystemDirs := {|
  SystemTuningConfigDir := "/etc/sysctl.d";
  SystemConfigDirs := ["/etc/sysctl.d"; "/run/sysctl.d"; "/usr/local/lib/sysctl.d";
                       "/usr/lib/sysctl.d"; "/lib/sysctl.d"; "/etc/sysctl.conf"];
  SystemMinConfig := {["fs.inotify.max_user_instances" := "1024";
                       "fs.inotify.max_user_watches" := "1048576"]};
  CNIConfDir := "/etc/cni/net.d";
  CNIBinDir := "/opt/cni/bin";
  CNIPluginsBinary := filepath_Join [snapDir s; "bin"; "cni"];
  CNIPlugins := ["dhcp"; "host-local"; "static"; "bridge"; "host-device"; "ipvlan"; "loopback";
                 "macvlan"; "ptp"; "vlan"; "bandwidth"; "firewall"; "portmap"; "sbr"; "tuning";
                 "vrf"];
  K8sBinDir := filepath_Join [snapDir s; "bin"] |}.

(** [hostname] is what [os.Hostname] gives, [lxcfs] the number of mounted lxcfs file
    systems. *)
Definition snap_paths (s : snap) (hostname : res string) (lxcfs : res Z) : Snap := {|
  ServiceArgumentsDir := filepath_Join [snapCommonDir s; "args"];
  ServiceExtraConfigDir := filepath_Join [snapCommonDir s; "args"; "conf.d"];
  KubernetesConfigDir := "/etc/kubernetes";
  snap_KubernetesPKIDir := "/etc/kubernetes/pki";
  snap_EtcdPKIDir := "/etc/kubernetes/pki/etcd";
  EtcdDir := filepath_Join [snapCommonDir s; "var"; "lib"; "etcd"];
  K8sdStateDir := filepath_Join [snapCommonDir s; "var"; "lib"; "k8sd"; "state"];
  LockFilesDir := filepath_Join [snapCommonDir s; "lock"];
  KubeletRootDir := "/var/lib/kubelet";
  ContainerdSocketPath := filepath_Join [containerdBaseDir s; "run"; "containerd"; "containerd.sock"];
  Hostname := match hostname with Ok h => h | Err _ => "dev" end;
  UID := 0; GID := 0;
  OnLXD := wrapf "failed to check for lxcfs mounts: %w" [] ((λ n, (0 <? n)%Z) <$> lxcfs) |}.

(** [Revision] of snap.go, and [NodeKubernetesVersion]. *)
Definition snapd_Revision (s : snap) : act string :=
  '(status, revision) ← act_wrapf "failed to get snap info: %w" [] (perform (SnapInfo (snapInstanceName s)));
  _ ← act_lift (fails_if (status !=? 200%Z)
        (Errorf "failed to get snap info: snapd returned with error code %d" [Itoa status]));
  _ ← act_lift (fails_if (revision ==? EmptyString) (Errorf "failed to get snap revision: got empty string" []));
  mret revision.

Definition bom_version (s : snap) : io string :=
  data ← io_wrapf "failed to read bom.json: %w" [] (os_ReadFile (filepath_Join [snapDir s; "bom.json"]));
  version ← io_wrapf "failed to unmarshal bom.json: %w" [] (io_lift (json_kubernetes_version data));
  _ ← io_lift (fails_if (version ==? EmptyString) (Errorf "kubernetes version not found in bom.json" []));
  io_wrapf "failed to parse node Kubernetes version %q: %w" [version] (io_lift (version_Parse version)).

Definition snap_interface (s : snap) (strict : bool) (hostname : res string) (lxcfs : res Z) : SnapI := {|
  paths := snap_paths s hostname lxcfs;
  containerd := snap_containerd s;
  system := snap_system s;
  Strict := strict;
  start_argv names extra := buildServiceCommand "start" names (["--enable"] ++ extra);
  stop_argv names extra := buildServiceCommand "stop" names (["--disable"] ++ extra);
  restart_argv names extra := buildServiceCommand "restart" names extra;
  SnapctlGet args := perform (CommandOutput (["snapctl"; "get"] ++ args));
  SnapctlSet args := perform (RunCommand (["snapctl"; "set"] ++ args));
  snap_Revision := snapd_Revision s;
  NodeKubernetesVersion := act_io (bom_version s) |}.

Record RefreshOpts := mkRefreshOpts { Channel : string; Revision : string; LocalPath : string }.

Definition Refresh (s : snap) (strict : bool) (to : RefreshOpts) : act string :=
  _ ← act_lift (fails_if strict
        (Errorf "refresh operation not available on strictly confined deployments" []));
  argv ← act_lift (
    if Channel to !=? EmptyString then
      Ok ["snap"; "refresh"; snapInstanceName s; "--amend"; "--channel"; Channel to; "--no-wait"]
    else if Revision to !=? EmptyString then
      Ok ["snap"; "refresh"; snapInstanceName s; "--amend"; "--revision"; Revision to; "--no-wait"]
    else if LocalPath to !=? EmptyString then
      Ok ["snap"; "install"; LocalPath to; "--classic"; "--dangerous"; "--name"; snapInstanceName s; "--no-wait"]
    else Err (Errorf "empty refresh options" []));
  out ← act_wrapf "failed to refresh snap: %w" [] (perform (CommandOutput argv));
  mret (TrimSpace out).

(** ** pebble.go *)

Definition buildPebbleCommand (s : snap) (subcommand : string) (names extraPebbleArgs : list string)
    : list string :=
  [filepath_Join [snapDir s; "bin"; "pebble"]; subcommand] ++ names ++ extraPebbleArgs.

(** The answer of [SnapctlGet], in which the last brace is missing. *)
Definition pebble_meta : string :=
  "{" +:+ quoted "meta" +:+ ": {" +:+ quoted "apiVersion" +:+ ": " +:+ quoted "1.30" +:+ ", " +:+
  quoted "orb" +:+ ": " +:+ quoted "none" +:+ "}".

Definition pebble_Revision (s : snap) : io string :=
  data ← io_wrapf "failed to read bom.json: %w" [] (os_ReadFile (filepath_Join [snapDir s; "bom.json"]));
  rev ← io_wrapf "failed to unmarshal bom.json: %w" [] (io_lift (json_revision data));
  if rev ==? EmptyString then io_lift (Err (Errorf "k8s revision not found in bom.json" [])) else mret rev.

Definition pebble_interface (s : snap) (hostname : res string) : SnapI := {|
  paths := snap_paths s hostname (Ok 1%Z);
  containerd := snap_containerd s;
  system := snap_system s;
  Strict := false;
  start_argv := buildPebbleCommand s "start";
  stop_argv := buildPebbleCommand s "stop";
  restart_argv := buildPebbleCommand s "restart";
  SnapctlGet _ := mret pebble_meta;
  SnapctlSet _ := mret tt;
  snap_Revision := act_io (pebble_Revision s);
  NodeKubernetesVersion := act_io (bom_version s) |}.

(** ** pkg/snap/util/services.go *)

Definition workerK8sServices : list string :=
  ["containerd"; "k8s-apiserver-proxy"; "kubelet"; "kube-proxy"].
Definition controlPlaneK8sServices : list string :=
  ["containerd"; "kube-controller-manager"; "kube-proxy"; "kube-scheduler"; "kubelet";
   "kube-apiserver"].
Definition k8sServices : list string :=
  ["containerd"; "kube-apiserver"; "kube-controller-manager"; "kube-scheduler"; "kube-proxy";
   "kubelet"; "etcd"; "k8s-apiserver-proxy"].
Definition WorkerServices : list string := workerK8sServices.
Definition ControlPlaneServices : list string := controlPlaneK8sServices.

(** [slices.Delete] at [slices.Index]: the first occurrence. *)
Fixpoint removeElement (s : list string) (v : string) : list string :=
  match s with
  | [] => []
  | x :: s => if x ==? v then s else x :: removeElement s v
  end.

Definition node_services (svc : list string) (cfg : ClusterConfig) : list string :=
  if negb (Network_GetKubeProxyEnabled (CC_Network cfg)) then removeElement svc "kube-proxy" else svc.

Definition RestartControlPlaneServices (s : SnapI) (cfg : ClusterConfig) : act unit :=
  let svc := node_services ControlPlaneServices cfg in
  act_wrapf "failed to restart service %v: %w" svc (RestartServices s svc []).
Definition StartWorkerServices (s : SnapI) (cfg : ClusterConfig) : act unit :=
  let svc := node_services WorkerServices cfg in
  act_wrapf "failed to start service %v: %w" svc (StartServices s svc []).
Definition StartControlPlaneServices (s : SnapI) (cfg : ClusterConfig) : act unit :=
  let svc := node_services ControlPlaneServices cfg in
  act_wrapf "failed to start service %v: %w" svc (StartServices s svc []).
Definition StartEtcdServices (s : SnapI) : act unit :=
  act_wrapf "failed to start service %v: %w" ["etcd"] (StartServices s ["etcd"] []).
Definition StopEtcdServices (s : SnapI) : act unit :=
  act_wrapf "failed to stop service %v: %w" ["etcd"] (StopServices s ["etcd"] []).
Definition StopWorkerServices (s : SnapI) : act unit :=
  act_wrapf "failed to stop service %v: %w" workerK8sServices (StopServices s workerK8sServices []).
Definition StopControlPlaneServices (s : SnapI) : act unit :=
  act_wrapf "failed to stop service %v: %w" controlPlaneK8sServices
    (StopServices s controlPlaneK8sServices []).
Definition StopK8sServices (s : SnapI) (extra : list string) : act unit :=
  act_wrapf "failed to stop service %v: %w" k8sServices (StopServices s k8sServices extra).
End Snap.

(** ** What both kinds of snap promise: they run programs and ask snapd, and no more *)

Definition snap_command (c : command) : bool :=
  match c with RunCommand _ | CommandOutput _ | SnapInfo _ => true | _ => false end.

Class SnapOk (s : SnapI) : Prop := {
  SnapctlGet_ok args : emits (λ c, snap_command c = true) eq (SnapctlGet s args);
  SnapctlSet_ok args : emits (λ c, snap_command c = true) eq (SnapctlSet s args);
  Revision_ok : emits (λ c, snap_command c = true) eq (snap_Revision s);
  NodeKubernetesVersion_ok : emits (λ c, snap_command c = true) eq (NodeKubernetesVersion s) }.

Section SnapOk.
Context `{OSEnv, Outside, SnapEnv}.
Hint Extern 1 (snap_command _ = true) => reflexivity : emits.

#[export] Instance snap_interface_ok s strict hostname lxcfs : SnapOk (snap_interface s strict hostname lxcfs).
Proof. split; cbn; try unfold snapd_Revision; emits_go. Qed.
#[export] Instance pebble_interface_ok s hostname : SnapOk (pebble_interface s hostname).
Proof. split; cbn; emits_go. Qed.
End SnapOk.

(** ** An instance *)

Definition demo_snap_env : SnapEnv := {|
  yaml_confinement _ := Ok "classic"; json_kubernetes_version _ := Ok "v1.35.0";
  json_revision _ := Ok "1"; version_Parse := Ok; error_text _ := "error" |}.
End Snap.
