(* ===== verification/Checks.v ===== *)
(** * The checks before a node is set up

    pkg/k8sd/types/k8s_service_configs.go, pkg/utils/checks/checks.go, [IsLocalPortOpen] of
    pkg/utils/net.go, and [PreInitChecks] of pkg/snap/snap.go.  The ports are a Go map:
    [order] gives them in the order of one iteration. *)

From S2P Require Import Prelude GoStrings Config ConfigConvert FileSys Arguments Node Database Effects.
From S2P Require Import Snap.
Import GoStr Config Convert FileSys Arguments Node Database Effects Snap.

Module Checks.

(** ** [net.SplitHostPort] *)

(** The index of the last, and of the first, occurrence of a byte. *)
Fixpoint last_index (c : ascii) (s : string) : option nat :=
  match s with
  | EmptyString => None
  | String a s =>
      match last_index c s with
      | Some i => Some (S i)
      | None => if Ascii.eqb a c then Some 0%nat else None
      end
  end.
Fixpoint first_index (c : ascii) (s : string) : option nat :=
  match s with
  | EmptyString => None
  | String a s => if Ascii.eqb a c then Some 0%nat else S <$> first_index c s
  end.
Fixpoint drop (n : nat) (s : string) : string :=
  match n, s with
  | S n, String _ s => drop n s
  | _, _ => s
  end.
Fixpoint take (n : nat) (s : string) : string :=
  match n, s with
  | S n, String a s => String a (take n s)
  | _, _ => EmptyString
  end.

Definition SplitHostPort (hostport : string) : res (string * string) :=
  let finish (host : string) (j k i : nat) :=
    _ ← fails_if (contains_char "[" (drop j hostport)) (Errorf "unexpected '[' in address" [hostport]);
    _ ← fails_if (contains_char "]" (drop k hostport)) (Errorf "unexpected ']' in address" [hostport]);
    Ok (host, drop (S i) hostport) in
  match last_index ":" hostport with
  | None => Err (Errorf "missing port in address" [hostport])
  | Some i =>
      if has_prefix "[" hostport then
        match first_index "]" hostport with
        | None => Err (Errorf "missing ']' in address" [hostport])
        | Some end_ =>
            if Nat.eqb (S end_) (String.length hostport) then Err (Errorf "missing port in address" [hostport])
            else if Nat.eqb (S end_) i then finish (drop 1 (take end_ hostport)) 1%nat (S end_) i
            else if has_prefix ":" (drop (S end_) hostport) then
              Err (Errorf "too many colons in address" [hostport])
            else Err (Errorf "missing port in address" [hostport])
        end
      else
        let host := take i hostport in
        if contains_char ":" host then Err (Errorf "too many colons in address" [hostport])
        else finish host 0%nat 0%nat i
  end.

(** ** pkg/k8sd/types/k8s_service_configs.go *)

Abbreviation args := (list (string * option string)).

Record K8sServiceConfigs := mkServiceConfigs {
  ExtraNodeKubeControllerManagerArgs : args;
  ExtraNodeKubeSchedulerArgs : args;
  ExtraNodeKubeletArgs : args;
  ExtraNodeKubeProxyArgs : args }.

Definition KubeControllerManagerPort : string := "10257".
Definition KubeSchedulerPort : string := "10259".
Definition KubeletPort : string := "10250".
Definition KubeletHealthzPort : string := "10248".
Definition KubeletReadOnlyPort : string := "10255".
Definition KubeProxyHealthzPort : string := "10256".
Definition KubeProxyMetricsPort : string := "10249".

(** A missing option and one without a value give the default. *)
Definition getConfigOrDefault (serviceArgs : args) (optionName defaultValue : string) : string :=
  match (list_to_map serviceArgs : gmap string (option string)) !! optionName with
  | Some (Some val) => val
  | _ => defaultValue
  end.

Definition GetKubeControllerManagerPort (s : K8sServiceConfigs) : string :=
  getConfigOrDefault (ExtraNodeKubeControllerManagerArgs s) "--secure-port" KubeControllerManagerPort.
Definition GetKubeSchedulerPort (s : K8sServiceConfigs) : string :=
  getConfigOrDefault (ExtraNodeKubeSchedulerArgs s) "--secure-port" KubeSchedulerPort.
Definition GetKubeletPort (s : K8sServiceConfigs) : string :=
  getConfigOrDefault (ExtraNodeKubeletArgs s) "--port" KubeletPort.
Definition GetKubeletHealthzPort (s : K8sServiceConfigs) : string :=
  getConfigOrDefault (ExtraNodeKubeletArgs s) "--healthz-port" KubeletHealthzPort.
Definition GetKubeletReadOnlyPort (s : K8sServiceConfigs) : string :=
  getConfigOrDefault (ExtraNodeKubeletArgs s) "--read-only-port" KubeletReadOnlyPort.
Definition GetKubeProxyHealthzPort (s : K8sServiceConfigs) : res string :=
  let address := getConfigOrDefault (ExtraNodeKubeProxyArgs s) "--healthz-bind-address" EmptyString in
  if address ==? EmptyString then Ok KubeProxyHealthzPort
  else snd <$> SplitHostPort address.
Definition GetKubeProxyMetricsPort (s : K8sServiceConfigs) : res string :=
  let address := getConfigOrDefault (ExtraNodeKubeProxyArgs s) "--metrics-bind-address" EmptyString in
  if address ==? EmptyString then Ok KubeProxyMetricsPort
  else snd <$> SplitHostPort address.

(** ** pkg/utils/net.go and pkg/utils/checks/checks.go *)

Definition EADDRINUSE : goerr := Errorf "address already in use" [].

Section Checks.
Context `{OSEnv, Outside, SnapEnv}.

Definition IsLocalPortOpen (port : string) : act bool :=
  r ← act_try (perform (Listen port));
  match r with
  | Ok _ => mret true
  | Err e => if errors_Is e EADDRINUSE then mret false else act_lift (Err e)
  end.

(** The entries that are always there, the ones of kube-proxy, and the ones of the role. *)
Definition common_ports (config : ClusterConfig) (c : K8sServiceConfigs) : list (string * string) :=
  [("kubelet", GetKubeletPort c);
   ("kubelet-healthz", GetKubeletHealthzPort c);
   ("kubelet-read-only", GetKubeletReadOnlyPort c);
   ("loadbalancer", Itoa (LoadBalancer_GetBGPPeerPort (CC_LoadBalancer config)))].
Definition proxy_port (service : string) (port : res string) : list (string * string) :=
  match port with Ok port => [(service, port)] | Err _ => [] end.
Definition role_ports (config : ClusterConfig) (c : K8sServiceConfigs) (isControlPlane : bool)
    : list (string * string) :=
  if isControlPlane then
    [("kube-apiserver", Itoa (APIServer_GetSecurePort (CC_APIServer config)));
     ("kube-scheduler", GetKubeSchedulerPort c);
     ("kube-controller-manager", GetKubeControllerManagerPort c)] ++
    (if Datastore_GetType (CC_Datastore config) ==? "etcd" then
       [("etcd", Itoa (Datastore_GetEtcdPort (CC_Datastore config)));
        ("etcd-peer", Itoa (Datastore_GetEtcdPeerPort (CC_Datastore config)))]
     else [])
  else [("kube-apiserver-proxy", Itoa (APIServer_GetSecurePort (CC_APIServer config)))].
Definition service_ports (config : ClusterConfig) (c : K8sServiceConfigs) (isControlPlane : bool)
    : list (string * string) :=
  common_ports config c ++ proxy_port "kube-proxy-healhz" (GetKubeProxyHealthzPort c) ++
  proxy_port "kube-proxy-metrics" (GetKubeProxyMetricsPort c) ++ role_ports config c isControlPlane.
Definition failure {A} (r : res A) : list goerr := match r with Ok _ => [] | Err e => [e] end.

(** The errors of the ports, in the order they are found. *)
Fixpoint check_ports (ports : list (string * string)) : act (list goerr) :=
  match ports with
  | [] => mret []
  | (service, port) :: ports =>
      if port ==? "0" then check_ports ports
      else
        open ← act_try (IsLocalPortOpen port);
        rest ← check_ports ports;
        mret (match open with
              | Err e => [Wrapf "could not check port %s (needed by: %s): %w" [port; service] e]
              | Ok true => []
              | Ok false => [Errorf "port %s (needed by: %s) is already in use" [port; service]]
              end ++ rest)
  end.

(** [errors.Join]: nil when there are no errors. *)
Definition errors_Join (errs : list goerr) : res unit :=
  match errs with [] => Ok tt | _ => Err (Errorf "%v" (map error_text errs)) end.

Definition CheckK8sServicePorts (order : list (string * string) → list (string * string))
    (config : ClusterConfig) (c : K8sServiceConfigs) (isControlPlane : bool) : act unit :=
  let parse := failure (GetKubeProxyHealthzPort c) ++ failure (GetKubeProxyMetricsPort c) in
  errs ← check_ports (order (service_ports config c isControlPlane));
  act_lift (errors_Join (parse ++ errs)).

(** ** [PreInitChecks] of pkg/snap/snap.go *)

Fixpoint run_binaries (dir : string) (binaries : list string) : act unit :=
  match binaries with
  | [] => mret tt
  | binary :: binaries =>
      _ ← act_wrapf "%q binary could not run: %w" [binary]
            (perform (RunCommand [filepath_Join [dir; "bin"; binary]; "--version"]));
      run_binaries dir binaries
  end.

Definition PreInitChecks (order : list (string * string) → list (string * string)) (s : snap)
    (config : ClusterConfig) (c : K8sServiceConfigs) (isControlPlane : bool) : act unit :=
  _ ← act_wrapf "Encountered error(s) while verifying port availability for Kubernetes services: %w" []
        (CheckK8sServicePorts order config c isControlPlane);
  _ ← run_binaries (snapDir s)
        ["kube-apiserver"; "kube-controller-manager"; "kube-scheduler"; "kube-proxy"; "kubelet"];
  let dir := ContainerdSocketDir (snap_containerd s) in
  r ← act_try (perform (Stat dir));
  match r with
  | Ok _ => act_lift (Err (Errorf "The path '%s' required for the containerd socket already exists, ..." [dir; dir]))
  | Err e =>
      if errors_Is e ErrNotExist then mret tt
      else act_lift (Err (Wrapf "Encountered an error while checking '%s': %w" [dir] e))
  end.
End Checks.

(** ** Lemmas and properties *)

Section Properties.
Context `{OSEnv, Outside, SnapEnv}.

(** Port [port] was free when it was tried, some time between two machines. *)
Definition found_free (port : string) (s s' : Machine) : Prop :=
  ∃ l1 l2, m_log s' = m_log s ++ l1 ++ [Listen port] ++ l2 ∧
    outside (m_log s ++ l1) (Listen port) = Ok tt.

(** The command log only grows, and files and database stay as they are. *)
Definition only_asks (s s' : Machine) : Prop :=
  (∃ l, m_log s' = m_log s ++ l) ∧ m_world s' = m_world s ∧ m_db s' = m_db s.

Lemma only_asks_refl s : only_asks s s.
Proof. split; [|done]. exists []. by rewrite app_nil_r. Qed.
Lemma only_asks_trans s1 s2 s3 : only_asks s1 s2 → only_asks s2 s3 → only_asks s1 s3.
Proof.
  intros [[l1 E1] [Hw1 Hd1]] [[l2 E2] [Hw2 Hd2]]. split; [|by split; congruence].
  exists (l1 ++ l2). by rewrite E2, E1, app_assoc.
Qed.
Lemma perform_asks c s r s' : perform c s = (r, s') →
  only_asks s s' ∧ r = outside (m_log s) c ∧ m_log s' = m_log s ++ [c].
Proof. intros [= <- <-]. split; [|done]. split; [by exists [c]|done]. Qed.

Lemma found_free_extend port s0 s1 s2 s3 :
  found_free port s1 s2 → only_asks s0 s1 → only_asks s2 s3 → found_free port s0 s3.
Proof.
  intros (l1 & l2 & Hl & Ho) [[l0 E0] _] [[l3 E3] _]. exists (l0 ++ l1), (l2 ++ l3). split.
  - rewrite E3, Hl, E0. by rewrite <- !app_assoc.
  - by rewrite app_assoc, <- E0.
Qed.

Lemma IsLocalPortOpen_run port s r s' : IsLocalPortOpen port s = (r, s') →
  only_asks s s' ∧ m_log s' = m_log s ++ [Listen port] ∧
  (r = Ok true ↔ outside (m_log s) (Listen port) = Ok tt).
Proof.
  unfold IsLocalPortOpen. intros [(r0 & s1 & (r1 & (Ha & -> & Hl)%perform_asks & [= ->])%act_try_run & E)
    |(e & (r1 & _ & ?)%act_try_run & _)]%act_bind_inv; [|done].
  assert (s' = s1 ∧ (r = Ok true ↔ outside (m_log s) (Listen port) = Ok tt)) as [-> Hr]; [|done].
  destruct (outside (m_log s) (Listen port)) as [[]|e].
  - by injection E as <- <-.
  - destruct (errors_Is e EADDRINUSE); injection E as <- <-; by split.
Qed.

(** No error is found exactly when every port that is not 0 was free when it was tried. *)
Lemma check_ports_run ports s r s' : check_ports ports s = (r, s') →
  only_asks s s' ∧ ∃ errs, r = Ok errs ∧
    (errs = [] → ∀ p, p ∈ ports → p.2 ≠ "0" → found_free p.2 s s') ∧
    ((∀ l p, p ∈ ports → p.2 ≠ "0" → outside l (Listen p.2) = Ok tt) → errs = []).
Proof.
  revert s r s'. induction ports as [|[service port] ports IH]; intros s r s'; cbn [check_ports].
  { intros [= <- <-]. split; [apply only_asks_refl|]. exists []. split; [done|]. split; [set_solver|done]. }
  case_bool_decide as Hz.
  { intros (Ha & errs & -> & Hnil & Hfree)%IH. split; [done|]. exists errs. split; [done|]. split.
    - intros He p [->|Hp]%elem_of_cons Hp0; [by subst|by apply Hnil].
    - intros Hf. apply Hfree. intros l p Hp. apply Hf. by right. }
  intros [(r0 & s1 & (r1 & E1 & [= ->])%act_try_run & E)|(e & (r1 & _ & ?)%act_try_run & _)]%act_bind_inv;
    [|done].
  apply IsLocalPortOpen_run in E1 as (Ha1 & Hl1 & Hr1).
  apply act_bind_inv in E as [(errs & s2 & E2 & E)|(e & E2 & _)];
    apply IH in E2 as (Ha2 & errs' & He & Hnil & Hfree); [|done].
  injection He as <-. injection E as <- <-. split; [by eapply only_asks_trans|].
  eexists. split; [done|]. split.
  - intros [Ho ->]%app_eq_nil p [->|Hp]%elem_of_cons Hp0.
    + destruct Ha2 as [[l2 Hl2] _]. exists [], l2. rewrite Hl2, Hl1, <- app_assoc. split; [done|].
      rewrite app_nil_r. apply Hr1. by destruct r1 as [[]|].
    + eapply found_free_extend; [by apply Hnil|done|apply only_asks_refl].
  - intros Hf. assert (r1 = Ok true) as ->; [apply Hr1, (Hf _ (service, port)); [by left|done]|].
    apply Hfree. intros l p Hp. apply Hf. by right.
Qed.

Lemma errors_Join_Ok errs : errors_Join errs = Ok tt ↔ errs = [].
Proof. by destruct errs. Qed.

Lemma failure_nil {A} (r : res A) : failure r = [] ↔ is_ok r = true.
Proof. by destruct r. Qed.

Lemma CheckK8sServicePorts_run order config c cp s r s' :
  (∀ l, order l ≡ₚ l) → CheckK8sServicePorts order config c cp s = (r, s') →
  only_asks s s' ∧
  (r = Ok tt → is_ok (GetKubeProxyHealthzPort c) = true ∧ is_ok (GetKubeProxyMetricsPort c) = true ∧
     ∀ p, p ∈ service_ports config c cp → p.2 ≠ "0" → found_free p.2 s s') ∧
  (is_ok (GetKubeProxyHealthzPort c) = true → is_ok (GetKubeProxyMetricsPort c) = true →
     (∀ l p, p ∈ service_ports config c cp → p.2 ≠ "0" → outside l (Listen p.2) = Ok tt) → r = Ok tt).
Proof.
  intros Ho. unfold CheckK8sServicePorts.
  intros [(errs & s1 & (Ha & errs' & He & Hnil & Hfree)%check_ports_run & E)
    |(e & (_ & errs' & He & _)%check_ports_run & _)]%act_bind_inv; [|done].
  injection He as <-. injection E as <- <-. split; [done|].
  rewrite errors_Join_Ok, !app_nil, !failure_nil. split.
  - intros [[Hh Hm] ->]. split_and!; [done|done|]. intros p Hp. apply Hnil; [done|]. by rewrite Ho.
  - intros Hh Hm Hf. split; [done|]. apply Hfree. intros l p. rewrite Ho. apply Hf.
Qed.

Lemma run_binaries_run dir bs s r s' : run_binaries dir bs s = (r, s') →
  only_asks s s' ∧
  (r = Ok tt → ∀ b, b ∈ bs → ∃ l, outside l (RunCommand [filepath_Join [dir; "bin"; b]; "--version"]) = Ok tt).
Proof.
  revert s. induction bs as [|b bs IH]; intros s; cbn [run_binaries].
  { intros [= <- <-]. split; [apply only_asks_refl|]. set_solver. }
  intros [([] & s1 & (Ha1 & Hr1 & _)%act_wrapf_Ok%perform_asks & E)
    |(e & (r0 & (Ha1 & _)%perform_asks & _)%act_wrapf_run & ->)]%act_bind_inv; [|done].
  apply IH in E as [Ha2 Hr2]. split; [by eapply only_asks_trans|].
  intros Hr b' [->|Hb]%elem_of_cons; [|by apply Hr2]. by eexists.
Qed.

(** The checks before a node is set up change nothing on the node, and they pass only if
    every port a service of the node will listen at (but the ones that are switched off
    with 0) was free, every binary could be run, and there is no directory for the socket
    of a containerd yet. *)
Theorem PreInitChecks_sound order sn config c cp s s' :
  (∀ l, order l ≡ₚ l) → PreInitChecks order sn config c cp s = (Ok tt, s') →
  only_asks s s' ∧
  (∀ service port, (service, port) ∈ service_ports config c cp → port ≠ "0" → found_free port s s') ∧
  (∀ b, b ∈ ["kube-apiserver"; "kube-controller-manager"; "kube-scheduler"; "kube-proxy"; "kubelet"] →
     ∃ l, outside l (RunCommand [filepath_Join [snapDir sn; "bin"; b]; "--version"]) = Ok tt) ∧
  (∃ l e, outside l (Stat (ContainerdSocketDir (snap_containerd sn))) = Err e ∧ errors_Is e ErrNotExist = true).
Proof.
  intros Ho. unfold PreInitChecks.
  intros [([] & s1 & E1%act_wrapf_Ok & E)|(e & _ & ?)]%act_bind_inv; [|done].
  apply CheckK8sServicePorts_run in E1 as (Ha1 & Hp & _); [|done].
  destruct (Hp eq_refl) as (_ & _ & Hports).
  apply act_bind_inv in E as [([] & s2 & [Ha2 Hb]%run_binaries_run & E)|(e & _ & ?)]; [|done].
  apply act_bind_inv in E as [(r3 & s3 & (r4 & (Ha3 & -> & _)%perform_asks & [= ->])%act_try_run & E)
    |(e & (r4 & _ & ?)%act_try_run & _)]; [|done].
  destruct (outside (m_log s2) _) as [?|e] eqn:Eo; [done|].
  destruct (errors_Is e ErrNotExist) eqn:Ee; [|done]. injection E as <-.
  split_and!.
  - eapply only_asks_trans; [done|]. by eapply only_asks_trans.
  - intros service port Hin Hne. eapply found_free_extend; [by apply (Hports (service, port))|apply only_asks_refl|].
    by eapply only_asks_trans.
  - by apply Hb.
  - by eexists _, _.
Qed.
End Properties.

(** *** Witnesses *)

Definition demo_outside : Outside := λ _ c, default_answer c.
Definition demo_machine (w : World) : Machine := mkMachine w (mkDB ∅ [] [] ∅) 0 [].
Definition demo_mk_snap : snap := mk_snap "/snap/k8s/current" "/var/snap/k8s/common" "k8s" "/".

Lemma PreInitChecks_sound_witness :
  ∃ s', @PreInitChecks demo_outside demo_snap_env (λ l, l) demo_mk_snap empty_ClusterConfig
          (mkServiceConfigs [] [] [] [("--metrics-bind-address", Some "[::1]:0")]) false
          (demo_machine (mkWorld ∅ [])) = (Ok tt, s') ∧
    (∀ port, ("kubelet", port) ∈ service_ports empty_ClusterConfig
        (mkServiceConfigs [] [] [] [("--metrics-bind-address", Some "[::1]:0")]) false → port ≠ "0" →
       @found_free demo_outside port (demo_machine (mkWorld ∅ [])) s').
Proof.
  eexists. split; [vm_compute; reflexivity|]. intros port.
  eapply (@PreInitChecks_sound demo_outside demo_snap_env (λ l, l) demo_mk_snap empty_ClusterConfig
    (mkServiceConfigs [] [] [] [("--metrics-bind-address", Some "[::1]:0")]) false); [done|].
  vm_compute; reflexivity.
Defined.
End Checks.
