(* ===== verification/NodeConfig.v ===== *)
(** * The node configuration

    The configuration every node follows travels in the configmap k8sd-config, signed with
    the key of the cluster: pkg/k8sd/types/cluster_config_node.go writes and reads it,
    pkg/k8sd/controllers/update_node_configuration.go publishes it on the control plane, and
    node_configuration.go applies it to the kubelet and kube-proxy of a node.  The functions
    the controllers are given by pkg/k8sd/app/hooks_start.go are here as well.

    External: the JSON codec of a map and of a list of strings, base64, SHA-256, and RSA
    signatures ([ConfigMapEnv]). *)

From S2P Require Import Prelude GoStrings Config ConfigConvert ConfigMerge FileSys Arguments Pki PkiNode.
From S2P Require Import Database Node Effects Snap.
Import GoStr Config Convert Merge FileSys Arguments Pki PkiNode Database Node Effects Snap.

Module NodeConfig.

Class ConfigMapEnv `{PkiEnv} := {
  json_Marshal_map : gmap string string → string;
  json_Marshal_strings : list string → string;
  json_Unmarshal_strings : string → res (list string);
  base64_EncodeToString : string → string;
  base64_DecodeString : string → res string;
  sha256_Sum : string → string;
  SignPKCS1v15 : nat → PrivateKey → string → res string;
  VerifyPKCS1v15 : PublicKey → string → string → res unit }.

Section Types.
Context `{ConfigMapEnv}.

(** ** cluster_config_node.go *)

Abbreviation configMapData := (gmap string string).

Definition hash (d : configMapData) : string := sha256_Sum (json_Marshal_map d).
Definition withoutSignature (d : configMapData) : configMapData := delete "k8sd-mac" d.

Definition set_key (key : string) (v : option string) (d : configMapData) : configMapData :=
  match v with Some v => <[key := v]> d | None => d end.
Definition format_bool (b : bool) : string := if b then "true" else "false".

Definition ClusterConfigToConfigMap (rand : nat) (config : ClusterConfig) (key : option PrivateKey)
    : res configMapData :=
  let k := CC_Kubelet config in
  let data :=
    <["kube-proxy-enabled" := format_bool (Network_GetKubeProxyEnabled (CC_Network config))]>
      (set_key "control-plane-taints" (json_Marshal_strings <$> Kubelet_ControlPlaneTaints k)
        (set_key "cluster-domain" (Kubelet_ClusterDomain k)
          (set_key "cluster-dns" (Kubelet_ClusterDNS k)
            (set_key "cloud-provider" (Kubelet_CloudProvider k) ∅)))) in
  match key with
  | None => Ok data
  | Some key =>
      mac ← wrapf "failed to sign hash: %w" [] (SignPKCS1v15 rand key (hash data));
      Ok (<["k8sd-mac" := base64_EncodeToString mac]> data)
  end.

Definition verify_signature (m : configMapData) (key : PublicKey) : res unit :=
  signature ← wrapf "failed to parse signature: %w" []
                (base64_DecodeString (default EmptyString (m !! "k8sd-mac")));
  wrapf "failed to verify signature: %w" [] (VerifyPKCS1v15 key (hash (withoutSignature m)) signature).

(** The configuration with the kubelet's fields and the one of kube-proxy. *)
Definition node_config (k : Kubelet) (kubeProxyEnabled : bool) : ClusterConfig :=
  mkClusterConfig (CC_Certificates empty_ClusterConfig) (CC_Datastore empty_ClusterConfig)
    (CC_APIServer empty_ClusterConfig) k (mkNetwork None None None (Some kubeProxyEnabled))
    (CC_DNS empty_ClusterConfig) (CC_Ingress empty_ClusterConfig) (CC_LoadBalancer empty_ClusterConfig)
    (CC_Gateway empty_ClusterConfig) (CC_LocalStorage empty_ClusterConfig)
    (CC_MetricsServer empty_ClusterConfig) (CC_Annotations empty_ClusterConfig).

(** A nil map gives the empty configuration. *)
Definition ConfigMapToClusterConfig (m : option configMapData) (key : option PublicKey) : res ClusterConfig :=
  match m with
  | None => Ok empty_ClusterConfig
  | Some m =>
      _ ← match key with Some key => verify_signature m key | None => Ok tt end;
      taints ← match m !! "control-plane-taints" with
               | Some v => Some <$> wrapf "failed to parse control plane taints: %w" []
                                       (json_Unmarshal_strings v)
               | None => Ok None
               end;
      enabled ← match m !! "kube-proxy-enabled" with
                | Some v =>
                    if (v !=? "true") && (v !=? "false") then
                      Err (Errorf "invalid value for kube-proxy-enabled: %q" [v])
                    else Ok (v ==? "true")
                | None => Ok true
                end;
      Ok (node_config (mkKubelet (m !! "cloud-provider") (m !! "cluster-dns") (m !! "cluster-domain") taints)
            enabled)
  end.
End Types.

(** ** The functions given to the controllers by pkg/k8sd/app/hooks_start.go *)

Section Hooks.
Context `{ConfigMapEnv, DBEnv, Externals}.

Definition getRSAKey : act (option PublicKey) :=
  cfg ← act_wrapf "failed to load RSA key from configuration: %w" [] (act_query GetClusterConfig);
  let keyPEM := Certificates_GetK8sdPublicKey (CC_Certificates cfg) in
  match LoadRSAPublicKey keyPEM with
  | Ok key => mret (Some key)
  | Err e => if keyPEM !=? EmptyString then act_lift (Err (Wrapf "failed to load RSA key: %w" [] e))
             else mret None
  end.

Definition with_kube_proxy (cfg : ClusterConfig) (enabled : bool) : ClusterConfig :=
  let n := CC_Network cfg in
  mkClusterConfig (CC_Certificates cfg) (CC_Datastore cfg) (CC_APIServer cfg) (CC_Kubelet cfg)
    (mkNetwork (Network_Enabled n) (Network_PodCIDR n) (Network_ServiceCIDR n) (Some enabled))
    (CC_DNS cfg) (CC_Ingress cfg) (CC_LoadBalancer cfg) (CC_Gateway cfg) (CC_LocalStorage cfg)
    (CC_MetricsServer cfg) (CC_Annotations cfg).

Definition kube_proxy_transaction (enabled : bool) (d : DB) : res (unit * DB) :=
  cfg ← wrapf "failed to get cluster config: %w" [] (GetClusterConfig d);
  if bool_decide (Network_KubeProxyEnabled (CC_Network cfg) = Some enabled) then Ok (tt, d)
  else
    '(_, d') ← wrapf "failed to update cluster config: %w" [] (SetClusterConfig (with_kube_proxy cfg enabled) d);
    Ok (tt, d').
Definition updateKubeProxyEnabled (enabled : bool) : act unit :=
  act_wrapf "database transaction to update cluster configuration failed: %w" []
    (act_db (kube_proxy_transaction enabled)).
End Hooks.

(** ** The controllers *)

Section Controllers.
Context `{OSEnv, Outside, ConfigMapEnv, DBEnv, Externals}.

(** node_configuration.go: [updateArgs] and [deleteArgs]. *)
Fixpoint kubelet_changes (l : list (string * option string)) : list (string * string) * list string :=
  match l with
  | [] => ([], [])
  | (arg, val) :: l =>
      let '(upd, del) := kubelet_changes l in
      match val with
      | None => (upd, del)
      | Some v => if v ==? EmptyString then (upd, arg :: del) else ((arg, v) :: upd, del)
      end
  end.

Definition kubelet_settings (k : Kubelet) : list (string * option string) :=
  [("--cloud-provider", Kubelet_CloudProvider k); ("--cluster-dns", Kubelet_ClusterDNS k);
   ("--cluster-domain", Kubelet_ClusterDomain k)].

Definition RemoveKubeProxyRules (s : SnapI) : act unit :=
  act_logged (perform (RunCommand [filepath_Join [K8sBinDir (system s); "kube-proxy"]; "--cleanup"])).

Definition NodeConfiguration_reconcile (s : SnapI) (getRSAKey : act (option PublicKey))
    (updateKubeProxyEnabled : bool → act unit) (configMap : option (gmap string string)) : act unit :=
  key ← act_wrapf "failed to load the RSA public key: %w" [] getRSAKey;
  nodeConfig ← act_wrapf "failed to parse configmap data to cluster config: %w" []
                 (act_lift (ConfigMapToClusterConfig configMap key));
  let '(updateArgs, deleteArgs) := kubelet_changes (kubelet_settings (CC_Kubelet nodeConfig)) in
  mustRestartKubelet ← act_wrapf "failed to update kubelet arguments: %w" []
    (act_io (UpdateServiceArguments s "kubelet" updateArgs deleteArgs));
  _ ← (if mustRestartKubelet : bool then
         act_wrapf "failed after retry: %w" []
           (retryFor 5 5 (act_wrapf "failed to restart kubelet to apply node configuration: %w" []
                            (RestartServices s ["kubelet"] [])))
       else mret tt);
  let kubeProxyEnabled := Network_GetKubeProxyEnabled (CC_Network nodeConfig) in
  _ ← act_wrapf "failed to update kube-proxy enabled state: %w" [] (updateKubeProxyEnabled kubeProxyEnabled);
  if kubeProxyEnabled then
    act_wrapf "failed to start kube-proxy: %w" [] (retryFor 5 5 (StartServices s ["kube-proxy"] []))
  else
    _ ← act_wrapf "failed to stop kube-proxy: %w" [] (retryFor 5 5 (StopServices s ["kube-proxy"] []));
    RemoveKubeProxyRules s.

(** pkg/k8sd/controllers/utils.go.  [ticks] is how often the context lets the call be
    tried. *)
Fixpoint getNewK8sClientWithRetries (ticks : nat) (admin : bool) : act unit :=
  r ← act_try (perform (KubernetesClient admin "kube-system"));
  match r with
  | Ok _ => mret tt
  | Err _ => match ticks with
             | O => act_lift (Err ctx_Err)
             | S ticks => getNewK8sClientWithRetries ticks admin
             end
  end.

(** update_node_configuration.go.  [client] says whether there is a client: to use one
    that is nil is a panic, which is the result [None]. *)
Definition UpdateConfigMap (client : bool) (namespace name : string) (data : gmap string string)
    : act (option unit) :=
  if client then
    _ ← act_wrapf "failed to update configmap, namespace: %s name: %s: %w" [namespace; name]
          (perform (ApplyConfigMap namespace name data));
    mret (Some tt)
  else mret None.

(** A draw from the random source. *)
Definition act_rand {A} (f : nat → res A) : act A := λ s,
  (f (m_rand s), mkMachine (m_world s) (m_db s) (S (m_rand s)) (m_log s)).

Definition UpdateNodeConfiguration_reconcile (client : bool) (config : ClusterConfig) : act (option unit) :=
  let keyPEM := Certificates_GetK8sdPrivateKey (CC_Certificates config) in
  key ← (match LoadRSAPrivateKey keyPEM with
         | Ok key => mret (Some key)
         | Err e => if keyPEM !=? EmptyString then act_lift (Err (Wrapf "failed to load cluster RSA key: %w" [] e))
                    else mret None
         end);
  cmData ← act_wrapf "failed to format node configmap data: %w" []
             (act_rand (λ rand, ClusterConfigToConfigMap rand config key));
  act_wrapf "failed to update node config: %w" []
    (UpdateConfigMap client "kube-system" "k8sd-config" cmData).

(** One turn of [Run], after a trigger.  [Continues] says whether the controller notified
    that it has reconciled. *)
Inductive outcome := Stops | Continues (notified : bool) | Panics.

Definition UpdateNodeConfiguration_turn (ticks : nat) (s : SnapI) : act outcome :=
  isWorker ← act_try (act_io (IsWorker s));
  match isWorker with
  | Err _ => mret (Continues false)
  | Ok true => mret Stops
  | Ok false =>
      config ← act_try (act_query GetClusterConfig);
      match config with
      | Err _ => mret (Continues false)
      | Ok config =>
          client ← act_try (getNewK8sClientWithRetries ticks true);
          r ← act_try (UpdateNodeConfiguration_reconcile (is_ok client) config);
          mret (match r with Ok None => Panics | _ => Continues true end)
      end
  end.
End Controllers.

(** ** The configmap *)

(** What the codecs and the signatures promise.  A signature is good for one hash only. *)
Class ConfigMapOk `{ConfigMapEnv} := {
  json_strings_ok : list string → Prop;
  json_strings_roundtrip l : json_strings_ok l → json_Unmarshal_strings (json_Marshal_strings l) = Ok l;
  base64_roundtrip s : base64_DecodeString (base64_EncodeToString s) = Ok s;
  sign_verify r k h m : SignPKCS1v15 r k h = Ok m → VerifyPKCS1v15 (Public k) h m = Ok tt;
  sign_unique r k h h' m : SignPKCS1v15 r k h = Ok m → VerifyPKCS1v15 (Public k) h' m = Ok tt → h' = h }.

Section ConfigMap.
Context `{ConfigMapOk}.

Definition unsigned_data (config : ClusterConfig) : gmap string string :=
  let k := CC_Kubelet config in
  <["kube-proxy-enabled" := format_bool (Network_GetKubeProxyEnabled (CC_Network config))]>
    (set_key "control-plane-taints" (json_Marshal_strings <$> Kubelet_ControlPlaneTaints k)
      (set_key "cluster-domain" (Kubelet_ClusterDomain k)
        (set_key "cluster-dns" (Kubelet_ClusterDNS k)
          (set_key "cloud-provider" (Kubelet_CloudProvider k) ∅)))).

Lemma set_key_lookup key v (d : gmap string string) k :
  set_key key v d !! k = if decide (key = k) then (match v with Some _ => v | None => d !! k end) else d !! k.
Proof.
  unfold set_key. destruct v; case_decide; subst; rewrite ?lookup_insert_eq, ?lookup_insert_ne; done.
Qed.

Lemma unsigned_lookup config :
  unsigned_data config !! "k8sd-mac" = None ∧
  unsigned_data config !! "cloud-provider" = Kubelet_CloudProvider (CC_Kubelet config) ∧
  unsigned_data config !! "cluster-dns" = Kubelet_ClusterDNS (CC_Kubelet config) ∧
  unsigned_data config !! "cluster-domain" = Kubelet_ClusterDomain (CC_Kubelet config) ∧
  unsigned_data config !! "control-plane-taints" =
    (json_Marshal_strings <$> Kubelet_ControlPlaneTaints (CC_Kubelet config)) ∧
  unsigned_data config !! "kube-proxy-enabled" =
    Some (format_bool (Network_GetKubeProxyEnabled (CC_Network config))).
Proof.
  unfold unsigned_data. rewrite !lookup_insert_eq.
  split_and!; try (rewrite lookup_insert_ne by done); rewrite ?set_key_lookup; cbn;
    repeat (case_decide; [discriminate|]); rewrite ?decide_True by done; try done.
  all: by destruct (CC_Kubelet config) as [[] [] [] []].
Qed.

Lemma ToConfigMap_inv rand config key m : ClusterConfigToConfigMap rand config key = Ok m →
  match key with
  | None => m = unsigned_data config
  | Some key => ∃ mac, SignPKCS1v15 rand key (hash (unsigned_data config)) = Ok mac ∧
      m = <["k8sd-mac" := base64_EncodeToString mac]> (unsigned_data config)
  end.
Proof.
  unfold ClusterConfigToConfigMap. fold (unsigned_data config).
  destruct key as [key|]; [|by intros [= <-]].
  destruct (SignPKCS1v15 rand key _) as [mac|e] eqn:E; [|done]. cbn. intros [= <-]. by exists mac.
Qed.

Lemma withoutSignature_signed config mac :
  withoutSignature (<["k8sd-mac" := mac]> (unsigned_data config)) = unsigned_data config.
Proof.
  unfold withoutSignature. rewrite delete_insert_eq. apply delete_id. apply unsigned_lookup.
Qed.

Lemma verify_signed rand key config mac :
  SignPKCS1v15 rand key (hash (unsigned_data config)) = Ok mac →
  verify_signature (<["k8sd-mac" := base64_EncodeToString mac]> (unsigned_data config)) (Public key) = Ok tt.
Proof.
  intros Hs. unfold verify_signature. rewrite lookup_insert_eq, withoutSignature_signed. cbn.
  rewrite base64_roundtrip. cbn. by rewrite (sign_verify _ _ _ _ Hs).
Qed.

(** What [ConfigMapToClusterConfig] reads from the entries of [unsigned_data]. *)
Lemma FromConfigMap_entries config m key :
  (∀ k, k ≠ "k8sd-mac" → m !! k = unsigned_data config !! k) →
  match key with Some key => verify_signature m key = Ok tt | None => True end →
  match Kubelet_ControlPlaneTaints (CC_Kubelet config) with Some l => json_strings_ok l | None => True end →
  ConfigMapToClusterConfig (Some m) key =
    Ok (node_config (CC_Kubelet config) (Network_GetKubeProxyEnabled (CC_Network config))).
Proof.
  intros Hm Hv Ht. pose proof (unsigned_lookup config) as (_ & E1 & E2 & E3 & E4 & E5).
  unfold ConfigMapToClusterConfig. rewrite !Hm, E1, E2, E3, E4, E5 by done.
  assert ((match key with Some key => verify_signature m key | None => Ok tt end) = Ok tt) as ->
    by (by destruct key).
  cbn. destruct (Kubelet_ControlPlaneTaints _) as [l|] eqn:El; cbn.
  - rewrite (json_strings_roundtrip l) by done. cbn.
    destruct (Network_GetKubeProxyEnabled _); cbn; do 2 f_equal; destruct (CC_Kubelet config); by simplify_eq/=.
  - destruct (Network_GetKubeProxyEnabled _); cbn; do 2 f_equal; destruct (CC_Kubelet config); by simplify_eq/=.
Qed.
End ConfigMap.

(** *** Properties of the configmap *)

Section Properties.
Context `{ConfigMapOk}.

(** The configmap carries the kubelet's configuration and the state of kube-proxy to the
    nodes without a change: what the control plane publishes is accepted with the public
    key of the cluster, and is read as exactly these fields, with everything else unset. *)
Theorem configmap_roundtrip rand config key m :
  ClusterConfigToConfigMap rand config key = Ok m →
  match Kubelet_ControlPlaneTaints (CC_Kubelet config) with Some l => json_strings_ok l | None => True end →
  ConfigMapToClusterConfig (Some m) (Public <$> key) =
    Ok (node_config (CC_Kubelet config) (Network_GetKubeProxyEnabled (CC_Network config))).
Proof.
  intros Hm%ToConfigMap_inv Ht. apply FromConfigMap_entries; [| |done].
  - intros k Hk. destruct key as [key|]; [|by subst m].
    destruct Hm as (mac & _ & ->). by rewrite lookup_insert_ne.
  - destruct key as [key|]; [|done]. destruct Hm as (mac & Hs & ->). by eapply verify_signed.
Qed.

(** A node that has the public key does not follow a configmap that was tampered with: with
    the signature of a published configmap, other entries (anything the hash tells apart,
    added or removed entries included) are refused. *)
Theorem configmap_tamper_refused rand config key m m' :
  ClusterConfigToConfigMap rand config (Some key) = Ok m →
  m' !! "k8sd-mac" = m !! "k8sd-mac" →
  hash (withoutSignature m') ≠ hash (withoutSignature m) →
  ∃ e, ConfigMapToClusterConfig (Some m') (Some (Public key)) = Err (Wrapf "failed to verify signature: %w" [] e).
Proof.
  intros (mac & Hs & ->)%ToConfigMap_inv Hmac. rewrite withoutSignature_signed. intros Hne.
  unfold ConfigMapToClusterConfig, verify_signature. rewrite Hmac, lookup_insert_eq. cbn.
  rewrite base64_roundtrip. cbn. destruct (VerifyPKCS1v15 _ _ mac) as [[]|e] eqn:Ev; [|by exists e].
  by destruct Hne; eapply sign_unique.
Qed.
End Properties.

(** *** Properties of the controllers *)

Section Reconcile.
Context `{OSEnvOk, Outside, ConfigMapEnv, DBEnv, Externals}.

Lemma kubelet_changes_upd l k v : (k, v) ∈ (kubelet_changes l).1 ↔ (k, Some v) ∈ l ∧ v ≠ EmptyString.
Proof.
  induction l as [|[a [x|]] l IH]; cbn [kubelet_changes]; [set_solver|..];
    destruct (kubelet_changes l) as [upd del]; cbn [fst] in IH; [|set_solver].
  case_bool_decide as Hx; cbn [fst]; rewrite ?elem_of_cons, IH; naive_solver.
Qed.
Lemma kubelet_changes_del l k : k ∈ (kubelet_changes l).2 ↔ (k, Some EmptyString) ∈ l.
Proof.
  induction l as [|[a [x|]] l IH]; cbn [kubelet_changes]; [set_solver|..];
    destruct (kubelet_changes l) as [upd del]; cbn [snd] in IH; [|set_solver].
  case_bool_decide as Hx; cbn [snd]; rewrite ?elem_of_cons, IH; naive_solver.
Qed.
Lemma kubelet_changes_keys l : (kubelet_changes l).1.*1 `sublist_of` l.*1.
Proof.
  induction l as [|[a [x|]] l IH]; cbn [kubelet_changes fmap list_fmap fst]; [done|..];
    destruct (kubelet_changes l) as [upd del]; cbn [fst] in IH; [|by constructor].
  case_bool_decide; cbn; by constructor.
Qed.
Lemma kubelet_settings_nodup k : NoDup (kubelet_changes (kubelet_settings k)).1.*1.
Proof. eapply sublist_NoDup; [|apply kubelet_changes_keys]. by apply (bool_decide_unpack _). Qed.

(** What the kubelet reads for an argument after a configmap with the entry [v]. *)
Definition follows (w w' : World) (s : SnapI) (arg : string) (v : option string) : Prop :=
  match v with
  | None => ∀ old, effective w s "kubelet" arg old → effective w' s "kubelet" arg old
  | Some v => effective w' s "kubelet" arg (if v ==? EmptyString then None else Some v)
  end.

Definition kubelet_file (s : SnapI) : string := argumentsFileForService s "kubelet".
Definition kubelet_pairs (w : World) (s : SnapI) := argument_pairs (contents w (kubelet_file s)).

Lemma kubelet_follows (s : SnapI) k w changed w' :
  let upd := kubelet_changes (kubelet_settings k) in
  UpdateServiceArguments s "kubelet" upd.1 upd.2 w = (Ok changed, w') →
  os_temp (w_files w) (filepath_Dir (kubelet_file s)) ≠ kubelet_file s →
  clean upd.1 →
  ∀ arg v, (arg, v) ∈ kubelet_settings k → follows w w' s arg v.
Proof.
  intros upd E Htmp Hc arg v Hin.
  assert (Hkey : ∀ v', (arg, v') ∈ kubelet_settings k → v' = v).
  { intros v' Hin'. unfold kubelet_settings in Hin, Hin'. set_solver. }
  destruct (update_effective s "kubelet" upd.1 upd.2 w changed w' arg E Htmp Hc (kubelet_settings_nodup k))
    as (Hu & Hd & Hk).
  assert (Habs : v = None ∨ v = Some EmptyString → arg ∉ upd.1.*1).
  { intros Hv ([a x] & -> & [Hx Hne]%kubelet_changes_upd)%list_elem_of_fmap. cbn in *.
    apply Hkey in Hx. subst v. naive_solver. }
  unfold follows. destruct v as [v|].
  - case_bool_decide as Hv.
    + subst v. apply Hd; [by apply kubelet_changes_del|by apply Habs; right].
    + apply Hu. by apply kubelet_changes_upd.
  - intros old. apply Hk; [|by apply Habs; left]. intros Hx%kubelet_changes_del. by apply Hkey in Hx.
Qed.

Lemma getRSAKey_run st r st' : getRSAKey st = (r, st') → st' = st.
Proof.
  unfold getRSAKey. intros [(cfg & s1 & [-> _]%act_wrapf_Ok%act_query_run & E)
    |(e & (r0 & [-> _]%act_query_run & _)%act_wrapf_run & _)]%act_bind_inv; [|done].
  destruct (LoadRSAPublicKey _); [by injection E|]. destruct (_ !=? _); by injection E.
Qed.


(** Applying a configmap, with the functions the controller gets in the daemon.  When it
    succeeds, the kubelet follows every entry (an empty value removes the argument, a
    missing entry leaves it alone), the database has the state of kube-proxy, and the
    commands were exactly: restarts of the kubelet until one succeeded, if and only if the
    arguments changed, then the start of kube-proxy, or its stop and the removal of its
    rules.  A configmap that is refused changes nothing and leads to no command. *)
Theorem NodeConfiguration_reconcile_correct s m st :
  let reconcile := NodeConfiguration_reconcile s getRSAKey updateKubeProxyEnabled (Some m) in
  (∀ fs, os_temp fs (filepath_Dir (kubelet_file s)) ≠ kubelet_file s) →
  (∀ st', reconcile st = (Ok tt, st') →
     ∃ key cfg changed k1 k2,
       (getRSAKey st).1 = Ok key ∧ ConfigMapToClusterConfig (Some m) key = Ok cfg ∧
       (clean (kubelet_changes (kubelet_settings (CC_Kubelet cfg))).1 →
          (∀ arg v, (arg, v) ∈ kubelet_settings (CC_Kubelet cfg) → follows (m_world st) (m_world st') s arg v) ∧
          (changed = true ↔ ¬ kubelet_pairs (m_world st') s ≡ₚ kubelet_pairs (m_world st) s)) ∧
       let enabled := Network_GetKubeProxyEnabled (CC_Network cfg) in
       kube_proxy_transaction enabled (m_db st) = Ok (tt, m_db st') ∧
       let restart := restart_argv s ["kubelet"] [] in
       let start := start_argv s ["kube-proxy"] [] in
       let stop := stop_argv s ["kube-proxy"] [] in
       m_log st' = m_log st ++
         (if changed : bool then attempts 5 restart k1 ++ [RunCommand restart] else []) ++
         (if enabled then attempts 5 start k2 ++ [RunCommand start]
          else attempts 5 stop k2 ++
               [RunCommand stop; RunCommand [filepath_Join [K8sBinDir (system s); "kube-proxy"]; "--cleanup"]])) ∧
  (∀ key e, (getRSAKey st).1 = Ok key → ConfigMapToClusterConfig (Some m) key = Err e →
     reconcile st = (Err (Wrapf "failed to parse configmap data to cluster config: %w" [] e), st)).
Proof.
  intros reconcile Htmp. split.
  - intros st'. unfold reconcile, NodeConfiguration_reconcile.
    intros [(key & s1 & E1%act_wrapf_Ok & E)|(? & _ & ?)]%act_bind_inv; [|done].
    pose proof (getRSAKey_run _ _ _ E1) as ->.
    apply act_bind_inv in E as [(cfg & s2 & E2%act_wrapf_Ok & E)|(? & _ & ?)]; [|done].
    injection E2 as Hcfg <-. set (upd := kubelet_changes _) in E.
    rewrite (surjective_pairing upd) in E.
    apply act_bind_inv in E as [(changed & s3 & E3%act_wrapf_Ok & E)|(? & _ & ?)]; [|done].
    apply act_io_run in E3 as (w & E3 & ->).
    apply act_bind_inv in E as [([] & s4 & E4 & E)|(? & _ & ?)]; [|done].
    apply act_bind_inv in E as [([] & s5 & E5%act_wrapf_Ok & E)|(? & _ & ?)]; [|done].
    assert (∃ k1, s4 = with_log (mkMachine w (m_db st) (m_rand st) (m_log st))
              (if changed then attempts 5 (restart_argv s ["kubelet"] []) k1 ++
                 [RunCommand (restart_argv s ["kubelet"] [])] else [])) as [k1 ->].
    { destruct changed; [|exists 0; by injection E4 as <-; rewrite with_log_nil].
      apply act_wrapf_Ok, (retryFor_runs (restart_argv s ["kubelet"] [])) in E4 as (k1 & -> & _);
        [by exists k1|done|]. by apply runs_wrapf, runs_perform. }
    unfold updateKubeProxyEnabled in E5. apply act_wrapf_Ok, act_db_run in E5. cbn in E5.
    destruct (kube_proxy_transaction _ (m_db st)) as [[[] d]|e] eqn:Ed; destruct E5 as [? ->]; [|done].
    assert (Hend : ∃ k2, let enabled := Network_GetKubeProxyEnabled (CC_Network cfg) in
      m_world st' = w ∧ m_db st' = d ∧ m_log st' = (m_log st ++
        (if changed then attempts 5 (restart_argv s ["kubelet"] []) k1 ++
           [RunCommand (restart_argv s ["kubelet"] [])] else [])) ++
        (if enabled then attempts 5 (start_argv s ["kube-proxy"] []) k2 ++ [RunCommand (start_argv s ["kube-proxy"] [])]
         else attempts 5 (stop_argv s ["kube-proxy"] []) k2 ++ [RunCommand (stop_argv s ["kube-proxy"] []);
           RunCommand [filepath_Join [K8sBinDir (system s); "kube-proxy"]; "--cleanup"]])).
    { destruct (Network_GetKubeProxyEnabled _).
      - apply act_wrapf_Ok, (retryFor_runs (start_argv s ["kube-proxy"] [])) in E as (k2 & -> & _);
          [by exists k2|done|apply runs_perform].
      - apply act_bind_inv in E as [([] & s6 & E6%act_wrapf_Ok & E)|(? & _ & ?)]; [|done].
        apply (retryFor_runs (stop_argv s ["kube-proxy"] [])) in E6 as (k2 & -> & _);
          [|done|apply runs_perform].
        exists k2. injection E as <-. cbn. by rewrite <- !app_assoc. }
    destruct Hend as (k2 & Hw & Hd & Hl). exists key, cfg, changed, k1, k2.
    rewrite E1, Hw, Hd, Hl. split_and!; [done|done| |done|by rewrite app_assoc].
    intros Hc. split; [by eapply kubelet_follows; [apply E3|apply Htmp|]|].
    by eapply (update_pairs_Ok s "kubelet" upd.1 upd.2 _ _ _ E3 (Htmp _) Hc).
  - intros key e Hkey He. unfold reconcile, NodeConfiguration_reconcile.
    destruct (getRSAKey st) as [r s1] eqn:E1. cbn in Hkey. subst r.
    pose proof (getRSAKey_run _ _ _ E1) as ->.
    rewrite (act_bind_Ok _ _ _ key st) by (unfold act_wrapf; by rewrite E1).
    apply act_bind_Err. unfold act_wrapf, act_lift. by rewrite He.
Qed.
End Reconcile.

Section Publish.
Context `{OSEnvOk, Outside, ConfigMapOk, DBEnv, Externals}.

Lemma getNewK8sClientWithRetries_run ticks admin s r s' :
  getNewK8sClientWithRetries ticks admin s = (r, s') →
  ∃ k, s' = with_log s (replicate (S k) (KubernetesClient admin "kube-system")) ∧ k ≤ ticks ∧
    (∀ j, j < k → is_ok (outside (m_log s ++ replicate j (KubernetesClient admin "kube-system"))
                           (KubernetesClient admin "kube-system")) = false) ∧
    (is_ok r = true ↔ is_ok (outside (m_log s ++ replicate k (KubernetesClient admin "kube-system"))
                           (KubernetesClient admin "kube-system")) = true) ∧
    (is_ok r = false → k = ticks).
Proof.
  set (c := KubernetesClient admin "kube-system").
  revert s. induction ticks as [|n IH]; intros s; cbn [getNewK8sClientWithRetries]; fold c;
    intros [(r0 & s1 & (r1 & E1 & [= ->])%act_try_run & E)|(e & (r1 & _ & ?)%act_try_run & _)]%act_bind_inv;
    try done; injection E1 as E1 <-; destruct r1 as [[]|e].
  1-3: try (injection E as <- <-); exists 0; cbn [replicate]; rewrite ?app_nil_r.
  1-3: split_and!; [done|lia|lia|by rewrite E1|done].
  apply IH in E as (k & -> & Hk & Hall & Hr & Hend). exists (S k).
  assert (Hcons : ∀ j, (m_log s ++ [c]) ++ replicate j c = m_log s ++ replicate (S j) c)
    by (intros; by rewrite <- app_assoc).
  cbn [m_log] in Hall, Hr. rewrite Hcons in Hr. split_and!.
  - unfold with_log. cbn. by rewrite <- app_assoc.
  - lia.
  - intros [|j] Hj; [cbn; by rewrite app_nil_r, E1|]. rewrite <- Hcons. apply Hall. lia.
  - done.
  - intros Hf. by rewrite Hend.
Qed.

Definition publishable (config : ClusterConfig) (key : option PrivateKey) : Prop :=
  let pem := Certificates_GetK8sdPrivateKey (CC_Certificates config) in
  match key with
  | Some key => LoadRSAPrivateKey pem = Ok key
  | None => pem = EmptyString ∧ is_ok (LoadRSAPrivateKey pem) = false
  end.

Lemma publishable_unique config key key' : publishable config key → publishable config key' → key = key'.
Proof.
  unfold publishable. destruct key as [k|], key' as [k'|].
  - congruence.
  - intros E [_ E']. by rewrite E in E'.
  - intros [_ E] E'. by rewrite E' in E.
  - done.
Qed.

Lemma UpdateNodeConfiguration_reconcile_run client config s r s' :
  UpdateNodeConfiguration_reconcile client config s = (r, s') →
  (∃ e, r = Err e ∧ m_log s' = m_log s ∧
     ∀ key data, publishable config key → ClusterConfigToConfigMap (m_rand s) config key ≠ Ok data) ∨
  (∃ key data, publishable config key ∧ ClusterConfigToConfigMap (m_rand s) config key = Ok data ∧
     if client then m_log s' = m_log s ++ [ApplyConfigMap "kube-system" "k8sd-config" data] ∧ r ≠ Ok None
     else r = Ok None ∧ m_log s' = m_log s).
Proof.
  unfold UpdateNodeConfiguration_reconcile. set (pem := Certificates_GetK8sdPrivateKey _).
  intros [(key & s1 & E1 & E)|(e & E1 & ->)]%act_bind_inv.
  2: { left. exists e. destruct (LoadRSAPrivateKey pem) eqn:El; [by injection E1|].
       destruct (bool_decide_reflect (pem = EmptyString)) as [|Hne]; cbn in E1; [done|].
       injection E1 as _ <-. split_and!; [done|done|]. unfold publishable. fold pem. rewrite El.
       by intros [] ? ?; naive_solver. }
  assert (s1 = s ∧ publishable config key) as [-> Hkey].
  { unfold publishable. fold pem. destruct (LoadRSAPrivateKey pem); [by injection E1 as <- <-|].
    destruct (bool_decide_reflect (pem = EmptyString)); cbn in E1; [by injection E1 as <- <-|done]. }
  apply act_bind_inv in E as [(data & s2 & E2%act_wrapf_Ok & E)|(e & (r2 & E2 & Hr2)%act_wrapf_run & ->)];
    injection E2 as E2 <-.
  2: { left. exists e. split_and!; [done|done|]. intros key' data Hkey'.
       rewrite (publishable_unique _ _ _ Hkey' Hkey), E2. by destruct r2. }
  right. exists key, data. split_and!; [done|done|].
  apply act_wrapf_run in E as (r3 & E & ->). destruct client; cbn [UpdateConfigMap] in E.
  - apply act_bind_inv in E as [([] & s3 & E3%act_wrapf_Ok & E)|(e & (r4 & E3 & _)%act_wrapf_run & ->)];
      injection E3 as _ <-; [by injection E as <- <-|done].
  - by injection E as <- <-.
Qed.

Lemma UpdateNodeConfiguration_turn_run ticks sn s r s' :
  UpdateNodeConfiguration_turn ticks sn s = (r, s') →
  (m_log s' = m_log s ∧ r ≠ Ok Panics ∧
     ((∀ w, IsWorker sn (m_world s) ≠ (Ok false, w)) ∨ is_ok (GetClusterConfig (m_db s)) = false)) ∨
  ∃ w config rc s1 r2,
    IsWorker sn (m_world s) = (Ok false, w) ∧ GetClusterConfig (m_db s) = Ok config ∧
    getNewK8sClientWithRetries ticks true (mkMachine w (m_db s) (m_rand s) (m_log s)) = (rc, s1) ∧
    UpdateNodeConfiguration_reconcile (is_ok rc) config s1 = (r2, s') ∧
    r = Ok (match r2 with Ok None => Panics | _ => Continues true end).
Proof.
  unfold UpdateNodeConfiguration_turn.
  intros [(x & s1 & (isW & E1 & [= ->])%act_try_run & E)|(e & (r1 & _ & ?)%act_try_run & _)]%act_bind_inv;
    [|done].
  apply act_io_run in E1 as (w & E1 & ->).
  destruct isW as [[]|e]; [left; injection E as <- <-; split_and!; [done|done|left; congruence]| |
    left; injection E as <- <-; split_and!; [done|done|left; congruence]].
  apply act_bind_inv in E as [(x & s2 & (cfg & E2 & [= ->])%act_try_run & E)|(e & (r1 & _ & ?)%act_try_run & _)];
    [|done].
  apply act_query_run in E2 as [-> E2]. cbn [m_db] in E2.
  destruct cfg as [config|e]; [|left; injection E as <- <-; split_and!; [done|done|right; by rewrite <- E2]].
  apply act_bind_inv in E as [(x & s3 & (rc & E3 & [= ->])%act_try_run & E)|(e & (r1 & _ & ?)%act_try_run & _)];
    [|done].
  apply act_bind_inv in E as [(x & s4 & (r2 & E4 & [= ->])%act_try_run & E)|(e & (r1 & _ & ?)%act_try_run & _)];
    [|done].
  injection E as <- <-. right. by exists w, config, rc, s3, r2.
Qed.

(** C24: The turn of the controller on the control plane, together with what the nodes do with
    its result: the only configmap it writes is k8sd-config, with data that every node
    reads as the kubelet's fields and the kube-proxy state of the stored configuration,
    verified with the public half of the stored key (or unverified when there is none). *)
Theorem published_config_reaches_nodes ticks sn s r s' :
  UpdateNodeConfiguration_turn ticks sn s = (r, s') →
  ∃ l, m_log s' = m_log s ++ l ∧
    ∀ ns name data, ApplyConfigMap ns name data ∈ l →
      ns = "kube-system" ∧ name = "k8sd-config" ∧
      ∃ config key, GetClusterConfig (m_db s) = Ok config ∧ publishable config key ∧
        (match Kubelet_ControlPlaneTaints (CC_Kubelet config) with Some l => json_strings_ok l | None => True end →
         ConfigMapToClusterConfig (Some data) (Public <$> key) =
           Ok (node_config (CC_Kubelet config) (Network_GetKubeProxyEnabled (CC_Network config)))).
Proof.
  intros [(Hl & _)|(w & config & rc & s1 & r2 & _ & Hcfg & Hc & Hr & _)]%UpdateNodeConfiguration_turn_run.
  { exists []. rewrite Hl, app_nil_r. split; [done|]. intros ??? Hin. by apply elem_of_nil in Hin. }
  apply getNewK8sClientWithRetries_run in Hc as (k & -> & _).
  set (l := replicate (S k) _) in *.
  assert (Hno : ∀ ns name data, ApplyConfigMap ns name data ∉ l).
  { intros ns name data Hin%elem_of_replicate. naive_solver. }
  apply UpdateNodeConfiguration_reconcile_run in Hr as [(e & _ & Hl & _)|(key & data & Hkey & Hd & Hl)].
  { exists l. split; [done|]. intros ??? Hin. by apply Hno in Hin. }
  destruct (is_ok rc).
  2: { destruct Hl as [_ Hl]. exists l. split; [done|]. intros ??? Hin. by apply Hno in Hin. }
  destruct Hl as [Hl _]. exists (l ++ [ApplyConfigMap "kube-system" "k8sd-config" data]).
  split; [by rewrite Hl; cbn; rewrite <- app_assoc|].
  intros ns name d [Hin|Hin]%elem_of_app; [by apply Hno in Hin|].
  apply list_elem_of_singleton in Hin. injection Hin as -> -> ->. split_and!; [done|done|].
  exists config, key. split_and!; [done|done|]. intros Ht. apply ToConfigMap_inv in Hd.
  apply FromConfigMap_entries; [| |done].
  - intros k' Hk. destruct key as [key|]; [|by subst data].
    destruct Hd as (mac & _ & ->). by rewrite lookup_insert_ne.
  - destruct key as [key|]; [|done]. destruct Hd as (mac & Hs & ->). cbn. by eapply verify_signed.
Qed.

(** A turn of the controller ends in a panic, on a nil client, exactly when the node is a
    control plane node with a readable configuration that can be signed, and no client
    could be made before the context was done. *)
Theorem UpdateNodeConfiguration_panics_iff ticks sn s :
  (UpdateNodeConfiguration_turn ticks sn s).1 = Ok Panics ↔
  ∃ w config key data,
    IsWorker sn (m_world s) = (Ok false, w) ∧ GetClusterConfig (m_db s) = Ok config ∧
    (∀ j, j ≤ ticks → is_ok (outside (m_log s ++ replicate j (KubernetesClient true "kube-system"))
                               (KubernetesClient true "kube-system")) = false) ∧
    publishable config key ∧ ClusterConfigToConfigMap (m_rand s) config key = Ok data.
Proof.
  destruct (UpdateNodeConfiguration_turn ticks sn s) as [r s'] eqn:E. cbn [fst].
  apply UpdateNodeConfiguration_turn_run in E
    as [(_ & Hr & Hno)|(w & config & rc & s1 & r2 & Hw & Hcfg & Hc & Hr & ->)].
  { split; [done|]. intros (w & config & _ & _ & Hw & Hcfg & _). exfalso.
    destruct Hno as [Hno|Hno]; [by eapply Hno|by rewrite Hcfg in Hno]. }
  apply getNewK8sClientWithRetries_run in Hc as (k & -> & Hk & Hall & Hok & Hend). cbn [m_log] in *.
  apply UpdateNodeConfiguration_reconcile_run in Hr.
  split.
  - intros [= Hr2]. assert (r2 = Ok None) as -> by (by destruct r2 as [[[]|]|]).
    destruct Hr as [(e & ? & _)|(key & data & Hkey & Hd & Hl)]; [done|].
    destruct (is_ok rc) eqn:Erc; [by destruct Hl|]. exists w, config, key, data.
    split_and!; try done. intros j Hj. destruct (decide (j < k)) as [Hjk|Hjk]; [by apply Hall|].
    assert (j = k) as -> by (rewrite (Hend eq_refl) in *; lia).
    apply not_true_iff_false. intros Ht. by apply Hok in Ht.
  - intros (w' & config' & key & data & Hw' & Hcfg' & Hno & Hkey & Hd).
    rewrite Hcfg in Hcfg'. injection Hcfg' as <-.
    assert (is_ok rc = false) as Erc.
    { apply not_true_iff_false. intros Ht%Hok. by rewrite (Hno k Hk) in Ht. }
    destruct Hr as [(e & -> & _ & Hn)|(key' & data' & _ & _ & Hl)]; [by destruct (Hn key data)|].
    rewrite Erc in Hl. by destruct Hl as [-> _].
Qed.
End Publish.

(** *** Witnesses *)

Definition demo_cm : @ConfigMapEnv demo_pki_env :=
  @Build_ConfigMapEnv demo_pki_env
    (λ m, join ";" (map (λ k, default EmptyString (m !! k)) ["cloud-provider"; "cluster-domain"]))
    (join ",") (λ s, Ok [s]) (λ s, s) Ok (λ s, s)
    (λ (_ k : nat) h, Ok (Itoa (Z.of_nat k) +:+ ":" +:+ h))
    (λ (k : nat) h m, if m ==? Itoa (Z.of_nat k) +:+ ":" +:+ h then Ok tt
                      else Err (Errorf "verification error" [])).

Definition demo_cm_ok : @ConfigMapOk demo_pki_env demo_cm.
Proof.
  refine (@Build_ConfigMapOk demo_pki_env demo_cm (λ l, ∃ x, l = [x]) _ _ _ _).
  - by intros ? [x ->].
  - done.
  - intros r k h m [= <-]. cbn. by rewrite bool_decide_eq_true_2.
  - intros r k h h' m [= <-]. cbn. case_bool_decide as E; [|done]. intros _.
    apply (inj (String.append (Itoa (Z.of_nat k)))), (inj (String.append ":")) in E. done.
Defined.

Definition demo_kubelet : Kubelet := mkKubelet (Some "external") (Some EmptyString) None (Some ["a:NoSchedule"]).
Definition demo_node : ClusterConfig := node_config demo_kubelet false.

Definition demo_map : gmap string string :=
  match @ClusterConfigToConfigMap demo_pki_env demo_cm 0 demo_node (Some 5) with Ok m => m | Err _ => ∅ end.
Lemma demo_map_eq : @ClusterConfigToConfigMap demo_pki_env demo_cm 0 demo_node (Some 5) = Ok demo_map.
Proof. vm_compute. reflexivity. Qed.

Lemma configmap_roundtrip_witness :
  demo_map !! "k8sd-mac" ≠ None ∧
  @ConfigMapToClusterConfig demo_pki_env demo_cm (Some demo_map) (Some 5) = Ok demo_node.
Proof.
  split; [vm_compute; discriminate|].
  apply (@configmap_roundtrip demo_pki_env demo_cm demo_cm_ok 0 demo_node (Some 5) _ demo_map_eq).
  by exists "a:NoSchedule".
Defined.

Lemma configmap_tamper_refused_witness :
  ∃ e, @ConfigMapToClusterConfig demo_pki_env demo_cm (Some (<["cluster-domain" := "evil"]> demo_map)) (Some 5)
         = Err e.
Proof.
  destruct (@configmap_tamper_refused demo_pki_env demo_cm demo_cm_ok 0 demo_node 5 demo_map
    (<["cluster-domain" := "evil"]> demo_map) demo_map_eq) as [e He].
  - vm_compute. reflexivity.
  - vm_compute. discriminate.
  - by exists (Wrapf "failed to verify signature: %w" [] e).
Defined.

Definition demo_outside : Outside := λ log c,
  match c as c return res (answer c) with
  | RunCommand ["snap"; "restart"; "k8s.kubelet"] =>
      if bool_decide (length log = 0) then Err (Errorf "busy" []) else Ok tt
  | c => default_answer c
  end.

Definition demo_interface : SnapI :=
  @snap_interface demo_os demo_outside demo_snap_env (mk_snap "/snap/k8s/current" "/common" "k8s" "/") false (Ok "node1") (Ok 0%Z).

(** A database that always reads as one valid configuration without a public key. *)
Definition demo_store : DBEnv := {|
  db_fail _ := None; json_Marshal _ := Ok "stored"; json_Unmarshal _ := Ok base_config;
  json_representable _ := True |}.
Definition demo_state : Machine := mkMachine (demo_world []) base_db 0 [].

Lemma NodeConfiguration_reconcile_correct_witness :
  ∃ st', @NodeConfiguration_reconcile demo_os demo_outside demo_pki_env demo_cm demo_interface
      (@getRSAKey demo_pki_env demo_store)
      (@updateKubeProxyEnabled demo_store demo_externals)
      (Some {["cloud-provider" := "external"; "kube-proxy-enabled" := "false"]}) demo_state = (Ok tt, st') ∧
    ∃ k1 k2, m_log st' = attempts 5 ["snap"; "restart"; "k8s.kubelet"] k1 ++
      [RunCommand ["snap"; "restart"; "k8s.kubelet"]] ++
      attempts 5 ["snap"; "stop"; "k8s.kube-proxy"; "--disable"] k2 ++
      [RunCommand ["snap"; "stop"; "k8s.kube-proxy"; "--disable"];
       RunCommand ["/snap/k8s/current/bin/kube-proxy"; "--cleanup"]].
Proof.
  destruct (@NodeConfiguration_reconcile demo_os demo_outside demo_pki_env demo_cm demo_interface
      (@getRSAKey demo_pki_env demo_store) (@updateKubeProxyEnabled demo_store demo_externals)
      (Some {["cloud-provider" := "external"; "kube-proxy-enabled" := "false"]}) demo_state) as [r st'] eqn:E.
  pose proof (f_equal fst E) as Er. vm_compute in Er. simpl in Er. subst r. exists st'. split; [done|].
  destruct (@NodeConfiguration_reconcile_correct demo_os demo_os_ok demo_outside demo_pki_env demo_cm
    demo_store demo_externals demo_interface
    {["cloud-provider" := "external"; "kube-proxy-enabled" := "false"]} demo_state) as [Hok _].
  { intros fs. vm_compute. discriminate. }
  destruct (Hok _ E) as (key & cfg & changed & k1 & k2 & Hkey & Hcfg & _ & _ & Hl).
  vm_compute in Hkey. injection Hkey as <-. vm_compute in Hcfg. injection Hcfg as <-.
  exists k1, k2. destruct changed.
  { etransitivity; [exact Hl|]. cbn -[attempts]. by rewrite <- app_assoc. }
  exfalso.
  pose proof (f_equal (λ x, hd_error (m_log x.2)) E) as Eh. cbn beta in Eh. cbn [snd] in Eh.
  rewrite Hl in Eh. destruct k2; vm_compute in Eh; discriminate Eh.
Defined.

Lemma published_config_reaches_nodes_witness :
  ∃ s', @UpdateNodeConfiguration_turn demo_os demo_outside demo_pki_env demo_cm demo_store 3 demo_interface
      demo_state = (Ok (Continues true), s') ∧
    ∀ ns name data, ApplyConfigMap ns name data ∈ m_log s' → name = "k8sd-config".
Proof.
  eexists. split; [vm_compute; reflexivity|]. intros ns name data Hin.
  destruct (@published_config_reaches_nodes demo_os demo_outside demo_pki_env demo_cm demo_cm_ok demo_store
    3 demo_interface demo_state (Ok (Continues true)) _ eq_refl) as (l & Hl & Hall).
  eapply Hall. rewrite <- (app_nil_l l). change [] with (m_log demo_state). rewrite <- Hl. apply Hin.
Defined.

Example offline_turn_panics :
  let offline : Outside := λ _ c,
    match c as c return res (answer c) with
    | KubernetesClient _ _ => Err (Errorf "connection refused" [])
    | c => demo_outside [] c
    end in
  (@UpdateNodeConfiguration_turn demo_os offline demo_pki_env demo_cm demo_store 3 demo_interface demo_state).1
    = Ok Panics.
Proof. vm_compute. reflexivity. Qed.
End NodeConfig.
