(* ===== verification/SnapdConfig.v ===== *)
(** * The configuration of the snap

    pkg/utils/experimental/snapdconfig: the cluster configuration is mirrored in the
    configuration that snapd keeps for the snap, and [meta] says which of the two is
    followed.  cmd/k8s/k8s_x_snapd_config.go: the command that snapd runs when its
    configuration changes.

    External: the JSON codec ([SnapdEnv]).  The settings are a Go map: [order] gives them in
    the order of one iteration. *)

From S2P Require Import Prelude GoStrings Config ConfigConvert FileSys Arguments Database Effects Snap.
Import GoStr Config Convert FileSys Arguments Effects Snap.

Module SnapdConfig.

Record Meta := mkMeta { Orb : string; APIVersion : string; meta_Error : string }.

#[export] Instance Meta_eq_dec : EqDecision Meta.
Proof. solve_decision. Defined.

Class SnapdEnv := {
  (** The field [meta] of a JSON object. *)
  json_meta : string → res Meta;
  json_Marshal_meta : Meta → res string;
  (** A part of the configuration, by its name. *)
  json_Marshal_part : string → UserFacingClusterConfig → res string;
  json_Unmarshal_config : string → res UserFacingClusterConfig }.

Section SnapdConfig.
Context `{SnapdEnv, Outside}.

(** ** disable.go, meta.go, k8s_to_snapd.go and snapd_to_k8s.go *)

Definition Disable (s : SnapI) : act unit :=
  b ← act_wrapf "failed to marshal config: %w" [] (act_lift (json_Marshal_meta (mkMeta "none" "1.30" EmptyString)));
  act_wrapf "failed to snapctl set: %w" []
    (SnapctlSet s (["meta=" +:+ b] ++
       map (λ f, f +:+ "!") ["dns"; "network"; "gateway"; "ingress"; "load-balancer"; "local-storage"])).

(** The part of [ParseMeta] after the answer of snapctl was decoded. *)
Definition check_meta (meta : Meta) : res Meta :=
  let orb := if Orb meta ==? EmptyString then "none" else Orb meta in
  _ ← fails_if (negb (bool_decide (orb ∈ ["k8sd"; "snapd"; "none"])))
        (Errorf "invalid meta.orb value %q" [orb]);
  let version := if APIVersion meta ==? EmptyString then "1.30" else APIVersion meta in
  _ ← fails_if (version !=? "1.30") (Errorf "invalid meta.apiVersion value %q" [version]);
  Ok (mkMeta orb version (meta_Error meta)).

(** The three results: the meta configuration, a flag, and an error. *)
Definition ParseMeta (s : SnapI) : act (Meta * bool * option goerr) :=
  let failed e := mret (mkMeta EmptyString EmptyString EmptyString, false, Some e) in
  b ← act_try (SnapctlGet s ["-d"; "meta"]);
  match b with
  | Err e => failed (Wrapf "failed to get snapd config mode: %w" [] e)
  | Ok b =>
      match json_meta b with
      | Err e => failed (Wrapf "failed to parse snap config mode: %w" [] e)
      | Ok meta =>
          match check_meta meta with
          | Err e => failed e
          | Ok meta => mret (meta, true, None)
          end
      end
  end.

Definition SetMeta (s : SnapI) (meta : Meta) : act unit :=
  b ← act_wrapf "failed to marshal config: %w" [] (act_lift (json_Marshal_meta meta));
  act_wrapf "failed to snapctl set meta: %w" [] (SnapctlSet s ["meta=" +:+ b]).

Definition snapd_parts : list string :=
  ["meta"; "dns"; "network"; "local-storage"; "load-balancer"; "ingress"; "gateway"].
Definition marshal_part (config : UserFacingClusterConfig) (key : string) : res string :=
  b ← wrapf "failed to marshal %s config: %w" [key]
        (if key ==? "meta" then json_Marshal_meta (mkMeta "snapd" "1.30" EmptyString)
         else json_Marshal_part key config);
  Ok (key +:+ "=" +:+ b).
Fixpoint marshal_parts (config : UserFacingClusterConfig) (keys : list string) : res (list string) :=
  match keys with
  | [] => Ok []
  | key :: keys => x ← marshal_part config key; xs ← marshal_parts config keys; Ok (x :: xs)
  end.

Definition SetSnapdFromK8sd (order : list string → list string) (config : UserFacingClusterConfig)
    (s : SnapI) : act unit :=
  sets ← act_lift (marshal_parts config (order snapd_parts));
  act_wrapf "failed to set snapd configuration: %w" [] (SnapctlSet s sets).

Definition SetK8sdFromSnapd (s : SnapI) : act unit :=
  b ← act_wrapf "failed to retrieve snapd configuration: %w" []
        (SnapctlGet s ["-d"; "dns"; "network"; "local-storage"; "load-balancer"; "ingress"; "gateway"]);
  config ← act_wrapf "failed to parse snapd configuration: %w" [] (act_lift (json_Unmarshal_config b));
  act_wrapf "failed to update k8s configuration: %w" [] (perform (PutClusterConfig config)).

(** ** k8s_x_snapd_config.go: the command [reconcile]

    An error is the exit with status 1.  [ticks] is the time-out in seconds; a call to the
    daemon that fails gives the zero values. *)
Definition k8sd_role : act (string * bool) :=
  r ← act_try (perform NodeStatus);
  mret (match r with Ok x => x | Err _ => (EmptyString, false) end).

Definition x_snapd_reconcile (ticks : nat) (order : list string → list string)
    (print : goerr → string) (s : SnapI) : act unit :=
  '(mode, empty, err) ← ParseMeta s;
  match err with
  | Some err =>
      if negb empty then act_lift (Err (Wrapf "failed to parse meta configuration: %w" [] err))
      else act_logged (SetMeta s (mkMeta "none" "1.30" (print err)))
  | None =>
      if Orb mode ==? "none" then mret tt
      else
        _ ← act_wrapf "failed to create k8sd client: %w" [] (perform (K8sdClient EmptyString));
        _ ← act_wrapf "k8sd did not come up in time: %w" []
              (WaitUntilReady ticks (r ← act_try (perform NodeStatus); mret (is_ok r)));
        '(role, initialized) ← k8sd_role;
        if negb initialized then mret tt
        else if role ==? "worker" then mret tt
        else
          _ ← (if Orb mode ==? "k8sd" then
                 config ← act_wrapf "failed to retrieve cluster configuration: %w" [] (perform FetchClusterConfig);
                 act_wrapf "failed to update snapd state: %w" [] (SetSnapdFromK8sd order config s)
               else
                 act_wrapf "failed to update k8sd state: %w" [] (SetK8sdFromSnapd s));
          act_wrapf "failed to set snapd configuration: %w" []
            (SetMeta s (mkMeta "snapd" (APIVersion mode) (meta_Error mode)))
  end.
End SnapdConfig.

(** ** Properties *)

Section Properties.
Context `{SnapdEnv, Outside}.

(** What a normalised meta says. *)
Definition known_meta (m : Meta) : Prop :=
  Orb m ∈ [EmptyString; "k8sd"; "snapd"; "none"] ∧ APIVersion m ∈ [EmptyString; "1.30"].
Definition normal_meta (m : Meta) : Meta :=
  mkMeta (if Orb m ==? EmptyString then "none" else Orb m) "1.30" (meta_Error m).

Lemma check_meta_spec m : (check_meta m = Ok (normal_meta m) ∧ known_meta m) ∨
  ((∃ e, check_meta m = Err e) ∧ ¬ known_meta m).
Proof.
  destruct m as [o v er]. unfold check_meta, known_meta, normal_meta. cbn.
  destruct (bool_decide_reflect (o = EmptyString)) as [->|Ho]; cbn;
  destruct (bool_decide_reflect (v = EmptyString)) as [->|Hv]; cbn.
  all: repeat (case_bool_decide; cbn); set_solver.
Qed.

(** The flag of [ParseMeta], which its caller takes to tell a missing configuration from
    another error, is never set together with an error; and [ParseMeta] accepts exactly the
    answers of snapctl that decode to a known mode and version, where an empty mode is read
    as none and an empty version as 1.30. *)
Theorem ParseMeta_spec s st :
  let '(a, st') := SnapctlGet s ["-d"; "meta"] st in
  ∃ meta flag err, ParseMeta s st = (Ok (meta, flag, err), st') ∧
    (flag = true ↔ err = None) ∧
    (err = None ↔ ∃ b m, a = Ok b ∧ json_meta b = Ok m ∧ known_meta m ∧ meta = normal_meta m).
Proof.
  unfold ParseMeta, act_try, mbind, act_bind.
  destruct (SnapctlGet s ["-d"; "meta"] st) as [[b|e] st'].
  2: { eexists _, _, _. split; [done|]. naive_solver. }
  destruct (json_meta b) as [m|e] eqn:Em.
  2: { eexists _, _, _. split; [done|]. naive_solver. }
  destruct (check_meta_spec m) as [[-> Hk]|[[e ->] Hk]]; eexists _, _, _; (split; [done|]); naive_solver.
Qed.
End Properties.
End SnapdConfig.
