(* ===== verification/NodeControllers.v ===== *)
(** * The other controllers of a node

    pkg/k8sd/controllers: service_args.go restarts a service whose process runs with other
    arguments than its file has (the arguments of the process are found by
    [RunningServiceArgs] of pkg/utils/services.go); node_label.go follows the zone label of
    the node and publishes its version; control_plane_configuration.go applies the
    configuration to the services of the control plane.

    External: SHA-256 and the JSON of [version.Info] ([LabelEnv]). *)

From S2P Require Import Prelude GoStrings Config ConfigConvert FileSys Arguments ConfigFiles Setup Pki.
From S2P Require Import PkiNode Node Database Upgrade Effects Snap Checks SnapdConfig.
Import GoStr Config Convert FileSys Arguments ConfigFiles PkiNode Node Database Upgrade Effects Snap Checks SnapdConfig.

Module NodeControllers.

(** ** pkg/utils/services.go *)

Definition ErrUnitNotRunning : goerr := Errorf "unit is not running" [].

Inductive LoadState := LoadStateLoaded | LoadStateNotFound.
Inductive ActiveState := ActiveStateActive | ActiveStateInactive.

#[export] Instance LoadState_eq_dec : EqDecision LoadState.
Proof. solve_decision. Defined.
#[export] Instance ActiveState_eq_dec : EqDecision ActiveState.
Proof. solve_decision. Defined.

Definition nul : ascii := "000"%char.

(** The arguments in /proc/<pid>/cmdline, without the path of the program. *)
Definition cmdline_arg (args : gmap string string) (part : string) : gmap string string :=
  if part ==? EmptyString then args
  else
    let '(key, value) := ParseArgumentLine part in
    if key !=? EmptyString then <[key := value]> args else args.
Definition parse_cmdline (data : string) : gmap string string :=
  fold_left cmdline_arg (tl (split nul data)) ∅.

Section Services.
Context `{OSEnv, Outside}.

Definition systemctl_show (unit property : string) : act string :=
  perform (CommandOutput ["systemctl"; "show"; unit; "--property=" +:+ property; "--value"]).

Definition getUnitLoadState (unit : string) : act LoadState :=
  out ← act_wrapf "failed to query LoadState for unit %q: %w" [unit] (systemctl_show unit "LoadState");
  let st := TrimSpace out in
  act_lift (if st ==? "loaded" then Ok LoadStateLoaded
            else if st ==? "not-found" then Ok LoadStateNotFound
            else Err (Errorf "invalid LoadState %q for unit %q" [st; unit])).

Definition getUnitActiveState (unit : string) : act ActiveState :=
  out ← act_wrapf "failed to query ActiveState for unit %q: %w" [unit] (systemctl_show unit "ActiveState");
  let st := TrimSpace out in
  act_lift (if st ==? "active" then Ok ActiveStateActive
            else if st ==? "inactive" then Ok ActiveStateInactive
            else Err (Errorf "invalid ActiveState %q for unit %q" [st; unit])).

Definition getUnitMainPID (unit : string) : act Z :=
  out ← act_wrapf "failed to query MainPID for unit %q: %w" [unit] (systemctl_show unit "MainPID");
  act_wrapf "failed to convert unit %q pid %q to int: %w" [unit; out] (act_lift (ParseInt64 (TrimSpace out))).

Definition RunningServiceArgs (serviceName : string) : act (gmap string string) :=
  let unitName := "snap.k8s." +:+ serviceName +:+ ".service" in
  loadState ← act_wrapf "failed to get unit %q LoadState: %w" [unitName] (getUnitLoadState unitName);
  _ ← act_lift (fails_if (loadState ==? LoadStateNotFound) (Errorf "unit %q was not found" [unitName]));
  activeState ← act_wrapf "failed to get unit %q ActiveState: %w" [unitName] (getUnitActiveState unitName);
  _ ← act_lift (fails_if (activeState ==? ActiveStateInactive) (Wrapf "%q: %w" [unitName] ErrUnitNotRunning));
  pid ← act_wrapf "failed to get unit %q MainPID: %w" [unitName] (getUnitMainPID unitName);
  _ ← act_lift (fails_if (pid ==? 0%Z) (Wrapf "pid is 0 for unit %q: %w" [unitName] ErrUnitNotRunning));
  r ← act_try (perform (ReadProc ("/proc/" +:+ Itoa pid +:+ "/cmdline")));
  match r with
  | Err e =>
      act_lift (Err (if errors_Is e ErrNotExist
        then Wrapf "cmdline file doesn't exist for unit %q (pid %d): %w" [unitName; Itoa pid] ErrUnitNotRunning
        else Wrapf "failed to read cmdline for pid %d (unit %q): %w" [Itoa pid; unitName] e))
  | Ok cmdlineData => mret (parse_cmdline cmdlineData)
  end.

(** ** service_args.go *)

(** The comparison of the two maps. *)
Definition args_drifted (desiredArgs actualArgs : gmap string string) : bool :=
  negb (Nat.eqb (size desiredArgs) (size actualArgs)) ||
  existsb (λ kv, default EmptyString (actualArgs !! kv.1) !=? kv.2) (map_to_list desiredArgs).

Definition serviceArgsDiffer (getRunningArgs : string → act (gmap string string)) (s : SnapI)
    (serviceName : string) : act bool :=
  r ← act_try (act_io (ParseArgumentFile (filepath_Join [ServiceArgumentsDir s; serviceName])));
  match r with
  | Err e => if errors_Is e ErrNotExist then mret false
             else act_lift (Err (Wrapf "failed to read args file for %q: %w" [serviceName] e))
  | Ok desiredArgs =>
      r ← act_try (getRunningArgs serviceName);
      match r with
      | Err e => if errors_Is e ErrUnitNotRunning then mret false
                 else act_lift (Err (Wrapf "failed to get running args for %q: %w" [serviceName] e))
      | Ok actualArgs => mret (args_drifted desiredArgs actualArgs)
      end
  end.

Fixpoint reconcile_services (getRunningArgs : string → act (gmap string string)) (s : SnapI)
    (services : list string) : act unit :=
  match services with
  | [] => mret tt
  | svc :: services =>
      differs ← act_try (serviceArgsDiffer getRunningArgs s svc);
      _ ← (match differs with
           | Ok true => act_logged (RestartServices s [svc] [])
           | _ => mret tt
           end);
      reconcile_services getRunningArgs s services
  end.

(** [services] is the override of the options. *)
Definition ServiceArgs_reconcile (getRunningArgs : string → act (gmap string string))
    (services : option (list string)) (s : SnapI) : act unit :=
  services ← (match services with
              | Some services => mret services
              | None =>
                  isWorker ← act_wrapf "failed to determine node type: %w" [] (act_io (IsWorker s));
                  mret (if isWorker : bool then WorkerServices else ControlPlaneServices)
              end);
  reconcile_services getRunningArgs s services.
End Services.

(** ** node_label.go *)

Class LabelEnv := {
  sha256_Sum256 : string → string;
  Encode : Upgrades.Info → res string }.

(** [binary.LittleEndian.Uint64] of the first bytes of a hash. *)
Fixpoint little_endian (n : nat) (b : string) : Z :=
  match n, b with
  | S n, String c b => (Z.of_nat (nat_of_ascii c) + 256 * little_endian n b)%Z
  | _, _ => 0
  end.

(** What the controller uses of a Kubernetes node. *)
Record KubeNode := mkKubeNode {
  kn_Name : string; kn_Labels : gmap string string; kn_Annotations : gmap string string }.

Definition NodeAnnotationKey : string := "k8sd.io/version".

Section NodeLabel.
Context `{OSEnv, Outside, SnapEnv, LabelEnv}.

Definition NodeLabelToDqliteFailureDomain (label : string) : Z := little_endian 8 (sha256_Sum256 label).

Definition updateDqliteFailureDomain (s : SnapI) (failureDomain : Z) : act unit :=
  let k8sdDbStateDir := filepath_Join [K8sdStateDir s; "database"] in
  modified ← act_wrapf "failed to update k8sd failure domain: %w" []
               (act_io (UpdateDqliteFailureDomain failureDomain k8sdDbStateDir));
  if modified : bool then
    act_wrapf "failed to restart k8sd to apply failure domain: %w" [] (RestartServices s ["k8sd"] [])
  else mret tt.

Definition label_failure_domain (node : KubeNode) : Z :=
  match kn_Labels node !! "topology.kubernetes.io/zone" with
  | Some azLabel => if azLabel !=? EmptyString then NodeLabelToDqliteFailureDomain azLabel else 0%Z
  | None => 0%Z
  end.
Definition reconcileFailureDomain (s : SnapI) (node : KubeNode) : act unit :=
  act_wrapf "failed to update failure-domain, error: %w" []
    (updateDqliteFailureDomain s (label_failure_domain node)).

Definition reconcileVersionAnnotation (s : SnapI) (node : KubeNode) : act unit :=
  rev ← act_wrapf "failed to get snap revision: %w" [] (snap_Revision s);
  k8sVersion ← act_wrapf "failed to get kubernetes version: %w" [] (NodeKubernetesVersion s);
  b ← act_wrapf "failed to encode version info: %w" [] (act_lift (Encode (Upgrades.mkInfo rev (Some k8sVersion))));
  act_wrapf "failed to update node %s annotations: %w" [kn_Name node]
    (perform (UpdateNode (kn_Name node) (<[NodeAnnotationKey := b]> (kn_Annotations node)))).

(** [errors.NewAggregate] of a list of errors is nil when the list is empty. *)
Definition NodeLabel_reconcile (s : SnapI) (node : KubeNode) : act unit :=
  isWorker ← act_wrapf "failed to check if node is a worker: %w" [] (act_io (IsWorker s));
  domain ← (if isWorker : bool then mret (Ok tt)
            else act_try (act_wrapf "failed to reconcile failure domain: %w" [] (reconcileFailureDomain s node)));
  annotation ← act_try (act_wrapf "failed to reconcile version annotation: %w" []
                          (reconcileVersionAnnotation s node));
  act_lift (errors_Join (failure domain ++ failure annotation)).
End NodeLabel.

(** ** control_plane_configuration.go *)

Section ControlPlane.
Context `{OSEnv, Outside, SnapdEnv}.

Definition external_pki (d : Datastore) : ExternalDatastorePKI :=
  mkExternalDatastorePKI (Datastore_GetExternalCACert d) (Datastore_GetExternalClientCert d)
    (Datastore_GetExternalClientKey d).

Definition datastore_paths (s : SnapI) : PathsProvider :=
  mkPaths (snap_KubernetesPKIDir s) (snap_EtcdPKIDir s).

(** The three parts of [reconcile].  [lo] is what the loopback interface gives. *)
Definition reconcile_external_datastore (lo : res (res (list string))) (s : SnapI) (config : ClusterConfig)
    : act unit :=
  if Datastore_GetType (CC_Datastore config) ==? "external" then
    certificatesChanged ← act_wrapf "failed to reconcile external datastore certificates: %w" []
      (act_io (EnsureExtDatastorePKI s (external_pki (CC_Datastore config))));
    '(updateArgs, deleteArgs) ← act_wrapf "failed to get datastore arguments for kube-apiserver: %w" []
      (act_lift (ToKubeAPIServerArguments lo (CC_Datastore config) (datastore_paths s)));
    argsChanged ← act_wrapf "failed to update kube-apiserver datastore arguments: %w" []
      (act_io (UpdateServiceArguments s "kube-apiserver" (map_to_list updateArgs) deleteArgs));
    if certificatesChanged || argsChanged then
      act_wrapf "failed to restart kube-apiserver to apply configuration: %w" []
        (RestartServices s ["kube-apiserver"] [])
    else mret tt
  else mret tt.

Definition reconcile_cloud_provider (s : SnapI) (config : ClusterConfig) : act unit :=
  match Kubelet_CloudProvider (CC_Kubelet config) with
  | Some v =>
      mustRestart ← act_wrapf "failed to update kube-controller-manager arguments: %w" []
        (act_io (UpdateServiceArguments s "kube-controller-manager" [("--cloud-provider", v)] []));
      if mustRestart : bool then
        act_wrapf "failed to restart kube-controller-manager to apply configuration: %w" []
          (RestartServices s ["kube-controller-manager"] [])
      else mret tt
  | None => mret tt
  end.

Definition reconcile_snapd (order : list string → list string) (s : SnapI) (config : ClusterConfig) : act unit :=
  '(meta, _, err) ← ParseMeta s;
  if (err ==? None) && (Orb meta !=? "none")
  then act_logged (SetSnapdFromK8sd order (ToUserFacing config) s)
  else mret tt.

Definition ControlPlaneConfiguration_reconcile (lo : res (res (list string)))
    (order : list string → list string) (s : SnapI) (config : ClusterConfig) : act unit :=
  _ ← reconcile_external_datastore lo s config;
  _ ← reconcile_cloud_provider s config;
  reconcile_snapd order s config.
End ControlPlane.

(** ** Service arguments *)

Section ServiceArgs.
Context `{OSEnv, Outside}.

(** The maps agree up to what a missing key is read as. *)
Lemma args_drifted_false d a : args_drifted d a = false ↔
  size d = size a ∧ ∀ k v, d !! k = Some v → default EmptyString (a !! k) = v.
Proof.
  unfold args_drifted. rewrite orb_false_iff, negb_false_iff, Nat.eqb_eq, existsb_none. f_equiv. split.
  - intros Hd k v Hk. specialize (Hd (k, v)). rewrite elem_of_map_to_list in Hd.
    by apply Hd, negb_false_iff, bool_decide_eq_true in Hk.
  - intros Hd [k v] Hin%elem_of_map_to_list. apply negb_false_iff, bool_decide_eq_true. by apply Hd.
Qed.

Lemma args_drifted_sound d a : args_drifted d a = true → d ≠ a.
Proof.
  intros Hd ->. assert (args_drifted a a = false); [|congruence]. apply args_drifted_false.
  split; [done|]. by intros k v ->.
Qed.

Lemma args_drifted_complete d a : (∀ k, d !! k ≠ Some EmptyString) → d ≠ a → args_drifted d a = true.
Proof.
  intros Hne Hda. apply not_false_iff_true. intros [Hs Hd]%args_drifted_false. apply Hda.
  assert (Hsub : d ⊆ a).
  { apply map_subseteq_spec. intros k v Hk. specialize (Hd k v Hk).
    destruct (a !! k); cbn in Hd; [by subst|]. subst v. by destruct (Hne k). }
  apply map_subseteq_size_eq; [done|]. by rewrite Hs.
Qed.

(** What the file and the process of a service say. *)
Definition args_of_file (s : SnapI) (w : World) (svc : string) : res (gmap string string) :=
  (ParseArgumentFile (filepath_Join [ServiceArgumentsDir s; svc]) w).1.
Definition drifted (s : SnapI) (w : World) (running : string → res (gmap string string)) (svc : string) : bool :=
  match args_of_file s w svc, running svc with
  | Ok desired, Ok actual => args_drifted desired actual
  | _, _ => false
  end.

Lemma serviceArgsDiffer_run getRunningArgs running s svc st r st' :
  (∀ svc st, getRunningArgs svc st = (running svc, st)) →
  serviceArgsDiffer getRunningArgs s svc st = (r, st') →
  st' = st ∧ (r = Ok true ↔ drifted s (m_world st) running svc = true).
Proof.
  intros Hget. unfold serviceArgsDiffer, drifted, args_of_file, act_try, act_io, mbind at 1, act_bind at 1.
  rewrite (ParseArgumentFile_pure _ (m_world st)). cbn [fst].
  replace (mkMachine (m_world st) (m_db st) (m_rand st) (m_log st)) with st by (by destruct st).
  destruct (ParseArgumentFile _ _).1 as [d|e].
  2: { destruct (errors_Is e ErrNotExist); intros [= <- <-]; naive_solver. }
  unfold mbind, act_bind. rewrite Hget. destruct (running svc) as [a|e].
  2: { destruct (errors_Is e ErrUnitNotRunning); intros [= <- <-]; naive_solver. }
  intros [= <- <-]. split; [done|]. by split; [intros [= ->]|intros ->].
Qed.

Lemma reconcile_services_run getRunningArgs running s services st r st' :
  (∀ svc st, getRunningArgs svc st = (running svc, st)) →
  reconcile_services getRunningArgs s services st = (r, st') →
  r = Ok tt ∧ st' = with_log st (map (λ svc, RunCommand (restart_argv s [svc] []))
                       (List.filter (drifted s (m_world st) running) services)).
Proof.
  intros Hget. revert st r st'. induction services as [|svc services IH]; intros st r st'; cbn [reconcile_services].
  { intros [= <- <-]. by rewrite with_log_nil. }
  intros [(b & s1 & (r0 & [-> Hr]%(serviceArgsDiffer_run _ running) & [= ->])%act_try_run & E)
    |(e & (r0 & _ & [=])%act_try_run & _)]%act_bind_inv; [|done].
  cbn [List.filter]. destruct (drifted s (m_world st) running svc) eqn:Hd.
  - rewrite (proj2 Hr eq_refl) in E. apply act_bind_inv in E as [([] & s2 & [= <-] & E)|(e & [=] & _)].
    apply IH in E as [-> ->]. split; [done|]. cbn [map]. change (m_world _) with (m_world st).
    exact (with_log_app st [_] _).
  - assert (r0 ≠ Ok true) as Hn by (intros Hx; apply Hr in Hx; congruence).
    apply act_bind_inv in E as [([] & s2 & E1 & E)|(e & E1 & _)].
    + assert (s2 = st) as -> by (by destruct r0 as [[]|]; injection E1).
      by apply IH.
    + by destruct r0 as [[]|].
Qed.

(** A check of the service arguments restarts, in the order of the services and once each,
    exactly the services whose process runs with other arguments than the file has.  It
    never restarts one whose file or process cannot be read or whose arguments agree.  The
    comparison is exact when the file has no argument with an empty value; see
    [drift_missed] for the other case. *)
Theorem ServiceArgs_reconcile_correct getRunningArgs running services s st r st' :
  (∀ svc st, getRunningArgs svc st = (running svc, st)) →
  ServiceArgs_reconcile getRunningArgs (Some services) s st = (r, st') →
  r = Ok tt ∧ m_world st' = m_world st ∧ m_db st' = m_db st ∧ ∃ restarted,
    m_log st' = m_log st ++ map (λ svc, RunCommand (restart_argv s [svc] [])) restarted ∧
    restarted `sublist_of` services ∧
    ∀ svc, svc ∈ services →
      (svc ∈ restarted → ∃ d a, args_of_file s (m_world st) svc = Ok d ∧ running svc = Ok a ∧ d ≠ a) ∧
      (∀ d a, args_of_file s (m_world st) svc = Ok d → running svc = Ok a →
         (∀ k, d !! k ≠ Some EmptyString) → (svc ∈ restarted ↔ d ≠ a)).
Proof.
  intros Hget E. cbn in E. apply (reconcile_services_run _ _ _ _ _ _ _ Hget) in E as [-> ->].
  split_and!; [done..|]. eexists. split; [done|]. split.
  { clear. induction services as [|x l IH]; cbn [List.filter]; [constructor|].
    destruct (drifted _ _ _ x); by constructor. }
  intros svc Hin.
  assert (Hf : svc ∈ List.filter (drifted s (m_world st) running) services ↔
    drifted s (m_world st) running svc = true).
  { rewrite list_elem_of_In, filter_In, <- list_elem_of_In. naive_solver. }
  unfold drifted at 2 in Hf. split.
  - rewrite Hf. destruct (args_of_file _ _ _) as [d|]; [|done]. destruct (running svc) as [a|]; [|done].
    intros Hd%args_drifted_sound. by exists d, a.
  - intros d a Ed Ea Hne. rewrite Hf, Ed, Ea. split; [apply args_drifted_sound|by apply args_drifted_complete].
Qed.
End ServiceArgs.

(** ** The failure domain *)

Lemma little_endian_bound n b : (0 ≤ little_endian n b < 2 ^ (8 * Z.of_nat n))%Z.
Proof.
  revert b. induction n as [|n IH]; intros b; cbn [little_endian]; [lia|].
  replace (2 ^ (8 * Z.of_nat (S n)))%Z with (256 * 2 ^ (8 * Z.of_nat n))%Z
    by (rewrite Nat2Z.inj_succ, Z.mul_succ_r, Z.add_comm, Z.pow_add_r by lia; done).
  destruct b as [|c b]; [lia|]. specialize (IH b). pose proof (nat_ascii_bounded c). nia.
Qed.

Section NodeLabel.
Context `{OSEnvOk, Outside, SnapEnv, LabelEnv}.

Lemma label_failure_domain_bound node : (0 ≤ label_failure_domain node < 2 ^ 64)%Z.
Proof.
  unfold label_failure_domain. destruct (kn_Labels node !! _) as [az|]; [|lia].
  destruct (az !=? _); [|lia]. apply (little_endian_bound 8).
Qed.

(** The failure domain of a control plane node follows its zone label: after a successful
    reconcile the database of k8sd is configured with the first eight bytes of the hash of
    the label, read as a 64-bit number (0 without a label), and k8sd was restarted exactly
    when another value was in force before. *)
Theorem failure_domain_follows_label (s : SnapI) node st st' :
  reconcileFailureDomain s node st = (Ok tt, st') →
  let dir := filepath_Join [K8sdStateDir s; "database"] in
  (∀ r w2, GetDqliteFailureDomain dir (m_world st') = (r, w2) →
     w2 = m_world st' ∧ ∀ v, r = Ok v → v = label_failure_domain node) ∧
  (∀ old, (GetDqliteFailureDomain dir (m_world st)).1 = Ok old →
     m_log st' = m_log st ++
       (if old ==? label_failure_domain node then [] else [RunCommand (restart_argv s ["k8sd"] [])])) ∧
  (∀ p, p ≠ GetDqliteFailureDomainFile dir → w_files (m_world st') !! p = w_files (m_world st) !! p).
Proof.
  intros E%act_wrapf_Ok dir.
  apply act_bind_inv in E as [(modified & s1 & (w1 & E1 & ->)%act_wrapf_Ok%act_io_run & E)|(e & _ & ?)]; [|done].
  symmetry in E1. rename E1 into E1'. pose proof (eq_sym E1') as E1. fold dir in E1.
  apply UpdateDqliteFailureDomain_roundtrip in E1 as (Hr & Hch & Hf); [|apply label_failure_domain_bound].
  assert (m_world st' = w1 ∧ m_log st' = m_log st ++
    (if modified then [RunCommand (restart_argv s ["k8sd"] [])] else [])) as [-> Hl].
  { destruct modified; [|injection E as <-; cbn; by rewrite app_nil_r].
    apply act_wrapf_Ok in E. by injection E as _ <-. }
  split_and!; [done| |done]. intros old Hold. rewrite Hl, (Hch old Hold). by case_bool_decide.
Qed.
End NodeLabel.

(** ** The control plane *)

Abbreviation restart_failed := (Wrapf "failed to restart kube-apiserver to apply configuration: %w" []).

Section ControlPlaneConfiguration.
Context `{OSEnvOk, Outside, SnapdEnv}.


Lemma external_datastore_run lo (s : SnapI) config st r st' :
  Datastore_GetType (CC_Datastore config) = "external" →
  reconcile_external_datastore lo s config st = (r, st') →
  (∃ e, r = Err e ∧ m_log st' = m_log st ∧ ∀ e', e ≠ restart_failed e') ∨
  (∃ upd del c1 c2 w1,
     EnsureExtDatastorePKI s (external_pki (CC_Datastore config)) (m_world st) = (Ok c1, w1) ∧
     ToKubeAPIServerArguments lo (CC_Datastore config) (datastore_paths s) = Ok (upd, del) ∧
     UpdateServiceArguments s "kube-apiserver" (map_to_list upd) del w1 = (Ok c2, m_world st') ∧
     let cmd := RunCommand (restart_argv s ["kube-apiserver"] []) in
     m_log st' = m_log st ++ (if c1 || c2 then [cmd] else []) ∧
     r = if c1 || c2 then wrapf "failed to restart kube-apiserver to apply configuration: %w" []
           (outside (m_log st) cmd) else Ok tt).
Proof.
  intros Hext. unfold reconcile_external_datastore. rewrite Hext, bool_decide_eq_true_2 by done.
  intros [(c1 & s1 & (w1 & E1 & ->)%act_wrapf_Ok%act_io_run & E)
    |(e & (r0 & (w1 & _ & ->)%act_io_run & Hr)%act_wrapf_run & ->)]%act_bind_inv.
  2: { left. destruct r0; [done|]. injection Hr as ->. eexists. split_and!; [done..|]. by intros e'. }
  apply act_bind_inv in E as [([upd del] & s2 & E2%act_wrapf_Ok & E)|(e & (r0 & E2 & Hr)%act_wrapf_run & ->)].
  2: { left. destruct r0; [done|]. injection Hr as ->. injection E2 as _ <-.
       eexists. split_and!; [done..|]. by intros e'. }
  injection E2 as Ekube <-.
  apply act_bind_inv in E as [(c2 & s3 & (w2 & E3 & ->)%act_wrapf_Ok%act_io_run & E)
    |(e & (r0 & (w2 & _ & ->)%act_io_run & Hr)%act_wrapf_run & ->)].
  2: { left. destruct r0; [done|]. injection Hr as ->. eexists. split_and!; [done..|]. by intros e'. }
  right. exists upd, del, c1, c2, w1. cbn in E3.
  assert (m_world st' = w2 ∧ m_log st' = m_log st ++ (if c1 || c2 then [RunCommand (restart_argv s ["kube-apiserver"] [])] else []) ∧
    r = if c1 || c2 then wrapf "failed to restart kube-apiserver to apply configuration: %w" []
          (outside (m_log st) (RunCommand (restart_argv s ["kube-apiserver"] []))) else Ok tt) as (-> & Hl & Hr);
    [|by split_and!].
  destruct (c1 || c2); [apply act_wrapf_run in E as (r0 & [= <- <-] & ->)|injection E as <- <-];
    cbn; rewrite ?app_nil_r; done.
Qed.

(** The certificate files of an external datastore, and what is asked of the paths: they
    are different, and not the names of temporary files. *)
Definition external_files (s : Snap) (config : ClusterConfig) : list (string * string) :=
  [(etcd_pki s "ca.crt", Datastore_GetExternalCACert (CC_Datastore config));
   (etcd_pki s "client.key", Datastore_GetExternalClientKey (CC_Datastore config));
   (etcd_pki s "client.crt", Datastore_GetExternalClientCert (CC_Datastore config))].
Definition external_paths_ok (s : Snap) (config : ClusterConfig) : Prop :=
  let args := argumentsFileForService s "kube-apiserver" in
  NoDup (args :: (external_files s config).*1) ∧
  ∀ fs p, p ∈ args :: (external_files s config).*1 → os_temp fs (filepath_Dir p) ≠ p.

Lemma external_pki_run (s : SnapI) config w c w' : external_paths_ok s config →
  EnsureExtDatastorePKI s (external_pki (CC_Datastore config)) w = (Ok c, w') →
  w_files w' = with_files (UID s) (GID s) 384 (external_files s config) (w_files w) ∧
  c = existsb (λ x, differs w x.1 x.2) (external_files s config).
Proof.
  intros [[_ Hnd]%NoDup_cons Htmp] E.
  apply ensureFiles_loop_run in E as [Hf ->]; [|intros fs p Hp; apply Htmp; by right|exact Hnd].
  split; [exact Hf|apply orb_false_r].
Qed.

(** What a successful reconcile of an external datastore leaves: the three certificate files
    are as configured (an unset one is gone), the API server has the arguments of the
    datastore and not the ones that are to be deleted, and it was restarted exactly when a
    file or an argument changed. *)
Theorem external_datastore_applied lo (s : SnapI) config st st' :
  Datastore_GetType (CC_Datastore config) = "external" → external_paths_ok s config →
  (∀ upd del, ToKubeAPIServerArguments lo (CC_Datastore config) (datastore_paths s) = Ok (upd, del) →
     clean (map_to_list upd)) →
  reconcile_external_datastore lo s config st = (Ok tt, st') →
  ∃ upd del restart, ToKubeAPIServerArguments lo (CC_Datastore config) (datastore_paths s) = Ok (upd, del) ∧
    (∀ p c, (p, c) ∈ external_files s config → w_files (m_world st') !! p = ensured c (UID s) (GID s) 384) ∧
    (∀ k v, upd !! k = Some v → effective (m_world st') s "kube-apiserver" k (Some v)) ∧
    (∀ k, k ∈ del → upd !! k = None → effective (m_world st') s "kube-apiserver" k None) ∧
    m_log st' = m_log st ++ (if restart : bool then [RunCommand (restart_argv s ["kube-apiserver"] [])] else []) ∧
    (restart = true ↔
       (∃ p c, (p, c) ∈ external_files s config ∧ differs (m_world st) p c = true) ∨
       ¬ argument_pairs (contents (m_world st') (argumentsFileForService s "kube-apiserver")) ≡ₚ
         argument_pairs (contents (m_world st) (argumentsFileForService s "kube-apiserver"))).
Proof.
  intros Hext Hok Hclean
    [(e & [=] & _)|(upd & del & c1 & c2 & w1 & E1 & Ek & E2 & Hl & _)]%external_datastore_run; [|done].
  apply external_pki_run in E1 as [Hf1 ->]; [|done]. destruct Hok as [[Hargs Hnd]%NoDup_cons Htmp].
  set (file := argumentsFileForService s "kube-apiserver") in *.
  assert (Hk : NoDup (map_to_list upd).*1) by apply NoDup_fst_map_to_list.
  assert (Ht : os_temp (w_files w1) (filepath_Dir file) ≠ file) by (apply Htmp; by left).
  pose proof (update_pairs_Ok _ _ _ _ _ _ _ E2 Ht (Hclean _ _ Ek)) as (_ & Hc2 & Hother).
  assert (Hsame : contents w1 file = contents (m_world st) file).
  { unfold contents. rewrite Hf1. by rewrite (proj2 (with_files_lookup _ _ _ _ _ file Hnd)). }
  exists upd, del, (existsb (λ x, differs (m_world st) x.1 x.2) (external_files s config) || c2).
  split_and!; [done| | | |exact Hl|].
  - intros p c Hin. rewrite Hother; [|intros ->; apply Hargs, list_elem_of_fmap; by exists (file, c)].
    rewrite Hf1. by apply (proj1 (with_files_lookup _ _ _ _ _ p Hnd)).
  - intros k v Hkv%elem_of_map_to_list. 
    by apply (proj1 (update_effective _ _ _ _ _ _ _ k E2 Ht (Hclean _ _ Ek) Hk)).
  - intros k Hdel Hnone. 
    apply (proj1 (proj2 (update_effective _ _ _ _ _ _ _ k E2 Ht (Hclean _ _ Ek) Hk))); [done|].
    intros ([k' v] & -> & Hin%elem_of_map_to_list)%list_elem_of_fmap. cbn in Hnone. congruence.
  - rewrite orb_true_iff, existsb_elem, Hc2. fold file. rewrite Hsame.
    f_equiv. split; [intros ([p c] & ? & ?); by exists p, c|intros (p & c & ? & ?); by exists (p, c)].
Qed.

(** A restart that failed is not made up for: after the reconcile that changed the files but
    could not restart the API server, the next one with the same configuration finds the
    files as they should be and issues no command, so that the API server keeps running with
    the old certificates.  (Old arguments are found by the service argument controller.) *)
Theorem failed_restart_is_lost lo (s : SnapI) config st e st1 r2 st2 :
  Datastore_GetType (CC_Datastore config) = "external" → external_paths_ok s config →
  (∀ upd del, ToKubeAPIServerArguments lo (CC_Datastore config) (datastore_paths s) = Ok (upd, del) →
     clean (map_to_list upd)) →
  reconcile_external_datastore lo s config st = (Err (restart_failed e), st1) →
  reconcile_external_datastore lo s config st1 = (r2, st2) →
  m_log st2 = m_log st1.
Proof.
  intros Hext Hok Hclean
    [(e' & [= <-] & _ & Hne)|(upd & del & c1 & c2 & w1 & E1 & Ek & E2 & _ & _)]%external_datastore_run;
    [by destruct (Hne e)| |done].
  intros [(e' & _ & Hl & _)|(upd' & del' & d1 & d2 & w2 & E1' & Ek' & E2' & Hl & _)]%external_datastore_run;
    [done| |done].
  rewrite Ek in Ek'. injection Ek' as <- <-.
  assert (Hpaths := Hok). destruct Hok as [[Hargs Hnd]%NoDup_cons Htmp].
  set (file := argumentsFileForService s "kube-apiserver") in *.
  apply external_pki_run in E1 as [Hf1 _], E1' as [Hf1' ->]; [|done..].
  assert (Ht : ∀ fs, os_temp fs (filepath_Dir file) ≠ file) by (intros fs; apply Htmp; by left).
  pose proof (update_pairs_Ok _ _ _ _ _ _ _ E2 (Ht _) (Hclean _ _ Ek)) as (_ & _ & Hother).
  assert (Hcert : ∀ p c, (p, c) ∈ external_files s config →
    w_files (m_world st1) !! p = ensured c (UID s) (GID s) 384).
  { intros p c Hin. rewrite Hother; [|intros ->; apply Hargs, list_elem_of_fmap; by exists (file, c)].
    rewrite Hf1. by apply (proj1 (with_files_lookup _ _ _ _ _ p Hnd)). }
  assert (Hfalse : existsb (λ x, differs (m_world st1) x.1 x.2) (external_files s config) = false).
  { apply existsb_none. intros [p c] Hin. cbn [fst snd]. unfold differs, contents.
    rewrite (Hcert p c Hin). unfold ensured.
    case_bool_decide; [by apply bool_decide_eq_false_2; intros []|]. cbn. by rewrite bool_decide_eq_true_2. }
  assert (Hw2 : w_files w2 !! file = w_files (m_world st1) !! file).
  { rewrite Hf1'. by rewrite (proj2 (with_files_lookup _ _ _ _ _ file Hnd)). }
  destruct (update_again _ _ _ _ _ _ _ _ _ _ E2 E2' Hw2 (Ht _) (Ht _) (Hclean _ _ Ek)
    (NoDup_fst_map_to_list upd)) as [[e' ?]|[[= ->] _]]; [done|].
  by rewrite Hl, Hfalse, app_nil_r.
Qed.
End ControlPlaneConfiguration.

(** A drift that is not seen: an argument with an empty value was replaced by another
    one. *)
Theorem drift_missed :
  let file := {["--v" := "2"; "--register-with-taints" := EmptyString]} : gmap string string in
  let process := {["--v" := "2"; "--node-labels" := "a=b"]} : gmap string string in
  file ≠ process ∧ args_drifted file process = false.
Proof. split; [by intros E%(f_equal (lookup "--node-labels"))|by vm_compute]. Qed.

(** *** Witnesses *)

Definition demo_snapi : SnapI :=
  @snap_interface demo_os demo_outside demo_snap_env demo_mk_snap false (Ok "node1") (Ok 0%Z).
Definition demo_running (svc : string) : res (gmap string string) :=
  if svc ==? "kubelet" then Ok {["--v" := "1"]} else Err (Wrapf "%q: %w" [svc] ErrUnitNotRunning).
Definition demo_args_world : World :=
  demo_world [("/var/snap/k8s/common/args/kubelet", "--v=2" +:+ one newline);
              ("/var/snap/k8s/common/args/containerd", "--log-level=info" +:+ one newline)].

Lemma ServiceArgs_reconcile_correct_witness :
  ∃ st', @ServiceArgs_reconcile demo_os demo_outside (λ svc st, (demo_running svc, st))
      (Some ["containerd"; "kubelet"]) demo_snapi (demo_machine demo_args_world) = (Ok tt, st') ∧
    RunCommand ["snap"; "restart"; "k8s.kubelet"] ∈ m_log st'.
Proof.
  destruct (@ServiceArgs_reconcile demo_os demo_outside (λ svc st, (demo_running svc, st))
      (Some ["containerd"; "kubelet"]) demo_snapi (demo_machine demo_args_world)) as [r st'] eqn:E.
  destruct (@ServiceArgs_reconcile_correct demo_os demo_outside _ demo_running _ _ _ _ _
    ltac:(done) E) as (-> & _ & _ & l & Hl & _ & Hall).
  exists st'. split; [done|]. rewrite Hl. apply elem_of_app. right.
  apply list_elem_of_fmap. exists "kubelet". split; [done|].
  assert (Hf : args_of_file (H := demo_os) demo_snapi demo_args_world "kubelet" = Ok {["--v" := "2"]})
    by (vm_compute; reflexivity).
  assert (Hr : demo_running "kubelet" = Ok {["--v" := "1"]}) by (vm_compute; reflexivity).
  destruct (Hall "kubelet" ltac:(by right; left)) as [_ Hk].
  destruct (Hk _ _ Hf Hr) as [_ Hin].
  - intros k [_ Hk']%lookup_singleton_Some. discriminate Hk'.
  - apply Hin. intros Heq%(f_equal (lookup "--v")). vm_compute in Heq. discriminate.
Defined.

Definition demo_label_env : LabelEnv := {| sha256_Sum256 s := s; Encode _ := Ok "{}" |}.
Definition demo_kube_node : KubeNode :=
  mkKubeNode "node1" {["topology.kubernetes.io/zone" := "zone-a"]} ∅.

Lemma failure_domain_follows_label_witness :
  ∃ st', @reconcileFailureDomain demo_os demo_outside demo_label_env demo_snapi demo_kube_node
      (demo_machine (demo_world [])) = (Ok tt, st') ∧
    m_log st' = [RunCommand ["snap"; "restart"; "k8s.k8sd"]].
Proof.
  destruct (@reconcileFailureDomain demo_os demo_outside demo_label_env demo_snapi demo_kube_node
      (demo_machine (demo_world []))) as [r st'] eqn:E.
  pose proof (f_equal fst E) as Er. vm_compute in Er. simpl in Er. subst r. exists st'. split; [done|].
  destruct (@failure_domain_follows_label demo_os demo_os_ok demo_outside demo_label_env demo_snapi
    demo_kube_node _ _ E) as (_ & Hl & _).
  rewrite (Hl 0%Z); [|vm_compute; reflexivity]. vm_compute. reflexivity.
Defined.

(** The API server cannot be restarted. *)
Definition no_restart : Outside := λ log c,
  match c as c return res (answer c) with
  | RunCommand ["snap"; "restart"; _] => Err (Errorf "exit status 1" [])
  | c => default_answer c
  end.
Definition demo_external_config : ClusterConfig :=
  mkClusterConfig empty_Certificates demo_external_datastore empty_APIServer empty_Kubelet
    empty_Network empty_DNS empty_Ingress empty_LoadBalancer empty_Gateway empty_LocalStorage
    empty_MetricsServer None.
Abbreviation demo_lo := (Ok (Ok ["127.0.0.1/8"])).

Lemma demo_external_paths : @external_paths_ok demo_os demo_snapi demo_external_config.
Proof.
  split; [demo_nodup|]. intros fs. apply Forall_forall.
  repeat (apply Forall_cons_2; [vm_compute; discriminate|]). apply Forall_nil_2.
Qed.
Lemma demo_external_clean upd del :
  ToKubeAPIServerArguments demo_lo (CC_Datastore demo_external_config) (datastore_paths demo_snapi) = Ok (upd, del) →
  clean (map_to_list upd).
Proof.
  assert (E : ToKubeAPIServerArguments demo_lo (CC_Datastore demo_external_config) (datastore_paths demo_snapi) =
    Ok (Setup.demo_datastore_args, ["--etcd-certfile"; "--etcd-keyfile"])) by (vm_compute; reflexivity).
  rewrite E. intros [= <- <-]. apply Setup.clean_check. vm_compute. reflexivity.
Qed.

Lemma external_datastore_applied_witness :
  ∃ st', @reconcile_external_datastore demo_os demo_outside demo_lo demo_snapi demo_external_config
      (demo_machine (demo_world [])) = (Ok tt, st') ∧
    w_files (m_world st') !! "/etc/kubernetes/pki/etcd/ca.crt" = Some (mkFile "CA" 384 0 0).
Proof.
  destruct (@reconcile_external_datastore demo_os demo_outside demo_lo demo_snapi demo_external_config
      (demo_machine (demo_world []))) as [r st'] eqn:E.
  pose proof (f_equal fst E) as Er. vm_compute in Er. simpl in Er. subst r. exists st'. split; [done|].
  destruct (@external_datastore_applied demo_os demo_os_ok demo_outside demo_lo demo_snapi
    demo_external_config _ _ eq_refl demo_external_paths demo_external_clean E)
    as (_ & _ & _ & _ & Hf & _).
  rewrite (Hf "/etc/kubernetes/pki/etcd/ca.crt" "CA"); [vm_compute; reflexivity|by left].
Defined.

Lemma failed_restart_is_lost_witness :
  ∃ e st1 st2, @reconcile_external_datastore demo_os no_restart demo_lo demo_snapi demo_external_config
      (demo_machine (demo_world [])) = (Err (restart_failed e), st1) ∧
    @reconcile_external_datastore demo_os no_restart demo_lo demo_snapi demo_external_config st1 = (Ok tt, st2) ∧
    m_log st2 = m_log st1.
Proof.
  destruct (@reconcile_external_datastore demo_os no_restart demo_lo demo_snapi demo_external_config
      (demo_machine (demo_world []))) as [r st1] eqn:E1.
  pose proof (f_equal fst E1) as Er. vm_compute in Er. simpl in Er. subst r.
  destruct (@reconcile_external_datastore demo_os no_restart demo_lo demo_snapi demo_external_config st1)
    as [r2 st2] eqn:E2.
  exists (Errorf "exit status 1" []), st1, st2. split; [done|]. split.
  - f_equal. pose proof (f_equal snd E1) as Es. cbn [snd] in Es. subst st1.
    pose proof (f_equal fst E2) as Er. vm_compute in Er. by rewrite Er.
  - exact (@failed_restart_is_lost demo_os demo_os_ok no_restart demo_lo demo_snapi demo_external_config
      _ _ _ _ _ eq_refl demo_external_paths demo_external_clean E1 E2).
Defined.
End NodeControllers.
