(* ===== verification/NodeSetup.v ===== *)
(** * Directories, kubeconfigs and containerd

    pkg/k8sd/setup: directories.go creates the directories of a node, util_kubeconfig.go
    writes the kubeconfigs, containerd.go configures containerd and installs the CNI
    plugins; pkg/snap/util/containerd.go: the lock files that record which directories
    belong to the snap.

    External: the merge of two trees of settings (mergo), TOML, and the kubeconfig writer of
    client-go ([SetupEnv]).  A Go map is iterated over in the order [order] gives. *)

From S2P Require Import Prelude GoStrings GoNet Cidr Config ConfigConvert FileSys Arguments ConfigFiles.
From S2P Require Import Setup Pki PkiNode Node Database Effects Snap Checks.
Import GoStr GoNet Cidr Config Convert FileSys Arguments ConfigFiles Setup PkiNode Node Effects Snap.

Module NodeSetup.

(** [clientcmdapi.Config], as far as it is set. *)
Record KubeCluster := mkKubeCluster { CertificateAuthorityData : string; Server : string }.
Record KubeAuthInfo := mkKubeAuthInfo { ClientCertificateData : string; ClientKeyData : string }.
Record KubeContext := mkKubeContext { ctx_Cluster : string; ctx_AuthInfo : string }.
Record KubeConfig := mkKubeConfig {
  Clusters : list (string * KubeCluster);
  AuthInfos : list (string * KubeAuthInfo);
  Contexts : list (string * KubeContext);
  CurrentContext : string }.

Class SetupEnv `{OSEnv} := {
  mergo_Merge : value → value → res value;
  toml_Marshal : value → res string;
  clientcmd_Write : KubeConfig → res string;
  clientcmd_WriteToFile : KubeConfig → string → io unit }.

Definition has_0700 (mode : Z) : bool := (Z.land mode 448 =? 448)%Z.

Section NodeSetup.
Context `{SetupEnv, Outside}.

(** ** directories.go *)

Fixpoint make_directories (dirs : list string) : act unit :=
  match dirs with
  | [] => mret tt
  | dir :: dirs =>
      _ ← (if dir ==? EmptyString then mret tt
           else act_wrapf "failed to create required directory: %w" [] (perform (MkdirAll dir 448)));
      make_directories dirs
  end.

Definition stat_or_create (cniBinDir : string) : act Stat_t :=
  r ← act_try (perform (Stat cniBinDir));
  match r with
  | Ok stat => mret stat
  | Err e =>
      if negb (errors_Is e ErrNotExist)
      then act_lift (Err (Wrapf "failed to syscall.Stat(%q): %w" [cniBinDir] e))
      else
        _ ← act_wrapf "failed to os.MkdirAll(%s): %w" [cniBinDir] (perform (MkdirAll cniBinDir 448));
        act_wrapf "failed to syscall.Stat(%q) newly-created cni bin dir: %w" [cniBinDir]
          (perform (Stat cniBinDir))
  end.

Definition ensureCniBinDir (cniBinDir : string) : act unit :=
  if cniBinDir ==? EmptyString then mret tt
  else
    stat ← stat_or_create cniBinDir;
    _ ← (if (st_Uid stat !=? 0%Z) || (st_Gid stat !=? 0%Z)
         then act_wrapf "failed to os.Chown(%q, 0, 0): %w" [cniBinDir] (perform (Chown cniBinDir 0 0))
         else mret tt);
    _ ← (if negb (has_0700 (st_Mode stat))
         then act_wrapf "failed to os.Chmod(%q, %o): %w" [cniBinDir]
                (perform (Chmod cniBinDir (Z.lor (st_Mode stat) 448)))
         else mret tt);
    f ← act_wrapf "failed create file in %q: %w" [cniBinDir] (perform (CreateTemp cniBinDir "test*.txt"));
    _ ← act_wrapf "failed close file in %q: %w" [cniBinDir] (perform (Close f));
    act_wrapf "failed delete file in %q: %w" [cniBinDir] (perform (Remove f)).

Definition EnsureAllDirectories (s : SnapI) : act unit :=
  _ ← ensureCniBinDir (CNIBinDir (system s));
  make_directories
    [SystemTuningConfigDir (system s); CNIConfDir (system s); EtcdDir s; KubernetesConfigDir s;
     snap_KubernetesPKIDir s; snap_EtcdPKIDir s; LockFilesDir s; ServiceArgumentsDir s;
     ServiceExtraConfigDir s].

(** ** util_kubeconfig.go *)

Definition createConfig (server caPEM crtPEM keyPEM : string) : KubeConfig :=
  let server := if has_prefix "http" server then server else "https://" +:+ server in
  {| Clusters := [("k8s", mkKubeCluster caPEM server)];
     AuthInfos := [("k8s-user", mkKubeAuthInfo crtPEM keyPEM)];
     Contexts := [("k8s", mkKubeContext "k8s" "k8s-user")];
     CurrentContext := "k8s" |}.

Definition Kubeconfig (path url caPEM crtPEM keyPEM : string) : io unit :=
  io_wrapf "failed to write kubeconfig: %w" [] (clientcmd_WriteToFile (createConfig url caPEM crtPEM keyPEM) path).

Definition KubeconfigString (url caPEM crtPEM keyPEM : string) : res string :=
  wrapf "failed to encode kubeconfig yaml: %w" [] (clientcmd_Write (createConfig url caPEM crtPEM keyPEM)).

Fixpoint write_kubeconfigs (kubeConfigDir server ca : string) (l : list (string * string * string)) : io unit :=
  match l with
  | [] => mret tt
  | (file, crt, key) :: l =>
      _ ← io_wrapf "failed to write kubeconfig %s: %w" [file]
            (Kubeconfig (filepath_Join [kubeConfigDir; file]) server ca crt key);
      write_kubeconfigs kubeConfigDir server ca l
  end.

(** [fmt.Sprintf("%s:%d", localhostAddress, securePort)]. *)
Definition local_server (ip : IP) (securePort : Z) : string := IP_String ip +:+ ":" +:+ Itoa securePort.

Definition control_plane_kubeconfigs (p : ControlPlanePKI) : list (string * string * string) :=
  [("admin.conf", cp p AdminClientCert, cp p AdminClientKey);
   ("controller.conf", cp p KubeControllerManagerClientCert, cp p KubeControllerManagerClientKey);
   ("proxy.conf", cp p KubeProxyClientCert, cp p KubeProxyClientKey);
   ("scheduler.conf", cp p KubeSchedulerClientCert, cp p KubeSchedulerClientKey);
   ("kubelet.conf", cp p KubeletClientCert, cp p KubeletClientKey)].
Definition SetupControlPlaneKubeconfigs (lo : res (res (list string))) (kubeConfigDir : string)
    (securePort : Z) (p : ControlPlanePKI) : io unit :=
  localhostAddress ← io_wrapf "failed to get localhost address: %w" [] (io_lift (GetLocalhostAddress lo));
  write_kubeconfigs kubeConfigDir (local_server localhostAddress securePort) (cp p CACert)
    (control_plane_kubeconfigs p).

Definition worker_kubeconfigs (p : WorkerNodePKI) : list (string * string * string) :=
  [("kubelet.conf", wn_KubeletClientCert p, wn_KubeletClientKey p);
   ("proxy.conf", wn_KubeProxyClientCert p, wn_KubeProxyClientKey p)].
Definition SetupWorkerKubeconfigs (lo : res (res (list string))) (kubeConfigDir : string)
    (securePort : Z) (p : WorkerNodePKI) : io unit :=
  localhostAddress ← io_wrapf "failed to get localhost address: %w" [] (io_lift (GetLocalhostAddress lo));
  write_kubeconfigs kubeConfigDir (local_server localhostAddress securePort) (wn_CACert p)
    (worker_kubeconfigs p).

(** ** pkg/snap/util/containerd.go *)

Definition ContainerdLockPathsForSnap (s : SnapI) : list (string * string) :=
  map (λ kv, (filepath_Join [LockFilesDir s; kv.1], kv.2))
    [("containerd-socket-path", ContainerdSocketDir (containerd s));
     ("containerd-config-dir", ContainerdConfigDir (containerd s));
     ("containerd-root-dir", ContainerdRootDir (containerd s));
     ("containerd-cni-bin-dir", CNIBinDir (system s))].

(** Whether a lock file is there and names the directory. *)
Definition check_lock (lockpath dirpath : string) : io unit :=
  st ← io_try (os_Stat lockpath);
  _ ← io_lift (fails_if (st ==? Err ErrNotExist)
        (Errorf "failed to find containerd lockfile %q for directory %q" [lockpath; dirpath]));
  contents ← io_wrapf "failed to read contents of lockfile %q: %w" [lockpath] (os_ReadFile lockpath);
  io_lift (fails_if (contents !=? dirpath)
    (Errorf "lockfile %q points to different path than expected: %q != %q" [lockpath; dirpath; contents])).

Fixpoint for_paths (callback : string → string → act unit) (paths : list (string * string)) : act unit :=
  match paths with
  | [] => mret tt
  | (lockpath, dirpath) :: paths =>
      r ← act_try (act_io (check_lock lockpath dirpath));
      _ ← (match r with
           | Err _ => mret tt
           | Ok _ => act_logged (callback lockpath dirpath)
           end);
      for_paths callback paths
  end.
Definition ForEachContainerdPath (order : list (string * string) → list (string * string)) (s : SnapI)
    (callback : string → string → act unit) : act unit :=
  for_paths callback (order (ContainerdLockPathsForSnap s)).

(** The callback sets a variable of the caller. *)
Fixpoint managed_loop (hee : string) (paths : list (string * string)) (isManaged : bool) : act bool :=
  match paths with
  | [] => mret isManaged
  | (lockpath, dirpath) :: paths =>
      r ← act_try (act_io (check_lock lockpath dirpath));
      managed_loop hee paths
        (match r with Ok _ => if dirpath ==? hee then true else isManaged | Err _ => isManaged end)
  end.
Definition IsContainerdPathManaged (order : list (string * string) → list (string * string)) (s : SnapI)
    (hee : string) : act bool :=
  managed_loop hee (order (ContainerdLockPathsForSnap s)) false.

(** ** containerd.go *)

Definition defaultPauseImage : string := "ghcr.io/canonical/k8s-snap/pause:3.10".

Definition defaultContainerdConfig (cniConfDir cniBinDir importsDir registryConfigDir pauseImage : string)
    : value :=
  VMap
    [("version", VInt 2);
     ("oom_score", VInt 0);
     ("imports", VList [VString (filepath_Join [importsDir; "*.toml"])]);
     ("grpc", VMap [("uid", VInt 0); ("gid", VInt 0);
                    ("max_recv_message_size", VInt 16777216); ("max_send_message_size", VInt 16777216)]);
     ("debug", VMap [("uid", VInt 0); ("gid", VInt 0);
                     ("address", VString EmptyString); ("level", VString EmptyString)]);
     ("metrics", VMap [("address", VString EmptyString); ("grpc_histogram", VBool false)]);
     ("cgroup", VMap [("path", VString EmptyString)]);
     ("plugins", VMap
       [("io.containerd.grpc.v1.cri", VMap
         [("stream_server_address", VString "127.0.0.1");
          ("stream_server_port", VString "0");
          ("enable_selinux", VBool false);
          ("sandbox_image", VString pauseImage);
          ("stats_collect_period", VInt 10);
          ("enable_tls_streaming", VBool false);
          ("max_container_log_line_size", VInt 16384);
          ("containerd", VMap
            [("no_pivot", VBool false);
             ("default_runtime_name", VString "runc");
             ("runtimes", VMap
               [("runc", VMap
                 [("runtime_type", VString "io.containerd.runc.v2");
                  ("options", VMap [("SystemdCgroup", VBool true)])])])]);
          ("cni", VMap [("bin_dir", VString cniBinDir); ("conf_dir", VString cniConfDir)]);
          ("registry", VMap [("config_path", VString registryConfigDir)])])])].

Definition containerd_toml (s : SnapI) (extraContainerdConfig : value) : res string :=
  configToml ← wrapf "failed to merge containerd config.toml overrides: %w" []
    (mergo_Merge (defaultContainerdConfig (CNIConfDir (system s)) (CNIBinDir (system s))
                    (ContainerdExtraConfigDir (containerd s)) (ContainerdRegistryConfigDir (containerd s))
                    defaultPauseImage) extraContainerdConfig);
  wrapf "failed to render containerd config.toml: %w" [] (toml_Marshal configToml).

Definition containerd_args (s : SnapI) : list (string * string) :=
  [("--address", ContainerdSocketPath s);
   ("--config", filepath_Join [ContainerdConfigDir (containerd s); "config.toml"]);
   ("--root", ContainerdRootDir (containerd s));
   ("--state", ContainerdStateDir (containerd s))].

(** The part that works on files: config.toml and the arguments. *)
Definition containerd_files (s : SnapI) (extraContainerdConfig : value)
    (extraArgs : list (string * option string)) : io unit :=
  b ← io_lift (containerd_toml s extraContainerdConfig);
  _ ← io_wrapf "failed to write config.toml: %w" []
        (WriteFile (filepath_Join [ContainerdConfigDir (containerd s); "config.toml"]) b 384);
  render_and_extra failed_to_write failed_to_write s "containerd" (containerd_args s) [] extraArgs.

Definition install_cni_binary (s : SnapI) : act unit :=
  let cniBinary := filepath_Join [CNIBinDir (system s); "cni"] in
  _ ← act_wrapf "failed to copy cni plugin binary: %w" []
        (perform (CopyFile (CNIPluginsBinary (system s)) cniBinary));
  _ ← act_wrapf "failed to chmod cni plugin binary: %w" [] (perform (Chmod cniBinary 448));
  act_wrapf "failed to chown cni plugin binary: %w" [] (perform (Chown cniBinary (UID s) (GID s))).

(** Whether a path already is a link to the binary; anything else at the path is removed. *)
Definition clear_plugin (path : string) : act bool :=
  st ← act_try (perform (Stat path));
  match st with
  | Err _ => mret false
  | Ok _ =>
      link ← act_try (perform (Readlink path));
      if link ==? Ok "cni" then mret true
      else
        _ ← act_wrapf "failed to remove already existing file %s: %w" [path] (perform (Remove path));
        mret false
  end.
Definition link_plugin (dir plugin : string) : act unit :=
  let pluginInstallPath := filepath_Join [dir; plugin] in
  linked ← clear_plugin pluginInstallPath;
  if linked : bool then mret tt
  else act_wrapf "failed to symlink cni plugin %s: %w" [plugin] (perform (Symlink "cni" pluginInstallPath)).
Fixpoint link_plugins (dir : string) (plugins : list string) : act unit :=
  match plugins with
  | [] => mret tt
  | plugin :: plugins => _ ← link_plugin dir plugin; link_plugins dir plugins
  end.

Fixpoint write_locks (paths : list (string * string)) : io unit :=
  match paths with
  | [] => mret tt
  | (lockpath, dirpath) :: paths =>
      _ ← io_wrapf "failed to write %s: %w" [lockpath] (WriteFile lockpath dirpath 384);
      write_locks paths
  end.
Definition saveSnapContainerdPaths (order : list (string * string) → list (string * string)) (s : SnapI)
    : io unit :=
  _ ← write_locks (order (ContainerdLockPathsForSnap s));
  let baseDirPath := filepath_Join [LockFilesDir s; ".containerd-base-dir"] in
  io_wrapf "failed to write %s: %w" [baseDirPath] (WriteFile baseDirPath (ContainerdBaseDir (containerd s)) 384).

Definition Containerd (order : list (string * string) → list (string * string)) (s : SnapI)
    (extraContainerdConfig : value) (extraArgs : list (string * option string)) : act unit :=
  _ ← make_directories [ContainerdConfigDir (containerd s); ContainerdExtraConfigDir (containerd s);
                        ContainerdRegistryConfigDir (containerd s)];
  _ ← act_io (containerd_files s extraContainerdConfig extraArgs);
  _ ← install_cni_binary s;
  _ ← link_plugins (CNIBinDir (system s)) (CNIPlugins (system s));
  act_io (saveSnapContainerdPaths order s).
End NodeSetup.

(** ** Directories *)

Section Directories.
Context `{SetupEnv, Outside}.

Lemma stat_or_create_run dir st r st' : stat_or_create dir st = (r, st') →
  later st st' ∧ ∀ stat, r = Ok stat → answered (Stat dir) (Ok stat) st st'.
Proof.
  intros E. split.
  { eapply emits_later; [|exact E]. unfold stat_or_create. emits_go. }
  intros stat ->. unfold stat_or_create in E.
  apply act_bind_inv in E as [(r0 & s1 & (r1 & E1 & [= ->])%act_try_run & E)|(e & _ & ?)]; [|done].
  destruct r1 as [stat1|e].
  { injection E as -> <-. by apply perform_answered. }
  destruct (negb _); [done|].
  apply act_bind_inv in E as [([] & s2 & E2%act_wrapf_Ok & E%act_wrapf_Ok)|(e' & _ & ?)]; [|done].
  eapply answered_before; [|by apply perform_answered].
  injection E1 as _ <-. injection E2 as _ <-. eexists. cbn. by rewrite <- app_assoc.
Qed.

(** [ensureCniBinDir] succeeds only for a directory that exists, belongs to root (or was
    given to root), that its owner may read, write and enter (or whose mode was changed so
    that he may, without a bit less), and in which a file could be created and removed. *)
Theorem ensureCniBinDir_sound dir st st' : dir ≠ EmptyString → ensureCniBinDir dir st = (Ok tt, st') →
  ∃ stat, answered (Stat dir) (Ok stat) st st' ∧
    ((st_Uid stat = 0%Z ∧ st_Gid stat = 0%Z) ∨ answered (Chown dir 0 0) (Ok tt) st st') ∧
    (has_0700 (st_Mode stat) = true ∨
     ∃ mode, answered (Chmod dir mode) (Ok tt) st st' ∧ has_0700 mode = true ∧
       ∀ i, Z.testbit (st_Mode stat) i = true → Z.testbit mode i = true) ∧
    ∃ f, answered (CreateTemp dir "test*.txt") (Ok f) st st' ∧ answered (Remove f) (Ok tt) st st'.
Proof.
  intros Hd. unfold ensureCniBinDir. rewrite bool_decide_eq_false_2 by done.
  intros [(stat & s1 & [L1 A1]%stat_or_create_run & E)|(e & _ & ?)]%act_bind_inv; [|done].
  specialize (A1 stat eq_refl).
  apply act_bind_inv in E as [([] & s2 & E2 & E)|(e & _ & ?)]; [|done].
  apply act_bind_inv in E as [([] & s3 & E3 & E)|(e & _ & ?)]; [|done].
  apply act_bind_inv in E as [(f & s4 & E4%act_wrapf_Ok & E)|(e & _ & ?)]; [|done].
  apply act_bind_inv in E as [([] & s5 & E5%act_wrapf_Ok & E%act_wrapf_Ok)|(e & _ & ?)]; [|done].
  assert (L2 : later s1 s2) by (eapply emits_later; [|exact E2]; emits_go).
  assert (L3 : later s2 s3) by (eapply emits_later; [|exact E3]; emits_go).
  assert (L4 : later s3 s4) by exact (perform_later (CreateTemp _ _) _ _ _ E4).
  assert (L5 : later s4 s5) by exact (perform_later (Close f) _ _ _ E5).
  assert (L6 : later s5 st') by exact (perform_later (Remove f) _ _ _ E).
  apply (perform_answered (CreateTemp _ _)) in E4. apply (perform_answered (Remove _)) in E. exists stat. split_and!.
  - eapply answered_after; [exact A1|]. by do 4 (etrans; [eassumption|]).
  - destruct (_ || _) eqn:Hu.
    + right. apply act_wrapf_Ok, (perform_answered (Chown _ _ _)) in E2.
      eapply answered_later; [exact L1|exact E2|]. by do 3 (etrans; [eassumption|]).
    + left. apply orb_false_iff in Hu as [Hu Hg]. by rewrite !negb_false_iff, !bool_decide_eq_true in Hu, Hg.
  - destruct (has_0700 (st_Mode stat)) eqn:Hm; [by left|right].
    apply act_wrapf_Ok, (perform_answered (Chmod _ _)) in E3. eexists. split_and!.
    + eapply answered_later; [by etrans|exact E3|]. by do 2 (etrans; [eassumption|]).
    + apply Z.eqb_eq, Z.bits_inj'. intros i Hi. rewrite Z.land_spec, Z.lor_spec.
      by destruct (Z.testbit (st_Mode stat) i), (Z.testbit 448 i).
    + intros i Hi. by rewrite Z.lor_spec, Hi.
  - exists f. split.
    + eapply answered_later; [by do 2 (etrans; [eassumption|])|exact E4|]. by etrans.
    + eapply answered_later; [by do 4 (etrans; [eassumption|])|exact E|done].
Qed.
End Directories.

(** ** Lock files *)

Section Locks.
Context `{SetupEnv, !OSEnvOk, Outside}.

(** Files that are written one after the other. *)
Definition files_written (paths : list (string * string)) (fs : files) : files :=
  fold_left (λ fs x, <[x.1 := written x.2 384]> fs) paths fs.

Lemma files_written_other paths fs p : p ∉ paths.*1 → files_written paths fs !! p = fs !! p.
Proof.
  revert fs. induction paths as [|[q d] paths IH]; intros fs Hp; [done|]. cbn [files_written fold_left].
  unfold files_written in IH. rewrite IH by set_solver. apply lookup_insert_ne. set_solver.
Qed.
Lemma files_written_elem paths fs p d : NoDup paths.*1 → (p, d) ∈ paths →
  files_written paths fs !! p = Some (written d 384).
Proof.
  revert fs. induction paths as [|[q e] paths IH]; intros fs Hnd Hin; [set_solver|].
  apply NoDup_cons in Hnd as [Hq Hnd]. cbn [files_written fold_left].
  apply elem_of_cons in Hin as [[= <- <-]|Hin]; [|by apply IH].
  fold (files_written paths (<[p := written d 384]> fs)).
  rewrite files_written_other by done. apply lookup_insert_eq.
Qed.

Lemma write_locks_run paths w w' : write_locks paths w = (Ok tt, w') →
  (∀ fs p, p ∈ paths.*1 → os_temp fs (filepath_Dir p) ≠ p) →
  w_files w' = files_written paths (w_files w).
Proof.
  revert w. induction paths as [|[p d] paths IH]; intros w; cbn [write_locks]; [by intros [= <-]|].
  intros [([] & w1 & E1%io_wrapf_Ok & E)|(e & _ & ?)]%io_bind_inv Htmp; [|done].
  apply WriteFile_run in E1 as [_ Hw]. destruct (Hw (Htmp _ p ltac:(by left))) as [(e & ? & _)|[_ Hf]]; [done|].
  apply IH in E; [|intros fs q Hq; apply Htmp; by right]. by rewrite E, Hf.
Qed.

(** The files that record the directories, with the one for the base directory. *)
Definition lock_files (s : SnapI) : list (string * string) :=
  ContainerdLockPathsForSnap s ++
  [(filepath_Join [LockFilesDir s; ".containerd-base-dir"], ContainerdBaseDir (containerd s))].

Lemma saveSnapContainerdPaths_run order (s : SnapI) w w' :
  saveSnapContainerdPaths order s w = (Ok tt, w') →
  order (ContainerdLockPathsForSnap s) ≡ₚ ContainerdLockPathsForSnap s →
  (∀ fs p, p ∈ (lock_files s).*1 → os_temp fs (filepath_Dir p) ≠ p) → NoDup (lock_files s).*1 →
  (∀ p d, (p, d) ∈ lock_files s → w_files w' !! p = Some (written d 384)) ∧
  (∀ p, p ∉ (lock_files s).*1 → w_files w' !! p = w_files w !! p).
Proof.
  set (base := filepath_Join [LockFilesDir s; ".containerd-base-dir"]).
  intros E Hord Htmp Hnd. unfold lock_files in *. fold base in Htmp, Hnd |- *.
  rewrite fmap_app in Htmp, Hnd. apply io_bind_inv in E as [([] & w1 & E1 & E2%io_wrapf_Ok)|(e & _ & ?)]; [|done].
  assert (Hl : ∀ p, p ∈ (order (ContainerdLockPathsForSnap s)).*1 ↔ p ∈ (ContainerdLockPathsForSnap s).*1)
    by (intros p; by rewrite Hord).
  apply write_locks_run in E1; [|intros fs p Hp%Hl; apply Htmp; set_solver].
  apply WriteFile_run in E2 as [_ Hw]. fold base in Hw.
  destruct (Hw (Htmp _ base ltac:(set_solver))) as [(e & ? & _)|[_ Hf]]; [done|].
  assert (Hb : base ∉ (ContainerdLockPathsForSnap s).*1).
  { intros Hin. apply NoDup_app in Hnd as (_ & Hd & _). apply (Hd base Hin). by left. }
  rewrite Hf, E1. split.
  - intros p d [Hin|[[= -> ->]|Hin]%elem_of_cons]%elem_of_app; [| |set_solver].
    + rewrite lookup_insert_ne by (intros ->; apply Hb, list_elem_of_fmap; by exists (p, d)).
      apply files_written_elem; [rewrite Hord; by apply NoDup_app in Hnd as [? _]|by rewrite Hord].
    + apply lookup_insert_eq.
  - intros p. rewrite fmap_app, elem_of_app. intros Hp.
    rewrite lookup_insert_ne by set_solver. apply files_written_other. rewrite Hl. set_solver.
Qed.

Lemma check_lock_ok lockpath dirpath w : os_fail OpStat lockpath = None → os_fail OpRead lockpath = None →
  contents w lockpath = dirpath → is_Some (w_files w !! lockpath) → check_lock lockpath dirpath w = (Ok tt, w).
Proof.
  intros Hs Hr Hc [f Hf]. unfold check_lock, io_try, os_Stat, io_wrapf, os_ReadFile, os_call, existing, get_files,
    io_lift, mbind, io_bind, mret, io_ret. rewrite Hs. cbn. rewrite Hf. cbn. rewrite Hr. cbn. rewrite Hf. cbn.
  unfold contents in Hc. rewrite Hf in Hc. rewrite bool_decide_eq_false_2 by done.
  by rewrite bool_decide_eq_true_2.
Qed.

Lemma managed_loop_ok hee paths b st : (∀ l d, (l, d) ∈ paths → check_lock l d (m_world st) = (Ok tt, m_world st)) →
  managed_loop hee paths b st = (Ok (b || existsb (λ x, x.2 ==? hee) paths), st).
Proof.
  revert b. induction paths as [|[l d] paths IH]; intros b Hok; cbn [managed_loop existsb fst snd].
  { by rewrite orb_false_r. }
  unfold act_try, act_io, mbind, act_bind. rewrite (Hok l d) by (by left). cbn.
  replace (mkMachine (m_world st) (m_db st) (m_rand st) (m_log st)) with st by (by destruct st).
  rewrite IH by (intros l' d' Hin; apply Hok; by right). case_bool_decide; [by rewrite orb_true_r|].
  by rewrite orb_false_l.
Qed.

(** What the snap recorded as its own is recognised later: after the lock files were
    written, whatever the order, each of the four directories of containerd is managed, and
    a directory that is none of them is not. *)
Theorem recorded_paths_are_managed order order' (s : SnapI) w w' db rand log hee :
  saveSnapContainerdPaths order s w = (Ok tt, w') →
  (∀ l, order l ≡ₚ l) → (∀ l, order' l ≡ₚ l) →
  (∀ fs p, p ∈ (lock_files s).*1 → os_temp fs (filepath_Dir p) ≠ p) → NoDup (lock_files s).*1 →
  (∀ p, p ∈ (lock_files s).*1 → os_fail OpStat p = None ∧ os_fail OpRead p = None) →
  IsContainerdPathManaged order' s hee (mkMachine w' db rand log) =
    (Ok (bool_decide (hee ∈ [ContainerdSocketDir (containerd s); ContainerdConfigDir (containerd s);
                             ContainerdRootDir (containerd s); CNIBinDir (system s)])),
     mkMachine w' db rand log).
Proof.
  intros E Hord Hord' Htmp Hnd Hok. apply saveSnapContainerdPaths_run in E as [Hf _]; [|done..].
  unfold IsContainerdPathManaged. rewrite managed_loop_ok.
  - do 2 f_equal. rewrite orb_false_l. apply eq_true_iff_eq. rewrite existsb_elem, bool_decide_eq_true.
    setoid_rewrite (Hord' _). setoid_rewrite bool_decide_eq_true.
    transitivity (hee ∈ (ContainerdLockPathsForSnap s).*2); [|done]. rewrite list_elem_of_fmap. naive_solver.
  - intros l d Hin. rewrite (Hord' _) in Hin.
    assert (Hl : (l, d) ∈ lock_files s) by (apply elem_of_app; by left).
    destruct (Hok l) as [Hs Hr]; [apply list_elem_of_fmap; by exists (l, d)|].
    pose proof (Hf l d Hl) as Hw. apply check_lock_ok; cbn; [done|done| |by rewrite Hw].
    unfold contents. by rewrite Hw.
Qed.
End Locks.

(** ** Containerd *)

Section Containerd.
Context `{SetupEnv, !OSEnvOk, Outside}.

Lemma clear_plugin_run path st r st' : clear_plugin path st = (r, st') →
  later st st' ∧ (r = Ok true → answered (Readlink path) (Ok "cni") st st').
Proof.
  intros E. split.
  { eapply emits_later; [|exact E]. unfold clear_plugin. emits_go. }
  intros ->. unfold clear_plugin in E.
  apply act_bind_inv in E as [(r0 & s1 & (r1 & E1 & [= ->])%act_try_run & E)|(e & _ & ?)]; [|done].
  destruct r1 as [stat|e]; [|done].
  apply act_bind_inv in E as [(r2 & s2 & (r3 & E2 & [= ->])%act_try_run & E)|(e & _ & ?)]; [|done].
  apply (perform_later (Stat path)) in E1. apply (perform_answered (Readlink path)) in E2.
  case_bool_decide as Hl.
  - injection E as <-. subst r3. by eapply answered_before.
  - by apply act_bind_inv in E as [([] & s3 & _ & ?)|(e & _ & ?)].
Qed.

(** Each plugin is a link to the binary: it was one before, or the link was made. *)
Definition linked (dir plugin : string) (st st' : Machine) : Prop :=
  answered (Readlink (filepath_Join [dir; plugin])) (Ok "cni") st st' ∨
  answered (Symlink "cni" (filepath_Join [dir; plugin])) (Ok tt) st st'.

Lemma linked_later dir p s1 s2 s3 s4 : later s1 s2 → linked dir p s2 s3 → later s3 s4 → linked dir p s1 s4.
Proof. intros ? [?|?] ?; [left | right]; by eapply answered_later. Qed.

Lemma link_plugins_run dir plugins st st' : link_plugins dir plugins st = (Ok tt, st') →
  later st st' ∧ ∀ p, p ∈ plugins → linked dir p st st'.
Proof.
  revert st. induction plugins as [|p plugins IH]; intros st; cbn [link_plugins].
  { intros [= <-]. split; [done|set_solver]. }
  intros [([] & s1 & E1 & [L IHp]%IH)|(e & _ & ?)]%act_bind_inv; [|done].
  apply act_bind_inv in E1 as [(b & s0 & [L0 Hb]%clear_plugin_run & E1)|(e & _ & ?)]; [|done].
  assert (Hp : later s0 s1 ∧ linked dir p st s1).
  { destruct b; [injection E1 as <-; split; [done|left; by apply Hb]|].
    apply act_wrapf_Ok in E1. split; [exact (perform_later (Symlink _ _) _ _ _ E1)|].
    right. apply (perform_answered (Symlink _ _)) in E1. by eapply answered_before. }
  destruct Hp as [L1 Hp]. assert (later st s1) by (by etrans). split; [by etrans|].
  intros q [->|Hq]%elem_of_cons; eapply linked_later; [reflexivity|exact Hp|exact L| |by apply IHp|reflexivity].
  done.
Qed.

Lemma make_directories_emits dirs : emits any_command any_change (make_directories dirs).
Proof. induction dirs; cbn [make_directories]; emits_go. Qed.
Lemma install_asks s : asks (install_cni_binary s).
Proof. unfold install_cni_binary. asks_go. Qed.
Lemma link_plugins_asks dir plugins : asks (link_plugins dir plugins).
Proof.
  induction plugins as [|p plugins IH]; cbn [link_plugins]; [asks_go|]. apply asks_bind; [|done].
  unfold link_plugin, clear_plugin. asks_go.
Qed.

(** Where the configuration of containerd is written: apart from the lock files, and not
    over one of them. *)
Record containerd_paths_ok (s : SnapI) : Prop := {
  cp_config : ∀ fs, let p := filepath_Join [ContainerdConfigDir (containerd s); "config.toml"] in
    os_temp fs (filepath_Dir p) ≠ p;
  cp_locks : ∀ fs p, p ∈ (lock_files s).*1 → os_temp fs (filepath_Dir p) ≠ p;
  cp_nodup : NoDup (filepath_Join [ContainerdConfigDir (containerd s); "config.toml"] ::
    argumentsFileForService s "containerd" :: (lock_files s).*1) }.

(** When containerd was configured, config.toml is the default configuration with the extra
    configuration merged over it; the service reads its own arguments except where the extra
    ones override or delete them; every CNI plugin is a link to the binary of the snap; and
    the directories are recorded. *)
Theorem Containerd_correct order (s : SnapI) extraConfig extraArgs st st' :
  Containerd order s extraConfig extraArgs st = (Ok tt, st') →
  (∀ l, order l ≡ₚ l) → containerd_paths_ok s →
  configurable s "containerd" (containerd_args s) extraArgs →
  (∃ b, containerd_toml s extraConfig = Ok b ∧
     contents (m_world st') (filepath_Join [ContainerdConfigDir (containerd s); "config.toml"]) = b) ∧
  configured s "containerd" (containerd_args s) [] extraArgs (m_world st') ∧
  (∀ p, p ∈ CNIPlugins (system s) → linked (CNIBinDir (system s)) p st st') ∧
  (∀ p d, (p, d) ∈ lock_files s → contents (m_world st') p = d).
Proof.
  intros E Hord [Hconf Hlocks Hnd] Hargs.
  apply NoDup_cons in Hnd as [Hnc Hnd]. apply NoDup_cons in Hnd as [Hna Hnd].
  set (config := filepath_Join [ContainerdConfigDir (containerd s); "config.toml"]) in *.
  unfold Containerd in E.
  apply act_bind_inv in E as [([] & s1 & E1 & E)|(e & _ & ?)]; [|done].
  apply act_bind_inv in E as [([] & s2 & E2 & E)|(e & _ & ?)]; [|done].
  apply act_bind_inv in E as [([] & s3 & E3 & E)|(e & _ & ?)]; [|done].
  apply act_bind_inv in E as [([] & s4 & E4 & E5)|(e & _ & ?)]; [|done].
  assert (later st s3) as Hl3.
  { etrans; [|etrans]; eapply emits_later; [|exact E1| |exact E2| |exact E3];
      [apply make_directories_emits|emits_go|unfold install_cni_binary; emits_go]. }
  assert (later s4 st') as Hl4 by (eapply emits_later; [|exact E5]; emits_go).
  apply act_io_run in E5 as (w5 & E5 & ->).
  apply saveSnapContainerdPaths_run in E5 as [Hlock Hother]; [|done..].
  assert (m_world s4 = m_world s2) as Hw.
  { etrans; [eapply link_plugins_asks, E4|]. eapply install_asks, E3. }
  apply act_io_run in E2 as (w2 & E2 & ->). cbn [m_world] in *.
  apply io_bind_inv in E2 as [(b & w1 & [= Hb <-] & E2)|(e & _ & ?)]; [|done].
  apply io_bind_inv in E2 as [([] & w1 & Ew%io_wrapf_Ok & E2)|(e & _ & ?)]; [|done].
  apply WriteFile_run in Ew as [_ Hwf]. destruct (Hwf (Hconf _)) as [(e & ? & _)|[_ Hf1]]; [done|].
  pose proof (render_and_extra_configured _ _ _ _ _ _ _ _ _ E2 Hargs) as Hcfg.
  pose proof (render_and_extra_other _ _ _ _ _ _ _ _ _ config E2 (cfg_temp _ _ _ _ Hargs)) as Hf2.
  rewrite Hw in Hother. split_and!.
  - exists b. split; [done|]. unfold contents. rewrite Hother by (intros Hin; apply Hnc; by right).
    rewrite Hf2 by (intros Heq; apply Hnc; rewrite Heq; by left). fold config in Hf1.
    by rewrite Hf1, lookup_insert_eq.
  - eapply configured_frame; [exact Hcfg|]. by apply Hother.
  - intros p Hp. apply link_plugins_run in E4 as [_ Hlink]. eapply linked_later; [exact Hl3|by apply Hlink|done].
  - intros p d Hin. unfold contents. by rewrite (Hlock p d Hin).
Qed.
End Containerd.

(** ** Kubeconfigs *)

(** What the writer of client-go promises: the file holds the configuration, and no other
    file changes. *)
Class SetupEnvOk `{SetupEnv} := {
  clientcmd_WriteToFile_ok c p w w' : clientcmd_WriteToFile c p w = (Ok tt, w') →
    ∃ d, clientcmd_Write c = Ok d ∧ contents w' p = d ∧ ∀ q, q ≠ p → w_files w' !! q = w_files w !! q }.

Section Kubeconfigs.
Context `{SetupEnvOk}.

Lemma write_kubeconfigs_run dir server ca l w w' : write_kubeconfigs dir server ca l w = (Ok tt, w') →
  NoDup (map (λ x, filepath_Join [dir; x.1.1]) l) →
  (∀ f crt key, (f, crt, key) ∈ l →
     KubeconfigString server ca crt key = Ok (contents w' (filepath_Join [dir; f]))) ∧
  (∀ q, q ∉ map (λ x, filepath_Join [dir; x.1.1]) l → w_files w' !! q = w_files w !! q).
Proof.
  revert w. induction l as [|[[f crt] key] l IH]; intros w; cbn [write_kubeconfigs map fst].
  { intros [= <-] _. split; [set_solver|done]. }
  intros [([] & w1 & E1%io_wrapf_Ok%io_wrapf_Ok & E)|(e & _ & ?)]%io_bind_inv [Hf Hnd]%NoDup_cons; [|done].
  apply clientcmd_WriteToFile_ok in E1 as (d & Hd & Hc & Ho).
  destruct (IH w1 E Hnd) as [IH1 IH2]. split.
  - intros f' crt' key' [Heq|Hin]%elem_of_cons; [|by apply IH1]. injection Heq as -> -> ->.
    unfold KubeconfigString. rewrite Hd. cbn. f_equal. rewrite <- Hc. unfold contents. by rewrite IH2.
  - intros q Hq. rewrite IH2 by set_solver. apply Ho. set_solver.
Qed.

(** The kubeconfigs of a control plane: each of the five files holds the rendered
    configuration with the certificate and the key of its component, the CA of the cluster
    and the address of the local API server, and no other file changes. *)
Theorem SetupControlPlaneKubeconfigs_correct lo dir port p w w' :
  SetupControlPlaneKubeconfigs lo dir port p w = (Ok tt, w') →
  NoDup (map (λ x, filepath_Join [dir; x.1.1]) (control_plane_kubeconfigs p)) →
  ∃ ip, GetLocalhostAddress lo = Ok ip ∧
    (∀ f crt key, (f, crt, key) ∈ control_plane_kubeconfigs p →
       KubeconfigString (local_server ip port) (cp p CACert) crt key =
         Ok (contents w' (filepath_Join [dir; f]))) ∧
    (∀ q, q ∉ map (λ x, filepath_Join [dir; x.1.1]) (control_plane_kubeconfigs p) →
       w_files w' !! q = w_files w !! q).
Proof.
  intros [(ip & w1 & E1%io_wrapf_Ok & E)|(e & _ & ?)]%io_bind_inv Hnd; [|done].
  injection E1 as E1 <-. exists ip. split; [done|]. by apply write_kubeconfigs_run in E.
Qed.
End Kubeconfigs.

(** On a node whose loopback interface only has the IPv6 address, the server in the
    kubeconfigs is no valid URL: the address is not put in brackets. *)
Theorem kubeconfig_ipv6_unbracketed :
  ∃ ip, GetLocalhostAddress (Ok (Ok ["::1/128"])) = Ok ip ∧
    map (λ c, Server c.2) (Clusters (createConfig (local_server ip 6443) "CA" "crt" "key")) =
      ["https://::1:6443"].
Proof. eexists. split; vm_compute; reflexivity. Qed.

(** *** Witnesses *)

Definition demo_setup_env : @SetupEnv demo_os := @Build_SetupEnv demo_os
  (λ d _, Ok d) (λ _, Ok "version = 2") (λ c, Ok (CurrentContext c))
  (λ c p, @os_WriteFile demo_os p (CurrentContext c)).
Definition demo_snapi : SnapI :=
  @snap_interface demo_os Checks.demo_outside demo_snap_env Checks.demo_mk_snap false
    (Ok "node1") (Ok 0%Z).
#[export] Instance demo_setup_ok : @SetupEnvOk demo_os demo_setup_env.
Proof.
  split. intros c p w w' E. eexists. split; [reflexivity|].
  apply os_WriteFile_run in E as (f & Hf & Hd); [|done]. unfold contents. rewrite Hf, lookup_insert_eq.
  split; [done|]. intros q Hq. by apply lookup_insert_ne.
Qed.
Definition demo_start : Machine := mkMachine (demo_world []) (Database.mkDB ∅ [] [] ∅) 0 [].

(** The directory exists, and belongs to a user. *)
Definition cni_outside : Outside := λ log c,
  match c as c return res (answer c) with
  | Stat _ => Ok (mkStat 1000 1000 16704)
  | CreateTemp _ _ => Ok "/opt/cni/bin/test1.txt"
  | c => default_answer c
  end.
Lemma ensureCniBinDir_sound_witness :
  ∃ st', @ensureCniBinDir cni_outside "/opt/cni/bin" demo_start = (Ok tt, st') ∧
    @answered cni_outside (Chown "/opt/cni/bin" 0 0) (Ok tt) demo_start st'.
Proof.
  destruct (@ensureCniBinDir cni_outside "/opt/cni/bin" demo_start) as [r st'] eqn:E.
  pose proof (f_equal fst E) as Er. vm_compute in Er. simpl in Er. subst r. exists st'. split; [done|].
  destruct (@ensureCniBinDir_sound cni_outside "/opt/cni/bin" demo_start st' ltac:(discriminate) E)
    as (stat & (l1 & l2 & _ & _ & Ha) & [[Hu _]|Hc] & _); [|done].
  injection Ha as <-. discriminate Hu.
Defined.

Lemma demo_locks fs p : p ∈ (lock_files demo_snapi).*1 → @os_temp demo_os fs (filepath_Dir p) ≠ p.
Proof.
  revert p. apply Forall_forall. repeat (apply Forall_cons_2; [vm_compute; discriminate|]). apply Forall_nil_2.
Qed.

Lemma recorded_paths_are_managed_witness :
  ∃ w', @saveSnapContainerdPaths demo_os (λ l, l) demo_snapi (demo_world []) = (Ok tt, w') ∧
    @IsContainerdPathManaged demo_os (λ l, rev l) demo_snapi "/var/lib/containerd"
      (mkMachine w' (Database.mkDB ∅ [] [] ∅) 0 []) = (Ok true, mkMachine w' (Database.mkDB ∅ [] [] ∅) 0 []).
Proof.
  destruct (@saveSnapContainerdPaths demo_os (λ l, l) demo_snapi (demo_world [])) as [r w'] eqn:E.
  pose proof (f_equal fst E) as Er. vm_compute in Er. simpl in Er. subst r. exists w'. split; [done|].
  rewrite (@recorded_paths_are_managed demo_os demo_os_ok (λ l, l) (λ l, rev l) demo_snapi _ _ _ _ _ _ E).
  - vm_compute. reflexivity.
  - done.
  - intros l. apply Permutation_sym, Permutation_rev.
  - exact demo_locks.
  - demo_nodup.
  - intros p _. split; reflexivity.
Defined.

Lemma demo_containerd_paths : @containerd_paths_ok demo_os demo_snapi.
Proof. split; [intros fs; vm_compute; discriminate|exact demo_locks|demo_nodup]. Qed.

Lemma Containerd_correct_witness :
  ∃ st', @Containerd demo_os demo_setup_env Checks.demo_outside (λ l, l) demo_snapi (VMap [])
      [("--log-level", Some "debug")] demo_start = (Ok tt, st') ∧
    contents (m_world st') "/etc/containerd/config.toml" = "version = 2" ∧
    @answered Checks.demo_outside (Symlink "cni" "/opt/cni/bin/bridge") (Ok tt) demo_start st'.
Proof.
  destruct (@Containerd demo_os demo_setup_env Checks.demo_outside (λ l, l) demo_snapi (VMap [])
    [("--log-level", Some "debug")] demo_start) as [r st'] eqn:E.
  pose proof (f_equal fst E) as Er. vm_compute in Er. simpl in Er. subst r. exists st'. split; [done|].
  destruct (@Containerd_correct demo_os demo_setup_env demo_os_ok Checks.demo_outside (λ l, l)
    demo_snapi _ _ _ _ E) as ((b & [= <-] & Hb) & _ & Hl & _).
  - done.
  - exact demo_containerd_paths.
  - demo_configurable.
  - split; [exact Hb|].
    assert (Hp : "bridge" ∈ CNIPlugins (system demo_snapi)) by (apply (bool_decide_unpack _); vm_compute; exact I).
    assert (Ep : filepath_Join [CNIBinDir (system demo_snapi); "bridge"] = "/opt/cni/bin/bridge")
      by (vm_compute; reflexivity).
    specialize (Hl "bridge" Hp). unfold linked in Hl. rewrite Ep in Hl.
    destruct Hl as [(l1 & l2 & _ & _ & Ha)|Ha]; [discriminate Ha|exact Ha].
Defined.

Lemma SetupControlPlaneKubeconfigs_correct_witness :
  ∃ w', @SetupControlPlaneKubeconfigs demo_os demo_setup_env (Ok (Ok ["127.0.0.1/8"])) "/etc/kubernetes" 6443
      demo_pki (demo_world []) = (Ok tt, w') ∧
    contents w' "/etc/kubernetes/admin.conf" = "k8s".
Proof.
  destruct (@SetupControlPlaneKubeconfigs demo_os demo_setup_env (Ok (Ok ["127.0.0.1/8"])) "/etc/kubernetes" 6443
      demo_pki (demo_world [])) as [r w'] eqn:E.
  pose proof (f_equal fst E) as Er. vm_compute in Er. simpl in Er. subst r. exists w'. split; [done|].
  destruct (@SetupControlPlaneKubeconfigs_correct demo_os demo_setup_env demo_setup_ok _ _ _ _ _ _ E)
    as (ip & _ & Hf & _); [demo_nodup|].
  specialize (Hf "admin.conf" "certificate" "certificate" ltac:(by left)). by injection Hf.
Defined.
End NodeSetup.
