(* ===== verification/Cleanup.v ===== *)
(** * Cleaning a node up

    pkg/snap/util/cleanup: containers, network namespaces, mounts, sockets and loop devices
    that a removed node leaves behind, and the directories of containerd;
    pkg/utils/shims: the processes started by a containerd shim; pkg/utils/mount and
    pkg/utils/netns: the mounts and the network namespaces of the kernel.

    A Go map is iterated over in the order [order] gives.  The directories of plugins are
    given as a tree. *)

From stdpp Require Import relations.
From S2P Require Import Prelude GoStrings Config ConfigConvert FileSys Arguments ConfigFiles PkiNode.
From S2P Require Import Node Database Effects Snap Checks NodeConfig NodeSetup.
Import GoStr Config FileSys Arguments ConfigFiles Node Effects Snap NodeConfig NodeSetup.

Module Cleanup.

(** ** [strings.Fields], [strings.Contains] *)

Definition field (cur : string) : list string := if cur ==? EmptyString then [] else [cur].
Fixpoint fields_acc (cur s : string) : list string :=
  match s with
  | EmptyString => field cur
  | String a s1 =>
      if space1 a then field cur ++ fields_acc EmptyString s1
      else match s1 with
           | EmptyString => fields_acc (cur +:+ one a) s1
           | String b s2 =>
               if space2 a b then field cur ++ fields_acc EmptyString s2
               else match s2 with
                    | EmptyString => fields_acc (cur +:+ one a) s1
                    | String c s3 =>
                        if space3 a b c then field cur ++ fields_acc EmptyString s3
                        else fields_acc (cur +:+ one a) s1
                    end
           end
  end.
Definition Fields (s : string) : list string := fields_acc EmptyString s.

Fixpoint contains (p s : string) : bool :=
  has_prefix p s || match s with EmptyString => false | String _ s => contains p s end.

(** ** pkg/utils/shims/shims.go *)

Record processInfo := mkProcess { parentPID : string; proc_command : string }.

(** The regular expression [reBinaryName], on a line. *)
Definition has_shim (s : string) : bool :=
  has_prefix "/snap/k8s/" s && contains "/bin/containerd-shim-runc-v2" (Checks.drop 10 s).
Definition reBinaryName (s : string) : bool :=
  has_shim s || (has_prefix "/var/lib/snapd" s && has_shim (Checks.drop 14 s)) || (s ==? "/pause").

Definition process_line (procs : gmap string processInfo) (line : string) : gmap string processInfo :=
  match Fields line with
  | pid :: ppid :: arg :: rest => <[pid := mkProcess ppid (join " " (arg :: rest))]> procs
  | _ => procs
  end.

(** Both maps are read in an order of their own: [procs] as the list of its entries. *)
Definition makeShallowChildPIDs (procs : list (string * processInfo)) : gmap string (list string) :=
  fold_left (λ m '(pid, info), <[parentPID info := default [] (m !! parentPID info) ++ [pid]]> m) procs ∅.
Definition findShimPIDs (procs : list (string * processInfo)) : list string :=
  map fst (List.filter (λ '(_, info), reBinaryName (proc_command info)) procs).

(** The recursion of the code is over the tree of processes; [fuel] bounds its depth. *)
Fixpoint findAllChildren (fuel : nat) (startPIDs : list string) (shallowChildPIDs : gmap string (list string))
    : option (list string) :=
  match fuel with
  | O => None
  | S fuel =>
      foldr (λ pid acc,
        children ← findAllChildren fuel (default [] (shallowChildPIDs !! pid)) shallowChildPIDs;
        rest ← acc;
        Some (pid :: children ++ rest)) (Some []) startPIDs
  end.

(** A directory: the sub-directories that cannot be listed have an error. *)
Inductive tree := File (name : string) | Dir (name : string) (entries : res (list tree)).

Section Cleanup.
Context `{SetupEnv, Outside}.

Definition listAllSystemProcesses : act (gmap string processInfo) :=
  stdout ← act_wrapf "failed to execute ps command (output=%q): %w" []
             (perform (CommandOutput ["bash"; "-c"; "ps -e -o pid=,ppid=,args="]));
  mret (fold_left process_line (split newline stdout) ∅).

Definition RunningContainerdShimPIDs (fuel : nat)
    (order order' : list (string * processInfo) → list (string * processInfo)) : act (option (list string)) :=
  procs ← act_wrapf "failed to list running host processes: %w" [] listAllSystemProcesses;
  mret (findAllChildren fuel (findShimPIDs (order (map_to_list procs)))
          (makeShallowChildPIDs (order' (map_to_list procs)))).

(** ** pkg/utils/mount and pkg/utils/netns *)

Definition MNT_FORCE : Z := 1.
Definition MNT_DETACH : Z := 2.

Definition mount_Unmount (mountPoint : string) (flags : Z) : act unit :=
  act_wrapf "failed to unmount %s: %w" [mountPoint] (perform (Unmount mountPoint flags)).
Definition DetachLoopDevice (device : string) : act unit :=
  act_wrapf "failed to detach loop device using losetup %s: %w" [device]
    (perform (RunCommand ["losetup"; "-d"; device])).

Fixpoint mounts_loop (callback : string → string → string → string → act unit) (lines : list string) : act unit :=
  match lines with
  | [] => mret tt
  | line :: lines =>
      _ ← (match Fields line with
           | device :: mountPoint :: fsType :: flags :: _ =>
               act_logged (callback device mountPoint fsType flags)
           | _ => mret tt
           end);
      mounts_loop callback lines
  end.
(** The scanner gives the lines before the first that is too long, and then an error. *)
Fixpoint short_lines (lines : list string) : list string :=
  match lines with
  | [] => []
  | line :: lines => if line_too_long line then [] else drop_cr line :: short_lines lines
  end.
Definition ForEachMount (callback : string → string → string → string → act unit) : act unit :=
  content ← act_wrapf "failed to open %s: %w" ["/proc/mounts"] (perform (ReadProc "/proc/mounts"));
  let lines := file_lines content in
  _ ← mounts_loop callback (short_lines lines);
  act_lift (fails_if (existsb line_too_long lines)
    (Wrapf "failed to read %s: %w" ["/proc/mounts"] (Errorf "bufio.Scanner: token too long" []))).

Definition DeleteNetworkNamespace (namespace : string) : act unit :=
  let nsPath := filepath_Join ["/run/netns"; namespace] in
  _ ← act_wrapf "failed to unmount network namespace %s: %w" [namespace] (mount_Unmount nsPath MNT_DETACH);
  act_wrapf "failed to remove network namespace %s: %w" [namespace] (perform (Remove nsPath)).
Fixpoint namespaces_loop (callback : string → act unit) (entries : list (string * bool)) : act unit :=
  match entries with
  | [] => mret tt
  | (name, _) :: entries => _ ← act_logged (callback name); namespaces_loop callback entries
  end.
Definition ForEachNetworkNamespace (callback : string → act unit) : act unit :=
  entries ← act_wrapf "failed to list files under network namespace directory %w" []
              (perform (ReadDir "/run/netns"));
  namespaces_loop callback entries.

(** ** pkg/snap/util/cleanup/internal *)

Fixpoint kill_all (pids : list string) : act unit :=
  match pids with
  | [] => mret tt
  | pid :: pids =>
      _ ← (match ParseInt64 pid with
           | Err _ => mret tt
           | Ok intPid => act_logged (perform (Kill intPid))
           end);
      kill_all pids
  end.
(** [None]: the search for the processes did not end. *)
Definition RemoveContainers (fuel : nat)
    (order order' : list (string * processInfo) → list (string * processInfo)) : act (option unit) :=
  r ← act_try (RunningContainerdShimPIDs fuel order order');
  match r with
  | Err _ => mret (Some tt)
  | Ok None => mret None
  | Ok (Some pids) => _ ← kill_all pids; mret (Some tt)
  end.

Definition RemoveNetworkNamespaces : act unit :=
  act_logged (ForEachNetworkNamespace (λ namespace,
    if has_prefix "cni-" namespace then DeleteNetworkNamespace namespace else mret tt)).

Definition containerdMountPrefixes (order : list (string * string) → list (string * string)) (s : SnapI)
    : act (list string) :=
  root ← IsContainerdPathManaged order s (ContainerdRootDir (containerd s));
  socket ← IsContainerdPathManaged order s (ContainerdSocketDir (containerd s));
  mret ((if root : bool then [ContainerdRootDir (containerd s)] else []) ++
        (if socket : bool then [filepath_Join [ContainerdSocketDir (containerd s); "io.containerd."]] else [])).

Definition RemoveVolumeMountsGracefully (order : list (string * string) → list (string * string)) (s : SnapI)
    : act unit :=
  containerdPaths ← containerdMountPrefixes order s;
  let prefixes := ["/var/lib/kubelet/pods"] ++ containerdPaths in
  act_logged (ForEachMount (λ _ mountPoint fsType _,
    if existsb (λ prefix, has_prefix prefix mountPoint && negb (contains "nfs" fsType)) prefixes
    then mount_Unmount mountPoint MNT_DETACH else mret tt)).

Definition RemoveVolumeMountsForce (order : list (string * string) → list (string * string)) (s : SnapI)
    : act unit :=
  containerdPaths ← containerdMountPrefixes order s;
  let prefixes := ["/var/lib/kubelet/pods"; "/var/lib/kubelet/plugins"] ++ containerdPaths in
  act_logged (ForEachMount (λ _ mountPoint _ _,
    if existsb (λ prefix, has_prefix prefix mountPoint) prefixes
    then mount_Unmount mountPoint MNT_FORCE else mret tt)).

Fixpoint removeSockets (dir : string) (t : tree) : act unit :=
  match t with
  | File name =>
      if has_suffix ".sock" name then act_logged (perform (RemoveAll (filepath_Join [dir; name]))) else mret tt
  | Dir name (Err _) => mret tt
  | Dir name (Ok entries) =>
      (fix loop (entries : list tree) : act unit :=
         match entries with
         | [] => mret tt
         | t :: entries => _ ← removeSockets (filepath_Join [dir; name]) t; loop entries
         end) entries
  end.
Definition RemovePluginSockets (plugins registry : res (list tree)) : act unit :=
  _ ← removeSockets EmptyString (Dir "/var/lib/kubelet/plugins/" plugins);
  removeSockets EmptyString (Dir "/var/lib/kubelet/plugins_registry/" registry).

Definition RemoveLoopDevices : act unit :=
  act_logged (ForEachMount (λ device mountPoint _ _,
    if has_prefix "/var/lib/kubelet/pods" mountPoint && has_prefix "/dev/loop" device
    then DetachLoopDevice device else mret tt)).

(** The bits of the mode that tell a symbolic link. *)
Definition is_symlink (stat : Stat_t) : bool := (Z.land (st_Mode stat) 61440 =? 40960)%Z.

Definition cleanup_path (lockpath dirpath : string) : act unit :=
  st ← act_try (perform (Stat dirpath));
  stat ← (match st with
          | Ok stat => mret stat
          | Err e => act_lift (Err (if e ==? ErrNotExist
              then Errorf "containerd data directory %q does not exist" [dirpath]
              else Wrapf "failed to stat containerd data directory %q: %w" [dirpath] e))
          end);
  realPath ← (if is_symlink stat
              then act_wrapf "failed to read link for directory %q: %w" [dirpath] (perform (Readlink dirpath))
              else mret dirpath);
  _ ← act_lift (fails_if (realPath ==? "/")
        (Errorf "there is some configuration/logic error in the current versions of the k8s-snap related to lockfile %q (meant to lock %q, which points to %q) which could lead to accidental wiping of the root file system"
           [lockpath; dirpath; realPath]));
  _ ← act_wrapf "failed to remove containerd data directory %q: %w" [dirpath] (perform (RemoveAll dirpath));
  act_wrapf "failed to remove containerd lockfile %q: %w" [lockpath] (act_io (os_Remove lockpath)).
Definition TryCleanupContainerdPaths (order : list (string * string) → list (string * string)) (s : SnapI)
    : act unit :=
  ForEachContainerdPath order s cleanup_path.

(** cleanup.go *)
Definition TryCleanupContainers (fuel : nat) (order order' : list (string * processInfo) → list (string * processInfo))
    (order_paths : list (string * string) → list (string * string)) (plugins registry : res (list tree))
    (s : SnapI) : act (option unit) :=
  r ← RemoveContainers fuel order order';
  match r with
  | None => mret None
  | Some _ =>
      _ ← RemoveNetworkNamespaces;
      _ ← RemoveVolumeMountsGracefully order_paths s;
      _ ← RemoveVolumeMountsForce order_paths s;
      _ ← RemovePluginSockets plugins registry;
      _ ← RemoveLoopDevices;
      mret (Some tt)
  end.
End Cleanup.

(** ** The tree of processes *)

Definition child (procs : list (string * processInfo)) (parent pid : string) : Prop :=
  ∃ info, (pid, info) ∈ procs ∧ parentPID info = parent.

Lemma makeShallow_lookup procs p c :
  c ∈ default [] (makeShallowChildPIDs procs !! p) ↔ child procs p c.
Proof.
  unfold makeShallowChildPIDs, child.
  assert (Hgen : ∀ m : gmap string (list string),
    c ∈ default [] (fold_left (λ m '(pid, info), <[parentPID info := default [] (m !! parentPID info) ++ [pid]]> m)
      procs m !! p) ↔ c ∈ default [] (m !! p) ∨ ∃ info, (c, info) ∈ procs ∧ parentPID info = p).
  { induction procs as [|[pid info] procs IH]; intros m; cbn [fold_left].
    - set_solver.
    - rewrite IH. destruct (decide (parentPID info = p)) as [<-|Hne].
      + rewrite lookup_insert_eq. unfold default at 1. cbn [id]. setoid_rewrite elem_of_app.
        setoid_rewrite list_elem_of_singleton. setoid_rewrite elem_of_cons. split.
        * intros [[Hc| ->]|(i & Hi & Ep)]; [by left| |]; right; eauto.
        * intros [Hc|(i & [[= -> ->]|Hi] & Ep)]; eauto.
      + rewrite lookup_insert_ne by done. setoid_rewrite elem_of_cons. split.
        * intros [Hc|(i & Hi & Ep)]; eauto.
        * intros [Hc|(i & [[= -> ->]|Hi] & Ep)]; [by left|done|eauto]. }
  rewrite Hgen, lookup_empty. set_solver.
Qed.

Section Processes.
Context (procs : list (string * processInfo)) (rank : string → nat) (N : nat).
Context (Hrank : ∀ pid info, (pid, info) ∈ procs → rank (parentPID info) < rank pid ≤ N).

Lemma child_rank p c : child procs p c → rank p < rank c ≤ N.
Proof. intros (info & Hin & <-). by apply Hrank. Qed.

Lemma findAllChildren_run procs' fuel starts : procs' ≡ₚ procs →
  0 < fuel → (∀ s, s ∈ starts → rank s ≤ N ∧ N + 2 ≤ fuel + rank s) →
  ∃ l, findAllChildren fuel starts (makeShallowChildPIDs procs') = Some l ∧
    ∀ x, x ∈ l ↔ ∃ s, s ∈ starts ∧ rtc (child procs) s x.
Proof.
  intros Hp. revert starts. induction fuel as [|f IH]; [lia|]. intros starts _ Hs.
  induction starts as [|s starts IHs]; cbn [findAllChildren foldr].
  { exists []. split; [done|]. set_solver. }
  destruct (Hs s) as [Hs1 Hs2]; [by left|].
  assert (Hchild : ∀ c, c ∈ default [] (makeShallowChildPIDs procs' !! s) ↔ child procs s c).
  { intros c. rewrite makeShallow_lookup. unfold child. by setoid_rewrite Hp. }
  destruct (IH (default [] (makeShallowChildPIDs procs' !! s))) as (cs & Ecs & Hcs); [lia| |].
  { intros c [Hc1 Hc2]%Hchild%child_rank. lia. }
  destruct IHs as (l & El & Hl); [intros s' Hs'; apply Hs; by right|]. cbn [findAllChildren] in El.
  rewrite Ecs, El. cbn. eexists. split; [done|]. intros x.
  rewrite elem_of_cons, elem_of_app, Hcs, Hl. split.
  - intros [->|[(c & Hc & Hx)|(s' & Hs' & Hx)]].
    + exists s. split; [by left|done].
    + exists s. split; [by left|]. eapply rtc_l; [by apply Hchild|done].
    + exists s'. split; [by right|done].
  - intros (s' & [->|Hs']%elem_of_cons & Hx); [|right; right; by exists s'].
    apply rtc_inv in Hx as [->|(c & Hc & Hx)]; [by left|right; left]. exists c. by rewrite Hchild.
Qed.

(** The search for the processes of the containers ends, and finds exactly the shims and
    everything they started: when every process has a higher number than its parent in some
    numbering up to [N] (as in the order in which they were created), a depth of [N + 2] is
    enough, whatever order the maps are iterated in. *)
Theorem findAllChildren_terminates procs1 procs2 : procs1 ≡ₚ procs → procs2 ≡ₚ procs →
  ∃ l, findAllChildren (N + 2) (findShimPIDs procs1) (makeShallowChildPIDs procs2) = Some l ∧
    ∀ x, x ∈ l ↔ ∃ pid info, (pid, info) ∈ procs ∧ reBinaryName (proc_command info) = true ∧
      rtc (child procs) pid x.
Proof.
  intros H1 H2. unfold findShimPIDs.
  assert (Hin : ∀ s, s ∈ map fst (List.filter (λ '(_, info), reBinaryName (proc_command info)) procs1) ↔
    ∃ info, (s, info) ∈ procs ∧ reBinaryName (proc_command info) = true).
  { intros s. rewrite list_elem_of_In, in_map_iff. setoid_rewrite filter_In. split.
    - intros ([pid info] & <- & Hi%list_elem_of_In & Hr). exists info. by rewrite <- H1.
    - intros (info & Hi & Hr). exists (s, info). split; [done|]. by rewrite <- list_elem_of_In, H1. }
  destruct (findAllChildren_run procs2 (N + 2) (map fst (List.filter (λ '(_, info),
    reBinaryName (proc_command info)) procs1))) as (l & El & Hl); [done|lia| |].
  { intros s (info & Hi & _)%Hin. apply Hrank in Hi. lia. }
  exists l. split; [done|]. intros x. rewrite Hl. setoid_rewrite Hin. naive_solver.
Qed.
End Processes.

(** ** The directories of containerd *)

Section Paths.
Context `{OSEnvOk, Outside}.

(** [os.Stat] follows symbolic links. *)
Context (Stat_follows : ∀ l p stat, outside l (Stat p) = Ok stat → is_symlink stat = false).

Lemma os_Stat_pure p w r w' : os_Stat p w = (r, w') → w' = w.
Proof.
  unfold os_Stat, os_call, existing, get_files, io_lift, mbind, io_bind, mret, io_ret.
  destruct (os_fail OpStat p); [by intros [= _ <-]|]. cbn. destruct (w_files w !! p); by intros [= _ <-].
Qed.

Lemma check_lock_Ok lockpath dirpath w r w' : check_lock lockpath dirpath w = (r, w') →
  w' = w ∧ (r = Ok tt → is_Some (w_files w !! lockpath) ∧ FileSys.contents w lockpath = dirpath).
Proof.
  unfold check_lock, io_try. intros [(st & w1 & E1 & E)|(e & E1 & ->)]%io_bind_inv;
    destruct (os_Stat lockpath w) as [r0 w0] eqn:E0; apply os_Stat_pure in E0 as ->; [|done].
  injection E1 as <- <-.
  apply io_bind_inv in E as [([] & w1 & [= _ <-] & E)|(e & [= _ <-] & ->)]; [|done].
  unfold io_wrapf in E.
  destruct (os_ReadFile lockpath w) as [rd w2] eqn:Er.
  apply io_bind_inv in E as [(d & w3 & E1 & E)|(e & E1 & ->)]; rewrite Er in E1;
    apply os_ReadFile_run in Er as [-> Hr]; [|by injection E1 as _ <-].
  destruct rd as [d'|]; [|done]. injection E1 as -> <-. injection E as <- <-. split; [done|].
  intros Hd%fails_if_Ok%negb_false_iff%bool_decide_eq_true. destruct Hr as (f & Hf & Hfd).
  unfold FileSys.contents. rewrite Hf. split; [by eexists|congruence].
Qed.

(** What one directory does: nothing but its own removal, and its lock file goes only after
    the directory was removed. *)
Lemma cleanup_path_run lock dir st r st' : cleanup_path lock dir st = (r, st') →
  (∃ l, m_log st' = m_log st ++ l ∧ ∀ p, RemoveAll p ∈ l → p = dir ∧ dir ≠ "/") ∧
  (w_files (m_world st') = w_files (m_world st) ∨
   (answered (RemoveAll dir) (Ok tt) st st' ∧ w_files (m_world st') = delete lock (w_files (m_world st)))).
Proof.
  unfold cleanup_path. intros E.
  apply act_bind_inv in E as [(r0 & s1 & (r1 & E1 & [= ->])%act_try_run & E)|(e & (r1 & _ & ?)%act_try_run & _)];
    [|done].
  injection E1 as E1 <-. destruct r1 as [stat|e].
  2: { apply act_bind_inv in E as [(a & s2 & [=] & _)|(e' & [= _ <-] & ->)]. split; [|by left].
       exists [Stat dir]. split; [done|]. set_solver. }
  apply act_bind_inv in E as [(a & s2 & [= <- <-] & E)|(e' & [=] & _)].
  rewrite (Stat_follows _ _ _ E1) in E. apply act_bind_inv in E as [(a & s2 & [= <- <-] & E)|(e' & [=] & _)].
  destruct (bool_decide (dir = "/")) eqn:Hd; cbn in E.
  { injection E as _ <-. split; [|by left]. exists [Stat dir]. split; [done|]. set_solver. }
  apply bool_decide_eq_false in Hd.
  apply act_bind_inv in E as [([] & s2 & [= <-] & E)|(e' & [=] & _)].
  set (s1 := mkMachine _ _ _ _) in E.
  apply act_bind_inv in E as [([] & s2 & E2%act_wrapf_Ok & E)|(e & (r2 & E2 & _)%act_wrapf_run & ->)].
  2: { injection E2 as _ <-. split; [|by left]. exists [Stat dir; RemoveAll dir]. cbn. rewrite <- app_assoc.
       split; [done|]. set_solver. }
  apply act_wrapf_run in E as (r2 & (w & Ew & ->)%act_io_run & _). cbn.
  assert (Ha : answered (RemoveAll dir) (Ok tt) st
    (mkMachine w (m_db s2) (m_rand s2) (m_log s2))).
  { eapply answered_later; [|exact (perform_answered (RemoveAll dir) _ _ _ E2)|]; [by exists [Stat dir]|].
    unfold later. reflexivity. }
  injection E2 as _ <-. cbn in Ew, Ha |- *. split.
  { exists [Stat dir; RemoveAll dir]. rewrite <- app_assoc. split; [done|]. set_solver. }
  apply os_Remove_run in Ew as [(e & _ & -> & _)|(_ & _ & _ & ->)]; [by left|right]. done.
Qed.

Lemma for_paths_run paths st r st' : for_paths cleanup_path paths st = (r, st') →
  r = Ok tt ∧ later st st' ∧
  (∃ l, m_log st' = m_log st ++ l ∧ ∀ p, RemoveAll p ∈ l → p ≠ "/" ∧ ∃ lock, (lock, p) ∈ paths ∧
     is_Some (w_files (m_world st) !! lock) ∧ FileSys.contents (m_world st) lock = p) ∧
  (∀ q, w_files (m_world st') !! q = w_files (m_world st) !! q ∨
     (w_files (m_world st') !! q = None ∧ ∃ p, (q, p) ∈ paths ∧ answered (RemoveAll p) (Ok tt) st st')).
Proof.
  revert st. induction paths as [|[lock dir] paths IH]; intros st; cbn [for_paths].
  { intros [= <- <-]. split_and!; [done..| |by left]. exists []. rewrite app_nil_r. split; [done|set_solver]. }
  intros E.
  apply act_bind_inv in E as [(r0 & s1 & (r1 & (w & Ew & ->)%act_io_run & [= ->])%act_try_run & E)
    |(e & (r1 & _ & ?)%act_try_run & _)]; [|done].
  apply check_lock_Ok in Ew as [-> Hlock]. set (s1 := mkMachine _ _ _ _) in E.
  replace s1 with st in E by (by destruct st). clear s1.
  apply act_bind_inv in E as [([] & s2 & E1 & E)|(e & E1 & _)]; [|by destruct r1].
  assert (Hstep : (∃ l, m_log s2 = m_log st ++ l ∧ ∀ p, RemoveAll p ∈ l → p = dir ∧ dir ≠ "/" ∧ r1 = Ok tt) ∧
    (w_files (m_world s2) = w_files (m_world st) ∨
     (answered (RemoveAll dir) (Ok tt) st s2 ∧ w_files (m_world s2) = delete lock (w_files (m_world st))))).
  { destruct r1 as [[]|e]; [|injection E1 as <-; split; [exists []; rewrite app_nil_r; split; [done|set_solver]|by left]].
    unfold act_logged in E1. destruct (cleanup_path lock dir st) as [rc sc] eqn:Ec. injection E1 as <-.
    apply cleanup_path_run in Ec as [(l & Hl & Hrm) Hw]. split; [|done]. exists l. split; [done|].
    intros p [-> ?]%Hrm. done. }
  destruct Hstep as [(l1 & Hl1 & Hrm1) Hw1]. apply IH in E as (-> & L2 & (l2 & Hl2 & Hrm2) & Hw2).
  assert (L1 : later st s2) by (by exists l1). split; [done|]. split; [by etrans|]. split.
  - exists (l1 ++ l2). rewrite Hl2, Hl1, app_assoc. split; [done|].
    intros p [(-> & Hne & ->)%Hrm1|(Hne & lk & Hin & Hs & Hc)%Hrm2]%elem_of_app.
    + split; [done|]. exists lock. split; [by left|]. by apply Hlock.
    + split; [done|]. exists lk. split; [by right|]. destruct Hw1 as [Hw1|[_ Hw1]].
      * unfold FileSys.contents in *. by rewrite Hw1 in Hs, Hc.
      * unfold FileSys.contents in *. rewrite Hw1 in Hs, Hc.
        destruct (decide (lock = lk)) as [->|Hd]; [rewrite lookup_delete_eq in Hs; by destruct Hs|].
        by rewrite lookup_delete_ne in Hs, Hc.
  - intros q. destruct (Hw2 q) as [Hq|(Hq & p & Hin & Ha)].
    2: { right. split; [done|]. exists p. split; [by right|]. by eapply answered_before. }
    rewrite Hq. destruct Hw1 as [->|[Ha ->]]; [by left|].
    destruct (decide (lock = q)) as [->|Hd]; [|rewrite lookup_delete_ne by done; by left].
    right. rewrite lookup_delete_eq. split; [done|]. exists dir. split; [by left|]. by eapply answered_after.
Qed.

(** Cleaning up containerd only removes what is the snap's own: every directory that is
    removed is the one a lock file of the snap named before, and is not the root directory;
    a lock file is removed only after its directory was; and no other file changes. *)
Theorem TryCleanupContainerdPaths_safe order (s : SnapI) st r st' :
  TryCleanupContainerdPaths order s st = (r, st') → (∀ l, order l ≡ₚ l) →
  r = Ok tt ∧
  (∃ l, m_log st' = m_log st ++ l ∧ ∀ p, RemoveAll p ∈ l → p ≠ "/" ∧
     ∃ lock, (lock, p) ∈ ContainerdLockPathsForSnap s ∧ is_Some (w_files (m_world st) !! lock) ∧
       FileSys.contents (m_world st) lock = p) ∧
  (∀ q, w_files (m_world st') !! q = w_files (m_world st) !! q ∨
     (w_files (m_world st') !! q = None ∧
      ∃ p, (q, p) ∈ ContainerdLockPathsForSnap s ∧ answered (RemoveAll p) (Ok tt) st st')).
Proof.
  intros (-> & _ & (l & Hl & Hrm) & Hw)%for_paths_run Hord. split; [done|]. split.
  - exists l. split; [done|]. intros p Hin. setoid_rewrite (Hord _) in Hrm. by apply Hrm.
  - intros q. setoid_rewrite (Hord _) in Hw. apply Hw.
Qed.
End Paths.

(** *** Witnesses *)

Definition demo_procs : list (string * processInfo) :=
  [("12", mkProcess "11" "nginx"); ("1", mkProcess "0" "init");
   ("10", mkProcess "1" "/snap/k8s/current/bin/containerd-shim-runc-v2 -namespace k8s.io");
   ("11", mkProcess "10" "sh"); ("20", mkProcess "1" "bash")].
Definition demo_rank (pid : string) : nat := Z.to_nat (default 0%Z (parse_digits pid)).

Lemma findAllChildren_terminates_witness :
  ∃ l, findAllChildren (20 + 2) (findShimPIDs demo_procs) (makeShallowChildPIDs demo_procs) = Some l ∧
    "12" ∈ l.
Proof.
  destruct (findAllChildren_terminates demo_procs demo_rank 20) with demo_procs demo_procs as (l & El & Hl).
  - intros pid info. revert pid info.
    assert (Hall : Forall (λ x, demo_rank (parentPID x.2) < demo_rank x.1 ≤ 20) demo_procs)
      by (repeat (apply Forall_cons_2; [vm_compute; split; lia|]); apply Forall_nil_2).
    intros pid info Hin. rewrite Forall_forall in Hall. exact (Hall _ Hin).
  - done.
  - done.
  - exists l. split; [exact El|]. apply Hl. exists "10". eexists. split; [do 2 right; left|].
    split; [vm_compute; reflexivity|].
    apply (rtc_l _ _ "11"); [eexists; split; [do 3 right; left|done]|].
    apply rtc_once. eexists. split; [left|done].
Defined.

(** All directories are there. *)
Definition dirs_outside : Outside := λ log c,
  match c as c return res (answer c) with
  | Stat _ => Ok (mkStat 0 0 16832)
  | c => default_answer c
  end.
Definition demo_lock_world : World := demo_world [("/var/snap/k8s/common/lock/containerd-root-dir", "/var/lib/containerd")].

Lemma TryCleanupContainerdPaths_safe_witness :
  ∃ st', @TryCleanupContainerdPaths demo_os dirs_outside (λ l, l) NodeSetup.demo_snapi
      (mkMachine demo_lock_world (Database.mkDB ∅ [] [] ∅) 0 []) = (Ok tt, st') ∧
    (∀ q, w_files (m_world st') !! q = w_files demo_lock_world !! q ∨ w_files (m_world st') !! q = None).
Proof.
  destruct (@TryCleanupContainerdPaths demo_os dirs_outside (λ l, l) NodeSetup.demo_snapi
      (mkMachine demo_lock_world (Database.mkDB ∅ [] [] ∅) 0 [])) as [r st'] eqn:E.
  destruct (@TryCleanupContainerdPaths_safe demo_os demo_os_ok dirs_outside) with (λ l : list (string * string), l)
    NodeSetup.demo_snapi (mkMachine demo_lock_world (Database.mkDB ∅ [] [] ∅) 0 []) r st' as (-> & _ & Hw).
  - intros l p stat [= <-]. vm_compute. reflexivity.
  - exact E.
  - done.
  - exists st'. split; [done|]. intros q. destruct (Hw q) as [Hq|[Hq _]]; [by left|by right].
Defined.
End Cleanup.
