(* ===== verification/Helm.v ===== *)
(** * The Helm client

    pkg/client/helm: [client.Apply] of client.go brings a chart to a desired state
    (state.go), and tells whether it had to change anything.  The features decide by that
    answer whether Cilium has to be restarted, and they are applied again and again.

    External: the actions of Helm, which are commands ([HelmGet], [HelmInstall], ...), the
    merge of two trees of values ([CoalesceTables], which may also change its second
    argument) and the names of the states of a release ([HelmEnv]).  [HelmStore] is what the
    documentation of Helm says its actions do to the releases of the cluster.

    encoding/json is written out as far as it is used: the sorted, escaped text of a value,
    and what a value becomes that is written and read again. *)

From S2P Require Import Prelude GoStrings FileSys Config Database Effects.
Import GoStr FileSys Database Effects.

Module Helm.

(** ** encoding/json *)

(** The well-formed encodings of UTF-8 of two, three and four bytes. *)
Definition cont (a : ascii) : bool := byte_in 128 191 a.
Definition utf8_2 (a b : ascii) : bool := byte_in 194 223 a && cont b.
Definition utf8_3 (a b c : ascii) : bool :=
  ((byte_is 224 a && byte_in 160 191 b) || (byte_is 237 a && byte_in 128 159 b) ||
   ((byte_in 225 236 a || byte_in 238 239 a) && cont b)) && cont c.
Definition utf8_4 (a b c d : ascii) : bool :=
  ((byte_is 240 a && byte_in 144 191 b) || (byte_in 241 243 a && cont b) ||
   (byte_is 244 a && byte_in 128 143 b)) && cont c && cont d.

(** U+FFFD. *)
Definition replacement (s : string) : string :=
  String "239" (String "191" (String "189" s)).

(** Bytes that are not UTF-8 are replaced when a string is written. *)
Fixpoint valid_utf8 (s : string) : string :=
  match s with
  | EmptyString => EmptyString
  | String a s1 =>
      if byte_in 0 127 a then String a (valid_utf8 s1)
      else match s1 with
           | String b s2 =>
               if utf8_2 a b then String a (String b (valid_utf8 s2))
               else match s2 with
                    | String c s3 =>
                        if utf8_3 a b c then String a (String b (String c (valid_utf8 s3)))
                        else match s3 with
                             | String d s4 =>
                                 if utf8_4 a b c d
                                 then String a (String b (String c (String d (valid_utf8 s4))))
                                 else replacement (valid_utf8 s1)
                             | EmptyString => replacement (valid_utf8 s1)
                             end
                    | EmptyString => replacement (valid_utf8 s1)
                    end
           | EmptyString => replacement (valid_utf8 s1)
           end
  end.

(** The number a float64 holds: 53 bits, rounded to the nearest, ties to even. *)
Definition round_float64 (z : Z) : Z :=
  let e := (Z.log2 (Z.abs z) - 52)%Z in
  if (e <=? 0)%Z then z
  else let q := Z.shiftr (Z.abs z) e in
       let r := (Z.abs z - Z.shiftl q e)%Z in
       let half := Z.shiftl 1 (e - 1) in
       let q := if (half <? r)%Z || ((r =? half)%Z && Z.odd q) then (q + 1)%Z else q in
       (Z.sgn z * Z.shiftl q e)%Z.

(** [sanitizeHelmValues] and [cloneMap]: a value that is written as JSON and read again. *)
Fixpoint json_round (v : value) : value :=
  match v with
  | VString s => VString (valid_utf8 s)
  | VInt z => VInt (round_float64 z)
  | VList l => VList (map json_round l)
  | VMap m => VMap (map (λ kv, (valid_utf8 kv.1, json_round kv.2)) m)
  | VNull | VBool _ | VNumber _ => v
  end.

(** The escapes of a string. *)
Definition escape_byte (a : ascii) : string :=
  let n := N_of_ascii a in
  if byte_is 34 a || byte_is 92 a then String "092" (one a)
  else if byte_is 8 a then String "092" "b"
  else if byte_is 12 a then String "092" "f"
  else if byte_is 10 a then String "092" "n"
  else if byte_is 13 a then String "092" "r"
  else if byte_is 9 a then String "092" "t"
  else if byte_in 0 31 a || byte_is 60 a || byte_is 62 a || byte_is 38 a
  then String "092" "u00" +:+ one (hex_digit (Z.of_N n / 16)) +:+ one (hex_digit (Z.of_N n mod 16))
  else one a.
Fixpoint escape (s : string) : string :=
  match s with
  | EmptyString => EmptyString
  | String a s1 =>
      match s1 with
      | String b (String c s3) =>
          if byte_is 226 a && byte_is 128 b && (byte_is 168 c || byte_is 169 c)
          then String "092" "u202" +:+ one (if byte_is 168 c then "8" else "9")%char +:+ escape s3
          else escape_byte a +:+ escape s1
      | _ => escape_byte a +:+ escape s1
      end
  end.
Definition json_string (s : string) : string := quoted (escape (valid_utf8 s)).

Definition key_le (x y : string * string) : Prop := String.le x.1 y.1.
#[export] Instance key_le_dec x y : Decision (key_le x y).
Proof. unfold key_le. apply _. Defined.

Fixpoint json_Marshal (v : value) : string :=
  match v with
  | VNull => "null"
  | VString s => json_string s
  | VBool b => if b then "true" else "false"
  | VInt z => Itoa z
  | VNumber text => text
  | VList l => "[" +:+ join "," (map json_Marshal l) +:+ "]"
  | VMap m =>
      "{" +:+ join "," (map (λ kv, json_string kv.1 +:+ ":" +:+ kv.2)
                         (merge_sort key_le (map (λ kv, (kv.1, json_Marshal kv.2)) m))) +:+ "}"
  end.

Definition jsonEqual (v1 v2 : value) : bool := json_Marshal v1 ==? json_Marshal v2.
Definition sanitizeHelmValues (values : value) : value := json_round values.
Definition cloneMap (m : value) : value := json_round m.

(** ** state.go *)

Definition StatePresentOrDeleted (enabled : bool) : State := if enabled then StatePresent else StateDeleted.
Definition StateUpgradeOnlyOrDeleted (enabled : bool) : State :=
  if enabled then StateUpgradeOnly else StateDeleted.

(** ** client.go *)

(** External: Helm. *)
Class HelmEnv := {
  ErrReleaseNotFound : goerr;
  StatusFailed : string;
  StatusDeployed : string;
  StatusSuperseded : string;
  IsPending : string → bool;
  (** The merged table, and what becomes of the second argument. *)
  CoalesceTables : value → value → value * value }.

(** [client], without the access to the API server. *)
Record client := mkClient { manifestsBaseDir : string; maxHistory : Z }.

Section Client.
Context `{HelmEnv, Outside}.

Definition chart_path (h : client) (c : InstallableChart) : string :=
  filepath_Join [manifestsBaseDir h; ch_ManifestPath c].

Definition newActionConfiguration (namespace : string) : act unit :=
  act_wrapf "failed to initialize: %w" [] (perform (HelmInit namespace)).

(** The latest release, if there is one. *)
Definition get_release (name : string) : act (option Release) :=
  r ← act_try (perform (HelmGet name));
  act_lift (match r with
            | Ok release => Ok (Some release)
            | Err e => if negb (errors_Is e ErrReleaseNotFound)
                       then Err (Wrapf "failed to get status of release %s: %w" [name] e) else Ok None
            end).

(** A release that is pending is marked as failed. *)
Definition settle_release (name : string) (release : option Release) : act (option Release) :=
  match release with
  | Some r =>
      if IsPending (rl_Status r) then
        _ ← act_wrapf "failed to update release %s status: %w" [name]
              (perform (HelmUpdateStatus name StatusFailed));
        mret (Some (mkRelease StatusFailed (rl_Config r) (rl_ChartVersion r)))
      else mret release
  | None => mret None
  end.

Definition install (h : client) (c : InstallableChart) (sanitizedValues : value) : act bool :=
  _ ← act_wrapf "failed to load manifest for %s: %w" [ch_Name c] (perform (LoadChart (chart_path h c)));
  _ ← act_wrapf "failed to install %s: %w" [ch_Name c]
        (perform (HelmInstall (ch_Namespace c) (ch_Name c) (chart_path h c) sanitizedValues));
  mret true.

(** Neither the values nor the version of the chart change, and the release is in order. *)
Definition up_to_date (release : Release) (sanitizedValues : value) (chartVersion : string) : bool :=
  let clonedValues := cloneMap sanitizedValues in
  let '(mergedValues, oldConfig) := CoalesceTables clonedValues (rl_Config release) in
  jsonEqual oldConfig mergedValues && (rl_ChartVersion release ==? chartVersion) &&
  ((rl_Status release ==? StatusDeployed) || (rl_Status release ==? StatusSuperseded)).

Definition upgrade (h : client) (c : InstallableChart) (release : Release) (sanitizedValues : value) : act bool :=
  version ← act_wrapf "failed to load manifest for %s: %w" [ch_Name c] (perform (LoadChart (chart_path h c)));
  if up_to_date release sanitizedValues version then mret false
  else
    _ ← act_wrapf "failed to upgrade %s: %w" [ch_Name c]
          (perform (HelmUpgrade (ch_Namespace c) (ch_Name c) (chart_path h c) sanitizedValues (maxHistory h)));
    mret true.

Definition uninstall (c : InstallableChart) : act bool :=
  _ ← act_wrapf "failed to uninstall %s: %w" [ch_Name c] (perform (HelmUninstall (ch_Name c)));
  mret true.

Definition Apply (h : client) (c : InstallableChart) (desired : State) (values : value) : act bool :=
  _ ← act_wrapf "failed to create action configuration: %w" [] (newActionConfiguration (ch_Namespace c));
  found ← get_release (ch_Name c);
  release ← settle_release (ch_Name c) found;
  let sanitizedValues := sanitizeHelmValues values in
  match release, desired with
  | None, StateDeleted => mret false
  | None, StateUpgradeOnly => act_lift (Err (Errorf "cannot upgrade %s as it is not installed" [ch_Name c]))
  | None, StatePresent => install h c sanitizedValues
  | Some r, StateDeleted => uninstall c
  | Some r, _ => upgrade h c r sanitizedValues
  end.
End Client.

(** ** What Helm does

    [releases l] are the latest revisions after the commands [l]; [chart_version] is the
    version of the chart in a file.  Values without null are merged without a change of the
    second table, a table that was merged holds the values, and keeps what they do not name. *)
Fixpoint plain (v : value) : bool :=
  match v with
  | VNull => false
  | VList l => forallb plain l
  | VMap m => forallb (λ kv, plain kv.2) m
  | _ => true
  end.
Definition setting (k : string) (v : value) : option value :=
  match v with
  | VMap m => snd <$> List.find (λ kv, kv.1 ==? k) m
  | _ => None
  end.

(** The table has every value of [v]: merging [v] into it changes nothing. *)
Definition config_holds `{HelmEnv} (v config : value) : Prop :=
  let '(merged, config') := CoalesceTables v config in jsonEqual config' merged = true.

Definition changes_release (c : command) : bool :=
  match c with
  | HelmUpdateStatus _ _ | HelmInstall _ _ _ _ | HelmUpgrade _ _ _ _ _ | HelmUninstall _ => true
  | _ => false
  end.

Class HelmStore `{HelmEnv, Outside} := {
  releases : list command → gmap string Release;
  chart_version : string → string;
  store_get l name r : outside l (HelmGet name) = Ok r → releases l !! name = Some r;
  store_missing l name e :
    outside l (HelmGet name) = Err e → errors_Is e ErrReleaseNotFound = true → releases l !! name = None;
  store_chart l path v : outside l (LoadChart path) = Ok v → v = chart_version path;
  store_read l c : changes_release c = false → releases (l ++ [c]) = releases l;
  store_mark l name status r :
    outside l (HelmUpdateStatus name status) = Ok tt → releases l !! name = Some r →
    releases (l ++ [HelmUpdateStatus name status]) =
      <[name := mkRelease status (rl_Config r) (rl_ChartVersion r)]> (releases l);
  store_install l ns name path values :
    outside l (HelmInstall ns name path values) = Ok tt →
    releases (l ++ [HelmInstall ns name path values]) =
      <[name := mkRelease StatusDeployed values (chart_version path)]> (releases l);
  store_upgrade l ns name path values n r :
    outside l (HelmUpgrade ns name path values n) = Ok tt → releases l !! name = Some r →
    releases (l ++ [HelmUpgrade ns name path values n]) =
      <[name := mkRelease StatusDeployed (CoalesceTables values (rl_Config r)).1 (chart_version path)]>
        (releases l);
  store_uninstall l name :
    outside l (HelmUninstall name) = Ok tt →
    releases (l ++ [HelmUninstall name]) = delete name (releases l);
  failed_status : StatusFailed ≠ StatusDeployed ∧ StatusFailed ≠ StatusSuperseded;
  settled_status : IsPending StatusDeployed = false ∧ IsPending StatusSuperseded = false;
  coalesce_self v : plain v = true → config_holds v v;
  coalesce_again v config : plain v = true → config_holds v (CoalesceTables v config).1;
  coalesce_keeps k v config :
    setting k v = None → setting k (CoalesceTables v config).1 = setting k config }.

(** ** Writing a value twice *)

Lemma byte_in_spec lo hi a : byte_in lo hi a = true ↔ (lo <= N_of_ascii a <= hi)%N.
Proof. unfold byte_in. rewrite andb_true_iff, !N.leb_le. done. Qed.

Lemma valid_utf8_replacement s : valid_utf8 (replacement s) = replacement (valid_utf8 s).
Proof. reflexivity. Qed.

(** One step of the reader gives back what it wrote. *)
Lemma valid_utf8_1 a s : byte_in 0 127 a = true → valid_utf8 (String a s) = String a (valid_utf8 s).
Proof. intros Ha. cbn [valid_utf8]. by rewrite Ha. Qed.
Lemma valid_utf8_2 a b s : byte_in 0 127 a = false → utf8_2 a b = true →
  valid_utf8 (String a (String b s)) = String a (String b (valid_utf8 s)).
Proof. intros Ha Hb. cbn [valid_utf8]. by rewrite Ha, Hb. Qed.
Lemma valid_utf8_3 a b c s : byte_in 0 127 a = false → utf8_2 a b = false → utf8_3 a b c = true →
  valid_utf8 (String a (String b (String c s))) = String a (String b (String c (valid_utf8 s))).
Proof. intros Ha Hb Hc. cbn [valid_utf8]. by rewrite Ha, Hb, Hc. Qed.
Lemma valid_utf8_4 a b c d s : byte_in 0 127 a = false → utf8_2 a b = false → utf8_3 a b c = false →
  utf8_4 a b c d = true →
  valid_utf8 (String a (String b (String c (String d s)))) =
  String a (String b (String c (String d (valid_utf8 s)))).
Proof. intros Ha Hb Hc Hd. cbn [valid_utf8]. by rewrite Ha, Hb, Hc, Hd. Qed.

Lemma valid_utf8_idem s : valid_utf8 (valid_utf8 s) = valid_utf8 s.
Proof.
  remember (String.length s) as n eqn:Hn. revert s Hn.
  induction (lt_wf n) as [n _ IH]. intros s ->.
  assert (Hrec : ∀ t, String.length t < String.length s → valid_utf8 (valid_utf8 t) = valid_utf8 t)
    by (intros t Ht; by eapply IH).
  clear IH. destruct s as [|a s1]; [done|]. cbn [valid_utf8]. cbn [String.length] in Hrec.
  destruct (byte_in 0 127 a) eqn:Ha; [by rewrite valid_utf8_1, Hrec by (done || lia)|].
  destruct s1 as [|b s2]; [done|]. cbn [String.length] in Hrec.
  destruct (utf8_2 a b) eqn:Hb; [by rewrite valid_utf8_2, Hrec by (done || lia)|].
  assert (Hbad : valid_utf8 (replacement (valid_utf8 (String b s2))) = replacement (valid_utf8 (String b s2)))
    by (rewrite valid_utf8_replacement, Hrec; [done|cbn; lia]).
  destruct s2 as [|c s3]; [done|]. cbn [String.length] in Hrec.
  destruct (utf8_3 a b c) eqn:Hc; [by rewrite valid_utf8_3, Hrec by (done || lia)|].
  destruct s3 as [|d s4]; [done|]. cbn [String.length] in Hrec.
  destruct (utf8_4 a b c d) eqn:Hd; [by rewrite valid_utf8_4, Hrec by (done || lia)|done].
Qed.

Lemma shiftr_exact q e : (0 <= e)%Z → Z.shiftr (q * 2 ^ e) e = q.
Proof. intros He. rewrite Z.shiftr_div_pow2 by lia. apply Z.div_mul. lia. Qed.

(** A number of at most 53 bits and a power of two is not rounded. *)
Lemma round_float64_exact s q e : (s = 1 ∨ s = -1)%Z → (2 ^ 52 <= q < 2 ^ 53)%Z → (0 < e)%Z →
  round_float64 (s * (q * 2 ^ e)) = (s * (q * 2 ^ e))%Z.
Proof.
  intros Hs Hq He. assert (Hp : (0 < 2 ^ e)%Z) by lia.
  assert (Hm : Z.abs (s * (q * 2 ^ e)) = (q * 2 ^ e)%Z) by (destruct Hs; nia).
  assert (Hsgn : Z.sgn (s * (q * 2 ^ e)) = s) by (destruct Hs as [-> | ->]; nia).
  unfold round_float64. rewrite Hm, Hsgn.
  assert (Z.log2 (q * 2 ^ e) = 52 + e)%Z as ->.
  { rewrite Z.log2_mul_pow2 by lia. rewrite (Z.log2_unique q 52); lia. }
  replace (52 + e - 52)%Z with e by lia.
  rewrite (proj2 (Z.leb_gt e 0)) by lia. rewrite shiftr_exact by lia.
  rewrite !Z.shiftl_mul_pow2 by lia. rewrite Z.sub_diag.
  assert (Hh : (0 < 1 * 2 ^ (e - 1))%Z) by lia.
  rewrite (proj2 (Z.ltb_ge _ 0)) by lia. rewrite (proj2 (Z.eqb_neq 0 _)) by lia. done.
Qed.

Lemma round_float64_bits z : (0 < Z.log2 (Z.abs z) - 52)%Z →
  ∃ s q e, (s = 1 ∨ s = -1)%Z ∧ (2 ^ 52 <= q < 2 ^ 53)%Z ∧ (0 < e)%Z ∧
    round_float64 z = (s * (q * 2 ^ e))%Z.
Proof.
  intros He. unfold round_float64. rewrite (proj2 (Z.leb_gt _ 0)) by lia.
  set (e := (Z.log2 (Z.abs z) - 52)%Z) in *. set (q := Z.shiftr (Z.abs z) e).
  assert (Hz : (0 < Z.abs z)%Z) by (destruct (decide (z = 0)%Z) as [->|]; [done|lia]).
  assert (Hs : (Z.sgn z = 1 ∨ Z.sgn z = -1)%Z) by lia.
  destruct (Z.log2_spec _ Hz) as [Hlo Hhi].
  replace (Z.log2 (Z.abs z)) with (52 + e)%Z in Hlo, Hhi by lia.
  rewrite Z.pow_add_r in Hlo by lia. rewrite <- Z.add_succ_l, Z.pow_add_r in Hhi by lia.
  assert (Hq : (2 ^ 52 <= q < 2 ^ 53)%Z).
  { unfold q. rewrite Z.shiftr_div_pow2 by lia. split.
    - apply Z.div_le_lower_bound; lia.
    - apply Z.div_lt_upper_bound; [lia|]. rewrite Z.mul_comm. exact Hhi. }
  rewrite !(Z.shiftl_mul_pow2 _ e) by lia.
  destruct (_ || _); [|by exists (Z.sgn z), q, e].
  destruct (decide (q + 1 < 2 ^ 53)%Z); [by exists (Z.sgn z), (q + 1)%Z, e; split_and!; try lia|].
  exists (Z.sgn z), (2 ^ 52)%Z, (e + 1)%Z. split_and!; [done|lia|lia|lia|].
  replace (q + 1)%Z with (2 ^ 53)%Z by lia. rewrite Z.pow_add_r by lia. lia.
Qed.

Lemma round_float64_idem z : round_float64 (round_float64 z) = round_float64 z.
Proof.
  destruct (decide (0 < Z.log2 (Z.abs z) - 52)%Z) as [He|He].
  - destruct (round_float64_bits z He) as (s & q & e & Hs & Hq & Hpos & ->). by apply round_float64_exact.
  - assert (Hz : round_float64 z = z) by (unfold round_float64; by rewrite (proj2 (Z.leb_le _ 0)) by lia).
    by rewrite !Hz.
Qed.

Lemma json_round_idem v : json_round (json_round v) = json_round v.
Proof.
  revert v. fix IH 1. intros [|s|b|z|t|l|m]; cbn [json_round]; try done.
  - by rewrite valid_utf8_idem.
  - by rewrite round_float64_idem.
  - f_equal. rewrite map_map. induction l as [|v l IHl]; [done|]. cbn [map]. by rewrite IH, IHl.
  - f_equal. rewrite map_map. induction m as [|[k v] m IHm]; [done|]. cbn [map fst snd] in IHm |- *.
    by rewrite IH, valid_utf8_idem, IHm.
Qed.

(** ** [Apply] *)

(** *** The commands [Apply] issues *)
Inductive applies `{HelmEnv} (h : client) (c : InstallableChart) (values : value) : State → command → Prop :=
| applies_init d : applies h c values d (HelmInit (ch_Namespace c))
| applies_get d : applies h c values d (HelmGet (ch_Name c))
| applies_load d : applies h c values d (LoadChart (chart_path h c))
| applies_mark d : applies h c values d (HelmUpdateStatus (ch_Name c) (StatusFailed))
| applies_install :
    applies h c values StatePresent
      (HelmInstall (ch_Namespace c) (ch_Name c) (chart_path h c) (sanitizeHelmValues values))
| applies_upgrade d :
    d ≠ StateDeleted →
    applies h c values d
      (HelmUpgrade (ch_Namespace c) (ch_Name c) (chart_path h c) (sanitizeHelmValues values) (maxHistory h))
| applies_uninstall : applies h c values StateDeleted (HelmUninstall (ch_Name c)).

#[export] Hint Constructors applies : emits.

Section ApplyFacts.
Context `{HelmEnv, Outside}.

Lemma Apply_emits h c desired values : emits (applies h c values desired) eq (Apply h c desired values).
Proof.
  unfold Apply, newActionConfiguration, get_release, settle_release, install, upgrade, uninstall.
  destruct desired; emits_go.
Qed.

Lemma emits_Apply (P : command → Prop) h c desired values :
  (∀ cmd, applies h c values desired cmd → P cmd) → emits P eq (Apply h c desired values).
Proof.
  intros HP s r s' E. destruct (Apply_emits _ _ _ _ _ _ _ E) as [(l & Hl & Hf) Hq].
  split; [|done]. exists l. split; [done|]. by eapply List.Forall_impl; [apply HP|].
Qed.

Lemma Apply_asks h c desired values : asks (Apply h c desired values).
Proof.
  unfold Apply, newActionConfiguration, get_release, settle_release, install, upgrade, uninstall.
  asks_go.
Qed.

(** Everything but a changing command leaves a machine with a longer log. *)
Lemma perform_Ok c s a s' : perform c s = (Ok a, s') → s' = with_log s [c] ∧ outside (m_log s) c = Ok a.
Proof. by intros [= ? <-]. Qed.
End ApplyFacts.

Lemma plain_json_round v : plain (json_round v) = plain v.
Proof.
  revert v. fix IH 1. intros [|s|b|z|t|l|m]; cbn [json_round plain]; try done.
  - induction l as [|v l IHl]; [done|]. cbn [map forallb]. by rewrite IH, IHl.
  - induction m as [|[k v] m IHm]; [done|]. cbn [map forallb fst snd]. by rewrite IH, IHm.
Qed.

Section ApplyStore.
Context `{HelmStore}.

Definition store (s : Machine) : gmap string Release := releases (m_log s).

Lemma store_with_read s c : changes_release c = false → store (with_log s [c]) = store s.
Proof. apply store_read. Qed.

Lemma store_looked s ns name : store (with_log s [HelmInit ns; HelmGet name]) = store s.
Proof.
  change [HelmInit ns; HelmGet name] with ([HelmInit ns] ++ [HelmGet name]).
  by rewrite <- with_log_app, !store_with_read.
Qed.

(** Commands that only look leave the releases. *)
Lemma store_emits {A} Q (m : act A) s r s' :
  emits (λ cmd, changes_release cmd = false) Q m → m s = (r, s') → store s' = store s.
Proof.
  intros Hm E. destruct (Hm _ _ _ E) as [(l & Hl & HP) _]. unfold store. rewrite Hl. clear -HP.
  generalize (m_log s) as l0. induction HP as [|cmd l Hc _ IH]; intros l0; [by rewrite app_nil_r|].
  rewrite cons_middle, app_assoc, IH. by apply store_read.
Qed.

Lemma get_release_Ok name s found s' : get_release name s = (Ok found, s') →
  s' = with_log s [HelmGet name] ∧ store s !! name = found.
Proof.
  unfold get_release.
  intros [(r & s1 & (r0 & E1 & [= ->])%act_try_run & E2)|(e & _ & ?)]%act_bind_inv; [|done].
  injection E1 as Ha <-. destruct r0 as [release|e].
  - injection E2 as <- <-. split; [done|]. by apply store_get.
  - destruct (errors_Is e ErrReleaseNotFound) eqn:He; [|done].
    injection E2 as <- <-. split; [done|]. by eapply store_missing.
Qed.

(** A release that is pending is failed afterwards. *)
Definition settled (r : Release) : Release :=
  if IsPending (rl_Status r) then mkRelease StatusFailed (rl_Config r) (rl_ChartVersion r) else r.

Lemma settle_release_Ok name found s release s' : settle_release name found s = (Ok release, s') →
  store s !! name = found →
  release = settled <$> found ∧
  s' = with_log s (match found with
                   | Some r => if IsPending (rl_Status r) then [HelmUpdateStatus name StatusFailed] else []
                   | None => []
                   end) ∧
  store s' = match found with Some r => <[name := settled r]> (store s) | None => store s end.
Proof.
  unfold settle_release, settled. destruct found as [r|].
  2: { intros [= <- <-] _. by rewrite with_log_nil. }
  cbn. destruct (IsPending (rl_Status r)).
  2: { intros [= <- <-] Hs. rewrite with_log_nil. split_and!; [done|done|]. by rewrite insert_id. }
  intros [(u & s1 & E1%act_wrapf_Ok & E2)|(e & _ & ?)]%act_bind_inv; [|done]. intros Hs.
  apply (perform_Ok (HelmUpdateStatus _ _)) in E1 as [-> Ha]. destruct u. injection E2 as <- <-.
  split_and!; [done|done|]. by apply store_mark.
Qed.

Lemma install_Ok h c v s changed s' : install h c v s = (Ok changed, s') →
  changed = true ∧
  store s' = <[ch_Name c := mkRelease StatusDeployed v (chart_version (chart_path h c))]> (store s).
Proof.
  unfold install.
  intros [(version & s1 & E1%act_wrapf_Ok & E)|(e & _ & ?)]%act_bind_inv; [|done].
  apply act_bind_inv in E as [(u & s2 & E2%act_wrapf_Ok & E)|(e & _ & ?)]; [|done].
  apply (perform_Ok (LoadChart _)) in E1 as [-> _]. apply (perform_Ok (HelmInstall _ _ _ _)) in E2 as [-> Ha].
  injection E as <- <-. split; [done|]. destruct u. rewrite <- (store_with_read s (LoadChart (chart_path h c)) eq_refl).
  by apply store_install.
Qed.

Lemma upgrade_Ok h c r v s changed s' : upgrade h c r v s = (Ok changed, s') → store s !! ch_Name c = Some r →
  (up_to_date r v (chart_version (chart_path h c)) = true ∧ changed = false ∧
     s' = with_log s [LoadChart (chart_path h c)]) ∨
  (up_to_date r v (chart_version (chart_path h c)) = false ∧ changed = true ∧
     store s' = <[ch_Name c := mkRelease StatusDeployed (CoalesceTables v (rl_Config r)).1
                                 (chart_version (chart_path h c))]> (store s)).
Proof.
  unfold upgrade.
  intros [(version & s1 & E1%act_wrapf_Ok & E)|(e & _ & ?)]%act_bind_inv Hr; [|done].
  apply (perform_Ok (LoadChart _)) in E1 as [-> ->%store_chart].
  destruct (up_to_date _ _ _); [injection E as <- <-; by left|right].
  apply act_bind_inv in E as [(u & s2 & E2%act_wrapf_Ok & E)|(e & _ & ?)]; [|done].
  apply (perform_Ok (HelmUpgrade _ _ _ _ _)) in E2 as [-> Ha]. injection E as <- <-. destruct u.
  split_and!; [done|done|].
  rewrite <- (store_with_read s (LoadChart (chart_path h c)) eq_refl) in Hr |- *.
  by apply store_upgrade.
Qed.

Lemma uninstall_Ok c s changed s' : uninstall c s = (Ok changed, s') →
  changed = true ∧ store s' = delete (ch_Name c) (store s).
Proof.
  unfold uninstall.
  intros [(u & s1 & E1%act_wrapf_Ok & E)|(e & _ & ?)]%act_bind_inv; [|done].
  apply (perform_Ok (HelmUninstall _)) in E1 as [-> Ha]. injection E as <- <-. split; [done|].
  destruct u. by apply store_uninstall.
Qed.

(** What a successful application went through. *)
Lemma Apply_Ok h c desired values s changed s' : Apply h c desired values s = (Ok changed, s') →
  ∃ s1, store s1 = match store s !! ch_Name c with
                   | Some r => <[ch_Name c := settled r]> (store s)
                   | None => store s
                   end ∧
    (∀ r, store s !! ch_Name c = Some r → IsPending (rl_Status r) = false →
       s1 = with_log s [HelmInit (ch_Namespace c); HelmGet (ch_Name c)]) ∧
    (store s !! ch_Name c = None → s1 = with_log s [HelmInit (ch_Namespace c); HelmGet (ch_Name c)]) ∧
    match store s !! ch_Name c, desired with
    | None, StateDeleted => (mret false : act bool)
    | None, StateUpgradeOnly => act_lift (Err (Errorf "cannot upgrade %s as it is not installed" [ch_Name c]))
    | None, StatePresent => install h c (sanitizeHelmValues values)
    | Some r, StateDeleted => uninstall c
    | Some r, _ => upgrade h c (settled r) (sanitizeHelmValues values)
    end s1 = (Ok changed, s').
Proof.
  unfold Apply, newActionConfiguration.
  intros [(u & s1 & E1%act_wrapf_Ok & E)|(e & _ & ?)]%act_bind_inv; [|done].
  apply act_wrapf_Ok, (perform_Ok (HelmInit _)) in E1 as [-> _].
  apply act_bind_inv in E as [(found & s2 & [-> Hf]%get_release_Ok & E)|(e & _ & ?)]; [|done].
  rewrite store_with_read in Hf by done.
  apply act_bind_inv in E as [(release & s3 & E3 & E)|(e & _ & ?)]; [|done].
  apply settle_release_Ok in E3 as (-> & Hs3 & Hst); [|by rewrite !store_with_read].
  rewrite !store_with_read in Hst by done. rewrite !with_log_app in Hs3. cbn [app] in Hs3.
  exists s3. rewrite Hf. split_and!.
  - done.
  - intros r -> Hp. rewrite Hp in Hs3. exact Hs3.
  - intros ->. exact Hs3.
  - by destruct found, desired.
Qed.

(** *** What the interface promises *)

Definition in_order (r : Release) : Prop := rl_Status r = StatusDeployed ∨ rl_Status r = StatusSuperseded.

(** interface.go: how [Apply] may change the releases, and when it says so. *)
Definition reaches (h : client) (c : InstallableChart) (desired : State) (values : value) (changed : bool)
    (old new : gmap string Release) : Prop :=
  (∀ name, name ≠ ch_Name c → new !! name = old !! name) ∧
  (changed = false → new = old) ∧
  match desired with
  | StateDeleted => new !! ch_Name c = None ∧ (changed = true ↔ is_Some (old !! ch_Name c))
  | _ =>
      (desired = StateUpgradeOnly → is_Some (old !! ch_Name c)) ∧
      (old !! ch_Name c = None → changed = true) ∧
      ∃ r, new !! ch_Name c = Some r ∧ in_order r ∧
        rl_ChartVersion r = chart_version (chart_path h c) ∧
        config_holds (sanitizeHelmValues values) (rl_Config r)
  end.

Lemma settled_in_order r : in_order (settled r) → settled r = r.
Proof.
  unfold settled, in_order. destruct (IsPending _); [|done]. cbn. destruct failed_status as [Hd Hs].
  by intros [?|?].
Qed.
Lemma in_order_settled r : in_order r → IsPending (rl_Status r) = false.
Proof. destruct settled_status. by intros [-> | ->]. Qed.

Lemma up_to_date_true r v version : up_to_date r (sanitizeHelmValues v) version = true →
  config_holds (sanitizeHelmValues v) (rl_Config r) ∧ rl_ChartVersion r = version ∧ in_order r.
Proof.
  unfold up_to_date, config_holds, cloneMap, sanitizeHelmValues. rewrite json_round_idem.
  destruct (CoalesceTables _ _) as [merged config]. rewrite !andb_true_iff, orb_true_iff, !bool_decide_eq_true.
  by intros [[? ?] ?].
Qed.
Lemma up_to_date_holds r v version : config_holds (sanitizeHelmValues v) (rl_Config r) →
  rl_ChartVersion r = version → in_order r → up_to_date r (sanitizeHelmValues v) version = true.
Proof.
  unfold up_to_date, config_holds, cloneMap, sanitizeHelmValues. rewrite json_round_idem.
  destruct (CoalesceTables _ _) as [merged config].
  rewrite !andb_true_iff, orb_true_iff, !bool_decide_eq_true. done.
Qed.
Lemma settled_Config r : rl_Config (settled r) = rl_Config r.
Proof. unfold settled. by destruct (IsPending _). Qed.

(** The branch of an installed release that is to stay. *)
Lemma upgrade_reaches h c v r s1 changed s' old :
  upgrade h c (settled r) (sanitizeHelmValues v) s1 = (Ok changed, s') →
  old !! ch_Name c = Some r → store s1 = <[ch_Name c := settled r]> old →
  plain (sanitizeHelmValues v) = true →
  (∀ name, name ≠ ch_Name c → store s' !! name = old !! name) ∧
  (changed = false → store s' = old) ∧
  ∃ r', store s' !! ch_Name c = Some r' ∧ in_order r' ∧
    rl_ChartVersion r' = chart_version (chart_path h c) ∧
    config_holds (sanitizeHelmValues v) (rl_Config r') ∧
    (rl_Config r' = rl_Config r ∨ rl_Config r' = (CoalesceTables (sanitizeHelmValues v) (rl_Config r)).1).
Proof.
  intros E Hold Hs1 Hp. apply upgrade_Ok in E as [(Hu & -> & ->)|(_ & -> & Hs')];
    [| |by rewrite Hs1, lookup_insert_eq].
  - apply up_to_date_true in Hu as (Hc & Hv & Ho). pose proof (settled_in_order r Ho) as Hr.
    rewrite Hr in *. rewrite store_with_read, Hs1 by done. rewrite insert_id by done.
    split_and!; [done|done|]. exists r. split_and!; [done|done|done|done|by left].
  - rewrite Hs', Hs1, settled_Config. split_and!; [|done|].
    + intros name Hn. by rewrite !lookup_insert_ne.
    + eexists. split; [apply lookup_insert_eq|]. split_and!; [by left|done|by apply coalesce_again|by right].
Qed.

(** A successful application of a chart keeps the contract of the interface. *)
Lemma Apply_reaches h c desired values s changed s' :
  (desired ≠ StateDeleted → plain (sanitizeHelmValues values) = true) →
  Apply h c desired values s = (Ok changed, s') →
  reaches h c desired values changed (store s) (store s').
Proof.
  intros Hp (s1 & Hs1 & _ & _ & E)%Apply_Ok. unfold reaches.
  destruct (store s !! ch_Name c) as [r|] eqn:Hold.
  - destruct desired.
    1,2: destruct (upgrade_reaches _ _ _ _ _ _ _ _ E Hold Hs1) as (Hn & Hf & r' & Hr & Ho & Hv & Hc & _);
      [by apply Hp|split_and!; [done|done|by eauto|done|by exists r']].
    apply uninstall_Ok in E as [-> ->]. rewrite Hs1. split_and!.
    + intros name Hn. by rewrite lookup_delete_ne, lookup_insert_ne.
    + done.
    + apply lookup_delete_eq.
    + by eauto.
  - destruct desired.
    + apply install_Ok in E as [-> ->]. rewrite Hs1. split_and!; [|done|done|done|].
      * intros name Hn. by rewrite lookup_insert_ne.
      * eexists. split; [apply lookup_insert_eq|]. split_and!; [by left|done|by apply coalesce_self, Hp].
    + done.
    + injection E as <- <-. rewrite Hs1. split_and!; [done|done|done|]. split; [done|]. by intros [? ?].
Qed.

(** A release that is as it should be is left alone. *)
Lemma upgrade_idle h c v r s changed s' : store s !! ch_Name c = Some r → in_order r →
  rl_ChartVersion r = chart_version (chart_path h c) → config_holds (sanitizeHelmValues v) (rl_Config r) →
  upgrade h c r (sanitizeHelmValues v) s = (Ok changed, s') →
  changed = false ∧ s' = with_log s [LoadChart (chart_path h c)].
Proof.
  intros Hs Ho Hv Hc [(_ & -> & ->)|(Hu & _)]%upgrade_Ok; [done| |done].
  by rewrite up_to_date_holds in Hu.
Qed.

(** C17: The contract of [Client.Apply], whatever state the release was in before, pending ones
    included: a chart that is to be deleted is gone; a chart that is to be present is deployed at
    the version of the manifest with a configuration that holds all the values; an upgrade is
    not an installation; other releases stay; and the answer is true exactly if there was
    something to delete, true for every installation, and if it is false nothing is different.
    The files of the node and the database are not touched. *)
Theorem Apply_reaches_desired h c desired values s changed s' :
  (desired ≠ StateDeleted → plain (sanitizeHelmValues values) = true) →
  Apply h c desired values s = (Ok changed, s') →
  reaches h c desired values changed (store s) (store s') ∧
  m_world s' = m_world s ∧ m_db s' = m_db s.
Proof. intros Hp E. split; [by apply Apply_reaches|by eapply Apply_asks]. Qed.

(** Applying the same chart with the same values again, after it was applied, changes
    nothing: the answer is that nothing changed, so that nothing is restarted, the releases are
    the same, and the only commands are the ones that look at them. *)
Theorem Apply_again_changes_nothing h c desired values s changed s1 changed' s2 :
  plain (sanitizeHelmValues values) = true →
  Apply h c desired values s = (Ok changed, s1) →
  Apply h c desired values s1 = (Ok changed', s2) →
  changed' = false ∧
  s2 = with_log s1 (match desired with
                    | StateDeleted => [HelmInit (ch_Namespace c); HelmGet (ch_Name c)]
                    | _ => [HelmInit (ch_Namespace c); HelmGet (ch_Name c); LoadChart (chart_path h c)]
                    end) ∧
  store s2 = store s1.
Proof.
  intros Hp E1 E2.
  assert (Hr : ∃ r, desired = StateDeleted ∧ store s1 !! ch_Name c = None ∨
    desired ≠ StateDeleted ∧ store s1 !! ch_Name c = Some r ∧ in_order r ∧
    rl_ChartVersion r = chart_version (chart_path h c) ∧ config_holds (sanitizeHelmValues values) (rl_Config r)).
  { apply Apply_Ok in E1 as (t & Ht & _ & _ & E). destruct (store s !! ch_Name c) as [r|] eqn:Hold, desired;
      try done; try (apply (upgrade_reaches _ _ _ _ _ _ _ _ E Hold Ht) in Hp as (_ & _ & r' & ? & ? & ? & ? & _);
        by (exists r'; right)).
    - exists r. left. apply uninstall_Ok in E as [_ ->]. split; [done|apply lookup_delete_eq].
    - apply install_Ok in E as [_ ->]. eexists. right. split; [done|]. split; [apply lookup_insert_eq|].
      split_and!; [by left|done|by apply coalesce_self].
    - exists (mkRelease EmptyString VNull EmptyString). left. injection E as <- <-. by rewrite Ht. }
  apply Apply_Ok in E2 as (t & _ & Hsome & Hnone & E). destruct Hr as (r & [(-> & Hn)|(Hd & Hs & Ho & Hv & Hc)]).
  - rewrite Hn in E. specialize (Hnone Hn) as ->. injection E as <- <-. split_and!; [done|done|apply store_looked].
  - rewrite Hs in E. specialize (Hsome r Hs (in_order_settled r Ho)) as ->.
    assert (Hset : settled r = r) by (unfold settled; by rewrite (in_order_settled r Ho)).
    rewrite <- (store_looked s1 (ch_Namespace c) (ch_Name c)) in Hs. rewrite Hset in E.
    destruct desired; try done; apply (upgrade_idle _ _ _ _ _ _ _ Hs Ho Hv Hc) in E as [-> ->];
      (split_and!; [done|by rewrite with_log_app|by rewrite store_with_read, store_looked]).
Qed.

(** An upgrade does not take a setting away: what an installed chart was configured with and
    the new values do not name is still there afterwards. *)
Lemma Apply_keeps h c desired values k r s changed s' :
  plain (sanitizeHelmValues values) = true → desired ≠ StateDeleted →
  setting k (sanitizeHelmValues values) = None →
  store s !! ch_Name c = Some r →
  Apply h c desired values s = (Ok changed, s') →
  ∃ r', store s' !! ch_Name c = Some r' ∧ setting k (rl_Config r') = setting k (rl_Config r).
Proof.
  intros Hp Hd Hk Hold (s1 & Hs1 & _ & _ & E)%Apply_Ok. rewrite Hold in Hs1, E.
  destruct desired; try done;
    destruct (upgrade_reaches _ _ _ _ _ _ _ _ E Hold Hs1 Hp) as (_ & _ & r' & Hr' & _ & _ & _ & [Hc|Hc]);
    exists r'; (split; [done|]); rewrite Hc; [done|by apply coalesce_keeps|done|by apply coalesce_keeps].
Qed.
End ApplyStore.

(** ** A cluster *)

Definition absent (m : list (string * value)) (kv : string * value) : bool :=
  negb (existsb (λ kv', kv'.1 ==? kv.1) m).
Definition demo_coalesce (v config : value) : value * value :=
  match v, config with
  | VMap m, VMap n => (VMap (m ++ List.filter (absent m) n), config)
  | VMap m, _ => (v, config)
  | _, _ => (config, config)
  end.
Definition demo_helm_env : HelmEnv := {|
  ErrReleaseNotFound := Errorf "release: not found" [];
  StatusFailed := "failed"; StatusDeployed := "deployed"; StatusSuperseded := "superseded";
  IsPending := has_prefix "pending-";
  CoalesceTables := demo_coalesce |}.

Definition demo_releases_step (m : gmap string Release) (c : command) : gmap string Release :=
  match c with
  | HelmUpdateStatus name status => alter (λ r, mkRelease status (rl_Config r) (rl_ChartVersion r)) name m
  | HelmInstall _ name _ v => <[name := mkRelease "deployed" v "1.0.0"]> m
  | HelmUpgrade _ name _ v _ =>
      match m !! name with
      | Some r => <[name := mkRelease "deployed" (demo_coalesce v (rl_Config r)).1 "1.0.0"]> m
      | None => m
      end
  | HelmUninstall name => delete name m
  | _ => m
  end.

Definition demo_helm (init : gmap string Release) : Outside := λ l cmd,
  match cmd return res (answer cmd) with
  | HelmGet name =>
      match fold_left demo_releases_step l init !! name with
      | Some r => Ok r
      | None => Err (Errorf "release: not found" [])
      end
  | cmd => default_answer cmd
  end.

Lemma find_in_app {A} (f : A → bool) m n :
  List.find f (m ++ n) = match List.find f m with Some x => Some x | None => List.find f n end.
Proof. induction m as [|x m IH]; [done|]. cbn. by destruct (f x). Qed.
Lemma find_filter {A} (f g : A → bool) n :
  (∀ x, f x = true → g x = true) → List.find f (List.filter g n) = List.find f n.
Proof.
  intros Hg. induction n as [|x n IH]; [done|]. cbn. destruct (f x) eqn:Hf.
  - rewrite Hg by done. cbn. by rewrite Hf.
  - destruct (g x); cbn; by rewrite ?Hf.
Qed.

Lemma setting_absent k m n :
  setting k (VMap m) = None → setting k (VMap (m ++ List.filter (absent m) n)) = setting k (VMap n).
Proof.
  unfold setting. rewrite fmap_None. intros Hm. rewrite find_in_app, Hm, find_filter; [done|].
  intros [k' v']. cbn. intros ->%bool_decide_eq_true. unfold absent.
  rewrite negb_true_iff, <- not_true_iff_false, existsb_exists. cbn. intros (kv & Hin & Hk).
  by rewrite (List.find_none _ _ Hm _ Hin) in Hk.
Qed.

Lemma filter_absent_all m n : List.Forall (λ kv, absent m kv = false) n → List.filter (absent m) n = [].
Proof. induction 1 as [|kv n Hkv _ IH]; [done|]. cbn. by rewrite Hkv. Qed.
Lemma absent_self m kv : List.In kv m → absent m kv = false.
Proof.
  intros Hin. unfold absent. rewrite negb_false_iff, existsb_exists. exists kv. split; [done|].
  by apply bool_decide_eq_true.
Qed.
Lemma filter_absent_idem m n : List.filter (absent m) (m ++ List.filter (absent m) n) = List.filter (absent m) n.
Proof.
  rewrite List.filter_app. rewrite filter_absent_all by (apply List.Forall_forall; intros kv; apply absent_self).
  cbn. induction n as [|kv n IH]; [done|]. cbn. destruct (absent m kv) eqn:Hkv; [|done]. cbn. by rewrite Hkv, IH.
Qed.

Lemma jsonEqual_refl v : jsonEqual v v = true.
Proof. by apply bool_decide_eq_true. Qed.

Lemma demo_coalesce_self v : let '(merged, v') := demo_coalesce v v in jsonEqual v' merged = true.
Proof.
  destruct v; cbn [demo_coalesce]; try apply jsonEqual_refl.
  rewrite filter_absent_all by (apply List.Forall_forall; intros kv; apply absent_self).
  rewrite app_nil_r. apply jsonEqual_refl.
Qed.
Lemma demo_coalesce_again v config :
  let '(merged, config') := demo_coalesce v (demo_coalesce v config).1 in jsonEqual config' merged = true.
Proof.
  destruct v as [| | | | | |m]; cbn [demo_coalesce fst]; try apply jsonEqual_refl.
  destruct config as [| | | | | |n]; cbn [demo_coalesce fst]; try apply (demo_coalesce_self (VMap m)).
  rewrite filter_absent_idem. apply jsonEqual_refl.
Qed.

#[local] Instance demo_helm_store init : @HelmStore demo_helm_env (demo_helm init).
Proof.
  refine (@Build_HelmStore demo_helm_env (demo_helm init) (λ l, fold_left demo_releases_step l init)
    (λ _, "1.0.0") _ _ _ _ _ _ _ _ _ _ _ _ _).
  - intros l name r. cbn. by destruct (_ !! _); [intros [= ->]|].
  - intros l name e. cbn. by destruct (_ !! _).
  - by intros l path v [= <-].
  - intros l []; intros Hc; rewrite fold_left_app; done.
  - intros l name status r _ Hr. rewrite fold_left_app. cbn. apply map_eq. intros name'.
    destruct (decide (name' = name)) as [->|Hn].
    + by rewrite lookup_alter_eq, lookup_insert_eq, Hr.
    + by rewrite lookup_alter_ne, lookup_insert_ne.
  - intros l ns name path v _. by rewrite fold_left_app.
  - intros l ns name path v n r _ Hr. rewrite fold_left_app. cbn. by rewrite Hr.
  - intros l name _. by rewrite fold_left_app.
  - done.
  - done.
  - intros v _. apply demo_coalesce_self.
  - intros v config _. apply demo_coalesce_again.
  - intros k v config Hk. destruct v as [| | | | | |m], config; try done. by apply setting_absent.
Defined.

(** The release of Cilium is stuck in an upgrade. *)
Definition demo_chart : InstallableChart := mkChart "ck-network" "kube-system" "charts/cilium.tgz".
Definition demo_client : client := mkClient "/snap/k8s/current/k8s/manifests" 10.
Definition demo_stuck : gmap string Release :=
  {["ck-network" := mkRelease "pending-upgrade" (VMap [("devices", VString "eth0"); ("replicas", VInt 1)]) "0.9"]}.
Definition demo_values : value := VMap [("replicas", VInt 2)].
Definition demo_machine : Machine := mkMachine (demo_world []) (mkDB ∅ [] [] ∅) 0 [].
Definition demo_cluster : Outside := demo_helm demo_stuck.
#[local] Existing Instances demo_helm_env demo_cluster.
#[local] Instance demo_cluster_store : HelmStore := demo_helm_store demo_stuck.
Definition demo_apply (desired : State) (s : Machine) : res bool * Machine :=
  Apply demo_client demo_chart desired demo_values s.

Lemma Apply_reaches_desired_witness :
  plain (sanitizeHelmValues demo_values) = true ∧
  demo_apply StatePresent demo_machine = (Ok true, (demo_apply StatePresent demo_machine).2) ∧
  reaches demo_client demo_chart StatePresent demo_values true
    (store demo_machine) (store (demo_apply StatePresent demo_machine).2).
Proof.
  split; [reflexivity|]. split; [vm_compute; reflexivity|].
  apply (Apply_reaches_desired demo_client demo_chart StatePresent demo_values demo_machine);
    [intros _; reflexivity|vm_compute; reflexivity].
Defined.

Lemma Apply_again_changes_nothing_witness :
  store (demo_apply StatePresent (demo_apply StatePresent demo_machine).2).2 =
  store (demo_apply StatePresent demo_machine).2.
Proof.
  apply (Apply_again_changes_nothing demo_client demo_chart StatePresent demo_values demo_machine true
           (demo_apply StatePresent demo_machine).2 false _);
    [reflexivity|vm_compute; reflexivity|vm_compute; reflexivity].
Defined.

End Helm.
