(* ===== verification/Builtin.v ===== *)
(** * CoreDNS, local storage and the metrics server

    pkg/k8sd/features/coredns, localpv and metrics-server: each renders the values of its
    chart from the cluster configuration, applies them with the Helm client and reports a
    [FeatureStatus].  The error of a function is also in the message of its status.

    Here too: what all features share ([degraded], [reported], the check for the resources a
    chart brings) and the readiness of pods (pkg/client/kubernetes/pods.go), which the status
    checks of DNS and network use.

    External: the keys of the annotations ([FeatureAnnotations]). *)

From S2P Require Import Prelude GoStrings FileSys Config Database Effects Snap Helm.
Import GoStr FileSys Config Database Effects Snap Helm.

Module Builtin.

Class FeatureAnnotations := {
  AnnotationImageRepo : string;
  AnnotationImageTag : string;
  AnnotationDevices : string;
  AnnotationDirectRoutingDevice : string;
  AnnotationVLANBPFBypass : string;
  AnnotationCNIExclusive : string;
  AnnotationSCTPEnabled : string;
  AnnotationTunnelPort : string }.

Definition demo_feature_annotations : FeatureAnnotations := {|
  AnnotationImageRepo := "k8sd/v1alpha1/metrics-server/image-repo";
  AnnotationImageTag := "k8sd/v1alpha1/metrics-server/image-tag";
  AnnotationDevices := "k8sd/v1alpha1/cilium/devices";
  AnnotationDirectRoutingDevice := "k8sd/v1alpha1/cilium/direct-routing-device";
  AnnotationVLANBPFBypass := "k8sd/v1alpha1/cilium/vlan-bpf-bypass";
  AnnotationCNIExclusive := "k8sd/v1alpha1/cilium/cni-exclusive";
  AnnotationSCTPEnabled := "k8sd/v1alpha1/cilium/sctp/enabled";
  AnnotationTunnelPort := "k8sd/v1alpha1/cilium/tunnel-port" |}.

(** ** Reports *)

Definition status (enabled : bool) (version message : string) : FeatureStatus :=
  mkFeatureStatus enabled message version 0.

Definition vstrings (l : list string) : value := VList (VString <$> l).
(** A Go slice that may be nil. *)
Definition vslice (l : option (list string)) : value :=
  match l with Some l => vstrings l | None => VNull end.
Definition image (repository tag : string) : value :=
  VMap [("repository", VString repository); ("tag", VString tag)].
Definition venabled (b : bool) : value := VMap [("enabled", VBool b)].

Section Reports.
Context `{SnapEnv}.

(** A failure: the message is the text of the error after a fixed text. *)
Definition degraded (version prefix : string) (e : goerr) : FeatureStatus * option goerr :=
  (status false version (prefix +:+ error_text e), Some e).

(** [m] does the work; every failure is reported in the same way. *)
Definition reported {A} (version prefix : string) (ok : A → FeatureStatus) (m : act A)
    : act (FeatureStatus * option goerr) :=
  r ← act_try m;
  mret (match r with
        | Ok a => (ok a, None)
        | Err e => degraded version prefix e
        end).
End Reports.

(** ** pkg/client/kubernetes/pods.go *)

(** A running pod whose condition [Ready] is true. *)
Definition podIsReady (pod : Pod) : bool :=
  (pod_Phase pod ==? "Running") &&
  existsb (λ condition, (condition.1 ==? "Ready") && (condition.2 ==? "True")) (pod_Conditions pod).

Section Pods.
Context `{Outside}.

Definition CheckForReadyPods (namespace : string) (labels : list (string * string)) : act unit :=
  pods ← act_wrapf "failed to list pods: %w" [] (perform (ListPods namespace labels));
  _ ← act_lift (fails_if (pods ==? [])
        (Errorf "no pods in %v namespace on the cluster" [namespace]));
  let notReadyPods := map pod_Name (List.filter (λ pod, negb (podIsReady pod)) pods) in
  act_lift (fails_if (negb (notReadyPods ==? [])) (Errorf "pods %v not ready" notReadyPods)).

(** The loop of the status checks. *)
Fixpoint check_pods (checks : list (string * string * list (string * string))) : act unit :=
  match checks with
  | [] => mret tt
  | (name, namespace, labels) :: checks =>
      _ ← act_wrapf "%v pods not yet ready: %w" [name] (CheckForReadyPods namespace labels);
      check_pods checks
  end.
Definition check_feature (checks : list (string * string * list (string * string))) : act unit :=
  _ ← act_wrapf "failed to create kubernetes client: %w" [] (perform (KubernetesClient true "kube-system"));
  check_pods checks.
End Pods.

(** ** The resources a chart brings

    [requiredCount] after the resources were counted down. *)
Definition requiredCount (required names : list string) : Z :=
  Z.of_nat (length required) - Z.of_nat (length (List.filter (λ name, bool_decide (name ∈ required)) names)).

(** ** coredns *)

Definition coredns_Chart : InstallableChart :=
  mkChart "ck-dns" "kube-system" (filepath_Join ["charts"; "coredns-1.39.2.tgz"]).
Definition coredns_imageRepo : string := "ghcr.io/canonical/coredns".
Definition coredns_ImageTag : string := "1.14.6-ck0".

Definition plugin (name : string) : value := VMap [("name", VString name)].
Definition plugin_with (name parameters : string) : value :=
  VMap [("name", VString name); ("parameters", VString parameters)].

(** The Corefile. *)
Definition coredns_servers (clusterDomain : string) (upstreamNameservers : list string) : value :=
  VList [VMap
    [("zones", VList [VMap [("zone", VString ".")]]);
     ("port", VInt 53);
     ("plugins", VList
        [plugin "errors";
         VMap [("name", VString "health"); ("configBlock", VString "lameduck 5s")];
         plugin "ready";
         VMap [("name", VString "kubernetes");
               ("parameters", VString (clusterDomain +:+ " in-addr.arpa ip6.arpa"));
               ("configBlock", VString ("pods insecure" +:+ one newline +:+
                  "fallthrough in-addr.arpa ip6.arpa" +:+ one newline +:+ "ttl 30"))];
         plugin_with "prometheus" "0.0.0.0:9153";
         plugin_with "forward" (". " +:+ join " " upstreamNameservers);
         plugin_with "cache" "30";
         plugin "loop"; plugin "reload"; plugin "loadbalance"])]].

Definition coredns_labels : value :=
  VMap [("app.kubernetes.io/name", VString "coredns");
        ("app.kubernetes.io/instance", VString "ck-dns");
        ("k8s-app", VString "coredns")].
Definition coredns_affinity : value :=
  VMap [("podAntiAffinity", VMap [("preferredDuringSchedulingIgnoredDuringExecution", VList [VMap
    [("weight", VInt 100);
     ("podAffinityTerm", VMap
        [("labelSelector", VMap [("matchLabels", coredns_labels)]);
         ("topologyKey", VString "kubernetes.io/hostname")])]])])].
Definition coredns_spread (topologyKey : string) : value :=
  VMap [("maxSkew", VInt 1);
        ("topologyKey", VString topologyKey);
        ("whenUnsatisfiable", VString "ScheduleAnyway");
        ("labelSelector", VMap [("matchLabels", coredns_labels)]);
        ("matchLabelKeys", vstrings ["pod-template-hash"])].
Definition coredns_metric (name : string) (averageUtilization : Z) : value :=
  VMap [("type", VString "Resource");
        ("resource", VMap
           [("name", VString name);
            ("target", VMap [("type", VString "Utilization");
                             ("averageUtilization", VInt averageUtilization)])])].

Definition coredns_values (dns : DNS) (kubelet : Kubelet) : value :=
  VMap
   [("image", image coredns_imageRepo coredns_ImageTag);
    ("service", VMap [("name", VString "coredns"); ("clusterIP", VString (Kubelet_GetClusterDNS kubelet))]);
    ("serviceAccount", VMap [("create", VBool true); ("name", VString "coredns")]);
    ("priorityClassName", VString "system-node-critical");
    ("tolerations", VList [VMap
       [("key", VString "node-role.kubernetes.io/control-plane");
        ("operator", VString "Exists");
        ("effect", VString "NoSchedule")]]);
    ("deployment", VMap [("name", VString "coredns")]);
    ("servers", coredns_servers (Kubelet_GetClusterDomain kubelet) (DNS_GetUpstreamNameservers dns));
    ("affinity", coredns_affinity);
    ("topologySpreadConstraints",
      VList [coredns_spread "topology.kubernetes.io/zone"; coredns_spread "kubernetes.io/hostname"]);
    ("podDisruptionBudget", VMap [("minAvailable", VInt 1)]);
    ("hpa", VMap
       [("enabled", VBool true); ("minReplicas", VInt 2); ("maxReplicas", VInt 100);
        ("metrics", VList [coredns_metric "cpu" 80; coredns_metric "memory" 70])]);
    ("securityContext", VMap
       [("allowPrivilegeEscalation", VBool true);
        ("readOnlyRootFilesystem", VBool false);
        ("capabilities", VMap [("drop", VList [])])])].

Section Features.
Context `{HelmEnv, SnapEnv, FeatureAnnotations, Outside}.

(** [client.GetServiceClusterIP] of pkg/client/kubernetes/services.go. *)
Definition k8s_GetServiceClusterIP (name namespace : string) : act string :=
  act_wrapf "failed to get service '%s' in namespace '%s': %w" [name; namespace]
    (perform (GetServiceClusterIP name namespace)).

Definition enable_dns (h : client) (dns : DNS) (kubelet : Kubelet) : act string :=
  _ ← act_wrapf "failed to apply coredns: %w" []
        (Apply h coredns_Chart StatePresent (coredns_values dns kubelet));
  _ ← act_wrapf "failed to create kubernetes client: %w" [] (perform (KubernetesClient true EmptyString));
  act_wrapf "failed to retrieve the coredns service: %w" [] (k8s_GetServiceClusterIP "coredns" "kube-system").

Definition ApplyDNS (h : client) (dns : DNS) (kubelet : Kubelet) : act (FeatureStatus * string * option goerr) :=
  if negb (DNS_GetEnabled dns) then
    r ← act_try (act_wrapf "failed to uninstall coredns: %w" [] (Apply h coredns_Chart StateDeleted VNull));
    mret (match r with
          | Err e => let '(st, err) := degraded coredns_ImageTag "Failed to delete DNS, the error was: " e in
                     (st, EmptyString, err)
          | Ok _ => (status false coredns_ImageTag "disabled", EmptyString, None)
          end)
  else
    r ← act_try (enable_dns h dns kubelet);
    mret (match r with
          | Err e => let '(st, err) := degraded coredns_ImageTag "Failed to deploy DNS, the error was: " e in
                     (st, EmptyString, err)
          | Ok dnsIP => (status true coredns_ImageTag ("enabled at " +:+ dnsIP), dnsIP, None)
          end).

Definition CheckDNS : act unit :=
  check_feature [("coredns", "kube-system", [("app.kubernetes.io/name", "coredns")])].

(** ** localpv *)

Definition localpv_Chart : InstallableChart :=
  mkChart "ck-storage" "kube-system" (filepath_Join ["charts"; "rawfile-csi-0.9.2.tgz"]).
Definition localpv_imageRepo : string := "ghcr.io/canonical/rawfile-localpv".
Definition localpv_ImageTag : string := "0.8.3-ck2".
Definition csiNodeDriverImage : string := "ghcr.io/canonical/csi-node-driver-registrar:2.16.0-ck1".
Definition csiProvisionerImage : string := "ghcr.io/canonical/csi-provisioner:6.2.0-ck1".
Definition csiResizerImage : string := "ghcr.io/canonical/csi-resizer:2.1.0-ck1".
Definition csiSnapshotterImage : string := "ghcr.io/canonical/csi-snapshotter:8.5.0-ck1".

Definition localpv_values (cfg : LocalStorage) : value :=
  VMap
   [("storageClass", VMap
       [("enabled", VBool true);
        ("isDefault", VBool (LocalStorage_GetDefault cfg));
        ("reclaimPolicy", VString (LocalStorage_GetReclaimPolicy cfg));
        ("allowVolumeExpansion", VBool false)]);
    ("serviceMonitor", venabled false);
    ("controller", VMap
       [("csiDriverArgs", vstrings ["--args"; "rawfile"; "csi-driver"; "--disable-metrics"]);
        ("image", image localpv_imageRepo localpv_ImageTag)]);
    ("node", VMap
       [("image", image localpv_imageRepo localpv_ImageTag);
        ("storage", VMap [("path", VString (LocalStorage_GetLocalPath cfg))])]);
    ("images", VMap
       [("csiNodeDriverRegistrar", VString csiNodeDriverImage);
        ("csiProvisioner", VString csiProvisionerImage);
        ("csiResizer", VString csiResizerImage);
        ("csiSnapshotter", VString csiSnapshotterImage)])].

Definition ApplyLocalStorage (h : client) (cfg : LocalStorage) : act (FeatureStatus * option goerr) :=
  r ← act_try (Apply h localpv_Chart (StatePresentOrDeleted (LocalStorage_GetEnabled cfg)) (localpv_values cfg));
  mret (match r with
        | Err e =>
            if LocalStorage_GetEnabled cfg
            then degraded localpv_ImageTag "Failed to deploy Local Storage, the error was: "
                   (Wrapf "failed to install rawfile-csi helm package: %w" [] e)
            else degraded localpv_ImageTag "Failed to delete Local Storage, the error was: "
                   (Wrapf "failed to delete rawfile-csi helm package: %w" [] e)
        | Ok _ =>
            if LocalStorage_GetEnabled cfg
            then (status true localpv_ImageTag ("enabled at " +:+ LocalStorage_GetLocalPath cfg), None)
            else (status false localpv_ImageTag "disabled", None)
        end).

(** ** metrics-server *)

Definition metrics_chart : InstallableChart :=
  mkChart "metrics-server" "kube-system" (filepath_Join ["charts"; "metrics-server-3.12.2.tgz"]).
Definition metrics_imageRepo : string := "ghcr.io/canonical/metrics-server".
Definition metrics_imageTag : string := "0.9.0-ck0".

(** The repository and the tag of the image. *)
Definition metrics_internalConfig (annotations : Annotations) : string * string :=
  (match Annotations_Get annotations AnnotationImageRepo with
   | (v, true) => v | _ => metrics_imageRepo end,
   match Annotations_Get annotations AnnotationImageTag with
   | (v, true) => v | _ => metrics_imageTag end).
Definition metrics_values (config : string * string) : value :=
  VMap [("image", image config.1 config.2);
        ("securityContext", VMap [("readOnlyRootFilesystem", VBool false)])].

Definition ApplyMetricsServer (h : client) (cfg : MetricsServer) (annotations : Annotations)
    : act (FeatureStatus * option goerr) :=
  r ← act_try (Apply h metrics_chart (StatePresentOrDeleted (MetricsServer_GetEnabled cfg))
                 (metrics_values (metrics_internalConfig annotations)));
  mret (match r with
        | Err e =>
            if MetricsServer_GetEnabled cfg
            then degraded metrics_imageTag "Failed to deploy Metrics Server, the error was: "
                   (Wrapf "failed to install metrics server chart: %w" [] e)
            else degraded metrics_imageTag "Failed to delete Metrics Server, the error was: "
                   (Wrapf "failed to delete metrics server chart: %w" [] e)
        | Ok _ =>
            if MetricsServer_GetEnabled cfg
            then (status true metrics_imageTag "enabled", None)
            else (status false metrics_imageTag "disabled", None)
        end).
End Features.
End Builtin.
