(* ===== verification/Cilium.v ===== *)
(** * The Cilium features

    pkg/k8sd/features/cilium: network.go deploys Cilium, gateway.go, ingress.go and
    loadbalancer.go change the configuration of the deployed chart; internal.go reads the
    annotations of the network; cleanup.go and status.go; pkg/utils/netlink.go lists the VXLAN
    links, and [GetMountPath] and [GetMountPropagationType] of pkg/utils/file.go look at the
    mounts.

    External: YAML, which the output of [ip] is parsed as ([CiliumEnv]). *)

From S2P Require Import Prelude GoStrings GoNet Cidr Config FileSys Arguments Database Effects Snap Helm.
From S2P Require Import Cleanup Builtin.
Import GoStr GoNet Cidr Config FileSys Arguments Database Effects Snap Helm Builtin.

Module Cilium.

Class CiliumEnv := {
  (** The links of the output of [ip -d -j link list type vxlan]. *)
  yaml_links : string → res (list IpLink) }.

(** ** chart.go *)

Definition ChartCilium : InstallableChart :=
  mkChart "ck-network" "kube-system" (filepath_Join ["charts"; "cilium-1.19.4.tgz"]).
Definition ChartCiliumLoadBalancer : InstallableChart :=
  mkChart "ck-loadbalancer" "kube-system" (filepath_Join ["charts"; "ck-loadbalancer"]).
Definition chartGateway : InstallableChart :=
  mkChart "ck-gateway" "kube-system" (filepath_Join ["charts"; "gateway-api-1.4.1.tgz"]).
Definition chartGatewayClass : InstallableChart :=
  mkChart "ck-gateway-class" "default" (filepath_Join ["charts"; "ck-gateway-cilium"]).
Definition ciliumAgentImageRepo : string := "ghcr.io/canonical/cilium".
Definition CiliumAgentImageTag : string := "1.19.4-ck1".
Definition ciliumOperatorImageRepo : string := "ghcr.io/canonical/cilium-operator".
Definition ciliumOperatorImageTag : string := "1.19.4-ck1".
Definition ciliumDefaultVXLANPort : Z := 8472.
Definition ciliumVXLANDeviceName : string := "cilium_vxlan".

(** ** internal.go *)

Definition minVLANIDValue : Z := 0.
Definition maxVLANIDValue : Z := 4094.

Record config := mkConfig {
  devices : string;
  directRoutingDevice : string;
  vlanBPFBypass : option (list Z);
  cniExclusive : bool;
  sctpEnabled : bool;
  tunnelPort : Z }.

Definition validatePort (portStr : string) : res Z :=
  match ParseInt64 portStr with
  | Err _ => Err (Errorf "invalid port: not a number" [])
  | Ok port =>
      if (port <? 1)%Z || (65535 <? port)%Z then Err (Errorf "invalid port: out of range" []) else Ok port
  end.

(** [strings.Trim(s, cutset)] for a set of one-byte characters. *)
Fixpoint trim_set_left (cutset : ascii → bool) (s : string) : string :=
  match s with
  | EmptyString => EmptyString
  | String a s' => if cutset a then trim_set_left cutset s' else s
  end.
Definition trim_set (cutset : ascii → bool) (s : string) : string :=
  String.rev (trim_set_left cutset (String.rev (trim_set_left cutset s))).
Definition brace (a : ascii) : bool := byte_is 123 a || byte_is 125 a.
Definition bracket (a : ascii) : bool := byte_is 91 a || byte_is 93 a.

(** [seenTags] are the tags of [vlanTags]. *)
Fixpoint vlan_loop (vlans : list string) (vlanTags : list Z) : res (list Z) :=
  match vlans with
  | [] => Ok vlanTags
  | vlan :: vlans =>
      vlanID ← wrapf "failed to parse VLAN tag: %w" [] (ParseInt64 (TrimSpace vlan));
      _ ← fails_if ((vlanID <? minVLANIDValue)%Z || (maxVLANIDValue <? vlanID)%Z)
            (Errorf "VLAN tag must be between 0 and %d" [Itoa maxVLANIDValue]);
      vlan_loop vlans (if bool_decide (vlanID ∈ vlanTags) then vlanTags else vlanTags ++ [vlanID])
  end.
Definition validateVLANBPFBypass (vlanList : string) : res (list Z) :=
  let vlans := split "," (trim_set brace (TrimSpace vlanList)) in
  vlanTags ← vlan_loop vlans [];
  Ok (merge_sort Z.le vlanTags).

Section Cilium.
Context `{HelmEnv, SnapEnv, FeatureAnnotations, CiliumEnv, Outside}.

(** An annotation that is looked up in the map itself. *)
Definition annotation (annotations : Annotations) (key : string) : option string :=
  match annotations with Some m => m !! key | None => None end.
Definition get (annotations : Annotations) (key : string) : option string :=
  match Annotations_Get annotations key with (v, true) => Some v | _ => None end.

Definition internalConfig (annotations : Annotations) : res config :=
  vlans ← (match annotation annotations AnnotationVLANBPFBypass with
           | Some v =>
               vlanTags ← wrapf "failed to parse VLAN BPF bypass list: %w" [] (validateVLANBPFBypass v);
               Ok (Some vlanTags)
           | None => Ok None
           end);
  port ← (match get annotations AnnotationTunnelPort with
          | Some v => wrapf "failed to parse Tunnel encapsulation port: %w" [] (validatePort v)
          | None => Ok ciliumDefaultVXLANPort
          end);
  Ok (mkConfig (default EmptyString (get annotations AnnotationDevices))
        (default EmptyString (get annotations AnnotationDirectRoutingDevice)) vlans
        (bool_decide (is_Some (get annotations AnnotationCNIExclusive)))
        (bool_decide (is_Some (get annotations AnnotationSCTPEnabled))) port).

(** ** pkg/utils/netlink.go and file.go *)

Fixpoint vxlan_loop (links : list IpLink) : act (list IpLink) :=
  match links with
  | [] => mret []
  | link :: links =>
      if link_IfName link ==? EmptyString then vxlan_loop links
      else
        _ ← act_wrapf "returning interface by name failed: %w" [] (perform (InterfaceByName (link_IfName link)));
        rest ← vxlan_loop links;
        mret (link :: rest)
  end.
Definition ListVXLANInterfaces : act (list IpLink) :=
  r ← act_try (perform (CommandOutput ["ip"; "-d"; "-j"; "link"; "list"; "type"; "vxlan"]));
  match r with
  | Err _ => act_lift (Err (Errorf "running ip command failed: %s" []))
  | Ok out =>
      ipLinks ← act_wrapf "unmarshaling ip command output failed: %w" [] (act_lift (yaml_links out));
      vxlan_loop ipLinks
  end.

Definition ErrUnknownMount : goerr := Errorf "mount is unknown" [].
Definition GetMountPath (fsType : string) : act string :=
  mounts ← act_wrapf "failed to find the mount info for %s: %w" [fsType] (perform (MountPoints fsType));
  act_lift (match mounts with [] => Err ErrUnknownMount | mount :: _ => Ok mount end).

Inductive MountPropagationType := MountPropagationShared | MountPropagationPrivate.
Definition GetMountPropagationType (path : string) : act MountPropagationType :=
  mounts ← act_wrapf "failed to get mounts: %w" [] (perform (MountOptional path));
  act_lift (match mounts with
            | [] => Err ErrUnknownMount
            | optional :: _ => Ok (if Cleanup.contains "shared" optional
                                   then MountPropagationShared else MountPropagationPrivate)
            end).

(** ** network.go *)

Definition conflicting (port : Z) (link : IpLink) : bool :=
  match link_Port link with
  | None => false
  | Some devicePort => (devicePort ==? port) && (link_IfName link !=? ciliumVXLANDeviceName)
  end.
Definition checkAndSanitizeCiliumVXLAN (port : Z) : act unit :=
  vxlanDevices ← act_wrapf "listing vxlan interfaces failed: %w" [] ListVXLANInterfaces;
  act_lift (match List.find (conflicting port) vxlanDevices with
            | Some link => Err (Errorf
                "interface %s uses the same destination port as cilium. Please consider changing the Cilium tunnel port"
                [link_IfName link])
            | None => Ok tt
            end).

Definition rolloutRestartCilium (attempts : Z) : act unit :=
  _ ← act_wrapf "failed to create kubernetes client: %w" [] (perform (KubernetesClient true EmptyString));
  _ ← act_wrapf "failed to restart cilium-operator deployment after %d attempts: %w" [Itoa attempts]
        (retryFor attempts 0 (act_wrapf "failed to restart cilium-operator deployment: %w" []
           (perform (RestartDeployment "cilium-operator" "kube-system"))));
  act_wrapf "failed to restart cilium daemonset after %d attempts: %w" [Itoa attempts]
    (retryFor attempts 0 (act_wrapf "failed to restart cilium daemonset: %w" []
       (perform (RestartDaemonset "cilium" "kube-system")))).

(** The values that do not depend on the confinement of the snap. *)
Definition network_values (c : config) (localhostAddress : IP) (securePort : Z) (ipv4CIDR ipv6CIDR : string)
    : list (string * value) :=
  [("image", VMap [("repository", VString ciliumAgentImageRepo); ("tag", VString CiliumAgentImageTag);
                   ("useDigest", VBool false)]);
   ("socketLB", venabled true);
   ("cni", VMap [("confPath", VString "/etc/cni/net.d"); ("binPath", VString "/opt/cni/bin");
                 ("exclusive", VBool (cniExclusive c)); ("chainingMode", VString "portmap")]);
   ("sctp", venabled (sctpEnabled c));
   ("operator", VMap
      [("replicas", VInt 1);
       ("image", VMap [("repository", VString ciliumOperatorImageRepo); ("tag", VString ciliumOperatorImageTag);
                       ("useDigest", VBool false)])]);
   ("ipv4", venabled (ipv4CIDR !=? EmptyString));
   ("ipv6", venabled (ipv6CIDR !=? EmptyString));
   ("ipam", VMap [("operator", VMap
      [("clusterPoolIPv4PodCIDRList", VString ipv4CIDR); ("clusterPoolIPv6PodCIDRList", VString ipv6CIDR)])]);
   ("envoy", venabled false);
   ("kubeProxyReplacement", VBool true);
   ("nodePort", VMap
      ([("enabled", VBool true); ("enableHealthCheck", VBool true)] ++
       (if directRoutingDevice c ==? EmptyString then []
        else [("directRoutingDevice", VString (directRoutingDevice c))])));
   ("disableEnvoyVersionCheck", VBool true);
   ("k8sServiceHost", VString (trim_set bracket (IP_String localhostAddress)));
   ("k8sServicePort", VInt securePort);
   ("enableRuntimeDeviceDetection", VBool true);
   ("sessionAffinity", VBool true);
   ("loadBalancer", VMap [("protocolDifferentiation", venabled true)]);
   ("tunnelPort", VInt (tunnelPort c))] ++
  (if (ipv4CIDR ==? EmptyString) && (ipv6CIDR !=? EmptyString)
   then [("routingMode", VString "tunnel"); ("ipv6NativeRoutingCIDR", VString EmptyString);
         ("autoDirectNodeRoutes", VBool false)]
   else []) ++
  (if devices c ==? EmptyString then [] else [("devices", VString (devices c))]).

(** [values["bpf"]] is replaced when the snap is strict. *)
Definition strict_values (bpfMnt cgrMnt : string) : list (string * value) :=
  [("bpf", VMap [("autoMount", venabled false); ("root", VString bpfMnt)]);
   ("cgroup", VMap [("autoMount", venabled false); ("hostRoot", VString cgrMnt)])].
Definition bpf_values (c : config) : list (string * value) :=
  [("bpf", VMap (match vlanBPFBypass c with
                 | Some vlans => [("vlanBypass", VList (VInt <$> vlans))]
                 | None => []
                 end))].

(** What the mounts of the node ask for, or an error if they are not as Cilium needs them. *)
Definition mount_values (s : SnapI) (c : config) : act (list (string * value)) :=
  if Strict s then
    bpfMnt ← act_wrapf "failed to get bpf mount path: %w" [] (GetMountPath "bpf");
    cgrMnt ← act_wrapf "failed to get cgroup2 mount path: %w" [] (GetMountPath "cgroup2");
    mret (strict_values bpfMnt cgrMnt)
  else
    pt ← act_wrapf "failed to get mount propagation type for /sys: %w" [] (GetMountPropagationType "/sys");
    match pt with
    | MountPropagationPrivate =>
        act_lift (Err (match OnLXD s with
          | Ok true => Errorf "/sys is not a shared mount on the LXD container, this might be resolved by updating LXD on the host to version 5.0.2 or newer" []
          | _ => Errorf "/sys is not a shared mount" []
          end))
    | MountPropagationShared => mret (bpf_values c)
    end.

(** [hostname] is the host of the address of this member of the cluster. *)
Definition enable_network (lo : res (res (list string))) (h : client) (s : SnapI) (hostname : string)
    (apiserver : APIServer) (network : Network) (annotations : Annotations) : act unit :=
  c ← act_wrapf "failed to parse annotations: %w" [] (act_lift (internalConfig annotations));
  localhostAddress ← act_wrapf "failed to determine localhost address: %w" [] (act_lift (GetLocalhostAddress lo));
  _ ← act_lift (fails_if (bool_decide (ParseIP hostname = None))
        (Errorf "failed to parse node IP address %q" [hostname]));
  cidrs ← act_wrapf "invalid kube-proxy --cluster-cidr value: %w" []
            (act_lift (SplitCIDRStrings (Network_GetPodCIDR network)));
  _ ← checkAndSanitizeCiliumVXLAN (tunnelPort c);
  mounts ← mount_values s c;
  _ ← act_wrapf "failed to enable network: %w" []
        (Apply h ChartCilium StatePresent
           (VMap (mounts ++ network_values c localhostAddress (APIServer_GetSecurePort apiserver) cidrs.1 cidrs.2)));
  act_wrapf "failed to rollout restart cilium to apply new network configuration: %w" []
    (rolloutRestartCilium 3).

Definition ApplyNetwork (lo : res (res (list string))) (h : client) (s : SnapI) (hostname : string)
    (apiserver : APIServer) (network : Network) (annotations : Annotations) : act (FeatureStatus * option goerr) :=
  if negb (Network_GetEnabled network) then
    reported CiliumAgentImageTag "Failed to delete Cilium Network, the error was: "
      (λ _, status false CiliumAgentImageTag "disabled")
      (act_wrapf "failed to uninstall network: %w" [] (Apply h ChartCilium StateDeleted VNull))
  else
    reported CiliumAgentImageTag "Failed to deploy Cilium Network, the error was: "
      (λ _, status true CiliumAgentImageTag "enabled")
      (enable_network lo h s hostname apiserver network annotations).

(** ** gateway.go *)

Definition gateway_values : value :=
  VMap [("gatewayAPI", VMap [("enabled", VBool true); ("gatewayClass", VMap [("create", VString "false")])])].

Definition enableGateway (h : client) : act (FeatureStatus * option goerr) :=
  reported CiliumAgentImageTag "Failed to deploy Cilium Gateway, the error was "
    (λ _, status true CiliumAgentImageTag "enabled")
    (_ ← act_wrapf "failed to install Gateway API CRDs: %w" [] (Apply h chartGateway StatePresent VNull);
     _ ← act_wrapf "failed to install Gateway API GatewayClass: %w" []
           (Apply h chartGatewayClass StatePresent VNull);
     changed ← act_wrapf "failed to upgrade Gateway API cilium configuration: %w" []
                 (Apply h ChartCilium StateUpgradeOnly gateway_values);
     if negb changed then mret tt
     else act_wrapf "failed to rollout restart cilium to enable Gateway API: %w" [] (rolloutRestartCilium 3)).

(** The removal, and whether Cilium changed by it. *)
Definition remove_gateway (h : client) (network : Network) : act bool :=
  _ ← act_wrapf "failed to delete Gateway API GatewayClass: %w" [] (Apply h chartGatewayClass StateDeleted VNull);
  changed ← act_wrapf "failed to delete Gateway API cilium configuration: %w" []
              (Apply h ChartCilium (StateUpgradeOnlyOrDeleted (Network_GetEnabled network))
                 (VMap [("gatewayAPI", venabled false)]));
  _ ← act_wrapf "failed to delete Gateway API CRDs: %w" [] (Apply h chartGateway StateDeleted VNull);
  mret changed.

Definition disableGateway (h : client) (network : Network) : act (FeatureStatus * option goerr) :=
  r ← act_try (remove_gateway h network);
  match r with
  | Err e => mret (degraded CiliumAgentImageTag "Failed to delete Cilium Gateway, the error was " e)
  | Ok changed =>
      reported CiliumAgentImageTag "Failed to deploy Cilium Gateway, the error was "
        (λ _, status false CiliumAgentImageTag "disabled")
        (if negb changed then mret tt
         else act_wrapf "failed to rollout restart cilium to disable Gateway API: %w" [] (rolloutRestartCilium 3))
  end.

Definition ApplyGateway (h : client) (gateway : Gateway) (network : Network) : act (FeatureStatus * option goerr) :=
  if Gateway_GetEnabled gateway then enableGateway h else disableGateway h network.

(** ** ingress.go *)

Definition ingress_options (enabled : bool) (loadbalancerMode secretNamespace secretName : string)
    (enableProxyProtocol : bool) : value :=
  VMap [("ingressController", VMap
    [("enabled", VBool enabled); ("loadbalancerMode", VString loadbalancerMode);
     ("defaultSecretNamespace", VString secretNamespace); ("defaultSecretName", VString secretName);
     ("enableProxyProtocol", VBool enableProxyProtocol)])].
Definition ingress_values (ingress : Ingress) : value :=
  if Ingress_GetEnabled ingress
  then ingress_options true "shared" "kube-system" (Ingress_GetDefaultTLSSecret ingress)
         (Ingress_GetEnableProxyProtocol ingress)
  else ingress_options false EmptyString EmptyString EmptyString false.

Definition ApplyIngress (h : client) (ingress : Ingress) (network : Network)
    : act (FeatureStatus * option goerr) :=
  r ← act_try (Apply h ChartCilium (StateUpgradeOnlyOrDeleted (Network_GetEnabled network)) (ingress_values ingress));
  match r with
  | Err e =>
      mret (if Network_GetEnabled network
            then degraded CiliumAgentImageTag "Failed to deploy Cilium Ingress, the error was: "
                   (Wrapf "failed to enable ingress: %w" [] e)
            else degraded CiliumAgentImageTag "Failed to delete Cilium Ingress, the error was: "
                   (Wrapf "failed to disable ingress: %w" [] e))
  | Ok changed =>
      if negb changed then
        mret (if Ingress_GetEnabled ingress then (status true CiliumAgentImageTag "enabled", None)
              else (status false CiliumAgentImageTag "disabled", None))
      else if negb (Ingress_GetEnabled ingress) then
        mret (status false CiliumAgentImageTag "disabled", None)
      else
        reported CiliumAgentImageTag "Failed to deploy Cilium Ingress, the error was: "
          (λ _, status true CiliumAgentImageTag "enabled")
          (act_wrapf "failed to rollout restart cilium to apply ingress: %w" [] (rolloutRestartCilium 3))
  end.

(** ** loadbalancer.go *)

Definition lb_network_values (l2 bgp externalIPs : bool) (qps burst : Z) : value :=
  VMap [("l2announcements", venabled l2); ("bgpControlPlane", venabled bgp);
        ("externalIPs", venabled externalIPs);
        ("k8sClientRateLimit", VMap [("qps", VInt qps); ("burst", VInt burst)])].

Definition lb_cidrs (lb : LoadBalancer) : value :=
  VList (map (λ cidr, VMap [("cidr", VString cidr)]) (LoadBalancer_GetCIDRs lb) ++
         map (λ r, VMap [("start", VString (LoadBalancer_IPRange_Start r)); ("stop", VString (LoadBalancer_IPRange_Stop r))])
           (LoadBalancer_GetIPRanges lb)).

Definition lb_values (lb : LoadBalancer) : value :=
  VMap
   [("driver", VString "cilium");
    ("l2", VMap [("enabled", VBool (LoadBalancer_GetL2Mode lb));
                 ("interfaces", vslice (LoadBalancer_L2Interfaces lb))]);
    ("ipPool", VMap [("cidrs", lb_cidrs lb)]);
    ("bgp", VMap
       [("enabled", VBool (LoadBalancer_GetBGPMode lb));
        ("localASN", VInt (LoadBalancer_GetBGPLocalASN lb));
        ("neighbors", VList [VMap
           [("peerAddress", VString (LoadBalancer_GetBGPPeerAddress lb));
            ("peerASN", VInt (LoadBalancer_GetBGPPeerASN lb));
            ("peerPort", VInt (LoadBalancer_GetBGPPeerPort lb))]])])].

(** [client.ListResourcesForGroupVersion] of pkg/client/kubernetes/server_groups.go. *)
Definition k8s_ListResourcesForGroupVersion (groupVersion : string) : act (list string) :=
  act_wrapf "failed to fetch server resources for %s: %w" [groupVersion]
    (perform (ListResourcesForGroupVersion groupVersion)).

Definition cilium_required (bgpMode : bool) : list string :=
  ["ciliuml2announcementpolicies"; "ciliumloadbalancerippools"] ++
  (if bgpMode then ["ciliumbgppeeringpolicies"] else []).
Definition cilium_ready (bgpMode : bool) : act bool :=
  resources ← act_try (k8s_ListResourcesForGroupVersion "cilium.io/v2alpha1");
  mret (match resources with
        | Err _ => false
        | Ok names => (requiredCount (cilium_required bgpMode) names =? 0)%Z
        end).
Definition waitForRequiredLoadBalancerCRDs (ticks : nat) (bgpMode : bool) : act unit :=
  _ ← act_wrapf "failed to create Kubernetes client: %w" [] (perform (KubernetesClient true EmptyString));
  WaitUntilReady ticks (cilium_ready bgpMode).

Definition disableLoadBalancer (h : client) (network : Network) : act unit :=
  _ ← act_wrapf "failed to uninstall LoadBalancer manifests: %w" []
        (Apply h ChartCiliumLoadBalancer StateDeleted VNull);
  _ ← act_wrapf "failed to refresh network to apply LoadBalancer configuration: %w" []
        (Apply h ChartCilium (StateUpgradeOnlyOrDeleted (Network_GetEnabled network))
           (lb_network_values false false false 5 10));
  mret tt.

Definition enableLoadBalancer (ticks : nat) (h : client) (lb : LoadBalancer) (network : Network) : act unit :=
  changed ← act_wrapf "failed to update Cilium configuration for LoadBalancer: %w" []
              (Apply h ChartCilium (StateUpgradeOnlyOrDeleted (Network_GetEnabled network))
                 (lb_network_values (LoadBalancer_GetL2Mode lb) (LoadBalancer_GetBGPMode lb) true 10 20));
  _ ← act_wrapf "failed to wait for required Cilium CRDs to be available: %w" []
        (waitForRequiredLoadBalancerCRDs ticks (LoadBalancer_GetBGPMode lb));
  _ ← act_wrapf "failed to apply LoadBalancer configuration: %w" []
        (Apply h ChartCiliumLoadBalancer StatePresent (lb_values lb));
  if negb changed then mret tt
  else act_wrapf "failed to rollout restart cilium to apply LoadBalancer configuration: %w" []
         (rolloutRestartCilium 3).

Definition lb_mode (lb : LoadBalancer) : string :=
  if LoadBalancer_GetBGPMode lb then "enabled, BGP mode"
  else if LoadBalancer_GetL2Mode lb then "enabled, L2 mode" else "enabled, Unknown mode".

Definition ApplyLoadBalancer (ticks : nat) (h : client) (lb : LoadBalancer) (network : Network)
    : act (FeatureStatus * option goerr) :=
  if negb (LoadBalancer_GetEnabled lb) then
    reported CiliumAgentImageTag "Failed to delete Cilium Load Balancer, the error was: "
      (λ _, status false CiliumAgentImageTag "disabled")
      (act_wrapf "failed to disable LoadBalancer: %w" [] (disableLoadBalancer h network))
  else
    reported CiliumAgentImageTag "Failed to deploy Cilium Load Balancer, the error was: "
      (λ _, status true CiliumAgentImageTag (lb_mode lb))
      (act_wrapf "failed to enable LoadBalancer: %w" [] (enableLoadBalancer ticks h lb network)).

(** ** status.go and cleanup.go *)

Definition CheckNetwork : act unit :=
  check_feature
    [("cilium-operator", "kube-system", [("io.cilium/app", "operator")]);
     ("cilium", "kube-system", [("k8s-app", "cilium")])].

(** [strings.ToLower], as a search for the word cilium sees it: besides the ASCII letters,
    U+0130 is the only character that becomes a letter of the word. *)
Definition to_lower (a : ascii) : ascii :=
  if byte_in 65 90 a then ascii_of_N (N_of_ascii a + 32) else a.
Fixpoint ToLower (s : string) : string :=
  match s with
  | EmptyString => EmptyString
  | String a s1 =>
      match s1 with
      | String b s2 =>
          if byte_is 196 a && byte_is 176 b then String "i" (ToLower s2) else String (to_lower a) (ToLower s1)
      | EmptyString => String (to_lower a) EmptyString
      end
  end.

(** Lines that mention Cilium are emptied. *)
Definition without_cilium (rules : string) : string :=
  join (one newline)
    (map (λ line, if Cleanup.contains "cilium" (ToLower line) then EmptyString else line) (split newline rules)).
Fixpoint clean_iptables (cmds : list string) : act unit :=
  match cmds with
  | [] => mret tt
  | cmd :: cmds =>
      out ← act_wrapf "failed to read iptables rules: %w" [] (perform (CommandOutput [cmd +:+ "-save"]));
      _ ← act_wrapf "failed to restore iptables rules: %w" []
            (perform (RunWithInput [cmd +:+ "-restore"] (without_cilium out)));
      clean_iptables cmds
  end.
Definition CleanupNetwork : act unit :=
  _ ← act_logged (perform (Remove "/var/run/cilium/cilium.pid"));
  r ← act_try (perform (Stat "/opt/cni/bin/cilium-dbg"));
  _ ← (if is_ok r
       then act_wrapf "cilium-dbg cleanup failed: %w" []
              (perform (RunCommand ["/opt/cni/bin/cilium-dbg"; "post-uninstall-cleanup"; "--all-state"; "--force"]))
       else mret tt);
  clean_iptables ["iptables"; "ip6tables"; "iptables-legacy"; "ip6tables-legacy"].
End Cilium.
End Cilium.
