(* ===== verification/MetalLB.v ===== *)
(** * The load balancer

    pkg/k8sd/features/metallb/loadbalancer.go: MetalLB with one BGP peer from the typed keys of
    the configuration, or with any number of them from an annotation, which replaces them.

    External: YAML ([MetalLBEnv]); a peer of the annotation has the fields of the struct it is
    parsed into. *)

From S2P Require Import Prelude GoStrings GoNet Config FileSys Database Effects Snap Helm Builtin Cilium.
Import GoStr GoNet Config FileSys Database Effects Snap Helm Builtin.

Module MetalLB.

Definition ChartMetalLB : InstallableChart :=
  mkChart "metallb" "metallb-system" (filepath_Join ["charts"; "metallb-0.16.1.tgz"]).
Definition ChartMetalLBLoadBalancer : InstallableChart :=
  mkChart "metallb-loadbalancer" "metallb-system" (filepath_Join ["charts"; "ck-loadbalancer"]).
Definition controllerImageRepo : string := "ghcr.io/canonical/metallb-controller".
Definition ControllerImageTag : string := "v0.16.1-ck0".
Definition speakerImageRepo : string := "ghcr.io/canonical/metallb-speaker".
Definition speakerImageTag : string := "v0.16.1-ck0".

(** [nodeSelector] is a Go map; an empty one and a nil one are not told apart. *)
Record bgpNeighbor := mkNeighbor {
  peerAddress : string;
  peerASN : Z;
  peerPort : Z;
  myASN : Z;
  nodeSelector : gmap string string }.

Class MetalLBEnv := {
  yaml_peers : string → res (list bgpNeighbor) }.

Definition out_of (lo hi n : Z) : bool := (n <? lo)%Z || (hi <? n)%Z.

Definition validate_neighbor (i : nat) (n : bgpNeighbor) : res unit :=
  _ ← fails_if (out_of 1 4294967295 (peerASN n))
        (Errorf "neighbor[%d]: peerASN %d out of range [1, 4294967295]" [pretty i; Itoa (peerASN n)]);
  _ ← fails_if ((myASN n !=? 0%Z) && out_of 1 4294967295 (myASN n))
        (Errorf "neighbor[%d]: myASN %d out of range [1, 4294967295]" [pretty i; Itoa (myASN n)]);
  _ ← fails_if ((peerPort n !=? 0%Z) && out_of 1 65535 (peerPort n))
        (Errorf "neighbor[%d]: peerPort %d out of range [1, 65535]" [pretty i; Itoa (peerPort n)]);
  _ ← fails_if (bool_decide (ParseIP (peerAddress n) = None))
        (Errorf "neighbor[%d]: invalid peerAddress %q" [pretty i; peerAddress n]);
  fails_if (bool_decide (is_Some (nodeSelector n !! EmptyString)))
    (Errorf "neighbor[%d]: nodeSelector has empty key" [pretty i]).
Fixpoint validate_from (i : nat) (neighbors : list bgpNeighbor) : res unit :=
  match neighbors with
  | [] => Ok tt
  | n :: neighbors => _ ← validate_neighbor i n; validate_from (S i) neighbors
  end.
Definition validateBGPNeighbors (neighbors : list bgpNeighbor) : res unit := validate_from 0 neighbors.

(** [strconv.ParseBool]. *)
Definition ParseBool (s : string) : res bool :=
  if bool_decide (s ∈ ["1"; "t"; "T"; "TRUE"; "true"; "True"]) then Ok true
  else if bool_decide (s ∈ ["0"; "f"; "F"; "FALSE"; "false"; "False"]) then Ok false
  else Err (Errorf "strconv.ParseBool: parsing %q: invalid syntax" [s]).

Definition neighbor_value (n : bgpNeighbor) : value :=
  VMap ([("peerAddress", VString (peerAddress n)); ("peerASN", VInt (peerASN n)); ("peerPort", VInt (peerPort n))] ++
        (if myASN n ==? 0%Z then [] else [("myASN", VInt (myASN n))]) ++
        (if nodeSelector n ==? ∅ then []
         else [("nodeSelector", VMap ((λ kv, (kv.1, VString kv.2)) <$> map_to_list (nodeSelector n)))])).

Definition buildLoadBalancerValues (lb : LoadBalancer) (neighbors : list bgpNeighbor) (advertiseAllPools : bool)
    : value :=
  VMap
   [("driver", VString "metallb");
    ("l2", VMap [("enabled", VBool (LoadBalancer_GetL2Mode lb));
                 ("interfaces", vslice (LoadBalancer_L2Interfaces lb))]);
    ("ipPool", VMap [("cidrs", Cilium.lb_cidrs lb)]);
    ("bgp", VMap
       [("enabled", VBool (LoadBalancer_GetBGPMode lb));
        ("localASN", VInt (LoadBalancer_GetBGPLocalASN lb));
        ("neighbors", VList (map neighbor_value neighbors));
        ("advertiseAllPools", VBool advertiseAllPools)])].

Definition metallb_values : value :=
  VMap
   [("controller", VMap [("image", image controllerImageRepo ControllerImageTag);
                         ("command", VString "/controller")]);
    ("speaker", VMap [("image", image speakerImageRepo speakerImageTag);
                      ("command", VString "/speaker"); ("frr", venabled false)]);
    ("frrk8s", venabled false)].

Definition v1beta1 : string := "metallb.io/v1beta1".
Definition v1beta2 : string := "metallb.io/v1beta2".
Definition metallb_required (bgpMode : bool) : list string :=
  [v1beta1 +:+ ":ipaddresspools"; v1beta1 +:+ ":l2advertisements"] ++
  (if bgpMode then [v1beta2 +:+ ":bgppeers"; v1beta1 +:+ ":bgpadvertisements"] else []).
Definition in_group (group : string) (names : list string) : list string :=
  map (λ name, group +:+ ":" +:+ name) names.

Section MetalLB.
Context `{Externals, HelmEnv, SnapEnv, MetalLBEnv, Outside}.

(** The neighbours, whether all pools are advertised, and whether the annotation is there. *)
Definition neighborsFromAnnotations (annotations : Annotations) : res (list bgpNeighbor * bool * bool) :=
  match Cilium.annotation annotations AnnotationBGPPeers with
  | None => Ok ([], false, false)
  | Some peersYAML =>
      neighbors ← wrapf "failed to parse bgp-peers annotation: %w" [] (yaml_peers peersYAML);
      advertiseAll ← (match Cilium.annotation annotations AnnotationAdvertiseAllPools with
                      | Some v => wrapf "failed to parse advertise-all-pools annotation %q: %w" [v] (ParseBool v)
                      | None => Ok false
                      end);
      Ok (neighbors, advertiseAll, true)
  end.

(** The neighbours that are applied, and whether all pools are advertised. *)
Definition chosen_neighbors (lb : LoadBalancer) (annotations : Annotations) : res (list bgpNeighbor * bool) :=
  '(annNeighbors, annAdvertiseAll, annActive) ←
    wrapf "invalid BGP peer annotation: %w" [] (neighborsFromAnnotations annotations);
  if annActive : bool then Ok (annNeighbors, annAdvertiseAll)
  else if LoadBalancer_GetBGPMode lb then
    advertiseAll ← (match Cilium.annotation annotations AnnotationAdvertiseAllPools with
                    | Some v => wrapf "failed to parse advertise-all-pools annotation %q: %w" [v] (ParseBool v)
                    | None => Ok false
                    end);
    Ok ([mkNeighbor (LoadBalancer_GetBGPPeerAddress lb) (LoadBalancer_GetBGPPeerASN lb)
           (LoadBalancer_GetBGPPeerPort lb) 0 ∅], advertiseAll)
  else Ok ([], false).

Definition metallb_ready (bgpMode : bool) : act bool :=
  r1 ← act_try (Cilium.k8s_ListResourcesForGroupVersion v1beta1);
  match r1 with
  | Err _ => mret false
  | Ok resourcesv1beta1 =>
      r2 ← act_try (Cilium.k8s_ListResourcesForGroupVersion v1beta2);
      mret (match r2 with
            | Err _ => false
            | Ok resourcesv1beta2 =>
                (requiredCount (metallb_required bgpMode)
                   (in_group v1beta1 resourcesv1beta1 ++ in_group v1beta2 resourcesv1beta2) =? 0)%Z
            end)
  end.
Definition waitForRequiredLoadBalancerCRDs (ticks : nat) (bgpMode : bool) : act unit :=
  _ ← act_wrapf "failed to create Kubernetes client: %w" [] (perform (KubernetesClient true EmptyString));
  WaitUntilReady ticks (metallb_ready bgpMode).

Definition disableLoadBalancer (h : client) : act unit :=
  _ ← act_wrapf "failed to uninstall MetalLB LoadBalancer chart: %w" []
        (Apply h ChartMetalLBLoadBalancer StateDeleted VNull);
  _ ← act_wrapf "failed to uninstall MetalLB chart: %w" [] (Apply h ChartMetalLB StateDeleted VNull);
  mret tt.

Definition enableLoadBalancer (ticks : nat) (h : client) (lb : LoadBalancer) (annotations : Annotations) : act unit :=
  _ ← act_wrapf "failed to apply MetalLB configuration: %w" [] (Apply h ChartMetalLB StatePresent metallb_values);
  _ ← act_wrapf "failed to wait for required MetalLB CRDs: %w" []
        (waitForRequiredLoadBalancerCRDs ticks (LoadBalancer_GetBGPMode lb));
  '(neighbors, advertiseAll) ← act_lift (chosen_neighbors lb annotations);
  _ ← act_wrapf "invalid BGP peers: %w" [] (act_lift (validateBGPNeighbors neighbors));
  _ ← act_wrapf "failed to apply MetalLB LoadBalancer configuration: %w" []
        (Apply h ChartMetalLBLoadBalancer StatePresent (buildLoadBalancerValues lb neighbors advertiseAll));
  mret tt.

Definition lb_message (lb : LoadBalancer) (annotations : Annotations) : string :=
  let annotationActive := bool_decide (is_Some (Cilium.annotation annotations AnnotationBGPPeers)) in
  let bothConfigsSet := annotationActive && (LoadBalancer_GetBGPPeerAddress lb !=? EmptyString) in
  if LoadBalancer_GetBGPMode lb then
    if annotationActive then
      if bothConfigsSet then "enabled, BGP mode (alpha) - warning: single-peer typed keys are ignored"
      else "enabled, BGP mode (alpha)"
    else "enabled, BGP mode"
  else if LoadBalancer_GetL2Mode lb then "enabled, L2 mode" else "enabled, Unknown mode".

Definition ApplyLoadBalancer (ticks : nat) (h : client) (lb : LoadBalancer) (annotations : Annotations)
    : act (FeatureStatus * option goerr) :=
  if negb (LoadBalancer_GetEnabled lb) then
    reported ControllerImageTag "Failed to delete MetalLB, the error was: "
      (λ _, status false ControllerImageTag "disabled")
      (act_wrapf "failed to disable LoadBalancer: %w" [] (disableLoadBalancer h))
  else
    reported ControllerImageTag "Failed to deploy MetalLB, the error was: "
      (λ _, status true ControllerImageTag (lb_message lb annotations))
      (act_wrapf "failed to enable LoadBalancer: %w" [] (enableLoadBalancer ticks h lb annotations)).
End MetalLB.
End MetalLB.
