(* ===== verification/Features.v ===== *)
(** * What the features promise

    The theorems about the features of pkg/k8sd/features: what they report is what happened;
    an application that succeeds leaves the charts as the configuration asks for; only the
    network feature deploys Cilium; BGP peers that are not valid never reach the cluster; the
    lists of VLANs and ports of the annotations; the waits for the resources of a chart. *)

From S2P Require Import Prelude GoStrings GoNet Cidr Config FileSys Arguments Database Effects Snap Helm.
From S2P Require Import Builtin Cilium MetalLB.
Import GoStr GoNet Cidr Config FileSys Arguments Database Effects Snap Helm Builtin.

Module Features.

Create HintDb features.

Section Features.
Context `{Externals, HelmEnv, SnapEnv, FeatureAnnotations, Cilium.CiliumEnv, MetalLB.MetalLBEnv, Outside}.

(** ** Reports

    The status of a feature tells the truth: it is enabled exactly if it was asked for and
    nothing failed, it has the version of the feature, and the error is in the message.  There
    always is a status. *)
Definition tells (enabled : bool) (version : string) (res : FeatureStatus * option goerr) : Prop :=
  fs_Version res.1 = version ∧
  (fs_Enabled res.1 = true ↔ enabled = true ∧ res.2 = None) ∧
  (∀ e, res.2 = Some e → ∃ text, fs_Message res.1 = text +:+ error_text e).
Definition truthful (enabled : bool) (version : string) (m : act (FeatureStatus * option goerr)) : Prop :=
  ∀ s, ∃ res s', m s = (Ok res, s') ∧ tells enabled version res.

Lemma tells_degraded enabled version prefix e : tells enabled version (degraded version prefix e).
Proof.
  split_and!; [done|split; [done|by intros [_ ?]]|]. intros e' [= <-]. by exists prefix.
Qed.
Lemma tells_status enabled version message : tells enabled version (status enabled version message, None).
Proof. split_and!; [done|cbn; tauto|done]. Qed.

Lemma truthful_ret enabled version res : tells enabled version res → truthful enabled version (mret res).
Proof. intros Hr s. by exists res, s. Qed.
Lemma truthful_try {A} enabled version (m : act A) (f : res A → act (FeatureStatus * option goerr)) :
  (∀ r, truthful enabled version (f r)) → truthful enabled version (act_try m ≫= f).
Proof.
  intros Hf s. destruct (m s) as [r s1] eqn:E. destruct (Hf r s1) as (res & s' & E' & Hr).
  exists res, s'. split; [|done]. rewrite <- E'. unfold mbind, act_bind, act_try. by rewrite E.
Qed.
Lemma truthful_reported {A} enabled version prefix (ok : A → FeatureStatus) m :
  (∀ a, tells enabled version (ok a, None)) → truthful enabled version (reported version prefix ok m).
Proof.
  intros Hok. apply truthful_try. intros [a|e]; apply truthful_ret; [apply Hok|apply tells_degraded].
Qed.
Lemma truthful_if enabled version (b : bool) m m' :
  (b = true → truthful enabled version m) → (b = false → truthful enabled version m') →
  truthful enabled version (if b then m else m').
Proof. destruct b; auto. Qed.

Lemma truthful_eq enabled enabled' version m : enabled = enabled' → truthful enabled version m → truthful enabled' version m.
Proof. by intros ->. Qed.

Hint Resolve tells_degraded tells_status truthful_ret truthful_reported : features.

(** C26: Every one of the seven features tells the truth, whatever the cluster answers: it always
    comes with a status, which is enabled exactly if the configuration enables the feature and
    there was no error, has the version the feature ships, and carries the error in its
    message; CoreDNS gives an address exactly with an enabled status. *)
Theorem features_tell_the_truth (lo : res (res (list string))) (ticks : nat) (h : client) (s : SnapI) hostname
    (cfg : ClusterConfig) :
  let annotations := CC_Annotations cfg in
  truthful (Network_GetEnabled (CC_Network cfg)) Cilium.CiliumAgentImageTag
    (Cilium.ApplyNetwork lo h s hostname (CC_APIServer cfg) (CC_Network cfg) annotations) ∧
  truthful (Gateway_GetEnabled (CC_Gateway cfg)) Cilium.CiliumAgentImageTag
    (Cilium.ApplyGateway h (CC_Gateway cfg) (CC_Network cfg)) ∧
  truthful (Ingress_GetEnabled (CC_Ingress cfg)) Cilium.CiliumAgentImageTag
    (Cilium.ApplyIngress h (CC_Ingress cfg) (CC_Network cfg)) ∧
  truthful (LoadBalancer_GetEnabled (CC_LoadBalancer cfg)) Cilium.CiliumAgentImageTag
    (Cilium.ApplyLoadBalancer ticks h (CC_LoadBalancer cfg) (CC_Network cfg)) ∧
  truthful (LoadBalancer_GetEnabled (CC_LoadBalancer cfg)) MetalLB.ControllerImageTag
    (MetalLB.ApplyLoadBalancer ticks h (CC_LoadBalancer cfg) annotations) ∧
  truthful (LocalStorage_GetEnabled (CC_LocalStorage cfg)) localpv_ImageTag
    (ApplyLocalStorage h (CC_LocalStorage cfg)) ∧
  truthful (MetricsServer_GetEnabled (CC_MetricsServer cfg)) metrics_imageTag
    (ApplyMetricsServer h (CC_MetricsServer cfg) annotations) ∧
  (∀ st, ∃ status dnsIP err st', ApplyDNS h (CC_DNS cfg) (CC_Kubelet cfg) st = (Ok (status, dnsIP, err), st') ∧
     tells (DNS_GetEnabled (CC_DNS cfg)) coredns_ImageTag (status, err) ∧
     (fs_Enabled status = false → dnsIP = EmptyString)).
Proof.
  intros annotations. split_and!.
  - unfold Cilium.ApplyNetwork. destruct (Network_GetEnabled _); cbn; auto with features.
  - unfold Cilium.ApplyGateway. destruct (Gateway_GetEnabled _); [by apply truthful_reported|].
    apply truthful_try. intros [changed|e]; auto with features.
  - unfold Cilium.ApplyIngress. apply truthful_try. intros [changed|e].
    + destruct changed, (Ingress_GetEnabled _); cbn; auto with features.
    + destruct (Network_GetEnabled _); auto with features.
  - unfold Cilium.ApplyLoadBalancer. destruct (LoadBalancer_GetEnabled _); cbn; auto with features.
  - unfold MetalLB.ApplyLoadBalancer. destruct (LoadBalancer_GetEnabled _); cbn; auto with features.
  - apply truthful_try. intros [changed|e]; destruct (LocalStorage_GetEnabled _); auto with features.
  - apply truthful_try. intros [changed|e]; destruct (MetricsServer_GetEnabled _); auto with features.
  - intros st. unfold ApplyDNS. destruct (DNS_GetEnabled _); cbn.
    + unfold mbind, act_bind, act_try. destruct (enable_dns _ _ _ _) as [[ip|e] st']; do 4 eexists;
        (split; [reflexivity|]); (split; [|done]); [apply tells_status|apply tells_degraded].
    + unfold mbind, act_bind, act_try. destruct (act_wrapf _ _ _ _) as [[ip|e] st']; do 4 eexists;
        (split; [reflexivity|]); (split; [|done]); [apply tells_status|apply tells_degraded].
Qed.

(** ** Who deploys what *)

Definition installs (name : string) (cmd : command) : bool :=
  match cmd with HelmInstall _ n _ _ => n ==? name | _ => false end.
(** The values a chart is installed or upgraded with. *)
Definition chart_values (name : string) (cmd : command) : option value :=
  match cmd with
  | HelmInstall _ n _ v | HelmUpgrade _ n _ v _ => if n ==? name then Some v else None
  | _ => None
  end.

Definition spares_cilium (cmd : command) : Prop := installs "ck-network" cmd = false.

Lemma spares_Apply h c desired values :
  (ch_Name c = "ck-network" → desired ≠ StatePresent) → emits spares_cilium eq (Apply h c desired values).
Proof.
  intros Hc. apply emits_Apply. intros cmd Ha. destruct Ha; try done.
  unfold spares_cilium. cbn. apply bool_decide_eq_false. intros E. by destruct (Hc E).
Qed.
Lemma spares_Cilium_Apply h (b : bool) values :
  emits spares_cilium eq (Apply h Cilium.ChartCilium (StateUpgradeOnlyOrDeleted b) values).
Proof. apply spares_Apply. by destruct b. Qed.

Hint Extern 1 (spares_cilium _) => reflexivity : emits.
Ltac spares_step := first
  [ progress intros
  | apply spares_Cilium_Apply
  | apply spares_Apply; solve [done | by destruct (_ : bool)]
  | apply emits_bind; [typeclasses eauto| |]
  | apply emits_wrapf
  | apply emits_try
  | progress cbn beta iota
  | match goal with
    | |- emits _ _ (if ?b then _ else _) => destruct b
    | |- emits _ _ (match ?x with _ => _ end) => destruct x
    end
  | solve [eauto 6 with emits typeclass_instances] ].
Ltac spares := repeat spares_step.

Lemma spares_reported {A} version prefix (ok : A → FeatureStatus) m :
  emits spares_cilium eq m → emits spares_cilium eq (reported version prefix ok m).
Proof. intros Hm. unfold reported. spares. Qed.

Lemma spares_rollout n : emits spares_cilium eq (Cilium.rolloutRestartCilium n).
Proof. unfold Cilium.rolloutRestartCilium. spares. Qed.
Lemma spares_wait_cilium ticks b : emits spares_cilium eq (Cilium.waitForRequiredLoadBalancerCRDs ticks b).
Proof.
  unfold Cilium.waitForRequiredLoadBalancerCRDs, Cilium.cilium_ready, Cilium.k8s_ListResourcesForGroupVersion.
  spares. apply emits_WaitUntilReady; spares.
Qed.
Lemma spares_wait_metallb ticks b : emits spares_cilium eq (MetalLB.waitForRequiredLoadBalancerCRDs ticks b).
Proof.
  unfold MetalLB.waitForRequiredLoadBalancerCRDs, MetalLB.metallb_ready, Cilium.k8s_ListResourcesForGroupVersion.
  spares. apply emits_WaitUntilReady; spares.
Qed.
Ltac spares_all := repeat first
  [ apply spares_rollout | apply spares_wait_cilium | apply spares_wait_metallb | apply spares_reported
  | spares_step ].

(** Only the network feature deploys Cilium: none of the others ever installs its chart,
    whatever the configuration and the answers of the cluster; they can only change or remove
    a Cilium that is there.  The network feature itself does not install it when it is
    disabled, and no feature touches the database. *)
Theorem only_the_network_deploys_cilium (lo : res (res (list string))) (ticks : nat) (h : client) (s : SnapI)
    hostname (cfg : ClusterConfig) :
  let annotations := CC_Annotations cfg in
  emits spares_cilium eq (Cilium.ApplyGateway h (CC_Gateway cfg) (CC_Network cfg)) ∧
  emits spares_cilium eq (Cilium.ApplyIngress h (CC_Ingress cfg) (CC_Network cfg)) ∧
  emits spares_cilium eq (Cilium.ApplyLoadBalancer ticks h (CC_LoadBalancer cfg) (CC_Network cfg)) ∧
  emits spares_cilium eq (MetalLB.ApplyLoadBalancer ticks h (CC_LoadBalancer cfg) annotations) ∧
  emits spares_cilium eq (ApplyLocalStorage h (CC_LocalStorage cfg)) ∧
  emits spares_cilium eq (ApplyMetricsServer h (CC_MetricsServer cfg) annotations) ∧
  emits spares_cilium eq (ApplyDNS h (CC_DNS cfg) (CC_Kubelet cfg)) ∧
  (Network_GetEnabled (CC_Network cfg) = false →
   emits spares_cilium eq
     (Cilium.ApplyNetwork lo h s hostname (CC_APIServer cfg) (CC_Network cfg) annotations)).
Proof.
  intros annotations. split_and!.
  - unfold Cilium.ApplyGateway, Cilium.enableGateway, Cilium.disableGateway, Cilium.remove_gateway.
    spares_all.
  - unfold Cilium.ApplyIngress. spares_all.
  - unfold Cilium.ApplyLoadBalancer, Cilium.enableLoadBalancer, Cilium.disableLoadBalancer.
    spares_all.
  - unfold MetalLB.ApplyLoadBalancer, MetalLB.enableLoadBalancer, MetalLB.disableLoadBalancer.
    spares_all.
  - unfold ApplyLocalStorage. spares_all.
  - unfold ApplyMetricsServer. spares_all.
  - unfold ApplyDNS, enable_dns, k8s_GetServiceClusterIP. spares_all.
  - intros Hn. unfold Cilium.ApplyNetwork. rewrite Hn. cbn. spares_all.
Qed.

(** ** BGP peers *)

Definition valid_neighbor (n : MetalLB.bgpNeighbor) : Prop :=
  (1 <= MetalLB.peerASN n <= 4294967295)%Z ∧
  (MetalLB.myASN n = 0 ∨ 1 <= MetalLB.myASN n <= 4294967295)%Z ∧
  (MetalLB.peerPort n = 0 ∨ 1 <= MetalLB.peerPort n <= 65535)%Z ∧
  ParseIP (MetalLB.peerAddress n) ≠ None ∧
  MetalLB.nodeSelector n !! EmptyString = None.

Lemma out_of_false lo hi n : MetalLB.out_of lo hi n = false ↔ (lo <= n <= hi)%Z.
Proof. unfold MetalLB.out_of. rewrite orb_false_iff, !Z.ltb_ge. lia. Qed.
Lemma zero_or lo hi n : (n !=? 0%Z) && MetalLB.out_of lo hi n = false ↔ (n = 0 ∨ lo <= n <= hi)%Z.
Proof.
  rewrite <- out_of_false. destruct (bool_decide_reflect (n = 0%Z)) as [->|Hn]; cbn; [tauto|].
  split; [auto|by intros [?|?]].
Qed.

Lemma validate_neighbor_Ok i n u : MetalLB.validate_neighbor i n = Ok u ↔ valid_neighbor n.
Proof.
  unfold MetalLB.validate_neighbor, valid_neighbor.
  rewrite !bind_unit_Ok, !fails_if_Ok, out_of_false, !zero_or, !bool_decide_eq_false, !eq_None_not_Some.
  tauto.
Qed.
Lemma validate_from_Ok i l u : MetalLB.validate_from i l = Ok u ↔ Forall valid_neighbor l.
Proof.
  revert i. induction l as [|n l IH]; intros i; cbn; [by destruct u|].
  rewrite bind_unit_Ok, validate_neighbor_Ok, IH, Forall_cons. done.
Qed.

(** The peers of the annotation replace the typed keys, which only count in BGP mode. *)
Definition configured_neighbors (lb : LoadBalancer) (annotations : Annotations) (l : list MetalLB.bgpNeighbor) : Prop :=
  match Cilium.annotation annotations AnnotationBGPPeers with
  | Some peersYAML => MetalLB.yaml_peers peersYAML = Ok l
  | None => l = if LoadBalancer_GetBGPMode lb
                then [MetalLB.mkNeighbor (LoadBalancer_GetBGPPeerAddress lb) (LoadBalancer_GetBGPPeerASN lb)
                        (LoadBalancer_GetBGPPeerPort lb) 0 ∅]
                else []
  end.

Lemma chosen_neighbors_Ok lb annotations l advertiseAll :
  MetalLB.chosen_neighbors lb annotations = Ok (l, advertiseAll) → configured_neighbors lb annotations l.
Proof.
  unfold MetalLB.chosen_neighbors, MetalLB.neighborsFromAnnotations, configured_neighbors.
  destruct (Cilium.annotation annotations AnnotationBGPPeers) as [y|]; cbn.
  - destruct (MetalLB.yaml_peers y) as [n|e]; [|done]. cbn.
    destruct (Cilium.annotation annotations AnnotationAdvertiseAllPools) as [v|]; cbn; [|by intros [= <- <-]].
    destruct (MetalLB.ParseBool v); cbn; [by intros [= <- <-]|done].
  - destruct (LoadBalancer_GetBGPMode lb); cbn; [|by intros [= <- <-]].
    destruct (Cilium.annotation annotations AnnotationAdvertiseAllPools) as [v|]; cbn; [|by intros [= <- <-]].
    destruct (MetalLB.ParseBool v); cbn; [by intros [= <- <-]|done].
Qed.

(** The resources are only deployed with peers that are configured and valid. *)
Definition sane_resources (lb : LoadBalancer) (annotations : Annotations) (cmd : command) : Prop :=
  ∀ v, chart_values "metallb-loadbalancer" cmd = Some v →
  ∃ neighbors advertiseAll, configured_neighbors lb annotations neighbors ∧ Forall valid_neighbor neighbors ∧
    v = sanitizeHelmValues (MetalLB.buildLoadBalancerValues lb neighbors advertiseAll).

Lemma sane_Apply lb annotations h c desired values :
  ch_Name c ≠ "metallb-loadbalancer" → emits (sane_resources lb annotations) eq (Apply h c desired values).
Proof.
  intros Hc. apply emits_Apply. intros cmd Ha v. destruct Ha; cbn [chart_values];
    rewrite ?bool_decide_false by exact Hc; intros [=].
Qed.
Lemma sane_delete lb annotations h c values :
  emits (sane_resources lb annotations) eq (Apply h c StateDeleted values).
Proof. apply emits_Apply. intros cmd Ha v. inversion Ha; subst; cbn [chart_values]; intros [=]; done. Qed.
Lemma sane_deploy lb annotations h neighbors advertiseAll :
  configured_neighbors lb annotations neighbors → Forall valid_neighbor neighbors →
  emits (sane_resources lb annotations) eq
    (Apply h MetalLB.ChartMetalLBLoadBalancer StatePresent
       (MetalLB.buildLoadBalancerValues lb neighbors advertiseAll)).
Proof.
  intros Hn Hv. apply emits_Apply. intros cmd Ha v Hc. exists neighbors, advertiseAll. split_and!; [done|done|].
  inversion Ha; subst; cbn [chart_values] in Hc; rewrite ?bool_decide_true in Hc by reflexivity;
    first [discriminate Hc | injection Hc as <-; reflexivity].
Qed.
Lemma sane_perform lb annotations cmd :
  chart_values "metallb-loadbalancer" cmd = None → emits (sane_resources lb annotations) eq (perform cmd).
Proof. intros Hc. apply emits_perform; [typeclasses eauto|]. intros v Hv. by rewrite Hc in Hv. Qed.
Lemma sane_wait lb annotations ticks b :
  emits (sane_resources lb annotations) eq (MetalLB.waitForRequiredLoadBalancerCRDs ticks b).
Proof.
  unfold MetalLB.waitForRequiredLoadBalancerCRDs, MetalLB.metallb_ready, Cilium.k8s_ListResourcesForGroupVersion.
  apply emits_bind; [typeclasses eauto|by apply emits_wrapf, sane_perform|intros _].
  apply emits_WaitUntilReady; [typeclasses eauto|].
  apply emits_bind; [typeclasses eauto| |intros [names|e]; [|apply emits_ret; typeclasses eauto]].
  { by apply emits_try, emits_wrapf, sane_perform. }
  apply emits_bind; [typeclasses eauto| |intros r; apply emits_ret; typeclasses eauto].
  by apply emits_try, emits_wrapf, sane_perform.
Qed.

(** BGP peers that are not valid never reach the cluster: whenever the chart with the
    resources of the load balancer is installed or upgraded, its peers are the configured ones
    (those of the annotation, if it is there, in place of the typed keys), and every one has
    an address that parses, an AS number of 32 bits, a port and an own AS number that are in
    range if they are set, and no empty key in its node selector.  This holds for every
    configuration, enabled or not. *)
Theorem invalid_neighbors_are_never_applied (ticks : nat) (h : client) (lb : LoadBalancer) (annotations : Annotations) :
  emits (sane_resources lb annotations) eq (MetalLB.ApplyLoadBalancer ticks h lb annotations).
Proof.
  unfold MetalLB.ApplyLoadBalancer, reported, MetalLB.disableLoadBalancer, MetalLB.enableLoadBalancer.
  destruct (negb _); (apply emits_bind; [typeclasses eauto| |intros r; apply emits_ret; typeclasses eauto]);
    apply emits_try, emits_wrapf.
  - apply emits_bind; [typeclasses eauto|apply emits_wrapf, sane_delete|intros _].
    apply emits_bind; [typeclasses eauto|apply emits_wrapf, sane_delete|intros _].
    apply emits_ret; typeclasses eauto.
  - apply emits_bind; [typeclasses eauto|by apply emits_wrapf, sane_Apply|intros _].
    apply emits_bind; [typeclasses eauto|apply emits_wrapf, sane_wait|intros _].
    destruct (MetalLB.chosen_neighbors lb annotations) as [[neighbors advertiseAll]|e] eqn:Hc;
      [|intros s r s' [= <- <-]; split; [exists []; by rewrite app_nil_r|done]].
    intros s r s' E. cbn in E. revert s r s' E.
    change (emits (sane_resources lb annotations) eq
      (_ ← act_wrapf "invalid BGP peers: %w" [] (act_lift (MetalLB.validateBGPNeighbors neighbors));
       _ ← act_wrapf "failed to apply MetalLB LoadBalancer configuration: %w" []
             (Apply h MetalLB.ChartMetalLBLoadBalancer StatePresent
                (MetalLB.buildLoadBalancerValues lb neighbors advertiseAll)); mret tt)).
    destruct (MetalLB.validateBGPNeighbors neighbors) as [u|e] eqn:Hv;
      [|intros s r s' [= <- <-]; split; [exists []; by rewrite app_nil_r|done]].
    apply emits_bind; [typeclasses eauto|apply emits_wrapf, emits_lift; typeclasses eauto|intros _].
    apply emits_bind; [typeclasses eauto| |intros _; apply emits_ret; typeclasses eauto].
    apply emits_wrapf, sane_deploy; [by eapply chosen_neighbors_Ok|by eapply validate_from_Ok].
Qed.

(** An annotation with peers is checked in L2 mode too. *)
Lemma l2_mode_checks_the_annotation lb annotations peersYAML n :
  LoadBalancer_GetBGPMode lb = false →
  Cilium.annotation annotations AnnotationBGPPeers = Some peersYAML →
  Cilium.annotation annotations AnnotationAdvertiseAllPools = None →
  MetalLB.yaml_peers peersYAML = Ok [n] → ¬ valid_neighbor n →
  MetalLB.chosen_neighbors lb annotations = Ok ([n], false) ∧
  is_ok (MetalLB.validateBGPNeighbors [n]) = false.
Proof.
  intros _ Hp Ha Hy Hn. split.
  - unfold MetalLB.chosen_neighbors, MetalLB.neighborsFromAnnotations. by rewrite Hp, Hy, Ha.
  - destruct (MetalLB.validateBGPNeighbors [n]) as [u|e] eqn:E; [|done].
    apply validate_from_Ok, Forall_inv in E. by destruct Hn.
Qed.

(** The version of the metrics server is the one that is shipped, also if an annotation has
    another tag deployed. *)
Lemma metrics_version_not_deployed h cfg annotations tag s :
  Annotations_Get annotations AnnotationImageTag = (tag, true) →
  (metrics_internalConfig annotations).2 = tag ∧
  ∃ st err s', ApplyMetricsServer h cfg annotations s = (Ok (st, err), s') ∧ fs_Version st = metrics_imageTag.
Proof.
  intros Ht. split; [cbn; by rewrite Ht|]. unfold ApplyMetricsServer, mbind, act_bind, act_try.
  destruct (Apply _ _ _ _ _) as [[changed|e] s']; destruct (MetricsServer_GetEnabled cfg); by do 3 eexists.
Qed.

(** ** The wait for the resources of a chart *)

Lemma requiredCount_zero required names : NoDup required → NoDup names →
  (requiredCount required names = 0)%Z ↔ ∀ name, name ∈ required → name ∈ names.
Proof.
  intros Hr Hn. unfold requiredCount. set (f := List.filter _ names).
  assert (Hf : ∀ x, x ∈ f ↔ x ∈ names ∧ x ∈ required).
  { intros x. unfold f. rewrite !list_elem_of_In, List.filter_In, bool_decide_eq_true, list_elem_of_In. done. }
  assert (Hnf : NoDup f) by (apply NoDup_ListNoDup, List.NoDup_filter, NoDup_ListNoDup, Hn).
  assert (Hsub : f ⊆+ required) by (apply NoDup_submseteq; [done|]; intros x; rewrite Hf; tauto).
  split.
  - intros Hlen x Hx. assert (Hp : f ≡ₚ required).
    { apply submseteq_length_Permutation; [done|]. lia. }
    rewrite <- Hp in Hx. by apply Hf in Hx as [? _].
  - intros Hall. assert (required ⊆+ f) as Hsup.
    { apply NoDup_submseteq; [done|]. intros x Hx. apply Hf. auto. }
    apply submseteq_length in Hsub. apply submseteq_length in Hsup. lia.
Qed.

Lemma NoDup_cilium_required b : NoDup (Cilium.cilium_required b).
Proof. destruct b; apply (bool_decide_unpack _); vm_compute; exact I. Qed.
Lemma NoDup_metallb_required b : NoDup (MetalLB.metallb_required b).
Proof. destruct b; apply (bool_decide_unpack _); vm_compute; exact I. Qed.

Lemma NoDup_groups l1 l2 : NoDup l1 → NoDup l2 →
  NoDup (MetalLB.in_group MetalLB.v1beta1 l1 ++ MetalLB.in_group MetalLB.v1beta2 l2).
Proof.
  intros Hl1 Hl2. apply NoDup_app. split_and!.
  - apply (NoDup_fmap_2_strong _ l1); [|done]. intros x y _ _ Hxy. by do 2 apply (inj (String.append _)) in Hxy.
  - intros x (y & -> & _)%list_elem_of_fmap (z & Hz & _)%list_elem_of_fmap. by cbn in Hz.
  - apply (NoDup_fmap_2_strong _ l2); [|done]. intros x y _ _ Hxy. by do 2 apply (inj (String.append _)) in Hxy.
Qed.

Lemma list_resources_Ok gv s names s' :
  Cilium.k8s_ListResourcesForGroupVersion gv s = (Ok names, s') →
  answered (ListResourcesForGroupVersion gv) (Ok names) s s' ∧ later s s'.
Proof.
  intros E%act_wrapf_Ok. split; [by apply (perform_answered (ListResourcesForGroupVersion gv))|].
  by eapply (perform_later (ListResourcesForGroupVersion gv)).
Qed.
Lemma list_resources_later gv s r s' : Cilium.k8s_ListResourcesForGroupVersion gv s = (r, s') → later s s'.
Proof. intros (r0 & E & _)%act_wrapf_run. by eapply (perform_later (ListResourcesForGroupVersion gv)). Qed.

(** The waits of the load balancers end well only when a check found every resource that
    is needed: with Cilium all of its group, with MetalLB the pools and L2 advertisements of
    v1beta1, and in BGP mode also the peers of v1beta2 and the advertisements of v1beta1.  The
    code counts down a number; no resource is listed twice. *)
Theorem waits_for_resources (ticks : nat) (bgpMode : bool) :
  (∀ l gv names, outside l (ListResourcesForGroupVersion gv) = Ok names → NoDup names) →
  (∀ s s', Cilium.waitForRequiredLoadBalancerCRDs ticks bgpMode s = (Ok tt, s') →
     ∃ names, answered (ListResourcesForGroupVersion "cilium.io/v2alpha1") (Ok names) s s' ∧
       ∀ r, r ∈ Cilium.cilium_required bgpMode → r ∈ names) ∧
  (∀ s s', MetalLB.waitForRequiredLoadBalancerCRDs ticks bgpMode s = (Ok tt, s') →
     ∃ names1 names2, answered (ListResourcesForGroupVersion MetalLB.v1beta1) (Ok names1) s s' ∧
       answered (ListResourcesForGroupVersion MetalLB.v1beta2) (Ok names2) s s' ∧
       ∀ r, r ∈ MetalLB.metallb_required bgpMode →
         r ∈ MetalLB.in_group MetalLB.v1beta1 names1 ++ MetalLB.in_group MetalLB.v1beta2 names2).
Proof.
  intros Hnd. split; intros s s'.
  - intros [(u & s1 & E1%act_wrapf_Ok & E)|(e & _ & ?)]%act_bind_inv; [|done].
    apply (perform_later (KubernetesClient _ _)) in E1.
    apply WaitUntilReady_Ok in E as (s2 & Hl & E); [|unfold Cilium.cilium_ready, Cilium.k8s_ListResourcesForGroupVersion; emits_go].
    apply act_bind_inv in E as [(r & s3 & (r0 & E2 & [= ->])%act_try_run & E)|(e & _ & ?)]; [|done].
    destruct r0 as [names|e]; [|done]. injection E as Hc%Z.eqb_eq <-.
    apply list_resources_Ok in E2 as [Ha _]. exists names. split; [eapply answered_before; [by etrans|done]|].
    apply requiredCount_zero; [apply NoDup_cilium_required| |done]. destruct Ha as (? & ? & _ & _ & Ha). by eapply Hnd.
  - intros [(u & s1 & E1%act_wrapf_Ok & E)|(e & _ & ?)]%act_bind_inv; [|done].
    apply (perform_later (KubernetesClient _ _)) in E1.
    apply WaitUntilReady_Ok in E as (s2 & Hl & E); [|unfold MetalLB.metallb_ready, Cilium.k8s_ListResourcesForGroupVersion; emits_go].
    apply act_bind_inv in E as [(r & s3 & (r0 & E2 & [= ->])%act_try_run & E)|(e & _ & ?)]; [|done].
    destruct r0 as [names1|e]; [|done].
    apply act_bind_inv in E as [(r & s4 & (r1 & E3 & [= ->])%act_try_run & E)|(e & _ & ?)]; [|done].
    destruct r1 as [names2|e]; [|done]. injection E as Hc%Z.eqb_eq <-.
    apply list_resources_Ok in E2 as [Ha1 Hl1]. apply list_resources_Ok in E3 as [Ha2 Hl2].
    exists names1, names2. split_and!.
    + eapply answered_later; [by etrans|done|done].
    + eapply answered_before; [|done]. etrans; [by etrans|done].
    + apply requiredCount_zero; [apply NoDup_metallb_required|apply NoDup_groups|done].
      * destruct Ha1 as (? & ? & _ & _ & Ha). by eapply Hnd.
      * destruct Ha2 as (? & ? & _ & _ & Ha). by eapply Hnd.
Qed.

(** ** The annotations of the network *)

(** A part of the list of VLANs, and the tag it stands for. *)
Definition vlan_part (part : string) (tag : Z) : Prop :=
  ParseInt64 (TrimSpace part) = Ok tag ∧ (0 <= tag <= 4094)%Z.

Lemma vlan_loop_Ok parts acc l : NoDup acc → Cilium.vlan_loop parts acc = Ok l →
  ∃ tags, Forall2 vlan_part parts tags ∧ NoDup l ∧ ∀ tag, tag ∈ l ↔ tag ∈ acc ∨ tag ∈ tags.
Proof.
  revert acc. induction parts as [|part parts IH]; intros acc Hacc; cbn [Cilium.vlan_loop].
  { intros [= <-]. exists []. split_and!; [constructor|done|]. intros tag. set_solver. }
  intros (tag & Ht%wrapf_Ok & E)%bind_Ok. apply bind_unit_Ok in E as [Hr%fails_if_Ok E].
  rewrite orb_false_iff, !Z.ltb_ge in Hr.
  apply IH in E as (tags & Htags & Hl & Hin).
  - exists (tag :: tags). split_and!; [by constructor|done|]. intros tag'. rewrite Hin.
    case_bool_decide as Hm; set_solver.
  - case_bool_decide as Hm; [done|]. apply NoDup_app. split_and!; [done|set_solver|apply NoDup_singleton].
Qed.
Lemma vlan_loop_total parts acc tags : Forall2 vlan_part parts tags → ∃ l, Cilium.vlan_loop parts acc = Ok l.
Proof.
  intros Hp. revert acc. induction Hp as [|part tag parts tags [Ht Hr] _ IH]; intros acc; cbn [Cilium.vlan_loop];
    [by eexists|].
  rewrite Ht. cbn [wrapf mbind res_bind]. unfold Cilium.minVLANIDValue, Cilium.maxVLANIDValue.
  rewrite (proj2 (Z.ltb_ge tag 0)), (proj2 (Z.ltb_ge 4094 tag)) by lia. apply IH.
Qed.

Lemma strictly_sorted l : NoDup l → StronglySorted Z.le l → StronglySorted Z.lt l.
Proof.
  intros Hnd Hs. revert Hnd. induction Hs as [|x l _ IH Hx]; [constructor|]. intros [Hn Hd]%NoDup_cons.
  constructor; [by apply IH|]. rewrite Forall_forall in Hx |- *. intros y Hy.
  specialize (Hx y Hy). assert (x ≠ y) by (intros ->; done). lia.
Qed.
Lemma strictly_sorted_unique l1 l2 : StronglySorted Z.lt l1 → StronglySorted Z.lt l2 →
  (∀ x, x ∈ l1 ↔ x ∈ l2) → l1 = l2.
Proof.
  intros Hs1 Hs2. revert l2 Hs2. induction Hs1 as [|x l1 _ IH Hx]; intros l2 Hs2 Hin.
  - symmetry. apply elem_of_nil_inv. intros y Hy. apply Hin in Hy. by apply elem_of_nil in Hy.
  - destruct Hs2 as [|y l2 Hs2 Hy].
    { assert (x ∈ []) as Hf by (apply Hin; constructor). by apply elem_of_nil in Hf. }
    rewrite Forall_forall in Hx, Hy. assert (x = y) as ->.
    { assert (x ∈ y :: l2) as [?|Hxl]%elem_of_cons by (apply Hin; constructor); [done|].
      assert (y ∈ x :: l1) as [?|Hyl]%elem_of_cons by (apply Hin; constructor); [done|].
      specialize (Hx _ Hyl). specialize (Hy _ Hxl). lia. }
    f_equal. apply IH; [done|]. intros z. split; intros Hz.
    + assert (z ∈ y :: l2) as [->|?]%elem_of_cons by (apply Hin; by constructor); [|done].
      specialize (Hx _ Hz). lia.
    + assert (z ∈ y :: l1) as [->|?]%elem_of_cons by (apply Hin; by constructor); [|done].
      specialize (Hy _ Hz). lia.
Qed.

(** What the list of VLANs of the annotation is read as: it is accepted exactly if every
    part between the commas (after white space and braces at the ends are dropped) is a number
    from 0 to 4094, white space around it aside, and the result is the strictly increasing
    list of these numbers: sorted, each once, whatever their order and repetition. *)
Theorem validateVLANBPFBypass_spec vlanList l :
  Cilium.validateVLANBPFBypass vlanList = Ok l ↔
  ∃ tags, Forall2 vlan_part (split "," (Cilium.trim_set Cilium.brace (TrimSpace vlanList))) tags ∧
    StronglySorted Z.lt l ∧ ∀ tag, tag ∈ l ↔ tag ∈ tags.
Proof.
  unfold Cilium.validateVLANBPFBypass. set (parts := split _ _).
  assert (Hsort : ∀ l0 tags, Forall2 vlan_part parts tags → Cilium.vlan_loop parts [] = Ok l0 →
    StronglySorted Z.lt (merge_sort Z.le l0) ∧ ∀ tag, tag ∈ merge_sort Z.le l0 ↔ tag ∈ tags).
  { intros l0 tags Ht E. apply vlan_loop_Ok in E as (tags' & Ht' & Hnd & Hin); [|constructor].
    assert (tags' = tags) as ->.
    { clear -Ht Ht'. revert tags Ht. induction Ht' as [|part tag parts tags' [Hp _] _ IH]; intros tags Ht;
        inversion Ht as [|? tag2 ? ? [Hp2 _] Ht2]; subst; [done|]. rewrite Hp in Hp2. injection Hp2 as <-.
      f_equal. by apply IH. }
    split.
    - apply strictly_sorted; [by rewrite merge_sort_Permutation|apply (StronglySorted_merge_sort Z.le)].
    - intros tag. rewrite merge_sort_Permutation, Hin. set_solver. }
  split.
  - intros (l0 & E & [= <-])%bind_Ok.
    destruct (vlan_loop_Ok parts [] l0 ltac:(constructor) E) as (tags & Ht & _).
    exists tags. split; [done|]. by apply Hsort.
  - intros (tags & Ht & Hs & Hin). destruct (vlan_loop_total _ [] _ Ht) as [l0 E].
    rewrite E. cbn. f_equal. destruct (Hsort _ _ Ht E) as [Hs' Hin'].
    apply strictly_sorted_unique; [done|done|]. intros x. by rewrite Hin, Hin'.
Qed.

(** What the annotations give is always in range: the tunnel port is from 1 to 65535, and
    the VLANs, if there are any, are strictly increasing numbers from 0 to 4094; without
    annotations the port is 8472 and there is no list. *)
Theorem internalConfig_in_range annotations c :
  Cilium.internalConfig annotations = Ok c →
  (1 <= Cilium.tunnelPort c <= 65535)%Z ∧
  (∀ vlans, Cilium.vlanBPFBypass c = Some vlans →
     StronglySorted Z.lt vlans ∧ Forall (λ tag, 0 <= tag <= 4094)%Z vlans) ∧
  (annotations = None → Cilium.tunnelPort c = 8472%Z ∧ Cilium.vlanBPFBypass c = None).
Proof.
  unfold Cilium.internalConfig. intros (vlans & Ev & E)%bind_Ok. apply bind_Ok in E as (port & Ep & [= <-]).
  cbn [Cilium.tunnelPort Cilium.vlanBPFBypass]. split; [|split].
  - destruct (Cilium.get annotations AnnotationTunnelPort) as [v|]; [|by injection Ep as <-].
    apply wrapf_Ok in Ep. unfold Cilium.validatePort in Ep. destruct (ParseInt64 v) as [n|e]; [|done].
    destruct (_ || _) eqn:Hr; [done|]. injection Ep as <-. rewrite orb_false_iff, !Z.ltb_ge in Hr. lia.
  - intros vlans' ->. destruct (Cilium.annotation annotations AnnotationVLANBPFBypass) as [v|]; [|done].
    apply bind_Ok in Ev as (tags & Et%wrapf_Ok & [= ->]). unfold Cilium.validateVLANBPFBypass in Et.
    apply bind_Ok in Et as (l0 & E0 & [= <-]). apply vlan_loop_Ok in E0 as (tags & Ht & Hnd & Hin); [|constructor].
    split; [apply strictly_sorted; [by rewrite merge_sort_Permutation|apply (StronglySorted_merge_sort Z.le)]|].
    rewrite merge_sort_Permutation, Forall_forall. intros tag Htag. apply Hin in Htag as [Hf|Htag].
    { by apply not_elem_of_nil in Hf. }
    apply list_elem_of_lookup in Htag as [i Hi]. by destruct (Forall2_lookup_r _ _ _ _ _ Ht Hi) as (? & _ & _ & ?).
  - intros ->. by injection Ep as <-; injection Ev as <-.
Qed.
End Features.


(** ** Examples *)

Definition demo_crds : Outside := λ log cmd,
  match cmd return res (answer cmd) with
  | ListResourcesForGroupVersion gv =>
      if gv ==? "metallb.io/v1beta2" then Ok ["bgppeers"]
      else if gv ==? "metallb.io/v1beta1" then Ok ["ipaddresspools"; "l2advertisements"; "bgpadvertisements"]
      else Ok ["ciliumloadbalancerippools"; "ciliuml2announcementpolicies"; "ciliumbgppeeringpolicies"]
  | cmd => default_answer cmd
  end.

Lemma waits_for_resources_witness :
  ∃ names, @answered demo_crds (ListResourcesForGroupVersion "cilium.io/v2alpha1") (Ok names)
      demo_machine ((@Cilium.waitForRequiredLoadBalancerCRDs demo_crds 3 true demo_machine).2) ∧
    ∀ r, r ∈ Cilium.cilium_required true → r ∈ names.
Proof.
  apply (proj1 (@waits_for_resources demo_crds 3 true ltac:(
    intros l gv names; cbn; destruct (gv ==? _); [|destruct (gv ==? _)]; intros [= <-];
    apply (bool_decide_unpack _); vm_compute; exact I)) demo_machine). vm_compute. reflexivity.
Defined.

Definition demo_network_annotations : Annotations :=
  Some {["k8sd/v1alpha1/cilium/vlan-bpf-bypass" := "{4094, 1,5,1}"]}.
Definition demo_network_config : Cilium.config :=
  Cilium.mkConfig EmptyString EmptyString (Some [1; 5; 4094]%Z) false false 8472.
Lemma internalConfig_in_range_witness :
  @Cilium.internalConfig demo_feature_annotations demo_network_annotations = Ok demo_network_config ∧
  StronglySorted Z.lt [1; 5; 4094]%Z ∧ Forall (λ tag, 0 <= tag <= 4094)%Z [1; 5; 4094]%Z.
Proof.
  assert (E : @Cilium.internalConfig demo_feature_annotations demo_network_annotations = Ok demo_network_config)
    by (vm_compute; reflexivity).
  split; [exact E|].
  destruct (@internalConfig_in_range demo_feature_annotations _ _ E) as (_ & Hv & _).
  exact (Hv _ eq_refl).
Defined.
End Features.
