(* ===== verification/FeaturesContract.v ===== *)
(** * What a successful application of a feature leaves

    When a feature of pkg/k8sd/features was applied without an error, the charts of its
    releases are there with the values of the configuration, or gone if it is disabled, and no
    other release is touched.  The theorems are about the releases of the cluster as Helm
    documents its actions ([HelmStore]); they follow from the contract of [Client.Apply]. *)

From S2P Require Import Prelude GoStrings GoNet Cidr Config FileSys Arguments Database Effects Snap Helm.
From S2P Require Import Builtin Cilium MetalLB NodeSetup.
Import GoStr GoNet Cidr Config FileSys Arguments Database Effects Snap Helm Builtin.

Module FeaturesContract.

Section Contract.
Context `{Externals, SnapEnv, FeatureAnnotations, Cilium.CiliumEnv, MetalLB.MetalLBEnv, HelmStore}.

(** The chart is there, in order, at its version and with the values; or it is not there. *)
Definition deployed (h : client) (c : InstallableChart) (values : value) (s : Machine) : Prop :=
  ∃ r, store s !! ch_Name c = Some r ∧ in_order r ∧ rl_ChartVersion r = chart_version (chart_path h c) ∧
    config_holds (sanitizeHelmValues values) (rl_Config r).
Definition absent (c : InstallableChart) (s : Machine) : Prop := store s !! ch_Name c = None.
Definition only_changes (names : list string) (s s' : Machine) : Prop :=
  ∀ name, name ∉ names → store s' !! name = store s !! name.

Lemma reported_Ok {A} version prefix (ok : A → FeatureStatus) m s st s' :
  reported version prefix ok m s = (Ok (st, None), s') → ∃ a, m s = (Ok a, s') ∧ st = ok a.
Proof.
  unfold reported. intros [(r & s1 & (r0 & E & [= ->])%act_try_run & E2)|(e & _ & ?)]%act_bind_inv; [|done].
  destruct r0 as [a|e]; [injection E2 as <- <-; by exists a|done].
Qed.

Lemma Apply_deployed h c values s changed s' : plain values = true →
  Apply h c StatePresent values s = (Ok changed, s') → deployed h c values s' ∧ only_changes [ch_Name c] s s'.
Proof.
  intros Hp E. apply Apply_reaches in E as (Hn & _ & _ & _ & r & Hr); [|unfold sanitizeHelmValues; by rewrite plain_json_round].
  split; [by exists r|]. intros name Hname. apply Hn. set_solver.
Qed.
Lemma Apply_absent h c values s changed s' :
  Apply h c StateDeleted values s = (Ok changed, s') → absent c s' ∧ only_changes [ch_Name c] s s'.
Proof.
  intros E. apply Apply_reaches in E as (Hn & _ & Hr & _); [|done].
  split; [done|]. intros name Hname. apply Hn. set_solver.
Qed.
Lemma Apply_present_or_deleted h c (b : bool) values s changed s' : plain values = true →
  Apply h c (StatePresentOrDeleted b) values s = (Ok changed, s') →
  (if b then deployed h c values s' else absent c s') ∧ only_changes [ch_Name c] s s'.
Proof. intros Hp. destruct b; [by apply Apply_deployed|apply Apply_absent]. Qed.

Lemma deployed_store h c values s s' : store s' = store s → deployed h c values s → deployed h c values s'.
Proof. unfold deployed. by intros ->. Qed.
Lemma only_changes_store names s s1 s' : store s' = store s1 → only_changes names s s1 → only_changes names s s'.
Proof. unfold only_changes. by intros ->. Qed.
Lemma only_changes_trans names1 names2 s s1 s' :
  only_changes names1 s s1 → only_changes names2 s1 s' → only_changes (names1 ++ names2) s s'.
Proof. intros Ho1 Ho2 name Hn. rewrite Ho2, Ho1; [done|set_solver|set_solver]. Qed.

Lemma forallb_map_true {A} (f : A → value) l : (∀ x, plain (f x) = true) → forallb plain (map f l) = true.
Proof. intros Hf. induction l as [|x l IH]; [done|]. cbn. by rewrite Hf, IH. Qed.
Lemma plain_app m n : plain (VMap (m ++ n)) = plain (VMap m) && plain (VMap n).
Proof. apply forallb_app. Qed.
Lemma plain_network_values c ip port v4 v6 : plain (VMap (Cilium.network_values c ip port v4 v6)) = true.
Proof.
  unfold Cilium.network_values. rewrite !plain_app.
  destruct (Cilium.directRoutingDevice c ==? EmptyString), (Cilium.devices c ==? EmptyString),
    ((v4 ==? EmptyString) && (v6 !=? EmptyString)); reflexivity.
Qed.
Lemma plain_bpf_values c : plain (VMap (Cilium.bpf_values c)) = true.
Proof.
  unfold Cilium.bpf_values. destruct (Cilium.vlanBPFBypass c) as [l|]; [|done].
  cbn. rewrite (forallb_map_true VInt) by done. done.
Qed.
Lemma plain_lb_values lb neighbors advertiseAll : LoadBalancer_L2Interfaces lb ≠ None →
  plain (MetalLB.buildLoadBalancerValues lb neighbors advertiseAll) = true.
Proof.
  intros Hi. unfold MetalLB.buildLoadBalancerValues. destruct (LoadBalancer_L2Interfaces lb) as [l|]; [|done].
  cbn. rewrite (forallb_map_true VString) by done. rewrite forallb_app, !forallb_map_true by done.
  rewrite forallb_map_true; [done|]. intros n. unfold MetalLB.neighbor_value.
  rewrite !plain_app. destruct (MetalLB.myASN n ==? 0%Z), (MetalLB.nodeSelector n ==? ∅); try done; cbn;
    induction (map_to_list _) as [|kv m IH]; [done|done|done|done].
Qed.

(** *** Steps that only look at the releases *)

Definition looks (cmd : command) : Prop := changes_release cmd = false.
Hint Extern 1 (looks _) => reflexivity : emits.

Lemma looks_store {A} (m : act A) s r s' : emits looks eq m → m s = (r, s') → store s' = store s.
Proof. apply store_emits. Qed.

Lemma looks_rollout n : emits looks eq (Cilium.rolloutRestartCilium n).
Proof. unfold Cilium.rolloutRestartCilium. emits_go. Qed.
Lemma looks_vxlan port : emits looks eq (Cilium.checkAndSanitizeCiliumVXLAN port).
Proof.
  unfold Cilium.checkAndSanitizeCiliumVXLAN, Cilium.ListVXLANInterfaces.
  assert (Hl : ∀ links, emits looks eq (Cilium.vxlan_loop links)).
  { induction links as [|link links IH]; cbn [Cilium.vxlan_loop]; [apply emits_ret; typeclasses eauto|].
    apply emits_if; [done|]. emits_go. }
  apply emits_bind; [typeclasses eauto|apply emits_wrapf|intros l; apply emits_lift; typeclasses eauto].
  emits_go.
Qed.
Lemma looks_mounts s c : emits looks eq (Cilium.mount_values s c).
Proof. unfold Cilium.mount_values, Cilium.GetMountPath, Cilium.GetMountPropagationType. emits_go. Qed.
Lemma looks_wait_metallb ticks b : emits looks eq (MetalLB.waitForRequiredLoadBalancerCRDs ticks b).
Proof.
  unfold MetalLB.waitForRequiredLoadBalancerCRDs, MetalLB.metallb_ready, Cilium.k8s_ListResourcesForGroupVersion.
  apply emits_bind; [typeclasses eauto|emits_go|intros _]. apply emits_WaitUntilReady; [typeclasses eauto|]. emits_go.
Qed.

Lemma mount_values_plain sn c s mounts s' : Cilium.mount_values sn c s = (Ok mounts, s') → plain (VMap mounts) = true.
Proof.
  unfold Cilium.mount_values. destruct (Strict sn).
  - intros [(bpf & s1 & _ & E)|(e & _ & ?)]%act_bind_inv; [|done].
    apply act_bind_inv in E as [(cgr & s2 & _ & E)|(e & _ & ?)]; [|done]. by injection E as <- _.
  - intros [(pt & s1 & _ & E)|(e & _ & ?)]%act_bind_inv; [|done].
    destruct pt; [|done]. injection E as <- _. apply plain_bpf_values.
Qed.

(** What a successful deployment of the network went through. *)
Lemma enable_network_Ok lo h sn hostname apiserver network annotations s s' :
  Cilium.enable_network lo h sn hostname apiserver network annotations s = (Ok tt, s') →
  ∃ c ip v4 v6 mounts s1 s2 s3 s4 changed,
    Cilium.internalConfig annotations = Ok c ∧ GetLocalhostAddress lo = Ok ip ∧
    SplitCIDRStrings (Network_GetPodCIDR network) = Ok (v4, v6) ∧
    Cilium.mount_values sn c s1 = (Ok mounts, s2) ∧ store s2 = store s ∧
    Apply h Cilium.ChartCilium StatePresent
      (VMap (mounts ++ Cilium.network_values c ip (APIServer_GetSecurePort apiserver) v4 v6)) s3 = (Ok changed, s4) ∧
    store s3 = store s ∧ store s' = store s4.
Proof.
  unfold Cilium.enable_network.
  intros [(c & s1 & E1%act_wrapf_Ok & E)|(e & _ & ?)]%act_bind_inv; [|done]. injection E1 as Hc ->.
  apply act_bind_inv in E as [(ip & s2 & E2%act_wrapf_Ok & E)|(e & _ & ?)]; [|done]. injection E2 as Hip ->.
  apply act_bind_inv in E as [(u & s3 & E3 & E)|(e & _ & ?)]; [|done]. injection E3 as _ ->.
  apply act_bind_inv in E as [([v4 v6] & s4 & E4%act_wrapf_Ok & E)|(e & _ & ?)]; [|done]. injection E4 as Hcidr ->.
  apply act_bind_inv in E as [(u' & s5 & E5 & E)|(e & _ & ?)]; [|done].
  apply looks_store in E5; [|apply looks_vxlan].
  apply act_bind_inv in E as [(mounts & s6 & E6 & E)|(e & _ & ?)]; [|done].
  pose proof (looks_store _ _ _ _ (looks_mounts _ _) E6) as Hs6. rewrite E5 in Hs6.
  apply act_bind_inv in E as [(changed & s7 & E7%act_wrapf_Ok & E)|(e & _ & ?)]; [|done].
  apply act_wrapf_Ok, looks_store in E; [|apply looks_rollout].
  by exists c, ip, v4, v6, mounts, s5, s6, s6, s7, changed.
Qed.

Lemma enable_network_deploys lo h sn hostname apiserver network annotations s s' :
  Cilium.enable_network lo h sn hostname apiserver network annotations s = (Ok tt, s') →
  ∃ c ip v4 v6 mounts, Cilium.internalConfig annotations = Ok c ∧ GetLocalhostAddress lo = Ok ip ∧
    SplitCIDRStrings (Network_GetPodCIDR network) = Ok (v4, v6) ∧
    deployed h Cilium.ChartCilium
      (VMap (mounts ++ Cilium.network_values c ip (APIServer_GetSecurePort apiserver) v4 v6)) s' ∧
    only_changes ["ck-network"] s s'.
Proof.
  intros (c & ip & v4 & v6 & mounts & s1 & s2 & s3 & s4 & changed & Hc & Hip & Hv & Em & _ & E & Hs3 & Hs')
    %enable_network_Ok.
  apply Apply_deployed in E as [Hd Ho].
  2: { rewrite plain_app, plain_network_values, andb_true_r. by eapply mount_values_plain. }
  exists c, ip, v4, v6, mounts. split_and!; [done|done|done|by eapply deployed_store|].
  eapply only_changes_store; [exact Hs'|]. intros name Hn. by rewrite (Ho name Hn), Hs3.
Qed.

(** *** A setting that is gone from the annotations *)

Lemma setting_json_round k m : Forall (λ kv, valid_utf8 kv.1 = kv.1) m → setting k (VMap m) = None →
  setting k (json_round (VMap m)) = None.
Proof.
  unfold setting. cbn [json_round]. induction 1 as [|[k' v'] m Hk _ IH]; cbn [List.find map fst snd] in *; [done|].
  rewrite Hk. destruct (k' ==? k); [done|]. exact IH.
Qed.
Lemma setting_app k m n : setting k (VMap m) = None → setting k (VMap n) = None → setting k (VMap (m ++ n)) = None.
Proof. unfold setting. rewrite !fmap_None, find_app. by intros ->. Qed.

Lemma mount_values_devices sn c s mounts s' : Cilium.mount_values sn c s = (Ok mounts, s') →
  setting "devices" (VMap mounts) = None ∧ Forall (λ kv, valid_utf8 kv.1 = kv.1) mounts.
Proof.
  unfold Cilium.mount_values. destruct (Strict sn).
  - intros [(bpf & s1 & _ & E)|(e & _ & ?)]%act_bind_inv; [|done].
    apply act_bind_inv in E as [(cgr & s2 & _ & E)|(e & _ & ?)]; [|done]. injection E as <- _.
    split; [reflexivity|by repeat constructor].
  - intros [(pt & s1 & _ & E)|(e & _ & ?)]%act_bind_inv; [|done].
    destruct pt; [|done]. injection E as <- _. split; [reflexivity|by repeat constructor].
Qed.
Lemma network_values_devices c ip port v4 v6 : Cilium.devices c = EmptyString →
  setting "devices" (VMap (Cilium.network_values c ip port v4 v6)) = None ∧
  Forall (λ kv, valid_utf8 kv.1 = kv.1) (Cilium.network_values c ip port v4 v6).
Proof.
  intros Hd. unfold Cilium.network_values. rewrite (bool_decide_eq_true_2 _ Hd).
  destruct (_ && _); (split; [reflexivity|by repeat constructor]).
Qed.

(** Removing the annotation that names the devices of Cilium does nothing: a network that is
    applied without the annotation, and reports that it is enabled, leaves the devices of the
    installed chart as they were, because a value that is not set is not sent, and the values
    of the last revision are used again. *)
Theorem removed_devices_stay lo h sn hostname cfg s st s' r devices :
  Network_GetEnabled (CC_Network cfg) = true →
  Cilium.get (CC_Annotations cfg) AnnotationDevices = None →
  store s !! "ck-network" = Some r → setting "devices" (rl_Config r) = Some devices →
  Cilium.ApplyNetwork lo h sn hostname (CC_APIServer cfg) (CC_Network cfg) (CC_Annotations cfg) s = (Ok (st, None), s') →
  fs_Enabled st = true ∧
  ∃ r', store s' !! "ck-network" = Some r' ∧ setting "devices" (rl_Config r') = Some devices.
Proof.
  intros He Ha Hr Hdev. unfold Cilium.ApplyNetwork. rewrite He. cbn [negb].
  intros ([] & (c & ip & v4 & v6 & mounts & s1 & s2 & s3 & s4 & changed & Hc & _ & _ & Em & _ & E & Hs3 & Hs')
    %enable_network_Ok & ->)%reported_Ok.
  split; [done|]. assert (Hcd : Cilium.devices c = EmptyString).
  { unfold Cilium.internalConfig in Hc. apply bind_Ok in Hc as (? & _ & Hc).
    apply bind_Ok in Hc as (? & _ & [= <-]). cbn. by rewrite Ha. }
  destruct (mount_values_devices _ _ _ _ _ Em) as [Hm1 Hm2].
  destruct (network_values_devices c ip (APIServer_GetSecurePort (CC_APIServer cfg)) v4 v6 Hcd) as [Hn1 Hn2].
  rewrite Hs'. rewrite <- Hs3 in Hr. rewrite <- Hdev.
  eapply (Apply_keeps h Cilium.ChartCilium StatePresent); [|done| |exact Hr|exact E].
  - unfold sanitizeHelmValues. rewrite plain_json_round, plain_app, plain_network_values, andb_true_r.
    by eapply mount_values_plain.
  - apply setting_json_round; [by apply Forall_app|by apply setting_app].
Qed.

(** *** The load balancer *)

Lemma disable_metallb_removes h s s' : MetalLB.disableLoadBalancer h s = (Ok tt, s') →
  absent MetalLB.ChartMetalLBLoadBalancer s' ∧ absent MetalLB.ChartMetalLB s' ∧
  only_changes ["metallb"; "metallb-loadbalancer"] s s'.
Proof.
  unfold MetalLB.disableLoadBalancer.
  intros [(u & s1 & E1%act_wrapf_Ok & E)|(e & _ & ?)]%act_bind_inv; [|done].
  apply act_bind_inv in E as [(u' & s2 & E2%act_wrapf_Ok & E)|(e & _ & ?)]; [|done]. injection E as <-.
  apply Apply_absent in E1 as [Ha1 Ho1]. apply Apply_absent in E2 as [Ha2 Ho2]. split_and!.
  - unfold absent. by rewrite Ho2 by (cbn; set_solver).
  - done.
  - intros name Hn. cbn in Ho1, Ho2. by rewrite Ho2, Ho1 by set_solver.
Qed.

Lemma enable_metallb_deploys ticks h lb annotations s s' :
  LoadBalancer_L2Interfaces lb ≠ None → MetalLB.enableLoadBalancer ticks h lb annotations s = (Ok tt, s') →
  ∃ neighbors advertiseAll, MetalLB.chosen_neighbors lb annotations = Ok (neighbors, advertiseAll) ∧
    deployed h MetalLB.ChartMetalLB MetalLB.metallb_values s' ∧
    deployed h MetalLB.ChartMetalLBLoadBalancer (MetalLB.buildLoadBalancerValues lb neighbors advertiseAll) s' ∧
    only_changes ["metallb"; "metallb-loadbalancer"] s s'.
Proof.
  intros Hi. unfold MetalLB.enableLoadBalancer.
  intros [(u & s1 & E1%act_wrapf_Ok & E)|(e & _ & ?)]%act_bind_inv; [|done].
  apply act_bind_inv in E as [(u2 & s2 & E2%act_wrapf_Ok & E)|(e & _ & ?)]; [|done].
  apply act_bind_inv in E as [([neighbors advertiseAll] & s3 & E3 & E)|(e & _ & ?)]; [|done].
  injection E3 as Hc ->.
  apply act_bind_inv in E as [(u4 & s4 & E4%act_wrapf_Ok & E)|(e & _ & ?)]; [|done]. injection E4 as _ ->.
  apply act_bind_inv in E as [(u5 & s5 & E5%act_wrapf_Ok & E)|(e & _ & ?)]; [|done]. injection E as <-.
  apply Apply_deployed in E1 as [Hd1 Ho1]; [|reflexivity].
  apply looks_store in E2; [|apply looks_wait_metallb].
  apply Apply_deployed in E5 as [Hd5 Ho5]; [|by apply plain_lb_values].
  exists neighbors, advertiseAll. split_and!; [done| |done|].
  - destruct Hd1 as (r & Hr & Hrest). exists r. split; [|done]. by rewrite Ho5, E2 by (cbn; set_solver).
  - intros name Hn. cbn in Ho1, Ho5. by rewrite Ho5, E2, Ho1 by set_solver.
Qed.

Lemma enable_dns_deploys h dns kubelet s dnsIP s' : enable_dns h dns kubelet s = (Ok dnsIP, s') →
  deployed h coredns_Chart (coredns_values dns kubelet) s' ∧ only_changes ["ck-dns"] s s' ∧
  answered (GetServiceClusterIP "coredns" "kube-system") (Ok dnsIP) s s'.
Proof.
  unfold enable_dns, k8s_GetServiceClusterIP.
  intros [(u & s1 & E1%act_wrapf_Ok & E)|(e & _ & ?)]%act_bind_inv; [|done].
  apply act_bind_inv in E as [(u' & s2 & E2%act_wrapf_Ok & E)|(e & _ & ?)]; [|done].
  do 2 apply act_wrapf_Ok in E. pose proof (perform_answered (GetServiceClusterIP _ _) _ _ _ E) as Ha.
  apply (perform_Ok (GetServiceClusterIP _ _)) in E as [-> _].
  assert (Hl : later s s2).
  { etrans; [eapply emits_later; [|exact E1]|by eapply (perform_later (KubernetesClient _ _))].
    intros x r y Er. destruct (Apply_emits _ _ _ _ _ _ _ Er) as [(l & Hl & _) _].
    split; [|done]. exists l. split; [done|]. by apply Forall_true. }
  apply (perform_Ok (KubernetesClient _ _)) in E2 as [-> _].
  apply Apply_deployed in E1 as [Hd Ho]; [|reflexivity]. split_and!.
  - eapply deployed_store; [|exact Hd]. by rewrite !store_with_read.
  - eapply only_changes_store; [|exact Ho]. by rewrite !store_with_read.
  - by eapply answered_before.
Qed.

(** *** The contract *)

(** The network's values come from the annotations, the loopback address and the pod CIDRs,
    and from the mounts of the node. *)
Definition network_deployed (lo : res (res (list string))) (h : client) (cfg : ClusterConfig) (s' : Machine) : Prop :=
  ∃ c ip v4 v6 mounts, Cilium.internalConfig (CC_Annotations cfg) = Ok c ∧ GetLocalhostAddress lo = Ok ip ∧
    SplitCIDRStrings (Network_GetPodCIDR (CC_Network cfg)) = Ok (v4, v6) ∧
    deployed h Cilium.ChartCilium
      (VMap (mounts ++ Cilium.network_values c ip (APIServer_GetSecurePort (CC_APIServer cfg)) v4 v6)) s'.
Definition metallb_deployed (h : client) (cfg : ClusterConfig) (s' : Machine) : Prop :=
  deployed h MetalLB.ChartMetalLB MetalLB.metallb_values s' ∧
  ∃ neighbors advertiseAll,
    MetalLB.chosen_neighbors (CC_LoadBalancer cfg) (CC_Annotations cfg) = Ok (neighbors, advertiseAll) ∧
    deployed h MetalLB.ChartMetalLBLoadBalancer
      (MetalLB.buildLoadBalancerValues (CC_LoadBalancer cfg) neighbors advertiseAll) s'.

Lemma local_storage_converges h cfg s st s' : ApplyLocalStorage h cfg s = (Ok (st, None), s') →
  (if LocalStorage_GetEnabled cfg then deployed h localpv_Chart (localpv_values cfg) s' else absent localpv_Chart s') ∧
  only_changes ["ck-storage"] s s'.
Proof.
  unfold ApplyLocalStorage.
  intros [(r & s1 & (r0 & E & [= ->])%act_try_run & E2)|(e & _ & ?)]%act_bind_inv; [|done].
  destruct r0 as [changed|e]; [|destruct (LocalStorage_GetEnabled cfg); done].
  assert (s' = s1) as -> by (destruct (LocalStorage_GetEnabled cfg); by injection E2).
  by eapply Apply_present_or_deleted in E.
Qed.
Lemma metrics_server_converges h cfg annotations s st s' : ApplyMetricsServer h cfg annotations s = (Ok (st, None), s') →
  (if MetricsServer_GetEnabled cfg then deployed h metrics_chart (metrics_values (metrics_internalConfig annotations)) s'
   else absent metrics_chart s') ∧
  only_changes ["metrics-server"] s s'.
Proof.
  unfold ApplyMetricsServer.
  intros [(r & s1 & (r0 & E & [= ->])%act_try_run & E2)|(e & _ & ?)]%act_bind_inv; [|done].
  destruct r0 as [changed|e]; [|destruct (MetricsServer_GetEnabled cfg); done].
  assert (s' = s1) as -> by (destruct (MetricsServer_GetEnabled cfg); by injection E2).
  by eapply Apply_present_or_deleted in E.
Qed.
Lemma dns_converges h dns kubelet s st dnsIP s' : ApplyDNS h dns kubelet s = (Ok (st, dnsIP, None), s') →
  (if DNS_GetEnabled dns
   then deployed h coredns_Chart (coredns_values dns kubelet) s' ∧
        answered (GetServiceClusterIP "coredns" "kube-system") (Ok dnsIP) s s'
   else absent coredns_Chart s') ∧
  only_changes ["ck-dns"] s s'.
Proof.
  unfold ApplyDNS. destruct (DNS_GetEnabled dns); cbn [negb];
    intros [(r & s1 & (r0 & E & [= ->])%act_try_run & E2)|(e & _ & ?)]%act_bind_inv; try done;
    (destruct r0 as [a|e]; [injection E2 as <- <- <-|done]).
  - apply enable_dns_deploys in E as (Hd & Ho & Ha). done.
  - by apply act_wrapf_Ok, Apply_absent in E.
Qed.

End Contract.

(** ** Examples: the cluster whose network is stuck in an upgrade *)

Definition demo_ciliumenv : Cilium.CiliumEnv := {| Cilium.yaml_links _ := Ok [] |}.
Definition demo_config : ClusterConfig :=
  mkClusterConfig empty_Certificates empty_Datastore (mkAPIServer (Some 6443%Z) None) empty_Kubelet
    (mkNetwork (Some true) (Some "10.1.0.0/16") None None) empty_DNS empty_Ingress
    (mkLoadBalancer None None None None (Some []) None None None None None) empty_Gateway
    empty_LocalStorage empty_MetricsServer None.
Definition demo_network_run : res (FeatureStatus * option goerr) * Machine :=
  @Cilium.ApplyNetwork demo_helm_env demo_snap_env demo_feature_annotations demo_ciliumenv demo_cluster
    (Ok (Ok ["127.0.0.1/8"])) demo_client NodeSetup.demo_snapi "10.0.0.1" (CC_APIServer demo_config)
    (CC_Network demo_config) (CC_Annotations demo_config) demo_machine.
Definition demo_status : FeatureStatus := status true Cilium.CiliumAgentImageTag "enabled".
#[local] Existing Instances demo_helm_env demo_cluster demo_cluster_store demo_snap_env demo_feature_annotations
  demo_ciliumenv demo_externals.

Lemma demo_network_runs : demo_network_run = (Ok (demo_status, None), demo_network_run.2).
Proof. vm_compute. reflexivity. Qed.

Definition demo_metallb : MetalLB.MetalLBEnv := {| MetalLB.yaml_peers _ := Ok [] |}.
#[local] Existing Instance demo_metallb.


Lemma removed_devices_stay_witness :
  ∃ r', store demo_network_run.2 !! "ck-network" = Some r' ∧ setting "devices" (rl_Config r') = Some (VString "eth0").
Proof.
  apply (removed_devices_stay (Ok (Ok ["127.0.0.1/8"])) demo_client NodeSetup.demo_snapi "10.0.0.1"
           demo_config demo_machine demo_status demo_network_run.2
           (mkRelease "pending-upgrade" (VMap [("devices", VString "eth0"); ("replicas", VInt 1)]) "0.9"));
    [reflexivity|reflexivity|vm_compute; reflexivity|reflexivity|exact demo_network_runs].
Defined.

(** The deployment of the operator is only there while Cilium is installed. *)
Definition demo_operator : Outside := λ l cmd,
  match cmd return res (answer cmd) with
  | RestartDeployment _ _ =>
      match fold_left demo_releases_step l demo_stuck !! "ck-network" with
      | Some _ => Ok tt
      | None => Err (Errorf "deployments.apps %q not found" ["cilium-operator"])
      end
  | cmd => demo_helm demo_stuck l cmd
  end.

(** Disabling the gateway together with the network removes Cilium, and then fails because the
    Cilium that was removed cannot be restarted. *)
Lemma gateway_restarts_removed_cilium :
  let '(r, s') := @Cilium.ApplyGateway demo_helm_env demo_snap_env demo_operator demo_client
                    empty_Gateway empty_Network demo_machine in
  fold_left demo_releases_step (m_log s') demo_stuck !! "ck-network" = None ∧
  match r with Ok (st, Some e) => fs_Enabled st = false | _ => False end.
Proof. vm_compute. by split. Qed.
End FeaturesContract.
