(* ===== verification/Token.v ===== *)
(** * The token of a worker

    pkg/k8sd/types/worker.go: what a worker needs to join the cluster, as one string: JSON
    with a magic string, in base64 (the standard encoding of Go, with padding).  The JSON
    codec is external ([TokenEnv]); base64 is written out. *)

From S2P Require Import Prelude GoStrings.
Import GoStr.

Module Token.

Record InternalWorkerNodeToken := mkToken {
  tk_Token : string; tk_Secret : string; tk_JoinAddresses : list string; tk_Fingerprint : string }.

#[export] Instance InternalWorkerNodeToken_eq_dec : EqDecision InternalWorkerNodeToken.
Proof. solve_decision. Defined.

Definition internalWorkerNodeTokenSerializeMagicString : string := "m!!".

(** External: the JSON of [serializableWorkerNodeInfo], a token and the magic string. *)
Class TokenEnv := {
  json_Marshal_info : InternalWorkerNodeToken * string → res string;
  json_Unmarshal_info : string → res (InternalWorkerNodeToken * string) }.

(** ** base64 *)

Definition alphabet : string := "ABCDEFGHIJKLMNOPQRSTUVWXYZabcdefghijklmnopqrstuvwxyz0123456789+/".
Definition padding : ascii := "=".
Definition enc6 (n : N) : ascii := default padding (String.get (N.to_nat n) alphabet).
Fixpoint index_of (a : ascii) (s : string) : option N :=
  match s with
  | EmptyString => None
  | String b s => if Ascii.eqb a b then Some 0%N else N.succ <$> index_of a s
  end.
Definition dec6 (a : ascii) : option N := index_of a alphabet.

Definition code (a : ascii) : N := N_of_ascii a.
Definition quad (n : N) (s : string) : string :=
  String (enc6 (n / 262144)) (String (enc6 (n / 4096 mod 64)) (String (enc6 (n / 64 mod 64))
    (String (enc6 (n mod 64)) s))).

Fixpoint EncodeToString (s : string) : string :=
  match s with
  | EmptyString => EmptyString
  | String a EmptyString =>
      let n := (code a * 65536)%N in
      String (enc6 (n / 262144)) (String (enc6 (n / 4096 mod 64)) (String padding (one padding)))
  | String a (String b EmptyString) =>
      let n := (code a * 65536 + code b * 256)%N in
      String (enc6 (n / 262144))
        (String (enc6 (n / 4096 mod 64)) (String (enc6 (n / 64 mod 64)) (one padding)))
  | String a (String b (String c s)) =>
      quad (code a * 65536 + code b * 256 + code c) (EncodeToString s)
  end.

(** Line ends are skipped. *)
Fixpoint strip (s : string) : string :=
  match s with
  | EmptyString => EmptyString
  | String a s => if byte_is 10 a || byte_is 13 a then strip s else String a (strip s)
  end.

Definition CorruptInputError : goerr := Errorf "illegal base64 data at input byte %d" [].

Definition byte_of (n : N) : ascii := ascii_of_N (n mod 256).
Fixpoint decode (s : string) : res string :=
  match s with
  | EmptyString => Ok EmptyString
  | String a (String b (String c (String d s))) =>
      match dec6 a, dec6 b, dec6 c, dec6 d with
      | Some w, Some x, Some y, Some z =>
          let n := (w * 262144 + x * 4096 + y * 64 + z)%N in
          rest ← decode s;
          Ok (String (byte_of (n / 65536)) (String (byte_of (n / 256)) (String (byte_of n) rest)))
      | Some w, Some x, Some y, None =>
          let n := (w * 262144 + x * 4096 + y * 64)%N in
          if Ascii.eqb d padding && (s ==? EmptyString)
          then Ok (String (byte_of (n / 65536)) (one (byte_of (n / 256)))) else Err CorruptInputError
      | Some w, Some x, None, _ =>
          let n := (w * 262144 + x * 4096)%N in
          if Ascii.eqb c padding && Ascii.eqb d padding && (s ==? EmptyString)
          then Ok (one (byte_of (n / 65536))) else Err CorruptInputError
      | _, _, _, _ => Err CorruptInputError
      end
  | _ => Err CorruptInputError
  end.
Definition DecodeString (s : string) : res string := decode (strip s).

(** ** worker.go *)

Section Token.
Context `{TokenEnv}.

Definition Encode (t : InternalWorkerNodeToken) : res string :=
  b ← wrapf "failed to marshal token: %w" [] (json_Marshal_info (t, internalWorkerNodeTokenSerializeMagicString));
  Ok (EncodeToString b).

Definition Decode (encoded : string) : res InternalWorkerNodeToken :=
  raw ← wrapf "failed to deserialize token: %w" [] (DecodeString encoded);
  '(t, magic) ← wrapf "failed to unmarshal token: %w" [] (json_Unmarshal_info raw);
  _ ← fails_if (magic !=? internalWorkerNodeTokenSerializeMagicString) (Errorf "magic string mismatch" []);
  Ok t.
End Token.

(** ** base64 is read back *)

Lemma enc6_spec n : (n < 64)%N →
  dec6 (enc6 n) = Some n ∧ byte_is 10 (enc6 n) || byte_is 13 (enc6 n) = false.
Proof.
  intros Hn.
  assert (Hall : forallb (λ k, bool_decide (dec6 (enc6 (N.of_nat k)) = Some (N.of_nat k)) &&
    negb (byte_is 10 (enc6 (N.of_nat k)) || byte_is 13 (enc6 (N.of_nat k)))) (seq 0 64) = true) by reflexivity.
  rewrite List.forallb_forall in Hall. specialize (Hall (N.to_nat n)).
  rewrite N2Nat.id, in_seq, andb_true_iff, bool_decide_eq_true, negb_true_iff in Hall. apply Hall. lia.
Qed.

Lemma code_lt a : (code a < 256)%N.
Proof. apply N_ascii_bounded. Qed.
Lemma byte_of_code a n : (n mod 256 = code a)%N → byte_of n = a.
Proof. unfold byte_of. intros ->. apply ascii_N_embedding. Qed.

(** The sextets of a group of three bytes. *)
Lemma sextets n : (n < 16777216)%N →
  (n / 262144 < 64 ∧ n / 4096 mod 64 < 64 ∧ n / 64 mod 64 < 64 ∧ n mod 64 < 64 ∧
   n / 262144 * 262144 + n / 4096 mod 64 * 4096 + n / 64 mod 64 * 64 + n mod 64 = n)%N.
Proof.
  intros Hn. change 4096%N with (64 * 64)%N. change 262144%N with (64 * 64 * 64)%N.
  rewrite <- !N.Div0.div_div. set (p := (n / 64)%N). set (q := (p / 64)%N).
  pose proof (N.div_mod n 64 ltac:(discriminate)) as En. pose proof (N.mod_lt n 64 ltac:(discriminate)) as Ln.
  pose proof (N.div_mod p 64 ltac:(discriminate)) as Ep. pose proof (N.mod_lt p 64 ltac:(discriminate)) as Lp.
  pose proof (N.div_mod q 64 ltac:(discriminate)) as Eq. pose proof (N.mod_lt q 64 ltac:(discriminate)) as Lq.
  fold p in En. fold q in Ep.
  generalize dependent (n mod 64)%N. generalize dependent (p mod 64)%N. generalize dependent (q mod 64)%N.
  generalize dependent (q / 64)%N. clearbody q. clearbody p. intros. lia.
Qed.

Lemma strip_enc6 n s : (n < 64)%N → strip (String (enc6 n) s) = String (enc6 n) (strip s).
Proof. intros Hn. cbn [strip]. by rewrite (proj2 (enc6_spec _ Hn)). Qed.
Lemma strip_padding s : strip (String padding s) = String padding (strip s).
Proof. done. Qed.

Lemma strip_encode s : strip (EncodeToString s) = EncodeToString s.
Proof.
  remember (String.length s) as n eqn:Hn. revert s Hn.
  induction (lt_wf n) as [n _ IH]. intros s ->.
  destruct s as [|a [|b [|c s]]]; [done| | |]; cbn [EncodeToString]; unfold quad, one.
  all: pose proof (code_lt a); try pose proof (code_lt b); try pose proof (code_lt c).
  - destruct (sextets (code a * 65536)) as (L1 & L2 & _); [lia|].
    by rewrite !strip_enc6, !strip_padding by done.
  - destruct (sextets (code a * 65536 + code b * 256)) as (L1 & L2 & L3 & _); [lia|].
    by rewrite !strip_enc6, !strip_padding by done.
  - destruct (sextets (code a * 65536 + code b * 256 + code c)) as (L1 & L2 & L3 & L4 & _); [lia|].
    rewrite !strip_enc6 by done. rewrite (IH (String.length s)); [done|cbn; lia|done].
Qed.

(** The bytes of a group. *)
Lemma bytes_of a b c :
  let n := (code a * 65536 + code b * 256 + code c)%N in
  byte_of (n / 65536) = a ∧ byte_of (n / 256) = b ∧ byte_of n = c.
Proof.
  intros n. pose proof (code_lt a) as Ha. pose proof (code_lt b) as Hb. pose proof (code_lt c) as Hc.
  unfold n. split_and!; apply byte_of_code.
  - rewrite <- (N.div_unique _ 65536 (code a) (code b * 256 + code c)) by lia. by apply N.mod_small.
  - rewrite <- (N.div_unique _ 256 (code a * 256 + code b) (code c)) by lia.
    symmetry. apply (N.mod_unique _ _ (code a)); lia.
  - symmetry. apply (N.mod_unique _ _ (code a * 256 + code b)%N); lia.
Qed.
Lemma code_zero : code "000" = 0%N.
Proof. done. Qed.

Lemma decode_encode s : decode (EncodeToString s) = Ok s.
Proof.
  remember (String.length s) as n eqn:Hn. revert s Hn.
  induction (lt_wf n) as [n _ IH]. intros s ->.
  destruct s as [|a [|b [|c s]]]; [done| | |].
  all: pose proof (code_lt a); try pose proof (code_lt b); try pose proof (code_lt c).
  - cbn [EncodeToString decode one]. destruct (sextets (code a * 65536)) as (L1 & L2 & L3 & L4 & E); [lia|].
    rewrite (proj1 (enc6_spec _ L1)), (proj1 (enc6_spec _ L2)). cbn.
    assert (code a * 65536 / 262144 * 262144 + code a * 65536 / 4096 mod 64 * 4096 = code a * 65536)%N as ->
      by (revert L1 L2 L3 L4 E; generalize (code a * 65536 / 262144)%N (code a * 65536 / 4096 mod 64)%N
            (code a * 65536 / 64 mod 64)%N (code a * 65536 mod 64)%N; intros; lia).
    destruct (bytes_of a "000" "000") as (Ba & _). rewrite code_zero, !N.add_0_r in Ba. by rewrite Ba.
  - cbn [EncodeToString decode one].
    destruct (sextets (code a * 65536 + code b * 256)) as (L1 & L2 & L3 & L4 & E); [lia|].
    rewrite (proj1 (enc6_spec _ L1)), (proj1 (enc6_spec _ L2)), (proj1 (enc6_spec _ L3)). cbn.
    set (n := (code a * 65536 + code b * 256)%N) in *.
    assert (n / 262144 * 262144 + n / 4096 mod 64 * 4096 + n / 64 mod 64 * 64 = n)%N as ->
      by (revert L1 L2 L3 L4 E; generalize (n / 262144)%N (n / 4096 mod 64)%N (n / 64 mod 64)%N (n mod 64)%N; lia).
    destruct (bytes_of a b "000") as (Ba & Bb & _). rewrite code_zero, N.add_0_r in Ba, Bb. fold n in Ba, Bb.
    by rewrite Ba, Bb.
  - cbn [EncodeToString]. unfold quad, one. cbn [decode].
    destruct (sextets (code a * 65536 + code b * 256 + code c)) as (L1 & L2 & L3 & L4 & E); [lia|].
    rewrite (proj1 (enc6_spec _ L1)), (proj1 (enc6_spec _ L2)), (proj1 (enc6_spec _ L3)), (proj1 (enc6_spec _ L4)), E.
    rewrite (IH (String.length s)); [|cbn; lia|done]. cbn.
    destruct (bytes_of a b c) as (Ba & Bb & Bc). by rewrite Ba, Bb, Bc.
Qed.

Lemma Encode_Decode `{TokenEnv} : (∀ info b, json_Marshal_info info = Ok b → json_Unmarshal_info b = Ok info) →
  ∀ t s, Encode t = Ok s → Decode s = Ok t.
Proof.
  intros Hj t s. unfold Encode. destruct (json_Marshal_info _) as [b|e] eqn:E; [|done]. intros [= <-].
  unfold Decode, DecodeString. rewrite strip_encode, decode_encode. cbn. by rewrite (Hj _ _ E).
Qed.

(** A token that was encoded is read back, if JSON reads back what it wrote; base64 in
    between loses nothing, for any text.  Whatever is read as a token had the magic string. *)
Theorem token_roundtrip `{TokenEnv} :
  (∀ info b, json_Marshal_info info = Ok b → json_Unmarshal_info b = Ok info) →
  (∀ t s, Encode t = Ok s → Decode s = Ok t) ∧
  (∀ s t, Decode s = Ok t → ∃ raw, DecodeString s = Ok raw ∧
     json_Unmarshal_info raw = Ok (t, internalWorkerNodeTokenSerializeMagicString)).
Proof.
  intros Hj. split.
  - by apply Encode_Decode.
  - intros s t. unfold Decode. destruct (DecodeString s) as [raw|e]; [|done]. cbn.
    destruct (json_Unmarshal_info raw) as [[t' magic]|e] eqn:E; [|done]. cbn.
    destruct (magic ==? _) eqn:Em; [|done]. apply bool_decide_eq_true in Em as ->. intros [= ->]. by exists raw.
Qed.

(** ** An instance *)

Definition demo_token : InternalWorkerNodeToken := mkToken "w1" "worker::s3cret" ["10.0.0.1:6400"] "abc".
Definition demo_token_env : TokenEnv := {|
  json_Marshal_info info := if bool_decide (info = (demo_token, "m!!")) then Ok "{}" else Err ErrNotExist;
  json_Unmarshal_info raw := if raw ==? "{}" then Ok (demo_token, "m!!") else Err ErrNotExist |}.

Example demo_encoded : @Encode demo_token_env demo_token = Ok "e30=".
Proof. reflexivity. Qed.

Lemma token_roundtrip_witness : @Decode demo_token_env "e30=" = Ok demo_token.
Proof.
  apply (@token_roundtrip demo_token_env); [|reflexivity].
  intros info b. unfold json_Marshal_info, demo_token_env. case_bool_decide as E; [|discriminate].
  intros [= <-]. by rewrite E.
Defined.
End Token.
