(* ===== verification/KubeClient.v ===== *)
(** * The client of the API server

    pkg/client/kubernetes: the endpoints of the API server (endpoints.go, with
    [ParseEndpointSlices] of pkg/utils/endpointslices.go), the status of the cluster
    (status.go), and the watch of a request for a certificate
    (certificate_signing_request.go).  A request to the API server is a command of
    Effects.v; the retries of client-go are part of it. *)

From S2P Require Import Prelude GoStrings FileSys Database Effects.
Import GoStr FileSys Effects.

Module KubeClient.

(** ** pkg/utils/endpointslices.go *)

Definition default_port : Z := 6443.
Definition https_port (ports : list (option string * option Z)) : Z :=
  match List.find (λ p, (p.1 ==? Some "https") && bool_decide (is_Some p.2)) ports with
  | Some (_, Some port) => port
  | _ => default_port
  end.

(** The addresses of a slice of a kind that is supported. *)
Definition slice_address (type : string) (port : Z) (addr : string) : option string :=
  if addr ==? EmptyString then None
  else if type ==? "IPv4" then Some (addr +:+ ":" +:+ Itoa port)
  else if type ==? "IPv6" then Some ("[" +:+ addr +:+ "]" +:+ ":" +:+ Itoa port)
  else None.
Definition slice_addresses (s : EndpointSlice) : list string :=
  omap (slice_address (es_AddressType s) (https_port (es_Ports s))) (concat (es_Endpoints s)).

Definition ParseEndpointSlices (endpointSlices : list EndpointSlice) : list string :=
  sort_Strings (concat (slice_addresses <$> endpointSlices)).

Section Client.
Context `{Outside}.

(** ** endpoints.go *)

Definition GetKubeAPIServerEndpoints : act (list string) :=
  endpointSlices ← act_wrapf "failed to get endpoints for kubernetes service: %w" [] (perform ListEndpointSlices);
  let addresses := ParseEndpointSlices endpointSlices in
  _ ← act_lift (fails_if (Nat.eqb (length addresses) 0)
        (Errorf "empty list of endpoints for the kubernetes service" []));
  mret addresses.

(** ** status.go *)

Definition k8s_WaitKubernetesEndpointAvailable (ticks : nat) : act unit :=
  WaitUntilReady ticks (r ← act_try GetKubeAPIServerEndpoints; mret (is_ok r)).

(** The conditions of each node, with their status. *)
Definition is_ready (conditions : list (string * string)) : bool :=
  existsb (λ c, (c.1 ==? "Ready") && (c.2 ==? "True")) conditions.
Definition HasReadyNodes : act bool :=
  nodes ← act_wrapf "failed to list nodes: %w" [] (perform NodeConditions);
  mret (existsb is_ready nodes).

(** ** certificate_signing_request.go *)

(** [verify] gets each event, and ends the watch with what it sets the variables of its
    caller to.  The result of the events of one watch is [None] if it is to be retried.  An
    event that is [None] stands for a watch that was closed, or an object of another kind.
    The context is done after [ticks] waits at the latest. *)
Fixpoint watch_events {A} (ticks : nat) (name : string) (verify : CSREvent → act (option A)) : act (option A) :=
  match ticks with
  | O => act_lift (Err ctx_Err)
  | S ticks =>
      evt ← perform (WatchCSR name);
      match evt with
      | None => mret None
      | Some csr =>
          valid ← act_wrapf "failed to verify CSR %s: %w" [name] (verify csr);
          match valid with
          | Some a => mret (Some a)
          | None => watch_events ticks name verify
          end
      end
  end.

(** The watch is opened, which may fail and is then retried. *)
Definition watchCertificateSigningRequestEvents {A} (ticks : nat) (name : string)
    (verify : CSREvent → act (option A)) : act (option A) :=
  w ← act_try (perform (OpenWatchCSR name));
  match w with
  | Err _ => mret None
  | Ok _ => watch_events ticks name verify
  end.

Fixpoint WatchCertificateSigningRequest {A} (ticks : nat) (name : string) (verify : CSREvent → act (option A))
    : act A :=
  match ticks with
  | O => act_lift (Err ctx_Err)
  | S t =>
      r ← act_wrapf "failed to watch CSR %s: %w" [name]
            (watchCertificateSigningRequestEvents ticks name verify);
      match r with
      | Some a => mret a
      | None =>
          w ← act_try (perform (After 3));
          match w with
          | Ok _ => WatchCertificateSigningRequest t name verify
          | Err _ => act_lift (Err ctx_Err)
          end
      end
  end.
End Client.

(** ** Lemmas *)

Lemma https_port_named ports p :
  List.find (λ p, (p.1 ==? Some "https") && bool_decide (is_Some p.2)) ports = Some p →
  p.2 = Some (https_port ports).
Proof.
  unfold https_port. intros E. rewrite E. apply List.find_some in E as [_ E].
  apply andb_true_iff in E as [_ E%bool_decide_eq_true]. destruct p as [n [z|]]; [done|]. by destruct E.
Qed.

(** The addresses do not depend on the order of the slices, of the endpoints or of the
    addresses in them: what is written to the file of the proxy is stable. *)
Lemma ParseEndpointSlices_perm l l' :
  concat (slice_addresses <$> l) ≡ₚ concat (slice_addresses <$> l') →
  ParseEndpointSlices l = ParseEndpointSlices l'.
Proof. apply sort_Strings_perm_eq. Qed.

Lemma elem_of_ParseEndpointSlices a l :
  a ∈ ParseEndpointSlices l ↔
  ∃ s addr, s ∈ l ∧ addr ∈ concat (es_Endpoints s) ∧
    slice_address (es_AddressType s) (https_port (es_Ports s)) addr = Some a.
Proof.
  unfold ParseEndpointSlices. rewrite sort_Strings_Permutation, list_elem_of_In, in_concat. split.
  - intros (x & Hx & Ha). apply list_elem_of_In, list_elem_of_fmap in Hx as (s & -> & Hs).
    apply list_elem_of_In, list_elem_of_omap in Ha as (addr & Haddr & E). by exists s, addr.
  - intros (s & addr & Hs & Ha & E). exists (slice_addresses s). split; apply list_elem_of_In.
    + apply list_elem_of_fmap. by exists s.
    + apply list_elem_of_omap. by exists addr.
Qed.

Section Lemmas.
Context `{Outside}.

Lemma emits_GetKubeAPIServerEndpoints : emits any_command any_change GetKubeAPIServerEndpoints.
Proof. unfold GetKubeAPIServerEndpoints. emits_go. Qed.

(** The API server has told at least one of its addresses. *)
Definition api_server_answered (s s' : Machine) : Prop :=
  ∃ slices, answered ListEndpointSlices (Ok slices) s s' ∧ ParseEndpointSlices slices ≠ [].

Lemma GetKubeAPIServerEndpoints_Ok s addresses s' : GetKubeAPIServerEndpoints s = (Ok addresses, s') →
  ∃ slices, perform ListEndpointSlices s = (Ok slices, s') ∧
    addresses = ParseEndpointSlices slices ∧ addresses ≠ [].
Proof.
  intros (slices & s1 & E1%act_wrapf_Ok & E)%act_bind_Ok_inv. exists slices.
  apply act_bind_Ok_inv in E as ([] & s2 & [= Hf <-] & [= <- <-]).
  apply fails_if_Ok in Hf. split_and!; [done|done|]. by intros E0; rewrite E0 in Hf.
Qed.

Lemma k8s_WaitKubernetesEndpointAvailable_Ok ticks s s' :
  k8s_WaitKubernetesEndpointAvailable ticks s = (Ok tt, s') → api_server_answered s s'.
Proof.
  intros (s1 & Hl & E)%WaitUntilReady_Ok; [|pose proof emits_GetKubeAPIServerEndpoints; emits_go].
  apply act_bind_Ok_inv in E as (r & s2 & (r0 & E & [= ->])%act_try_run & [= Hr <-]).
  destruct r0 as [addresses|]; [|done].
  apply GetKubeAPIServerEndpoints_Ok in E as (slices & E & -> & Hne). exists slices. split; [|done].
  eapply answered_before; [exact Hl|]. exact (perform_answered ListEndpointSlices _ _ _ E).
Qed.
End Lemmas.
End KubeClient.
