(* ===== verification/Hooks.v ===== *)
(** * The hooks of a running node

    pkg/k8sd/app: what happens when the daemon starts (hooks_start.go), when the node has
    become ready (hooks_node_ready.go), after the snap was refreshed
    (hooks_post_refresh.go) and before the node leaves the cluster (hooks_remove.go); the
    start of the services of a control plane node (cluster_util.go) and the tuning of the
    system (system_tuning.go).

    A hook gets the snap ([App]), what microcluster knows of the node ([MState]), and what
    the machine says of itself ([Host]), which stays the same during a hook. *)

From S2P Require Import Prelude GoStrings GoNet Cidr Config ConfigConvert FileSys Pki PkiNode Arguments.
From S2P Require Import ConfigFiles Node Database Feature Upgrade Effects Snap Checks SnapdConfig.
From S2P Require Import NodeSetup Cleanup KubeClient.
Import GoStr GoNet Cidr Config Convert FileSys Pki PkiNode Arguments ConfigFiles Node Database Effects Snap Checks
  SnapdConfig NodeSetup Cleanup KubeClient.

Module Hooks.

Record App := mkApp { app_snap :> SnapI; app_dirs : snap }.
Record MState := mkMState { st_Name : string; st_Hostname : string; st_WebhookURL : string }.

(** The network interfaces, the addresses of the machine as they print, the addresses of
    localhost, the entries of a directory, and the time. *)
Record Host := mkHost {
  h_Interfaces : res (list Interface);
  h_Addrs : res (list string);
  h_Localhost : res (res (list string));
  h_ReadDir : string → res (list DirEntry);
  h_Now : Z }.

Class HookAnnotations := { AnnotationSkipStopServicesOnRemove : string }.

(** External: [ParseGeneric] of k8s.io/apimachinery/pkg/util/version. *)
Class VersionParser `{Upgrades.Versions} := { ParseGeneric : string → res Upgrades.version }.

(** The generation of certificates, on a struct; its draws are those of the machine. *)
Definition act_gen {S} (m : gen S unit) (c : S) : act S := λ s,
  let '(r, c', n) := m c (m_rand s) in
  ((λ _, c') <$> r, mkMachine (m_world s) (m_db s) n (m_log s)).

(** The struct [ControlPlanePKI{}] and the others, as they are used to remove the files. *)
Definition no_ControlPlanePKI : ControlPlanePKI :=
  mkControlPlanePKI (mkOpts false false EmptyString [] [] 0 0) (λ _, EmptyString).
Definition no_WorkerNodePKI : WorkerNodePKI :=
  mkWorkerNodePKI EmptyString EmptyString EmptyString EmptyString EmptyString EmptyString EmptyString EmptyString.
Definition no_ExternalDatastorePKI : ExternalDatastorePKI :=
  mkExternalDatastorePKI EmptyString EmptyString EmptyString.

Definition systemConfFileHeader : string :=
  "# AUTOGENERATED - DO NOT EDIT" +:+ one newline +:+
  "# Generated by the k8s snap for system tuning." +:+ one newline +:+
  "# Delete this file to disable auto-tuning." +:+ one newline +:+
  "# Overrides defaults via 'sysctl --system' on k8sd service start." +:+ one newline.

Section Hooks.
Context `{SetupEnv, Outside, SnapdEnv, DBEnv, Externals, !HookAnnotations, VersionParser}.
(** The order in which Go goes through a map of settings, of paths and of processes; the
    sockets of the plug-ins of the kubelet, and more than the depth of the tree of processes. *)
Context (order : list string → list string) (order_paths : list (string * string) → list (string * string))
  (order_procs order_procs' : list (string * processInfo) → list (string * processInfo))
  (plugins registry : res (list tree)) (fuel : nat).

(** ** system_tuning.go *)

Definition tuneSystemSettings (host : Host) (a : App) : act unit :=
  let dir := SystemTuningConfigDir (system a) in
  match GetFileMatches (h_ReadDir host dir) with
  | Ok (name :: _) =>
      let confFile := filepath_Join [dir; name] in
      newConfig ← act_io (MinConfigFileDiff (h_ReadDir host) (SystemConfigDirs (system a))
                            (SystemMinConfig (system a)) confFile);
      if bool_decide (newConfig = ∅) then mret tt
      else
        _ ← act_logged (act_io (SerializeArgumentFile newConfig confFile systemConfFileHeader));
        act_wrapf "failed to apply system parameters: %w" [] (perform (RunCommand ["sysctl"; "--system"]))
  | _ => mret tt
  end.

(** A new node, unless the snap is strict or the user does not want it. *)
Definition tune_new_node (host : Host) (a : App) (disabled : bool) : act unit :=
  if negb (Strict a) && negb disabled then
    _ ← act_logged (act_io (ensureSystemTuningConfigFile (h_ReadDir host)
                              (SystemTuningConfigDir (system a)) systemConfFileHeader));
    act_logged (tuneSystemSettings host a)
  else mret tt.

(** ** cluster_util.go *)

Definition startControlPlaneServices (a : App) (cfg : ClusterConfig) : act unit :=
  let datastore := Datastore_GetType (CC_Datastore cfg) in
  _ ← (if datastore ==? "etcd" then act_wrapf "failed to start etcd services: %w" [] (StartEtcdServices a)
       else if datastore ==? "external" then mret tt
       else act_lift (Err (Errorf "unsupported datastore %s, must be one of %v" [datastore; "etcd"; "external"])));
  act_wrapf "failed to start control plane services: %w" [] (StartControlPlaneServices a cfg).

Definition waitApiServerReady (ticks : nat) : act unit :=
  _ ← act_wrapf "failed to create Kubernetes client: %w" [] (perform (KubernetesClient true EmptyString));
  act_wrapf "kubernetes endpoints not ready yet: %w" [] (k8s_WaitKubernetesEndpointAvailable ticks).

(** ** [ensureRunningServices] of hooks_start.go *)

Definition util_GetClusterConfig : act ClusterConfig :=
  act_wrapf "failed to perform cluster config transaction request: %w" []
    (act_wrapf "failed to get cluster config from database: %w" [] (act_query GetClusterConfig)).

Definition ensureRunningServices (a : App) : act unit :=
  _ ← act_wrapf "failed to create a k8sd client: %w" [] (perform (K8sdClient EmptyString));
  '(_, initialized) ← act_wrapf "failed to check the current node status: %w" [] (perform NodeStatus);
  if negb initialized then mret tt
  else
    isWorker ← act_wrapf "failed to determine if the node is a worker: %w" [] (act_io (IsWorker a));
    cfg ← act_wrapf "failed to get cluster config: %w" [] util_GetClusterConfig;
    if isWorker : bool then
      act_wrapf "failed to start worker services after retry: %w" [] (retryFor 5 5 (StartWorkerServices a cfg))
    else
      act_wrapf "failed to start control-plane services: %w" [] (retryFor 5 5 (startControlPlaneServices a cfg)).

(** ** hooks_post_refresh.go *)

Definition node_ips (host : Host) (st : MState) (fmt : string) : act (IP * list IP) :=
  match ParseIP (st_Hostname st) with
  | None => act_lift (Err (Errorf fmt [st_Hostname st]))
  | Some nodeIP =>
      nodeIPs ← act_wrapf "failed to get local node IPs for kubelet: %w" []
                  (act_lift (GetIPv46Addresses (h_Interfaces host) nodeIP));
      mret (nodeIP, nodeIPs)
  end.

Definition node_ip_argument (nodeIPs : list IP) : list string :=
  IP_String <$> List.filter (λ ip, negb (IsLoopback ip)) nodeIPs.

Definition updateNodeIPAddresses (host : Host) (a : App) (st : MState) : act unit :=
  '(_, nodeIPs) ← node_ips host st "failed to parse node IP address %s";
  let ips := node_ip_argument nodeIPs in
  match ips with
  | [] => mret tt
  | _ =>
      mustRestartKubelet ← act_wrapf "failed to render arguments file: %w" []
        (act_io (UpdateServiceArguments a "kubelet" [("--node-ip", join "," ips)] []));
      if mustRestartKubelet : bool then
        act_wrapf "failed after retry: %w" []
          (retryFor 5 5 (act_wrapf "failed to restart kubelet to apply node ip addresses: %w" []
                           (RestartServices a ["kubelet"] [])))
      else mret tt
  end.

(** [GetInProgressUpgrade] of pkg/client/kubernetes/upgrades.go. *)
Definition k8s_GetInProgressUpgrade : act (option Feature.Upgrade) :=
  items ← act_wrapf "failed after retry: %w" []
            (retryGet_loop 5 5 (act_wrapf "failed to get upgrades: %w" [] (perform ListUpgrades)) context_Canceled);
  mret (match items with Some items => Upgrades.latest_in_progress items | None => None end).

Definition k8s_PatchUpgradeStatus (u : Feature.Upgrade) (status : Feature.UpgradeStatus) : act unit :=
  act_wrapf "failed to patch upgrade status: %w" []
    (perform (PatchUpgrade (Feature.up_Name u) (Upgrades.mkPatch (Feature.up_Status u) status))).

(** A new upgrade, of which the status is empty. *)
Definition create_upgrade (rev k8sVersion : string) : act Feature.Upgrade :=
  let name := Upgrades.GetName (Upgrades.mkInfo rev (Some k8sVersion)) in
  _ ← act_wrapf "failed to create upgrade: %w" [] (perform (CreateUpgrade name));
  mret (Feature.mkUpgrade name
          (Feature.mkUpgradeStatus (Feature.OtherPhase EmptyString) [] (Feature.OtherStrategy EmptyString))).

Definition add_node (name : string) (nodes : list string) : list string :=
  if bool_decide (name ∈ nodes) then nodes else nodes ++ [name].

Definition performPostUpgrade (a : App) (st : MState) : act unit :=
  _ ← act_wrapf "failed to get Kubernetes client: %w" [] (perform (KubernetesClient true EmptyString));
  upgrade ← act_wrapf "failed to check for in-progress upgrade: %w" [] k8s_GetInProgressUpgrade;
  u ← match upgrade with
      | Some u => mret u
      | None =>
          rev ← act_wrapf "failed to get revision: %w" [] (snap_Revision a);
          k8sVersion ← act_wrapf "failed to get kubernetes version: %w" [] (NodeKubernetesVersion a);
          create_upgrade rev k8sVersion
      end;
  act_wrapf "failed to mark node as upgraded: %w" []
    (k8s_PatchUpgradeStatus u
       (Feature.mkUpgradeStatus Feature.NodeUpgrade
          (add_node (st_Name st) (Feature.us_UpgradedNodes (Feature.up_Status u))) Feature.InPlace)).

Definition postRefreshHook (host : Host) (a : App) (st : MState) : act unit :=
  _ ← act_wrapf "failed to update node IP addresses: %w" [] (updateNodeIPAddresses host a st);
  isWorker ← act_wrapf "failed to check if node is a worker: %w" [] (act_io (IsWorker a));
  if isWorker : bool then mret tt
  else
    config ← act_wrapf "failed to get cluster config: %w" [] util_GetClusterConfig;
    _ ← act_wrapf "failed to set snapd configuration from k8sd: %w" []
          (SetSnapdFromK8sd order (ToUserFacing config) a);
    ready ← act_wrapf "failed to get boostrap status: %w" [] (perform MicroclusterReady);
    if negb (Annotations_Get (CC_Annotations config) AnnotationDisableSeparateFeatureUpgrades).2 then
      if ready : bool then act_wrapf "failed to perform post-upgrade: %w" [] (performPostUpgrade a st) else mret tt
    else mret tt.

(** ** hooks_node_ready.go *)

Definition applyCustomCRDs (a : App) : act unit :=
  isWorker ← act_wrapf "failed to check if node is a worker: %w" [] (act_io (IsWorker a));
  if isWorker : bool then mret tt
  else
    _ ← act_wrapf "failed to create kubernetes client: %w" [] (perform (KubernetesClient true EmptyString));
    act_wrapf "failed to apply custom CRDs: %w" [] (perform ApplyCRDs).

Definition PostRefreshLockPath (s : Snap) : string := filepath_Join [LockFilesDir s; "post-refresh"].

(** The result tells whether the controller of the node configuration is notified. *)
Definition onNodeReady (host : Host) (a : App) (st : MState) : act bool :=
  _ ← act_logged (applyCustomCRDs a);
  isPostRefresh ← act_wrapf "failed to check if snap is post-refresh: %w" []
                    (act_io (FileExists (PostRefreshLockPath a)));
  if isPostRefresh : bool then
    _ ← act_wrapf "failed to run post-refresh hook: %w" [] (postRefreshHook host a st);
    _ ← act_wrapf "failed to remove post-refresh lock file: %w" [] (act_io (os_Remove (PostRefreshLockPath a)));
    mret true
  else mret false.

(** ** hooks_remove.go *)

(** [os.RemoveAll], which also takes the files of the directory. *)
Definition below (dir p : string) : bool := (p ==? dir) || has_prefix (dir +:+ "/") p.
Definition os_RemoveAll (dir : string) : act unit :=
  _ ← perform (RemoveAll dir);
  act_io (fs ← get_files; put_files (filter (λ kv, below dir kv.1 = false) fs)).

(** The wait for the end of a join, with the number of queries that failed. *)
Definition maxRetries : Z := 10.
Fixpoint wait_joined (ticks : nat) (name : string) (retries : Z) : act unit :=
  match ticks with
  | O => act_lift (Err ctx_Err)
  | S ticks =>
      member ← act_try (perform (GetClusterMember name));
      let retries := match member with Ok _ => retries | Err _ => (retries + 1)%Z end in
      let notPending := match member with Ok m => cm_Role m !=? "PENDING" | Err _ => false end in
      if (maxRetries <=? retries)%Z || notPending then mret tt else wait_joined ticks name retries
  end.

(** The certificates, the services and what they leave behind. *)
Definition remove_services (a : App) : act unit :=
  _ ← act_logged (act_io (EnsureWorkerPKI a no_WorkerNodePKI));
  _ ← act_logged (act_io (EnsureControlPlanePKI a no_ControlPlanePKI));
  _ ← act_logged (StopK8sServices a ["--no-wait"]);
  _ ← act_logged (TryCleanupContainers fuel order_procs order_procs' order_paths plugins registry a);
  act_logged (TryCleanupContainerdPaths order_paths a).

Definition onPreRemove (ticks : nat) (a : App) (st : MState) : act unit :=
  _ ← act_wrapf "failed to get k8sd client: %w" [] (perform (K8sdClient EmptyString));
  _ ← act_logged (wait_joined ticks (st_Name st) 0);
  cfg ← act_try util_GetClusterConfig;
  _ ← match cfg with
      | Ok cfg =>
          if negb (Annotations_Get (CC_Annotations cfg) AnnotationSkipStopServicesOnRemove).2
          then remove_services a else mret tt
      | Err _ => mret tt
      end;
  _ ← act_logged (act_io (EnsureExtDatastorePKI a no_ExternalDatastorePKI));
  _ ← act_logged (os_RemoveAll (EtcdDir a));
  _ ← act_logged (os_RemoveAll (ServiceArgumentsDir a));
  act_logged (act_io (MarkAsWorkerNode a false)).
End Hooks.
End Hooks.
