(* ===== verification/HooksBootstrap.v ===== *)
(** * The first start of a node

    pkg/k8sd/app/hooks_bootstrap.go: [onBootstrapControlPlane] for the first control plane
    node of a cluster, [onBootstrapWorkerNode] for a worker that joins with a token.

    The configuration a user gives to a node ([NodeOptions]) stands for the parts of
    [BootstrapConfig], [ControlPlaneJoinConfig] and [WorkerJoinConfig] that describe the node:
    the values of the getters, which are not in this repository.  The certificate of a server
    is what it prints as; its SHA-256 sum is external ([Sha256]). *)

From S2P Require Import Prelude GoStrings GoNet Cidr Config ConfigValidate ConfigDefaults ConfigConvert.
From S2P Require Import FileSys Pki PkiNode Arguments ConfigFiles Setup Node Database Effects Snap.
From S2P Require Import Checks SnapdConfig NodeSetup Token Hooks.
Import GoStr GoNet Cidr Config Validation Convert FileSys Pki PkiNode Arguments ConfigFiles Setup Node Database
  Effects Snap Checks SnapdConfig NodeSetup Token Hooks.

Module Bootstrap.

Record NodeOptions := mkNodeOptions {
  no_ExtraSANs : list string;
  no_DisableSystemTuning : bool;
  no_cert : Field → string;
  no_etcd : EtcdField → string;
  no_ContainerdConfig : value;
  no_ContainerdArgs : list (string * option string);
  no_KubeletArgs : list (string * option string);
  no_KubeProxyArgs : list (string * option string);
  no_KubeControllerManagerArgs : list (string * option string);
  no_KubeSchedulerArgs : list (string * option string);
  no_KubeAPIServerArgs : list (string * option string);
  no_EtcdArgs : list (string * option string);
  no_K8sAPIServerProxyArgs : list (string * option string);
  no_ConfigFiles : list (string * string) }.

Class Sha256 := CertFingerprint : string → string.

(** utils/certificate.go *)
Definition SplitIPAndDNSSANs (extraSANs : list string) : list IP * list string :=
  let sans := List.filter (λ san, san !=? EmptyString) extraSANs in
  (omap ParseIP sans, List.filter (λ san, match ParseIP san with Some _ => false | None => true end) sans).

(** ** The pieces of a control plane node *)

Definition loopback_ips : list IP := omap ParseIP ["127.0.0.1"; "::1"].
Definition unsupported (t : string) : goerr :=
  Errorf "unsupported datastore %s, must be one of %v" [t; "etcd"; "external"].

Definition with_etcd_certificates (d : Datastore) (c : EtcdPKI) : Datastore :=
  mkDatastore (Datastore_Type d) (Datastore_ExternalServers d) (Datastore_ExternalCACert d)
    (Datastore_ExternalClientCert d) (Datastore_ExternalClientKey d)
    (Some (et c EtcdCACert)) (Some (et c EtcdCAKey))
    (Some (et c EtcdAPIServerClientCert)) (Some (et c EtcdAPIServerClientKey))
    (Datastore_EtcdPort d) (Datastore_EtcdPeerPort d).

Definition cluster_certificates (c : ControlPlanePKI) : Certificates :=
  mkCertificates (Some (cp c CACert)) (Some (cp c CAKey)) (Some (cp c ClientCACert)) (Some (cp c ClientCAKey))
    (Some (cp c FrontProxyCACert)) (Some (cp c FrontProxyCAKey)) (Some (cp c ServiceAccountKey))
    (Some (cp c APIServerKubeletClientCert)) (Some (cp c APIServerKubeletClientKey))
    (Some (cp c AdminClientCert)) (Some (cp c AdminClientKey))
    (Some (cp c K8sdPublicKey)) (Some (cp c K8sdPrivateKey)).

Definition with_certificates (cfg : ClusterConfig) (d : Datastore) (c : Certificates) : ClusterConfig :=
  mkClusterConfig c d (CC_APIServer cfg) (CC_Kubelet cfg) (CC_Network cfg) (CC_DNS cfg) (CC_Ingress cfg)
    (CC_LoadBalancer cfg) (CC_Gateway cfg) (CC_LocalStorage cfg) (CC_MetricsServer cfg) (CC_Annotations cfg).

(** The certificates a user may give to a new cluster; the key pair of the cluster is always
    generated. *)
Definition given_certificates (o : NodeOptions) (f : Field) : string :=
  match f with K8sdPublicKey | K8sdPrivateKey => EmptyString | _ => no_cert o f end.

Definition control_plane_service_configs (o : NodeOptions) : K8sServiceConfigs :=
  mkServiceConfigs (no_KubeControllerManagerArgs o) (no_KubeSchedulerArgs o) (no_KubeletArgs o) (no_KubeProxyArgs o).

Definition worker_certificates (o : NodeOptions) (r : WorkerInfo) : WorkerNodePKI :=
  let over f given := if no_cert o f !=? EmptyString then no_cert o f else given in
  mkWorkerNodePKI (wi_CACert r) (wi_ClientCACert r)
    (over KubeletCert (wi_KubeletCert r)) (over KubeletKey (wi_KubeletKey r))
    (over KubeProxyClientCert (wi_KubeProxyClientCert r)) (over KubeProxyClientKey (wi_KubeProxyClientKey r))
    (over KubeletClientCert (wi_KubeletClientCert r)) (over KubeletClientKey (wi_KubeletClientKey r)).

(** The cluster configuration of a worker. *)
Definition worker_config (securePort : Z) (r : WorkerInfo) : ClusterConfig :=
  mkClusterConfig
    (mkCertificates (Some (wi_CACert r)) None (Some (wi_ClientCACert r)) None None None None None None None None
       (Some (wi_K8sdPublicKey r)) None)
    empty_Datastore (mkAPIServer (Some securePort) None) empty_Kubelet
    (mkNetwork None (Some (wi_PodCIDR r)) (Some (wi_ServiceCIDR r)) (Some (wi_KubeProxyEnabled r)))
    empty_DNS empty_Ingress empty_LoadBalancer empty_Gateway empty_LocalStorage empty_MetricsServer
    (wi_Annotations r).

(** The port after the last colon, or the whole text. *)
Definition apiserver_port (servers : list string) : res Z :=
  match servers with
  | [] => Err (Errorf "no APIServers found in worker node info" [])
  | server :: _ =>
      wrapf "failed to parse apiserver secure port: %w" []
        (ParseInt64 (match last_index ":" server with Some i => drop (S i) server | None => server end))
  end.

Section Bootstrap.
Context `{SetupEnv, Outside, SnapEnv, SnapdEnv, DBEnv, Externals, PkiEnv, !EndpointsJson, !BootstrapGetters,
          !TokenEnv, !Sha256}.
Context (order : list string → list string) (order_ports order_paths : list (string * string) → list (string * string)).

Definition etcd_pki_of (allow : bool) (host : Host) (st : MState) (nodeIP : IP) (sans : list IP * list string)
    (certificates : EtcdField → string) : EtcdPKI :=
  let new := NewEtcdPKI allow (st_Name st) ([nodeIP] ++ loopback_ips ++ sans.1) ([st_Name st] ++ sans.2)
               (h_Now host) (Some (AddDate (h_Now host) 20 0 0)) in
  mkEtcdPKI (et_opts new) certificates.

Definition ensure_etcd (host : Host) (a : App) (certificates : EtcdPKI) : act EtcdPKI :=
  c ← act_wrapf "failed to initialize etcd certificates: %w" []
        (act_gen (Etcd_CompleteCertificates (h_Now host)) certificates);
  _ ← act_wrapf "failed to write etcd certificates: %w" [] (act_io (EnsureEtcdPKI a c));
  mret c.

Definition ensure_external (a : App) (d : Datastore) : act unit :=
  let c := mkExternalDatastorePKI (Datastore_GetExternalCACert d) (Datastore_GetExternalClientCert d)
             (Datastore_GetExternalClientKey d) in
  _ ← act_wrapf "failed to initialize external datastore certificates: %w" [] (act_lift (CheckCertificates c));
  _ ← act_wrapf "failed to write external datastore certificates: %w" [] (act_io (EnsureExtDatastorePKI a c));
  mret tt.

(** The certificates of the datastore, which for etcd become part of the configuration. *)
Definition bootstrap_datastore_pki (host : Host) (a : App) (st : MState) (o : NodeOptions) (d : Datastore)
    (nodeIP : IP) (sans : list IP * list string) : act Datastore :=
  let t := Datastore_GetType d in
  if t ==? "etcd" then
    c ← ensure_etcd host a (etcd_pki_of true host st nodeIP sans (no_etcd o));
    mret (with_etcd_certificates d c)
  else if t ==? "external" then _ ← ensure_external a d; mret d
  else act_lift (Err (unsupported t)).

Definition control_plane_pki_of (allow : bool) (host : Host) (st : MState) (nodeIP : IP) (serviceIPs : list IP)
    (sans : list IP * list string) (certificates : Field → string) : ControlPlanePKI :=
  let new := NewControlPlanePKI allow true (st_Name st) ([nodeIP] ++ serviceIPs ++ sans.1) sans.2
               (h_Now host) (Some (AddDate (h_Now host) 20 0 0)) in
  mkControlPlanePKI (cp_opts new) certificates.

Definition complete_control_plane (host : Host) (certificates : ControlPlanePKI) : act ControlPlanePKI :=
  act_wrapf "failed to initialize control plane certificates: %w" []
    (act_gen (ControlPlane_CompleteCertificates (h_Now host) (h_Addrs host)) certificates).

(** The arguments of the services of a control plane node, and its extra files. *)
Definition configure_control_plane (host : Host) (a : App) (st : MState) (o : NodeOptions) (cfg : ClusterConfig)
    (nodeIP : IP) (nodeIPs : list IP) : act unit :=
  let k := CC_Kubelet cfg in
  _ ← act_wrapf "failed to configure containerd: %w" []
        (Containerd order_paths a (no_ContainerdConfig o) (no_ContainerdArgs o));
  _ ← act_wrapf "failed to configure kubelet: %w" []
        (act_io (KubeletControlPlane a (st_Name st) nodeIPs (Kubelet_GetClusterDNS k) (Kubelet_GetClusterDomain k)
                   (Kubelet_GetCloudProvider k) (Kubelet_GetControlPlaneTaints k) (no_KubeletArgs o)));
  _ ← act_wrapf "failed to configure kube-proxy: %w" []
        (act_io (KubeProxy (h_Localhost host) a (st_Name st) (Network_GetPodCIDR (CC_Network cfg)) (no_KubeProxyArgs o)));
  _ ← act_wrapf "failed to configure kube-controller-manager: %w" []
        (act_io (KubeControllerManager a (no_KubeControllerManagerArgs o)));
  _ ← act_wrapf "failed to configure kube-scheduler: %w" [] (act_io (KubeScheduler a (no_KubeSchedulerArgs o)));
  _ ← act_wrapf "failed to configure kube-apiserver: %w" []
        (act_io (KubeAPIServer (h_Localhost host) a (APIServer_GetSecurePort (CC_APIServer cfg)) nodeIP
                   (Network_GetServiceCIDR (CC_Network cfg)) (st_WebhookURL st) true (CC_Datastore cfg)
                   (APIServer_GetAuthorizationMode (CC_APIServer cfg)) (no_KubeAPIServerArgs o)));
  act_wrapf "failed to write extra node config files: %w" [] (act_io (ExtraNodeConfigFiles a (no_ConfigFiles o))).

Definition write_config (fmt : string) (cfg : ClusterConfig) : act unit :=
  _ ← act_wrapf fmt []
        (act_wrapf "failed to write cluster configuration: %w" [] (act_db (SetClusterConfig cfg)));
  mret tt.

Definition retry_start (fmt : string) (start : act unit) : act unit :=
  act_wrapf "failed after retry: %w" [] (retryFor 5 5 (act_wrapf fmt [] start)).

(** ** onBootstrapControlPlane *)

(** What comes before the configuration is written: the certificates, the checks and the
    arguments of the services.  The result is the configuration. *)
Definition prepare_control_plane (host : Host) (a : App) (st : MState) (b : BootstrapConfig) (o : NodeOptions)
    : act ClusterConfig :=
  cfg ← act_wrapf "invalid bootstrap config: %w" [] (act_lift (ClusterConfigFromBootstrapConfig b));
  let cfg := Defaults.SetDefaults cfg in
  _ ← act_wrapf "invalid cluster configuration: %w" [] (act_lift (Validate cfg));
  '(nodeIP, nodeIPs) ← node_ips host st "failed to parse node IP address %q";
  _ ← act_wrapf "failed to create directories: %w" [] (EnsureAllDirectories a);
  _ ← tune_new_node host a (no_DisableSystemTuning o);
  let serviceCIDR := Network_GetServiceCIDR (CC_Network cfg) in
  serviceIPs ← act_wrapf "failed to get IP address(es) from ServiceCIDR %q: %w" [serviceCIDR]
                 (act_lift (GetKubernetesServiceIPsFromServiceCIDRs serviceCIDR));
  let sans := SplitIPAndDNSSANs (no_ExtraSANs o) in
  datastore ← bootstrap_datastore_pki host a st o (CC_Datastore cfg) nodeIP sans;
  certificates ← complete_control_plane host
                   (control_plane_pki_of true host st nodeIP serviceIPs sans (given_certificates o));
  _ ← act_wrapf "failed to write control plane certificates: %w" [] (act_io (EnsureControlPlanePKI a certificates));
  let cfg := with_certificates cfg datastore (cluster_certificates certificates) in
  _ ← act_wrapf "pre-init checks failed for bootstrap node: %w" []
        (PreInitChecks order_ports (app_dirs a) cfg (control_plane_service_configs o) true);
  _ ← act_wrapf "failed to generate kubeconfigs: %w" []
        (act_io (SetupControlPlaneKubeconfigs (h_Localhost host) (KubernetesConfigDir a)
                   (APIServer_GetSecurePort (CC_APIServer cfg)) certificates));
  _ ← (if Datastore_GetType datastore ==? "etcd" then
         act_wrapf "failed to configure etcd: %w" []
           (act_io (Etcd (h_Localhost host) a (st_Name st) nodeIP (Datastore_GetEtcdPort datastore)
                      (Datastore_GetEtcdPeerPort datastore) ∅ (no_EtcdArgs o)))
       else if Datastore_GetType datastore ==? "external" then mret tt
       else act_lift (Err (unsupported (Datastore_GetType datastore))));
  _ ← configure_control_plane host a st o cfg nodeIP nodeIPs;
  mret cfg.

(** The features whose loops are notified: network, gateway, ingress, load balancer, local
    storage, metrics server and DNS. *)
Definition notified_features (cfg : ClusterConfig) : list bool :=
  [Network_GetEnabled (CC_Network cfg); Gateway_GetEnabled (CC_Gateway cfg); Ingress_GetEnabled (CC_Ingress cfg);
   LoadBalancer_GetEnabled (CC_LoadBalancer cfg); LocalStorage_GetEnabled (CC_LocalStorage cfg);
   MetricsServer_GetEnabled (CC_MetricsServer cfg); DNS_GetEnabled (CC_DNS cfg)].

Definition run_control_plane (ticks : nat) (a : App) (cfg : ClusterConfig) : act (list bool) :=
  _ ← act_wrapf "failed to set snapd configuration from k8sd: %w" [] (SetSnapdFromK8sd order (ToUserFacing cfg) a);
  _ ← retry_start "failed to start services: %w" (startControlPlaneServices a cfg);
  _ ← act_wrapf "kube-apiserver did not become ready in time: %w" [] (waitApiServerReady ticks);
  mret (notified_features cfg).

Definition onBootstrapControlPlane (ticks : nat) (host : Host) (a : App) (st : MState) (b : BootstrapConfig)
    (o : NodeOptions) : act (list bool) :=
  cfg ← prepare_control_plane host a st b o;
  _ ← write_config "database transaction to update cluster configuration failed: %w" cfg;
  run_control_plane ticks a cfg.

(** ** onBootstrapWorkerNode *)

(** The first address that answers, with its certificate. *)
Fixpoint first_certificate (addresses : list string) (last : res (string * string)) : act (string * string) :=
  match addresses with
  | [] => act_lift last
  | address :: addresses =>
      cert ← act_try (perform (GetRemoteCertificate address));
      match cert with
      | Ok cert => mret (address, cert)
      | Err e => first_certificate addresses (Err e)
      end
  end.

Definition worker_info (host : Host) (st : MState) (encodedToken : string) : act (list IP * WorkerInfo) :=
  token ← act_wrapf "failed to parse worker token: %w" [] (act_lift (Decode encodedToken));
  let empty := Errorf "empty list of control plane addresses" [] in
  _ ← act_lift (fails_if (Nat.eqb (length (tk_JoinAddresses token)) 0) empty);
  '(nodeIP, nodeIPs) ← node_ips host st "failed to parse node IP address %s";
  '(address, cert) ← act_wrapf "failed to get certificate of cluster member: %w" []
                       (first_certificate (tk_JoinAddresses token) (Err empty));
  let fingerprint := CertFingerprint cert in
  _ ← act_lift (fails_if (fingerprint !=? tk_Fingerprint token)
        (Errorf "fingerprint from token (%q) does not match fingerprint of node %q (%q)"
           [tk_Fingerprint token; address; fingerprint]));
  response ← perform (PostWorkerInfo address cert (st_Name st) (tk_Secret token) (IP_String nodeIP));
  mret (nodeIPs, response).

Definition prepare_worker (host : Host) (a : App) (st : MState) (encodedToken : string) (o : NodeOptions)
    : act (list IP * WorkerInfo * Z) :=
  '(nodeIPs, response) ← worker_info host st encodedToken;
  _ ← act_wrapf "failed to create directories: %w" [] (EnsureAllDirectories a);
  _ ← tune_new_node host a (no_DisableSystemTuning o);
  let certificates := worker_certificates o response in
  _ ← act_wrapf "failed to initialize worker node certificates: %w" []
        (act_lift (Worker_CompleteCertificates certificates));
  _ ← act_wrapf "failed to write worker node certificates: %w" [] (act_io (EnsureWorkerPKI a certificates));
  securePort ← act_lift (apiserver_port (wi_APIServers response));
  _ ← act_wrapf "failed to generate worker node kubeconfigs: %w" []
        (act_io (SetupWorkerKubeconfigs (h_Localhost host) (KubernetesConfigDir a) securePort certificates));
  _ ← act_wrapf "pre-init checks failed for worker node: %w" []
        (PreInitChecks order_ports (app_dirs a) (worker_config securePort response)
           (mkServiceConfigs [] [] (no_KubeletArgs o) (no_KubeProxyArgs o)) false);
  mret (nodeIPs, response, securePort).

Definition configure_worker (host : Host) (a : App) (st : MState) (o : NodeOptions) (nodeIPs : list IP)
    (response : WorkerInfo) (securePort : Z) : act unit :=
  _ ← act_wrapf "failed to configure containerd: %w" []
        (Containerd order_paths a (no_ContainerdConfig o) (no_ContainerdArgs o));
  _ ← act_wrapf "failed to configure kubelet: %w" []
        (act_io (KubeletWorker a (st_Name st) nodeIPs (wi_ClusterDNS response) (wi_ClusterDomain response)
                   (wi_CloudProvider response) (no_KubeletArgs o)));
  _ ← act_wrapf "failed to configure kube-proxy: %w" []
        (act_io (KubeProxy (h_Localhost host) a (st_Name st) (wi_PodCIDR response) (no_KubeProxyArgs o)));
  _ ← act_wrapf "failed to configure k8s-apiserver-proxy: %w" []
        (act_io (K8sAPIServerProxy a (wi_APIServers response) securePort (no_K8sAPIServerProxyArgs o)));
  _ ← act_wrapf "failed to write extra node config files: %w" [] (act_io (ExtraNodeConfigFiles a (no_ConfigFiles o)));
  act_wrapf "failed to mark node as worker: %w" [] (act_io (MarkAsWorkerNode a true)).

Definition onBootstrapWorkerNode (host : Host) (a : App) (st : MState) (encodedToken : string) (o : NodeOptions)
    : act unit :=
  '(nodeIPs, response, securePort) ← prepare_worker host a st encodedToken o;
  let cfg := worker_config securePort response in
  _ ← write_config "database transaction to set cluster configuration failed: %w" cfg;
  _ ← configure_worker host a st o nodeIPs response securePort;
  retry_start "failed to start worker services: %w" (StartWorkerServices a cfg).
End Bootstrap.
End Bootstrap.
