(* ===== verification/HooksJoin.v ===== *)
(** * A control plane node that joins

    [onPostJoin] of pkg/k8sd/app/hooks_join.go: the certificates of the cluster are taken
    from the database, the node becomes a learner of the etcd cluster and then a voting
    member, the services are started, and the node takes part in an upgrade.  When a step
    fails, what was done to the cluster is reverted.  [RemoveNodeByName] is of
    pkg/client/etcd/client.go.

    External: the errors of etcd ([EtcdErrors]). *)

From S2P Require Import Prelude GoStrings GoNet Cidr Config ConfigValidate ConfigConvert FileSys Pki.
From S2P Require Import PkiNode Arguments Setup Node Database Feature Upgrade Effects Snap Checks.
From S2P Require Import SnapdConfig NodeSetup Token Hooks HooksBootstrap.
Import GoStr GoNet Cidr Config Convert FileSys Pki PkiNode Arguments Setup Node Database Effects Snap Checks
  SnapdConfig NodeSetup Hooks Bootstrap.

Module Join.

Class EtcdErrors := { ErrMemberNotEnoughStarted : goerr; ErrUnhealthy : goerr }.

(** [buildInitialClusterMembers] *)
Definition buildInitialClusterMembers (members : list Member) : gmap string string :=
  fold_left (λ m member,
    match mb_PeerURLs member with
    | url :: _ => if mb_Name member ==? EmptyString then m else <[mb_Name member := url]> m
    | [] => m
    end) members ∅.

(** The certificates of a joining node: the ones all nodes share, and the user's. *)
Definition join_certificates (c : Certificates) (o : NodeOptions) (f : Field) : string :=
  match f with
  | CACert => Certificates_GetCACert c | CAKey => Certificates_GetCAKey c
  | ClientCACert => Certificates_GetClientCACert c | ClientCAKey => Certificates_GetClientCAKey c
  | FrontProxyCACert => Certificates_GetFrontProxyCACert c | FrontProxyCAKey => Certificates_GetFrontProxyCAKey c
  | APIServerKubeletClientCert => Certificates_GetAPIServerKubeletClientCert c
  | APIServerKubeletClientKey => Certificates_GetAPIServerKubeletClientKey c
  | ServiceAccountKey => Certificates_GetServiceAccountKey c
  | K8sdPublicKey => Certificates_GetK8sdPublicKey c
  | K8sdPrivateKey => Certificates_GetK8sdPrivateKey c
  | _ => no_cert o f
  end.
Definition join_etcd_certificates (d : Datastore) (o : NodeOptions) (f : EtcdField) : string :=
  match f with
  | EtcdCACert => Datastore_GetEtcdCACert d | EtcdCAKey => Datastore_GetEtcdCAKey d
  | EtcdAPIServerClientCert => Datastore_GetEtcdAPIServerClientCert d
  | EtcdAPIServerClientKey => Datastore_GetEtcdAPIServerClientKey d
  | _ => no_etcd o f
  end.

(** [reverter.Add] before, and [reverter.Fail] if [m] fails. *)
Definition guarded {A} (undo : act unit) (m : act A) : act A :=
  r ← act_try m;
  match r with
  | Ok a => mret a
  | Err e => _ ← act_try undo; act_lift (Err e)
  end.

Section Join.
Context `{SetupEnv, Outside, SnapEnv, SnapdEnv, DBEnv, Externals, PkiEnv, !EndpointsJson, VersionParser, !EtcdErrors}.
Context (order : list string → list string) (order_ports order_paths : list (string * string) → list (string * string)).

(** ** pkg/client/etcd/client.go *)

Definition RemoveNodeByName (endpoints : list string) (name : string) : act unit :=
  members ← act_wrapf "failed to list etcd members: %w" [] (perform (MemberList endpoints));
  let memberID := match List.find (λ m, mb_Name m ==? name) members with Some m => mb_ID m | None => 0%Z end in
  if (memberID =? 0)%Z then act_lift (Err (Errorf "no etcd member found with name: %s" [name]))
  else act_wrapf "failed to remove etcd member: %w" [] (perform (MemberRemove endpoints memberID)).

(** ** The reverters *)

(** [registerEtcdMemberReverter]: what it registers. *)
Definition revert_etcd_member (a : App) (nodeName : string) (endpoints : list string) (isLearner : bool) : act unit :=
  let n := length endpoints in
  if (isLearner && Nat.ltb 0 n) || (negb isLearner && Nat.ltb 2 n) then
    client ← act_try (perform (EtcdClient endpoints));
    match client with
    | Err _ => mret tt
    | Ok _ =>
        r ← act_try (RemoveNodeByName endpoints nodeName);
        match r with
        | Err _ => mret tt
        | Ok _ => act_logged (os_RemoveAll (EtcdDir a))
        end
    end
  else mret tt.

Definition removeMember (endpoints : list string) (learnerID : Z) : act unit :=
  match endpoints with
  | [] => mret tt
  | _ => act_logged (_ ← perform (EtcdClient endpoints); perform (MemberRemove endpoints learnerID))
  end.

Definition revert_etcd (a : App) (endpoints : list string) (learnerID : Z) (promoted etcdStarted : bool) : act unit :=
  _ ← (if promoted then removeMember endpoints learnerID else mret tt);
  _ ← (if etcdStarted then act_logged (StopEtcdServices a) else mret tt);
  _ ← (if negb promoted then removeMember endpoints learnerID else mret tt);
  act_logged (os_RemoveAll (EtcdDir a)).

(** [registerK8sNodeDeletionReverter]: what it registers. *)
Definition revert_node (nodeName : string) : act unit := act_logged (perform (DeleteNode nodeName)).

(** ** The upgrade *)

Definition getNodeVersion (a : App) : act Upgrades.version :=
  v ← act_wrapf "failed to get node Kubernetes version: %w" [] (NodeKubernetesVersion a);
  act_lift (ParseGeneric v).

Fixpoint parse_versions (nodes : list (string * string)) : res (list (string * Upgrades.version)) :=
  match nodes with
  | [] => Ok []
  | (name, kubeletVersion) :: nodes =>
      v ← wrapf "failed to parse version for node %s: %w" [name] (ParseGeneric kubeletVersion);
      rest ← parse_versions nodes;
      Ok ((name, v) :: rest)
  end.
Definition k8s_NodeVersions : act (list (string * Upgrades.version)) :=
  nodes ← act_wrapf "failed to list nodes: %w" [] (perform ListNodes);
  act_lift (parse_versions nodes).

Definition initiateRollingUpgrade (a : App) (st : MState) (this cluster : Upgrades.version) : act unit :=
  rev ← act_wrapf "failed to get snap revision: %w" [] (snap_Revision a);
  let strategy := if Upgrades.GreaterThan this cluster then Feature.RollingUpgrade else Feature.RollingDowngrade in
  u ← create_upgrade rev (Upgrades.version_String this);
  act_wrapf "failed to patch upgrade status: %w" []
    (k8s_PatchUpgradeStatus u (Feature.mkUpgradeStatus Feature.NodeUpgrade [st_Name st] strategy)).

Definition handleNoUpgradeInProgress (a : App) (st : MState) (this : Upgrades.version)
    (nodeVersions : list (string * Upgrades.version)) : act unit :=
  cluster ← act_lift (Upgrades.cluster_version (st_Name st) nodeVersions None);
  match cluster with
  | None => act_lift (Err (Errorf "the cluster has no nodes - cannot determine cluster Kubernetes version" []))
  | Some cluster =>
      if Upgrades.EqualTo this cluster then mret tt
      else if (Upgrades.Major this =? Upgrades.Major cluster)%Z && (Upgrades.Minor this =? Upgrades.Minor cluster)%Z
      then act_lift (Err (Errorf "the joining node has a different patch version than cluster nodes" []))
      else if (Upgrades.Major this =? Upgrades.Major cluster)%Z then initiateRollingUpgrade a st this cluster
      else mret tt
  end.

Definition handleUpgradeInProgress (st : MState) (upgrade : Feature.Upgrade) (this : Upgrades.version)
    (nodeVersions : list (string * Upgrades.version)) : act unit :=
  let '(lowest, highest) := Upgrades.lowestHighestK8sVersions nodeVersions in
  let s := Feature.up_Status upgrade in
  _ ← act_lift (match Feature.us_Strategy s with
        | Feature.RollingUpgrade =>
            Upgrades.must_match this highest "joining node version %q needs to match highest version %q"
        | Feature.RollingDowngrade =>
            Upgrades.must_match this lowest "joining node version %q needs to match lowest version %q"
        | Feature.InPlace => Err (Errorf "can not join a new node while an in-place upgrade is in progress" [])
        | Feature.OtherStrategy o => Err (Errorf "unknown upgrade strategy in progress: %q" [o])
        end);
  k8s_PatchUpgradeStatus upgrade
    (Feature.mkUpgradeStatus (Feature.us_Phase s) (add_node (st_Name st) (Feature.us_UpgradedNodes s))
       (Feature.us_Strategy s)).

Definition handleRollOutUpgrade (a : App) (st : MState) : act unit :=
  upgrade ← act_wrapf "failed to check for in-progress upgrade: %w" [] k8s_GetInProgressUpgrade;
  this ← act_wrapf "failed to get node Kubernetes version: %w" [] (getNodeVersion a);
  nodeVersions ← act_wrapf "failed to get Kubernetes versions of cluster: %w" [] k8s_NodeVersions;
  match upgrade with
  | None => handleNoUpgradeInProgress a st this nodeVersions
  | Some upgrade => handleUpgradeInProgress st upgrade this nodeVersions
  end.

(** ** onPostJoin *)

Definition join_datastore_pki (host : Host) (a : App) (st : MState) (o : NodeOptions) (d : Datastore) (nodeIP : IP)
    (sans : list IP * list string) : act unit :=
  let t := Datastore_GetType d in
  if t ==? "etcd" then
    _ ← ensure_etcd host a (etcd_pki_of false host st nodeIP sans (join_etcd_certificates d o)); mret tt
  else if t ==? "external" then ensure_external a d
  else act_lift (Err (unsupported t)).

(** What comes before the node is made known to the cluster. *)
Definition prepare_join (host : Host) (a : App) (st : MState) (o : NodeOptions)
    : act (ClusterConfig * IP * list IP) :=
  cfg ← act_wrapf "failed to get cluster config: %w" [] util_GetClusterConfig;
  '(nodeIP, nodeIPs) ← node_ips host st "failed to parse node IP address %q";
  _ ← act_wrapf "failed to create directories: %w" [] (EnsureAllDirectories a);
  let serviceCIDR := Network_GetServiceCIDR (CC_Network cfg) in
  serviceIPs ← act_wrapf "failed to get IP address(es) from ServiceCIDR %q: %w" [serviceCIDR]
                 (act_lift (GetKubernetesServiceIPsFromServiceCIDRs serviceCIDR));
  let sans := SplitIPAndDNSSANs (no_ExtraSANs o) in
  _ ← join_datastore_pki host a st o (CC_Datastore cfg) nodeIP sans;
  certificates ← complete_control_plane host
    (control_plane_pki_of false host st nodeIP serviceIPs sans (join_certificates (CC_Certificates cfg) o));
  _ ← act_wrapf "pre-init checks failed for joining node: %w" []
        (PreInitChecks order_ports (app_dirs a) cfg (control_plane_service_configs o) true);
  _ ← act_wrapf "failed to write control plane certificates: %w" [] (act_io (EnsureControlPlanePKI a certificates));
  _ ← act_wrapf "failed to generate kubeconfigs: %w" []
        (act_io (SetupControlPlaneKubeconfigs (h_Localhost host) (KubernetesConfigDir a)
                   (APIServer_GetSecurePort (CC_APIServer cfg)) certificates));
  mret (cfg, nodeIP, nodeIPs).

Definition etcd_endpoints (name : string) (d : Datastore) (members : list ClusterMember) : list string :=
  (λ m, "https://" +:+ JoinHostPort_int (cm_Host m) (Datastore_GetEtcdPort d)) <$>
  List.filter (λ m, cm_Name m !=? name) members.

(** The new learner, with the endpoints of the cluster and its members. *)
Definition add_learner (st : MState) (d : Datastore) (nodeIP : IP) : act (list string * Z * list Member) :=
  _ ← act_wrapf "failed to get k8sd client: %w" [] (perform (K8sdClient EmptyString));
  members ← act_wrapf "failed to get microcluster members: %w" [] (perform GetClusterMembers);
  let endpoints := etcd_endpoints (st_Name st) d members in
  _ ← act_wrapf "failed to create etcd client: %w" [] (perform (EtcdClient endpoints));
  r ← act_try (perform (MemberAddAsLearner [Setup.url nodeIP (Datastore_GetEtcdPeerPort d)]));
  match r with
  | Ok (learnerID, members) => mret (endpoints, learnerID, members)
  | Err e =>
      act_lift (Err (if errors_Is e ErrMemberNotEnoughStarted || errors_Is e ErrUnhealthy
        then Errorf "failed to add learner member %s to etcd cluster: cluster is unhealthy or another node is currently joining the cluster" [st_Name st]
        else Wrapf "failed to add learner member %s to etcd cluster: %w" [st_Name st] e))
  end.

Definition start_learner (host : Host) (a : App) (st : MState) (o : NodeOptions) (d : Datastore) (nodeIP : IP)
    (members : list Member) : act unit :=
  _ ← act_wrapf "failed to configure etcd: %w" []
        (act_io (Etcd (h_Localhost host) a (st_Name st) nodeIP (Datastore_GetEtcdPort d) (Datastore_GetEtcdPeerPort d)
                   (buildInitialClusterMembers members) (no_EtcdArgs o)));
  act_wrapf "failed to start etcd learner: %w" [] (StartEtcdServices a).

Definition promote_learner (st : MState) (learnerID : Z) : act unit :=
  act_wrapf "failed to promote etcd learner after retries: %w" []
    (retryFor 30 2 (act_wrapf "failed to promote etcd learner %s (ID: %d): %w" [st_Name st; Itoa learnerID]
                      (perform (MemberPromote learnerID)))).

(** From the registration of the reverter of the Node object on. *)
Definition join_upgrade (a : App) (st : MState) : act unit :=
  _ ← act_logged (perform ApplyCRDs);
  config ← act_wrapf "failed to get cluster config: %w" [] util_GetClusterConfig;
  if (Annotations_Get (CC_Annotations config) AnnotationDisableSeparateFeatureUpgrades).2 then mret tt
  else act_wrapf "failed to handle rollout-upgrade: %w" [] (handleRollOutUpgrade a st).

(** From the configuration of the services on. *)
Definition run_joined (ticks : nat) (host : Host) (a : App) (st : MState) (o : NodeOptions) (cfg : ClusterConfig)
    (nodeIP : IP) (nodeIPs : list IP) : act unit :=
  _ ← configure_control_plane order_paths host a st o cfg nodeIP nodeIPs;
  _ ← act_wrapf "failed to set snapd configuration from k8sd: %w" [] (SetSnapdFromK8sd order (ToUserFacing cfg) a);
  _ ← retry_start "failed to start services: %w" (startControlPlaneServices a cfg);
  _ ← act_wrapf "failed to wait for kube-apiserver to become ready: %w" [] (waitApiServerReady ticks);
  _ ← act_wrapf "failed to get Kubernetes client: %w" [] (perform (KubernetesClient true EmptyString));
  guarded (revert_node (st_Name st)) (join_upgrade a st).

Definition join_cluster (ticks : nat) (host : Host) (a : App) (st : MState) (o : NodeOptions) (cfg : ClusterConfig)
    (nodeIP : IP) (nodeIPs : list IP) : act unit :=
  let d := CC_Datastore cfg in
  let t := Datastore_GetType d in
  let run := run_joined ticks host a st o cfg nodeIP nodeIPs in
  if t ==? "etcd" then
    '(endpoints, learnerID, members) ← add_learner st d nodeIP;
    let revert := revert_etcd a endpoints learnerID in
    _ ← guarded (revert false false) (start_learner host a st o d nodeIP members);
    _ ← guarded (revert false true) (promote_learner st learnerID);
    guarded (revert true true) run
  else if t ==? "external" then run
  else act_lift (Err (unsupported t)).

Definition onPostJoin (ticks : nat) (host : Host) (a : App) (st : MState) (o : NodeOptions) : act unit :=
  '(cfg, nodeIP, nodeIPs) ← prepare_join host a st o;
  join_cluster ticks host a st o cfg nodeIP nodeIPs.
End Join.
End Join.
