(* ===== verification/HookFacts.v ===== *)
(** * What the hooks promise

    Hooks.v and HooksBootstrap.v: the services of a node start after its configuration is in
    the database, a worker gives its secret to the server that the token names only, and the
    hooks of a running node start, restart and clean up what they should. *)

From S2P Require Import Prelude GoStrings GoNet Cidr Config ConfigValidate ConfigDefaults ConfigConvert.
From S2P Require Import FileSys Pki PkiNode Arguments ConfigFiles Setup Node Database Effects Snap.
From S2P Require Import Checks SnapdConfig NodeSetup Cleanup Token KubeClient Hooks HooksBootstrap.
Import GoStr GoNet Cidr Config Validation Convert FileSys Pki PkiNode Arguments ConfigFiles Setup Node Database
  Effects Snap Checks SnapdConfig NodeSetup Cleanup Token KubeClient Hooks Bootstrap.

Module HookFacts.

(** A command that starts services, of snapd or of pebble. *)
Definition starts (c : command) : bool :=
  match c with RunCommand (_ :: verb :: _) => verb ==? "start" | _ => false end.

(** A command of the preparation of a node: its directories, links and programs, which are
    only asked for their version, and the ports. *)
Definition preparing (c : command) : bool :=
  match c with
  | RunCommand (_ :: verb :: _) => (verb ==? "--version") || (verb ==? "--system")
  | MkdirAll _ _ | Stat _ | Chown _ _ _ | Chmod _ _ | CreateTemp _ _ | Close _ | Remove _ | CopyFile _ _ | Readlink _
  | Symlink _ _ | Listen _ | GetRemoteCertificate _ => true
  | _ => false
  end.
Lemma preparing_quiet c : preparing c = true → starts c = false.
Proof.
  destruct c; try done. destruct argv as [|x [|verb l]]; try done.
  cbn. rewrite orb_true_iff, !bool_decide_eq_true. by intros [-> | ->].
Qed.

(** Between the two machines, only commands with a property were issued. *)
Definition only (P : command → Prop) (s s' : Machine) : Prop := ∃ l, m_log s' = m_log s ++ l ∧ Forall P l.
Definition quiet : Machine → Machine → Prop := only (λ c, starts c = false).

Lemma only_later P s s' : only P s s' → m_log s `prefix_of` m_log s'.
Proof. intros (l & -> & _). by exists l. Qed.

Hint Extern 1 (preparing _ = true) => reflexivity : emits.

Lemma emits_weaken {A} (P P' : command → Prop) (Q : DB → DB → Prop) (m : act A) :
  (∀ c, P c → P' c) → emits P Q m → emits P' Q m.
Proof.
  intros HP Hm s r s' E. destruct (Hm _ _ _ E) as [(l & Hl & Hf) HQ].
  split; [|done]. exists l. split; [done|]. by eapply Forall_impl.
Qed.

Lemma emits_gen {S} P Q `{!PreOrder Q} (m : gen S unit) (c : S) : emits P Q (act_gen m c).
Proof.
  intros s r s'. unfold act_gen. destruct (m c (m_rand s)) as [[r0 c'] n]. intros [= <- <-].
  split; [exists []; by rewrite app_nil_r|done].
Qed.
Hint Resolve emits_gen : emits.

Lemma emits_only {A} P (m : act A) s r s' : emits P eq m → m s = (r, s') → only P s s' ∧ m_db s' = m_db s.
Proof. intros Hm E. destruct (Hm _ _ _ E) as [Hl Hd]. by split. Qed.

(** ** The configuration comes first *)

Section Write.
Context `{DBEnv, Externals}.

Lemma write_config_run fmt cfg s r s' : write_config fmt cfg s = (r, s') →
  m_log s' = m_log s ∧
  match r with
  | Ok _ => ∃ stored, SetClusterConfig cfg (m_db s) = Ok (stored, m_db s')
  | Err _ => m_db s' = m_db s
  end.
Proof.
  unfold write_config. intros [(x & s1 & E & [= <- <-])|(e & E & ->)]%act_bind_inv.
  - apply act_wrapf_Ok, act_wrapf_Ok, act_db_run in E.
    destruct (SetClusterConfig cfg (m_db s)) as [[stored d]|]; [|by destruct E]. destruct E as [_ ->].
    split; [done|]. by exists stored.
  - apply act_wrapf_run in E as (r0 & (r1 & E & ->)%act_wrapf_run & Hr).
    apply act_db_run in E. destruct (SetClusterConfig cfg (m_db s)) as [[stored d]|e1].
    + by destruct E as [-> _].
    + by destruct E as [_ ->].
Qed.

(** What a hook that prepares a node, writes the configuration and then runs the services
    does to the database, and when it starts services. *)
Lemma written_before_run {A B} P (prepare : act A) (config : A → ClusterConfig) fmt (run f : A → act B) s r s' :
  emits P eq prepare → (∀ x, f x = (_ ← write_config fmt (config x); run x)) →
  (prepare ≫= f) s = (r, s') →
  (is_ok r = false ∧ only P s s' ∧ m_db s' = m_db s) ∨
  (∃ x s1 s2 stored, prepare s = (Ok x, s1) ∧ m_log s2 = m_log s1 ∧ only P s s2 ∧
     SetClusterConfig (config x) (m_db s) = Ok (stored, m_db s2) ∧ run x s2 = (r, s')).
Proof.
  intros Hp Hf [(x & s1 & E1 & E)|(e & E & ->)]%act_bind_inv.
  2: { left. by destruct (emits_only _ _ _ _ _ Hp E). }
  destruct (emits_only _ _ _ _ _ Hp E1) as [(l & Hl & HP) Hd]. rewrite Hf in E.
  apply act_bind_inv in E as [(u & s2 & (Hl2 & stored & E2)%write_config_run & E)|(e & (Hl2 & E2)%write_config_run & ->)].
  - right. exists x, s1, s2, stored. rewrite Hd in E2. split_and!; try done. exists l. split; [congruence|done].
  - left. split_and!; [done| |congruence]. exists l. split; [congruence|done].
Qed.
End Write.

Section Prepare.
Context `{SetupEnv, Outside, SnapEnv, SnapdEnv, DBEnv, Externals, PkiEnv, !EndpointsJson, !BootstrapGetters,
          !TokenEnv, !Sha256}.
Context (order : list string → list string) (order_ports order_paths : list (string * string) → list (string * string)).

Local Abbreviation Quiet := (emits (λ c, preparing c = true) eq).

Lemma quiet_node_ips host st fmt : Quiet (node_ips host st fmt).
Proof. unfold node_ips. emits_go. Qed.

Lemma quiet_directories dirs : Quiet (make_directories dirs).
Proof. induction dirs as [|dir dirs IH]; cbn [make_directories]; [by apply emits_ret; typeclasses eauto|]. emits_go. Qed.
Hint Resolve quiet_node_ips quiet_directories : emits.

Lemma quiet_EnsureAllDirectories a : Quiet (EnsureAllDirectories a).
Proof. unfold EnsureAllDirectories, ensureCniBinDir, stat_or_create. emits_go. Qed.

Lemma quiet_tune host a disabled : Quiet (tune_new_node host a disabled).
Proof. unfold tune_new_node, tuneSystemSettings. emits_go. Qed.

Lemma quiet_ports ports : Quiet (check_ports ports).
Proof.
  induction ports as [|[service port] ports IH]; cbn [check_ports]; [apply emits_ret; typeclasses eauto|].
  unfold IsLocalPortOpen. emits_go.
Qed.
Lemma quiet_binaries dir l : Quiet (run_binaries dir l).
Proof. induction l as [|b l IH]; cbn [run_binaries]; [apply emits_ret; typeclasses eauto|]. emits_go. Qed.
Hint Resolve quiet_ports quiet_binaries : emits.

Lemma quiet_PreInitChecks d cfg c cp : Quiet (PreInitChecks order_ports d cfg c cp).
Proof. unfold PreInitChecks, CheckK8sServicePorts. emits_go. Qed.
Hint Resolve quiet_EnsureAllDirectories quiet_tune quiet_PreInitChecks : emits.

Lemma quiet_plugins dir plugins : Quiet (link_plugins dir plugins).
Proof.
  induction plugins as [|p plugins IH]; cbn [link_plugins]; [apply emits_ret; typeclasses eauto|].
  unfold link_plugin, clear_plugin. emits_go.
Qed.
Hint Resolve quiet_plugins : emits.

Lemma quiet_Containerd a config args : Quiet (Containerd order_paths a config args).
Proof. unfold Containerd, install_cni_binary. emits_go. Qed.
Hint Resolve quiet_Containerd : emits.

Lemma quiet_configure host a st o cfg nodeIP nodeIPs :
  Quiet (configure_control_plane order_paths host a st o cfg nodeIP nodeIPs).
Proof. unfold configure_control_plane. emits_go. Qed.
Hint Resolve quiet_configure : emits.

Lemma quiet_prepare_control_plane host a st b o :
  Quiet (prepare_control_plane order_ports order_paths host a st b o).
Proof.
  unfold prepare_control_plane, bootstrap_datastore_pki, ensure_etcd, ensure_external, complete_control_plane.
  emits_go.
Qed.


(** *** The first control plane node *)

Lemma node_ips_Ok host st fmt s x s' : node_ips host st fmt s = (Ok x, s') →
  s' = s ∧ ParseIP (st_Hostname st) = Some x.1 ∧ GetIPv46Addresses (h_Interfaces host) x.1 = Ok x.2.
Proof.
  unfold node_ips. destruct (ParseIP _) as [ip|]; [|done].
  intros (ips & s1 & [= Hi ->]%act_wrapf_Ok & [= <- <-])%act_bind_Ok_inv. by cbn.
Qed.

(** The configuration that is prepared: the user's with the defaults, validated, and the
    certificates that were completed. *)
Lemma prepare_control_plane_Ok host a st b o s cfg s' :
  prepare_control_plane order_ports order_paths host a st b o s = (Ok cfg, s') →
  ∃ given d p, ClusterConfigFromBootstrapConfig b = Ok given ∧ Validate (Defaults.SetDefaults given) = Ok tt ∧
    cfg = with_certificates (Defaults.SetDefaults given) d (cluster_certificates p).
Proof.
  unfold prepare_control_plane.
  intros (given & s1 & [= Hg ->]%act_wrapf_Ok & E)%act_bind_Ok_inv.
  apply act_bind_Ok_inv in E as ([] & s2 & [= Hv ->]%act_wrapf_Ok & E).
  apply act_bind_Ok_inv in E as ([nodeIP nodeIPs] & s3 & _ & E).
  apply act_bind_Ok_inv in E as (? & s4 & _ & E). apply act_bind_Ok_inv in E as (? & s5 & _ & E).
  apply act_bind_Ok_inv in E as (? & s6 & _ & E). apply act_bind_Ok_inv in E as (d & s7 & _ & E).
  apply act_bind_Ok_inv in E as (p & s8 & _ & E). apply act_bind_Ok_inv in E as (? & s9 & _ & E).
  apply act_bind_Ok_inv in E as (? & s10 & _ & E). apply act_bind_Ok_inv in E as (? & s11 & _ & E).
  apply act_bind_Ok_inv in E as (? & s12 & _ & E). apply act_bind_Ok_inv in E as (? & s13 & _ & [= <- <-]).
  by exists given, d, p.
Qed.

(** What a start of the services of a control plane node that succeeds has done. *)
Definition control_plane_started (a : App) (cfg : ClusterConfig) (s s' : Machine) : Prop :=
  answered (RunCommand (start_argv a (node_services ControlPlaneServices cfg) [])) (Ok tt) s s' ∧
  ((Datastore_GetType (CC_Datastore cfg) = "etcd" ∧ answered (RunCommand (start_argv a ["etcd"] [])) (Ok tt) s s') ∨
   Datastore_GetType (CC_Datastore cfg) = "external").

Lemma start_services_Ok fmt names argv s s' :
  act_wrapf fmt names (perform (RunCommand argv)) s = (Ok tt, s') → answered (RunCommand argv) (Ok tt) s s'.
Proof. intros E%act_wrapf_Ok. by apply (perform_answered (RunCommand argv)) in E. Qed.

Lemma startControlPlaneServices_Ok a cfg s s' :
  startControlPlaneServices a cfg s = (Ok tt, s') → control_plane_started a cfg s s'.
Proof.
  intros ([] & s1 & E1 & E2)%act_bind_Ok_inv. apply act_wrapf_Ok in E2.
  assert (Hl2 : later s1 s') by (by eapply (perform_later (RunCommand _)), act_wrapf_Ok).
  apply start_services_Ok in E2. unfold control_plane_started.
  case_bool_decide as Ht; [|case_bool_decide as Ht'; [|done]].
  - apply act_wrapf_Ok in E1. assert (Hl1 : later s s1) by (by eapply (perform_later (RunCommand _)), act_wrapf_Ok).
    apply start_services_Ok in E1. split; [by eapply answered_before|]. left. split; [done|]. by eapply answered_after.
  - injection E1 as <-. split; [done|]. by right.
Qed.

Lemma failed_attempts_later delay m k s s' : emits any_command any_change m →
  failed_attempts delay m k s s' → later s s'.
Proof.
  intros Hm. induction 1 as [s|k s e s1 s2 s3 E1 E2 _ IH]; [done|].
  etrans; [by eapply emits_later|]. etrans; [by eapply (perform_later (After _))|done].
Qed.

Lemma retry_start_Ok fmt start (Q : Machine → Machine → Prop) s s' :
  emits any_command any_change start →
  (∀ t t', start t = (Ok tt, t') → Q t t') → (∀ t1 t2 t3, later t1 t2 → Q t2 t3 → Q t1 t3) →
  retry_start fmt start s = (Ok tt, s') → Q s s' ∧ later s s'.
Proof.
  intros Hm HQ Hl (k & s1 & Hf & E)%act_wrapf_Ok%retryFor_Ok; [|done].
  apply failed_attempts_later in Hf; [|by apply emits_wrapf]. apply act_wrapf_Ok in E.
  split; [by eapply Hl, HQ|]. etrans; [done|by eapply emits_later].
Qed.

Lemma control_plane_started_before a cfg s1 s2 s3 :
  later s1 s2 → control_plane_started a cfg s2 s3 → control_plane_started a cfg s1 s3.
Proof.
  intros Hl [Ha Hb]. split; [by eapply answered_before|].
  destruct Hb as [[Ht Hb]|Ht]; [left; split; [done|by eapply answered_before]|by right].
Qed.
Lemma control_plane_started_after a cfg s1 s2 s3 :
  control_plane_started a cfg s1 s2 → later s2 s3 → control_plane_started a cfg s1 s3.
Proof.
  intros [Ha Hb] Hl. split; [by eapply answered_after|].
  destruct Hb as [[Ht Hb]|Ht]; [left; split; [done|by eapply answered_after]|by right].
Qed.

Lemma emits_startControlPlaneServices a cfg : emits any_command any_change (startControlPlaneServices a cfg).
Proof. unfold startControlPlaneServices, StartEtcdServices, StartControlPlaneServices, StartServices. emits_go. Qed.
Lemma emits_StartWorkerServices a cfg : emits any_command any_change (StartWorkerServices a cfg).
Proof. unfold StartWorkerServices, StartServices. emits_go. Qed.

Lemma waitApiServerReady_Ok ticks s s' : waitApiServerReady ticks s = (Ok tt, s') →
  api_server_answered s s' ∧ later s s'.
Proof.
  intros E. split.
  2: { eapply emits_later; [|exact E]. unfold waitApiServerReady, k8s_WaitKubernetesEndpointAvailable.
       pose proof emits_GetKubeAPIServerEndpoints. emits_go. }
  apply act_bind_Ok_inv in E as ([] & s1 & E1%act_wrapf_Ok & E).
  apply (perform_later (KubernetesClient _ _)) in E1. apply act_wrapf_Ok in E.
  apply k8s_WaitKubernetesEndpointAvailable_Ok in E as (slices & E & Hne). exists slices. split; [|done].
  by eapply answered_before.
Qed.

Lemma run_control_plane_Ok ticks a cfg s features s' : run_control_plane order ticks a cfg s = (Ok features, s') →
  ∃ s1, SetSnapdFromK8sd order (ToUserFacing cfg) a s = (Ok tt, s1) ∧ control_plane_started a cfg s1 s' ∧
    api_server_answered s1 s' ∧ features = notified_features cfg.
Proof.
  intros ([] & s1 & E1%act_wrapf_Ok & E)%act_bind_Ok_inv. exists s1. split; [done|].
  apply act_bind_Ok_inv in E as ([] & s2 & E2 & E).
  apply (retry_start_Ok _ _ (control_plane_started a cfg)) in E2 as [E2 Hl2].
  2: apply emits_startControlPlaneServices. 2: apply startControlPlaneServices_Ok.
  2: apply control_plane_started_before.
  apply act_bind_Ok_inv in E as ([] & s3 & E3%act_wrapf_Ok & [= <- <-]).
  apply waitApiServerReady_Ok in E3 as [E3 Hl3].
  split; [by eapply control_plane_started_after|]. split; [|done].
  destruct E3 as (slices & E3 & Hne). exists slices. split; [by eapply answered_before|done].
Qed.


(** *** A worker *)

Lemma first_certificate_Ok l last s address cert s' :
  first_certificate l last s = (Ok (address, cert), s') →
  (last = Ok (address, cert) ∧ l = [] ∧ s' = s) ∨
  (address ∈ l ∧ answered (GetRemoteCertificate address) (Ok cert) s s').
Proof.
  revert last s. induction l as [|x l IH]; intros last s; cbn [first_certificate].
  { intros [= -> <-]. by left. }
  intros (r & s1 & (r0 & E1 & [= ->])%act_try_run & E)%act_bind_Ok_inv. destruct r0 as [c|e].
  - injection E as <- <- <-. right. split; [left|]. by apply (perform_answered (GetRemoteCertificate _)) in E1.
  - apply IH in E as [(? & _)|[Hin Ha]]; [done|]. right. split; [by right|].
    eapply answered_before; [by eapply (perform_later (GetRemoteCertificate _))|done].
Qed.

(** A request for the secrets of the cluster goes to an address of the token, with the secret
    of the token, only if the server has shown a certificate with the fingerprint of the
    token. *)
Definition pinned (encodedToken : string) (c : command) : Prop :=
  match c with
  | PostWorkerInfo address cert _ secret _ => ∃ token, Decode encodedToken = Ok token ∧
      address ∈ tk_JoinAddresses token ∧ secret = tk_Secret token ∧ CertFingerprint cert = tk_Fingerprint token
  | _ => True
  end.
Lemma pinned_preparing encodedToken c : preparing c = true → pinned encodedToken c.
Proof. by destruct c. Qed.

Lemma quiet_first_certificate l e : Quiet (first_certificate l e).
Proof. revert e. induction l as [|x l IH]; intros e; cbn [first_certificate]; [apply emits_lift; typeclasses eauto|]. emits_go. Qed.
Hint Resolve quiet_first_certificate : emits.

Lemma emits_lift_then {A B} P (r : res A) (f : A → act B) :
  (∀ a, r = Ok a → emits P eq (f a)) → emits P eq (x ← act_lift r; f x).
Proof.
  intros Hf s r' s' [(a & s1 & [= Ha <-] & E)|(e & [= Ha <-] & ->)]%act_bind_inv; [by eapply Hf|].
  split; [exists []; by rewrite app_nil_r|done].
Qed.

Lemma pinned_worker_info host st encodedToken : emits (pinned encodedToken) eq (worker_info host st encodedToken).
Proof.
  intros s r s'. unfold worker_info.
  intros [(token & s1 & E1 & E)|(e & E & ->)]%act_bind_inv.
  2: { eapply emits_wrapf, E. apply emits_lift. typeclasses eauto. }
  assert (HQ : ∀ A (m : act A), Quiet m → emits (pinned encodedToken) eq m).
  { intros A m. apply emits_weaken, pinned_preparing. }
  apply act_wrapf_Ok in E1. injection E1 as Ht <-. revert s r s' E. apply emits_lift_then. intros [] _.
  apply emits_bind; [typeclasses eauto|apply HQ, quiet_node_ips|]. intros [nodeIP nodeIPs].
  intros s r s' [([address cert] & s2 & E2 & E)|(e & E & ->)]%act_bind_inv.
  2: { eapply (HQ _ (act_wrapf _ _ _)); [|exact E]. emits_go. }
  destruct (HQ _ (act_wrapf "failed to get certificate of cluster member: %w" []
    (first_certificate (tk_JoinAddresses token) (Err (Errorf "empty list of control plane addresses" []))))
    ltac:(emits_go) _ _ _ E2) as [(l & Hl & HP) Hd].
  apply act_wrapf_Ok, first_certificate_Ok in E2 as [(? & _)|[Hin Ha]]; [done|].
  assert (Hrest : emits (pinned encodedToken) eq
    (_ ← act_lift (fails_if (CertFingerprint cert !=? tk_Fingerprint token)
        (Errorf "fingerprint from token (%q) does not match fingerprint of node %q (%q)"
           [tk_Fingerprint token; address; CertFingerprint cert]));
     response ← perform (PostWorkerInfo address cert (st_Name st) (tk_Secret token) (IP_String nodeIP));
     mret (nodeIPs, response))).
  { apply emits_lift_then. intros [] Hf%fails_if_Ok. apply negb_false_iff, bool_decide_eq_true in Hf.
    apply emits_bind; [typeclasses eauto| |intros a; apply emits_ret; typeclasses eauto].
    apply emits_perform; [typeclasses eauto|]. by exists token. }
  destruct (Hrest _ _ _ E) as [(l' & Hl' & HP') Hd']. split; [|congruence].
  exists (l ++ l'). rewrite Hl', Hl, app_assoc. split; [done|]. by apply Forall_app.
Qed.

Lemma emits_worker_rest P host st encodedToken a o : (∀ c, preparing c = true → P c) →
  emits P eq (worker_info host st encodedToken) → emits P eq (prepare_worker order_ports host a st encodedToken o).
Proof.
  intros HP Hi. assert (HQ : ∀ A (m : act A), Quiet m → emits P eq m) by (intros A m; by apply emits_weaken).
  unfold prepare_worker. apply emits_bind; [typeclasses eauto|done|]. intros [nodeIPs response]. apply HQ. emits_go.
Qed.

Lemma quiet_worker_info host st encodedToken :
  emits (λ c, starts c = false) eq (worker_info host st encodedToken).
Proof.
  assert (HQ : ∀ A (m : act A), Quiet m → emits (λ c, starts c = false) eq m).
  { intros A m. apply emits_weaken, preparing_quiet. }
  unfold worker_info. apply emits_bind; [typeclasses eauto|apply HQ; emits_go|]. intros token.
  apply emits_bind; [typeclasses eauto|apply HQ; emits_go|]. intros _.
  apply emits_bind; [typeclasses eauto|apply HQ; emits_go|]. intros [nodeIP nodeIPs].
  apply emits_bind; [typeclasses eauto|apply HQ; emits_go|]. intros [address cert].
  apply emits_bind; [typeclasses eauto|apply HQ; emits_go|]. intros _.
  apply emits_bind; [typeclasses eauto|apply emits_perform; [typeclasses eauto|done]|]. intros response.
  apply emits_ret. typeclasses eauto.
Qed.

(** The commands of the rest of the hook of a worker. *)
Definition running (c : command) : bool :=
  match c with RunCommand _ | After _ => true | _ => preparing c end.
Hint Extern 1 (running _ = true) => reflexivity : emits.

Lemma running_pinned encodedToken c : running c = true → pinned encodedToken c.
Proof. by destruct c. Qed.

Lemma running_configure host (a : App) st o nodeIPs response securePort :
  emits (λ c, running c = true) eq (configure_worker order_paths host a st o nodeIPs response securePort).
Proof.
  apply emits_weaken with (P := λ c, preparing c = true); [by intros []|]. unfold configure_worker. emits_go.
Qed.
Lemma running_worker host (a : App) st o nodeIPs response securePort cfg :
  emits (λ c, running c = true) eq
    (_ ← configure_worker order_paths host a st o nodeIPs response securePort;
     retry_start "failed to start worker services: %w" (StartWorkerServices a cfg)).
Proof.
  apply emits_bind; [typeclasses eauto|apply running_configure|].
  intros _; unfold retry_start, StartWorkerServices, StartServices; emits_go.
Qed.


Lemma prepare_worker_Ok host a st encodedToken o s nodeIPs response securePort s' :
  prepare_worker order_ports host a st encodedToken o s = (Ok (nodeIPs, response, securePort), s') →
  apiserver_port (wi_APIServers response) = Ok securePort ∧
  Worker_CompleteCertificates (worker_certificates o response) = Ok tt ∧
  ∃ address cert name secret nodeIP,
    answered (PostWorkerInfo address cert name secret nodeIP) (Ok response) s s'.
Proof.
  intros E. assert (Hl : ∀ m : act (list IP * WorkerInfo * Z), Quiet m → emits any_command any_change m).
  { intros m Hm s0 r0 s0' E0. destruct (Hm _ _ _ E0) as [(l & Hl & _) _]. split; [|done].
    exists l. split; [done|]. by apply Forall_true. }
  unfold prepare_worker in E. apply act_bind_Ok_inv in E as ([nodeIPs' response'] & s1 & E1 & E).
  assert (Hlast : later s1 s').
  { eapply emits_later; [apply Hl|exact E]. emits_go. }
  assert (Hans : ∃ address cert name secret nodeIP,
    answered (PostWorkerInfo address cert name secret nodeIP) (Ok response') s s1).
  { unfold worker_info in E1. apply act_bind_Ok_inv in E1 as (token & t1 & F1 & E1).
    injection (act_wrapf_Ok _ _ _ _ _ _ F1) as _ <-. clear F1.
    apply act_bind_Ok_inv in E1 as ([] & t2 & [= _ <-] & E1).
    apply act_bind_Ok_inv in E1 as ([nodeIP ?] & t3 & [-> _]%node_ips_Ok & E1).
    apply act_bind_Ok_inv in E1 as ([address cert] & t4 & F4 & E1).
    assert (later s t4).
    { destruct (emits_only _ _ _ _ _ (emits_wrapf _ _ _ _ _ (quiet_first_certificate _ _)) F4) as [(lc & Hlc & _) _].
      by exists lc. }
    apply act_bind_Ok_inv in E1 as ([] & t5 & [= _ <-] & E1).
    apply act_bind_Ok_inv in E1 as (resp & t6 & F6 & [= <- <- <-]).
    apply (perform_answered (PostWorkerInfo _ _ _ _ _)) in F6.
    do 5 eexists. by eapply answered_before. }
  clear E1. apply act_bind_Ok_inv in E as (? & s2 & _ & E). apply act_bind_Ok_inv in E as (? & s3 & _ & E).
  apply act_bind_Ok_inv in E as ([] & s4 & [= Hc _]%act_wrapf_Ok & E).
  apply act_bind_Ok_inv in E as (? & s5 & _ & E).
  apply act_bind_Ok_inv in E as (port & s6 & [= Hp _] & E).
  apply act_bind_Ok_inv in E as (? & s7 & _ & E). apply act_bind_Ok_inv in E as (? & s8 & _ & [= <- <- <- <-]).
  split; [done|]. split; [done|]. destruct Hans as (address & cert & name & secret & nodeIP & Ha).
  exists address, cert, name, secret, nodeIP. by eapply answered_after.
Qed.

(** A worker starts no service, and its database stays as it is, unless it has stored
    the configuration that it was sent by the server; the certificates it uses are complete.
    If the hook succeeds the services of a worker were started after that, and without
    kube-proxy if the cluster does not use it. *)
Theorem worker_stores_then_starts host a st encodedToken o s :
  let '(r, s') := onBootstrapWorkerNode order_ports order_paths host a st encodedToken o s in
  (r ≠ Ok tt ∧ quiet s s' ∧ m_db s' = m_db s) ∨
  ∃ response securePort s1 stored address cert name secret nodeIP,
    let cfg := worker_config securePort response in
    answered (PostWorkerInfo address cert name secret nodeIP) (Ok response) s s1 ∧
    apiserver_port (wi_APIServers response) = Ok securePort ∧
    Worker_CompleteCertificates (worker_certificates o response) = Ok tt ∧
    quiet s s1 ∧ SetClusterConfig cfg (m_db s) = Ok (stored, m_db s1) ∧ m_db s' = m_db s1 ∧
    (r = Ok tt → answered (RunCommand (start_argv a (node_services WorkerServices cfg) [])) (Ok tt) s1 s').
Proof.
  destruct (onBootstrapWorkerNode _ _ _ _ _ _ _ _) as [r s'] eqn:E.
  eapply (written_before_run (λ c, starts c = false) _ (λ x, worker_config x.2 x.1.2) _
    (λ x, _ ← configure_worker order_paths host a st o x.1.1 x.1.2 x.2;
          retry_start "failed to start worker services: %w" (StartWorkerServices a (worker_config x.2 x.1.2)))) in E
    as [(Hr & ? & ?)|([[nodeIPs response] securePort] & s1 & s2 & stored & Ep & Hl12 & Hq & Hw & E)].
  - left. split; [by intros ->|done].
  - right. apply prepare_worker_Ok in Ep as (Hport & Hc & address & cert & name & secret & nodeIP & Ha).
    exists response, securePort, s2, stored, address, cert, name, secret, nodeIP. cbn in *.
    split_and!; try done.
    + eapply (answered_after (PostWorkerInfo _ _ _ _ _)); [exact Ha|]. by exists []; rewrite app_nil_r.
    + by destruct (emits_only _ _ _ _ _ (running_worker _ _ _ _ _ _ _ _) E) as [_ ->].
    + intros ->. apply act_bind_Ok_inv in E as ([] & s3 & E3 & E4).
      destruct (emits_only _ _ _ _ _ (running_configure _ _ _ _ _ _ _) E3) as [(lc & Hlc & _) _].
      eapply (answered_before (RunCommand _)); [by exists lc|].
      eapply (retry_start_Ok _ _ (answered (RunCommand _) (Ok tt))) in E4 as [E4 _]; [exact E4| | |].
      * apply emits_StartWorkerServices.
      * intros t t'. apply start_services_Ok.
      * intros t1 t2 t3. apply answered_before.
  - apply emits_worker_rest; [apply preparing_quiet|apply quiet_worker_info].
  - by intros [[nodeIPs response] securePort].
Qed.
End Prepare.

(** ** A node that runs *)

Section Running.
Context `{SetupEnv, Outside, SnapdEnv, DBEnv, Externals, !HookAnnotations, VersionParser}.

Lemma util_GetClusterConfig_run s r s' : util_GetClusterConfig s = (r, s') →
  s' = s ∧ ∀ cfg, r = Ok cfg ↔ GetClusterConfig (m_db s) = Ok cfg.
Proof.
  intros (r1 & (r2 & [-> ->]%act_query_run & ->)%act_wrapf_run & ->)%act_wrapf_run. split; [done|].
  intros cfg. by destruct (GetClusterConfig _).
Qed.

(** When the daemon starts, no program is run before the node is known to be
    initialised, and none at all if it is not; on an initialised node the hook succeeds only
    if the services of the role of the node were started: those of a worker if the node is
    marked as one, those of a control plane node, with etcd if it is the datastore,
    otherwise.  The database stays as it is. *)
Theorem ensureRunningServices_correct a s :
  let '(r, s') := ensureRunningServices a s in
  m_db s' = m_db s ∧
  (only (λ c, match c with RunCommand _ => False | _ => True end) s s' ∨
   ∃ role, answered NodeStatus (Ok (role, true)) s s') ∧
  (r = Ok tt →
   (∃ role, answered NodeStatus (Ok (role, false)) s s') ∨
   ∃ role cfg worker w, answered NodeStatus (Ok (role, true)) s s' ∧ GetClusterConfig (m_db s) = Ok cfg ∧
     IsWorker a (m_world s) = (Ok worker, w) ∧
     if worker then answered (RunCommand (start_argv a (node_services WorkerServices cfg) [])) (Ok tt) s s'
     else control_plane_started a cfg s s').
Proof.
  destruct (ensureRunningServices a s) as [r s'] eqn:E.
  assert (Hd : m_db s' = m_db s).
  { eapply (emits_only any_command); [|exact E]. unfold ensureRunningServices, startControlPlaneServices,
      StartEtcdServices, StartControlPlaneServices, StartWorkerServices, StartServices, util_GetClusterConfig. emits_go. }
  split; [done|]. clear Hd.
  apply act_bind_inv in E as [([] & s1 & E1%act_wrapf_Ok & E)|(e & (r0 & [= Hr0 <-] & _)%act_wrapf_run & ->)].
  2: { split; [|done]. left. exists [K8sdClient EmptyString]. split; [done|]. by apply Forall_singleton. }
  assert (Lg1 : m_log s1 = m_log s ++ [K8sdClient EmptyString]) by (injection E1 as _ <-; done).
  assert (Hw : m_world s1 = m_world s ∧ m_db s1 = m_db s) by (injection E1 as _ <-; done).
  destruct Hw as [Hw Hdb].
  assert (Hl1 : later s s1) by (by exists [K8sdClient EmptyString]).
  assert (Hquiet : ∀ s2, m_log s2 = m_log s1 ++ [NodeStatus] →
    only (λ c, match c with RunCommand _ => False | _ => True end) s s2).
  { intros s2 Lg2. exists [K8sdClient EmptyString; NodeStatus]. rewrite Lg2, Lg1, <- app_assoc. split; [done|].
    by repeat constructor. }
  apply act_bind_inv in E as [([role initialized] & s2 & E2%act_wrapf_Ok & E)|(e & (r0 & [= Hr0 <-] & _)%act_wrapf_run & ->)].
  2: { split; [|done]. left. by apply Hquiet. }
  assert (Hs2 : m_world s2 = m_world s1 ∧ m_db s2 = m_db s1 ∧ m_log s2 = m_log s1 ++ [NodeStatus])
    by (injection E2 as _ <-; done).
  destruct Hs2 as (Hw2 & Hdb2 & Lg2). apply (perform_answered NodeStatus) in E2.
  apply (answered_before _ _ _ _ _ Hl1) in E2.
  destruct initialized; cbn [negb] in E.
  2: { injection E as <- <-. split; [left; by apply Hquiet|]. intros _. left. by exists role. }
  assert (Hl2 : later s2 s').
  { eapply emits_later; [|exact E]. unfold startControlPlaneServices, StartEtcdServices, StartControlPlaneServices,
      StartWorkerServices, StartServices, util_GetClusterConfig. emits_go. }
  split; [right; exists role; by eapply answered_after|]. intros ->. right.
  apply act_bind_Ok_inv in E as (worker & s3 & (w & E3 & ->)%act_wrapf_Ok%act_io_run & E).
  apply act_bind_Ok_inv in E as (cfg & s4 & [-> Hc]%act_wrapf_Ok%util_GetClusterConfig_run & E).
  exists role, cfg, worker, w. rewrite <- Hdb, <- Hdb2, <- Hw, <- Hw2.
  split_and!; [by eapply answered_after|by apply Hc|done|]. clear Hc E3.
  assert (Hl3 : later s (mkMachine w (m_db s2) (m_rand s2) (m_log s2))).
  { etrans; [exact Hl1|]. exists [NodeStatus]. cbn. by rewrite Lg2. }
  destruct worker; apply act_wrapf_Ok, retryFor_Ok in E as (k & s5 & Hf & E); try done.
  - apply failed_attempts_later in Hf; [|apply emits_StartWorkerServices].
    apply start_services_Ok in E. eapply (answered_before (RunCommand _)); [etrans; [exact Hl3|exact Hf]|exact E].
  - apply failed_attempts_later in Hf; [|apply emits_startControlPlaneServices].
    apply startControlPlaneServices_Ok in E. eapply control_plane_started_before; [|exact E]. etrans; [exact Hl3|exact Hf].
Qed.
End Running.
End HookFacts.
