(* ===== verification/RemoveFacts.v ===== *)
(** * What the removal of a node promises

    [onPreRemove] of Hooks.v is best effort: nothing that fails keeps it from the steps that
    come after, the wait for the end of a join is bounded, and what the annotation of the
    configuration leaves alone is left alone. *)

From S2P Require Import Prelude FileSys Config ConfigConvert PkiNode Node Database Effects Snap NodeSetup Cleanup.
From S2P Require Import Arguments Setup SnapdConfig Hooks HookFacts.
Import FileSys Arguments SnapdConfig Config Convert PkiNode Node Database Effects Snap NodeSetup Cleanup Setup Hooks HookFacts.

Module RemoveFacts.

Lemma act_try_bind {A B} (m : act A) (f : res A → act B) s :
  (act_try m ≫= f) s = let '(r, s1) := m s in f r s1.
Proof. unfold mbind, act_bind, act_try. by destruct (m s). Qed.
Lemma act_logged_bind {A B} (m : act A) (f : unit → act B) s : (act_logged m ≫= f) s = f tt (m s).2.
Proof. done. Qed.

Section Cleaning.
Context `{SetupEnv, Outside}.

Local Abbreviation Emits := (emits any_command eq).

Lemma emits_managed hee paths b : Emits (managed_loop hee paths b).
Proof. revert b. induction paths as [|[lock dir] paths IH]; intros b; cbn [managed_loop]; emits_go. Qed.
Lemma emits_paths callback paths : (∀ x y, Emits (callback x y)) → Emits (for_paths callback paths).
Proof. intros Hc. induction paths as [|[lock dir] paths IH]; cbn [for_paths]; emits_go. Qed.
Lemma emits_mounts callback lines : (∀ w x y z, Emits (callback w x y z)) → Emits (mounts_loop callback lines).
Proof. intros Hc. induction lines as [|line lines IH]; cbn [mounts_loop]; emits_go. Qed.
Lemma emits_namespaces callback entries : (∀ x, Emits (callback x)) → Emits (namespaces_loop callback entries).
Proof. intros Hc. induction entries as [|[name b] entries IH]; cbn [namespaces_loop]; emits_go. Qed.
Lemma emits_kill pids : Emits (kill_all pids).
Proof. induction pids as [|pid pids IH]; cbn [kill_all]; emits_go. Qed.
Fixpoint emits_sockets dir t : Emits (removeSockets dir t).
Proof.
  destruct t as [name|name [entries|e]]; cbn [removeSockets]; [emits_go| |emits_go].
  induction entries as [|t entries IH]; [emits_go|].
  apply emits_bind; [typeclasses eauto|apply emits_sockets|done].
Qed.
Hint Resolve emits_managed emits_paths emits_mounts emits_namespaces emits_kill emits_sockets : emits.

Lemma emits_ForEachMount callback : (∀ w x y z, Emits (callback w x y z)) → Emits (ForEachMount callback).
Proof. intros Hc. unfold ForEachMount. emits_go. Qed.
Hint Resolve emits_ForEachMount : emits.

Lemma emits_TryCleanupContainers fuel order order' order_paths plugins registry s :
  Emits (TryCleanupContainers fuel order order' order_paths plugins registry s).
Proof.
  unfold TryCleanupContainers, RemoveContainers, RunningContainerdShimPIDs, listAllSystemProcesses,
    RemoveNetworkNamespaces, ForEachNetworkNamespace, RemoveVolumeMountsGracefully, RemoveVolumeMountsForce,
    RemovePluginSockets, RemoveLoopDevices, containerdMountPrefixes, IsContainerdPathManaged.
  emits_go; first [apply emits_namespaces|apply emits_mounts]; intros;
    unfold DeleteNetworkNamespace, mount_Unmount, DetachLoopDevice; emits_go.
Qed.
Lemma emits_TryCleanupContainerdPaths order s : Emits (TryCleanupContainerdPaths order s).
Proof. apply emits_paths. intros x y. unfold cleanup_path. emits_go. Qed.
End Cleaning.

Section Remove.
Context `{SetupEnv, Outside, SnapdEnv, DBEnv, Externals, !HookAnnotations}.
Context (order_paths : list (string * string) → list (string * string))
  (order_procs order_procs' : list (string * processInfo) → list (string * processInfo))
  (plugins registry : res (list tree)) (fuel : nat).

Local Abbreviation remove_services := (remove_services order_paths order_procs order_procs' plugins registry fuel).
Local Abbreviation onPreRemove := (onPreRemove order_paths order_procs order_procs' plugins registry fuel).

(** How many of the next [k] queries for the member [name] fail. *)
Fixpoint failures (name : string) (log : list command) (k : nat) : Z :=
  match k with
  | O => 0
  | S k => (if is_ok (outside log (GetClusterMember name)) then 0 else 1) +
           failures name (log ++ [GetClusterMember name]) k
  end.

Lemma wait_joined_run ticks name n s r s' : (n < maxRetries)%Z → wait_joined ticks name n s = (r, s') →
  ∃ k, s' = with_log s (replicate k (GetClusterMember name)) ∧ k ≤ ticks ∧
    (n + failures name (m_log s) k ≤ maxRetries)%Z ∧
    (is_ok r = true → (n + failures name (m_log s) k)%Z = maxRetries ∨
       ∃ m, cm_Role m ≠ "PENDING" ∧ answered (GetClusterMember name) (Ok m) s s') ∧
    (is_ok r = false → k = ticks).
Proof.
  revert n s. induction ticks as [|ticks IH]; intros n s Hn; cbn [wait_joined].
  { intros [= <- <-]. exists 0. rewrite with_log_nil. cbn. split_and!; try done; lia. }
  rewrite act_try_bind. destruct (perform _ s) as [member s1] eqn:E. injection E as Hm <-.
  change (mkMachine _ _ _ _) with (with_log s [GetClusterMember name]). cbn zeta.
  destruct (_ || _) eqn:Hstop.
  { intros [= <- <-]. exists 1. cbn [replicate failures]. rewrite Hm.
    split_and!; [done|lia|destruct member; cbn; lia| |done]. intros _.
    apply orb_true_iff in Hstop as [Hmax%Z.leb_le|Hrole].
    - left. destruct member; cbn in *; lia.
    - destruct member as [role|e]; [|done]. right. exists role. apply negb_true_iff, bool_decide_eq_false in Hrole.
      split; [done|]. by exists (m_log s), []. }
  apply orb_false_iff in Hstop as [Hmax%Z.leb_gt Hrole]. intros (k & -> & Hk & Hf & Hok & Herr)%IH; [|done].
  exists (S k). cbn [replicate failures]. rewrite Hm. cbn [m_log with_log] in *. rewrite with_log_app.
  assert (Hn' : ∀ x : Z, ((match member with Ok _ => n | Err _ => n + 1 end) + x)%Z =
    (n + ((if is_ok member then 0 else 1) + x))%Z) by (intros x; destruct member; cbn; lia).
  rewrite Hn' in *. split_and!; [done|lia|done| |intros ?; f_equal; by apply Herr].
  intros [?|(role & ? & Ha)]%Hok; [by left|]. right. exists role. split; [done|].
  eapply (answered_before (GetClusterMember _)); [|rewrite <- with_log_app; exact Ha]. by exists [GetClusterMember name].
Qed.
(** A directory is removed with its files, if that works, and no file appears. *)
Lemma os_RemoveAll_run dir s r s' : os_RemoveAll dir s = (r, s') →
  m_log s' = m_log s ++ [RemoveAll dir] ∧ m_db s' = m_db s ∧
  ∀ p, (w_files (m_world s) !! p = None → w_files (m_world s') !! p = None) ∧
    (outside (m_log s) (RemoveAll dir) = Ok tt → below dir p = true → w_files (m_world s') !! p = None).
Proof.
  unfold os_RemoveAll. intros [([] & s1 & [= Ha <-] & (w & Hw & ->)%act_io_run)|(e & [= Ha <-] & ->)]%act_bind_inv.
  - injection Hw as _ <-. cbn. split; [done|]. split; [done|]. intros p. split.
    + intros Hp. apply map_lookup_filter_None_2. by left.
    + intros _ Hb. apply map_lookup_filter_None_2. right. intros x _ Hx. cbn in Hx. by rewrite Hb in Hx.
  - cbn. split; [done|]. split; [done|]. intros p. split; [done|]. by rewrite Ha.
Qed.

Lemma unmark_keeps_gone a s r s' p : act_io (MarkAsWorkerNode a false) s = (r, s') →
  m_log s' = m_log s ∧ m_db s' = m_db s ∧ (w_files (m_world s) !! p = None → w_files (m_world s') !! p = None).
Proof.
  intros (w & E & ->)%act_io_run. cbn. split; [done|]. split; [done|]. intros Hp.
  unfold MarkAsWorkerNode, io_wrapf in E. destruct (os_Remove _ _) as [r0 w0] eqn:E0. injection E as _ <-.
  apply os_Remove_run in E0 as [(e & _ & -> & _)|(_ & _ & _ & ->)]; [done|]. apply lookup_delete_None. by right.
Qed.
(** What comes last, whatever happened before. *)
Lemma last_steps a s r s' :
  (_ ← act_logged (act_io (EnsureExtDatastorePKI a no_ExternalDatastorePKI));
   _ ← act_logged (os_RemoveAll (EtcdDir a));
   _ ← act_logged (os_RemoveAll (ServiceArgumentsDir a));
   act_logged (act_io (MarkAsWorkerNode a false))) s = (r, s') →
  r = Ok tt ∧ m_db s' = m_db s ∧ m_log s' = m_log s ++ [RemoveAll (EtcdDir a); RemoveAll (ServiceArgumentsDir a)] ∧
  (outside (m_log s) (RemoveAll (EtcdDir a)) = Ok tt →
     ∀ p, below (EtcdDir a) p = true → w_files (m_world s') !! p = None) ∧
  (outside (m_log s ++ [RemoveAll (EtcdDir a)]) (RemoveAll (ServiceArgumentsDir a)) = Ok tt →
     ∀ p, below (ServiceArgumentsDir a) p = true → w_files (m_world s') !! p = None).
Proof.
  rewrite act_logged_bind; cbn [snd]; cbv beta. destruct (act_io (EnsureExtDatastorePKI _ _) s) as [r1 s1] eqn:E1.
  rewrite act_logged_bind; cbn [snd]; cbv beta. destruct (os_RemoveAll _ s1) as [r2 s2] eqn:E2.
  rewrite act_logged_bind; cbn [snd]; cbv beta. destruct (os_RemoveAll _ s2) as [r3 s3] eqn:E3. unfold act_logged. cbn [snd].
  destruct (act_io (MarkAsWorkerNode _ _) s3) as [r4 s4] eqn:E4. intros [= <- <-]. cbn [fst snd] in *.
  apply act_io_run in E1 as (w1 & _ & ->). cbn in *.
  apply os_RemoveAll_run in E2 as (L2 & D2 & F2). apply os_RemoveAll_run in E3 as (L3 & D3 & F3). cbn in *.
  pose proof (λ p, unmark_keeps_gone _ _ _ _ p E4) as F4. destruct (F4 EmptyString) as (L4 & D4 & _).
  rewrite L4, L3, L2, D4, D3, D2, <- app_assoc. split_and!; try done.
  - intros Ho p Hp. apply F4. apply (proj1 (F3 p)). by apply (proj2 (F2 p)).
  - intros Ho p Hp. apply F4. apply (proj2 (F3 p)); [by rewrite L2|done].
Qed.

Lemma remove_services_run a s r s' : remove_services a s = (r, s') →
  r = Ok tt ∧ m_db s' = m_db s ∧ ∃ l, m_log s' = m_log s ++ RunCommand (stop_argv a k8sServices ["--no-wait"]) :: l.
Proof.
  unfold Hooks.remove_services. rewrite act_logged_bind; cbn [snd]; cbv beta.
  destruct (act_io (EnsureWorkerPKI _ _) s) as [r1 s1] eqn:E1. apply act_io_run in E1 as (w1 & _ & ->).
  rewrite act_logged_bind; cbn [snd]; cbv beta. destruct (act_io (EnsureControlPlanePKI _ _) _) as [r2 s2] eqn:E2.
  apply act_io_run in E2 as (w2 & _ & ->). rewrite act_logged_bind; cbn [snd]; cbv beta.
  destruct (StopK8sServices _ _ _) as [r3 s3] eqn:E3. apply act_wrapf_run in E3 as (r0 & [= _ <-] & _).
  rewrite act_logged_bind; cbn [snd]; cbv beta. cbn [snd].
  destruct (TryCleanupContainers _ _ _ _ _ _ _ _) as [r4 s4] eqn:E4. unfold act_logged. cbn [snd].
  destruct (TryCleanupContainerdPaths _ _ _) as [r5 s5] eqn:E5. intros [= <- <-]. cbn [snd] in *.
  apply (emits_only any_command) in E4 as [(l4 & Hl4 & _) D4]; [|apply emits_TryCleanupContainers].
  apply (emits_only any_command) in E5 as [(l5 & Hl5 & _) D5]; [|apply emits_TryCleanupContainerdPaths].
  split; [done|]. split; [by rewrite D5, D4|]. exists (l4 ++ l5).
  rewrite Hl5, Hl4. cbn. by rewrite <- !app_assoc.
Qed.

(** C23: The removal of a node is best effort.  Only if the client of k8sd cannot be made
    does the hook fail, and it has done nothing then.  Otherwise it succeeds whatever fails:
    it asks for the member at most as long as the context lasts and until the tenth failure;
    it stops the services only if the configuration can be read and has no annotation
    against it; and it removes the directories of etcd and of the arguments, of which no file
    is left if that works.  The database stays as it is. *)
Theorem onPreRemove_best_effort ticks a st s :
  let '(r, s') := onPreRemove ticks a st s in
  let name := st_Name st in
  m_db s' = m_db s ∧
  ((∃ e, outside (m_log s) (K8sdClient EmptyString) = Err e ∧ r = Err (Wrapf "failed to get k8sd client: %w" [] e) ∧
      s' = with_log s [K8sdClient EmptyString]) ∨
   (r = Ok tt ∧ ∃ k l,
      let waited := m_log s ++ K8sdClient EmptyString :: replicate k (GetClusterMember name) in
      m_log s' = waited ++ l ++ [RemoveAll (EtcdDir a); RemoveAll (ServiceArgumentsDir a)] ∧
      k ≤ ticks ∧ (failures name (m_log s ++ [K8sdClient EmptyString]) k ≤ 10)%Z ∧
      match GetClusterConfig (m_db s) with
      | Ok cfg =>
          if (Annotations_Get (CC_Annotations cfg) AnnotationSkipStopServicesOnRemove).2 then l = []
          else ∃ l', l = RunCommand (stop_argv a k8sServices ["--no-wait"]) :: l'
      | Err _ => l = []
      end ∧
      (outside (waited ++ l) (RemoveAll (EtcdDir a)) = Ok tt →
         ∀ p, below (EtcdDir a) p = true → w_files (m_world s') !! p = None) ∧
      (outside (waited ++ l ++ [RemoveAll (EtcdDir a)]) (RemoveAll (ServiceArgumentsDir a)) = Ok tt →
         ∀ p, below (ServiceArgumentsDir a) p = true → w_files (m_world s') !! p = None))).
Proof.
  destruct (onPreRemove ticks a st s) as [r s'] eqn:E.
  apply act_bind_inv in E as [([] & s1 & E1%act_wrapf_Ok & E)|(e & (r0 & [= Hc <-] & Hr)%act_wrapf_run & ->)].
  2: { split; [done|]. left. destruct r0 as [|e0]; [done|]. exists e0. cbn in Hr. by injection Hr as <-. }
  injection E1 as Hc <-. change (mkMachine _ _ _ _) with (with_log s [K8sdClient EmptyString]) in E.
  rewrite act_logged_bind in E. destruct (wait_joined _ _ _ _) as [rw sw] eqn:Ew.
  apply wait_joined_run in Ew as (k & -> & Hk & Hf & _); [|done]. rewrite with_log_app in E. cbn [snd] in E.
  rewrite act_try_bind in E. destruct (util_GetClusterConfig _) as [cfg s2] eqn:Eg.
  apply util_GetClusterConfig_run in Eg as [-> Hcfg]. cbn [m_db with_log] in Hcfg.
  assert (Hmiddle : ∀ r3 s3, (match cfg with
      | Ok cfg => if negb (Annotations_Get (CC_Annotations cfg) AnnotationSkipStopServicesOnRemove).2
                  then remove_services a else mret tt
      | Err _ => mret tt
      end) (with_log s ([K8sdClient EmptyString] ++ replicate k (GetClusterMember (st_Name st)))) = (r3, s3) →
    r3 = Ok tt ∧ m_db s3 = m_db s ∧ ∃ l,
      m_log s3 = (m_log s ++ K8sdClient EmptyString :: replicate k (GetClusterMember (st_Name st))) ++ l ∧
      match GetClusterConfig (m_db s) with
      | Ok cfg =>
          if (Annotations_Get (CC_Annotations cfg) AnnotationSkipStopServicesOnRemove).2 then l = []
          else ∃ l', l = RunCommand (stop_argv a k8sServices ["--no-wait"]) :: l'
      | Err _ => l = []
      end).
  { intros r3 s3. destruct cfg as [cfg|e].
    - rewrite (proj1 (Hcfg cfg) eq_refl). destruct (_.2); cbn [negb].
      + intros [= <- <-]. split_and!; [done|done|]. exists []. cbn. by rewrite app_nil_r.
      + intros (-> & D3 & l & Hl)%remove_services_run. split_and!; [done|done|]. eexists. split; [exact Hl|by eexists].
    - intros [= <- <-]. split_and!; [done|done|]. exists []. cbn. rewrite app_nil_r. split; [done|].
      destruct (GetClusterConfig _) as [c|] eqn:Eq; [|done]. by discriminate (proj2 (Hcfg c) eq_refl). }
  apply act_bind_inv in E as [([] & s3 & (_ & D3 & l & L3 & Hm)%Hmiddle & E)|(e & (? & _)%Hmiddle & _)]; [|done].
  apply last_steps in E as (-> & Hdb & Hl & He & Ha). split; [by rewrite Hdb|]. right. split; [done|].
  exists k, l. cbv zeta. rewrite L3, <- ?app_assoc in *. split_and!; [exact Hl|exact Hk|exact Hf|exact Hm|exact He|exact Ha].
Qed.
End Remove.
End RemoveFacts.
