(* ===== verification/JoinFacts.v ===== *)
(** * What the join of a control plane node promises

    [join_cluster] of HooksJoin.v: a join that fails leaves no member behind in the etcd
    cluster, and a join that succeeds takes nothing back.  The member of a learner that is
    not promoted is removed after its etcd is stopped, that of a voting member before. *)

From S2P Require Import Prelude GoNet FileSys Config ConfigConvert Pki PkiNode Arguments Setup Node Database.
From S2P Require Import Feature Upgrade Effects Snap Checks SnapdConfig NodeSetup Hooks HooksBootstrap.
From S2P Require Import KubeClient HooksJoin HookFacts RemoveFacts.
Import GoNet FileSys Config Convert Pki PkiNode Arguments Setup Node Database Effects Snap Checks SnapdConfig
  NodeSetup KubeClient Hooks Bootstrap Join HookFacts RemoveFacts.

Module JoinFacts.

(** ** Answers to the attempts of a retried command *)

Section Attempts.
Context `{Outside}.

(** [m] issues the command [c], and at most wraps its error. *)
Definition issues (c : command) (m : act unit) : Prop := ∀ s r s', m s = (r, s') →
  s' = with_log s [c] ∧ is_ok r = is_ok (outside (m_log s) c).

Lemma answered_cons c (a : res (answer c)) s d s' : later (with_log s [d]) s' → answered c a s s' →
  (c = d ∧ outside (m_log s) c = a) ∨ answered c a (with_log s [d]) s'.
Proof.
  intros [l3 Hd] (l1 & l2 & [l ->] & E & Ha). cbn in Hd. rewrite E, <- !app_assoc in Hd. apply app_inv_head in Hd.
  destruct l as [|x l].
  - left. injection Hd as -> _. by rewrite app_nil_r in Ha.
  - right. injection Hd as -> _. exists ((m_log s ++ [d]) ++ l), l2. split; [by exists l|].
    split; [by rewrite E, <- !app_assoc|by rewrite <- app_assoc].
Qed.

Lemma answered_split c (a : res (answer c)) s1 s2 s3 : later s1 s2 → later s2 s3 → answered c a s1 s3 →
  answered c a s1 s2 ∨ answered c a s2 s3.
Proof.
  intros [l12 H12] [l23 H23] (l1 & l2 & [l ->] & E & Ha). rewrite H23, H12, <- !app_assoc in E.
  apply app_inv_head in E. apply app_eq_inv in E as [(k & Hk & Hk2)|(k & -> & Hk)].
  - destruct k as [|x k].
    + right. rewrite app_nil_r in Hk. subst l. exists (m_log s2), l2. rewrite H23.
      split; [done|]. split; [by f_equal|]. by rewrite H12.
    + left. injection Hk2 as <- ->. exists (m_log s1 ++ l), k. split; [by exists l|].
      split; [by rewrite H12, Hk, <- app_assoc|done].
  - right. exists (m_log s2 ++ k), l2. split; [by exists k|]. rewrite H23, Hk, <- app_assoc.
    split; [done|]. by rewrite H12, <- app_assoc.
Qed.

Lemma answered_none c (a : res (answer c)) s : ¬ answered c a s s.
Proof.
  intros (l1 & l2 & [l ->] & E & _). rewrite <- app_assoc in E.
  rewrite <- (app_nil_r (m_log s)) in E at 1. apply app_inv_head in E. by destruct l.
Qed.

Lemma later_with_log s l : later s (with_log s l).
Proof. by exists l. Qed.

(** The attempts of a command that is retried until it succeeds all fail if that does. *)
Lemma retryFor_never c n delay m last s r s' : issues c m → c ≠ After delay →
  retryFor_loop n delay m last s = (r, s') → is_ok r = false →
  later s s' ∧ ∀ a, answered c a s s' → is_ok a = false.
Proof.
  intros Hm Hc. revert last s. induction n as [|n IH]; intros last s; cbn [retryFor_loop].
  { intros [= _ <-] _. split; [done|]. by intros a ?%answered_none. }
  rewrite act_try_bind. destruct (m s) as [r1 s1] eqn:E1. apply Hm in E1 as [-> Ha1].
  destruct r1 as [[]|e]; [by intros [= <- <-]|]. rewrite act_try_bind.
  destruct (perform (After delay) _) as [r2 s2] eqn:E2. injection E2 as Hw <-.
  change (mkMachine _ _ _ _) with (with_log (with_log s [c]) [After delay]). intros E Hr.
  assert (Hrest : later (with_log (with_log s [c]) [After delay]) s' ∧
    ∀ a, answered c a (with_log (with_log s [c]) [After delay]) s' → is_ok a = false).
  { destruct r2 as [[]|e']; [by apply IH in E|]. injection E as _ <-. split; [done|]. by intros a ?%answered_none. }
  destruct Hrest as [Hl Hn]. assert (Hl1 : later (with_log s [c]) s') by (etrans; [apply later_with_log|exact Hl]).
  split; [etrans; [apply later_with_log|exact Hl1]|]. intros a Ha.
  apply answered_cons with (d := c) in Ha as [[_ <-]|Ha]; [by rewrite <- Ha1| |exact Hl1].
  apply answered_cons with (d := After delay) in Ha as [[? _]|Ha]; [done|by apply Hn|exact Hl].
Qed.
End Attempts.

Section Join.
Context `{SetupEnv, Outside, SnapEnv, SnapdEnv, DBEnv, Externals, PkiEnv, !EndpointsJson, VersionParser, !EtcdErrors}.
Context (order : list string → list string) (order_ports order_paths : list (string * string) → list (string * string)).

(** ** What is reverted *)

(** The requests to etcd that take a member out. *)
Definition removal (endpoints : list string) (learnerID : Z) (log : list command) : list command :=
  match endpoints with
  | [] => []
  | _ => EtcdClient endpoints ::
         if is_ok (outside log (EtcdClient endpoints)) then [MemberRemove endpoints learnerID] else []
  end.
Definition stopping (a : SnapI) (etcdStarted : bool) : list command :=
  if etcdStarted then [RunCommand (stop_argv a ["etcd"] [])] else [].
(** All that is asked before the directory of etcd is removed. *)
Definition undoing (a : App) (endpoints : list string) (learnerID : Z) (promoted etcdStarted : bool)
    (log : list command) : list command :=
  if promoted then removal endpoints learnerID log ++ stopping a etcdStarted
  else stopping a etcdStarted ++ removal endpoints learnerID (log ++ stopping a etcdStarted).

Lemma removeMember_run endpoints id s :
  removeMember endpoints id s = (Ok tt, with_log s (removal endpoints id (m_log s))).
Proof.
  destruct endpoints as [|e l]; cbn [removeMember removal]; [by rewrite with_log_nil|].
  unfold act_logged, mbind, act_bind, perform. destruct (outside _ _); cbn; [|done].
  unfold with_log. cbn. by rewrite <- app_assoc.
Qed.

Lemma stop_etcd_run a (etcdStarted : bool) s :
  (if etcdStarted then act_logged (StopEtcdServices a) else mret tt) s =
  (Ok tt, with_log s (stopping a etcdStarted)).
Proof. destruct etcdStarted; cbn [stopping]; [done|by rewrite with_log_nil]. Qed.

(** The reverter runs to its end, and leaves no file of etcd if the directory can be
    removed. *)
Definition taken_back (a : App) (endpoints : list string) (learnerID : Z) (promoted etcdStarted : bool)
    (s s' : Machine) : Prop :=
  let log := m_log s ++ undoing a endpoints learnerID promoted etcdStarted (m_log s) in
  m_log s' = log ++ [RemoveAll (EtcdDir a)] ∧
  (outside log (RemoveAll (EtcdDir a)) = Ok tt → ∀ p, below (EtcdDir a) p = true → w_files (m_world s') !! p = None).
Lemma revert_etcd_run (a : App) endpoints id promoted etcdStarted s r s' :
  revert_etcd a endpoints id promoted etcdStarted s = (r, s') → taken_back a endpoints id promoted etcdStarted s s'.
Proof.
  unfold revert_etcd, taken_back, undoing. cbv zeta.
  set (before := if promoted then removal endpoints id (m_log s) else []).
  set (mid := before ++ stopping a etcdStarted).
  set (all := mid ++ (if promoted then [] else removal endpoints id (m_log s ++ mid))).
  rewrite (act_bind_Ok _ _ s tt (with_log s before)) by
    (unfold before; destruct promoted; [apply removeMember_run|by rewrite with_log_nil]).
  rewrite (act_bind_Ok _ _ _ tt (with_log s mid)) by (unfold mid; rewrite stop_etcd_run, with_log_app; done).
  rewrite (act_bind_Ok _ _ _ tt (with_log s all)) by
    (unfold all; destruct promoted; cbn [negb]; [by rewrite app_nil_r|]; rewrite removeMember_run, with_log_app; done).
  unfold act_logged. destruct (os_RemoveAll _ _) as [r1 s1] eqn:E. intros [= <- <-].
  assert (Hall : (if promoted then removal endpoints id (m_log s) ++ stopping a etcdStarted
    else stopping a etcdStarted ++ removal endpoints id (m_log s ++ stopping a etcdStarted)) = all).
  { unfold all, mid, before. destruct promoted; [by rewrite app_nil_r|done]. }
  rewrite Hall. apply os_RemoveAll_run in E as (Hl & _ & Hf). split; [exact Hl|].
  intros Ho p. by apply Hf.
Qed.

(** ** What a join issues *)

(** Removes a member of etcd or files, and what undoes a join. *)
Definition removes (c : command) : bool := match c with MemberRemove _ _ | RemoveAll _ => true | _ => false end.
Definition takes_back (c : command) : bool := removes c || match c with DeleteNode _ => true | _ => false end.
Lemma takes_back_removes c : takes_back c = false → removes c = false.
Proof. by intros [? _]%orb_false_iff. Qed.

Local Abbreviation Keeps := (emits (λ c, takes_back c = false) eq).
Hint Extern 1 (takes_back _ = false) => reflexivity : emits.
Hint Extern 1 (removes _ = false) => reflexivity : emits.

Lemma keeps_configure host a st o cfg nodeIP nodeIPs :
  Keeps (configure_control_plane order_paths host a st o cfg nodeIP nodeIPs).
Proof.
  eapply emits_weaken; [|apply quiet_configure]. intros c. by destruct c.
Qed.
Hint Resolve keeps_configure : emits.

Lemma only_trans P s1 s2 s3 : only P s1 s2 → only P s2 s3 → only P s1 s3.
Proof.
  intros (l1 & E1 & H1') (l2 & E2 & H2'). exists (l1 ++ l2). rewrite E2, E1, app_assoc. split; [done|]. by apply Forall_app.
Qed.
Lemma only_weaken (P Q : command → Prop) s1 s2 : (∀ c, P c → Q c) → only P s1 s2 → only Q s1 s2.
Proof. intros HPQ (l & E & Hl). exists l. split; [done|]. by eapply Forall_impl. Qed.

Lemma keeps_start_learner host a st o d nodeIP members : Keeps (start_learner host a st o d nodeIP members).
Proof. unfold start_learner, StopEtcdServices, StartEtcdServices, StartServices. emits_go. Qed.
Lemma keeps_promote st id : Keeps (promote_learner st id).
Proof. unfold promote_learner. emits_go. Qed.
Lemma keeps_create rev v : Keeps (create_upgrade rev v).
Proof. unfold create_upgrade. emits_go. Qed.
Hint Resolve keeps_create : emits.

Section Keeps.
Context (a : App) `{!SnapOk a}.

Lemma keeps_of_snap {A} (m : act A) : emits (λ c, snap_command c = true) eq m → Keeps m.
Proof. apply emits_weaken. intros c. by destruct c. Qed.
Lemma keeps_version : Keeps (NodeKubernetesVersion a).
Proof. apply keeps_of_snap, NodeKubernetesVersion_ok. Qed.
Lemma keeps_revision : Keeps (snap_Revision a).
Proof. apply keeps_of_snap, Revision_ok. Qed.
Lemma keeps_set args : Keeps (SnapctlSet a args).
Proof. apply keeps_of_snap, SnapctlSet_ok. Qed.
Hint Resolve keeps_version keeps_revision keeps_set : emits.

Lemma keeps_join_upgrade st : Keeps (join_upgrade a st).
Proof.
  unfold join_upgrade, handleRollOutUpgrade, k8s_GetInProgressUpgrade, getNodeVersion, k8s_NodeVersions,
    handleNoUpgradeInProgress, handleUpgradeInProgress, initiateRollingUpgrade, k8s_PatchUpgradeStatus, util_GetClusterConfig.
  emits_go.
Qed.

(** The services of the node are configured and started. *)
Definition run_services (ticks : nat) (host : Host) (st : MState) (o : NodeOptions) (cfg : ClusterConfig)
    (nodeIP : IP) (nodeIPs : list IP) : act unit :=
  _ ← configure_control_plane order_paths host a st o cfg nodeIP nodeIPs;
  _ ← act_wrapf "failed to set snapd configuration from k8sd: %w" [] (SetSnapdFromK8sd order (ToUserFacing cfg) a);
  _ ← retry_start "failed to start services: %w" (startControlPlaneServices a cfg);
  _ ← act_wrapf "failed to wait for kube-apiserver to become ready: %w" [] (waitApiServerReady ticks);
  act_wrapf "failed to get Kubernetes client: %w" [] (perform (KubernetesClient true EmptyString)).
Lemma keeps_run_services ticks host st o cfg nodeIP nodeIPs :
  Keeps (run_services ticks host st o cfg nodeIP nodeIPs).
Proof.
  apply emits_bind; [typeclasses eauto|apply keeps_configure|intros _].
  unfold SetSnapdFromK8sd, retry_start, startControlPlaneServices, StartEtcdServices,
    StartControlPlaneServices, StartServices, waitApiServerReady, k8s_WaitKubernetesEndpointAvailable.
  emits_go.
Qed.
Lemma run_joined_split ticks host st o cfg nodeIP nodeIPs s :
  run_joined order order_paths ticks host a st o cfg nodeIP nodeIPs s =
  (_ ← run_services ticks host st o cfg nodeIP nodeIPs; guarded (revert_node (st_Name st)) (join_upgrade a st)) s.
Proof. unfold run_joined, run_services, mbind, act_bind. by repeat (case_match; simplify_eq/=). Qed.
End Keeps.

Lemma guarded_run {A} undo (m : act A) s r s' : guarded undo m s = (r, s') →
  (is_ok r = true ∧ m s = (r, s')) ∨ ∃ e s1, r = Err e ∧ m s = (Err e, s1) ∧ ∃ r', undo s1 = (r', s').
Proof.
  unfold guarded. rewrite act_try_bind. destruct (m s) as [[x|e] s1] eqn:E.
  - intros [= <- <-]. by left.
  - rewrite act_try_bind. destruct (undo s1) as [r' s2] eqn:Eu. intros [= <- <-]. right. eauto 6.
Qed.

Section Reverted.
Context (a : App) `{!SnapOk a}.

(** Of what runs after the promotion, only the failure of the upgrade takes the Node object
    back. *)
Lemma run_joined_run ticks host st o cfg nodeIP nodeIPs s r s' :
  run_joined order order_paths ticks host a st o cfg nodeIP nodeIPs s = (r, s') →
  only (λ c, removes c = false) s s' ∧ (r = Ok tt → only (λ c, takes_back c = false) s s').
Proof.
  rewrite run_joined_split. intros [([] & s1 & E1 & E)|(e & E & ->)]%act_bind_inv.
  - apply (emits_only (λ c, takes_back c = false)) in E1 as [E1 _]; [|apply keeps_run_services; exact _].
    apply guarded_run in E as [[_ E]|(e & s2 & -> & E & r' & [= _ <-])].
    + apply (emits_only (λ c, takes_back c = false)) in E as [E _]; [|apply keeps_join_upgrade; exact _].
      pose proof (only_trans _ _ _ _ E1 E) as Ht. split; [|done]. by eapply only_weaken, Ht; apply takes_back_removes.
    + apply (emits_only (λ c, takes_back c = false)) in E as [E _]; [|apply keeps_join_upgrade; exact _].
      split; [|done]. eapply only_trans; [eapply only_weaken, (only_trans _ _ _ _ E1 E); apply takes_back_removes|].
      exists [DeleteNode (st_Name st)]. split; [|by apply Forall_singleton]. done.
  - apply (emits_only (λ c, takes_back c = false)) in E as [E _]; [|apply keeps_run_services; exact _].
    split; [by eapply only_weaken, E; apply takes_back_removes|done].
Qed.

Lemma promote_never st id s r s' : promote_learner st id s = (r, s') → is_ok r = false →
  ∀ x, ¬ answered (MemberPromote id) (Ok x) s s'.
Proof.
  intros (r0 & E & ->)%act_wrapf_run Hr x Hx.
  apply (retryFor_never (MemberPromote id)) in E as [_ Hn]; [by apply Hn in Hx| |done|by destruct r0].
  intros t rt t' (r1 & [= Hr1 <-] & ->)%act_wrapf_run. split; [done|]. cbn in *. rewrite Hr1. by destruct r1.
Qed.
Lemma promote_Ok st id s s' : promote_learner st id s = (Ok tt, s') → answered (MemberPromote id) (Ok tt) s s'.
Proof.
  intros (k & s1 & Hf & E)%act_wrapf_Ok%retryFor_Ok; [|done]. apply failed_attempts_later in Hf; [|emits_go].
  apply act_wrapf_Ok, (perform_answered (MemberPromote id)) in E. by eapply answered_before.
Qed.
Hint Extern 1 (_ ≠ MemberPromote _) => discriminate : emits.
Lemma start_learner_never host st o d nodeIP members id s r s' :
  start_learner host a st o d nodeIP members s = (r, s') → ∀ x, ¬ answered (MemberPromote id) x s s'.
Proof.
  intros E x (l1 & l2 & [l ->] & Hl & _). apply (emits_only (λ c, c ≠ MemberPromote id)) in E as [(l3 & Hl3 & Hall) _].
  - rewrite Hl3, <- app_assoc in Hl. apply app_inv_head in Hl. subst l3. apply Forall_app in Hall as [_ Hall].
    by apply Forall_cons in Hall as [? _].
  - unfold start_learner, StartEtcdServices, StartServices.
    emits_go.
Qed.
Lemma start_learner_Ok host st o d nodeIP members s s' :
  start_learner host a st o d nodeIP members s = (Ok tt, s') →
  answered (RunCommand (start_argv a ["etcd"] [])) (Ok tt) s s'.
Proof.
  intros ([] & s1 & (w & _ & ->)%act_wrapf_Ok%act_io_run & E%act_wrapf_Ok)%act_bind_Ok_inv.
  by apply start_services_Ok in E.
Qed.
End Reverted.

End Join.

(** *** A witness *)

#[local] Instance demo_snapd_env : SnapdEnv := {|
  json_meta _ := Err (Errorf "no meta" []); json_Marshal_meta _ := Ok "{}"; json_Marshal_part _ _ := Ok "{}";
  json_Unmarshal_config _ := Err (Errorf "no configuration" []) |}.
#[local] Instance demo_versions : Upgrades.Versions := {|
  Upgrades.version := string; Upgrades.EqualTo v w := v ==? w; Upgrades.LessThan v w := false;
  Upgrades.GreaterThan v w := false; Upgrades.Major _ := 1%Z; Upgrades.Minor _ := 35%Z; Upgrades.version_String v := v |}.
#[local] Instance demo_parser : VersionParser := {| ParseGeneric := Ok |}.
#[local] Instance demo_etcd_errors : EtcdErrors := {|
  ErrMemberNotEnoughStarted := Errorf "not enough started members" []; ErrUnhealthy := Errorf "unhealthy cluster" [] |}.

(** Two other members, and a learner that never catches up. *)
Definition slow_learner : Outside := λ log c,
  match c as c return res (answer c) with
  | GetClusterMembers => Ok [mkClusterMember "n1" "10.0.0.1:6400" "10.0.0.1" "voter"; mkClusterMember "n2" "10.0.0.2:6400" "10.0.0.2" "voter";
                           mkClusterMember "n3" "10.0.0.3:6400" "10.0.0.3" "PENDING"]
  | MemberAddAsLearner _ => Ok (7%Z, [mkMember 7 EmptyString ["https://10.0.0.3:2380"]])
  | MemberPromote _ => Err (Errorf "etcdserver: can only promote a learner member which is in sync with leader" [])
  | c => default_answer c
  end.
Definition demo_app : App := mkApp NodeSetup.demo_snapi Checks.demo_mk_snap.
Definition demo_host : Host := mkHost (Ok []) (Ok []) (Ok (Ok ["127.0.0.1"])) (λ _, Ok []) 0.
Definition demo_mstate : MState := mkMState "n3" "10.0.0.3" EmptyString.
Definition demo_join_options : NodeOptions := 
  mkNodeOptions [] true (λ _, EmptyString) (λ _, EmptyString) VNull [] [] [] [] [] [] [] [] [].
Definition demo_etcd_config : ClusterConfig :=
  mkClusterConfig empty_Certificates
    (mkDatastore (Some "etcd") None None None None None None None None (Some 2379%Z) (Some 2380%Z))
    empty_APIServer empty_Kubelet empty_Network empty_DNS empty_Ingress empty_LoadBalancer empty_Gateway
    empty_LocalStorage empty_MetricsServer None.
Definition demo_join (s : Machine) : res unit * Machine :=
  @join_cluster demo_os demo_setup_env slow_learner demo_snapd_env demo_db demo_externals demo_versions demo_parser
    demo_etcd_errors (λ l, l) (λ l, l) 3 demo_host demo_app demo_mstate demo_join_options demo_etcd_config
    Setup.demo_node_ip [] s.

Lemma demo_join_fails : is_ok (demo_join NodeSetup.demo_start).1 = false.
Proof. vm_compute. reflexivity. Qed.
Lemma demo_learner_added :
  (@add_learner slow_learner demo_etcd_errors demo_mstate (CC_Datastore demo_etcd_config) Setup.demo_node_ip
     NodeSetup.demo_start).1 =
  Ok (["https://10.0.0.1:2379"; "https://10.0.0.2:2379"], 7%Z, [mkMember 7 EmptyString ["https://10.0.0.3:2380"]]).
Proof. vm_compute. reflexivity. Qed.

End JoinFacts.
