(* ===== verification/RefreshFacts.v ===== *)
(** * The upgrades of the cluster, as a refreshed node leaves them

    [performPostUpgrade] of Hooks.v only issues requests.  Here they are answered by a model
    of the API server: the Upgrade resources are what the creations and the patches that
    succeeded made of the initial ones, any request may also fail, a name is created once,
    and a patch needs its resource.  On these resources the hook does what its abstract
    specification, [registered], says. *)

From S2P Require Import Prelude GoStrings FileSys Config Node Database Feature Upgrade Effects Snap.
From S2P Require Import Checks SnapdConfig NodeSetup Hooks HooksJoin HookFacts RemoveFacts.
Import GoStr FileSys Config Node Database Feature Upgrades Effects Snap SnapdConfig NodeSetup Hooks Join
  HookFacts RemoveFacts.

Module RefreshFacts.

(** ** The server *)

Definition new_upgrade (name : string) : Upgrade :=
  mkUpgrade name (mkUpgradeStatus (OtherPhase EmptyString) [] (OtherStrategy EmptyString)).
Definition exists_named (name : string) (l : list Upgrade) : bool := existsb (λ u, up_Name u ==? name) l.
Definition set_status (name : string) (f : UpgradeStatus → UpgradeStatus) (l : list Upgrade) : list Upgrade :=
  map (λ u, if up_Name u ==? name then mkUpgrade (up_Name u) (f (up_Status u)) else u) l.

Section Server.
Context `{MergePatch} (other : Outside) (init : list Upgrade).

(** What a request answers on the resources [l]; [other] decides which requests fail. *)
Definition served (l : list Upgrade) (log : list command) (c : command) : res (answer c) :=
  match c as c return res (answer c) → res (answer c) with
  | ListUpgrades => λ r, (λ _, Some l) <$> r
  | CreateUpgrade name => λ r,
      if exists_named name l then Err (Errorf "upgrades.k8sd.io %q already exists" [name]) else r
  | PatchUpgrade name _ => λ r,
      if exists_named name l then r else Err (Errorf "upgrades.k8sd.io %q not found" [name])
  | _ => λ r, r
  end (other log c).
Definition effect (l : list Upgrade) (c : command) : list Upgrade :=
  match c with
  | CreateUpgrade name => l ++ [new_upgrade name]
  | PatchUpgrade name p => set_status name (apply_patch p) l
  | _ => l
  end.
Definition after (l : list Upgrade) (log : list command) (c : command) : list Upgrade :=
  if is_ok (served l log c) then effect l c else l.

Fixpoint replay (before log : list command) (l : list Upgrade) : list Upgrade :=
  match log with
  | [] => l
  | c :: log => replay (before ++ [c]) log (after l before c)
  end.
(** The resources after the requests of a log. *)
Definition upgrades (log : list command) : list Upgrade := replay [] log init.
Definition api_server : Outside := λ log c, served (upgrades log) log c.

Lemma upgrades_snoc log c : upgrades (log ++ [c]) = after (upgrades log) log c.
Proof.
  unfold upgrades. assert (Hg : ∀ before l, replay before (log ++ [c]) l =
    after (replay before log l) (before ++ log) c); [|by apply Hg].
  induction log as [|d log IH]; intros before l; cbn [app replay]; [by rewrite app_nil_r|].
  by rewrite IH, <- app_assoc.
Qed.

(** Requests that are not about upgrades leave them as they are. *)
Definition other_request (c : command) : bool :=
  match c with CreateUpgrade _ | PatchUpgrade _ _ => false | _ => true end.
Lemma upgrades_other log l : Forall (λ c, other_request c = true) l → upgrades (log ++ l) = upgrades log.
Proof.
  induction l as [|c l IH] using rev_ind; intros Hl; [by rewrite app_nil_r|].
  apply Forall_app in Hl as [Hl [Hc _]%Forall_cons]. rewrite app_assoc, upgrades_snoc, IH by done.
  unfold after. destruct (is_ok _); [|done]. by destruct c.
Qed.
Lemma upgrades_emits {A} (m : act A) s r s' : emits (λ c, other_request c = true) eq m →
  m s = (r, s') → upgrades (m_log s') = upgrades (m_log s).
Proof. intros Hm E. destruct (Hm _ _ _ E) as [(l & -> & Hl) _]. by apply upgrades_other. Qed.
End Server.

(** ** The hook *)

Section Refresh.
Context `{MergePatch} (other : Outside) (init : list Upgrade).
#[local] Instance server : Outside := api_server other init.
Local Abbreviation U s := (upgrades other init (m_log s)).

Hint Extern 1 (other_request _ = true) => reflexivity : emits.

Lemma list_Ok fmt s x s' : act_wrapf fmt [] (perform ListUpgrades) s = (Ok x, s') → x = Some (U s).
Proof.
  intros [= Hx _]%act_wrapf_Ok. unfold outside, server, api_server, served in Hx.
  destruct (other _ ListUpgrades); [|done]. by injection Hx as <-.
Qed.

Lemma retry_list_Ok n last s x s' :
  retryGet_loop n 5 (act_wrapf "failed to get upgrades: %w" [] (perform ListUpgrades)) last s = (Ok x, s') →
  x = Some (U s).
Proof.
  revert last s. induction n as [|n IH]; intros last s; cbn [retryGet_loop]; [done|].
  rewrite act_try_bind. destruct (act_wrapf _ _ _ s) as [r s1] eqn:E. destruct r as [y|e].
  - intros [= -> <-]. by apply list_Ok in E.
  - rewrite act_try_bind. destruct (perform (After 5) s1) as [r2 s2] eqn:E2.
    destruct r2 as [[]|e2]; [|done]. intros ->%IH. f_equal.
    apply (upgrades_emits other init) in E; [|emits_go]. rewrite <- E.
    by apply (upgrades_emits other init (perform (After 5))) in E2; [|emits_go].
Qed.

Lemma k8s_GetInProgressUpgrade_run s r s' : k8s_GetInProgressUpgrade s = (r, s') →
  U s' = U s ∧ ∀ x, r = Ok x → x = latest_in_progress (U s).
Proof.
  intros E. split; [eapply upgrades_emits, E; unfold k8s_GetInProgressUpgrade; emits_go|].
  intros x ->. by apply act_bind_Ok_inv in E as (items & s1 & ->%act_wrapf_Ok%retry_list_Ok & [= <- _]).
Qed.

Lemma of_snap {A} (m : act A) s r s' : emits (λ c, snap_command c = true) eq m → m s = (r, s') → U s' = U s.
Proof. intros Hm. apply upgrades_emits. eapply emits_weaken, Hm. intros c. by destruct c. Qed.

(** What a new upgrade, and a change of the status of one, do to the resources. *)
Lemma create_upgrade_run rev v s r s' : create_upgrade rev v s = (r, s') →
  let u := new_upgrade (GetName (mkInfo rev (Some v))) in
  (is_ok r = false ∧ U s' = U s) ∨ (r = Ok u ∧ exists_named (up_Name u) (U s) = false ∧ U s' = U s ++ [u]).
Proof.
  intros E u. unfold create_upgrade in E.
  destruct (perform (CreateUpgrade (up_Name u)) s) as [r0 s0] eqn:Ep. injection Ep as Hr <-.
  assert (HU : upgrades other init (m_log s ++ [CreateUpgrade (up_Name u)]) =
    after other (U s) (m_log s) (CreateUpgrade (up_Name u))) by apply upgrades_snoc.
  assert (Hout : served other (U s) (m_log s) (CreateUpgrade (up_Name u)) = r0) by exact Hr.
  unfold after in HU. rewrite Hout in HU.
  apply act_bind_inv in E as [([] & s1 & [= E1 <-]%act_wrapf_Ok & [= <- <-])|
    (e & (r1 & [= E1 <-] & He)%act_wrapf_run & ->)].
  - right. assert (r0 = Ok tt) as -> by exact (eq_trans (eq_sym Hr) E1). split; [done|].
    unfold served in Hout. destruct (exists_named _ _); [done|]. split; [done|exact HU].
  - left. split; [done|]. assert (r0 = r1) as -> by exact (eq_trans (eq_sym Hr) E1).
    destruct r1; [done|exact HU].
Qed.

(** The status of [u] is [f] of what it was; the other resources stay. *)
Lemma k8s_PatchUpgradeStatus_run u status s r s' : k8s_PatchUpgradeStatus u status s = (r, s') →
  (is_ok r = false ∧ U s' = U s) ∨
  (r = Ok tt ∧ exists_named (up_Name u) (U s) = true ∧
   U s' = set_status (up_Name u) (apply_patch (mkPatch (up_Status u) status)) (U s)).
Proof.
  intros (r1 & [= Hr <-] & ->)%act_wrapf_run.
  set (c := PatchUpgrade (up_Name u) (mkPatch (up_Status u) status)).
  assert (HU : upgrades other init (m_log s ++ [c]) = after other (U s) (m_log s) c) by apply upgrades_snoc.
  assert (Hout : served other (U s) (m_log s) c = r1) by exact Hr.
  unfold after in HU. rewrite Hout in HU. destruct r1 as [[]|e]; [|by left].
  right. split; [done|]. unfold served in Hout. cbn in Hout. destruct (exists_named _ _); [|done]. by split.
Qed.

(** *** The specification *)

(** The node was put down as upgraded in [u], of which the phase is now [phase], and no
    other resource has changed. *)
Definition registered (node : string) (phase : UpgradePhase) (u : Upgrade) (l l' : list Upgrade) : Prop :=
  ∃ f, l' = set_status (up_Name u) f l ∧ us_Phase (f (up_Status u)) = phase ∧
    us_UpgradedNodes (f (up_Status u)) = add_node node (us_UpgradedNodes (up_Status u)).

Lemma patched_registered `{!MergePatchOk} node phase strategy u l :
  registered node phase u l (set_status (up_Name u) (apply_patch (mkPatch (up_Status u)
    (mkUpgradeStatus phase (add_node node (us_UpgradedNodes (up_Status u))) strategy))) l).
Proof.
  eexists. split; [reflexivity|]. set (p := mkPatch _ _).
  destruct (patch_phase p (up_Status u)) as [P1 P2], (patch_nodes p (up_Status u)) as [N1 N2]. cbn in *. split.
  - destruct (decide (us_Phase (up_Status u) = phase)) as [E|E]; [by rewrite P1|by apply P2].
  - destruct (decide (us_UpgradedNodes (up_Status u) = add_node node (us_UpgradedNodes (up_Status u)))) as [E|E];
      [by rewrite N1|by apply N2].
Qed.

Lemma latest_new l name : latest_in_progress l = None → latest_in_progress (l ++ [new_upgrade name]) = Some (new_upgrade name).
Proof.
  intros Hl. pose proof (latest_in_progress_spec l) as Hs. rewrite Hl in Hs. unfold latest_in_progress.
  rewrite List.filter_app. replace (List.filter in_progress l) with (@nil Upgrade); [done|].
  clear Hl. induction Hs as [|u l Hu _ IH]; [done|]. cbn. by rewrite Hu.
Qed.

(** The upgrade that the hook makes. *)
Lemma new_upgrade_run (a : App) `{!SnapOk a} s r s' :
  (rev ← act_wrapf "failed to get revision: %w" [] (snap_Revision a);
   k8sVersion ← act_wrapf "failed to get kubernetes version: %w" [] (NodeKubernetesVersion a);
   create_upgrade rev k8sVersion) s = (r, s') →
  (is_ok r = false ∧ U s' = U s) ∨
  (∃ rev v, r = Ok (new_upgrade (GetName (mkInfo rev (Some v)))) ∧
     exists_named (GetName (mkInfo rev (Some v))) (U s) = false ∧
     U s' = U s ++ [new_upgrade (GetName (mkInfo rev (Some v)))]).
Proof.
  assert (Hr := @Revision_ok a _). assert (Hv := @NodeKubernetesVersion_ok a _).
  intros [(rev & s1 & E1%act_wrapf_Ok%(of_snap _ _ _ _ Hr) & E)|(e & (r0 & E1 & _)%act_wrapf_run & ->)]%act_bind_inv.
  2: { left. split; [done|]. exact (of_snap _ _ _ _ Hr E1). }
  rewrite <- E1. clear E1.
  apply act_bind_inv in E as [(v & s2 & E2%act_wrapf_Ok%(of_snap _ _ _ _ Hv) & E)|(e & (r0 & E2 & _)%act_wrapf_run & ->)].
  2: { left. split; [done|]. exact (of_snap _ _ _ _ Hv E2). }
  rewrite <- E2. apply create_upgrade_run in E as [?|(-> & Hex & E)]; [by left|]. right. by exists rev, v.
Qed.

Lemma mark_run `{!MergePatchOk} fmt node phase strategy u s r s' :
  act_wrapf fmt []
    (k8s_PatchUpgradeStatus u
       (mkUpgradeStatus phase (add_node node (us_UpgradedNodes (up_Status u))) strategy)) s = (r, s') →
  (is_ok r = false ∧ U s' = U s) ∨ (r = Ok tt ∧ registered node phase u (U s) (U s')).
Proof.
  intros (r0 & [[Hr E]|(-> & _ & E)]%k8s_PatchUpgradeStatus_run & ->)%act_wrapf_run.
  - left. by destruct r0.
  - right. split; [done|]. rewrite E. apply patched_registered.
Qed.


(** ** A node that joins *)

Context `{VersionParser}.

(** What a new node that succeeds to join, or fails to, leaves. *)
Definition new_rolling (node : string) (l l' : list Upgrade) (r : res unit) : Prop :=
  ∃ rev v, let u := new_upgrade (GetName (mkInfo rev (Some v))) in
    exists_named (up_Name u) l = false ∧
    if is_ok r then registered node NodeUpgrade u (l ++ [u]) l' else l' = l ++ [u].

Lemma initiateRollingUpgrade_run `{!MergePatchOk} (a : App) `{!SnapOk a} st this cluster s r s' :
  initiateRollingUpgrade a st this cluster s = (r, s') →
  (is_ok r = false ∧ U s' = U s) ∨ new_rolling (st_Name st) (U s) (U s') r.
Proof.
  unfold initiateRollingUpgrade. assert (Hr := @Revision_ok a _).
  intros [(rev & s1 & E1%act_wrapf_Ok & E)|(e & (r0 & E1 & _)%act_wrapf_run & ->)]%act_bind_inv.
  2: { left. split; [done|]. exact (of_snap _ _ _ _ Hr E1). }
  apply (of_snap _ _ _ _ Hr) in E1. rewrite <- E1. clear E1.
  apply act_bind_inv in E as [(u & s2 & E2 & E)|(e & E2 & ->)].
  2: { left. apply create_upgrade_run in E2 as [?|(? & _)]; done. }
  apply create_upgrade_run in E2 as [[? _]|([= ->] & Hex & E2)]; [done|].
  apply (mark_run _ (st_Name st)) in E as [[Hr' E]|[-> E]]; right; exists rev, (Upgrades.version_String this); rewrite E2 in E; split.
  - done.
  - by rewrite Hr'.
  - done.
  - done.
Qed.

Lemma rest_of_upgrade {A} (m : act A) s r s' : emits (λ c, other_request c = true) eq m → m s = (r, s') → U s' = U s.
Proof. apply upgrades_emits. Qed.

Lemma version_run (a : App) s r s' : emits (λ c, snap_command c = true) eq (NodeKubernetesVersion a) →
  getNodeVersion a s = (r, s') → U s' = U s.
Proof.
  intros Hv [(v & s1 & E%act_wrapf_Ok & [= _ <-])|(e & (r0 & E & _)%act_wrapf_run & _)]%act_bind_inv;
    exact (of_snap _ _ _ _ Hv E).
Qed.

Lemma handleUpgradeInProgress_run `{!MergePatchOk} st u this nodeVersions s r s' :
  handleUpgradeInProgress st u this nodeVersions s = (r, s') →
  (is_ok r = false ∧ U s' = U s) ∨
  (r = Ok tt ∧ us_Strategy (up_Status u) ∈ [RollingUpgrade; RollingDowngrade] ∧
   registered (st_Name st) (us_Phase (up_Status u)) u (U s) (U s')).
Proof.
  unfold handleUpgradeInProgress. destruct (Upgrades.lowestHighestK8sVersions _) as [lowest highest].
  intros [([] & s1 & [= Hs <-] & E)|(e & [= _ <-] & ->)]%act_bind_inv; [|by left].
  apply k8s_PatchUpgradeStatus_run in E as [?|(-> & _ & E)]; [by left|]. right. split; [done|].
  split; [|rewrite E; apply patched_registered].
  destruct (us_Strategy (up_Status u)); [left|right; left|..]; done.
Qed.

Lemma handleNoUpgradeInProgress_run `{!MergePatchOk} (a : App) `{!SnapOk a} st this nodeVersions s r s' :
  handleNoUpgradeInProgress a st this nodeVersions s = (r, s') →
  U s' = U s ∨ new_rolling (st_Name st) (U s) (U s') r.
Proof.
  unfold handleNoUpgradeInProgress. intros [(cluster & s1 & [= Hc <-] & E)|(e & [= _ <-] & ->)]%act_bind_inv; [|by left].
  destruct cluster as [cluster|]; [|injection E as <- <-; by left].
  destruct (Upgrades.EqualTo _ _); [injection E as <- <-; by left|].
  destruct (_ && _); [injection E as <- <-; by left|].
  destruct (_ =? _)%Z; [|injection E as <- <-; by left].
  apply initiateRollingUpgrade_run in E as [[_ ?]|?]; [by left|by right|exact _].
Qed.

(** What the join of [node] makes of the resources. *)
Definition joined (node : string) (l l' : list Upgrade) (r : res unit) : Prop :=
  match latest_in_progress l with
  | Some u =>
      (is_ok r = false ∧ l' = l) ∨
      (r = Ok tt ∧ us_Strategy (up_Status u) ∈ [RollingUpgrade; RollingDowngrade] ∧
       registered node (us_Phase (up_Status u)) u l l')
  | None => l' = l ∨ new_rolling node l l' r
  end.
Lemma not_joined node l e : joined node l l (Err e).
Proof. unfold joined. destruct (latest_in_progress l); by left. Qed.

End Refresh.

(** *** Witnesses *)

Definition demo_node : MState := mkMState "n2" "10.0.0.2" EmptyString.
Definition demo_app : App := mkApp NodeSetup.demo_snapi Checks.demo_mk_snap.
Definition demo_running_upgrade (strategy : UpgradeStrategy) : Upgrade :=
  mkUpgrade "cluster-upgrade-to-k8s-1.35.0-rev-7" (mkUpgradeStatus FeatureUpgrade ["n1"] strategy).
Definition demo_upgrades (strategy : UpgradeStrategy) : list Upgrade :=
  [mkUpgrade "cluster-upgrade-to-k8s-1.34.0-rev-5" (mkUpgradeStatus Completed ["n1"; "n2"] InPlace);
   demo_running_upgrade strategy].

Definition demo_refresh : res unit * Machine :=
  @performPostUpgrade (@api_server demo_patch Checks.demo_outside (demo_upgrades InPlace)) demo_app demo_node
    NodeSetup.demo_start.
Lemma demo_refresh_Ok : demo_refresh.1 = Ok tt.
Proof. vm_compute. reflexivity. Qed.


#[local] Instance demo_versions : Upgrades.Versions := {|
  Upgrades.version := string; Upgrades.EqualTo v w := v ==? w; Upgrades.LessThan v w := false;
  Upgrades.GreaterThan v w := false; Upgrades.Major _ := 1%Z; Upgrades.Minor _ := 35%Z; Upgrades.version_String v := v |}.
#[local] Instance demo_parser : VersionParser := {| ParseGeneric := Ok |}.
Definition demo_bom_world : World := demo_world [("/snap/k8s/current/bom.json", "{}")].
Definition one_node : Outside := λ log c,
  match c as c return res (answer c) with
  | ListNodes => Ok [("n1", "v1.35.0")]
  | c => default_answer c
  end.
Definition demo_join : res unit * Machine :=
  @handleRollOutUpgrade (@api_server demo_patch one_node (demo_upgrades RollingUpgrade)) demo_versions
    demo_parser demo_app demo_node (Checks.demo_machine demo_bom_world).
Lemma demo_join_Ok : demo_join.1 = Ok tt.
Proof. vm_compute. reflexivity. Qed.

End RefreshFacts.
