(* ===== verification/Api.v ===== *)
(** * The API of the daemon: requests, responses and access

    pkg/k8sd/api: the table of the endpoints (endpoints.go), the access handlers
    (node_access_handler.go, worker_access_handler.go, capi_access_handler.go), and the
    responses (response.go).  The endpoints are in ApiTokens.v, ApiCluster.v and
    ApiCertificates.v.

    A handler gets the snap, what microcluster knows of the node, what the machine says of
    itself, and a request: its headers, and what the decoder makes of its body.  It ends with
    a response ([Response]): a result, or a status with an error; or it panics.

    External: what tells that an API server does not know an object ([ApiErrors]), and the
    random bytes of a token ([RandRead]). *)

From S2P Require Import Prelude GoStrings GoNet Config FileSys Pki PkiNode Arguments Node Database.
From S2P Require Import Csr Effects Snap Token KubeClient Hooks HooksBootstrap.
Import GoStr GoNet Config FileSys Pki PkiNode Arguments Node Database Effects Snap Token KubeClient Hooks Bootstrap.

Module Api.

(** ** Responses *)

(** The statuses the handlers use; [NodeUnavailable] and [NodeInUse] are of response.go, the
    rest are of microcluster. *)
Inductive httpStatus :=
| BadRequest | Unauthorized | Forbidden | InternalError | Unavailable | StatusNodeUnavailable | StatusNodeInUse.

#[export] Instance httpStatus_eq_dec : EqDecision httpStatus.
Proof. solve_decision. Defined.

(** The codes response.go adds. *)
Definition node_status_code (s : httpStatus) : option Z :=
  match s with StatusNodeUnavailable => Some 520%Z | StatusNodeInUse => Some 521%Z | _ => None end.

Inductive Response (A : Type) : Type :=
| SyncResponse (a : A)
| ErrorResponse (status : httpStatus) (e : goerr)
| Panicked.
Arguments SyncResponse {A} a.
Arguments ErrorResponse {A} status e.
Arguments Panicked {A}.

Definition handler (A : Type) : Type := Machine → Response A * Machine.
#[export] Instance handler_ret : MRet handler := λ A a s, (SyncResponse a, s).
#[export] Instance handler_bind : MBind handler := λ A B f m s,
  match m s with
  | (SyncResponse a, s') => f a s'
  | (ErrorResponse status e, s') => (ErrorResponse status e, s')
  | (Panicked, s') => (Panicked, s')
  end.

Definition refuse {A} (status : httpStatus) (e : goerr) : handler A := λ s, (ErrorResponse status e, s).
(** [if err := m(); err != nil { return status(err) }]. *)
Definition tried {A} (status : httpStatus) (m : act A) : handler A := λ s,
  let '(r, s') := m s in
  (match r with Ok a => SyncResponse a | Err e => ErrorResponse status e end, s').
Definition refuse_if (b : bool) (status : httpStatus) (e : goerr) : handler unit :=
  if b then refuse status e else mret tt.
(** An error that is only logged. *)
Definition logged {A} (m : act A) : handler unit := tried InternalError (act_logged m).

(** [Header] is [r.Header.Get]. *)
Record Request (A : Type) := mkRequest { Header : string → string; Body : res A }.
Arguments mkRequest {A} Header Body.
Arguments Header {A} r.
Arguments Body {A} r.

Definition body {A} (fmt : string) (r : Request A) : handler A :=
  tried BadRequest (act_wrapf fmt [] (act_lift (Body r))).
Definition failed_to_parse : string := "failed to parse request: %w".

Class ApiErrors := { IsNotFound : goerr → bool }.
(** [rand.Read] of 20 bytes. *)
Class RandRead := rand_Read : nat → res (list Z).

(** snap.go *)
Definition NodeTokenFile (s : snap) : string := filepath_Join [snapCommonDir s; "node-token"].

(** A transaction that may draw from the source of randomness. *)
Definition act_db_rand `{RandRead} {A} (f : res (list Z) → DB → res (A * DB)) : act A := λ s,
  let '(r, s') := act_db (f (rand_Read (m_rand s))) s in
  (r, mkMachine (m_world s') (m_db s') (S (m_rand s')) (m_log s')).

(** A transaction without a result. *)
Definition no_result (f : DB → res DB) (d : DB) : res (unit * DB) := d' ← f d; Ok (tt, d').

Section Access.
Context `{OSEnv, DBEnv, Csr.CsrEnv}.

(** ** worker_access_handler.go *)

Definition restrictWorkers (a : App) : handler unit :=
  isWorker ← tried InternalError (act_wrapf "failed to check if node is a worker: %w" [] (act_io (IsWorker a)));
  refuse_if isWorker Forbidden (Errorf "this action is restricted on workers" []).

(** The name that does not parse is printed as an empty one. *)
Definition ValidateWorkerInfoAccessHandler (host : Host) (nodeHeaderName tokenHeaderName : string)
    (header : string → string) : handler unit :=
  let name := header nodeHeaderName in
  _ ← refuse_if (name ==? EmptyString) Unauthorized (Errorf "missing header %q" [nodeHeaderName]);
  hostname ← tried BadRequest (act_wrapf "invalid hostname %q: %w" [EmptyString]
               (act_lift (Csr.CleanHostname name)));
  let token := header tokenHeaderName in
  _ ← refuse_if (token ==? EmptyString) Unauthorized (Errorf "invalid token" []);
  tokenIsValid ← tried InternalError (act_wrapf "check token database transaction failed: %w" []
                   (act_wrapf "failed to check worker node token: %w" []
                      (act_query (CheckWorkerNodeToken (h_Now host) hostname token))));
  refuse_if (negb tokenIsValid) Unauthorized (Errorf "invalid token" []).

(** ** capi_access_handler.go *)

Definition ValidateCAPIAuthTokenAccessHandler (tokenHeaderName : string) (header : string → string)
    : handler unit :=
  let token := header tokenHeaderName in
  _ ← refuse_if (token ==? EmptyString) Unauthorized (Errorf "missing header %q" [tokenHeaderName]);
  tokenIsValid ← tried InternalError (act_wrapf "check CAPI auth token database transaction failed: %w" []
                   (act_wrapf "failed to check CAPI auth token: %w" []
                      (act_query (ValidateClusterAPIToken token))));
  refuse_if (negb tokenIsValid) Unauthorized (Errorf "invalid token" []).

(** ** node_access_handler.go *)

Definition ValidateNodeTokenAccessHandler (a : App) (tokenHeaderName : string) (header : string → string)
    : handler unit :=
  let token := header tokenHeaderName in
  _ ← refuse_if (token ==? EmptyString) Unauthorized (Errorf "missing header %q" [tokenHeaderName]);
  nodeToken ← tried InternalError (act_wrapf "failed to read node access token: %w" []
                (act_io (os_ReadFile (NodeTokenFile (app_dirs a)))));
  refuse_if (TrimSpace nodeToken !=? token) Unauthorized (Errorf "invalid token" []).
End Access.

(** ** endpoints.go *)

Inductive AccessHandler :=
| AccessRestrictWorkers
| AccessWorkerInfo (nodeHeaderName tokenHeaderName : string)
| AccessCAPI (tokenHeaderName : string)
| AccessNodeToken (tokenHeaderName : string).

Definition run_access `{OSEnv, DBEnv, Csr.CsrEnv} (host : Host) (a : App) (h : AccessHandler)
    (header : string → string) : handler unit :=
  match h with
  | AccessRestrictWorkers => restrictWorkers a
  | AccessWorkerInfo name token => ValidateWorkerInfoAccessHandler host name token header
  | AccessCAPI token => ValidateCAPIAuthTokenAccessHandler token header
  | AccessNodeToken token => ValidateNodeTokenAccessHandler a token header
  end.

(** The handlers: [e_f] is [e.f]. *)
Inductive HandlerName :=
| e_getClusterStatus | e_postClusterBootstrap | e_getNodeStatus | e_postClusterJoinTokens | e_postClusterJoin
| e_postClusterRemove | e_postWorkerInfo | e_postRefreshCertsPlan | e_postRefreshCertsRun | e_postRefreshCertsUpdate
| e_getCertificatesStatus | e_getKubeconfig | e_putClusterConfig | e_getClusterConfig | e_postKubernetesAuthTokens
| e_deleteKubernetesAuthTokens | e_postKubernetesAuthWebhook | e_postSetClusterAPIAuthToken | e_postCertificatesExpiry
| e_postApproveWorkerCSR | e_postSnapRefresh | e_postSnapRefreshStatus.
#[export] Instance HandlerName_eq_dec : EqDecision HandlerName.
Proof. solve_decision. Defined.

Inductive method := Get | Post | Put | Delete.

(** [EndpointAction], with its method. *)
Record EndpointAction := mkAction {
  Method : method; Handler : HandlerName; Access : option AccessHandler; AllowUntrusted : bool }.
Record Endpoint := mkEndpoint { ep_Name : string; Actions : list EndpointAction; AllowedBeforeInit : bool }.

Definition restricted (m : method) (h : HandlerName) : EndpointAction :=
  mkAction m h (Some AccessRestrictWorkers) false.
Definition trusted (m : method) (h : HandlerName) : EndpointAction := mkAction m h None false.
Definition untrusted (h : HandlerName) (access : AccessHandler) : EndpointAction :=
  mkAction Post h (Some access) true.

Definition Endpoints : list Endpoint :=
  [mkEndpoint "Cluster" [restricted Get e_getClusterStatus; trusted Post e_postClusterBootstrap] true;
   mkEndpoint "NodeStatus" [trusted Get e_getNodeStatus] false;
   mkEndpoint "GetJoinToken" [restricted Post e_postClusterJoinTokens] false;
   mkEndpoint "JoinCluster" [trusted Post e_postClusterJoin] true;
   mkEndpoint "RemoveNode" [restricted Post e_postClusterRemove] false;
   mkEndpoint "GetWorkerJoinInfo" [untrusted e_postWorkerInfo (AccessWorkerInfo "Worker-Name" "Worker-Token")] false;
   mkEndpoint "RefreshCerts/Plan" [trusted Post e_postRefreshCertsPlan] false;
   mkEndpoint "RefreshCerts/Run" [trusted Post e_postRefreshCertsRun] false;
   mkEndpoint "RefreshCerts/Update" [trusted Post e_postRefreshCertsUpdate] false;
   mkEndpoint "CertsStatus" [trusted Get e_getCertificatesStatus] false;
   mkEndpoint "Kubeconfig" [restricted Get e_getKubeconfig] false;
   mkEndpoint "ClusterConfig" [restricted Put e_putClusterConfig; restricted Get e_getClusterConfig] false;
   mkEndpoint "KubernetesAuthTokens"
     [trusted Post e_postKubernetesAuthTokens; trusted Delete e_deleteKubernetesAuthTokens] false;
   mkEndpoint "KubernetesAuthWebhook" [mkAction Post e_postKubernetesAuthWebhook None true] false;
   mkEndpoint "ClusterAPI/GetJoinToken" [untrusted e_postClusterJoinTokens (AccessCAPI "capi-auth-token")] false;
   mkEndpoint "ClusterAPI/SetAuthToken" [trusted Post e_postSetClusterAPIAuthToken] false;
   mkEndpoint "ClusterAPI/RemoveNode" [untrusted e_postClusterRemove (AccessCAPI "capi-auth-token")] false;
   mkEndpoint "ClusterAPI/CertificatesExpiry"
     [untrusted e_postCertificatesExpiry (AccessNodeToken "node-token")] false;
   mkEndpoint "ClusterAPI/RefreshCerts/Plan" [untrusted e_postRefreshCertsPlan (AccessNodeToken "node-token")] false;
   mkEndpoint "ClusterAPI/RefreshCerts/Run" [untrusted e_postRefreshCertsRun (AccessNodeToken "node-token")] false;
   mkEndpoint "ClusterAPI/RefreshCerts/Approve"
     [untrusted e_postApproveWorkerCSR (AccessCAPI "capi-auth-token")] false;
   mkEndpoint "Snap/Refresh" [untrusted e_postSnapRefresh (AccessNodeToken "node-token")] false;
   mkEndpoint "Snap/RefreshStatus" [untrusted e_postSnapRefreshStatus (AccessNodeToken "node-token")] false].

End Api.
