(* ===== verification/ApiTokens.v ===== *)
(** * The tokens of the API

    pkg/k8sd/api: the join tokens (cluster_tokens.go), the endpoint that a worker calls with
    its token (worker.go), the tokens of ClusterAPI (capi_auth.go), and the tokens of the
    users of Kubernetes with the webhook that reviews them (kubernetes_auth_tokens.go). *)

From S2P Require Import Prelude GoStrings GoNet Config FileSys Pki PkiNode Arguments Node Database.
From S2P Require Import Csr Effects Snap Checks Token KubeClient Hooks HooksBootstrap Api.
Import GoStr GoNet Config FileSys Pki PkiNode Arguments Node Database Effects Snap Checks Token KubeClient Hooks
  Bootstrap Api.

Module ApiTokens.

(** The requests of the API package that are used here. *)
Record GetJoinTokenRequest := mkGetJoinToken { jt_Name : string; jt_Worker : bool; jt_TTL : Z }.
Record GenerateAuthTokenRequest := mkGenerateAuthToken { gt_Username : string; gt_Groups : list string }.

(** [TokenReview], with the user as a name, which is also the UID, and groups. *)
Record TokenReviewStatus := mkTokenReviewStatus {
  rv_Audiences : list string; rv_Authenticated : bool; rv_User : string; rv_Groups : list string; rv_Error : string }.
Record TokenReview := mkTokenReview {
  rv_APIVersion : string; rv_Kind : string; rv_Token : string; rv_SpecAudiences : list string;
  rv_Status : TokenReviewStatus }.

Definition no_review_status : TokenReviewStatus := mkTokenReviewStatus [] false EmptyString [] EmptyString.
(** [review.Status.Error = e]. *)
Definition set_error (st : TokenReviewStatus) (e : string) : TokenReviewStatus :=
  mkTokenReviewStatus (rv_Audiences st) (rv_Authenticated st) (rv_User st) (rv_Groups st) e.
Definition with_status (r : TokenReview) (st : TokenReviewStatus) : TokenReview :=
  mkTokenReview (rv_APIVersion r) (rv_Kind r) (rv_Token r) (rv_SpecAudiences r) st.

Definition hour : Z := 3600 * 1000000000.

Section Tokens.
(** The addresses of the members of the cluster, as they are in the trust store. *)
Context (remoteAddresses : list string).
Context `{OSEnv, DBEnv, Csr.CsrEnv, Outside, TokenEnv, Sha256, !ApiErrors, !RandRead, SnapEnv}.

(** ** cluster_tokens.go *)

Definition errNodeNameAlreadyExists : goerr :=
  Errorf "a node with this name is already part of the cluster" [].
Definition errFailedToCheckNodeName : goerr :=
  Errorf "failed to check whether node name is available in cluster" [].

(** The second error wraps the error of the API server too, which no one looks for. *)
Definition checkNodeNameAvailable (nodeName : string) : act unit :=
  r ← act_try (perform (GetNode nodeName));
  match r with
  | Ok _ => act_lift (Err (Wrapf "%w: %q" [nodeName] errNodeNameAlreadyExists))
  | Err e =>
      if negb (IsNotFound e) then act_lift (Err (Wrapf "%w: %q: %w" [nodeName] errFailedToCheckNodeName))
      else mret tt
  end.

(** The records have a name and a token. *)
Definition getOrCreateJoinToken (tokenName : string) (ttl : Z) : act string :=
  records ← act_try (perform ListJoinTokens);
  match match records with Ok records => List.find (λ r, r.1 ==? tokenName) records | Err _ => None end with
  | Some record => mret record.2
  | None =>
      act_wrapf "failed to generate a new microcluster join token: %w" [] (perform (NewJoinToken tokenName ttl))
  end.

Definition getOrCreateWorkerToken (host : Host) (nodeName : string) (ttl : Z) : act string :=
  token ← act_wrapf "database transaction failed: %w" []
            (act_wrapf "failed to create worker node token: %w" []
               (act_db_rand (λ rand, GetOrCreateWorkerNodeToken rand nodeName (h_Now host + ttl))));
  cert ← act_wrapf "failed to get cluster certificate: %w" [] (perform ClusterCert);
  act_wrapf "failed to encode join token: %w" []
    (act_lift (Encode (mkToken EmptyString token remoteAddresses (CertFingerprint cert)))).

Definition join_ttl (req : GetJoinTokenRequest) : Z := if (jt_TTL req =? 0)%Z then 24 * hour else jt_TTL req.

(** The result is the encoded token. *)
Definition postClusterJoinTokens (host : Host) (r : Request GetJoinTokenRequest) : handler string :=
  req ← body failed_to_parse r;
  hostname ← tried BadRequest (act_wrapf "invalid hostname %q: %w" [jt_Name req]
               (act_lift (Csr.CleanHostname (jt_Name req))));
  _ ← tried InternalError (act_wrapf "failed to create k8s client: %w" []
        (perform (KubernetesClient true EmptyString)));
  checked ← tried InternalError (act_try (checkNodeNameAvailable hostname));
  _ ← match checked with
      | Ok _ => mret tt
      | Err e => refuse (if errors_Is e errFailedToCheckNodeName then BadRequest else InternalError) e
      end;
  tried InternalError (act_wrapf "failed to create token: %w" []
    (if jt_Worker req then getOrCreateWorkerToken host hostname (join_ttl req)
     else getOrCreateJoinToken hostname (join_ttl req))).

(** ** worker.go *)

(** A new struct with the authorities of the cluster, in which the generation runs. *)
Definition cluster_ca (cfg : ClusterConfig) (f : Field) : string :=
  match f with
  | CACert => Certificates_GetCACert (CC_Certificates cfg) | CAKey => Certificates_GetCAKey (CC_Certificates cfg)
  | ClientCACert => Certificates_GetClientCACert (CC_Certificates cfg)
  | ClientCAKey => Certificates_GetClientCAKey (CC_Certificates cfg)
  | _ => EmptyString
  end.
Definition act_generate {S A} (m : gen S A) (c : S) : act A := λ s,
  let '(r, _, n) := m c (m_rand s) in (r, mkMachine (m_world s) (m_db s) n (m_log s)).
Definition worker_pki (host : Host) (cfg : ClusterConfig) (workerName : string) (nodeIP : IP) : act WorkerNodePKI :=
  let new := NewControlPlanePKI false false EmptyString [] [] (h_Now host) (Some (AddDate (h_Now host) 10 0 0)) in
  act_generate (CompleteWorkerNodePKI workerName nodeIP 2048) (mkControlPlanePKI (cp_opts new) (cluster_ca cfg)).

Definition worker_join_info (cfg : ClusterConfig) (servers : list string) (c : WorkerNodePKI) : WorkerInfo := {|
  wi_CACert := Certificates_GetCACert (CC_Certificates cfg);
  wi_ClientCACert := Certificates_GetClientCACert (CC_Certificates cfg);
  wi_APIServers := servers;
  wi_PodCIDR := Network_GetPodCIDR (CC_Network cfg);
  wi_ServiceCIDR := Network_GetServiceCIDR (CC_Network cfg);
  wi_KubeProxyEnabled := Network_GetKubeProxyEnabled (CC_Network cfg);
  wi_KubeletCert := wn_KubeletCert c; wi_KubeletKey := wn_KubeletKey c;
  wi_KubeletClientCert := wn_KubeletClientCert c; wi_KubeletClientKey := wn_KubeletClientKey c;
  wi_KubeProxyClientCert := wn_KubeProxyClientCert c; wi_KubeProxyClientKey := wn_KubeProxyClientKey c;
  wi_ClusterDomain := Kubelet_GetClusterDomain (CC_Kubelet cfg);
  wi_ClusterDNS := Kubelet_GetClusterDNS (CC_Kubelet cfg);
  wi_CloudProvider := Kubelet_GetCloudProvider (CC_Kubelet cfg);
  wi_K8sdPublicKey := Certificates_GetK8sdPublicKey (CC_Certificates cfg);
  wi_Annotations := CC_Annotations cfg |}.

(** [req.Address] is the body; [ticks] bounds the wait for the API server. *)
Definition postWorkerInfo (ticks : nat) (host : Host) (r : Request string) : handler WorkerInfo :=
  address ← body failed_to_parse r;
  let workerName := Header r "Worker-Name" in
  nodeIP ← tried BadRequest (act_lift (match ParseIP address with
             | Some nodeIP => Ok nodeIP
             | None => Err (Errorf "failed to parse node IP address %s" [address])
             end));
  cfg ← tried InternalError (act_wrapf "failed to get cluster config: %w" [] util_GetClusterConfig);
  workerCertificates ← tried InternalError (act_wrapf "failed to generate worker PKI: %w" []
                         (worker_pki host cfg workerName nodeIP));
  _ ← tried InternalError (act_wrapf "failed to create kubernetes client: %w" []
        (perform (KubernetesClient true EmptyString)));
  _ ← tried InternalError (act_wrapf "kubernetes endpoints not ready yet: %w" []
        (k8s_WaitKubernetesEndpointAvailable ticks));
  node ← tried InternalError (act_try (perform (GetNode workerName)));
  _ ← match node with
      | Ok _ => refuse BadRequest (Errorf "node name already exists: %s" [workerName])
      | Err e =>
          if negb (IsNotFound e) then
            refuse InternalError (Wrapf "failed to check whether worker node name is available %s: %w" [workerName] e)
          else mret tt
      end;
  servers ← tried InternalError (act_wrapf "failed after retry: %w" []
              (retryGet_loop 5 5 (act_wrapf "failed to retrieve list of known kube-apiserver endpoints: %w" []
                                    GetKubeAPIServerEndpoints) context_Canceled));
  _ ← tried InternalError (act_wrapf "delete worker node token transaction failed: %w" []
        (act_db (no_result (DeleteWorkerNodeToken (Header r "Worker-Token")))));
  mret (worker_join_info cfg servers workerCertificates).

(** ** capi_auth.go *)

Definition postSetClusterAPIAuthToken (r : Request string) : handler unit :=
  token ← body failed_to_parse r;
  tried InternalError (act_db (no_result (SetClusterAPIToken token))).

(** ** kubernetes_auth_tokens.go, with the transactions of database/util *)

Definition GetOrCreateAuthToken (username : string) (groups : list string) : act string :=
  act_wrapf "database transaction failed: %w" [] (act_db_rand (λ rand, GetOrCreateToken rand username groups)).
Definition RevokeAuthToken (token : string) : act unit :=
  act_wrapf "database transaction failed: %w" []
    (act_wrapf "failed to delete token from database: %w" [] (act_db (no_result (DeleteToken token)))).

Definition postKubernetesAuthTokens (r : Request GenerateAuthTokenRequest) : handler string :=
  req ← body failed_to_parse r;
  tried InternalError (GetOrCreateAuthToken (gt_Username req) (gt_Groups req)).

Definition deleteKubernetesAuthTokens (r : Request string) : handler unit :=
  token ← body failed_to_parse r;
  tried InternalError (act_wrapf "failed to revoke auth token: %w" [] (RevokeAuthToken token)).

(** The answer of the webhook is a review with its HTTP status, not a [Response]. *)
Inductive reviewed := StatusOK | StatusUnauthorized | StatusBadRequest.

Definition known_version (v : string) : bool :=
  (v ==? "authentication.k8s.io/v1") || (v ==? "authentication.k8s.io/v1beta1").

(** A body that does not parse leaves the review as far as it was decoded ([partial]). *)
Definition postKubernetesAuthWebhook (partial : TokenReview) (body : res TokenReview)
    (d : DB) : reviewed * TokenReview :=
  match body with
  | Err e =>
      (StatusBadRequest,
       with_status partial
         (set_error (rv_Status partial) (error_text (Wrapf "failed to parse TokenReview: %w" [] e))))
  | Ok review =>
      let versionErr := if known_version (rv_APIVersion review) then []
                        else [Errorf "unknown GroupVersion=%s" [rv_APIVersion review]] in
      let kindErr := if rv_Kind review ==? "TokenReview" then [] else [Errorf "unknown Kind=%s" [rv_Kind review]] in
      let review := mkTokenReview
        (if known_version (rv_APIVersion review) then rv_APIVersion review else "authentication.k8s.io/v1")
        "TokenReview" (rv_Token review) (rv_SpecAudiences review) no_review_status in
      match errors_Join (versionErr ++ kindErr) with
      | Err e =>
          (StatusUnauthorized,
           with_status review (set_error no_review_status (error_text (Wrapf "invalid TokenReview: %w" [] e))))
      | Ok _ =>
          match CheckToken (rv_Token review) d with
          | Err _ => (StatusUnauthorized, with_status review (set_error no_review_status "invalid token"))
          | Ok (username, groups) =>
              (StatusOK, with_status review
                 (mkTokenReviewStatus (rv_SpecAudiences review) true username groups EmptyString))
          end
      end
  end.
End Tokens.
End ApiTokens.
