(* ===== verification/ApiCluster.v ===== *)
(** * The cluster in the API

    pkg/k8sd/api: the configuration of the cluster (cluster_config.go), the first start of a
    node (cluster_bootstrap.go, cluster_join.go, with the maps of pkg/utils/microcluster.go),
    its removal (cluster_remove.go), the status of the cluster and of a node (cluster.go,
    node.go, impl/k8sd.go, pkg/utils/node), the kubeconfig of the administrator
    (kubeconfig.go) and the refresh of the snap (snap_refresh.go, snap_refresh_status.go,
    types/refresh.go).

    External: the JSON and YAML codecs and the text of a duration ([MapCodec]), and the
    annotation that keeps a Kubernetes node ([RemoveAnnotations]). *)

From S2P Require Import Prelude GoStrings GoNet Cidr Config ConfigConvert FileSys Pki PkiNode Arguments Setup.
From S2P Require Import Node Database Csr Feature Upgrade Effects Snap SnapdConfig NodeControllers NodeSetup.
From S2P Require Import Token KubeClient Hooks HooksBootstrap HooksJoin Api.
Import GoStr GoNet Config Convert FileSys PkiNode Arguments Node Database Effects Snap NodeSetup Token KubeClient
  Hooks Bootstrap Join Api.

Module ApiCluster.

(** [json.Marshal] and [json.Unmarshal] of [apiv2.BootstrapConfig], of which the two parts
    are those of [onBootstrapControlPlane]; [Duration.String] and [time.ParseDuration]; the
    containerd directory of a join configuration in YAML. *)
Class MapCodec := {
  bootstrap_Marshal : BootstrapConfig * NodeOptions → res string;
  bootstrap_Unmarshal : string → res (BootstrapConfig * NodeOptions);
  control_plane_join_Unmarshal : string → res NodeOptions;
  worker_join_Unmarshal : string → res NodeOptions;
  Duration_String : Z → string;
  ParseDuration : string → res Z;
  yaml_containerd_base_dir : string → res string }.

Class RemoveAnnotations := { AnnotationSkipCleanupKubernetesNodeOnRemove : string }.

(** ** pkg/utils/microcluster.go *)

Section Maps.
Context `{MapCodec}.

Definition MicroclusterMapWithTimeout (m : gmap string string) (timeout : Z) : gmap string string :=
  if (timeout =? 0)%Z then m else <["_timeout" := Duration_String timeout]> m.
Definition MicroclusterTimeoutFromMap (m : gmap string string) : Z :=
  match m !! "_timeout" with
  | None => 0%Z
  | Some v => match ParseDuration v with Ok d => d | Err _ => 0%Z end
  end.

Definition MicroclusterMapWithBootstrapConfig (m : gmap string string) (bootstrap : BootstrapConfig * NodeOptions)
    : res (gmap string string) :=
  b ← wrapf "failed to marshal bootstrap config: %w" [] (bootstrap_Marshal bootstrap);
  Ok (<["bootstrapConfig" := b]> m).
Definition MicroclusterBootstrapConfigFromMap (m : gmap string string) : res (BootstrapConfig * NodeOptions) :=
  wrapf "failed to unmarshal bootstrap config: %w" []
    (bootstrap_Unmarshal (default EmptyString (m !! "bootstrapConfig"))).

Definition MicroclusterMapWithControlPlaneJoinConfig (m : gmap string string) (config : string)
    : gmap string string :=
  <["controlPlaneJoinConfig" := config]> m.
Definition MicroclusterControlPlaneJoinConfigFromMap (m : gmap string string) : res NodeOptions :=
  wrapf "failed to unmarshal control plane join config: %w" []
    (control_plane_join_Unmarshal (default EmptyString (m !! "controlPlaneJoinConfig"))).

Definition MicroclusterMapWithWorkerJoinConfig (m : gmap string string) (token config : string)
    : gmap string string :=
  <["workerJoinConfig" := config]> (<["workerToken" := token]> m).
Definition MicroclusterWorkerJoinConfigFromMap (m : gmap string string) : res NodeOptions :=
  wrapf "failed to unmarshal worker join config: %w" []
    (worker_join_Unmarshal (default EmptyString (m !! "workerJoinConfig"))).
End Maps.

(** ** pkg/k8sd/types/refresh.go *)

Record SnapRefreshRequest := mkSnapRefresh { sr_LocalPath : string; sr_Channel : string; sr_Revision : string }.

(** The loop on the options, in the order of one iteration. *)
Fixpoint only_one (opts : list string) (alreadySet : bool) : bool :=
  match opts with
  | [] => true
  | v :: opts =>
      if alreadySet && (v !=? EmptyString) then false
      else only_one opts (alreadySet || (v !=? EmptyString))
  end.
Definition RefreshOptsFromAPI (order : list string → list string) (req : SnapRefreshRequest) : res RefreshOpts :=
  _ ← fails_if (negb (only_one (order [sr_LocalPath req; sr_Channel req; sr_Revision req]) false))
        (Errorf "only one of localPath, channel or revision can be specified" []);
  if sr_LocalPath req !=? EmptyString then Ok (mkRefreshOpts EmptyString EmptyString (sr_LocalPath req))
  else if sr_Channel req !=? EmptyString then Ok (mkRefreshOpts (sr_Channel req) EmptyString EmptyString)
  else if sr_Revision req !=? EmptyString then Ok (mkRefreshOpts EmptyString (sr_Revision req) EmptyString)
  else Err (Errorf "empty snap refresh target" []).

(** ** pkg/utils/node/node.go *)

Inductive ClusterRole := ClusterRoleControlPlane | ClusterRoleWorker | ClusterRoleUnknown.
Inductive DatastoreRole :=
| DatastoreRoleVoter | DatastoreRoleStandBy | DatastoreRoleSpare | DatastoreRolePending | DatastoreRoleUnknown
| DatastoreRoleNone.
(** [apiv2.NodeStatus]; the role of a node without one is [DatastoreRoleNone]. *)
Record NodeStatus := mkNodeStatus {
  ns_Name : string; ns_Address : string; ns_ClusterRole : ClusterRole; ns_DatastoreRole : DatastoreRole }.

#[export] Instance ClusterRole_eq_dec : EqDecision ClusterRole.
Proof. solve_decision. Defined.
#[export] Instance DatastoreRole_eq_dec : EqDecision DatastoreRole.
Proof. solve_decision. Defined.

Definition DatastoreRoleFromString (role : string) : DatastoreRole :=
  if role ==? "voter" then DatastoreRoleVoter
  else if role ==? "stand-by" then DatastoreRoleStandBy
  else if role ==? "spare" then DatastoreRoleSpare
  else if role ==? "PENDING" then DatastoreRolePending
  else DatastoreRoleUnknown.

Definition member_status (m : ClusterMember) : NodeStatus :=
  mkNodeStatus (cm_Name m) (cm_Address m) ClusterRoleControlPlane (DatastoreRoleFromString (cm_Role m)).

Section Nodes.
Context `{OSEnv, Outside}.

Definition GetControlPlaneNode (name : string) : act (option NodeStatus) :=
  _ ← act_wrapf "failed to get k8sd client: %w" [] (perform (K8sdClient EmptyString));
  members ← act_wrapf "failed to get microcluster members: %w" [] (perform GetClusterMembers);
  mret (member_status <$> List.find (λ m, cm_Name m ==? name) members).

Definition IsControlPlaneNode (name : string) : act bool :=
  node ← act_wrapf "failed to get control-plane node: %w" [] (GetControlPlaneNode name);
  mret (match node with Some _ => true | None => false end).

(** ** impl/k8sd.go *)

Definition impl_GetClusterMembers : act (list NodeStatus) :=
  _ ← act_wrapf "failed to get k8sd client: %w" [] (perform (K8sdClient EmptyString));
  clusterMembers ← act_wrapf "failed to get cluster members: %w" [] (perform GetClusterMembers);
  mret (member_status <$> clusterMembers).

Definition local_status (st : MState) (role : ClusterRole) : NodeStatus :=
  mkNodeStatus (st_Name st) (st_Hostname st) role DatastoreRoleNone.
Definition GetLocalNodeStatus (a : App) (st : MState) : act NodeStatus :=
  isWorker ← act_wrapf "failed to check if node is a worker: %w" [] (act_io (IsWorker a));
  if isWorker : bool then mret (local_status st ClusterRoleWorker)
  else
    node ← act_try (GetControlPlaneNode (st_Name st));
    match node with
    | Ok (Some node) => mret node
    | _ => mret (local_status st ClusterRoleUnknown)
    end.

(** ** node.go *)

Definition getNodeTaints (a : App) : act (list string) :=
  r ← act_try (act_io (GetServiceArgument a "kubelet" "--register-with-taints"));
  match r with
  | Ok taintsStr => mret (split "," taintsStr)
  | Err e => if errors_Is e ErrNotExist then mret []
             else act_lift (Err (Wrapf "failed to get kubelet taints: %w" [] e))
  end.

Definition getNodeStatus (a : App) (st : MState) : handler (NodeStatus * list string) :=
  status ← tried InternalError (GetLocalNodeStatus a st);
  taints ← tried InternalError (act_wrapf "failed to get node taints: %w" [] (getNodeTaints a));
  mret (status, taints).
End Nodes.

Section Cluster.
Context `{SetupEnv, DBEnv, Externals, Outside, Csr.CsrEnv, SnapEnv, TokenEnv, !MapCodec, !RemoveAnnotations}.

(** ** cluster.go *)

Record ClusterStatus := mkClusterStatus {
  cs_Ready : bool; cs_Members : list NodeStatus; cs_Config : UserFacingClusterConfig;
  cs_Datastore : string; cs_Servers : list string; cs_Features : gmap string FeatureStatus }.

Definition checkKubeletClusterDNS : act unit :=
  corednsClusterIP ← act_wrapf "failed to get coredns service cluster IP: %w" []
                       (perform (GetServiceClusterIP "coredns" "kube-system"));
  _ ← act_lift (fails_if (corednsClusterIP ==? EmptyString) (Errorf "coredns does not have a cluster IP yet" []));
  serviceArgs ← act_wrapf "failed to get args for kubelet: %w" [] (NodeControllers.RunningServiceArgs "kubelet");
  let argsDNS := default EmptyString (serviceArgs !! "--cluster-dns") in
  act_lift (fails_if (argsDNS !=? corednsClusterIP)
    (Errorf "kubelet --cluster-dns %q does not match coredns service clusterIP %q" [argsDNS; corednsClusterIP])).

(** The feature of a field of the response is looked up by its name. *)
Definition getClusterStatus : handler ClusterStatus :=
  opened ← tried InternalError (act_try (perform DatabaseIsOpen));
  _ ← refuse_if (negb (is_ok opened)) Unavailable (Errorf "daemon not yet initialized" []);
  members ← tried InternalError (act_wrapf "failed to get cluster members: %w" [] impl_GetClusterMembers);
  config ← tried InternalError (act_wrapf "failed to get cluster config: %w" [] util_GetClusterConfig);
  _ ← tried InternalError (act_wrapf "failed to create k8s client: %w" []
        (perform (KubernetesClient true EmptyString)));
  ready ← tried InternalError (act_wrapf "failed to check if cluster has ready nodes: %w" [] HasReadyNodes);
  ready ← tried InternalError
            (if bool_decide (DNS_Enabled (CC_DNS config) = Some true) then
               r ← act_try checkKubeletClusterDNS; mret (ready && is_ok r)
             else mret ready);
  statuses ← tried InternalError (act_wrapf "database transaction failed: %w" []
               (act_wrapf "failed to get feature statuses: %w" [] (act_query GetFeatureStatuses)));
  mret (mkClusterStatus ready members (ToUserFacing config) (Datastore_GetType (CC_Datastore config))
          (Datastore_GetExternalServers (CC_Datastore config)) statuses).

(** ** cluster_config.go *)

Record SetClusterConfigRequest := mkSetClusterConfig {
  sc_Config : UserFacingClusterConfig; sc_Datastore : UserFacingDatastoreConfig }.

Definition with_datastore (c : ClusterConfig) (d : Datastore) : ClusterConfig :=
  mkClusterConfig (CC_Certificates c) d (CC_APIServer c) (CC_Kubelet c) (CC_Network c) (CC_DNS c) (CC_Ingress c)
    (CC_LoadBalancer c) (CC_Gateway c) (CC_LocalStorage c) (CC_MetricsServer c) (CC_Annotations c).

(** [len] of a map that may be nil is not zero. *)
Definition hasAnnotations (c : ClusterConfig) : bool :=
  match CC_Annotations c with Some m => negb (bool_decide (m = ∅)) | None => false end.

Definition features_to_notify (c : ClusterConfig) : list bool :=
  (λ b, b || hasAnnotations c) <$>
  [negb (Network_Empty (CC_Network c)); negb (Gateway_Empty (CC_Gateway c)); negb (Ingress_Empty (CC_Ingress c));
   negb (LoadBalancer_Empty (CC_LoadBalancer c)); negb (LocalStorage_Empty (CC_LocalStorage c));
   negb (MetricsServer_Empty (CC_MetricsServer c));
   negb (DNS_Empty (CC_DNS c)) || negb (Kubelet_Empty (CC_Kubelet c))].

(** What the request asks for, as a configuration. *)
Definition requested (req : SetClusterConfigRequest) : res ClusterConfig :=
  c ← wrapf "invalid configuration: %w" [] (ClusterConfigFromUserFacing (sc_Config req));
  d ← wrapf "failed to parse datastore config: %w" [] (DatastoreConfigFromUserFacing (sc_Datastore req));
  Ok (with_datastore c d).

(** A notification cannot fail. *)
Definition notify (c : command) : handler unit := logged (perform c).

Definition putClusterConfig (r : Request SetClusterConfigRequest) : handler unit :=
  req ← body "failed to decode request: %w" r;
  requestedConfig ← tried BadRequest (act_lift (requested req));
  _ ← tried InternalError (act_wrapf "database transaction to update cluster configuration failed: %w" []
        (act_wrapf "failed to update cluster configuration: %w" [] (act_db (SetClusterConfig requestedConfig))));
  _ ← notify NotifyNodeConfig;
  notify (NotifyFeatures (features_to_notify requestedConfig)).

Record GetClusterConfigResponse := mkGetClusterConfig {
  gc_Config : UserFacingClusterConfig; gc_Datastore : UserFacingDatastoreConfig;
  gc_PodCIDR : option string; gc_ServiceCIDR : option string }.
Definition getClusterConfig : handler GetClusterConfigResponse :=
  config ← tried InternalError (act_wrapf "failed to retrieve cluster configuration: %w" [] util_GetClusterConfig);
  mret (mkGetClusterConfig (ToUserFacing config) (Datastore_ToUserFacing (CC_Datastore config))
          (Network_PodCIDR (CC_Network config)) (Network_ServiceCIDR (CC_Network config))).

(** ** kubeconfig.go *)

(** The body is the address of the server, if it is given. *)
Definition getKubeconfig (st : MState) (r : Request string) : handler string :=
  server ← body failed_to_parse r;
  config ← tried InternalError (act_wrapf "failed to retrieve cluster config: %w" [] util_GetClusterConfig);
  let server := if server ==? EmptyString
    then st_Hostname st +:+ ":" +:+ Itoa (APIServer_GetSecurePort (CC_APIServer config)) else server in
  let c := CC_Certificates config in
  tried InternalError (act_wrapf "failed to get kubeconfig: %w" []
    (act_lift (KubeconfigString server (Certificates_GetCACert c) (Certificates_GetAdminClientCert c)
                 (Certificates_GetAdminClientKey c)))).

(** ** snap_refresh.go and snap_refresh_status.go *)

Definition postSnapRefresh (order : list string → list string) (a : App) (r : Request SnapRefreshRequest)
    : handler string :=
  req ← body failed_to_parse r;
  opts ← tried BadRequest (act_wrapf "invalid refresh options: %w" [] (act_lift (RefreshOptsFromAPI order req)));
  tried InternalError (act_wrapf "failed to refresh snap: %w" [] (Refresh (app_dirs a) (Strict a) opts)).

(** [RefreshStatus] of pkg/snap/snap.go. *)
Definition snap_RefreshStatus (strict : bool) (changeID : string) : act RefreshStatus :=
  _ ← act_lift (fails_if strict
        (Errorf "refresh status operation not available on strictly confined deployments" []));
  act_wrapf "failed to get snapd refresh status: %w" [] (perform (SnapdRefreshStatus changeID)).
Definition postSnapRefreshStatus (a : App) (r : Request string) : handler RefreshStatus :=
  changeID ← body failed_to_parse r;
  tried InternalError (act_wrapf "failed to get snap refresh status: %w" [] (snap_RefreshStatus (Strict a) changeID)).
End Cluster.
End ApiCluster.
