(* ===== verification/ApiNodes.v ===== *)
(** * Nodes that come and go, in the API

    pkg/k8sd/api: the first start of a node (cluster_bootstrap.go, cluster_join.go) and the
    removal of a node (cluster_remove.go); pkg/k8sd/app: the hooks that microcluster calls
    with the map that the first two prepared (hooks_bootstrap.go, hooks_join.go).

    The path of containerd is a part of the snap that the first start may set: a handler that
    does returns the new snap. *)

From S2P Require Import Prelude GoStrings GoNet Cidr Config ConfigConvert FileSys Pki PkiNode Arguments Setup.
From S2P Require Import Node Database Csr Feature Upgrade Effects Snap SnapdConfig NodeSetup.
From S2P Require Import Token KubeClient Hooks HooksBootstrap HooksJoin Api ApiCluster.
Import GoStr GoNet Config Convert FileSys Pki PkiNode Arguments Setup Node Database Effects Snap SnapdConfig
  NodeSetup Token KubeClient Hooks Bootstrap Join Api ApiCluster.

Module ApiNodes.

(** snap.go *)
Definition SetContainerdBaseDir (s : snap) (baseDir : string) : snap :=
  mk_snap (snapDir s) (snapCommonDir s) (snapInstanceName s) baseDir.
Definition set_base_dir (s : snap) (baseDir : string) : snap :=
  if baseDir !=? EmptyString then SetContainerdBaseDir s baseDir else s.

(** A handler whose first part decides on the containerd directory. *)
Definition with_base_dir {A B} (s : snap) (first : handler (string * A)) (rest : A → handler B)
    : Machine → Response B * snap * Machine := λ m,
  match first m with
  | (SyncResponse (dir, a), m) => let '(r, m) := rest a m in (r, set_base_dir s dir, m)
  | (ErrorResponse status e, m) => (ErrorResponse status e, s, m)
  | (Panicked, m) => (Panicked, s, m)
  end.

Record BootstrapClusterRequest := mkBootstrapCluster {
  bc_Name : string; bc_Address : string; bc_Config : BootstrapConfig * NodeOptions;
  bc_ContainerdBaseDir : string; bc_Timeout : Z }.
Record JoinClusterRequest := mkJoinCluster {
  jc_Name : string; jc_Address : string; jc_Token : string; jc_Config : string; jc_Timeout : Z }.
Record RemoveNodeRequest := mkRemoveNode { rn_Name : string; rn_Force : bool }.

Section Nodes.
Context `{SetupEnv, DBEnv, Externals, Outside, Csr.CsrEnv, SnapEnv, TokenEnv, !MapCodec, !RemoveAnnotations}.

(** ** cluster_bootstrap.go *)

Definition bootstrap_checks (r : Request BootstrapClusterRequest)
    : handler (string * (string * string * gmap string string)) :=
  req ← body failed_to_parse r;
  config ← tried BadRequest (act_wrapf "failed to prepare bootstrap config: %w" []
             (act_lift (MicroclusterMapWithBootstrapConfig ∅ (bc_Config req))));
  hostname ← tried BadRequest (act_wrapf "invalid hostname %q: %w" [bc_Name req]
               (act_lift (Csr.CleanHostname (bc_Name req))));
  ready ← tried BadRequest (act_wrapf "failed to get boostrap status: %w" [] (perform MicroclusterReady));
  _ ← refuse_if ready BadRequest (Errorf "cluster is already bootstrapped" []);
  mret (bc_ContainerdBaseDir req,
        (hostname, bc_Address req, MicroclusterMapWithTimeout config (bc_Timeout req))).

(** The result is the name and the address of the node. *)
Definition postClusterBootstrap (s : snap) (r : Request BootstrapClusterRequest)
    : Machine → Response (string * string) * snap * Machine :=
  with_base_dir s (bootstrap_checks r) (λ '(hostname, address, config),
    _ ← tried BadRequest (act_wrapf "failed to bootstrap new cluster: %w" []
          (perform (NewCluster hostname address config)));
    mret (hostname, address)).

(** ** cluster_join.go *)

Definition join_checks (r : Request JoinClusterRequest) : handler (string * (string * JoinClusterRequest)) :=
  req ← body failed_to_parse r;
  hostname ← tried BadRequest (act_wrapf "invalid hostname %q: %w" [jc_Name req]
               (act_lift (Csr.CleanHostname (jc_Name req))));
  ready ← tried BadRequest (act_wrapf "failed to get microcluster status: %w" [] (perform MicroclusterReady));
  _ ← refuse_if ready StatusNodeInUse (Errorf "node %q is part of the cluster" [hostname]);
  dir ← tried BadRequest (act_wrapf "failed to parse request config: %w" []
          (act_lift (yaml_containerd_base_dir (jc_Config req))));
  mret (dir, (hostname, req)).

Definition join_cluster_as (hostname : string) (req : JoinClusterRequest) : handler unit :=
  let config := MicroclusterMapWithTimeout ∅ (jc_Timeout req) in
  match Decode (jc_Token req) with
  | Ok _ =>
      tried InternalError (act_wrapf "failed to join k8sd cluster as worker: %w" []
        (perform (NewCluster hostname (jc_Address req)
                    (MicroclusterMapWithWorkerJoinConfig config (jc_Token req) (jc_Config req)))))
  | Err _ =>
      tried InternalError (act_wrapf "failed to join k8sd cluster as control plane: %w" []
        (perform (JoinCluster hostname (jc_Address req) (jc_Token req)
                    (MicroclusterMapWithControlPlaneJoinConfig config (jc_Config req)))))
  end.

Definition postClusterJoin (s : snap) (r : Request JoinClusterRequest) : Machine → Response unit * snap * Machine :=
  with_base_dir s (join_checks r) (λ '(hostname, req), join_cluster_as hostname req).

(** ** cluster_remove.go *)

Definition removeNodeFromKubernetes (nodeName : string) : act unit :=
  _ ← act_wrapf "failed to create k8s client: %w" [] (perform (KubernetesClient true EmptyString));
  act_wrapf "failed to remove k8s node %q: %w" [nodeName] (perform (DeleteNode nodeName)).

(** [None] is the panic of [make] with a negative capacity. *)
Definition removeNodeFromEtcd (cfg : ClusterConfig) (nodeName : string) : act (option unit) :=
  _ ← act_wrapf "failed to get k8sd client: %w" [] (perform (K8sdClient EmptyString));
  members ← act_wrapf "failed to get microcluster members: %w" [] (perform GetClusterMembers);
  match members with
  | [] => mret None
  | _ =>
      let clientURLs := etcd_endpoints nodeName (CC_Datastore cfg) members in
      _ ← act_wrapf "failed to create etcd client: %w" [] (perform (EtcdClient clientURLs));
      _ ← act_wrapf "failed to remove node %s from etcd cluster: %w" [nodeName]
            (RemoveNodeByName clientURLs nodeName);
      mret (Some tt)
  end.

Definition removeNodeFromDatastore (cfg : ClusterConfig) (nodeName : string) : act (option unit) :=
  if Datastore_GetType (CC_Datastore cfg) ==? "etcd"
  then act_wrapf "failed to remove node from etcd cluster: %w" [] (removeNodeFromEtcd cfg nodeName)
  else mret (Some tt).

(** The wait is for the node that serves the request: [s.Name()]. *)
Definition removeNodeFromMicrocluster (ticks : nat) (st : MState) (nodeName : string) (force : bool) : act unit :=
  _ ← act_wrapf "failed to get k8sd client: %w" [] (perform (K8sdClient EmptyString));
  _ ← act_logged (wait_joined ticks (st_Name st) 0);
  member ← act_try (perform (GetClusterMember nodeName));
  let nodeAddr := match member with Ok m => cm_Address m | Err _ => EmptyString end in
  act_wrapf "failed to delete cluster member %s: %w" [nodeName]
    (perform (RemoveClusterMember nodeName nodeAddr force)).

(** An error is only logged if the removal is forced. *)
Definition unless_forced {A} (force : bool) (fmt : string) (m : act A) (a : A) : handler A :=
  r ← tried InternalError (act_try m);
  match r with
  | Ok a => mret a
  | Err e => if force then mret a else refuse InternalError (Wrapf fmt [] e)
  end.
Definition panics_if_none (o : option unit) : handler unit := λ s,
  (match o with Some _ => SyncResponse tt | None => Panicked end, s).

Definition remove_from_cluster (ticks : nat) (st : MState) (cfg : ClusterConfig) (req : RemoveNodeRequest)
    : handler unit :=
  let force := rn_Force req in
  removed ← unless_forced force "failed to delete node from datastore: %w"
              (removeNodeFromDatastore cfg (rn_Name req)) (Some tt);
  _ ← panics_if_none removed;
  unless_forced force "failed to delete node from microcluster: %w"
    (removeNodeFromMicrocluster ticks st (rn_Name req) force) tt.

Definition keeps_kubernetes_node (cfg : ClusterConfig) : bool :=
  (Annotations_Get (CC_Annotations cfg) AnnotationSkipCleanupKubernetesNodeOnRemove).2.

Definition postClusterRemove (ticks : nat) (st : MState) (r : Request RemoveNodeRequest) : handler unit :=
  req ← body failed_to_parse r;
  let force := rn_Force req in
  cfg ← tried InternalError (act_wrapf "failed to get cluster config: %w" [] util_GetClusterConfig);
  isControlPlane ← unless_forced force "failed to determine if node is control-plane: %w"
                     (IsControlPlaneNode (rn_Name req)) false;
  _ ← (if keeps_kubernetes_node cfg then mret tt
       else unless_forced force "failed to remove node from Kubernetes: %w"
              (removeNodeFromKubernetes (rn_Name req)) tt);
  if isControlPlane || force then remove_from_cluster ticks st cfg req else mret tt.
End Nodes.

(** ** The hooks, with the map of microcluster *)

Section Hooks.
Context `{SetupEnv, Outside, SnapEnv, SnapdEnv, DBEnv, Externals, PkiEnv, !EndpointsJson, !BootstrapGetters,
          !TokenEnv, !Sha256, VersionParser, !EtcdErrors, !MapCodec}.
Context (order : list string → list string)
  (order_ports order_paths : list (string * string) → list (string * string)).
(** How often a wait looks before a timeout, zero for none, is over. *)
Context (deadline : Z → nat).

(** The features to notify are the result for a control plane node. *)
Definition onBootstrap (host : Host) (a : App) (st : MState) (initConfig : gmap string string) : act (list bool) :=
  match initConfig !! "workerToken" with
  | Some workerToken =>
      workerConfig ← act_wrapf "failed to unmarshal worker join config: %w" []
                       (act_lift (MicroclusterWorkerJoinConfigFromMap initConfig));
      _ ← onBootstrapWorkerNode order_ports order_paths host a st workerToken workerConfig;
      mret []
  | None =>
      '(bootstrapConfig, o) ← act_wrapf "failed to unmarshal bootstrap config: %w" []
                                (act_lift (MicroclusterBootstrapConfigFromMap initConfig));
      onBootstrapControlPlane order order_ports order_paths (deadline (MicroclusterTimeoutFromMap initConfig))
        host a st bootstrapConfig o
  end.

Definition onPostJoin_map (host : Host) (a : App) (st : MState) (initConfig : gmap string string) : act unit :=
  joinConfig ← act_wrapf "failed to unmarshal control plane join config: %w" []
                 (act_lift (MicroclusterControlPlaneJoinConfigFromMap initConfig));
  onPostJoin order order_ports order_paths (deadline (MicroclusterTimeoutFromMap initConfig)) host a st joinConfig.
End Hooks.
End ApiNodes.
