(* ===== verification/ApiCertificates.v ===== *)
(** * The certificates of a node in the API

    pkg/k8sd/api: what is valid until when (certificates_status.go,
    capi_certificates_expiry.go), the renewal of the certificates of a node
    (certificates_refresh.go), certificates that the user brings (certificates_update.go),
    and the approval of the requests of a worker (capi_certificate_refresh.go);
    [ReadControlPlanePKI] of pkg/k8sd/setup/certificates.go.

    The services are restarted once the response was sent ([StartAsyncRestart] of
    pkg/utils/node/restart.go with [SyncManualResponseWithSignal] of pkg/utils/http.go): a
    handler returns the restart with its result.

    External: the names of the certificates and which of them a role has ([CertNames]), the
    reader of kubeconfigs, the issuer of a certificate, the text of a time, and RSA
    encryption ([CertificatesEnv]). *)

From stdpp Require Import functions.
From S2P Require Import Prelude GoStrings GoNet Cidr Config ConfigConvert FileSys Pki PkiNode Arguments Setup.
From S2P Require Import Node Database Csr Effects Snap NodeConfig NodeSetup Token KubeClient Hooks HooksBootstrap.
From S2P Require Import Api ApiTokens ApiCluster.
Import GoStr GoNet Cidr Config Convert FileSys Pki PkiNode Arguments Setup Node Database Effects Snap NodeSetup.
Import Token KubeClient Hooks Bootstrap Api ApiTokens ApiCluster.

Module ApiCertificates.

Inductive CertificateName :=
| CertificateAdminClient | CertificateFrontProxyClient | CertificateAPIServerKubeletClient
| CertificateSchedulerClient | CertificateControllerManagerClient | CertificateAPIServer
| CertificateKubeletClient | CertificateKubelet | CertificateProxyClient.
#[export] Instance CertificateName_eq_dec : EqDecision CertificateName.
Proof. solve_decision. Defined.

(** The constants of the API package, and the keys of its map [CertificatesByRole]. *)
Class CertNames := {
  cert_string : CertificateName → string;
  CertificatesByRole : ClusterRole → option (list string) }.

Class CertificatesEnv `{PkiEnv, OSEnv} := {
  clientcmd_LoadFromFile : string → io KubeConfig;
  Issuer_CommonName : Certificate → string;
  (** [None] is the zero time. *)
  format_RFC3339 : option Z → string;
  rsa_EncryptPKCS1v15 : nat → PublicKey → string → res string }.

(** ** setup/certificates.go *)

Section Read.
Context `{CertificatesEnv}.
(** The orders in which Go goes through the two maps. *)
Context (order_files : list (string * Field * bool) → list (string * Field * bool))
        (order_configs : list (string * Field * Field) → list (string * Field * Field)).

Definition pki_fields (readManaged caKeyExists clientCAKeyExists frontProxyCAKeyExists : bool)
    : list (string * Field * bool) :=
  [("ca.crt", CACert, true);
   ("client-ca.crt", ClientCACert, true);
   ("front-proxy-ca.crt", FrontProxyCACert, true);
   ("ca.key", CAKey, readManaged && caKeyExists);
   ("client-ca.key", ClientCAKey, readManaged && clientCAKeyExists);
   ("front-proxy-ca.key", FrontProxyCAKey, readManaged && frontProxyCAKeyExists);
   ("apiserver.crt", APIServerCert, Bool.eqb readManaged caKeyExists);
   ("apiserver.key", APIServerKey, Bool.eqb readManaged caKeyExists);
   ("kubelet.crt", KubeletCert, Bool.eqb readManaged caKeyExists);
   ("kubelet.key", KubeletKey, Bool.eqb readManaged caKeyExists);
   ("front-proxy-client.crt", FrontProxyClientCert, Bool.eqb readManaged frontProxyCAKeyExists);
   ("front-proxy-client.key", FrontProxyClientKey, Bool.eqb readManaged frontProxyCAKeyExists);
   ("apiserver-kubelet-client.crt", APIServerKubeletClientCert, Bool.eqb readManaged clientCAKeyExists);
   ("apiserver-kubelet-client.key", APIServerKubeletClientKey, Bool.eqb readManaged clientCAKeyExists);
   ("serviceaccount.key", ServiceAccountKey, true)].

Fixpoint read_files (s : Snap) (l : list (string * Field * bool)) (c : Field → string) : io (Field → string) :=
  match l with
  | [] => mret c
  | (name, field, read) :: l =>
      if read : bool then
        let filePath := k8s_pki s name in
        content ← io_wrapf "failed to read file %s: %w" [filePath] (os_ReadFile filePath);
        read_files s l (<[field := content]> c)
      else read_files s l c
  end.

Definition kubeconfig_fields : list (string * Field * Field) :=
  [("admin.conf", AdminClientCert, AdminClientKey);
   ("controller.conf", KubeControllerManagerClientCert, KubeControllerManagerClientKey);
   ("scheduler.conf", KubeSchedulerClientCert, KubeSchedulerClientKey);
   ("proxy.conf", KubeProxyClientCert, KubeProxyClientKey);
   ("kubelet.conf", KubeletClientCert, KubeletClientKey)].

Definition lookup_user (kubeConfig : KubeConfig) : option KubeAuthInfo :=
  snd <$> List.find (λ kv, kv.1 ==? "k8s-user") (AuthInfos kubeConfig).

(** Data that is missing is empty, and leaves the field. *)
Definition set_nonempty (f : Field) (v : string) (c : Field → string) : Field → string :=
  if v ==? EmptyString then c else <[f := v]> c.

Fixpoint read_kubeconfigs (s : Snap) (l : list (string * Field * Field)) (c : Field → string)
    : io (Field → string) :=
  match l with
  | [] => mret c
  | (configName, certField, keyField) :: l =>
      kubeConfig ← io_wrapf "failed to load kubeconfig %s: %w" [configName]
                     (clientcmd_LoadFromFile (filepath_Join [KubernetesConfigDir s; configName]));
      match lookup_user kubeConfig with
      | None => io_lift (Err (Errorf "user 'k8s-user' not found in kubeconfig %s" [configName]))
      | Some authInfo =>
          read_kubeconfigs s l
            (set_nonempty keyField (ClientKeyData authInfo)
              (set_nonempty certField (ClientCertificateData authInfo) c))
      end
  end.

Definition ReadControlPlanePKI (s : Snap) (c : Field → string) (readManaged : bool) : io (Field → string) :=
  caKeyExists ← io_wrapf "failed to check if ca.key exists: %w" [] (FileExists (k8s_pki s "ca.key"));
  clientCAKeyExists ← io_wrapf "failed to check if client-ca.key exists: %w" []
                        (FileExists (k8s_pki s "client-ca.key"));
  frontProxyCAKeyExists ← io_wrapf "failed to check if front-proxy-ca.key: %w" []
                            (FileExists (k8s_pki s "front-proxy-ca.key"));
  c ← read_files s (order_files (pki_fields readManaged caKeyExists clientCAKeyExists frontProxyCAKeyExists)) c;
  if Bool.eqb readManaged clientCAKeyExists then read_kubeconfigs s (order_configs kubeconfig_fields) c else mret c.
End Read.

(** ** certificates_refresh.go *)

(** [controlPlaneCertificateMarker]: the fields of each certificate. *)
Definition marker_fields : list (CertificateName * (Field * Field)) :=
  [(CertificateAdminClient, (AdminClientCert, AdminClientKey));
   (CertificateFrontProxyClient, (FrontProxyClientCert, FrontProxyClientKey));
   (CertificateAPIServerKubeletClient, (APIServerKubeletClientCert, APIServerKubeletClientKey));
   (CertificateSchedulerClient, (KubeSchedulerClientCert, KubeSchedulerClientKey));
   (CertificateControllerManagerClient, (KubeControllerManagerClientCert, KubeControllerManagerClientKey));
   (CertificateAPIServer, (APIServerCert, APIServerKey));
   (CertificateKubeletClient, (KubeletClientCert, KubeletClientKey));
   (CertificateKubelet, (KubeletCert, KubeletKey));
   (CertificateProxyClient, (KubeProxyClientCert, KubeProxyClientKey))].

Record csrDefinition := mkCsrDefinition {
  cd_CertName : CertificateName; cd_CSRBaseName : string; cd_CommonName : string; cd_Organization : list string;
  cd_Usages : list string; cd_SignerName : string; cd_NeedsSANs : bool }.

Definition UsageDigitalSignature : string := "digital signature".
Definition UsageKeyEncipherment : string := "key encipherment".
Definition UsageServerAuth : string := "server auth".
Definition UsageClientAuth : string := "client auth".

Definition worker_csr_definitions (hostname : string) : list csrDefinition :=
  [mkCsrDefinition CertificateKubelet "worker-kubelet-serving" ("system:node:" +:+ hostname) ["system:nodes"]
     [UsageDigitalSignature; UsageKeyEncipherment; UsageServerAuth] "k8sd.io/kubelet-serving" true;
   mkCsrDefinition CertificateKubeletClient "worker-kubelet-client" ("system:node:" +:+ hostname) ["system:nodes"]
     [UsageDigitalSignature; UsageKeyEncipherment; UsageClientAuth] "k8sd.io/kubelet-client" false;
   mkCsrDefinition CertificateProxyClient "worker-kube-proxy-client" "system:kube-proxy" []
     [UsageDigitalSignature; UsageKeyEncipherment; UsageClientAuth] "k8sd.io/kube-proxy-client" false].

Definition csr_name (seed : Z) (base : string) : string := "k8sd-" +:+ Itoa seed +:+ "-" +:+ base.

(** The three values of [isCertificateSigningRequestApprovedAndIssued]'s loop. *)
Definition has_condition (type : string) (csr : CSREvent) : bool :=
  existsb (λ c, (c.1 ==? type) && (c.2 ==? "True")) (ce_Conditions csr).
Definition isCertificateSigningRequestApprovedAndIssued (csr : CSREvent) : res bool :=
  if has_condition "Denied" csr then Err (Errorf "CSR %q was denied: %s - %s" [ce_Name csr])
  else if has_condition "Failed" csr then Err (Errorf "CSR %q failed: %s - %s" [ce_Name csr])
  else if has_condition "Approved" csr then Ok (ce_Certificate csr !=? EmptyString)
  else Ok false.

(** What the certificates of a worker are set to. *)
Definition set_worker (n : CertificateName) (cert key : string) (c : WorkerNodePKI) : WorkerNodePKI :=
  match n with
  | CertificateKubelet =>
      mkWorkerNodePKI (wn_CACert c) (wn_ClientCACert c) cert key (wn_KubeProxyClientCert c) (wn_KubeProxyClientKey c)
        (wn_KubeletClientCert c) (wn_KubeletClientKey c)
  | CertificateKubeletClient =>
      mkWorkerNodePKI (wn_CACert c) (wn_ClientCACert c) (wn_KubeletCert c) (wn_KubeletKey c)
        (wn_KubeProxyClientCert c) (wn_KubeProxyClientKey c) cert key
  | CertificateProxyClient =>
      mkWorkerNodePKI (wn_CACert c) (wn_ClientCACert c) (wn_KubeletCert c) (wn_KubeletKey c) cert key
        (wn_KubeletClientCert c) (wn_KubeletClientKey c)
  | _ => c
  end.

(** The conversion to [int32]. *)
Definition wrap32 (z : Z) : Z := ((z + 2 ^ 31) mod 2 ^ 32 - 2 ^ 31)%Z.

(** The goroutines of an [errgroup], one after the other: the first error is the error of the
    group, and the others still run. *)
Fixpoint errgroup {A} (tasks : list (act A)) (failed : option goerr) : act (list A) :=
  match tasks with
  | [] => act_lift (match failed with Some e => Err e | None => Ok [] end)
  | task :: tasks =>
      r ← act_try task;
      match r with
      | Ok a => l ← errgroup tasks failed; mret (a :: l)
      | Err e => errgroup tasks (Some (default e failed))
      end
  end.

Record RefreshRunRequest := mkRefreshRun {
  rr_Seed : Z; rr_ExpirationSeconds : Z; rr_ExtraSANs : list string; rr_Certificates : list string }.

Section Refresh.
Context `{SetupEnv, DBEnv, Externals, Outside, SnapEnv, PkiEnv, !Csr.CsrEnv, !CertNames, !CertificatesEnv}.
Context (order_files : list (string * Field * bool) → list (string * Field * bool))
        (order_configs : list (string * Field * Field) → list (string * Field * Field)).

Definition marker : gmap string (Field * Field) :=
  fold_left (λ m x, <[cert_string x.1 := x.2]> m) marker_fields ∅.

Fixpoint markCertificatesForRefresh (certificates : list string) (c : Field → string) : res (Field → string) :=
  match certificates with
  | [] => Ok c
  | cert :: certificates =>
      match marker !! cert with
      | None => Err (Errorf "invalid certificate name for control plane: %s" [cert])
      | Some (certField, keyField) =>
          markCertificatesForRefresh certificates (<[keyField := EmptyString]> (<[certField := EmptyString]> c))
      end
  end.

Definition validateCertificatesByRole (role : ClusterRole) (certs : list string) : res unit :=
  match CertificatesByRole role with
  | None => Err (Errorf "unknown role: %s" [])
  | Some validCerts =>
      match List.find (λ cert, negb (bool_decide (cert ∈ validCerts))) certs with
      | Some cert => Err (Errorf "invalid certificates for %s node: %s" [cert])
      | None => Ok tt
      end
  end.
Definition getAllCertsForRole (role : ClusterRole) : list string :=
  match CertificatesByRole role with Some certs => sort_Strings certs | None => [] end.

(** The certificates a request is about: all of the role, unless it names some, which are
    checked. *)
Definition certs_of_request (role : ClusterRole) (certs : list string) : handler (list string) :=
  match certs with
  | [] => mret (getAllCertsForRole role)
  | _ =>
      _ ← tried BadRequest (act_wrapf "failed to validate requested certificates: %w" []
            (act_lift (validateCertificatesByRole role certs)));
      mret certs
  end.

Definition getWorkerCSRDefinitions (hostname : string) (cert : string) : option csrDefinition :=
  List.find (λ d, cert_string (cd_CertName d) ==? cert) (worker_csr_definitions hostname).

(** *** The plan *)

Fixpoint plan_names (seed : Z) (hostname : string) (certs : list string) : handler (list string) :=
  match certs with
  | [] => mret []
  | certName :: certs =>
      match getWorkerCSRDefinitions hostname certName with
      | None => refuse BadRequest (Errorf "CSR definition not found for validated certificate %q" [certName])
      | Some csrDef =>
          l ← plan_names seed hostname certs;
          mret (csr_name seed (cd_CSRBaseName csrDef) :: l)
      end
  end.

Definition math_MaxInt : Z := 2 ^ 63 - 1.

(** The result is the seed and the names of the requests. *)
Definition postRefreshCertsPlan (a : App) (r : Request (list string)) : handler (Z * list string) :=
  certificates ← body failed_to_parse r;
  seed ← tried InternalError (act_wrapf "failed to generate seed: %w" []
           (NodeConfig.act_rand (λ n, rand_Int n math_MaxInt)));
  isWorker ← tried InternalError (act_wrapf "failed to check if node is a worker: %w" [] (act_io (IsWorker a)));
  let role := if isWorker : bool then ClusterRoleWorker else ClusterRoleControlPlane in
  certsToPlan ← certs_of_request role certificates;
  names ← (if isWorker : bool then plan_names seed (Hostname a) certsToPlan else mret []);
  mret (seed, names).

(** *** A control plane node *)

(** The authorities and the keys of the cluster, over what a struct has. *)
Definition with_cluster_certificates (c : Certificates) (given : Field → string) (f : Field) : string :=
  match f with
  | CACert => Certificates_GetCACert c | CAKey => Certificates_GetCAKey c
  | ClientCACert => Certificates_GetClientCACert c | ClientCAKey => Certificates_GetClientCAKey c
  | FrontProxyCACert => Certificates_GetFrontProxyCACert c | FrontProxyCAKey => Certificates_GetFrontProxyCAKey c
  | K8sdPrivateKey => Certificates_GetK8sdPrivateKey c | K8sdPublicKey => Certificates_GetK8sdPublicKey c
  | ServiceAccountKey => Certificates_GetServiceAccountKey c
  | _ => given f
  end.

Definition address_of (st : MState) : act IP :=
  act_lift (match ParseIP (st_Hostname st) with
            | Some ip => Ok ip
            | None => Err (Errorf "failed to parse node IP address %q" [st_Hostname st])
            end).
Definition service_ips (cfg : ClusterConfig) : act (list IP) :=
  let serviceCIDR := Network_GetServiceCIDR (CC_Network cfg) in
  act_wrapf "failed to get IP address(es) from ServiceCIDR %q: %w" [serviceCIDR]
    (act_lift (GetKubernetesServiceIPsFromServiceCIDRs serviceCIDR)).

(** The files of a control plane node, from the certificates on. *)
Definition write_control_plane (host : Host) (a : App) (cfg : ClusterConfig) (c : ControlPlanePKI) : handler unit :=
  _ ← tried InternalError (act_wrapf "failed to write control plane certificates: %w" []
        (act_io (EnsureControlPlanePKI a c)));
  tried InternalError (act_wrapf "failed to generate control plane kubeconfigs: %w" []
    (act_io (SetupControlPlaneKubeconfigs (h_Localhost host) (KubernetesConfigDir a)
               (APIServer_GetSecurePort (CC_APIServer cfg)) c))).
Definition restart_control_plane (a : App) (cfg : ClusterConfig) : act unit :=
  act_wrapf "failed to restart control plane services: %w" [] (RestartControlPlaneServices a cfg).

Definition refreshed_opts (host : Host) (st : MState) (nodeIP : IP) (serviceIPs : list IP) (req : RefreshRunRequest)
    : ControlPlanePKI :=
  let '(extraIPs, extraNames) := SplitIPAndDNSSANs (rr_ExtraSANs req) in
  NewControlPlanePKI true true (st_Name st) ([nodeIP] ++ serviceIPs ++ extraIPs) extraNames (h_Now host)
    (Some (SecondsToExpirationDate (h_Now host) (rr_ExpirationSeconds req))).

(** The certificates of the node with the ones to refresh taken out. *)
Definition read_and_mark (a : App) (cfg : ClusterConfig) (certs : list string) : handler (Field → string) :=
  let c := with_cluster_certificates (CC_Certificates cfg) (λ _, EmptyString) in
  c ← tried InternalError (act_wrapf "failed to read managed control plane certificates: %w" []
        (act_io (ReadControlPlanePKI order_files order_configs a c true)));
  c ← tried InternalError (act_wrapf "failed to read unmanaged control plane certificates: %w" []
        (act_io (ReadControlPlanePKI order_files order_configs a c false)));
  tried InternalError (act_wrapf "failed to mark certificates for refresh: %w" []
    (act_lift (markCertificatesForRefresh certs c))).

Definition complete (fmt : string) (host : Host) (c : ControlPlanePKI) : handler ControlPlanePKI :=
  tried InternalError (act_wrapf fmt [] (act_gen (ControlPlane_CompleteCertificates (h_Now host) (h_Addrs host)) c)).

Definition unix (t : Z) : Z := t / 1000000000.
Definition expiration_of (certPEM fmt : string) : handler Z :=
  cert ← tried InternalError (act_wrapf fmt [] (act_lift (LoadCertificate certPEM EmptyString)));
  mret (unix (crt_NotAfter cert.1)).

(** The result has the restart of the services. *)
Definition refreshCertsRunControlPlane (host : Host) (a : App) (st : MState) (r : Request RefreshRunRequest)
    : handler (Z * act unit) :=
  req ← body failed_to_parse r;
  certsToRefresh ← certs_of_request ClusterRoleControlPlane (rr_Certificates req);
  cfg ← tried InternalError (act_wrapf "failed to recover cluster config: %w" [] util_GetClusterConfig);
  nodeIP ← tried InternalError (address_of st);
  serviceIPs ← tried InternalError (service_ips cfg);
  given ← read_and_mark a cfg certsToRefresh;
  c ← complete "failed to generate new control plane certificates: %w" host
        (mkControlPlanePKI (cp_opts (refreshed_opts host st nodeIP serviceIPs req)) given);
  _ ← write_control_plane host a cfg c;
  expiration ← expiration_of (cp c APIServerCert) "failed to read kubelet certificate: %w";
  mret (expiration, restart_control_plane a cfg).

(** *** A worker *)

(** Whether the request was granted; if so the certificate, which the caller's variables are
    set to. *)
Definition verifyCSRAndSetPKI (csr : CSREvent) : res (option string) :=
  approved ← wrapf "failed to validate csr: %w" [] (isCertificateSigningRequestApprovedAndIssued csr);
  if negb approved then Ok None
  else
    _ ← wrapf "failed to load certificate: %w" [] (LoadCertificate (ce_Certificate csr) EmptyString);
    Ok (Some (ce_Certificate csr)).

Definition new_csr (hostname : string) (req : RefreshRunRequest) (d : csrDefinition) (csrPEM signature : string)
    : NewCSR :=
  mkNewCSR (csr_name (rr_Seed req) (cd_CSRBaseName d))
    [("k8sd.io/signature", EncodeToString signature); ("k8sd.io/node", hostname)]
    csrPEM (wrap32 (rr_ExpirationSeconds req)) (cd_Usages d) (cd_SignerName d).

(** The request for one certificate, which is encrypted for the cluster; the result is the
    name of the certificate, the certificate and its key. *)
Definition request_certificate (ticks : nat) (hostname : string) (key : PublicKey) (hostnames : list string)
    (ips : list IP) (req : RefreshRunRequest) (d : csrDefinition) : act (CertificateName * string * string) :=
  let name := csr_name (rr_Seed req) (cd_CSRBaseName d) in
  '(csrPEM, keyPEM) ← act_wrapf "failed to generate CSR for %s: %w" [name]
     (act_generate (GenerateCSR (mkName (cd_CommonName d) (cd_Organization d)) 2048
        (if cd_NeedsSANs d then hostnames else []) (if cd_NeedsSANs d then ips else [])) tt);
  signature ← act_wrapf "failed to sign CSR %s, err: %w" [name]
                (NodeConfig.act_rand (λ n, rsa_EncryptPKCS1v15 n key (Csr.sha256_Sum csrPEM)));
  _ ← act_wrapf "failed to create CSR for %s: %w" [name]
        (perform (CreateCSR (new_csr hostname req d csrPEM signature)));
  cert ← act_wrapf "certificate signing request %s failed: %w" [name]
            (WatchCertificateSigningRequest ticks name (λ csr, act_lift (verifyCSRAndSetPKI csr)));
  mret (cd_CertName d, cert, keyPEM).

Fixpoint csr_definitions (hostname : string) (certs : list string) : handler (list csrDefinition) :=
  match certs with
  | [] => mret []
  | certName :: certs =>
      match getWorkerCSRDefinitions hostname certName with
      | None => refuse InternalError (Errorf "CSR definition not found for %q" [certName])
      | Some d => l ← csr_definitions hostname certs; mret (d :: l)
      end
  end.

(** The files of a worker, from the certificates on. *)
Definition write_worker (fmt : string) (a : App) (c : WorkerNodePKI) : handler bool :=
  tried InternalError (act_wrapf fmt [] (act_io (EnsureWorkerPKI a c))).
Definition write_worker_kubeconfigs (host : Host) (a : App) (cfg : ClusterConfig) (c : WorkerNodePKI)
    : handler unit :=
  tried InternalError (act_wrapf "failed to generate worker kubeconfigs: %w" []
    (act_io (SetupWorkerKubeconfigs (h_Localhost host) (KubernetesConfigDir a)
               (APIServer_GetSecurePort (CC_APIServer cfg)) c))).

Definition restart_service (a : App) (fmt name : string) : act unit :=
  act_wrapf fmt [] (RestartServices a [name] []).
Definition restart_worker (a : App) (kubelet proxy : bool) : act unit :=
  _ ← (if kubelet then restart_service a "failed to restart kubelet: %w" "kubelet" else mret tt);
  if proxy then restart_service a "failed to restart kube-proxy: %w" "kube-proxy" else mret tt.

Definition requests_any (certs : list string) (l : list CertificateName) : bool :=
  existsb (λ n, bool_decide (cert_string n ∈ certs)) l.

(** The certificates start out empty but for the authorities. *)
Definition new_worker_pki (cfg : ClusterConfig) : WorkerNodePKI :=
  mkWorkerNodePKI (Certificates_GetCACert (CC_Certificates cfg)) (Certificates_GetClientCACert (CC_Certificates cfg))
    EmptyString EmptyString EmptyString EmptyString EmptyString EmptyString.
Definition issued_pki (cfg : ClusterConfig) (l : list (CertificateName * string * string)) : WorkerNodePKI :=
  fold_left (λ c x, set_worker x.1.1 x.1.2 x.2 c) l (new_worker_pki cfg).

Definition refreshCertsRunWorker (ticks : nat) (host : Host) (a : App) (st : MState) (r : Request RefreshRunRequest)
    : handler (Z * act unit) :=
  req ← body failed_to_parse r;
  certsToRefresh ← certs_of_request ClusterRoleWorker (rr_Certificates req);
  _ ← tried InternalError (act_wrapf "failed to get Kubernetes client: %w" []
        (perform (KubernetesClient false EmptyString)));
  cfg ← tried InternalError (act_wrapf "failed to get cluster configuration: %w" [] util_GetClusterConfig);
  _ ← refuse_if (bool_decide (Certificates_CACert (CC_Certificates cfg) = None) ||
                 bool_decide (Certificates_ClientCACert (CC_Certificates cfg) = None))
        InternalError (Errorf "missing CA certificates from cluster config" []);
  key ← tried InternalError (act_wrapf "failed to load k8sd public key: %w" []
          (act_lift (LoadRSAPublicKey (Certificates_GetK8sdPublicKey (CC_Certificates cfg)))));
  let '(extraIPs, extraNames) := SplitIPAndDNSSANs (rr_ExtraSANs req) in
  let hostnames := Hostname a :: extraNames in
  (* an address that does not parse would be an empty SAN *)
  let ips := option_list (ParseIP (st_Hostname st)) ++ extraIPs in
  defs ← csr_definitions (Hostname a) certsToRefresh;
  issued ← tried InternalError (act_wrapf "failed to get one or more worker node certificates: %w" []
             (errgroup (request_certificate ticks (Hostname a) key hostnames ips req <$> defs) None));
  let certificates := issued_pki cfg issued in
  _ ← write_worker "failed to write worker PKI: %w" a certificates;
  _ ← tried InternalError (address_of st);
  _ ← write_worker_kubeconfigs host a cfg certificates;
  expiration ← expiration_of (wn_KubeletCert certificates) "failed to load kubelet certificate: %w";
  mret (expiration,
        restart_worker a (requests_any certsToRefresh [CertificateKubelet; CertificateKubeletClient])
          (requests_any certsToRefresh [CertificateProxyClient])).

Definition postRefreshCertsRun (ticks : nat) (host : Host) (a : App) (st : MState) (r : Request RefreshRunRequest)
    : handler (Z * act unit) :=
  isWorker ← tried InternalError (act_wrapf "failed to check if node is a worker: %w" [] (act_io (IsWorker a)));
  if isWorker : bool then refreshCertsRunWorker ticks host a st r else refreshCertsRunControlPlane host a st r.

(** ** certificates_update.go: the request is what its getters give *)

Definition with_user_certificates (req given : Field → string) (f : Field) : string :=
  match f with
  | CACert | CAKey | ClientCACert | ClientCAKey | FrontProxyCACert | FrontProxyCAKey | K8sdPrivateKey | K8sdPublicKey
  | ServiceAccountKey => given f
  | _ => req f
  end.

Definition refreshCertsUpdateControlPlane (host : Host) (a : App) (st : MState) (r : Request (Field → string))
    : handler (unit * act unit) :=
  req ← body failed_to_parse r;
  cfg ← tried InternalError (act_wrapf "failed to recover cluster config: %w" [] util_GetClusterConfig);
  nodeIP ← tried InternalError (address_of st);
  serviceIPs ← tried InternalError (service_ips cfg);
  given ← tried InternalError (act_wrapf "failed to read managed control plane certificates: %w" []
            (act_io (ReadControlPlanePKI order_files order_configs a (λ _, EmptyString) true)));
  let new := NewControlPlanePKI false false (st_Name st) ([nodeIP] ++ serviceIPs) [] (h_Now host) None in
  c ← complete "failed to verify certificates: %w" host
        (mkControlPlanePKI (cp_opts new)
           (with_user_certificates req (with_cluster_certificates (CC_Certificates cfg) given)));
  _ ← write_control_plane host a cfg c;
  mret (tt, restart_control_plane a cfg).

Definition refreshCertsUpdateWorker (host : Host) (a : App) (st : MState) (r : Request (Field → string))
    : handler (unit * act unit) :=
  req ← body failed_to_parse r;
  cfg ← tried InternalError (act_wrapf "failed to recover cluster config: %w" [] util_GetClusterConfig);
  _ ← tried InternalError (address_of st);
  let c := mkWorkerNodePKI (Certificates_GetCACert (CC_Certificates cfg))
             (Certificates_GetClientCACert (CC_Certificates cfg)) (req KubeletCert) (req KubeletKey)
             (req KubeProxyClientCert) (req KubeProxyClientKey) (req KubeletClientCert) (req KubeletClientKey) in
  _ ← tried InternalError (act_wrapf "failed to verify certificates: %w" []
        (act_lift (Worker_CompleteCertificates c)));
  _ ← write_worker "failed to write worker certificates: %w" a c;
  _ ← write_worker_kubeconfigs host a cfg c;
  mret (tt, restart_worker a true true).

Definition postRefreshCertsUpdate (host : Host) (a : App) (st : MState) (r : Request (Field → string))
    : handler (unit * act unit) :=
  isWorker ← tried InternalError (act_wrapf "failed to check if node is a worker: %w" [] (act_io (IsWorker a)));
  if isWorker : bool then refreshCertsUpdateWorker host a st r else refreshCertsUpdateControlPlane host a st r.

(** ** pkg/utils/node/restart.go with pkg/utils/http.go

    [rendered] is the error of the rendering of the response.  The channel is signalled when
    the response was rendered; a handler that refuses leaves the goroutine to its timeout. *)
Definition SyncManualResponseWithSignal {A} (rendered : option goerr) (h : handler (A * act unit))
    : handler A := λ s,
  match h s with
  | (SyncResponse (a, restartFn), s') =>
      (SyncResponse a, match rendered with None => (act_logged restartFn s').2 | Some _ => s' end)
  | (ErrorResponse status e, s') => (ErrorResponse status e, s')
  | (Panicked, s') => (Panicked, s')
  end.

(** ** capi_certificate_refresh.go *)

Definition approve (csrName : string) (request : CSREvent) : act (option unit) :=
  _ ← act_wrapf "failed to update CSR %s: %w" [csrName]
        (perform (UpdateApproval csrName (ce_Conditions request ++ [("Approved", "True")])));
  mret (Some tt).

(** The body of the request is the seed; [closed] is the result of closing the body. *)
Definition postApproveWorkerCSR (ticks : nat) (closed : res unit) (r : Request Z) : handler unit :=
  seed ← body failed_to_parse r;
  _ ← tried InternalError (act_wrapf "failed to close request body: %w" [] (act_lift closed));
  _ ← tried InternalError (act_wrapf "failed to get Kubernetes client: %w" []
        (perform (KubernetesClient true EmptyString)));
  _ ← tried InternalError (act_wrapf "failed to approve worker node CSR: %w" []
        (errgroup ((λ base, let csrName := csr_name seed base in
                      act_wrapf "certificate signing request failed: %w" []
                        (WatchCertificateSigningRequest ticks csrName (approve csrName))) <$>
                   ["worker-kubelet-serving"; "worker-kubelet-client"; "worker-kube-proxy-client"]) None));
  mret tt.

(** ** capi_certificates_expiry.go *)

Fixpoint earliest (certificates : list string) (earliestExpiry : option Z) : res (option Z) :=
  match certificates with
  | [] => Ok earliestExpiry
  | cert :: certificates =>
      if cert ==? EmptyString then earliest certificates earliestExpiry
      else
        c ← wrapf "failed to load certificate: %w" [] (LoadCertificate cert EmptyString);
        earliest certificates
          (match earliestExpiry with
           | None => Some (crt_NotAfter c.1)
           | Some t => if (crt_NotAfter c.1 <? t)%Z then Some (crt_NotAfter c.1) else Some t
           end)
  end.
Definition expiry_certificates (c : Certificates) : list string :=
  [Certificates_GetCACert c; Certificates_GetClientCACert c; Certificates_GetAdminClientCert c;
   Certificates_GetAPIServerKubeletClientCert c; Certificates_GetFrontProxyCACert c].
Definition postCertificatesExpiry : handler string :=
  cfg ← tried InternalError (act_wrapf "failed to get cluster config: %w" [] util_GetClusterConfig);
  earliestExpiry ← tried InternalError (act_lift (earliest (expiry_certificates (CC_Certificates cfg)) None));
  mret (format_RFC3339 earliestExpiry).

(** ** certificates_status.go *)

Record CertificateStatus := mkCertificateStatus {
  ct_Name : string; ct_Expires : string; ct_Authority : string; ct_ExternallyManaged : bool }.
Record AuthorityStatus := mkAuthorityStatus { ca_Name : string; ca_Expires : string; ca_ExternallyManaged : bool }.

Definition controlPlaneCertificateNames : list string :=
  ["apiserver"; "apiserver-kubelet-client"; "front-proxy-client"; "kubelet"].
Definition controlPlaneKubeconfigs : list string :=
  ["admin.conf"; "controller.conf"; "kubelet.conf"; "proxy.conf"; "scheduler.conf"].
Definition dataStoreCertificateNames : list string := ["client"].
Definition workerCertificateNames : list string := ["kubelet"].
Definition workerKubeconfigs : list string := ["kubelet.conf"; "proxy.conf"].

Definition certificate_status (name : string) (cert : Certificate) : CertificateStatus :=
  mkCertificateStatus name (format_RFC3339 (Some (crt_NotAfter cert))) (Issuer_CommonName cert) false.

Fixpoint readKubeconfigCertificates (kubeconfigDir : string) (configs : list string) : io (list CertificateStatus) :=
  match configs with
  | [] => mret []
  | config :: configs =>
      kubeConfig ← io_wrapf "failed to load kubeconfig %s: %w" [config]
                     (clientcmd_LoadFromFile (filepath_Join [kubeconfigDir; config]));
      status ← io_lift (match lookup_user kubeConfig with
        | None => Err (Errorf "user 'k8s-user' not found in kubeconfig %s" [config])
        | Some authInfo =>
            _ ← fails_if (ClientCertificateData authInfo ==? EmptyString)
                  (Errorf "no client certificate data found in kubeconfig %s" [config]);
            cert ← wrapf "failed to load certificate data from kubeconfig %s: %w" [config]
                     (LoadCertificate (ClientCertificateData authInfo) EmptyString);
            Ok (certificate_status config cert.1)
        end);
      rest ← readKubeconfigCertificates kubeconfigDir configs;
      mret (status :: rest)
  end.

Fixpoint loadCertificateStatusesFromDir (baseDir : string) (certNames : list string) : io (list CertificateStatus) :=
  match certNames with
  | [] => mret []
  | certName :: certNames =>
      cert ← io_wrapf "failed to extract information from certificate %s: %w" [certName]
               (LoadCertificatePairFromDir baseDir certName);
      rest ← loadCertificateStatusesFromDir baseDir certNames;
      mret (certificate_status certName cert.1 :: rest)
  end.

Definition authority_status (x : string * string * string) : res AuthorityStatus :=
  let '(certPEM, keyPEM, name) := x in
  '(cert, key) ← wrapf "failed to load %s: %w" [name] (LoadCertificate certPEM keyPEM);
  Ok (mkAuthorityStatus (CommonName (crt_Subject cert)) (format_RFC3339 (Some (crt_NotAfter cert)))
        (match key with None => true | Some _ => false end)).
Definition readCertificateAuthorities (c : Certificates) : res (list AuthorityStatus) :=
  ca ← authority_status (Certificates_GetCACert c, Certificates_GetCAKey c, "CA");
  clientCA ← authority_status (Certificates_GetClientCACert c, Certificates_GetClientCAKey c, "Client CA");
  frontProxyCA ← authority_status
    (Certificates_GetFrontProxyCACert c, Certificates_GetFrontProxyCAKey c, "Front Proxy CA");
  Ok [ca; clientCA; frontProxyCA].

Definition set_managed (c : CertificateStatus) (b : bool) : CertificateStatus :=
  mkCertificateStatus (ct_Name c) (ct_Expires c) (ct_Authority c) b.
Definition updateExternallyManaged (authorities : list AuthorityStatus) (certificates : list CertificateStatus)
    : list CertificateStatus :=
  (λ c, match List.find (λ authority, ca_Name authority ==? ct_Authority c) authorities with
        | Some authority => set_managed c (ca_ExternallyManaged authority)
        | None => c
        end) <$> certificates.

Definition getCertsStatusControlPlane (a : App) : handler (list CertificateStatus * list AuthorityStatus) :=
  cfg ← tried InternalError (act_wrapf "failed to retrieve cluster configuration: %w" [] util_GetClusterConfig);
  authorities ← tried InternalError (act_wrapf "failed to read certificates authorities: %w" []
                  (act_lift (readCertificateAuthorities (CC_Certificates cfg))));
  nodeCerts ← tried InternalError (act_wrapf "failed to read node certificates: %w" []
                (act_io (loadCertificateStatusesFromDir (snap_KubernetesPKIDir a) controlPlaneCertificateNames)));
  kubeConfigCerts ← tried InternalError (act_wrapf "failed to read kubeconfig certificates: %w" []
                      (act_io (readKubeconfigCertificates (KubernetesConfigDir a) controlPlaneKubeconfigs)));
  dataStoreCerts ← (if Datastore_GetType (CC_Datastore cfg) ==? "external" then
      tried InternalError (act_wrapf "failed to read datastore certificates: %w" []
        (act_io (loadCertificateStatusesFromDir (snap_EtcdPKIDir a) dataStoreCertificateNames)))
    else mret []);
  mret (updateExternallyManaged authorities (nodeCerts ++ kubeConfigCerts ++ dataStoreCerts), authorities).

Definition getCertsStatusWorker (a : App) : handler (list CertificateStatus * list AuthorityStatus) :=
  nodeCerts ← tried InternalError (act_wrapf "failed to read node certificates: %w" []
                (act_io (loadCertificateStatusesFromDir (snap_KubernetesPKIDir a) workerCertificateNames)));
  kubeConfigCerts ← tried InternalError (act_wrapf "failed to read kubeconfig certificates: %w" []
                      (act_io (readKubeconfigCertificates (KubernetesConfigDir a) workerKubeconfigs)));
  mret ((λ c, set_managed c true) <$> nodeCerts ++ kubeConfigCerts, []).

Definition getCertificatesStatus (a : App) : handler (list CertificateStatus * list AuthorityStatus) :=
  isWorker ← tried InternalError (act_wrapf "failed to check if node is a worker: %w" [] (act_io (IsWorker a)));
  if isWorker : bool then getCertsStatusWorker a else getCertsStatusControlPlane a.
End Refresh.
End ApiCertificates.
