(* ===== verification/ApiFacts.v ===== *)
(** * What the API promises: access and tokens

    Api.v and ApiTokens.v: who is let in, the life of a join token, and what the webhook of
    Kubernetes answers. *)

From S2P Require Import Prelude GoStrings GoNet Config FileSys Pki PkiNode Arguments Node Database.
From S2P Require Import Csr Effects Snap Checks Token KubeClient Hooks HookFacts HooksBootstrap Api ApiTokens.
Import GoStr GoNet Config FileSys Pki PkiNode Arguments Node Database Effects Snap Checks Token KubeClient Hooks HookFacts.
Import Bootstrap Api ApiTokens.

Module ApiFacts.

(** ** Handlers *)

Definition succeeds {A} (r : Response A) : bool := match r with SyncResponse _ => true | _ => false end.

Lemma handler_bind_Sync {A B} (m : handler A) (f : A → handler B) s b s' :
  (m ≫= f) s = (SyncResponse b, s') → ∃ a s1, m s = (SyncResponse a, s1) ∧ f a s1 = (SyncResponse b, s').
Proof. unfold mbind, handler_bind. destruct (m s) as [[a|st e|] s1]; [|done|done]. by eauto. Qed.

Lemma handler_bind_step {A B} (h : handler A) (f : A → handler B) s a s1 :
  h s = (SyncResponse a, s1) → (h ≫= f) s = f a s1.
Proof. unfold mbind, handler_bind. by intros ->. Qed.
Lemma handler_bind_inv {A B} (m : handler A) (f : A → handler B) s r s' :
  (m ≫= f) s = (r, s') →
  (∃ a s1, m s = (SyncResponse a, s1) ∧ f a s1 = (r, s')) ∨
  (∃ st e, m s = (ErrorResponse st e, s') ∧ r = ErrorResponse st e) ∨ (m s = (Panicked, s') ∧ r = Panicked).
Proof.
  unfold mbind, handler_bind. destruct (m s) as [[a|st e|] s1]; intros Hr; [left; by eauto|right..].
  - left. injection Hr as <- <-. by eauto.
  - right. by injection Hr as <- <-.
Qed.

Lemma tried_Sync {A} st (m : act A) s a s' : tried st m s = (SyncResponse a, s') ↔ m s = (Ok a, s').
Proof. unfold tried. destruct (m s) as [[x|e] s1]; split; congruence. Qed.
Lemma tried_Ok {A} st (m : act A) s a s' : m s = (Ok a, s') → tried st m s = (SyncResponse a, s').
Proof. apply tried_Sync. Qed.
Lemma tried_run {A} st (m : act A) s r s' : tried st m s = (r, s') →
  ∃ r0, m s = (r0, s') ∧ r = match r0 with Ok a => SyncResponse a | Err e => ErrorResponse st e end.
Proof. unfold tried. destruct (m s) as [r0 s1]. intros [= <- <-]. by exists r0. Qed.

Lemma refuse_if_Sync b st e s s' : refuse_if b st e s = (SyncResponse tt, s') ↔ b = false ∧ s' = s.
Proof. destruct b; cbn; split; [done|by intros []|by intros [= ->]|by intros [_ ->]]. Qed.

Lemma body_Sync {A} fmt (r : Request A) s a s' : body fmt r s = (SyncResponse a, s') ↔ Body r = Ok a ∧ s' = s.
Proof.
  unfold body. rewrite tried_Sync. unfold act_wrapf, act_lift. destruct (Body r); cbn; split.
  - by intros [= -> ->].
  - by intros [[= ->] ->].
  - done.
  - by intros [].
Qed.

(** A handler that leaves the machine as it is. *)
Definition inspects {A} (h : handler A) : Prop := ∀ s r s', h s = (r, s') → m_world s' = m_world s ∧
  m_db s' = m_db s ∧ m_rand s' = m_rand s ∧ m_log s' = m_log s.

Lemma inspects_ret {A} (a : A) : inspects (mret (M := handler) a).
Proof. by intros s r s' [= <- <-]. Qed.
Lemma inspects_refuse {A} st e : inspects (refuse (A := A) st e).
Proof. by intros s r s' [= <- <-]. Qed.
Lemma inspects_refuse_if b st e : inspects (refuse_if b st e).
Proof. by destruct b; intros s r s' [= <- <-]. Qed.
Lemma inspects_bind {A B} (m : handler A) (f : A → handler B) :
  inspects m → (∀ a, inspects (f a)) → inspects (m ≫= f).
Proof.
  intros Hm Hf s r s' [(a & s1 & E1 & E2)|[(st & e & E & _)|[E _]]]%handler_bind_inv; [|by eapply Hm..].
  destruct (Hm _ _ _ E1) as (<- & <- & <- & <-). by eapply Hf.
Qed.
Lemma inspects_tried_query {A} st (f : DB → res A) fmt args fmt' args' :
  inspects (tried st (act_wrapf fmt args (act_wrapf fmt' args' (act_query f)))).
Proof. by intros s r s' (r0 & (r1 & (r2 & [= _ <-] & _)%act_wrapf_run & _)%act_wrapf_run & _)%tried_run. Qed.
Lemma inspects_tried_lift {A} st (x : res A) fmt args : inspects (tried st (act_wrapf fmt args (act_lift x))).
Proof. by intros s r s' (r0 & (r1 & [= _ <-] & _)%act_wrapf_run & _)%tried_run. Qed.
Lemma inspects_tried_io {A} st (m : io A) fmt args : (∀ w r w', m w = (r, w') → w' = w) →
  inspects (tried st (act_wrapf fmt args (act_io m))).
Proof.
  intros Hm s r s' (r0 & (r1 & (w & E & ->)%act_io_run & _)%act_wrapf_run & _)%tried_run.
  by apply Hm in E as ->.
Qed.

(** ** Commands without other effects *)

Definition steps (P : command → Prop) (s s' : Machine) : Prop :=
  only P s s' ∧ m_world s' = m_world s ∧ m_db s' = m_db s.
#[export] Instance steps_preorder P : PreOrder (steps P).
Proof.
  split; [intros s; split; [exists []; by rewrite app_nil_r|done]|].
  intros s1 s2 s3 [(l1 & Hl1 & F1) [Hw1 Hd1]] [(l2 & Hl2 & F2) [Hw2 Hd2]]. split; [|by split; congruence].
  exists (l1 ++ l2). rewrite Hl2, Hl1, app_assoc. split; [done|]. by apply Forall_app.
Qed.
Lemma steps_run {A} P (m : act A) s r s' : emits P eq m → asks m → m s = (r, s') → steps P s s'.
Proof. intros He Ha E. destruct (emits_only _ _ _ _ _ He E), (Ha _ _ _ E). by split. Qed.
Lemma steps_unlogged P s s' : m_world s' = m_world s → m_db s' = m_db s → m_log s' = m_log s → steps P s s'.
Proof. intros ? ? Hl. split; [exists []; by rewrite app_nil_r|done]. Qed.
Lemma steps_later P s s' : steps P s s' → later s s'.
Proof. intros [?%only_later _]. done. Qed.

(** ** Access *)

Section Access.
Context `{OSEnv, DBEnv, Csr.CsrEnv}.

Lemma IsWorker_keeps a w r w' : IsWorker a w = (r, w') → w' = w.
Proof.
  unfold IsWorker, FileExists, os_Stat, os_call, existing, get_files, io_try, io_lift, mbind, io_bind, mret, io_ret, fmap.
  repeat (case_match; simplify_eq); by intros; simplify_eq.
Qed.
Lemma os_ReadFile_keeps p w r w' : os_ReadFile p w = (r, w') → w' = w.
Proof. by intros [-> _]%os_ReadFile_run. Qed.

Lemma inspects_access host a h header : inspects (run_access host a h header).
Proof.
  destruct h; cbn [run_access];
    unfold restrictWorkers, ValidateWorkerInfoAccessHandler, ValidateCAPIAuthTokenAccessHandler,
      ValidateNodeTokenAccessHandler;
    repeat first
      [ apply inspects_refuse_if | apply inspects_tried_query | apply inspects_tried_lift
      | apply inspects_tried_io; [apply IsWorker_keeps || apply os_ReadFile_keeps]
      | apply inspects_bind; [|intros ?] ].
Qed.

(** The token that a request must present to an access handler. *)
Definition presents_token (host : Host) (a : App) (h : AccessHandler) (header : string → string) (m : Machine) : Prop :=
  match h with
  | AccessRestrictWorkers => False
  | AccessWorkerInfo nodeHeader tokenHeader =>
      ∃ hostname row, Csr.CleanHostname (header nodeHeader) = Ok hostname ∧
        row ∈ db_worker_tokens (m_db m) ∧ wt_token row = header tokenHeader ∧ header tokenHeader ≠ EmptyString ∧
        (wt_name row = EmptyString ∨ wt_name row = hostname) ∧ (h_Now host < wt_expiry row)%Z
  | AccessCAPI tokenHeader =>
      header tokenHeader ≠ EmptyString ∧
      db_cluster_configs (m_db m) !! "token::capi" = Some (header tokenHeader)
  | AccessNodeToken tokenHeader =>
      header tokenHeader ≠ EmptyString ∧
      ∃ f, w_files (m_world m) !! NodeTokenFile (app_dirs a) = Some f ∧ TrimSpace (f_data f) = header tokenHeader
  end.

Lemma CheckWorkerNodeToken_true now name token d : CheckWorkerNodeToken now name token d = Ok true →
  ∃ row, row ∈ db_worker_tokens d ∧ wt_token row = token ∧ (wt_name row = EmptyString ∨ wt_name row = name) ∧
    (now < wt_expiry row)%Z.
Proof.
  unfold CheckWorkerNodeToken. intros [_ Hs]%bind_unit_Ok. destruct (db_fail QuerySelect); [done|].
  destruct (List.find _ _) as [row|] eqn:E; [|done]. apply List.find_some in E as [Hin Ht%bool_decide_eq_true].
  injection Hs as [Hn Hlt%Z.ltb_lt]%andb_true_iff. apply orb_true_iff in Hn. rewrite !bool_decide_eq_true in Hn.
  exists row. split_and!; [by apply list_elem_of_In|done| |done]. naive_solver.
Qed.

Lemma access_needs_token host a h header m m' : h ≠ AccessRestrictWorkers →
  run_access host a h header m = (SyncResponse tt, m') → presents_token host a h header m.
Proof.
  intros Hh. destruct h as [|nh th|th|th]; [done|..]; cbn [run_access presents_token]; clear Hh.
  - intros ([] & s1 & [Hn ->]%refuse_if_Sync & E)%handler_bind_Sync.
    apply handler_bind_Sync in E as (hostname & s2 & [= Hc <-]%tried_Sync%act_wrapf_Ok & E).
    apply handler_bind_Sync in E as ([] & s3 & [Ht ->]%refuse_if_Sync & E). apply bool_decide_eq_false in Ht.
    apply handler_bind_Sync in E as (valid & s4 & E4%tried_Sync%act_wrapf_Ok%act_wrapf_Ok & E).
    apply act_query_run in E4 as [-> E4]. apply refuse_if_Sync in E as [->%negb_false_iff ->].
    symmetry in E4. apply CheckWorkerNodeToken_true in E4 as (row & ? & ? & ? & ?). exists hostname, row. done.
  - intros ([] & s1 & [Hn ->]%refuse_if_Sync & E)%handler_bind_Sync. apply bool_decide_eq_false in Hn.
    apply handler_bind_Sync in E as (valid & s4 & E4%tried_Sync%act_wrapf_Ok%act_wrapf_Ok & E).
    apply act_query_run in E4 as [-> E4]. apply refuse_if_Sync in E as [->%negb_false_iff ->].
    split; [done|]. symmetry in E4. unfold ValidateClusterAPIToken in E4.
    repeat apply bind_unit_Ok in E4 as [_ E4]. injection E4 as E4. by apply bool_decide_eq_true in E4.
  - intros ([] & s1 & [Hn ->]%refuse_if_Sync & E)%handler_bind_Sync. apply bool_decide_eq_false in Hn.
    apply handler_bind_Sync in E as (data & s4 & E4%tried_Sync%act_wrapf_Ok & E).
    apply act_io_run in E4 as (w & E4 & ->). apply os_ReadFile_run in E4 as [-> (f & Hf & <-)].
    apply refuse_if_Sync in E as [Ht%negb_false_iff%bool_decide_eq_true _]. split; [done|]. by exists f.
Qed.

End Access.

(** ** The life of a join token *)

Section JoinToken.
Context (remoteAddresses : list string).
Context `{OSEnv, DBEnv, Csr.CsrEnv, Outside, TokenEnv, Sha256, !ApiErrors, !RandRead, SnapEnv}.

Lemma checkNodeNameAvailable_run name s r s' : checkNodeNameAvailable name s = (r, s') → s' = with_log s [GetNode name].
Proof.
  intros [(r0 & s1 & (r1 & [= _ <-] & [= ->])%act_try_run & E)|(e & (r1 & _ & ?)%act_try_run & _)]%act_bind_inv; [|done].
  destruct r1 as [[]|e]; [by injection E|]. destruct (negb _); by injection E.
Qed.

(** What a worker token that was given out is. *)
Lemma getOrCreateWorkerToken_Ok host name ttl s encoded s' :
  getOrCreateWorkerToken remoteAddresses host name ttl s = (Ok encoded, s') →
  ∃ secret cert, GetOrCreateWorkerNodeToken (rand_Read (m_rand s)) name (h_Now host + ttl) (m_db s) = Ok (secret, m_db s') ∧
    Encode (mkToken EmptyString secret remoteAddresses (CertFingerprint cert)) = Ok encoded.
Proof.
  intros (secret & s1 & E1%act_wrapf_Ok%act_wrapf_Ok & E)%act_bind_Ok_inv.
  apply act_bind_Ok_inv in E as (cert & s2 & [= _ <-]%act_wrapf_Ok & E).
  apply act_wrapf_Ok in E. injection E as E <-. exists secret, cert. split; [|done].
  unfold act_db_rand in E1. destruct (act_db _ s) as [r0 s0] eqn:E0. injection E1 as -> <-.
  apply act_db_run in E0. cbn. destruct (GetOrCreateWorkerNodeToken _ _ _ _) as [[t d]|e]; [|by destruct E0].
  by destruct E0 as [[= ->] ->].
Qed.

Lemma postClusterJoinTokens_worker host r req s encoded s' : Body r = Ok req → jt_Worker req = true →
  postClusterJoinTokens remoteAddresses host r s = (SyncResponse encoded, s') →
  ∃ hostname secret cert, Csr.CleanHostname (jt_Name req) = Ok hostname ∧
    GetOrCreateWorkerNodeToken (rand_Read (m_rand s)) hostname (h_Now host + join_ttl req) (m_db s) = Ok (secret, m_db s') ∧
    Encode (mkToken EmptyString secret remoteAddresses (CertFingerprint cert)) = Ok encoded.
Proof.
  intros Hb Hw (req' & s1 & [Hb' ->]%body_Sync & E)%handler_bind_Sync. rewrite Hb in Hb'. injection Hb' as <-.
  apply handler_bind_Sync in E as (hostname & s2 & [= Hc <-]%tried_Sync%act_wrapf_Ok & E).
  apply handler_bind_Sync in E as ([] & s3 & [= _ <-]%tried_Sync%act_wrapf_Ok & E).
  apply handler_bind_Sync in E as (checked & s4 & (r4 & E4%checkNodeNameAvailable_run & [= ->])%tried_Sync%act_try_run & E).
  subst s4. destruct r4 as [[]|e]; [|by apply handler_bind_Sync in E as (? & ? & ? & _)].
  apply handler_bind_Sync in E as ([] & s5 & [= <-] & E). rewrite Hw in E.
  apply tried_Sync, act_wrapf_Ok, getOrCreateWorkerToken_Ok in E as (secret & cert & E1 & E2).
  by exists hostname, secret, cert.
Qed.

(** The last thing the endpoint does is to delete the token. *)
Lemma postWorkerInfo_deletes ticks host r s info s' : postWorkerInfo ticks host r s = (SyncResponse info, s') →
  ∃ d, DeleteWorkerNodeToken (Header r "Worker-Token") d = Ok (m_db s').
Proof.
  unfold postWorkerInfo. intros (address & s1 & _ & E)%handler_bind_Sync.
  do 5 apply handler_bind_Sync in E as (? & ? & _ & E).
  apply handler_bind_Sync in E as (node & s7 & _ & E). apply handler_bind_Sync in E as ([] & s8 & _ & E).
  apply handler_bind_Sync in E as (servers & s9 & _ & E).
  apply handler_bind_Sync in E as ([] & s10 & E1%tried_Sync%act_wrapf_Ok & [= _ <-]). exists (m_db s9).
  apply act_db_run in E1. unfold no_result in E1.
  destruct (DeleteWorkerNodeToken _ _) as [d|e]; cbn in E1; [by destruct E1 as [_ ->]|by destruct E1].
Qed.

Lemma CheckWorkerNodeToken_false now name token d d' : db_fail PrepareSelect = None → db_fail QuerySelect = None →
  DeleteWorkerNodeToken token d = Ok d' → CheckWorkerNodeToken now name token d' = Ok false.
Proof.
  intros E1 E2 Hdel. unfold DeleteWorkerNodeToken in Hdel. repeat apply bind_unit_Ok in Hdel as [_ Hdel].
  injection Hdel as <-. unfold CheckWorkerNodeToken, db_stmt. rewrite E1, E2. cbn [db_worker_tokens].
  rewrite (find_none wt_token); [done|]. intros (x & Hx & Hin)%list_elem_of_In%in_map_iff.
  apply filter_In in Hin as [_ Hn]. by apply negb_true_iff, bool_decide_eq_false in Hn.
Qed.

Lemma access_worker_Ok host a nh th header m : db_fail PrepareSelect = None → db_fail QuerySelect = None →
  header th ≠ EmptyString →
  (run_access host a (AccessWorkerInfo nh th) header m).1 = SyncResponse tt ↔
  header nh ≠ EmptyString ∧ ∃ n, Csr.CleanHostname (header nh) = Ok n ∧
    CheckWorkerNodeToken (h_Now host) n (header th) (m_db m) = Ok true.
Proof.
  intros E1 E2 Ht. cbn [run_access]. unfold ValidateWorkerInfoAccessHandler, refuse_if, tried, act_wrapf, act_lift, act_query,
    mbind, handler_bind.
  destruct (bool_decide (header nh = EmptyString)) eqn:Hn.
  { apply bool_decide_eq_true in Hn. cbn. split; [done|]. by intros []. }
  apply bool_decide_eq_false in Hn. rewrite (bool_decide_eq_false_2 _ Ht). cbn.
  destruct (Csr.CleanHostname (header nh)) as [n|e] eqn:Hc; cbn; [|split; [done|by intros (_ & n & ? & _)]].
  destruct (CheckWorkerNodeToken _ _ _ _) as [b|e] eqn:Hk; cbn.
  - destruct b; cbn; split; [|done|done|].
    + intros _. split; [done|]. by exists n.
    + intros (_ & n' & [= <-] & Hk'). congruence.
  - split; [done|]. intros (_ & n' & [= <-] & Hk'). congruence.
Qed.

(** C6: A join token admits the worker it was made for, and only once: what a control plane
    node gives out for the name of a worker decodes to the addresses of the cluster, the
    fingerprint of its certificate and a secret; a request for the join information with this
    secret is let in exactly as long as the token has not expired, and only under the name the
    token was made for (under any if that is empty); once the endpoint has answered, no request
    with the secret is let in any more.  For this the random bytes are not those of a token that
    exists, and JSON reads back what it wrote. *)
Theorem join_token_admits_its_worker host r req m :
  db_fail PrepareSelect = None → db_fail QuerySelect = None →
  (∀ info b, json_Marshal_info info = Ok b → json_Unmarshal_info b = Ok info) →
  Body r = Ok req → jt_Worker req = true →
  (∀ b, rand_Read (m_rand m) = Ok b → "worker::" +:+ hex_EncodeToString b ∉ map wt_token (db_worker_tokens (m_db m))) →
  let '(response, m') := postClusterJoinTokens remoteAddresses host r m in
  ∀ encoded, response = SyncResponse encoded →
  ∃ info hostname, Decode encoded = Ok info ∧ tk_JoinAddresses info = remoteAddresses ∧
    Csr.CleanHostname (jt_Name req) = Ok hostname ∧
    ∀ a header, header "Worker-Token" = tk_Secret info →
      let access host := run_access host a (AccessWorkerInfo "Worker-Name" "Worker-Token") header in
      (∀ host' st, m_db st = m_db m' →
        (access host' st).1 = SyncResponse tt ↔
        header "Worker-Name" ≠ EmptyString ∧ (h_Now host' < h_Now host + join_ttl req)%Z ∧
        ∃ n, Csr.CleanHostname (header "Worker-Name") = Ok n ∧ (hostname = EmptyString ∨ n = hostname)) ∧
      (∀ ticks host1 body st, let '(answer, st') := postWorkerInfo ticks host1 (mkRequest header body) st in
        ∀ host2 info, answer = SyncResponse info → (access host2 st').1 ≠ SyncResponse tt).
Proof.
  intros E1 E2 Hj Hb Hw Hfresh. destruct (postClusterJoinTokens _ _ _ _) as [response m'] eqn:E. intros encoded ->.
  apply (postClusterJoinTokens_worker _ _ req) in E as (hostname & secret & cert & Hc & Hs & He); [|done..].
  set (info := mkToken EmptyString secret remoteAddresses (CertFingerprint cert)) in *.
  exists info, hostname. split_and!; [by apply (Encode_Decode Hj)|done|done|].
  intros a header Ht access. cbn [tk_Secret info] in Ht.
  assert (Hsecret : ∃ b, rand_Read (m_rand m) = Ok b ∧ secret = "worker::" +:+ hex_EncodeToString b).
  { unfold GetOrCreateWorkerNodeToken in Hs. apply bind_unit_Ok in Hs as [_ Hs].
    apply bind_Ok in Hs as (b & Hb'%wrapf_Ok & Hs). apply bind_unit_Ok in Hs as [_ Hs].
    injection Hs as <- _. by exists b. }
  destruct Hsecret as (b & Hr & Hsb). pose proof (Hfresh _ Hr) as Hnew. rewrite <- Hsb in Hnew.
  assert (Hne : header "Worker-Token" ≠ EmptyString) by (by rewrite Ht, Hsb).
  split.
  - intros host' st Hdb. unfold access. rewrite access_worker_Ok by done. rewrite Hdb, Ht.
    assert (Hlife : ∀ who, CheckWorkerNodeToken (h_Now host') who secret (m_db m') = Ok true ↔
      (hostname = EmptyString ∨ who = hostname) ∧ (h_Now host' < h_Now host + join_ttl req)%Z)
      by (intros who; by apply (worker_token_lifecycle _ _ _ _ _ _ (h_Now host') who E1 E2 Hs Hnew)).
    setoid_rewrite Hlife. naive_solver.
  - intros ticks host1 body st. destruct (postWorkerInfo _ _ _ _) as [answer st'] eqn:Ew. intros host2 wi ->.
    apply postWorkerInfo_deletes in Ew as [d Hdel]. cbn [Header] in Hdel. unfold access.
    rewrite access_worker_Ok by done. intros (_ & n & _ & Hk).
    by rewrite (CheckWorkerNodeToken_false _ _ _ d _ E1 E2 Hdel) in Hk.
Qed.
End JoinToken.

(** ** The tokens of the users of Kubernetes *)

Section AuthTokens.
Context `{OSEnv, DBEnv, !RandRead, SnapEnv}.

(** What the webhook answers to a review of a kind it knows. *)
Lemma webhook_known partial review d : known_version (rv_APIVersion review) = true → rv_Kind review = "TokenReview" →
  postKubernetesAuthWebhook partial (Ok review) d =
    match CheckToken (rv_Token review) d with
    | Ok (user, groups) =>
        (StatusOK, with_status review (mkTokenReviewStatus (rv_SpecAudiences review) true user groups EmptyString))
    | Err _ => (StatusUnauthorized, with_status review (set_error no_review_status "invalid token"))
    end.
Proof.
  intros Hv Hk. unfold postKubernetesAuthWebhook. rewrite Hv, bool_decide_eq_true_2 by done. cbn.
  unfold with_status. cbn. rewrite Hk. by destruct (CheckToken _ _) as [[u g]|e].
Qed.

(** The webhook says that a user is known only if a token of the database says so. *)
Lemma webhook_OK partial body d review : postKubernetesAuthWebhook partial body d = (StatusOK, review) →
  ∃ given user groups, body = Ok given ∧ CheckToken (rv_Token given) d = Ok (user, groups) ∧
    rv_Status review = mkTokenReviewStatus (rv_SpecAudiences given) true user groups EmptyString.
Proof.
  unfold postKubernetesAuthWebhook. destruct body as [given|e]; [|done]. cbn zeta.
  destruct (errors_Join _); [|done]. destruct (CheckToken _ d) as [[u g]|e] eqn:E; [|done].
  intros [= <-]. exists given, u, g. cbn in E. done.
Qed.

Lemma act_db_rand_run {A} (f : res (list Z) → DB → res (A * DB)) s a s' : act_db_rand f s = (Ok a, s') →
  f (rand_Read (m_rand s)) (m_db s) = Ok (a, m_db s').
Proof.
  unfold act_db_rand. destruct (act_db _ s) as [r0 s0] eqn:E0. intros [= -> <-].
  apply act_db_run in E0. cbn. destruct (f _ _) as [[t d]|e]; [|by destruct E0]. by destruct E0 as [[= ->] ->].
Qed.

Lemma RevokeAuthToken_Ok token s s' : RevokeAuthToken token s = (Ok tt, s') → DeleteToken token (m_db s) = Ok (m_db s').
Proof.
  intros E%act_wrapf_Ok%act_wrapf_Ok%act_db_run. unfold no_result in E.
  destruct (DeleteToken token (m_db s)) as [d|e]; cbn in E; [by destruct E as [_ ->]|by destruct E].
Qed.

(** C12: The webhook of Kubernetes authenticates who a token was made for: after the endpoint
    has given out a token for a user and groups (none with a comma), a review of the token is
    answered with the user, the sorted groups and the audiences of the review, also when the
    token is asked for again, with the groups in any order, and gets the same token; once
    the token was revoked the review is answered as unauthorized, with no user.  And whatever
    the review: an answer that authenticates names the user and the groups that the token has
    in the database. *)
Theorem api_tokens_authenticate r req m :
  db_fail PrepareSelect = None → db_fail QuerySelect = None →
  Body r = Ok req → Forall (λ g, contains_char "," g = false) (gt_Groups req) →
  NoDup (map t_token (db_tokens (m_db m))) →
  (∀ b, rand_Read (m_rand m) = Ok b → "token::" +:+ hex_EncodeToString b ∉ map t_token (db_tokens (m_db m))) →
  let '(response, m') := postKubernetesAuthTokens r m in
  ∀ token, response = SyncResponse token →
  (∀ partial review, rv_Token review = token → known_version (rv_APIVersion review) = true →
     rv_Kind review = "TokenReview" →
     postKubernetesAuthWebhook partial (Ok review) (m_db m') =
       (StatusOK, with_status review (mkTokenReviewStatus (rv_SpecAudiences review) true (gt_Username req)
          (sort_Strings (gt_Groups req)) EmptyString)) ∧
     ∀ header, let '(revoked, m'') := deleteKubernetesAuthTokens (mkRequest header (Ok token)) m' in
       revoked = SyncResponse tt → postKubernetesAuthWebhook partial (Ok review) (m_db m'') =
         (StatusUnauthorized, with_status review (set_error no_review_status "invalid token"))) ∧
  (∀ header groups, groups ≡ₚ gt_Groups req →
     (postKubernetesAuthTokens (mkRequest header (Ok (mkGenerateAuthToken (gt_Username req) groups))) m').1 =
       SyncResponse token) ∧
  (∀ partial body review d, postKubernetesAuthWebhook partial body d = (StatusOK, review) →
     ∃ given user groups, body = Ok given ∧ CheckToken (rv_Token given) d = Ok (user, groups) ∧
       rv_Status review = mkTokenReviewStatus (rv_SpecAudiences given) true user groups EmptyString).
Proof.
  intros E1 E2 Hb Hcomma Hnd Hfresh. destruct (postKubernetesAuthTokens r m) as [response m'] eqn:E. intros token ->.
  apply handler_bind_Sync in E as (req' & s1 & [Hb' ->]%body_Sync & E). rewrite Hb in Hb'. injection Hb' as <-.
  apply tried_Sync, act_wrapf_Ok, act_db_rand_run in E.
  destruct (GetOrCreateToken_CheckToken _ _ _ _ _ _ E1 E2 E Hcomma Hnd Hfresh) as (Hcheck & Hagain & Hdel).
  split_and!; [..|intros partial body review d; apply webhook_OK].
  - intros partial review Ht Hv Hk. rewrite webhook_known, Ht, Hcheck by done. split; [done|].
    intros header. destruct (deleteKubernetesAuthTokens _ _) as [revoked m''] eqn:Ed. intros ->.
    apply handler_bind_Sync in Ed as (t & s2 & [[= <-] ->]%body_Sync & Ed).
    apply tried_Sync, act_wrapf_Ok, RevokeAuthToken_Ok in Ed. by rewrite webhook_known, Ht, (Hdel _ Ed) by done.
  - intros header groups Hp. unfold postKubernetesAuthTokens, GetOrCreateAuthToken, body, tried, act_wrapf, act_lift,
      mbind, handler_bind, act_db_rand, act_db. cbn -[GetOrCreateToken]. by rewrite (Hagain _ _ Hp).
Qed.
End AuthTokens.

(** ** Instances *)

(** A cluster without nodes, in which everything works. *)
Definition no_nodes : Outside := λ log c,
  match c with GetNode _ => Err (Errorf "not found" []) | c => default_answer c end.
Definition demo_api_errors : ApiErrors := {| IsNotFound _ := true |}.
Definition demo_rand : RandRead := λ _, Ok [7%Z].
Definition demo_sha : Sha256 := λ s, s.
Definition demo_info : InternalWorkerNodeToken :=
  mkToken EmptyString "worker::07" ["10.0.0.1:6400"] "certificate".
Definition demo_info_env : TokenEnv := {|
  json_Marshal_info info := if bool_decide (info = (demo_info, "m!!")) then Ok "{}" else Err ErrNotExist;
  json_Unmarshal_info raw := if raw ==? "{}" then Ok (demo_info, "m!!") else Err ErrNotExist |}.
Definition demo_hooks_host : Host := mkHost (Ok []) (Ok []) (Ok (Ok ["127.0.0.1/8"])) (λ _, Ok []) 0.
Definition empty_machine : Machine := mkMachine (mkWorld ∅ []) empty_db 0 [].
Definition demo_join_request : Request GetJoinTokenRequest :=
  mkRequest (λ _, EmptyString) (Ok (mkGetJoinToken "w1" true 100)).

Definition demo_token_response : Response string * Machine :=
  @postClusterJoinTokens ["10.0.0.1:6400"] demo_db demo_pki_env Csr.demo_csr_env no_nodes demo_info_env demo_sha
    demo_api_errors demo_rand demo_hooks_host demo_join_request empty_machine.

Definition demo_worker_header (k : string) : string :=
  if k ==? "Worker-Name" then "w1" else if k ==? "Worker-Token" then "worker::07" else EmptyString.

Lemma demo_info_roundtrip info b :
  @json_Marshal_info demo_info_env info = Ok b → @json_Unmarshal_info demo_info_env b = Ok info.
Proof.
  unfold json_Marshal_info, demo_info_env. case_bool_decide as E; [|discriminate].
  intros [= <-]. by rewrite E.
Qed.

Lemma join_token_admits_its_worker_witness :
  demo_token_response.1 = SyncResponse "e30=" ∧ ∀ a,
    (@run_access demo_os demo_db demo_pki_env Csr.demo_csr_env demo_hooks_host a
       (AccessWorkerInfo "Worker-Name" "Worker-Token") demo_worker_header demo_token_response.2).1 = SyncResponse tt.
Proof.
  split; [reflexivity|]. intros a.
  pose proof (@join_token_admits_its_worker ["10.0.0.1:6400"] demo_os demo_db demo_pki_env Csr.demo_csr_env no_nodes
    demo_info_env demo_sha demo_api_errors demo_rand demo_hooks_host demo_join_request
    (mkGetJoinToken "w1" true 100) empty_machine eq_refl eq_refl demo_info_roundtrip eq_refl eq_refl
    (λ b _, not_elem_of_nil _)) as Hw.
  change (postClusterJoinTokens _ _ _ _) with demo_token_response in Hw.
  destruct demo_token_response as [response m'] eqn:E. vm_compute in E. injection E as <- <-.
  destruct (Hw _ eq_refl) as (info & hostname & Hi & _ & Hc & Hl). vm_compute in Hi. injection Hi as <-.
  vm_compute in Hc. injection Hc as <-. destruct (Hl a demo_worker_header eq_refl) as [Ha _].
  apply Ha; [reflexivity|]. split; [discriminate|]. split; [reflexivity|]. exists "w1".
  split; [reflexivity|by right].
Defined.

Lemma api_tokens_authenticate_witness :
  let '(response, m') := @postKubernetesAuthTokens demo_db demo_rand
    (mkRequest (λ _, EmptyString) (Ok (mkGenerateAuthToken "alice" ["b"; "a"]))) empty_machine in
  response = SyncResponse "token::07" ∧
  (@postKubernetesAuthWebhook demo_db demo_snap_env (mkTokenReview "" "" "" [] no_review_status)
    (Ok (mkTokenReview "authentication.k8s.io/v1" "TokenReview" "token::07" [] no_review_status)) (m_db m')).1 = StatusOK.
Proof.
  pose proof (@api_tokens_authenticate demo_db demo_rand demo_snap_env
    (mkRequest (λ _, EmptyString) (Ok (mkGenerateAuthToken "alice" ["b"; "a"]))) (mkGenerateAuthToken "alice" ["b"; "a"])
    empty_machine eq_refl eq_refl eq_refl) as Hw.
  assert (Hc : Forall (λ g, contains_char "," g = false) ["b"; "a"]) by (by repeat constructor).
  specialize (Hw Hc (NoDup_nil_2) (λ b _, not_elem_of_nil _)).
  destruct (postKubernetesAuthTokens _ _) as [response m'] eqn:E. vm_compute in E. injection E as <- <-.
  split; [reflexivity|]. destruct (Hw _ eq_refl) as [Ha _].
  by destruct (Ha (mkTokenReview "" "" "" [] no_review_status)
    (mkTokenReview "authentication.k8s.io/v1" "TokenReview" "token::07" [] no_review_status) eq_refl eq_refl eq_refl)
    as [-> _].
Defined.
End ApiFacts.
