(* ===== verification/ApiClusterFacts.v ===== *)
(** * What the API promises: the cluster and its nodes

    ApiCluster.v and ApiNodes.v: an update of the configuration is stored and told to the
    loops it concerns, or changes nothing; what the user asks for a new node reaches the hook
    that starts it; a node is removed step by step. *)

From S2P Require Import Prelude GoStrings GoNet Cidr Config ConfigValidate ConfigMerge ConfigConvert FileSys Pki.
From S2P Require Import PkiNode Arguments Setup Node Database Csr Feature Upgrade Effects Snap SnapdConfig.
From S2P Require Import NodeSetup Token KubeClient Hooks HooksBootstrap HooksJoin JoinFacts Api ApiCluster ApiNodes.
From S2P Require Import Checks ApiFacts.
Import GoStr GoNet Config Validation Merge Convert FileSys Pki PkiNode Arguments Setup Node Database Effects Snap.
Import SnapdConfig NodeSetup Token KubeClient Hooks Bootstrap Join Api ApiCluster ApiNodes ApiFacts.

Module ApiClusterFacts.

(** ** The configuration *)

(** Each loop, in the order of the notification, with the settings that are its own. *)
Definition changes_are_notified (old stored : ClusterConfig) (flags : list bool) : Prop :=
  match flags with
  | [network; gateway; ingress; loadBalancer; localStorage; metricsServer; dns] =>
      (CC_Network old ≠ CC_Network stored → network = true) ∧
      (CC_Gateway old ≠ CC_Gateway stored → gateway = true) ∧
      (CC_Ingress old ≠ CC_Ingress stored → ingress = true) ∧
      (CC_LoadBalancer old ≠ CC_LoadBalancer stored → loadBalancer = true) ∧
      (CC_LocalStorage old ≠ CC_LocalStorage stored → localStorage = true) ∧
      (CC_MetricsServer old ≠ CC_MetricsServer stored → metricsServer = true) ∧
      (CC_DNS old ≠ CC_DNS stored ∨ CC_Kubelet old ≠ CC_Kubelet stored → dns = true) ∧
      (∀ k, Annotations_Get (CC_Annotations old) k ≠ Annotations_Get (CC_Annotations stored) k →
         Forall (λ b, b = true) flags)
  | _ => False
  end.

Lemma overlay_unset {T} (o : option T) : overlay o None = o.
Proof. done. Qed.

Lemma overlay_sections e n :
  (CC_Network n = empty_Network → CC_Network (overlay_config e n) = CC_Network e) ∧
  (CC_Gateway n = empty_Gateway → CC_Gateway (overlay_config e n) = CC_Gateway e) ∧
  (CC_Ingress n = empty_Ingress → CC_Ingress (overlay_config e n) = CC_Ingress e) ∧
  (CC_LoadBalancer n = empty_LoadBalancer → CC_LoadBalancer (overlay_config e n) = CC_LoadBalancer e) ∧
  (CC_LocalStorage n = empty_LocalStorage → CC_LocalStorage (overlay_config e n) = CC_LocalStorage e) ∧
  (CC_MetricsServer n = empty_MetricsServer → CC_MetricsServer (overlay_config e n) = CC_MetricsServer e) ∧
  (CC_DNS n = empty_DNS → CC_DNS (overlay_config e n) = CC_DNS e) ∧
  (CC_Kubelet n = empty_Kubelet → CC_Kubelet (overlay_config e n) = CC_Kubelet e).
Proof.
  destruct e as [? ? ? [] [] [] [] [] [] [] [] ?].
  split_and!; intros Hn; unfold overlay_config, newer; cbn; rewrite Hn; done.
Qed.

Lemma overlay_annotations e n k : hasAnnotations n = false →
  Annotations_Get (CC_Annotations (overlay_config e n)) k = Annotations_Get (CC_Annotations e) k.
Proof.
  unfold hasAnnotations, overlay_config. cbn. destruct (CC_Annotations n) as [m|]; [|by destruct (CC_Annotations e)].
  intros ->%negb_false_iff%bool_decide_eq_true. by destruct (CC_Annotations e).
Qed.

Lemma changed_flag {T} `{EqDecision T} (new empty old stored : T) b : (new = empty → stored = old) → old ≠ stored →
  negb (bool_decide (new = empty)) || b = true.
Proof. intros Hs Hne. rewrite bool_decide_eq_false_2; [done|]. naive_solver. Qed.

Lemma features_notified old new : changes_are_notified old (overlay_config old new) (features_to_notify new).
Proof.
  pose proof (overlay_sections old new) as Hs. destruct_and! Hs. unfold changes_are_notified, features_to_notify.
  cbn [fmap list_fmap]. split_and!; [by apply changed_flag..| |].
  - unfold DNS_Empty, Kubelet_Empty. intros [Hne|Hne].
    + rewrite <- orb_assoc. by eapply changed_flag.
    + rewrite (orb_comm (negb (bool_decide (CC_DNS new = empty_DNS)))), <- orb_assoc.
      by eapply changed_flag.
  - intros k Hk. destruct (hasAnnotations new) eqn:Ha; [repeat constructor; by rewrite ?orb_true_r|].
    by rewrite overlay_annotations in Hk.
Qed.

Section Config.
Context `{DBEnv, Externals, Outside}.

Lemma notify_run c s r s' : notify c s = (r, s') → r = SyncResponse tt ∧ s' = with_log s [c].
Proof. unfold notify, logged, tried, act_logged, perform. cbn. by intros [= <- <-]. Qed.

Lemma act_db_Sync {A} st fmt args fmt' args' (f : DB → res (A * DB)) s r s' :
  tried st (act_wrapf fmt args (act_wrapf fmt' args' (act_db f))) s = (r, s') →
  (∃ a d, f (m_db s) = Ok (a, d) ∧ r = SyncResponse a ∧ s' = mkMachine (m_world s) d (m_rand s) (m_log s)) ∨
  (∃ e, is_ok (f (m_db s)) = false ∧ r = ErrorResponse st e ∧ s' = s).
Proof.
  intros (r0 & (r1 & (r2 & E%act_db_run & ->)%act_wrapf_run & ->)%act_wrapf_run & ->)%tried_run.
  destruct (f (m_db s)) as [[a d]|e]; destruct E as [-> ->]; [left; by exists a, d|right].
  cbn. by eexists.
Qed.

Lemma putClusterConfig_run r m :
  let '(response, m') := putClusterConfig r m in
  match response with
  | SyncResponse _ => ∃ req new old stored flags,
      Body r = Ok req ∧ requested req = Ok new ∧ GetClusterConfig (m_db m) = Ok old ∧
      MergeClusterConfig old new = Ok stored ∧ SetClusterConfig new (m_db m) = Ok (stored, m_db m') ∧
      m_world m' = m_world m ∧ m_log m' = m_log m ++ [NotifyNodeConfig; NotifyFeatures flags] ∧
      changes_are_notified old stored flags
  | ErrorResponse status e => m' = m ∧
      ((status = BadRequest ∧ ∀ req, Body r = Ok req → is_ok (requested req) = false) ∨
       (status = InternalError ∧ ∃ req new, Body r = Ok req ∧ requested req = Ok new ∧
          is_ok (SetClusterConfig new (m_db m)) = false))
  | Panicked => False
  end.
Proof.
  destruct (putClusterConfig r m) as [response m'] eqn:E. unfold putClusterConfig, body in E.
  apply handler_bind_inv in E as [(req & s1 & [Hb ->]%(body_Sync _ r) & E)|[(st & e & E & ->)|[E ->]]].
  2: { apply tried_run in E as (r0 & (r1 & [= <- <-] & ->)%act_wrapf_run & E). split; [done|left].
       destruct (Body r); [done|]. injection E as -> _. by split. }
  2: { apply tried_run in E as (r0 & (r1 & [= <- <-] & ->)%act_wrapf_run & E). by destruct (Body r). }
  apply handler_bind_inv in E as [(new & s1 & [= Hr <-]%tried_Sync & E)|[(st & e & E & ->)|[E ->]]].
  2: { apply tried_run in E as (r0 & [= <- <-] & E). split; [done|left]. destruct (requested req) eqn:Hr; [done|].
       injection E as -> _. split; [done|]. intros req' Hb'. rewrite Hb in Hb'. injection Hb' as <-. by rewrite Hr. }
  2: { apply tried_run in E as (r0 & [= <- <-] & E). by destruct (requested req). }
  apply handler_bind_inv in E as [(stored & s1 & E1 & E)|[(st & e & E & ->)|[E ->]]].
  - apply act_db_Sync in E1 as [(stored' & d & Hs & [= <-] & ->)|(e & _ & ? & _)]; [|done].
    apply handler_bind_inv in E as [([] & s2 & [_ ->]%notify_run & E)|[(st & e & [? _]%notify_run & _)|[[? _]%notify_run _]]];
      [|done..].
    apply notify_run in E as [-> ->].
    destruct (SetClusterConfig_Ok _ _ _ _ Hs) as (old & js & Hg & Hm & _ & _).
    exists req, new, old, stored, (features_to_notify new). split_and!; try done.
    + cbn. by rewrite <- app_assoc.
    + apply MergeClusterConfig_Ok in Hm as (_ & -> & _). apply features_notified.
  - apply act_db_Sync in E as [(? & ? & _ & ? & _)|(e' & Hs & [= -> ->] & ->)]; [done|].
    split; [done|right]. split; [done|]. by exists req, new.
  - by apply act_db_Sync in E as [(? & ? & _ & ? & _)|(e' & Hs & ? & ->)].
Qed.

(** C11: An update of the configuration, whatever the request: either it is stored, merged with
    the configuration so far, then the controller of the node configuration is notified and
    after it the loops of the features, among them every loop whose own settings changed and,
    if an annotation changed, all of them; or the request is refused, as a bad one only if it
    does not parse or cannot be converted, and the database, the files and the loops are left
    alone. *)
Theorem putClusterConfig_stores_and_notifies r m :
  let '(response, m') := putClusterConfig r m in
  match response with
  | SyncResponse _ => ∃ req new old stored flags,
      Body r = Ok req ∧ requested req = Ok new ∧ GetClusterConfig (m_db m) = Ok old ∧
      MergeClusterConfig old new = Ok stored ∧ SetClusterConfig new (m_db m) = Ok (stored, m_db m') ∧
      m_world m' = m_world m ∧ m_log m' = m_log m ++ [NotifyNodeConfig; NotifyFeatures flags] ∧
      changes_are_notified old stored flags
  | ErrorResponse status e => m' = m ∧
      ((status = BadRequest ∧ ∀ req, Body r = Ok req → is_ok (requested req) = false) ∨
       (status = InternalError ∧ ∃ req new, Body r = Ok req ∧ requested req = Ok new ∧
          is_ok (SetClusterConfig new (m_db m)) = false))
  | Panicked => False
  end.
Proof. exact (putClusterConfig_run r m). Qed.
End Config.

(** ** A new node *)

Section NewNode.
Context `{SetupEnv, Outside, SnapEnv, SnapdEnv, DBEnv, Externals, PkiEnv, !EndpointsJson, !BootstrapGetters,
          !TokenEnv, !Sha256, VersionParser, !EtcdErrors, !MapCodec, !Csr.CsrEnv}.
Context (order : list string → list string)
  (order_ports order_paths : list (string * string) → list (string * string)) (deadline : Z → nat).

(** The codecs read back what they write. *)
Definition config_reads_back (b : BootstrapConfig * NodeOptions) : Prop :=
  ∀ s, bootstrap_Marshal b = Ok s → bootstrap_Unmarshal s = Ok b.
Definition duration_reads_back (d : Z) : Prop := ParseDuration (Duration_String d) = Ok d.

Lemma timeout_roundtrip m t : duration_reads_back t → m !! "_timeout" = None →
  MicroclusterTimeoutFromMap (MicroclusterMapWithTimeout m t) = t.
Proof.
  intros Hd Hm. unfold MicroclusterTimeoutFromMap, MicroclusterMapWithTimeout.
  destruct (Z.eqb_spec t 0) as [->|]; [by rewrite Hm|]. by rewrite lookup_insert_eq, Hd.
Qed.
Lemma lookup_with_timeout m t k : k ≠ "_timeout" → MicroclusterMapWithTimeout m t !! k = m !! k.
Proof. intros Hk. unfold MicroclusterMapWithTimeout. case_match; [done|]. by rewrite lookup_insert_ne. Qed.

Lemma with_base_dir_run {A B} s (first : handler (string * A)) (rest : A → handler B) m r s' m' :
  with_base_dir s first rest m = (SyncResponse r, s', m') →
  ∃ dir a m1, first m = (SyncResponse (dir, a), m1) ∧ rest a m1 = (SyncResponse r, m') ∧ s' = set_base_dir s dir.
Proof.
  unfold with_base_dir. destruct (first m) as [[[dir a]|st e|] m1]; [|done..].
  destruct (rest a m1) as [r1 m2] eqn:E. intros [= -> <- <-]. by exists dir, a, m1.
Qed.

Lemma bootstrap_checks_Ok r req m dir hostname address config m' : Body r = Ok req →
  bootstrap_checks r m = (SyncResponse (dir, (hostname, address, config)), m') →
  dir = bc_ContainerdBaseDir req ∧ Csr.CleanHostname (bc_Name req) = Ok hostname ∧ address = bc_Address req ∧
  answered MicroclusterReady (Ok false) m m' ∧
  ∃ b, bootstrap_Marshal (bc_Config req) = Ok b ∧
    config = MicroclusterMapWithTimeout (<["bootstrapConfig" := b]> ∅) (bc_Timeout req).
Proof.
  intros Hb (req' & s1 & [Hb' ->]%body_Sync & E)%handler_bind_Sync. rewrite Hb in Hb'. injection Hb' as <-.
  apply handler_bind_Sync in E as (c & s2 & [= Hc <-]%tried_Sync%act_wrapf_Ok & E).
  apply handler_bind_Sync in E as (h & s3 & [= Hh <-]%tried_Sync%act_wrapf_Ok & E).
  apply handler_bind_Sync in E as (ready & s4 & E4%tried_Sync%act_wrapf_Ok & E).
  apply handler_bind_Sync in E as ([] & s5 & [-> ->]%refuse_if_Sync & [= <- <- <- <- <-]).
  apply (perform_answered MicroclusterReady) in E4. split_and!; [done|done|done|done|].
  unfold MicroclusterMapWithBootstrapConfig in Hc. apply bind_Ok in Hc as (b & Hb'%wrapf_Ok & [= <-]). by exists b.
Qed.

Lemma join_checks_Ok r req m dir hostname req' m' : Body r = Ok req →
  join_checks r m = (SyncResponse (dir, (hostname, req')), m') →
  req' = req ∧ Csr.CleanHostname (jc_Name req) = Ok hostname ∧ yaml_containerd_base_dir (jc_Config req) = Ok dir ∧
  answered MicroclusterReady (Ok false) m m'.
Proof.
  intros Hb (req1 & s1 & [Hb' ->]%body_Sync & E)%handler_bind_Sync. rewrite Hb in Hb'. injection Hb' as <-.
  apply handler_bind_Sync in E as (h & s3 & [= Hh <-]%tried_Sync%act_wrapf_Ok & E).
  apply handler_bind_Sync in E as (ready & s4 & E4%tried_Sync%act_wrapf_Ok & E).
  apply handler_bind_Sync in E as ([] & s5 & [-> ->]%refuse_if_Sync & E).
  apply handler_bind_Sync in E as (d & s6 & [= Hd <-]%tried_Sync%act_wrapf_Ok & [= <- <- <- <-]).
  by apply (perform_answered MicroclusterReady) in E4.
Qed.

(** What a hook does with a map that was prepared for it. *)
Lemma bootstrap_reaches_hook host a st b s t : config_reads_back b → duration_reads_back t →
  bootstrap_Marshal b = Ok s →
  onBootstrap order order_ports order_paths deadline host a st
    (MicroclusterMapWithTimeout (<["bootstrapConfig" := s]> ∅) t) =
  onBootstrapControlPlane order order_ports order_paths (deadline t) host a st b.1 b.2.
Proof.
  intros Hb Ht Hs. unfold onBootstrap. rewrite lookup_with_timeout by done.
  rewrite lookup_insert_ne, lookup_empty by done.
  unfold MicroclusterBootstrapConfigFromMap. rewrite lookup_with_timeout, lookup_insert_eq by done.
  change (default EmptyString (Some s)) with s. rewrite (Hb _ Hs). cbn [wrapf].
  rewrite timeout_roundtrip by done. by destruct b.
Qed.
Lemma worker_reaches_hook host a st token config o t : worker_join_Unmarshal config = Ok o → ∀ s,
  onBootstrap order order_ports order_paths deadline host a st
    (MicroclusterMapWithWorkerJoinConfig (MicroclusterMapWithTimeout ∅ t) token config) s =
  (_ ← onBootstrapWorkerNode order_ports order_paths host a st token o; mret []) s.
Proof.
  intros Ho s. unfold onBootstrap, MicroclusterMapWithWorkerJoinConfig. rewrite lookup_insert_ne, lookup_insert_eq by done.
  unfold MicroclusterWorkerJoinConfigFromMap. rewrite lookup_insert_eq. change (default EmptyString (Some config)) with config. by rewrite Ho.
Qed.
Lemma control_plane_reaches_hook host a st config o t : duration_reads_back t → control_plane_join_Unmarshal config = Ok o →
  onPostJoin_map order order_ports order_paths deadline host a st
    (MicroclusterMapWithControlPlaneJoinConfig (MicroclusterMapWithTimeout ∅ t) config) =
  onPostJoin order order_ports order_paths (deadline t) host a st o.
Proof.
  intros Hok Ho. unfold onPostJoin_map, MicroclusterControlPlaneJoinConfigFromMap, MicroclusterMapWithControlPlaneJoinConfig.
  rewrite lookup_insert_eq. change (default EmptyString (Some config)) with config. rewrite Ho. cbn [wrapf]. unfold MicroclusterTimeoutFromMap.
  rewrite lookup_insert_ne by done. fold (MicroclusterTimeoutFromMap (MicroclusterMapWithTimeout ∅ t)).
  by rewrite timeout_roundtrip.
Qed.

(** C10: What the user asks for a new node reaches the hook that starts it, through the map of
    strings of microcluster: a request that is answered had a node that was not part of a
    cluster, under the cleaned name, and the map that microcluster got makes the hook run as
    the first control plane node with the configuration and within the timeout of the request;
    or, for a join, as a worker with the token if it decodes as a worker's, else as a control
    plane node with the configuration of the request.  The directory for containerd that the
    request gives is set in the snap.  The codecs are to read back what they wrote of this
    request. *)
Theorem requests_reach_the_hooks sn host a st :
  (∀ r req m, Body r = Ok req → config_reads_back (bc_Config req) → duration_reads_back (bc_Timeout req) →
     let '(response, sn', m') := postClusterBootstrap sn r m in
     ∀ name address, response = SyncResponse (name, address) →
     sn' = set_base_dir sn (bc_ContainerdBaseDir req) ∧ Csr.CleanHostname (bc_Name req) = Ok name ∧
     address = bc_Address req ∧ answered MicroclusterReady (Ok false) m m' ∧
     ∃ config, answered (NewCluster name address config) (Ok tt) m m' ∧
       onBootstrap order order_ports order_paths deadline host a st config =
       onBootstrapControlPlane order order_ports order_paths (deadline (bc_Timeout req)) host a st
         (bc_Config req).1 (bc_Config req).2) ∧
  (∀ r req m, Body r = Ok req → duration_reads_back (jc_Timeout req) →
     let '(response, sn', m') := postClusterJoin sn r m in
     response = SyncResponse tt →
     answered MicroclusterReady (Ok false) m m' ∧
     (∃ dir, yaml_containerd_base_dir (jc_Config req) = Ok dir ∧ sn' = set_base_dir sn dir) ∧
     ∃ name config, Csr.CleanHostname (jc_Name req) = Ok name ∧
       if is_ok (Decode (jc_Token req)) then
         answered (NewCluster name (jc_Address req) config) (Ok tt) m m' ∧
         ∀ o, worker_join_Unmarshal (jc_Config req) = Ok o → ∀ s,
           onBootstrap order order_ports order_paths deadline host a st config s =
           (_ ← onBootstrapWorkerNode order_ports order_paths host a st (jc_Token req) o; mret []) s
       else
         answered (JoinCluster name (jc_Address req) (jc_Token req) config) (Ok tt) m m' ∧
         ∀ o, control_plane_join_Unmarshal (jc_Config req) = Ok o →
           onPostJoin_map order order_ports order_paths deadline host a st config =
           onPostJoin order order_ports order_paths (deadline (jc_Timeout req)) host a st o).
Proof.
  split.
  - intros r req m Hb Hc Ht. destruct (postClusterBootstrap sn r m) as [[response sn'] m'] eqn:E. intros name address ->.
    apply with_base_dir_run in E as (dir & [[h ad] config] & m1 & E1 & E2 & ->).
    apply (bootstrap_checks_Ok _ req) in E1 as (-> & Hh & -> & Hr & b & Hm & ->); [|done].
    apply handler_bind_Sync in E2 as ([] & m2 & E2%tried_Sync%act_wrapf_Ok & [= <- <- <-]).
    pose proof (perform_later (NewCluster _ _ _) _ _ _ E2) as Hl. apply (perform_answered (NewCluster _ _ _)) in E2.
    split_and!; [done|done|done|by eapply answered_after|]. eexists. split; [|by apply bootstrap_reaches_hook].
    eapply answered_before; [|exact E2]. by eapply answered_is_later.
  - intros r req m Hb Ht. destruct (postClusterJoin sn r m) as [[response sn'] m'] eqn:E. intros ->.
    apply with_base_dir_run in E as (dir & [h req'] & m1 & E1 & E2 & ->).
    apply (join_checks_Ok _ req) in E1 as (-> & Hh & Hd & Hr); [|done].
    assert (Hl : later m1 m') by (unfold join_cluster_as in E2; destruct (Decode _);
      apply tried_Sync, act_wrapf_Ok in E2;
      [exact (perform_later (NewCluster _ _ _) _ _ _ E2)|exact (perform_later (JoinCluster _ _ _ _) _ _ _ E2)]).
    split; [by eapply answered_after|]. split; [by exists dir|]. exists h. unfold join_cluster_as in E2.
    destruct (Decode (jc_Token req)); cbn [is_ok]; apply tried_Sync, act_wrapf_Ok in E2; eexists; (split; [exact Hh|]).
    + apply (perform_answered (NewCluster _ _ _)) in E2.
      split; [eapply answered_before; [by eapply answered_is_later|exact E2]|]. intros o Ho. by apply worker_reaches_hook.
    + apply (perform_answered (JoinCluster _ _ _ _)) in E2.
      split; [eapply answered_before; [by eapply answered_is_later|exact E2]|]. intros o Ho. by apply control_plane_reaches_hook.
Qed.
End NewNode.

(** *** A first node, and a join *)

Definition demo_first_node : BootstrapConfig * NodeOptions :=
  (mkBootstrap demo_user_facing [] None None None None None [] None None None None None, JoinFacts.demo_join_options).
Definition demo_codec : MapCodec := {|
  bootstrap_Marshal _ := Ok "{}"; bootstrap_Unmarshal _ := Ok demo_first_node;
  control_plane_join_Unmarshal _ := Ok JoinFacts.demo_join_options; worker_join_Unmarshal _ := Ok JoinFacts.demo_join_options;
  Duration_String := Itoa; ParseDuration := ParseUint64; yaml_containerd_base_dir _ := Ok "/var/lib/ck" |}.
(** A machine whose microcluster was not started. *)
Definition not_started : Outside := λ log c,
  match c as c return res (answer c) with MicroclusterReady => Ok false | c => default_answer c end.
Definition demo_bootstrap_request : BootstrapClusterRequest :=
  mkBootstrapCluster "n1" "10.0.0.1:6400" demo_first_node "/var/lib/ck" 30.
Definition demo_joining_request : JoinClusterRequest :=
  mkJoinCluster "n2" "10.0.0.2:6400" "not a worker's" "containerd-base-dir: /var/lib/ck" 0.
Definition demo_posted {A} (a : A) : Request A := mkRequest (λ _, EmptyString) (Ok a).

Definition demo_bootstrapped : Response (string * string) * snap * Machine :=
  @postClusterBootstrap not_started demo_pki_env Csr.demo_csr_env demo_codec Checks.demo_mk_snap
    (demo_posted demo_bootstrap_request) empty_machine.
Definition demo_joined : Response unit * snap * Machine :=
  @postClusterJoin not_started demo_pki_env Csr.demo_csr_env demo_info_env demo_codec Checks.demo_mk_snap
    (demo_posted demo_joining_request) empty_machine.

Lemma requests_reach_the_hooks_witness :
  (∃ config, @answered not_started (NewCluster "n1" "10.0.0.1:6400" config) (Ok tt) empty_machine demo_bootstrapped.2) ∧
  (∃ config, @answered not_started (JoinCluster "n2" "10.0.0.2:6400" "not a worker's" config) (Ok tt)
     empty_machine demo_joined.2).
Proof.
  destruct (@requests_reach_the_hooks demo_os demo_setup_env not_started Snap.demo_snap_env JoinFacts.demo_snapd_env
    demo_db demo_externals demo_pki_env Setup.demo_json demo_getters demo_info_env demo_sha JoinFacts.demo_versions
    JoinFacts.demo_parser JoinFacts.demo_etcd_errors demo_codec Csr.demo_csr_env (λ l, l) (λ l, l) (λ l, l) Z.to_nat
    Checks.demo_mk_snap JoinFacts.demo_host JoinFacts.demo_app JoinFacts.demo_mstate) as [Hb Hj].
  split.
  - specialize (Hb (demo_posted demo_bootstrap_request) demo_bootstrap_request empty_machine eq_refl).
    assert (Hc : @config_reads_back demo_codec (bc_Config demo_bootstrap_request)) by (by intros s _).
    specialize (Hb Hc eq_refl). change (postClusterBootstrap _ _ _) with demo_bootstrapped in Hb.
    destruct demo_bootstrapped as [[response sn'] m'] eqn:E.
    assert (Hr : response = SyncResponse ("n1", "10.0.0.1:6400")) by (vm_compute in E; congruence).
    destruct (Hb _ _ Hr) as (_ & _ & _ & _ & config & Ha & _). by exists config.
  - specialize (Hj (demo_posted demo_joining_request) demo_joining_request empty_machine eq_refl eq_refl).
    change (postClusterJoin _ _ _) with demo_joined in Hj.
    destruct demo_joined as [[response sn'] m'] eqn:E.
    assert (Hr : response = SyncResponse tt) by (vm_compute in E; congruence).
    destruct (Hj Hr) as (_ & _ & name & config & Hn & Hc).
    assert (Hd : is_ok (@Decode demo_info_env (jc_Token demo_joining_request)) = false) by reflexivity.
    rewrite Hd in Hc. destruct Hc as [Hc _]. exists config. replace "n2" with name; [exact Hc|]. vm_compute in Hn. congruence.
Defined.
End ApiClusterFacts.
