(* ===== verification/ApiRemoveFacts.v ===== *)
(** * What the API promises: a node is removed

    [postClusterRemove] of ApiNodes.v: the node leaves Kubernetes, then the datastore, then
    the cluster of k8sd; a step that fails ends the removal, unless it is forced. *)

From S2P Require Import Prelude GoStrings GoNet Config ConfigConvert FileSys Pki PkiNode Arguments Setup Node.
From S2P Require Import Database Csr Effects Snap SnapdConfig NodeSetup Token Hooks HookFacts RemoveFacts.
From S2P Require Import HooksBootstrap HooksJoin JoinFacts Api ApiCluster ApiNodes ApiFacts.
Import GoStr GoNet Config Convert FileSys Pki PkiNode Arguments Setup Node Database Effects Snap.
Import SnapdConfig NodeSetup Token Hooks HookFacts RemoveFacts Bootstrap Join Api ApiCluster ApiNodes ApiFacts.

Module ApiRemoveFacts.

Definition removes_member (c : command) : bool := match c with RemoveClusterMember _ _ _ => true | _ => false end.

(** Neither the files nor the database change, and no node leaves the cluster of k8sd. *)
Local Abbreviation still_member := (steps (λ c, removes_member c = false)).

(** [asks_go] below a wrapped error. *)
Ltac asks_all := repeat (asks_go; first [apply asks_wrapf|apply asks_try|apply asks_logged]).

Section Remove.
Context `{SetupEnv, DBEnv, Externals, Outside, Csr.CsrEnv, SnapEnv, TokenEnv, !MapCodec, !RemoveAnnotations}.

Local Abbreviation Keeps m := (emits (λ c, removes_member c = false) eq m).

Lemma keeps_IsControlPlaneNode name : Keeps (IsControlPlaneNode name).
Proof. unfold IsControlPlaneNode, GetControlPlaneNode. emits_go. Qed.
Lemma asks_IsControlPlaneNode name : asks (IsControlPlaneNode name).
Proof. unfold IsControlPlaneNode, GetControlPlaneNode. asks_all. Qed.
Lemma keeps_Kubernetes name : Keeps (removeNodeFromKubernetes name).
Proof. unfold removeNodeFromKubernetes. emits_go. Qed.
Lemma asks_Kubernetes name : asks (removeNodeFromKubernetes name).
Proof. unfold removeNodeFromKubernetes. asks_all. Qed.
Lemma keeps_Datastore cfg name : Keeps (removeNodeFromDatastore cfg name).
Proof. unfold removeNodeFromDatastore, removeNodeFromEtcd, RemoveNodeByName. emits_go. Qed.
Lemma asks_Datastore cfg name : asks (removeNodeFromDatastore cfg name).
Proof. unfold removeNodeFromDatastore, removeNodeFromEtcd, RemoveNodeByName. asks_all. Qed.

(** ** The steps *)

Lemma IsControlPlaneNode_Ok name s b s' : IsControlPlaneNode name s = (Ok b, s') →
  ∃ members, answered GetClusterMembers (Ok members) s s' ∧ b = existsb (λ m, cm_Name m ==? name) members.
Proof.
  unfold IsControlPlaneNode, GetControlPlaneNode. intros (node & s1 & E & [= <- <-])%act_bind_Ok_inv.
  apply act_wrapf_Ok in E.
  apply act_bind_Ok_inv in E as ([] & s2 & E1%act_wrapf_Ok%(perform_later (K8sdClient EmptyString)) & E).
  apply act_bind_Ok_inv in E as (members & s3 & E2%act_wrapf_Ok & [= <- <-]).
  apply (perform_answered GetClusterMembers) in E2. exists members. split; [by eapply answered_before|]. clear.
  induction members as [|m members IH]; [done|]. cbn. destruct (cm_Name m ==? name); [done|]. by rewrite <- IH.
Qed.

Lemma removeNodeFromKubernetes_Ok name s s' : removeNodeFromKubernetes name s = (Ok tt, s') →
  answered (DeleteNode name) (Ok tt) s s'.
Proof.
  unfold removeNodeFromKubernetes.
  intros ([] & s1 & E1%act_wrapf_Ok%(perform_later (KubernetesClient true EmptyString)) & E)%act_bind_Ok_inv.
  apply act_wrapf_Ok, (perform_answered (DeleteNode name)) in E. by eapply answered_before.
Qed.

(** The node is not, or no longer, a member of the datastore that k8sd manages: it was found
    there under its name, through the other members, and removed. *)
Definition left_datastore (cfg : ClusterConfig) (name : string) (s s' : Machine) : Prop :=
  Datastore_GetType (CC_Datastore cfg) = "etcd" →
  ∃ members etcd_members m, answered GetClusterMembers (Ok members) s s' ∧
    let endpoints := etcd_endpoints name (CC_Datastore cfg) members in
    answered (MemberList endpoints) (Ok etcd_members) s s' ∧ m ∈ etcd_members ∧ mb_Name m = name ∧
    answered (MemberRemove endpoints (mb_ID m)) (Ok tt) s s'.

Lemma RemoveNodeByName_Ok endpoints name s s' : RemoveNodeByName endpoints name s = (Ok tt, s') →
  ∃ members m, answered (MemberList endpoints) (Ok members) s s' ∧ m ∈ members ∧ mb_Name m = name ∧
    answered (MemberRemove endpoints (mb_ID m)) (Ok tt) s s'.
Proof.
  unfold RemoveNodeByName. intros (members & s1 & E1%act_wrapf_Ok & E)%act_bind_Ok_inv.
  pose proof (perform_later (MemberList endpoints) _ _ _ E1) as Hl. apply (perform_answered (MemberList endpoints)) in E1.
  destruct (List.find _ members) as [m|] eqn:Ef; [|done]. apply List.find_some in Ef as [Hin Hn%bool_decide_eq_true].
  cbn zeta in E. destruct (_ =? _)%Z; [done|].
  apply act_wrapf_Ok in E. pose proof (perform_later (MemberRemove _ _) _ _ _ E). exists members, m.
  split_and!; [by eapply answered_after|by apply list_elem_of_In|done|].
  eapply answered_before; [exact Hl|]. by apply (perform_answered (MemberRemove _ _)).
Qed.

Lemma removeNodeFromDatastore_Some cfg name s s' :
  removeNodeFromDatastore cfg name s = (Ok (Some tt), s') → left_datastore cfg name s s'.
Proof.
  unfold removeNodeFromDatastore, left_datastore. intros E Ht. rewrite bool_decide_eq_true_2 in E by done.
  apply act_wrapf_Ok in E. unfold removeNodeFromEtcd in E.
  apply act_bind_Ok_inv in E as ([] & s1 & E1%act_wrapf_Ok%(perform_later (K8sdClient EmptyString)) & E).
  apply act_bind_Ok_inv in E as (members & s2 & E2%act_wrapf_Ok & E).
  apply (perform_answered GetClusterMembers) in E2. destruct members as [|m0 members']; [done|].
  set (members := m0 :: members') in *. set (endpoints := etcd_endpoints _ _ _) in *.
  apply act_bind_Ok_inv in E as ([] & s3 & E3%act_wrapf_Ok%(perform_later (EtcdClient endpoints)) & E).
  apply act_bind_Ok_inv in E as ([] & s4 & E4%act_wrapf_Ok & [= <-]).
  apply RemoveNodeByName_Ok in E4 as (etcd_members & m & Hl & Hin & Hn & Hr).
  assert (Hb : later s s3) by (etrans; [exact E1|]; etrans; [by eapply answered_is_later|exact E3]).
  exists members, etcd_members, m. split; [|split_and!; [by eapply answered_before|done|done|by eapply answered_before]].
  eapply answered_later; [exact E1|exact E2|]. etrans; [exact E3|by eapply answered_is_later].
Qed.

(** The last step: the only one in which a node leaves the cluster of k8sd. *)
Lemma removeNodeFromMicrocluster_run ticks st name force s r s' :
  removeNodeFromMicrocluster ticks st name force s = (r, s') →
  m_world s' = m_world s ∧ m_db s' = m_db s ∧
  ((∃ s1 address a, still_member s s1 ∧ answered (RemoveClusterMember name address force) a s1 s' ∧ is_ok r = is_ok a) ∨
   (still_member s s' ∧ is_ok r = false ∧ ∃ e, answered (K8sdClient EmptyString) (Err e) s s')).
Proof.
  unfold removeNodeFromMicrocluster. intros [([] & s1 & E1%act_wrapf_Ok & E)|(e & E & ->)]%act_bind_inv.
  - rewrite act_logged_bind in E. set (s2 := (wait_joined _ _ _ _).2) in *.
    assert (K2 : still_member s s2).
    { etrans; [eapply (steps_run _ (perform (K8sdClient EmptyString))); [emits_go|asks_all|exact E1]|].
      destruct (wait_joined ticks (st_Name st) 0 s1) as [r2 s2'] eqn:E2.
      eapply (steps_run _ (wait_joined ticks (st_Name st) 0)); [| |exact E2].
      - generalize 0%Z as n. clear. induction ticks as [|ticks IH]; intros n; cbn [wait_joined]; emits_go.
      - generalize 0%Z as n. clear. induction ticks as [|ticks IH]; intros n; cbn [wait_joined]; asks_all. }
    rewrite act_try_bind in E. destruct (perform (GetClusterMember name) s2) as [member s3] eqn:E3.
    assert (K3 : still_member s s3)
      by (etrans; [exact K2|eapply (steps_run _ (perform (GetClusterMember name))); [emits_go|asks_all|exact E3]]).
    cbn zeta in E. set (address := match member with Ok m => cm_Address m | Err _ => EmptyString end) in E.
    apply act_wrapf_run in E as (a & E & ->). destruct (asks_perform (RemoveClusterMember name address force) _ _ _ E) as [Hw Hd].
    destruct K3 as [Ho [Hw3 Hd3]]. rewrite Hw, Hd. split_and!; [done|done|]. left. exists s3, address, a.
    split; [by split|]. split; [exact (perform_answered (RemoveClusterMember name address force) _ _ _ E)|by destruct a].
  - apply act_wrapf_run in E as (a & E & Ha). destruct a as [?|e']; [done|].
    destruct (steps_run (λ c, removes_member c = false) (perform (K8sdClient EmptyString)) s _ _ ltac:(emits_go) ltac:(asks_all) E) as (Ho & Hw & Hd).
    split_and!; [done|done|]. right. split; [by split|]. split; [done|]. exists e'. by apply (perform_answered (K8sdClient _)).
Qed.

(** ** The whole *)

Lemma removeNodeFromDatastore_None cfg name s s' : removeNodeFromDatastore cfg name s = (Ok None, s') →
  Datastore_GetType (CC_Datastore cfg) = "etcd" ∧ answered GetClusterMembers (Ok []) s s'.
Proof.
  unfold removeNodeFromDatastore. destruct (_ ==? _) eqn:Et; [|done]. apply bool_decide_eq_true in Et.
  intros E%act_wrapf_Ok. split; [done|]. unfold removeNodeFromEtcd in E.
  apply act_bind_Ok_inv in E as ([] & s1 & E1%act_wrapf_Ok%(perform_later (K8sdClient EmptyString)) & E).
  apply act_bind_Ok_inv in E as (members & s2 & E2%act_wrapf_Ok & E).
  apply (perform_answered GetClusterMembers) in E2. destruct members as [|m0 members'].
  - injection E as <-. by eapply answered_before.
  - apply act_bind_Ok_inv in E as ([] & s3 & _ & E). by apply act_bind_Ok_inv in E as ([] & s4 & _ & [=]).
Qed.

Lemma unless_forced_run {A} force fmt (m : act A) a s r s' : unless_forced force fmt m a s = (r, s') →
  ∃ x, m s = (x, s') ∧ r = match x with
    | Ok a => SyncResponse a
    | Err e => if force then SyncResponse a else ErrorResponse InternalError (Wrapf fmt [] e)
    end.
Proof.
  unfold unless_forced, tried, act_try, mbind, handler_bind. destruct (m s) as [[x|e] s1].
  - intros [= <- <-]. by exists (Ok x).
  - destruct force; intros [= <- <-]; by exists (Err e).
Qed.
Lemma unless_forced_Sync {A} fmt (m : act A) a s x s' :
  unless_forced false fmt m a s = (SyncResponse x, s') → m s = (Ok x, s').
Proof. intros ([y|e] & E & Hx)%unless_forced_run; [by injection Hx as ->|done]. Qed.

(** Without force. *)
Lemma remove_from_cluster_run ticks st cfg req s r s' : rn_Force req = false →
  remove_from_cluster ticks st cfg req s = (r, s') →
  m_world s' = m_world s ∧ m_db s' = m_db s ∧
  ((∃ s1 address a, still_member s s1 ∧ left_datastore cfg (rn_Name req) s s1 ∧
      answered (RemoveClusterMember (rn_Name req) address false) a s1 s' ∧ succeeds r = is_ok a) ∨
   (still_member s s' ∧ succeeds r = false)).
Proof.
  unfold remove_from_cluster. intros Hf E. rewrite Hf in E.
  apply handler_bind_inv in E as [(removed & s1 & E1 & E)|Hstop].
  - apply unless_forced_Sync in E1.
    assert (K1 : still_member s s1) by (by eapply steps_run; [apply keeps_Datastore|apply asks_Datastore|]).
    destruct removed as [[]|]; cbn in E.
    2: { injection E as <- <-. pose proof K1 as (_ & Hw & Hd). split; [done|]. split; [done|by right]. }
    apply removeNodeFromDatastore_Some in E1. apply unless_forced_run in E as (x & E & Hr).
    apply removeNodeFromMicrocluster_run in E as (Hw & Hd & Hcase).
    assert (Hx : succeeds r = is_ok x) by (rewrite Hr; by destruct x). rewrite Hx.
    destruct K1 as (Ho1 & Hw1 & Hd1). rewrite Hw, Hd. split_and!; [done|done|].
    assert (K1 : still_member s s1) by done. destruct Hcase as [(s2 & address & a & K2 & Ha & ?)|(K2 & ? & _)].
    + left. exists s2, address, a. split; [by etrans|]. split; [|done]. intros Ht.
      destruct (E1 Ht) as (members & ms & m & Hm & Hl & Hin & Hn & Hrm). apply steps_later in K2.
      exists members, ms, m. split; [by eapply answered_after|].
      split_and!; [by eapply answered_after|done|done|by eapply answered_after].
    + right. split; [by etrans|done].
  - assert (Hx : succeeds r = false ∧ ∃ x, removeNodeFromDatastore cfg (rn_Name req) s = (x, s')).
    { destruct Hstop as [(c & e & (x & E1 & Hx)%unless_forced_run & ->)|[(x & E1 & Hx)%unless_forced_run ->]];
        (split; [done|by exists x]). }
    destruct Hx as (Hr & x & E1).
    assert (K1 : still_member s s') by (by eapply steps_run; [apply keeps_Datastore|apply asks_Datastore|]).
    pose proof K1 as (_ & Hw & Hd). split; [done|]. split; [done|by right].
Qed.

(** With force: no error ends the removal, only a panic does. *)
Lemma remove_from_cluster_forced ticks st cfg req s r s' : rn_Force req = true →
  remove_from_cluster ticks st cfg req s = (r, s') →
  m_world s' = m_world s ∧ m_db s' = m_db s ∧
  ((∃ s1 address a, still_member s s1 ∧ answered (RemoveClusterMember (rn_Name req) address true) a s1 s' ∧
      r = SyncResponse tt) ∨
   (still_member s s' ∧
    ((r = SyncResponse tt ∧ ∃ e, answered (K8sdClient EmptyString) (Err e) s s') ∨
     (r = Panicked ∧ Datastore_GetType (CC_Datastore cfg) = "etcd" ∧ answered GetClusterMembers (Ok []) s s')))).
Proof.
  unfold remove_from_cluster. intros Hf E. rewrite Hf in E.
  apply handler_bind_inv in E as [(removed & s1 & (x & E1 & Hx)%unless_forced_run & E)|Hstop].
  - assert (K1 : still_member s s1) by (by eapply steps_run; [apply keeps_Datastore|apply asks_Datastore|]).
    destruct removed as [[]|]; cbn in E.
    + apply unless_forced_run in E as (y & E & Hr). apply removeNodeFromMicrocluster_run in E as (Hw & Hd & Hcase).
      assert (r = SyncResponse tt) as -> by (rewrite Hr; by destruct y as [[]|]). clear Hr.
      pose proof K1 as (_ & Hw1 & Hd1). rewrite Hw, Hd. split_and!; [done|done|].
      destruct Hcase as [(s2 & address & a & K2 & Ha & _)|(K2 & _ & e & Ha)].
      * left. exists s2, address, a. split_and!; [by etrans|done|done].
      * right. split; [by etrans|]. left. split; [done|]. exists e. apply steps_later in K1.
        by eapply answered_before.
    + injection E as <- <-. pose proof K1 as (_ & ? & ?). split_and!; [done|done|]. right. split; [done|right].
      split; [done|]. destruct x as [[[]|]|e]; [done| |done]. by eapply removeNodeFromDatastore_None.
  - destruct Hstop as [(c & e & (x & E1 & Hx)%unless_forced_run & _)|[(x & E1 & Hx)%unless_forced_run _]]; by destruct x.
Qed.

Definition left_kubernetes (cfg : ClusterConfig) (name : string) (s s' : Machine) : Prop :=
  keeps_kubernetes_node cfg = true ∨ answered (DeleteNode name) (Ok tt) s s'.

(** What comes before the cluster is left: the role of the node, and Kubernetes. *)
Lemma kubernetes_step cfg name force s r s1 :
  (if keeps_kubernetes_node cfg then mret tt
   else unless_forced force "failed to remove node from Kubernetes: %w" (removeNodeFromKubernetes name) tt) s = (r, s1) →
  still_member s s1 ∧
  if force then r = SyncResponse tt else succeeds r = true → r = SyncResponse tt ∧ left_kubernetes cfg name s s1.
Proof.
  unfold left_kubernetes. destruct (keeps_kubernetes_node cfg).
  - intros [= <- <-]. split; [done|]. destruct force; [done|]. intros _. split; [done|by left].
  - intros (x & E & ->)%unless_forced_run.
    split; [by eapply steps_run; [apply keeps_Kubernetes|apply asks_Kubernetes|]|].
    destruct force, x as [[]|e]; [done|done| |done]. intros _. split; [done|right].
    by apply removeNodeFromKubernetes_Ok.
Qed.

Lemma still_member_unchanged s s' : still_member s s' → m_world s' = m_world s ∧ m_db s' = m_db s.
Proof. by intros [_ ?]. Qed.

(** The configuration is read before anything is done. *)
Lemma read_config cfg s : GetClusterConfig (m_db s) = Ok cfg →
  tried InternalError (act_wrapf "failed to get cluster config: %w" [] util_GetClusterConfig) s =
  (SyncResponse cfg, s).
Proof. intros Hc. unfold tried, act_wrapf, util_GetClusterConfig, act_query, act_wrapf. by rewrite Hc. Qed.

(** The role of the node: an error is none, if the removal is forced. *)
Lemma role_step name force s r s1 :
  unless_forced force "failed to determine if node is control-plane: %w" (IsControlPlaneNode name) false s = (r, s1) →
  still_member s s1 ∧
  if force then ∃ b, r = SyncResponse b
  else ∀ b, r = SyncResponse b → ∃ members, answered GetClusterMembers (Ok members) s s1 ∧
    b = existsb (λ m, cm_Name m ==? name) members.
Proof.
  intros (x & E & ->)%unless_forced_run.
  split; [by eapply steps_run; [apply keeps_IsControlPlaneNode|apply asks_IsControlPlaneNode|]|].
  destruct force; [by destruct x; eexists|]. intros b Hx. destruct x as [b'|e]; [|done]. injection Hx as <-.
  by apply IsControlPlaneNode_Ok.
Qed.

Definition rest_of_removal (ticks : nat) (st : MState) (cfg : ClusterConfig) (req : RemoveNodeRequest) : handler unit :=
  isControlPlane ← unless_forced (rn_Force req) "failed to determine if node is control-plane: %w"
                     (IsControlPlaneNode (rn_Name req)) false;
  _ ← (if keeps_kubernetes_node cfg then mret tt
       else unless_forced (rn_Force req) "failed to remove node from Kubernetes: %w"
              (removeNodeFromKubernetes (rn_Name req)) tt);
  if isControlPlane || rn_Force req then remove_from_cluster ticks st cfg req else mret tt.

Lemma postClusterRemove_rest ticks st r req m cfg : Body r = Ok req → GetClusterConfig (m_db m) = Ok cfg →
  postClusterRemove ticks st r m = rest_of_removal ticks st cfg req m.
Proof.
  intros Hb Hc. unfold postClusterRemove. rewrite (handler_bind_step _ _ _ req m) by (by apply body_Sync).
  by rewrite (handler_bind_step _ _ _ cfg m) by (by apply read_config).
Qed.

Lemma removal_forced ticks st cfg req m response m' : rn_Force req = true →
  rest_of_removal ticks st cfg req m = (response, m') →
  m_world m' = m_world m ∧ m_db m' = m_db m ∧
  ((∃ m1 address a, still_member m m1 ∧ answered (RemoveClusterMember (rn_Name req) address true) a m1 m' ∧
      response = SyncResponse tt) ∨
   (still_member m m' ∧
    ((response = SyncResponse tt ∧ ∃ e, answered (K8sdClient EmptyString) (Err e) m m') ∨
     (response = Panicked ∧ Datastore_GetType (CC_Datastore cfg) = "etcd" ∧
      answered GetClusterMembers (Ok []) m m')))).
Proof.
  intros Hf E. unfold rest_of_removal in E. rewrite Hf in E.
  apply handler_bind_inv in E as [(cp & s1 & [K1 _]%role_step & E)|[(c & e & [_ [b ?]]%role_step & _)|[[_ [b ?]]%role_step _]]];
    [|done..].
  apply handler_bind_inv in E as [([] & s2 & [K2 _]%kubernetes_step & E)|[(c & e & [_ ?]%kubernetes_step & _)|[[_ ?]%kubernetes_step _]]];
    [|done..].
  rewrite orb_true_r in E. apply remove_from_cluster_forced in E as (Hw & Hd & Hcase); [|done].
  assert (K : still_member m s2) by (by etrans). pose proof (steps_later _ _ _ K) as Hl.
  pose proof (still_member_unchanged _ _ K) as [Hw2 Hd2]. rewrite Hw, Hd. split; [done|]. split; [done|].
  destruct Hcase as [(s3 & address & a & K3 & Ha & Hr)|(K3 & Hcase)].
  - left. exists s3, address, a. split; [by etrans|done].
  - right. split; [by etrans|]. destruct Hcase as [(Hr & e & Ha)|(Hr & Ht & Ha)]; [left|right]; (split; [done|]).
    + exists e. by eapply answered_before.
    + split; [done|]. by eapply answered_before.
Qed.

Lemma removal_unforced ticks st cfg req m response m' : rn_Force req = false →
  rest_of_removal ticks st cfg req m = (response, m') →
  m_world m' = m_world m ∧ m_db m' = m_db m ∧
  ((∃ members m1 m2 m3 address a, answered GetClusterMembers (Ok members) m m1 ∧
      existsb (λ c, cm_Name c ==? rn_Name req) members = true ∧ left_kubernetes cfg (rn_Name req) m1 m2 ∧
      left_datastore cfg (rn_Name req) m2 m3 ∧ still_member m m3 ∧
      answered (RemoveClusterMember (rn_Name req) address false) a m3 m' ∧ succeeds response = is_ok a) ∨
   (still_member m m' ∧
    (succeeds response = true → ∃ members m1, answered GetClusterMembers (Ok members) m m1 ∧
       existsb (λ c, cm_Name c ==? rn_Name req) members = false ∧ left_kubernetes cfg (rn_Name req) m1 m'))).
Proof.
  intros Hf E. unfold rest_of_removal in E. rewrite Hf in E.
  apply handler_bind_inv in E as [(cp & s1 & [K1 Hcp]%role_step & E)|Hstop].
  2: { assert (still_member m m' ∧ succeeds response = false) as [K Hr]
         by (destruct Hstop as [(c & e & [K _]%role_step & ->)|[[K _]%role_step ->]]; done).
       pose proof (still_member_unchanged _ _ K) as []. split_and!; [done|done|]. right. split; [done|]. by rewrite Hr. }
  destruct (Hcp _ eq_refl) as (members & Hm & ->).
  apply handler_bind_inv in E as [([] & s2 & [K2 Hk]%kubernetes_step & E)|Hstop].
  2: { assert (still_member s1 m' ∧ succeeds response = false) as [K Hr]
         by (destruct Hstop as [(c & e & [K _]%kubernetes_step & ->)|[[K _]%kubernetes_step ->]]; done).
       assert (K' : still_member m m') by (by etrans).
       pose proof (still_member_unchanged _ _ K') as []. split_and!; [done|done|]. right. split; [done|]. by rewrite Hr. }
  destruct (Hk eq_refl) as [_ Hkube]. assert (K : still_member m s2) by (by etrans).
  pose proof (still_member_unchanged _ _ K) as [Hw2 Hd2].
  destruct (existsb _ members) eqn:Hrole; cbn [orb] in E.
  - apply remove_from_cluster_run in E as (Hw & Hd & Hcase); [|done]. rewrite Hw, Hd. split_and!; [done|done|].
    destruct Hcase as [(s3 & address & a & K3 & Hl & Ha & Hr)|(K3 & Hr)].
    + left. exists members, s1, s2, s3, address, a. split_and!; [done|done|done|done|by etrans|done|done].
    + right. split; [by etrans|]. by rewrite Hr.
  - injection E as <- <-. split_and!; [done|done|]. right. split; [done|]. intros _. by exists members, s1.
Qed.

End Remove.

(** ** A member leaves *)

Definition two_members : Outside := λ log c,
  match c as c return res (answer c) with
  | GetClusterMembers => Ok [mkClusterMember "n1" "10.0.0.1:6400" "10.0.0.1" "voter"; mkClusterMember "n2" "10.0.0.2:6400" "10.0.0.2" "voter"]
  | MemberList _ => Ok [mkMember 5 "n1" []; mkMember 6 "n2" []]
  | c => default_answer c
  end.
Definition demo_etcd_store : DBEnv := {|
  db_fail _ := None; json_Marshal _ := Ok "etcd"; json_Unmarshal _ := Ok JoinFacts.demo_etcd_config;
  json_representable c := True |}.
Definition demo_keeps : RemoveAnnotations := {| AnnotationSkipCleanupKubernetesNodeOnRemove := "skip" |}.
Definition demo_member_machine : Machine := mkMachine (mkWorld ∅ []) base_db 0 [].
Definition demo_removal : Response unit * Machine :=
  @postClusterRemove demo_etcd_store two_members demo_keeps 3 (mkMState "n1" "10.0.0.1" EmptyString)
    (mkRequest (λ _, EmptyString) (Ok (mkRemoveNode "n2" false))) demo_member_machine.

End ApiRemoveFacts.
