(* ===== verification/ApiCertificatesFacts.v ===== *)
(** * What the API promises: the certificates of a node

    ApiCertificates.v with the controller of Csr.v: what a worker asks for when it renews its
    certificates passes the automatic approval, and a renewal that leaves the certificate of
    the kubelet out takes it away. *)

From stdpp Require Import functions.
From S2P Require Import Prelude GoStrings GoNet Cidr Config ConfigConvert FileSys Pki PkiNode Arguments Setup.
From S2P Require Import Node Database Csr Effects Snap NodeConfig NodeSetup Token KubeClient Hooks HookFacts.
From S2P Require Import HooksBootstrap JoinFacts Api ApiTokens ApiCluster ApiCertificates ApiFacts.
Import GoStr GoNet Cidr Config Convert FileSys Pki PkiNode Arguments Setup Node Database Effects Snap NodeSetup.
Import Token KubeClient Hooks HookFacts Bootstrap Api ApiTokens ApiCluster ApiCertificates ApiFacts.

Module ApiCertificatesFacts.

(** ** The request of a worker, at the API server *)

Definition usage_of (s : string) : Csr.Usage :=
  if s ==? UsageServerAuth then Csr.UsageServerAuth
  else if s ==? UsageClientAuth then Csr.UsageClientAuth
  else if s ==? UsageDigitalSignature then Csr.UsageDigitalSignature
  else if s ==? UsageKeyEncipherment then Csr.UsageKeyEncipherment
  else Csr.OtherUsage s.

(** The object that the API server makes of a new request, for the user that sent it. *)
Definition api_object (c : NewCSR) (username : string) (groups : list string) : Csr.CSR :=
  Csr.mkCSR
    (Csr.mkSpec (list_to_map (nc_Annotations c)) (nc_Request c) (nc_SignerName c) username groups
       (usage_of <$> nc_Usages c) (Some (nc_ExpirationSeconds c))) [] EmptyString.

Section Csr.
Context `{SetupEnv, DBEnv, Externals, Outside, SnapEnv, PkiEnv, !Csr.CsrEnv, !CertNames, !CertificatesEnv,
  !OSEnvOk, !SetupEnvOk}.

(** What is encoded can be decoded, and what is encrypted for a key is decrypted with it. *)
Definition requests_read_back : Prop :=
  (∀ bytes pem, pem_EncodeToMemory "CERTIFICATE REQUEST" bytes = Some pem →
     pem_Decode pem = Some ("CERTIFICATE REQUEST", bytes)) ∧
  (∀ n subject dns ips key b, x509_CreateCertificateRequest n subject dns ips key = Ok b →
     ∃ dns' ips', x509_ParseCertificateRequest b = Ok (subject, dns', ips', Public key)).
Definition signatures_read_back (priv : PrivateKey) : Prop :=
  ∀ n x e, rsa_EncryptPKCS1v15 n (Public priv) x = Ok e →
    Csr.base64_DecodeString (EncodeToString e) = Ok e ∧ Csr.rsa_DecryptPKCS1v15 priv e = Ok x.

(** The controller grants what a node [hostname] asks for. *)
Definition granted (priv : PrivateKey) (hostname : string) (c : NewCSR) : Prop :=
  ∀ groups, "system:nodes" ∈ groups →
    let obj := api_object c ("system:node:" +:+ hostname) groups in
    Csr.reconcileAutoApprove obj priv None =
      (Some (Csr.add_condition obj (Csr.mkCondition Csr.CertificateApproved "K8sdApprove" "CSR approved by k8sd")),
       Ok None).

Lemma GenerateCSR_reads_back subject bits dns ips s csrPEM keyPEM s' : requests_read_back →
  act_generate (GenerateCSR subject bits dns ips) tt s = (Ok (csrPEM, keyPEM), s') →
  (∃ dns' ips' pub, LoadCertificateRequest csrPEM = Ok (subject, dns', ips', pub)) ∧
  m_world s' = m_world s ∧ m_db s' = m_db s ∧ m_log s' = m_log s.
Proof.
  intros [Hp Hx]. unfold act_generate. destruct (GenerateCSR subject bits dns ips tt (m_rand s)) as [[r c] n] eqn:E.
  intros [= -> <-]. split; [|done]. unfold GenerateCSR in E.
  apply gen_bind_inv in E as [(key & c1 & n1 & _ & E)|(e & ? & _)]; [|done].
  apply gen_bind_inv in E as [(keyPEM' & c2 & n2 & _ & E)|(e & ? & _)]; [|done].
  apply gen_bind_inv in E as [(b & c3 & n3 & E3 & E)|(e & ? & _)]; [|done].
  apply gen_bind_inv in E as [(csr & c4 & n4 & E4 & E)|(e & ? & _)]; [|done].
  injection E as -> _ _ _. apply gen_wrapf_inv in E3 as (r0 & [= Hc _ _] & Hw). symmetry in Hw. apply wrapf_Ok in Hw as ->.
  unfold encode in E4. destruct (pem_EncodeToMemory _ b) as [pem|] eqn:Ep; [|done]. injection E4 as -> _ _.
  unfold LoadCertificateRequest. rewrite (Hp _ _ Ep). rewrite bool_decide_eq_true_2 by done.
  destruct (Hx _ _ _ _ _ _ Hc) as (dns' & ips' & ->). by exists dns', ips', (Public key).
Qed.

(** The definitions of the three requests meet the requirements of the controller. *)
Lemma definitions_meet_requirements hostname d c groups : d ∈ worker_csr_definitions hostname →
  nc_SignerName c = cd_SignerName d → nc_Usages c = cd_Usages d →
  Csr.signer_requirements (Csr.csr_Spec (api_object c ("system:node:" +:+ hostname) groups))
    (mkName (cd_CommonName d) (cd_Organization d)).
Proof.
  intros Hd Hs Hu. unfold Csr.signer_requirements, Csr.node_subject, api_object. cbn -[usage_of]. rewrite Hs, Hu.
  assert (Hsame : ∀ auth, Csr.same_elements [Csr.UsageDigitalSignature; Csr.UsageKeyEncipherment; auth]
    [auth; Csr.UsageDigitalSignature; Csr.UsageKeyEncipherment]) by (intros auth u; rewrite !elem_of_cons; naive_solver).
  apply elem_of_cons in Hd as [->|Hd]; [|apply elem_of_cons in Hd as [->|Hd]; [|apply list_elem_of_singleton in Hd as ->]].
  - left. split; [done|]. split_and!; [apply Hsame|done|done].
  - right; left. split; [done|]. split_and!; [apply Hsame|done|done].
  - right; right. split; [done|]. split; [apply Hsame|done].
Qed.

Lemma new_csr_granted hostname req priv d csrPEM n signature dns ips pub : d ∈ worker_csr_definitions hostname →
  signatures_read_back priv → hostname ≠ EmptyString → Csr.CleanHostname hostname = Ok hostname →
  LoadCertificateRequest csrPEM = Ok (mkName (cd_CommonName d) (cd_Organization d), dns, ips, pub) →
  rsa_EncryptPKCS1v15 n (Public priv) (Csr.sha256_Sum csrPEM) = Ok signature →
  granted priv hostname (new_csr hostname req d csrPEM signature).
Proof.
  intros Hd Hs Hne Hc Hl He groups Hg. cbv zeta. unfold Csr.reconcileAutoApprove.
  assert (Hv : Csr.validateCSR (api_object (new_csr hostname req d csrPEM signature) ("system:node:" +:+ hostname) groups)
    priv = Ok tt); [|by rewrite Hv]. apply Csr.validate_valid. destruct (Hs _ _ _ He) as [Hb64 Hdec].
  exists (mkName (cd_CommonName d) (cd_Organization d)), dns, ips, pub, signature, hostname.
  split_and!; try done. by apply definitions_meet_requirements.
Qed.

(** *** One request *)

Definition creates_granted (priv : PrivateKey) (hostname name : string) (c : command) : Prop :=
  match c with
  | CreateCSR csr => nc_Name csr = name ∧ granted priv hostname csr
  | RunCommand _ => False
  | _ => True
  end.

(** The event of a request that was approved, with a certificate. *)
Definition issued_event (ev : CSREvent) (cert : string) : Prop :=
  ce_Certificate ev = cert ∧ cert ≠ EmptyString ∧ is_ok (LoadCertificate cert EmptyString) = true ∧
  has_condition "Approved" ev = true ∧ has_condition "Denied" ev = false ∧ has_condition "Failed" ev = false.

Lemma verifyCSRAndSetPKI_Some ev cert : verifyCSRAndSetPKI ev = Ok (Some cert) → issued_event ev cert.
Proof.
  unfold verifyCSRAndSetPKI, isCertificateSigningRequestApprovedAndIssued, issued_event.
  destruct (has_condition "Denied" ev); [done|]. destruct (has_condition "Failed" ev); [done|].
  destruct (has_condition "Approved" ev); [|done]. cbn.
  case_bool_decide as Hne; cbn; [done|]. destruct (LoadCertificate _ _) eqn:E; cbn; [|done].
  intros [= <-]. split_and!; try done. by rewrite E.
Qed.

Lemma emits_watch {A} P ticks name (verify : CSREvent → act (option A)) :
  (∀ n, P (WatchCSR n)) → (∀ n, P (OpenWatchCSR n)) → P (After 3) → (∀ ev, emits P eq (verify ev)) →
  emits P eq (WatchCertificateSigningRequest ticks name verify).
Proof.
  intros Hw Ho Ha Hv. induction ticks as [|ticks IH]; [cbn; emits_go|].
  cbn [WatchCertificateSigningRequest]. apply emits_bind; [typeclasses eauto| |].
  - apply emits_wrapf. unfold watchCertificateSigningRequestEvents. apply emits_bind; [typeclasses eauto| |].
    + apply emits_try. by apply (emits_perform _ _ (OpenWatchCSR name)).
    + intros [ok|e]; [|emits_go]. clear IH. generalize (S ticks) as k. induction k as [|k IH]; cbn [watch_events]; [emits_go|].
      apply emits_bind; [typeclasses eauto|by apply (emits_perform _ _ (WatchCSR name))|]. intros [ev|]; [|emits_go].
      apply emits_bind; [typeclasses eauto|by apply emits_wrapf|]. intros [a|]; [emits_go|done].
  - intros [a|]; [emits_go|]. apply emits_bind; [typeclasses eauto|by apply emits_try, (emits_perform _ _ (After 3))|].
    intros [ok|e]; [done|emits_go].
Qed.
Lemma asks_watch {A} ticks name (verify : CSREvent → act (option A)) : (∀ ev, asks (verify ev)) →
  asks (WatchCertificateSigningRequest ticks name verify).
Proof.
  intros Hv. induction ticks as [|ticks IH]; [cbn; asks_go|].
  cbn [WatchCertificateSigningRequest]. apply asks_bind.
  - apply asks_wrapf. unfold watchCertificateSigningRequestEvents. apply asks_bind;
      [by apply asks_try, (asks_perform (OpenWatchCSR name))|].
    intros [ok|e]; [|asks_go]. clear IH. generalize (S ticks) as k. induction k as [|k IH]; cbn [watch_events]; [asks_go|].
    apply asks_bind; [by apply (asks_perform (WatchCSR name))|]. intros [ev|]; [|asks_go]. apply asks_bind; [by apply asks_wrapf|].
    intros [a|]; [asks_go|done].
  - intros [a|]; [asks_go|]. apply asks_bind; [by apply asks_try, (asks_perform (After 3))|]. intros [ok|e]; [done|asks_go].
Qed.

(** A watch that succeeds saw an event that its function accepted. *)
Lemma watch_Ok {A} ticks name (f : CSREvent → res (option A)) s a s' :
  WatchCertificateSigningRequest ticks name (λ ev, act_lift (f ev)) s = (Ok a, s') →
  ∃ ev, answered (WatchCSR name) (Ok (Some ev)) s s' ∧ f ev = Ok (Some a).
Proof.
  assert (Hev : ∀ k s a s', watch_events k name (λ ev, act_lift (f ev)) s = (Ok (Some a), s') →
    ∃ ev, answered (WatchCSR name) (Ok (Some ev)) s s' ∧ f ev = Ok (Some a)).
  { induction k as [|k IH]; cbn [watch_events]; [done|]. intros s0 a0 s0' (evt & s1 & E1 & E)%act_bind_Ok_inv.
    pose proof (perform_later (WatchCSR name) _ _ _ E1) as Hl. apply (perform_answered (WatchCSR name)) in E1.
    destruct evt as [ev|]; [|done]. apply act_bind_Ok_inv in E as (valid & s2 & [= E2 <-]%act_wrapf_Ok & E).
    destruct valid as [a1|].
    - injection E as -> <-. by exists ev.
    - apply IH in E as (ev' & Ha & Hf). exists ev'. split; [by eapply answered_before|done]. }
  revert s. induction ticks as [|ticks IH]; cbn [WatchCertificateSigningRequest]; intros s; [done|].
  intros (r & s1 & E1%act_wrapf_Ok & E)%act_bind_Ok_inv. unfold watchCertificateSigningRequestEvents in E1.
  apply act_bind_Ok_inv in E1 as (w & s2 & (r0 & E2%(perform_later (OpenWatchCSR name)) & [= ->])%act_try_run & E1).
  destruct r as [a0|].
  - injection E as -> <-. destruct r0; [|done]. apply Hev in E1 as (ev & Ha & Hf). exists ev.
    split; [by eapply answered_before|done].
  - assert (Hl1 : later s2 s1).
    { destruct r0; [|injection E1 as <-; done]. revert E1. generalize (S ticks) as k. intros k.
      apply emits_later. induction k as [|k IHk]; cbn [watch_events]; emits_go. }
    apply act_bind_Ok_inv in E as (w & s3 & (r3 & E3%(perform_later (After 3)) & [= ->])%act_try_run & E).
    destruct r3; [|done]. apply IH in E as (ev & Ha & Hf). exists ev. split; [|done].
    eapply answered_before; [|exact Ha]. etrans; [exact E2|]. by etrans.
Qed.

Lemma act_rand_run {A} (f : nat → res A) s r s' : NodeConfig.act_rand f s = (r, s') →
  r = f (m_rand s) ∧ m_world s' = m_world s ∧ m_db s' = m_db s ∧ m_log s' = m_log s.
Proof. by intros [= <- <-]. Qed.

Lemma act_generate_run {S A} (g : gen S A) c s r s' : act_generate g c s = (r, s') →
  m_world s' = m_world s ∧ m_db s' = m_db s ∧ m_log s' = m_log s.
Proof. unfold act_generate. destruct (g c (m_rand s)) as [[r0 c0] n]. by intros [= _ <-]. Qed.

(** One request for a certificate: what it creates is granted, and what it returns comes from
    an event of that request. *)
Lemma request_certificate_run ticks hostname priv hostnames ips req d s r s' :
  d ∈ worker_csr_definitions hostname → requests_read_back → signatures_read_back priv →
  hostname ≠ EmptyString → Csr.CleanHostname hostname = Ok hostname →
  request_certificate ticks hostname (Public priv) hostnames ips req d s = (r, s') →
  let name := csr_name (rr_Seed req) (cd_CSRBaseName d) in
  steps (creates_granted priv hostname name) s s' ∧
  ∀ x, r = Ok x → x.1.1 = cd_CertName d ∧
    ∃ ev, answered (WatchCSR name) (Ok (Some ev)) s s' ∧ issued_event ev x.1.2.
Proof.
  intros Hd Hreq Hsig Hne Hc E name. unfold request_certificate in E. fold name in E.
  set (P := creates_granted priv hostname name).
  apply act_bind_inv in E as [([csrPEM keyPEM] & s1 & E1%act_wrapf_Ok & E)|(e & (r1 & E1 & _)%act_wrapf_run & ->)].
  2: { apply act_generate_run in E1 as (? & ? & ?). split; [by apply steps_unlogged|done]. }
  pose proof (act_generate_run _ _ _ _ _ E1) as (Hw1 & Hd1 & Hl1).
  apply GenerateCSR_reads_back in E1 as [(dns & ips' & pub & Hload) _]; [|done].
  assert (K1 : steps P s s1) by (by apply steps_unlogged).
  apply act_bind_inv in E as [(signature & s2 & E2%act_wrapf_Ok & E)|(e & (r2 & E2 & _)%act_wrapf_run & ->)].
  2: { apply act_rand_run in E2 as (_ & ? & ? & ?). split; [|done]. etrans; [exact K1|by apply steps_unlogged]. }
  apply act_rand_run in E2 as (Hs & Hw2 & Hd2 & Hl2). symmetry in Hs.
  assert (K2 : steps P s s2) by (etrans; [exact K1|by apply steps_unlogged]).
  pose proof (new_csr_granted hostname req priv d csrPEM _ signature _ _ _ Hd Hsig Hne Hc Hload Hs) as Hg.
  set (csr := new_csr hostname req d csrPEM signature) in *.
  apply act_bind_inv in E as [([] & s3 & E3%act_wrapf_Ok & E)|(e & (r3 & E3 & _)%act_wrapf_run & ->)].
  2: { split; [|done]. etrans; [exact K2|]. eapply (steps_run _ (perform (CreateCSR csr))); [by apply (emits_perform _ _ (CreateCSR csr))|apply (asks_perform (CreateCSR csr))|exact E3]. }
  assert (K3 : steps P s s3).
  { etrans; [exact K2|]. eapply (steps_run _ (perform (CreateCSR csr)));
      [by apply (emits_perform _ _ (CreateCSR csr))|apply (asks_perform (CreateCSR csr))|exact E3]. }
  assert (He : emits P eq (WatchCertificateSigningRequest ticks name (λ csr, act_lift (verifyCSRAndSetPKI csr))))
    by (apply emits_watch; [done..|]; intros ev; apply emits_lift; typeclasses eauto).
  assert (Ha : asks (WatchCertificateSigningRequest ticks name (λ csr, act_lift (verifyCSRAndSetPKI csr))))
    by (apply asks_watch; intros ev; apply asks_lift).
  apply act_bind_inv in E as [(cert & s4 & E4%act_wrapf_Ok & [= <- <-])|(e & (r4 & E4 & _)%act_wrapf_run & ->)].
  2: { split; [|done]. etrans; [exact K3|by eapply steps_run]. }
  split; [etrans; [exact K3|by eapply steps_run]|]. intros x [= <-]. split; [done|].
  apply watch_Ok in E4 as (ev & Hev & Hv%verifyCSRAndSetPKI_Some). exists ev. split; [|done].
  eapply answered_before; [by eapply steps_later|exact Hev].
Qed.

(** *** All requests of a worker *)

Lemma errgroup_failed {A} (tasks : list (act A)) e s r s' : errgroup tasks (Some e) s = (r, s') → is_ok r = false.
Proof.
  revert e s r s'. induction tasks as [|task tasks IH]; intros e s r s'; cbn [errgroup]; [by intros [= <- <-]|].
  intros [(x & s1 & _ & E)|(e' & _ & ->)]%act_bind_inv; [|done]. destruct x as [a|e']; [|by apply IH in E].
  apply act_bind_inv in E as [(l & s2 & E2%IH & _)|(e' & _ & ->)]; done.
Qed.

Lemma errgroup_run {A B} P (f : A → act B) (Q : A → B → Machine → Machine → Prop) l failed s r s' :
  (∀ a s r s', a ∈ l → f a s = (r, s') → steps P s s' ∧ ∀ b, r = Ok b → Q a b s s') →
  errgroup (f <$> l) failed s = (r, s') →
  steps P s s' ∧ ∀ bs, r = Ok bs →
    Forall2 (λ a b, ∃ s1 s2, later s s1 ∧ Q a b s1 s2 ∧ later s2 s') l bs.
Proof.
  intros Hf. revert failed s r s'. induction l as [|a l IH]; intros failed s r s'; cbn [fmap list_fmap errgroup].
  - intros [= <- <-]. split; [done|]. destruct failed; [done|]. intros bs [= <-]. constructor.
  - intros E. assert (Hl : ∀ a s r s', a ∈ l → f a s = (r, s') → steps P s s' ∧ ∀ b, r = Ok b → Q a b s s')
      by (intros; apply Hf; [by right|done]).
    apply act_bind_inv in E as [(x & s1 & (r0 & E1 & [= ->])%act_try_run & E)|(e & (r0 & _ & [=])%act_try_run & _)].
    apply Hf in E1 as [K1 HQ]; [|by left]. destruct r0 as [b|e].
    + apply act_bind_inv in E as [(bs & s2 & E2 & [= <- <-])|(e & E2 & ->)].
      * apply (IH Hl) in E2 as [K2 H2']. split; [by etrans|]. intros bs' [= <-]. constructor.
        { exists s, s1. split; [done|]. split; [by apply HQ|by eapply steps_later]. }
        eapply Forall2_impl; [by apply H2'|]. intros a0 b0 (t1 & t2 & Ht1 & HQ' & Ht2). exists t1, t2.
        split; [etrans; [by eapply steps_later|done]|done].
      * apply (IH Hl) in E2 as [K2 _]. split; [by etrans|done].
    + pose proof (errgroup_failed _ _ _ _ _ E) as He. apply (IH Hl) in E as [K2 _]. split; [by etrans|].
      by intros bs ->.
Qed.

Lemma csr_definitions_run hostname certs s r s' : csr_definitions hostname certs s = (r, s') →
  s' = s ∧ ∀ defs, r = SyncResponse defs →
    (∀ d, d ∈ defs → d ∈ worker_csr_definitions hostname ∧ cert_string (cd_CertName d) ∈ certs) ∧
    ∀ cert, cert ∈ certs → ∃ d, d ∈ defs ∧ cert_string (cd_CertName d) = cert.
Proof.
  revert r s'. induction certs as [|cert certs IH]; intros r s'; cbn [csr_definitions].
  { intros [= <- <-]. split; [done|]. intros defs [= <-]. split; [set_solver|set_solver]. }
  destruct (getWorkerCSRDefinitions hostname cert) as [d|] eqn:Ed; [|intros [= <- <-]; done].
  unfold getWorkerCSRDefinitions in Ed. apply List.find_some in Ed as [Hd%list_elem_of_In Hn%bool_decide_eq_true].
  intros [(l & s1 & E & [= <- <-])|[(st & e & E & ->)|[E ->]]]%handler_bind_inv; apply IH in E as [-> Hdefs];
    (split; [done|]); intros defs; [|done..].
  intros [= <-]. destruct (Hdefs l eq_refl) as [H1' H2']. split.
  - intros d' [->|Hin]%elem_of_cons; [by subst; split; [|left]|]. destruct (H1' _ Hin). split; [done|by right].
  - intros c [->|Hin]%elem_of_cons; [exists d; split; [by left|done]|]. destruct (H2' _ Hin) as (d' & ? & ?).
    exists d'. split; [by right|done].
Qed.

Lemma check_run {A} st fmt (x : res A) s r s' :
  tried st (act_wrapf fmt [] (act_lift x)) s = (r, s') → r ≠ Panicked ∧ s' = s.
Proof. intros (r0 & (r1 & [= _ <-] & ->)%act_wrapf_run & ->)%tried_run. split; [by destruct (wrapf _ _ _)|done]. Qed.
Lemma certs_of_request_run role certs s r s' : certs_of_request role certs s = (r, s') →
  s' = s ∧ ∀ l, r = SyncResponse l → l = match certs with [] => getAllCertsForRole role | _ => certs end.
Proof.
  unfold certs_of_request. destruct certs as [|c certs]; [intros [= <- <-]; split; [done|congruence]|].
  intros [([] & s1 & [_ ->]%check_run & [= <- <-])|[(st & e & [_ ->]%check_run & ->)|[[_ ->]%check_run ->]]]%handler_bind_inv;
    (split; [done|]); intros l; congruence.
Qed.

(** The pair of a certificate of a worker. *)
Definition worker_pair (n : CertificateName) (c : WorkerNodePKI) : string * string :=
  match n with
  | CertificateKubelet => (wn_KubeletCert c, wn_KubeletKey c)
  | CertificateKubeletClient => (wn_KubeletClientCert c, wn_KubeletClientKey c)
  | _ => (wn_KubeProxyClientCert c, wn_KubeProxyClientKey c)
  end.
Definition worker_certificate (n : CertificateName) : Prop :=
  n ∈ [CertificateKubelet; CertificateKubeletClient; CertificateProxyClient].

Lemma issued_pki_pair cfg l n : worker_certificate n →
  if bool_decide (n ∈ (λ x : CertificateName * string * string, x.1.1) <$> l)
  then (n, (worker_pair n (issued_pki cfg l)).1, (worker_pair n (issued_pki cfg l)).2) ∈ l
  else worker_pair n (issued_pki cfg l) = (EmptyString, EmptyString).
Proof.
  intros Hn. unfold issued_pki. induction l as [|[[n0 cert] key] l IH] using rev_ind.
  { cbn. unfold worker_certificate in Hn. by destruct n. }
  rewrite fold_left_app. set (c := fold_left _ l _) in *. cbn [fold_left fst snd].
  rewrite (bool_decide_ext _ (n ∈ (λ x : CertificateName * string * string, x.1.1) <$> l ∨ n = n0))
    by (rewrite fmap_app, elem_of_app; cbn; by rewrite list_elem_of_singleton).
  destruct (decide (n = n0)) as [->|Hne].
  - rewrite bool_decide_eq_true_2 by by right. apply elem_of_app. right. apply list_elem_of_singleton.
    unfold worker_certificate in Hn. repeat (apply elem_of_cons in Hn as [->|Hn]; [done|]). by apply not_elem_of_nil in Hn.
  - assert (Hsame : worker_pair n (set_worker n0 cert key c) = worker_pair n c).
    { unfold worker_certificate in Hn. repeat (apply elem_of_cons in Hn as [->|Hn]; [by destruct n0|]).
      by apply not_elem_of_nil in Hn. }
    rewrite Hsame. case_bool_decide as Hin; case_bool_decide as Hin'; [|tauto..|done].
    apply elem_of_app. by left.
Qed.

(** *** The files *)

Definition worker_files (a : App) : list string :=
  [k8s_pki a "ca.crt"; k8s_pki a "client-ca.crt"; k8s_pki a "kubelet.crt"; k8s_pki a "kubelet.key";
   filepath_Join [KubernetesConfigDir a; "kubelet.conf"]; filepath_Join [KubernetesConfigDir a; "proxy.conf"]].
(** The paths differ, also from the temporary files in their directories. *)
Definition worker_paths_ok (a : App) : Prop :=
  NoDup (worker_files a) ∧ ∀ fs p, p ∈ worker_files a → os_temp fs (filepath_Dir p) ≠ p.

(** Where a certificate and its key are. *)
Definition installed (host : Host) (a : App) (cfg : ClusterConfig) (n : CertificateName) (pair : string * string)
    (w : World) : Prop :=
  let kubeconfig name := ∃ ip, GetLocalhostAddress (h_Localhost host) = Ok ip ∧
    KubeconfigString (local_server ip (APIServer_GetSecurePort (CC_APIServer cfg)))
      (Certificates_GetCACert (CC_Certificates cfg)) pair.1 pair.2 =
    Ok (contents w (filepath_Join [KubernetesConfigDir a; name])) in
  match n with
  | CertificateKubelet => contents w (k8s_pki a "kubelet.crt") = pair.1 ∧ contents w (k8s_pki a "kubelet.key") = pair.2
  | CertificateKubeletClient => kubeconfig "kubelet.conf"
  | _ => kubeconfig "proxy.conf"
  end.

Definition install_worker (host : Host) (a : App) (st : MState) (cfg : ClusterConfig) (certs : list string)
    (c : WorkerNodePKI) : handler (Z * act unit) :=
  _ ← write_worker "failed to write worker PKI: %w" a c;
  _ ← tried InternalError (address_of st);
  _ ← write_worker_kubeconfigs host a cfg c;
  expiration ← expiration_of (wn_KubeletCert c) "failed to load kubelet certificate: %w";
  mret (expiration,
        restart_worker a (requests_any certs [CertificateKubelet; CertificateKubeletClient])
          (requests_any certs [CertificateProxyClient])).

Definition failed_to_load (e : goerr) : goerr := Wrapf "failed to load kubelet certificate: %w" [] e.

Lemma ensure_worker_run (a : App) c w ch w' : EnsureWorkerPKI a c w = (Ok ch, w') → worker_paths_ok a →
  w_files w' !! k8s_pki a "kubelet.crt" = ensured (wn_KubeletCert c) (UID a) (GID a) 384 ∧
  w_files w' !! k8s_pki a "kubelet.key" = ensured (wn_KubeletKey c) (UID a) (GID a) 384.
Proof.
  intros E [Hnd Htmp]. set (l := [(k8s_pki a "ca.crt", wn_CACert c); (k8s_pki a "client-ca.crt", wn_ClientCACert c);
    (k8s_pki a "kubelet.crt", wn_KubeletCert c); (k8s_pki a "kubelet.key", wn_KubeletKey c)]).
  change (worker_files a) with (l.*1 ++ drop 4 (worker_files a)) in *.
  pose proof (proj1 (proj1 (NoDup_app _ _) Hnd)) as Hnd4.
  unfold EnsureWorkerPKI, ensureFiles in E. fold l in E. apply ensureFiles_loop_run in E as [-> _]; [| |done].
  - split; apply (proj1 (with_files_lookup _ _ _ _ _ _ Hnd4)); unfold l; [do 2 right; left|do 3 right; left].
  - intros fs p Hp. apply Htmp, elem_of_app. by left.
Qed.

Lemma contents_ensured w p d uid gid mode : w_files w !! p = ensured d uid gid mode → contents w p = d.
Proof.
  unfold contents, ensured. intros ->. case_bool_decide as Hd; [|done]. by rewrite Hd.
Qed.

Lemma tried_io_inv {A} st fmt args (m : io A) s r s' : tried st (act_wrapf fmt args (act_io m)) s = (r, s') →
  m_db s' = m_db s ∧ m_log s' = m_log s ∧
  ((∃ a, m (m_world s) = (Ok a, m_world s') ∧ r = SyncResponse a) ∨ ∃ e, r = ErrorResponse st (Wrapf fmt args e)).
Proof.
  intros (r0 & (r1 & (w & E & ->)%act_io_run & ->)%act_wrapf_run & ->)%tried_run. split_and!; [done|done|].
  destruct r1 as [a|e]; [left; by exists a|right; by exists e].
Qed.

Lemma worker_kubeconfig_paths (a : App) c :
  map (λ x, filepath_Join [KubernetesConfigDir a; x.1.1]) (worker_kubeconfigs c) = drop 4 (worker_files a).
Proof. done. Qed.

Lemma kubeconfigs_run host (a : App) cfg c w w' : wn_CACert c = Certificates_GetCACert (CC_Certificates cfg) →
  SetupWorkerKubeconfigs (h_Localhost host) (KubernetesConfigDir a) (APIServer_GetSecurePort (CC_APIServer cfg)) c w =
    (Ok tt, w') → worker_paths_ok a →
  (∀ p, p ∈ take 4 (worker_files a) → w_files w' !! p = w_files w !! p) ∧
  ∀ n, n ∈ [CertificateKubeletClient; CertificateProxyClient] → installed host a cfg n (worker_pair n c) w'.
Proof.
  intros Hca E [Hnd _]. change (worker_files a) with (take 4 (worker_files a) ++ drop 4 (worker_files a)) in Hnd.
  apply NoDup_app in Hnd as (_ & Hdis & Hnd). unfold SetupWorkerKubeconfigs in E.
  apply io_bind_inv in E as [(ip & w1 & E1%io_wrapf_Ok & E)|(e & _ & ?)]; [|done]. injection E1 as Hip <-.
  apply write_kubeconfigs_run in E as [Hf Ho]; [|by rewrite worker_kubeconfig_paths].
  rewrite worker_kubeconfig_paths in Ho. split; [intros p Hp; by apply Ho, Hdis|].
  intros n [->|[->|[]%not_elem_of_nil]%elem_of_cons]%elem_of_cons; exists ip; (split; [done|]); rewrite <- Hca; apply Hf;
    [left|right; left].
Qed.

(** A response that neither is a success nor blames the certificate of the kubelet. *)
Definition fails_before (r : Response (Z * act unit)) : Prop :=
  succeeds r = false ∧ ∀ e, r ≠ ErrorResponse InternalError (failed_to_load e).

Lemma write_worker_step fmt a c (f : bool → handler (Z * act unit)) s r s' :
  fmt ≠ "failed to load kubelet certificate: %w" → (write_worker fmt a c ≫= f) s = (r, s') →
  (m_db s' = m_db s ∧ m_log s' = m_log s ∧ fails_before r) ∨
  ∃ ch s1, EnsureWorkerPKI a c (m_world s) = (Ok ch, m_world s1) ∧ m_db s1 = m_db s ∧ m_log s1 = m_log s ∧
    f ch s1 = (r, s').
Proof.
  intros Hf [(ch & s1 & E1 & E)|[(st & e & E1 & ->)|[E1 ->]]]%handler_bind_inv;
    apply tried_io_inv in E1 as (Hd & Hl & [(ch' & E1 & Hr)|(e' & Hr)]); try done.
  - injection Hr as <-. right. by exists ch, s1.
  - left. split_and!; [done|done|]. split; [done|]. injection Hr as _ ->. by intros e0 [= ?].
Qed.
Lemma kubeconfigs_step host (a : App) cfg c (f : unit → handler (Z * act unit)) s r s' :
  (write_worker_kubeconfigs host a cfg c ≫= f) s = (r, s') →
  (m_db s' = m_db s ∧ m_log s' = m_log s ∧ fails_before r) ∨
  ∃ s1, SetupWorkerKubeconfigs (h_Localhost host) (KubernetesConfigDir a) (APIServer_GetSecurePort (CC_APIServer cfg)) c
      (m_world s) = (Ok tt, m_world s1) ∧ m_db s1 = m_db s ∧ m_log s1 = m_log s ∧ f tt s1 = (r, s').
Proof.
  intros [([] & s1 & E1 & E)|[(st & e & E1 & ->)|[E1 ->]]]%handler_bind_inv;
    apply tried_io_inv in E1 as (Hd & Hl & [([] & E1 & Hr)|(e' & Hr)]); try done.
  - right. by exists s1.
  - left. split_and!; [done|done|]. split; [done|]. injection Hr as _ ->. by intros e0 [= ?].
Qed.
Lemma address_step st (f : IP → handler (Z * act unit)) s r s' :
  (tried InternalError (address_of st) ≫= f) s = (r, s') → (s' = s ∧ fails_before r) ∨ ∃ ip, f ip s = (r, s').
Proof.
  intros [(ip & s1 & (r0 & [= Hr <-] & E1)%tried_run & E)|[(c & e & (r0 & [= Hr <-] & E1)%tried_run & ->)|[(r0 & [= Hr <-] & E1)%tried_run ->]]]%handler_bind_inv;
    destruct (ParseIP (st_Hostname st)) as [ip'|]; subst r0; try done.
  - right. by exists ip.
  - left. split; [done|]. split; [done|]. injection E1 as _ ->. by intros e0 [= ?].
Qed.

Lemma expiration_run certPEM fmt s r s' : expiration_of certPEM fmt s = (r, s') →
  s' = s ∧ (succeeds r = true → is_ok (LoadCertificate certPEM EmptyString) = true).
Proof.
  unfold expiration_of, tried, act_wrapf, act_lift, mbind, handler_bind.
  destruct (LoadCertificate certPEM EmptyString); by intros [= <- <-].
Qed.

(** The end of a renewal: only the files change. *)
Lemma install_worker_run host (a : App) st cfg certs c s r s' : wn_CACert c = Certificates_GetCACert (CC_Certificates cfg) →
  install_worker host a st cfg certs c s = (r, s') →
  m_db s' = m_db s ∧ m_log s' = m_log s ∧
  (succeeds r = true → is_ok (LoadCertificate (wn_KubeletCert c) EmptyString) = true ∧
     (worker_paths_ok a → ∀ n, worker_certificate n → installed host a cfg n (worker_pair n c) (m_world s'))) ∧
  (∀ e, r = ErrorResponse InternalError (failed_to_load e) → wn_KubeletCert c = EmptyString → wn_KubeletKey c = EmptyString →
     worker_paths_ok a → w_files (m_world s') !! k8s_pki a "kubelet.crt" = None ∧
       w_files (m_world s') !! k8s_pki a "kubelet.key" = None).
Proof.
  intros Hca E. unfold install_worker in E.
  apply write_worker_step in E as [(Hd & Hl & Hr & Hne)|(ch & s1 & E1 & Hd1 & Hl1 & E)]; [| |done].
  { rewrite Hr. split_and!; [done|done|done|]. by intros e He%Hne. }
  apply address_step in E as [(-> & Hr & Hne)|(ip & E)].
  { rewrite Hr. split_and!; [done|done|done|]. by intros e He%Hne. }
  apply kubeconfigs_step in E as [(Hd & Hl & Hr & Hne)|(s2 & E2 & Hd2 & Hl2 & E)].
  { rewrite Hr, Hd, Hl. split_and!; [done|done|done|]. by intros e He%Hne. }
  assert (Hfiles : worker_paths_ok a →
    w_files (m_world s2) !! k8s_pki a "kubelet.crt" = ensured (wn_KubeletCert c) (UID a) (GID a) 384 ∧
    w_files (m_world s2) !! k8s_pki a "kubelet.key" = ensured (wn_KubeletKey c) (UID a) (GID a) 384).
  { intros Hok. destruct (ensure_worker_run a c _ _ _ E1 Hok) as [<- <-].
    destruct (kubeconfigs_run _ _ _ _ _ _ Hca E2 Hok) as [Hsame _].
    split; apply Hsame; [do 2 right; left|do 3 right; left]. }
  assert (s' = s2 ∧ (succeeds r = true → is_ok (LoadCertificate (wn_KubeletCert c) EmptyString) = true)) as [-> Hload].
  { by apply handler_bind_inv in E as [(x & s3 & [-> Hx]%expiration_run & [= <- <-])
      |[(sc & e & [-> Hx]%expiration_run & ->)|[[-> Hx]%expiration_run ->]]]. }
  rewrite Hd2, Hl2. split_and!; [done|done| |].
  - intros Hr. split; [by apply Hload|]. intros Hok n Hn. unfold worker_certificate in Hn.
    apply elem_of_cons in Hn as [->|Hn]; [|by eapply kubeconfigs_run].
    destruct (Hfiles Hok) as [Hf1 Hf2]. split; by eapply contents_ensured.
  - intros e _ Hc Hk Hok. destruct (Hfiles Hok) as [-> ->]. by rewrite Hc, Hk.
Qed.

Lemma issued_pki_CACert cfg l : wn_CACert (issued_pki cfg l) = Certificates_GetCACert (CC_Certificates cfg).
Proof.
  unfold issued_pki. induction l as [|[[n cert] key] l IH] using rev_ind; [done|]. rewrite fold_left_app. rewrite <- IH.
  by destruct n.
Qed.

(** *** The whole *)

(** No service is touched, and every request that is created is one of the three of the node,
    and granted. *)
Definition renewal_command (priv : PrivateKey) (hostname : string) (seed : Z) (c : command) : Prop :=
  match c with
  | CreateCSR csr => granted priv hostname csr ∧
      ∃ d, d ∈ worker_csr_definitions hostname ∧ nc_Name csr = csr_name seed (cd_CSRBaseName d)
  | RunCommand _ => False
  | _ => True
  end.
Definition certificates_of (role : ClusterRole) (req : RefreshRunRequest) : list string :=
  match rr_Certificates req with [] => getAllCertsForRole role | certs => certs end.

Lemma steps_weaken (P P' : command → Prop) s s' : (∀ c, P c → P' c) → steps P s s' → steps P' s s'.
Proof. intros Hp [(l & Hl & Hf) Hs]. split; [|done]. exists l. split; [done|]. by eapply Forall_impl. Qed.

Lemma definition_of_name hostname d d' : d ∈ worker_csr_definitions hostname → d' ∈ worker_csr_definitions hostname →
  cd_CertName d = cd_CertName d' → d = d'.
Proof.
  unfold worker_csr_definitions. rewrite !elem_of_cons, !elem_of_nil.
  by intros [->|[->|[->|[]]]] [->|[->|[->|[]]]].
Qed.
Lemma definition_worker hostname d : d ∈ worker_csr_definitions hostname → worker_certificate (cd_CertName d).
Proof.
  unfold worker_csr_definitions, worker_certificate. rewrite !elem_of_cons, !elem_of_nil.
  intros [->|[->|[->|[]]]]; cbn; tauto.
Qed.

Lemma Forall2_elem_r {A B} (R : A → B → Prop) l k y : Forall2 R l k → y ∈ k → ∃ x, x ∈ l ∧ R x y.
Proof.
  induction 1 as [|x0 y0 l k Hr _ IH]; [by intros []%not_elem_of_nil|].
  intros [->|Hy]%elem_of_cons; [exists x0; split; [by left|done]|].
  destruct (IH Hy) as (x & ? & ?). exists x. split; [by right|done].
Qed.
Lemma Forall2_elem_l {A B} (R : A → B → Prop) l k x : Forall2 R l k → x ∈ l → ∃ y, y ∈ k ∧ R x y.
Proof. intros Hf%Forall2_flip. by apply (Forall2_elem_r _ _ _ _ Hf). Qed.

(** What was issued, for the certificates of the request. *)
Definition from_events (hostname : string) (seed : Z) (certs : list string)
    (issued : list (CertificateName * string * string)) (s s' : Machine) : Prop :=
  (∀ n, n ∈ (λ x : CertificateName * string * string, x.1.1) <$> issued → cert_string n ∈ certs) ∧
  ∀ d, d ∈ worker_csr_definitions hostname → cert_string (cd_CertName d) ∈ certs →
    cd_CertName d ∈ (λ x : CertificateName * string * string, x.1.1) <$> issued ∧
    ∀ x, x ∈ issued → x.1.1 = cd_CertName d →
      ∃ ev, answered (WatchCSR (csr_name seed (cd_CSRBaseName d))) (Ok (Some ev)) s s' ∧ issued_event ev x.1.2.

Lemma issue_all_run ticks hostname priv hostnames ips req certs defs s r s' : Inj (=) (=) cert_string →
  requests_read_back → signatures_read_back priv → hostname ≠ EmptyString → Csr.CleanHostname hostname = Ok hostname →
  (∀ d, d ∈ defs → d ∈ worker_csr_definitions hostname ∧ cert_string (cd_CertName d) ∈ certs) →
  (∀ cert, cert ∈ certs → ∃ d, d ∈ defs ∧ cert_string (cd_CertName d) = cert) →
  errgroup (request_certificate ticks hostname (Public priv) hostnames ips req <$> defs) None s = (r, s') →
  steps (renewal_command priv hostname (rr_Seed req)) s s' ∧
  ∀ issued, r = Ok issued → from_events hostname (rr_Seed req) certs issued s s'.
Proof.
  intros Hinj Hreq Hsig Hne Hc Hdefs Hall E.
  apply (errgroup_run (renewal_command priv hostname (rr_Seed req)) _ (λ d x s s', x.1.1 = cd_CertName d ∧
    ∃ ev, answered (WatchCSR (csr_name (rr_Seed req) (cd_CSRBaseName d))) (Ok (Some ev)) s s' ∧ issued_event ev x.1.2)) in E.
  2: { intros d s0 r0 s0' Hd E0. destruct (Hdefs d Hd) as [Hd' _].
       apply request_certificate_run in E0 as [K0 HQ]; [|done..]. split; [|done]. eapply steps_weaken; [|exact K0].
       intros c. destruct c; cbn; try done. intros [Hn Hg]. split; [done|]. by exists d. }
  destruct E as [K HQ]. split; [done|]. intros issued Hr. specialize (HQ issued Hr). split.
  - intros n (x & -> & Hx)%list_elem_of_fmap. destruct (Forall2_elem_r _ _ _ _ HQ Hx) as (d & Hd & t1 & t2 & _ & [-> _] & _).
    by apply Hdefs.
  - intros d Hd Hin. destruct (Hall _ Hin) as (d' & Hd' & Heq%Hinj). split.
    + destruct (Forall2_elem_l _ _ _ _ HQ Hd') as (x & Hx & t1 & t2 & _ & [Hx1 _] & _).
      apply list_elem_of_fmap. exists x. by rewrite Hx1.
    + intros x Hx Hx1. destruct (Forall2_elem_r _ _ _ _ HQ Hx) as (d2 & Hd2 & t1 & t2 & Hl1 & [Hx2 (ev & Ha & Hev)] & Hl2).
      assert (d2 = d) as -> by (eapply definition_of_name; [by apply Hdefs|done|congruence]). exists ev.
      split; [by eapply answered_later|done].
Qed.

(** *** A step that may end the renewal before anything is written *)

Definition harmless (c : command) : Prop := match c with CreateCSR _ | RunCommand _ => False | _ => True end.
Definition early {A} (h : handler A) : Prop := ∀ s r s', h s = (r, s') →
  steps harmless s s' ∧ ∀ st e, r = ErrorResponse st e → ∀ e', e ≠ failed_to_load e'.

Lemma early_bind_inv {A} (h : handler A) (f : A → handler (Z * act unit)) s r s' : early h → (h ≫= f) s = (r, s') →
  (∃ a s1, h s = (SyncResponse a, s1) ∧ steps harmless s s1 ∧ f a s1 = (r, s')) ∨
  (steps harmless s s' ∧ fails_before r).
Proof.
  intros He [(a & s1 & E1 & E)|[(st & e & E1 & ->)|[E1 ->]]]%handler_bind_inv; destruct (He _ _ _ E1) as [K1 Hne].
  - left. by exists a, s1.
  - right. split; [done|]. split; [done|]. intros e' [= -> ->]. by eapply Hne.
  - right. by split.
Qed.
Lemma early_tried {A} st fmt args (m : act A) : emits harmless eq m → asks m →
  fmt ≠ "failed to load kubelet certificate: %w" → early (tried st (act_wrapf fmt args m)).
Proof.
  intros He Ha Hf s r s' (r0 & (r1 & E & ->)%act_wrapf_run & ->)%tried_run. split; [by eapply steps_run|].
  destruct r1; [done|]. intros st' e' [= <- <-] e2 [= ?]. done.
Qed.
Lemma early_refuse_if b st fmt args : early (refuse_if b st (Errorf fmt args)).
Proof. destruct b; intros s r s' [= <- <-]; (split; [done|]); intros st' e [=]; by subst. Qed.
Lemma early_certs role certs : early (certs_of_request role certs).
Proof.
  intros s r s' E. pose proof (certs_of_request_run _ _ _ _ _ E) as [-> _]. split; [done|].
  unfold certs_of_request in E. destruct certs; [by injection E as <-|].
  apply handler_bind_inv in E as [(? & ? & _ & [= <-])|[(st & e & E & ->)|[_ ->]]]; [done| |done].
  apply early_tried in E as [_ Hne]; [|emits_go|asks_go|done]. intros st' e' [= <- <-]. by eapply Hne.
Qed.
Lemma early_definitions hostname certs : early (csr_definitions hostname certs).
Proof.
  intros s r s' E. pose proof (csr_definitions_run _ _ _ _ _ E) as [-> _]. split; [done|].
  revert r E. induction certs as [|cert certs IH]; intros r; cbn [csr_definitions]; [by intros [= <-]|].
  destruct (getWorkerCSRDefinitions hostname cert); [|intros [= <-] st' e [=]; by subst].
  by intros [(l & s1 & _ & [= <-])|[(st & e & E & ->)|[_ ->]]]%handler_bind_inv; [|intros st' e' [= <- <-]; eapply IH|].
Qed.

(** What comes before the requests changes nothing. *)
Lemma worker_prefix ticks host a st r req cfg m response m' : Body r = Ok req → GetClusterConfig (m_db m) = Ok cfg →
  refreshCertsRunWorker ticks host a st r m = (response, m') →
  (steps harmless m m' ∧ fails_before response) ∨
  ∃ key hostnames ips defs m1, LoadRSAPublicKey (Certificates_GetK8sdPublicKey (CC_Certificates cfg)) = Ok key ∧
    (∀ d, d ∈ defs → d ∈ worker_csr_definitions (Hostname a) ∧
       cert_string (cd_CertName d) ∈ certificates_of ClusterRoleWorker req) ∧
    (∀ cert, cert ∈ certificates_of ClusterRoleWorker req → ∃ d, d ∈ defs ∧ cert_string (cd_CertName d) = cert) ∧
    steps harmless m m1 ∧
    (issued ← tried InternalError (act_wrapf "failed to get one or more worker node certificates: %w" []
                (errgroup (request_certificate ticks (Hostname a) key hostnames ips req <$> defs) None));
     install_worker host a st cfg (certificates_of ClusterRoleWorker req) (issued_pki cfg issued)) m1 = (response, m').
Proof.
  intros Hb Hc E. unfold refreshCertsRunWorker in E. rewrite (handler_bind_step _ _ _ req m) in E by (by apply body_Sync).
  apply early_bind_inv in E as [(certs & s1 & [-> Hcerts]%certs_of_request_run & _ & E)|?]; [|by left|apply early_certs].
  assert (certs = certificates_of ClusterRoleWorker req) as ->
    by (rewrite (Hcerts _ eq_refl); unfold certificates_of; by destruct (rr_Certificates req)).
  apply early_bind_inv in E as [([] & s1 & _ & K1 & E)|?]; [|by left|].
  2: { apply early_tried; [|apply (asks_perform (KubernetesClient false EmptyString))|done].
       by apply (emits_perform _ _ (KubernetesClient false EmptyString)). }
  rewrite (handler_bind_step _ _ _ cfg s1) in E.
  2: { destruct K1 as (_ & _ & Hd). unfold tried, act_wrapf, util_GetClusterConfig, act_query, act_wrapf. by rewrite Hd, Hc. }
  assert (Hleft : ∀ s', steps harmless s1 s' ∧ fails_before response → steps harmless m s' ∧ fails_before response)
    by (intros s' [K Hf]; split; [by etrans|done]).
  apply early_bind_inv in E as [([] & s2 & [_ ->]%refuse_if_Sync & _ & E)|?]; [|left; by apply Hleft|apply early_refuse_if].
  apply early_bind_inv in E as [(key & s2 & [= Hk <-]%tried_Sync%act_wrapf_Ok & _ & E)|?]; [|left; by apply Hleft|].
  2: { apply early_tried; [emits_go|asks_go|done]. }
  destruct (SplitIPAndDNSSANs (rr_ExtraSANs req)) as [extraIPs extraNames].
  apply early_bind_inv in E as [(defs & s2 & [-> Hdefs]%csr_definitions_run & _ & E)|?]; [|left; by apply Hleft|apply early_definitions].
  right. destruct (Hdefs _ eq_refl) as [Hd1 Hd2]. by eexists key, _, _, defs, s1.
Qed.

End Csr.

(** *** A renewal of the client certificate of the kubelet alone *)

(** Requests for the two subjects of a worker, with one key for all. *)
Definition demo_worker_pki : PkiEnv := {|
  PrivateKey := unit; PublicKey := unit; Public k := k;
  pem_Decode := @pem_Decode PkiNode.demo_pki_env; pem_EncodeToMemory := @pem_EncodeToMemory PkiNode.demo_pki_env;
  x509_ParseCertificate := @x509_ParseCertificate PkiNode.demo_pki_env;
  x509_ParsePKCS1PrivateKey _ := Ok tt; x509_ParsePKCS8PrivateKey _ := Ok None; x509_ParsePKIXPublicKey _ := Ok (Some tt);
  x509_ParseCertificateRequest b :=
    Ok (if b ==? "proxy" then mkName "system:kube-proxy" [] else mkName "system:node:node1" ["system:nodes"], [], [], tt);
  x509_MarshalPKCS1PrivateKey _ := "key"; x509_MarshalPKIXPublicKey _ := Ok "pub";
  x509_CreateCertificate := λ _ _ _ _ _, Ok "der";
  x509_CreateCertificateRequest _ subject _ _ _ :=
    if bool_decide (subject = mkName "system:kube-proxy" []) then Ok "proxy"
    else if bool_decide (subject = mkName "system:node:node1" ["system:nodes"]) then Ok "node"
    else Err (Errorf "unsupported" []);
  rsa_GenerateKey _ _ := Ok tt; rand_Int n _ := Ok (Z.of_nat n); AppendCertsFromPEM _ := true;
  cert_Verify _ _ := None; cert_VerifyHostname _ _ := None; AddDate t _ _ _ := t |}.
Definition demo_worker_csr : @Csr.CsrEnv demo_worker_pki :=
  @Csr.Build_CsrEnv demo_worker_pki DecodeString (λ _ s, Ok s) (λ s, s) Ok (λ _, EmptyString).
Definition demo_cert_string (n : CertificateName) : string :=
  match n with
  | CertificateAdminClient => "admin.conf" | CertificateFrontProxyClient => "front-proxy-client"
  | CertificateAPIServerKubeletClient => "apiserver-kubelet-client" | CertificateSchedulerClient => "scheduler.conf"
  | CertificateControllerManagerClient => "controller.conf" | CertificateAPIServer => "apiserver"
  | CertificateKubeletClient => "kubelet.conf" | CertificateKubelet => "kubelet" | CertificateProxyClient => "proxy.conf"
  end.
Definition demo_cert_names : CertNames := {|
  cert_string := demo_cert_string;
  CertificatesByRole role := match role with
    | ClusterRoleWorker => Some ["kubelet"; "kubelet.conf"; "proxy.conf"]
    | ClusterRoleControlPlane => Some (map demo_cert_string (map fst marker_fields))
    | ClusterRoleUnknown => None
    end |}.
Definition demo_certificates_env : @CertificatesEnv demo_worker_pki demo_os :=
  @Build_CertificatesEnv demo_worker_pki demo_os (λ _, io_lift (Err ErrNotExist)) (λ _, EmptyString) (λ _, EmptyString)
    (λ _ _ s, Ok s).
Definition grants_all : Outside := λ log c,
  match c as c return res (answer c) with
  | WatchCSR name => Ok (Some (mkCSREvent name [("Approved", "True")] "CERTIFICATE|new"))
  | c => default_answer c
  end.
Definition demo_worker_config : ClusterConfig :=
  mkClusterConfig
    (mkCertificates (Some "CERTIFICATE|ca") None (Some "CERTIFICATE|client-ca") None None None None None None None None
       (Some "PUBLIC KEY|cluster") None)
    empty_Datastore empty_APIServer empty_Kubelet empty_Network empty_DNS empty_Ingress empty_LoadBalancer empty_Gateway
    empty_LocalStorage empty_MetricsServer None.
Definition demo_worker_store : DBEnv := {|
  db_fail _ := None; json_Marshal _ := Ok "stored"; json_Unmarshal _ := Ok demo_worker_config; json_representable _ := True |}.
Definition demo_renewal : RefreshRunRequest := mkRefreshRun 7 3600 [] ["kubelet.conf"].
(** The kubelet has its certificate. *)
Definition demo_worker_machine : Machine :=
  mkMachine (demo_world [("/etc/kubernetes/pki/kubelet.crt", "CERTIFICATE|old");
                         ("/etc/kubernetes/pki/kubelet.key", "RSA PRIVATE KEY|old")]) base_db 0 [].
Definition demo_renewed : Response (Z * act unit) * Machine :=
  @refreshCertsRunWorker demo_os demo_setup_env demo_worker_store grants_all demo_worker_pki demo_worker_csr
    demo_cert_names demo_certificates_env 5 demo_hooks_host JoinFacts.demo_app (mkMState "node1" "10.0.0.2" EmptyString)
    (mkRequest (λ _, EmptyString) (Ok demo_renewal)) demo_worker_machine.

Lemma demo_requests_read_back : @requests_read_back demo_worker_pki.
Proof.
  split.
  - by intros bytes pem [= <-].
  - intros n subject dns ips key b. cbn. repeat case_bool_decide; intros [= <-]; subst; exists [], []; by destruct key.
Qed.
Lemma demo_worker_paths : @worker_paths_ok demo_os JoinFacts.demo_app.
Proof.
  split; [apply (bool_decide_eq_true_1 _); vm_compute; reflexivity|].
  intros fs p Hp. assert (Hall : Forall (λ p, filepath_Join [filepath_Dir p; "tmp-1"] ≠ p) (@worker_files JoinFacts.demo_app)).
  { apply (bool_decide_eq_true_1 _). vm_compute. reflexivity. }
  rewrite Forall_forall in Hall. by apply Hall.
Qed.

End ApiCertificatesFacts.
