(* ===== verification/ApiRefreshFacts.v ===== *)
(** * What the API promises: a control plane node renews its certificates

    [refreshCertsRunControlPlane] of ApiCertificates.v: the certificates that were asked for
    are issued anew by the authorities of the node, the others stay what they were on disk. *)

From stdpp Require Import functions.
From S2P Require Import Prelude GoStrings GoNet Cidr Config ConfigConvert FileSys Pki PkiNode Arguments Setup.
From S2P Require Import Node Database Csr Effects Snap NodeConfig NodeSetup Token KubeClient Hooks HookFacts.
From S2P Require Import HooksBootstrap JoinFacts Api ApiTokens ApiCluster ApiCertificates ApiFacts.
From S2P Require Import ConfigMerge ApiCertificatesFacts.
Import GoStr GoNet Cidr Config Convert FileSys Pki PkiNode Arguments Setup Node Database Effects Snap NodeSetup.
Import Token KubeClient Hooks HookFacts Bootstrap Api ApiTokens ApiCluster ApiCertificates ApiFacts.
Import ApiCertificatesFacts.

Module ApiRefreshFacts.

Section Refresh.
Context `{SetupEnv, DBEnv, Externals, Outside, SnapEnv, PkiEnv, !Csr.CsrEnv, !CertNames, !CertificatesEnv,
  !OSEnvOk, !SetupEnvOk}.
Context (order_files : list (string * Field * bool) → list (string * Field * bool))
        (order_configs : list (string * Field * Field) → list (string * Field * Field)).
Hypothesis order_files_perm : ∀ l, order_files l ≡ₚ l.
Hypothesis order_configs_perm : ∀ l, order_configs l ≡ₚ l.
(** To read a kubeconfig changes nothing. *)
Hypothesis load_keeps : ∀ p w r w', clientcmd_LoadFromFile p w = (r, w') → w' = w.

(** ** Reading *)

Lemma read_files_run (s : Snap) l c w c' w' : NoDup (map (λ x, x.1.2) l) → read_files s l c w = (Ok c', w') →
  w' = w ∧ (∀ name f, (name, f, true) ∈ l → c' f = contents w (k8s_pki s name)) ∧
  (∀ f, (∀ name, (name, f, true) ∉ l) → c' f = c f).
Proof.
  revert c w. induction l as [|[[name f] read] l IH]; intros c w; cbn [read_files map fst snd].
  { intros _ [= <- <-]. split; [done|]. split; [by intros ? ? ?%not_elem_of_nil|done]. }
  intros [Hf Hnd]%NoDup_cons. destruct read.
  - intros [(content & w1 & E1%io_wrapf_Ok & E)|(e & _ & ?)]%io_bind_inv; [|done].
    apply os_ReadFile_run in E1 as [-> (x & Hx & Hd)]. apply IH in E as (-> & Hin & Hout); [|done].
    assert (Hskip : c' f = content).
    { rewrite Hout, fn_lookup_insert; [done|]. intros name' Hn. apply Hf. apply list_elem_of_fmap. by exists (name', f, true). }
    split; [done|]. split.
    + intros name' f' [[= -> ->]|Hn]%elem_of_cons; [|by apply Hin]. rewrite Hskip. unfold contents. by rewrite Hx.
    + intros f' Hn. rewrite Hout by (intros name' Hn'; apply (Hn name'); by right).
      rewrite fn_lookup_insert_ne; [done|]. intros ->. apply (Hn name). by left.
  - intros (-> & Hin & Hout)%IH; [|done]. split; [done|]. split.
    + intros name' f' [[=]|Hn]%elem_of_cons. by apply Hin.
    + intros f' Hn. apply Hout. intros name' Hn'. apply (Hn name'). by right.
Qed.

(** The user of a kubeconfig on disk. *)
Definition kubeconfig_user (s : Snap) (name : string) (w : World) (ai : KubeAuthInfo) : Prop :=
  ∃ kc, (clientcmd_LoadFromFile (filepath_Join [KubernetesConfigDir s; name]) w).1 = Ok kc ∧ lookup_user kc = Some ai.

Lemma set_nonempty_same f v c : c f = EmptyString → set_nonempty f v c f = v.
Proof. unfold set_nonempty. case_bool_decide as E; [by rewrite E|]. by rewrite fn_lookup_insert. Qed.
Lemma set_nonempty_ne f f' v c : f ≠ f' → set_nonempty f v c f' = c f'.
Proof. unfold set_nonempty. intros Hne. case_bool_decide; [done|]. by rewrite fn_lookup_insert_ne. Qed.

Definition config_fields (l : list (string * Field * Field)) : list Field := flat_map (λ x, [x.1.2; x.2]) l.

Lemma read_kubeconfigs_run (s : Snap) l c w c' w' : NoDup (config_fields l) →
  (∀ f, f ∈ config_fields l → c f = EmptyString) → read_kubeconfigs s l c w = (Ok c', w') →
  w' = w ∧ (∀ name cF kF, (name, cF, kF) ∈ l → ∃ ai, kubeconfig_user s name w ai ∧
     c' cF = ClientCertificateData ai ∧ c' kF = ClientKeyData ai) ∧
  (∀ f, f ∉ config_fields l → c' f = c f).
Proof.
  revert c w. induction l as [|[[name cF] kF] l IH]; intros c w; cbn [read_kubeconfigs config_fields flat_map fst snd app].
  { intros _ _ [= <- <-]. split; [done|]. split; [by intros ? ? ? ?%not_elem_of_nil|done]. }
  fold (config_fields l). intros Hnd Hemp [(kc & w1 & E1%io_wrapf_Ok & E)|(e & _ & ?)]%io_bind_inv; [|done].
  pose proof (load_keeps _ _ _ _ E1) as ->. destruct (lookup_user kc) as [ai|] eqn:Eu; [|done].
  rewrite !NoDup_cons, not_elem_of_cons in Hnd. destruct Hnd as ([Hne HcF] & HkF & Hnd).
  apply IH in E as (-> & Hin & Hout); [|done|].
  2: { intros f Hf. rewrite !set_nonempty_ne; [apply Hemp; by do 2 right|by intros ->|by intros ->]. }
  split; [done|]. split.
  - intros name' cF' kF' [[= -> -> ->]|Hn]%elem_of_cons; [|by apply Hin]. exists ai. split; [by exists kc; rewrite E1|].
    rewrite !Hout by done. rewrite set_nonempty_ne by done. rewrite set_nonempty_same by (apply Hemp; by left).
    split; [done|]. apply set_nonempty_same. rewrite set_nonempty_ne by done. apply Hemp. right. by left.
  - intros f [Hf1 [Hf2 Hf]%not_elem_of_cons]%not_elem_of_cons. rewrite Hout by done. by rewrite !set_nonempty_ne.
Qed.

Lemma pki_fields_names b x y z : map (λ p : string * Field * bool, p.1.2) (pki_fields b x y z) =
  [CACert; ClientCACert; FrontProxyCACert; CAKey; ClientCAKey; FrontProxyCAKey; APIServerCert; APIServerKey; KubeletCert;
   KubeletKey; FrontProxyClientCert; FrontProxyClientKey; APIServerKubeletClientCert; APIServerKubeletClientKey;
   ServiceAccountKey].
Proof. done. Qed.

Lemma bool_of_file_exists fmt p w b w' : io_wrapf fmt [] (FileExists p) w = (Ok b, w') →
  w' = w ∧ b = bool_decide (is_Some (w_files w !! p)).
Proof. intros [-> Hb]%io_wrapf_Ok%FileExists_run. split; [done|by apply Hb]. Qed.

(** The fields in kubeconfigs. *)
Definition in_kubeconfig (f : Field) : Prop := f ∈ config_fields kubeconfig_fields.

Lemma config_fields_nodup : NoDup (config_fields kubeconfig_fields).
Proof. apply (bool_decide_eq_true_1 _). vm_compute. reflexivity. Qed.
Lemma config_fields_perm l l' : l ≡ₚ l' → config_fields l ≡ₚ config_fields l'.
Proof. intros Hp. unfold config_fields. by rewrite Hp. Qed.
Lemma pki_fields_nodup b x y z : NoDup (map (λ p : string * Field * bool, p.1.2) (pki_fields b x y z)).
Proof. rewrite pki_fields_names. apply (bool_decide_eq_true_1 _). vm_compute. reflexivity. Qed.
Lemma pki_fields_apart b x y z name f r : (name, f, r) ∈ pki_fields b x y z → ¬ in_kubeconfig f.
Proof.
  intros Hin Hc. assert (Hf : f ∈ map (λ p : string * Field * bool, p.1.2) (pki_fields b x y z))
    by (apply list_elem_of_fmap; by exists (name, f, r)).
  rewrite pki_fields_names in Hf.
  assert (Hall : Forall (λ f, f ∉ config_fields kubeconfig_fields)
    (map (λ p : string * Field * bool, p.1.2) (pki_fields true true true true)))
    by (apply (bool_decide_eq_true_1 _); vm_compute; reflexivity).
  rewrite pki_fields_names in Hall. rewrite Forall_forall in Hall. by eapply Hall.
Qed.

(** One of the two passes: [b] tells which certificates are read. *)
Lemma ReadControlPlanePKI_run (s : Snap) c b w c' w' : ReadControlPlanePKI order_files order_configs s c b w = (Ok c', w') →
  (∀ f, in_kubeconfig f → c f = EmptyString ∨ Bool.eqb b (bool_decide (is_Some (w_files w !! k8s_pki s "client-ca.key"))) = false) →
  let exists_ name := bool_decide (is_Some (w_files w !! k8s_pki s name)) in
  let fields := pki_fields b (exists_ "ca.key") (exists_ "client-ca.key") (exists_ "front-proxy-ca.key") in
  w' = w ∧ (∀ name f, (name, f, true) ∈ fields → c' f = contents w (k8s_pki s name)) ∧
  (∀ f, (∀ name, (name, f, true) ∉ fields) → ¬ in_kubeconfig f → c' f = c f) ∧
  if Bool.eqb b (exists_ "client-ca.key") then
    ∀ name cF kF, (name, cF, kF) ∈ kubeconfig_fields → ∃ ai, kubeconfig_user s name w ai ∧
      c' cF = ClientCertificateData ai ∧ c' kF = ClientKeyData ai
  else ∀ f, in_kubeconfig f → c' f = c f.
Proof.
  unfold ReadControlPlanePKI. intros E Hemp. cbv zeta.
  apply io_bind_inv in E as [(x & w1 & [-> ->]%bool_of_file_exists & E)|(e & _ & ?)]; [|done].
  apply io_bind_inv in E as [(y & w1 & [-> ->]%bool_of_file_exists & E)|(e & _ & ?)]; [|done].
  apply io_bind_inv in E as [(z & w1 & [-> ->]%bool_of_file_exists & E)|(e & _ & ?)]; [|done].
  set (fields := pki_fields _ _ _ _) in *.
  apply io_bind_inv in E as [(c1 & w1 & E1 & E)|(e & _ & ?)]; [|done].
  apply read_files_run in E1 as (-> & Hin & Hout).
  2: { eapply NoDup_Permutation_proper; [apply fmap_Permutation, order_files_perm|apply pki_fields_nodup]. }
  assert (Hin' : ∀ name f, (name, f, true) ∈ fields → c1 f = contents w (k8s_pki s name))
    by (intros name f Hf; apply Hin; by rewrite order_files_perm).
  assert (Hout' : ∀ f, (∀ name, (name, f, true) ∉ fields) → c1 f = c f)
    by (intros f Hf; apply Hout; intros name; rewrite order_files_perm; apply Hf).
  assert (Hkc : ∀ f, in_kubeconfig f → c1 f = c f).
  { intros f Hf. apply Hout'. intros name Hn. by eapply pki_fields_apart. }
  destruct (Bool.eqb b _) eqn:Eb.
  - pose proof (config_fields_perm _ _ (order_configs_perm kubeconfig_fields)) as Hp.
    apply read_kubeconfigs_run in E as (-> & Hc & Ho).
    2: { rewrite Hp. apply config_fields_nodup. }
    2: { intros f. rewrite Hp. intros Hf. rewrite Hkc by done. by destruct (Hemp f Hf) as [|]. }
    split; [done|]. split; [|split].
    + intros name f Hf. rewrite Ho; [by apply Hin'|]. rewrite Hp. by eapply pki_fields_apart.
    + intros f Hf Hn. rewrite Ho by (by rewrite Hp). by apply Hout'.
    + intros name cF kF Hf. apply Hc. by rewrite order_configs_perm.
  - injection E as <- <-. split; [done|]. split; [done|]. split; [|done]. intros f Hf _. by apply Hout'.
Qed.

(** Where a control plane node has each certificate: in a pair of files, or in a kubeconfig. *)
Definition place (n : CertificateName) : string + string :=
  match n with
  | CertificateFrontProxyClient => inl "front-proxy-client"
  | CertificateAPIServerKubeletClient => inl "apiserver-kubelet-client"
  | CertificateAPIServer => inl "apiserver"
  | CertificateKubelet => inl "kubelet"
  | CertificateAdminClient => inr "admin.conf"
  | CertificateSchedulerClient => inr "scheduler.conf"
  | CertificateControllerManagerClient => inr "controller.conf"
  | CertificateKubeletClient => inr "kubelet.conf"
  | CertificateProxyClient => inr "proxy.conf"
  end.
Definition on_disk (s : Snap) (n : CertificateName) (w : World) (pair : string * string) : Prop :=
  match place n with
  | inl stem => pair = (contents w (k8s_pki s (stem +:+ ".crt")), contents w (k8s_pki s (stem +:+ ".key")))
  | inr name => ∃ ai, kubeconfig_user s name w ai ∧ pair = (ClientCertificateData ai, ClientKeyData ai)
  end.
Definition fields_of (n : CertificateName) : Field * Field :=
  match n with
  | CertificateAdminClient => (AdminClientCert, AdminClientKey)
  | CertificateFrontProxyClient => (FrontProxyClientCert, FrontProxyClientKey)
  | CertificateAPIServerKubeletClient => (APIServerKubeletClientCert, APIServerKubeletClientKey)
  | CertificateSchedulerClient => (KubeSchedulerClientCert, KubeSchedulerClientKey)
  | CertificateControllerManagerClient => (KubeControllerManagerClientCert, KubeControllerManagerClientKey)
  | CertificateAPIServer => (APIServerCert, APIServerKey)
  | CertificateKubeletClient => (KubeletClientCert, KubeletClientKey)
  | CertificateKubelet => (KubeletCert, KubeletKey)
  | CertificateProxyClient => (KubeProxyClientCert, KubeProxyClientKey)
  end.

Lemma field_once b x y z name name' f r r' : (name, f, r) ∈ pki_fields b x y z → (name', f, r') ∈ pki_fields b x y z →
  r = r'.
Proof.
  intros Hin Hin'. assert (Hnd := pki_fields_nodup b x y z).
  apply list_elem_of_lookup in Hin as [i Hi]. apply list_elem_of_lookup in Hin' as [j Hj].
  assert (i = j) as ->; [|congruence].
  eapply (NoDup_lookup (map (λ p : string * Field * bool, p.1.2) (pki_fields b x y z))); [done|..];
    by rewrite list_lookup_fmap, ?Hi, ?Hj.
Qed.

(** Both passes together. *)
Lemma read_both (s : Snap) c0 c1 c2 w w1 w2 : (∀ f, in_kubeconfig f → c0 f = EmptyString) →
  ReadControlPlanePKI order_files order_configs s c0 true w = (Ok c1, w1) →
  ReadControlPlanePKI order_files order_configs s c1 false w1 = (Ok c2, w2) →
  w2 = w ∧ (∀ n, on_disk s n w (c2 (fields_of n).1, c2 (fields_of n).2)) ∧
  c2 CACert = contents w (k8s_pki s "ca.crt") ∧ c2 ClientCACert = contents w (k8s_pki s "client-ca.crt") ∧
  c2 FrontProxyCACert = contents w (k8s_pki s "front-proxy-ca.crt").
Proof.
  intros Hemp E1 E2. set (e name := bool_decide (is_Some (w_files w !! k8s_pki s name))).
  apply ReadControlPlanePKI_run in E1 as (-> & Hin1 & Hout1 & Hk1); [|by left; apply Hemp].
  apply ReadControlPlanePKI_run in E2 as (-> & Hin2 & Hout2 & Hk2).
  2: { intros f Hf. destruct (bool_decide (is_Some (w_files w !! k8s_pki s "client-ca.key"))).
       - by right.
       - left. rewrite Hk1 by done. by apply Hemp. }
  assert (Hfile : ∀ name f k, (∀ b, (name, f, Bool.eqb b k) ∈ pki_fields b (e "ca.key") (e "client-ca.key") (e "front-proxy-ca.key")) →
    c2 f = contents w (k8s_pki s name)).
  { intros name f [] Hf.
    - rewrite Hout2, (Hin1 name f); [done|exact (Hf true)| |].
      + intros name' Hn. by pose proof (field_once _ _ _ _ _ _ _ _ _ (Hf false) Hn).
      + eapply pki_fields_apart, (Hf true).
    - apply Hin2. exact (Hf false). }
  assert (Hca : ∀ name f, (name, f, true) ∈ pki_fields false (e "ca.key") (e "client-ca.key") (e "front-proxy-ca.key") →
    c2 f = contents w (k8s_pki s name)) by (intros name f; apply Hin2).
  assert (Hconf : ∀ name cF kF, (name, cF, kF) ∈ kubeconfig_fields → ∃ ai, kubeconfig_user s name w ai ∧
    c2 cF = ClientCertificateData ai ∧ c2 kF = ClientKeyData ai).
  { intros name cF kF Hn. destruct (e "client-ca.key") eqn:Ee; unfold e in Ee; rewrite Ee in Hk1, Hk2; cbn [Bool.eqb] in Hk1, Hk2.
    - destruct (Hk1 _ _ _ Hn) as (ai & ? & ? & ?). exists ai.
      assert (Hin : in_kubeconfig cF ∧ in_kubeconfig kF).
      { unfold in_kubeconfig, config_fields. split; apply list_elem_of_In, in_flat_map; exists (name, cF, kF);
          (split; [by apply list_elem_of_In|]); cbn; tauto. }
      destruct Hin. rewrite !Hk2 by done. done.
    - by apply Hk2. }
  assert (Hconf' : ∀ name cF kF, (name, cF, kF) ∈ kubeconfig_fields → ∃ ai, kubeconfig_user s name w ai ∧
    (c2 cF, c2 kF) = (ClientCertificateData ai, ClientKeyData ai)).
  { intros name cF kF Hn. destruct (Hconf _ _ _ Hn) as (ai & Hai & -> & ->). by exists ai. }
  split; [done|]. split; [|split_and!; apply Hca; apply list_elem_of_In; cbn; tauto].
  intros []; unfold on_disk; cbn [place fields_of fst snd];
    first [ apply Hconf'; apply list_elem_of_In; cbn; tauto
          | f_equal; eapply Hfile; intros b; apply list_elem_of_In; cbn; tauto ].
Qed.

(** ** Marking *)

(** The certificate a field belongs to. *)
Definition owner (f : Field) : option CertificateName :=
  List.find (λ n, bool_decide (f = (fields_of n).1 ∨ f = (fields_of n).2)) (map fst marker_fields).
Lemma owner_fields n : owner (fields_of n).1 = Some n ∧ owner (fields_of n).2 = Some n.
Proof. destruct n; split; vm_compute; reflexivity. Qed.

Lemma mark_one n (c : Field → string) f :
  (<[(fields_of n).2 := EmptyString]> (<[(fields_of n).1 := EmptyString]> c)) f =
  if bool_decide (owner f = Some n) then EmptyString else c f.
Proof. destruct n, f; vm_compute; reflexivity. Qed.

Context (cert_string_inj : Inj (=) (=) cert_string).

Lemma marker_Some cert p : marker !! cert = Some p → ∃ n, cert = cert_string n ∧ p = fields_of n.
Proof.
  unfold marker, marker_fields. cbn [fold_left fst snd]. rewrite !lookup_insert_Some, lookup_empty.
  intros Hm. repeat destruct Hm as [[<- <-]|[_ Hm]]; [..|done];
    match goal with |- ∃ n, cert_string ?x = _ ∧ _ => by exists x end.
Qed.

Lemma clear_run certs c c' : markCertificatesForRefresh certs c = Ok c' → ∀ f,
  c' f = match owner f with
         | Some n => if bool_decide (cert_string n ∈ certs) then EmptyString else c f
         | None => c f
         end.
Proof.
  revert c. induction certs as [|cert certs IH]; intros c; cbn [markCertificatesForRefresh].
  { intros [= <-] f. by destruct (owner f). }
  destruct (marker !! cert) as [[cF kF]|] eqn:Em; [|done]. apply marker_Some in Em as (n & -> & Ep).
  pose proof (mark_one n c) as Hone. rewrite <- Ep in Hone. cbn [fst snd] in Hone.
  intros E f. rewrite (IH _ E f), Hone. destruct (owner f) as [n'|]; [|by rewrite bool_decide_eq_false_2].
  destruct (decide (n' = n)) as [->|Hne].
  - rewrite (bool_decide_eq_true_2 (Some n = Some n)) by done. rewrite (bool_decide_eq_true_2 (_ ∈ _ :: _)) by by left.
    by case_bool_decide.
  - rewrite (bool_decide_eq_false_2 (Some n' = Some n)) by congruence.
    rewrite (bool_decide_ext (cert_string n' ∈ cert_string n :: certs) (cert_string n' ∈ certs)); [done|].
    rewrite elem_of_cons. split; [intros [Heq%cert_string_inj|?]; done|by right].
Qed.

(** ** Writing *)

Definition kubeconfig_paths (a : App) : list string :=
  map (λ name, filepath_Join [KubernetesConfigDir a; name])
    ["admin.conf"; "controller.conf"; "proxy.conf"; "scheduler.conf"; "kubelet.conf"].
Definition control_plane_paths (a : App) : list string :=
  (control_plane_files a no_ControlPlanePKI).*1 ++ kubeconfig_paths a.
Definition control_plane_paths_ok (a : App) : Prop :=
  NoDup (control_plane_paths a) ∧ ∀ fs p, p ∈ control_plane_paths a → os_temp fs (filepath_Dir p) ≠ p.

Definition in_place (host : Host) (a : App) (cfg : ClusterConfig) (n : CertificateName) (pair : string * string)
    (w : World) : Prop :=
  match place n with
  | inl stem => contents w (k8s_pki a (stem +:+ ".crt")) = pair.1 ∧ contents w (k8s_pki a (stem +:+ ".key")) = pair.2
  | inr name => ∃ ip, GetLocalhostAddress (h_Localhost host) = Ok ip ∧
      KubeconfigString (local_server ip (APIServer_GetSecurePort (CC_APIServer cfg)))
        (contents w (k8s_pki a "ca.crt")) pair.1 pair.2 =
      Ok (contents w (filepath_Join [KubernetesConfigDir a; name]))
  end.

Lemma ensured_contents (a : App) c w ch w' path d : EnsureControlPlanePKI a c w = (Ok ch, w') →
  control_plane_paths_ok a → (path, d) ∈ control_plane_files a c → contents w' path = d.
Proof.
  intros E [Hnd Htmp] Hin. apply NoDup_app in Hnd as (Hnd & _).
  change (control_plane_files a no_ControlPlanePKI).*1 with (control_plane_files a c).*1 in Hnd.
  apply ensureFiles_loop_run in E as [Hf _]; [| |exact Hnd].
  - unfold contents. rewrite Hf, (proj1 (with_files_lookup _ _ _ _ _ _ Hnd) d Hin).
    unfold ensured. case_bool_decide as He; [by rewrite He|done].
  - intros fs p Hp. apply Htmp. apply elem_of_app. by left.
Qed.

Lemma written_run host (a : App) cfg c w ch w1 w2 : EnsureControlPlanePKI a c w = (Ok ch, w1) →
  SetupControlPlaneKubeconfigs (h_Localhost host) (KubernetesConfigDir a) (APIServer_GetSecurePort (CC_APIServer cfg)) c w1 =
    (Ok tt, w2) → control_plane_paths_ok a →
  (∀ path d, (path, d) ∈ control_plane_files a c → contents w2 path = d) ∧
  ∀ n, in_place host a cfg n (cp c (fields_of n).1, cp c (fields_of n).2) w2.
Proof.
  intros E1 E2 Hok. pose proof Hok as [Hnd _]. apply NoDup_app in Hnd as (_ & Hdis & Hnd).
  unfold SetupControlPlaneKubeconfigs in E2.
  apply io_bind_inv in E2 as [(ip & w' & E & E2)|(e & _ & ?)]; [|done]. apply io_wrapf_Ok in E. injection E as Hip <-.
  apply write_kubeconfigs_run in E2 as [Hf Ho]; [|exact Hnd].
  assert (Hfiles : ∀ path d, (path, d) ∈ control_plane_files a c → contents w2 path = d).
  { intros path d Hin. rewrite <- (ensured_contents _ _ _ _ _ _ _ E1 Hok Hin). unfold contents. rewrite Ho; [done|].
    apply Hdis. change (control_plane_files a no_ControlPlanePKI).*1 with (control_plane_files a c).*1.
    apply list_elem_of_fmap. by exists (path, d). }
  split; [done|]. intros n. unfold in_place.
  rewrite (Hfiles (k8s_pki a "ca.crt") (cp c CACert)) by (apply list_elem_of_In; cbn; tauto).
  destruct n; cbn [place fields_of fst snd];
    first [ exists ip; split; [done|]; apply Hf; apply list_elem_of_In; cbn; tauto
          | split; apply Hfiles; apply list_elem_of_In; cbn; tauto ].
Qed.

(** ** The whole *)

(** The authorities of the leaves, and the file each is in. *)
Definition authority (f : Field) : string :=
  match f with ClientCACert => "client-ca" | FrontProxyCACert => "front-proxy-ca" | _ => "ca" end.

(** The pair is signed by an authority of the node, as the certificate [n] of a node with the
    options [o]. *)
Definition renewed (a : App) (o : ControlPlanePKIOpts) (n : CertificateName) (pair : string * string) (w : World) : Prop :=
  ∃ ips l ca priv t, l ∈ leaves o ips ∧ (lf_cert l, lf_key l) = fields_of n ∧
    LoadCertificate (contents w (k8s_pki a (authority (lf_ca l) +:+ ".crt")))
      (contents w (k8s_pki a (authority (lf_ca l) +:+ ".key"))) = Ok (ca, Some priv) ∧
    template_for (lf_subject l) (notBefore o) (notAfter o) false (lf_dns l) (lf_ips l) t ∧
    issued ca (Some priv) t pair.

Lemma leaf_of o ips n : ∃ l, l ∈ leaves o ips ∧ (lf_cert l, lf_key l) = fields_of n ∧
  (lf_ca l, lf_caKey l) ∈ [(CACert, CAKey); (ClientCACert, ClientCAKey); (FrontProxyCACert, FrontProxyCAKey)].
Proof.
  destruct n; unfold leaves, client_certs; cbn [app fmap list_fmap];
    [exists (client_leaf (mkClientCert "admin" (mkName "kubernetes-admin" ["system:masters"]) AdminClientCert AdminClientKey))
    |exists front_proxy_leaf|exists apiserver_kubelet_client_leaf
    |exists (client_leaf (mkClientCert "scheduler" (mkName "system:kube-scheduler" []) KubeSchedulerClientCert KubeSchedulerClientKey))
    |exists (client_leaf (mkClientCert "controller" (mkName "system:kube-controller-manager" [])
               KubeControllerManagerClientCert KubeControllerManagerClientKey))
    |exists (apiserver_leaf o ips)
    |exists (client_leaf (mkClientCert "kubelet" (mkName ("system:node:" +:+ hostname o) ["system:nodes"])
               KubeletClientCert KubeletClientKey))
    |exists (kubelet_leaf o ips)
    |exists (client_leaf (mkClientCert "proxy" (mkName "system:kube-proxy" []) KubeProxyClientCert KubeProxyClientKey))];
    (split; [apply list_elem_of_In; cbn; tauto|]); (split; [done|]); apply list_elem_of_In; cbn; tauto.
Qed.

(** What completing the certificates does to one of them. *)
Lemma completed_pair now ips c c' n : completed now ips c c' →
  (cp c (fields_of n).1 ≠ EmptyString → cp c (fields_of n).2 ≠ EmptyString →
   (cp c' (fields_of n).1, cp c' (fields_of n).2) = (cp c (fields_of n).1, cp c (fields_of n).2)) ∧
  (cp c (fields_of n).1 = EmptyString →
   ∃ l ca priv t, l ∈ leaves (cp_opts c) ips ∧ (lf_cert l, lf_key l) = fields_of n ∧
     (lf_ca l, lf_caKey l) ∈ [(CACert, CAKey); (ClientCACert, ClientCAKey); (FrontProxyCACert, FrontProxyCAKey)] ∧
     LoadCertificate (cp c' (lf_ca l)) (cp c' (lf_caKey l)) = Ok (ca, Some priv) ∧
     template_for (lf_subject l) (notBefore (cp_opts c)) (notAfter (cp_opts c)) false (lf_dns l) (lf_ips l) t ∧
     issued ca (Some priv) t (cp c' (fields_of n).1, cp c' (fields_of n).2)).
Proof.
  intros Hc. destruct (leaf_of (cp_opts c) ips n) as (l & Hl & Hf & Hca).
  pose proof (done_leaves _ _ _ _ Hc) as Hd. rewrite Forall_forall in Hd. specialize (Hd l Hl). rewrite <- Hf. cbn [fst snd].
  destruct Hd as [(Hc1 & Hk1 & -> & -> & _)|(He & ca & priv & t & Hload & Ht & Hi)].
  - by split.
  - split; [by destruct He|]. intros _. exists l, ca, priv, t. by split_and!.
Qed.

(** One certificate after a renewal of [certs]. *)
Definition renewal_of (host : Host) (a : App) (cfg : ClusterConfig) (o : ControlPlanePKIOpts) (certs : list string)
    (w w' : World) (n : CertificateName) : Prop :=
  ∃ crt key, on_disk a n w (crt, key) ∧
    (cert_string n ∈ certs → ∃ pair, renewed a o n pair w' ∧ in_place host a cfg n pair w') ∧
    (cert_string n ∉ certs → crt ≠ EmptyString → key ≠ EmptyString → in_place host a cfg n (crt, key) w').

Lemma renewed_pairs host (a : App) cfg o certs given marked c w w1 w' now ips ch : 
  (∀ n, on_disk a n w (given (fields_of n).1, given (fields_of n).2)) →
  (∀ f, marked f = match owner f with
    | Some n => if bool_decide (cert_string n ∈ certs) then EmptyString else given f | None => given f end) →
  completed now ips (mkControlPlanePKI o marked) c →
  EnsureControlPlanePKI a c w = (Ok ch, w1) →
  SetupControlPlaneKubeconfigs (h_Localhost host) (KubernetesConfigDir a) (APIServer_GetSecurePort (CC_APIServer cfg)) c w1 =
    (Ok tt, w') → control_plane_paths_ok a → ∀ n, renewal_of host a cfg o certs w w' n.
Proof.
  intros Hdisk Hmarked Hc E1 E2 Hok n. destruct (written_run _ _ _ _ _ _ _ _ E1 E2 Hok) as [Hfiles Hplace].
  destruct (completed_pair _ _ _ _ n Hc) as [Hkeep Hnew]. destruct (owner_fields n) as [Ho1 Ho2].
  cbn [cp cp_opts] in Hkeep, Hnew. rewrite !Hmarked, Ho1, Ho2 in Hkeep. rewrite Hmarked, Ho1 in Hnew.
  exists (given (fields_of n).1), (given (fields_of n).2). split; [by apply Hdisk|]. split.
  - intros Hin. rewrite bool_decide_eq_true_2 in Hnew by done. destruct (Hnew eq_refl) as (l & ca & priv & t & Hl & Hf & Hca & Hload & Ht & Hi).
    exists (cp c (fields_of n).1, cp c (fields_of n).2). split; [|by apply Hplace].
    exists ips, l, ca, priv, t. split_and!; [done|done| |done|done]. rewrite <- Hload.
    rewrite !elem_of_cons, elem_of_nil in Hca.
    destruct Hca as [[= -> ->]|[[= -> ->]|[[= -> ->]|[]]]]; f_equal; apply Hfiles; apply list_elem_of_In; cbn; tauto.
  - intros Hin Hcrt Hkey. rewrite bool_decide_eq_false_2 in Hkeep by done. rewrite <- (Hkeep Hcrt Hkey). apply Hplace.
Qed.

Lemma read_and_mark_Ok (a : App) cfg certs s given s' :
  read_and_mark order_files order_configs a cfg certs s = (SyncResponse given, s') →
  s' = s ∧ ∃ c, (∀ n, on_disk a n (m_world s) (c (fields_of n).1, c (fields_of n).2)) ∧
    ∀ f, given f = match owner f with
      | Some n => if bool_decide (cert_string n ∈ certs) then EmptyString else c f | None => c f end.
Proof.
  unfold read_and_mark. intros (c1 & s1 & E1%tried_Sync%act_wrapf_Ok & E)%handler_bind_Sync.
  apply handler_bind_Sync in E as (c2 & s2 & E2%tried_Sync%act_wrapf_Ok & E).
  apply tried_Sync, act_wrapf_Ok in E. injection E as Em <-.
  apply act_io_run in E1 as (w1 & E1 & ->). apply act_io_run in E2 as (w2 & E2 & ->). cbn [m_world] in E2.
  assert (Hemp : ∀ f, in_kubeconfig f → with_cluster_certificates (CC_Certificates cfg) (λ _, EmptyString) f = EmptyString).
  { intros f Hf. unfold in_kubeconfig in Hf. cbn in Hf. rewrite !elem_of_cons, elem_of_nil in Hf.
    by destruct Hf as [->|[->|[->|[->|[->|[->|[->|[->|[->|[->|[]]]]]]]]]]]. }
  destruct (read_both _ _ _ _ _ _ _ Hemp E1 E2) as (-> & Hdisk & _). split; [by destruct s|]. exists c2. split; [done|].
  by apply clear_run.
Qed.

Lemma write_control_plane_Ok host (a : App) cfg c s s' : write_control_plane host a cfg c s = (SyncResponse tt, s') →
  m_db s' = m_db s ∧ m_log s' = m_log s ∧ ∃ ch w1, EnsureControlPlanePKI a c (m_world s) = (Ok ch, w1) ∧
    SetupControlPlaneKubeconfigs (h_Localhost host) (KubernetesConfigDir a) (APIServer_GetSecurePort (CC_APIServer cfg)) c w1 =
      (Ok tt, m_world s').
Proof.
  intros (ch & s1 & E1%tried_Sync%act_wrapf_Ok & E2%tried_Sync%act_wrapf_Ok)%handler_bind_Sync.
  apply act_io_run in E1 as (w1 & E1 & ->). apply act_io_run in E2 as (w2 & E2 & ->).
  split; [done|]. split; [done|]. by exists ch, w1.
Qed.

(** C7: The renewal of the certificates of a control plane node, when it succeeds: the
    database stays, no command is issued before the services are restarted, and for each of
    the nine certificates: if it was asked for, its place on disk (a pair of files, or a
    kubeconfig) has a new pair, signed by the authority that the node has on disk, for the name
    of the node, from now until the expiration that was asked for; if it was not, its place has
    the pair that it had before.  The order in which the two maps are gone through, and whether
    the node has the keys of its authorities, do not matter. *)
Theorem control_plane_refresh_correct host (a : App) st r req cfg m :
  control_plane_paths_ok a → Body r = Ok req → GetClusterConfig (m_db m) = Ok cfg →
  let '(response, m') := refreshCertsRunControlPlane order_files order_configs host a st r m in
  succeeds response = true →
  m_db m' = m_db m ∧ m_log m' = m_log m ∧
  ∃ o, hostname o = st_Name st ∧ notBefore o = h_Now host ∧
    notAfter o = SecondsToExpirationDate (h_Now host) (rr_ExpirationSeconds req) ∧
    ∀ n, renewal_of host a cfg o (certificates_of ClusterRoleControlPlane req) (m_world m) (m_world m') n.
Proof.
  intros Hok Hb Hc. destruct (refreshCertsRunControlPlane _ _ _ _ _ _ _) as [response m'] eqn:E. intros Hr.
  destruct response as [x|?|]; [|done..]. unfold refreshCertsRunControlPlane in E.
  rewrite (handler_bind_step _ _ _ req m) in E by (by apply body_Sync).
  apply handler_bind_Sync in E as (certs & s1 & [-> Hcerts]%certs_of_request_run & E). specialize (Hcerts _ eq_refl).
  assert (certs = certificates_of ClusterRoleControlPlane req) as ->
    by (rewrite Hcerts; unfold certificates_of; by destruct (rr_Certificates req)). clear Hcerts.
  rewrite (handler_bind_step _ _ _ cfg m) in E.
  2: { unfold tried, act_wrapf, util_GetClusterConfig, act_query, act_wrapf. by rewrite Hc. }
  apply handler_bind_Sync in E as (nodeIP & s2 & [= _ <-]%tried_Sync & E).
  apply handler_bind_Sync in E as (serviceIPs & s3 & [= _ <-]%tried_Sync%act_wrapf_Ok & E).
  apply handler_bind_Sync in E as (given & s4 & [-> (c0 & Hdisk & Hgiven)]%read_and_mark_Ok & E).
  apply handler_bind_Sync in E as (c & s5 & E5%tried_Sync%act_wrapf_Ok & E).
  apply handler_bind_Sync in E as ([] & s6 & (Hd & Hl & ch & w1 & Ew1 & Ew2)%write_control_plane_Ok & E).
  apply handler_bind_Sync in E as (expiration & s7 & [-> _]%expiration_run & [= <- <-]).
  set (o := cp_opts (refreshed_opts host st nodeIP serviceIPs req)) in *.
  unfold act_gen in E5. destruct (ControlPlane_CompleteCertificates _ _ _ _) as [[[[]|e] c'] n] eqn:Ec; [|done].
  injection E5 as <- <-. cbn [m_db m_log m_world] in *. split; [done|]. split; [done|].
  apply CompleteCertificates_completed in Ec as (ips & n1 & _ & Hcomp).
  exists o. assert (Ho : hostname o = st_Name st ∧ notBefore o = h_Now host ∧
    notAfter o = SecondsToExpirationDate (h_Now host) (rr_ExpirationSeconds req))
    by (unfold o, refreshed_opts; by destruct (SplitIPAndDNSSANs _)).
  destruct Ho as (? & ? & ?). split; [done|]. split; [done|]. split; [done|].
  eapply renewed_pairs; [exact Hdisk|exact Hgiven|exact Hcomp|exact Ew1|exact Ew2|exact Hok].
Qed.
End Refresh.

(** *** The certificate of an API server *)

Definition demo_kubeconfig : KubeConfig :=
  mkKubeConfig [] [("k8s-user", mkKubeAuthInfo "CERTIFICATE|user" "RSA PRIVATE KEY|user")] [] EmptyString.
Definition demo_refresh_env : @CertificatesEnv PkiNode.demo_pki_env demo_os :=
  @Build_CertificatesEnv PkiNode.demo_pki_env demo_os (λ _, io_lift (Ok demo_kubeconfig)) (λ _, EmptyString)
    (λ _, EmptyString) (λ _ _ s, Ok s).
Definition demo_refresh_world : World :=
  demo_world (map (λ name, ("/etc/kubernetes/pki/" +:+ name +:+ ".crt", "CERTIFICATE|" +:+ name))
                ["ca"; "client-ca"; "front-proxy-ca"; "apiserver"; "kubelet"; "front-proxy-client"; "apiserver-kubelet-client"] ++
              map (λ name, ("/etc/kubernetes/pki/" +:+ name +:+ ".key", "RSA PRIVATE KEY|" +:+ name))
                ["ca"; "client-ca"; "front-proxy-ca"; "apiserver"; "kubelet"; "front-proxy-client"; "apiserver-kubelet-client";
                 "serviceaccount"]).
Definition demo_refresh_machine : Machine := mkMachine demo_refresh_world base_db 0 [].
Definition demo_refresh_request : RefreshRunRequest := mkRefreshRun 7 3600 [] ["apiserver"].
Definition demo_refreshed : Response (Z * act unit) * Machine :=
  @refreshCertsRunControlPlane demo_os demo_setup_env demo_db grants_all PkiNode.demo_pki_env
    demo_cert_names demo_refresh_env (λ l, l) (λ l, l)
    demo_hooks_host JoinFacts.demo_app (mkMState "node1" "10.0.0.2" EmptyString)
    (mkRequest (λ _, EmptyString) (Ok demo_refresh_request)) demo_refresh_machine.

Lemma demo_control_plane_paths : @control_plane_paths_ok demo_os JoinFacts.demo_app.
Proof.
  split; [apply (bool_decide_eq_true_1 _); vm_compute; reflexivity|].
  intros fs p Hp.
  assert (Hall : Forall (λ p, filepath_Join [filepath_Dir p; "tmp-1"] ≠ p) (control_plane_paths JoinFacts.demo_app))
    by (apply (bool_decide_eq_true_1 _); vm_compute; reflexivity).
  rewrite Forall_forall in Hall. by apply Hall.
Qed.

Lemma control_plane_refresh_correct_witness :
  contents (m_world demo_refreshed.2) (k8s_pki JoinFacts.demo_app "kubelet.crt") = "CERTIFICATE|kubelet" ∧
  ∃ o pair, hostname o = "node1" ∧
    @renewed PkiNode.demo_pki_env JoinFacts.demo_app o CertificateAPIServer pair (m_world demo_refreshed.2) ∧
    contents (m_world demo_refreshed.2) (k8s_pki JoinFacts.demo_app "apiserver.crt") = pair.1.
Proof.
  assert (Hinj : Inj (=) (=) (@cert_string demo_cert_names)) by (intros [] []; done || by intros [=]).
  pose proof (@control_plane_refresh_correct demo_os demo_setup_env demo_db grants_all PkiNode.demo_pki_env demo_cert_names
    demo_refresh_env demo_os_ok demo_setup_ok (λ l, l) (λ l, l) (λ l, Permutation_refl l) (λ l, Permutation_refl l)
    ltac:(by intros p w r w' [= _ <-]) Hinj demo_hooks_host JoinFacts.demo_app (mkMState "node1" "10.0.0.2" EmptyString)
    (mkRequest (λ _, EmptyString) (Ok demo_refresh_request)) demo_refresh_request (json_norm Merge.base_config)
    demo_refresh_machine demo_control_plane_paths eq_refl eq_refl) as Hw.
  change (refreshCertsRunControlPlane _ _ _ _ _ _ _) with demo_refreshed in Hw.
  assert (Hr : succeeds demo_refreshed.1 = true) by (vm_compute; reflexivity).
  destruct demo_refreshed as [response m']. cbn [fst snd] in *. destruct (Hw Hr) as (_ & _ & o & Ho & _ & _ & Hall). split.
  - destruct (Hall CertificateKubelet) as (crt & key & [= -> ->] & _ & Hkeep).
    destruct Hkeep as [Hcrt _]; [|vm_compute; discriminate..|etrans; [exact Hcrt|vm_compute; reflexivity]].
    intros [Hin|Hin]%elem_of_cons; [discriminate Hin|by apply not_elem_of_nil in Hin].
  - destruct (Hall CertificateAPIServer) as (crt & key & _ & Hnew & _).
    destruct Hnew as (pair & Hren & [Hcrt _]); [by left|]. exists o, pair. split; [exact Ho|]. split; [exact Hren|exact Hcrt].
Defined.
End ApiRefreshFacts.
