(* ===== verification/Proxy.v ===== *)
(** * The proxy of a worker to the API servers

    pkg/proxy.  A TCP proxy (userspace.go) picks one of the API servers for each connection
    to the node, and remembers which ones did not answer; startProxy (proxy.go) makes it of a
    list of endpoints, which are kept in a file (config.go), asked of the API servers
    (endpoints.go) and replaced when they change (apiserver.go).

    The TCP proxy runs one goroutine for each connection, one that looks at the servers that
    are out of use, and one for each of these.  [proxy_step] has a step for every access to
    what they share: the mutex of the proxy, the flag of a server (which has a mutex of its
    own, and changes while another goroutine holds the proxy's), the counter of the round
    robin; and for a dial and its answer.  What [pick] computes between these accesses is a
    tree ([picking]).  A [run] is a list of [event]s.

    External: the URL parser and the JSON decoder ([ProxyEnv]).  The connections to servers,
    the random numbers and the timers are choices of the steps. *)

From S2P Require Import Prelude GoStrings GoNet Cidr Config FileSys Pki Setup Database Effects Checks KubeClient.
Import GoStr GoNet Cidr FileSys Setup Effects Checks KubeClient.

Module Proxy.

(** The host of a URL that parses and has one; [Unmarshal] of a [Configuration]. *)
Class ProxyEnv := {
  url_Host : string → option string;
  json_Unmarshal_endpoints : string → res (list string) }.

(** ** userspace.go *)

(** [net.SRV], and [remote] with the mutex left out: its methods are single steps. *)
Record SRV := mkSRV { Target : string; Port : Z; Priority : Z; Weight : Z }.
Record remote := mkRemote { r_srv : SRV; r_addr : string; r_inactive : bool }.

Definition isActive (r : remote) : bool := negb (r_inactive r).
Definition set_inactive (r : remote) (b : bool) : remote := mkRemote (r_srv r) (r_addr r) b.

(** The first loop of [Run]. *)
Definition new_remote (srv : SRV) : remote :=
  let addr := ToIPString (default [] (ParseIP (Target srv))) in
  mkRemote srv (addr +:+ ":" +:+ Itoa (Port srv)) false.

(** What [pick] does to what it shares with other goroutines: it asks a remote whether it is
    active, draws a number below [n], and takes the counter modulo [n] and adds one to it. *)
Inductive picking (A : Type) : Type :=
| Done (a : A)
| IsActive (i : nat) (k : bool → picking A)
| Intn (n : Z) (k : Z → picking A)
| Count (n : nat) (k : nat → picking A).
Arguments Done {A}.
Arguments IsActive {A}.
Arguments Intn {A}.
Arguments Count {A}.

#[export] Instance picking_ret : MRet picking := λ A, Done.
#[export] Instance picking_bind : MBind picking :=
  fix bind A B f m := match m with
  | Done a => f a
  | IsActive i k => IsActive i (λ b, bind A B f (k b))
  | Intn n k => Intn n (λ z, bind A B f (k z))
  | Count n k => Count n (λ i, bind A B f (k i))
  end.

(** The best priority class so far; its remotes are indices. *)
Record class := mkClass { bestPr : Z; cl_w : Z; weighted : list (nat * Z); unweighted : list nat }.
Definition no_class : class := mkClass 65535 0 [] [].

Definition add_remote (c : class) (i : nat) (s : SRV) : class :=
  if (0 <? Weight s)%Z
  then mkClass (bestPr c) (cl_w c + Weight s) (weighted c ++ [(i, Weight s)]) (unweighted c)
  else mkClass (bestPr c) (cl_w c) (weighted c) (unweighted c ++ [i]).

Definition look_at (c : class) (i : nat) (s : SRV) (active : bool) : class :=
  if negb active then c
  else if (Priority s <? bestPr c)%Z then add_remote (mkClass (Priority s) 0 [] []) i s
  else if (Priority s =? bestPr c)%Z then add_remote c i s
  else c.

(** "find best priority class"; [i] is the index of the first remote of [rs]. *)
Fixpoint find_class (i : nat) (rs : list remote) (c : class) : picking class :=
  match rs with
  | [] => mret c
  | r :: rs => IsActive i (λ active, find_class (S i) rs (look_at c i (r_srv r) active))
  end.

(** The loop that subtracts the weights from the number that was drawn. *)
Fixpoint choose_weighted (choose : Z) (l : list (nat * Z)) : option nat :=
  match l with
  | [] => None
  | (i, weight) :: l =>
      let choose := (choose - weight)%Z in
      if (choose <=? 0)%Z then Some i else choose_weighted choose l
  end.

(** The round robin, over all the remotes of the proxy; [tries] are left. *)
Fixpoint round_robin (len tries : nat) : picking (option nat) :=
  match tries with
  | O => mret None
  | S tries => Count len (λ i, IsActive i (λ active, if active : bool then Done (Some i) else round_robin len tries))
  end.

Definition pick_unweighted (len : nat) (c : class) : picking (option nat) :=
  match unweighted c with [] => mret None | _ => round_robin len len end.
Definition pick_weighted (len : nat) (c : class) : picking (option nat) :=
  Intn (cl_w c) (λ choose,
    match choose_weighted choose (weighted c) with
    | Some i => mret (Some i)
    | None => pick_unweighted len c
    end).
Definition pick_of (len : nat) (c : class) : picking (option nat) :=
  match weighted c, unweighted c with
  | [], _ => pick_unweighted len c
  | _, [] => pick_weighted len c
  | _, u => Intn 100 (λ z, if (z =? 1)%Z then Count (length u) (λ j, mret (u !! j)) else pick_weighted len c)
  end.
Definition pick (rs : list remote) : picking (option nat) :=
  c ← find_class 0 rs no_class;
  pick_of (length rs) c.

(** *** The goroutines *)

(** Where [serve] is, for one connection: it waits for the mutex, or holds it in [pick]; it
    dials a remote, or was not answered by it and is about to say so; it copies; it is over. *)
Inductive conn := Waiting | Selecting | Connecting (i : nat) | Failed (i : nat) | Proxying (i : nat) | Closed.

(** [tryReactivate]: it dials, or was answered. *)
Inductive probe := Probing (i : nat) | Answered (i : nat).

(** The mutex of the proxy: free, held by a connection in [pick], or by [runMonitor] in its
    loop over the remotes. *)
Inductive mutex := Unlocked | Picking (c : nat) (p : picking (option nat)) | Reviewing (i : nat).

Record tcpproxy := mkTcpproxy {
  remotes : list remote; pickCount : Z; mu : mutex;
  conns : list conn; probes : list probe;
  listening : bool; monitoring : bool; donec : bool }.

Definition with_mu (m : mutex) (tp : tcpproxy) : tcpproxy :=
  mkTcpproxy (remotes tp) (pickCount tp) m (conns tp) (probes tp) (listening tp) (monitoring tp) (donec tp).
Definition with_conn (c : nat) (x : conn) (tp : tcpproxy) : tcpproxy :=
  mkTcpproxy (remotes tp) (pickCount tp) (mu tp) (<[c := x]> (conns tp)) (probes tp) (listening tp)
    (monitoring tp) (donec tp).
Definition with_count (n : Z) (tp : tcpproxy) : tcpproxy :=
  mkTcpproxy (remotes tp) n (mu tp) (conns tp) (probes tp) (listening tp) (monitoring tp) (donec tp).
Definition with_flag (i : nat) (b : bool) (tp : tcpproxy) : tcpproxy :=
  mkTcpproxy (alter (λ r, set_inactive r b) i (remotes tp)) (pickCount tp) (mu tp) (conns tp) (probes tp)
    (listening tp) (monitoring tp) (donec tp).
Definition with_probes (l : list probe) (tp : tcpproxy) : tcpproxy :=
  mkTcpproxy (remotes tp) (pickCount tp) (mu tp) (conns tp) l (listening tp) (monitoring tp) (donec tp).

(** [Run] up to its loop. *)
Definition initial (srvs : list SRV) : tcpproxy := mkTcpproxy (new_remote <$> srvs) 0 Unlocked [] [] true true false.

(** What a run shows: [Picked c o] is what [pick] returned to connection [c], [Saw c i b]
    what it saw of remote [i], [Dialed c i b] whether the remote answered. *)
Inductive event :=
| Accepted (c : nat) | Locked (c : nat) | Saw (c i : nat) (active : bool) | Drew (c : nat) (z : Z)
| Counted (c i : nat) | Picked (c : nat) (o : option nat) | Dialed (c i : nat) (ok : bool)
| Inactivated (c i : nat) | Ended (c i : nat)
| Tick | Reviewed (i : nat) | Probed (i : nat) (ok : bool) | Reactivated (i : nat) | MonitorUnlocked
| Stopped | MonitorStopped.

(** [tp.pickCount % n], which is negative after an overflow; an index that is negative
    panics. *)
Definition counter_index (count : Z) (n : nat) : option nat :=
  let j := Z.rem count (Z.of_nat n) in if (j <? 0)%Z then None else Some (Z.to_nat j).

(** [None] is the end of the process by a panic. *)
Inductive proxy_step : tcpproxy → event → option tcpproxy → Prop :=
| StepAccept tp : listening tp = true →
    proxy_step tp (Accepted (length (conns tp)))
      (Some (mkTcpproxy (remotes tp) (pickCount tp) (mu tp) (conns tp ++ [Waiting]) (probes tp) (listening tp)
               (monitoring tp) (donec tp)))
| StepLock tp c : conns tp !! c = Some Waiting → mu tp = Unlocked →
    proxy_step tp (Locked c) (Some (with_mu (Picking c (pick (remotes tp))) (with_conn c Selecting tp)))
| StepSaw tp c i k r : mu tp = Picking c (IsActive i k) → remotes tp !! i = Some r →
    proxy_step tp (Saw c i (isActive r)) (Some (with_mu (Picking c (k (isActive r))) tp))
| StepDrew tp c n k z : mu tp = Picking c (Intn n k) → (0 ≤ z < n)%Z →
    proxy_step tp (Drew c z) (Some (with_mu (Picking c (k z)) tp))
| StepCounted tp c n k j : mu tp = Picking c (Count n k) → counter_index (pickCount tp) n = Some j →
    proxy_step tp (Counted c j) (Some (with_mu (Picking c (k j)) (with_count (wrap64 (pickCount tp + 1)) tp)))
| StepPanic tp c n k : mu tp = Picking c (Count n k) → counter_index (pickCount tp) n = None →
    proxy_step tp (Counted c 0) None
| StepPicked tp c i : mu tp = Picking c (Done (Some i)) →
    proxy_step tp (Picked c (Some i)) (Some (with_mu Unlocked (with_conn c (Connecting i) tp)))
| StepNone tp c : mu tp = Picking c (Done None) →
    proxy_step tp (Picked c None) (Some (with_mu Unlocked (with_conn c Closed tp)))
| StepConnected tp c i : conns tp !! c = Some (Connecting i) →
    proxy_step tp (Dialed c i true) (Some (with_conn c (Proxying i) tp))
| StepRefused tp c i : conns tp !! c = Some (Connecting i) →
    proxy_step tp (Dialed c i false) (Some (with_conn c (Failed i) tp))
| StepInactivate tp c i : conns tp !! c = Some (Failed i) →
    proxy_step tp (Inactivated c i) (Some (with_flag i true (with_conn c Waiting tp)))
| StepEnded tp c i : conns tp !! c = Some (Proxying i) →
    proxy_step tp (Ended c i) (Some (with_conn c Closed tp))
| StepTick tp : monitoring tp = true → mu tp = Unlocked → proxy_step tp Tick (Some (with_mu (Reviewing 0) tp))
| StepReview tp i r : mu tp = Reviewing i → remotes tp !! i = Some r →
    proxy_step tp (Reviewed i)
      (Some (with_mu (Reviewing (S i))
               (with_probes (if isActive r then probes tp else probes tp ++ [Probing i]) tp)))
| StepReviewed tp : mu tp = Reviewing (length (remotes tp)) →
    proxy_step tp MonitorUnlocked (Some (with_mu Unlocked tp))
| StepProbed tp k i : probes tp !! k = Some (Probing i) →
    proxy_step tp (Probed i true) (Some (with_probes (<[k := Answered i]> (probes tp)) tp))
| StepProbeFailed tp k i : probes tp !! k = Some (Probing i) →
    proxy_step tp (Probed i false) (Some (with_probes (delete k (probes tp)) tp))
| StepReactivate tp k i : probes tp !! k = Some (Answered i) →
    proxy_step tp (Reactivated i) (Some (with_flag i false (with_probes (delete k (probes tp)) tp)))
| StepStop tp : listening tp = true →
    proxy_step tp Stopped
      (Some (mkTcpproxy (remotes tp) (pickCount tp) (mu tp) (conns tp) (probes tp) false (monitoring tp) true))
| StepMonitorStop tp : donec tp = true → monitoring tp = true → (∀ i, mu tp ≠ Reviewing i) →
    proxy_step tp MonitorStopped
      (Some (mkTcpproxy (remotes tp) (pickCount tp) (mu tp) (conns tp) (probes tp) (listening tp) false (donec tp))).

(** A run: the events in their order, between two states of a process that lives. *)
Inductive run : tcpproxy → list event → tcpproxy → Prop :=
| RunNil tp : run tp [] tp
| RunSnoc tp l tp1 e tp2 : run tp l tp1 → proxy_step tp1 e (Some tp2) → run tp (l ++ [e]) tp2.

(** ** proxy.go *)

Section Start.
Context `{Outside, !ProxyEnv}.

Definition ParsePort (port : string) : res Z :=
  n ← ParseUint64 port;
  if (n <? 2 ^ 16)%Z then Ok n
  else Err (Errorf "strconv.ParseUint: parsing %q: value out of range" [port]).

Definition parse_endpoint (endpoint : string) : res SRV :=
  let endpoint := default endpoint (url_Host endpoint) in
  '(host, port) ← wrapf "failed to parse endpoint %q: %w" [endpoint] (SplitHostPort endpoint);
  portNumber ← wrapf "failed to parse port %q: %w" [port] (ParsePort port);
  Ok (mkSRV host portNumber 0 0).

(** The proxy runs until the context is done. *)
Definition startProxy (listenURL : string) (endpointURLs : list string) : act tcpproxy :=
  _ ← act_lift (fails_if (Nat.eqb (length endpointURLs) 0) (Errorf "empty list of endpoints" []));
  srvs ← act_lift (map_res parse_endpoint endpointURLs);
  _ ← act_wrapf "failed to start listener: %w" [] (perform (Listen listenURL));
  mret (initial srvs).
End Start.
End Proxy.
