(* ===== verification/ProxyFacts.v ===== *)
(** * What the proxy of a worker promises

    Proxy.v, for every interleaving of the goroutines: the state stays well formed and no
    goroutine panics or is stuck, the round robin is fair, a connection is refused only after
    every server was seen out of use, it dials no server twice in vain unless that was found
    again in between; and what a connection gets when it is alone. *)

From S2P Require Import Prelude GoStrings GoNet Cidr Config FileSys Pki Setup Database Effects Checks KubeClient Proxy.
Import GoStr GoNet Cidr FileSys Setup Effects Checks KubeClient Proxy.

Module ProxyFacts.

(** All servers are of one class without weights, which is what [startProxy] makes. *)
Definition one_class (s : SRV) : Prop := Priority s = 0%Z ∧ Weight s = 0%Z.

(** The index of the counter before it was added to. *)
Definition last_index (n : nat) (count : Z) : nat := Z.to_nat ((count - 1) mod Z.of_nat n).

Lemma counter_index_mod count n : (0 ≤ count)%Z → (0 < n)%nat →
  counter_index count n = Some (last_index n (count + 1)).
Proof.
  intros Hc Hn. unfold counter_index, last_index. rewrite Z.rem_mod_nonneg by lia.
  replace (count + 1 - 1)%Z with count by lia.
  destruct (Z.ltb_spec (count mod Z.of_nat n) 0) as [Hlt|]; [|done]. pose proof (Z.mod_pos_bound count (Z.of_nat n)). lia.
Qed.

Lemma last_index_lt n count : (0 < n)%nat → (last_index n count < n)%nat.
Proof. intros Hn. unfold last_index. pose proof (Z.mod_pos_bound (count - 1) (Z.of_nat n)). lia. Qed.

(** Every residue is met in [n] consecutive numbers. *)
Lemma residue_met n i (c : Z) : (i < n)%nat → ∃ k : nat, (k < n)%nat ∧ last_index n (c + 1 + Z.of_nat k) = i.
Proof.
  intros Hi. exists (Z.to_nat ((Z.of_nat i - c) mod Z.of_nat n)).
  pose proof (Z.mod_pos_bound (Z.of_nat i - c) (Z.of_nat n)). split; [lia|].
  unfold last_index. rewrite Z2Nat.id by lia. replace (c + 1 + _ - 1)%Z with (c + (Z.of_nat i - c) mod Z.of_nat n)%Z by lia.
  rewrite Zplus_mod_idemp_r. replace (c + (Z.of_nat i - c))%Z with (Z.of_nat i) by lia. rewrite Z.mod_small by lia. lia.
Qed.

(** ** A pick that is under way

    [selecting n seen count p pend]: what is left of a pick among [n] remotes of one class,
    which has seen the remotes [seen] inactive, when the counter is [count]; [pend] is the
    remote it has just counted and not rejected. *)
Inductive selecting (n : nat) (seen : list nat) (count : Z) : picking (option nat) → option nat → Prop :=
| SelFind i rs c : (i + length rs)%nat = n → weighted c = [] → (0 ≤ bestPr c)%Z → Forall (λ r, one_class (r_srv r)) rs →
    (unweighted c = [] → ∀ j, (j < i)%nat → j ∈ seen) → selecting n seen count (find_class i rs c ≫= pick_of n) None
| SelCount m : (m < n)%nat → (∀ k, (k < n - S m)%nat → last_index n (count - Z.of_nat k) ∈ seen) →
    selecting n seen count (round_robin n (S m)) None
| SelSaw m : (m < n)%nat → (∀ k, (1 ≤ k < n - m)%nat → last_index n (count - Z.of_nat k) ∈ seen) →
    selecting n seen count (IsActive (last_index n count)
      (λ active, if active : bool then Done (Some (last_index n count)) else round_robin n m)) (Some (last_index n count))
| SelDone : selecting n seen count (Done (Some (last_index n count))) (Some (last_index n count))
| SelNone : (∀ j, (j < n)%nat → j ∈ seen) → selecting n seen count (Done None) None.

(** A whole turn without an active remote. *)
Lemma whole_turn n (seen : list nat) count : (∀ k, (k < n)%nat → last_index n (count - Z.of_nat k) ∈ seen) →
  ∀ j, (j < n)%nat → j ∈ seen.
Proof.
  intros Hs j Hj. destruct (residue_met n j (count - Z.of_nat n) Hj) as (k & Hk & <-).
  replace (count - Z.of_nat n + 1 + Z.of_nat k)%Z with (count - Z.of_nat (n - S k))%Z by lia. apply Hs. lia.
Qed.

Lemma selecting_robin n seen count m : (m ≤ n)%nat →
  (∀ k, (k < n - m)%nat → last_index n (count - Z.of_nat k) ∈ seen) → selecting n seen count (round_robin n m) None.
Proof.
  intros Hm Hs. destruct m as [|m]; [|by constructor].
  apply SelNone. apply (whole_turn _ _ count). intros k Hk. apply Hs. lia.
Qed.

Lemma look_at_one_class c i s active : weighted c = [] → (0 ≤ bestPr c)%Z → one_class s →
  let c' := look_at c i s active in
  weighted c' = [] ∧ (0 ≤ bestPr c')%Z ∧ if active then unweighted c' ≠ [] else c' = c.
Proof.
  intros Hw Hb [Hp Hs] c'. subst c'. unfold look_at, add_remote. rewrite Hp, Hs. destruct active; [|done]. cbn [negb].
  destruct (Z.ltb_spec 0 (bestPr c)); [done|]. destruct (Z.eqb_spec 0 (bestPr c)); [|lia]. cbn.
  split_and!; [done|done|]. by destruct (unweighted c).
Qed.

(** The next access, and what is left after it. *)
Definition next_access (n : nat) (seen : list nat) (count : Z) (pend : option nat) (p : picking (option nat)) : Prop :=
  match p with
  | Done (Some j) => pend = Some j
  | Done None => pend = None ∧ ∀ j, (j < n)%nat → j ∈ seen
  | Intn _ _ => False
  | IsActive i k =>
      (i < n)%nat ∧ selecting n (i :: seen) count (k false) None ∧
      ((pend = None ∧ selecting n seen count (k true) None) ∨
       (pend = Some i ∧ k true = Done (Some i) ∧ selecting n seen count (k true) (Some i)))
  | Count n' k =>
      pend = None ∧ n' = n ∧ (0 < n)%nat ∧
      selecting n seen (count + 1) (k (last_index n (count + 1))) (Some (last_index n (count + 1))) ∧
      ∃ k', k (last_index n (count + 1)) = IsActive (last_index n (count + 1)) k'
  end.

Lemma selecting_next n seen count p pend : selecting n seen count p pend → next_access n seen count pend p.
Proof.
  intros [i rs c Hlen Hw Hb Hrs Hs|m Hm Hs|m Hm Hs| |Hs]; cbn.
  - destruct rs as [|r rs]; cbn.
    + assert (Hi : i = n) by (cbn in Hlen; lia). unfold pick_of, pick_unweighted. rewrite Hw.
      destruct (unweighted c) eqn:Hu; cbn; [split; [done|]; intros j Hj; apply Hs; [done|lia]|].
      clear Hlen Hi. destruct n as [|n]; cbn; [split; [done|lia]|]. split_and!; [done|done|lia| |by eexists]. apply SelSaw; [lia|]. intros k Hk. lia.
    + apply Forall_cons in Hrs as [Hr Hrs]. cbn in Hlen. split; [lia|].
      pose proof (λ active, look_at_one_class c i (r_srv r) active Hw Hb Hr) as Hl.
      destruct (Hl true) as (Hw1 & Hb1 & Hu1), (Hl false) as (Hw2 & Hb2 & _). split.
      * apply SelFind; [lia|done..|]. intros Hu j Hj. destruct (decide (j = i)) as [->|]; [by left|].
        right. apply Hs; [done|lia].
      * left. split; [done|]. apply SelFind; [lia|done..|]. by intros ?%Hu1.
  - split_and!; [done|done|lia| |by eexists]. apply SelSaw; [lia|]. intros k Hk.
    replace (count + 1 - Z.of_nat k)%Z with (count - Z.of_nat (k - 1))%Z by lia. apply Hs. lia.
  - assert (Hl : (last_index n count < n)%nat) by (apply last_index_lt; lia). split; [done|]. split.
    + apply selecting_robin; [lia|]. intros k Hk. destruct k as [|k]; [rewrite Z.sub_0_r; by left|]. right. apply Hs. lia.
    + right. split_and!; [done|done|]. apply SelDone.
  - done.
  - done.
Qed.

Lemma selecting_pick rs : Forall (λ r, one_class (r_srv r)) rs → ∀ count, selecting (length rs) [] count (pick rs) None.
Proof. intros Hrs count. apply SelFind; [done|done|done|done|]. intros _ j Hj. lia. Qed.

(** ** Runs *)

Lemma run_app tp l1 tp1 l2 tp2 : run tp l1 tp1 → run tp1 l2 tp2 → run tp (l1 ++ l2) tp2.
Proof.
  intros R1 R2. induction R2 as [|tp1 l tp' e tp2 R2 IH E]; [by rewrite app_nil_r|].
  rewrite app_assoc. by eapply RunSnoc; [apply IH|].
Qed.

(** How many events of a kind there are. *)
Definition count_events (P : event → bool) (l : list event) : nat := length (List.filter P l).

Lemma count_snoc P l e : count_events P (l ++ [e]) = (count_events P l + if P e then 1 else 0)%nat.
Proof. unfold count_events. rewrite List.filter_app, length_app. cbn. by destruct (P e). Qed.
Lemma count_app P l l' : count_events P (l ++ l') = (count_events P l + count_events P l')%nat.
Proof. unfold count_events. by rewrite List.filter_app, length_app. Qed.
Lemma count_le P l : (count_events P l ≤ length l)%nat.
Proof. induction l as [|e l IH]; [done|]. unfold count_events in *. cbn. destruct (P e); cbn; lia. Qed.

Definition is_count (e : event) : bool := match e with Counted _ _ => true | _ => false end.
Definition is_pick (e : event) : bool := match e with Picked _ (Some _) => true | _ => false end.
Definition is_refusal (c i : nat) (e : event) : bool :=
  match e with Dialed c' i' false => bool_decide (c' = c) && bool_decide (i' = i) | _ => false end.
Definition is_return (i : nat) (e : event) : bool := match e with Reactivated i' => bool_decide (i' = i) | _ => false end.

(** What connection [c] has seen inactive since it last took the mutex. *)
Definition see (c : nat) (seen : list nat) (e : event) : list nat :=
  match e with
  | Locked c' => if decide (c' = c) then [] else seen
  | Saw c' i false => if decide (c' = c) then i :: seen else seen
  | _ => seen
  end.
Definition seen_by (c : nat) (l : list event) : list nat := fold_left (see c) l [].

Lemma seen_snoc c l e : seen_by c (l ++ [e]) = see c (seen_by c l) e.
Proof. unfold seen_by. by rewrite fold_left_app. Qed.

Record invariant (n : nat) (l : list event) (tp : tcpproxy) : Prop := {
  inv_length : length (remotes tp) = n;
  inv_class : Forall (λ r, one_class (r_srv r)) (remotes tp);
  inv_count : pickCount tp = Z.of_nat (count_events is_count l);
  inv_pick : ∀ c p, mu tp = Picking c p →
    conns tp !! c = Some Selecting ∧ ∃ pend, selecting n (seen_by c l) (pickCount tp) p pend }.

Lemma flag_class b i rs : Forall (λ r, one_class (r_srv r)) rs →
  Forall (λ r, one_class (r_srv r)) (alter (λ r, set_inactive r b) i rs).
Proof. intros Hrs. apply Forall_alter; [done|]. by intros r _ Hr. Qed.

(** The connection that picks is not the one a step with another state is of. *)
Lemma other_conn (cs : list conn) c d x y : cs !! c = Some Selecting → cs !! d = Some x → x ≠ Selecting →
  <[d := y]> cs !! c = Some Selecting.
Proof. intros Hc Hd Hx. rewrite list_lookup_insert_ne; [done|]. intros ->. congruence. Qed.

Lemma counted_once l : (Z.of_nat (length l) < 2 ^ 63)%Z → ∀ e l', l = l' ++ [e] → is_count e = true →
  wrap64 (Z.of_nat (count_events is_count l') + 1) = Z.of_nat (count_events is_count l).
Proof.
  intros Hl e l' -> He. rewrite count_snoc, He. rewrite length_app in Hl. cbn in Hl.
  pose proof (count_le is_count l'). unfold wrap64. rewrite Z.mod_small by lia. lia.
Qed.

Lemma step_invariant n l tp e tp' : (Z.of_nat (length (l ++ [e])) < 2 ^ 63)%Z →
  invariant n l tp → proxy_step tp e (Some tp') → invariant n (l ++ [e]) tp'.
Proof.
  intros Hl [Hn Hc Hcount Hp] Hstep.
  assert (Hsame : is_count e = false → pickCount tp = Z.of_nat (count_events is_count (l ++ [e])))
    by (intros He; rewrite count_snoc, He, Nat.add_0_r; done).
  inversion Hstep; subst; constructor; cbn [remotes pickCount with_mu with_conn with_count with_flag with_probes];
    rewrite ?length_alter; try done; try (by apply Hsame); try (by apply flag_class);
    cbn [mu conns with_mu with_conn with_count with_flag with_probes]; try (by intros c' p' [=]);
    try (intros c' p' Hmu; destruct (Hp _ _ Hmu) as [Hs Hsel]; rewrite seen_snoc; cbn;
         split; [by eapply other_conn|done]);
    try (intros c' p' Hmu; rewrite seen_snoc; by apply Hp).
  - intros c' p' Hmu. destruct (Hp _ _ Hmu) as [Hs Hsel]. rewrite seen_snoc.
    split; [by apply lookup_app_l_Some|done].
  - intros c' p' [= <- <-]. split; [apply list_lookup_insert_eq; by eapply lookup_lt_Some|].
    exists None. rewrite seen_snoc. cbn. rewrite decide_True by done. by apply selecting_pick.
  - intros c' p' [= <- <-]. destruct (Hp _ _ ltac:(eassumption)) as (Hs & pend & Hsel). split; [done|].
    apply selecting_next in Hsel as (_ & Hf & Ht). rewrite seen_snoc. destruct (isActive r); cbn.
    + destruct Ht as [[_ ?]|(_ & _ & ?)]; by eexists.
    + rewrite decide_True by done. by eexists.
  - intros c' p' [= <- <-]. destruct (Hp _ _ ltac:(eassumption)) as (_ & pend & Hsel). by apply selecting_next in Hsel.
  - rewrite Hcount. by eapply counted_once.
  - intros c' p' [= <- <-]. destruct (Hp _ _ ltac:(eassumption)) as (Hs & pend & Hsel). split; [done|].
    apply selecting_next in Hsel as (_ & -> & Hlen & Hsel & _). rewrite Hcount in *.
    rewrite (counted_once _ Hl _ _ eq_refl eq_refl), seen_snoc, count_snoc. cbn.
    rewrite counter_index_mod in * by lia. simplify_eq. exists (Some (last_index (length (remotes tp)) (Z.of_nat (count_events is_count l) + 1))).
    by rewrite Nat2Z.inj_add.
Qed.

Lemma run_invariant srvs l tp : Forall one_class srvs → (Z.of_nat (length l) < 2 ^ 63)%Z →
  run (initial srvs) l tp → invariant (length srvs) l tp.
Proof.
  intros Hs Hl R. remember (initial srvs) as tp0. induction R as [|tp0 l tp1 e tp2 R IH E]; subst.
  - constructor; [apply length_fmap| |done|done]. by apply Forall_fmap.
  - eapply step_invariant; [done| |done]. apply IH; [|done]. rewrite length_app in Hl. lia.
Qed.

(** ** The round robin *)

Definition open (pend : option nat) : nat := match pend with Some _ => 1 | None => 0 end.

(** What a stretch of a run that began with the mutex free has done, when the counter went
    from [c0] to [c1]: every time the counter met remote [i], and the pick went on, [i] was
    picked. *)
Definition turned (n i : nat) (c0 : Z) (l : list event) (tp : tcpproxy) : Prop :=
  ∃ d pend, pickCount tp = (c0 + Z.of_nat d)%Z ∧
    match mu tp with
    | Picking c p => ∃ seen, selecting n seen (pickCount tp) p pend
    | _ => pend = None
    end ∧
    (∀ j, pend = Some j → j = last_index n (pickCount tp)) ∧
    (count_events is_pick l + open pend ≤ d)%nat ∧
    (∀ k, (k < d - open pend)%nat → last_index n (c0 + 1 + Z.of_nat k) = i → ∃ c, Picked c (Some i) ∈ l).

Lemma turned_quiet n i c0 l tp e tp' : turned n i c0 l tp → mu tp' = mu tp → pickCount tp' = pickCount tp →
  is_pick e = false → turned n i c0 (l ++ [e]) tp'.
Proof.
  intros (d & pend & Hd & Hm & Hj & Hp & Hk) E1 E2 He. exists d, pend. rewrite E1, E2, count_snoc, He, Nat.add_0_r.
  split_and!; [done..|]. intros k Hlt Hi. destruct (Hk k Hlt Hi) as [c Hc]. exists c. apply elem_of_app. by left.
Qed.

Lemma turned_free n i c0 l tp e tp' : turned n i c0 l tp → is_pick e = false → pickCount tp' = pickCount tp →
  (∀ c p, mu tp ≠ Picking c p) → (∀ c p, mu tp' = Picking c p → ∃ seen, selecting n seen (pickCount tp) p None) →
  turned n i c0 (l ++ [e]) tp'.
Proof.
  intros (d & pend & Hd & Hm & Hj & Hp & Hk) He E2 Hfree Hnew.
  assert (pend = None) as -> by (destruct (mu tp); [done|by destruct (Hfree _ _ eq_refl)|done]).
  exists d, None. rewrite E2, count_snoc, He, Nat.add_0_r. split_and!; try done.
  - destruct (mu tp') eqn:Em; [done|by eapply Hnew|done].
  - intros k Hlt Hi. destruct (Hk k Hlt Hi) as [c Hc]. exists c. apply elem_of_app. by left.
Qed.

Lemma turned_saw n i c0 l tp c j b k tp' : turned n i c0 l tp → mu tp = Picking c (IsActive j k) →
  mu tp' = Picking c (k b) → pickCount tp' = pickCount tp → (j = i → b = true) → turned n i c0 (l ++ [Saw c j b]) tp'.
Proof.
  intros (d & pend & Hd & Hm & Hj & Hp & Hk) E1 E3 E2 Hb. rewrite E1 in Hm. destruct Hm as [seen Hm].
  apply selecting_next in Hm as (_ & Hf & Ht).
  assert (Hin : ∀ k, (k < d - open pend)%nat → last_index n (c0 + 1 + Z.of_nat k) = i → ∃ c', Picked c' (Some i) ∈ l ++ [Saw c j b]).
  { intros q Hlt Hi. destruct (Hk q Hlt Hi) as [c' Hc]. exists c'. apply elem_of_app. by left. }
  destruct b.
  - exists d, pend. rewrite E3, E2, count_snoc, Nat.add_0_r. split_and!; try done.
    destruct Ht as [[-> ?]|(-> & _ & ?)]; by eexists.
  - exists d, None. rewrite E3, E2, count_snoc, Nat.add_0_r. split_and!; [done|by eexists|done|cbn; lia|].
    intros q Hlt Hi. cbn in Hlt. destruct (decide (q < d - open pend)%nat); [by eauto|].
    destruct Ht as [[-> _]|(-> & _ & _)]; [cbn in *; lia|]. cbn in *.
    assert (j = i); [|by discriminate Hb]. rewrite (Hj j eq_refl), <- Hi, Hd. f_equal. lia.
Qed.

Lemma turned_counted n i c0 l tp c k j tp' : turned n i c0 l tp → mu tp = Picking c (Count n k) →
  mu tp' = Picking c (k j) → pickCount tp' = (pickCount tp + 1)%Z → j = last_index n (pickCount tp + 1) →
  turned n i c0 (l ++ [Counted c j]) tp'.
Proof.
  intros (d & pend & Hd & Hm & Hj & Hp & Hk) E1 E3 E2 ->. rewrite E1 in Hm. destruct Hm as [seen Hm].
  apply selecting_next in Hm as (-> & _ & _ & Hm & _). exists (S d), (Some (last_index n (pickCount tp + 1))).
  rewrite E3, E2, count_snoc. cbn in *. split_and!; [lia|by eexists|by intros ? [=]|lia|].
  intros q Hlt Hi. destruct (Hk q ltac:(lia) Hi) as [c' Hc]. exists c'. apply elem_of_app. by left.
Qed.

Lemma turned_picked n i c0 l tp c j tp' : turned n i c0 l tp → mu tp = Picking c (Done (Some j)) →
  mu tp' = Unlocked → pickCount tp' = pickCount tp → turned n i c0 (l ++ [Picked c (Some j)]) tp'.
Proof.
  intros (d & pend & Hd & Hm & Hj & Hp & Hk) E1 E3 E2. rewrite E1 in Hm. destruct Hm as [seen Hm].
  apply selecting_next in Hm. cbn in Hm. subst. specialize (Hj j eq_refl).
  exists d, None. rewrite E3, E2, count_snoc. cbn in *. split_and!; [done..|lia|].
  intros q Hlt Hi. destruct (decide (q < d - 1)%nat).
  - destruct (Hk q ltac:(lia) Hi) as [c' Hc]. exists c'. apply elem_of_app. by left.
  - exists c. apply elem_of_app. right. apply list_elem_of_singleton. do 2 f_equal. rewrite Hj, <- Hi, Hd. f_equal. lia.
Qed.

Lemma turned_none n i c0 l tp c tp' : turned n i c0 l tp → mu tp = Picking c (Done None) →
  mu tp' = Unlocked → pickCount tp' = pickCount tp → turned n i c0 (l ++ [Picked c None]) tp'.
Proof.
  intros (d & pend & Hd & Hm & Hj & Hp & Hk) E1 E3 E2. rewrite E1 in Hm. destruct Hm as [seen Hm].
  apply selecting_next in Hm as [-> _]. exists d, None. rewrite E3, E2, count_snoc. cbn in *.
  split_and!; [done..|lia|]. intros q Hlt Hi. destruct (Hk q Hlt Hi) as [c' Hc']. exists c'. apply elem_of_app. by left.
Qed.

Lemma step_turned n i c0 l0 l tp e tp' : (Z.of_nat (length (l0 ++ l ++ [e])) < 2 ^ 63)%Z → invariant n (l0 ++ l) tp →
  (∀ c b, e = Saw c i b → b = true) → turned n i c0 l tp → proxy_step tp e (Some tp') → turned n i c0 (l ++ [e]) tp'.
Proof.
  intros Hl [Hn Hc Hcount Hp] Hsaw Ht Hstep.
  inversion Hstep; subst; try (eapply turned_quiet; [exact Ht|done..]).
  - eapply turned_free; [exact Ht|done|done|congruence|]. cbn. intros c' p' [= <- <-]. eexists. by apply selecting_pick.
  - eapply turned_saw; [exact Ht|eassumption|done|done|]. intros ->. by eapply Hsaw.
  - destruct (Hp _ _ ltac:(eassumption)) as (_ & pend & Hsel). by apply selecting_next in Hsel.
  - destruct (Hp _ _ ltac:(eassumption)) as (_ & pend & Hsel). apply selecting_next in Hsel as (_ & -> & Hlen & _).
    rewrite counter_index_mod in * by lia. simplify_eq.
    eapply turned_counted; [exact Ht|eassumption|done|cbn|done]. rewrite Hcount.
    rewrite (counted_once _ Hl (Counted c (last_index (length (remotes tp)) (pickCount tp + 1))) (l0 ++ l)); [|by rewrite app_assoc|done].
    rewrite app_assoc, count_snoc. cbn. lia.
  - by eapply turned_picked.
  - by eapply turned_none.
  - eapply turned_free; [exact Ht|done|done|congruence|done].
  - eapply turned_free; [exact Ht|done|done|congruence|done].
  - eapply turned_free; [exact Ht|done|done|congruence|done].
Qed.

(** ** A server that is out of use *)

(** It was taken out of use by a connection that it had not answered, and not found again
    since. *)
Definition out_of_use (i : nat) (l : list event) : Prop :=
  ∃ l1 d l2, l = l1 ++ Inactivated d i :: l2 ∧ Dialed d i false ∈ l1 ∧ Reactivated i ∉ l2.

Lemma out_of_use_snoc i l e : out_of_use i l → e ≠ Reactivated i → out_of_use i (l ++ [e]).
Proof.
  intros (l1 & d & l2 & -> & Hd & Hr) He. exists l1, d, (l2 ++ [e]). rewrite <- app_assoc. split_and!; [done|done|].
  rewrite elem_of_app, list_elem_of_singleton. naive_solver.
Qed.

Definition in_use_inv (l : list event) (tp : tcpproxy) : Prop :=
  (∀ i r, remotes tp !! i = Some r → isActive r = false → out_of_use i l) ∧
  (∀ d i, conns tp !! d = Some (Failed i) → Dialed d i false ∈ l).

Lemma in_use_quiet l tp e tp' : in_use_inv l tp → (∀ i, e ≠ Reactivated i) →
  (∀ i r, remotes tp' !! i = Some r → isActive r = false → remotes tp !! i = Some r) →
  (∀ d i, conns tp' !! d = Some (Failed i) → conns tp !! d = Some (Failed i) ∨ e = Dialed d i false) →
  in_use_inv (l ++ [e]) tp'.
Proof.
  intros [Hr Hf] He Er Ef. split.
  - intros i r Hi Ha. apply out_of_use_snoc; [|done]. by eapply Hr; [apply Er|].
  - intros d i [Hd| ->]%Ef; apply elem_of_app; [left; by apply Hf|right; by left].
Qed.

Lemma insert_conn (cs : list conn) c d x i : <[c := x]> cs !! d = Some (Failed i) →
  cs !! d = Some (Failed i) ∨ d = c ∧ x = Failed i.
Proof. intros [(-> & -> & _)|[_ ?]]%list_lookup_insert_Some; auto. Qed.

Lemma step_in_use l tp e tp' : in_use_inv l tp → proxy_step tp e (Some tp') → in_use_inv (l ++ [e]) tp'.
Proof.
  intros Hinv Hstep. inversion Hstep; subst; try (eapply in_use_quiet; [exact Hinv|done|cbn; by auto|]; cbn;
    intros d q Hd; first [by left|apply insert_conn in Hd as [Hd|[-> Hx]]; [by left|first [discriminate Hx|injection Hx as <-; by right]]]).
  - eapply in_use_quiet; [exact Hinv|done|by auto|]. cbn. intros d j Hd.
    apply lookup_app_Some in Hd as [Hd|[_ Hd]]; [by left|]. destruct (d - length (conns tp))%nat; discriminate Hd.
  - destruct Hinv as [Hr Hf]. split; cbn.
    + intros j r Hj Ha. destruct (decide (j = i)) as [->|Hne].
      * exists l, c, []. split_and!; [done|by apply Hf|apply not_elem_of_nil].
      * rewrite list_lookup_alter_ne in Hj by done. apply out_of_use_snoc; [by eapply Hr|done].
    + intros d j Hd. apply insert_conn in Hd as [Hd|[-> [=]]]. apply elem_of_app. left. by apply Hf.
  - destruct Hinv as [Hr Hf]. split; cbn.
    + intros j r Hj Ha. destruct (decide (j = i)) as [->|Hne].
      * rewrite list_lookup_alter_eq in Hj. destruct (remotes tp !! i); [|done]. injection Hj as <-. discriminate Ha.
      * rewrite list_lookup_alter_ne in Hj by done. apply out_of_use_snoc; [by eapply Hr|congruence].
    + intros d j Hd. apply elem_of_app. left. by apply Hf.
Qed.

Lemma run_in_use srvs l tp : run (initial srvs) l tp → in_use_inv l tp.
Proof.
  intros R. remember (initial srvs) as tp0. induction R as [|tp0 l tp1 e tp2 R IH E]; subst.
  - split; cbn; [|done]. intros i r Hi Ha. apply list_lookup_fmap_Some in Hi as (s & -> & _). done.
  - eapply step_in_use; [by apply IH|exact E].
Qed.

Lemma picking_locked srvs l tp c p : run (initial srvs) l tp → mu tp = Picking c p →
  ∃ l1 l2, l = l1 ++ Locked c :: l2 ∧ Locked c ∉ l2.
Proof.
  intros R. remember (initial srvs) as tp0. revert p. induction R as [|tp0 l tp1 e tp2 R IH E]; subst; [done|].
  intros p Hp. assert (Hold : ∀ p', mu tp1 = Picking c p' → e ≠ Locked c → ∃ l1 l2, l ++ [e] = l1 ++ Locked c :: l2 ∧ Locked c ∉ l2).
  { intros p' Hm He. destruct (IH eq_refl _ Hm) as (l1 & l2 & -> & Hl). exists l1, (l2 ++ [e]). rewrite <- app_assoc.
    split; [done|]. rewrite elem_of_app, list_elem_of_singleton. naive_solver. }
  inversion E; subst; cbn in Hp; try discriminate Hp; try (by eapply Hold).
  - injection Hp as <- _. exists l, []. split; [done|apply not_elem_of_nil].
  - injection Hp as <- _. by eapply Hold.
  - injection Hp as <- _. by eapply Hold.
  - injection Hp as <- _. by eapply Hold.
Qed.

(** What a connection saw inactive since it took the mutex was out of use then. *)
Lemma seen_out_of_use srvs l tp c : run (initial srvs) l tp → ∀ i, i ∈ seen_by c l →
  ∃ l1 l2 l3, l = l1 ++ Locked c :: l2 ++ Saw c i false :: l3 ∧ Locked c ∉ l2 ++ l3 ∧
    out_of_use i (l1 ++ Locked c :: l2).
Proof.
  intros R. remember (initial srvs) as tp0. induction R as [|tp0 l tp1 e tp2 R IH E]; subst; [by intros i ?%not_elem_of_nil|].
  intros i. rewrite seen_snoc.
  assert (Hold : i ∈ seen_by c l → e ≠ Locked c → ∃ l1 l2 l3, l ++ [e] = l1 ++ Locked c :: l2 ++ Saw c i false :: l3 ∧
    Locked c ∉ l2 ++ l3 ∧ out_of_use i (l1 ++ Locked c :: l2)).
  { intros (l1 & l2 & l3 & -> & Hl & Ho)%IH He; [|done]. exists l1, l2, (l3 ++ [e]). split_and!; [|set_solver|done].
    by rewrite <- !app_assoc, <- app_comm_cons, <- app_assoc. }
  inversion E; subst; cbn [see]; try (intros Hi; by apply Hold).
  - destruct (decide (c0 = c)) as [->|Hne]; [by intros ?%not_elem_of_nil|]. intros Hi. apply Hold; [done|congruence].
  - destruct (isActive r) eqn:Ha; [intros Hi; by apply Hold|].
    destruct (decide (c0 = c)) as [->|Hne]; [|intros Hi; by apply Hold].
    intros [->|Hi]%elem_of_cons; [|by apply Hold].
    destruct (picking_locked _ _ _ _ _ R ltac:(eassumption)) as (l1 & l2 & -> & Hl).
    exists l1, l2, []. rewrite app_nil_r, <- app_assoc, <- app_comm_cons. split_and!; [done|done|].
    eapply (proj1 (run_in_use _ _ _ R)); eassumption.
Qed.

(** ** How often a server is dialed in vain *)

(** The connection has settled on a server. *)
Definition chosen (c i : nat) (tp : tcpproxy) : Prop :=
  mu tp = Picking c (Done (Some i)) ∨ conns tp !! c = Some (Connecting i).

Definition dials_inv (c i : nat) (l : list event) (tp : tcpproxy) : Prop :=
  let refusals := count_events (is_refusal c i) l in
  let returns := count_events (is_return i) l in
  (refusals ≤ returns + 1)%nat ∧ (chosen c i tp → (refusals ≤ returns)%nat) ∧
  (∀ r, remotes tp !! i = Some r → isActive r = true → conns tp !! c ≠ Some (Failed i) → (refusals ≤ returns)%nat).

(** A step that does not choose the server, nor finds it again, nor ends a failed dial. *)
Lemma dials_quiet c i l tp e tp' : dials_inv c i l tp → is_refusal c i e = false → is_return i e = false →
  (chosen c i tp' → chosen c i tp ∨ (∃ r, remotes tp !! i = Some r ∧ isActive r = true ∧ conns tp !! c ≠ Some (Failed i))) →
  (∀ r, remotes tp' !! i = Some r → isActive r = true → conns tp' !! c ≠ Some (Failed i) →
     remotes tp !! i = Some r ∧ conns tp !! c ≠ Some (Failed i)) → dials_inv c i (l ++ [e]) tp'.
Proof.
  intros (Hb & Hc & Ha) E1 E2 Hch Hac. unfold dials_inv. rewrite !count_snoc, E1, E2, !Nat.add_0_r.
  split_and!; [done| |].
  - intros [Hx|(r & H1 & H2 & H3)]%Hch; [by apply Hc|by eapply Ha].
  - intros r Hr Hact Hf. destruct (Hac r Hr Hact Hf). by eapply Ha.
Qed.

(** What is not pending is not settled. *)
Lemma selecting_settled n seen count j pend : selecting n seen count (Done (Some j)) pend → pend = Some j.
Proof. intros Hs. by apply selecting_next in Hs. Qed.

(** A step that changes where a connection is. *)
Lemma dials_conn c i l tp e tp' d x y : dials_inv c i l tp → is_refusal c i e = false → is_return i e = false →
  conns tp !! d = Some y → conns tp' = <[d := x]> (conns tp) → remotes tp' = remotes tp →
  (mu tp' = Picking c (Done (Some i)) → mu tp = Picking c (Done (Some i))) →
  (d = c → x = Connecting i → mu tp = Picking c (Done (Some i))) → (d = c → y ≠ Failed i) → dials_inv c i (l ++ [e]) tp'.
Proof.
  intros Hinv E1 E2 Hd Ec Er Hmu Hx Hy. apply (dials_quiet _ _ _ tp); [done..| |]; unfold chosen; rewrite Ec, ?Er.
  - intros [?|Hl]; [by left; left; apply Hmu|].
    apply list_lookup_insert_Some in Hl as [(-> & -> & _)|[_ ?]]; left; [left; by apply Hx|by right].
  - intros r Hr _ Hf. split; [done|]. destruct (decide (d = c)) as [->|Hne].
    + rewrite Hd. intros [= ->]. by apply Hy.
    + by rewrite list_lookup_insert_ne in Hf.
Qed.

(** A step of [pick]: the connection settles on the server only if it saw it active. *)
Lemma dials_picking c i l tp e tp' d p : dials_inv c i l tp → is_refusal c i e = false → is_return i e = false →
  conns tp' = conns tp → remotes tp' = remotes tp → mu tp' = Picking d p → conns tp !! d = Some Selecting →
  (p = Done (Some i) → ∃ r, remotes tp !! i = Some r ∧ isActive r = true) → dials_inv c i (l ++ [e]) tp'.
Proof.
  intros Hinv E1 E2 Ec Er Em Hd Hp. apply (dials_quiet _ _ _ tp); [done..| |]; unfold chosen; rewrite Ec, ?Er, ?Em; [|by auto].
  intros [[= -> Hx]|?]; [|by left; right]. right. destruct (Hp Hx) as (r & Hr & Ha). exists r.
  split_and!; [done|done|congruence].
Qed.

Lemma dials_refused c i l tp d j : dials_inv c i l tp → conns tp !! d = Some (Connecting j) →
  (∀ c p, mu tp = Picking c p → conns tp !! c = Some Selecting) →
  dials_inv c i (l ++ [Dialed d j false]) (with_conn d (Failed j) tp).
Proof.
  intros Hinv Hd Hp. destruct (decide (d = c ∧ j = i)) as [[-> ->]|Hne].
  - destruct Hinv as (_ & Hc & _). specialize (Hc (or_intror Hd)). unfold dials_inv. rewrite !count_snoc.
    cbn [is_refusal is_return]. rewrite !bool_decide_true by done. cbn [andb]. split_and!; [lia| |].
    + intros [Hm|Hl]; [apply Hp in Hm; congruence|]. cbn in Hl.
      rewrite list_lookup_insert_eq in Hl by (by eapply lookup_lt_Some). discriminate Hl.
    + intros r _ _ Hf. destruct Hf. cbn. rewrite list_lookup_insert_eq by (by eapply lookup_lt_Some). done.
  - eapply dials_conn; [done| |done|exact Hd|done|done|done|done|done].
    cbn. apply andb_false_iff. rewrite !bool_decide_eq_false. destruct (decide (d = c)); [right|by left]. intros ->. by destruct Hne.
Qed.

Lemma dials_flagged c i l tp d j : dials_inv c i l tp → conns tp !! d = Some (Failed j) →
  dials_inv c i (l ++ [Inactivated d j]) (with_flag j true (with_conn d Waiting tp)).
Proof.
  intros Hinv Hd. apply (dials_quiet _ _ _ tp); [done..| |]; unfold chosen; cbn.
  - intros [?|Hl]; left; [by left|]. apply list_lookup_insert_Some in Hl as [(_ & [=] & _)|[_ ?]]. by right.
  - intros r Hr Ha Hf. destruct (decide (j = i)) as [->|Hne].
    + rewrite list_lookup_alter_eq in Hr. destruct (remotes tp !! i); [|done]. injection Hr as <-. discriminate Ha.
    + rewrite list_lookup_alter_ne in Hr by done. split; [done|]. destruct (decide (d = c)) as [->|Hne'].
      * rewrite Hd. by intros [= ->].
      * by rewrite list_lookup_insert_ne in Hf.
Qed.

Lemma dials_found c i l tp j ps : dials_inv c i l tp →
  dials_inv c i (l ++ [Reactivated j]) (with_flag j false (with_probes ps tp)).
Proof.
  intros Hinv. destruct (decide (j = i)) as [->|Hne].
  - destruct Hinv as (Hb & _). unfold dials_inv. rewrite !count_snoc. cbn [is_refusal is_return].
    rewrite bool_decide_true by done. split_and!; lia.
  - apply (dials_quiet _ _ _ tp); [done|done|by apply bool_decide_false|by left|]. cbn. intros r Hr _ Hf.
    by rewrite list_lookup_alter_ne in Hr by done.
Qed.

Lemma dials_accepted c i l tp e tp' : dials_inv c i l tp → is_refusal c i e = false → is_return i e = false →
  mu tp' = mu tp → remotes tp' = remotes tp → conns tp' = conns tp ++ [Waiting] → dials_inv c i (l ++ [e]) tp'.
Proof.
  intros Hinv E1 E2 Em Er Ec. apply (dials_quiet _ _ _ tp); [done..| |]; unfold chosen; rewrite ?Em, Ec, ?Er.
  - intros [?|[Hl|[_ Hl]]%lookup_app_Some]; [by left; left|by left; right|]. destruct (c - length (conns tp))%nat; discriminate Hl.
  - intros r Hr _ Hf. split; [done|]. intros Hx. apply Hf. by apply lookup_app_l_Some.
Qed.

Lemma step_dials n c i l tp e tp' : (Z.of_nat (length (l ++ [e])) < 2 ^ 63)%Z → invariant n l tp → dials_inv c i l tp →
  proxy_step tp e (Some tp') → dials_inv c i (l ++ [e]) tp'.
Proof.
  intros Hl [Hn Hc Hcount Hp] Hd Hstep.
  inversion Hstep; subst;
    try (apply (dials_quiet c i l tp); [exact Hd|done|done|unfold chosen; cbn; auto; fail|cbn; auto; fail]);
    try (by eapply dials_conn; [exact Hd|done|done|eassumption|done|done|cbn; congruence|congruence|congruence]);
    try (apply (dials_quiet c i l tp); [exact Hd|done|done|intros [[=]|?]; left; by right|cbn; by auto]);
    try (match goal with E : mu tp = Picking _ _ |- _ => destruct (Hp _ _ E) as (Hs & pend & Hsel) end);
    try (pose proof (selecting_next _ _ _ _ _ Hsel) as Hnext; cbn in Hnext).
  - by eapply dials_accepted.
  - eapply dials_conn; [exact Hd|done|done|eassumption|done|done| |done|done]. intros [= -> Hx].
    pose proof (selecting_pick _ Hc 0) as Hsel. rewrite Hx in Hsel. by apply selecting_settled in Hsel.
  - eapply dials_picking; [exact Hd|done|done|done|done|done|done|]. intros Hx. destruct Hnext as (_ & Hf & Ht).
    destruct (isActive r) eqn:Ha.
    + destruct Ht as [[_ Hsel']|(_ & Hx' & _)]; [rewrite Hx in Hsel'; by apply selecting_settled in Hsel'|].
      rewrite Hx' in Hx. injection Hx as ->. by exists r.
    + rewrite Hx in Hf. by apply selecting_settled in Hf.
  - done.
  - eapply dials_picking; [exact Hd|done|done|done|done|done|done|]. destruct Hnext as (_ & -> & Hlen & _ & k' & Hk).
    rewrite counter_index_mod in * by lia. simplify_eq. by rewrite Hk.
  - eapply dials_conn; [exact Hd|done|done|exact Hs|done|done|done| |done]. congruence.
  - by eapply dials_conn; [exact Hd|done|done|exact Hs|done|done|done|done|done].
  - apply dials_refused; [done|done|]. intros d p E. by apply (Hp _ _ E).
  - by apply dials_flagged.
  - by apply dials_found.
Qed.

Lemma run_dials srvs c i l tp : Forall one_class srvs → (Z.of_nat (length l) < 2 ^ 63)%Z →
  run (initial srvs) l tp → dials_inv c i l tp.
Proof.
  intros Hs Hl R. remember (initial srvs) as tp0. induction R as [|tp0 l tp1 e tp2 R IH E]; subst.
  - unfold dials_inv, chosen. cbn. split_and!; lia.
  - rewrite length_app in Hl. eapply step_dials; [by rewrite length_app| | |exact E].
    + apply (run_invariant _ _ _ Hs); [lia|exact R].
    + apply IH; [lia|done].
Qed.

(** ** Well-formedness and progress *)

(** The servers that a goroutine is at, or is given. *)
Definition conn_remote (x : conn) : option nat :=
  match x with Connecting i | Failed i | Proxying i => Some i | _ => None end.
Definition probe_remote (x : probe) : nat := match x with Probing i | Answered i => i end.

(** The connection that holds the mutex. *)
Definition picker (m : mutex) : option nat := match m with Picking c _ => Some c | _ => None end.

(** Whatever a goroutine is at is one of the [n] servers, and a connection is in [pick] exactly
    if it holds the mutex. *)
Record well_formed (n : nat) (tp : tcpproxy) : Prop := {
  wf_length : length (remotes tp) = n;
  wf_conns : ∀ c x i, conns tp !! c = Some x → conn_remote x = Some i → (i < n)%nat;
  wf_probes : ∀ x, x ∈ probes tp → (probe_remote x < n)%nat;
  wf_reviewing : ∀ i, mu tp = Reviewing i → (i ≤ n)%nat;
  wf_selecting : ∀ c, conns tp !! c = Some Selecting ↔ picker (mu tp) = Some c }.

(** The goroutine that an event is of. *)
Definition of_conn (c : nat) (e : event) : bool :=
  match e with
  | Locked c' | Saw c' _ _ | Drew c' _ | Counted c' _ | Picked c' _ | Dialed c' _ _ | Inactivated c' _ | Ended c' _ =>
      bool_decide (c' = c)
  | _ => false
  end.
Definition of_monitor (e : event) : bool := match e with Reviewed _ | MonitorUnlocked => true | _ => false end.

(** The connection [d] moves to another place. *)
Lemma insert_placed n (cs : list conn) d (x : conn) : (∀ i, conn_remote x = Some i → (i < n)%nat) →
  (∀ c x i, cs !! c = Some x → conn_remote x = Some i → (i < n)%nat) →
  ∀ c x' i, <[d := x]> cs !! c = Some x' → conn_remote x' = Some i → (i < n)%nat.
Proof. intros Hx Hcs c x' i [(_ & -> & _)|[_ Hl]]%list_lookup_insert_Some; [apply Hx|by eapply Hcs]. Qed.

Lemma insert_selecting (cs : list conn) (o o' : option nat) d x y : cs !! d = Some x →
  (∀ c, c ≠ d → (o = Some c ↔ o' = Some c)) → (y = Selecting ↔ o' = Some d) →
  (∀ c, cs !! c = Some Selecting ↔ o = Some c) →
  ∀ c, <[d := y]> cs !! c = Some Selecting ↔ o' = Some c.
Proof.
  intros Hd Ho Hy Hs c. destruct (decide (d = c)) as [->|Hne].
  - rewrite list_lookup_insert_eq by (by eapply lookup_lt_Some). rewrite <- Hy. split; congruence.
  - rewrite list_lookup_insert_ne, Hs by done. by apply Ho.
Qed.

Lemma elsewhere_selecting (cs : list conn) o d x y : cs !! d = Some x → x ≠ Selecting → y ≠ Selecting →
  (∀ c, cs !! c = Some Selecting ↔ o = Some c) → ∀ c, <[d := y]> cs !! c = Some Selecting ↔ o = Some c.
Proof.
  intros Hd Hx Hy Hs. eapply insert_selecting; [exact Hd|done| |exact Hs]. split; [done|]. intros E%Hs. congruence.
Qed.

Lemma selecting_in_range n seen count j pend : (0 < n)%nat → selecting n seen count (Done (Some j)) pend → (j < n)%nat.
Proof.
  intros Hn Hs. remember (Done (Some j)) as p eqn:E. destruct Hs as [i rs c _ Hw _ _ _| | | |]; try done.
  - destruct rs as [|r rs]; cbn in E; [|done]. unfold pick_of, pick_unweighted in E. rewrite Hw in E.
    destruct (unweighted c); [done|]. by destruct n.
  - injection E as <-. by apply last_index_lt.
Qed.

Lemma step_well_formed n l tp e tp' : (0 < n)%nat → invariant n l tp → well_formed n tp →
  proxy_step tp e (Some tp') → well_formed n tp'.
Proof.
  intros H0 [_ _ _ Hp] [Hn Hc Hb Hr Hs] Hstep.
  assert (Hpicked : ∀ c j, mu tp = Picking c (Done (Some j)) → (j < n)%nat)
    by (intros c j (_ & pend & Hsel)%Hp; by eapply selecting_in_range).
  inversion Hstep; subst; constructor; cbn; rewrite ?length_alter; try done; try (intros i' [=]; subst; lia);
    try (match goal with E : mu tp = _ |- _ => rewrite E in Hs; exact Hs end);
    try (apply insert_placed; [|exact Hc]; intros j; cbn; intros [=]; subst;
         first [by eapply Hpicked|by eapply Hc; [eassumption|]]).
  - intros c x i [Hl|[_ Hl]]%lookup_app_Some; [by eapply Hc|].
    apply list_lookup_singleton_Some in Hl as [_ <-]. done.
  - intros c. rewrite <- Hs. split; [|apply lookup_app_l_Some].
    intros [?|[_ [_ [=]]%list_lookup_singleton_Some]]%lookup_app_Some. done.
  - eapply (insert_selecting _ None (Some c)); [eassumption|split; congruence|split; congruence|].
    by match goal with E : mu tp = _ |- _ => rewrite E in Hs end.
  - eapply (insert_selecting _ (Some c) None); [|split; congruence|split; congruence|]; match goal with E : mu tp = _ |- _ => rewrite E in Hs end;
      [by apply Hs|done].
  - eapply (insert_selecting _ (Some c) None); [|split; congruence|split; congruence|]; match goal with E : mu tp = _ |- _ => rewrite E in Hs end;
      [by apply Hs|done].
  - eapply elsewhere_selecting; [eassumption|done..].
  - eapply elsewhere_selecting; [eassumption|done..].
  - eapply elsewhere_selecting; [eassumption|done..].
  - eapply elsewhere_selecting; [eassumption|done..].
  - intros x Hx. assert (i < length (remotes tp))%nat by (by eapply lookup_lt_Some).
    destruct (isActive r); [by apply Hb|]. apply elem_of_app in Hx as [Hx|Hx]; [by apply Hb|].
    apply list_elem_of_singleton in Hx as ->. done.
  - intros i' [= <-]. by eapply lookup_lt_Some.
  - intros x (k' & [(_ & <- & _)|[_ Hx]]%list_lookup_insert_Some)%list_elem_of_lookup.
    + apply (Hb (Probing i)). by eapply list_elem_of_lookup_2.
    + apply Hb. by eapply list_elem_of_lookup_2.
  - intros x Hx. apply Hb. by eapply list_elem_of_delete_inv.
  - intros x Hx. apply Hb. by eapply list_elem_of_delete_inv.
Qed.

Lemma run_well_formed srvs l tp : srvs ≠ [] → Forall one_class srvs → (Z.of_nat (length l) < 2 ^ 63)%Z →
  run (initial srvs) l tp → well_formed (length srvs) tp.
Proof.
  intros Hne Hs Hl R. remember (initial srvs) as tp0. induction R as [|tp0 l tp1 e tp2 R IH E]; subst.
  - constructor; cbn; [apply length_fmap|done|by intros x ?%not_elem_of_nil|done|done].
  - rewrite length_app in Hl. eapply (step_well_formed _ l); [by apply Nat.neq_0_lt_0; rewrite length_zero_iff_nil| | |exact E].
    + apply (run_invariant _ _ _ Hs); [lia|exact R].
    + apply IH; [lia|done].
Qed.

(** What holds the mutex can go on. *)
Lemma picking_goes_on n l tp c p : (0 < n)%nat → (Z.of_nat (length l) < 2 ^ 63)%Z → invariant n l tp → mu tp = Picking c p →
  ∃ e tp', of_conn c e = true ∧ proxy_step tp e (Some tp').
Proof.
  intros H0 Hl [Hn _ Hcount Hp] Hm. destruct (Hp _ _ Hm) as (_ & pend & Hsel).
  apply selecting_next in Hsel. destruct p as [[i|]|i k|z k|m k]; cbn in Hsel.
  - exists (Picked c (Some i)). eexists. cbn. rewrite bool_decide_true by done. split; [done|by constructor].
  - exists (Picked c None). eexists. cbn. rewrite bool_decide_true by done. split; [done|by constructor].
  - destruct Hsel as [Hi _]. rewrite <- Hn in Hi. apply lookup_lt_is_Some in Hi as [r Hr].
    exists (Saw c i (isActive r)). eexists. cbn. rewrite bool_decide_true by done. split; [done|by econstructor].
  - done.
  - destruct Hsel as (_ & -> & _). exists (Counted c (last_index n (pickCount tp + 1))). eexists. cbn.
    rewrite bool_decide_true by done. split; [done|]. econstructor; [exact Hm|]. apply counter_index_mod; lia.
Qed.

(** ** Steps that are executed *)

Definition holds (P : Prop) `{Decision P} (x : tcpproxy) : option tcpproxy := if decide P then Some x else None.
#[export] Instance conn_eq_dec : EqDecision conn.
Proof. solve_decision. Defined.

(** The steps of a connection, by their event; the others as they are needed. *)
Definition exec (tp : tcpproxy) (e : event) : option tcpproxy :=
  match e with
  | Accepted c => holds (listening tp = true ∧ c = length (conns tp))
      (mkTcpproxy (remotes tp) (pickCount tp) (mu tp) (conns tp ++ [Waiting]) (probes tp) (listening tp) (monitoring tp) (donec tp))
  | Locked c =>
      match mu tp with
      | Unlocked => holds (conns tp !! c = Some Waiting) (with_mu (Picking c (pick (remotes tp))) (with_conn c Selecting tp))
      | _ => None
      end
  | Saw c i b =>
      match mu tp, remotes tp !! i with
      | Picking d (IsActive j k), Some r => holds (d = c ∧ j = i ∧ isActive r = b) (with_mu (Picking d (k (isActive r))) tp)
      | _, _ => None
      end
  | Counted c i =>
      match mu tp with
      | Picking d (Count n k) => holds (d = c ∧ counter_index (pickCount tp) n = Some i)
          (with_mu (Picking d (k i)) (with_count (wrap64 (pickCount tp + 1)) tp))
      | _ => None
      end
  | Picked c o =>
      match mu tp with
      | Picking d (Done p) => holds (d = c ∧ p = o)
          (with_mu Unlocked (with_conn d (match p with Some i => Connecting i | None => Closed end) tp))
      | _ => None
      end
  | Dialed c i ok => holds (conns tp !! c = Some (Connecting i)) (with_conn c (if ok : bool then Proxying i else Failed i) tp)
  | Inactivated c i => holds (conns tp !! c = Some (Failed i)) (with_flag i true (with_conn c Waiting tp))
  | _ => None
  end.

Lemma holds_Some (P : Prop) `{Decision P} x y : holds P x = Some y → P ∧ y = x.
Proof. unfold holds. destruct (decide P); [|done]. by intros [= <-]. Qed.

Lemma exec_step tp e tp' : exec tp e = Some tp' → proxy_step tp e (Some tp').
Proof.
  destruct e; cbn; try done.
  - by intros [[Hl ->] ->]%holds_Some; constructor.
  - destruct (mu tp) eqn:Em; try done. by intros [Hl ->]%holds_Some; constructor.
  - destruct (mu tp) as [|d [|j k| |]|] eqn:Em; try done. destruct (remotes tp !! i) as [r|] eqn:Er; [|done].
    intros [(-> & -> & <-) ->]%holds_Some. by econstructor.
  - destruct (mu tp) as [|d [| | |n k]|] eqn:Em; try done. intros [[-> Hc] ->]%holds_Some. by econstructor.
  - destruct (mu tp) as [|d [[j|]| | |]|] eqn:Em; try done; intros [[-> <-] ->]%holds_Some; by constructor.
  - intros [Hl ->]%holds_Some. destruct ok; by constructor.
  - intros [Hl ->]%holds_Some. by constructor.
Qed.

Definition exec_all (tp : tcpproxy) (l : list event) : option tcpproxy :=
  fold_left (λ o e, tp ← o; exec tp e) l (Some tp).

Lemma exec_run tp l tp' : exec_all tp l = Some tp' → run tp l tp'.
Proof.
  revert tp'. induction l as [|e l IH] using rev_ind; unfold exec_all; [intros tp' [= ->]; by constructor|].
  intros tp'. rewrite fold_left_app. cbn. destruct (fold_left _ l _) as [tp1|] eqn:E; cbn; [|done].
  intros Hx%exec_step. by eapply RunSnoc; [apply IH|].
Qed.

Section Proxies.
Context `{Outside, !ProxyEnv}.

Lemma parse_endpoint_one_class ep s : parse_endpoint ep = Ok s → one_class s.
Proof. intros ([host port] & _ & (p & _ & [= <-])%bind_Ok)%bind_Ok. done. Qed.

Lemma startProxy_Ok listenURL eps s tp s' : startProxy listenURL eps s = (Ok tp, s') →
  ∃ srvs, tp = initial srvs ∧ Forall2 (λ ep srv, parse_endpoint ep = Ok srv) eps srvs ∧ Forall one_class srvs ∧
    eps ≠ [] ∧ answered (Listen listenURL) (Ok tt) s s'.
Proof.
  intros ([] & s1 & [= He <-] & E)%act_bind_Ok_inv. apply act_bind_Ok_inv in E as (srvs & s2 & [= Hs <-] & E).
  apply act_bind_Ok_inv in E as ([] & s3 & E%act_wrapf_Ok & [= <- <-]). apply map_res_Ok in Hs.
  exists srvs. split_and!; [done|done| | |exact (perform_answered (Listen listenURL) _ _ _ E)].
  - clear -Hs. induction Hs; constructor; [by eapply parse_endpoint_one_class|done].
  - intros ->. by apply fails_if_Ok in He.
Qed.

(** C28: The round robin of a proxy is fair, however its goroutines interleave: in a stretch of
    a run that begins with the mutex free, in which as many connections were given a server as
    there are servers, every server that was active whenever a goroutine looked was picked at
    least once.  (A run has less than 2^63 events; the counter of the round robin would
    overflow after that.) *)
Theorem round_robin_is_fair listenURL eps m tp0 m' l0 tp l tp' i :
  startProxy listenURL eps m = (Ok tp0, m') →
  run tp0 l0 tp → mu tp = Unlocked → run tp l tp' → (Z.of_nat (length (l0 ++ l)) < 2 ^ 63)%Z →
  (i < length eps)%nat → (∀ c b, Saw c i b ∈ l → b = true) → (length eps ≤ count_events is_pick l)%nat →
  ∃ c, Picked c (Some i) ∈ l.
Proof.
  intros (srvs & -> & Hsrvs & Hclass & _)%startProxy_Ok R0 Hmu R Hlen Hi Hsaw Hpicks.
  rewrite (Forall2_length _ _ _ Hsrvs) in *.
  assert (Ht : turned (length srvs) i (pickCount tp) l tp').
  { clear Hpicks. remember tp as tp1 eqn:E in R. induction R as [tp1|tp1 l tp2 e tp3 R IH Hstep]; subst.
    - exists 0%nat, None. rewrite Hmu. split_and!; [lia|done|done|done|]. intros k Hk. cbn in Hk. lia.
    - rewrite app_assoc, length_app in Hlen. eapply (step_turned _ _ _ l0); [| | |apply IH|exact Hstep].
      + by rewrite app_assoc, length_app.
      + apply run_invariant; [done|lia|]. by eapply run_app.
      + intros c b ->. apply (Hsaw c). apply elem_of_app. right. by left.
      + done.
      + lia.
      + intros c b Hin. apply (Hsaw c). apply elem_of_app. by left. }
  destruct Ht as (d & pend & Hd & _ & _ & Hp & Hk).
  destruct (residue_met (length srvs) i (pickCount tp) Hi) as (k & Hlt & E). apply (Hk k); [|done]. lia.
Qed.

(** C29: A connection is refused for cause, however the goroutines interleave: when [pick] gives it
    no server, it has looked at every one of them since it took the mutex, and each had been taken
    out of use, after a dial that it did not answer, and had not been found again by then. *)
Theorem refused_for_cause listenURL eps m tp0 m' l c tp i :
  startProxy listenURL eps m = (Ok tp0, m') → run tp0 (l ++ [Picked c None]) tp →
  (Z.of_nat (length l) < 2 ^ 63)%Z → (i < length eps)%nat →
  ∃ l1 l2 l3, l = l1 ++ Locked c :: l2 ++ Saw c i false :: l3 ∧ Locked c ∉ l2 ++ l3 ∧
    out_of_use i (l1 ++ Locked c :: l2).
Proof.
  intros (srvs & -> & Hsrvs & Hclass & _)%startProxy_Ok R Hlen Hi. rewrite (Forall2_length _ _ _ Hsrvs) in Hi.
  inversion R as [|? l' tp1 e ? R1 E]; [by destruct l|]. simplify_list_eq.
  apply (seen_out_of_use srvs _ tp1); [done|].
  destruct (run_invariant _ _ _ Hclass Hlen R1) as [_ _ _ Hp]. inversion E; subst.
  destruct (Hp _ _ ltac:(eassumption)) as (_ & pend & [_ Hall]%selecting_next). by apply Hall.
Qed.

(** A connection dials a server in vain at most once more than the server was found again, however
    the goroutines interleave: the loop of [serve] ends. *)
Theorem dials_in_vain listenURL eps m tp0 m' l tp c i :
  startProxy listenURL eps m = (Ok tp0, m') → run tp0 l tp → (Z.of_nat (length l) < 2 ^ 63)%Z →
  (count_events (is_refusal c i) l ≤ 1 + count_events (is_return i) l)%nat.
Proof.
  intros (srvs & -> & _ & Hclass & _)%startProxy_Ok R Hlen.
  destruct (run_dials srvs c i l tp Hclass Hlen R) as (Hb & _). lia.
Qed.
End Proxies.

(** *** Two servers *)

#[local] Instance demo_proxy_env : ProxyEnv :=
  {| url_Host := λ _, None; json_Unmarshal_endpoints := λ _, Ok [] |}.
Definition demo_servers : list string := ["10.0.0.1:6443"; "10.0.0.2:6443"].
Definition demo_proxy : tcpproxy :=
  initial [mkSRV "10.0.0.1" 6443 0 0; mkSRV "10.0.0.2" 6443 0 0].

(** A connection that takes the mutex when both are active, and gets server [i]. *)
Definition demo_served (c i : nat) : list event :=
  [Accepted c; Locked c; Saw c 0 true; Saw c 1 true; Counted c i; Saw c i true; Picked c (Some i)].

Lemma demo_start : @startProxy demo_outside demo_proxy_env "127.0.0.1:6443" demo_servers (demo_machine (mkWorld ∅ [])) =
  (Ok demo_proxy, (@startProxy demo_outside demo_proxy_env "127.0.0.1:6443" demo_servers (demo_machine (mkWorld ∅ []))).2).
Proof. vm_compute. reflexivity. Qed.

(** What a list of events leads to. *)
Definition demo_after (l : list event) : tcpproxy := default demo_proxy (exec_all demo_proxy l).
Lemma demo_run l : is_Some (exec_all demo_proxy l) → run demo_proxy l (demo_after l).
Proof. intros [tp E]. unfold demo_after. rewrite E. by apply exec_run. Qed.

Lemma demo_runs l1 l2 : is_Some (exec_all demo_proxy l1) → is_Some (exec_all demo_proxy (l1 ++ l2)) →
  run (demo_after l1) l2 (demo_after (l1 ++ l2)).
Proof.
  intros [tp1 E1] [tp2 E2]. unfold demo_after. rewrite E1, E2. cbn.
  assert (R : exec_all tp1 l2 = Some tp2); [|by apply exec_run].
  rewrite <- E2. unfold exec_all in *. by rewrite fold_left_app, E1.
Qed.

Definition demo_before : list event := demo_served 0 0.
Definition demo_turn : list event := demo_served 1 1 ++ demo_served 2 0.

Lemma round_robin_is_fair_witness : mu (demo_after demo_before) = Unlocked ∧ ∃ c, Picked c (Some 1) ∈ demo_turn.
Proof.
  split; [vm_compute; reflexivity|].
  eapply (@round_robin_is_fair demo_outside demo_proxy_env "127.0.0.1:6443" demo_servers _ demo_proxy _ demo_before _
            demo_turn _ 1 demo_start).
  - apply demo_run. vm_compute. eauto.
  - vm_compute. reflexivity.
  - apply demo_runs; vm_compute; eauto.
  - vm_compute. reflexivity.
  - vm_compute. lia.
  - intros c b Hin. unfold demo_turn, demo_served in Hin. cbn in Hin.
    repeat (apply elem_of_cons in Hin as [Hin|Hin]; [by inversion Hin|]). by apply not_elem_of_nil in Hin.
  - vm_compute. lia.
Defined.

(** The first server does not answer the connection, and then the second does not. *)
Definition demo_refusal : list event :=
  [Accepted 0; Locked 0; Saw 0 0 true; Saw 0 1 true; Counted 0 0; Saw 0 0 true; Picked 0 (Some 0); Dialed 0 0 false; Inactivated 0 0;
   Locked 0; Saw 0 0 false; Saw 0 1 true; Counted 0 1; Saw 0 1 true; Picked 0 (Some 1); Dialed 0 1 false; Inactivated 0 1;
   Locked 0; Saw 0 0 false; Saw 0 1 false].

Lemma refused_for_cause_witness : conns (demo_after (demo_refusal ++ [Picked 0 None])) = [Closed] ∧
  ∃ l1 l2 l3, demo_refusal = l1 ++ Locked 0 :: l2 ++ Saw 0 1 false :: l3 ∧ Locked 0 ∉ l2 ++ l3 ∧
    out_of_use 1 (l1 ++ Locked 0 :: l2).
Proof.
  split; [vm_compute; reflexivity|].
  eapply (@refused_for_cause demo_outside demo_proxy_env "127.0.0.1:6443" demo_servers _ demo_proxy _ demo_refusal 0 _ 1 demo_start).
  - apply demo_run. vm_compute. eauto.
  - vm_compute. reflexivity.
  - vm_compute. lia.
Defined.

Lemma dials_in_vain_witness : count_events (is_refusal 0 0) demo_refusal = 1 ∧
  (count_events (is_refusal 0 0) demo_refusal ≤ 1 + count_events (is_return 0) demo_refusal)%nat.
Proof.
  split; [vm_compute; reflexivity|].
  eapply (@dials_in_vain demo_outside demo_proxy_env "127.0.0.1:6443" demo_servers _ demo_proxy _ demo_refusal _ 0 0 demo_start).
  - apply demo_run. vm_compute. eauto.
  - vm_compute. reflexivity.
Defined.

End ProxyFacts.
