(* ===== verification/ApiServerProxy.v ===== *)
(** * The list of API servers of a worker

    pkg/proxy again: the file of endpoints (config.go), what an API server tells of the others
    (endpoints.go, [ParseEndpoints] of pkg/utils/endpoints.go), and [Run] (apiserver.go), which
    starts a proxy of Proxy.v and a goroutine that replaces the file, for the endpoints that it
    loads, and does so again when one of the two cancels the context they share.

    A goroutine can outlive the context it was started with, and write the file after the next
    one was loaded: [system_step] has a step for every access to the file and to the contexts.

    External: besides those of Proxy.v, the client of an API server, as commands of Effects.v. *)

From S2P Require Import Prelude GoStrings GoNet Cidr Config FileSys Pki Setup Database Effects Checks KubeClient Proxy.
Import GoStr GoNet Cidr FileSys Setup Effects Checks KubeClient Proxy.

Module ApiServerProxy.

(** ** pkg/utils/endpoints.go *)

Definition subset_port (ports : list (string * Z)) : Z :=
  match List.find (λ p, p.1 ==? "https") ports with Some p => p.2 | None => 6443 end.
Definition subset_address (portNumber : Z) (addr : string) : option string :=
  if addr ==? EmptyString then None
  else Some ((if IsIPv4 addr then addr else "[" +:+ addr +:+ "]") +:+ ":" +:+ Itoa portNumber).
Definition subset_addresses (s : EndpointSubset) : list string :=
  omap (subset_address (subset_port (ss_Ports s))) (ss_Addresses s).
Definition ParseEndpoints (subsets : list EndpointSubset) : list string :=
  sort_Strings (concat (subset_addresses <$> subsets)).

(** ** apiserver.go: the data *)

(** [RefreshCh] is whether there is a channel. *)
Record APIServerProxy := mkAPIServerProxy {
  ListenAddress : string; EndpointsConfigFile : string; RefreshCh : bool; KubeconfigFile : string }.

(** One turn of the loop of [Run]: the endpoints that were loaded, whether its context was
    cancelled, and where its two goroutines are.  A proxy that was stopped stays, with its
    connections, and does not listen any more. *)
Inductive starter := Starting | Serving (tp : tcpproxy) | StarterEnded.
Inductive watcher := Watching | Updating (newEndpoints : list string) | WatcherEnded.
Record turn := mkTurn { t_endpoints : list string; t_cancelled : bool; t_starter : starter; t_watcher : watcher }.

(** [Run] is at the top of its loop, or waits for the context of a turn, or has returned. *)
Inductive runner := Top | Blocked (g : nat) | Returned (r : res unit).
Record system := mkSystem { sys_machine : Machine; sys_done : bool; sys_runner : runner; sys_turns : list turn }.

Inductive sys_event :=
| Loaded (endpoints : list string) | LoadFailed | StartFailed (g : nat) | StartedProxy (g : nat) | InProxy (g : nat) (e : event)
| ProxyStopped (g : nat) | Asked (g : nat) | Updated (g : nat) (newEndpoints : list string) | UpdateFailed (g : nat)
| WatcherStopped (g : nat) | TurnOver (g : nat) | CtxDone | Finished.

Definition set_starter (x : starter) (t : turn) : turn := mkTurn (t_endpoints t) (t_cancelled t) x (t_watcher t).
Definition set_watcher (x : watcher) (t : turn) : turn := mkTurn (t_endpoints t) (t_cancelled t) (t_starter t) x.
Definition cancel (t : turn) : turn := mkTurn (t_endpoints t) true (t_starter t) (t_watcher t).

Definition with_turn (g : nat) (f : turn → turn) (s : system) : system :=
  mkSystem (sys_machine s) (sys_done s) (sys_runner s) (alter f g (sys_turns s)).
Definition with_machine (m : Machine) (s : system) : system := mkSystem m (sys_done s) (sys_runner s) (sys_turns s).
Definition with_runner (r : runner) (s : system) : system := mkSystem (sys_machine s) (sys_done s) r (sys_turns s).

(** [<-proxyCtx.Done()]. *)
Definition turn_done (s : system) (t : turn) : bool := sys_done s || t_cancelled t.

Section Run.
Context `{OSEnv, EndpointsJson, Outside, ProxyEnv}.

(** ** config.go; [WriteEndpointsConfig] is in Setup.v *)

Definition loadEndpointsConfig (file : string) : io (list string) :=
  b ← io_wrapf "failed to read file: %w" [] (os_ReadFile file);
  endpoints ← io_wrapf "failed to parse config file %s: %w" [file] (io_lift (json_Unmarshal_endpoints b));
  mret (sort_Strings endpoints).

(** ** endpoints.go *)

(** The command [ServerClient] fails with the error of either call that makes a client. *)
Definition getKubernetesEndpoints (kubeconfigFile server : string) : act (list string) :=
  _ ← perform (ServerClient server kubeconfigFile);
  slices ← act_try (perform (EndpointSlicesOf server));
  match slices with
  | Ok endpointSlices => mret (match endpointSlices with Some l => ParseEndpointSlices l | None => [] end)
  | Err _ =>
      endpoints ← act_wrapf "failed to retrieve endpoints for kubernetes service: %w" [] (perform (EndpointsOf server));
      mret (match endpoints with Some l => ParseEndpoints l | None => [] end)
  end.

(** ** apiserver.go *)

(** The loop over the endpoints, which leaves its result in the variables [newEndpoints] and
    [err]. *)
Fixpoint ask_servers (kubeconfigFile : string) (endpoints : list string) (last : res (list string))
    : act (res (list string)) :=
  match endpoints with
  | [] => mret last
  | ep :: endpoints =>
      r ← act_try (getKubernetesEndpoints kubeconfigFile ep);
      match r with
      | Ok newEndpoints => mret (Ok newEndpoints)
      | Err e => ask_servers kubeconfigFile endpoints (Err e)
      end
  end.

(** The cases that go on to wait. *)
Definition endpoints_to_write (r : res (list string)) (endpoints : list string) : option (list string) :=
  match r with
  | Err _ => None
  | Ok [] => None
  | Ok newEndpoints => if decide (newEndpoints = endpoints) then None else Some newEndpoints
  end.

Definition ask (p : APIServerProxy) (endpoints : list string) : act (option (list string)) :=
  r ← ask_servers (KubeconfigFile p) endpoints (Ok []);
  mret (endpoints_to_write r endpoints).

Definition new_turn (p : APIServerProxy) (endpoints : list string) : turn :=
  mkTurn endpoints false Starting (if RefreshCh p then Watching else WatcherEnded).

Inductive system_step (p : APIServerProxy) : system → sys_event → system → Prop :=
(** The head of the loop of [Run]; it may be that the context is done after that. *)
| StepFinish s : sys_runner s = Top → sys_done s = true → system_step p s Finished (with_runner (Returned (Ok tt)) s)
| StepLoad s endpoints m : sys_runner s = Top → sys_done s = false →
    act_io (loadEndpointsConfig (EndpointsConfigFile p)) (sys_machine s) = (Ok endpoints, m) →
    system_step p s (Loaded endpoints)
      (mkSystem m (sys_done s) (Blocked (length (sys_turns s))) (sys_turns s ++ [new_turn p endpoints]))
| StepLoadFailed s e m : sys_runner s = Top → sys_done s = false →
    act_io (loadEndpointsConfig (EndpointsConfigFile p)) (sys_machine s) = (Err e, m) →
    system_step p s LoadFailed
      (with_machine m (with_runner (Returned (Err (Wrapf "failed to load endpoints configuration: %w" [] e))) s))
| StepTurnOver s g t : sys_runner s = Blocked g → sys_turns s !! g = Some t → turn_done s t = true →
    system_step p s (TurnOver g) (with_runner Top s)
| StepCtxDone s : system_step p s CtxDone (mkSystem (sys_machine s) true (sys_runner s) (sys_turns s))
(** [startProxy] *)
| StepStartFailed s g t e m : sys_turns s !! g = Some t → t_starter t = Starting →
    startProxy (ListenAddress p) (t_endpoints t) (sys_machine s) = (Err e, m) →
    system_step p s (StartFailed g) (with_machine m (with_turn g (λ t, cancel (set_starter StarterEnded t)) s))
| StepStarted s g t tp m : sys_turns s !! g = Some t → t_starter t = Starting →
    startProxy (ListenAddress p) (t_endpoints t) (sys_machine s) = (Ok tp, m) →
    system_step p s (StartedProxy g) (with_machine m (with_turn g (set_starter (Serving tp)) s))
| StepInProxy s g t tp e tp' : sys_turns s !! g = Some t → t_starter t = Serving tp → proxy_step tp e (Some tp') →
    e ≠ Stopped →
    system_step p s (InProxy g e) (with_turn g (set_starter (Serving tp')) s)
| StepProxyStopped s g t tp tp' : sys_turns s !! g = Some t → turn_done s t = true → t_starter t = Serving tp →
    proxy_step tp Stopped (Some tp') →
    system_step p s (ProxyStopped g) (with_turn g (λ t, cancel (set_starter (Serving tp') t)) s)
(** [watchForNewEndpoints] *)
| StepWatcherStopped s g t : sys_turns s !! g = Some t → t_watcher t = Watching → turn_done s t = true →
    system_step p s (WatcherStopped g) (with_turn g (set_watcher WatcherEnded) s)
| StepAsk s g t o m : sys_turns s !! g = Some t → t_watcher t = Watching →
    ask p (t_endpoints t) (sys_machine s) = (Ok o, m) →
    system_step p s (Asked g)
      (with_machine m (with_turn g (set_watcher (match o with Some l => Updating l | None => Watching end)) s))
| StepUpdated s g t newEndpoints m : sys_turns s !! g = Some t → t_watcher t = Updating newEndpoints →
    act_io (WriteEndpointsConfig newEndpoints (EndpointsConfigFile p)) (sys_machine s) = (Ok tt, m) →
    system_step p s (Updated g newEndpoints) (with_machine m (with_turn g (λ t, cancel (set_watcher WatcherEnded t)) s))
| StepUpdateFailed s g t newEndpoints e m : sys_turns s !! g = Some t → t_watcher t = Updating newEndpoints →
    act_io (WriteEndpointsConfig newEndpoints (EndpointsConfigFile p)) (sys_machine s) = (Err e, m) →
    system_step p s (UpdateFailed g) (with_machine m (with_turn g (set_watcher Watching) s)).

Inductive sys_run (p : APIServerProxy) : system → list sys_event → system → Prop :=
| SysNil s : sys_run p s [] s
| SysSnoc s l s1 e s2 : sys_run p s l s1 → system_step p s1 e s2 → sys_run p s (l ++ [e]) s2.

Definition started (m : Machine) : system := mkSystem m false Top [].
End Run.

(** ** cmd/k8s-apiserver-proxy: the options; an interval is in nanoseconds. *)

Definition minimum_interval : Z := 15 * 10 ^ 9.
Definition refresh_interval (refreshEndpointsInterval : Z) : option Z :=
  if (refreshEndpointsInterval =? 0)%Z then None
  else if (refreshEndpointsInterval <? minimum_interval)%Z then Some minimum_interval
  else Some refreshEndpointsInterval.
Definition new_APIServerProxy (listenAddress endpointsConfigFile refreshEndpointsKubeconfig : string)
    (refreshEndpointsInterval : Z) : APIServerProxy :=
  mkAPIServerProxy listenAddress endpointsConfigFile (bool_decide (is_Some (refresh_interval refreshEndpointsInterval)))
    refreshEndpointsKubeconfig.

End ApiServerProxy.
