(* ===== verification/ApiServerProxyFacts.v ===== *)
(** * What the list of API servers of a worker promises

    ApiServerProxy.v: the file of endpoints is never lost, it holds what an API server told
    last, and the servers to which the proxy forwards, of every turn of [Run], are known: they
    were in the first file, or a known server told of them.  Without a proxy that starts,
    [Run] does not wait for anything. *)

From S2P Require Import Prelude GoStrings GoNet Cidr Config FileSys Pki Setup Database Effects Checks KubeClient Proxy.
From S2P Require Import ProxyFacts ApiServerProxy.
Import GoStr GoNet Cidr FileSys Setup Effects Checks KubeClient Proxy ProxyFacts ApiServerProxy.

Module ApiServerProxyFacts.

Section Facts.
Context `{OSEnv, EndpointsJson, Outside, ProxyEnv}.

(** ** What the servers say *)

(** On the way from [m] to [m'], the server said that [l] are the API servers. *)
Definition told (server : string) (l : list string) (m m' : Machine) : Prop :=
  (∃ slices, answered (EndpointSlicesOf server) (Ok (Some slices)) m m' ∧ l = ParseEndpointSlices slices) ∨
  (∃ subsets, answered (EndpointsOf server) (Ok (Some subsets)) m m' ∧ l = ParseEndpoints subsets).

Lemma told_later server l m1 m2 m3 m4 : later m1 m2 → told server l m2 m3 → later m3 m4 → told server l m1 m4.
Proof.
  intros Hb [(slices & Ha & ->)|(subsets & Ha & ->)] Hc; [left|right]; eexists; (split; [|done]); by eapply answered_later.
Qed.

Lemma getKubernetesEndpoints_asks kc server : asks (getKubernetesEndpoints kc server).
Proof. unfold getKubernetesEndpoints. asks_go. Qed.
Lemma getKubernetesEndpoints_emits kc server : emits any_command any_change (getKubernetesEndpoints kc server).
Proof. unfold getKubernetesEndpoints. emits_go. Qed.

Lemma getKubernetesEndpoints_told kc server m l m' : getKubernetesEndpoints kc server m = (Ok l, m') → l ≠ [] →
  told server l m m'.
Proof.
  intros (u & m1 & E1%perform_later & E)%act_bind_Ok_inv Hl.
  apply act_bind_Ok_inv in E as (o & m2 & (r & E2 & [= ->])%act_try_run & E). destruct r as [[slices|]|e].
  - injection E as <- <-. left. exists slices. split; [|done]. eapply answered_before; [exact E1|].
    exact (perform_answered (EndpointSlicesOf server) _ _ _ E2).
  - by injection E as <- <-.
  - apply act_bind_Ok_inv in E as (o & m3 & E3%act_wrapf_Ok & [= <- <-]). destruct o as [subsets|]; [|done].
    right. exists subsets. split; [|done]. eapply answered_before; [etrans; [exact E1|]|].
    + exact (perform_later (EndpointSlicesOf server) _ _ _ E2).
    + exact (perform_answered (EndpointsOf server) _ _ _ E3).
Qed.

Lemma ask_servers_asks kc eps last : asks (ask_servers kc eps last).
Proof.
  revert last. induction eps as [|ep eps IH]; intros last; cbn; [by apply asks_ret|].
  apply asks_bind; [by apply asks_try, getKubernetesEndpoints_asks|]. intros [l|e]; [by apply asks_ret|apply IH].
Qed.
Lemma ask_servers_emits kc eps last : emits any_command any_change (ask_servers kc eps last).
Proof.
  revert last. induction eps as [|ep eps IH]; intros last; cbn; [by apply emits_ret|].
  apply emits_bind; [typeclasses eauto|by apply emits_try, getKubernetesEndpoints_emits|].
  intros [l|e]; [by apply emits_ret|apply IH].
Qed.

(** A list that is not empty is what one of the servers told, and the servers before it in the
    list did not answer. *)
Lemma ask_servers_told kc eps last m l m' : ask_servers kc eps last m = (Ok (Ok l), m') → last ≠ Ok l → l ≠ [] →
  ∃ server, server ∈ eps ∧ told server l m m'.
Proof.
  intros E Hlast Hl. revert last m E Hlast. induction eps as [|ep eps IH]; intros last m E Hlast; cbn in E; [by injection E as E _|].
  apply act_bind_Ok_inv in E as (o & m1 & (r & E1 & [= ->])%act_try_run & E). destruct r as [l'|e].
  - injection E as <- <-. exists ep. split; [by left|]. by eapply getKubernetesEndpoints_told.
  - destruct (IH _ _ E) as (server & Hs & Ht); [done|]. exists server. split; [by right|].
    eapply told_later; [eapply emits_later; [apply getKubernetesEndpoints_emits|exact E1]|exact Ht|reflexivity].
Qed.

Lemma ask_spec p eps m o m' : ask p eps m = (Ok o, m') →
  later m m' ∧ m_world m' = m_world m ∧
  ∀ l, o = Some l → l ≠ [] ∧ l ≠ eps ∧ ∃ server, server ∈ eps ∧ told server l m m'.
Proof.
  intros (r & m1 & E & [= <- <-])%act_bind_Ok_inv.
  split; [eapply emits_later; [apply ask_servers_emits|exact E]|].
  split; [by eapply ask_servers_asks|]. unfold endpoints_to_write. destruct r as [[|x l0]|e]; [done| |done].
  destruct (decide (x :: l0 = eps)) as [|Hne]; [done|]. intros l [= <-]. split_and!; [done|done|].
  by eapply ask_servers_told; [exact E|done|].
Qed.

(** ** The file *)

Definition file_holds (p : APIServerProxy) (l : list string) (w : World) : Prop :=
  ∃ f, w_files w !! EndpointsConfigFile p = Some f ∧ json_Unmarshal_endpoints (f_data f) = Ok l.

Lemma load_run p m r m' : act_io (loadEndpointsConfig (EndpointsConfigFile p)) m = (r, m') → m' = m ∧
  ∀ l, file_holds p l (m_world m) →
    r = Ok (sort_Strings l) ∨ ∃ e, os_fail OpRead (EndpointsConfigFile p) = Some e ∧ is_ok r = false.
Proof.
  intros (w & E & ->)%act_io_run.
  apply io_bind_inv in E as [(b & w1 & E1%io_wrapf_Ok & E)|(e & E & ->)].
  - apply os_ReadFile_run in E1 as (-> & f & Hf & <-). unfold io_wrapf, io_lift, mbind, io_bind in E.
    destruct (json_Unmarshal_endpoints (f_data f)) as [l|e] eqn:Ej; injection E as <- <-; (split; [by destruct m|]);
      intros l' (f' & Hf' & Hj'); rewrite Hf in Hf'; injection Hf' as <-; rewrite Ej in Hj'; [|done].
    injection Hj' as <-. by left.
  - unfold io_wrapf in E. destruct (os_ReadFile _ _) as [r0 w0] eqn:Er. injection E as Ew <-.
    apply os_ReadFile_run in Er as [-> Hr]. split; [by destruct m|].
    intros l' (f' & Hf' & Hj'). right. destruct r0 as [d|e0]; [done|]. destruct Hr as [Hr|[Hr _]]; [by exists e0|].
    congruence.
Qed.

Lemma act_io_load p m eps m' l : file_holds p l (m_world m) →
  act_io (loadEndpointsConfig (EndpointsConfigFile p)) m = (Ok eps, m') → m' = m ∧ eps = sort_Strings l.
Proof. intros Hf [-> Hr]%load_run. split; [done|]. destruct (Hr _ Hf) as [[= ->]|(e & _ & ?)]; done. Qed.

Context (json_endpoints_roundtrip : ∀ l b, json_endpoints l = Ok b → json_Unmarshal_endpoints b = Ok l).

Lemma act_io_write p m l r m' : (∀ fs, os_temp fs (filepath_Dir (EndpointsConfigFile p)) ≠ EndpointsConfigFile p) →
  act_io (WriteEndpointsConfig l (EndpointsConfigFile p)) m = (r, m') →
  m_log m' = m_log m ∧
  match r with
  | Ok _ => file_holds p l (m_world m')
  | Err _ => w_files (m_world m') !! EndpointsConfigFile p = w_files (m_world m) !! EndpointsConfigFile p
  end.
Proof.
  intros Htmp (w & E & ->)%act_io_run. split; [done|]. cbn [m_world].
  apply io_bind_inv in E as [(b & w1 & E1 & E)|(e & E1 & ->)].
  - unfold io_wrapf, io_lift in E1. destruct (json_endpoints l) as [b'|e] eqn:Ej; [|done]. injection E1 as <- <-.
    unfold io_wrapf in E. destruct (WriteFile _ b' 384 _) as [r0 w0] eqn:Ew. injection E as <- <-.
    apply WriteFile_run in Ew as [_ [(e & -> & Hp)|[-> Hf]]]; [|cbn; apply Hp; by intros Hx; apply (Htmp _ (eq_sym Hx))|cbn].
    + apply Htmp.
    + eexists. rewrite Hf, lookup_insert_eq. split; [done|]. by apply json_endpoints_roundtrip.
  - unfold io_wrapf, io_lift in E1. destruct (json_endpoints l); [done|]. by injection E1 as _ <-.
Qed.

(** ** Servers that are known *)

(** The servers of the first file, and those a known server told of. *)
Inductive known (init : list string) (m0 m : Machine) : string → Prop :=
| known_first ep : ep ∈ init → known init m0 m ep
| known_told server l ep : known init m0 m server → told server l m0 m → ep ∈ l → known init m0 m ep.

Lemma known_later init m0 m m' ep : known init m0 m ep → later m m' → known init m0 m' ep.
Proof.
  induction 1 as [|server l ep _ IH Ht Hin]; intros Hl; [by constructor|]. eapply known_told; [by apply IH| |exact Hin].
  eapply told_later; [reflexivity|exact Ht|exact Hl].
Qed.

Definition all_known (init : list string) (m0 m : Machine) (l : list string) : Prop :=
  l ≠ [] ∧ Forall (known init m0 m) l.
Lemma all_known_later init m0 m m' l : all_known init m0 m l → later m m' → all_known init m0 m' l.
Proof. intros [Hl Hf] Hm. split; [done|]. eapply Forall_impl; [exact Hf|]. intros ep Hep. by eapply known_later. Qed.

(** The proxy forwards to these endpoints, in their order. *)
Definition forwards_to (eps : list string) (tp : tcpproxy) : Prop :=
  Forall2 (λ ep r, ∃ srv, parse_endpoint ep = Ok srv ∧ r_srv r = srv ∧ r_addr r = r_addr (new_remote srv)) eps (remotes tp).

Lemma startProxy_forwards url eps m tp m' : startProxy url eps m = (Ok tp, m') → forwards_to eps tp.
Proof.
  intros (srvs & -> & Hs & _)%startProxy_Ok. unfold forwards_to. cbn. apply Forall2_fmap_r.
  eapply Forall2_impl; [exact Hs|]. intros ep srv E. by exists srv.
Qed.

Lemma step_forwards eps tp e tp' : forwards_to eps tp → proxy_step tp e (Some tp') → forwards_to eps tp'.
Proof.
  assert (Hflag : ∀ i b l, Forall2 (λ ep r, ∃ srv, parse_endpoint ep = Ok srv ∧ r_srv r = srv ∧ r_addr r = r_addr (new_remote srv)) eps l →
    Forall2 (λ ep r, ∃ srv, parse_endpoint ep = Ok srv ∧ r_srv r = srv ∧ r_addr r = r_addr (new_remote srv)) eps
      (alter (λ r, set_inactive r b) i l)).
  { intros i b l Hl. revert i. induction Hl as [|ep r eps' rs Hr Hl IH]; intros i; [destruct i; constructor|].
    destruct i as [|i]; cbn; constructor; try done. }
  unfold forwards_to. intros Hf Hstep. inversion Hstep; subst; cbn; try done; by apply Hflag.
Qed.

(** ** The invariant of the system *)

(** What the file holds after some events. *)
Definition last_written (init : list string) (l : list sys_event) : list string :=
  fold_left (λ cur e, match e with Updated _ new => new | _ => cur end) l init.
Lemma last_written_snoc init l e :
  last_written init (l ++ [e]) = match e with Updated _ new => new | _ => last_written init l end.
Proof. unfold last_written. by rewrite fold_left_app. Qed.

Record turn_ok (init : list string) (m0 m : Machine) (t : turn) : Prop := {
  turn_known : all_known init m0 m (t_endpoints t);
  turn_serves : ∀ tp, t_starter t = Serving tp → forwards_to (t_endpoints t) tp;
  turn_updates : ∀ l, t_watcher t = Updating l →
    l ≠ [] ∧ l ≠ t_endpoints t ∧ ∃ server, server ∈ t_endpoints t ∧ told server l m0 m }.

Record system_ok (p : APIServerProxy) (init : list string) (m0 : Machine) (l : list sys_event) (s : system) : Prop := {
  ok_later : later m0 (sys_machine s);
  ok_file : file_holds p (last_written init l) (m_world (sys_machine s));
  ok_known : all_known init m0 (sys_machine s) (last_written init l);
  ok_turns : Forall (turn_ok init m0 (sys_machine s)) (sys_turns s) }.

Lemma turn_ok_later init m0 m m' t : turn_ok init m0 m t → later m m' → turn_ok init m0 m' t.
Proof.
  intros [Hk Hs Hu] Hm. split; [by eapply all_known_later|done|]. intros l (? & ? & server & ? & Ht)%Hu.
  split_and!; [done|done|]. exists server. split; [done|]. eapply told_later; [reflexivity|exact Ht|exact Hm].
Qed.

Lemma updates_known init m0 m t l : turn_ok init m0 m t → t_watcher t = Updating l → all_known init m0 m l.
Proof.
  intros [[_ Hk] _ Hu] (Hl & _ & server & Hin & Ht)%Hu. split; [done|]. rewrite Forall_forall in Hk |- *.
  intros ep Hep. by eapply known_told; [apply Hk| |].
Qed.
Lemma turns_later init m0 m m' l : Forall (turn_ok init m0 m) l → later m m' → Forall (turn_ok init m0 m') l.
Proof. intros Hl Hm. eapply Forall_impl; [exact Hl|]. intros t Ht. by eapply turn_ok_later. Qed.

(** A step of a turn that leaves the file alone. *)
Lemma turn_step_ok p init m0 l s e m' g t f : system_ok p init m0 l s → (∀ g' new, e ≠ Updated g' new) →
  later (sys_machine s) m' → w_files (m_world m') !! EndpointsConfigFile p = w_files (m_world (sys_machine s)) !! EndpointsConfigFile p →
  sys_turns s !! g = Some t → (turn_ok init m0 m' t → turn_ok init m0 m' (f t)) →
  system_ok p init m0 (l ++ [e]) (with_machine m' (with_turn g f s)).
Proof.
  intros [Hl Hf Hk Ht] He Hm Ew Hg Hnew.
  assert (Elast : last_written init (l ++ [e]) = last_written init l)
    by (rewrite last_written_snoc; destruct e; try done; by destruct (He g0 newEndpoints)).
  split; rewrite ?Elast; cbn.
  - by etrans.
  - unfold file_holds. by rewrite Ew.
  - by eapply all_known_later.
  - pose proof (turns_later _ _ _ _ _ Ht Hm) as Ht'. apply Forall_alter; [done|]. intros t' Ht1 Hok.
    rewrite Hg in Ht1. injection Ht1 as <-. by apply Hnew.
Qed.

Lemma startProxy_runs url eps m r m' : startProxy url eps m = (r, m') → later m m' ∧ m_world m' = m_world m.
Proof.
  intros E. split.
  - eapply emits_later; [|exact E]. unfold startProxy. emits_go.
  - assert (Ha : asks (startProxy url eps)) by (unfold startProxy; asks_go). by eapply Ha.
Qed.

Lemma new_turn_ok p init m0 m l : all_known init m0 m l → turn_ok init m0 m (new_turn p (sort_Strings l)).
Proof.
  intros [Hl Hk]. unfold new_turn. split; cbn.
  - split; [|by rewrite sort_Strings_Permutation]. intros E. apply Hl.
    apply Permutation_nil_r. by rewrite <- E, sort_Strings_Permutation.
  - done.
  - by destruct (RefreshCh p).
Qed.

Context (p : APIServerProxy) (temp_elsewhere : ∀ fs, os_temp fs (filepath_Dir (EndpointsConfigFile p)) ≠ EndpointsConfigFile p).
Context (init : list string) (m0 : Machine).

Lemma updated_ok l s g t new m : system_ok p init m0 l s → sys_turns s !! g = Some t → t_watcher t = Updating new →
  act_io (WriteEndpointsConfig new (EndpointsConfigFile p)) (sys_machine s) = (Ok tt, m) →
  system_ok p init m0 (l ++ [Updated g new]) (with_machine m (with_turn g (λ t, cancel (set_watcher WatcherEnded t)) s)).
Proof.
  intros [Hl Hf Hk Ht] Hg Hw Ew. apply act_io_write in Ew as [Elog Hfile]; [|done].
  assert (Hm : later (sys_machine s) m) by (unfold later; by rewrite Elog).
  assert (Ht' := turns_later _ _ _ _ _ Ht Hm).
  split; rewrite ?last_written_snoc; cbn; [by etrans|done| |].
  - eapply updates_known; [|exact Hw]. by eapply Forall_lookup_1.
  - apply Forall_alter; [done|]. intros t' Et [Hk' Hs' Hu']. rewrite Hg in Et. injection Et as <-. by split.
Qed.

Lemma step_ok l s e s' : system_ok p init m0 l s → system_step p s e s' → system_ok p init m0 (l ++ [e]) s'.
Proof.
  intros Hok Hstep. pose proof Hok as [Hl Hf Hk Ht].
  inversion Hstep; subst; try (by split; rewrite ?last_written_snoc; cbn).
  - destruct (act_io_load _ _ _ _ _ Hf ltac:(eassumption)) as [-> ->].
    split; rewrite ?last_written_snoc; cbn; [done..|]. apply Forall_app. split; [done|]. apply Forall_singleton.
    by apply new_turn_ok.
  - destruct (load_run _ _ _ _ ltac:(eassumption)) as [-> _]. by split; rewrite ?last_written_snoc; cbn.
  - destruct (startProxy_runs _ _ _ _ _ ltac:(eassumption)) as [Hm Ew]. eapply turn_step_ok; [done..|by rewrite Ew|done|].
    by intros [? ? ?]; split.
  - destruct (startProxy_runs _ _ _ _ _ ltac:(eassumption)) as [Hm Ew]. eapply turn_step_ok; [done..|by rewrite Ew|done|].
    intros [? ? ?]; split; [done| |done]. intros tp' [= <-]. by eapply startProxy_forwards.
  - eapply (turn_step_ok _ _ _ _ s _ (sys_machine s)); [done..| |done|done|]; [reflexivity|].
    intros [? Hs ?]; split; [done| |done]. intros tp1 [= <-]. eapply step_forwards; [by apply Hs|done].
  - eapply (turn_step_ok _ _ _ _ s _ (sys_machine s)); [done..| |done|done|]; [reflexivity|].
    intros [? Hs ?]; split; [done| |done]. intros tp1 [= <-]. eapply step_forwards; [by apply Hs|done].
  - eapply (turn_step_ok _ _ _ _ s _ (sys_machine s)); [done..| |done|done|]; [reflexivity|].
    by intros [? ? ?]; split.
  - destruct (ask_spec _ _ _ _ _ ltac:(eassumption)) as (Hm & Ew & Hnew).
    eapply turn_step_ok; [done..|by rewrite Ew|done|]. intros [? ? ?]; split; [done|done|].
    destruct o as [new|]; [|done]. intros l' [= <-]. destruct (Hnew _ eq_refl) as (? & ? & server & ? & Htold).
    split_and!; [done|done|]. exists server. split; [done|]. eapply told_later; [exact Hl|exact Htold|reflexivity].
  - by eapply updated_ok.
  - destruct (act_io_write _ _ _ _ _ temp_elsewhere ltac:(eassumption)) as [Elog Ew].
    eapply turn_step_ok; [done..| |exact Ew|done|]; [unfold later; by rewrite Elog|]. by intros [? ? ?]; split.
Qed.

Lemma run_ok l s : init ≠ [] → file_holds p init (m_world m0) → sys_run p (started m0) l s → system_ok p init m0 l s.
Proof.
  intros Hinit Hfile R. remember (started m0) as s0. induction R as [|s0 l s1 e s2 R IH E]; subst.
  - split; cbn; [done|done| |done]. split; [done|]. rewrite Forall_forall. by constructor.
  - eapply step_ok; [by apply IH|exact E].
Qed.

(** C30: A worker only ever forwards to API servers that are known, however the goroutines of [Run] and of
    its proxies interleave: each remote of a proxy that was started in any turn, also of one that
    was stopped since, is the address of an endpoint that was in the file at first, or that a
    known API server, asked by the proxy, told to be one. *)
Theorem forwards_to_known l s g t tp i r : init ≠ [] → file_holds p init (m_world m0) → sys_run p (started m0) l s →
  sys_turns s !! g = Some t → t_starter t = Serving tp → remotes tp !! i = Some r →
  ∃ ep srv, known init m0 (sys_machine s) ep ∧ t_endpoints t !! i = Some ep ∧ parse_endpoint ep = Ok srv ∧ r_srv r = srv ∧
    r_addr r = r_addr (new_remote srv).
Proof.
  intros Hinit Hfile R Hg Hst Hr. destruct (run_ok _ _ Hinit Hfile R) as [_ _ _ Hturns].
  destruct (Forall_lookup_1 _ _ _ _ Hturns Hg) as [[_ Hk] Hs _]. specialize (Hs _ Hst).
  destruct (Forall2_lookup_r _ _ _ _ _ Hs Hr) as (ep & Hep & srv & Hsrv & Hrs & Hra). exists ep, srv.
  split_and!; try done. by eapply Forall_lookup_1.
Qed.


Lemma sys_run_cons s e s1 l s2 : system_step p s e s1 → sys_run p s1 l s2 → sys_run p s (e :: l) s2.
Proof.
  intros E R. induction R as [|s1 l s2 e' s3 R IH E']; [by apply (SysSnoc _ _ [] s); [constructor|]|].
  rewrite app_comm_cons. by eapply SysSnoc; [apply IH|].
Qed.

Lemma startProxy_emits url eps : emits (λ c, c = Listen url) eq (startProxy url eps).
Proof. unfold startProxy. emits_go. Qed.

Definition is_load (e : sys_event) : bool := match e with Loaded _ => true | _ => false end.

(** A turn that ends as soon as it began. *)
Lemma spin_once s : sys_runner s = Top → sys_done s = false → file_holds p init (m_world (sys_machine s)) →
  os_fail OpRead (EndpointsConfigFile p) = None →
  (∀ m, is_ok (startProxy (ListenAddress p) (sort_Strings init) m).1 = false) →
  let g := length (sys_turns s) in
  ∃ s', sys_run p s [Loaded (sort_Strings init); StartFailed g; TurnOver g] s' ∧ sys_runner s' = Top ∧ sys_done s' = false ∧
    m_world (sys_machine s') = m_world (sys_machine s) ∧
    ∃ k, m_log (sys_machine s') = m_log (sys_machine s) ++ replicate k (Listen (ListenAddress p)).
Proof.
  intros Htop Hdone Hfile Hread Hfails g.
  destruct (act_io (loadEndpointsConfig (EndpointsConfigFile p)) (sys_machine s)) as [r m] eqn:El.
  destruct (load_run _ _ _ _ El) as [-> Hr]. destruct (Hr _ Hfile) as [->|(e & ? & _)]; [|congruence].
  destruct (startProxy (ListenAddress p) (sort_Strings init) (sys_machine s)) as [[tp|e] m1] eqn:Es;
    [by specialize (Hfails (sys_machine s)); rewrite Es in Hfails|].
  destruct (startProxy_emits _ _ _ _ _ Es) as [(cs & Hlog & Hcs) _].
  destruct (startProxy_runs _ _ _ _ _ Es) as [_ Hw].
  assert (Hg : (sys_turns s ++ [new_turn p (sort_Strings init)]) !! g = Some (new_turn p (sort_Strings init)))
    by (by rewrite lookup_app_r, Nat.sub_diag).
  eexists. split.
  - eapply sys_run_cons; [by eapply StepLoad|]. eapply sys_run_cons; [by eapply (StepStartFailed _ _ g)|].
    eapply sys_run_cons; [|constructor]. eapply StepTurnOver; [done|cbn; by rewrite list_lookup_alter_eq, Hg|].
    unfold turn_done. cbn. by rewrite orb_true_r.
  - cbn. split_and!; [done..|]. exists (length cs). rewrite Hlog. f_equal.
    clear -Hcs. induction Hcs as [|c cs -> _ IH]; [done|]. cbn. by f_equal.
Qed.

Lemma sys_run_app s l1 s1 l2 s2 : sys_run p s l1 s1 → sys_run p s1 l2 s2 → sys_run p s (l1 ++ l2) s2.
Proof.
  intros R1 R2. induction R2 as [|s1 l s' e s2 R2 IH E]; [by rewrite app_nil_r|].
  rewrite app_assoc. by eapply SysSnoc; [apply IH|].
Qed.

(** When the proxy does not start, because its list of servers is empty or the address is not free,
    [Run] does not wait for anything before it loads the file and fails again: any number of
    turns is possible in which nothing happens but attempts to listen, and its caller
    never gets the error. *)
Theorem Run_spins n : file_holds p init (m_world m0) → os_fail OpRead (EndpointsConfigFile p) = None →
  (∀ m, is_ok (startProxy (ListenAddress p) (sort_Strings init) m).1 = false) →
  ∃ l s, sys_run p (started m0) l s ∧ length (List.filter is_load l) = n ∧ sys_runner s = Top ∧
    ∃ k, m_log (sys_machine s) = m_log m0 ++ replicate k (Listen (ListenAddress p)).
Proof.
  intros Hfile Hread Hfails.
  assert (Hx : ∃ l s, sys_run p (started m0) l s ∧ length (List.filter is_load l) = n ∧ sys_runner s = Top ∧
    sys_done s = false ∧ m_world (sys_machine s) = m_world m0 ∧
    ∃ k, m_log (sys_machine s) = m_log m0 ++ replicate k (Listen (ListenAddress p))).
  { induction n as [|k (l & s & R & <- & Htop & Hdone & Hw & q & Hlog)].
    - exists [], (started m0). split_and!; [constructor|done..|]. exists 0%nat. by rewrite app_nil_r.
    - destruct (spin_once s Htop Hdone) as (s' & R' & H1' & H2' & H3' & q' & Hlog'); [by rewrite Hw|done|done|].
      eexists _, s'. split_and!; [by eapply sys_run_app| |done|done|by rewrite H3'|].
      + rewrite List.filter_app, length_app. cbn. lia.
      + exists (q + q')%nat. by rewrite Hlog', Hlog, <- app_assoc, replicate_add. }
  destruct Hx as (l & s & R & Hn & Htop & _ & _ & Hlog). by exists l, s.
Qed.

(** ** Steps that are executed, by their event; the others as they are needed. *)
Definition sys_exec (s : system) (e : sys_event) : option system :=
  match e with
  | Loaded endpoints =>
      match sys_runner s, sys_done s, act_io (loadEndpointsConfig (EndpointsConfigFile p)) (sys_machine s) with
      | Top, false, (Ok eps, m) =>
          if decide (eps = endpoints)
          then Some (mkSystem m (sys_done s) (Blocked (length (sys_turns s))) (sys_turns s ++ [new_turn p eps])) else None
      | _, _, _ => None
      end
  | StartedProxy g =>
      t ← sys_turns s !! g;
      match t_starter t, startProxy (ListenAddress p) (t_endpoints t) (sys_machine s) with
      | Starting, (Ok tp, m) => Some (with_machine m (with_turn g (set_starter (Serving tp)) s))
      | _, _ => None
      end
  | Asked g =>
      t ← sys_turns s !! g;
      match t_watcher t, ask p (t_endpoints t) (sys_machine s) with
      | Watching, (Ok o, m) =>
          Some (with_machine m (with_turn g (set_watcher (match o with Some l => Updating l | None => Watching end)) s))
      | _, _ => None
      end
  | Updated g new =>
      t ← sys_turns s !! g;
      match t_watcher t, act_io (WriteEndpointsConfig new (EndpointsConfigFile p)) (sys_machine s) with
      | Updating new', (Ok tt, m) =>
          if decide (new' = new) then Some (with_machine m (with_turn g (λ t, cancel (set_watcher WatcherEnded t)) s)) else None
      | _, _ => None
      end
  | TurnOver g =>
      t ← sys_turns s !! g;
      match sys_runner s, turn_done s t with
      | Blocked g', true => if decide (g' = g) then Some (with_runner Top s) else None
      | _, _ => None
      end
  | _ => None
  end.

Lemma sys_exec_step s e s' : sys_exec s e = Some s' → system_step p s e s'.
Proof.
  destruct e; cbn; try done.
  - destruct (sys_runner s) eqn:?; try done. destruct (sys_done s) eqn:Hd; [done|].
    destruct (act_io (loadEndpointsConfig _) _) as [[eps|] m] eqn:?; try done.
    destruct (decide (eps = endpoints)) as [->|]; [|done]. intros [= <-]. rewrite <- Hd. by eapply StepLoad.
  - destruct (sys_turns s !! g) as [t|] eqn:?; [|done]. cbn.
    destruct (t_starter t) eqn:?; try done. destruct (startProxy _ _ _) as [[tp'|] m] eqn:?; try done. intros [= <-]. by eapply StepStarted.
  - destruct (sys_turns s !! g) as [t|] eqn:?; [|done]. cbn.
    destruct (t_watcher t) eqn:?; try done. destruct (ask _ _ _) as [[o|] m] eqn:?; try done. intros [= <-]. by eapply StepAsk.
  - destruct (sys_turns s !! g) as [t|] eqn:?; [|done]. cbn.
    destruct (t_watcher t) as [|new'|] eqn:?; try done. destruct (act_io (WriteEndpointsConfig _ _) _) as [[[]|] m] eqn:?; try done.
    destruct (decide (new' = newEndpoints)) as [->|]; [|done]. intros [= <-]. by eapply StepUpdated.
  - destruct (sys_turns s !! g) as [t|] eqn:?; [|done]. cbn.
    destruct (sys_runner s) eqn:?; try done. destruct (turn_done s t) eqn:?; [|done].
    destruct (decide (g0 = g)) as [->|]; [|done]. intros [= <-]. by eapply StepTurnOver.
Qed.

Definition sys_exec_all (s : system) (l : list sys_event) : option system := fold_left (λ o e, s ← o; sys_exec s e) l (Some s).

Lemma sys_exec_run s l s' : sys_exec_all s l = Some s' → sys_run p s l s'.
Proof.
  revert s'. induction l as [|e l IH] using rev_ind; unfold sys_exec_all; [intros s' [= ->]; by constructor|].
  intros s'. rewrite fold_left_app. cbn. destruct (fold_left _ l _) as [s1|] eqn:E; cbn; [|done].
  intros Hx%sys_exec_step. by eapply SysSnoc; [apply IH|].
Qed.
End Facts.

(** *** A worker whose first API server tells of another *)

#[local] Instance demo_endpoints_json : EndpointsJson := λ l,
  if decide (split "," (join "," l) = l) then Ok (join "," l) else Err (Errorf "not supported" []).
#[local] Instance demo_worker_env : ProxyEnv :=
  {| url_Host := λ _, None; json_Unmarshal_endpoints := λ b, Ok (split "," b) |}.
#[local] Instance demo_worker_outside : Outside := demo_outside.
#[local] Instance demo_worker_os : OSEnv := demo_os.

Lemma demo_endpoints_roundtrip l b : demo_endpoints_json l = Ok b → json_Unmarshal_endpoints b = Ok l.
Proof. unfold demo_endpoints_json. case_decide as E; [|done]. intros [= <-]. cbn. by rewrite E. Qed.

Definition demo_worker : APIServerProxy := mkAPIServerProxy "127.0.0.1:6443" "/etc/proxy.json" true "/etc/kubelet.conf".
Lemma demo_temp_elsewhere fs : os_temp fs (filepath_Dir (EndpointsConfigFile demo_worker)) ≠ EndpointsConfigFile demo_worker.
Proof. vm_compute. discriminate. Qed.

Definition demo_init : list string := ["10.0.0.9:6443"].
Definition demo_begin : Machine := demo_machine (demo_world [("/etc/proxy.json", "10.0.0.9:6443")]).
Lemma demo_file_holds : file_holds demo_worker demo_init (m_world demo_begin).
Proof. eexists. split; vm_compute; reflexivity. Qed.

(** The first turn learns of another server; the second forwards to that one. *)
Definition demo_history : list sys_event :=
  [Loaded demo_init; StartedProxy 0; Asked 0; Updated 0 ["10.0.0.1:6443"]; TurnOver 0].
Definition demo_second : list sys_event := demo_history ++ [Loaded ["10.0.0.1:6443"]; StartedProxy 1].

Definition demo_reached (l : list sys_event) : system :=
  default (started demo_begin) (sys_exec_all demo_worker (started demo_begin) l).
Lemma demo_reaches l : is_Some (sys_exec_all demo_worker (started demo_begin) l) →
  sys_run demo_worker (started demo_begin) l (demo_reached l).
Proof. intros [s E]. unfold demo_reached. rewrite E. by apply sys_exec_run. Qed.

Lemma forwards_to_known_witness : ∃ ep srv, known demo_init demo_begin (sys_machine (demo_reached demo_second)) ep ∧
  parse_endpoint ep = Ok srv ∧ r_addr (new_remote srv) = "10.0.0.1:6443".
Proof.
  assert (R : sys_run demo_worker (started demo_begin) demo_second (demo_reached demo_second))
    by (apply demo_reaches; vm_compute; eauto).
  destruct (sys_turns (demo_reached demo_second) !! 1) as [t|] eqn:Hg; [|vm_compute in Hg; discriminate].
  destruct (t_starter t) as [|tp|] eqn:Hst; [vm_compute in Hg; injection Hg as <-; discriminate| |].
  2: { vm_compute in Hg. injection Hg as <-. discriminate. }
  destruct (remotes tp !! 0) as [r|] eqn:Hr.
  2: { vm_compute in Hg. injection Hg as <-. vm_compute in Hst. injection Hst as <-. discriminate. }
  destruct (forwards_to_known demo_endpoints_roundtrip demo_worker demo_temp_elsewhere demo_init demo_begin
              demo_second (demo_reached demo_second) 1 t tp 0 r)
    as (ep & srv & Hk & _ & Hp & _ & Ha); [discriminate|exact demo_file_holds|exact R|exact Hg|exact Hst|exact Hr|].
  exists ep, srv. split; [exact Hk|]. split; [exact Hp|]. rewrite <- Ha.
  vm_compute in Hg. injection Hg as <-. vm_compute in Hst. injection Hst as <-. injection Hr as <-. reflexivity.
Defined.


(** Something else listens on the address of the proxy. *)
#[local] Instance demo_taken : Outside := λ _ c,
  match c with Listen _ => Err (Errorf "address already in use" []) | c => default_answer c end.

Lemma Run_spins_witness : ∃ l s, @sys_run _ _ demo_taken _ demo_worker (started demo_begin) l s ∧
  length (List.filter is_load l) = 1000 ∧ sys_runner s = Top ∧
  ∃ k, m_log (sys_machine s) = m_log demo_begin ++ replicate k (Listen "127.0.0.1:6443").
Proof.
  apply (@Run_spins _ _ demo_taken _ demo_worker demo_init demo_begin 1000).
  - exact demo_file_holds.
  - reflexivity.
  - intros m. vm_compute. reflexivity.
Defined.
End ApiServerProxyFacts.
