(* ===== verification/App.v ===== *)
(** * The application: which controllers there are, when they start, and what wakes them

    pkg/k8sd/app: [New] (app.go) makes the controllers that are not disabled; [onStart]
    (hooks_start.go) starts them, and a goroutine that marks the node as ready
    ([markNodeReady] of app.go); all controllers but one wait for that; provider.go notifies
    them through channels of one slot; hooks_preinit.go replaces the certificate of a daemon
    that is about to join.  pkg/k8sd/controllers/coordinator.go sets up the controllers that
    the manager of controller-runtime runs.

    [onStart] is a list of statements ([onStart_program]), since the goroutines that it has
    started run beside the rest of it: [daemon_step] interleaves its statements with the stages
    of [markNodeReady], the controllers, the loops of the feature controller (Feature.v) and
    notifications from the API.

    External: microcluster, the manager of controller-runtime and the schemes of client-go. *)

From S2P Require Import Prelude GoStrings GoNet Cidr Config ConfigConvert FileSys Pki PkiNode Arguments.
From S2P Require Import ConfigFiles Node Database Feature Upgrade Effects Snap Checks SnapdConfig.
From S2P Require Import NodeSetup Cleanup KubeClient Hooks HooksBootstrap ApiCluster.
Import GoStr GoNet Cidr Config Convert FileSys Pki PkiNode Arguments ConfigFiles Node Database Feature Effects Snap Checks
  SnapdConfig NodeSetup Cleanup KubeClient Hooks Bootstrap ApiCluster.

Module AppRun.

(** ** app.go: the configuration and the controllers *)

Record Config := mkConfig {
  StateDir : string;
  PprofAddress : string;
  DisableNodeConfigController : bool;
  NodeConfigControllerWatchDuration : Z;
  DisableNodeLabelController : bool;
  DisableControlPlaneConfigController : bool;
  DisableUpdateNodeConfigController : bool;
  DisableFeatureController : bool;
  DisableDNSRebalancerController : bool;
  DisableCSRSigningController : bool;
  DisableUpgradeController : bool;
  DrainConnectionsTimeout : Z;
  FeatureControllerMaxRetryAttempts : Z;
  DisableServiceArgsController : bool;
  ServiceArgsControllerCheckInterval : Z }.

(** [Disable] of the options of the three controllers of the coordinator. *)
Record CoordinatorOptions := mkCoordinatorOptions {
  upgrade_Disable : bool; csrSigning_Disable : bool; dnsRebalancer_Disable : bool }.

(** The controllers of an [App]; one that is nil is [None] or [false]. *)
Record Controllers := mkControllers {
  nodeConfigController : option Z;
  nodeLabelController : bool;
  controlPlaneConfigController : bool;
  serviceArgsController : option Z;
  updateNodeConfigController : bool;
  featureController : option Z;
  controllerCoordinator : CoordinatorOptions }.

Definition unless {A} (disabled : bool) (a : A) : option A := if disabled then None else Some a.

(** The two calls of microcluster may fail; the result has the directory of the state too. *)
Definition New (app client : res unit) (s : Snap) (cfg : Config) : res (string * Controllers) :=
  let stateDir := if StateDir cfg ==? EmptyString then K8sdStateDir s else StateDir cfg in
  _ ← wrapf "failed to create microcluster app: %w" [] app;
  _ ← wrapf "failed to create microcluster local client: %w" [] client;
  Ok (stateDir,
      mkControllers
        (unless (DisableNodeConfigController cfg) (Z.max (NodeConfigControllerWatchDuration cfg) (30 * second)))
        (negb (DisableNodeLabelController cfg))
        (negb (DisableControlPlaneConfigController cfg))
        (unless (DisableServiceArgsController cfg) (Z.max (ServiceArgsControllerCheckInterval cfg) (30 * second)))
        (negb (DisableUpdateNodeConfigController cfg))
        (unless (DisableFeatureController cfg) (FeatureControllerMaxRetryAttempts cfg))
        (mkCoordinatorOptions (DisableUpgradeController cfg || DisableFeatureController cfg)
           (DisableCSRSigningController cfg) (DisableDNSRebalancerController cfg))).

(** ** provider.go *)

(** The order of the arguments of [NotifyFeatureController]. *)
Definition feature_position (f : FeatureName) : nat :=
  match f with
  | FNetwork => 0 | FGateway => 1 | FIngress => 2 | FLoadBalancer => 3 | FLocalStorage => 4 | FMetricsServer => 5 | FDNS => 6
  end.

Definition NotifyFeatureController (features : list bool) (triggers : FeatureName → chan) (f : FeatureName) : chan :=
  if default false (features !! feature_position f) then MaybeNotify (triggers f) else triggers f.
Definition Notify (f : FeatureName) (triggers : FeatureName → chan) (g : FeatureName) : chan :=
  if decide (g = f) then MaybeNotify (triggers g) else triggers g.

(** ** coordinator.go *)

Section Coordinator.
Context `{OSEnv, DBEnv, Externals, Outside}.

Definition featureUpgradesDisabled (clusterConfig : ClusterConfig) : bool :=
  (Annotations_Get (CC_Annotations clusterConfig) AnnotationDisableSeparateFeatureUpgrades).2.

(** The context is done after [ticks] waits at the latest. *)
Fixpoint getRESTConfig (ticks : nat) : act unit :=
  r ← act_try (perform (KubernetesClient true EmptyString));
  match r with
  | Ok _ => mret tt
  | Err _ =>
      match ticks with
      | O => act_lift (Err ctx_Err)
      | S ticks =>
          w ← act_try (perform (After 3));
          match w with Ok _ => getRESTConfig ticks | Err _ => act_lift (Err ctx_Err) end
      end
  end.

Definition setupUpgradeController (o : CoordinatorOptions) : act unit :=
  if upgrade_Disable o then mret tt
  else
    clusterConfig ← act_wrapf "failed to retrieve cluster configuration: %w" [] util_GetClusterConfig;
    if featureUpgradesDisabled clusterConfig then mret tt
    else act_wrapf "failed to setup upgrade controller with manager: %w" [] (perform (SetupController "upgrade")).
Definition setupCSRSigningController (o : CoordinatorOptions) : act unit :=
  if csrSigning_Disable o then mret tt
  else act_wrapf "failed to setup csrsigning controller with manager: %w" [] (perform (SetupController "csrsigning")).
Definition setupDNSRebalancerController (o : CoordinatorOptions) : act unit :=
  if dnsRebalancer_Disable o then mret tt
  else act_wrapf "failed to setup DNS rebalancer controller with manager: %w" []
         (perform (SetupController "dnsrebalancer")).

Definition setupControllers (o : CoordinatorOptions) : act unit :=
  _ ← act_wrapf "failed to setup upgrade controller: %w" [] (setupUpgradeController o);
  _ ← act_wrapf "failed to setup CSR signing controller: %w" [] (setupCSRSigningController o);
  act_wrapf "failed to setup DNS rebalancer controller: %w" [] (setupDNSRebalancerController o).

(** [Run]; [ready] is an error if the context was done before the node was ready, and [scheme]
    is what [NewScheme] returns. *)
Definition Coordinator_Run (ticks : nat) (ready scheme : res unit) (s : Snap) (o : CoordinatorOptions) : act unit :=
  isWorker ← act_wrapf "failed to determine if snap is running as worker: %w" [] (act_io (IsWorker s));
  if isWorker : bool then mret tt
  else
    _ ← act_wrapf "failed to wait for Microcluster to be ready: %w" [] (act_lift ready);
    _ ← act_wrapf "failed to get Kubernetes REST config: %w" [] (getRESTConfig ticks);
    _ ← act_wrapf "failed to create scheme: %w" [] (act_lift scheme);
    _ ← act_wrapf "failed to create manager: %w" [] (perform NewManager);
    _ ← act_wrapf "failed to setup controllers: %w" [] (setupControllers o);
    act_wrapf "failed to start manager: %w" [] (perform StartManager).
End Coordinator.

(** ** hooks_preinit.go *)

Section PreInit.
Context `{OSEnv, Outside, MapCodec}.

Definition onPreInit (stateDir name : string) (bootstrap : bool) (initConfig : gmap string string) : act unit :=
  if bootstrap then mret tt
  else
    o ← act_wrapf "failed to get control plane join config, boostrap %v: %w" ["false"]
          (act_lift (MicroclusterControlPlaneJoinConfigFromMap initConfig));
    _ ← act_wrapf "failed to remove server.crt: %w" [] (act_io (os_Remove (filepath_Join [stateDir; "server.crt"])));
    _ ← act_wrapf "failed to remove server.key: %w" [] (act_io (os_Remove (filepath_Join [stateDir; "server.key"])));
    '(cert, key) ← perform (NewKeyPair stateDir "server" name (no_ExtraSANs o));
    act_wrapf "failed to update certificate %s: %w" ["server"] (perform (UpdateServerCertificate cert key)).
End PreInit.

(** ** hooks_start.go *)

Inductive controller :=
| NodeConfig | NodeLabel | ControlPlaneConfig | UpdateNodeConfig | FeatureController | Coordinator | ServiceArgs.
#[export] Instance controller_eq_dec : EqDecision controller.
Proof. solve_decision. Defined.

(** All wait for the node to be ready before they do anything, but this one. *)
Definition waits (c : controller) : bool := match c with ServiceArgs => false | _ => true end.

(** The statements of [onStart]. *)
Inductive statement := EnsureServices | MarkReady | TuneSystem | StartGo (c : controller) | NotifyAll.
#[export] Instance statement_eq_dec : EqDecision statement.
Proof. solve_decision. Defined.

Definition has {A} (o : option A) : bool := match o with Some _ => true | None => false end.
Definition start_if (b : bool) (c : controller) : list statement := if b then [StartGo c] else [].

Definition onStart_program (strict : bool) (ctl : Controllers) : list statement :=
  [EnsureServices; MarkReady] ++ (if strict then [] else [TuneSystem]) ++
  start_if (has (nodeConfigController ctl)) NodeConfig ++
  start_if (nodeLabelController ctl) NodeLabel ++
  start_if (controlPlaneConfigController ctl) ControlPlaneConfig ++
  start_if (updateNodeConfigController ctl) UpdateNodeConfig ++
  start_if (has (featureController ctl)) FeatureController ++
  [StartGo Coordinator; NotifyAll] ++
  start_if (has (serviceArgsController ctl)) ServiceArgs.

(** Where [markNodeReady] is. *)
Inductive marker := NotStarted | WaitingDatabase | WaitingEndpoint | RunningHook | Marked | NotMarked.

(** The daemon: the rest of [onStart]; whether [readyWg] is released; the controllers that were
    started, and whether each is past its wait; whether the loops of the feature controller
    run, with their channels; the channel of the controller that updates the node
    configuration. *)
Record daemon := mkDaemon {
  d_machine : Machine; d_start : list statement; d_marker : marker; d_ready : bool;
  d_controllers : list (controller * bool); d_looping : bool; d_loops : FeatureName → Loop; d_update : chan }.

Inductive d_event :=
| Executed (st : statement) | StartFailed | DatabaseOpened | DatabaseClosed | EndpointsFound | EndpointsMissing
| HookDone | HookFailed | Passed (c : controller) | SkippedWorker (c : controller)
| Turned (f : FeatureName) | Woken (f : FeatureName) | Received (f : FeatureName) | Notified (features : list bool) | NotifiedUpdate | Acted.

#[export] Instance d_event_eq_dec : EqDecision d_event.
Proof. solve_decision. Defined.

Definition d_with_machine (m : Machine) (d : daemon) : daemon :=
  mkDaemon m (d_start d) (d_marker d) (d_ready d) (d_controllers d) (d_looping d) (d_loops d) (d_update d).
Definition d_with_start (l : list statement) (d : daemon) : daemon :=
  mkDaemon (d_machine d) l (d_marker d) (d_ready d) (d_controllers d) (d_looping d) (d_loops d) (d_update d).
Definition d_with_marker (x : marker) (d : daemon) : daemon :=
  mkDaemon (d_machine d) (d_start d) x (d_ready d) (d_controllers d) (d_looping d) (d_loops d) (d_update d).
Definition d_with_controllers (l : list (controller * bool)) (d : daemon) : daemon :=
  mkDaemon (d_machine d) (d_start d) (d_marker d) (d_ready d) l (d_looping d) (d_loops d) (d_update d).
Definition d_with_loops (loops : FeatureName → Loop) (d : daemon) : daemon :=
  mkDaemon (d_machine d) (d_start d) (d_marker d) (d_ready d) (d_controllers d) (d_looping d) loops (d_update d).
Definition d_with_update (u : chan) (d : daemon) : daemon :=
  mkDaemon (d_machine d) (d_start d) (d_marker d) (d_ready d) (d_controllers d) (d_looping d) (d_loops d) u.
Definition d_with_ready (d : daemon) : daemon :=
  mkDaemon (d_machine d) (d_start d) (d_marker d) true (d_controllers d) (d_looping d) (d_loops d) (d_update d).
Definition d_with_looping (d : daemon) : daemon :=
  mkDaemon (d_machine d) (d_start d) (d_marker d) (d_ready d) (d_controllers d) true (d_loops d) (d_update d).

Definition set_trigger (ch : chan) (l : Loop) : Loop :=
  mkLoop (lp_attempts l) ch (lp_reconciled l) (lp_timers l) (lp_log l).
Definition notify_loops (features : list bool) (loops : FeatureName → Loop) (f : FeatureName) : Loop :=
  set_trigger (NotifyFeatureController features (λ g, lp_trigger (loops g)) f) (loops f).
Definition set_loop (f : FeatureName) (l : Loop) (loops : FeatureName → Loop) (g : FeatureName) : Loop :=
  if decide (g = f) then l else loops g.

(** The result of [exec_statement] is what [onStart] goes on with, or its error. *)
Section Start.
Context `{OSEnv, Outside, SnapdEnv, DBEnv, Externals}.
Context (order : list string → list string) (host : Host) (a : App) (st : MState).

Definition exec_statement (x : statement) (d : daemon) : res daemon * Machine :=
  match x with
  | EnsureServices =>
      let '(r, m) := act_wrapf "failed to ensure running services: %w" [] (ensureRunningServices a) (d_machine d) in
      ((λ _, d_with_machine m d) <$> r, m)
  | MarkReady => (Ok (d_with_marker WaitingDatabase d), d_machine d)
  | TuneSystem => let m := (act_logged (tuneSystemSettings host a) (d_machine d)).2 in (Ok (d_with_machine m d), m)
  | StartGo c => (Ok (d_with_controllers (d_controllers d ++ [(c, negb (waits c))]) d), d_machine d)
  | NotifyAll => (Ok (d_with_loops (notify_loops (replicate 7 true) (d_loops d)) d), d_machine d)
  end.

(** The second check of [markNodeReady], which never returns an error. *)
Definition endpoints_available : act bool :=
  client ← act_try (perform (KubernetesClient false EmptyString));
  match client with
  | Err _ => mret false
  | Ok _ => r ← act_try GetKubeAPIServerEndpoints; mret (is_ok r)
  end.

Inductive daemon_step : daemon → d_event → daemon → Prop :=
(** [onStart] *)
| DExec d x rest d' m : d_start d = x :: rest → exec_statement x d = (Ok d', m) →
    daemon_step d (Executed x) (d_with_start rest d')
| DExecFailed d x rest e m : d_start d = x :: rest → exec_statement x d = (Err e, m) →
    daemon_step d StartFailed (d_with_start [] (d_with_machine m d))
(** [markNodeReady] *)
| DDatabase d m : d_marker d = WaitingDatabase → perform DatabaseIsOpen (d_machine d) = (Ok tt, m) →
    daemon_step d DatabaseOpened (d_with_marker WaitingEndpoint (d_with_machine m d))
| DDatabaseClosed d e m : d_marker d = WaitingDatabase → perform DatabaseIsOpen (d_machine d) = (Err e, m) →
    daemon_step d DatabaseClosed (d_with_machine m d)
| DEndpoint d m : d_marker d = WaitingEndpoint → endpoints_available (d_machine d) = (Ok true, m) →
    daemon_step d EndpointsFound (d_with_marker RunningHook (d_with_machine m d))
| DNoEndpoint d m : d_marker d = WaitingEndpoint → endpoints_available (d_machine d) = (Ok false, m) →
    daemon_step d EndpointsMissing (d_with_machine m d)
| DHook d b m : d_marker d = RunningHook → onNodeReady order host a st (d_machine d) = (Ok b, m) →
    daemon_step d HookDone
      (d_with_ready (d_with_marker Marked (d_with_update (d_update d || b) (d_with_machine m d))))
| DHookFailed d b e m : d_marker d = RunningHook → onNodeReady order host a st (d_machine d) = (Err e, m) →
    daemon_step d HookFailed (d_with_marker NotMarked (d_with_update (d_update d || b) (d_with_machine m d)))
(** the controllers *)
| DPass d l1 c l2 : d_controllers d = l1 ++ (c, false) :: l2 → d_ready d = true →
    daemon_step d (Passed c)
      (let d' := d_with_controllers (l1 ++ (c, true) :: l2) d in
       if decide (c = FeatureController) then d_with_looping d' else d')
| DWorker d l1 c l2 m : d_controllers d = l1 ++ (c, false) :: l2 → c = FeatureController ∨ c = Coordinator →
    act_io (IsWorker a) (d_machine d) = (Ok true, m) →
    daemon_step d (SkippedWorker c) (d_with_controllers (l1 ++ l2) (d_with_machine m d))
(** the loops of the feature controller *)
| DTurn d f maxAttempts t l : d_looping d = true → lp_trigger (d_loops d f) = true → Int64N_ok (tn_rand t) →
    reconcileLoop_turn maxAttempts t (d_loops d f) = Some l →
    daemon_step d (Turned f) (d_with_loops (set_loop f l (d_loops d)) d)
| DWoken d f ts1 delay ts2 : d_looping d = true → lp_timers (d_loops d f) = ts1 ++ delay :: ts2 →
    daemon_step d (Woken f)
      (d_with_loops (set_loop f (mkLoop (lp_attempts (d_loops d f)) (MaybeNotify (lp_trigger (d_loops d f)))
         (lp_reconciled (d_loops d f)) (ts1 ++ ts2) (lp_log (d_loops d f))) (d_loops d)) d)
| DReceived d f : lp_reconciled (d_loops d f) = true →
    daemon_step d (Received f)
      (d_with_loops (set_loop f (mkLoop (lp_attempts (d_loops d f)) (lp_trigger (d_loops d f)) false
         (lp_timers (d_loops d f)) (lp_log (d_loops d f))) (d_loops d)) d)
(** the API and the other controllers *)
| DNotified d features : daemon_step d (Notified features) (d_with_loops (notify_loops features (d_loops d)) d)
| DNotifiedUpdate d : daemon_step d NotifiedUpdate (d_with_update (MaybeNotify (d_update d)) d)
| DActed d m : later (d_machine d) m → daemon_step d Acted (d_with_machine m d).

Inductive daemon_run : daemon → list d_event → daemon → Prop :=
| DRunNil d : daemon_run d [] d
| DRunSnoc d l d1 e d2 : daemon_run d l d1 → daemon_step d1 e d2 → daemon_run d (l ++ [e]) d2.

(** The daemon as [New] made it, when microcluster calls [onStart]. *)
Definition initial_daemon (ctl : Controllers) (m : Machine) : daemon :=
  mkDaemon m (onStart_program (Strict a) ctl) NotStarted false [] false (λ _, initial_loop) false.
End Start.
End AppRun.
