(* ===== verification/AppFacts.v ===== *)
(** * What the application promises

    App.v, for every interleaving of [onStart], of [markNodeReady], of the controllers and of
    notifications: no controller but that of the service arguments does anything before the
    database is open, the API server has told its endpoints, and the hook of a ready node has
    succeeded; no notification is lost, also one that comes before the controller listens;
    what is started is what the configuration does not disable.  And the coordinator sets up
    exactly the controllers that are enabled before it starts its manager. *)

From S2P Require Import Prelude GoStrings GoNet Cidr Config ConfigConvert FileSys Pki PkiNode Arguments.
From S2P Require Import ConfigFiles Node Database Feature Upgrade Effects Snap Checks SnapdConfig.
From S2P Require Import NodeSetup Cleanup KubeClient Hooks HooksBootstrap ApiCluster App.
Import GoStr GoNet Cidr Config Convert FileSys Pki PkiNode Arguments ConfigFiles Node Database Feature Effects Snap Checks
  SnapdConfig NodeSetup Cleanup KubeClient Hooks Bootstrap ApiCluster AppRun.

Module AppFacts.

Section Start.
Context `{OSEnv, Outside, SnapdEnv, DBEnv, Externals}.
Context (order : list string → list string) (host : Host) (a : App) (st : MState).

Abbreviation step := (daemon_step order host a st).
Abbreviation drun := (daemon_run order host a st).

(** ** The wait for a ready node *)

(** What has happened when [markNodeReady] is at [x]. *)
Definition stage (x : marker) (l : list d_event) : Prop :=
  match x with
  | NotStarted | WaitingDatabase => True
  | WaitingEndpoint => DatabaseOpened ∈ l
  | RunningHook => ∃ l1 l2, l = l1 ++ EndpointsFound :: l2 ∧ DatabaseOpened ∈ l1
  | Marked => ∃ l1 l2 l3, l = l1 ++ EndpointsFound :: l2 ++ HookDone :: l3 ∧ DatabaseOpened ∈ l1 ∧ HookDone ∉ l1 ++ l2 ++ l3
  | NotMarked => HookFailed ∈ l
  end.

Record ready_inv (l : list d_event) (d : daemon) : Prop := {
  ri_stage : stage (d_marker d) l;
  ri_ready : d_ready d = true ↔ d_marker d = Marked;
  ri_once : HookDone ∈ l → d_marker d = Marked;
  ri_failed : HookFailed ∈ l → d_marker d = NotMarked;
  ri_nodup : NoDup (d_start d);
  ri_start : MarkReady ∈ d_start d → d_marker d = NotStarted;
  ri_loops : d_looping d = true → d_ready d = true }.

Lemma stage_later x l e : stage x l → e ≠ HookDone → stage x (l ++ [e]).
Proof.
  destruct x; cbn; try done.
  - intros Hs _. apply elem_of_app. by left.
  - intros (l1 & l2 & -> & Hd) _. exists l1, (l2 ++ [e]). by rewrite <- app_assoc.
  - intros (l1 & l2 & l3 & -> & Hd & Hn) He. exists l1, l2, (l3 ++ [e]).
    rewrite <- !app_assoc, <- app_comm_cons, <- app_assoc. split_and!; [done|done|].
    rewrite !elem_of_app, list_elem_of_singleton in *. naive_solver.
  - intros Hs _. apply elem_of_app. by left.
Qed.

Lemma elem_of_snoc {A} (x e : A) l : x ∈ l ++ [e] → e ≠ x → x ∈ l.
Proof. rewrite elem_of_app, list_elem_of_singleton. naive_solver. Qed.

(** A step that does not concern [markNodeReady]. *)
Lemma ready_quiet l d e d' : ready_inv l d → d_marker d' = d_marker d → d_ready d' = d_ready d →
  (d_looping d' = true → d_looping d = true ∨ d_ready d = true) →
  (∃ before, d_start d = before ++ d_start d') → e ≠ HookDone → e ≠ HookFailed → ready_inv (l ++ [e]) d'.
Proof.
  intros [Hs Hr Ho Hf Hn Hst Hlo] Em Er Elo [x Es] He1 He2. rewrite Es in *. apply NoDup_app in Hn as (_ & _ & Hn).
  split; rewrite ?Em, ?Er; try done.
  - by apply stage_later.
  - intros ?%elem_of_snoc; auto.
  - intros ?%elem_of_snoc; auto.
  - intros ?. apply Hst, elem_of_app. by right.
  - intros [?|?]%Elo; [by apply Hlo|done].
Qed.

(** A step of [markNodeReady] that is not its last. *)
Lemma ready_stage l d e d' : ready_inv l d → d_ready d' = d_ready d → d_looping d' = d_looping d → d_start d' = d_start d →
  d_marker d = WaitingDatabase ∨ d_marker d = WaitingEndpoint ∨ d_marker d = RunningHook →
  d_marker d' ≠ Marked → e ≠ HookDone → (e = HookFailed → d_marker d' = NotMarked) →
  stage (d_marker d') (l ++ [e]) → ready_inv (l ++ [e]) d'.
Proof.
  intros [Hs Hr Ho Hf Hn Hst Hlo] Er Elo Es Hm Hm' He1 He2 Hstage.
  assert (Hd : d_marker d ≠ Marked ∧ d_marker d ≠ NotMarked ∧ d_marker d ≠ NotStarted) by (destruct Hm as [-> |[-> | ->]]; done).
  destruct Hd as (Hd1 & Hd2 & Hd3). split; rewrite ?Er, ?Elo, ?Es; try done.
  - split; [|done]. by intros ?%Hr.
  - intros ?%elem_of_snoc%Ho; done.
  - rewrite elem_of_app, list_elem_of_singleton. intros [?%Hf|?]; [done|auto].
  - by intros ?%Hst.
Qed.

Lemma exec_statement_Ok x d d' m : exec_statement host a x d = (Ok d', m) →
  d_start d' = d_start d ∧ d_ready d' = d_ready d ∧ d_looping d' = d_looping d ∧
  d_marker d' = (if decide (x = MarkReady) then WaitingDatabase else d_marker d) ∧
  d_controllers d' = d_controllers d ++ match x with StartGo c => [(c, negb (waits c))] | _ => [] end ∧
  d_loops d' = match x with NotifyAll => notify_loops (replicate 7 true) (d_loops d) | _ => d_loops d end.
Proof.
  destruct x; cbn.
  - unfold act_wrapf. destruct (ensureRunningServices a (d_machine d)) as [[u|e] m']; [|done]. intros [= <- _]. cbn.
    by rewrite app_nil_r.
  - intros [= <- _]. cbn. by rewrite app_nil_r.
  - intros [= <- _]. cbn. by rewrite app_nil_r.
  - by intros [= <- _].
  - intros [= <- _]. cbn. by rewrite app_nil_r.
Qed.

Lemma ready_exec l d x rest d' m : ready_inv l d → d_start d = x :: rest → exec_statement host a x d = (Ok d', m) →
  ready_inv (l ++ [Executed x]) (d_with_start rest d').
Proof.
  intros Hinv Es (E1 & E2 & E3 & E4 & _)%exec_statement_Ok. destruct (decide (x = MarkReady)) as [->|Hne].
  - destruct Hinv as [Hs Hr Ho Hf Hn Hst Hlo]. rewrite Es in *. apply NoDup_cons in Hn as [Hnot Hn].
    specialize (Hst ltac:(by left)).
    split; cbn; rewrite ?E2, ?E3, ?E4; try done.
    + split; [|done]. intros ?%Hr. congruence.
    + intros Hin%elem_of_snoc%Ho; congruence.
    + intros Hin%elem_of_snoc%Hf; congruence.
  - eapply ready_quiet; [exact Hinv| | | | |done|done]; cbn; rewrite ?E2, ?E3, ?E4, ?decide_False by done; auto. by exists [x].
Qed.

Lemma ready_marked l d u m : ready_inv l d → d_marker d = RunningHook →
  ready_inv (l ++ [HookDone]) (d_with_ready (d_with_marker Marked (d_with_update u (d_with_machine m d)))).
Proof.
  intros [Hs Hr Ho Hf Hn Hst Hlo] Em. rewrite Em in *. destruct Hs as (l1 & l2 & -> & Hd). split; cbn; try done.
  - exists l1, l2, []. rewrite <- app_assoc. split_and!; [done|done|]. rewrite app_nil_r. intros Hin.
    enough (HookDone ∈ l1 ++ EndpointsFound :: l2) as Hx by (by apply Ho in Hx).
    apply elem_of_app. apply elem_of_app in Hin as [?|?]; [by left|right; by right].
  - intros Hin%elem_of_snoc%Hf; [congruence|done].
  - by intros ?%Hst.
Qed.

Lemma step_ready l d e d' : ready_inv l d → step d e d' → ready_inv (l ++ [e]) d'.
Proof.
  intros Hinv Hstep. inversion Hstep; subst; try (by eapply ready_exec);
    try (eapply ready_quiet; [exact Hinv|done|done|by auto|by exists []|done|done]).
  - eapply ready_quiet; [exact Hinv|done|done|by auto| |done|done]. exists (d_start d). by rewrite app_nil_r.
  - eapply ready_stage; [exact Hinv|done|done|done|by auto|done|done|done|]. cbn. apply elem_of_app. right. by left.
  - eapply ready_stage; [exact Hinv|done|done|done|by auto|done|done|done|]. cbn. destruct Hinv as [Hs _ _ _ _ _ _].
    match goal with E : d_marker d = _ |- _ => rewrite E in Hs end. by exists l, [].
  - by apply ready_marked.
  - eapply ready_stage; [exact Hinv|done|done|done|by auto|done|done|done|]. cbn. apply elem_of_app. right. by left.
  - eapply ready_quiet; [exact Hinv| | | |exists []|done|done]; destruct (decide (c = FeatureController)); cbn; auto.
Qed.

Lemma run_ready ctl m l d : drun (initial_daemon a ctl m) l d → ready_inv l d.
Proof.
  intros R. remember (initial_daemon a ctl m) as d0. induction R as [|d0 l d1 e d2 R IH E]; subst.
  - split; cbn; try done; try (by intros ?%not_elem_of_nil).
    unfold start_if. repeat case_match; apply (bool_decide_unpack _); vm_compute; exact I.
  - eapply step_ready; [by apply IH|exact E].
Qed.

(** A controller that is past its wait. *)
Definition working (d : daemon) : Prop :=
  (∃ c, c ≠ ServiceArgs ∧ (c, true) ∈ d_controllers d) ∨ d_looping d = true.

Lemma step_waiting d e d' : step d e d' → (∀ c, (c, true) ∈ d_controllers d → c = ServiceArgs ∨ d_ready d = true) →
  ∀ c, (c, true) ∈ d_controllers d' → c = ServiceArgs ∨ d_ready d' = true.
Proof.
  intros Hstep Hc c Hin. inversion Hstep; subst; cbn in *; try (by apply Hc); try (by right).
  - match goal with E : exec_statement _ _ _ _ = _ |- _ => apply exec_statement_Ok in E as (_ & E2 & _ & _ & E5 & _) end.
    rewrite E2. rewrite E5 in Hin. apply elem_of_app in Hin as [Hin|Hin]; [by apply Hc|].
    destruct x; try (by apply not_elem_of_nil in Hin). apply list_elem_of_singleton in Hin as [= <- Hw].
    left. by destruct c.
  - destruct (decide _); cbn; by right.
  - match goal with E : d_controllers d = _ |- _ => rewrite E in Hc end. apply Hc.
    rewrite elem_of_app, elem_of_cons in *. destruct Hin; auto.
Qed.

Lemma run_waiting ctl m l d : drun (initial_daemon a ctl m) l d →
  ∀ c, (c, true) ∈ d_controllers d → c = ServiceArgs ∨ d_ready d = true.
Proof.
  intros R. remember (initial_daemon a ctl m) as d0. induction R as [|d0 l d1 e d2 R IH E]; subst.
  - by intros c ?%not_elem_of_nil.
  - eapply step_waiting; [exact E|]. by apply IH.
Qed.


(** ** Notifications *)

Definition wakes (f : FeatureName) (e : d_event) : bool :=
  match e with
  | Executed NotifyAll => true
  | Notified features => default false (features !! feature_position f)
  | Woken g => bool_decide (g = f)
  | _ => false
  end.
Definition turns (f : FeatureName) (e : d_event) : bool := match e with Turned g => bool_decide (g = f) | _ => false end.

Definition pending (f : FeatureName) (l : list d_event) : bool :=
  fold_left (λ b e, if wakes f e then true else if turns f e then false else b) l false.
Lemma pending_snoc f l e : pending f (l ++ [e]) = if wakes f e then true else if turns f e then false else pending f l.
Proof. unfold pending. by rewrite fold_left_app. Qed.

Lemma pending_iff f l : pending f l = true ↔ ∃ l1 e l2, l = l1 ++ e :: l2 ∧ wakes f e = true ∧ Turned f ∉ l2.
Proof.
  induction l as [|e l IH] using rev_ind; [split; [done|]; by intros ([|??] & ? & ? & [=] & _)|].
  rewrite pending_snoc. destruct (wakes f e) eqn:Hw.
  { split; [|done]. intros _. exists l, e, []. split_and!; [done|done|apply not_elem_of_nil]. }
  assert (Hsplit : (∃ l1 e0 l2, l ++ [e] = l1 ++ e0 :: l2 ∧ wakes f e0 = true ∧ Turned f ∉ l2) ↔
    e ≠ Turned f ∧ ∃ l1 e0 l2, l = l1 ++ e0 :: l2 ∧ wakes f e0 = true ∧ Turned f ∉ l2).
  { split.
    - intros (l1 & e0 & l2 & E & Hw0 & Ht). destruct l2 as [|x l2 _] using rev_ind.
      + apply app_inj_tail in E as [_ ->]. congruence.
      + rewrite app_comm_cons, app_assoc in E. apply app_inj_tail in E as [-> ->].
        rewrite elem_of_app, list_elem_of_singleton in Ht. split; [intros ->; apply Ht; by right|]. exists l1, e0, l2.
        split_and!; [done|done|]. intros ?. apply Ht. by left.
    - intros (He & l1 & e0 & l2 & -> & Hw0 & Ht). exists l1, e0, (l2 ++ [e]). rewrite <- app_assoc. split_and!; [done|done|].
      rewrite elem_of_app, list_elem_of_singleton. intros [?|Hx]; [done|by symmetry in Hx]. }
  rewrite Hsplit, <- IH. unfold turns. destruct e; try (split; [intros ?; split; [discriminate|done]|by intros [_ ?]]).
  case_bool_decide as Hg; [subst; split; [done|by intros []]|].
  split; [intros ?; split; [by intros [= ->]|done]|by intros [_ ?]].
Qed.

Lemma turn_trigger maxAttempts t l l' : reconcileLoop_turn maxAttempts t l = Some l' → lp_trigger l' = false.
Proof.
  unfold reconcileLoop_turn. destruct (isBlocked t) as [[]|]; try (by intros [= <-]).
  destruct (reconcile t) as [applied [u|e]]; [by intros [= <-]|].
  destruct ((maxAttempts <=? _) && _)%Z; [by intros [= <-]|].
  destruct (ExponentialBackoff _ _ _ _); cbn; [by intros [= <-]|done].
Qed.

Lemma step_trigger l d e d' f : lp_trigger (d_loops d f) = pending f l → step d e d' →
  lp_trigger (d_loops d' f) = pending f (l ++ [e]).
Proof.
  intros Hp Hstep. rewrite pending_snoc. inversion Hstep; subst; cbn; try done.
  - match goal with E : exec_statement _ _ _ _ = _ |- _ => apply exec_statement_Ok in E as (_ & _ & _ & _ & _ & ->) end.
    destruct x; try done. by destruct f.
  - by destruct (decide (c = FeatureController)).
  - match goal with E : reconcileLoop_turn _ _ _ = _ |- _ => apply turn_trigger in E as Ht end.
    unfold set_loop. case_bool_decide as Hg; [subst; by rewrite decide_True|by rewrite decide_False by congruence].
  - unfold set_loop. case_bool_decide as Hg; [subst; by rewrite decide_True|by rewrite decide_False by congruence].
  - unfold set_loop. destruct (decide (f = f0)) as [->|]; done.
  - unfold NotifyFeatureController. by destruct (default false _).
Qed.

(** C39: No notification is lost, also one that comes before the controller has started or while it
    waits for the node, and none is made up: the loop of a feature has a trigger to take
    exactly if the feature was notified, by [onStart], by the API or by a timer, and the
    loop has taken no turn since. *)
Theorem no_notification_lost ctl m l d f : drun (initial_daemon a ctl m) l d →
  lp_trigger (d_loops d f) = true ↔ ∃ l1 e l2, l = l1 ++ e :: l2 ∧ wakes f e = true ∧ Turned f ∉ l2.
Proof.
  intros R. rewrite <- pending_iff. enough (lp_trigger (d_loops d f) = pending f l) as -> by done.
  remember (initial_daemon a ctl m) as d0. induction R as [|d0 l d1 e d2 R IH E]; subst; [done|].
  eapply step_trigger; [by apply IH|exact E].
Qed.

(** ** What is started *)

Definition executed (e : d_event) : option statement := match e with Executed x => Some x | _ => None end.

Record start_inv (prog : list statement) (l : list d_event) (d : daemon) : Prop := {
  si_fine : StartFailed ∉ l → omap executed l ++ d_start d = prog;
  si_failed : StartFailed ∈ l → omap executed l = [] ∧ d_start d = [] ∧ d_controllers d = [];
  si_none : omap executed l = [] → d_controllers d = [] }.

Lemma start_quiet prog l d e d' : start_inv prog l d → executed e = None → e ≠ StartFailed → d_start d' = d_start d →
  (d_controllers d = [] → d_controllers d' = []) → start_inv prog (l ++ [e]) d'.
Proof.
  intros [Hs Hf Hn] He1 He2 Es Hc. split; rewrite omap_app; cbn; rewrite He1, app_nil_r, ?Es.
  - intros Hl. apply Hs. intros ?. apply Hl, elem_of_app. by left.
  - intros (? & ? & ?)%elem_of_snoc%Hf; auto.
  - auto.
Qed.

Lemma app_cons_nil {A} (l1 l2 : list A) x : l1 ++ x :: l2 = [] → False.
Proof. by destruct l1. Qed.

Lemma step_start prog l d e d' : (∀ x rest, prog = x :: rest → x = EnsureServices ∧ EnsureServices ∉ rest) → start_inv prog l d →
  step d e d' → start_inv prog (l ++ [e]) d'.
Proof.
  intros Hprog Hinv Hstep. inversion Hstep; subst; try (eapply start_quiet; [exact Hinv|done|done|done|done]);
    try (eapply start_quiet; [exact Hinv|done|done|done|]; cbn;
         match goal with E : d_controllers d = _ |- _ => rewrite E; by intros ?%app_cons_nil end).
  - match goal with E : exec_statement _ _ _ _ = _ |- _ => apply exec_statement_Ok in E as (Es & _ & _ & _ & Ec & _) end.
    destruct Hinv as [Hs Hf Hn]. split; rewrite omap_app; cbn.
    + intros Hl. rewrite <- app_assoc. cbn. rewrite <- Hs; [by f_equal|]. intros ?. apply Hl, elem_of_app. by left.
    + intros (_ & Hx & _)%elem_of_snoc%Hf; congruence.
    + intros ?%app_cons_nil; done.
  - destruct Hinv as [Hs Hf Hn].
    assert (Hl : StartFailed ∉ l) by (intros (_ & Hx & _)%Hf; congruence). specialize (Hs Hl).
    assert (Hx : omap executed l = []).
    { destruct (omap executed l) as [|y q] eqn:Eq; [done|].
      match goal with E : d_start d = x :: rest |- _ => rewrite E in Hs end.
      destruct (Hprog y (q ++ x :: rest) (eq_sym Hs)) as [-> Hnot].
      assert (x ≠ EnsureServices) by (intros ->; apply Hnot, elem_of_app; right; by left). by destruct x. }
    split; rewrite omap_app, Hx; cbn; [|by auto|by auto].
    intros Hno. destruct Hno. apply elem_of_app. right. by left.
  - eapply start_quiet; [exact Hinv|done|done|by destruct (decide (c = FeatureController))|].
    match goal with E : d_controllers d = _ |- _ => rewrite E; by intros ?%app_cons_nil end.
Qed.

Lemma run_start ctl m l d : drun (initial_daemon a ctl m) l d → start_inv (onStart_program (Strict a) ctl) l d.
Proof.
  intros R. remember (initial_daemon a ctl m) as d0. induction R as [|d0 l d1 e d2 R IH E]; subst.
  - split; [done|by intros ?%not_elem_of_nil|done].
  - eapply step_start; [|by apply IH|exact E]. intros x rest [= <- <-]. split; [done|].
    unfold start_if. repeat case_match; apply (bool_decide_unpack _); vm_compute; exact I.
Qed.

(** The controllers that a configuration asks for; the coordinator always runs. *)
Definition enabled (cfg : AppRun.Config) (c : controller) : bool :=
  match c with
  | NodeConfig => negb (DisableNodeConfigController cfg)
  | NodeLabel => negb (DisableNodeLabelController cfg)
  | ControlPlaneConfig => negb (DisableControlPlaneConfigController cfg)
  | UpdateNodeConfig => negb (DisableUpdateNodeConfigController cfg)
  | FeatureController => negb (DisableFeatureController cfg)
  | Coordinator => true
  | ServiceArgs => negb (DisableServiceArgsController cfg)
  end.

Lemma New_program app client s cfg dir ctl strict c : New app client s cfg = Ok (dir, ctl) →
  StartGo c ∈ onStart_program strict ctl ↔ enabled cfg c = true.
Proof.
  intros (? & _ & (? & _ & [= _ <-])%bind_Ok)%bind_Ok. unfold onStart_program, start_if, unless. cbn.
  destruct cfg as [? ? b1 ? b2 b3 b4 b5 b6 b7 b8 ? ? b9 ?]. cbn.
  rewrite <- (bool_decide_eq_true (StartGo c ∈ _)).
  match goal with |- ?p = true ↔ ?q = true => enough (p = q) as -> by done end.
  destruct c, b1, b2, b3, b4, b5, b9, strict; vm_compute; reflexivity.
Qed.

(** [onStart] starts the controllers that the configuration of [New] does not disable, all of them or
    none: if it fails, which is when the services cannot be started, nothing was started
    and there is no controller; if it comes to its end, the controllers it has started are
    exactly the ones that are enabled. *)
Theorem onStart_all_or_nothing app client s cfg dir ctl m l d :
  New app client s cfg = Ok (dir, ctl) → drun (initial_daemon a ctl m) l d → d_start d = [] →
  if decide (StartFailed ∈ l) then d_controllers d = [] ∧ ∀ x, Executed x ∉ l
  else ∀ c, Executed (StartGo c) ∈ l ↔ enabled cfg c = true.
Proof.
  intros Hnew R Hend. destruct (run_start _ _ _ _ R) as [Hs Hf _]. destruct (decide (StartFailed ∈ l)) as [Hin|Hnot].
  - destruct (Hf Hin) as (Hx & _ & Hc). split; [done|]. intros x Hx'.
    assert (Hin' : x ∈ omap executed l) by (apply list_elem_of_omap; by exists (Executed x)). rewrite Hx in Hin'.
    by apply not_elem_of_nil in Hin'.
  - intros c. rewrite <- (New_program _ _ _ _ _ _ (Strict a) c Hnew), <- (Hs Hnot), Hend, app_nil_r, list_elem_of_omap. split.
    + intros Hc. by exists (Executed (StartGo c)).
    + intros (e & He & Hx). destruct e; try done. by injection Hx as ->.
Qed.

(** *** Steps that are executed, by their event; the others as they are needed. *)

Definition passing (c : controller) (l : list (controller * bool)) : option (list (controller * bool) * list (controller * bool)) :=
  match list_find (λ x, x = (c, false)) l with Some (i, _) => Some (firstn i l, skipn (S i) l) | None => None end.

Definition d_exec (d : daemon) (e : d_event) : option daemon :=
  match e with
  | Executed x =>
      match d_start d with
      | y :: rest =>
          if decide (y = x) then match exec_statement host a y d with (Ok d', _) => Some (d_with_start rest d') | _ => None end
          else None
      | [] => None
      end
  | DatabaseOpened =>
      match d_marker d, perform DatabaseIsOpen (d_machine d) with
      | WaitingDatabase, (Ok tt, m) => Some (d_with_marker WaitingEndpoint (d_with_machine m d))
      | _, _ => None
      end
  | EndpointsFound =>
      match d_marker d, endpoints_available (d_machine d) with
      | WaitingEndpoint, (Ok true, m) => Some (d_with_marker RunningHook (d_with_machine m d))
      | _, _ => None
      end
  | HookDone =>
      match d_marker d, onNodeReady order host a st (d_machine d) with
      | RunningHook, (Ok b, m) =>
          Some (d_with_ready (d_with_marker Marked (d_with_update (d_update d || b) (d_with_machine m d))))
      | _, _ => None
      end
  | Passed c =>
      match passing c (d_controllers d), d_ready d with
      | Some (l1, l2), true =>
          let d' := d_with_controllers (l1 ++ (c, true) :: l2) d in
          Some (if decide (c = FeatureController) then d_with_looping d' else d')
      | _, _ => None
      end
  | Notified features => Some (d_with_loops (notify_loops features (d_loops d)) d)
  | _ => None
  end.

Lemma passing_split c l l1 l2 : passing c l = Some (l1, l2) → l = l1 ++ (c, false) :: l2.
Proof.
  unfold passing. destruct (list_find _ l) as [[i x]|] eqn:E; [|done]. intros [= <- <-].
  apply list_find_Some in E as (Hi & -> & _). by rewrite take_drop_middle.
Qed.

Lemma d_exec_step d e d' : d_exec d e = Some d' → step d e d'.
Proof.
  destruct e; cbn; try done.
  - destruct (d_start d) as [|y rest] eqn:Es; [done|]. destruct (decide (y = st0)) as [->|]; [|done].
    destruct (exec_statement host a st0 d) as [[d1|] m] eqn:E; [|done]. intros [= <-]. by eapply DExec.
  - destruct (d_marker d) eqn:?; try done. destruct (outside _ DatabaseIsOpen) as [[]|] eqn:E; [|done]. intros [= <-].
    apply DDatabase; [done|]. unfold perform. by rewrite E.
  - destruct (d_marker d) eqn:?; try done. destruct (endpoints_available _) as [[[]|] m] eqn:?; try done. intros [= <-].
    by apply DEndpoint.
  - destruct (d_marker d) eqn:?; try done. destruct (onNodeReady _ _ _ _ _) as [[b|] m] eqn:?; try done. intros [= <-].
    by apply DHook.
  - destruct (passing c _) as [[l1 l2]|] eqn:E; [|done]. destruct (d_ready d) eqn:?; [|done]. intros [= <-].
    apply DPass; [by apply passing_split|done].
  - intros [= <-]. apply DNotified.
Qed.

Definition d_exec_all (d : daemon) (l : list d_event) : option daemon := fold_left (λ o e, d ← o; d_exec d e) l (Some d).
Lemma d_exec_run d l d' : d_exec_all d l = Some d' → drun d l d'.
Proof.
  revert d'. induction l as [|e l IH] using rev_ind; unfold d_exec_all; [intros d' [= ->]; by constructor|].
  intros d'. rewrite fold_left_app. cbn. destruct (fold_left _ l _) as [d1|] eqn:E; cbn; [|done].
  intros Hx%d_exec_step. by eapply DRunSnoc; [apply IH|].
Qed.
End Start.

(** ** The coordinator *)

Section Coordinator.
Context `{OSEnv, DBEnv, Externals, Outside}.

Definition set_up (c : command) : option string := match c with SetupController name => Some name | _ => None end.
Definition is_manager (c : command) : bool := match c with NewManager | StartManager => true | _ => false end.

(** The controllers that the coordinator runs for a configuration of the cluster. *)
Definition wanted (o : CoordinatorOptions) (cfg : res ClusterConfig) : list string :=
  (if upgrade_Disable o || match cfg with Ok c => featureUpgradesDisabled c | Err _ => false end then [] else ["upgrade"]) ++
  (if csrSigning_Disable o then [] else ["csrsigning"]) ++ (if dnsRebalancer_Disable o then [] else ["dnsrebalancer"]).

(** [m] adds these commands to the log when it succeeds, and a beginning of them when it
    fails; it changes nothing else. *)
Definition issues {A} (m : act A) (s : Machine) (cs : list command) : Prop :=
  let '(r, s') := m s in
  m_world s' = m_world s ∧ m_db s' = m_db s ∧ ∃ l, m_log s' = m_log s ++ l ∧ if is_ok r then l = cs else l `prefix_of` cs.

Lemma issues_ret {A} (a : A) s : issues (mret a) s [].
Proof. split_and!; [done|done|]. exists []. by rewrite app_nil_r. Qed.
Lemma issues_perform c s : issues (perform c) s [c].
Proof. split_and!; [done|done|]. exists [c]. split; [done|]. by destruct (is_ok _). Qed.
Lemma issues_wrapf {A} fmt args (m : act A) s cs : issues m s cs → issues (act_wrapf fmt args m) s cs.
Proof. unfold issues, act_wrapf. destruct (m s) as [[x|e] s']; done. Qed.
Lemma issues_bind {A B} (m : act A) (f : A → act B) s cs cs' :
  issues m s cs → (∀ x s', m s = (Ok x, s') → m_world s' = m_world s → m_db s' = m_db s → issues (f x) s' cs') →
  issues (m ≫= f) s (cs ++ cs').
Proof.
  unfold issues, mbind, act_bind. intros Hm Hf. destruct (m s) as [[x|e] s1] eqn:E; destruct Hm as (Hw & Hd & l & Hl & Hc); cbn in Hc.
  - subst. specialize (Hf x s1 eq_refl Hw Hd). destruct (f x s1) as [r s2]. destruct Hf as (Hw' & Hd' & l' & Hl' & Hc').
    split_and!; [congruence|congruence|]. exists (cs ++ l'). rewrite Hl', Hl, <- app_assoc. split; [done|].
    destruct (is_ok r); [by subst|by apply prefix_app].
  - split_and!; [done|done|]. exists l. split; [done|]. cbn. by apply prefix_app_r.
Qed.

Lemma setupControllers_issues o s :
  issues (setupControllers o) s (SetupController <$> wanted o (GetClusterConfig (m_db s))).
Proof.
  unfold setupControllers, wanted. rewrite !fmap_app.
  apply issues_bind; [apply issues_wrapf|intros _ s1 _ _ _; apply issues_bind; [apply issues_wrapf|intros _ s2 _ _ _; apply issues_wrapf]].
  - unfold setupUpgradeController. destruct (upgrade_Disable o); cbn [orb]; [apply issues_ret|].
    match goal with |- issues (_ ≫= ?f) _ _ => set (k := f) end.
    unfold issues, mbind, act_bind, util_GetClusterConfig, act_query, act_wrapf.
    destruct (GetClusterConfig (m_db s)) as [c|e]; cbn beta iota delta [wrapf].
    2: { split_and!; [done|done|]. exists []. rewrite app_nil_r. split; [done|]. apply prefix_nil. }
    subst k. cbn beta. destruct (featureUpgradesDisabled c); [exact (issues_ret tt s)|].
    exact (issues_wrapf _ _ (perform (SetupController "upgrade")) s _ (issues_perform _ s)).
  - unfold setupCSRSigningController. destruct (csrSigning_Disable o); [apply issues_ret|]. apply issues_wrapf, issues_perform.
  - unfold setupDNSRebalancerController. destruct (dnsRebalancer_Disable o); [apply issues_ret|]. apply issues_wrapf, issues_perform.
Qed.

(** Attempts to make a client, and the waits between them. *)
Definition client_attempt (c : command) : Prop := c = KubernetesClient true EmptyString ∨ c = After 3.
Lemma getRESTConfig_emits ticks : emits client_attempt eq (getRESTConfig ticks).
Proof.
  assert (Hp : ∀ c, client_attempt c → emits client_attempt eq (perform c))
    by (intros c Hc; apply emits_perform; [typeclasses eauto|done]).
  induction ticks as [|ticks IH]; cbn [getRESTConfig];
    (apply emits_bind; [typeclasses eauto|apply emits_try, Hp; by left|intros [u|e]; [apply emits_ret, _|]]).
  - apply emits_lift, _.
  - apply emits_bind; [typeclasses eauto|apply emits_try, Hp; by right|]. intros [v|e']; [done|apply emits_lift, _].
Qed.

(** What is done once there is a client. *)
Definition managed (scheme : res unit) (o : CoordinatorOptions) : act unit :=
  _ ← act_wrapf "failed to create scheme: %w" [] (act_lift scheme);
  _ ← act_wrapf "failed to create manager: %w" [] (perform NewManager);
  _ ← act_wrapf "failed to setup controllers: %w" [] (setupControllers o);
  act_wrapf "failed to start manager: %w" [] (perform StartManager).
Definition managed_commands (o : CoordinatorOptions) (cfg : res ClusterConfig) : list command :=
  [NewManager] ++ (SetupController <$> wanted o cfg) ++ [StartManager].

Lemma managed_issues scheme o s : issues (managed scheme o) s (managed_commands o (GetClusterConfig (m_db s))).
Proof.
  unfold managed, managed_commands. rewrite <- (app_nil_l ([NewManager] ++ _)).
  apply issues_bind.
  { apply issues_wrapf. split_and!; [done|done|]. exists []. rewrite app_nil_r. split; [done|]. destruct scheme; [done|apply prefix_nil]. }
  intros _ s1 _ _ Hd1. apply issues_bind; [apply issues_wrapf, issues_perform|]. intros _ s2 _ _ Hd2.
  apply issues_bind; [|intros _ s3 _ _ _; apply issues_wrapf, issues_perform].
  apply issues_wrapf. rewrite <- Hd1, <- Hd2. apply setupControllers_issues.
Qed.

(** The coordinator does nothing on a worker; on another node it waits for the node to be ready and
    for a client of the API server, and makes a manager, sets up in this order the controllers
    that are not disabled, the one for upgrades only if the annotations of the cluster do
    not disable upgrades of features, and starts the manager at last, when all of them are set up;
    if one step fails, none after it is done. *)
Theorem Coordinator_Run_spec ticks ready scheme sn o s :
  let '(r, s') := Coordinator_Run ticks ready scheme sn o s in
  match (IsWorker sn (m_world s)).1 with
  | Err _ => is_ok r = false ∧ m_log s' = m_log s
  | Ok true => r = Ok tt ∧ m_log s' = m_log s
  | Ok false => ∃ attempts l, m_log s' = m_log s ++ attempts ++ l ∧ Forall client_attempt attempts ∧
      (attempts ≠ [] ∨ is_ok r = true → ready = Ok tt) ∧
      if is_ok r then l = managed_commands o (GetClusterConfig (m_db s))
      else l `prefix_of` managed_commands o (GetClusterConfig (m_db s))
  end.
Proof.
  destruct (Coordinator_Run ticks ready scheme sn o s) as [r s'] eqn:E. unfold Coordinator_Run in E.
  apply act_bind_inv in E as [(w & s1 & E1%act_wrapf_Ok & E)|(e & (r0 & E1 & Er)%act_wrapf_run & ->)];
    apply act_io_run in E1 as (w1 & E1 & ->); rewrite E1; cbn [fst].
  2: { destruct r0; [done|by split]. }
  destruct w; [by injection E as <- <-|].
  apply act_bind_inv in E as [([] & s2 & E2%act_wrapf_Ok & E)|(e & (r0 & E2 & Er)%act_wrapf_run & ->)].
  2: { injection E2 as <- <-. exists [], []. rewrite !app_nil_r. split_and!; [done|done|by intros [?|?]|apply prefix_nil]. }
  injection E2 as -> <-.
  apply act_bind_inv in E as [([] & s3 & E3%act_wrapf_Ok & E)|(e & (r0 & E3 & Er)%act_wrapf_run & ->)];
    destruct (getRESTConfig_emits ticks _ _ _ E3) as [(attempts & Hl & Hat) Hd]; cbn in Hl, Hd.
  2: { exists attempts, []. rewrite app_nil_r. split_and!; [done|done|done|apply prefix_nil]. }
  pose proof (managed_issues scheme o s3) as Hi. unfold issues in Hi. change (managed scheme o s3 = (r, s')) in E. rewrite E in Hi.
  destruct Hi as (_ & _ & l & Hl3 & Hc). exists attempts, l. rewrite Hl3, Hl, <- app_assoc, Hd. by split_and!.
Qed.
End Coordinator.

(** *** A daemon that was just installed *)

#[local] Instance demo_snapd_env : SnapdEnv := {|
  json_meta _ := Err (Errorf "no meta" []); json_Marshal_meta _ := Ok "{}"; json_Marshal_part _ _ := Ok "{}";
  json_Unmarshal_config _ := Err (Errorf "no configuration" []) |}.
#[local] Instance demo_fresh : Outside := λ log c,
  match c as c return res (answer c) with Effects.NodeStatus => Ok (EmptyString, false) | c => default_answer c end.
#[local] Instance demo_daemon_os : OSEnv := demo_os.
#[local] Instance demo_daemon_db : DBEnv := demo_db.
#[local] Instance demo_daemon_externals : Externals := demo_externals.

Definition demo_app : App := mkApp NodeSetup.demo_snapi Checks.demo_mk_snap.
Definition demo_host : Host := mkHost (Ok []) (Ok []) (Ok (Ok ["127.0.0.1"])) (λ _, Ok []) 0.
Definition demo_state : MState := mkMState "n1" "10.0.0.1" EmptyString.
(** Only the controllers of the features and of the labels, besides the coordinator. *)
Definition demo_config : AppRun.Config :=
  AppRun.mkConfig EmptyString EmptyString true 0 false true true false true true false 0 0 true 0.
Definition demo_controllers : Controllers :=
  mkControllers None true false None false (Some 0%Z) (mkCoordinatorOptions false true true).

Lemma demo_New : New (Ok tt) (Ok tt) demo_app demo_config = Ok (K8sdStateDir demo_app, demo_controllers).
Proof. vm_compute. reflexivity. Qed.

Definition demo_daemon : daemon := initial_daemon demo_app demo_controllers NodeSetup.demo_start.
Definition demo_started : list d_event :=
  [Executed EnsureServices; Notified [false; false; false; false; false; false; true]; Executed MarkReady] ++
  (if Strict demo_app then [] else [Executed TuneSystem]) ++
  [Executed (StartGo NodeLabel); DatabaseOpened; Executed (StartGo FeatureController);
   Executed (StartGo Coordinator); Executed NotifyAll; EndpointsFound; HookDone].

Definition demo_reached (l : list d_event) : daemon := default demo_daemon (d_exec_all (λ l, l) demo_host demo_app demo_state demo_daemon l).
Lemma demo_daemon_reaches l : is_Some (d_exec_all (λ l, l) demo_host demo_app demo_state demo_daemon l) →
  daemon_run (λ l, l) demo_host demo_app demo_state demo_daemon l (demo_reached l).
Proof. intros [d E]. unfold demo_reached. rewrite E. by apply d_exec_run. Qed.


Lemma no_notification_lost_witness : lp_trigger (d_loops (demo_reached demo_started) FDNS) = true.
Proof.
  apply (no_notification_lost (λ l, l) demo_host demo_app demo_state demo_controllers NodeSetup.demo_start demo_started
    (demo_reached demo_started) FDNS).
  - apply demo_daemon_reaches. vm_compute. eauto.
  - exists [Executed EnsureServices], (Notified [false; false; false; false; false; false; true]).
    eexists. split; [reflexivity|]. split; [reflexivity|]. apply (bool_decide_unpack _). vm_compute. exact I.
Defined.

Lemma onStart_all_or_nothing_witness : ∀ c, Executed (StartGo c) ∈ demo_started ↔ enabled demo_config c = true.
Proof.
  exact (onStart_all_or_nothing (λ l, l) demo_host demo_app demo_state (Ok tt) (Ok tt) demo_app demo_config _ demo_controllers
    NodeSetup.demo_start demo_started (demo_reached demo_started) demo_New
    ltac:(apply demo_daemon_reaches; vm_compute; eauto) ltac:(vm_compute; reflexivity)).
Defined.
End AppFacts.
