(* ===== verification/Client.v ===== *)
(** * The client of the daemon

    pkg/client/k8sd: the operations of the command line on the daemon of the node.  interface.go
    is the record [Client]; [k8sd] implements it with requests that reach the handlers of the
    API: [query] (query.go) retries while microcluster says that the database is not ready,
    and [NodeStatus] (status.go) takes one status for the answer that the node is not part of
    a cluster.

    What other components may rely on is the class [ClientOk]; ClientFacts.v proves it of
    [k8sd].

    External: the transport ([K8sdReady] and [K8sdRequest] of Effects.v), the encoding of
    requests and responses, the errors of LXD with their text, and the constants of
    microcluster ([ClientErrors]). *)

From S2P Require Import Prelude GoStrings GoNet Config ConfigConvert FileSys Pki PkiNode Arguments Setup Node.
From S2P Require Import Database Csr Effects Snap NodeSetup Token KubeClient Hooks HooksBootstrap Cleanup Api.
From S2P Require Import ApiTokens ApiCluster ApiNodes ApiCertificates.
Import GoStr GoNet Config Convert FileSys Pki PkiNode Arguments Setup Node Database Effects Snap NodeSetup Token.
Import KubeClient Hooks Bootstrap Api ApiTokens ApiCluster ApiNodes ApiCertificates.

Module Client.

(** [api.StatusErrorf], [errors.As] for it with [Status], and [Error]. *)
Class ClientErrors := {
  StatusErrorf : Z → goerr → goerr;
  StatusError_Status : goerr → option Z;
  error_String : goerr → string;
  DatabaseStarting : string }.

(** The status of an error survives what is wrapped around it. *)
Class ClientErrorsOk `{ClientErrors} : Prop := {
  Status_of_StatusErrorf code e : StatusError_Status (StatusErrorf code e) = Some code;
  Status_of_Wrapf fmt args e : StatusError_Status (Wrapf fmt args e) = StatusError_Status e }.

(** ** interface.go *)

(** The status of a node is [None] if it is not part of a cluster. *)
Record Client := mkClient {
  BootstrapCluster : BootstrapClusterRequest → act (string * string);
  GetJoinToken : GetJoinTokenRequest → act string;
  JoinCluster : JoinClusterRequest → act unit;
  RemoveNode : RemoveNodeRequest → act unit;
  NodeStatus : act (option (ApiCluster.NodeStatus * list string));
  ClusterStatus : bool → act ApiCluster.ClusterStatus;
  GetClusterConfig : act GetClusterConfigResponse;
  SetClusterConfig : SetClusterConfigRequest → act unit;
  RefreshCertificatesPlan : list string → act (Z * list string);
  RefreshCertificatesRun : RefreshRunRequest → act Z;
  RefreshCertificatesUpdate : (Field → string) → act unit;
  CertificatesStatus : act (list CertificateStatus * list AuthorityStatus);
  KubeConfig : string → act string;
  SetClusterAPIAuthToken : string → act unit }.

(** ** query.go *)

(** The code of a status. *)
Definition status_code (s : httpStatus) : Z :=
  match s with
  | BadRequest => 400 | Unauthorized => 401 | Forbidden => 403 | InternalError => 500 | Unavailable => 503
  | _ => default 500%Z (node_status_code s)
  end.

(** [WaitUntilReady] with a function that sets a variable of its caller when it is done. *)
Fixpoint WaitUntilGot {A} (ticks : nat) (checkFunc : act (option A)) : act A :=
  match ticks with
  | O => act_lift (Err ctx_Err)
  | S ticks =>
      o ← act_wrapf "wait check failed: %w" [] checkFunc;
      match o with Some a => mret a | None => WaitUntilGot ticks checkFunc end
  end.

Section Query.
Context `{OSEnv, DBEnv, Outside, Csr.CsrEnv, !ClientErrors}.
Context (ticks : nat) (host : Host) (a : App).

(** The daemon runs the access handler of the endpoint, and then its handler; the connection
    is closed when it panics. *)
Definition serve {A} (access : option AccessHandler) (h : handler A) : handler A :=
  match access with
  | Some access => _ ← run_access host a access (λ _, EmptyString); h
  | None => h
  end.
Definition answer_of {A} (r : Response A) : res A :=
  match r with
  | SyncResponse x => Ok x
  | ErrorResponse status e => Err (StatusErrorf (status_code status) e)
  | Panicked => Err (Errorf "EOF" [])
  end.
Definition answered_by {A} (h : handler A) : act A := λ m, let '(r, m) := h m in (answer_of r, m).
Definition Query {A} (method path : string) (access : option AccessHandler) (h : handler A) : act A :=
  _ ← perform (K8sdRequest method path);
  answered_by (serve access h).

Definition isTemporary (e : goerr) : bool :=
  Cleanup.contains DatabaseStarting (error_String e) || Cleanup.contains "Database is not yet ready" (error_String e).
Definition bootstrapPending (e : goerr) : bool := Cleanup.contains "Database is not yet initialized" (error_String e).

Definition query_attempt {A} (method path : string) (access : option AccessHandler) (h : handler A) : act (option A) :=
  r ← act_try (Query method path access h);
  match r with
  | Ok x => mret (Some x)
  | Err e =>
      if isTemporary e then mret None
      else if bootstrapPending e then
        act_lift (Err (Wrapf "the cluster hasn't been initialized yet.  Attempted k8sd query: %s /%s: %w" [method; path] e))
      else act_lift (Err (Wrapf "failed to %s /%s: %w" [method; path] e))
  end.
Definition query {A} (method path : string) (access : option AccessHandler) (h : handler A) : act A :=
  act_wrapf "failed after potential retry: %w" [] (WaitUntilGot ticks (query_attempt method path access h)).
End Query.

(** A request with a body; what it has of headers does not matter to these handlers. *)
Definition request {A} (x : A) : Request A := mkRequest (λ _, EmptyString) (Ok x).
(** A handler that sets the directory of containerd. *)
Definition without_snap {A} (h : Machine → Response A * snap * Machine) : handler A := λ m,
  let '(r, _, m) := h m in (r, m).

(** ** The operations of [k8sd] *)

Section K8sd.
Context `{SetupEnv, DBEnv, Externals, Outside, SnapEnv, TokenEnv, PkiEnv, !Csr.CsrEnv, !MapCodec, !RemoveAnnotations}.
Context `{!CertNames, !CertificatesEnv, !RandRead, !Sha256, !ApiErrors, !ClientErrors}.
Context (remoteAddresses : list string) (order_files : list (string * Field * bool) → list (string * Field * bool))
        (order_configs : list (string * Field * Field) → list (string * Field * Field)).
Context (ticks : nat) (host : Host) (a : App) (st : MState) (rendered : option goerr).

Abbreviation query := (query ticks host a).

(** status.go *)
Definition k8sd_NodeStatus : act (option (ApiCluster.NodeStatus * list string)) :=
  r ← act_try (query "GET" "NodeStatus" None (getNodeStatus a st));
  match r with
  | Ok response => mret (Some response)
  | Err e => if bool_decide (StatusError_Status e = Some 503%Z) then mret None else act_lift (Err e)
  end.
Definition k8sd_ClusterStatus (waitReady : bool) : act ApiCluster.ClusterStatus :=
  WaitUntilGot ticks (
    response ← query "GET" "Cluster" (Some AccessRestrictWorkers) getClusterStatus;
    mret (if negb waitReady || cs_Ready response then Some response else None)).

(** cluster.go *)
Definition ready_first {A} (m : act A) : act A := _ ← act_wrapf "k8sd is not ready: %w" [] (perform K8sdReady); m.

Definition k8sd : Client := {|
  BootstrapCluster req :=
    ready_first (query "POST" "Cluster" None (without_snap (postClusterBootstrap (app_dirs a) (request req))));
  GetJoinToken req :=
    query "POST" "GetJoinToken" (Some AccessRestrictWorkers) (postClusterJoinTokens remoteAddresses host (request req));
  JoinCluster req :=
    ready_first (query "POST" "JoinCluster" None (without_snap (postClusterJoin (app_dirs a) (request req))));
  RemoveNode req := query "POST" "RemoveNode" (Some AccessRestrictWorkers) (postClusterRemove ticks st (request req));
  NodeStatus := k8sd_NodeStatus;
  ClusterStatus := k8sd_ClusterStatus;
  GetClusterConfig := query "GET" "ClusterConfig" (Some AccessRestrictWorkers) getClusterConfig;
  SetClusterConfig req := query "PUT" "ClusterConfig" (Some AccessRestrictWorkers) (putClusterConfig (request req));
  RefreshCertificatesPlan certs := query "POST" "RefreshCerts/Plan" None (postRefreshCertsPlan a (request certs));
  RefreshCertificatesRun req :=
    query "POST" "RefreshCerts/Run" None
      (SyncManualResponseWithSignal rendered (postRefreshCertsRun order_files order_configs ticks host a st (request req)));
  RefreshCertificatesUpdate req :=
    query "POST" "RefreshCerts/Update" None
      (SyncManualResponseWithSignal rendered (postRefreshCertsUpdate order_files order_configs host a st (request req)));
  CertificatesStatus := query "GET" "CertsStatus" None (getCertificatesStatus a);
  KubeConfig server := query "GET" "Kubeconfig" (Some AccessRestrictWorkers) (getKubeconfig st (request server));
  SetClusterAPIAuthToken token := query "POST" "ClusterAPI/SetAuthToken" None (postSetClusterAPIAuthToken (request token)) |}.
End K8sd.
End Client.
