(* ===== verification/ClientFacts.v ===== *)
(** * What the client of the daemon promises

    [ClientOk] is what the command line relies on: which operations leave the database and the
    files alone, that a configuration that was accepted is stored merged and told to the
    loops it concerns, that one that was refused changes nothing, and what is read.  Here it
    is shown of [k8sd], across the retries of [query]. *)

From S2P Require Import Prelude GoStrings GoNet Config ConfigMerge ConfigConvert FileSys Pki PkiNode Arguments Setup Node.
From S2P Require Import Database Csr Effects Snap NodeSetup Token KubeClient Hooks HookFacts HooksBootstrap Api ApiTokens.
From S2P Require Import ApiCluster ApiNodes ApiCertificates ApiFacts ApiClusterFacts Client.
Import GoStr GoNet Config Merge Convert FileSys Pki PkiNode Arguments Setup Node Database Effects Snap NodeSetup Token.
Import KubeClient Hooks HookFacts Bootstrap Api ApiTokens ApiCluster ApiNodes ApiCertificates ApiFacts ApiClusterFacts Client.

Module ClientFacts.

(** The files and the database are as they were, and the log has grown. *)
Definition kept (s s' : Machine) : Prop := later s s' ∧ m_world s' = m_world s ∧ m_db s' = m_db s.
#[export] Instance kept_preorder : PreOrder kept.
Proof.
  split; [intros s; split; [reflexivity|done]|].
  intros s1 s2 s3 (L1 & W1 & D1) (L2 & W2 & D2). split; [by etrans|]. by split; congruence.
Qed.

Section Interface.
Context `{DBEnv, Externals}.

Class ClientOk (c : Client) : Prop := {
  NodeStatus_kept m r m' : Client.NodeStatus c m = (r, m') → kept m m';
  GetClusterConfig_spec m r m' : Client.GetClusterConfig c m = (r, m') → kept m m' ∧
    match r with
    | Ok response => ∃ cfg, Database.GetClusterConfig (m_db m) = Ok cfg ∧
        response = mkGetClusterConfig (ToUserFacing cfg) (Datastore_ToUserFacing (CC_Datastore cfg))
                     (Network_PodCIDR (CC_Network cfg)) (Network_ServiceCIDR (CC_Network cfg))
    | Err _ => True
    end;
  SetClusterConfig_spec req m r m' : Client.SetClusterConfig c req m = (r, m') →
    match r with
    | Ok _ => later m m' ∧ m_world m' = m_world m ∧ ∃ new old stored flags l,
        requested req = Ok new ∧ Database.GetClusterConfig (m_db m) = Ok old ∧ MergeClusterConfig old new = Ok stored ∧
        Database.SetClusterConfig new (m_db m) = Ok (stored, m_db m') ∧
        m_log m' = l ++ [NotifyNodeConfig; NotifyFeatures flags] ∧ changes_are_notified old stored flags
    | Err _ => kept m m'
    end }.
End Interface.

Lemma act_try_bind_run {A B} (m : act A) (f : res A → act B) s r s' : (act_try m ≫= f) s = (r, s') →
  ∃ r0 s1, m s = (r0, s1) ∧ f r0 s1 = (r, s').
Proof. unfold mbind, act_bind, act_try. destruct (m s) as [r0 s1]. eauto. Qed.

Section Query.
Context `{OSEnv, DBEnv, Outside, Csr.CsrEnv, !ClientErrors}.
Context (ticks : nat) (host : Host) (a : App).

Lemma perform_kept c s r s' : perform c s = (r, s') → kept s s'.
Proof. intros E. split; [by eapply perform_later|]. by injection E as _ <-. Qed.

Lemma inspects_kept {A} (h : handler A) s r s' : inspects h → h s = (r, s') → kept s s'.
Proof. intros Hh E. destruct (Hh _ _ _ E) as (W & D & _ & L). split; [|done]. exists []. by rewrite app_nil_r. Qed.

(** A handler that changes nothing when it refuses. *)
Definition refuses_cleanly {A} (h : handler A) : Prop := ∀ s r s', h s = (r, s') → succeeds r = false → kept s s'.

Lemma serve_cleanly {A} access (h : handler A) : refuses_cleanly h → refuses_cleanly (serve host a access h).
Proof.
  intros Hh s r s' E Hr. destruct access as [access|]; [|by eapply Hh]. unfold serve in E.
  apply handler_bind_inv in E as [([] & s1 & E1 & E2)|[(st & e & E1 & _)|[E1 _]]].
  - etrans; [exact (inspects_kept _ _ _ _ (inspects_access _ _ _ _) E1)|]. by eapply Hh.
  - exact (inspects_kept _ _ _ _ (inspects_access _ _ _ _) E1).
  - exact (inspects_kept _ _ _ _ (inspects_access _ _ _ _) E1).
Qed.
Lemma serve_Sync {A} access (h : handler A) s x s' : serve host a access h s = (SyncResponse x, s') →
  ∃ s1, kept s s1 ∧ h s1 = (SyncResponse x, s').
Proof.
  destruct access as [access|]; [|intros E; by exists s]. unfold serve. intros ([] & s1 & E1 & E2)%handler_bind_Sync.
  exists s1. split; [exact (inspects_kept _ _ _ _ (inspects_access _ _ _ _) E1)|done].
Qed.

(** The waits: every attempt but the last has kept everything. *)
Lemma WaitUntilGot_run {A} n (check : act (option A)) (Q : A → Machine → Machine → Prop) :
  (∀ s r s', check s = (r, s') → match r with Ok (Some x) => ∃ s1, kept s s1 ∧ Q x s1 s' | _ => kept s s' end) →
  ∀ s r s', WaitUntilGot n check s = (r, s') →
  match r with Ok x => ∃ s1, kept s s1 ∧ Q x s1 s' | Err _ => kept s s' end.
Proof.
  intros Hc. induction n as [|n IH]; intros s r s' E; cbn in E; [by injection E as <- <-|].
  apply act_bind_inv in E as [(o & s1 & E1%act_wrapf_Ok & E)|(e & (r1 & E1 & Hr)%act_wrapf_run & ->)].
  - apply Hc in E1. destruct o as [x|]; [by injection E as <- <-|]. apply IH in E. destruct r as [x|].
    + destruct E as (s2 & K & HQ). exists s2. split; [by etrans|done].
    + by etrans.
  - apply Hc in E1. by destruct r1.
Qed.

Lemma query_run {A} method path access (h : handler A) m r m' : refuses_cleanly h →
  query ticks host a method path access h m = (r, m') →
  match r with Ok x => ∃ m1, kept m m1 ∧ h m1 = (SyncResponse x, m') | Err _ => kept m m' end.
Proof.
  intros Hh (r1 & E & ->)%act_wrapf_run.
  enough (match r1 with Ok x => ∃ m1, kept m m1 ∧ h m1 = (SyncResponse x, m') | Err _ => kept m m' end) by (by destruct r1).
  revert E. apply (WaitUntilGot_run _ _ (λ x s s', h s = (SyncResponse x, s'))). clear m r1 m'. intros s r s' E.
  unfold query_attempt in E. apply act_try_bind_run in E as (r0 & s1 & E1 & E). unfold Query in E1.
  apply act_bind_inv in E1 as [([] & s2 & K%perform_kept & E1)|(e & K%perform_kept & ->)].
  - unfold answered_by in E1. destruct (serve host a access h s2) as [resp s3] eqn:Es. injection E1 as <- <-.
    destruct resp as [x|st e|]; cbn [answer_of] in E.
    + injection E as <- <-. apply serve_Sync in Es as (s4 & K' & Eh). exists s4. split; [by transitivity s2|done].
    + apply serve_cleanly in Es; [|done]. assert (kept s s3) by (transitivity s2; [done|by apply Es]).
      by destruct (isTemporary _); [|destruct (bootstrapPending _)]; injection E as <- <-.
    + apply serve_cleanly in Es; [|done]. assert (kept s s3) by (transitivity s2; [done|by apply Es]).
      by destruct (isTemporary _); [|destruct (bootstrapPending _)]; injection E as <- <-.
  - by destruct (isTemporary _); [|destruct (bootstrapPending _)]; injection E as <- <-.
Qed.
End Query.

(** ** The handlers *)

Section K8sd.
Context `{SetupEnv, DBEnv, Externals, Outside, SnapEnv, TokenEnv, PkiEnv, !Csr.CsrEnv, !MapCodec, !RemoveAnnotations}.
Context `{!CertNames, !CertificatesEnv, !RandRead, !Sha256, !ApiErrors, !ClientErrors}.
Context (remoteAddresses : list string) (order_files : list (string * Field * bool) → list (string * Field * bool))
        (order_configs : list (string * Field * Field) → list (string * Field * Field)).
Context (ticks : nat) (host : Host) (a : App) (st : MState) (rendered : option goerr).

Lemma cleanly_always {A} (h : handler A) : (∀ s r s', h s = (r, s') → kept s s') → refuses_cleanly h.
Proof. intros Hh s r s' E _. by eapply Hh. Qed.

Lemma asks_io {A} (m : io A) : (∀ w r w', m w = (r, w') → w' = w) → asks (act_io m).
Proof. intros Hm s r s' (w & E & ->)%act_io_run. by apply Hm in E as ->. Qed.
Lemma GetServiceArgument_keeps sn svc k w r w' : GetServiceArgument sn svc k w = (r, w') → w' = w.
Proof.
  unfold GetServiceArgument, mbind, io_bind, io_wrapf. destruct (os_ReadFile _ w) as [r0 w0] eqn:E.
  apply os_ReadFile_keeps in E as ->. destruct r0; by intros [= _ <-].
Qed.

Lemma asked_kept {A} (m : act A) s r s' : emits (λ _, True) eq m → asks m → m s = (r, s') → kept s s'.
Proof. intros He Ha E. destruct (steps_run _ _ _ _ _ He Ha E) as ((l & Hl & _) & Hw & Hd). split; [by exists l|done]. Qed.

Lemma asks_GetControlPlaneNode name : asks (GetControlPlaneNode name).
Proof. unfold GetControlPlaneNode. repeat (asks_go; try apply asks_wrapf). Qed.
Lemma getNodeStatus_kept s r s' : getNodeStatus a st s = (r, s') → kept s s'.
Proof.
  unfold getNodeStatus. assert (Hs : ∀ s r s', GetLocalNodeStatus a st s = (r, s') → kept s s').
  { intros ? ? ?. apply asked_kept.
    - unfold GetLocalNodeStatus, GetControlPlaneNode. emits_go.
    - unfold GetLocalNodeStatus. apply asks_bind; [apply asks_wrapf, asks_io, IsWorker_keeps|]. intros [|]; [asks_go|].
      apply asks_bind; [apply asks_try, asks_GetControlPlaneNode|]. intros [[?|]|?]; asks_go. }
  assert (Ht : ∀ s r s', act_wrapf "failed to get node taints: %w" [] (getNodeTaints a) s = (r, s') → kept s s').
  { intros ? ? ?. apply asked_kept.
    - unfold getNodeTaints. emits_go.
    - unfold getNodeTaints. apply asks_wrapf, asks_bind; [by apply asks_try, asks_io, GetServiceArgument_keeps|].
      intros [?|?]; asks_go. }
  intros [(status & s1 & E1%tried_Sync & E)|[(sc & e & (r0 & E & _)%tried_run & ->)|[(r0 & E & _)%tried_run ->]]]%handler_bind_inv;
    [|by eapply Hs..].
  apply Hs in E1. transitivity s1; [done|].
  apply handler_bind_inv in E as [(taints & s2 & E2%tried_Sync & [= _ <-])|[(sc & e & (r0 & E & _)%tried_run & ->)|[(r0 & E & _)%tried_run ->]]];
    by eapply Ht.
Qed.

Lemma getClusterConfig_run s r s' : getClusterConfig s = (r, s') → s' = s ∧
  match r with
  | SyncResponse response => ∃ cfg, Database.GetClusterConfig (m_db s) = Ok cfg ∧
      response = mkGetClusterConfig (ToUserFacing cfg) (Datastore_ToUserFacing (CC_Datastore cfg))
                   (Network_PodCIDR (CC_Network cfg)) (Network_ServiceCIDR (CC_Network cfg))
  | _ => True
  end.
Proof.
  unfold getClusterConfig, util_GetClusterConfig.
  intros [(cfg & s1 & E1%tried_Sync & [= <- <-])|[(st' & e & E & ->)|[E ->]]]%handler_bind_inv.
  - apply act_wrapf_Ok, act_wrapf_Ok, act_wrapf_Ok, act_query_run in E1 as [-> Hg]. split; [done|]. by exists cfg.
  - by apply tried_run in E as (r0 & (r1 & (r2 & (r3 & [-> _]%act_query_run & _)%act_wrapf_run & _)%act_wrapf_run & _)%act_wrapf_run & _).
  - by apply tried_run in E as (r0 & (r1 & (r2 & (r3 & [-> _]%act_query_run & _)%act_wrapf_run & _)%act_wrapf_run & _)%act_wrapf_run & _).
Qed.

(** The client keeps the promises. *)
#[export] Instance k8sd_ok :
  ClientOk (k8sd remoteAddresses order_files order_configs ticks host a st rendered).
Proof.
  split.
  - intros m r m' E. cbn in E. unfold k8sd_NodeStatus in E. apply act_try_bind_run in E as (r0 & m1 & E1 & E).
    apply query_run in E1; [|by apply cleanly_always, getNodeStatus_kept].
    assert (K : kept m m1).
    { destruct r0 as [x|e]; [|done]. destruct E1 as (m2 & K & E2%getNodeStatus_kept). by transitivity m2. }
    destruct r0 as [x|e]; [by injection E as _ <-|]. by destruct (bool_decide _); injection E as _ <-.
  - intros m r m' E. cbn in E. apply query_run in E.
    2: { apply cleanly_always. by intros s r0 s' [-> _]%getClusterConfig_run. }
    destruct r as [x|e]; [|done]. destruct E as (m1 & K & E). apply getClusterConfig_run in E as [-> (cfg & Hg & ->)].
    split; [done|]. exists cfg. destruct K as (_ & _ & D). by rewrite <- D.
  - intros req m r m' E. cbn in E. apply query_run in E.
    2: { intros s r0 s' E' Hr. pose proof (putClusterConfig_run (request req) s) as Hp. rewrite E' in Hp.
         destruct r0; [done| |done]. by destruct Hp as [-> _]. }
    destruct r as [x|e]; [|done]. destruct E as (m1 & (L & W & D) & E).
    pose proof (putClusterConfig_run (request req) m1) as Hp. rewrite E in Hp.
    destruct Hp as (req' & new & old & stored & flags & [= <-] & Hn & Hg & Hm & Hs & Hw & Hl & Hc). rewrite D in *.
    split_and!; [by transitivity m1; [done|]; eexists|congruence|]. by exists new, old, stored, flags, (m_log m1).
Qed.
End K8sd.
End ClientFacts.
