(* ===== verification/CliInput.v ===== *)
(** * The options of the command line

    The functions that turn options into a request: the keys and values of "k8s set" and "k8s get"
    (cmd/k8s/k8s_set.go, k8s_get.go, with the decode hooks of pkg/utils/mapstructure.go) and
    the features of "k8s enable" and "k8s disable" (k8s_enable.go, k8s_disable.go).

    External: the YAML decoder, and what mapstructure does with a value that the hooks have
    converted ([Mapstructure]); the getters of the API package ([ApiGetters]). *)

From S2P Require Import Prelude GoStrings Config ConfigConvert Cleanup.
Import GoStr Config Convert.

Module CliInput.

(** ** strings *)

(** [strings.FieldsFunc] for white space and one other byte. *)
Definition FieldsFunc (c : ascii) (s : string) : list string := concat (Cleanup.Fields <$> split c s).
(** [strings.SplitN(s, c, 2)]. *)
Definition SplitN2 (c : ascii) (s : string) : list string :=
  let '(before, after, found) := cut c s in if found : bool then [before; after] else [s].
(** ** pkg/utils/mapstructure.go *)

(** A list or a map that is decoded is merged into the one that is there, if there is one. *)
Class Mapstructure := {
  yaml_Unmarshal_strings : string → res (list string);
  yaml_Unmarshal_map : string → res (gmap string string);
  decode_bool : string → res bool;
  decode_int : string → res Z;
  decode_strings : option (list string) → list string → res (list string);
  decode_map : Annotations → string + gmap string string → res (gmap string string) }.

(** What it is documented to do with a field that is not set yet. *)
Class MapstructureOk `{Mapstructure} : Prop := {
  decode_bool_true : decode_bool "true" = Ok true;
  decode_bool_false : decode_bool "false" = Ok false;
  decode_strings_new l : decode_strings None l = Ok l }.

#[local] Abbreviation U := UserFacingClusterConfig.

Section Hooks.
Context `{Mapstructure}.

(** A value on its way through the hooks is a string until one converts it. *)
Definition YAMLToStringSliceHookFunc (data : string) : string + list string :=
  if data ==? EmptyString then inl data
  else match yaml_Unmarshal_strings data with Ok result => inr result | Err _ => inl data end.
Definition StringToFieldsSliceHookFunc (r : ascii) (data : string) : list string :=
  if data ==? EmptyString then [] else FieldsFunc r data.
Definition slice_hooks (data : string) : list string :=
  match YAMLToStringSliceHookFunc data with inr l => l | inl data => StringToFieldsSliceHookFunc "," data end.

Definition YAMLToStringMapHookFunc (data : string) : string + gmap string string :=
  if data ==? EmptyString then inr ∅
  else match yaml_Unmarshal_map data with Ok result => inr result | Err _ => inl data end.
Fixpoint map_fields (fields : list string) (result : gmap string string) : option (gmap string string) :=
  match fields with
  | [] => Some result
  | kv :: fields =>
      match SplitN2 "=" kv with
      | [k; v] => map_fields fields (<[k := v]> result)
      | _ => None
      end
  end.
Definition StringToStringMapHookFunc (raw : string) : string + gmap string string :=
  if raw ==? EmptyString then inr ∅
  else match map_fields (FieldsFunc "," raw) ∅ with Some result => inr result | None => inl raw end.
Definition map_hooks (data : string) : string + gmap string string :=
  match YAMLToStringMapHookFunc data with inr m => inr m | inl data => StringToStringMapHookFunc data end.

(** ** k8s_set.go *)

Definition with_network (f : NetworkConfig → NetworkConfig) (u : U) : U :=
  mkUserFacing (f (u_Network u)) (u_DNS u) (u_Ingress u) (u_LoadBalancer u) (u_LocalStorage u) (u_Gateway_Enabled u)
    (u_MetricsServer_Enabled u) (u_CloudProvider u) (u_Annotations u).
Definition with_dns (f : DNSConfig → DNSConfig) (u : U) : U :=
  mkUserFacing (u_Network u) (f (u_DNS u)) (u_Ingress u) (u_LoadBalancer u) (u_LocalStorage u) (u_Gateway_Enabled u)
    (u_MetricsServer_Enabled u) (u_CloudProvider u) (u_Annotations u).
Definition with_ingress (f : IngressConfig → IngressConfig) (u : U) : U :=
  mkUserFacing (u_Network u) (u_DNS u) (f (u_Ingress u)) (u_LoadBalancer u) (u_LocalStorage u) (u_Gateway_Enabled u)
    (u_MetricsServer_Enabled u) (u_CloudProvider u) (u_Annotations u).
Definition with_load_balancer (f : LoadBalancerConfig → LoadBalancerConfig) (u : U) : U :=
  mkUserFacing (u_Network u) (u_DNS u) (u_Ingress u) (f (u_LoadBalancer u)) (u_LocalStorage u) (u_Gateway_Enabled u)
    (u_MetricsServer_Enabled u) (u_CloudProvider u) (u_Annotations u).
Definition with_local_storage (f : LocalStorageConfig → LocalStorageConfig) (u : U) : U :=
  mkUserFacing (u_Network u) (u_DNS u) (u_Ingress u) (u_LoadBalancer u) (f (u_LocalStorage u)) (u_Gateway_Enabled u)
    (u_MetricsServer_Enabled u) (u_CloudProvider u) (u_Annotations u).
Definition with_gateway (b : option bool) (u : U) : U :=
  mkUserFacing (u_Network u) (u_DNS u) (u_Ingress u) (u_LoadBalancer u) (u_LocalStorage u) b
    (u_MetricsServer_Enabled u) (u_CloudProvider u) (u_Annotations u).
Definition with_metrics_server (b : option bool) (u : U) : U :=
  mkUserFacing (u_Network u) (u_DNS u) (u_Ingress u) (u_LoadBalancer u) (u_LocalStorage u) (u_Gateway_Enabled u)
    b (u_CloudProvider u) (u_Annotations u).
Definition with_cloud_provider (p : option string) (u : U) : U :=
  mkUserFacing (u_Network u) (u_DNS u) (u_Ingress u) (u_LoadBalancer u) (u_LocalStorage u) (u_Gateway_Enabled u)
    (u_MetricsServer_Enabled u) p (u_Annotations u).
Definition with_annotations (m : Annotations) (u : U) : U :=
  mkUserFacing (u_Network u) (u_DNS u) (u_Ingress u) (u_LoadBalancer u) (u_LocalStorage u) (u_Gateway_Enabled u)
    (u_MetricsServer_Enabled u) (u_CloudProvider u) m.

(** The options, by key, as the tags of the fields of the API package name them.  A value is
    decoded into its field; the others stay. *)
Definition option_bool (set : option bool → U → U) (value : string) (u : U) : res U :=
  b ← decode_bool value; Ok (set (Some b) u).
Definition option_int (set : option Z → U → U) (value : string) (u : U) : res U :=
  z ← decode_int value; Ok (set (Some z) u).
Definition option_string (set : option string → U → U) (value : string) (u : U) : res U := Ok (set (Some value) u).
Definition option_strings (get : U → option (list string)) (set : option (list string) → U → U) (value : string) (u : U)
    : res U :=
  l ← decode_strings (get u) (slice_hooks value); Ok (set (Some l) u).
Definition option_map (get : U → Annotations) (set : Annotations → U → U) (value : string) (u : U) : res U :=
  m ← decode_map (get u) (map_hooks value); Ok (set (Some m) u).

Definition knownSetKeys : list (string * (string → U → res U)) := [
  ("annotations", option_map u_Annotations with_annotations);
  ("cloud-provider", option_string with_cloud_provider);
  ("dns.cluster-domain", option_string (λ v, with_dns (λ d,
     mkDNSConfig (api_DNS_Enabled d) v (api_DNS_ServiceIP d) (api_DNS_UpstreamNameservers d))));
  ("dns.enabled", option_bool (λ v, with_dns (λ d,
     mkDNSConfig v (api_DNS_ClusterDomain d) (api_DNS_ServiceIP d) (api_DNS_UpstreamNameservers d))));
  ("dns.service-ip", option_string (λ v, with_dns (λ d,
     mkDNSConfig (api_DNS_Enabled d) (api_DNS_ClusterDomain d) v (api_DNS_UpstreamNameservers d))));
  ("dns.upstream-nameservers", option_strings (λ u, api_DNS_UpstreamNameservers (u_DNS u)) (λ v, with_dns (λ d,
     mkDNSConfig (api_DNS_Enabled d) (api_DNS_ClusterDomain d) (api_DNS_ServiceIP d) v)));
  ("gateway.enabled", option_bool with_gateway);
  ("ingress.default-tls-secret", option_string (λ v, with_ingress (λ i,
     mkIngressConfig (api_Ingress_Enabled i) v (api_Ingress_EnableProxyProtocol i))));
  ("ingress.enable-proxy-protocol", option_bool (λ v, with_ingress (λ i,
     mkIngressConfig (api_Ingress_Enabled i) (api_Ingress_DefaultTLSSecret i) v)));
  ("ingress.enabled", option_bool (λ v, with_ingress (λ i,
     mkIngressConfig v (api_Ingress_DefaultTLSSecret i) (api_Ingress_EnableProxyProtocol i))));
  ("load-balancer.bgp-local-asn", option_int (λ v, with_load_balancer (λ l,
     mkLoadBalancerConfig (api_LB_Enabled l) (api_LB_CIDRs l) (api_LB_L2Mode l) (api_LB_L2Interfaces l) (api_LB_BGPMode l)
       v (api_LB_BGPPeerAddress l) (api_LB_BGPPeerASN l) (api_LB_BGPPeerPort l))));
  ("load-balancer.bgp-mode", option_bool (λ v, with_load_balancer (λ l,
     mkLoadBalancerConfig (api_LB_Enabled l) (api_LB_CIDRs l) (api_LB_L2Mode l) (api_LB_L2Interfaces l) v
       (api_LB_BGPLocalASN l) (api_LB_BGPPeerAddress l) (api_LB_BGPPeerASN l) (api_LB_BGPPeerPort l))));
  ("load-balancer.bgp-peer-address", option_string (λ v, with_load_balancer (λ l,
     mkLoadBalancerConfig (api_LB_Enabled l) (api_LB_CIDRs l) (api_LB_L2Mode l) (api_LB_L2Interfaces l) (api_LB_BGPMode l)
       (api_LB_BGPLocalASN l) v (api_LB_BGPPeerASN l) (api_LB_BGPPeerPort l))));
  ("load-balancer.bgp-peer-asn", option_int (λ v, with_load_balancer (λ l,
     mkLoadBalancerConfig (api_LB_Enabled l) (api_LB_CIDRs l) (api_LB_L2Mode l) (api_LB_L2Interfaces l) (api_LB_BGPMode l)
       (api_LB_BGPLocalASN l) (api_LB_BGPPeerAddress l) v (api_LB_BGPPeerPort l))));
  ("load-balancer.bgp-peer-port", option_int (λ v, with_load_balancer (λ l,
     mkLoadBalancerConfig (api_LB_Enabled l) (api_LB_CIDRs l) (api_LB_L2Mode l) (api_LB_L2Interfaces l) (api_LB_BGPMode l)
       (api_LB_BGPLocalASN l) (api_LB_BGPPeerAddress l) (api_LB_BGPPeerASN l) v)));
  ("load-balancer.cidrs", option_strings (λ u, api_LB_CIDRs (u_LoadBalancer u)) (λ v, with_load_balancer (λ l,
     mkLoadBalancerConfig (api_LB_Enabled l) v (api_LB_L2Mode l) (api_LB_L2Interfaces l) (api_LB_BGPMode l)
       (api_LB_BGPLocalASN l) (api_LB_BGPPeerAddress l) (api_LB_BGPPeerASN l) (api_LB_BGPPeerPort l))));
  ("load-balancer.enabled", option_bool (λ v, with_load_balancer (λ l,
     mkLoadBalancerConfig v (api_LB_CIDRs l) (api_LB_L2Mode l) (api_LB_L2Interfaces l) (api_LB_BGPMode l)
       (api_LB_BGPLocalASN l) (api_LB_BGPPeerAddress l) (api_LB_BGPPeerASN l) (api_LB_BGPPeerPort l))));
  ("load-balancer.l2-interfaces", option_strings (λ u, api_LB_L2Interfaces (u_LoadBalancer u)) (λ v,
     with_load_balancer (λ l,
     mkLoadBalancerConfig (api_LB_Enabled l) (api_LB_CIDRs l) (api_LB_L2Mode l) v (api_LB_BGPMode l)
       (api_LB_BGPLocalASN l) (api_LB_BGPPeerAddress l) (api_LB_BGPPeerASN l) (api_LB_BGPPeerPort l))));
  ("load-balancer.l2-mode", option_bool (λ v, with_load_balancer (λ l,
     mkLoadBalancerConfig (api_LB_Enabled l) (api_LB_CIDRs l) v (api_LB_L2Interfaces l) (api_LB_BGPMode l)
       (api_LB_BGPLocalASN l) (api_LB_BGPPeerAddress l) (api_LB_BGPPeerASN l) (api_LB_BGPPeerPort l))));
  ("local-storage.default", option_bool (λ v, with_local_storage (λ l,
     mkLocalStorageConfig (api_LS_Enabled l) (api_LS_LocalPath l) (api_LS_ReclaimPolicy l) v)));
  ("local-storage.enabled", option_bool (λ v, with_local_storage (λ l,
     mkLocalStorageConfig v (api_LS_LocalPath l) (api_LS_ReclaimPolicy l) (api_LS_Default l))));
  ("local-storage.local-path", option_string (λ v, with_local_storage (λ l,
     mkLocalStorageConfig (api_LS_Enabled l) v (api_LS_ReclaimPolicy l) (api_LS_Default l))));
  ("local-storage.reclaim-policy", option_string (λ v, with_local_storage (λ l,
     mkLocalStorageConfig (api_LS_Enabled l) (api_LS_LocalPath l) v (api_LS_Default l))));
  ("metrics-server.enabled", option_bool with_metrics_server);
  ("network.enabled", option_bool (λ v, with_network (λ n, mkNetworkConfig v (api_Network_KubeProxyEnabled n))));
  ("network.kube-proxy-enabled", option_bool (λ v, with_network (λ n, mkNetworkConfig (api_Network_Enabled n) v)))].

Definition known {A} (table : list (string * A)) (key : string) : option A :=
  snd <$> List.find (λ e, e.1 ==? key) table.

Definition updateConfigMapstructure (config : U) (arg : string) : res U :=
  match SplitN2 "=" arg with
  | [key; value] =>
      match known knownSetKeys key with
      | None => Err (Errorf "unknown option key %q" [key])
      | Some decode => wrapf "invalid option %q: %w" [arg] (decode value config)
      end
  | _ => Err (Errorf "option not in <key>=<value> format" [])
  end.
Fixpoint updateConfig (config : U) (args : list string) : res U :=
  match args with
  | [] => Ok config
  | arg :: args => config ← updateConfigMapstructure config arg; updateConfig config args
  end.
End Hooks.

Definition empty_user_facing : U :=
  mkUserFacing (mkNetworkConfig None None) (mkDNSConfig None None None None) (mkIngressConfig None None None)
    (mkLoadBalancerConfig None None None None None None None None None) (mkLocalStorageConfig None None None None)
    None None None None.

(** ** k8s_get.go *)

Inductive Output :=
| OConfig (u : U) | ONetwork (n : NetworkConfig) | ODNS (d : DNSConfig) | OGateway (enabled : option bool)
| OIngress (i : IngressConfig) | OLocalStorage (l : LocalStorageConfig) | OLoadBalancer (l : LoadBalancerConfig)
| OBool (b : bool) | OString (s : string) | OStrings (l : list string) | OInt (z : Z).

(** The getters of the API package, and what they are documented to return: the field, or
    the zero value of its type when it is nil. *)
Class ApiGetters := {
  api_bool : option bool → bool;
  api_string : option string → string;
  api_strings : option (list string) → list string;
  api_int : option Z → Z }.
Class ApiGettersOk `{ApiGetters} : Prop := {
  api_bool_eq v : api_bool v = getField v;
  api_string_eq v : api_string v = getField v;
  api_strings_eq v : api_strings v = getField v;
  api_int_eq v : api_int v = getField v }.

(** What is shown: the pointer that is nil counts as true, and three parts are left out. *)
Definition shown (config : U) : U :=
  let n := u_Network config in
  mkUserFacing
    (mkNetworkConfig (api_Network_Enabled n)
       (match api_Network_KubeProxyEnabled n with None => Some true | Some b => Some b end))
    (u_DNS config) (u_Ingress config) (u_LoadBalancer config) (u_LocalStorage config) (u_Gateway_Enabled config)
    None None None.

Section Get.
Context `{ApiGetters}.

Definition known_get_keys : list (string * (U → Output)) := [
  (EmptyString, OConfig);
  ("network", λ u, ONetwork (u_Network u));
  ("dns", λ u, ODNS (u_DNS u));
  ("gateway", λ u, OGateway (u_Gateway_Enabled u));
  ("ingress", λ u, OIngress (u_Ingress u));
  ("local-storage", λ u, OLocalStorage (u_LocalStorage u));
  ("load-balancer", λ u, OLoadBalancer (u_LoadBalancer u));
  ("network.enabled", λ u, OBool (api_bool (api_Network_Enabled (u_Network u))));
  ("network.kube-proxy-enabled", λ u, OBool (api_bool (api_Network_KubeProxyEnabled (u_Network u))));
  ("dns.enabled", λ u, OBool (api_bool (api_DNS_Enabled (u_DNS u))));
  ("dns.upstream-nameservers", λ u, OStrings (api_strings (api_DNS_UpstreamNameservers (u_DNS u))));
  ("dns.cluster-domain", λ u, OString (api_string (api_DNS_ClusterDomain (u_DNS u))));
  ("dns.service-ip", λ u, OString (api_string (api_DNS_ServiceIP (u_DNS u))));
  ("gateway.enabled", λ u, OBool (api_bool (u_Gateway_Enabled u)));
  ("ingress.enabled", λ u, OBool (api_bool (api_Ingress_Enabled (u_Ingress u))));
  ("ingress.default-tls-secret", λ u, OString (api_string (api_Ingress_DefaultTLSSecret (u_Ingress u))));
  ("ingress.enable-proxy-protocol", λ u, OBool (api_bool (api_Ingress_EnableProxyProtocol (u_Ingress u))));
  ("local-storage.enabled", λ u, OBool (api_bool (api_LS_Enabled (u_LocalStorage u))));
  ("local-storage.local-path", λ u, OString (api_string (api_LS_LocalPath (u_LocalStorage u))));
  ("local-storage.reclaim-policy", λ u, OString (api_string (api_LS_ReclaimPolicy (u_LocalStorage u))));
  ("local-storage.default", λ u, OBool (api_bool (api_LS_Default (u_LocalStorage u))));
  ("load-balancer.enabled", λ u, OBool (api_bool (api_LB_Enabled (u_LoadBalancer u))));
  ("load-balancer.cidrs", λ u, OStrings (api_strings (api_LB_CIDRs (u_LoadBalancer u))));
  ("load-balancer.l2-mode", λ u, OBool (api_bool (api_LB_L2Mode (u_LoadBalancer u))));
  ("load-balancer.l2-interfaces", λ u, OStrings (api_strings (api_LB_L2Interfaces (u_LoadBalancer u))));
  ("load-balancer.bgp-mode", λ u, OBool (api_bool (api_LB_BGPMode (u_LoadBalancer u))));
  ("load-balancer.bgp-local-asn", λ u, OInt (api_int (api_LB_BGPLocalASN (u_LoadBalancer u))));
  ("load-balancer.bgp-peer-address", λ u, OString (api_string (api_LB_BGPPeerAddress (u_LoadBalancer u))));
  ("load-balancer.bgp-peer-port", λ u, OInt (api_int (api_LB_BGPPeerPort (u_LoadBalancer u))));
  ("load-balancer.bgp-peer-asn", λ u, OInt (api_int (api_LB_BGPPeerASN (u_LoadBalancer u))))].

Definition get_output (config : U) (key : string) : res Output :=
  match known known_get_keys key with
  | Some get => Ok (get (shown config))
  | None => Err (Errorf "Unknown config key %q." [key])
  end.
End Get.

(** ** k8s_enable.go and k8s_disable.go *)

Definition featureList : list string :=
  ["network"; "dns"; "gateway"; "ingress"; "local-storage"; "load-balancer"].

(** The bodies of the two loops: a feature replaces its part of the request.  [kube_proxy] is what is
    written beside the network, and [fmt] the message for an unknown feature. *)
Definition switch_feature (fmt : string) (kube_proxy : option bool) (b : bool) (config : U) (feature : string) : res U :=
  if feature ==? "network" then Ok (with_network (λ _, mkNetworkConfig (Some b) kube_proxy) config)
  else if feature ==? "dns" then Ok (with_dns (λ _, mkDNSConfig (Some b) None None None) config)
  else if feature ==? "gateway" then Ok (with_gateway (Some b) config)
  else if feature ==? "ingress" then Ok (with_ingress (λ _, mkIngressConfig (Some b) None None) config)
  else if feature ==? "local-storage" then Ok (with_local_storage (λ _, mkLocalStorageConfig (Some b) None None None) config)
  else if feature ==? "load-balancer" then
    Ok (with_load_balancer (λ _, mkLoadBalancerConfig (Some b) None None None None None None None None) config)
  else if feature ==? "metrics-server" then Ok (with_metrics_server (Some b) config)
  else Err (Errorf fmt [feature]).
End CliInput.
