(* ===== verification/CliValues.v ===== *)
(** * The values of the command line

    What commands make of their flags, of the answers to their questions and of their
    environment: the interactive bootstrap and the directory of containerd
    (cmd/k8s/k8s_bootstrap.go), addresses (pkg/utils/cidr.go), times to live
    (pkg/utils/time.go), and cmd/util (environ.go, args.go, formatter.go, hooks.go).

    A [Stdin] is what the reads of the standard input return, in order: a line each when a
    person types, a block of several lines when a program writes; no more reads are the end
    of the input.

    External: [time.ParseDuration] ([MapCodec]) and the address of the interface that LXD
    chooses.  The warning about a directory in memory (isMemBackedFS) is only printed, and left out. *)

From S2P Require Import Prelude GoStrings GoNet Cidr Config ConfigConvert FileSys Pki Checks Cleanup ApiCluster CliInput.
Import GoStr GoNet Cidr Config Convert FileSys Pki Checks ApiCluster CliInput.

Module CliValues.

(** ** strings *)

(** [strings.ReplaceAll(s, old, new)]; [skip] bytes are of an occurrence that was replaced. *)
Fixpoint replace_from (old new : string) (skip : nat) (s : string) : string :=
  match s with
  | EmptyString => EmptyString
  | String x t =>
      match skip with
      | S skip => replace_from old new skip t
      | O => if has_prefix old s then new +:+ replace_from old new (String.length old - 1) t
             else String x (replace_from old new 0 t)
      end
  end.
Definition ReplaceAll (s old new : string) : string := replace_from old new 0 s.
(** [strings.ToLower] on ASCII; the answers to questions are compared with ASCII words. *)
Definition lower (a : ascii) : ascii := if byte_in 65 90 a then ascii_of_N (N_of_ascii a + 32) else a.
Fixpoint ToLower (s : string) : string :=
  match s with EmptyString => EmptyString | String a s => String (lower a) (ToLower s) end.
Fixpoint prefix_while (P : ascii → bool) (s : string) : string :=
  match s with
  | EmptyString => EmptyString
  | String a s => if P a then String a (prefix_while P s) else EmptyString
  end.

(** ** k8s_bootstrap.go: questions *)

Definition Stdin := list string.

(** [ReadString(newline)] of a fresh [bufio.Reader]: the line, with its end, and the input
    that the reader has not taken; what is in its buffer beyond the line is lost with it.
    At the end of the input the line is what is left, and then every read is empty. *)
Fixpoint read_line (buffered : string) (input : Stdin) : string * Stdin :=
  match input with
  | [] => (buffered, [])
  | block :: input =>
      let '(before, _, found) := cut newline block in
      if found : bool then (buffered +:+ before +:+ one newline, input) else read_line (buffered +:+ block) input
  end.

Definition accepted (options : list string) (s : string) : bool :=
  forallb (λ element, bool_decide (element ∈ options)) (split "," s).

Definition cleaned (s : string) : string := ReplaceAll (ReplaceAll (ToLower s) " " EmptyString) (one newline) EmptyString.

(** [fuel] bounds the prompts; [None] is a question that is still asked.  The inner loop has
    one reader, whose buffer is empty when a read gave nothing. *)
Fixpoint askQuestion (fuel : nat) (options : option (list string)) (defaultVal : string) (input : Stdin)
    : option (string * Stdin) :=
  match fuel with
  | O => None
  | S fuel =>
      let '(s, rest) := read_line EmptyString input in
      if s ==? EmptyString then askQuestion fuel options defaultVal rest
      else
        let s := cleaned s in
        if s ==? EmptyString then Some (defaultVal, rest)
        else
          match options with
          | Some options => if accepted options s then Some (s, rest) else askQuestion fuel (Some options) defaultVal rest
          | None => Some (s, rest)
          end
  end.

Definition choose_feature (u : UserFacingClusterConfig) (component : string) : UserFacingClusterConfig :=
  if component ==? "network" then with_network (λ n, mkNetworkConfig (Some true) (api_Network_KubeProxyEnabled n)) u
  else if component ==? "dns" then
    with_dns (λ d, mkDNSConfig (Some true) (api_DNS_ClusterDomain d) (api_DNS_ServiceIP d) (api_DNS_UpstreamNameservers d)) u
  else if component ==? "ingress" then
    with_ingress (λ i, mkIngressConfig (Some true) (api_Ingress_DefaultTLSSecret i) (api_Ingress_EnableProxyProtocol i)) u
  else if component ==? "load-balancer" then
    with_load_balancer (λ l,
      mkLoadBalancerConfig (Some true) (api_LB_CIDRs l) (api_LB_L2Mode l) (api_LB_L2Interfaces l) (api_LB_BGPMode l)
        (api_LB_BGPLocalASN l) (api_LB_BGPPeerAddress l) (api_LB_BGPPeerASN l) (api_LB_BGPPeerPort l)) u
  else if component ==? "gateway" then with_gateway (Some true) u
  else if component ==? "local-storage" then
    with_local_storage (λ l,
      mkLocalStorageConfig (Some true) (api_LS_LocalPath l) (api_LS_ReclaimPolicy l) (api_LS_Default l)) u
  else u.

Definition interactive_config (components podCIDR serviceCIDR : string) : BootstrapConfig :=
  mkBootstrap (fold_left choose_feature (FieldsFunc "," components) empty_user_facing) [] (Some podCIDR) (Some serviceCIDR)
    None None None [] None None None None None.
Definition getConfigInteractively (fuel : nat) (input : Stdin) : option (BootstrapConfig * Stdin) :=
  '(components, input) ← askQuestion fuel (Some featureList) "network, dns, gateway, local-storage" input;
  '(podCIDR, input) ← askQuestion fuel None "10.1.0.0/16" input;
  '(serviceCIDR, input) ← askQuestion fuel None "10.152.183.0/24" input;
  Some (interactive_config components podCIDR serviceCIDR, input).

(** ** k8s_bootstrap.go: the directory of containerd *)

Definition normalizeContainerdBaseDir (path : string) : res string :=
  if path ==? EmptyString then Ok EmptyString
  else
    let path := filepath_Clean path in
    _ ← fails_if (negb (has_prefix "/" path)) (Errorf "containerd-base-dir must be an absolute path, got %q" [path]);
    Ok path.

(** ** pkg/utils/cidr.go: addresses *)

Definition DefaultPort : Z := 6400.

(** The CIDR at the beginning, with or without a bracket before it: the first group of
    the regular expression. *)
Definition address_byte (a : ascii) : bool := byte_in 97 122 a || is_digit a || byte_is 58 a || byte_is 46 a.
Definition leading_cidr (address : string) : option string :=
  let address := if has_prefix "[" address then Checks.drop 1 address else address in
  let host := prefix_while address_byte address in
  let rest := Checks.drop (String.length host) address in
  let bits := prefix_while is_digit (Checks.drop 1 rest) in
  if (host !=? EmptyString) && has_prefix "/" rest && (bits !=? EmptyString) then Some (host +:+ "/" +:+ bits) else None.

(** A CIDR is replaced with the address of the node in it. *)
Definition resolve_cidr (interfaceAddrs : res (list NetAddr)) (address : string) : res string :=
  match leading_cidr address with
  | None => Ok address
  | Some cidr =>
      match ParseCIDR cidr with
      | Err _ => Ok address
      | Ok (_, ipNet) =>
          ip ← wrapf "failed to find a matching node address for %q: %w" [address]
                 (findMatchingNodeAddress interfaceAddrs ipNet);
          Ok (ReplaceAll address cidr (IP_String ip))
      end
  end.
Definition ParseAddressString (interfaceAddrs : res (list NetAddr)) (NetworkInterfaceAddress : string)
    (address : string) (port : Z) : res string :=
  address ← resolve_cidr interfaceAddrs address;
  '(address, port) ←
    match SplitHostPort address with
    | Err _ => Ok (address, port)
    | Ok (host, hostPort) =>
        port ← wrapf "failed to parse the port from %q: %w" [hostPort] (ParseInt64 hostPort); Ok (host, port)
    end;
  _ ← fails_if ((port <? 0)%Z || (65535 <? port)%Z) (Errorf "invalid port number %d" [Itoa port]);
  Ok (JoinHostPort (if address ==? EmptyString then NetworkInterfaceAddress else address) (Itoa port)).

(** ** pkg/utils/time.go *)

(** The value and the unit; [n] bytes are of the unit. *)
Definition ttl_split (ttl : string) (n : nat) : string * string :=
  let k := (String.length ttl - n)%nat in (Checks.take k ttl, Checks.drop k ttl).

Section TTL.
Context `{MapCodec}.

(** A duration that gets this far is an integer and one byte, of the units s, m and h: whole
    seconds, which [Seconds] gives as they are. *)
Definition TTLToSeconds (ttl : string) : res Z :=
  _ ← fails_if (String.length ttl <? 2)%nat (Errorf "invalid TTL length: %s" [ttl]);
  let '(number, unit) :=
    if has_suffix "mo" ttl then ((ttl_split ttl 2).1, "mo") else ((ttl_split ttl 1).1, ToLower (ttl_split ttl 1).2) in
  value ← wrapf "invalid TTL format: %w" [] (ParseInt64 number);
  if unit ==? "y" then Ok (wrap64 (value * yearSeconds))
  else if unit ==? "mo" then Ok (wrap64 (value * monthSeconds))
  else if unit ==? "d" then Ok (wrap64 (value * daySeconds))
  else
    match ParseDuration ttl with
    | Ok duration => Ok (Z.quot duration 1000000000)
    | Err _ => Err (Errorf "invalid TTL unit: %s" [unit])
    end.
End TTL.

(** ** cmd/util *)

(** environ.go.  [None] is the panic of an entry that is the key without a value. *)
Fixpoint environ_has (environ : list string) (key : string) : option bool :=
  match environ with
  | [] => Some false
  | val :: environ =>
      match SplitN2 "=" val with
      | [k; _] => if k ==? key then Some true else environ_has environ key
      | [k] => if k ==? key then None else environ_has environ key
      | _ => environ_has environ key
      end
  end.
Fixpoint EnvironWithDefaults (environ : list string) (keyValues : list (string * string)) : option (list string) :=
  match keyValues with
  | [] => Some environ
  | (key, value) :: keyValues =>
      has ← environ_has environ key;
      EnvironWithDefaults (if has : bool then environ else environ ++ [key +:+ "=" +:+ value]) keyValues
  end.
Definition ExistsInEnviron (environ : list string) (key : string) : bool :=
  existsb (λ envKV, match SplitN2 "=" envKV with [k; v] => (k ==? key) && (v !=? EmptyString) | _ => false end) environ.

(** args.go *)
Definition MinimumNArgs (n : nat) (args : list string) : res unit :=
  fails_if (length args <? n)%nat
    (Errorf "requires at least %d arg(s), only received %d" [Itoa (Z.of_nat n); Itoa (Z.of_nat (length args))]).
Definition MaximumNArgs (n : nat) (args : list string) : res unit :=
  fails_if (n <? length args)%nat
    (Errorf "accepts at most %d arg(s), received %d" [Itoa (Z.of_nat n); Itoa (Z.of_nat (length args))]).
Definition ExactArgs (n : nat) (args : list string) : res unit :=
  fails_if (negb (length args =? n)%nat)
    (Errorf "accepts %d arg(s), received %d" [Itoa (Z.of_nat n); Itoa (Z.of_nat (length args))]).

(** formatter.go *)
Inductive Formatter := plainFormatter | jsonFormatter | yamlFormatter.
Definition NewFormatter (formatterType : string) : res Formatter :=
  if (formatterType ==? EmptyString) || (formatterType ==? "plain") then Ok plainFormatter
  else if formatterType ==? "json" then Ok jsonFormatter
  else if formatterType ==? "yaml" then Ok yamlFormatter
  else Err (Errorf "unknown formatter type %q" [formatterType]).

(** hooks.go of cmd/util, and [hookRequireRoot] of cmd/k8s *)
Definition ValidateRootOwnership (path : string) (owner : res (Z * Z)) : res unit :=
  '(uid, gid) ← wrapf "error getting file info: %w" [] owner;
  _ ← fails_if (negb (uid =? 0)%Z) (Errorf "owner of %s is user with UID %d expected 0" [path; Itoa uid]);
  fails_if (negb (gid =? 0)%Z) (Errorf "owner of %s is group with GID %d expected 0" [path; Itoa gid]).
(** [permission] says whether an error is one of permission. *)
Definition InLXDContainer (permission : goerr → bool) (content : res string) : bool * option goerr :=
  let path := "/proc/1/environ" in
  match content with
  | Err e =>
      if permission e then (true, Some (Wrapf "cannnot access %s to check if runing in LXD container: %w" [path] e))
      else (false, Some (Wrapf "cannnot read %s to check if runing in LXD container: %w" [path] e))
  | Ok content => (Cleanup.contains "container=lxc" content, None)
  end.
Definition hookRequireRoot (uid : Z) : res unit :=
  fails_if (negb (uid =? 0)%Z) (Errorf "You do not have enough permissions. Please re-run the command with sudo." []).
End CliValues.
