(* ===== verification/Commands.v ===== *)
(** * The commands

    cmd/k8s: what the commands do with the client of the daemon, the files and the programs of
    the node.  A command is an [act]: its value is what it prints, and an error is the message
    with which it exits with status 1.  Its flags and its arguments are arguments, after the checks
    of cobra; the time-outs, which end the requests, are those of the client.

    External: the client itself ([Client]), the YAML of the files that are given ([CommandYaml]),
    and what CliValues.v and CliInput.v say. *)

From S2P Require Import Prelude GoStrings GoNet Cidr Config ConfigConvert ConfigDefaults ConfigValidate FileSys Pki PkiNode Arguments Setup Node.
From S2P Require Import Database Csr Effects Snap NodeSetup Token KubeClient Checks Cleanup Hooks HooksBootstrap Api.
From S2P Require Import ApiTokens ApiCluster ApiNodes ApiCertificates Client CliInput CliValues NodeConfig Builtin Cilium.
Import GoStr GoNet Cidr Config Convert FileSys Pki PkiNode Arguments Setup Node Database Effects Snap NodeSetup Token.
Import Validation KubeClient Checks Hooks Bootstrap Api ApiTokens ApiCluster ApiNodes ApiCertificates Client CliInput CliValues.

Module Commands.

Class CommandYaml := {
  bootstrap_UnmarshalStrict : string → res (BootstrapConfig * NodeOptions * string);
  control_plane_join_UnmarshalStrict : string → res (NodeOptions * string);
  worker_join_UnmarshalStrict : string → res (NodeOptions * string);
  certificates_UnmarshalStrict : string → res (Field → string);
  any_Unmarshal : string → res (option (gmap string value));
  any_Marshal : gmap string value → res string }.

Definition not_a_member : goerr :=
  Errorf "The node is not part of a Kubernetes cluster. You can bootstrap a new cluster with: sudo k8s bootstrap" [].

(** ** Commands on a member of a cluster *)

Section Member.
Context `{Outside, DBEnv}.
Context (env_client : res Client).

Definition client : act Client :=
  act_wrapf "Failed to create a k8sd client. Make sure that the k8sd service is running." [] (act_lift env_client).
Definition node_status (c : Client) : act (option (ApiCluster.NodeStatus * list string)) :=
  act_wrapf "Failed to check the current node status." [] (Client.NodeStatus c).
Definition require_initialized (c : Client) : act (ApiCluster.NodeStatus * list string) :=
  r ← node_status c;
  match r with Some status => mret status | None => act_lift (Err not_a_member) end.

(** The request of the two commands and of "k8s set": a partial configuration. *)
Definition set_config (fmt : string) (args : list string) (c : Client) (config : UserFacingClusterConfig) : act unit :=
  act_wrapf fmt args (Client.SetClusterConfig c (mkSetClusterConfig config (mkUserFacingDatastore None None None None None))).

Fixpoint switch_features (fmt : string) (kube_proxy : option bool) (b : bool) (config : UserFacingClusterConfig)
    (features : list string) : res UserFacingClusterConfig :=
  match features with
  | [] => Ok config
  | feature :: features =>
      config ← switch_feature fmt kube_proxy b config feature; switch_features fmt kube_proxy b config features
  end.

(** k8s_enable.go *)
Definition enable (features : list string) : act (list string) :=
  _ ← act_lift (MinimumNArgs 1 features);
  config ← act_lift (switch_features "Cannot enable %q" (Some false) true empty_user_facing features);
  c ← client;
  _ ← require_initialized c;
  _ ← set_config "Failed to enable %s on the cluster." features c config;
  mret features.

(** k8s_disable.go *)
Definition disable (features : list string) : act (list string) :=
  _ ← act_lift (MinimumNArgs 1 features);
  config ← act_lift (switch_features "Cannot disable %q" None false empty_user_facing features);
  c ← client;
  _ ← require_initialized c;
  _ ← set_config "Failed to disable %s on the cluster." features c config;
  mret features.

(** k8s_set.go *)
Definition set `{Mapstructure} (args : list string) : act UserFacingClusterConfig :=
  _ ← act_lift (MinimumNArgs 1 args);
  config ← act_wrapf "Invalid option." [] (act_lift (updateConfig empty_user_facing args));
  c ← client;
  _ ← set_config "Failed to apply requested cluster configuration changes." [] c config;
  mret config.

(** k8s_get.go *)
Definition get `{ApiGetters} (args : list string) : act Output :=
  _ ← act_lift (MaximumNArgs 1 args);
  c ← client;
  _ ← require_initialized c;
  response ← act_wrapf "Failed to get the current cluster configuration." [] (Client.GetClusterConfig c);
  act_lift (get_output (gc_Config response) (match args with [key] => key | _ => EmptyString end)).

(** k8s_get_join_token.go *)
Definition get_join_token (worker : bool) (ttl : Z) (args : list string) : act string :=
  _ ← act_lift (MaximumNArgs 1 args);
  _ ← act_lift (fails_if (negb worker && (length args =? 0)%nat)
        (Errorf "A node name is required for control-plane nodes." []));
  let name := match args with [name] => name | _ => EmptyString end in
  c ← client;
  _ ← require_initialized c;
  act_wrapf "Could not generate a join token for %q." [name] (Client.GetJoinToken c (mkGetJoinToken name worker ttl)).

(** k8s_remove_node.go *)
Definition remove_node (force : bool) (args : list string) : act string :=
  _ ← act_lift (ExactArgs 1 args);
  c ← client;
  _ ← require_initialized c;
  let name := default EmptyString (head args) in
  _ ← act_wrapf "Failed to remove node %q from the cluster." [name] (Client.RemoveNode c (mkRemoveNode name force));
  mret name.

(** k8s_status.go; k8s_status_format.go prints the result *)
Definition status (waitReady : bool) : act ApiCluster.ClusterStatus :=
  c ← client;
  _ ← require_initialized c;
  st ← act_wrapf "Failed to retrieve the cluster status." [] (Client.ClusterStatus c waitReady);
  mret (mkClusterStatus (cs_Ready st) (cs_Members st) empty_user_facing (cs_Datastore st) (cs_Servers st) (cs_Features st)).
Definition isHA (c : ApiCluster.ClusterStatus) : bool :=
  (2 <? length (List.filter (λ m, bool_decide (ns_DatastoreRole m = DatastoreRoleVoter)) (cs_Members c)))%nat.

(** k8s_local_node_status.go *)
Definition local_node_status : act ApiCluster.NodeStatus :=
  c ← client; '(st, _) ← require_initialized c; mret st.

(** k8s_config.go *)
Definition config (server : string) : act string :=
  c ← client;
  _ ← require_initialized c;
  act_wrapf "Failed to generate an admin kubeconfig for %q." [server] (Client.KubeConfig c server).

(** k8s_certs_status.go *)
Definition certs_status : act (list CertificateStatus * list AuthorityStatus) :=
  c ← client;
  _ ← require_initialized c;
  act_wrapf "Failed to retrieve certificate status." [] (Client.CertificatesStatus c).

(** k8s_x_capi.go *)
Definition set_auth_token (args : list string) : act unit :=
  _ ← act_lift (ExactArgs 1 args);
  let token := default EmptyString (head args) in
  _ ← act_lift (fails_if (token ==? EmptyString) (Errorf "The token must be provided." []));
  c ← client;
  _ ← require_initialized c;
  act_wrapf "Failed to set the CAPI auth token." [] (Client.SetClusterAPIAuthToken c token).
End Member.

(** ** Commands that make a node a member *)

(** What the flags of bootstrap and join-cluster have in common. *)
Record Flags := mkFlags {
  fl_name : string; fl_address : string; fl_configFile : string; fl_timeout : Z; fl_containerdBaseDir : string }.
(** The environment variables [SNAP], [SNAP_COMMON] and [SNAP_INSTANCE_NAME]. *)
Record SnapVariables := mkSnapVariables { env_SNAP : string; env_SNAP_COMMON : string; env_SNAP_INSTANCE_NAME : string }.

Definition minTimeout : Z := 3 * 1000000000.

Section NewMember.
Context `{OSEnv, Externals, Outside, SnapEnv, Csr.CsrEnv, !BootstrapGetters, !TokenEnv, !CommandYaml}.
Context (order_ports : list (string * string) → list (string * string)) (variables : SnapVariables).
Context (interfaceAddrs : res (list NetAddr)) (interface_address : string) (env_client : res Client).

(** *** validate.go *)

Definition verifyConfig (cfg : ClusterConfig) (svcConfigs : K8sServiceConfigs) (containerdBaseDir : string)
    (isControlPlane : bool) : act unit :=
  _ ← act_wrapf "invalid cluster configuration: %w" [] (act_lift (Validate cfg));
  dir ← act_wrapf "invalid containerd-base-dir value: %w" [] (act_lift (normalizeContainerdBaseDir containerdBaseDir));
  s ← act_io (NewSnap (env_SNAP variables) (env_SNAP_COMMON variables) (env_SNAP_INSTANCE_NAME variables) dir);
  act_wrapf "pre-init checks failed for node: %w" [] (PreInitChecks order_ports s cfg svcConfigs isControlPlane).

Definition verifyBootstrapConfig (b : BootstrapConfig) (o : NodeOptions) (containerdBaseDir : string) : act unit :=
  cfg ← act_lift (ClusterConfigFromBootstrapConfig b);
  verifyConfig (Defaults.SetDefaults cfg) (control_plane_service_configs o) containerdBaseDir true.

Definition verifyJoinConfig (joinConfigString token : string) : act unit :=
  let cfg := Defaults.SetDefaults empty_ClusterConfig in
  match Decode token with
  | Ok _ =>
      '(o, dir) ← act_wrapf "failed to unmarshal worker join config: %w" []
                    (act_lift (worker_join_UnmarshalStrict joinConfigString));
      verifyConfig cfg (mkServiceConfigs [] [] (no_KubeletArgs o) (no_KubeProxyArgs o)) dir false
  | Err _ =>
      '(o, dir) ← act_wrapf "failed to unmarshal control plane join config: %w" []
                    (act_lift (control_plane_join_UnmarshalStrict joinConfigString));
      verifyConfig cfg (control_plane_service_configs o) dir true
  end.

(** *** What they share *)

Definition read_config (stdin_fmt file_fmt path : string) : act string :=
  if path ==? "-" then act_wrapf stdin_fmt [] (perform ReadStdin) else act_wrapf file_fmt [path] (act_io (os_ReadFile path)).
Definition hostname (name : string) : act string :=
  if name ==? EmptyString
  then act_wrapf "--name is not set and could not determine the current node name." [] (perform OSHostname)
  else mret name.
Definition parsed_address (address : string) : act string :=
  act_wrapf "Failed to parse the address %q." [address]
    (act_lift (ParseAddressString interfaceAddrs interface_address address DefaultPort)).
Definition no_member_yet : act Client :=
  c ← client env_client;
  r ← node_status c;
  match r with
  | Some _ => act_lift (Err (Errorf "The node is already part of a cluster" []))
  | None => mret c
  end.

(** *** k8s_bootstrap.go *)

(** A node has microk8s if snapd says that it is installed. *)
Definition check_microk8s : act unit :=
  r ← act_try (perform (SnapInstalled "microk8s"));
  match r with
  | Ok (code, installed) =>
      act_lift (fails_if ((code =? 200)%Z && installed)
        (Errorf "microk8s snap is installed. Please remove it using the following command and try again: sudo snap remove microk8s" []))
  | Err _ => mret tt
  end.

(** The default name is the cleaned host name, and the empty name if that is not valid. *)
Definition bootstrap_name (name : string) : act string :=
  host ← hostname name;
  mret (if name ==? EmptyString then match Csr.CleanHostname host with Ok clean => clean | Err _ => EmptyString end
        else name).

Definition no_options : NodeOptions :=
  mkNodeOptions [] false (λ _, EmptyString) (λ _, EmptyString) (VMap []) [] [] [] [] [] [] [] [] [].
Definition default_bootstrap : BootstrapConfig :=
  mkBootstrap
    (mkUserFacing (mkNetworkConfig (Some true) (Some false)) (mkDNSConfig (Some true) None None None)
       (mkIngressConfig None None None) (mkLoadBalancerConfig None None None None None None None None None)
       (mkLocalStorageConfig (Some true) None None None) (Some true) None None None)
    [] None None None None None [] None None None None None.

Definition getConfigFromYaml (path : string) : act (BootstrapConfig * NodeOptions * string) :=
  b ← read_config "failed to read config from stdin: %w" "failed to read file: %w" path;
  act_wrapf "failed to parse YAML config file: %w" [] (act_lift (bootstrap_UnmarshalStrict b)).

(** Where the configuration comes from; [answers] is that of the questions, if they are asked. *)
Definition bootstrap_config (answers : option BootstrapConfig) (path : string)
    : act (BootstrapConfig * NodeOptions * string) :=
  match answers with
  | Some b => mret (b, no_options, EmptyString)
  | None =>
      if path !=? EmptyString then
        act_wrapf "Failed to read bootstrap configuration from %q." [path] (getConfigFromYaml path)
      else mret (default_bootstrap, no_options, EmptyString)
  end.

(** The flag comes before the file. *)
Definition bootstrap_base_dir (flag given : string) : act string :=
  act_wrapf "invalid containerd-base-dir value." []
    (act_lift (normalizeContainerdBaseDir (if flag !=? EmptyString then flag else given))).

Definition bootstrap (answers : option BootstrapConfig) (f : Flags) : act (string * string) :=
  _ ← check_microk8s;
  _ ← act_lift (fails_if (bool_decide (is_Some answers) && (fl_configFile f !=? EmptyString))
        (Errorf "--interactive and --file flags cannot be set at the same time." []));
  name ← bootstrap_name (fl_name f);
  address ← parsed_address (fl_address f);
  c ← no_member_yet;
  '(b, o, dir) ← bootstrap_config answers (fl_configFile f);
  dir ← bootstrap_base_dir (fl_containerdBaseDir f) dir;
  _ ← act_wrapf "Bootstrap config verification failed." [] (verifyBootstrapConfig b o dir);
  act_wrapf "Failed to bootstrap the cluster." []
    (Client.BootstrapCluster c (mkBootstrapCluster name address (b, o) dir (Z.max minTimeout (fl_timeout f)))).

(** *** k8s_join_cluster.go *)

(** The flag is written into the configuration. *)
Definition with_base_dir_flag (dir joinClusterConfig : string) : act string :=
  if dir ==? EmptyString then mret joinClusterConfig
  else
    m ← (if joinClusterConfig !=? EmptyString
         then act_wrapf "Failed to parse join configuration." [] (act_lift (any_Unmarshal joinClusterConfig))
         else mret None);
    dir ← act_wrapf "invalid containerd-base-dir value." [] (act_lift (normalizeContainerdBaseDir dir));
    act_wrapf "Failed to serialize join configuration." []
      (act_lift (any_Marshal (<["containerd-base-dir" := VString dir]> (default ∅ m)))).

Definition join_cluster (f : Flags) (args : list string) : act string :=
  _ ← act_lift (ExactArgs 1 args);
  let token := default EmptyString (head args) in
  name ← hostname (fl_name f);
  address ← parsed_address (fl_address f);
  c ← no_member_yet;
  joinClusterConfig ←
    (if fl_configFile f !=? EmptyString
     then read_config "Failed to read join configuration from stdin." "Failed to read join configuration from %q."
            (fl_configFile f)
     else mret EmptyString);
  joinClusterConfig ← with_base_dir_flag (fl_containerdBaseDir f) joinClusterConfig;
  _ ← act_wrapf "Join cluster config verification failed." [] (verifyJoinConfig joinClusterConfig token);
  _ ← act_wrapf "Failed to join the cluster using the provided token." []
        (Client.JoinCluster c (mkJoinCluster name address token joinClusterConfig (Z.max minTimeout (fl_timeout f))));
  mret name.
End NewMember.

(** ** k8s_refresh_certs.go *)

Record RefreshFlags := mkRefreshFlags {
  rf_expiresIn : string; rf_extraSANs : list string; rf_certificates : list string; rf_externalCerts : string }.

Section Refresh.
Context `{OSEnv, Outside, MapCodec, CommandYaml}.
Context (env_client : res Client).

Definition refresh_flags (f : RefreshFlags) : res unit :=
  if rf_externalCerts f ==? EmptyString then
    fails_if (rf_expiresIn f ==? EmptyString)
      (Errorf "the --expires-in flag is required when not using --external-certificates." [])
  else
    fails_if ((rf_expiresIn f !=? EmptyString) || negb (length (rf_extraSANs f) =? 0)%nat
              || negb (length (rf_certificates f) =? 0)%nat)
      (Errorf "--external-certificates cannot be used together with --expires-in, --extra-sans, or --certificates." []).

Definition getCertificatesFromYAML (path : string) : act (Field → string) :=
  b ← read_config "failed to read certificates from stdin: %w" "failed to read file: %w" path;
  act_wrapf "failed to parse YAML certificates file: %w" [] (act_lift (certificates_UnmarshalStrict b)).

(** The result is the time at which the new certificates expire, if it is known. *)
Definition refresh_certs (f : RefreshFlags) : act (option Z) :=
  _ ← act_lift (refresh_flags f);
  c ← client env_client;
  _ ← require_initialized c;
  if rf_externalCerts f !=? EmptyString then
    certificates ← act_wrapf "Failed to parse certificates file: %v" [] (getCertificatesFromYAML (rf_externalCerts f));
    _ ← act_wrapf "Failed to refresh external certificates: %v" [] (Client.RefreshCertificatesUpdate c certificates);
    mret None
  else
    ttl ← act_wrapf "Failed to parse TTL." [] (act_lift (TTLToSeconds (rf_expiresIn f)));
    '(seed, csrs) ← act_wrapf "Failed to get the certificates refresh plan." []
                      (Client.RefreshCertificatesPlan c (rf_certificates f));
    expires ← act_wrapf "Failed to refresh the certificates." []
                (Client.RefreshCertificatesRun c (mkRefreshRun seed ttl (rf_extraSANs f) (rf_certificates f)));
    mret (Some expires).
End Refresh.

(** ** k8s_kubectl.go and k8s_x_capi.go *)

Section Node.
Context `{OSEnv, Outside, SnapEnv}.

(** [None] is the panic of [EnvironWithDefaults]. *)
Definition kubectl_fallback (dir : string) (environ : list string) : act (option string) :=
  let admin := filepath_Join [dir; "admin.conf"] in
  let kubelet := filepath_Join [dir; "kubelet.conf"] in
  r ← act_try (perform (Stat admin));
  if is_ok r then mret (Some admin)
  else
    r ← act_try (perform (Stat kubelet));
    if is_ok r then mret (Some kubelet)
    else if negb (ExistsInEnviron environ "KUBECONFIG") then
      act_lift (Err (Errorf "%s and %s do not exist; please set KUBECONFIG." [admin; kubelet]))
    else mret None.
Definition kubectl (s : SnapI) (environ args : list string) : act (option unit) :=
  fallback ← kubectl_fallback (KubernetesConfigDir s) environ;
  let keyValues := match fallback with Some path => [("KUBECONFIG", path)] | None => [] end ++ [("EDITOR", "nano")] in
  match EnvironWithDefaults environ keyValues with
  | None => mret None
  | Some environ =>
      _ ← act_wrapf "Failed to run %s." [] (perform (Exec (filepath_Join [K8sBinDir (system s); "kubectl"]) ("kubectl" :: args) environ));
      mret (Some tt)
  end.

Definition set_node_token (s : snap) (args : list string) : act unit :=
  _ ← act_lift (ExactArgs 1 args);
  let token := default EmptyString (head args) in
  _ ← act_lift (fails_if (token ==? EmptyString) (Errorf "The token must be provided." []));
  act_wrapf "Failed to write the node token to file." [] (act_io (WriteFile (NodeTokenFile s) token 384)).

(** k8s_x_cleanup.go and k8s_x_wait_for.go *)
Definition x_cleanup_network (s : SnapI) : act unit :=
  _ ← NodeConfig.RemoveKubeProxyRules s;
  act_wrapf "failed to cleanup network: %v" [] Cilium.CleanupNetwork.
Definition x_cleanup_containerd (order : list (string * string) → list (string * string)) (s : SnapI) : act unit :=
  Cleanup.TryCleanupContainerdPaths order s.
Definition x_wait_for (ticks : nat) (check : act unit) : act unit :=
  WaitUntilReady ticks (r ← act_try check; mret (is_ok r)).
Definition x_wait_for_dns (ticks : nat) : act unit :=
  act_wrapf "DNS did not become ready: %v" [] (x_wait_for ticks Builtin.CheckDNS).
Definition x_wait_for_network (ticks : nat) : act unit :=
  act_wrapf "network did not become ready: %v" [] (x_wait_for ticks Cilium.CheckNetwork).
End Node.
End Commands.
