(* ===== verification/Recover.v ===== *)
(** * Recovery from a lost quorum

    cmd/k8sd/k8sd_cluster_recover.go: what "k8sd cluster-recover" asks before it lets microcluster
    rewrite the cluster, and the files that it has the user edit; [YamlCommentLines] is of
    pkg/utils/yaml.go.  A failed check exits with status 1.

    External: the editor, the YAML of the members ([MembersYaml]) and the two operations of
    microcluster ([DqliteMembers], [RecoverFromQuorumLoss]). *)

From S2P Require Import Prelude GoStrings FileSys Effects CliInput CliValues.
Import GoStr FileSys Effects CliInput CliValues.

Module Recover.

Class MembersYaml := {
  members_Marshal : list DqliteMember → res string;
  members_Unmarshal : string → res (list DqliteMember) }.

(** ** Lines *)

(** The white space of a regular expression. *)
Definition re_space (a : ascii) : bool := byte_in 9 10 a || byte_in 12 13 a || byte_is 32 a.

(** [.*?FOOTER *], as often as it matches: the text after the last footer, without the
    spaces that follow each.  [skip] bytes are of a footer; [kept] is what was read since the
    last one. *)
Fixpoint without_header (footer : string) (skip : nat) (spaces : bool) (kept : string) (s : string) : string :=
  match s with
  | EmptyString => kept
  | String a t =>
      match skip with
      | S skip => without_header footer skip true EmptyString t
      | O =>
          if spaces && byte_is 32 a then without_header footer 0 true EmptyString t
          else if has_prefix footer s then without_header footer (String.length footer - 1) true EmptyString t
          else without_header footer 0 false (kept +:+ one a) t
      end
  end.
Definition yamlHelperCommentFooter : string :=
  "# ------- everything below will be written -------" +:+ one newline.
Definition removeYamlHelperComments (content : string) : string :=
  without_header yamlHelperCommentFooter 0 false EmptyString content.

(** How much a match of [^\s*$] takes at the start of a line: white space up to the last
    place where a line ends. *)
Fixpoint blank_bytes (s : string) : option nat :=
  match s with
  | EmptyString => Some 0
  | String a t =>
      let here := if byte_is 10 a then Some 0%nat else None in
      if re_space a then match blank_bytes t with Some n => Some (S n) | None => here end else here
  end.
Fixpoint remove_blank (start : bool) (skip : nat) (s : string) : string :=
  match s with
  | EmptyString => EmptyString
  | String a t =>
      match skip with
      | S skip => remove_blank false skip t
      | O =>
          match (if start then default 0%nat (blank_bytes s) else 0%nat) with
          | S n => remove_blank false n t
          | O => String a (remove_blank (byte_is 10 a) 0 t)
          end
      end
  end.
Definition removeEmptyLines (content : string) : string := remove_blank true 0 content.

(** pkg/utils/yaml.go *)
Fixpoint comment_lines (s : string) : string :=
  match s with
  | EmptyString => EmptyString
  | String a t => String a (if byte_is 10 a then "# " +:+ comment_lines t else comment_lines t)
  end.
Definition YamlCommentLines (content : string) : string := "# " +:+ comment_lines content.

(** ** The command *)

Section Recover.
Context `{OSEnv, Outside, MembersYaml}.

(** The answer is a line of a terminal; [None] is the end of the input before the end of a line. *)
Definition recoveryCmdPrechecks (terminal nonInteractive : bool) (stateDir : string) (answer : option string) : res unit :=
  _ ← fails_if (negb terminal && negb nonInteractive)
        (Errorf "interactive mode requested in a non-interactive terminal" []);
  _ ← fails_if (stateDir ==? EmptyString) (Errorf "k8sd state dir not specified" []);
  if nonInteractive then Ok tt
  else
    input ← match answer with Some line => Ok line | None => Err (Errorf "couldn't read user input, error: %w" []) end;
    fails_if (ToLower input !=? "yes") (Errorf "cluster edit aborted; no changes made" []).

(** [path] is the file that is read, and written again; without one the guide is all there is to
    edit. *)
Definition yamlEditorGuide (path : option string) (guideContent : string) : act string :=
  currContent ← match path with
                | Some path =>
                    content ← act_wrapf "could not read file: %s, error: %w" [path] (act_io (os_ReadFile path));
                    mret (removeEmptyLines content)
                | None => mret EmptyString
                end;
  newContent ← act_wrapf "text editor failed, error: %w" []
                 (perform (TextEditor (guideContent +:+ one newline +:+ currContent)));
  let newContent := removeEmptyLines (removeYamlHelperComments newContent) in
  match path with
  | Some path =>
      _ ← act_wrapf "could not write file: %s, error: %w" [path] (act_io (WriteFile path newContent 420)); mret newContent
  | None => mret newContent
  end.

(** The guides, with their comments; [filepath_Join] is [path.Join]. *)
Definition failed_editor : string := "interactive text editor failed, error: %w".
Definition guide (header comment clusterYaml : string) : string :=
  header +:+ "#" +:+ one newline +:+ comment +:+ YamlCommentLines clusterYaml +:+ one newline +:+ yamlHelperCommentFooter.

Record Guides := mkGuides {
  clusterYamlHeader : string; infoYamlHeader : string → string; infoYamlRecoveryComment : string;
  daemonYamlHeader : string → string; daemonYamlRecoveryComment : string }.

Definition edit_members (g : Guides) (databaseDir stateDir oldMembersYaml : string) : act string :=
  clusterYaml ← act_wrapf failed_editor []
    (yamlEditorGuide None (clusterYamlHeader g +:+ yamlHelperCommentFooter +:+ one newline +:+ oldMembersYaml));
  let info := filepath_Join [databaseDir; "info.yaml"] in
  _ ← act_wrapf failed_editor []
        (yamlEditorGuide (Some info) (guide (infoYamlHeader g info) (infoYamlRecoveryComment g) clusterYaml));
  let daemon := filepath_Join [stateDir; "daemon.yaml"] in
  _ ← act_wrapf failed_editor []
        (yamlEditorGuide (Some daemon) (guide (daemonYamlHeader g daemon) (daemonYamlRecoveryComment g) clusterYaml));
  mret clusterYaml.

Definition recoverK8sd (g : Guides) (nonInteractive : bool) (databaseDir stateDir : string) : act string :=
  members ← act_wrapf "could not retrieve K8sd cluster members, error: %w" [] (perform DqliteMembers);
  oldMembersYaml ← act_wrapf "could not serialize cluster members, error: %w" [] (act_lift (members_Marshal members));
  clusterYaml ← (if nonInteractive then mret oldMembersYaml else edit_members g databaseDir stateDir oldMembersYaml);
  newMembers ← act_wrapf "couldn't parse cluster.yaml, error: %w" [] (act_lift (members_Unmarshal clusterYaml));
  act_wrapf "k8sd recovery failed, error: %w" [] (perform (RecoverFromQuorumLoss newMembers)).

(** The result is the path of the tarball. *)
Definition cluster_recover (g : Guides) (terminal nonInteractive : bool) (databaseDir stateDir : string)
    (answer : option string) : act string :=
  _ ← act_wrapf "Recovery precheck failed: %v" [] (act_lift (recoveryCmdPrechecks terminal nonInteractive stateDir answer));
  act_wrapf "Failed to recover k8sd, error: %v" [] (recoverK8sd g nonInteractive databaseDir stateDir).
End Recover.

Lemma one_empty_line : removeEmptyLines ("a" +:+ one newline +:+ one newline +:+ "b") = "a" +:+ one newline +:+ one newline +:+ "b".
Proof. reflexivity. Qed.
Lemma two_empty_lines :
  removeEmptyLines ("a" +:+ one newline +:+ " " +:+ one newline +:+ one newline +:+ "b") = "a" +:+ one newline +:+ one newline +:+ "b".
Proof. reflexivity. Qed.
End Recover.
