(* ===== verification/CommandsFacts.v ===== *)
(** * What the commands do

    The commands that configure the cluster are proved against the interface [ClientOk]: what
    they read is what was stored, and a failed one leaves the cluster as it was.  A
    node is only asked to become a member with a configuration that was verified. *)

From S2P Require Import Prelude GoStrings GoNet Cidr Config ConfigMerge ConfigConvert ConfigDefaults ConfigValidate FileSys.
From S2P Require Import Pki PkiNode Arguments Setup Node Database Csr Effects Snap NodeSetup Token KubeClient Checks Cleanup.
From S2P Require Import Hooks HooksBootstrap Api ApiTokens ApiCluster ApiNodes ApiCertificates ApiFacts ApiClusterFacts.
From S2P Require Import JoinFacts ApiCertificatesFacts ApiRemoveFacts ApiRefreshFacts.
From S2P Require Import Client ClientFacts CliInput CliValues Commands Recover.
Import GoStr GoNet Cidr Config Merge Convert FileSys Pki PkiNode Arguments Setup Node Database Effects Snap NodeSetup Token.
Import Validation KubeClient Checks Hooks Bootstrap Api ApiTokens ApiCluster ApiNodes ApiCertificates ApiFacts ApiClusterFacts.
Import Client ClientFacts CliInput CliValues Commands Recover.

Module CommandsFacts.

(** ** Steps that keep everything *)

Definition quiet {A} (m : act A) : Prop := ∀ s r s', m s = (r, s') → kept s s'.
(** A step that keeps everything when it fails. *)
Definition careful {A} (Q : A → Machine → Machine → Prop) (m : act A) : Prop := ∀ s r s', m s = (r, s') →
  match r with Ok x => Q x s s' | Err _ => kept s s' end.
Definition after_kept {A} (Q : A → Machine → Machine → Prop) : Prop := ∀ x s1 s2 s3, kept s1 s2 → Q x s2 s3 → Q x s1 s3.

Lemma quiet_lift {A} (x : res A) : quiet (act_lift x).
Proof. by intros s r s' [= _ <-]. Qed.
Lemma quiet_ret {A} (x : A) : quiet (mret x).
Proof. by intros s r s' [= _ <-]. Qed.
Lemma quiet_wrapf {A} fmt args (m : act A) : quiet m → quiet (act_wrapf fmt args m).
Proof. intros Hm s r s' (r1 & E & _)%act_wrapf_run. by eapply Hm. Qed.
Lemma quiet_try {A} (m : act A) : quiet m → quiet (act_try m).
Proof. intros Hm s r s' E. unfold act_try in E. destruct (m s) as [r0 s0] eqn:E0. injection E as _ <-. by eapply Hm. Qed.
Lemma quiet_perform `{Outside} c : quiet (perform c).
Proof. intros s r s'. apply perform_kept. Qed.
Lemma quiet_bind {A B} (m : act A) (k : A → act B) : quiet m → (∀ a, quiet (k a)) → quiet (m ≫= k).
Proof.
  intros Hm Hk s r s' [(a & s1 & E%Hm & E1%Hk)|(e & E%Hm & _)]%act_bind_inv; [by transitivity s1|done].
Qed.
Lemma quiet_read `{OSEnv} path : quiet (act_io (os_ReadFile path)).
Proof.
  intros s r s' E. eapply asked_kept; [|apply asks_io, os_ReadFile_keeps|exact E]. emits_go.
Qed.

Lemma careful_bind {A B} (Q : B → Machine → Machine → Prop) (m : act A) (k : A → act B) : after_kept Q → quiet m →
  (∀ a, (∃ s s', m s = (Ok a, s')) → careful Q (k a)) → careful Q (m ≫= k).
Proof.
  intros HQ Hm Hk s r s' [(a & s1 & E & E1)|(e & E & ->)]%act_bind_inv; [|by eapply Hm].
  pose proof (Hm _ _ _ E) as K. pose proof (Hk a (ex_intro _ s (ex_intro _ s1 E)) _ _ _ E1) as E2.
  destruct r; [by eapply HQ|by transitivity s1].
Qed.
Lemma careful_then {A B} (Q : A → Machine → Machine → Prop) (Q' : B → Machine → Machine → Prop) (m : act A) (g : A → B) :
  careful Q m → (∀ x s s', Q x s s' → Q' (g x) s s') → careful Q' (x ← m; mret (g x)).
Proof.
  intros Hm Hg s r s' [(a & s1 & E%Hm & [= <- <-])|(e & E%Hm & ->)]%act_bind_inv; [by apply Hg|done].
Qed.
Lemma careful_wrapf {A} (Q : A → Machine → Machine → Prop) fmt args (m : act A) : careful Q m → careful Q (act_wrapf fmt args m).
Proof. intros Hm s r s' (r1 & E%Hm & ->)%act_wrapf_run. by destruct r1. Qed.

(** ** What the commands read and write *)

(** The switch of a feature. *)
Definition enabled_of (feature : string) (u : UserFacingClusterConfig) : option bool :=
  if feature ==? "network" then api_Network_Enabled (u_Network u)
  else if feature ==? "dns" then api_DNS_Enabled (u_DNS u)
  else if feature ==? "gateway" then u_Gateway_Enabled u
  else if feature ==? "ingress" then api_Ingress_Enabled (u_Ingress u)
  else if feature ==? "local-storage" then api_LS_Enabled (u_LocalStorage u)
  else if feature ==? "load-balancer" then api_LB_Enabled (u_LoadBalancer u)
  else if feature ==? "metrics-server" then u_MetricsServer_Enabled u
  else None.

Lemma switch_feature_enabled fmt kp b u f u' g : switch_feature fmt kp b u f = Ok u' →
  enabled_of g u' = if f ==? g then Some b else enabled_of g u.
Proof.
  unfold switch_feature. repeat (case_bool_decide; [intros [= <-]; subst f|]); [..|done];
    unfold enabled_of; repeat (case_bool_decide; subst; try done).
Qed.
Lemma switch_features_enabled fmt kp b fs : ∀ u u' g, switch_features fmt kp b u fs = Ok u' →
  enabled_of g u' = if bool_decide (g ∈ fs) then Some b else enabled_of g u.
Proof.
  induction fs as [|f fs IH]; cbn [switch_features]; intros u u' g.
  - intros [= <-]. by rewrite bool_decide_eq_false_2 by apply not_elem_of_nil.
  - intros (u1 & E1 & E2)%bind_Ok. rewrite (IH _ _ _ E2), (switch_feature_enabled _ _ _ _ _ _ g E1).
    repeat case_bool_decide; set_solver.
Qed.

(** ** The configuration commands *)

Section Configure.
Context `{DBEnv, Externals, Outside}.

(** The configuration was sent, merged into the one there was, stored, and told. *)
Definition no_datastore : UserFacingDatastoreConfig := mkUserFacingDatastore None None None None None.
Definition applied (config : UserFacingClusterConfig) (m m' : Machine) : Prop :=
  later m m' ∧ m_world m' = m_world m ∧ ∃ new old stored flags l,
    requested (mkSetClusterConfig config no_datastore) = Ok new ∧ Database.GetClusterConfig (m_db m) = Ok old ∧
    MergeClusterConfig old new = Ok stored ∧ Database.SetClusterConfig new (m_db m) = Ok (stored, m_db m') ∧
    m_log m' = l ++ [NotifyNodeConfig; NotifyFeatures flags] ∧ changes_are_notified old stored flags.
Lemma applied_after_kept {A} (P : A → UserFacingClusterConfig → Prop) :
  after_kept (λ x m m', ∃ config, P x config ∧ applied config m m').
Proof.
  intros x m m1 m' (L & W & D) (config & HP & L' & W' & E). exists config. split; [done|].
  split; [by transitivity m1|]. rewrite W', W. split; [done|]. by rewrite D in E.
Qed.

Context (c : Client) `{!ClientOk c}.

Lemma quiet_client (env_client : res Client) : quiet (client env_client).
Proof. apply quiet_wrapf, quiet_lift. Qed.
Lemma quiet_node_status : quiet (node_status c).
Proof. apply quiet_wrapf. intros s r s'. apply NodeStatus_kept. Qed.
Lemma quiet_require_initialized : quiet (require_initialized c).
Proof. apply quiet_bind; [apply quiet_node_status|]. intros [?|]; [apply quiet_ret|apply quiet_lift]. Qed.

Lemma set_config_careful fmt args config : careful (λ _, applied config) (set_config fmt args c config).
Proof. apply careful_wrapf. intros s r s' E%SetClusterConfig_spec. by destruct r. Qed.

(** The commands that change the configuration: what they built was sent. *)
Definition sends {A} (built : res UserFacingClusterConfig) (result : UserFacingClusterConfig → A) : act A → Prop :=
  careful (λ x m m', ∃ config, (built = Ok config ∧ x = result config) ∧ applied config m m').

Lemma sends_bind {A B} built (result : UserFacingClusterConfig → B) (m : act A) (k : A → act B) : quiet m →
  (∀ a, (∃ s s', m s = (Ok a, s')) → sends built result (k a)) → sends built result (m ≫= k).
Proof. intros Hm Hk. by apply careful_bind; [apply (applied_after_kept (λ x config, built = Ok config ∧ x = result config))|..]. Qed.
Lemma sends_set {A} built (result : UserFacingClusterConfig → A) fmt args config : built = Ok config →
  sends built result (_ ← set_config fmt args c config; mret (result config)).
Proof. intros E. eapply careful_then; [apply set_config_careful|]. intros [] s s' Ha. by exists config. Qed.
Lemma sends_client {A} built (result : UserFacingClusterConfig → A) (k : Client → act A) :
  sends built result (k c) → sends built result (x ← client (Ok c); k x).
Proof. intros Hk. apply sends_bind; [apply quiet_client|]. intros x (s & s' & [= <- _]). done. Qed.

Lemma enable_sends fs : sends (switch_features "Cannot enable %q" (Some false) true empty_user_facing fs) (λ _, fs) (enable (Ok c) fs).
Proof.
  unfold enable. apply sends_bind; [apply quiet_lift|]. intros _ _.
  apply sends_bind; [apply quiet_lift|]. intros config (s & s' & [= E _]).
  apply sends_client, sends_bind; [apply quiet_require_initialized|]. intros _ _. by apply (sends_set _ (λ _, fs)).
Qed.
Lemma disable_sends fs : sends (switch_features "Cannot disable %q" None false empty_user_facing fs) (λ _, fs) (disable (Ok c) fs).
Proof.
  unfold disable. apply sends_bind; [apply quiet_lift|]. intros _ _.
  apply sends_bind; [apply quiet_lift|]. intros config (s & s' & [= E _]).
  apply sends_client, sends_bind; [apply quiet_require_initialized|]. intros _ _. by apply (sends_set _ (λ _, fs)).
Qed.
Lemma set_sends `{Mapstructure} args : sends (updateConfig empty_user_facing args) id (set (Ok c) args).
Proof.
  unfold set. apply sends_bind; [apply quiet_lift|]. intros _ _.
  apply sends_bind; [apply quiet_wrapf, quiet_lift|]. intros config (s & s' & E%act_wrapf_Ok). injection E as E _.
  by apply sends_client, (sends_set _ id).
Qed.

Definition switch (b : bool) : res Client → list string → act (list string) := if b then enable else disable.
Definition switched (b : bool) (fs : list string) : res UserFacingClusterConfig :=
  if b then switch_features "Cannot enable %q" (Some false) true empty_user_facing fs
  else switch_features "Cannot disable %q" None false empty_user_facing fs.
Lemma switch_sends b fs : sends (switched b fs) (λ _, fs) (switch b (Ok c) fs).
Proof. destruct b; [apply enable_sends|apply disable_sends]. Qed.
Lemma switched_enabled b fs u g : switched b fs = Ok u →
  enabled_of g u = if bool_decide (g ∈ fs) then Some b else None.
Proof.
  unfold switched. assert (E0 : enabled_of g empty_user_facing = None).
  { unfold enabled_of. by repeat case_bool_decide. }
  destruct b; intros E%(switch_features_enabled _ _ _ _ _ _ g); by rewrite E, E0.
Qed.

(** *** get *)

Lemma get_run `{ApiGetters} args m r m' : get (Ok c) args m = (r, m') → kept m m' ∧
  match r with
  | Ok out => ∃ cfg, Database.GetClusterConfig (m_db m) = Ok cfg ∧
      get_output (ToUserFacing cfg) (match args with [key] => key | _ => EmptyString end) = Ok out
  | Err _ => True
  end.
Proof.
  unfold get. intros [([] & s0 & [= _ <-] & E)|(e & [= _ <-] & ->)]%act_bind_inv; [|done].
  apply act_bind_inv in E as [(c' & s0 & [= <- <-] & E)|(e & [=] & _)].
  apply act_bind_inv in E as [(status & s1 & K%quiet_require_initialized & E)|(e & K%quiet_require_initialized & ->)]; [|done].
  apply act_bind_inv in E as [(resp & s2 & E1%act_wrapf_Ok & E)|(e & (r1 & E1 & Hr)%act_wrapf_run & ->)].
  - apply GetClusterConfig_spec in E1 as (K2 & cfg & Hg & ->). injection E as <- <-. cbn [gc_Config].
    split; [by transitivity s1|]. destruct (get_output _ _) eqn:Eo; [|done]. exists cfg. split; [|done].
    destruct K as (_ & _ & D). by rewrite <- D.
  - apply GetClusterConfig_spec in E1 as [K2 _]. split; [by transitivity s1|done].
Qed.
End Configure.

Lemma get_enabled `{ApiGetters} u f : f ∈ featureList →
  get_output u (f +:+ ".enabled") = Ok (OBool (api_bool (enabled_of f u))).
Proof.
  intros Hf. unfold featureList in Hf. repeat (apply elem_of_cons in Hf as [->|Hf]; [vm_compute; done|]).
  by apply not_elem_of_nil in Hf.
Qed.

(** ** What was stored is what is read *)

Section Stored.
Context `{DBEnv, Externals, !JsonOk}.

Lemma requested_enabled config new old f : requested (mkSetClusterConfig config no_datastore) = Ok new →
  enabled_of f (ToUserFacing (overlay_config old new)) = overlay (enabled_of f (ToUserFacing old)) (enabled_of f config).
Proof.
  unfold requested. intros (c1 & Ec%wrapf_Ok & (d & _ & [= <-])%bind_Ok)%bind_Ok.
  unfold ClusterConfigFromUserFacing in Ec. apply bind_Ok in Ec as ([cidrs ranges] & _ & [= <-]).
  unfold enabled_of. by repeat case_bool_decide.
Qed.
Lemma stored_is_read new d stored d' cfg : json_representable stored → Database.SetClusterConfig new d = Ok (stored, d') →
  Database.GetClusterConfig d' = Ok cfg → cfg = json_norm stored.
Proof.
  intros Hr (old & s & _ & _ & Hm & ->)%SetClusterConfig_Ok Hg. unfold Database.GetClusterConfig in Hg.
  apply bind_unit_Ok in Hg as [_ Hg]. destruct (db_fail QuerySelect); [done|].
  unfold put_config in Hg. cbn -[insert lookup] in Hg. rewrite lookup_insert_eq in Hg. apply wrapf_Ok in Hg.
  rewrite (json_roundtrip _ _ Hr Hm) in Hg. by injection Hg.
Qed.
Lemma enabled_norm f c : enabled_of f (ToUserFacing (json_norm c)) = enabled_of f (ToUserFacing c).
Proof. unfold enabled_of. by repeat case_bool_decide. Qed.
End Stored.

(** ** Properties *)

Section Properties.
Context `{DBEnv, Externals, Outside, !JsonOk}.
Context (c c' : Client) `{!ClientOk c, !ClientOk c'}.

(** C32: What "k8s enable" or "k8s disable" reported as done is what "k8s get" prints afterwards: for
    each feature of the list, "f.enabled" is the new value if the feature was named, and
    what it was before if it was not.  This is so for any two clients that keep the
    promises of the interface, also when the second is that of another connection. *)
Theorem switch_then_get `{ApiGettersOk} b fs f old out m m1 m2 :
  Database.GetClusterConfig (m_db m) = Ok old → f ∈ featureList →
  (∀ new stored d, Database.SetClusterConfig new (m_db m) = Ok (stored, d) → json_representable stored) →
  switch b (Ok c) fs m = (Ok fs, m1) → get (Ok c') [f +:+ ".enabled"] m1 = (Ok out, m2) →
  out = OBool (if bool_decide (f ∈ fs) then b else getField (enabled_of f (ToUserFacing old))).
Proof.
  intros Ho Hf Hr (config & [Hb _] & _ & _ & new & old' & stored & flags & l & Hq & Ho' & Hm & Hs & _)%(switch_sends c).
  rewrite Ho in Ho'. injection Ho' as <-. intros [_ (cfg & Hg & Eo)]%(get_run c').
  rewrite (get_enabled _ _ Hf) in Eo. injection Eo as <-.
  rewrite (stored_is_read _ _ _ _ _ (Hr _ _ _ Hs) Hs Hg), enabled_norm.
  apply MergeClusterConfig_Ok in Hm as (_ & -> & _).
  rewrite (requested_enabled _ _ _ _ Hq), (switched_enabled _ _ _ f Hb), api_bool_eq.
  by case_bool_decide.
Qed.

End Properties.

(** ** A new member *)

Section NewMember.
Context `{OSEnv, Externals, Outside, SnapEnv, PkiEnv, !Csr.CsrEnv, !BootstrapGetters, !TokenEnv, !CommandYaml}.
Context (order_ports : list (string * string) → list (string * string)) (variables : SnapVariables).
Context (interfaceAddrs : res (list NetAddr)) (interface_address : string).

Lemma NewSnap_keeps dir common instance base w r w' : NewSnap dir common instance base w = (r, w') → w' = w.
Proof.
  unfold NewSnap, snap_Strict, mbind, io_bind, io_try. destruct (os_ReadFile _ w) as [r0 w0] eqn:E.
  apply os_ReadFile_keeps in E as ->. by destruct r0; intros [= _ <-].
Qed.
Lemma quiet_NewSnap dir common instance base : quiet (act_io (NewSnap dir common instance base)).
Proof. intros s r s'. apply asked_kept; [emits_go|apply asks_io; by intros w r0 w' ?%NewSnap_keeps]. Qed.
Lemma quiet_check_ports ports : quiet (check_ports ports).
Proof. intros s r s' [((l & Hl) & Hw & Hd) _]%check_ports_run. by split; [exists l|]. Qed.
Lemma quiet_run_binaries dir binaries : quiet (run_binaries dir binaries).
Proof.
  induction binaries as [|b bs IH]; [apply quiet_ret|]. apply quiet_bind; [apply quiet_wrapf, quiet_perform|]. by intros _.
Qed.
Lemma quiet_pre_init sn cfg svc cp : quiet (PreInitChecks order_ports sn cfg svc cp).
Proof.
  unfold PreInitChecks, CheckK8sServicePorts. apply quiet_bind.
  { apply quiet_wrapf, quiet_bind; [apply quiet_check_ports|]. intros ?. apply quiet_lift. }
  intros _. apply quiet_bind; [apply quiet_run_binaries|]. intros _.
  apply quiet_bind; [apply quiet_try; exact (quiet_perform (Stat _))|]. intros [?|e]; [apply quiet_lift|].
  destruct (errors_Is _ _); [apply quiet_ret|apply quiet_lift].
Qed.

(** A step that keeps everything: either it ends the command, or the rest follows. *)
Lemma quiet_step {A B} (m : act A) (k : A → act B) s r s' : quiet m → (m ≫= k) s = (r, s') →
  (∃ e, r = Err e ∧ kept s s') ∨ ∃ a s1, m s = (Ok a, s1) ∧ kept s s1 ∧ k a s1 = (r, s').
Proof.
  intros Hm [(a & s1 & E & E1)|(e & E & ->)]%act_bind_inv.
  - right. exists a, s1. split; [done|]. split; [by eapply Hm|done].
  - left. exists e. split; [done|]. by eapply Hm.
Qed.

Lemma quiet_read_config f1 f2 path : quiet (read_config f1 f2 path).
Proof. unfold read_config. case_bool_decide; apply quiet_wrapf; [exact (quiet_perform ReadStdin)|apply quiet_read]. Qed.
Lemma quiet_hostname name : quiet (hostname name).
Proof. unfold hostname. case_bool_decide; [apply quiet_wrapf; exact (quiet_perform OSHostname)|apply quiet_ret]. Qed.
Lemma quiet_bootstrap_name name : quiet (bootstrap_name name).
Proof. apply quiet_bind; [apply quiet_hostname|]. intros ?. apply quiet_ret. Qed.
Lemma quiet_microk8s : quiet check_microk8s.
Proof.
  apply quiet_bind; [apply quiet_try; exact (quiet_perform (SnapInstalled "microk8s"))|]. intros [[code installed]|e]; [apply quiet_lift|apply quiet_ret].
Qed.
Lemma quiet_bootstrap_config answers path : quiet (bootstrap_config answers path).
Proof.
  destruct answers; [apply quiet_ret|]. unfold bootstrap_config. case_bool_decide; [apply quiet_ret|].
  apply quiet_wrapf, quiet_bind; [apply quiet_read_config|]. intros ?. apply quiet_wrapf, quiet_lift.
Qed.

(** The checks have passed, in the state in which the node is asked. *)
Definition verified (cfg : ClusterConfig) (svc : K8sServiceConfigs) (dir : string) (cp : bool) (m : Machine) : Prop :=
  Validate cfg = Ok tt ∧ (∃ clean, normalizeContainerdBaseDir dir = Ok clean) ∧
  ∃ sn m0, PreInitChecks order_ports sn cfg svc cp m0 = (Ok tt, m).

Lemma verifyConfig_run cfg svc dir cp s r s' : verifyConfig order_ports variables cfg svc dir cp s = (r, s') →
  kept s s' ∧ (r = Ok tt → verified cfg svc dir cp s').
Proof.
  unfold verifyConfig. intros [(e & -> & K)|([] & s1 & E1%act_wrapf_Ok & K1 & E)]%quiet_step; [done| |apply quiet_wrapf, quiet_lift].
  injection E1 as Hv _. apply quiet_step in E as [(e & -> & K)|(clean & s2 & E2%act_wrapf_Ok & K2 & E)];
    [split; [by transitivity s1|done]| |apply quiet_wrapf, quiet_lift].
  injection E2 as Hd _. apply quiet_step in E as [(e & -> & K)|(sn & s3 & _ & K3 & E)];
    [split; [by transitivity s1; [|transitivity s2]|done]| |apply quiet_NewSnap].
  apply act_wrapf_run in E as (r1 & E & ->). split.
  - transitivity s1; [done|]. transitivity s2; [done|]. transitivity s3; [done|]. by apply quiet_pre_init in E.
  - intros Hr. destruct r1 as [[]|]; [|done]. split; [done|]. split; [by exists clean|]. by exists sn, s3.
Qed.

Context `{!DBEnv} (c : Client) `{!ClientOk c}.

Lemma no_member_yet_run s r s' : no_member_yet (Ok c) s = (r, s') → kept s s' ∧ ∀ x, r = Ok x → x = c.
Proof.
  intros [(c' & s1 & [= <- <-] & E)|(e & [=] & _)]%act_bind_inv.
  apply act_bind_inv in E as [([st|] & s2 & K%quiet_node_status & [= <- <-])|(e & K%quiet_node_status & ->)]; try done.
  split; [done|]. by intros x [= <-].
Qed.
Lemma quiet_no_member_yet : quiet (no_member_yet (Ok c)).
Proof. by intros s r s' [K _]%no_member_yet_run. Qed.

Lemma verifyBootstrap_run b o dir s r s' : verifyBootstrapConfig order_ports variables b o dir s = (r, s') →
  kept s s' ∧ (r = Ok tt → ∃ given, ClusterConfigFromBootstrapConfig b = Ok given ∧
    verified (Defaults.SetDefaults given) (control_plane_service_configs o) dir true s').
Proof.
  intros [(e & -> & K)|(given & s1 & [= E1 <-] & _ & E%verifyConfig_run)]%quiet_step; [done| |apply quiet_lift].
  destruct E as [K Hv]. split; [done|]. intros Hr. exists given. split; [done|by apply Hv].
Qed.
Lemma quiet_verifyBootstrap b o dir : quiet (verifyBootstrapConfig order_ports variables b o dir).
Proof. by intros s r s' [K _]%verifyBootstrap_run. Qed.

(** What is asked of the daemon at the end, if the command gets that far. *)
Definition asks_once {A R B} (fmt : string) (send : R → act A) (good : R → Machine → Prop) (result : A → R → B)
    (m : Machine) (r : res B) (m' : Machine) : Prop :=
  (∃ e, r = Err e ∧ kept m m') ∨
  ∃ req m1 r1, kept m m1 ∧ good req m1 ∧ send req m1 = (r1, m') ∧ r = wrapf fmt [] (flip result req <$> r1).

Lemma asks_once_later {A R B} fmt (send : R → act A) good (result : A → R → B) m m1 r m' : kept m m1 →
  asks_once fmt send good result m1 r m' → asks_once fmt send good result m r m'.
Proof.
  intros K [(e & -> & K1)|(req & m2 & r1 & K1 & E)].
  - left. exists e. split; [done|by transitivity m1].
  - right. exists req, m2, r1. split; [by transitivity m1|done].
Qed.
Lemma asks_once_step {A R B X} fmt (send : R → act A) good (result : A → R → B) (q : act X) k m r m' : quiet q →
  (∀ x m1, q m = (Ok x, m1) → k x m1 = (r, m') → asks_once fmt send good result m1 r m') →
  (q ≫= k) m = (r, m') → asks_once fmt send good result m r m'.
Proof.
  intros Hq Hk [(e & -> & K)|(x & m1 & E & K & E1)]%quiet_step; [left; by exists e| |done].
  eapply asks_once_later; [exact K|by eapply Hk].
Qed.

Definition good_bootstrap (req : BootstrapClusterRequest) (m : Machine) : Prop :=
  (minTimeout ≤ bc_Timeout req)%Z ∧ ∃ given, ClusterConfigFromBootstrapConfig (bc_Config req).1 = Ok given ∧
    verified (Defaults.SetDefaults given) (control_plane_service_configs (bc_Config req).2) (bc_ContainerdBaseDir req) true m.


(** *** join-cluster *)

(** The configuration reads strictly for the role of the token, and the checks for its arguments have
    passed. *)
Definition verified_join (config token : string) (m : Machine) : Prop :=
  let defaults := Defaults.SetDefaults empty_ClusterConfig in
  match Decode token with
  | Ok _ => ∃ o dir, worker_join_UnmarshalStrict config = Ok (o, dir) ∧
      verified defaults (mkServiceConfigs [] [] (no_KubeletArgs o) (no_KubeProxyArgs o)) dir false m
  | Err _ => ∃ o dir, control_plane_join_UnmarshalStrict config = Ok (o, dir) ∧
      verified defaults (control_plane_service_configs o) dir true m
  end.
Definition good_join (req : JoinClusterRequest) (m : Machine) : Prop :=
  (minTimeout ≤ jc_Timeout req)%Z ∧ verified_join (jc_Config req) (jc_Token req) m.

Lemma verifyJoin_run config token s r s' : verifyJoinConfig order_ports variables config token s = (r, s') →
  kept s s' ∧ (r = Ok tt → verified_join config token s').
Proof.
  unfold verifyJoinConfig, verified_join. destruct (Decode token) as [t|e0];
    (intros [(e & -> & K)|([o dir] & s1 & E1%act_wrapf_Ok & _ & E)]%quiet_step; [done| |apply quiet_wrapf, quiet_lift]);
    injection E1 as E1 <-; apply verifyConfig_run in E as [K Hv]; (split; [done|]); intros Hr; exists o, dir;
    (split; [done|]); by apply Hv.
Qed.
Lemma quiet_verifyJoin config token : quiet (verifyJoinConfig order_ports variables config token).
Proof. by intros s r s' [K _]%verifyJoin_run. Qed.
Lemma quiet_base_dir_flag dir config : quiet (with_base_dir_flag dir config).
Proof.
  unfold with_base_dir_flag. case_bool_decide; [apply quiet_ret|].
  apply quiet_bind; [case_bool_decide; [apply quiet_ret|apply quiet_wrapf, quiet_lift]|]. intros ?.
  apply quiet_bind; [apply quiet_wrapf, quiet_lift|]. intros ?. apply quiet_wrapf, quiet_lift.
Qed.

(** "k8s join-cluster" asks the daemon to join at most once, as its last step, with the token
    it was given, and a configuration that is read strictly for the role that the token
    says; the state is the one in which the checks for that role have passed.  If anything before fails,
    the node and the database are as they were. *)
Theorem join_is_verified f args m r m' :
  join_cluster order_ports variables interfaceAddrs interface_address (Ok c) f args m = (r, m') →
  asks_once "Failed to join the cluster using the provided token." (Client.JoinCluster c)
    (λ req m1, good_join req m1 ∧ args = [jc_Token req]) (λ _ req, jc_Name req) m r m'.
Proof.
  unfold join_cluster. apply asks_once_step; [apply quiet_lift|]. intros [] m1 E0. injection E0 as Ha <-.
  apply asks_once_step; [apply quiet_hostname|]. intros name m2 _.
  apply asks_once_step; [apply quiet_wrapf, quiet_lift|]. intros address m3 _.
  apply asks_once_step; [apply quiet_no_member_yet|]. intros c' m4 [_ Hc]%no_member_yet_run. rewrite (Hc _ eq_refl).
  apply asks_once_step; [case_bool_decide; [apply quiet_ret|apply quiet_read_config]|]. intros config m5 _.
  apply asks_once_step; [apply quiet_base_dir_flag|]. intros config' m6 _.
  apply asks_once_step; [apply quiet_wrapf, quiet_verifyJoin|].
  intros [] m7 E%act_wrapf_Ok Er. apply verifyJoin_run in E as [_ Hv].
  right. unfold ExactArgs, fails_if in Ha. destruct args as [|token [|? ?]]; [done| |done].
  apply act_bind_inv in Er as [([] & m8 & (r1 & Er & Hr1)%act_wrapf_run & [= <- <-])|(e & (r1 & Er & Hr1)%act_wrapf_run & ->)].
  all: eexists _, m7, r1; split; [done|]; split; [|split; [exact Er|by destruct r1; simplify_eq/=]].
  all: split; [|done]; split; [cbn; lia|by apply Hv].
Qed.
End NewMember.

(** ** The daemon of a node *)

Definition demo_status_errors : ClientErrors := {|
  StatusErrorf _ e := e; StatusError_Status _ := None; error_String _ := EmptyString; DatabaseStarting := "starting" |}.
(** The configuration of [base_db], with the feature. *)
Definition dns_config : ClusterConfig :=
  mkClusterConfig empty_Certificates empty_Datastore empty_APIServer empty_Kubelet
    (mkNetwork (Some true) (Some "10.1.0.0/16") (Some "10.152.183.0/24") None)
    (mkDNS (Some true) None) empty_Ingress empty_LoadBalancer empty_Gateway empty_LocalStorage empty_MetricsServer None.
Definition demo_settings_db : DBEnv := {|
  db_fail _ := None;
  json_Marshal c := if decide (c = dns_config) then Ok "dns" else Err (Errorf "unsupported" []);
  json_Unmarshal s := if s ==? "base" then Ok (json_norm base_config) else if s ==? "dns" then Ok dns_config
                      else Err (Errorf "invalid" [s]);
  json_representable c := True |}.
Lemma demo_settings_ok : @JsonOk demo_settings_db.
Proof. intros c s _ Hm. simpl in Hm. destruct (decide (c = dns_config)) as [->|]; [|done]. by injection Hm as <-. Qed.
Definition demo_api_getters : ApiGetters := {|
  api_bool := getField; api_string := getField; api_strings := getField; api_int := getField |}.
Lemma demo_api_getters_ok : @ApiGettersOk demo_api_getters.
Proof. by split. Qed.
Definition demo_mapstructure : Mapstructure := {|
  yaml_Unmarshal_strings s := Err (Errorf "invalid" [s]); yaml_Unmarshal_map s := Err (Errorf "invalid" [s]);
  decode_bool s := if s ==? "true" then Ok true else if s ==? "false" then Ok false else Err (Errorf "invalid" [s]);
  decode_int := ParseInt64; decode_strings old new := Ok new;
  decode_map old new := match new with inr m => Ok m | inl s => Err (Errorf "invalid" [s]) end |}.

Section Demo.
#[local] Existing Instances demo_os NodeSetup.demo_setup_env demo_settings_db Config.demo_externals Checks.demo_outside Snap.demo_snap_env
  demo_info_env demo_pki_env Csr.demo_csr_env demo_codec ApiRemoveFacts.demo_keeps ApiCertificatesFacts.demo_cert_names
  ApiRefreshFacts.demo_refresh_env demo_rand demo_sha demo_api_errors demo_status_errors demo_settings_ok demo_api_getters
  demo_api_getters_ok demo_mapstructure.

Definition demo_client : Client :=
  k8sd [] (λ l, l) (λ l, l) 3 demo_hooks_host JoinFacts.demo_app (mkMState "node1" "10.0.0.1" EmptyString) None.
Definition demo_member : Machine := mkMachine (mkWorld ∅ []) base_db 0 [].
Definition demo_enabled : Machine := (enable (Ok demo_client) ["dns"] demo_member).2.
Definition demo_shown : res Output * Machine := get (Ok demo_client) ["dns.enabled"] demo_enabled.

(** Both the feature that was named and one that was not. *)
Definition demo_others_shown : res Output * Machine := get (Ok demo_client) ["ingress.enabled"] demo_enabled.

Lemma switch_then_get_witness :
  (demo_shown.1 = Ok (OBool true) ∧ OBool true = OBool (if bool_decide ("dns" ∈ ["dns"]) then true else false)) ∧
  demo_others_shown.1 = Ok (OBool false) ∧ OBool false = OBool (if bool_decide ("ingress" ∈ ["dns"]) then true else false).
Proof.
  assert (He : switch true (Ok demo_client) ["dns"] demo_member = (Ok ["dns"], demo_enabled)) by (vm_compute; reflexivity).
  assert (Ho : Database.GetClusterConfig (m_db demo_member) = Ok (json_norm base_config)) by (vm_compute; reflexivity).
  split; (split; [vm_compute; reflexivity|]).
  - apply (switch_then_get demo_client demo_client true ["dns"] "dns" _ (OBool true) demo_member demo_enabled demo_shown.2 Ho).
    + apply (bool_decide_eq_true_1 _). reflexivity.
    + done.
    + exact He.
    + vm_compute. reflexivity.
  - apply (switch_then_get demo_client demo_client true ["dns"] "ingress" _ (OBool false) demo_member demo_enabled
             demo_others_shown.2 Ho).
    + apply (bool_decide_eq_true_1 _). reflexivity.
    + done.
    + exact He.
    + vm_compute. reflexivity.
Defined.

End Demo.

(** A node whose daemon waits to be told what to be: microcluster answers for it with status 503. *)
Fixpoint root_status (e : goerr) : option Z :=
  match e with Errorf text _ => if text ==? "503" then Some 503%Z else None | Wrapf _ _ e => root_status e end.
Definition demo_503 : ClientErrors := {|
  StatusErrorf _ e := e; StatusError_Status := root_status; error_String _ := EmptyString; DatabaseStarting := "starting" |}.
Definition demo_yaml : CommandYaml := {|
  bootstrap_UnmarshalStrict _ := Ok (default_bootstrap, no_options, EmptyString);
  control_plane_join_UnmarshalStrict _ := Ok (no_options, EmptyString);
  worker_join_UnmarshalStrict _ := Ok (no_options, EmptyString);
  certificates_UnmarshalStrict _ := Ok (λ _, EmptyString); any_Unmarshal _ := Ok None; any_Marshal _ := Ok "{}" |}.

Section Unborn.
#[local] Instance demo_unborn : Outside := λ _ c,
  match c as c return res (answer c) with
  | MicroclusterReady => Ok false
  | K8sdRequest _ path => if path ==? "NodeStatus" then Err (Errorf "503" []) else Ok tt
  | c => default_answer c
  end.
#[local] Existing Instances demo_os NodeSetup.demo_setup_env demo_settings_db Config.demo_externals Snap.demo_snap_env
  demo_info_env demo_pki_env Csr.demo_csr_env demo_codec ApiRemoveFacts.demo_keeps ApiCertificatesFacts.demo_cert_names
  ApiRefreshFacts.demo_refresh_env demo_rand demo_sha demo_api_errors demo_503 demo_getters demo_yaml.

Definition demo_unborn_client : Client :=
  k8sd [] (λ l, l) (λ l, l) 3 demo_hooks_host JoinFacts.demo_app (mkMState EmptyString EmptyString EmptyString) None.
Definition demo_flags : Flags := mkFlags EmptyString "10.0.0.1" EmptyString 0 "/mnt//containerd/".
Definition demo_variables : SnapVariables := mkSnapVariables "/snap/k8s/current" "/var/snap/k8s/common" "k8s".
Definition demo_new_cluster : res (string * string) * Machine :=
  bootstrap (λ l, l) demo_variables (Ok []) "10.0.0.1" (Ok demo_unborn_client) None demo_flags demo_member.
Definition demo_new_member : res string * Machine :=
  join_cluster (λ l, l) demo_variables (Ok []) "10.0.0.1" (Ok demo_unborn_client) demo_flags ["token"] demo_member.


Lemma join_is_verified_witness :
  demo_new_member.1 = Ok "node" ∧
  asks_once "Failed to join the cluster using the provided token." (Client.JoinCluster demo_unborn_client)
    (λ req m1, good_join (λ l, l) req m1 ∧ ["token"] = [jc_Token req]) (λ _ req, jc_Name req)
    demo_member demo_new_member.1 demo_new_member.2.
Proof.
  split; [vm_compute; reflexivity|].
  apply (join_is_verified (λ l, l) demo_variables (Ok []) "10.0.0.1" demo_unborn_client demo_flags).
  apply surjective_pairing.
Defined.
End Unborn.
End CommandsFacts.
