(* ===== verification/CliFacts.v ===== *)
(** * What the command line makes of its input

    The questions of the interactive bootstrap, times to live, and the recovery from a lost
    quorum. *)

From S2P Require Import Prelude GoStrings GoNet Cidr Config ConfigConvert FileSys Pki Checks Cleanup Effects ApiCluster.
From S2P Require Import ApiClusterFacts CliInput CliValues Recover.
Import GoStr GoNet Cidr Config Convert FileSys Pki Checks Effects ApiCluster ApiClusterFacts CliInput CliValues Recover.

Module CliFacts.

(** ** Times to live *)

Lemma take_app s t : Checks.take (String.length s) (s +:+ t) = s.
Proof. induction s as [|a s IH]; cbn; [by destruct t|]. by f_equal. Qed.
Lemma drop_app s t : Checks.drop (String.length s) (s +:+ t) = t.
Proof. induction s as [|a s IH]; cbn; [by destruct t|done]. Qed.
Lemma ttl_split_app s t : ttl_split (s +:+ t) (String.length t) = (s, t).
Proof.
  unfold ttl_split. rewrite slength_app. replace (_ + _ - _)%nat with (String.length s) by lia.
  by rewrite take_app, drop_app.
Qed.
Lemma ParseInt64_Itoa n : (0 ≤ n < 2 ^ 63)%Z → ParseInt64 (Itoa n) = Ok n.
Proof.
  intros [H1 H2]. pose proof (parse_digits_Itoa n H1) as Hp. unfold ParseInt64.
  destruct (Itoa n) as [|a s] eqn:E; [done|]. assert (Hd : is_digit a = true).
  { unfold parse_digits in Hp. cbn in Hp. by destruct (is_digit a). }
  assert (Ascii.eqb a "-" = false ∧ Ascii.eqb a "+" = false) as [-> ->].
  { split; apply Ascii.eqb_neq; intros ->; by vm_compute in Hd. }
  rewrite Hp. unfold int64_ok. by rewrite (proj2 (Z.leb_le _ _)), (proj2 (Z.ltb_lt _ _)) by lia.
Qed.
Lemma rev_app_of_app s t acc : String.rev_app (s +:+ t) acc = String.rev_app t (String.rev_app s acc).
Proof. revert acc. induction s as [|a s IH]; intros acc; [done|]. cbn. apply IH. Qed.
Lemma has_suffix_app p s t : has_prefix (String.rev p) (String.rev_app t (String.rev s)) = has_suffix p (s +:+ t).
Proof. unfold has_suffix, String.rev. by rewrite rev_app_of_app. Qed.

Definition ttl_units : list (string * Z) := [("y", yearSeconds); ("mo", monthSeconds); ("d", daySeconds)].

Lemma Itoa_nonempty n : (0 ≤ n)%Z → (1 ≤ String.length (Itoa n))%nat.
Proof. intros Hn%parse_digits_Itoa. destruct (Itoa n); cbn; [done|lia]. Qed.

Lemma TTLToSeconds_units `{MapCodec} n u k : (0 ≤ n < 2 ^ 63)%Z → (u, k) ∈ ttl_units →
  TTLToSeconds (Itoa n +:+ u) = Ok (wrap64 (n * k)).
Proof.
  intros Hn Hu. unfold TTLToSeconds, fails_if. pose proof (Itoa_nonempty n (proj1 Hn)) as Hl. rewrite slength_app.
  rewrite <- has_suffix_app. unfold ttl_units in Hu.
  repeat (apply elem_of_cons in Hu as [[= -> ->]|Hu]; [|]); [..|by apply not_elem_of_nil in Hu];
    (rewrite (proj2 (Nat.ltb_ge _ _)) by (cbn [String.length]; lia)); cbn [String.rev_app String.rev has_prefix Ascii.eqb Bool.eqb].
  - rewrite (ttl_split_app (Itoa n) "y" : ttl_split _ 1 = _). cbn -[wrap64 Itoa Z.mul]. by rewrite ParseInt64_Itoa by done.
  - rewrite (ttl_split_app (Itoa n) "mo" : ttl_split _ 2 = _). cbn -[wrap64 Itoa Z.mul]. by rewrite ParseInt64_Itoa by done.
  - rewrite (ttl_split_app (Itoa n) "d" : ttl_split _ 1 = _). cbn -[wrap64 Itoa Z.mul]. by rewrite ParseInt64_Itoa by done.
Qed.

(** C35: A time to live of [n] years, months or days is that many seconds as long as they fit 64 bits,
    and wraps around from there: the first [n] that does not fit is accepted as a negative number of
    seconds, which is no error. *)
Theorem TTLToSeconds_exact_until_it_wraps `{MapCodec} n u k : (0 ≤ n < 2 ^ 63)%Z → (u, k) ∈ ttl_units →
  ((n * k < 2 ^ 63)%Z → TTLToSeconds (Itoa n +:+ u) = Ok (n * k)%Z) ∧
  (n = ((2 ^ 63 - 1) / k + 1)%Z → ∃ v, TTLToSeconds (Itoa n +:+ u) = Ok v ∧ (v < 0)%Z).
Proof.
  intros Hn Hu. rewrite (TTLToSeconds_units _ _ _ Hn Hu).
  assert (Hk : (0 < k)%Z).
  { unfold ttl_units in Hu. repeat (apply elem_of_cons in Hu as [[= _ ->]|Hu]; [done|]). by apply not_elem_of_nil in Hu. }
  split.
  - intros Hr. f_equal. unfold wrap64. rewrite Z.mod_small; nia.
  - intros ->. eexists. split; [done|]. unfold ttl_units in Hu.
    repeat (apply elem_of_cons in Hu as [[= _ ->]|Hu]; [vm_compute; done|]). by apply not_elem_of_nil in Hu.
Qed.

Lemma TTLToSeconds_exact_until_it_wraps_witness :
  @TTLToSeconds demo_codec "2y" = Ok 63072000%Z ∧ ∃ v, @TTLToSeconds demo_codec "292471208678y" = Ok v ∧ (v < 0)%Z.
Proof.
  split.
  - apply (proj1 (@TTLToSeconds_exact_until_it_wraps demo_codec 2 "y" yearSeconds ltac:(lia) ltac:(left))). reflexivity.
  - apply (proj2 (@TTLToSeconds_exact_until_it_wraps demo_codec 292471208678 "y" yearSeconds ltac:(lia) ltac:(left))).
    reflexivity.
Defined.

(** Durations that [time.ParseDuration] takes, but the number before the unit is not one. *)
Lemma compound_ttl_is_refused `{MapCodec} : is_ok (TTLToSeconds "1h30m") = false ∧ is_ok (TTLToSeconds "100ms") = false.
Proof. by split. Qed.

(** ** Questions *)

Definition typed (line : string) : string := line +:+ one newline.

Lemma cut_typed line : contains_char newline line = false → cut newline (typed line) = (line, EmptyString, true).
Proof.
  unfold typed. induction line as [|a line IH]; intros Hn; [done|]. cbn in Hn. apply orb_false_iff in Hn as [Ha Hn].
  rewrite sapp_cons. cbn [cut]. by rewrite Ha, (IH Hn).
Qed.
Lemma read_line_shorter buffered input s rest : read_line buffered input = (s, rest) →
  (length rest ≤ length input)%nat ∧ (input ≠ [] → length rest < length input)%nat.
Proof.
  revert buffered. induction input as [|block input IH]; intros buffered; cbn [read_line]; [by intros [= _ <-]|].
  destruct (cut newline block) as [[before after] [|]]; [intros [= _ <-]; cbn; lia|].
  intros [H1 _]%IH. cbn. lia.
Qed.

(** An answer that is taken, and one that is asked for again. *)
Definition taken (options : option (list string)) (line : string) : bool :=
  (cleaned (typed line) ==? EmptyString) ||
  match options with Some options => accepted options (cleaned (typed line)) | None => true end.
Definition answered_with (defaultVal line : string) : string :=
  let s := cleaned (typed line) in if s ==? EmptyString then defaultVal else s.

Lemma askQuestion_typed options defaultVal bad line more fuel :
  Forall (λ l, contains_char newline l = false ∧ taken options l = false) bad →
  contains_char newline line = false → taken options line = true →
  askQuestion (length bad + S fuel) options defaultVal (map typed bad ++ typed line :: more) =
    Some (answered_with defaultVal line, more).
Proof.
  intros Hb Hl Ht. induction Hb as [|l bad [Hn Hr] _ IH]; cbn [length map app Nat.add askQuestion read_line].
  - rewrite (cut_typed _ Hl). cbn [fst snd]. assert (Hne : EmptyString +:+ line +:+ one newline ≠ EmptyString) by (by destruct line).
    rewrite bool_decide_eq_false_2 by done. change (EmptyString +:+ line +:+ one newline) with (typed line).
    unfold taken in Ht. unfold answered_with. case_bool_decide; [done|]. destruct options; [|done]. cbn in Ht. by rewrite Ht.
  - rewrite (cut_typed _ Hn). assert (Hne : EmptyString +:+ l +:+ one newline ≠ EmptyString) by (by destruct l).
    rewrite bool_decide_eq_false_2 by done. change (EmptyString +:+ l +:+ one newline) with (typed l).
    unfold taken in Hr. apply orb_false_iff in Hr as [H1 H2]. rewrite H1. destruct options; [|done]. rewrite H2. exact IH.
Qed.

Lemma askQuestion_consumes options defaultVal fuel : ∀ input s rest,
  askQuestion fuel options defaultVal input = Some (s, rest) → (length rest < length input)%nat.
Proof.
  induction fuel as [|fuel IH]; intros input s rest; [done|]. cbn [askQuestion].
  destruct (read_line EmptyString input) as [l more] eqn:E. pose proof (read_line_shorter _ _ _ _ E) as [H1 H2].
  assert (Hne : l ≠ EmptyString → (length more < length input)%nat).
  { intros Hl. apply H2. intros ->. injection E as <- _. done. }
  case_bool_decide as Hl; [intros Hr%IH; lia|]. specialize (Hne Hl).
  case_bool_decide; [by intros [= _ <-]|]. destruct options as [options|]; [|by intros [= _ <-]].
  destruct (accepted _ _); [by intros [= _ <-]|]. intros Hr%IH. lia.
Qed.



(** ** The recovery *)

Section Recovery.
Context `{OSEnv, Outside, MembersYaml}.

Definition recovers (c : command) : bool := match c with RecoverFromQuorumLoss _ => true | _ => false end.
Definition prepares {A} (m : act A) : Prop := emits (λ c, recovers c = false) eq m.

Lemma prepares_guide path content : prepares (yamlEditorGuide path content).
Proof. unfold prepares, yamlEditorGuide. destruct path; emits_go. Qed.
Lemma prepares_edit g databaseDir stateDir old : prepares (edit_members g databaseDir stateDir old).
Proof. unfold prepares, edit_members. emits_go; apply prepares_guide. Qed.

(** The recovery is the last thing that happens, or it does not. *)
Definition recovers_last {A} (m : act A) : Prop := ∀ s r s', m s = (r, s') → m_db s' = m_db s ∧
  ∃ l, Forall (λ c, recovers c = false) l ∧
    ((∃ e, r = Err e ∧ m_log s' = m_log s ++ l) ∨
     ∃ members, m_log s' = m_log s ++ l ++ [RecoverFromQuorumLoss members] ∧
       (is_ok r = true ↔ is_ok (outside (m_log s ++ l) (RecoverFromQuorumLoss members)) = true)).

Lemma recovers_last_bind {A B} (m : act A) (k : A → act B) : prepares m → (∀ a, recovers_last (k a)) → recovers_last (m ≫= k).
Proof.
  intros Hm Hk s r s' [(a & s1 & ((l & Hl & Hp) & D)%Hm & E)|(e & ((l & Hl & Hp) & D)%Hm & ->)]%act_bind_inv.
  - apply Hk in E as (D' & l' & Hp' & Hr). split; [by rewrite D', D|]. exists (l ++ l').
    split; [by apply Forall_app|]. rewrite !(app_assoc (m_log s)), <- Hl.
    destruct Hr as [(e & -> & Hl')|(members & Hl' & Ho)]; [left; by exists e|right; exists members].
    split; [by rewrite Hl', Hl, <- !app_assoc|done].
  - split; [done|]. exists l. split; [done|]. left. by exists e.
Qed.
Lemma recovers_last_wrapf {A} fmt args (m : act A) : recovers_last m → recovers_last (act_wrapf fmt args m).
Proof.
  intros Hm s r s' (r1 & (D & l & Hp & Hr)%Hm & ->)%act_wrapf_run. split; [done|]. exists l. split; [done|].
  destruct Hr as [(e & -> & Hl)|(members & Hl & Ho)]; [left; by eexists|right; exists members; split; [done|]].
  by destruct r1.
Qed.
Lemma recovers_last_perform members : recovers_last (perform (RecoverFromQuorumLoss members)).
Proof.
  intros s r s' [= <- <-]. split; [done|]. exists []. split; [constructor|]. right. exists members. by rewrite app_nil_r.
Qed.

(** The user typed the word, or said in advance not to be asked. *)
Definition confirmed (terminal nonInteractive : bool) (answer : option string) : Prop :=
  nonInteractive = true ∨ terminal = true ∧ ∃ line, answer = Some line ∧ ToLower line = "yes".
Lemma prechecks_confirm terminal nonInteractive stateDir answer :
  recoveryCmdPrechecks terminal nonInteractive stateDir answer = Ok tt →
  confirmed terminal nonInteractive answer ∧ stateDir ≠ EmptyString.
Proof.
  unfold recoveryCmdPrechecks, confirmed. intros [Ht [Hd E]%bind_unit_Ok]%bind_unit_Ok.
  apply fails_if_Ok, bool_decide_eq_false in Hd. split; [|done].
  destruct nonInteractive; [by left|]. right. apply fails_if_Ok in Ht. destruct terminal; [|done]. split; [done|].
  destruct answer as [line|]; [|done]. exists line. split; [done|].
  cbn in E. apply fails_if_Ok, negb_false_iff, bool_decide_eq_true in E. done.
Qed.

(** C37: "k8sd cluster-recover" lets microcluster rewrite the cluster at most once, as the last thing it
    does, and only if the user confirmed or asked for no questions and a state directory was given;
    it reports success exactly when microcluster did; and it never touches the database of
    the running daemon. *)
Theorem recovery_is_confirmed g terminal nonInteractive databaseDir stateDir answer m r m' :
  cluster_recover g terminal nonInteractive databaseDir stateDir answer m = (r, m') → m_db m' = m_db m ∧
  ∃ l, Forall (λ c, recovers c = false) l ∧
    ((∃ e, r = Err e ∧ m_log m' = m_log m ++ l) ∨
     (confirmed terminal nonInteractive answer ∧ stateDir ≠ EmptyString) ∧
     ∃ members, m_log m' = m_log m ++ l ++ [RecoverFromQuorumLoss members] ∧
       (is_ok r = true ↔ is_ok (outside (m_log m ++ l) (RecoverFromQuorumLoss members)) = true)).
Proof.
  unfold cluster_recover.
  intros [([] & m1 & E0%act_wrapf_Ok & E)|(e & (r1 & E0 & _)%act_wrapf_run & ->)]%act_bind_inv.
  - injection E0 as Hc <-. apply prechecks_confirm in Hc.
    assert (Hr : recovers_last (act_wrapf "Failed to recover k8sd, error: %v" [] (recoverK8sd g nonInteractive databaseDir stateDir))).
    { apply recovers_last_wrapf. unfold recoverK8sd. apply recovers_last_bind; [unfold prepares; emits_go|]. intros members.
      apply recovers_last_bind; [unfold prepares; emits_go|]. intros old.
      apply recovers_last_bind; [destruct nonInteractive; [unfold prepares; emits_go|apply prepares_edit]|]. intros yaml.
      apply recovers_last_bind; [unfold prepares; emits_go|]. intros new.
      apply recovers_last_wrapf, recovers_last_perform. }
    apply Hr in E as (D & l & Hp & E). split; [done|]. exists l. split; [done|].
    destruct E as [E|E]; [by left|right; by split].
  - injection E0 as _ <-. split; [done|]. exists []. split; [constructor|]. left. exists e. by rewrite app_nil_r.
Qed.
End Recovery.

(** Two runs: one was told not to ask, and the answer to the other was no. *)
Definition demo_members : MembersYaml := {|
  members_Marshal _ := Ok "members"; members_Unmarshal _ := Ok [mkDqliteMember 1 "10.0.0.1:6400" "voter" "node1"] |}.
Definition demo_guides : Guides := mkGuides EmptyString (λ p, p) EmptyString (λ p, p) EmptyString.
Definition demo_recovery (nonInteractive : bool) (answer : option string) : res string * Machine :=
  @cluster_recover demo_os Checks.demo_outside demo_members demo_guides true nonInteractive "/db" "/state" answer
    (Checks.demo_machine (mkWorld ∅ [])).

Lemma recovery_is_confirmed_witness :
  m_log (demo_recovery true None).2 =
    [DqliteMembers; RecoverFromQuorumLoss [mkDqliteMember 1 "10.0.0.1:6400" "voter" "node1"]] ∧
  m_db (demo_recovery true None).2 = m_db (Checks.demo_machine (mkWorld ∅ [])) ∧
  ∃ l, Forall (λ c, recovers c = false) l ∧
    ((∃ e, (demo_recovery false (Some "no")).1 = Err e ∧ m_log (demo_recovery false (Some "no")).2 = [] ++ l) ∨
     (confirmed true false (Some "no") ∧ "/state" ≠ EmptyString) ∧
     ∃ members, m_log (demo_recovery false (Some "no")).2 = [] ++ l ++ [RecoverFromQuorumLoss members] ∧
       (is_ok (demo_recovery false (Some "no")).1 = true ↔
        is_ok (Checks.demo_outside ([] ++ l) (RecoverFromQuorumLoss members)) = true)).
Proof.
  split; [vm_compute; reflexivity|]. split.
  - apply (proj1 (@recovery_is_confirmed demo_os Checks.demo_outside demo_members demo_guides true true "/db" "/state" None
      (Checks.demo_machine (mkWorld ∅ [])) _ _ (surjective_pairing (demo_recovery true None)))).
  - apply (proj2 (@recovery_is_confirmed demo_os Checks.demo_outside demo_members demo_guides true false "/db" "/state"
      (Some "no") (Checks.demo_machine (mkWorld ∅ [])) _ _ (surjective_pairing (demo_recovery false (Some "no"))))).
Defined.
End CliFacts.
